(* ===== verification/_CoqProject ===== *)
-Q . S2P
Prelude.v
GoStrings.v
GoTime.v
Sha256.v
Hmac.v
Names.v
ApiRun.v
ApiWork.v
ApiAdverse.v
ApiTrigger.v
Kube.v
MemKube.v
Fixtures.v
RunControl.v
LaunchGate.v
Merge.v
Capabilities.v
Composition.v
Webhook.v
WebhookSafety.v
RunOutput.v
RunBackend.v
RunPayload.v
RunJob.v
Standing.v
Substrate.v
RunValidation.v
ApiVolume.v
ApiMaintenance.v
DataVolumes.v
VolumeSafety.v
RunLaunch.v
SpecEq.v
Adverse.v
RunPreflight.v
Archive.v
RunTerminal.v
RunObserve.v
RunReconcile.v
RunTriples.v
RunSafety.v
RunMem.v
ChainSpec.v
ChainCore.v
ChainReconcile.v
ChainSafety.v
ChainSystem.v
ChainLaunch.v
Schedule.v
ScheduleReconcile.v
ScheduleSafety.v
AdverseReconcile.v
AdverseBuffer.v
AdverseSafety.v
AdverseMem.v
VolumeCopy.v
AuthSession.v
ProfileStatus.v
MaintenanceSafety.v
MaintenanceMem.v
TriggerRoutes.v
TriggerSafety.v
TriggerMem.v
ApiAccess.v
ApiWrites.v
ApiSafety.v
ApiMem.v
ChatModel.v
ChatMemory.v
ChatSafety.v
ChatProperties.v
