(* ===== verification/Prelude.v ===== *)
(** * Anvil Agents: a verification library

    Anvil Agents is a Kubernetes operator with an API server that runs AI agents.
    An AgentRun is one execution of an agent; AgentSchedule and AgentChain start
    runs on a cadence or as linear workflows; AgentRunControl pauses launches and
    bounds concurrency per application; AgentExternalTrigger starts runs from signed
    webhooks; profiles, harness profiles, skill sets,
    tool sets and councils are composed into the run that is executed; the API
    server keeps conversations whose turns are executed as runs.  This library
    translates the parts of the program that decide what may run, when, with
    which capabilities and how often into Rocq functions, and proves what they
    promise.

    ** Files and the code they model

    - [Prelude]: record update, the state and error monad [M] with its
      postconditions [wp], automation.
    - [GoStrings], [GoTime], [Sha256], [Hmac]: what the code uses of Go's strings,
      times (64-bit durations that wrap around, instants, formatting and parsing),
      SHA-256, HMAC and hexadecimal text.
    - [Names]: names, labels and digests (sanitizeDNSLabel, sanitizeLabelValue,
      shortHash, agentRunChildName, digestJSON).
    - [ApiRun], [ApiWork], [ApiAdverse]: the types of src/api/v1alpha1, one record
      per Go struct; [SpecEq]: decidable equality of run specs.
    - [Kube]: the Kubernetes client as a class [Client] of operations over an
      abstract server state, and its documented behaviour as the class
      [ClientLaws]; errors, conditions, requeue results.  [MemKube]: a server in
      memory that satisfies the laws, on which witnesses run; [Fixtures]: sample
      objects.
    - [RunControl]: src/internal/controller/agent_run_control_controller.go and
      agent_run_application_membership.go: the pause gate, the application of a
      run, the counts, the whole reconciliation of an AgentRunControl.
    - [LaunchGate]: the queues of agent_run_controller.go that a pending run
      passes (per schedule and per application) and the pause gate.
    - [Merge]: the overlay of a run over its profile (agentRunMerge*, merge* of
      agent_run_controller.go and agent_run_composition.go).
    - [Capabilities], [Composition]: agent_run_composition.go and
      create_agent.go: the skills, tools and subagents of a run with their name
      indexes, and resolveAgentRunComposition as a whole.
    - [RunOutput], [RunBackend], [RunPayload], [RunJob]: agent_run_controller.go:
      the reports in a run's output, backends and security contexts, the payload
      with remote skills, and the Job with its validation and snapshot digest.
    - [Standing], [Substrate]: src/internal/standing/claim.go and the naming,
      gate and dispatch of src/internal/substrate.
    - [RunValidation], [RunLaunch], [RunPreflight]: the blocking validation of an
      effective run, launch receipts with ConfigMap and Job, volumes and secrets.
    - [ApiVolume], [DataVolumes], [VolumeSafety]: agent_data_volume_controller.go;
      [ProfileStatus]: volume_profile_controller.go.
    - [ApiMaintenance], [VolumeCopy], [AuthSession]: the types and the handlers of
      agent_data_volume_copy_controller.go and agent_auth_session_controller.go
      ([reconcileCopy], [reconcileSession]), with the Jobs and their scripts.
      [MaintenanceSafety]: the laws of the server for both and their theorems;
      [MaintenanceMem]: a server in memory that satisfies the laws.
    - [ApiTrigger], [Webhook]: src/internal/runapi/external_triggers.go and
      external_triggers_hmac.go, the receiver of webhooks as a whole
      ([handleExternalTriggerWebhook]).  [TriggerRoutes]:
      agent_external_trigger_controller.go and external_trigger_httproute.go, the
      controller of triggers and their public routes ([reconcileExternalTrigger]).
      [WebhookSafety], [TriggerSafety]: the laws of the server for both and their
      theorems; [TriggerMem]: a server in memory that satisfies the laws.
    - [ApiAccess]: src/internal/runapi/config.go, auth.go and the middleware of
      server.go: configuration, tokens, permissions, the limiter of streams.
      [ApiWrites]: composition_management.go, composition.go, composition_harness.go,
      controls.go and runs_create.go: every handler of the console that writes, and a
      request as a whole ([serve]).  [ApiSafety]: the laws of the server and the
      theorems; [ApiMem]: a server in memory that satisfies the laws.
    - [Archive], [RunTerminal]: src/internal/archive/store.go and
      agent_run_archive.go: the archive row, retention, deletion, held duplicates.
    - [RunObserve], [RunReconcile]: what a Job and its Pod say of a run, peers,
      actors (agent_run_substrate_live.go), chat deadlines
      (agent_run_chat_startup.go) and the whole handler [reconcileAgentRun].
      [RunTriples]: the laws of the server for runs and Jobs ([RunLaws], stale
      reads included) and triples for every program of the handler; [RunSafety]:
      its theorems; [RunMem]: a server in memory that satisfies the laws, on
      which a run is taken from its plan to its deletion.
    - [ChainSpec], [ChainCore], [ChainReconcile]: agent_chain_controller.go:
      validation, gates, cadence and handoff, and the whole reconciliation
      [reconcileChain].  [ChainSafety], [ChainSystem], [ChainLaunch]: its
      theorems; [ChainSystem] interleaves reconciliations with failures, lost
      responses and the activity of others.
    - [Schedule], [ScheduleReconcile], [ScheduleSafety]:
      agent_schedule_controller.go in the same way.
    - [Adverse]: adverse_source_config.go and the pure part of
      adverse_signal_controller.go and adverse_situation_controller.go: which
      objects are watched, what they report, and the event buffer of a situation.
      [AdverseReconcile]: the handlers of signals, watched objects and situations;
      [AdverseBuffer], [AdverseSafety]: the theorems; [AdverseMem]: a server in
      memory that satisfies the laws.
    - [ChatModel], [ChatMemory]: src/internal/chat: threads, messages, turns and
      their validation, and every operation of MemoryStore, the in-process
      implementation of the Store interface.  [ChatSafety]: the invariant of the
      store over all sequences of calls; [ChatProperties]: its theorems.

    ** State and effects

    A controller's handler is a function over the server's state [W] that returns
    the new state and a result or an error ([M W GoErr A]); a Go error return
    stops it, and an error the code inspects is a value.  A handler makes its
    calls one after the other and any call can fail, also after it took effect.
    A store operation is one transition, since it holds the store's mutex.  What
    the environment decides is an argument: the time, generated UUIDs, the order
    in which Go ranges over a map.  Kubernetes, PostgreSQL, JSON encoding and
    decoding and UUID parsing are parameters with documented behaviour as laws.

    Loops over data are structural.  The one loop that is not, the catch-up of a
    schedule's due time, runs on fuel computed from its arguments, and
    [Schedule.due_loop_terminates] shows that the fuel is enough for every
    interval that fits a duration; beyond that the Go loop does not end and the
    model returns [ErrHang].  Division by zero and indexes out of range are the
    errors [ErrPanic] and [HaltPanic], so a theorem that a handler returns also
    excludes them.

    ** What is shown

    - Chains: at most one nonterminal step per chain over all interleavings, beside the
      peers that a step asks for; a run
      is created only when deletion, suspension, validation, pause, ownership and
      gates allow it; creation is idempotent; deletion drains; the accepted specs
      are exactly the specified ones; cadence, backoff, gates and handoff.
    - Schedules: a run is created only when suspension, policy, budget and due
      time allow it; the due time is found, lies on the cadence and is not before the
      end of the backoff.
    - Launch gate and controls: the number of runs past each queue is bounded and
      the head of a queue passes; the pause gate and the limit are exact;
      a schedule has the one application that everything in it names, or an error.
    - Composition: names stay distinct, no index is out of range, the create-agent
      skill and the council guidance are reserved, credential variables come from
      profiles only, sets come from the run's namespace; merges let the last
      layer win and do not depend on how layers are grouped.
    - Conversations: turns exclude each other per thread and per resource;
      queueing is idempotent; a finished turn is final; a retry fences the
      attempt it replaces; transcripts only grow; a profile has one standing
      conversation.
    - Runs: at most one Job is created in the name of a run, over all
      interleavings of reconciliations with stale reads, failures and edits; a Job
      is created only for a run that passed every gate, under the plan on record;
      a run is deleted only when the version that was read, and with reads that are up
      to date the one deleted, is terminal, archived and past its retention; an accepted
      Job executes the rendered plan where it was planned, and what the server adds
      to it is recognised, the version of a field reference excepted; containers are
      hardened up to what the spec asks; the references that validation looks at stay in
      the namespace; the payload is complete; skills come from allowed hosts.
    - Adverse signals: over all sequences of reconciliations with failures and lost
      responses a report is recorded at most once and an accepted signal has been
      recorded; the buffer stays bounded; a situation is resolved only when it has
      been quiet and its responder has ended; the responder on record is final.
    - Volumes: a claim is never adopted, replaced, shrunk or removed; a profile is
      Ready exactly when its entries are valid.
    - Maintenance of volumes: over all sequences of reconciliations two open copies
      that share a volume do not both own Jobs, nor do two open sessions of different
      seconds, and a session gets its Job only when none came first; a copy Job
      is created only when no live run and no other copy uses the volumes, the source on
      the claim of the source volume and read-only; a session
      changes only the Secrets it names.  The same guards also stop: two copies that
      share a volume, and a session and a run that wait for each other.
    - External triggers: a webhook changes anything only with the signature of its
      body and after every check of the trigger, and then only what belongs to the
      trigger; an accepted delivery is not taken again; the daily cap holds; a trigger
      has exactly the route it should have, with exact host names and path, and the
      routes that are not marked as its own are left alone.  Routes are marked by label
      values, so names that are equal once sanitized make triggers share a route.
    - Run API: a request changes something only with a verified token, where a binding
      grants it and the feature is on, and then exactly what its route stands for;
      objects of GitOps tools are left alone; a valid configuration grants nothing by
      omission; the streams of a subject and of all are bounded.  An update can lock
      an object, and the list of external triggers is empty.
    - Archive and claims: the recorded digest is that of the row; claims of
      standing turns are read back.
    - Names: generated names are valid DNS labels of bounded length.
    - Deviations: theorems that exhibit where the code does not do what it means
      to (an interval that overflows, a recovered step whose name is not a label,
      a tie between namespaces, a retry of a waiting turn, a peer that counts as a run
      of a chain, sessions of one second, a stored Job that is refused, and others next to the
      functions concerned).

    ** Assumptions and limits

    In the theorems on chains and schedules, reads are consistent with the state
    they are made in; in those on runs, reads of runs may be stale versions.  The
    latter assume that only the controller writes the status of runs and creates
    Jobs in their name, that UIDs are not reused, and that the list of Jobs and the
    cached read of a Job within one reconciliation show one store, so that a Job that was
    found does not leave the cache (a cache that lags makes the create fail).  The theorems on adverse
    signals assume reads of situations that are up to date and reports whose digests
    differ; what a stale read does is a theorem of its own.  Those on the claims of
    volumes, and those on copies and sessions, assume reads that are up to date; the
    latter also immutable specs, UIDs that are not shared, and a server whose clock does
    not go back.  Those on webhooks assume requests that are handled one after
    the other and reads that are up to date, and so do those on the run API (an update
    names the version it read; a delete does not).  A reconciliation is not
    interleaved with another one of the same object, which controller-runtime
    guarantees.  Nil and empty slices and maps are not told
    apart.  Case folding is exact on ASCII.  Times are formatted in UTC.
    The laws of JSON are those for texts of valid UTF-8, and those of a created object
    for times of whole seconds.

    Not modelled: the substrate client, the standing harness processes, the
    PostgreSQL store (SQL that a database executes), the HTTP handlers of chat,
    of streams and of the views of runs, what
    the scripts of Jobs do in their containers, command line, desktop and
    scenario programs, and generated deep copies, which are the identity on values. *)

From stdpp Require Import base list gmap strings pretty.
From Stdlib Require Import ZArith Lia.

(** ** Record update

    [r <| f := v |>] is the record [r] with field [f] replaced by [v], the
    reading of a Go assignment [r.F = v] on a struct value.  A record opts in
    with an [Eta] instance that lists its projections once; the setter of each
    field is then computed by abstracting the projection out of the expansion. *)
Class Eta (R : Type) := eta : R → R.

Class Setter {R T : Type} (proj : R → T) := set : (T → T) → R → R.
Arguments set {R T} proj {_} _ _ /.

Ltac derive_setter :=
  lazymatch goal with
  | |- @Setter ?R ?T ?proj =>
      let body := constr:(@eta R _) in
      let body := eval hnf in body in
      exact (fun (f : T → T) (r : R) =>
        ltac:(let e := eval cbv beta in (body r) in
              let p := eval pattern (proj r) in e in
              lazymatch p with ?g _ =>
                let t := eval cbv beta in (g (f (proj r))) in exact t
              end))
  end.

#[export] Hint Extern 1 (Setter _) => derive_setter : typeclass_instances.

Notation "r <| f := v |>" := (set f (λ _, v) r)
  (at level 1, f at next level, v at level 200, left associativity,
   format "r  <| f  :=  v |>").

(** ** The effect monad of the controllers

    Handlers thread the API server's state [W] and stop at the first error, as
    Go code does with [if err != nil { return ..., err }]. *)
Definition M (W E A : Type) : Type := W → W * (E + A).

Section monad.
Context {W E : Type}.

Definition mret {A} (a : A) : M W E A := λ w, (w, inr a).
Definition mfail {A} (e : E) : M W E A := λ w, (w, inl e).
Definition mbnd {A B} (m : M W E A) (k : A → M W E B) : M W E B := λ w,
  match m w with
  | (w', inl e) => (w', inl e)
  | (w', inr a) => k a w'
  end.
Definition mcatch {A} (m : M W E A) (h : E → M W E A) : M W E A := λ w,
  match m w with
  | (w', inl e) => h e w'
  | (w', inr a) => (w', inr a)
  end.
(** A call whose error the code inspects instead of propagating. *)
Definition mtry {A} (m : M W E A) : M W E (E + A) := λ w,
  let '(w', r) := m w in (w', inr r).
(** A read of the API server: it does not change its state. *)
Definition mread {A} (f : W → E + A) : M W E A := λ w, (w, f w).
End monad.

Declare Scope go_scope.
Delimit Scope go_scope with go.
Notation "'let*' x ':=' m 'in' k" := (mbnd m (λ x, k))
  (at level 10, x binder, m at level 100, k at level 200) : go_scope.
Notation "m ';;' k" := (mbnd m (λ _, k))
  (at level 100, k at level 200, right associativity) : go_scope.

Fixpoint mforeach {W E A B} (f : B → A → M W E B) (l : list A) (acc : B) : M W E B :=
  match l with
  | [] => mret acc
  | a :: l => (let* acc' := f acc a in mforeach f l acc')%go
  end.

(** ** Postconditions of computations

    [wp m Q w]: running [m] in [w] ends, with an error or a value, in a state
    that [Q] accepts. *)
Section wp.
Context {W E : Type}.

Definition wp {A} (m : M W E A) (Q : E + A → W → Prop) (w : W) : Prop :=
  Q (m w).2 (m w).1.

#[global] Arguments wp : simpl never.

Lemma wp_elim {A} (m : M W E A) Q w w' x : wp m Q w → m w = (w', x) → Q x w'.
Proof. unfold wp. intros HQ Hm. by rewrite Hm in HQ. Qed.
Lemma wp_ret {A} (a : A) Q w : Q (inr a) w → wp (mret a) Q w.
Proof. done. Qed.
Lemma wp_fail {A} e (Q : E + A → W → Prop) w : Q (inl e) w → wp (mfail e) Q w.
Proof. done. Qed.
Lemma wp_read {A} (f : W → E + A) Q w : Q (f w) w → wp (mread f) Q w.
Proof. done. Qed.
Lemma wp_pure {A} (f : W → A) (Q : E + A → W → Prop) w :
  Q (inr (f w)) w → wp (λ w, (w, inr (f w))) Q w.
Proof. done. Qed.
Lemma wp_try {A} (m : M W E A) Q w : wp m (λ x w', Q (inr x) w') w → wp (mtry m) Q w.
Proof. unfold wp, mtry. by destruct (m w). Qed.
Lemma wp_mono {A} (m : M W E A) (Q Q' : E + A → W → Prop) w :
  wp m Q w → (∀ x w', Q x w' → Q' x w') → wp m Q' w.
Proof. unfold wp. auto. Qed.
Lemma wp_bind {A B} (m : M W E A) (k : A → M W E B) Q w :
  wp m (λ x w', match x with inl e => Q (inl e) w' | inr a => wp (k a) Q w' end) w →
  wp (mbnd m k) Q w.
Proof. unfold wp, mbnd. by destruct (m w) as [w' [e|a]]. Qed.
Lemma wp_foreach {A B} (f : B → A → M W E B) (I : W → Prop) l acc w :
  I w → (∀ b a w, I w → wp (f b a) (λ _ w', I w') w) →
  wp (mforeach f l acc) (λ _ w', I w') w.
Proof.
  intros Hw Hf. revert acc w Hw. induction l as [|a l IH]; intros acc w Hw; [done|].
  simpl. apply wp_bind. eapply wp_mono; [by apply Hf|]. intros [e|b] w' Hw'; [done|]. auto.
Qed.
End wp.

(** ** Automation *)

Create HintDb anvil discriminated.
Create Rewrite HintDb anvil_rw.

(** Case analysis on the innermost scrutinee of the goal or a hypothesis. *)
Ltac inner_scrutinee t :=
  lazymatch t with
  | context [match ?x with _ => _ end] => inner_scrutinee x
  | _ => t
  end.

Ltac case_goal :=
  match goal with
  | |- context [match ?x with _ => _ end] =>
      let y := match x with
               | context [match ?z with _ => _ end] => z
               | _ => x
               end in
      let E := fresh "E" in destruct y eqn:E
  end.

Ltac case_hyp H :=
  match type of H with
  | context [match ?x with _ => _ end] =>
      let y := match x with
               | context [match ?z with _ => _ end] => z
               | _ => x
               end in
      let E := fresh "E" in destruct y eqn:E
  end.

(** Case analysis on the first decision of a program. *)
Ltac wp_case :=
  lazymatch goal with
  | |- wp (match ?x with _ => _ end) _ _ => let E := fresh "E" in destruct x eqn:E
  end.

(** Split boolean guards read from the source into propositions. *)
Ltac bool_props :=
  repeat match goal with
  | H : _ && _ = true |- _ => apply andb_true_iff in H as [? ?]
  | H : _ || _ = false |- _ => apply orb_false_iff in H as [? ?]
  | H : negb _ = true |- _ => apply negb_true_iff in H
  | H : negb _ = false |- _ => apply negb_false_iff in H
  | H : bool_decide _ = true |- _ => apply bool_decide_eq_true in H
  | H : bool_decide _ = false |- _ => apply bool_decide_eq_false in H
  | H : Z.leb _ _ = true |- _ => apply Z.leb_le in H
  | H : Z.leb _ _ = false |- _ => apply Z.leb_gt in H
  | H : Z.ltb _ _ = true |- _ => apply Z.ltb_lt in H
  | H : Z.ltb _ _ = false |- _ => apply Z.ltb_ge in H
  | H : Z.eqb _ _ = true |- _ => apply Z.eqb_eq in H
  | H : Z.eqb _ _ = false |- _ => apply Z.eqb_neq in H
  | H : String.eqb _ _ = true |- _ => apply String.eqb_eq in H
  | H : String.eqb _ _ = false |- _ => apply String.eqb_neq in H
  end.

(** Prove a property of every element of a closed list by evaluation. *)
Lemma Forall_compute {A} (P : A → Prop) (f : A → bool) l :
  (∀ a, f a = true → P a) → forallb f l = true → Forall P l.
Proof.
  intros Hf Hl. rewrite forallb_forall in Hl. apply Forall_forall.
  intros a Ha. apply Hf, Hl. by apply list_elem_of_In.
Qed.
