(* ===== verification/GoStrings.v ===== *)
(** * Go strings

    The functions of Go's [strings], [strconv] and [fmt] packages that the
    modelled code calls, on byte strings.  Go strings are byte sequences holding
    UTF-8; a Rocq [string] is a sequence of bytes too.

    [TrimSpace] is exact, the multi-byte white space of Unicode included.
    [ToLower] maps ASCII letters and the two non-ASCII code points whose lower
    case is an ASCII letter; other non-ASCII letters are left alone, which
    [sanitizeDNSLabel] (it turns every non-ASCII rune into a dash) cannot
    observe, and which the names and host names the other clients lower do not
    contain.  [EqualFold] folds ASCII letters and the two non-ASCII
    code points that fold to one; other non-ASCII text is compared exactly. *)

From stdpp Require Import base list strings pretty.
From Stdlib Require Import ZArith Lia Ascii Wf_nat.
From S2P Require Import Prelude.

(** ** Bytes *)

Definition bytes (s : string) : list ascii := String.list_ascii_of_string s.
Definition unbytes (l : list ascii) : string := String.string_of_list_ascii l.

Definition code (c : ascii) : N := N_of_ascii c.

Definition isAsciiSpace (c : ascii) : bool :=
  let n := code c in ((9 <=? n) && (n <=? 13))%N || (n =? 32)%N.

(** Two- and three-byte encodings of the remaining [unicode.IsSpace] runes:
    U+0085, U+00A0; U+1680, U+2000-U+200A, U+2028, U+2029, U+202F, U+205F,
    U+3000. *)
Definition isSpace2 (a b : ascii) : bool :=
  let a := code a in let b := code b in
  ((a =? 194) && ((b =? 133) || (b =? 160)))%N.

Definition isSpace3 (a b c : ascii) : bool :=
  let a := code a in let b := code b in let c := code c in
  ((a =? 225) && (b =? 154) && (c =? 128)
   || (a =? 226) && (b =? 128)
      && ((128 <=? c) && (c <=? 138) || (c =? 168) || (c =? 169) || (c =? 175))
   || (a =? 226) && (b =? 129) && (c =? 159)
   || (a =? 227) && (b =? 128) && (c =? 128))%N.

(** Drop leading white space; [two] and [three] recognise a multi-byte rune in
    reading order. *)
Fixpoint dropSpace (two : ascii → ascii → bool)
    (three : ascii → ascii → ascii → bool) (l : list ascii) : list ascii :=
  match l with
  | [] => []
  | a :: t =>
      if isAsciiSpace a then dropSpace two three t else
      match t with
      | [] => l
      | b :: t2 =>
          if two a b then dropSpace two three t2 else
          match t2 with
          | [] => l
          | c :: t3 => if three a b c then dropSpace two three t3 else l
          end
      end
  end.

Definition trimLeftBytes : list ascii → list ascii := dropSpace isSpace2 isSpace3.
Definition trimRightBytes (l : list ascii) : list ascii :=
  rev (dropSpace (λ a b, isSpace2 b a) (λ a b c, isSpace3 c b a) (rev l)).

(** Go: [strings.TrimSpace]. *)
Definition TrimSpace (s : string) : string :=
  unbytes (trimRightBytes (trimLeftBytes (bytes s))).

(** A string with nothing left after trimming. *)
Definition blank (s : string) : bool := bool_decide (TrimSpace s = "").

(** A printable ASCII character other than a space. *)
Definition asciiText (c : ascii) : bool := ((33 <=? code c) && (code c <=? 126))%N.

(** Go: [strings.Trim(s, "-")]. *)
Definition isDash (c : ascii) : bool := (code c =? 45)%N.
Fixpoint dropDash (l : list ascii) : list ascii :=
  match l with
  | [] => []
  | a :: t => if isDash a then dropDash t else l
  end.
Definition TrimDash (s : string) : string :=
  unbytes (rev (dropDash (rev (dropDash (bytes s))))).

(** Go: [strings.HasPrefix]. *)
Definition HasPrefix (s p : string) : bool := String.prefix p s.

(** Go: [strings.HasSuffix]. *)
Definition HasSuffix (s p : string) : bool :=
  (String.length p <=? String.length s)%nat
  && String.eqb (unbytes (drop (String.length s - String.length p) (bytes s))) p.

(** Go: [strings.Contains]. *)
Fixpoint Contains (s sub : string) : bool :=
  HasPrefix s sub || match s with EmptyString => false | String _ s => Contains s sub end.

(** Go: [strings.Join]. *)
Fixpoint Join (parts : list string) (sep : string) : string :=
  match parts with
  | [] => ""
  | [p] => p
  | p :: ps => p +:+ sep +:+ Join ps sep
  end.

(** Go: [strings.Fields]; [cur] holds the current word, reversed. *)
Definition flushWord (cur : list ascii) : list (list ascii) :=
  match cur with [] => [] | _ => [rev cur] end.
Fixpoint fieldsLoop (cur : list ascii) (l : list ascii) : list (list ascii) :=
  match l with
  | [] => flushWord cur
  | a :: t =>
      if isAsciiSpace a then flushWord cur ++ fieldsLoop [] t else
      match t with
      | [] => fieldsLoop (a :: cur) t
      | b :: t2 =>
          if isSpace2 a b then flushWord cur ++ fieldsLoop [] t2 else
          match t2 with
          | [] => fieldsLoop (a :: cur) t
          | c :: t3 =>
              if isSpace3 a b c then flushWord cur ++ fieldsLoop [] t3
              else fieldsLoop (a :: cur) t
          end
      end
  end.
Definition Fields (s : string) : list string := map unbytes (fieldsLoop [] (bytes s)).

(** Go: [s[:n]], for [n <= len(s)] (the callers test the length first). *)
Definition takeStr (n : nat) (s : string) : string := unbytes (take n (bytes s)).

(** ** Case *)

Definition isUpper (c : ascii) : bool := ((65 <=? code c) && (code c <=? 90))%N.
Definition lowerByte (c : ascii) : ascii :=
  if isUpper c then ascii_of_N (code c + 32) else c.

(** U+212A KELVIN SIGN is E2 84 AA and lowers to k; U+0130 is C4 B0 and lowers
    to i. *)
Fixpoint lowerBytes (l : list ascii) : list ascii :=
  match l with
  | [] => []
  | a :: t =>
      match t with
      | b :: t2 =>
          if ((code a =? 196) && (code b =? 176))%N then "i"%char :: lowerBytes t2 else
          match t2 with
          | c :: t3 =>
              if ((code a =? 226) && (code b =? 132) && (code c =? 170))%N
              then "k"%char :: lowerBytes t3 else lowerByte a :: lowerBytes t
          | [] => lowerByte a :: lowerBytes t
          end
      | [] => [lowerByte a]
      end
  end.

Definition ToLower (s : string) : string := unbytes (lowerBytes (bytes s)).

(** The fold key: ASCII case, U+212A as k and U+017F (C5 BF) as s. *)
Fixpoint foldBytes (l : list ascii) : list ascii :=
  match l with
  | [] => []
  | a :: t =>
      match t with
      | b :: t2 =>
          if ((code a =? 197) && (code b =? 191))%N then "s"%char :: foldBytes t2 else
          match t2 with
          | c :: t3 =>
              if ((code a =? 226) && (code b =? 132) && (code c =? 170))%N
              then "k"%char :: foldBytes t3 else lowerByte a :: foldBytes t
          | [] => lowerByte a :: foldBytes t
          end
      | [] => [lowerByte a]
      end
  end.

Definition EqualFold (s t : string) : bool :=
  bool_decide (foldBytes (bytes s) = foldBytes (bytes t)).

(** ** Formatting *)

Definition hexDigit (n : N) : ascii :=
  if (n <? 10)%N then ascii_of_N (48 + n) else ascii_of_N (87 + n).
Definition hexByte (n : N) : list ascii := [hexDigit (n / 16); hexDigit (n mod 16)].

(** Go: [%q] / [strconv.Quote]; bytes of non-ASCII runes are printed as they
    are. *)
Definition quoteByte (c : ascii) : list ascii :=
  let n := code c in
  if (n =? 34)%N || (n =? 92)%N then ["\"%char; c] else
  if (n =? 7)%N then ["\"%char; "a"%char] else
  if (n =? 8)%N then ["\"%char; "b"%char] else
  if (n =? 12)%N then ["\"%char; "f"%char] else
  if (n =? 10)%N then ["\"%char; "n"%char] else
  if (n =? 13)%N then ["\"%char; "r"%char] else
  if (n =? 9)%N then ["\"%char; "t"%char] else
  if (n =? 11)%N then ["\"%char; "v"%char] else
  if (n <? 32)%N || (n =? 127)%N then ["\"%char; "x"%char] ++ hexByte n else [c].
Definition dquote : ascii := ascii_of_N 34.
Definition quote (s : string) : string :=
  unbytes (dquote :: concat (map quoteByte (bytes s)) ++ [dquote]).

Definition nl : string := String (ascii_of_N 10) "".

(** ** Runes

    Go: [[]rune(s)], each rune as its UTF-8 bytes.  An invalid byte decodes to
    U+FFFD, which is EF BF BD. *)
Definition isCont (lo hi : N) (c : ascii) : bool := ((lo <=? code c) && (code c <=? hi))%N.
Definition replacement : list ascii := map ascii_of_N [239; 191; 189]%N.

(** The range of the second byte after a leading byte of a 3- or 4-byte rune. *)
Definition second3 (a b : ascii) : bool :=
  if (code a =? 224)%N then isCont 160 191 b
  else if (code a =? 237)%N then isCont 128 159 b
  else ((225 <=? code a) && (code a <=? 239))%N && isCont 128 191 b.
Definition second4 (a b : ascii) : bool :=
  if (code a =? 240)%N then isCont 144 191 b
  else if (code a =? 244)%N then isCont 128 143 b
  else ((241 <=? code a) && (code a <=? 243))%N && isCont 128 191 b.

Fixpoint runes (l : list ascii) : list (list ascii) :=
  match l with
  | [] => []
  | a :: l1 =>
      if (code a <? 128)%N then [a] :: runes l1 else
      match l1 with
      | [] => replacement :: runes l1
      | b :: l2 =>
          if ((194 <=? code a) && (code a <=? 223))%N && isCont 128 191 b then [a; b] :: runes l2 else
          match l2 with
          | [] => replacement :: runes l1
          | c :: l3 =>
              if second3 a b && isCont 128 191 c then [a; b; c] :: runes l3 else
              match l3 with
              | [] => replacement :: runes l1
              | d :: l4 =>
                  if second4 a b && isCont 128 191 c && isCont 128 191 d
                  then [a; b; c; d] :: runes l4 else replacement :: runes l1
              end
          end
      end
  end.

(** Go: [%d]. *)
Definition fmtZ (z : Z) : string := pretty z.
Definition fmtNat (n : nat) : string := pretty (Z.of_nat n).

(** ** Lemmas *)

Lemma bytes_unbytes l : bytes (unbytes l) = l.
Proof. apply String.list_ascii_of_string_of_list_ascii. Qed.
Lemma unbytes_bytes s : unbytes (bytes s) = s.
Proof. apply String.string_of_list_ascii_of_string. Qed.
Lemma length_bytes s : length (bytes s) = String.length s.
Proof. induction s; simpl; congruence. Qed.
Lemma length_unbytes l : String.length (unbytes l) = length l.
Proof. by rewrite <-length_bytes, bytes_unbytes. Qed.
#[export] Hint Rewrite bytes_unbytes unbytes_bytes length_unbytes : anvil_rw.

Lemma takeStr_length n s : String.length (takeStr n s) = min n (String.length s).
Proof. unfold takeStr. by rewrite length_unbytes, length_take, length_bytes. Qed.

Lemma dropDash_Forall (P : ascii → Prop) l : Forall P l → Forall P (dropDash l).
Proof. induction 1; simpl; [constructor|]. case_match; auto. Qed.

Lemma dropDash_head l c t : dropDash l = c :: t → isDash c = false.
Proof.
  induction l as [|a l IH]; simpl; [done|].
  destruct (isDash a) eqn:E; [done|]. by intros [= <- <-].
Qed.

Lemma dropDash_nodash l : Forall (λ c, isDash c = false) l → dropDash l = l.
Proof. destruct 1 as [|c l Hc _]; simpl; [done|]. by rewrite Hc. Qed.

Lemma dropDash_length l : length (dropDash l) ≤ length l.
Proof. induction l; simpl; [lia|]. case_match; simpl; lia. Qed.

(** Trimming dashes from the right keeps a head that is not a dash. *)
Lemma dropDash_snoc l c : isDash c = false → dropDash (l ++ [c]) = dropDash l ++ [c].
Proof.
  intros Hc. induction l as [|a l IH]; simpl; [by rewrite Hc|].
  by destruct (isDash a).
Qed.

Lemma EqualFold_refl s : EqualFold s s = true.
Proof. by apply bool_decide_eq_true. Qed.
Lemma EqualFold_sym s t : EqualFold s t = EqualFold t s.
Proof. unfold EqualFold. apply bool_decide_ext. naive_solver. Qed.

(** Go's string [<] is the byte order: a strict total order. *)
Definition strLt (a b : string) : bool := String.ltb a b.

Lemma strLt_le a b : strLt a b = negb (String.leb b a).
Proof.
  unfold strLt, String.ltb, String.leb. rewrite (String.compare_antisym b a).
  by destruct (String.compare a b).
Qed.
Lemma strLt_false a b : strLt a b = false ↔ String.le b a.
Proof.
  rewrite strLt_le, negb_false_iff. unfold String.le. by rewrite Is_true_true.
Qed.
Lemma strLt_irrefl a : strLt a a = false.
Proof. by apply strLt_false. Qed.
Lemma strLt_trans a b c : strLt a b = true → strLt b c = true → strLt a c = true.
Proof.
  rewrite <-!not_false_iff_true, !strLt_false. intros H1 H2 H3. apply H1.
  destruct (total String.le b a) as [|Hab]; [done|]. exfalso. apply H2. by etrans.
Qed.
Lemma strLt_total a b : strLt a b = false → strLt b a = false → a = b.
Proof. rewrite !strLt_false. intros. by apply (anti_symm String.le). Qed.
Lemma strLt_asym a b : strLt a b = true → strLt b a = false.
Proof.
  intros H. destruct (strLt b a) eqn:E; [|done].
  pose proof (strLt_trans _ _ _ H E) as Ht. by rewrite strLt_irrefl in Ht.
Qed.

(** ** Trimming *)

Section trim.
Context (two : ascii → ascii → bool) (three : ascii → ascii → ascii → bool).
Abbreviation dropS := (dropSpace two three).

(** Either nothing can be dropped, or a first rune can. *)
Lemma dropSpace_step l :
  dropS l = l ∨ ∃ k, (0 < k ≤ length l)%nat ∧ dropS l = dropS (drop k l).
Proof.
  destruct l as [|a l]; [by left|].
  destruct (isAsciiSpace a) eqn:Ha.
  { right. exists 1. cbn [dropSpace length]. rewrite Ha. split; [lia|done]. }
  destruct l as [|b l]; [left; cbn; by rewrite Ha|].
  destruct (two a b) eqn:Hb.
  { right. exists 2. cbn [dropSpace length]. rewrite Ha, Hb. split; [lia|done]. }
  destruct l as [|c l]; [left; cbn; by rewrite Ha, Hb|].
  destruct (three a b c) eqn:Hc.
  - right. exists 3. cbn [dropSpace length]. rewrite Ha, Hb, Hc. split; [lia|done].
  - left. cbn. by rewrite Ha, Hb, Hc.
Qed.

Lemma dropSpace_ind (P : list ascii → list ascii → Prop) :
  (∀ l, dropS l = l → P l l) →
  (∀ l k t, (0 < k ≤ length l)%nat → P (drop k l) t → P l t) → ∀ l, P l (dropS l).
Proof.
  intros Hstop Hstep l.
  induction l as [l IH] using (induction_ltof1 _ (@length ascii)); unfold ltof in IH.
  destruct (dropSpace_step l) as [E|(k & Hk & E)].
  - rewrite E. by apply Hstop.
  - rewrite E. apply Hstep with k; [done|]. apply IH. rewrite length_drop. lia.
Qed.

Lemma dropSpace_idem l : dropS (dropS l) = dropS l.
Proof. apply (dropSpace_ind (λ _ t, dropS t = t)); auto. Qed.

Lemma dropSpace_suffix l : ∃ k, dropS l = drop k l.
Proof.
  apply (dropSpace_ind (λ l t, ∃ k, t = drop k l)); [by exists 0|].
  intros ? k ? _ [j ->]. exists (k + j). by rewrite drop_drop.
Qed.

Lemma dropSpace_stuck l : dropS l = l ↔
  match l with
  | [] => True
  | a :: t => isAsciiSpace a = false ∧ match t with
      | [] => True
      | b :: t => two a b = false ∧ match t with [] => True | c :: _ => three a b c = false end
      end
  end.
Proof.
  assert (Hshort : ∀ x t, (length t < length x)%nat → dropS t = x → False).
  { intros x t Hlt <-. destruct (dropSpace_suffix t) as [k E]. rewrite E, length_drop in Hlt. lia. }
  destruct l as [|a [|b [|c l]]]; cbn [dropSpace]; repeat case_match; split; intros;
    destruct_and?; try done; try congruence; exfalso.
  all: match goal with E : dropS _ = ?x |- _ => eapply (Hshort x); [|exact E]; simpl; lia end.
Qed.

(** A prefix of a list that starts with no space starts with none either. *)
Lemma dropSpace_prefix l n : dropS l = l → dropS (take n l) = take n l.
Proof.
  rewrite !dropSpace_stuck.
  destruct l as [|a [|b [|c l]]]; destruct n as [|[|[|n]]]; cbn; intuition.
Qed.
End trim.

Lemma trimRight_prefix l : ∃ n, trimRightBytes l = take n l.
Proof.
  unfold trimRightBytes. destruct (dropSpace_suffix (λ a b, isSpace2 b a) (λ a b c, isSpace3 c b a) (rev l)) as [k ->].
  exists (length l - k)%nat. by rewrite skipn_rev, rev_involutive.
Qed.

(** Trimming twice is trimming once. *)
Lemma TrimSpace_idem s : TrimSpace (TrimSpace s) = TrimSpace s.
Proof.
  unfold TrimSpace. rewrite bytes_unbytes. f_equal.
  set (l := trimLeftBytes (bytes s)).
  assert (Hl : trimLeftBytes (trimRightBytes l) = trimRightBytes l).
  { destruct (trimRight_prefix l) as [n ->]. apply dropSpace_prefix, dropSpace_idem. }
  rewrite Hl. unfold trimRightBytes. by rewrite rev_involutive, dropSpace_idem.
Qed.

Ltac decide_codes :=
  repeat match goal with
  | |- context [(?a =? ?b)%N] => destruct (N.eqb_spec a b); try lia; cbn [andb orb]
  | |- context [(?a <=? ?b)%N] => destruct (N.leb_spec a b); try lia; cbn [andb orb]
  end; try done.

Lemma asciiText_range c : asciiText c = true → (33 ≤ code c ≤ 126)%N.
Proof. unfold asciiText. intros H. bool_props. rewrite !N.leb_le in *. lia. Qed.

Lemma asciiText_stuck two three c l :
  (∀ b, two c b = false) → (∀ b d, three c b d = false) →
  asciiText c = true → dropSpace two three (c :: l) = c :: l.
Proof.
  intros H2 H3 Hc%asciiText_range. apply dropSpace_stuck. split.
  - unfold isAsciiSpace. decide_codes.
  - destruct l as [|b [|d l]]; auto.
Qed.

(** Text between two printable ASCII characters has nothing to trim. *)
Lemma TrimSpace_ends c s d :
  asciiText c = true → asciiText d = true →
  TrimSpace (unbytes (c :: s ++ [d])) = unbytes (c :: s ++ [d]).
Proof.
  intros Hc Hd. pose proof (asciiText_range _ Hc). pose proof (asciiText_range _ Hd).
  unfold TrimSpace. rewrite bytes_unbytes. f_equal.
  unfold trimLeftBytes. rewrite asciiText_stuck by
    (try done; intros; unfold isSpace2, isSpace3; decide_codes).
  unfold trimRightBytes. cbn [rev]. rewrite rev_app_distr. cbn [rev app].
  rewrite asciiText_stuck by (try done; intros; unfold isSpace2, isSpace3; decide_codes).
  cbn [rev]. by rewrite !rev_app_distr, rev_involutive.
Qed.
