(* ===== verification/GoTime.v ===== *)
(** * Go machine integers and times

    [int64] arithmetic wraps around, as Go's does; [time.Duration] is an [int64]
    number of nanoseconds.  An instant is the exact number of nanoseconds since
    the Unix epoch (Go keeps seconds and nanoseconds apart, so instants do not
    wrap at the width of a duration); [Time.Sub] saturates at the duration
    bounds.  A [metav1.Time] pointer is an [option Time].  Formatting is in UTC. *)

From stdpp Require Import base list strings pretty.
From Stdlib Require Import ZArith Lia Ascii.
From S2P Require Import Prelude GoStrings.

Open Scope Z_scope.

(** ** 64-bit integers *)

Definition minInt64 : Z := - 2 ^ 63.
Definition maxInt64 : Z := 2 ^ 63 - 1.
Definition wrap64 (z : Z) : Z := (z + 2 ^ 63) mod 2 ^ 64 - 2 ^ 63.
Definition inInt64 (z : Z) : Prop := minInt64 ≤ z ≤ maxInt64.

Lemma wrap64_range z : inInt64 (wrap64 z).
Proof.
  unfold inInt64, wrap64, minInt64, maxInt64.
  pose proof (Z.mod_pos_bound (z + 2 ^ 63) (2 ^ 64)). lia.
Qed.

Lemma wrap64_id z : inInt64 z → wrap64 z = z.
Proof.
  unfold inInt64, wrap64, minInt64, maxInt64. intros Hz.
  rewrite Z.mod_small by lia. lia.
Qed.

(** ** Durations and instants *)

Abbreviation Time := Z (only parsing).
Abbreviation Duration := Z (only parsing).

Definition Second : Duration := 1000000000.
Definition Day : Duration := 86400 * Second.

(** Go: [time.Duration(n) * time.Second], wrapping. *)
Definition seconds (n : Z) : Duration := wrap64 (n * Second).

Lemma seconds_exact n : inInt64 (n * Second) → seconds n = n * Second.
Proof. apply wrap64_id. Qed.

(** January 1, year 1, 00:00:00 UTC: the zero [time.Time]. *)
Definition zeroTime : Time := - 62135596800 * Second.
Definition IsZero (t : Time) : bool := t =? zeroTime.

Definition Add (t : Time) (d : Duration) : Time := t + d.
Definition Sub (t u : Time) : Duration := Z.max minInt64 (Z.min maxInt64 (t - u)).
Definition After (t u : Time) : bool := u <? t.
Definition Before (t u : Time) : bool := t <? u.

(** Go: [Time.Truncate], relative to the zero time. *)
Definition Truncate (t : Time) (d : Duration) : Time :=
  if d <=? 0 then t else t - (t - zeroTime) mod d.

Lemma Truncate_le t d : Truncate t d ≤ t.
Proof.
  unfold Truncate. destruct (Z.leb_spec d 0); [lia|].
  pose proof (Z.mod_pos_bound (t - zeroTime) d). lia.
Qed.

Lemma Truncate_lt t d : 0 < d → t < Truncate t d + d.
Proof.
  unfold Truncate. intros. destruct (Z.leb_spec d 0); [lia|].
  pose proof (Z.mod_pos_bound (t - zeroTime) d). lia.
Qed.

(** ** Calendar

    The proleptic Gregorian date of a day number (days since 1970-01-01), by
    the era decomposition of 400 Gregorian years (146097 days). *)
Definition civil (days : Z) : Z * Z * Z :=
  let z := days + 719468 in
  let era := z / 146097 in
  let doe := z mod 146097 in
  let yoe := (doe - doe / 1460 + doe / 36524 - doe / 146096) / 365 in
  let doy := doe - (365 * yoe + yoe / 4 - yoe / 100) in
  let mp := (5 * doy + 2) / 153 in
  let d := doy - (153 * mp + 2) / 5 + 1 in
  let m := if mp <? 10 then mp + 3 else mp - 9 in
  let y := yoe + era * 400 + (if m <=? 2 then 1 else 0) in
  (y, m, d).

(** Zero-padded decimal of width [n]. *)
Definition pad (n : nat) (z : Z) : string :=
  let s := fmtZ z in unbytes (replicate (n - String.length s) "0"%char) +:+ s.

Definition secOf (t : Time) : Z := t / Second.
Definition nanoOf (t : Time) : Z := t mod Second.

(** Go: [t.UTC().Format("2006-01-02T15:04:05")] and the compact form
    ["20060102-150405"]. *)
Definition formatWith (ds sep ts : string) (t : Time) : string :=
  let s := secOf t in
  let '(y, m, d) := civil (s / 86400) in
  let r := s mod 86400 in
  pad 4 y +:+ ds +:+ pad 2 m +:+ ds +:+ pad 2 d +:+ sep +:+
  pad 2 (r / 3600) +:+ ts +:+ pad 2 (r / 60 mod 60) +:+ ts +:+ pad 2 (r mod 60).

(** Go: [t.UTC().Format(time.RFC3339)]. *)
Definition FormatRFC3339 (t : Time) : string := formatWith "-" "T" ":" t +:+ "Z".
Definition FormatCompact (t : Time) : string := formatWith "" "-" "" t.

(** The fraction of [time.RFC3339Nano]: nine digits, trailing zeros removed,
    nothing for a whole second. *)
Fixpoint dropZeros (l : list ascii) : list ascii :=
  match l with
  | [] => []
  | a :: t => if (code a =? 48)%N then dropZeros t else l
  end.
Definition nanoFraction (n : Z) : string :=
  match rev (dropZeros (rev (bytes (pad 9 n)))) with
  | [] => ""
  | l => "." +:+ unbytes l
  end.
Definition FormatRFC3339Nano (t : Time) : string :=
  formatWith "-" "T" ":" t +:+ nanoFraction (nanoOf t) +:+ "Z".

(** Optional instants ([*metav1.Time]): nil and the zero time both read as
    absent in the guards [x != nil && !x.IsZero()]. *)
Definition setTime (o : option Time) : option Time :=
  match o with
  | Some t => if IsZero t then None else Some t
  | None => None
  end.

(** ** Parsing

    Go: [time.Parse] for the layouts [20060102T150405Z] and [time.RFC3339Nano]
    (whose language contains that of [time.RFC3339]).  As in the library, the
    hour may have one digit, a fraction of a second may follow the seconds in
    any layout, with a period or a comma, and an offset may be written up to
    24 hours and 60 minutes. *)
Definition daysFromCivil (y m d : Z) : Z :=
  let y := if m <=? 2 then y - 1 else y in
  let era := y / 400 in
  let yoe := y mod 400 in
  let doy := (153 * (if 2 <? m then m - 3 else m + 9) + 2) / 5 + d - 1 in
  let doe := yoe * 365 + yoe / 4 - yoe / 100 + doy in
  era * 146097 + doe - 719468.

Definition leapYear (y : Z) : bool :=
  (y mod 4 =? 0) && (negb (y mod 100 =? 0) || (y mod 400 =? 0)).
Definition daysIn (m y : Z) : Z :=
  if m =? 2 then if leapYear y then 29 else 28
  else if (m =? 4) || (m =? 6) || (m =? 9) || (m =? 11) then 30 else 31.

Definition digit (c : ascii) : option Z :=
  if ((48 <=? code c) && (code c <=? 57))%N then Some (Z.of_N (code c) - 48) else None.

(** Exactly [n] digits. *)
Fixpoint getDigits (n : nat) (acc : Z) (l : list ascii) : option (Z * list ascii) :=
  match n, l with
  | O, _ => Some (acc, l)
  | S n, c :: l => match digit c with
                   | Some d => getDigits n (acc * 10 + d) l
                   | None => None
                   end
  | S _, [] => None
  end.

(** Two digits, or one that no digit follows. *)
Definition getHour (l : list ascii) : option (Z * list ascii) :=
  match getDigits 2 0 l with
  | Some r => Some r
  | None => getDigits 1 0 l
  end.

Definition expect (c : ascii) (l : list ascii) : option (list ascii) :=
  match l with
  | a :: l => if decide (a = c) then Some l else None
  | [] => None
  end.

(** All leading digits, as nanoseconds of the first nine. *)
Fixpoint fractionDigits (scale acc : Z) (l : list ascii) : Z * list ascii :=
  match l with
  | c :: l' => match digit c with
               | Some d => fractionDigits (scale / 10) (acc + d * scale) l'
               | None => (acc, l)
               end
  | [] => (acc, [])
  end.
Definition getFraction (l : list ascii) : Z * list ascii :=
  match l with
  | c :: d :: l' =>
      if ((code c =? 46) || (code c =? 44))%N && bool_decide (is_Some (digit d))
      then fractionDigits (Second / 10) 0 (d :: l') else (0, l)
  | _ => (0, l)
  end.

(** [Z] or an offset, in seconds east of UTC. *)
Definition getZone (l : list ascii) : option (Z * list ascii) :=
  match l with
  | c :: l =>
      if decide (c = "Z"%char) then Some (0, l)
      else if ((code c =? 43) || (code c =? 45))%N then
        '(h, l) ← getDigits 2 0 l; l ← expect ":"%char l; '(m, l) ← getDigits 2 0 l;
        if (24 <? h) || (60 <? m) then None
        else Some ((if (code c =? 45)%N then -1 else 1) * (h * 3600 + m * 60), l)
      else None
  | [] => None
  end.

Definition checkedTime (y m d hh mm ss nanos offset : Z) (rest : list ascii) : option Time :=
  if (m <? 1) || (12 <? m) || (d <? 1) || (daysIn m y <? d) || (24 <=? hh) || (60 <=? mm)
     || (60 <=? ss) || bool_decide (rest ≠ []) then None
  else Some ((daysFromCivil y m d * 86400 + hh * 3600 + mm * 60 + ss - offset) * Second + nanos).

Definition ParseRFC3339Nano (s : string) : option Time :=
  let l := bytes s in
  '(y, l) ← getDigits 4 0 l; l ← expect "-"%char l; '(m, l) ← getDigits 2 0 l;
  l ← expect "-"%char l; '(d, l) ← getDigits 2 0 l; l ← expect "T"%char l;
  '(hh, l) ← getHour l; l ← expect ":"%char l; '(mm, l) ← getDigits 2 0 l;
  l ← expect ":"%char l; '(ss, l) ← getDigits 2 0 l;
  let '(nanos, l) := getFraction l in
  '(offset, l) ← getZone l;
  checkedTime y m d hh mm ss nanos offset l.

Definition ParseCompact (s : string) : option Time :=
  let l := bytes s in
  '(y, l) ← getDigits 4 0 l; '(m, l) ← getDigits 2 0 l; '(d, l) ← getDigits 2 0 l;
  l ← expect "T"%char l; '(hh, l) ← getHour l; '(mm, l) ← getDigits 2 0 l;
  '(ss, l) ← getDigits 2 0 l;
  let '(nanos, l) := getFraction l in
  l ← expect "Z"%char l;
  checkedTime y m d hh mm ss nanos 0 l.

Example parse_compact : FormatRFC3339 <$> ParseCompact "20260102T030405Z" = Some "2026-01-02T03:04:05Z".
Proof. reflexivity. Qed.
Example parse_offset :
  FormatRFC3339Nano <$> ParseRFC3339Nano "2026-01-02T03:04:05.250+02:00"
  = Some "2026-01-02T01:04:05.25Z".
Proof. reflexivity. Qed.
Example parse_invalid : ParseRFC3339Nano "2026-02-29T00:00:00Z" = None.
Proof. reflexivity. Qed.
