(* ===== verification/Sha256.v ===== *)
(** * SHA-256

    Go's [crypto/sha256.Sum256] and [encoding/hex.EncodeToString], executable,
    so that the child names and instance identities the controllers derive from
    hashes can be evaluated on concrete inputs.  Words are 32-bit values in [N]. *)

From stdpp Require Import base list strings.
From Stdlib Require Import NArith Lia Ascii.
From S2P Require Import Prelude GoStrings.

Open Scope N_scope.

Definition mask32 : N := 4294967295.
Definition add32 (a b : N) : N := N.land (a + b) mask32.
Definition rotr (n x : N) : N :=
  N.lor (N.shiftr x n) (N.land (N.shiftl x (32 - n)) mask32).
Definition shr (n x : N) : N := N.shiftr x n.
Definition not32 (x : N) : N := N.lxor x mask32.

Definition ch (x y z : N) : N := N.lxor (N.land x y) (N.land (not32 x) z).
Definition maj (x y z : N) : N :=
  N.lxor (N.lxor (N.land x y) (N.land x z)) (N.land y z).
Definition bsig0 (x : N) : N := N.lxor (N.lxor (rotr 2 x) (rotr 13 x)) (rotr 22 x).
Definition bsig1 (x : N) : N := N.lxor (N.lxor (rotr 6 x) (rotr 11 x)) (rotr 25 x).
Definition ssig0 (x : N) : N := N.lxor (N.lxor (rotr 7 x) (rotr 18 x)) (shr 3 x).
Definition ssig1 (x : N) : N := N.lxor (N.lxor (rotr 17 x) (rotr 19 x)) (shr 10 x).

Definition K256 : list N :=
  [1116352408; 1899447441; 3049323471; 3921009573; 961987163; 1508970993;
   2453635748; 2870763221; 3624381080; 310598401; 607225278; 1426881987;
   1925078388; 2162078206; 2614888103; 3248222580; 3835390401; 4022224774;
   264347078; 604807628; 770255983; 1249150122; 1555081692; 1996064986;
   2554220882; 2821834349; 2952996808; 3210313671; 3336571891; 3584528711;
   113926993; 338241895; 666307205; 773529912; 1294757372; 1396182291;
   1695183700; 1986661051; 2177026350; 2456956037; 2730485921; 2820302411;
   3259730800; 3345764771; 3516065817; 3600352804; 4094571909; 275423344;
   430227734; 506948616; 659060556; 883997877; 958139571; 1322822218;
   1537002063; 1747873779; 1955562222; 2024104815; 2227730452; 2361852424;
   2428436474; 2756734187; 3204031479; 3329325298].

Definition H256 : list N :=
  [1779033703; 3144134277; 1013904242; 2773480762; 1359893119; 2600822924;
   528734635; 1541459225].

(** Big-endian words of [n] bytes each. *)
Fixpoint be (l : list N) (acc : N) : N :=
  match l with [] => acc | b :: l => be l (acc * 256 + b) end.
Fixpoint unbe (n : nat) (x : N) : list N :=
  match n with
  | O => []
  | S n => N.shiftr x (8 * N.of_nat n) mod 256 :: unbe n x
  end.

(** The message schedule, newest word first: [w.(t)] from [w.(t-2)], [w.(t-7)],
    [w.(t-15)], [w.(t-16)]. *)
Fixpoint expand (n : nat) (w : list N) : list N :=
  match n with
  | O => w
  | S n =>
      let g i := nth i w 0 in
      expand n (add32 (add32 (ssig1 (g 1%nat)) (g 6%nat))
                      (add32 (ssig0 (g 14%nat)) (g 15%nat)) :: w)
  end.

Definition round (s : list N) (kw : N * N) : list N :=
  match s with
  | [a; b; c; d; e; f; g; h] =>
      let t1 := add32 (add32 (add32 h (bsig1 e)) (ch e f g)) (add32 (fst kw) (snd kw)) in
      let t2 := add32 (bsig0 a) (maj a b c) in
      [add32 t1 t2; a; b; c; add32 d t1; e; f; g]
  | _ => s
  end.

Definition compress (h : list N) (block : list N) : list N :=
  let words := map (λ i, be (take 4 (drop (4 * i) block)) 0) (seq 0 16) in
  let w := rev (expand 48 (rev words)) in
  zip_with add32 h (fold_left round (combine K256 w) h).

Fixpoint blocks (n : nat) (l h : list N) : list N :=
  match n with
  | O => h
  | S n => blocks n (drop 64 l) (compress h (take 64 l))
  end.

(** The message, a one bit, zeros, and the bit length as 8 bytes. *)
Definition padMessage (l : list N) : list N :=
  let len := length l in
  let zeros := ((119 - len mod 64) mod 64)%nat in
  l ++ [128] ++ replicate zeros 0 ++ unbe 8 (8 * N.of_nat len).

Definition Sum256 (l : list N) : list N :=
  let p := padMessage l in
  concat (map (unbe 4) (blocks (length p / 64) p H256)).

(** Go: [hex.EncodeToString(sum[:])] of the digest of a string. *)
Definition sha256Hex (s : string) : string :=
  unbytes (concat (map hexByte (Sum256 (map code (bytes s))))).

Example sha256_empty :
  sha256Hex "" = "e3b0c44298fc1c149afbf4c8996fb92427ae41e4649b934ca495991b7852b855".
Proof. vm_compute. reflexivity. Qed.
Example sha256_abc :
  sha256Hex "abc" = "ba7816bf8f01cfea414140de5dae2223b00361a396177a9cb410ff61f20015ad".
Proof. vm_compute. reflexivity. Qed.
Example sha256_two_blocks :
  sha256Hex "abcdbcdecdefdefgefghfghighijhijkijkljklmklmnlmnomnopnopq"
  = "248d6a61d20638b8e5c026930c3e6039a33ce45964ff2167f6ecedd419db06c1".
Proof. vm_compute. reflexivity. Qed.
