(* ===== verification/Hmac.v ===== *)
(** * HMAC-SHA-256

    Go's [crypto/hmac] over SHA-256 and [encoding/hex.DecodeString], with which the
    API server authenticates webhook deliveries. *)

From stdpp Require Import base list strings.
From Stdlib Require Import NArith Lia Ascii.
From S2P Require Import Prelude GoStrings Sha256.

Open Scope N_scope.

(** Go: [hmac.New(sha256.New, key)], [Write(message)] and [Sum(nil)]. *)
Definition hmacKey (key : list N) : list N :=
  let key := if (64 <? length key)%nat then Sum256 key else key in
  key ++ replicate (64 - length key) 0.
Definition hmacSha256 (key message : list N) : list N :=
  let key := hmacKey key in
  Sum256 (map (N.lxor 92) key ++ Sum256 (map (N.lxor 54) key ++ message)).
Definition byteCodes (s : string) : list N := map code (bytes s).

Definition hexEncode (l : list N) : string := unbytes (concat (map hexByte l)).

(** Go: [hex.DecodeString]: pairs of digits of either case. *)
Definition fromHexChar (c : ascii) : option N :=
  let n := code c in
  if (48 <=? n) && (n <=? 57) then Some (n - 48)
  else if (97 <=? n) && (n <=? 102) then Some (n - 87)
  else if (65 <=? n) && (n <=? 70) then Some (n - 55)
  else None.
Fixpoint hexDecodeBytes (l : list ascii) : option (list N) :=
  match l with
  | [] => Some []
  | [_] => None
  | a :: b :: l =>
      match fromHexChar a, fromHexChar b, hexDecodeBytes l with
      | Some x, Some y, Some rest => Some (x * 16 + y :: rest)
      | _, _, _ => None
      end
  end.
Definition hexDecode (s : string) : option (list N) := hexDecodeBytes (bytes s).

(** RFC 4231, test cases 1, 2 and 6. *)
Example hmac_rfc4231_1 :
  hexEncode (hmacSha256 (replicate 20 11) (byteCodes "Hi There"))
  = "b0344c61d8db38535ca8afceaf0bf12b881dc200c9833da726e9376c2e32cff7".
Proof. vm_compute. reflexivity. Qed.
Example hmac_rfc4231_2 :
  hexEncode (hmacSha256 (byteCodes "Jefe") (byteCodes "what do ya want for nothing?"))
  = "5bdcc146bf60754e6a042426089575c75a003f089d2739839dec58b964ec3843".
Proof. vm_compute. reflexivity. Qed.
Example hmac_rfc4231_6 :
  hexEncode (hmacSha256 (replicate 131 170) (byteCodes "Test Using Larger Than Block-Size Key - Hash Key First"))
  = "60e431591ee0b67f0d8a26aacbf5b77f8e0bc6213728c5140546040f0ee37f54".
Proof. vm_compute. reflexivity. Qed.

(** ** Lemmas *)

Lemma fromHexChar_digit n : n < 16 → fromHexChar (hexDigit n) = Some n.
Proof.
  intros Hn. assert (Forall (λ n, fromHexChar (hexDigit n) = Some n) (map N.of_nat (seq 0 16))) as Hall by by repeat constructor.
  rewrite Forall_forall in Hall. apply Hall, list_elem_of_fmap. exists (N.to_nat n). split; [lia|]. apply elem_of_seq. lia.
Qed.
Lemma fromHexChar_lower c x : fromHexChar c = Some x → x < 16 ∧ lowerByte c = hexDigit x.
Proof. destruct c as [[] [] [] [] [] [] [] []]; vm_compute; try discriminate; intros [= <-]; split; reflexivity. Qed.

Lemma hexDecode_encode l : Forall (λ b, b < 256) l → hexDecode (hexEncode l) = Some l.
Proof.
  unfold hexDecode, hexEncode. rewrite bytes_unbytes. induction 1 as [|b l Hb _ IH]; [done|].
  cbn [map concat hexByte app hexDecodeBytes]. rewrite IH, !fromHexChar_digit.
  - f_equal. f_equal. pose proof (N.div_mod b 16 ltac:(lia)). lia.
  - apply N.mod_lt. lia.
  - apply N.Div0.div_lt_upper_bound. lia.
Qed.
(** A text that decodes is the encoding of its bytes, up to the case of its digits. *)
Lemma hexDecode_bytes s l : hexDecode s = Some l → map lowerByte (bytes s) = bytes (hexEncode l) ∧ Forall (λ b, b < 256) l.
Proof.
  unfold hexDecode, hexEncode. rewrite bytes_unbytes. generalize (bytes s). clear s. intros s.
  remember (length s) as n eqn:En. revert s En l. induction (lt_wf n) as [n _ IH]. intros s -> l.
  destruct s as [|a [|b s]]; cbn [hexDecodeBytes]; [by intros [= <-]|done|].
  destruct (fromHexChar a) as [x|] eqn:Ea; [|done]. destruct (fromHexChar b) as [y|] eqn:Eb; [|done].
  destruct (hexDecodeBytes s) as [rest|] eqn:Er; [|done]. intros [= <-].
  destruct (IH (length s) ltac:(cbn; lia) s eq_refl rest Er) as [IHs IHf].
  apply fromHexChar_lower in Ea as [Hx Ea], Eb as [Hy Eb].
  split; [|constructor; [lia|done]]. cbn [map concat hexByte app]. rewrite Ea, Eb, IHs. f_equal; [|f_equal]; f_equal.
  - rewrite N.div_add_l by lia. rewrite N.div_small by done. lia.
  - rewrite N.add_comm, N.Div0.mod_add. by rewrite N.mod_small.
Qed.

Lemma unbe_bytes n x : Forall (λ b, b < 256) (unbe n x).
Proof. induction n; cbn; constructor; [apply N.mod_lt; lia|done]. Qed.
Lemma Sum256_bytes l : Forall (λ b, b < 256) (Sum256 l).
Proof.
  unfold Sum256. apply Forall_concat, Forall_fmap, Forall_forall. intros x _. apply unbe_bytes.
Qed.
