(* ===== verification/Names.v ===== *)
(** * Names, labels and digests of child objects

    [sanitizeDNSLabel], [sanitizeLabelValue], [agentRunChildName], [shortHash]
    and [digestJSON] of [src/internal/controller/agent_run_controller.go] and
    [agent_run_composition.go], with [firstNonEmpty] of [support.go].  The
    theorems show that every generated child name is a DNS-1123 label of at most
    63 bytes, and where the label sanitizer falls short of Kubernetes' rule. *)

From stdpp Require Import base list strings.
From Stdlib Require Import ZArith Lia Ascii.
From S2P Require Import Prelude GoStrings Sha256.

Local Open Scope nat_scope.

(** ** Definitions *)

Definition firstNonEmpty (values : list string) : string :=
  match list_find (λ v, blank v = false) values with
  | Some (_, v) => v
  | None => ""
  end.

Definition isLowerAlnum (c : ascii) : bool :=
  (((97 <=? code c) && (code c <=? 122)) || ((48 <=? code c) && (code c <=? 57)))%N.

Definition dash : ascii := "-"%char.

(** The loop of [sanitizeDNSLabel]: [lastDash] is the loop variable. *)
Fixpoint sanitizeLoop (lastDash : bool) (l : list ascii) : list ascii :=
  match l with
  | [] => []
  | c :: t =>
      if isLowerAlnum c then c :: sanitizeLoop false t
      else if lastDash then sanitizeLoop true t
      else dash :: sanitizeLoop true t
  end.

Definition sanitizeDNSLabel (value : string) : string :=
  let value := TrimSpace (ToLower value) in
  if bool_decide (value = "") then ""
  else TrimDash (unbytes (sanitizeLoop false (bytes value))).

Definition sanitizeLabelValue (value : string) : string :=
  let value := sanitizeDNSLabel value in
  if 63 <? String.length value then takeStr 63 value else value.

Definition shortHash (value : string) : string := takeStr 12 (sha256Hex value).

(** [digestJSON] of a value whose JSON encoding is [contents] ([None] when
    [json.Marshal] fails). *)
Definition digestJSON (contents : option string) : string :=
  match contents with
  | None => ""
  | Some c => "sha256:" +:+ sha256Hex c
  end.

Definition agentRunChildName (parts : list string) : string :=
  let tokens := filter (λ t, t ≠ "") (map sanitizeDNSLabel parts) in
  let name := Join tokens "-" in
  if String.length name <=? 63 then name else
  let suffix := default "" (last tokens) in
  if String.length suffix <? 63 then
    let prefixMax := 63 - String.length suffix - 1 in
    let prefix := TrimDash (takeStr prefixMax name) in
    if bool_decide (prefix ≠ "") then prefix +:+ "-" +:+ suffix else suffix
  else
    let hash := shortHash name in
    let prefixMax := 63 - String.length hash - 1 in
    let prefix := TrimDash (takeStr prefixMax name) in
    if bool_decide (prefix = "") then hash else prefix +:+ "-" +:+ hash.

(** ** Kubernetes' label rule

    A DNS-1123 label: lower-case letters, digits and dashes, with a letter or a
    digit at both ends.  The empty string passes: it is what the sanitizers
    return for input with nothing to keep. *)
Definition labelChar (c : ascii) : bool := isLowerAlnum c || isDash c.
Definition noDashEnds (l : list ascii) : bool :=
  match head l, last l with
  | Some a, Some b => negb (isDash a) && negb (isDash b)
  | _, _ => true
  end.
Definition dnsShape (s : string) : bool :=
  forallb labelChar (bytes s) && noDashEnds (bytes s).

(** No two dashes in a row: what the sanitizer adds to the shape. *)
Fixpoint singleDashes (l : list ascii) : bool :=
  match l with
  | a :: ((b :: _) as t) => negb (isDash a && isDash b) && singleDashes t
  | _ => true
  end.
Definition cleanLabel (s : string) : bool := dnsShape s && singleDashes (bytes s).

(** ** Lemmas on characters *)

Lemma dash_isDash : isDash dash = true.
Proof. reflexivity. Qed.
Lemma isDash_dash c : isDash c = true → c = dash.
Proof.
  unfold isDash, code. intros H%N.eqb_eq.
  by rewrite <-(ascii_N_embedding c), H.
Qed.
Lemma alnum_not_dash c : isLowerAlnum c = true → isDash c = false.
Proof.
  unfold isLowerAlnum, isDash. intros H.
  apply orb_true_iff in H as [H|H]; apply andb_true_iff in H as [H1 H2];
    apply N.leb_le in H1, H2; apply N.eqb_neq; lia.
Qed.

Lemma labelChar_range c : labelChar c = true →
  (code c = 45 ∨ 48 ≤ code c ≤ 57 ∨ 97 ≤ code c ≤ 122)%N.
Proof.
  unfold labelChar, isLowerAlnum, isDash. intros H.
  repeat match goal with
  | H : _ || _ = true |- _ => apply orb_true_iff in H as [H|H]
  end; bool_props; rewrite ?N.leb_le, ?N.eqb_eq in *; lia.
Qed.

Lemma labelChar_not_space c : labelChar c = true → isAsciiSpace c = false.
Proof.
  intros H%labelChar_range. unfold isAsciiSpace.
  apply orb_false_iff; split; [apply andb_false_iff|apply N.eqb_neq];
    rewrite ?N.leb_gt; lia.
Qed.

(** A byte that is not the first of a multi-byte white space rune. *)
Lemma labelChar_not_space2 a b : labelChar a = true → isSpace2 a b = false.
Proof.
  intros H%labelChar_range. unfold isSpace2.
  apply andb_false_iff. left. apply N.eqb_neq. lia.
Qed.
Lemma labelChar_not_space3 a b c : labelChar a = true → isSpace3 a b c = false.
Proof.
  intros H%labelChar_range. unfold isSpace3. rewrite !orb_false_iff, !andb_false_iff.
  rewrite !N.eqb_neq, orb_false_iff. repeat split; left; try left; try left; lia.
Qed.
Lemma labelChar_not_space2_last a b : labelChar b = true → isSpace2 a b = false.
Proof.
  intros H%labelChar_range. unfold isSpace2. apply andb_false_iff. right.
  apply orb_false_iff. rewrite !N.eqb_neq. lia.
Qed.
Lemma labelChar_not_space3_last a b c : labelChar c = true → isSpace3 a b c = false.
Proof.
  intros H%labelChar_range. unfold isSpace3.
  assert (∀ n, n = 128 ∨ n = 159 ∨ n = 168 ∨ n = 169 ∨ n = 175 → (code c =? n) = false)%N
    as Hn by (intros n ?; apply N.eqb_neq; lia).
  rewrite !Hn by lia. assert ((128 <=? code c) = false)%N as -> by (apply N.leb_gt; lia).
  by rewrite !andb_false_r.
Qed.

Lemma dropSpace_label two three l :
  (∀ a b, labelChar a = true → two a b = false) →
  (∀ a b c, labelChar a = true → three a b c = false) →
  forallb labelChar l = true → dropSpace two three l = l.
Proof.
  intros H2 H3. destruct l as [|a [|b [|c l]]]; simpl; [done|..]; intros H; bool_props;
    rewrite (labelChar_not_space a) by done; rewrite ?H2, ?H3 by done; done.
Qed.

Lemma forallb_rev {A} (f : A → bool) l : forallb f (rev l) = forallb f l.
Proof.
  apply eq_iff_eq_true. rewrite !forallb_forall.
  setoid_rewrite <-in_rev. done.
Qed.

Lemma TrimSpace_label s : forallb labelChar (bytes s) = true → TrimSpace s = s.
Proof.
  intros H. unfold TrimSpace, trimRightBytes, trimLeftBytes.
  rewrite (dropSpace_label _ _ (bytes s)) by auto using labelChar_not_space2, labelChar_not_space3.
  rewrite dropSpace_label by
    (rewrite ?forallb_rev; auto using labelChar_not_space2_last, labelChar_not_space3_last).
  by rewrite rev_involutive, unbytes_bytes.
Qed.

Lemma lowerByte_label c : labelChar c = true → lowerByte c = c.
Proof.
  intros H%labelChar_range. unfold lowerByte, isUpper.
  assert ((65 <=? code c) && (code c <=? 90) = false)%N as ->; [|done].
  apply andb_false_iff. rewrite !N.leb_gt. lia.
Qed.

Lemma lowerBytes_label l : forallb labelChar l = true → lowerBytes l = l.
Proof.
  induction l as [|a l IH]; [done|]; simpl. intros [Ha Hl]%andb_true_iff.
  rewrite (lowerByte_label a) by done. rewrite (IH Hl).
  apply labelChar_range in Ha.
  assert ((code a =? 196) = false)%N as -> by (apply N.eqb_neq; lia).
  assert ((code a =? 226) = false)%N as -> by (apply N.eqb_neq; lia).
  destruct l as [|b [|c l]]; done.
Qed.

Lemma ToLower_label s : forallb labelChar (bytes s) = true → ToLower s = s.
Proof. intros H. unfold ToLower. by rewrite lowerBytes_label, unbytes_bytes. Qed.

(** ** Trimming dashes *)

Definition trimDashBytes (l : list ascii) : list ascii := rev (dropDash (rev (dropDash l))).

Lemma bytes_TrimDash s : bytes (TrimDash s) = trimDashBytes (bytes s).
Proof. unfold TrimDash. by rewrite bytes_unbytes. Qed.

Lemma dropDash_suffix l : ∃ ds, l = ds ++ dropDash l.
Proof.
  induction l as [|a l [ds IH]]; simpl; [by exists []|].
  destruct (isDash a); [exists (a :: ds); simpl; congruence|by exists []].
Qed.

Lemma trimDash_infix l : ∃ p q, l = p ++ trimDashBytes l ++ q.
Proof.
  destruct (dropDash_suffix l) as [p Hp].
  destruct (dropDash_suffix (rev (dropDash l))) as [q Hq].
  exists p, (rev q). unfold trimDashBytes.
  rewrite <-rev_app_distr, <-Hq, rev_involutive. done.
Qed.

Lemma trimDash_noDashEnds l : noDashEnds (trimDashBytes l) = true.
Proof.
  unfold noDashEnds, trimDashBytes.
  destruct (dropDash l) as [|a l'] eqn:E; [done|].
  pose proof (dropDash_head _ _ _ E) as Ha.
  assert (dropDash (rev (a :: l')) = dropDash (rev l') ++ [a]) as ->.
  { simpl. by apply dropDash_snoc. }
  rewrite rev_app_distr; simpl. rewrite Ha; simpl.
  destruct (dropDash (rev l')) as [|b r] eqn:E2; simpl; [by rewrite Ha|].
  rewrite app_comm_cons, last_snoc. by rewrite (dropDash_head _ _ _ E2).
Qed.

Lemma trimDash_forallb f l : forallb f l = true → forallb f (trimDashBytes l) = true.
Proof.
  destruct (trimDash_infix l) as (p & q & Hl). intros H. rewrite Hl in H.
  rewrite !forallb_app in H. by bool_props.
Qed.

Lemma trimDash_length l : length (trimDashBytes l) ≤ length l.
Proof.
  destruct (trimDash_infix l) as (p & q & Hl).
  rewrite Hl at 2. rewrite !length_app. lia.
Qed.

Lemma trimDash_id l : noDashEnds l = true → trimDashBytes l = l.
Proof.
  unfold noDashEnds, trimDashBytes. destruct l as [|a l]; [done|].
  destruct (last (a :: l)) as [b|] eqn:E; [|by apply last_None in E].
  simpl head. intros [Ha Hb]%andb_true_iff. bool_props.
  assert (dropDash (a :: l) = a :: l) as -> by (simpl; by rewrite Ha).
  apply last_Some in E as [l' ->]. rewrite rev_app_distr; simpl.
  rewrite Hb. simpl. by rewrite rev_involutive.
Qed.

Lemma singleDashes_app_l p q : singleDashes (p ++ q) = true → singleDashes p = true.
Proof.
  induction p as [|a p IH]; [done|]; simpl. destruct p as [|b p]; [done|].
  simpl. intros [-> H]%andb_true_iff. simpl. by apply IH.
Qed.
Lemma singleDashes_app_r p q : singleDashes (p ++ q) = true → singleDashes q = true.
Proof.
  induction p as [|a p IH]; [done|]; simpl. intros H. apply IH.
  destruct (p ++ q); [done|]. by bool_props.
Qed.

(** ** The sanitizer *)

Lemma sanitizeLoop_chars b l : forallb labelChar (sanitizeLoop b l) = true.
Proof.
  revert b. induction l as [|c l IH]; intros b; simpl; [done|].
  destruct (isLowerAlnum c) eqn:E; simpl; [unfold labelChar; by rewrite E, IH|].
  destruct b; simpl; by rewrite ?IH.
Qed.

Lemma sanitizeLoop_single b l :
  singleDashes (sanitizeLoop b l) = true
  ∧ (b = true → ∀ c t, sanitizeLoop b l = c :: t → isDash c = false).
Proof.
  revert b. induction l as [|c l IH]; intros b; simpl; [done|].
  destruct (isLowerAlnum c) eqn:E.
  - split; [|intros _ c' t [= <- <-]; by apply alnum_not_dash].
    destruct (IH false) as [H _]. destruct (sanitizeLoop false l); [done|].
    simpl in *. by rewrite (alnum_not_dash c E), H.
  - destruct (IH true) as [H H']. destruct b; [split; auto|]. split; [|done].
    destruct (sanitizeLoop true l) as [|d t] eqn:Et; [done|].
    change (negb (isDash dash && isDash d) && singleDashes (d :: t) = true).
    by rewrite (H' eq_refl d t eq_refl), H.
Qed.

Lemma sanitizeDNSLabel_clean s : cleanLabel (sanitizeDNSLabel s) = true.
Proof.
  unfold sanitizeDNSLabel. case_bool_decide; [reflexivity|].
  unfold cleanLabel, dnsShape. rewrite bytes_TrimDash, bytes_unbytes.
  rewrite trimDash_forallb by apply sanitizeLoop_chars.
  rewrite trimDash_noDashEnds. simpl.
  set (l := sanitizeLoop _ _). destruct (trimDash_infix l) as (p & q & Hl).
  apply (singleDashes_app_l _ q), (singleDashes_app_r p). rewrite <-Hl.
  apply sanitizeLoop_single.
Qed.

Lemma sanitizeLoop_id l b :
  forallb labelChar l = true → singleDashes l = true →
  (b = true → ∀ c t, l = c :: t → isDash c = false) → sanitizeLoop b l = l.
Proof.
  revert b. induction l as [|c l IH]; intros b Hl Hs Hb; simpl; [done|].
  simpl in Hl. bool_props.
  assert (singleDashes l = true) as Hs'.
  { destruct l; [done|]. simpl in Hs. by bool_props. }
  destruct (isLowerAlnum c) eqn:E.
  - f_equal. apply IH; done.
  - unfold labelChar in H. rewrite E in H. simpl in H.
    destruct b; [by rewrite (Hb eq_refl c l eq_refl) in H|].
    rewrite (isDash_dash c H). f_equal. apply IH; [done..|].
    intros _ d t ->. simpl in Hs. rewrite H in Hs. by destruct (isDash d).
Qed.

Lemma cleanLabel_sanitize s : cleanLabel s = true → sanitizeDNSLabel s = s.
Proof.
  unfold cleanLabel, dnsShape. intros H. bool_props.
  unfold sanitizeDNSLabel. rewrite ToLower_label, TrimSpace_label by done.
  case_bool_decide; [done|]. rewrite sanitizeLoop_id by done.
  rewrite unbytes_bytes. unfold TrimDash. fold (trimDashBytes (bytes s)).
  by rewrite trimDash_id, unbytes_bytes.
Qed.

Lemma sanitizeDNSLabel_idem s : sanitizeDNSLabel (sanitizeDNSLabel s) = sanitizeDNSLabel s.
Proof. apply cleanLabel_sanitize, sanitizeDNSLabel_clean. Qed.

Lemma sanitizeLabelValue_length s : String.length (sanitizeLabelValue s) ≤ 63.
Proof.
  unfold sanitizeLabelValue. case_match eqn:E.
  - rewrite takeStr_length. lia.
  - by apply Nat.ltb_ge in E.
Qed.

Lemma sanitizeLabelValue_short s :
  String.length (sanitizeDNSLabel s) ≤ 63 → sanitizeLabelValue s = sanitizeDNSLabel s.
Proof. intros H. unfold sanitizeLabelValue. by rewrite (proj2 (Nat.ltb_ge _ _) H). Qed.

Lemma sanitizeLabelValue_clean s :
  cleanLabel s = true → String.length s ≤ 63 → sanitizeLabelValue s = s.
Proof.
  intros H1 H2. rewrite sanitizeLabelValue_short; by rewrite (cleanLabel_sanitize s H1).
Qed.

(** ** Hash widths *)

Lemma round_length s kw : length (round s kw) = length s.
Proof. unfold round. do 9 (destruct s as [|? s]; [done|]). done. Qed.

Lemma fold_round_length l s : length (fold_left round l s) = length s.
Proof. revert s. induction l; intros; simpl; [done|]. by rewrite IHl, round_length. Qed.

Lemma compress_length h b : length (compress h b) = length h.
Proof. unfold compress. rewrite length_zip_with, fold_round_length. lia. Qed.

Lemma blocks_length n l h : length (blocks n l h) = length h.
Proof. revert l h. induction n; intros; simpl; [done|]. by rewrite IHn, compress_length. Qed.

Lemma unbe_length n x : length (unbe n x) = n.
Proof. induction n; simpl; congruence. Qed.

Lemma concat_const_length {A B} (f : A → list B) n l :
  (∀ a, length (f a) = n) → length (concat (map f l)) = length l * n.
Proof. intros H. induction l; simpl; [done|]. rewrite length_app, H, IHl. done. Qed.

Lemma sha256Hex_length s : String.length (sha256Hex s) = 64.
Proof.
  unfold sha256Hex. rewrite length_unbytes, (concat_const_length hexByte 2) by done.
  unfold Sum256. rewrite (concat_const_length (unbe 4) 4) by (intros; apply unbe_length).
  by rewrite blocks_length.
Qed.

Lemma shortHash_length s : String.length (shortHash s) = 12.
Proof. unfold shortHash. by rewrite takeStr_length, sha256Hex_length. Qed.

(** ** Child names *)

Lemma bytes_app s t : bytes (s +:+ t) = bytes s ++ bytes t.
Proof. induction s as [|c s IH]; [done|]. simpl. f_equal. apply IH. Qed.

Lemma bytes_nil s : bytes s = [] → s = "".
Proof. intros H. by rewrite <-(unbytes_bytes s), H. Qed.

Lemma length_append s t : String.length (s +:+ t) = String.length s + String.length t.
Proof. by rewrite <-!length_bytes, bytes_app, length_app. Qed.

Lemma length_nonempty s : s ≠ "" → 1 ≤ String.length s.
Proof. destruct s; simpl; [done|lia]. Qed.

Lemma dnsShape_dash a b :
  a ≠ "" → b ≠ "" → dnsShape a = true → dnsShape b = true →
  dnsShape (a +:+ "-" +:+ b) = true.
Proof.
  unfold dnsShape. intros Na Nb [Ha1 Ha2]%andb_true_iff [Hb1 Hb2]%andb_true_iff.
  rewrite !bytes_app, !forallb_app, Ha1, Hb1. simpl.
  destruct (bytes a) as [|x l] eqn:Ea; [by apply bytes_nil in Ea|].
  destruct (bytes b) as [|y r] eqn:Eb; [by apply bytes_nil in Eb|].
  unfold noDashEnds in *.
  destruct (last (x :: l)) as [a0|] eqn:E1; [|by apply last_None in E1].
  destruct (last (y :: r)) as [a1|] eqn:E2; [|by apply last_None in E2].
  assert (last (x :: l ++ dash :: y :: r) = Some a1) as Hlast by
    (rewrite app_comm_cons, last_app_cons; exact E2).
  simpl in Ha2, Hb2. apply andb_true_iff in Ha2 as [Hx _], Hb2 as [_ Hy].
  change (match last (x :: l ++ dash :: y :: r) with
          | Some b => negb (isDash x) && negb (isDash b) | None => true end = true).
  by rewrite Hlast, Hx, Hy.
Qed.

Lemma dnsShape_TrimDash s : forallb labelChar (bytes s) = true → dnsShape (TrimDash s) = true.
Proof.
  intros H. unfold dnsShape. rewrite bytes_TrimDash, trimDash_noDashEnds.
  by rewrite trimDash_forallb.
Qed.

Lemma dnsShape_chars s : dnsShape s = true → forallb labelChar (bytes s) = true.
Proof. unfold dnsShape. intros. by bool_props. Qed.

Lemma forallb_take {A} (f : A → bool) n l : forallb f l = true → forallb f (take n l) = true.
Proof.
  revert n. induction l; intros [|n] H; simpl in *; bool_props; try done.
  by rewrite H, IHl.
Qed.

Lemma takeStr_chars n s :
  forallb labelChar (bytes s) = true → forallb labelChar (bytes (takeStr n s)) = true.
Proof. intros. unfold takeStr. rewrite bytes_unbytes. by apply forallb_take. Qed.

Lemma Join_dnsShape ts :
  Forall (λ t, t ≠ "" ∧ dnsShape t = true) ts →
  dnsShape (Join ts "-") = true ∧ (ts ≠ [] → Join ts "-" ≠ "").
Proof.
  induction 1 as [|t ts [Hn Ht] Hts [IH1 IH2]]; [done|].
  destruct ts as [|u ts]; [done|].
  change (Join (t :: u :: ts) "-") with (t +:+ "-" +:+ Join (u :: ts) "-").
  split; [by apply dnsShape_dash; auto|].
  intros _. intros [=H]%(f_equal String.length). rewrite length_append in H.
  pose proof (length_nonempty t Hn). simpl in H. lia.
Qed.

Lemma hexDigit_alnum n : (n < 16)%N → isLowerAlnum (hexDigit n) = true.
Proof.
  intros. unfold hexDigit, isLowerAlnum, code.
  destruct (N.ltb_spec n 10); rewrite N_ascii_embedding by lia;
    apply orb_true_iff; rewrite !andb_true_iff, !N.leb_le; lia.
Qed.

Lemma sha256Hex_alnum s : Forall (λ c, isLowerAlnum c = true) (bytes (sha256Hex s)).
Proof.
  unfold sha256Hex, Sum256. rewrite bytes_unbytes.
  assert (∀ n x, Forall (λ b, b < 256)%N (unbe n x)) as Hun.
  { intros n x. induction n; simpl; constructor; [|done]. by apply N.mod_lt. }
  apply Forall_concat, Forall_map. eapply Forall_impl; [apply Forall_concat, Forall_map|].
  - eapply Forall_true. intros w. apply Hun.
  - intros b Hb; simpl in *. unfold hexByte.
    assert (b / 16 < 16)%N by (apply N.Div0.div_lt_upper_bound; lia).
    assert (b mod 16 < 16)%N by (by apply N.mod_lt).
    repeat constructor; by apply hexDigit_alnum.
Qed.

Lemma alnum_dnsShape s :
  Forall (λ c, isLowerAlnum c = true) (bytes s) → dnsShape s = true.
Proof.
  intros H. unfold dnsShape, noDashEnds. apply andb_true_iff. split.
  - apply forallb_forall. intros c Hc. unfold labelChar.
    rewrite List.Forall_forall in H. by rewrite (H c Hc).
  - destruct (head (bytes s)) eqn:E1; [|done]. destruct (last (bytes s)) eqn:E2; [|done].
    rewrite Forall_forall in H.
    rewrite !alnum_not_dash; [done|apply H..].
    + apply last_Some_elem_of in E2. done.
    + apply head_Some_elem_of in E1. done.
Qed.

Lemma shortHash_dnsShape s : dnsShape (shortHash s) = true.
Proof.
  apply alnum_dnsShape. unfold shortHash, takeStr. rewrite bytes_unbytes.
  apply Forall_take, sha256Hex_alnum.
Qed.

Lemma shortHash_nonempty s : shortHash s ≠ "".
Proof. intros E. pose proof (shortHash_length s). by rewrite E in H. Qed.

Definition childTokens (parts : list string) : list string :=
  filter (λ t, t ≠ "") (map sanitizeDNSLabel parts).

Lemma childTokens_ok parts : Forall (λ t, t ≠ "" ∧ dnsShape t = true) (childTokens parts).
Proof.
  apply Forall_forall. intros t [Hn Ht]%list_elem_of_filter. split; [done|].
  apply list_elem_of_fmap in Ht as (p & -> & _).
  pose proof (sanitizeDNSLabel_clean p) as H. unfold cleanLabel in H. by bool_props.
Qed.

(** A prefix cut from a name, a dash and a suffix form a label of 63 bytes. *)
Lemma prefixed_dns name suffix :
  forallb labelChar (bytes name) = true → suffix ≠ "" → dnsShape suffix = true →
  String.length suffix < 63 →
  let prefix := TrimDash (takeStr (63 - String.length suffix - 1) name) in
  let r := if bool_decide (prefix = "") then suffix else prefix +:+ "-" +:+ suffix in
  dnsShape r = true ∧ String.length r ≤ 63 ∧ r ≠ "".
Proof.
  intros Hn Hne Hs Hl prefix. pose proof (length_nonempty suffix Hne).
  case_bool_decide as Hp; [split_and!; auto with lia|]. split_and!.
  - apply dnsShape_dash; [done..| |done]. by apply dnsShape_TrimDash, takeStr_chars.
  - rewrite !length_append. simpl.
    assert (String.length prefix ≤ 63 - String.length suffix - 1); [|lia].
    unfold prefix. rewrite <-length_bytes, bytes_TrimDash.
    etrans; [apply trimDash_length|]. rewrite length_bytes, takeStr_length. lia.
  - intros E%(f_equal String.length). rewrite !length_append in E. simpl in E. lia.
Qed.

Lemma agentRunChildName_cases parts :
  dnsShape (agentRunChildName parts) = true
  ∧ String.length (agentRunChildName parts) ≤ 63
  ∧ (childTokens parts ≠ [] → agentRunChildName parts ≠ "").
Proof.
  pose proof (childTokens_ok parts) as Hok.
  destruct (Join_dnsShape _ Hok) as [Hshape Hne].
  unfold agentRunChildName. fold (childTokens parts) in *.
  destruct (Nat.leb_spec (String.length (Join (childTokens parts) "-")) 63); [by eauto|].
  destruct (childTokens parts) as [|t ts] eqn:Et; [simpl in *; lia|]. rewrite <-Et in *.
  destruct (last (childTokens parts)) as [suf|] eqn:El; [|by rewrite Et in El; apply last_None in El].
  simpl default. assert (suf ≠ "" ∧ dnsShape suf = true) as [Hs1 Hs2].
  { rewrite Forall_forall in Hok. apply Hok. by apply last_Some_elem_of. }
  apply dnsShape_chars in Hshape.
  destruct (Nat.ltb_spec (String.length suf) 63).
  - destruct (prefixed_dns _ suf Hshape Hs1 Hs2) as (?&?&?); [done|].
    rewrite bool_decide_not. case_bool_decide; simpl; auto.
  - destruct (prefixed_dns _ (shortHash (Join (childTokens parts) "-")) Hshape
      (shortHash_nonempty _) (shortHash_dnsShape _)) as (?&?&?); [rewrite shortHash_length; lia|].
    auto.
Qed.

(** Every name [agentRunChildName] returns is a DNS-1123 label: lower-case
    letters, digits and dashes, no dash at either end, at most 63 bytes; and it
    is not empty when one of the parts has a character to keep.  This covers the
    three truncation branches, the hashed one included. *)
Theorem agentRunChildName_dns parts :
  dnsShape (agentRunChildName parts) = true
  ∧ (String.length (agentRunChildName parts) ≤ 63)%nat
  ∧ (Exists (λ p, sanitizeDNSLabel p ≠ "") parts → agentRunChildName parts ≠ "").
Proof.
  destruct (agentRunChildName_cases parts) as (H1 & H2 & H3).
  split_and!; [done..|]. intros [p [Hp Hn]]%Exists_exists. apply H3.
  intros E. assert (sanitizeDNSLabel p ∈ childTokens parts) as Hin.
  { apply list_elem_of_filter. split; [done|]. apply list_elem_of_fmap. eauto. }
  rewrite E in Hin. by apply elem_of_nil in Hin.
Qed.

(** A sanitized label value can be one that Kubernetes rejects: the cut at
    63 bytes comes after the dashes are trimmed, so a longer name can lose its
    end right behind a dash. *)
Theorem label_value_ends_in_dash :
  let name := unbytes (replicate 62 "a"%char) +:+ "-b" in
  sanitizeDNSLabel name = name
  ∧ sanitizeLabelValue name = unbytes (replicate 62 "a"%char) +:+ "-"
  ∧ dnsShape (sanitizeLabelValue name) = false.
Proof. vm_compute. auto. Qed.
