(* ===== verification/ApiRun.v ===== *)
(** * API types: AgentRun

    The types of [src/api/v1alpha1/agent_run_types.go] (with the profile,
    skill, tool and substrate types it refers to), field for field.  A record
    field carries the Go field name behind a prefix for its struct; Go's
    string-based enums are strings, because nothing in the code stops another
    value from arriving; pointers are options; slices are lists (a nil slice and
    an empty one are not told apart, as their JSON with [omitempty] is not);
    string maps are [gmap]s.  [eta_T] lists the fields of [T] for record update,
    [zero_T] is Go's zero value [T{}].

    Types of the Kubernetes libraries are kept to the fields the code reads; a
    value it only carries around is a [Raw], its JSON text. *)

From stdpp Require Import base list gmap strings.
From Stdlib Require Import ZArith.
From S2P Require Import Prelude GoStrings GoTime.

Open Scope Z_scope.

(** ** Kubernetes types *)

Definition Raw := string.

(** A condition of [metav1]; its [ObservedGeneration] and transition time are
    carried along. *)
Record Condition := mkCondition {
  cond_Type : string;
  cond_Status : string;
  cond_ObservedGeneration : Z;
  cond_LastTransitionTime : Time;
  cond_Reason : string;
  cond_Message : string }.

Definition ConditionTrue := "True".
Definition ConditionFalse := "False".

Record OwnerReference := mkOwnerReference {
  own_APIVersion : string;
  own_Kind : string;
  own_Name : string;
  own_UID : string;
  own_Controller : option bool }.

Record ObjectMeta := mkObjectMeta {
  meta_Name : string;
  meta_Namespace : string;
  meta_UID : string;
  meta_ResourceVersion : string;
  meta_Generation : Z;
  meta_CreationTimestamp : Time;
  meta_DeletionTimestamp : option Time;
  meta_Labels : gmap string string;
  meta_Annotations : gmap string string;
  meta_OwnerReferences : list OwnerReference;
  meta_Finalizers : list string }.
#[export] Instance eta_ObjectMeta : Eta ObjectMeta := λ r, mkObjectMeta
  (meta_Name r) (meta_Namespace r) (meta_UID r) (meta_ResourceVersion r)
  (meta_Generation r) (meta_CreationTimestamp r) (meta_DeletionTimestamp r)
  (meta_Labels r) (meta_Annotations r) (meta_OwnerReferences r) (meta_Finalizers r).
Definition zero_ObjectMeta : ObjectMeta :=
  mkObjectMeta "" "" "" "" 0 zeroTime None ∅ ∅ [] [].

(** Go: [m[k]] on a string map: the empty string when absent. *)
Definition mapGet (m : gmap string string) (k : string) : string := default "" (m !! k).

Record FileKeySelector := mkFileKeySelector {
  fks_Rest : Raw;
  fks_Optional : option bool }.
Record ObjectFieldSelector := mkObjectFieldSelector {
  ofs_APIVersion : string;
  ofs_FieldPath : string }.
Record EnvVarSource := mkEnvVarSource {
  evs_Rest : Raw;
  evs_FieldRef : option ObjectFieldSelector;
  evs_FileKeyRef : option FileKeySelector }.
Record EnvVar := mkEnvVar {
  env_Name : string;
  env_Value : string;
  env_ValueFrom : option EnvVarSource }.
Record LocalObjectReference := mkLocalObjectReference { lor_Name : string }.
Record ResourceRequirements := mkResourceRequirements {
  res_Limits : gmap string string;
  res_Requests : gmap string string;
  res_Claims : list Raw }.
Definition zero_ResourceRequirements := mkResourceRequirements ∅ ∅ [].

(** Security contexts: the fields the code decides, and the rest as JSON text. *)
Record SecurityCapabilities := mkSecurityCapabilities {
  cap_Add : list string;
  cap_Drop : list string }.
Record SecurityContext := mkSecurityContext {
  sec_AllowPrivilegeEscalation : option bool;
  sec_Privileged : option bool;
  sec_RunAsNonRoot : option bool;
  sec_Capabilities : option SecurityCapabilities;
  sec_Rest : Raw }.
#[export] Instance eta_SecurityContext : Eta SecurityContext := λ r, mkSecurityContext
  (sec_AllowPrivilegeEscalation r) (sec_Privileged r) (sec_RunAsNonRoot r) (sec_Capabilities r) (sec_Rest r).
Record PodSecurityContext := mkPodSecurityContext {
  psc_RunAsNonRoot : option bool;
  psc_SeccompProfile : option Raw;
  psc_FSGroup : option Z;
  psc_Rest : Raw }.
#[export] Instance eta_PodSecurityContext : Eta PodSecurityContext := λ r, mkPodSecurityContext
  (psc_RunAsNonRoot r) (psc_SeccompProfile r) (psc_FSGroup r) (psc_Rest r).

(** ** References *)

Record NamespacedObjectReference := mkNamespacedObjectReference {
  ref_Name : string;
  ref_Namespace : string }.
#[export] Instance eta_NamespacedObjectReference : Eta NamespacedObjectReference := λ r, mkNamespacedObjectReference
  (ref_Name r) (ref_Namespace r).
Definition zero_NamespacedObjectReference : NamespacedObjectReference := mkNamespacedObjectReference
  "" "".

Record SecretKeyReference := mkSecretKeyReference {
  skr_Name : string;
  skr_Namespace : string;
  skr_Key : string }.
#[export] Instance eta_SecretKeyReference : Eta SecretKeyReference := λ r, mkSecretKeyReference
  (skr_Name r) (skr_Namespace r) (skr_Key r).
Definition zero_SecretKeyReference : SecretKeyReference := mkSecretKeyReference
  "" "" "".

Record ApplicationReferenceSpec := mkApplicationReferenceSpec {
  app_Name : string }.
#[export] Instance eta_ApplicationReferenceSpec : Eta ApplicationReferenceSpec := λ r, mkApplicationReferenceSpec
  (app_Name r).
Definition zero_ApplicationReferenceSpec : ApplicationReferenceSpec := mkApplicationReferenceSpec
  "".

Record ApplicationTargetReferenceSpec := mkApplicationTargetReferenceSpec {
  apt_Name : string }.
#[export] Instance eta_ApplicationTargetReferenceSpec : Eta ApplicationTargetReferenceSpec := λ r, mkApplicationTargetReferenceSpec
  (apt_Name r).
Definition zero_ApplicationTargetReferenceSpec : ApplicationTargetReferenceSpec := mkApplicationTargetReferenceSpec
  "".

(** ** Source, trigger and scope *)

Record AgentRunSourceRef := mkAgentRunSourceRef {
  src_APIVersion : string;
  src_Kind : string;
  src_Namespace : string;
  src_Name : string }.
#[export] Instance eta_AgentRunSourceRef : Eta AgentRunSourceRef := λ r, mkAgentRunSourceRef
  (src_APIVersion r) (src_Kind r) (src_Namespace r) (src_Name r).
Definition zero_AgentRunSourceRef : AgentRunSourceRef := mkAgentRunSourceRef
  "" "" "" "".

Record AgentRunTriggerSnapshot := mkAgentRunTriggerSnapshot {
  trg_Phase : string;
  trg_ConditionType : string;
  trg_ConditionStatus : string;
  trg_Reason : string;
  trg_Message : string;
  trg_ObservedGeneration : Z;
  trg_ResourceVersion : string;
  trg_DetectedAt : option Time }.
#[export] Instance eta_AgentRunTriggerSnapshot : Eta AgentRunTriggerSnapshot := λ r, mkAgentRunTriggerSnapshot
  (trg_Phase r) (trg_ConditionType r) (trg_ConditionStatus r) (trg_Reason r)
  (trg_Message r) (trg_ObservedGeneration r) (trg_ResourceVersion r)
  (trg_DetectedAt r).
Definition zero_AgentRunTriggerSnapshot : AgentRunTriggerSnapshot := mkAgentRunTriggerSnapshot
  "" "" "" "" "" 0 "" None.

Record AgentRunRepositorySpec := mkAgentRunRepositorySpec {
  repo_Name : string;
  repo_URL : string;
  repo_Ref : string;
  repo_DestinationBranch : string;
  repo_AllowedBranches : list string }.
#[export] Instance eta_AgentRunRepositorySpec : Eta AgentRunRepositorySpec := λ r, mkAgentRunRepositorySpec
  (repo_Name r) (repo_URL r) (repo_Ref r) (repo_DestinationBranch r)
  (repo_AllowedBranches r).
Definition zero_AgentRunRepositorySpec : AgentRunRepositorySpec := mkAgentRunRepositorySpec
  "" "" "" "" [].

Record AgentRunScopeSpec := mkAgentRunScopeSpec {
  scope_Summary : string;
  scope_ApplicationRef : option ApplicationReferenceSpec;
  scope_ApplicationTargetRef : option ApplicationTargetReferenceSpec;
  scope_Namespaces : list string;
  scope_ResourceKinds : list string;
  scope_Repository : option AgentRunRepositorySpec }.
#[export] Instance eta_AgentRunScopeSpec : Eta AgentRunScopeSpec := λ r, mkAgentRunScopeSpec
  (scope_Summary r) (scope_ApplicationRef r) (scope_ApplicationTargetRef r)
  (scope_Namespaces r) (scope_ResourceKinds r) (scope_Repository r).
Definition zero_AgentRunScopeSpec : AgentRunScopeSpec := mkAgentRunScopeSpec
  "" None None [] [] None.

Record AgentRunDocsSpec := mkAgentRunDocsSpec {
  docs_Policy : string;
  docs_Paths : list string;
  docs_RuntimePaths : list string;
  docs_Notes : string }.
#[export] Instance eta_AgentRunDocsSpec : Eta AgentRunDocsSpec := λ r, mkAgentRunDocsSpec
  (docs_Policy r) (docs_Paths r) (docs_RuntimePaths r) (docs_Notes r).
Definition zero_AgentRunDocsSpec : AgentRunDocsSpec := mkAgentRunDocsSpec
  "" [] [] "".

Record AgentRunIssueRef := mkAgentRunIssueRef {
  issue_Repository : string;
  issue_Number : Z }.
#[export] Instance eta_AgentRunIssueRef : Eta AgentRunIssueRef := λ r, mkAgentRunIssueRef
  (issue_Repository r) (issue_Number r).
Definition zero_AgentRunIssueRef : AgentRunIssueRef := mkAgentRunIssueRef
  "" 0.

Record AgentRunIssueTrackingSpec := mkAgentRunIssueTrackingSpec {
  it_Provider : string;
  it_Repository : string;
  it_Issues : list AgentRunIssueRef;
  it_SearchQuery : string;
  it_UpdatePolicy : string }.
#[export] Instance eta_AgentRunIssueTrackingSpec : Eta AgentRunIssueTrackingSpec := λ r, mkAgentRunIssueTrackingSpec
  (it_Provider r) (it_Repository r) (it_Issues r) (it_SearchQuery r)
  (it_UpdatePolicy r).
Definition zero_AgentRunIssueTrackingSpec : AgentRunIssueTrackingSpec := mkAgentRunIssueTrackingSpec
  "" "" [] "" "".

(** ** Backends *)

Record AgentRunCodexBackendSpec := mkAgentRunCodexBackendSpec {
  codex_Model : string;
  codex_ReasoningEffort : string;
  codex_Verbosity : string;
  codex_ServiceTier : string;
  codex_GoalMode : bool;
  codex_Goal : string;
  codex_Sandbox : string;
  codex_AdditionalArgs : list string }.
#[export] Instance eta_AgentRunCodexBackendSpec : Eta AgentRunCodexBackendSpec := λ r, mkAgentRunCodexBackendSpec
  (codex_Model r) (codex_ReasoningEffort r) (codex_Verbosity r)
  (codex_ServiceTier r) (codex_GoalMode r) (codex_Goal r) (codex_Sandbox r)
  (codex_AdditionalArgs r).
Definition zero_AgentRunCodexBackendSpec : AgentRunCodexBackendSpec := mkAgentRunCodexBackendSpec
  "" "" "" "" false "" "" [].

Record AgentRunOpenCodeBackendSpec := mkAgentRunOpenCodeBackendSpec {
  oc_Model : string;
  oc_Agent : string;
  oc_Variant : string;
  oc_Format : string;
  oc_Auto : option bool;
  oc_Pure : option bool;
  oc_AdditionalArgs : list string }.
#[export] Instance eta_AgentRunOpenCodeBackendSpec : Eta AgentRunOpenCodeBackendSpec := λ r, mkAgentRunOpenCodeBackendSpec
  (oc_Model r) (oc_Agent r) (oc_Variant r) (oc_Format r) (oc_Auto r)
  (oc_Pure r) (oc_AdditionalArgs r).
Definition zero_AgentRunOpenCodeBackendSpec : AgentRunOpenCodeBackendSpec := mkAgentRunOpenCodeBackendSpec
  "" "" "" "" None None [].

Record AgentRunHermesBackendSpec := mkAgentRunHermesBackendSpec {
  hermes_Model : string;
  hermes_ReasoningEffort : string;
  hermes_ServiceTier : string;
  hermes_Profile : string;
  hermes_UseCodexAppServer : bool;
  hermes_AdditionalArgs : list string }.
#[export] Instance eta_AgentRunHermesBackendSpec : Eta AgentRunHermesBackendSpec := λ r, mkAgentRunHermesBackendSpec
  (hermes_Model r) (hermes_ReasoningEffort r) (hermes_ServiceTier r)
  (hermes_Profile r) (hermes_UseCodexAppServer r) (hermes_AdditionalArgs r).
Definition zero_AgentRunHermesBackendSpec : AgentRunHermesBackendSpec := mkAgentRunHermesBackendSpec
  "" "" "" "" false [].

Record AgentRunOpenClawBackendSpec := mkAgentRunOpenClawBackendSpec {
  claw_AgentID : string;
  claw_Model : string;
  claw_Thinking : string;
  claw_ServiceTier : string;
  claw_Local : option bool;
  claw_AdditionalArgs : list string }.
#[export] Instance eta_AgentRunOpenClawBackendSpec : Eta AgentRunOpenClawBackendSpec := λ r, mkAgentRunOpenClawBackendSpec
  (claw_AgentID r) (claw_Model r) (claw_Thinking r) (claw_ServiceTier r)
  (claw_Local r) (claw_AdditionalArgs r).
Definition zero_AgentRunOpenClawBackendSpec : AgentRunOpenClawBackendSpec := mkAgentRunOpenClawBackendSpec
  "" "" "" "" None [].

Record AgentRunGrokBuildBackendSpec := mkAgentRunGrokBuildBackendSpec {
  grok_Model : string;
  grok_ReasoningEffort : string;
  grok_ServiceTier : string;
  grok_Profile : string;
  grok_Command : string;
  grok_AdditionalArgs : list string }.
#[export] Instance eta_AgentRunGrokBuildBackendSpec : Eta AgentRunGrokBuildBackendSpec := λ r, mkAgentRunGrokBuildBackendSpec
  (grok_Model r) (grok_ReasoningEffort r) (grok_ServiceTier r)
  (grok_Profile r) (grok_Command r) (grok_AdditionalArgs r).
Definition zero_AgentRunGrokBuildBackendSpec : AgentRunGrokBuildBackendSpec := mkAgentRunGrokBuildBackendSpec
  "" "" "" "" "" [].

Record AgentRunPiBackendSpec := mkAgentRunPiBackendSpec {
  pi_Provider : string;
  pi_Model : string;
  pi_Thinking : string;
  pi_Mode : string;
  pi_NoSession : bool;
  pi_AdditionalArgs : list string }.
#[export] Instance eta_AgentRunPiBackendSpec : Eta AgentRunPiBackendSpec := λ r, mkAgentRunPiBackendSpec
  (pi_Provider r) (pi_Model r) (pi_Thinking r) (pi_Mode r) (pi_NoSession r)
  (pi_AdditionalArgs r).
Definition zero_AgentRunPiBackendSpec : AgentRunPiBackendSpec := mkAgentRunPiBackendSpec
  "" "" "" "" false [].

Record AgentRunPrimeBackendSpec := mkAgentRunPrimeBackendSpec {
  prime_Provider : string;
  prime_Model : string;
  prime_Thinking : string;
  prime_Mode : string;
  prime_NoSession : bool;
  prime_AdditionalArgs : list string }.
#[export] Instance eta_AgentRunPrimeBackendSpec : Eta AgentRunPrimeBackendSpec := λ r, mkAgentRunPrimeBackendSpec
  (prime_Provider r) (prime_Model r) (prime_Thinking r) (prime_Mode r)
  (prime_NoSession r) (prime_AdditionalArgs r).
Definition zero_AgentRunPrimeBackendSpec : AgentRunPrimeBackendSpec := mkAgentRunPrimeBackendSpec
  "" "" "" "" false [].

Record AgentRunAgyBackendSpec := mkAgentRunAgyBackendSpec {
  agy_Model : string;
  agy_Mode : string;
  agy_Thinking : string;
  agy_AdditionalArgs : list string }.
#[export] Instance eta_AgentRunAgyBackendSpec : Eta AgentRunAgyBackendSpec := λ r, mkAgentRunAgyBackendSpec
  (agy_Model r) (agy_Mode r) (agy_Thinking r) (agy_AdditionalArgs r).
Definition zero_AgentRunAgyBackendSpec : AgentRunAgyBackendSpec := mkAgentRunAgyBackendSpec
  "" "" "" [].

Record AgentRunCustomBackendSpec := mkAgentRunCustomBackendSpec {
  custom_Command : list string;
  custom_Args : list string }.
#[export] Instance eta_AgentRunCustomBackendSpec : Eta AgentRunCustomBackendSpec := λ r, mkAgentRunCustomBackendSpec
  (custom_Command r) (custom_Args r).
Definition zero_AgentRunCustomBackendSpec : AgentRunCustomBackendSpec := mkAgentRunCustomBackendSpec
  [] [].

Record AgentRunHarnessBackendSpec := mkAgentRunHarnessBackendSpec {
  be_Kind : string;
  be_Image : string;
  be_ModelProvider : string;
  be_ProviderAuthMode : string;
  be_ImagePullPolicy : string;
  be_Codex : option AgentRunCodexBackendSpec;
  be_OpenCode : option AgentRunOpenCodeBackendSpec;
  be_HermesAgent : option AgentRunHermesBackendSpec;
  be_OpenClaw : option AgentRunOpenClawBackendSpec;
  be_GrokBuild : option AgentRunGrokBuildBackendSpec;
  be_PiAgent : option AgentRunPiBackendSpec;
  be_PrimeAgent : option AgentRunPrimeBackendSpec;
  be_Agy : option AgentRunAgyBackendSpec;
  be_Custom : option AgentRunCustomBackendSpec }.
#[export] Instance eta_AgentRunHarnessBackendSpec : Eta AgentRunHarnessBackendSpec := λ r, mkAgentRunHarnessBackendSpec
  (be_Kind r) (be_Image r) (be_ModelProvider r) (be_ProviderAuthMode r)
  (be_ImagePullPolicy r) (be_Codex r) (be_OpenCode r) (be_HermesAgent r)
  (be_OpenClaw r) (be_GrokBuild r) (be_PiAgent r) (be_PrimeAgent r) (be_Agy r)
  (be_Custom r).
Definition zero_AgentRunHarnessBackendSpec : AgentRunHarnessBackendSpec := mkAgentRunHarnessBackendSpec
  "" "" "" "" "" None None None None None None None None None.

(** ** Capabilities *)

Record AgentRunGitHubSkillSourceSpec := mkAgentRunGitHubSkillSourceSpec {
  ghs_Repository : string;
  ghs_Ref : string;
  ghs_Path : string;
  ghs_APIBaseURL : string }.
#[export] Instance eta_AgentRunGitHubSkillSourceSpec : Eta AgentRunGitHubSkillSourceSpec := λ r, mkAgentRunGitHubSkillSourceSpec
  (ghs_Repository r) (ghs_Ref r) (ghs_Path r) (ghs_APIBaseURL r).
Definition zero_AgentRunGitHubSkillSourceSpec : AgentRunGitHubSkillSourceSpec := mkAgentRunGitHubSkillSourceSpec
  "" "" "" "".

Record AgentRunSkillSourceRef := mkAgentRunSkillSourceRef {
  ssr_GitHub : option AgentRunGitHubSkillSourceSpec }.
#[export] Instance eta_AgentRunSkillSourceRef : Eta AgentRunSkillSourceRef := λ r, mkAgentRunSkillSourceRef
  (ssr_GitHub r).
Definition zero_AgentRunSkillSourceRef : AgentRunSkillSourceRef := mkAgentRunSkillSourceRef
  None.

Record AgentRunSkillInjectionSpec := mkAgentRunSkillInjectionSpec {
  skill_Name : string;
  skill_Description : string;
  skill_Content : string;
  skill_SourceRefs : list AgentRunSkillSourceRef;
  skill_Paths : list string }.
#[export] Instance eta_AgentRunSkillInjectionSpec : Eta AgentRunSkillInjectionSpec := λ r, mkAgentRunSkillInjectionSpec
  (skill_Name r) (skill_Description r) (skill_Content r) (skill_SourceRefs r)
  (skill_Paths r).
Definition zero_AgentRunSkillInjectionSpec : AgentRunSkillInjectionSpec := mkAgentRunSkillInjectionSpec
  "" "" "" [] [].

Record AgentSkillOverrideSpec := mkAgentSkillOverrideSpec {
  ov_Name : string;
  ov_Operation : string;
  ov_Description : string;
  ov_Content : string;
  ov_SourceRefs : list AgentRunSkillSourceRef;
  ov_Paths : list string }.
#[export] Instance eta_AgentSkillOverrideSpec : Eta AgentSkillOverrideSpec := λ r, mkAgentSkillOverrideSpec
  (ov_Name r) (ov_Operation r) (ov_Description r) (ov_Content r)
  (ov_SourceRefs r) (ov_Paths r).
Definition zero_AgentSkillOverrideSpec : AgentSkillOverrideSpec := mkAgentSkillOverrideSpec
  "" "" "" "" [] [].

Record AgentSkillCompositionSpec := mkAgentSkillCompositionSpec {
  sc_Mode : string;
  sc_Refs : list NamespacedObjectReference;
  sc_Overrides : list AgentSkillOverrideSpec;
  sc_ExcludeGlobal : bool }.
#[export] Instance eta_AgentSkillCompositionSpec : Eta AgentSkillCompositionSpec := λ r, mkAgentSkillCompositionSpec
  (sc_Mode r) (sc_Refs r) (sc_Overrides r) (sc_ExcludeGlobal r).
Definition zero_AgentSkillCompositionSpec : AgentSkillCompositionSpec := mkAgentSkillCompositionSpec
  "" [] [] false.

Record AgentToolCompositionSpec := mkAgentToolCompositionSpec {
  tc_Mode : string;
  tc_Refs : list NamespacedObjectReference;
  tc_ExcludeGlobal : bool }.
#[export] Instance eta_AgentToolCompositionSpec : Eta AgentToolCompositionSpec := λ r, mkAgentToolCompositionSpec
  (tc_Mode r) (tc_Refs r) (tc_ExcludeGlobal r).
Definition zero_AgentToolCompositionSpec : AgentToolCompositionSpec := mkAgentToolCompositionSpec
  "" [] false.

Record AgentRunGitHubSkillCredential := mkAgentRunGitHubSkillCredential {
  cred_APIHost : string;
  cred_TokenSecretRef : SecretKeyReference }.
#[export] Instance eta_AgentRunGitHubSkillCredential : Eta AgentRunGitHubSkillCredential := λ r, mkAgentRunGitHubSkillCredential
  (cred_APIHost r) (cred_TokenSecretRef r).
Definition zero_AgentRunGitHubSkillCredential : AgentRunGitHubSkillCredential := mkAgentRunGitHubSkillCredential
  "" zero_SecretKeyReference.

Record AgentRunSubagentSpec := mkAgentRunSubagentSpec {
  sub_Name : string;
  sub_Description : string;
  sub_When : string;
  sub_ToolNames : list string;
  sub_SystemPrompt : string }.
#[export] Instance eta_AgentRunSubagentSpec : Eta AgentRunSubagentSpec := λ r, mkAgentRunSubagentSpec
  (sub_Name r) (sub_Description r) (sub_When r) (sub_ToolNames r)
  (sub_SystemPrompt r).
Definition zero_AgentRunSubagentSpec : AgentRunSubagentSpec := mkAgentRunSubagentSpec
  "" "" "" [] "".

Record AgentRunToolImageInitializerSpec := mkAgentRunToolImageInitializerSpec {
  tii_Image : string;
  tii_Command : list string;
  tii_Args : list string }.
#[export] Instance eta_AgentRunToolImageInitializerSpec : Eta AgentRunToolImageInitializerSpec := λ r, mkAgentRunToolImageInitializerSpec
  (tii_Image r) (tii_Command r) (tii_Args r).
Definition zero_AgentRunToolImageInitializerSpec : AgentRunToolImageInitializerSpec := mkAgentRunToolImageInitializerSpec
  "" [] [].

Record AgentRunToolSpec := mkAgentRunToolSpec {
  tool_Name : string;
  tool_Description : string;
  tool_SetupScript : string;
  tool_ImageInitializer : option AgentRunToolImageInitializerSpec;
  tool_VerifyCommand : list string }.
#[export] Instance eta_AgentRunToolSpec : Eta AgentRunToolSpec := λ r, mkAgentRunToolSpec
  (tool_Name r) (tool_Description r) (tool_SetupScript r)
  (tool_ImageInitializer r) (tool_VerifyCommand r).
Definition zero_AgentRunToolSpec : AgentRunToolSpec := mkAgentRunToolSpec
  "" "" "" None [].

Record AgentRunDataVolumeRef := mkAgentRunDataVolumeRef {
  dvr_Name : string;
  dvr_Namespace : string;
  dvr_MountPath : string;
  dvr_SubPath : string;
  dvr_ReadOnly : bool }.
#[export] Instance eta_AgentRunDataVolumeRef : Eta AgentRunDataVolumeRef := λ r, mkAgentRunDataVolumeRef
  (dvr_Name r) (dvr_Namespace r) (dvr_MountPath r) (dvr_SubPath r)
  (dvr_ReadOnly r).
Definition zero_AgentRunDataVolumeRef : AgentRunDataVolumeRef := mkAgentRunDataVolumeRef
  "" "" "" "" false.

Record AgentRunExternalSecretRefreshRef := mkAgentRunExternalSecretRefreshRef {
  esr_Name : string;
  esr_TargetSecretRef : NamespacedObjectReference }.
#[export] Instance eta_AgentRunExternalSecretRefreshRef : Eta AgentRunExternalSecretRefreshRef := λ r, mkAgentRunExternalSecretRefreshRef
  (esr_Name r) (esr_TargetSecretRef r).
Definition zero_AgentRunExternalSecretRefreshRef : AgentRunExternalSecretRefreshRef := mkAgentRunExternalSecretRefreshRef
  "" zero_NamespacedObjectReference.

Record AgentRunSpiffeWorkloadAPISpec := mkAgentRunSpiffeWorkloadAPISpec {
  spiffe_Enabled : bool;
  spiffe_SPIFFEID : string }.
#[export] Instance eta_AgentRunSpiffeWorkloadAPISpec : Eta AgentRunSpiffeWorkloadAPISpec := λ r, mkAgentRunSpiffeWorkloadAPISpec
  (spiffe_Enabled r) (spiffe_SPIFFEID r).
Definition zero_AgentRunSpiffeWorkloadAPISpec : AgentRunSpiffeWorkloadAPISpec := mkAgentRunSpiffeWorkloadAPISpec
  false "".

Record AgentRunSubstrateActorSpec := mkAgentRunSubstrateActorSpec {
  sas_ActorClass : string;
  sas_Pool : string;
  sas_SuspendOnIdle : option bool }.
#[export] Instance eta_AgentRunSubstrateActorSpec : Eta AgentRunSubstrateActorSpec := λ r, mkAgentRunSubstrateActorSpec
  (sas_ActorClass r) (sas_Pool r) (sas_SuspendOnIdle r).
Definition zero_AgentRunSubstrateActorSpec : AgentRunSubstrateActorSpec := mkAgentRunSubstrateActorSpec
  "" "" None.

(** ** Harness *)

Record AgentRunHarnessExecutionSpec := mkAgentRunHarnessExecutionSpec {
  ex_ServiceAccountName : string;
  ex_EnvSecretRefs : list NamespacedObjectReference;
  ex_SkillSourceCredentials : list AgentRunGitHubSkillCredential;
  ex_ExternalSecretRefreshRefs : list AgentRunExternalSecretRefreshRef;
  ex_ExtraEnv : list EnvVar;
  ex_DataVolumeRefs : list AgentRunDataVolumeRef;
  ex_SpiffeWorkloadAPI : AgentRunSpiffeWorkloadAPISpec;
  ex_Resources : ResourceRequirements;
  ex_NodeSelector : gmap string string;
  ex_Affinity : option Raw;
  ex_Tolerations : list Raw;
  ex_ImagePullSecrets : list LocalObjectReference;
  ex_PodSecurityContext : option PodSecurityContext;
  ex_SecurityContext : option SecurityContext;
  ex_Workdir : string;
  ex_Runtime : string;
  ex_Substrate : option AgentRunSubstrateActorSpec;
  ex_TimeoutSeconds : Z;
  ex_TTLSecondsAfterFinished : option Z }.
#[export] Instance eta_AgentRunHarnessExecutionSpec : Eta AgentRunHarnessExecutionSpec := λ r, mkAgentRunHarnessExecutionSpec
  (ex_ServiceAccountName r) (ex_EnvSecretRefs r) (ex_SkillSourceCredentials r)
  (ex_ExternalSecretRefreshRefs r) (ex_ExtraEnv r) (ex_DataVolumeRefs r)
  (ex_SpiffeWorkloadAPI r) (ex_Resources r) (ex_NodeSelector r)
  (ex_Affinity r) (ex_Tolerations r) (ex_ImagePullSecrets r)
  (ex_PodSecurityContext r) (ex_SecurityContext r) (ex_Workdir r)
  (ex_Runtime r) (ex_Substrate r) (ex_TimeoutSeconds r)
  (ex_TTLSecondsAfterFinished r).
Definition zero_AgentRunHarnessExecutionSpec : AgentRunHarnessExecutionSpec := mkAgentRunHarnessExecutionSpec
  "" [] [] [] [] [] zero_AgentRunSpiffeWorkloadAPISpec
  zero_ResourceRequirements ∅ None [] [] None None "" "" None 0 None.

Record AgentRunHarnessSpec := mkAgentRunHarnessSpec {
  har_Intent : string;
  har_Backend : AgentRunHarnessBackendSpec;
  har_Execution : AgentRunHarnessExecutionSpec;
  har_SkillInjections : list AgentRunSkillInjectionSpec;
  har_Subagents : list AgentRunSubagentSpec;
  har_Tools : list AgentRunToolSpec;
  har_SystemPrompt : string }.
#[export] Instance eta_AgentRunHarnessSpec : Eta AgentRunHarnessSpec := λ r, mkAgentRunHarnessSpec
  (har_Intent r) (har_Backend r) (har_Execution r) (har_SkillInjections r)
  (har_Subagents r) (har_Tools r) (har_SystemPrompt r).
Definition zero_AgentRunHarnessSpec : AgentRunHarnessSpec := mkAgentRunHarnessSpec
  "" zero_AgentRunHarnessBackendSpec zero_AgentRunHarnessExecutionSpec [] []
  [] "".

Record AgentRunTelegramNotificationSpec := mkAgentRunTelegramNotificationSpec {
  tg_BotTokenRef : SecretKeyReference;
  tg_ChatIDRef : SecretKeyReference;
  tg_APIBaseURL : string }.
#[export] Instance eta_AgentRunTelegramNotificationSpec : Eta AgentRunTelegramNotificationSpec := λ r, mkAgentRunTelegramNotificationSpec
  (tg_BotTokenRef r) (tg_ChatIDRef r) (tg_APIBaseURL r).
Definition zero_AgentRunTelegramNotificationSpec : AgentRunTelegramNotificationSpec := mkAgentRunTelegramNotificationSpec
  zero_SecretKeyReference zero_SecretKeyReference "".

Record AgentRunDiscordNotificationSpec := mkAgentRunDiscordNotificationSpec {
  dc_WebhookURLRef : SecretKeyReference }.
#[export] Instance eta_AgentRunDiscordNotificationSpec : Eta AgentRunDiscordNotificationSpec := λ r, mkAgentRunDiscordNotificationSpec
  (dc_WebhookURLRef r).
Definition zero_AgentRunDiscordNotificationSpec : AgentRunDiscordNotificationSpec := mkAgentRunDiscordNotificationSpec
  zero_SecretKeyReference.

Record AgentRunNotificationSpec := mkAgentRunNotificationSpec {
  nt_MobileOps : bool;
  nt_Telegram : option AgentRunTelegramNotificationSpec;
  nt_Discord : option AgentRunDiscordNotificationSpec }.
#[export] Instance eta_AgentRunNotificationSpec : Eta AgentRunNotificationSpec := λ r, mkAgentRunNotificationSpec
  (nt_MobileOps r) (nt_Telegram r) (nt_Discord r).
Definition zero_AgentRunNotificationSpec : AgentRunNotificationSpec := mkAgentRunNotificationSpec
  false None None.

(** ** The run *)

Record AgentRunSpec := mkAgentRunSpec {
  rs_Purpose : string;
  rs_SourceRef : AgentRunSourceRef;
  rs_SourceUID : string;
  rs_SourceGeneration : Z;
  rs_SourceDigest : string;
  rs_Trigger : AgentRunTriggerSnapshot;
  rs_Prompt : string;
  rs_ProfileRef : option NamespacedObjectReference;
  rs_HarnessProfileRef : option NamespacedObjectReference;
  rs_SkillSets : option AgentSkillCompositionSpec;
  rs_ToolSets : option AgentToolCompositionSpec;
  rs_CouncilRef : option NamespacedObjectReference;
  rs_Scope : AgentRunScopeSpec;
  rs_Docs : option AgentRunDocsSpec;
  rs_IssueTracking : option AgentRunIssueTrackingSpec;
  rs_ScheduleRef : option NamespacedObjectReference;
  rs_SituationRef : option NamespacedObjectReference;
  rs_Harness : AgentRunHarnessSpec;
  rs_Notifications : option AgentRunNotificationSpec }.
#[export] Instance eta_AgentRunSpec : Eta AgentRunSpec := λ r, mkAgentRunSpec
  (rs_Purpose r) (rs_SourceRef r) (rs_SourceUID r) (rs_SourceGeneration r)
  (rs_SourceDigest r) (rs_Trigger r) (rs_Prompt r) (rs_ProfileRef r)
  (rs_HarnessProfileRef r) (rs_SkillSets r) (rs_ToolSets r) (rs_CouncilRef r)
  (rs_Scope r) (rs_Docs r) (rs_IssueTracking r) (rs_ScheduleRef r)
  (rs_SituationRef r) (rs_Harness r) (rs_Notifications r).
Definition zero_AgentRunSpec : AgentRunSpec := mkAgentRunSpec
  "" zero_AgentRunSourceRef "" 0 "" zero_AgentRunTriggerSnapshot "" None None
  None None None zero_AgentRunScopeSpec None None None None
  zero_AgentRunHarnessSpec None.

Record AgentRunDecisionStatus := mkAgentRunDecisionStatus {
  dec_Classification : string;
  dec_Action : string;
  dec_Summary : string;
  dec_ResidualRisk : string }.
#[export] Instance eta_AgentRunDecisionStatus : Eta AgentRunDecisionStatus := λ r, mkAgentRunDecisionStatus
  (dec_Classification r) (dec_Action r) (dec_Summary r) (dec_ResidualRisk r).
Definition zero_AgentRunDecisionStatus : AgentRunDecisionStatus := mkAgentRunDecisionStatus
  "" "" "" "".

Record AgentRunStatusReport := mkAgentRunStatusReport {
  rep_Type : string;
  rep_ObservedAt : option Time;
  rep_Level : string;
  rep_Stage : string;
  rep_Classification : string;
  rep_Action : string;
  rep_Summary : string;
  rep_Detail : string;
  rep_PullRequestURL : string;
  rep_ResidualRisk : string;
  rep_NeedsHuman : bool;
  rep_HumanFollowUp : string }.
#[export] Instance eta_AgentRunStatusReport : Eta AgentRunStatusReport := λ r, mkAgentRunStatusReport
  (rep_Type r) (rep_ObservedAt r) (rep_Level r) (rep_Stage r)
  (rep_Classification r) (rep_Action r) (rep_Summary r) (rep_Detail r)
  (rep_PullRequestURL r) (rep_ResidualRisk r) (rep_NeedsHuman r)
  (rep_HumanFollowUp r).
Definition zero_AgentRunStatusReport : AgentRunStatusReport := mkAgentRunStatusReport
  "" None "" "" "" "" "" "" "" "" false "".

Record AgentRunDataVolumeStatus := mkAgentRunDataVolumeStatus {
  dvs_Name : string;
  dvs_Namespace : string;
  dvs_ClaimName : string;
  dvs_MountPath : string;
  dvs_ReadOnly : bool }.
#[export] Instance eta_AgentRunDataVolumeStatus : Eta AgentRunDataVolumeStatus := λ r, mkAgentRunDataVolumeStatus
  (dvs_Name r) (dvs_Namespace r) (dvs_ClaimName r) (dvs_MountPath r)
  (dvs_ReadOnly r).
Definition zero_AgentRunDataVolumeStatus : AgentRunDataVolumeStatus := mkAgentRunDataVolumeStatus
  "" "" "" "" false.

Record AgentRunExternalSecretRefreshStatus := mkAgentRunExternalSecretRefreshStatus {
  ess_Name : string;
  ess_Namespace : string;
  ess_TargetSecret : string;
  ess_RequestedAt : option Time;
  ess_PreviousRefreshTime : option Time;
  ess_RefreshedAt : option Time }.
#[export] Instance eta_AgentRunExternalSecretRefreshStatus : Eta AgentRunExternalSecretRefreshStatus := λ r, mkAgentRunExternalSecretRefreshStatus
  (ess_Name r) (ess_Namespace r) (ess_TargetSecret r) (ess_RequestedAt r)
  (ess_PreviousRefreshTime r) (ess_RefreshedAt r).
Definition zero_AgentRunExternalSecretRefreshStatus : AgentRunExternalSecretRefreshStatus := mkAgentRunExternalSecretRefreshStatus
  "" "" "" None None None.

Record AgentRunArchiveStatus := mkAgentRunArchiveStatus {
  arch_Store : string;
  arch_ArchivedAt : option Time;
  arch_Digest : string;
  arch_Error : string }.
#[export] Instance eta_AgentRunArchiveStatus : Eta AgentRunArchiveStatus := λ r, mkAgentRunArchiveStatus
  (arch_Store r) (arch_ArchivedAt r) (arch_Digest r) (arch_Error r).
Definition zero_AgentRunArchiveStatus : AgentRunArchiveStatus := mkAgentRunArchiveStatus
  "" None "" "".

Record AgentRunResolvedObjectReferenceStatus := mkAgentRunResolvedObjectReferenceStatus {
  ror_Name : string;
  ror_Namespace : string;
  ror_UID : string;
  ror_Generation : Z;
  ror_ResourceVersion : string;
  ror_Digest : string;
  ror_Global : bool }.
#[export] Instance eta_AgentRunResolvedObjectReferenceStatus : Eta AgentRunResolvedObjectReferenceStatus := λ r, mkAgentRunResolvedObjectReferenceStatus
  (ror_Name r) (ror_Namespace r) (ror_UID r) (ror_Generation r)
  (ror_ResourceVersion r) (ror_Digest r) (ror_Global r).
Definition zero_AgentRunResolvedObjectReferenceStatus : AgentRunResolvedObjectReferenceStatus := mkAgentRunResolvedObjectReferenceStatus
  "" "" "" 0 "" "" false.

Record AgentRunResolvedScopeStatus := mkAgentRunResolvedScopeStatus {
  rsc_Application : string;
  rsc_ApplicationTarget : string;
  rsc_Repository : string;
  rsc_RepositoryRef : string;
  rsc_DestinationBranch : string;
  rsc_AllowedBranches : list string }.
#[export] Instance eta_AgentRunResolvedScopeStatus : Eta AgentRunResolvedScopeStatus := λ r, mkAgentRunResolvedScopeStatus
  (rsc_Application r) (rsc_ApplicationTarget r) (rsc_Repository r)
  (rsc_RepositoryRef r) (rsc_DestinationBranch r) (rsc_AllowedBranches r).
Definition zero_AgentRunResolvedScopeStatus : AgentRunResolvedScopeStatus := mkAgentRunResolvedScopeStatus
  "" "" "" "" "" [].

Record AgentRunResolvedCompositionStatus := mkAgentRunResolvedCompositionStatus {
  rcs_ResolvedAt : option Time;
  rcs_ProfileRef : option AgentRunResolvedObjectReferenceStatus;
  rcs_HarnessProfileRef : option AgentRunResolvedObjectReferenceStatus;
  rcs_CouncilRef : option AgentRunResolvedObjectReferenceStatus;
  rcs_SkillSetRefs : list AgentRunResolvedObjectReferenceStatus;
  rcs_ToolSetRefs : list AgentRunResolvedObjectReferenceStatus;
  rcs_Scope : option AgentRunResolvedScopeStatus;
  rcs_EffectiveDigest : string;
  rcs_PayloadDigest : string }.
#[export] Instance eta_AgentRunResolvedCompositionStatus : Eta AgentRunResolvedCompositionStatus := λ r, mkAgentRunResolvedCompositionStatus
  (rcs_ResolvedAt r) (rcs_ProfileRef r) (rcs_HarnessProfileRef r)
  (rcs_CouncilRef r) (rcs_SkillSetRefs r) (rcs_ToolSetRefs r) (rcs_Scope r)
  (rcs_EffectiveDigest r) (rcs_PayloadDigest r).
Definition zero_AgentRunResolvedCompositionStatus : AgentRunResolvedCompositionStatus := mkAgentRunResolvedCompositionStatus
  None None None None [] [] None "" "".

Record AgentRunSubstrateActorStatus := mkAgentRunSubstrateActorStatus {
  sat_ActorName : string;
  sat_ActorID : string;
  sat_State : string }.
#[export] Instance eta_AgentRunSubstrateActorStatus : Eta AgentRunSubstrateActorStatus := λ r, mkAgentRunSubstrateActorStatus
  (sat_ActorName r) (sat_ActorID r) (sat_State r).
Definition zero_AgentRunSubstrateActorStatus : AgentRunSubstrateActorStatus := mkAgentRunSubstrateActorStatus
  "" "" "".

Record AgentRunStatus := mkAgentRunStatus {
  st_ObservedGeneration : Z;
  st_Conditions : list Condition;
  st_Phase : string;
  st_Backend : string;
  st_Model : string;
  st_Intent : string;
  st_Image : string;
  st_ExecutionRuntime : string;
  st_SubstrateActor : option AgentRunSubstrateActorStatus;
  st_PlannedJobRef : option NamespacedObjectReference;
  st_JobCreateAttemptedAt : option Time;
  st_JobRef : option NamespacedObjectReference;
  st_JobUID : string;
  st_JobSpecDigest : string;
  st_PayloadRef : option NamespacedObjectReference;
  st_PayloadUID : string;
  st_RunnerPodRef : option NamespacedObjectReference;
  st_RunnerPodUID : string;
  st_RunnerNode : string;
  st_DataVolumes : list AgentRunDataVolumeStatus;
  st_ExternalSecretRefreshes : list AgentRunExternalSecretRefreshStatus;
  st_Archive : option AgentRunArchiveStatus;
  st_ResolvedComposition : option AgentRunResolvedCompositionStatus;
  st_StartedAt : option Time;
  st_CompletedAt : option Time;
  st_PromptHash : string;
  st_Decision : option AgentRunDecisionStatus;
  st_Reports : list AgentRunStatusReport;
  st_Result : Raw;
  st_Output : string;
  st_PullRequestURL : string;
  st_Error : string }.
#[export] Instance eta_AgentRunStatus : Eta AgentRunStatus := λ r, mkAgentRunStatus
  (st_ObservedGeneration r) (st_Conditions r) (st_Phase r) (st_Backend r)
  (st_Model r) (st_Intent r) (st_Image r) (st_ExecutionRuntime r)
  (st_SubstrateActor r) (st_PlannedJobRef r) (st_JobCreateAttemptedAt r)
  (st_JobRef r) (st_JobUID r) (st_JobSpecDigest r) (st_PayloadRef r)
  (st_PayloadUID r) (st_RunnerPodRef r) (st_RunnerPodUID r) (st_RunnerNode r)
  (st_DataVolumes r) (st_ExternalSecretRefreshes r) (st_Archive r)
  (st_ResolvedComposition r) (st_StartedAt r) (st_CompletedAt r)
  (st_PromptHash r) (st_Decision r) (st_Reports r) (st_Result r) (st_Output r)
  (st_PullRequestURL r) (st_Error r).
Definition zero_AgentRunStatus : AgentRunStatus := mkAgentRunStatus
  0 [] "" "" "" "" "" "" None None None None "" "" None "" None "" "" [] []
  None None None None "" None [] "" "" "" "".

Record AgentRun := mkAgentRun {
  run_ObjectMeta : ObjectMeta;
  run_Spec : AgentRunSpec;
  run_Status : AgentRunStatus }.
#[export] Instance eta_AgentRun : Eta AgentRun := λ r, mkAgentRun
  (run_ObjectMeta r) (run_Spec r) (run_Status r).
Definition zero_AgentRun : AgentRun := mkAgentRun
  zero_ObjectMeta zero_AgentRunSpec zero_AgentRunStatus.

(** ** Profiles *)

Record AgentRunProfileSpec := mkAgentRunProfileSpec {
  ps_Description : string;
  ps_Scope : AgentRunScopeSpec;
  ps_Docs : option AgentRunDocsSpec;
  ps_IssueTracking : option AgentRunIssueTrackingSpec;
  ps_Harness : AgentRunHarnessSpec;
  ps_HarnessProfileRef : option NamespacedObjectReference;
  ps_SkillSets : option AgentSkillCompositionSpec;
  ps_ToolSets : option AgentToolCompositionSpec;
  ps_CouncilRef : option NamespacedObjectReference;
  ps_Notifications : option AgentRunNotificationSpec }.
#[export] Instance eta_AgentRunProfileSpec : Eta AgentRunProfileSpec := λ r, mkAgentRunProfileSpec
  (ps_Description r) (ps_Scope r) (ps_Docs r) (ps_IssueTracking r)
  (ps_Harness r) (ps_HarnessProfileRef r) (ps_SkillSets r) (ps_ToolSets r)
  (ps_CouncilRef r) (ps_Notifications r).
Definition zero_AgentRunProfileSpec : AgentRunProfileSpec := mkAgentRunProfileSpec
  "" zero_AgentRunScopeSpec None None zero_AgentRunHarnessSpec None None None
  None None.

Record AgentRunProfile := mkAgentRunProfile {
  prof_ObjectMeta : ObjectMeta;
  prof_Spec : AgentRunProfileSpec }.
#[export] Instance eta_AgentRunProfile : Eta AgentRunProfile := λ r, mkAgentRunProfile
  (prof_ObjectMeta r) (prof_Spec r).
Definition zero_AgentRunProfile : AgentRunProfile := mkAgentRunProfile
  zero_ObjectMeta zero_AgentRunProfileSpec.

Record AgentHarnessProfileSpec := mkAgentHarnessProfileSpec {
  hps_Description : string;
  hps_Backend : AgentRunHarnessBackendSpec;
  hps_Execution : AgentRunHarnessExecutionSpec }.
#[export] Instance eta_AgentHarnessProfileSpec : Eta AgentHarnessProfileSpec := λ r, mkAgentHarnessProfileSpec
  (hps_Description r) (hps_Backend r) (hps_Execution r).
Definition zero_AgentHarnessProfileSpec : AgentHarnessProfileSpec := mkAgentHarnessProfileSpec
  "" zero_AgentRunHarnessBackendSpec zero_AgentRunHarnessExecutionSpec.

Record AgentHarnessProfile := mkAgentHarnessProfile {
  hp_ObjectMeta : ObjectMeta;
  hp_Spec : AgentHarnessProfileSpec }.
#[export] Instance eta_AgentHarnessProfile : Eta AgentHarnessProfile := λ r, mkAgentHarnessProfile
  (hp_ObjectMeta r) (hp_Spec r).
Definition zero_AgentHarnessProfile : AgentHarnessProfile := mkAgentHarnessProfile
  zero_ObjectMeta zero_AgentHarnessProfileSpec.

Record AgentSkillSetSpec := mkAgentSkillSetSpec {
  sss_Description : string;
  sss_Global : bool;
  sss_Skills : list AgentRunSkillInjectionSpec;
  sss_Tools : list AgentRunToolSpec;
  sss_Subagents : list AgentRunSubagentSpec }.
#[export] Instance eta_AgentSkillSetSpec : Eta AgentSkillSetSpec := λ r, mkAgentSkillSetSpec
  (sss_Description r) (sss_Global r) (sss_Skills r) (sss_Tools r)
  (sss_Subagents r).
Definition zero_AgentSkillSetSpec : AgentSkillSetSpec := mkAgentSkillSetSpec
  "" false [] [] [].

Record AgentSkillSet := mkAgentSkillSet {
  ss_ObjectMeta : ObjectMeta;
  ss_Spec : AgentSkillSetSpec }.
#[export] Instance eta_AgentSkillSet : Eta AgentSkillSet := λ r, mkAgentSkillSet
  (ss_ObjectMeta r) (ss_Spec r).
Definition zero_AgentSkillSet : AgentSkillSet := mkAgentSkillSet
  zero_ObjectMeta zero_AgentSkillSetSpec.

Record AgentToolSetSpec := mkAgentToolSetSpec {
  tss_Description : string;
  tss_Global : bool;
  tss_Tools : list AgentRunToolSpec }.
#[export] Instance eta_AgentToolSetSpec : Eta AgentToolSetSpec := λ r, mkAgentToolSetSpec
  (tss_Description r) (tss_Global r) (tss_Tools r).
Definition zero_AgentToolSetSpec : AgentToolSetSpec := mkAgentToolSetSpec
  "" false [].

Record AgentToolSet := mkAgentToolSet {
  ts_ObjectMeta : ObjectMeta;
  ts_Spec : AgentToolSetSpec }.
#[export] Instance eta_AgentToolSet : Eta AgentToolSet := λ r, mkAgentToolSet
  (ts_ObjectMeta r) (ts_Spec r).
Definition zero_AgentToolSet : AgentToolSet := mkAgentToolSet
  zero_ObjectMeta zero_AgentToolSetSpec.

(** ** Constants *)

Definition AgentRunPhasePending : string := "Pending".
Definition AgentRunPhaseRunning : string := "Running".
Definition AgentRunPhaseNeedsHuman : string := "NeedsHuman".
Definition AgentRunPhaseSucceeded : string := "Succeeded".
Definition AgentRunPhaseFailed : string := "Failed".
Definition AgentRunPurposeManual : string := "manual".
Definition AgentRunPurposeAdverseSituation : string := "adverseSituation".
Definition AgentRunPurposeScheduledHealthCheck : string := "scheduledHealthCheck".
Definition AgentRunPurposeChained : string := "chained".
Definition AgentRunPurposeInteractive : string := "interactive".
Definition AgentRunIntentObserve : string := "observe".
Definition AgentRunIntentFixTransient : string := "fixTransient".
Definition AgentRunIntentProposeChange : string := "proposeChange".
Definition AgentRunIntentCleanup : string := "cleanup".
Definition AgentRunHarnessBackendCodex : string := "codex".
Definition AgentRunHarnessBackendOpenCode : string := "openCode".
Definition AgentRunHarnessBackendHermesAgent : string := "hermesAgent".
Definition AgentRunHarnessBackendOpenClaw : string := "openClaw".
Definition AgentRunHarnessBackendGrokBuild : string := "grokBuild".
Definition AgentRunHarnessBackendPiAgent : string := "piAgent".
Definition AgentRunHarnessBackendPrimeAgent : string := "primeAgent".
Definition AgentRunHarnessBackendAgy : string := "agy".
Definition AgentRunHarnessBackendCustom : string := "custom".
Definition AgentRunModelProviderOpenAICodex : string := "openai-codex".
Definition AgentRunModelProviderOpenAI : string := "openai".
Definition AgentRunModelProviderXAI : string := "xai".
Definition AgentRunModelProviderDeepSeek : string := "deepseek".
Definition AgentRunProviderAuthModeAPIKey : string := "apiKey".
Definition AgentRunProviderAuthModeOAuth : string := "oauth".
Definition AgentRunDocsPolicyDisabled : string := "Disabled".
Definition AgentRunDocsPolicyReview : string := "Review".
Definition AgentRunDocsPolicyRequired : string := "Required".
Definition AgentRunIssueTrackingProviderGitHub : string := "github".
Definition AgentRunIssueUpdatePolicyReadOnly : string := "ReadOnly".
Definition AgentRunIssueUpdatePolicyComment : string := "Comment".
Definition AgentRunIssueUpdatePolicyTriage : string := "Triage".
Definition AgentSkillCompositionAppend : string := "Append".
Definition AgentSkillCompositionReplace : string := "Replace".
Definition AgentSkillOverrideAdd : string := "Add".
Definition AgentSkillOverrideAugment : string := "Augment".
Definition AgentSkillOverrideReplace : string := "Replace".
Definition AgentSkillOverrideDisable : string := "Disable".

Definition GroupVersion : string := "control.anvil.hazyforge.io/v1alpha1".

(** Names of a run. *)
Definition run_Name (r : AgentRun) : string := meta_Name (run_ObjectMeta r).
Definition run_Namespace (r : AgentRun) : string := meta_Namespace (run_ObjectMeta r).
Definition run_UID (r : AgentRun) : string := meta_UID (run_ObjectMeta r).
Definition run_Labels (r : AgentRun) : gmap string string := meta_Labels (run_ObjectMeta r).
Definition run_Annotations (r : AgentRun) : gmap string string :=
  meta_Annotations (run_ObjectMeta r).
Definition run_CreationTimestamp (r : AgentRun) : Time :=
  meta_CreationTimestamp (run_ObjectMeta r).
Definition run_Phase (r : AgentRun) : string := st_Phase (run_Status r).
Definition run_label (r : AgentRun) (k : string) : string := mapGet (run_Labels r) k.
