(* ===== verification/ApiWork.v ===== *)
(** * API types: chains, schedules and launch controls

    The types of [src/api/v1alpha1/agent_chain_types.go],
    [agent_schedule_types.go] and [agent_run_control_types.go], by the same
    conventions as [ApiRun]. *)

From stdpp Require Import base list gmap strings.
From Stdlib Require Import ZArith.
From S2P Require Import Prelude GoStrings GoTime ApiRun.

Open Scope Z_scope.

(** ** AgentChain *)

Record AgentChainWhenSpec := mkAgentChainWhenSpec {
  when_PreviousStep : string;
  when_OnPhases : list string;
  when_OnDecisionActions : list string }.
#[export] Instance eta_AgentChainWhenSpec : Eta AgentChainWhenSpec := λ r, mkAgentChainWhenSpec
  (when_PreviousStep r) (when_OnPhases r) (when_OnDecisionActions r).
Definition zero_AgentChainWhenSpec : AgentChainWhenSpec := mkAgentChainWhenSpec
  "" [] [].

Record AgentChainHandoffSpec := mkAgentChainHandoffSpec {
  ho_IncludeDecision : bool;
  ho_IncludeLatestReports : bool;
  ho_IncludePullRequestURL : bool;
  ho_IncludeOutputExcerptBytes : Z;
  ho_IncludeAncestorSteps : list string }.
#[export] Instance eta_AgentChainHandoffSpec : Eta AgentChainHandoffSpec := λ r, mkAgentChainHandoffSpec
  (ho_IncludeDecision r) (ho_IncludeLatestReports r)
  (ho_IncludePullRequestURL r) (ho_IncludeOutputExcerptBytes r)
  (ho_IncludeAncestorSteps r).
Definition zero_AgentChainHandoffSpec : AgentChainHandoffSpec := mkAgentChainHandoffSpec
  false false false 0 [].

Record AgentChainStepSpec := mkAgentChainStepSpec {
  step_Name : string;
  step_When : option AgentChainWhenSpec;
  step_RunTemplate : AgentRunSpec;
  step_Handoff : option AgentChainHandoffSpec }.
#[export] Instance eta_AgentChainStepSpec : Eta AgentChainStepSpec := λ r, mkAgentChainStepSpec
  (step_Name r) (step_When r) (step_RunTemplate r) (step_Handoff r).
Definition zero_AgentChainStepSpec : AgentChainStepSpec := mkAgentChainStepSpec
  "" None zero_AgentRunSpec None.

Record AgentChainBackoffSpec := mkAgentChainBackoffSpec {
  cbo_FailedSeconds : Z;
  cbo_NeedsHumanSeconds : Z }.
#[export] Instance eta_AgentChainBackoffSpec : Eta AgentChainBackoffSpec := λ r, mkAgentChainBackoffSpec
  (cbo_FailedSeconds r) (cbo_NeedsHumanSeconds r).
Definition zero_AgentChainBackoffSpec : AgentChainBackoffSpec := mkAgentChainBackoffSpec
  0 0.

Record AgentChainCompletionSpec := mkAgentChainCompletionSpec {
  cmp_OnDecisionActions : list string }.
#[export] Instance eta_AgentChainCompletionSpec : Eta AgentChainCompletionSpec := λ r, mkAgentChainCompletionSpec
  (cmp_OnDecisionActions r).
Definition zero_AgentChainCompletionSpec : AgentChainCompletionSpec := mkAgentChainCompletionSpec
  [].

Record AgentChainSpec := mkAgentChainSpec {
  cs_ApplicationRef : option ApplicationReferenceSpec;
  cs_Suspend : bool;
  cs_StartIntervalSeconds : Z;
  cs_StartInitialDelaySeconds : Z;
  cs_ConcurrencyPolicy : string;
  cs_MaxInstancesPerDay : Z;
  cs_Backoff : option AgentChainBackoffSpec;
  cs_Completion : option AgentChainCompletionSpec;
  cs_Steps : list AgentChainStepSpec }.
#[export] Instance eta_AgentChainSpec : Eta AgentChainSpec := λ r, mkAgentChainSpec
  (cs_ApplicationRef r) (cs_Suspend r) (cs_StartIntervalSeconds r)
  (cs_StartInitialDelaySeconds r) (cs_ConcurrencyPolicy r)
  (cs_MaxInstancesPerDay r) (cs_Backoff r) (cs_Completion r) (cs_Steps r).
Definition zero_AgentChainSpec : AgentChainSpec := mkAgentChainSpec
  None false 0 0 "" 0 None None [].

Record AgentChainStepRunStatus := mkAgentChainStepRunStatus {
  sr_InstanceID : string;
  sr_Step : string;
  sr_RunRef : option NamespacedObjectReference;
  sr_RunUID : string;
  sr_Phase : string;
  sr_SourceGeneration : Z;
  sr_WorkflowDigest : string }.
#[export] Instance eta_AgentChainStepRunStatus : Eta AgentChainStepRunStatus := λ r, mkAgentChainStepRunStatus
  (sr_InstanceID r) (sr_Step r) (sr_RunRef r) (sr_RunUID r) (sr_Phase r)
  (sr_SourceGeneration r) (sr_WorkflowDigest r).
Definition zero_AgentChainStepRunStatus : AgentChainStepRunStatus := mkAgentChainStepRunStatus
  "" "" None "" "" 0 "".

Record AgentChainStatus := mkAgentChainStatus {
  cst_ObservedGeneration : Z;
  cst_Conditions : list Condition;
  cst_Phase : string;
  cst_ActiveInstanceID : string;
  cst_ActiveStep : string;
  cst_ActiveRunRef : option NamespacedObjectReference;
  cst_ActiveRunUID : string;
  cst_ActiveSourceGeneration : Z;
  cst_ActiveWorkflowDigest : string;
  cst_CancelRequestedInstanceID : string;
  cst_LastInstanceID : string;
  cst_LastStartToken : string;
  cst_LastCancelToken : string;
  cst_StepRuns : list AgentChainStepRunStatus;
  cst_NextStartAt : option Time;
  cst_InstancesToday : Z;
  cst_LastError : string }.
#[export] Instance eta_AgentChainStatus : Eta AgentChainStatus := λ r, mkAgentChainStatus
  (cst_ObservedGeneration r) (cst_Conditions r) (cst_Phase r)
  (cst_ActiveInstanceID r) (cst_ActiveStep r) (cst_ActiveRunRef r)
  (cst_ActiveRunUID r) (cst_ActiveSourceGeneration r)
  (cst_ActiveWorkflowDigest r) (cst_CancelRequestedInstanceID r)
  (cst_LastInstanceID r) (cst_LastStartToken r) (cst_LastCancelToken r)
  (cst_StepRuns r) (cst_NextStartAt r) (cst_InstancesToday r)
  (cst_LastError r).
Definition zero_AgentChainStatus : AgentChainStatus := mkAgentChainStatus
  0 [] "" "" "" None "" 0 "" "" "" "" "" [] None 0 "".

Record AgentChain := mkAgentChain {
  chain_ObjectMeta : ObjectMeta;
  chain_Spec : AgentChainSpec;
  chain_Status : AgentChainStatus }.
#[export] Instance eta_AgentChain : Eta AgentChain := λ r, mkAgentChain
  (chain_ObjectMeta r) (chain_Spec r) (chain_Status r).
Definition zero_AgentChain : AgentChain := mkAgentChain
  zero_ObjectMeta zero_AgentChainSpec zero_AgentChainStatus.

(** ** AgentSchedule *)

Record AgentScheduleRunTemplateSpec := mkAgentScheduleRunTemplateSpec {
  tpl_Name : string;
  tpl_Template : AgentRunSpec }.
#[export] Instance eta_AgentScheduleRunTemplateSpec : Eta AgentScheduleRunTemplateSpec := λ r, mkAgentScheduleRunTemplateSpec
  (tpl_Name r) (tpl_Template r).
Definition zero_AgentScheduleRunTemplateSpec : AgentScheduleRunTemplateSpec := mkAgentScheduleRunTemplateSpec
  "" zero_AgentRunSpec.

Record AgentScheduleBackoffSpec := mkAgentScheduleBackoffSpec {
  sbo_FailedSeconds : Z;
  sbo_NeedsHumanSeconds : Z }.
#[export] Instance eta_AgentScheduleBackoffSpec : Eta AgentScheduleBackoffSpec := λ r, mkAgentScheduleBackoffSpec
  (sbo_FailedSeconds r) (sbo_NeedsHumanSeconds r).
Definition zero_AgentScheduleBackoffSpec : AgentScheduleBackoffSpec := mkAgentScheduleBackoffSpec
  0 0.

Record AgentScheduleSpec := mkAgentScheduleSpec {
  sp_ApplicationRef : option ApplicationReferenceSpec;
  sp_Suspend : bool;
  sp_IntervalSeconds : Z;
  sp_InitialDelaySeconds : Z;
  sp_Backoff : option AgentScheduleBackoffSpec;
  sp_ConcurrencyPolicy : string;
  sp_MaxConcurrentRuns : Z;
  sp_MaxRunsPerDay : Z;
  sp_RunTemplate : AgentRunSpec;
  sp_RunTemplates : list AgentScheduleRunTemplateSpec;
  sp_TemplateSelectionPolicy : string }.
#[export] Instance eta_AgentScheduleSpec : Eta AgentScheduleSpec := λ r, mkAgentScheduleSpec
  (sp_ApplicationRef r) (sp_Suspend r) (sp_IntervalSeconds r)
  (sp_InitialDelaySeconds r) (sp_Backoff r) (sp_ConcurrencyPolicy r)
  (sp_MaxConcurrentRuns r) (sp_MaxRunsPerDay r) (sp_RunTemplate r)
  (sp_RunTemplates r) (sp_TemplateSelectionPolicy r).
Definition zero_AgentScheduleSpec : AgentScheduleSpec := mkAgentScheduleSpec
  None false 0 0 None "" 0 0 zero_AgentRunSpec [] "".

Record AgentScheduleStatus := mkAgentScheduleStatus {
  sst_ObservedGeneration : Z;
  sst_Conditions : list Condition;
  sst_Phase : string;
  sst_LastRunAt : option Time;
  sst_NextRunAt : option Time;
  sst_ActiveRunRef : option NamespacedObjectReference;
  sst_ActiveRunCount : Z;
  sst_LastRunRef : option NamespacedObjectReference;
  sst_LastRunPhase : string;
  sst_LastRunTemplate : string;
  sst_LastManualRunToken : string;
  sst_LastError : string }.
#[export] Instance eta_AgentScheduleStatus : Eta AgentScheduleStatus := λ r, mkAgentScheduleStatus
  (sst_ObservedGeneration r) (sst_Conditions r) (sst_Phase r)
  (sst_LastRunAt r) (sst_NextRunAt r) (sst_ActiveRunRef r)
  (sst_ActiveRunCount r) (sst_LastRunRef r) (sst_LastRunPhase r)
  (sst_LastRunTemplate r) (sst_LastManualRunToken r) (sst_LastError r).
Definition zero_AgentScheduleStatus : AgentScheduleStatus := mkAgentScheduleStatus
  0 [] "" None None None 0 None "" "" "" "".

Record AgentSchedule := mkAgentSchedule {
  sched_ObjectMeta : ObjectMeta;
  sched_Spec : AgentScheduleSpec;
  sched_Status : AgentScheduleStatus }.
#[export] Instance eta_AgentSchedule : Eta AgentSchedule := λ r, mkAgentSchedule
  (sched_ObjectMeta r) (sched_Spec r) (sched_Status r).
Definition zero_AgentSchedule : AgentSchedule := mkAgentSchedule
  zero_ObjectMeta zero_AgentScheduleSpec zero_AgentScheduleStatus.

(** ** AgentRunControl *)

Record AgentRunControlSourceSpec := mkAgentRunControlSourceSpec {
  rcsrc_Kind : string;
  rcsrc_Name : string;
  rcsrc_URL : string;
  rcsrc_Actor : string }.
#[export] Instance eta_AgentRunControlSourceSpec : Eta AgentRunControlSourceSpec := λ r, mkAgentRunControlSourceSpec
  (rcsrc_Kind r) (rcsrc_Name r) (rcsrc_URL r) (rcsrc_Actor r).
Definition zero_AgentRunControlSourceSpec : AgentRunControlSourceSpec := mkAgentRunControlSourceSpec
  "" "" "" "".

Record AgentRunControlSpec := mkAgentRunControlSpec {
  rc_ApplicationRef : ApplicationReferenceSpec;
  rc_LaunchPolicy : string;
  rc_MaxConcurrentRuns : Z;
  rc_Reason : string;
  rc_Source : option AgentRunControlSourceSpec;
  rc_ExpiresAt : option Time }.
#[export] Instance eta_AgentRunControlSpec : Eta AgentRunControlSpec := λ r, mkAgentRunControlSpec
  (rc_ApplicationRef r) (rc_LaunchPolicy r) (rc_MaxConcurrentRuns r)
  (rc_Reason r) (rc_Source r) (rc_ExpiresAt r).
Definition zero_AgentRunControlSpec : AgentRunControlSpec := mkAgentRunControlSpec
  zero_ApplicationReferenceSpec "" 0 "" None None.

Record AgentRunControlStatus := mkAgentRunControlStatus {
  rcst_ObservedGeneration : Z;
  rcst_Conditions : list Condition;
  rcst_Phase : string;
  rcst_AffectedScheduleCount : Z;
  rcst_PendingRunCount : Z;
  rcst_ActiveRunCount : Z }.
#[export] Instance eta_AgentRunControlStatus : Eta AgentRunControlStatus := λ r, mkAgentRunControlStatus
  (rcst_ObservedGeneration r) (rcst_Conditions r) (rcst_Phase r)
  (rcst_AffectedScheduleCount r) (rcst_PendingRunCount r)
  (rcst_ActiveRunCount r).
Definition zero_AgentRunControlStatus : AgentRunControlStatus := mkAgentRunControlStatus
  0 [] "" 0 0 0.

Record AgentRunControl := mkAgentRunControl {
  ctl_ObjectMeta : ObjectMeta;
  ctl_Spec : AgentRunControlSpec;
  ctl_Status : AgentRunControlStatus }.
#[export] Instance eta_AgentRunControl : Eta AgentRunControl := λ r, mkAgentRunControl
  (ctl_ObjectMeta r) (ctl_Spec r) (ctl_Status r).
Definition zero_AgentRunControl : AgentRunControl := mkAgentRunControl
  zero_ObjectMeta zero_AgentRunControlSpec zero_AgentRunControlStatus.

(** ** Constants *)

Definition AgentChainPhasePending : string := "Pending".
Definition AgentChainPhaseIdle : string := "Idle".
Definition AgentChainPhaseRunning : string := "Running".
Definition AgentChainPhaseCancelling : string := "Cancelling".
Definition AgentChainPhaseWaitingHuman : string := "WaitingHuman".
Definition AgentChainPhaseSuspended : string := "Suspended".
Definition AgentChainPhaseBlocked : string := "Blocked".
Definition AgentChainConcurrencyForbid : string := "Forbid".
Definition AgentChainConcurrencyQueue : string := "Queue".
Definition AgentChainStartNowAnnotation : string := "control.anvil.hazyforge.io/chain-start-now".
Definition AgentChainCancelInstanceAnnotation : string := "control.anvil.hazyforge.io/chain-cancel-instance".
Definition AgentSchedulePhasePending : string := "Pending".
Definition AgentSchedulePhaseScheduled : string := "Scheduled".
Definition AgentSchedulePhaseRunning : string := "Running".
Definition AgentSchedulePhaseSuspended : string := "Suspended".
Definition AgentSchedulePhaseBlocked : string := "Blocked".
Definition AgentScheduleConcurrencyForbid : string := "Forbid".
Definition AgentScheduleConcurrencyAllow : string := "Allow".
Definition AgentScheduleConcurrencyQueue : string := "Queue".
Definition AgentScheduleRunNowAnnotation : string := "control.anvil.hazyforge.io/run-now".
Definition AgentScheduleRunTemplateAnnotation : string := "control.anvil.hazyforge.io/run-template".
Definition AgentScheduleTemplateSelectionSequential : string := "Sequential".
Definition AgentRunControlLaunchPolicyAllowed : string := "Allowed".
Definition AgentRunControlLaunchPolicyPaused : string := "Paused".
Definition AgentRunControlPhaseAllowed : string := "Allowed".
Definition AgentRunControlPhasePaused : string := "Paused".
Definition AgentRunControlPhaseExpired : string := "Expired".
Definition AgentRunControlPhaseBlocked : string := "Blocked".

(** Names of the objects. *)
Definition chain_Name (o : AgentChain) : string := meta_Name (chain_ObjectMeta o).
Definition chain_Namespace (o : AgentChain) : string := meta_Namespace (chain_ObjectMeta o).
Definition chain_UID (o : AgentChain) : string := meta_UID (chain_ObjectMeta o).
Definition chain_Generation (o : AgentChain) : Z := meta_Generation (chain_ObjectMeta o).
Definition chain_Labels (o : AgentChain) : gmap string string := meta_Labels (chain_ObjectMeta o).
Definition chain_Annotations (o : AgentChain) : gmap string string := meta_Annotations (chain_ObjectMeta o).
Definition chain_CreationTimestamp (o : AgentChain) : Time := meta_CreationTimestamp (chain_ObjectMeta o).
Definition sched_Name (o : AgentSchedule) : string := meta_Name (sched_ObjectMeta o).
Definition sched_Namespace (o : AgentSchedule) : string := meta_Namespace (sched_ObjectMeta o).
Definition sched_UID (o : AgentSchedule) : string := meta_UID (sched_ObjectMeta o).
Definition sched_Generation (o : AgentSchedule) : Z := meta_Generation (sched_ObjectMeta o).
Definition sched_Labels (o : AgentSchedule) : gmap string string := meta_Labels (sched_ObjectMeta o).
Definition sched_Annotations (o : AgentSchedule) : gmap string string := meta_Annotations (sched_ObjectMeta o).
Definition sched_CreationTimestamp (o : AgentSchedule) : Time := meta_CreationTimestamp (sched_ObjectMeta o).
Definition ctl_Name (o : AgentRunControl) : string := meta_Name (ctl_ObjectMeta o).
Definition ctl_Generation (o : AgentRunControl) : Z := meta_Generation (ctl_ObjectMeta o).
