(* ===== verification/ApiAdverse.v ===== *)
(** * API types: adverse signals and situations

    The types of [src/api/v1alpha1/adverse_signal_types.go] and
    [adverse_situation_types.go], by the same conventions as [ApiRun]. *)

From stdpp Require Import base list gmap strings.
From Stdlib Require Import ZArith.
From S2P Require Import Prelude GoStrings GoTime ApiRun.

Open Scope Z_scope.

(** ** AdverseSignal *)

Record AdverseSignalTriggerSpec := mkAdverseSignalTriggerSpec {
  atr_Phase : string;
  atr_ConditionType : string;
  atr_ConditionStatus : string;
  atr_Reason : string;
  atr_Message : string;
  atr_ObservedGeneration : Z;
  atr_ResourceVersion : string;
  atr_ObservedAt : option Time }.
#[export] Instance eta_AdverseSignalTriggerSpec : Eta AdverseSignalTriggerSpec := λ r, mkAdverseSignalTriggerSpec
  (atr_Phase r) (atr_ConditionType r) (atr_ConditionStatus r) (atr_Reason r)
  (atr_Message r) (atr_ObservedGeneration r) (atr_ResourceVersion r)
  (atr_ObservedAt r).
Definition zero_AdverseSignalTriggerSpec : AdverseSignalTriggerSpec := mkAdverseSignalTriggerSpec
  "" "" "" "" "" 0 "" None.

Record AdverseSignalSpec := mkAdverseSignalSpec {
  asp_SituationRef : LocalObjectReference;
  asp_SourceRef : AgentRunSourceRef;
  asp_SourceUID : string;
  asp_SourceURL : string;
  asp_DedupeKey : string;
  asp_Trigger : AdverseSignalTriggerSpec }.
#[export] Instance eta_AdverseSignalSpec : Eta AdverseSignalSpec := λ r, mkAdverseSignalSpec
  (asp_SituationRef r) (asp_SourceRef r) (asp_SourceUID r) (asp_SourceURL r)
  (asp_DedupeKey r) (asp_Trigger r).
Definition zero_AdverseSignalSpec : AdverseSignalSpec := mkAdverseSignalSpec
  (mkLocalObjectReference "") zero_AgentRunSourceRef "" "" ""
  zero_AdverseSignalTriggerSpec.

Record AdverseSignalStatus := mkAdverseSignalStatus {
  ast_ObservedGeneration : Z;
  ast_Conditions : list Condition;
  ast_Phase : string;
  ast_SituationRef : option NamespacedObjectReference;
  ast_SituationUID : string;
  ast_EventID : string;
  ast_SituationSequence : Z;
  ast_AcceptedAt : option Time }.
#[export] Instance eta_AdverseSignalStatus : Eta AdverseSignalStatus := λ r, mkAdverseSignalStatus
  (ast_ObservedGeneration r) (ast_Conditions r) (ast_Phase r)
  (ast_SituationRef r) (ast_SituationUID r) (ast_EventID r)
  (ast_SituationSequence r) (ast_AcceptedAt r).
Definition zero_AdverseSignalStatus : AdverseSignalStatus := mkAdverseSignalStatus
  0 [] "" None "" "" 0 None.

Record AdverseSignal := mkAdverseSignal {
  sig_ObjectMeta : ObjectMeta;
  sig_Spec : AdverseSignalSpec;
  sig_Status : AdverseSignalStatus }.
#[export] Instance eta_AdverseSignal : Eta AdverseSignal := λ r, mkAdverseSignal
  (sig_ObjectMeta r) (sig_Spec r) (sig_Status r).
Definition zero_AdverseSignal : AdverseSignal := mkAdverseSignal
  zero_ObjectMeta zero_AdverseSignalSpec zero_AdverseSignalStatus.

(** ** AdverseSituation *)

Record AdverseSituationBufferSpec := mkAdverseSituationBufferSpec {
  buf_QuietPeriodSeconds : Z;
  buf_DedupeWindowSeconds : Z;
  buf_PullRequestQuietPeriodSeconds : Z;
  buf_MaxEvents : Z }.
#[export] Instance eta_AdverseSituationBufferSpec : Eta AdverseSituationBufferSpec := λ r, mkAdverseSituationBufferSpec
  (buf_QuietPeriodSeconds r) (buf_DedupeWindowSeconds r)
  (buf_PullRequestQuietPeriodSeconds r) (buf_MaxEvents r).
Definition zero_AdverseSituationBufferSpec : AdverseSituationBufferSpec := mkAdverseSituationBufferSpec
  0 0 0 0.

Record AdverseSituationAgentRunResponderSpec := mkAdverseSituationAgentRunResponderSpec {
  resp_Enabled : option bool;
  resp_ProfileRef : option NamespacedObjectReference;
  resp_HarnessProfileRef : option NamespacedObjectReference;
  resp_SkillSets : option AgentSkillCompositionSpec;
  resp_ToolSets : option AgentToolCompositionSpec;
  resp_Prompt : string;
  resp_Harness : AgentRunHarnessSpec;
  resp_Scope : AgentRunScopeSpec;
  resp_Docs : option AgentRunDocsSpec;
  resp_IssueTracking : option AgentRunIssueTrackingSpec;
  resp_Notifications : option AgentRunNotificationSpec }.
#[export] Instance eta_AdverseSituationAgentRunResponderSpec : Eta AdverseSituationAgentRunResponderSpec := λ r, mkAdverseSituationAgentRunResponderSpec
  (resp_Enabled r) (resp_ProfileRef r) (resp_HarnessProfileRef r)
  (resp_SkillSets r) (resp_ToolSets r) (resp_Prompt r) (resp_Harness r)
  (resp_Scope r) (resp_Docs r) (resp_IssueTracking r) (resp_Notifications r).
Definition zero_AdverseSituationAgentRunResponderSpec : AdverseSituationAgentRunResponderSpec := mkAdverseSituationAgentRunResponderSpec
  None None None None None "" zero_AgentRunHarnessSpec zero_AgentRunScopeSpec
  None None None.

Record AdverseSituationRespondersSpec := mkAdverseSituationRespondersSpec {
  rsps_AgentRun : option AdverseSituationAgentRunResponderSpec }.
#[export] Instance eta_AdverseSituationRespondersSpec : Eta AdverseSituationRespondersSpec := λ r, mkAdverseSituationRespondersSpec
  (rsps_AgentRun r).
Definition zero_AdverseSituationRespondersSpec : AdverseSituationRespondersSpec := mkAdverseSituationRespondersSpec
  None.

Record AdverseSituationSpec := mkAdverseSituationSpec {
  ssp_GroupKey : string;
  ssp_Buffer : AdverseSituationBufferSpec;
  ssp_Responders : AdverseSituationRespondersSpec }.
#[export] Instance eta_AdverseSituationSpec : Eta AdverseSituationSpec := λ r, mkAdverseSituationSpec
  (ssp_GroupKey r) (ssp_Buffer r) (ssp_Responders r).
Definition zero_AdverseSituationSpec : AdverseSituationSpec := mkAdverseSituationSpec
  "" zero_AdverseSituationBufferSpec zero_AdverseSituationRespondersSpec.

Record AdverseSituationEvent := mkAdverseSituationEvent {
  aev_ID : string;
  aev_ReportIDs : list string;
  aev_SignalRef : option NamespacedObjectReference;
  aev_SourceRef : AgentRunSourceRef;
  aev_SourceUID : string;
  aev_SourceURL : string;
  aev_SourceGeneration : Z;
  aev_Phase : string;
  aev_ConditionType : string;
  aev_ConditionStatus : string;
  aev_Reason : string;
  aev_Message : string;
  aev_ResourceVersion : string;
  aev_ObservedAt : option Time;
  aev_FirstSeenAt : option Time;
  aev_LastSeenAt : option Time;
  aev_Count : Z }.
#[export] Instance eta_AdverseSituationEvent : Eta AdverseSituationEvent := λ r, mkAdverseSituationEvent
  (aev_ID r) (aev_ReportIDs r) (aev_SignalRef r) (aev_SourceRef r)
  (aev_SourceUID r) (aev_SourceURL r) (aev_SourceGeneration r) (aev_Phase r)
  (aev_ConditionType r) (aev_ConditionStatus r) (aev_Reason r) (aev_Message r)
  (aev_ResourceVersion r) (aev_ObservedAt r) (aev_FirstSeenAt r)
  (aev_LastSeenAt r) (aev_Count r).
Definition zero_AdverseSituationEvent : AdverseSituationEvent := mkAdverseSituationEvent
  "" [] None zero_AgentRunSourceRef "" "" 0 "" "" "" "" "" "" None None None 0.

Record AdverseSituationStatus := mkAdverseSituationStatus {
  sis_ObservedGeneration : Z;
  sis_Conditions : list Condition;
  sis_Phase : string;
  sis_Sequence : Z;
  sis_Events : list AdverseSituationEvent;
  sis_EventCount : Z;
  sis_DuplicateCount : Z;
  sis_LastEventAt : option Time;
  sis_QuietUntil : option Time;
  sis_ResolvedAt : option Time;
  sis_PullRequestObservedAt : option Time;
  sis_PullRequestQuietUntil : option Time;
  sis_ActiveResponderRef : option NamespacedObjectReference;
  sis_ActiveResponderUID : string;
  sis_ActiveResponderDigest : string;
  sis_PullRequestURL : string;
  sis_Summary : string }.
#[export] Instance eta_AdverseSituationStatus : Eta AdverseSituationStatus := λ r, mkAdverseSituationStatus
  (sis_ObservedGeneration r) (sis_Conditions r) (sis_Phase r) (sis_Sequence r)
  (sis_Events r) (sis_EventCount r) (sis_DuplicateCount r) (sis_LastEventAt r)
  (sis_QuietUntil r) (sis_ResolvedAt r) (sis_PullRequestObservedAt r)
  (sis_PullRequestQuietUntil r) (sis_ActiveResponderRef r)
  (sis_ActiveResponderUID r) (sis_ActiveResponderDigest r)
  (sis_PullRequestURL r) (sis_Summary r).
Definition zero_AdverseSituationStatus : AdverseSituationStatus := mkAdverseSituationStatus
  0 [] "" 0 [] 0 0 None None None None None None "" "" "" "".

Record AdverseSituation := mkAdverseSituation {
  sit_ObjectMeta : ObjectMeta;
  sit_Spec : AdverseSituationSpec;
  sit_Status : AdverseSituationStatus }.
#[export] Instance eta_AdverseSituation : Eta AdverseSituation := λ r, mkAdverseSituation
  (sit_ObjectMeta r) (sit_Spec r) (sit_Status r).
Definition zero_AdverseSituation : AdverseSituation := mkAdverseSituation
  zero_ObjectMeta zero_AdverseSituationSpec zero_AdverseSituationStatus.

(** ** Constants *)

Definition AdverseSignalPhasePending : string := "Pending".
Definition AdverseSignalPhaseAccepted : string := "Accepted".
Definition AdverseSignalPhaseRejected : string := "Rejected".
Definition AdverseSituationPhasePending : string := "Pending".
Definition AdverseSituationPhaseOpen : string := "Open".
Definition AdverseSituationPhaseQuieting : string := "Quieting".
Definition AdverseSituationPhaseResolved : string := "Resolved".

(** Names of the objects. *)
Definition sig_Name (o : AdverseSignal) : string := meta_Name (sig_ObjectMeta o).
Definition sig_Namespace (o : AdverseSignal) : string := meta_Namespace (sig_ObjectMeta o).
Definition sig_UID (o : AdverseSignal) : string := meta_UID (sig_ObjectMeta o).
Definition sig_Generation (o : AdverseSignal) : Z := meta_Generation (sig_ObjectMeta o).
Definition sit_Name (o : AdverseSituation) : string := meta_Name (sit_ObjectMeta o).
Definition sit_Namespace (o : AdverseSituation) : string := meta_Namespace (sit_ObjectMeta o).
Definition sit_UID (o : AdverseSituation) : string := meta_UID (sit_ObjectMeta o).
Definition sit_Generation (o : AdverseSituation) : Z := meta_Generation (sit_ObjectMeta o).
