(* ===== verification/ApiTrigger.v ===== *)
(** * API types: external triggers

    The types of [src/api/v1alpha1/agent_external_trigger_types.go], by the same
    conventions as [ApiRun]. *)

From stdpp Require Import base list gmap strings.
From Stdlib Require Import ZArith.
From S2P Require Import Prelude GoStrings GoTime ApiRun.

Open Scope Z_scope.

Record AgentExternalTriggerSecretRef := mkAgentExternalTriggerSecretRef {
  tsr_Name : string;
  tsr_WebhookSecretKey : string;
  tsr_PathTokenKey : string }.
#[export] Instance eta_AgentExternalTriggerSecretRef : Eta AgentExternalTriggerSecretRef := λ r, mkAgentExternalTriggerSecretRef
  (tsr_Name r) (tsr_WebhookSecretKey r) (tsr_PathTokenKey r).
Definition zero_AgentExternalTriggerSecretRef : AgentExternalTriggerSecretRef := mkAgentExternalTriggerSecretRef
  "" "" "".

Record AgentExternalTriggerGitHubSpec := mkAgentExternalTriggerGitHubSpec {
  tgh_Repositories : list string;
  tgh_Events : list string }.
#[export] Instance eta_AgentExternalTriggerGitHubSpec : Eta AgentExternalTriggerGitHubSpec := λ r, mkAgentExternalTriggerGitHubSpec
  (tgh_Repositories r) (tgh_Events r).
Definition zero_AgentExternalTriggerGitHubSpec : AgentExternalTriggerGitHubSpec := mkAgentExternalTriggerGitHubSpec
  [] [].

Record AgentExternalTriggerSourceSpec := mkAgentExternalTriggerSourceSpec {
  tso_Kind : string;
  tso_GitHub : option AgentExternalTriggerGitHubSpec }.
#[export] Instance eta_AgentExternalTriggerSourceSpec : Eta AgentExternalTriggerSourceSpec := λ r, mkAgentExternalTriggerSourceSpec
  (tso_Kind r) (tso_GitHub r).
Definition zero_AgentExternalTriggerSourceSpec : AgentExternalTriggerSourceSpec := mkAgentExternalTriggerSourceSpec
  "" None.

Record AgentExternalTriggerTargetSpec := mkAgentExternalTriggerTargetSpec {
  tgt_Kind : string;
  tgt_Name : string;
  tgt_CouncilDelivery : string }.
#[export] Instance eta_AgentExternalTriggerTargetSpec : Eta AgentExternalTriggerTargetSpec := λ r, mkAgentExternalTriggerTargetSpec
  (tgt_Kind r) (tgt_Name r) (tgt_CouncilDelivery r).
Definition zero_AgentExternalTriggerTargetSpec : AgentExternalTriggerTargetSpec := mkAgentExternalTriggerTargetSpec
  "" "" "".

Record AgentExternalTriggerHTTPRouteSpec := mkAgentExternalTriggerHTTPRouteSpec {
  trs_Hostname : string }.
#[export] Instance eta_AgentExternalTriggerHTTPRouteSpec : Eta AgentExternalTriggerHTTPRouteSpec := λ r, mkAgentExternalTriggerHTTPRouteSpec
  (trs_Hostname r).
Definition zero_AgentExternalTriggerHTTPRouteSpec : AgentExternalTriggerHTTPRouteSpec := mkAgentExternalTriggerHTTPRouteSpec
  "".

Record AgentExternalTriggerHTTPRouteStatus := mkAgentExternalTriggerHTTPRouteStatus {
  trt_Name : string;
  trt_Namespace : string;
  trt_PublicURL : string;
  trt_Accepted : option bool;
  trt_Programmed : option bool }.
#[export] Instance eta_AgentExternalTriggerHTTPRouteStatus : Eta AgentExternalTriggerHTTPRouteStatus := λ r, mkAgentExternalTriggerHTTPRouteStatus
  (trt_Name r) (trt_Namespace r) (trt_PublicURL r) (trt_Accepted r)
  (trt_Programmed r).
Definition zero_AgentExternalTriggerHTTPRouteStatus : AgentExternalTriggerHTTPRouteStatus := mkAgentExternalTriggerHTTPRouteStatus
  "" "" "" None None.

Record AgentExternalTriggerSpec := mkAgentExternalTriggerSpec {
  ext_Suspend : bool;
  ext_Source : AgentExternalTriggerSourceSpec;
  ext_SecretRef : AgentExternalTriggerSecretRef;
  ext_Targets : list AgentExternalTriggerTargetSpec;
  ext_HTTPRoute : option AgentExternalTriggerHTTPRouteSpec;
  ext_PromptTemplate : string;
  ext_ConcurrencyPolicy : string;
  ext_MaxDeliveriesPerDay : Z }.
#[export] Instance eta_AgentExternalTriggerSpec : Eta AgentExternalTriggerSpec := λ r, mkAgentExternalTriggerSpec
  (ext_Suspend r) (ext_Source r) (ext_SecretRef r) (ext_Targets r)
  (ext_HTTPRoute r) (ext_PromptTemplate r) (ext_ConcurrencyPolicy r)
  (ext_MaxDeliveriesPerDay r).
Definition zero_AgentExternalTriggerSpec : AgentExternalTriggerSpec := mkAgentExternalTriggerSpec
  false zero_AgentExternalTriggerSourceSpec zero_AgentExternalTriggerSecretRef
  [] None "" "" 0.

Record AgentExternalTriggerStatus := mkAgentExternalTriggerStatus {
  exs_ObservedGeneration : Z;
  exs_Conditions : list Condition;
  exs_Phase : string;
  exs_ReceiverID : string;
  exs_WebhookPath : string;
  exs_LastDeliveryID : string;
  exs_LastDeliveryAt : option Time;
  exs_LastEventType : string;
  exs_LastError : string;
  exs_LastRunRefs : list NamespacedObjectReference;
  exs_DeliveryCount : Z;
  exs_SeenDeliveryIDs : list string;
  exs_DeliveriesToday : Z;
  exs_DeliveriesTodayDate : string;
  exs_HTTPRoute : option AgentExternalTriggerHTTPRouteStatus }.
#[export] Instance eta_AgentExternalTriggerStatus : Eta AgentExternalTriggerStatus := λ r, mkAgentExternalTriggerStatus
  (exs_ObservedGeneration r) (exs_Conditions r) (exs_Phase r)
  (exs_ReceiverID r) (exs_WebhookPath r) (exs_LastDeliveryID r)
  (exs_LastDeliveryAt r) (exs_LastEventType r) (exs_LastError r)
  (exs_LastRunRefs r) (exs_DeliveryCount r) (exs_SeenDeliveryIDs r)
  (exs_DeliveriesToday r) (exs_DeliveriesTodayDate r) (exs_HTTPRoute r).
Definition zero_AgentExternalTriggerStatus : AgentExternalTriggerStatus := mkAgentExternalTriggerStatus
  0 [] "" "" "" "" None "" "" [] 0 [] 0 "" None.

Record AgentExternalTrigger := mkAgentExternalTrigger {
  aet_ObjectMeta : ObjectMeta;
  aet_Spec : AgentExternalTriggerSpec;
  aet_Status : AgentExternalTriggerStatus }.
#[export] Instance eta_AgentExternalTrigger : Eta AgentExternalTrigger := λ r, mkAgentExternalTrigger
  (aet_ObjectMeta r) (aet_Spec r) (aet_Status r).
Definition zero_AgentExternalTrigger : AgentExternalTrigger := mkAgentExternalTrigger
  zero_ObjectMeta zero_AgentExternalTriggerSpec
  zero_AgentExternalTriggerStatus.

(** ** Constants *)

Definition AgentExternalTriggerPhasePending : string := "Pending".
Definition AgentExternalTriggerPhaseReady : string := "Ready".
Definition AgentExternalTriggerPhaseSuspended : string := "Suspended".
Definition AgentExternalTriggerPhaseBlocked : string := "Blocked".
Definition AgentExternalTriggerSourceGitHubWebhook : string := "githubWebhook".
Definition AgentExternalTriggerConcurrencyForbid : string := "Forbid".
Definition AgentExternalTriggerConcurrencyAllow : string := "Allow".
Definition AgentExternalTriggerTargetAgentRunProfile : string := "AgentRunProfile".
Definition AgentExternalTriggerTargetAgentCouncil : string := "AgentCouncil".
Definition AgentExternalTriggerTargetAgentRun : string := "AgentRun".
Definition AgentExternalTriggerCouncilDeliveryAllMembers : string := "allMembers".
Definition DefaultWebhookSecretKey : string := "webhookSecret".
Definition AgentExternalTriggerDeliveryAnnotation : string := "control.anvil.hazyforge.io/external-trigger-delivery".
Definition AgentExternalTriggerLabel : string := "control.anvil.hazyforge.io/agent-external-trigger".
Definition AgentExternalTriggerNamespaceLabel : string := "control.anvil.hazyforge.io/agent-external-trigger-namespace".
Definition AgentExternalTriggerDeliveryIDLabel : string := "control.anvil.hazyforge.io/github-delivery".

(** Names of the objects. *)
Definition aet_Name (o : AgentExternalTrigger) : string := meta_Name (aet_ObjectMeta o).
Definition aet_Namespace (o : AgentExternalTrigger) : string := meta_Namespace (aet_ObjectMeta o).
Definition aet_UID (o : AgentExternalTrigger) : string := meta_UID (aet_ObjectMeta o).
Definition aet_Generation (o : AgentExternalTrigger) : Z := meta_Generation (aet_ObjectMeta o).
