(* ===== verification/Kube.v ===== *)
(** * The Kubernetes API, as the controllers use it

    The controllers read and write through controller-runtime's [client.Client],
    which is not part of this repository.  It is a parameter of the model: the
    class [Client] has one operation per call the modelled code makes, over an
    abstract server state [W], and the class [ClientLaws] states the documented
    behaviour that proofs rely on, in terms of the objects stored ([view]).
    [mem_client] is a concrete in-memory server that satisfies the laws; the
    witnesses run the controllers against it.

    Reads are taken to be consistent with the state they are made in; the
    staleness of informer caches is outside the model. *)

From stdpp Require Import base list gmap strings.
From Stdlib Require Import ZArith Lia.
From S2P Require Import Prelude GoStrings GoTime ApiRun ApiWork.

Open Scope Z_scope.

(** ** Errors *)

Inductive ApiReason := ReasonNotFound | ReasonAlreadyExists | ReasonConflict | ReasonOther.
#[export] Instance ApiReason_eq_dec : EqDecision ApiReason.
Proof. solve_decision. Defined.

Inductive GoErr :=
  | ErrApi (reason : ApiReason) (text : string)
  | ErrText (text : string)
  | ErrWrap (context : string) (inner : GoErr)
  | ErrSentinel (sentinel detail : string)
  | ErrPanic (text : string)
  | ErrHang
  | ErrScopeConflict (direct profile : string).

(** Go: [err.Error()]; [ErrWrap c e] is [fmt.Errorf("c: %w", e)] and
    [ErrSentinel s d] is [fmt.Errorf("%w: d", s)].  [ErrPanic] is a run-time
    panic, which controller-runtime turns into an error of the reconciliation;
    [ErrHang] stands for a loop that never ends. *)
Fixpoint errorText (e : GoErr) : string :=
  match e with
  | ErrApi _ t => t
  | ErrText t => t
  | ErrWrap c e => c +:+ ": " +:+ errorText e
  | ErrSentinel s d => s +:+ ": " +:+ d
  | ErrPanic t => "panic: " +:+ t
  | ErrHang => "does not return"
  | ErrScopeConflict d p =>
      "run scope applicationRef " +:+ quote d
      +:+ " conflicts with AgentRunProfile applicationRef " +:+ quote p
  end.

(** Go: [apierrors.ReasonForError], which looks through wrapping. *)
Fixpoint errReason (e : GoErr) : option ApiReason :=
  match e with
  | ErrApi r _ => Some r
  | ErrWrap _ e => errReason e
  | _ => None
  end.
Definition IsNotFound (e : GoErr) : bool := bool_decide (errReason e = Some ReasonNotFound).
Definition IsAlreadyExists (e : GoErr) : bool :=
  bool_decide (errReason e = Some ReasonAlreadyExists).
Definition IsConflict (e : GoErr) : bool := bool_decide (errReason e = Some ReasonConflict).

(** Go: [errors.Is(err, sentinel)]. *)
Fixpoint errIs (sentinel : string) (e : GoErr) : bool :=
  match e with
  | ErrSentinel s _ => bool_decide (s = sentinel)
  | ErrWrap _ e => errIs sentinel e
  | _ => false
  end.

(** Go: [errors.As(err, &conflict)] for [*agentRunScopeConflict]. *)
Fixpoint errAsScopeConflict (e : GoErr) : option (string * string) :=
  match e with
  | ErrScopeConflict d p => Some (d, p)
  | ErrWrap _ e => errAsScopeConflict e
  | _ => None
  end.

(** ** The wire encoding

    Go: [json.Marshal] of a value of type [A].  The encoding of an API object
    runs the [MarshalJSON] methods of the Kubernetes types inside it, so it is a
    parameter; it can fail, and it is a function of the value. *)
Class Marshal (A : Type) := jsonMarshal : A → option string.

(** ** Reconcile results: [ctrl.Result] *)

Record Result := mkResult { Requeue : bool; RequeueAfter : Duration }.
Definition Done : Result := mkResult false 0.
Definition requeueNow : Result := mkResult true 0.

(** ** The client *)

Definition key : Type := string * string.
Definition run_key (r : AgentRun) : key := (run_Namespace r, run_Name r).
Definition chain_key (c : AgentChain) : key := (chain_Namespace c, chain_Name c).
Definition sched_key (s : AgentSchedule) : key := (sched_Namespace s, sched_Name s).

(** [listRuns ns sel]: [List] with [InNamespace] and [MatchingLabels], both
    optional.  A merge patch is given by the fields it changes. *)
Class Client (W : Type) := {
  getRun : string → string → W → GoErr + AgentRun;
  listRuns : option string → option (string * string) → W → GoErr + list AgentRun;
  createRun : AgentRun → M W GoErr AgentRun;
  patchRunOwners : key → list OwnerReference → M W GoErr unit;
  getChain : string → string → W → GoErr + AgentChain;
  patchChainFinalizers : key → list string → M W GoErr unit;
  patchChainStatus : key → AgentChainStatus → M W GoErr unit;
  getSchedule : string → string → W → GoErr + AgentSchedule;
  listSchedules : W → GoErr + list AgentSchedule;
  patchScheduleStatus : key → AgentScheduleStatus → M W GoErr unit;
  getControl : string → W → GoErr + AgentRunControl;
  listControls : W → GoErr + list AgentRunControl;
  patchControlStatus : string → AgentRunControlStatus → M W GoErr unit;
  getProfile : string → string → W → GoErr + AgentRunProfile;
}.

(** ** Documented behaviour *)

Record View := mkView {
  v_runs : gmap key AgentRun;
  v_chains : gmap key AgentChain;
  v_schedules : gmap key AgentSchedule;
  v_controls : gmap string AgentRunControl;
  v_profiles : gmap key AgentRunProfile }.
#[export] Instance eta_View : Eta View := λ r, mkView
  (v_runs r) (v_chains r) (v_schedules r) (v_controls r) (v_profiles r).

(** The API server sets the Kubernetes core default of a file-key environment
    source; this is the only default it adds to a run spec. *)
Definition canonicalEnv (e : EnvVar) : EnvVar :=
  mkEnvVar (env_Name e) (env_Value e)
    (match env_ValueFrom e with
     | Some s => Some (mkEnvVarSource (evs_Rest s) (evs_FieldRef s)
         (match evs_FileKeyRef s with
          | Some k => Some (mkFileKeySelector (fks_Rest k)
              (match fks_Optional k with None => Some false | Some b => Some b end))
          | None => None
          end))
     | None => None
     end).

Definition agentChainCanonicalRunSpec (spec : AgentRunSpec) : AgentRunSpec :=
  spec <| rs_Harness := (rs_Harness spec) <| har_Execution :=
    (har_Execution (rs_Harness spec)) <| ex_ExtraEnv :=
      map canonicalEnv (ex_ExtraEnv (har_Execution (rs_Harness spec))) |> |> |>.

(** What the server stores for a created run: the metadata and the spec that
    were sent, up to defaults, an empty status and a UID.  This is for times of whole
    seconds: the wire format of [metav1.Time] has no fraction, so a server cuts others. *)
Record createdFrom (sent stored : AgentRun) : Prop := {
  cf_key : run_key stored = run_key sent;
  cf_labels : run_Labels stored = run_Labels sent;
  cf_annotations : run_Annotations stored = run_Annotations sent;
  cf_spec : agentChainCanonicalRunSpec (run_Spec stored)
            = agentChainCanonicalRunSpec (run_Spec sent);
  cf_phase : run_Phase stored = "";
  cf_uid : run_UID stored ≠ "" }.

Definition matches (ns : option string) (sel : option (string * string))
    (r : AgentRun) : Prop :=
  (∀ n, ns = Some n → run_Namespace r = n)
  ∧ (∀ k v, sel = Some (k, v) → run_Labels r !! k = Some v).

Class ClientLaws (W : Type) `{Client W} := {
  view : W → View;
  (** objects are stored under their own names *)
  view_key w k r : v_runs (view w) !! k = Some r → run_key r = k;
  view_chain_key w k c : v_chains (view w) !! k = Some c → chain_key c = k;
  getRun_ok w ns n r :
    getRun ns n w = inr r → v_runs (view w) !! (ns, n) = Some r;
  getRun_notfound w ns n e :
    getRun ns n w = inl e → IsNotFound e = true → v_runs (view w) !! (ns, n) = None;
  listRuns_ok w ns sel l r :
    listRuns ns sel w = inr l →
    (r ∈ l ↔ v_runs (view w) !! run_key r = Some r ∧ matches ns sel r);
  listRuns_nodup w ns sel l :
    listRuns ns sel w = inr l → NoDup (map run_key l);
  getChain_ok w ns n c :
    getChain ns n w = inr c → v_chains (view w) !! (ns, n) = Some c;
  (** a create stores a new object, or changes nothing; a lost response can
      hide a create that was applied *)
  createRun_ok w w' r r' :
    createRun r w = (w', inr r') →
    v_runs (view w) !! run_key r = None
    ∧ createdFrom r r'
    ∧ view w' = (view w) <| v_runs := <[run_key r := r']> (v_runs (view w)) |>;
  createRun_err w w' r e :
    createRun r w = (w', inl e) →
    view w' = view w
    ∨ errReason e = Some ReasonOther
      ∧ v_runs (view w) !! run_key r = None
      ∧ ∃ r', createdFrom r r'
         ∧ view w' = (view w) <| v_runs := <[run_key r := r']> (v_runs (view w)) |>;
  (** a patch of owner references changes neither identity nor spec nor status *)
  patchRunOwners_view w w' k os x :
    patchRunOwners k os w = (w', x) →
    view w' = view w
    ∨ ∃ r r', v_runs (view w) !! k = Some r
       ∧ view w' = (view w) <| v_runs := <[k := r']> (v_runs (view w)) |>
       ∧ run_key r' = run_key r ∧ run_UID r' = run_UID r
       ∧ run_Labels r' = run_Labels r ∧ run_Annotations r' = run_Annotations r
       ∧ run_CreationTimestamp r' = run_CreationTimestamp r
       ∧ run_Spec r' = run_Spec r ∧ run_Status r' = run_Status r;
  (** status patches and finalizer patches leave the runs alone *)
  patchChainStatus_runs w w' k s x :
    patchChainStatus k s w = (w', x) → v_runs (view w') = v_runs (view w);
  (** a status patch replaces the status, or (refused, or its response lost)
      may leave the chain as it was *)
  patchChainStatus_any w w' k s x :
    patchChainStatus k s w = (w', x) →
    v_chains (view w') !! k = v_chains (view w) !! k
    ∨ ∃ c rv, v_chains (view w) !! k = Some c
       ∧ v_chains (view w') !! k
         = Some (c <| chain_Status := s |>
                   <| chain_ObjectMeta := (chain_ObjectMeta c) <| meta_ResourceVersion := rv |> |>);
  patchChainStatus_ok w w' k c s :
    patchChainStatus k s w = (w', inr tt) → v_chains (view w) !! k = Some c →
    ∃ rv, v_chains (view w') !! k
      = Some (c <| chain_Status := s |>
                <| chain_ObjectMeta := (chain_ObjectMeta c) <| meta_ResourceVersion := rv |> |>);
  (** a patch of finalizers changes nothing else of the chain; removing the last
      one of a chain being deleted removes the chain *)
  patchChainFinalizers_any w w' k fs x c' :
    patchChainFinalizers k fs w = (w', x) → v_chains (view w') !! k = Some c' →
    ∃ c, v_chains (view w) !! k = Some c
      ∧ chain_key c' = chain_key c ∧ chain_UID c' = chain_UID c
      ∧ chain_Labels c' = chain_Labels c
      ∧ chain_Spec c' = chain_Spec c ∧ chain_Status c' = chain_Status c;
  patchChainFinalizers_runs w w' k fs x :
    patchChainFinalizers k fs w = (w', x) → v_runs (view w') = v_runs (view w);
  patchScheduleStatus_runs w w' k s x :
    patchScheduleStatus k s w = (w', x) → v_runs (view w') = v_runs (view w);
  patchControlStatus_runs w w' k s x :
    patchControlStatus k s w = (w', x) → v_runs (view w') = v_runs (view w);
  listControls_ok w l c :
    listControls w = inr l → (c ∈ l ↔ v_controls (view w) !! ctl_Name c = Some c);
  getProfile_ok w ns n p :
    getProfile ns n w = inr p → v_profiles (view w) !! (ns, n) = Some p;
  getProfile_notfound w ns n e :
    getProfile ns n w = inl e → IsNotFound e = true → v_profiles (view w) !! (ns, n) = None;
}.

(** Go: [apimeta.FindStatusCondition]: the first condition of a type. *)
Definition FindStatusCondition (cs : list Condition) (ty : string) : option Condition :=
  snd <$> list_find (λ c, cond_Type c = ty) cs.

(** The parts of a condition the controllers decide. *)
Definition condSame (c c' : Condition) : Prop :=
  cond_Type c' = cond_Type c ∧ cond_Status c' = cond_Status c
  ∧ cond_Reason c' = cond_Reason c ∧ cond_Message c' = cond_Message c
  ∧ cond_ObservedGeneration c' = cond_ObservedGeneration c.

(** Go: [apimeta.SetStatusCondition], a library call: afterwards the condition
    of the given type is the new one, and the other types are untouched. *)
Class Conditions := {
  SetStatusCondition : list Condition → Condition → list Condition;
  SetStatusCondition_same cs c :
    ∃ c', FindStatusCondition (SetStatusCondition cs c) (cond_Type c) = Some c'
      ∧ condSame c c';
  SetStatusCondition_other cs c ty :
    ty ≠ cond_Type c →
    FindStatusCondition (SetStatusCondition cs c) ty = FindStatusCondition cs ty;
}.

(** ** The monad and the laws *)

(** What [SetStatusCondition] makes visible of a condition. *)
Definition hasCondition (cs : list Condition) (ty status reason : string) : Prop :=
  ∃ c, FindStatusCondition cs ty = Some c ∧ cond_Status c = status ∧ cond_Reason c = reason.

Lemma SetStatusCondition_has `{Conditions} cs c :
  hasCondition (SetStatusCondition cs c) (cond_Type c) (cond_Status c) (cond_Reason c).
Proof.
  destruct (SetStatusCondition_same cs c) as (c' & Hf & _ & Hs & Hr & _). by exists c'.
Qed.
#[export] Hint Resolve SetStatusCondition_has : anvil.

(** A computation that leaves the stored runs alone whatever it returns. *)
Definition keepsRuns {W A} `{ClientLaws W} (m : M W GoErr A) : Prop :=
  ∀ w w' x, m w = (w', x) → v_runs (view w') = v_runs (view w).

Section keeps.
Context {W : Type} `{ClientLaws W}.

Lemma keepsRuns_ret {A} (a : A) : keepsRuns (mret a).
Proof. intros w w' x [= <- <-]. done. Qed.
Lemma keepsRuns_fail {A} e : keepsRuns (A := A) (mfail e).
Proof. intros w w' x [= <- <-]. done. Qed.
Lemma keepsRuns_read {A} (f : W → GoErr + A) : keepsRuns (mread f).
Proof. intros w w' x [= <- <-]. done. Qed.
Lemma keepsRuns_bind {A B} (m : M W GoErr A) (k : A → M W GoErr B) :
  keepsRuns m → (∀ a, keepsRuns (k a)) → keepsRuns (mbnd m k).
Proof.
  intros Hm Hk w w' x. unfold mbnd.
  destruct (m w) as [w1 [e|a]] eqn:E; [intros [= <- <-]; eauto|].
  intros Ek. etrans; [by eapply Hk|by eapply Hm].
Qed.
Lemma keepsRuns_try {A} (m : M W GoErr A) : keepsRuns m → keepsRuns (mtry m).
Proof.
  intros Hm w w' x. unfold mtry. destruct (m w) as [w1 r] eqn:E.
  intros [= <- <-]. eauto.
Qed.
Lemma keepsRuns_chainStatus k s : keepsRuns (patchChainStatus k s).
Proof. intros w w' x. apply patchChainStatus_runs. Qed.
Lemma keepsRuns_chainFinalizers k s : keepsRuns (patchChainFinalizers k s).
Proof. intros w w' x. apply patchChainFinalizers_runs. Qed.
Lemma keepsRuns_scheduleStatus k s : keepsRuns (patchScheduleStatus k s).
Proof. intros w w' x. apply patchScheduleStatus_runs. Qed.
Lemma keepsRuns_controlStatus k s : keepsRuns (patchControlStatus k s).
Proof. intros w w' x. apply patchControlStatus_runs. Qed.
End keeps.
#[export] Hint Resolve keepsRuns_ret keepsRuns_fail keepsRuns_read keepsRuns_bind
  keepsRuns_try keepsRuns_chainStatus keepsRuns_chainFinalizers
  keepsRuns_scheduleStatus keepsRuns_controlStatus : anvil.
