(* ===== verification/MemKube.v ===== *)
(** * An in-memory API server

    A concrete instance of the client interface of [Kube], with a proof that it
    satisfies the documented behaviour: it shows that the laws can hold, and the
    witnesses of the theorems evaluate the controllers on it. *)

From stdpp Require Import base list gmap strings.
From Stdlib Require Import ZArith Lia.
From S2P Require Import Prelude GoStrings GoTime ApiRun ApiWork Kube.

Open Scope Z_scope.

(** The stored objects (runs and chains are filed under their own names), the
    clock for creation timestamps and a counter for UIDs. *)
Record MemCluster := mkMem { mem_view : View; mem_clock : Time; mem_next : nat }.

(** Objects stored under another name are not visible. *)
Definition visible (v : View) : View :=
  mkView (filter (λ kr, run_key kr.2 = kr.1) (v_runs v))
         (filter (λ kc, chain_key kc.2 = kc.1) (v_chains v))
         (v_schedules v)
         (filter (λ nc, ctl_Name nc.2 = nc.1) (v_controls v))
         (v_profiles v).

Definition notFound (what : string) : GoErr := ErrApi ReasonNotFound (what +:+ " not found").
Definition found {A} (what : string) (o : option A) : GoErr + A :=
  match o with Some a => inr a | None => inl (notFound what) end.

Definition selects (ns : option string) (sel : option (string * string)) (r : AgentRun) : bool :=
  match ns with Some n => bool_decide (run_Namespace r = n) | None => true end
  && match sel with
     | Some (k, v) => bool_decide (run_Labels r !! k = Some v)
     | None => true
     end.

Definition mem_runs (w : MemCluster) : gmap key AgentRun := v_runs (visible (mem_view w)).

Definition mem_stored (w : MemCluster) (r : AgentRun) : AgentRun :=
  r <| run_ObjectMeta := (run_ObjectMeta r)
         <| meta_UID := "uid-" +:+ fmtNat (mem_next w) |>
         <| meta_CreationTimestamp := Truncate (mem_clock w) Second |> |>
    <| run_Status := zero_AgentRunStatus |>.

Definition mem_put (w : MemCluster) (v : View) : MemCluster :=
  mkMem v (mem_clock w) (S (mem_next w)).

Definition mem_createRun (r : AgentRun) : M MemCluster GoErr AgentRun := λ w,
  match mem_runs w !! run_key r with
  | Some _ => (w, inl (ErrApi ReasonAlreadyExists "already exists"))
  | None =>
      let r' := mem_stored w r in
      (mem_put w ((mem_view w) <| v_runs := <[run_key r := r']> (v_runs (mem_view w)) |>),
       inr r')
  end.

Definition mem_patch {A} (get : View → option A) (put : A → View → View) :
    M MemCluster GoErr unit := λ w,
  match get (visible (mem_view w)) with
  | None => (w, inl (notFound "object"))
  | Some a => (mem_put w (put a (mem_view w)), inr tt)
  end.

#[export] Instance mem_client : Client MemCluster := {
  getRun ns n w := found "AgentRun" (mem_runs w !! (ns, n));
  listRuns ns sel w :=
    inr (filter (λ r, selects ns sel r = true) (map snd (map_to_list (mem_runs w))));
  createRun := mem_createRun;
  patchRunOwners k os := mem_patch (λ v, v_runs v !! k)
    (λ r v, v <| v_runs := <[k := r <| run_ObjectMeta :=
       (run_ObjectMeta r) <| meta_OwnerReferences := os |> |>]> (v_runs v) |>);
  getChain ns n w := found "AgentChain" (v_chains (visible (mem_view w)) !! (ns, n));
  patchChainFinalizers k fs := mem_patch (λ v, v_chains v !! k)
    (λ c v, v <| v_chains := <[k := c <| chain_ObjectMeta :=
       (chain_ObjectMeta c) <| meta_Finalizers := fs |> |>]> (v_chains v) |>);
  patchChainStatus k s := mem_patch (λ v, v_chains v !! k)
    (λ c v, v <| v_chains := <[k := c <| chain_Status := s |>]> (v_chains v) |>);
  getSchedule ns n w := found "AgentSchedule" (v_schedules (mem_view w) !! (ns, n));
  listSchedules w := inr (map snd (map_to_list (v_schedules (mem_view w))));
  patchScheduleStatus k s := mem_patch (λ v, v_schedules v !! k)
    (λ c v, v <| v_schedules := <[k := c <| sched_Status := s |>]> (v_schedules v) |>);
  getControl n w := found "AgentRunControl" (v_controls (visible (mem_view w)) !! n);
  listControls w := inr (map snd (map_to_list (v_controls (visible (mem_view w)))));
  patchControlStatus n s := mem_patch (λ v, v_controls v !! n)
    (λ c v, v <| v_controls := <[n := c <| ctl_Status := s |>]> (v_controls v) |>);
  getProfile ns n w := found "AgentRunProfile" (v_profiles (mem_view w) !! (ns, n));
}.

(** ** The laws *)

Lemma found_inr {A} what (o : option A) a : found what o = inr a ↔ o = Some a.
Proof. destruct o; simpl; naive_solver. Qed.
Lemma found_inl {A} what (o : option A) e : found what o = inl e → o = None.
Proof. by destruct o. Qed.

Lemma visible_insert_run v k r :
  run_key r = k →
  visible (v <| v_runs := <[k := r]> (v_runs v) |>)
  = (visible v) <| v_runs := <[k := r]> (v_runs (visible v)) |>.
Proof.
  intros Hk. unfold visible; simpl. f_equal.
  by rewrite map_filter_insert_True.
Qed.

Lemma visible_insert_chain v k c :
  chain_key c = k →
  visible (v <| v_chains := <[k := c]> (v_chains v) |>)
  = (visible v) <| v_chains := <[k := c]> (v_chains (visible v)) |>.
Proof.
  intros Hk. unfold visible; simpl. f_equal.
  by rewrite map_filter_insert_True.
Qed.

Lemma mem_runs_key w k r : mem_runs w !! k = Some r → run_key r = k.
Proof. unfold mem_runs, visible; simpl. by intros [_ ?]%map_lookup_filter_Some. Qed.

Lemma selects_matches ns sel r : selects ns sel r = true ↔ matches ns sel r.
Proof.
  unfold selects, matches. rewrite andb_true_iff.
  destruct ns as [n|], sel as [[k v]|]; rewrite ?bool_decide_eq_true;
    split; intros [H1 H2]; split; try done; intros; simplify_eq; eauto.
Qed.

Lemma mem_patch_runs {A} (get : View → option A) put w w' x :
  (∀ a v, v_runs (put a v) = v_runs v) →
  mem_patch get put w = (w', x) → mem_runs w' = mem_runs w.
Proof.
  unfold mem_patch, mem_runs. intros Hp.
  destruct (get _); intros [= <- <-]; simpl; [by rewrite Hp|done].
Qed.

Lemma mem_chain_put w k c c' :
  v_chains (visible (mem_view w)) !! k = Some c → chain_key c' = chain_key c →
  v_chains (visible (mem_view (mem_put w ((mem_view w)
    <| v_chains := <[k := c']> (v_chains (mem_view w)) |>)))) !! k = Some c'.
Proof.
  intros Hc Hk. assert (chain_key c = k) by (by apply map_lookup_filter_Some in Hc as [_ ?]).
  simpl. rewrite map_filter_insert_True by (simpl; congruence). by rewrite lookup_insert_eq.
Qed.

Lemma mem_stored_created w r : createdFrom r (mem_stored w r).
Proof. by split. Qed.

#[refine, export] Instance mem_laws : ClientLaws MemCluster := { view w := visible (mem_view w) }.
Proof.
  - intros w k r. apply mem_runs_key.
  - intros w k c. simpl. by intros [_ ?]%map_lookup_filter_Some.
  - intros w ns n r H. by apply found_inr in H.
  - intros w ns n e H _. by apply found_inl in H.
  - intros w ns sel l r [= <-].
    rewrite list_elem_of_filter, selects_matches.
    rewrite (and_comm (_ = Some r)). apply and_iff_compat_l.
    rewrite list_elem_of_fmap. split.
    + intros ([k r'] & -> & Hin%elem_of_map_to_list); simpl.
      by rewrite (mem_runs_key _ _ _ Hin).
    + intros Hr. exists (run_key r, r). split; [done|]. by apply elem_of_map_to_list.
  - intros w ns sel l [= <-]. eapply sublist_NoDup;
      [|apply (fmap_sublist run_key), sublist_filter].
    change (run_key <$> ?l) with (map run_key l).
    assert (map run_key (map snd (map_to_list (mem_runs w)))
            = (map_to_list (mem_runs w)).*1) as ->; [|apply NoDup_fst_map_to_list].
    rewrite map_map. apply map_ext_in. intros [k r] Hin; simpl.
    apply list_elem_of_In, elem_of_map_to_list, mem_runs_key in Hin. done.
  - intros w ns n c H. by apply found_inr in H.
  - intros w w' r r'. simpl. unfold mem_createRun.
    destruct (mem_runs w !! run_key r) eqn:E; [done|]. intros [= <- <-].
    split; [done|]. split; [apply mem_stored_created|]. by apply visible_insert_run.
  - intros w w' r e. simpl. unfold mem_createRun.
    destruct (mem_runs w !! run_key r) eqn:E; [|done]. intros [= <- <-]. by left.
  - intros w w' k os x. simpl. unfold mem_patch.
    destruct (v_runs (visible (mem_view w)) !! k) as [r|] eqn:E; intros [= <- <-]; [|by left].
    right. exists r. eexists. split; [done|]. split.
    { apply visible_insert_run. by apply (mem_runs_key w) in E. }
    done.
  - intros w w' k s x. by apply mem_patch_runs.
  - intros w w' k s x. unfold patchChainStatus, mem_client, mem_patch.
    destruct (v_chains (visible (mem_view w)) !! k) as [c|] eqn:Hc; intros [= <- <-]; [|by left].
    right. exists c, (meta_ResourceVersion (chain_ObjectMeta c)). split; [done|].
    etransitivity; [exact (mem_chain_put w k c 
      (mkAgentChain (chain_ObjectMeta c) (chain_Spec c) s) Hc eq_refl)|].
    by destruct c as [[] ? ?].
  - intros w w' k c s. unfold patchChainStatus, mem_client, mem_patch. intros H Hc. rewrite Hc in H.
    injection H as <-. exists (meta_ResourceVersion (chain_ObjectMeta c)).
    etransitivity; [exact (mem_chain_put w k c 
      (mkAgentChain (chain_ObjectMeta c) (chain_Spec c) s) Hc eq_refl)|].
    by destruct c as [[] ? ?].
  - intros w w' k fs x c'. unfold patchChainFinalizers, mem_client, mem_patch.
    destruct (v_chains (visible (mem_view w)) !! k) as [c|] eqn:Hc; intros [= <- <-];
      [|by rewrite Hc].
    intros Hc'. exists c. split; [done|].
    match type of Hc' with
    | context [<[k := ?n]> _] =>
        pose proof (eq_trans (eq_sym Hc') (mem_chain_put w k c n Hc eq_refl)) as [= ->]
    end. done.
  - intros w w' k fs x. by apply mem_patch_runs.
  - intros w w' k s x. by apply mem_patch_runs.
  - intros w w' k s x. by apply mem_patch_runs.
  - intros w l c [= <-]. rewrite list_elem_of_fmap. split.
    + intros ([n c'] & -> & Hin%elem_of_map_to_list).
      pose proof Hin as [_ Hn]%map_lookup_filter_Some. simpl in *. by rewrite Hn.
    + intros Hc. exists (ctl_Name c, c). split; [done|]. by apply elem_of_map_to_list.
  - intros w ns n p H. by apply found_inr in H.
  - intros w ns n e H _. by apply found_inl in H.
Defined.

(** ** Conditions

    A list keyed by type: the first condition of the type is replaced in place,
    a new type is appended. *)
Fixpoint setCondition (cs : list Condition) (c : Condition) : list Condition :=
  match cs with
  | [] => [c]
  | d :: cs =>
      if decide (cond_Type d = cond_Type c) then c :: cs else d :: setCondition cs c
  end.

Lemma FindStatusCondition_cons d cs ty :
  FindStatusCondition (d :: cs) ty
  = if decide (cond_Type d = ty) then Some d else FindStatusCondition cs ty.
Proof.
  unfold FindStatusCondition; simpl. destruct (decide _); [done|].
  by destruct (list_find _ cs) as [[]|].
Qed.

#[refine, export] Instance mem_conditions : Conditions := { SetStatusCondition := setCondition }.
Proof.
  - intros cs c. exists c. split; [|done].
    induction cs as [|d cs IH]; simpl; [by rewrite FindStatusCondition_cons, decide_True|].
    destruct (decide _) eqn:E; rewrite FindStatusCondition_cons; [by rewrite decide_True|].
    by rewrite decide_False.
  - intros cs c ty Hty. induction cs as [|d cs IH]; simpl.
    { rewrite FindStatusCondition_cons, decide_False; done. }
    destruct (decide (cond_Type d = cond_Type c)) as [Hd|Hd]; rewrite !FindStatusCondition_cons.
    + rewrite !decide_False; congruence.
    + by rewrite IH.
Defined.
