(* ===== verification/Fixtures.v ===== *)
(** * Concrete objects

    Small objects and clusters on which the witnesses evaluate the model. *)

From stdpp Require Import base list gmap strings.
From Stdlib Require Import ZArith.
From S2P Require Import Prelude GoStrings GoTime ApiRun ApiWork Kube MemKube.

Open Scope Z_scope.

(** 2026-01-01T00:00:00Z. *)
Definition fx_epoch : Time := 1767225600 * Second.

Definition fx_meta (ns name uid : string) (created : Time) (labels : gmap string string) : ObjectMeta :=
  zero_ObjectMeta <| meta_Name := name |> <| meta_Namespace := ns |> <| meta_UID := uid |>
    <| meta_Generation := 1 |> <| meta_CreationTimestamp := created |> <| meta_Labels := labels |>.

Definition fx_run (ns name : string) (created : Time) (labels : gmap string string)
    (spec : AgentRunSpec) (phase : string) : AgentRun :=
  mkAgentRun (fx_meta ns name ("uid-" +:+ name) created labels) spec
    (zero_AgentRunStatus <| st_Phase := phase |>).

Definition fx_spec (app : string) : AgentRunSpec :=
  zero_AgentRunSpec <| rs_Scope := zero_AgentRunScopeSpec
    <| scope_ApplicationRef := Some (mkApplicationReferenceSpec app) |> |>.

Definition fx_cluster (runs : list AgentRun) (chains : list AgentChain)
    (schedules : list AgentSchedule) (controls : list AgentRunControl) : MemCluster :=
  mkMem (mkView (list_to_map (map (λ r, (run_key r, r)) runs))
                (list_to_map (map (λ c, (chain_key c, c)) chains))
                (list_to_map (map (λ s, (sched_key s, s)) schedules))
                (list_to_map (map (λ c, (ctl_Name c, c)) controls)) ∅)
        fx_epoch 0.

Definition fx_control (name app policy reason : string) (limit : Z) (expires : option Time) :
    AgentRunControl :=
  mkAgentRunControl (fx_meta "" name ("uid-" +:+ name) fx_epoch ∅)
    (mkAgentRunControlSpec (mkApplicationReferenceSpec app) policy limit reason None expires)
    zero_AgentRunControlStatus.

Definition fx_schedule (ns name policy : string) (spec : AgentScheduleSpec) : AgentSchedule :=
  mkAgentSchedule (fx_meta ns name ("uid-" +:+ name) fx_epoch ∅)
    (spec <| sp_ConcurrencyPolicy := policy |>) zero_AgentScheduleStatus.

Definition ok_list {A} (r : GoErr + list A) : list A :=
  match r with inr l => l | inl _ => [] end.

(** A chain of two steps: [build], then [review] when it succeeded. *)
Definition fx_step (name : string) (prev : option string) : AgentChainStepSpec :=
  mkAgentChainStepSpec name ((λ p, mkAgentChainWhenSpec p [] []) <$> prev) (fx_spec "shop")
    ((λ _, mkAgentChainHandoffSpec true false true 0 []) <$> prev).

Definition fx_chain_spec (steps : list AgentChainStepSpec) : AgentChainSpec :=
  zero_AgentChainSpec <| cs_StartIntervalSeconds := 3600 |>
    <| cs_ApplicationRef := Some (mkApplicationReferenceSpec "shop") |>
    <| cs_Backoff := Some (mkAgentChainBackoffSpec 600 7200) |>
    <| cs_Steps := steps |>.

Definition fx_chain : AgentChain :=
  mkAgentChain (fx_meta "agents" "release" "uid-release" fx_epoch ∅)
    (fx_chain_spec [fx_step "build" None; fx_step "review" (Some "build")])
    zero_AgentChainStatus.

(** A stand-in for the JSON encoder of run specs. *)
Definition fx_marshal_spec : Marshal AgentRunSpec :=
  λ s, Some (rs_Prompt s +:+ "|" +:+ rs_SourceDigest s).
