(* ===== verification/RunControl.v ===== *)
(** * Launch controls

    [src/internal/controller/agent_run_control_controller.go] and
    [agent_run_application_membership.go]: which application a run or a schedule
    belongs to, whether an [AgentRunControl] pauses that application, and the
    reconciler that reports a control's state.  The theorems tie the launch gate
    other controllers consult ([activeAgentRunPauseForApplication]) to the phase
    this reconciler publishes. *)

From stdpp Require Import base list gmap strings.
From Stdlib Require Import ZArith Lia.
From S2P Require Import Prelude GoStrings GoTime Names ApiRun ApiWork Kube MemKube Fixtures.

Open Scope Z_scope.

(** ** Definitions *)

Definition agentRunControlReady : string := "Ready".
Definition agentRunControlPollInterval : Duration := 30 * Second.

(** Go: [agentRunPhaseTerminal] of [agent_run_controller.go]. *)
Definition agentRunPhaseTerminal (phase : string) : bool :=
  bool_decide (phase = AgentRunPhaseSucceeded) || bool_decide (phase = AgentRunPhaseFailed)
  || bool_decide (phase = AgentRunPhaseNeedsHuman).

(** The phases in which a run ends. *)
Definition ended (phase : string) : Prop := phase ∈ ["Succeeded"; "Failed"; "NeedsHuman"].

Lemma phase_ended phase : agentRunPhaseTerminal phase = true ↔ ended phase.
Proof. unfold agentRunPhaseTerminal, ended. rewrite !orb_true_iff, !bool_decide_eq_true. set_solver. Qed.

Definition agentRunControlExpired (control : AgentRunControl) (now : Time) : bool :=
  match rc_ExpiresAt (ctl_Spec control) with
  | Some t => negb (Before now t)
  | None => false
  end.

Record activeAgentRunPause := mkPause {
  pause_ControlName : string;
  pause_Reason : string;
  pause_ExpiresAt : option Time }.

(** The guard of the selection loop, negated: the control holds launches of the
    (trimmed) application. *)
Definition controlPauses (applicationName : string) (now : Time) (c : AgentRunControl) : bool :=
  bool_decide (TrimSpace (app_Name (rc_ApplicationRef (ctl_Spec c))) = applicationName)
  && bool_decide (rc_LaunchPolicy (ctl_Spec c) = AgentRunControlLaunchPolicyPaused)
  && negb (blank (rc_Reason (ctl_Spec c)))
  && negb (agentRunControlExpired c now).

Definition selectControl (applicationName : string) (now : Time)
    (selected : option AgentRunControl) (c : AgentRunControl) : option AgentRunControl :=
  if controlPauses applicationName now c then
    match selected with
    | None => Some c
    | Some s => if strLt (ctl_Name c) (ctl_Name s) then Some c else selected
    end
  else selected.

Definition pauseOf (c : AgentRunControl) : activeAgentRunPause :=
  mkPause (ctl_Name c) (TrimSpace (rc_Reason (ctl_Spec c))) (rc_ExpiresAt (ctl_Spec c)).

Definition agentRunPauseRequeueAfter (pause : option activeAgentRunPause) (now : Time) : Duration :=
  match pause with
  | Some p =>
      match pause_ExpiresAt p with
      | Some t =>
          let untilExpiry := Sub t now in
          if (0 <? untilExpiry) && (untilExpiry <? agentRunControlPollInterval)
          then untilExpiry else agentRunControlPollInterval
      | None => agentRunControlPollInterval
      end
  | None => agentRunControlPollInterval
  end.

Definition trimmedRef (r : option ApplicationReferenceSpec) : string :=
  match r with Some a => TrimSpace (app_Name a) | None => "" end.

Section operations.
Context {W : Type} `{Client W} `{Conditions}.
Local Open Scope go_scope.

Definition activeAgentRunPauseForApplication (applicationName : string) (now : Time) :
    M W GoErr (option activeAgentRunPause) :=
  let applicationName := TrimSpace applicationName in
  if bool_decide (applicationName = "") then mret None else
  λ w, match listControls w with
       | inl e => (w, inl (ErrWrap "list AgentRunControls" e))
       | inr controls =>
           (w, inr (pauseOf <$> fold_left (selectControl applicationName now) controls None))
       end.

(** Go: [resolveAgentRunSpecApplicationNameWithProfilePolicy]. *)
Definition resolveAgentRunSpecApplicationNameWithProfilePolicy
    (namespace : string) (spec : AgentRunSpec) (requireProfile : bool) : W → GoErr + string := λ w,
  let direct := trimmedRef (scope_ApplicationRef (rs_Scope spec)) in
  match rs_ProfileRef spec with
  | None => inr direct
  | Some ref =>
      let name := TrimSpace (ref_Name ref) in
      if bool_decide (name = "") then inr direct else
      let profileNamespace := firstNonEmpty [TrimSpace (ref_Namespace ref); namespace] in
      if bool_decide (profileNamespace ≠ namespace) then
        if requireProfile then
          inl (ErrText ("profileRef must reference an AgentRunProfile in namespace "
                        +:+ quote namespace))
        else inr direct
      else
        match getProfile profileNamespace name w with
        | inl e =>
            if IsNotFound e && negb requireProfile then inr direct
            else inl (ErrWrap ("get AgentRunProfile " +:+ profileNamespace +:+ "/" +:+ name) e)
        | inr profile =>
            let profileApplication :=
              trimmedRef (scope_ApplicationRef (ps_Scope (prof_Spec profile))) in
            if bool_decide (direct ≠ "") && bool_decide (profileApplication ≠ "")
               && bool_decide (direct ≠ profileApplication)
            then inl (ErrScopeConflict direct profileApplication)
            else inr (firstNonEmpty [direct; profileApplication])
        end
  end.

Definition resolveAgentRunSpecApplicationName namespace spec :=
  resolveAgentRunSpecApplicationNameWithProfilePolicy namespace spec false.
Definition resolveAgentRunSpecApplicationNameStrict namespace spec :=
  resolveAgentRunSpecApplicationNameWithProfilePolicy namespace spec true.
Definition resolveAgentRunApplicationName (obj : AgentRun) : W → GoErr + string :=
  resolveAgentRunSpecApplicationName (run_Namespace obj) (run_Spec obj).

(** The loop over the run templates; [i] is the template's index. *)
Fixpoint resolveTemplates (namespace explicit : string) (i : nat)
    (templates : list AgentRunSpec) (resolved : string) : W → GoErr + string := λ w,
  match templates with
  | [] => inr resolved
  | t :: ts =>
      match resolveAgentRunSpecApplicationNameStrict namespace t w with
      | inl e => inl (ErrWrap ("resolve run template " +:+ fmtNat i +:+ " application") e)
      | inr name =>
          if bool_decide (name = "") then resolveTemplates namespace explicit (S i) ts resolved w
          else if bool_decide (explicit ≠ "") && bool_decide (name ≠ explicit) then
            inl (ErrText ("spec.applicationRef " +:+ quote explicit
                 +:+ " conflicts with run template applicationRef " +:+ quote name))
          else if bool_decide (resolved ≠ "") && bool_decide (name ≠ resolved) then
            inl (ErrText ("run templates resolve to multiple Applications " +:+ quote resolved
                 +:+ " and " +:+ quote name))
          else resolveTemplates namespace explicit (S i) ts name w
      end
  end.

Definition scheduleTemplates (schedule : AgentSchedule) : list AgentRunSpec :=
  match sp_RunTemplates (sched_Spec schedule) with
  | [] => [sp_RunTemplate (sched_Spec schedule)]
  | ts => map tpl_Template ts
  end.

Definition resolveAgentScheduleApplicationName (schedule : AgentSchedule) : W → GoErr + string := λ w,
  let explicit := trimmedRef (sp_ApplicationRef (sched_Spec schedule)) in
  if bool_decide (sp_ApplicationRef (sched_Spec schedule) ≠ None) && bool_decide (explicit = "") then
    inl (ErrText "spec.applicationRef.name is required when applicationRef is set")
  else
    match resolveTemplates (sched_Namespace schedule) explicit 0
            (scheduleTemplates schedule) "" w with
    | inl e => inl e
    | inr resolved => if bool_decide (explicit ≠ "") then inr explicit else inr resolved
    end.

(** Go: [agentRunMayUseApplication] of [agent_run_application_membership.go]. *)
Definition agentRunMayUseApplication (run : AgentRun) (application : string) : W → GoErr + bool := λ w,
  match resolveAgentRunApplicationName run w with
  | inr name => inr (bool_decide (name = application))
  | inl err =>
      match errAsScopeConflict err with
      | Some (direct, profile) =>
          inr (bool_decide (direct = application) || bool_decide (profile = application))
      | None => inl err
      end
  end.

(** ** The reconciler *)

Definition countSchedule (applicationName : string) (w : W) (n : Z) (s : AgentSchedule) : Z :=
  match resolveAgentScheduleApplicationName s w with
  | inr name => if bool_decide (name = applicationName) then n + 1 else n
  | inl _ => n
  end.

(** Pending and active counts; an unresolvable run is not counted. *)
Definition countRun (applicationName : string) (w : W) (n : Z * Z) (run : AgentRun) : Z * Z :=
  if agentRunPhaseTerminal (run_Phase run) then n else
  match resolveAgentRunApplicationName run w with
  | inl _ => n
  | inr name =>
      if bool_decide (name ≠ applicationName) then n
      else if bool_decide (st_JobRef (run_Status run) = None)
              && bool_decide (st_JobCreateAttemptedAt (run_Status run) = None)
      then (n.1 + 1, n.2) else (n.1, n.2 + 1)
  end.

Definition countAgentRunControlSubjects (applicationName : string)
    (status : AgentRunControlStatus) : W → GoErr + AgentRunControlStatus := λ w,
  match listSchedules w with
  | inl e => inl (ErrWrap "list AgentSchedules for AgentRunControl" e)
  | inr schedules =>
      match listRuns None None w with
      | inl e => inl (ErrWrap "list AgentRuns for AgentRunControl" e)
      | inr runs =>
          let counts := fold_left (countRun applicationName w) runs
                          (rcst_PendingRunCount status, rcst_ActiveRunCount status) in
          inr (status
            <| rcst_AffectedScheduleCount :=
                 fold_left (countSchedule applicationName w) schedules
                   (rcst_AffectedScheduleCount status) |>
            <| rcst_PendingRunCount := counts.1 |>
            <| rcst_ActiveRunCount := counts.2 |>)
      end
  end.

Definition patchAgentRunControlStatus (obj : AgentRunControl) (status : AgentRunControlStatus)
    (requeueAfter : Duration) : M W GoErr Result :=
  let* r := mtry (patchControlStatus (ctl_Name obj) status) in
  match r with
  | inl err => if IsConflict err then mret requeueNow else mfail err
  | inr _ => if 0 <? requeueAfter then mret (mkResult false requeueAfter) else mret Done
  end.

(** The switch of [Reconcile]: phase, condition status, reason, message and
    requeue delay.  [later] is the clock at the [time.Until] call. *)
Definition controlVerdict (obj : AgentRunControl) (applicationName : string)
    (now later : Time) : string * string * string * string * Duration :=
  let spec := ctl_Spec obj in
  let poll := agentRunControlPollInterval in
  if agentRunControlExpired obj now then
    (AgentRunControlPhaseExpired, ConditionTrue, "ControlExpired",
     "AgentRunControl expired; launches for Application " +:+ quote applicationName
       +:+ " are allowed.", poll)
  else if bool_decide (rc_LaunchPolicy spec = AgentRunControlLaunchPolicyPaused)
          && blank (rc_Reason spec) then
    (AgentRunControlPhaseBlocked, ConditionFalse, "PauseReasonRequired",
     "spec.reason is required when launchPolicy is Paused.", poll)
  else if bool_decide (rc_LaunchPolicy spec = AgentRunControlLaunchPolicyPaused) then
    (AgentRunControlPhasePaused, ConditionTrue, "LaunchPaused",
     "AgentRun launches for Application " +:+ quote applicationName +:+ " are paused: "
       +:+ TrimSpace (rc_Reason spec),
     match rc_ExpiresAt spec with
     | Some t =>
         let untilExpiry := Sub t later in
         if (0 <? untilExpiry) && (untilExpiry <? poll) then untilExpiry else poll
     | None => poll
     end)
  else if bool_decide (rc_LaunchPolicy spec = AgentRunControlLaunchPolicyAllowed) then
    (AgentRunControlPhaseAllowed, ConditionTrue, "LaunchAllowed",
     "AgentRun launches for Application " +:+ quote applicationName +:+ " are allowed.", poll)
  else
    (AgentRunControlPhaseBlocked, ConditionFalse, "InvalidLaunchPolicy",
     "Unsupported launchPolicy " +:+ quote (rc_LaunchPolicy spec) +:+ ".", poll).

(** Go: [AgentRunControlReconciler.Reconcile]. *)
Definition reconcileControl (name : string) (now later : Time) : M W GoErr Result := λ w,
  match getControl name w with
  | inl e => if IsNotFound e then (w, inr Done) else (w, inl e)
  | inr obj =>
      if bool_decide (setTime (meta_DeletionTimestamp (ctl_ObjectMeta obj)) ≠ None) then (w, inr Done) else
      let status := (ctl_Status obj)
        <| rcst_ObservedGeneration := ctl_Generation obj |>
        <| rcst_AffectedScheduleCount := 0 |>
        <| rcst_PendingRunCount := 0 |>
        <| rcst_ActiveRunCount := 0 |> in
      let applicationName := TrimSpace (app_Name (rc_ApplicationRef (ctl_Spec obj))) in
      let cond st re me := mkCondition agentRunControlReady st (ctl_Generation obj) now re me in
      if bool_decide (applicationName = "") then
        patchAgentRunControlStatus obj
          (status <| rcst_Phase := AgentRunControlPhaseBlocked |>
                  <| rcst_Conditions := SetStatusCondition (rcst_Conditions status)
                       (cond ConditionFalse "ApplicationRequired"
                          "spec.applicationRef.name is required.") |>) 0 w
      else
        match countAgentRunControlSubjects applicationName status w with
        | inl e => (w, inl e)
        | inr status =>
            let '(phase, st, re, me, requeueAfter) :=
              controlVerdict obj applicationName now later in
            patchAgentRunControlStatus obj
              (status <| rcst_Phase := phase |>
                      <| rcst_Conditions := SetStatusCondition (rcst_Conditions status)
                           (cond st re me) |>) requeueAfter w
        end
  end.
End operations.

(** ** The selected control *)

Lemma selectControl_fold app now cs sel :
  match fold_left (selectControl app now) cs sel with
  | None => sel = None ∧ Forall (λ c, controlPauses app now c = false) cs
  | Some c =>
      (Some c = sel ∨ c ∈ cs ∧ controlPauses app now c = true)
      ∧ (∀ s, sel = Some s → strLt (ctl_Name s) (ctl_Name c) = false)
      ∧ Forall (λ c', controlPauses app now c' = true →
                      strLt (ctl_Name c') (ctl_Name c) = false) cs
  end.
Proof.
  revert sel. induction cs as [|d cs IH]; intros sel; simpl.
  { destruct sel as [s|]; [|done]. split_and!; [by left| |constructor].
    intros s' [= <-]. apply strLt_irrefl. }
  specialize (IH (selectControl app now sel d)).
  destruct (fold_left _ cs _) as [c|].
  - destruct IH as (Hc & Hs & Hf). unfold selectControl in *.
    destruct (controlPauses app now d) eqn:Ed.
    + destruct sel as [s|].
      * destruct (strLt (ctl_Name d) (ctl_Name s)) eqn:Elt.
        -- pose proof (Hs _ eq_refl) as Hd. split_and!; [set_solver| |by constructor].
           intros s' [= <-]. destruct (strLt (ctl_Name s) (ctl_Name c)) eqn:E; [|done].
           by rewrite (strLt_trans _ _ _ Elt E) in Hd.
        -- pose proof (Hs _ eq_refl) as Hs'. split_and!; [set_solver|done|].
           constructor; [|done]. intros _.
           destruct (strLt (ctl_Name d) (ctl_Name c)) eqn:E; [|done].
           destruct (strLt (ctl_Name c) (ctl_Name s)) eqn:E2.
           ++ by rewrite (strLt_trans _ _ _ E E2) in Elt.
           ++ rewrite (strLt_total _ _ Hs' E2) in Elt. congruence.
      * split_and!; [set_solver|done|by constructor; auto].
    + split_and!; [set_solver|done|constructor; [by rewrite Ed|done]].
  - destruct IH as [Hn Hf]. unfold selectControl in Hn.
    destruct (controlPauses app now d) eqn:Ed.
    + destruct sel; [|done]. by case_match.
    + split; [done|by constructor].
Qed.

Section theorems.
Context {W : Type} `{Client W} `{Conditions}.

(** A control that holds the launches of an application: it is for that application,
    says to pause, gives a reason, and has not expired. *)
Record holdsLaunches (app : string) (now : Time) (c : AgentRunControl) : Prop := mkHoldsLaunches {
  hl_application : TrimSpace (app_Name (rc_ApplicationRef (ctl_Spec c))) = app;
  hl_policy : rc_LaunchPolicy (ctl_Spec c) = "Paused";
  hl_reason : TrimSpace (rc_Reason (ctl_Spec c)) ≠ "";
  hl_expiry t : rc_ExpiresAt (ctl_Spec c) = Some t → now < t }.

Lemma controlPauses_holds app now c : controlPauses app now c = true ↔ holdsLaunches app now c.
Proof.
  unfold controlPauses, agentRunControlExpired, blank, Before. rewrite !andb_true_iff, !negb_true_iff. split.
  - intros [[[Ha Hp] Hr] He]. bool_props. split; try done. intros t Ht. rewrite Ht in He.
    apply negb_false_iff in He. lia.
  - intros [Ha Hp Hr He]. rewrite !bool_decide_eq_true, bool_decide_eq_false. split_and!; try done.
    destruct (rc_ExpiresAt (ctl_Spec c)) as [t|]; [|done]. specialize (He t eq_refl). apply negb_false_iff. lia.
Qed.

(** C29: the launch gate is exact.  When the controls can be listed, a pause is reported
    iff some control of the application is paused, gives a nonblank reason and has not
    expired (a paused control with a blank reason holds nothing), and then the one
    reported is such a control with the least name, with its trimmed reason and its
    expiry; listing failures are reported as errors, never as "not paused". *)
Theorem pause_gate_exact app now (w : W) :
  TrimSpace app ≠ "" →
  match listControls w with
  | inl e => activeAgentRunPauseForApplication app now w
             = (w, inl (ErrWrap "list AgentRunControls" e))
  | inr cs => ∃ p, activeAgentRunPauseForApplication app now w = (w, inr p)
      ∧ (is_Some p ↔ ∃ c, c ∈ cs ∧ holdsLaunches (TrimSpace app) now c)
      ∧ (∀ pause, p = Some pause → ∃ c, c ∈ cs ∧ holdsLaunches (TrimSpace app) now c
           ∧ pause = mkPause (ctl_Name c) (TrimSpace (rc_Reason (ctl_Spec c))) (rc_ExpiresAt (ctl_Spec c))
           ∧ ∀ c', c' ∈ cs → holdsLaunches (TrimSpace app) now c' → strLt (ctl_Name c') (ctl_Name c) = false)
  end.
Proof.
  intros Happ. unfold activeAgentRunPauseForApplication.
  rewrite bool_decide_eq_false_2 by done.
  destruct (listControls w) as [e|cs]; [done|]. eexists. split; [done|].
  pose proof (selectControl_fold (TrimSpace app) now cs None) as Hsel.
  destruct (fold_left _ cs None) as [c|]; simpl.
  - destruct Hsel as ([?|[Hc Hp]] & _ & Hmin); [done|]. apply controlPauses_holds in Hp. split.
    + split; [|eauto]. intros _. eauto.
    + intros pause [= <-]. exists c. split_and!; [done|done|done|]. intros c' Hc' Hh%controlPauses_holds.
      rewrite Forall_forall in Hmin. by apply Hmin.
  - destruct Hsel as [_ Hn]. split; [|done]. split; [by intros []|].
    intros (c & Hin & Hc%controlPauses_holds). rewrite Forall_forall in Hn. by rewrite (Hn _ Hin) in Hc.
Qed.

(** The gate reads but does not write. *)
Lemma pause_gate_read app now (w : W) :
  fst (activeAgentRunPauseForApplication app now w) = w.
Proof.
  unfold activeAgentRunPauseForApplication. case_bool_decide; [done|].
  by destruct (listControls w).
Qed.

(** The phase the reconciler publishes agrees with the gate: [Paused] iff
    the control holds launches of its application at that time.  In the other
    cases launches are not held by this control, although the phase may be
    [Blocked] (bad policy, missing reason) or [Expired]. *)
Theorem control_phase_agrees (obj : AgentRunControl) now later :
  let app := TrimSpace (app_Name (rc_ApplicationRef (ctl_Spec obj))) in
  let '(phase, st, _, _, requeue) := controlVerdict obj app now later in
  (phase = AgentRunControlPhasePaused ↔ controlPauses app now obj = true)
  ∧ (phase = AgentRunControlPhaseExpired ↔ agentRunControlExpired obj now = true)
  ∧ (phase = AgentRunControlPhaseBlocked ↔ st = ConditionFalse)
  ∧ 0 < requeue ≤ agentRunControlPollInterval
  ∧ (∀ t, phase = AgentRunControlPhasePaused → rc_ExpiresAt (ctl_Spec obj) = Some t →
      later < t → t - later ≤ maxInt64 → later + requeue ≤ t ∨ requeue = agentRunControlPollInterval).
Proof.
  intros app. unfold controlVerdict, controlPauses.
  rewrite (bool_decide_eq_true_2 (TrimSpace _ = app)) by done.
  assert (0 < agentRunControlPollInterval) by (vm_compute; done).
  destruct (agentRunControlExpired obj now) eqn:Eexp; simpl.
  { rewrite andb_false_r. split_and!; try done; try lia. }
  destruct (bool_decide (rc_LaunchPolicy _ = AgentRunControlLaunchPolicyPaused)) eqn:Ep; simpl.
  - unfold blank, Sub, minInt64, maxInt64.
    destruct (bool_decide (TrimSpace _ = "")) eqn:Er; simpl;
      destruct (rc_ExpiresAt (ctl_Spec obj)) as [t|]; repeat case_match; bool_props;
      split_and!; try done; intros; simplify_eq; try done; lia.
  - destruct (bool_decide (rc_LaunchPolicy _ = AgentRunControlLaunchPolicyAllowed)); simpl;
      split_and!; try done; intros; try done; lia.
Qed.

(** *** The application of a schedule *)

(** The applications a run template names: its own, and that of its profile in the
    namespace. *)
Inductive names (ns : string) (w : W) (t : AgentRunSpec) (a : string) : Prop :=
  | names_direct r : scope_ApplicationRef (rs_Scope t) = Some r → a = TrimSpace (app_Name r) → a ≠ "" → names ns w t a
  | names_profile ref p r :
      rs_ProfileRef t = Some ref → TrimSpace (ref_Name ref) ≠ "" → getProfile ns (TrimSpace (ref_Name ref)) w = inr p →
      scope_ApplicationRef (ps_Scope (prof_Spec p)) = Some r → a = TrimSpace (app_Name r) → a ≠ "" → names ns w t a.
(** Its profile, if it has one, is in the namespace and can be read. *)
Definition readable (ns : string) (w : W) (t : AgentRunSpec) : Prop :=
  ∀ ref, rs_ProfileRef t = Some ref → TrimSpace (ref_Name ref) ≠ "" →
    (TrimSpace (ref_Namespace ref) = "" ∨ TrimSpace (ref_Namespace ref) = ns)
    ∧ ∃ p, getProfile ns (TrimSpace (ref_Name ref)) w = inr p.

(** [name] is the one application of those that satisfy [P], or blank when there is
    none. *)
Definition theOnly (P : string → Prop) (name : string) : Prop := (∀ a, P a → a = name) ∧ (name = "" ∨ P name).

Lemma theOnly_iff (P P' : string → Prop) name : (∀ a, P a ↔ P' a) → theOnly P name ↔ theOnly P' name.
Proof. intros HP. unfold theOnly. split; intros [H1 H2]; (split; [intros a Ha; apply H1; by apply HP|destruct H2; [by left|right; by apply HP]]). Qed.
Lemma theOnly_one d name : theOnly (λ a, a = d ∧ a ≠ "") name ↔ name = d.
Proof.
  unfold theOnly. split.
  - intros [H1 H2]. destruct (decide (d = "")) as [->|Hd]; [naive_solver|]. symmetry. by apply H1.
  - intros ->. split; [by intros a [-> _]|]. destruct (decide (d = "")); auto.
Qed.
Lemma theOnly_two d e name :
  theOnly (λ a, (a = d ∨ a = e) ∧ a ≠ "") name
  ↔ ¬ (d ≠ "" ∧ e ≠ "" ∧ d ≠ e) ∧ name = if bool_decide (d = "") then e else d.
Proof.
  unfold theOnly. split.
  - intros [Ha Hs]. split.
    + intros (Hd & He & Hne). apply Hne. transitivity name; [|symmetry]; apply Ha; auto.
    + case_bool_decide as Hd; [|symmetry; apply Ha; auto]. subst d.
      destruct (decide (e = "")) as [->|He]; [naive_solver|]. symmetry. apply Ha. auto.
  - intros [Hc ->]. split.
    + intros a [Hde Hne]. case_bool_decide as Hd; [naive_solver|]. destruct Hde as [->| ->]; [done|].
      destruct (decide (d = e)); [done|]. by destruct Hc.
    + case_bool_decide as Hd; [|auto]. destruct (decide (e = "")); auto.
Qed.

Lemma names_direct_iff ns w t a :
  (∀ ref, rs_ProfileRef t = Some ref → TrimSpace (ref_Name ref) = "") →
  names ns w t a ↔ a = trimmedRef (scope_ApplicationRef (rs_Scope t)) ∧ a ≠ "".
Proof.
  intros Hp. unfold trimmedRef. split.
  - intros [r Hr -> Ha|ref p r Hr Hn]; [by rewrite Hr|]. by destruct Hn; apply Hp.
  - destruct (scope_ApplicationRef _) as [r|] eqn:E; [|by intros [-> ?]]. intros [-> Ha]. by eapply names_direct.
Qed.
Lemma names_profile_iff ns w t ref p a :
  rs_ProfileRef t = Some ref → TrimSpace (ref_Name ref) ≠ "" → getProfile ns (TrimSpace (ref_Name ref)) w = inr p →
  names ns w t a ↔ (a = trimmedRef (scope_ApplicationRef (rs_Scope t))
                    ∨ a = trimmedRef (scope_ApplicationRef (ps_Scope (prof_Spec p)))) ∧ a ≠ "".
Proof.
  intros Hr Hn Hp. unfold trimmedRef. split.
  - intros [r Hd -> Ha|ref' p' r Hr' Hn' Hp' Hd -> Ha]; [rewrite Hd; auto|].
    assert (ref' = ref) as -> by congruence. assert (p' = p) as -> by congruence. rewrite Hd. auto.
  - intros [[->| ->] Ha].
    + destruct (scope_ApplicationRef (rs_Scope t)) as [r|] eqn:E; [|done]. by eapply names_direct.
    + destruct (scope_ApplicationRef (ps_Scope _)) as [r|] eqn:E; [|done]. by eapply names_profile.
Qed.

Lemma firstNonEmpty_two a b : blank b = false → firstNonEmpty [a; b] = if blank a then b else a.
Proof. intros Hb. unfold firstNonEmpty. simpl. destruct (blank a); simpl; [by rewrite Hb|done]. Qed.
Lemma firstNonEmpty_trimmed a b :
  TrimSpace a = a → TrimSpace b = b → firstNonEmpty [a; b] = if bool_decide (a = "") then b else a.
Proof.
  intros Ha Hb. unfold firstNonEmpty, blank. simpl. rewrite Ha, Hb. repeat case_bool_decide; try done; by subst.
Qed.
Lemma trimmedRef_idem r : TrimSpace (trimmedRef r) = trimmedRef r.
Proof. destruct r; [apply TrimSpace_idem|done]. Qed.

Lemma strict_resolution ns t (w : W) name :
  blank ns = false →
  resolveAgentRunSpecApplicationNameStrict ns t w = inr name ↔ readable ns w t ∧ theOnly (names ns w t) name.
Proof.
  intros Hns. unfold resolveAgentRunSpecApplicationNameStrict, resolveAgentRunSpecApplicationNameWithProfilePolicy.
  assert ((∀ ref, rs_ProfileRef t = Some ref → TrimSpace (ref_Name ref) = "") →
    inr (trimmedRef (scope_ApplicationRef (rs_Scope t))) = inr (A := GoErr) name
    ↔ readable ns w t ∧ theOnly (names ns w t) name) as Hdirect.
  { intros Hp. rewrite (theOnly_iff _ _ _ (λ a, names_direct_iff ns w t a Hp)), theOnly_one. split.
    - intros [= ->]. split; [|done]. intros ref Hr Hn. by destruct Hn; apply Hp.
    - by intros [_ ->]. }
  destruct (rs_ProfileRef t) as [ref|] eqn:Er; [|by apply Hdirect].
  case_bool_decide as Hn; [apply Hdirect; by intros ? [= <-]|]. clear Hdirect.
  rewrite firstNonEmpty_two by done.
  destruct (bool_decide _) eqn:Ens.
  { apply bool_decide_eq_true in Ens. split; [done|]. intros [Hread _]. destruct (Hread ref Er Hn) as [Hw _].
    destruct Ens. unfold blank. rewrite TrimSpace_idem. case_bool_decide; naive_solver. }
  apply bool_decide_eq_false, dec_stable in Ens. rewrite Ens.
  destruct (getProfile ns _ w) as [e|p] eqn:Ep.
  { rewrite andb_false_r. split; [done|]. intros [Hread _]. destruct (Hread ref Er Hn) as [_ [p Hp]]. congruence. }
  rewrite (theOnly_iff _ _ _ (λ a, names_profile_iff ns w t ref p a Er Hn Ep)), theOnly_two.
  rewrite firstNonEmpty_trimmed by apply trimmedRef_idem.
  assert (readable ns w t) as Hread.
  { intros ref' Hr' _. assert (ref' = ref) as -> by congruence. split; [|by eauto]. revert Ens. unfold blank.
    rewrite TrimSpace_idem. case_bool_decide; auto. }
  destruct (bool_decide _ && _ && _) eqn:Ec; rewrite ?andb_true_iff, ?andb_false_iff, ?bool_decide_eq_true, ?bool_decide_eq_false in Ec.
  - split; [done|]. intros (_ & Hc & _). naive_solver.
  - split; [intros [= <-]|intros (_ & _ & ->); done]. split_and!; [done|naive_solver|done].
Qed.

(** A readable template whose names agree has an application. *)
Lemma agreeing_named ns t (w : W) :
  readable ns w t → (∀ a b, names ns w t a → names ns w t b → a = b) → ∃ name, theOnly (names ns w t) name.
Proof.
  intros Hread Hagree.
  assert ((∀ ref, rs_ProfileRef t = Some ref → TrimSpace (ref_Name ref) = "") → ∃ name, theOnly (names ns w t) name) as Hdirect.
  { intros Hno. eexists. apply (theOnly_iff _ _ _ (λ a, names_direct_iff ns w t a Hno)), theOnly_one. reflexivity. }
  destruct (rs_ProfileRef t) as [ref|] eqn:Hr; [|by apply Hdirect].
  destruct (decide (TrimSpace (ref_Name ref) = "")) as [Hb|Hn]; [apply Hdirect; by intros ? [= <-]|].
  destruct (Hread ref Hr Hn) as [_ [p Hp]]. pose proof (λ a, names_profile_iff ns w t ref p a Hr Hn Hp) as Hiff.
  eexists. apply (theOnly_iff _ _ _ Hiff), theOnly_two. split; [|reflexivity].
  intros (Hd & He & Hne). apply Hne. apply Hagree; apply Hiff; auto.
Qed.

(** The loop: the templates agree with each other, with what was found before and with
    the explicit name. *)
Lemma templates_resolution ns explicit i ts resolved (w : W) out :
  blank ns = false →
  resolveTemplates ns explicit i ts resolved w = inr out ↔
  (∀ t, t ∈ ts → readable ns w t)
  ∧ (∀ t a, t ∈ ts → names ns w t a → a = out ∧ (explicit ≠ "" → a = explicit))
  ∧ (resolved ≠ "" → out = resolved) ∧ (out = resolved ∨ ∃ t, t ∈ ts ∧ names ns w t out).
Proof.
  intros Hns. revert i resolved. induction ts as [|t ts IH]; intros i resolved; cbn [resolveTemplates].
  { split; [intros [= ->]; split_and!; try set_solver|intros (_ & _ & _ & [->|(t & Ht & _)]); [done|set_solver]]. }
  pose proof (λ name, strict_resolution ns t w name Hns) as Hone.
  destruct (resolveAgentRunSpecApplicationNameStrict ns t w) as [e|name].
  { split; [done|]. intros (Hread & Hagree & _). exfalso.
    assert (readable ns w t) as Hrt by (apply Hread; by left).
    destruct (agreeing_named ns t w Hrt) as [name Hname].
    - intros a b Ha Hb. transitivity out; [|symmetry]; by eapply Hagree; [by left|].
    - discriminate (proj2 (Hone name) (conj Hrt Hname)). }
  destruct (proj1 (Hone name) eq_refl) as [Hread [Hall Hsome]]. clear Hone.
  case_bool_decide as Hblank.
  { subst name. rewrite IH. assert (∀ a, ¬ names ns w t a) as Hnone.
    { intros a Ha. pose proof (Hall a Ha) as ->. by destruct Ha. }
    split; intros (R & A & B & C).
    - split_and!; [set_solver| |done|set_solver].
      intros t' a [->|Ht']%elem_of_cons Hn'; [by destruct (Hnone a)|by eapply A].
    - split_and!; [set_solver|set_solver|done|]. destruct C as [?|(t' & [->|Ht']%elem_of_cons & Hn')];
        [by left|by destruct (Hnone out)|right; eauto]. }
  destruct Hsome as [?|Hname]; [done|].
  destruct (bool_decide (explicit ≠ "") && bool_decide (name ≠ explicit)) eqn:Ee.
  { apply andb_true_iff in Ee as [Ee1 Ee2]. bool_props. split; [done|]. intros (_ & A & _).
    destruct (A t name) as [_ Hx]; [by left|done|]. by destruct Ee2; apply Hx. }
  destruct (bool_decide (resolved ≠ "") && bool_decide (name ≠ resolved)) eqn:Er.
  { apply andb_true_iff in Er as [Er1 Er2]. bool_props. split; [done|]. intros (_ & A & B & _).
    destruct (A t name) as [Hx _]; [by left|done|]. destruct Er2. rewrite Hx. by apply B. }
  apply andb_false_iff in Ee. apply andb_false_iff in Er. rewrite !bool_decide_eq_false in Ee, Er.
  rewrite IH. split; intros (R & A & B & C).
  - specialize (B Hblank). subst out. split_and!.
    + intros t' [->|?]%elem_of_cons; [done|by apply R].
    + intros t' a [->|Ht']%elem_of_cons Hn'; [|by eapply A]. rewrite (Hall a Hn'). split; [done|]. intros He.
      destruct Ee as [[]|Ee]; [done|]. by apply dec_stable.
    + intros Hr. destruct Er as [[]|Er]; [done|]. by apply dec_stable.
    + right. exists t. split; [by left|done].
  - assert (name = out) as <- by (eapply A; [by left|done]). split_and!; [set_solver|set_solver|done|by left].
Qed.

(** Templates that agree are resolved. *)
Lemma templates_total ns explicit i ts resolved d (w : W) :
  blank ns = false → (∀ t, t ∈ ts → readable ns w t) →
  (∀ t a, t ∈ ts → names ns w t a → a = d ∧ (explicit ≠ "" → a = explicit)) → resolved = "" ∨ resolved = d →
  ∃ out, resolveTemplates ns explicit i ts resolved w = inr out.
Proof.
  intros Hns. revert i resolved. induction ts as [|t ts IH]; intros i resolved Hread Hall Hres; cbn [resolveTemplates]; [by eauto|].
  assert (readable ns w t) as Hrt by (apply Hread; by left).
  destruct (agreeing_named ns t w Hrt) as [name Hname].
  { intros a b Ha Hb. transitivity d; [|symmetry]; by eapply Hall; [by left|]. }
  rewrite (proj2 (strict_resolution ns t w name Hns) (conj Hrt Hname)).
  case_bool_decide as Hb; [apply IH; set_solver|]. destruct Hname as [_ [?|Hname]]; [done|].
  destruct (Hall t name) as [-> He]; [by left|done|].
  destruct (bool_decide (explicit ≠ "") && bool_decide (d ≠ explicit)) eqn:Ee.
  { apply andb_true_iff in Ee as [Ee1 Ee2]. bool_props. by destruct Ee2; apply He. }
  destruct (bool_decide (resolved ≠ "") && bool_decide (d ≠ resolved)) eqn:Er.
  { apply andb_true_iff in Er as [Er1 Er2]. bool_props. naive_solver. }
  apply IH; [set_solver|set_solver|by right].
Qed.

(** The applications a schedule names: its own, and those of its templates. *)
Definition scheduleNames (schedule : AgentSchedule) (w : W) (a : string) : Prop :=
  (∃ r, sp_ApplicationRef (sched_Spec schedule) = Some r ∧ a = TrimSpace (app_Name r) ∧ a ≠ "")
  ∨ ∃ t, t ∈ scheduleTemplates schedule ∧ names (sched_Namespace schedule) w t a.

(** C39: a schedule has an application exactly when it can be told: its own reference,
    when it is set, is not blank; the profiles of its run templates are in its namespace
    and can be read; and all applications that it, its templates and their profiles name
    are one, which is the result (blank, when none is named).  Any disagreement is an
    error. *)
Theorem schedule_application_exact schedule (w : W) name :
  blank (sched_Namespace schedule) = false →
  resolveAgentScheduleApplicationName schedule w = inr name ↔
  (∀ r, sp_ApplicationRef (sched_Spec schedule) = Some r → TrimSpace (app_Name r) ≠ "")
  ∧ (∀ t, t ∈ scheduleTemplates schedule → readable (sched_Namespace schedule) w t)
  ∧ (∀ a, scheduleNames schedule w a → a = name)
  ∧ (name = "" ∨ scheduleNames schedule w name).
Proof.
  intros Hns. unfold resolveAgentScheduleApplicationName, scheduleNames, trimmedRef.
  destruct (sp_ApplicationRef (sched_Spec schedule)) as [r|] eqn:Er.
  - rewrite (bool_decide_eq_true_2 (Some r ≠ None)) by done. cbn [andb].
    case_bool_decide as Hb. { split; [done|]. intros [Hset _]. by destruct (Hset r eq_refl). }
    pose proof (λ out, templates_resolution (sched_Namespace schedule) (TrimSpace (app_Name r)) 0
      (scheduleTemplates schedule) "" w out Hns) as Ht.
    rewrite (bool_decide_eq_true_2 (TrimSpace (app_Name r) ≠ "")) by done.
    set (d := TrimSpace (app_Name r)) in *. split.
    + destruct (resolveTemplates _ _ _ _ _ w) as [e|out]; [done|]. intros [= <-].
      destruct (proj1 (Ht out) eq_refl) as (Hread & Hall & _). split_and!; [by intros ? [= <-]|done| |right; left; eauto].
      intros a [(? & [= <-] & -> & _)|(t & Hin & Hn)]; [done|]. by apply (Hall t a Hin Hn).
    + intros (_ & Hread & Hall & _). assert (d = name) as <- by (apply Hall; left; eauto).
      destruct (templates_total (sched_Namespace schedule) d 0 (scheduleTemplates schedule) "" d w Hns) as [out ->]; auto.
      intros t a Hin Hn. assert (a = d) as -> by (apply Hall; right; eauto). done.
  - cbn [andb]. rewrite (bool_decide_eq_false_2 (None ≠ None)) by (intros Hx; by destruct Hx). cbn [andb].
    rewrite (bool_decide_eq_false_2 ("" ≠ "")) by (intros Hx; by destruct Hx).
    pose proof (λ out, templates_resolution (sched_Namespace schedule) "" 0
      (scheduleTemplates schedule) "" w out Hns) as Ht.
    assert (match resolveTemplates (sched_Namespace schedule) "" 0 (scheduleTemplates schedule) "" w with
            | inl e => inl e | inr out => inr out end
            = resolveTemplates (sched_Namespace schedule) "" 0 (scheduleTemplates schedule) "" w) as -> by by case_match.
    rewrite Ht. split.
    + intros (Hread & Hall & _ & Hsome). split_and!; [done|done| |destruct Hsome; auto].
      intros a [(? & ? & _)|(t & Hin & Hn)]; [done|]. by apply (Hall t a Hin Hn).
    + intros (_ & Hread & Hall & Hsome). split_and!; [done| |done|].
      * intros t a Hin Hn. split; [|done]. apply Hall. right. eauto.
      * destruct Hsome as [?|[(? & ? & _)|?]]; auto. done.
Qed.
(** Membership for the concurrency limit is conservative: a run whose own
    scope and profile disagree counts against both applications, a run that
    resolves counts against its application only. *)
Theorem membership_conservative run (w : W) :
  (∀ app name, resolveAgentRunApplicationName run w = inr name →
     agentRunMayUseApplication run app w = inr (bool_decide (name = app)))
  ∧ (∀ app d p, resolveAgentRunApplicationName run w = inl (ErrScopeConflict d p) →
     app = d ∨ app = p → agentRunMayUseApplication run app w = inr true)
  ∧ (∀ app e, agentRunMayUseApplication run app w = inl e →
     resolveAgentRunApplicationName run w = inl e ∧ errAsScopeConflict e = None).
Proof.
  unfold agentRunMayUseApplication. split_and!.
  - by intros app name ->.
  - intros app d p -> Happ. simpl. f_equal. apply orb_true_iff.
    rewrite !bool_decide_eq_true. naive_solver.
  - intros app e. destruct (resolveAgentRunApplicationName run w) as [err|]; [|done].
    destruct (errAsScopeConflict err) as [[]|] eqn:E; [done|]. by intros [= <-].
Qed.

(** The runs a control reports on. *)
Definition governs (app : string) (w : W) (run : AgentRun) : bool :=
  negb (agentRunPhaseTerminal (run_Phase run))
  && match resolveAgentRunApplicationName run w with
     | inr name => bool_decide (name = app)
     | inl _ => false
     end.

Definition launched (run : AgentRun) : bool :=
  bool_decide (st_JobRef (run_Status run) ≠ None)
  || bool_decide (st_JobCreateAttemptedAt (run_Status run) ≠ None).

Lemma countRun_governs app (w : W) n r :
  countRun app w n r
  = if governs app w r then if launched r then (n.1, n.2 + 1) else (n.1 + 1, n.2) else n.
Proof.
  unfold countRun, governs, launched.
  destruct (agentRunPhaseTerminal (run_Phase r)); [done|]. simpl.
  destruct (resolveAgentRunApplicationName r w) as [|name]; [done|].
  rewrite !bool_decide_not. destruct (bool_decide (name = app)); [|done]. simpl.
  by destruct (bool_decide (st_JobRef _ = None)),
    (bool_decide (st_JobCreateAttemptedAt _ = None)).
Qed.

Lemma countRun_fold app (w : W) runs p a :
  fold_left (countRun app w) runs (p, a)
  = (p + Z.of_nat (length (filter (λ r, governs app w r && negb (launched r) = true) runs)),
     a + Z.of_nat (length (filter (λ r, governs app w r && launched r = true) runs))).
Proof.
  revert p a. induction runs as [|r runs IH]; intros p a; simpl; [f_equal; lia|].
  rewrite !filter_cons, countRun_governs.
  destruct (governs app w r), (launched r); cbn [andb negb fst snd]; rewrite IH;
    repeat case_decide; try done; cbn [length]; f_equal; lia.
Qed.

(** The counts in a control's status partition the non-terminal runs of
    its application: pending ones have neither a Job nor a create attempt,
    active ones have one of them. *)
Theorem control_counts_exact app (w : W) runs schedules status :
  listRuns None None w = inr runs → listSchedules w = inr schedules →
  rcst_PendingRunCount status = 0 → rcst_ActiveRunCount status = 0 →
  ∃ status', countAgentRunControlSubjects app status w = inr status'
    ∧ rcst_PendingRunCount status'
      = Z.of_nat (length (filter (λ r, governs app w r && negb (launched r) = true) runs))
    ∧ rcst_ActiveRunCount status'
      = Z.of_nat (length (filter (λ r, governs app w r && launched r = true) runs)).
Proof.
  intros Hr Hs Hp Ha. unfold countAgentRunControlSubjects. rewrite Hr, Hs.
  eexists. split; [done|]. rewrite countRun_fold, Hp, Ha. done.
Qed.
End theorems.

(** ** Witnesses *)

Definition fx_paused_world : MemCluster :=
  fx_cluster [fx_run "agents" "a" fx_epoch ∅ (fx_spec "shop") ""] [] []
    [fx_control "hold" "shop" AgentRunControlLaunchPolicyPaused "incident" 0 None].

Lemma pause_gate_exact_witness :
  ∃ p, activeAgentRunPauseForApplication "shop" fx_epoch fx_paused_world
       = (fx_paused_world, inr p) ∧ is_Some p.
Proof.
  assert (listControls fx_paused_world = inr (ok_list (listControls fx_paused_world))) as Hl
    by (vm_compute; reflexivity).
  pose proof (pause_gate_exact "shop" fx_epoch fx_paused_world) as Hp. rewrite Hl in Hp.
  destruct Hp as (p & Heq & Hiff & _); [vm_compute; discriminate|].
  exists p. split; [exact Heq|]. apply Hiff.
  exists (fx_control "hold" "shop" AgentRunControlLaunchPolicyPaused "incident" 0 None).
  split; [apply list_elem_of_In; vm_compute; auto|]. split; [vm_compute; reflexivity..| |discriminate]. vm_compute. discriminate.
Defined.

(** The schedule names its application and its template the same one. *)
Lemma schedule_application_exact_witness :
  let schedule := fx_schedule "agents" "nightly" "Forbid" (zero_AgentScheduleSpec
    <| sp_ApplicationRef := Some (mkApplicationReferenceSpec "shop") |> <| sp_RunTemplate := fx_spec "shop" |>) in
  resolveAgentScheduleApplicationName schedule fx_paused_world = inr "shop"
  ∧ ∀ a, scheduleNames schedule fx_paused_world a → a = "shop".
Proof.
  intros schedule.
  assert (resolveAgentScheduleApplicationName schedule fx_paused_world = inr "shop") as E by (vm_compute; reflexivity).
  split; [exact E|].
  exact (proj1 (proj2 (proj2 (proj1 (schedule_application_exact schedule fx_paused_world "shop" eq_refl) E)))).
Defined.

Lemma control_counts_exact_witness :
  ∃ s, countAgentRunControlSubjects "shop" zero_AgentRunControlStatus fx_paused_world = inr s.
Proof.
  destruct (control_counts_exact "shop" fx_paused_world
    (ok_list (listRuns None None fx_paused_world)) [] zero_AgentRunControlStatus)
    as (s & Hs & _ & _).
  - vm_compute; reflexivity.
  - vm_compute; reflexivity.
  - reflexivity.
  - reflexivity.
  - exists s. exact Hs.
Defined.
