(* ===== verification/LaunchGate.v ===== *)
(** * The launch gate

    The part of [src/internal/controller/agent_run_controller.go] that decides
    whether a pending run may launch its Job now: the pause check, the queue of
    its schedule and the concurrency limit of its application, with the order
    ([agentRunPrecedes]) that both queues share.  The theorems bound the number
    of runs a queue admits, show that a queue always admits its head, and record
    where the order is not total across namespaces. *)

From stdpp Require Import base list gmap strings.
From Stdlib Require Import ZArith Lia.
From S2P Require Import Prelude GoStrings GoTime Names ApiRun ApiWork Kube MemKube Fixtures RunControl.

Open Scope Z_scope.

(** ** Definitions *)

Definition agentRunPollInterval : Duration := 10 * Second.
Definition agentRunScheduleLabel : string := "control.anvil.hazyforge.io/agent-schedule".
Definition defaultApplicationConcurrency : Z := 1.

(** Go: [agentRunPrecedes]: by creation time, then by name. *)
Definition agentRunPrecedes (candidate target : AgentRun) : bool :=
  let candidateTime := run_CreationTimestamp candidate in
  let targetTime := run_CreationTimestamp target in
  if negb (IsZero candidateTime) && negb (IsZero targetTime) then
    if Before candidateTime targetTime then true
    else if After candidateTime targetTime then false
    else strLt (run_Name candidate) (run_Name target)
  else strLt (run_Name candidate) (run_Name target).

(** From [agent_schedule_controller.go]. *)
Definition agentScheduleConcurrencyPolicy (schedule : AgentSchedule) : string :=
  if bool_decide (sp_ConcurrencyPolicy (sched_Spec schedule) = "")
  then AgentScheduleConcurrencyForbid
  else sp_ConcurrencyPolicy (sched_Spec schedule).

Definition agentScheduleMaxConcurrentRuns (schedule : AgentSchedule) : Z :=
  let policy := agentScheduleConcurrencyPolicy schedule in
  if bool_decide (policy = AgentScheduleConcurrencyForbid) then 1
  else if sp_MaxConcurrentRuns (sched_Spec schedule) <=? 0 then
    if bool_decide (policy = AgentScheduleConcurrencyQueue) then 1 else 0
  else sp_MaxConcurrentRuns (sched_Spec schedule).

Definition agentRunBelongsToSchedule (run : AgentRun) (schedule : AgentSchedule) : bool :=
  match rs_ScheduleRef (run_Spec run) with
  | None => false
  | Some ref =>
      let namespace := firstNonEmpty [TrimSpace (ref_Namespace ref); run_Namespace run] in
      if bool_decide (namespace ≠ sched_Namespace schedule)
         || bool_decide (TrimSpace (ref_Name ref) ≠ sched_Name schedule)
      then false
      else negb (blank (rs_SourceUID (run_Spec run)))
           && bool_decide (rs_SourceUID (run_Spec run) = sched_UID schedule)
  end.

(** One iteration of either queue loop for a run that precedes the candidate:
    the count of preceding runs and the earliest run at or past the limit. *)
Definition queueStep (maxConcurrent : Z) (acc : Z * option AgentRun) (run : AgentRun) :
    Z * option AgentRun :=
  let '(precedingRuns, blockedBy) := acc in
  let precedingRuns := precedingRuns + 1 in
  if maxConcurrent <=? precedingRuns then
    match blockedBy with
    | None => (precedingRuns, Some run)
    | Some b => if agentRunPrecedes run b then (precedingRuns, Some run)
                else (precedingRuns, blockedBy)
    end
  else (precedingRuns, blockedBy).

(** The runs ahead of [obj] in the queue of its schedule, in list order. *)
Definition aheadInSchedule (schedule : AgentSchedule) (obj : AgentRun) (runs : list AgentRun) :
    list AgentRun :=
  filter (λ run,
    agentRunBelongsToSchedule run schedule = true ∧ run_Name run ≠ run_Name obj
    ∧ agentRunPhaseTerminal (run_Phase run) = false ∧ agentRunPrecedes run obj = true) runs.

Section operations.
Context {W : Type} `{Client W}.

Definition agentRunLaunchPausedWithReader (obj : AgentRun) (now later : Time) (w : W) :
    GoErr + (bool * string * string * Duration) :=
  let launchPausedByApplication :=
    match resolveAgentRunApplicationName obj w with
    | inl e => inl e
    | inr applicationName =>
        match snd (activeAgentRunPauseForApplication applicationName now w) with
        | inl e => inl e
        | inr None => inr (false, "", "", 0)
        | inr (Some pause) =>
            let message := "Waiting because Application " +:+ quote applicationName
              +:+ " is paused by AgentRunControl " +:+ quote (pause_ControlName pause) +:+ "." in
            let message := if bool_decide (pause_Reason pause ≠ "")
              then message +:+ " Reason: " +:+ pause_Reason pause else message in
            let untilExpiry := agentRunPauseRequeueAfter (Some pause) later in
            let requeueAfter := if untilExpiry <? agentRunPollInterval
              then untilExpiry else agentRunPollInterval in
            inr (true, "ApplicationPaused", message, requeueAfter)
        end
    end in
  match rs_ScheduleRef (run_Spec obj) with
  | Some ref =>
      if blank (ref_Name ref) then launchPausedByApplication else
      let namespace := firstNonEmpty [TrimSpace (ref_Namespace ref); run_Namespace obj] in
      match getSchedule namespace (TrimSpace (ref_Name ref)) w with
      | inl e => if IsNotFound e then launchPausedByApplication
                 else inl (ErrWrap "get AgentSchedule launch policy" e)
      | inr schedule =>
          if sp_Suspend (sched_Spec schedule) then
            inr (true, "ScheduleSuspended",
                 "Waiting because AgentSchedule " +:+ sched_Namespace schedule +:+ "/"
                   +:+ sched_Name schedule +:+ " is suspended.", agentRunPollInterval)
          else launchPausedByApplication
      end
  | None => launchPausedByApplication
  end.

Definition agentRunQueuedBehindSchedule (obj : AgentRun) (w : W) : GoErr + option AgentRun :=
  match rs_ScheduleRef (run_Spec obj) with
  | None => inr None
  | Some ref =>
      if blank (ref_Name ref) then inr None else
      let namespace := firstNonEmpty [TrimSpace (ref_Namespace ref); run_Namespace obj] in
      match getSchedule namespace (TrimSpace (ref_Name ref)) w with
      | inl e => if IsNotFound e then inr None
                 else inl (ErrWrap "get agent schedule for queue policy" e)
      | inr schedule =>
          if bool_decide (agentScheduleConcurrencyPolicy schedule = AgentScheduleConcurrencyAllow)
          then inr None else
          let maxConcurrent := agentScheduleMaxConcurrentRuns schedule in
          if maxConcurrent <=? 0 then inr None else
          match listRuns (Some (run_Namespace obj))
                  (Some (agentRunScheduleLabel, sanitizeLabelValue (sched_Name schedule))) w with
          | inl e => inl (ErrWrap "list queued scheduled agent runs" e)
          | inr items =>
              inr (snd (fold_left (queueStep maxConcurrent)
                          (aheadInSchedule schedule obj items) (0, None)))
          end
      end
  end.

(** The loop of [agentRunQueuedBehindApplication]: membership can fail. *)
Fixpoint applicationQueue (maxConcurrent : Z) (applicationName : string) (obj : AgentRun)
    (items : list AgentRun) (acc : Z * option AgentRun) (w : W) : GoErr + option AgentRun :=
  match items with
  | [] => inr (snd acc)
  | run :: items =>
      if bool_decide (run_Namespace run = run_Namespace obj)
         && bool_decide (run_Name run = run_Name obj)
      then applicationQueue maxConcurrent applicationName obj items acc w
      else if agentRunPhaseTerminal (run_Phase run)
      then applicationQueue maxConcurrent applicationName obj items acc w
      else
        match agentRunMayUseApplication run applicationName w with
        | inl e => inl e
        | inr false => applicationQueue maxConcurrent applicationName obj items acc w
        | inr true =>
            if agentRunPrecedes run obj
            then applicationQueue maxConcurrent applicationName obj items
                   (queueStep maxConcurrent acc run) w
            else applicationQueue maxConcurrent applicationName obj items acc w
        end
  end.

Definition lowerLimit (applicationName : string) (limit : Z) (control : AgentRunControl) : Z :=
  let candidate := rc_MaxConcurrentRuns (ctl_Spec control) in
  if bool_decide (TrimSpace (app_Name (rc_ApplicationRef (ctl_Spec control)))
                  ≠ TrimSpace applicationName) || (candidate <=? 0)
  then limit
  else if (limit =? 0) || (candidate <? limit) then candidate else limit.

(** [options] is [r.Options.ApplicationMaxConcurrentRuns], 0 when unset. *)
Definition agentRunApplicationMaxConcurrentRuns (options : Z) (applicationName : string) (w : W) :
    GoErr + Z :=
  if blank applicationName then inr 0 else
  match listControls w with
  | inl e => inl (ErrWrap "list AgentRunControls for application concurrency" e)
  | inr controls =>
      let limit := fold_left (lowerLimit applicationName) controls 0 in
      if 0 <? limit then inr limit
      else if 0 <? options then inr options else inr defaultApplicationConcurrency
  end.

Definition agentRunQueuedBehindApplication (options : Z) (obj : AgentRun) (w : W) :
    GoErr + option AgentRun :=
  match resolveAgentRunApplicationName obj w with
  | inl e => inl e
  | inr applicationName =>
      if bool_decide (applicationName = "") then inr None else
      match agentRunApplicationMaxConcurrentRuns options applicationName w with
      | inl e => inl e
      | inr maxConcurrent =>
          if maxConcurrent <=? 0 then inr None else
          match listRuns None None w with
          | inl e => inl (ErrWrap "list application-scoped agent runs" e)
          | inr items => applicationQueue maxConcurrent applicationName obj items (0, None) w
          end
      end
  end.

Definition agentRunQueuedBehind (options : Z) (obj : AgentRun) (w : W) :
    GoErr + (option AgentRun * string) :=
  match agentRunQueuedBehindSchedule obj w with
  | inl e => inl e
  | inr (Some b) => inr (Some b, "QueuedBehindScheduledRun")
  | inr None =>
      match agentRunQueuedBehindApplication options obj w with
      | inl e => inl e
      | inr (Some b) => inr (Some b, "QueuedBehindApplicationRun")
      | inr None => inr (None, "")
      end
  end.
End operations.

(** ** The order *)

(** Runs stored by the server have a creation time; distinct runs of one
    namespace have distinct names. *)
Definition stamped (r : AgentRun) : Prop := IsZero (run_CreationTimestamp r) = false.

Lemma precedes_stamped a b : stamped a → stamped b →
  agentRunPrecedes a b = true ↔
  run_CreationTimestamp a < run_CreationTimestamp b
  ∨ run_CreationTimestamp a = run_CreationTimestamp b ∧ strLt (run_Name a) (run_Name b) = true.
Proof.
  unfold stamped, agentRunPrecedes, Before, After. intros -> ->. simpl.
  destruct (Z.ltb_spec (run_CreationTimestamp a) (run_CreationTimestamp b)); [by split; auto|].
  destruct (Z.ltb_spec (run_CreationTimestamp b) (run_CreationTimestamp a));
    (split; [|intros [?|[? ?]]; [lia|done || lia]]); [done|]. right. split; [lia|done].
Qed.

Lemma precedes_irrefl a : agentRunPrecedes a a = false.
Proof.
  unfold agentRunPrecedes, Before, After. rewrite strLt_irrefl, Z.ltb_irrefl.
  by destruct (negb _ && negb _).
Qed.

Lemma precedes_trans a b c : stamped a → stamped b → stamped c →
  agentRunPrecedes a b = true → agentRunPrecedes b c = true → agentRunPrecedes a c = true.
Proof.
  intros. rewrite precedes_stamped in * by done.
  repeat match goal with H : _ ∨ _ |- _ => destruct H as [?|[? ?]] end; [left; lia..|].
  right. split; [lia|by eapply strLt_trans].
Qed.

Lemma precedes_total a b : stamped a → stamped b → run_Name a ≠ run_Name b →
  agentRunPrecedes a b = true ∨ agentRunPrecedes b a = true.
Proof.
  intros Ha Hb Hn. rewrite !precedes_stamped by done.
  destruct (strLt (run_Name a) (run_Name b)) eqn:E1;
    [|destruct (strLt (run_Name b) (run_Name a)) eqn:E2];
    [..|by pose proof (strLt_total _ _ E1 E2)];
    destruct (Z.lt_total (run_CreationTimestamp a) (run_CreationTimestamp b)) as [|[|]];
    auto with lia.
Qed.

(** ** Counting *)

Lemma NoDup_map_inj {A B} (f : A → B) l a b :
  NoDup (map f l) → a ∈ l → b ∈ l → f a = f b → a = b.
Proof.
  induction l as [|x l IH]; simpl; [by intros ? ?%elem_of_nil|].
  rewrite NoDup_cons. intros [Hx Hl] Ha Hb Hf.
  assert (∀ y, y ∈ l → f x ≠ f y) as Hxy.
  { intros y Hy Heq. apply Hx. rewrite Heq. by apply list_elem_of_fmap_2. }
  apply elem_of_cons in Ha, Hb. destruct Ha as [->|Ha], Hb as [->|Hb]; auto.
  - by destruct (Hxy b Hb).
  - by destruct (Hxy a Ha).
Qed.

Section counting.
Context {A : Type} (R : A → A → bool) (P : A → Prop).
Hypothesis R_trans : ∀ a b c, P a → P b → P c → R a b = true → R b c = true → R a c = true.
Hypothesis R_total : ∀ a b, P a → P b → a ≠ b → R a b = true ∨ R b a = true.

(** A non-empty list of distinct elements has a last one. *)
Lemma last_of l : NoDup l → Forall P l → l ≠ [] →
  ∃ a l', l ≡ₚ a :: l' ∧ Forall (λ b, R b a = true) l'.
Proof.
  induction l as [|x l IH]; [done|]. rewrite NoDup_cons, Forall_cons.
  intros [Hx Hn] [Px Pl] _. destruct l as [|y l]; [by exists x, []|].
  destruct IH as (a & l' & Hp & Ha); [done..|].
  assert (a ∈ y :: l) as Hin by (rewrite Hp; set_solver).
  assert (P a) as Pa by (rewrite Forall_forall in Pl; auto).
  assert (Forall P l') as Pl' by
    (rewrite Hp in Pl; by apply Forall_cons in Pl as [_ ?]).
  destruct (R_total x a) as [Hxa|Hax]; [done..|by intros ->| |].
  - exists a, (x :: l'). split; [by rewrite Hp, Permutation_swap|by constructor].
  - exists x, (a :: l'). split; [by rewrite Hp|]. constructor; [done|].
    rewrite Forall_forall in Ha, Pl' |- *. intros b Hb. eapply (R_trans b a x); auto.
Qed.

(** If each of [l] has fewer than [m] elements of [all] before it, [l] has at
    most [m] elements. *)
Lemma admitted_bound l all m :
  NoDup l → Forall P l → l ⊆ all →
  (∀ a, a ∈ l → (length (List.filter (λ b, R b a) all) < m)%nat) → (length l ≤ m)%nat.
Proof.
  intros Hnd HP Hsub Hlt. destruct (decide (l = [])) as [->|Hne]; [simpl; lia|].
  destruct (last_of l Hnd HP Hne) as (a & l' & Hp & Ha).
  specialize (Hlt a ltac:(rewrite Hp; set_solver)).
  assert (length l' ≤ length (List.filter (λ b, R b a) all))%nat; [|rewrite Hp; simpl; lia].
  apply NoDup_incl_length.
  - apply NoDup_ListNoDup. rewrite Hp in Hnd. by apply NoDup_cons in Hnd as [_ ?].
  - intros b Hb. apply filter_In. rewrite <-list_elem_of_In in Hb |- *.
    rewrite Forall_forall in Ha. split; [|auto]. apply Hsub. rewrite Hp. set_solver.
Qed.
End counting.

Lemma queueStep_spec m l n b :
  let r := fold_left (queueStep m) l (n, b) in
  fst r = n + Z.of_nat (length l)
  ∧ (snd r = None ↔ b = None ∧ (l = [] ∨ n + Z.of_nat (length l) < m))
  ∧ (∀ x, snd r = Some x → b = Some x ∨ x ∈ l).
Proof.
  revert n b. induction l as [|a l IH]; intros n b; cbn [fold_left length].
  { simpl. split_and!; [lia|naive_solver|naive_solver]. }
  destruct (queueStep m (n, b) a) as [n' b'] eqn:E.
  assert (n' = n + 1 ∧ (b' = None ↔ b = None ∧ n + 1 < m) ∧ (∀ x, b' = Some x → b = Some x ∨ x = a))
    as (-> & Hb & Hx).
  { unfold queueStep in E. destruct (Z.leb_spec m (n + 1)); [|naive_solver lia].
    destruct b as [b|]; [destruct (agentRunPrecedes a b)|]; simplify_eq; naive_solver lia. }
  destruct (IH (n + 1) b') as (H1 & H2 & H3). split_and!; [lia| |].
  - rewrite H2, Hb. split.
    + intros [[-> ?] [->|?]]; (split; [done|right]); cbn [length] in *; lia.
    + intros [-> [?|?]]; [done|]. split; [split; [done|]|right]; lia.
  - intros x Hs. apply H3 in Hs as [Hs|Hs]; [|set_solver].
    apply Hx in Hs as [?| ->]; set_solver.
Qed.

(** The gate is open iff fewer than [m] runs are ahead. *)
Lemma queue_open m l : 0 < m →
  snd (fold_left (queueStep m) l (0, None)) = None ↔ Z.of_nat (length l) < m.
Proof.
  intros Hm. destruct (queueStep_spec m l 0 None) as (_ & -> & _).
  split; [intros [_ [->|?]]; simpl; lia|auto with lia].
Qed.

Section theorems.
Context {W : Type} `{ClientLaws W}.

(** The runs the queue of a schedule is about. *)
Definition queued (schedule : AgentSchedule) (run : AgentRun) : Prop :=
  agentRunBelongsToSchedule run schedule = true
  ∧ agentRunPhaseTerminal (run_Phase run) = false
  ∧ run_Namespace run = sched_Namespace schedule.

Definition queueList (schedule : AgentSchedule) (w : W) : GoErr + list AgentRun :=
  listRuns (Some (sched_Namespace schedule))
    (Some (agentRunScheduleLabel, sanitizeLabelValue (sched_Name schedule))) w.

Lemma queuedBehindSchedule_eq schedule run w items :
  getSchedule (sched_Namespace schedule) (sched_Name schedule) w = inr schedule →
  sched_Name schedule ≠ "" →
  agentScheduleConcurrencyPolicy schedule ≠ AgentScheduleConcurrencyAllow →
  0 < agentScheduleMaxConcurrentRuns schedule →
  queueList schedule w = inr items →
  queued schedule run →
  agentRunQueuedBehindSchedule run w
  = inr (snd (fold_left (queueStep (agentScheduleMaxConcurrentRuns schedule))
                (aheadInSchedule schedule run items) (0, None))).
Proof.
  intros Hget Hne Hpol Hmax Hlist (Hbel & _ & Hns).
  unfold agentRunBelongsToSchedule in Hbel. unfold agentRunQueuedBehindSchedule.
  destruct (rs_ScheduleRef (run_Spec run)) as [ref|]; [|done].
  case_match eqn:Eg; [done|]. apply orb_false_iff in Eg as [Eg1 Eg2].
  rewrite bool_decide_not, negb_false_iff, bool_decide_eq_true in Eg1, Eg2.
  unfold blank. rewrite Eg2, bool_decide_eq_false_2 by done.
  rewrite Eg1, Hget, bool_decide_eq_false_2 by done.
  rewrite (proj2 (Z.leb_gt _ _) Hmax).
  unfold queueList in Hlist. by rewrite Hns, Hlist.
Qed.

(** Two listed runs of one namespace with the same name are the same run. *)
Lemma listed_same_name ns sel items (w : W) a b :
  listRuns ns sel w = inr items → a ∈ items → b ∈ items →
  run_Namespace a = run_Namespace b → run_Name a = run_Name b → a = b.
Proof.
  intros Hl Ha Hb Hns Hn. eapply NoDup_map_inj; [by eapply listRuns_nodup|done..|].
  unfold run_key. congruence.
Qed.

(** C22: a Forbid or Queue schedule never has more than its limit of runs past
    the schedule gate: of the non-terminal runs of the schedule, at most
    [agentScheduleMaxConcurrentRuns] find nobody to wait for. *)
Theorem schedule_queue_bound schedule (w : W) items admitted :
  getSchedule (sched_Namespace schedule) (sched_Name schedule) w = inr schedule →
  sched_Name schedule ≠ "" →
  agentScheduleConcurrencyPolicy schedule ≠ AgentScheduleConcurrencyAllow →
  0 < agentScheduleMaxConcurrentRuns schedule →
  queueList schedule w = inr items → Forall stamped items →
  NoDup admitted →
  (∀ r, r ∈ admitted → r ∈ items ∧ queued schedule r
     ∧ agentRunQueuedBehindSchedule r w = inr None) →
  Z.of_nat (length admitted) ≤ agentScheduleMaxConcurrentRuns schedule.
Proof.
  intros Hget Hne Hpol Hmax Hlist Hst Hnd Hadm.
  set (m := agentScheduleMaxConcurrentRuns schedule) in *.
  set (Q := λ r, r ∈ items ∧ queued schedule r).
  set (pre := List.filter (λ r, agentRunBelongsToSchedule r schedule
               && negb (agentRunPhaseTerminal (run_Phase r))) items).
  rewrite Forall_forall in Hst.
  assert (∀ a b, Q a → Q b → a ≠ b → run_Name a ≠ run_Name b) as Hnames.
  { intros a b [Ha (_&_&Hna)] [Hb (_&_&Hnb)] Hab Hn. apply Hab.
    eapply listed_same_name; eauto. congruence. }
  enough (length admitted ≤ Z.to_nat m)%nat by lia.
  apply (admitted_bound agentRunPrecedes Q) with (all := pre).
  - intros a b c [? _] [? _] [? _]. apply precedes_trans; auto.
  - intros a b [? ?] [? ?] ?. apply precedes_total; auto. by apply Hnames.
  - done.
  - apply Forall_forall. intros r Hr. apply Hadm in Hr as (?&?&_). done.
  - intros r Hr. apply Hadm in Hr as (Hin & (Hb & Ht & _) & _).
    apply list_elem_of_In, filter_In. rewrite <-list_elem_of_In. split; [done|].
    by rewrite Hb, Ht.
  - intros a Ha. destruct (Hadm a Ha) as (Hin & Hq & Hopen).
    erewrite queuedBehindSchedule_eq in Hopen by eauto.
    assert (Z.of_nat (length (aheadInSchedule schedule a items)) < m) as Hlt
      by (apply queue_open; [done|by injection Hopen]).
    assert (length (List.filter (λ b, agentRunPrecedes b a) pre)
            ≤ length (aheadInSchedule schedule a items))%nat; [|lia].
    apply NoDup_incl_length.
    { apply List.NoDup_filter, List.NoDup_filter.
      eapply NoDup_ListNoDup, NoDup_fmap_1, (listRuns_nodup w), Hlist. }
    intros b Hb. apply filter_In in Hb as [Hb Hpr]. apply filter_In in Hb as [Hb Hc].
    bool_props. apply list_elem_of_In, list_elem_of_filter. rewrite list_elem_of_In.
    split_and!; try done. apply Hnames; [|done|].
    + split; [by apply list_elem_of_In|]. split_and!; [done..|].
      eapply (listRuns_ok w) in Hlist as Hm. rewrite <-list_elem_of_In in Hb.
      apply Hm in Hb as [_ [Hb _]]. by apply Hb.
    + intros ->. by rewrite precedes_irrefl in Hpr.
Qed.

(** C38: the queue does not deadlock: a run that no other queued run of its
    schedule precedes is past the gate. *)
Theorem schedule_queue_head schedule (w : W) items run :
  getSchedule (sched_Namespace schedule) (sched_Name schedule) w = inr schedule →
  sched_Name schedule ≠ "" →
  agentScheduleConcurrencyPolicy schedule ≠ AgentScheduleConcurrencyAllow →
  0 < agentScheduleMaxConcurrentRuns schedule →
  queueList schedule w = inr items → queued schedule run →
  (∀ r, r ∈ items → queued schedule r → agentRunPrecedes r run = false) →
  agentRunQueuedBehindSchedule run w = inr None.
Proof.
  intros Hget Hne Hpol Hmax Hlist Hq Hhead.
  erewrite queuedBehindSchedule_eq by eauto. f_equal. apply queue_open; [done|].
  assert (aheadInSchedule schedule run items = []) as ->; [|simpl; lia].
  apply elem_of_nil_inv. intros r [(Hb & _ & Ht & Hp) Hr]%list_elem_of_filter.
  rewrite Hhead in Hp; [done|done|]. split_and!; [done..|].
  apply (listRuns_ok w _ _ _ r) in Hlist as Hm. apply Hm in Hr as [_ [Hr _]]. by apply Hr.
Qed.

(** A positive limit a control sets for an application. *)
Definition setsLimit (app : string) (c : AgentRunControl) : Prop :=
  TrimSpace (app_Name (rc_ApplicationRef (ctl_Spec c))) = TrimSpace app
  ∧ 0 < rc_MaxConcurrentRuns (ctl_Spec c).

Lemma lowerLimit_fold app cs n : 0 ≤ n →
  let r := fold_left (lowerLimit app) cs n in
  0 ≤ r ∧ (r = n ∨ ∃ c, c ∈ cs ∧ setsLimit app c ∧ rc_MaxConcurrentRuns (ctl_Spec c) = r)
  ∧ (0 < n → 0 < r ≤ n)
  ∧ (∀ c, c ∈ cs → setsLimit app c → 0 < r ≤ rc_MaxConcurrentRuns (ctl_Spec c)).
Proof.
  revert n. induction cs as [|d cs IH]; intros n Hn; simpl.
  { split_and!; [done|by left|lia|]. intros c Hc. by apply elem_of_nil in Hc. }
  assert (∃ n', lowerLimit app n d = n' ∧ 0 ≤ n' ∧ (0 < n → 0 < n' ≤ n)
    ∧ (n' = n ∨ setsLimit app d ∧ rc_MaxConcurrentRuns (ctl_Spec d) = n')
    ∧ (setsLimit app d → 0 < n' ≤ rc_MaxConcurrentRuns (ctl_Spec d))) as (n' & -> & N0 & N1 & N2 & N3).
  { eexists. split; [done|]. unfold lowerLimit, setsLimit. rewrite bool_decide_not.
    destruct (bool_decide_reflect (TrimSpace (app_Name (rc_ApplicationRef (ctl_Spec d)))
      = TrimSpace app)); simpl; [|naive_solver lia].
    destruct (Z.leb_spec (rc_MaxConcurrentRuns (ctl_Spec d)) 0); simpl; [naive_solver lia|].
    destruct (Z.eqb_spec n 0); simpl; [subst; split_and!; auto with lia|].
    destruct (Z.ltb_spec (rc_MaxConcurrentRuns (ctl_Spec d)) n); split_and!; auto with lia. }
  destruct (IH n' N0) as (R0 & R1 & R2 & R3). split_and!; [done| | |].
  - destruct R1 as [->|(c & Hc & ? & ?)]; [|right; set_solver].
    destruct N2 as [->|[? ?]]; [by left|right; exists d; set_solver].
  - lia.
  - intros c Hc Hs. apply elem_of_cons in Hc as [->|Hc]; [|auto].
    specialize (N3 Hs). lia.
Qed.

(** The application limit is the least positive limit among the controls
    of the application, whether or not a control has expired, and otherwise
    the operator default; it is positive for every named application, so no
    scoped run escapes the application gate. *)
Theorem application_limit_exact options app (w : W) controls :
  blank app = false → listControls w = inr controls →
  ∃ n, agentRunApplicationMaxConcurrentRuns options app w = inr n ∧ 0 < n
    ∧ (∀ c, c ∈ controls → setsLimit app c → n ≤ rc_MaxConcurrentRuns (ctl_Spec c))
    ∧ ((∃ c, c ∈ controls ∧ setsLimit app c) →
       ∃ c, c ∈ controls ∧ setsLimit app c ∧ rc_MaxConcurrentRuns (ctl_Spec c) = n)
    ∧ (¬ (∃ c, c ∈ controls ∧ setsLimit app c) → n = if 0 <? options then options else 1).
Proof.
  intros Ha Hl. unfold agentRunApplicationMaxConcurrentRuns. rewrite Ha, Hl.
  destruct (lowerLimit_fold app controls 0) as (R0 & R1 & _ & R3); [done|].
  set (n := fold_left (lowerLimit app) controls 0) in *.
  destruct (Z.ltb_spec 0 n) as [Hn|Hn].
  - destruct R1 as [?|(c & Hc & Hs & Hr)]; [lia|]. exists n.
    split_and!; [done..| | |]; [intros; by apply R3|eauto|].
    intros Hno. destruct Hno. eauto.
  - assert (¬ ∃ c, c ∈ controls ∧ setsLimit app c) as Hno.
    { intros (c & Hc & Hs). specialize (R3 c Hc Hs). lia. }
    destruct (Z.ltb_spec 0 options); eexists; (split; [done|]); split_and!;
      try done; try naive_solver.
Qed.

(** Membership of the listed runs, when all of it can be resolved. *)
Definition resolvable (app : string) (w : W) (r : AgentRun) : Prop :=
  ∃ b, agentRunMayUseApplication r app w = inr b.
Definition contends (app : string) (w : W) (r : AgentRun) : Prop :=
  agentRunMayUseApplication r app w = inr true ∧ agentRunPhaseTerminal (run_Phase r) = false.
Definition contendsb (app : string) (w : W) (r : AgentRun) : bool :=
  negb (agentRunPhaseTerminal (run_Phase r))
  && match agentRunMayUseApplication r app w with inr b => b | inl _ => false end.

Definition aheadInApplication (app : string) (w : W) (obj : AgentRun) (items : list AgentRun) :=
  filter (λ r, contendsb app w r = true ∧ run_key r ≠ run_key obj
               ∧ agentRunPrecedes r obj = true) items.

Lemma applicationQueue_eq m app obj items acc (w : W) :
  Forall (resolvable app w) items →
  applicationQueue m app obj items acc w
  = inr (snd (fold_left (queueStep m) (aheadInApplication app w obj items) acc)).
Proof.
  intros Hr. revert acc. induction Hr as [|r items [b Hb] Hr IH]; intros acc; [done|].
  assert (contendsb app w r = negb (agentRunPhaseTerminal (run_Phase r)) && b) as Hcb
    by (unfold contendsb; by rewrite Hb).
  assert (run_key r = run_key obj ↔ bool_decide (run_Namespace r = run_Namespace obj)
    && bool_decide (run_Name r = run_Name obj) = true) as Hkey.
  { rewrite andb_true_iff, !bool_decide_eq_true. unfold run_key. naive_solver congruence. }
  unfold aheadInApplication in *. rewrite filter_cons. simpl. rewrite Hb.
  destruct (bool_decide _ && bool_decide _).
  { rewrite decide_False by naive_solver. apply IH. }
  destruct (agentRunPhaseTerminal (run_Phase r)); simpl in Hcb;
    [rewrite decide_False by (rewrite Hcb; naive_solver); apply IH|].
  destruct b; [|rewrite decide_False by (rewrite Hcb; naive_solver); apply IH].
  destruct (agentRunPrecedes r obj);
    [rewrite decide_True by naive_solver; apply IH
    |rewrite decide_False by naive_solver; apply IH].
Qed.

(** The application gate admits at most its limit of runs, provided the
    order is total on the contending runs, that is, no two of them in
    different namespaces share both creation second and name. *)
Theorem application_queue_bound options app (w : W) items limit admitted :
  app ≠ "" → agentRunApplicationMaxConcurrentRuns options app w = inr limit → 0 < limit →
  listRuns None None w = inr items → Forall stamped items →
  Forall (resolvable app w) items →
  (∀ a b, a ∈ items → b ∈ items → contends app w a → contends app w b →
     run_CreationTimestamp a = run_CreationTimestamp b → run_Name a = run_Name b → a = b) →
  NoDup admitted →
  (∀ r, r ∈ admitted → r ∈ items ∧ contends app w r
     ∧ resolveAgentRunApplicationName r w = inr app
     ∧ agentRunQueuedBehindApplication options r w = inr None) →
  Z.of_nat (length admitted) ≤ limit.
Proof.
  intros Happ Hlim Hpos Hlist Hst Hres Htot Hnd Hadm.
  set (Q := λ r, r ∈ items ∧ contends app w r).
  set (pre := List.filter (contendsb app w) items).
  rewrite Forall_forall in Hst.
  assert (∀ r, contends app w r → contendsb app w r = true) as Hcb.
  { intros r [Hm Ht]. unfold contendsb. by rewrite Hm, Ht. }
  enough (length admitted ≤ Z.to_nat limit)%nat by lia.
  apply (admitted_bound agentRunPrecedes Q) with (all := pre).
  - intros a b c [? _] [? _] [? _]. apply precedes_trans; auto.
  - intros a b [Ha Ca] [Hb Cb] Hab.
    destruct (decide (run_Name a = run_Name b)) as [Hn|Hn]; [|by apply precedes_total; auto].
    rewrite !precedes_stamped by auto.
    destruct (Z.lt_total (run_CreationTimestamp a) (run_CreationTimestamp b)) as [|[|]]; auto.
    by destruct Hab; eauto.
  - done.
  - apply Forall_forall. intros r Hr. apply Hadm in Hr as (?&?&_). done.
  - intros r Hr. apply Hadm in Hr as (Hin & Hc & _).
    apply list_elem_of_In, filter_In. rewrite <-list_elem_of_In. auto.
  - intros a Ha. destruct (Hadm a Ha) as (Hin & Hc & Hname & Hopen).
    unfold agentRunQueuedBehindApplication in Hopen.
    rewrite Hname, Hlim, Hlist, bool_decide_eq_false_2, (proj2 (Z.leb_gt _ _) Hpos) in Hopen by done.
    rewrite applicationQueue_eq in Hopen by done.
    assert (Z.of_nat (length (aheadInApplication app w a items)) < limit) as Hlt
      by (apply queue_open; [done|by injection Hopen]).
    assert (length (List.filter (λ b, agentRunPrecedes b a) pre)
            ≤ length (aheadInApplication app w a items))%nat; [|lia].
    apply NoDup_incl_length.
    { apply List.NoDup_filter, List.NoDup_filter.
      eapply NoDup_ListNoDup, NoDup_fmap_1, (listRuns_nodup w), Hlist. }
    intros b Hb. apply filter_In in Hb as [Hb Hpr]. apply filter_In in Hb as [Hb Hcon].
    apply list_elem_of_In, list_elem_of_filter. rewrite list_elem_of_In.
    split_and!; try done. intros Hkey.
    assert (b = a) as ->; [|by rewrite precedes_irrefl in Hpr].
    eapply NoDup_map_inj; [by eapply (listRuns_nodup w)|by apply list_elem_of_In|done|done].
Qed.
End theorems.

(** ** Witnesses *)

Definition fx_queue : AgentSchedule :=
  fx_schedule "ns" "nightly" AgentScheduleConcurrencyQueue
    (zero_AgentScheduleSpec <| sp_IntervalSeconds := 60 |>).
Definition fx_queue_spec : AgentRunSpec :=
  (fx_spec "shop") <| rs_ScheduleRef := Some (mkNamespacedObjectReference "nightly" "ns") |>
    <| rs_SourceUID := "uid-nightly" |>.
Definition fx_queue_labels : gmap string string := {[ agentRunScheduleLabel := "nightly" ]}.
Definition fx_first : AgentRun :=
  fx_run "ns" "run-a" (fx_epoch + Second) fx_queue_labels fx_queue_spec "".
Definition fx_second : AgentRun :=
  fx_run "ns" "run-b" (fx_epoch + Second) fx_queue_labels fx_queue_spec "".
Definition fx_queue_cluster : MemCluster := fx_cluster [fx_second; fx_first] [] [fx_queue] [].
Definition fx_queue_items : list AgentRun := ok_list (queueList fx_queue fx_queue_cluster).

Lemma fx_queue_items_eq : fx_queue_items = [fx_first; fx_second] ∨ fx_queue_items = [fx_second; fx_first].
Proof. vm_compute. auto. Qed.

Lemma schedule_queue_bound_witness :
  agentRunQueuedBehindSchedule fx_first fx_queue_cluster = inr None
  ∧ agentRunQueuedBehindSchedule fx_second fx_queue_cluster = inr (Some fx_first)
  ∧ Z.of_nat (length [fx_first]) ≤ agentScheduleMaxConcurrentRuns fx_queue.
Proof.
  split; [vm_compute; reflexivity|]. split; [vm_compute; reflexivity|].
  apply (schedule_queue_bound fx_queue fx_queue_cluster fx_queue_items).
  - vm_compute; reflexivity.
  - vm_compute; discriminate.
  - vm_compute; discriminate.
  - vm_compute; reflexivity.
  - vm_compute; reflexivity.
  - apply (Forall_compute _ (λ r, negb (IsZero (run_CreationTimestamp r)))).
    + intros r. apply negb_true_iff.
    + vm_compute; reflexivity.
  - apply NoDup_singleton.
  - intros r ->%list_elem_of_singleton. split; [|split].
    + apply list_elem_of_In. vm_compute. auto.
    + vm_compute. auto.
    + vm_compute; reflexivity.
Defined.

Lemma schedule_queue_head_witness :
  agentRunQueuedBehindSchedule fx_first fx_queue_cluster = inr None.
Proof.
  apply (schedule_queue_head fx_queue fx_queue_cluster fx_queue_items fx_first).
  - vm_compute; reflexivity.
  - vm_compute; discriminate.
  - vm_compute; discriminate.
  - vm_compute; reflexivity.
  - vm_compute; reflexivity.
  - vm_compute. auto.
  - assert (forallb (λ r, negb (agentRunPrecedes r fx_first)) fx_queue_items = true) as Hf
      by (vm_compute; reflexivity).
    rewrite forallb_forall in Hf. intros r Hr _.
    exact (proj1 (negb_true_iff _) (Hf r (proj1 (list_elem_of_In _ _) Hr))).
Defined.

Definition fx_shop_limits : MemCluster :=
  fx_cluster [fx_first; fx_second] [] []
    [fx_control "old" "shop" AgentRunControlLaunchPolicyAllowed "" 1 (Some (fx_epoch - Day));
     fx_control "new" "shop" AgentRunControlLaunchPolicyAllowed "" 5 None].

Lemma application_limit_exact_witness :
  ∃ n, agentRunApplicationMaxConcurrentRuns 7 "shop" fx_shop_limits = inr n ∧ n ≤ 5.
Proof.
  destruct (application_limit_exact 7 "shop" fx_shop_limits
    (ok_list (listControls fx_shop_limits))) as (n & Hn & _ & Hle & _).
  - vm_compute; reflexivity.
  - vm_compute; reflexivity.
  - exists n. split; [exact Hn|].
    apply (Hle (fx_control "new" "shop" AgentRunControlLaunchPolicyAllowed "" 5 None)).
    + apply list_elem_of_In. vm_compute. auto.
    + vm_compute. auto.
Defined.

Lemma application_queue_bound_witness :
  Z.of_nat (length [fx_first]) ≤ 1.
Proof.
  apply (application_queue_bound 0 "shop" fx_shop_limits (ok_list (listRuns None None fx_shop_limits))).
  - vm_compute; discriminate.
  - vm_compute; reflexivity.
  - vm_compute; reflexivity.
  - vm_compute; reflexivity.
  - apply (Forall_compute _ (λ r, negb (IsZero (run_CreationTimestamp r)))).
    + intros r. apply negb_true_iff.
    + vm_compute; reflexivity.
  - apply (Forall_compute _ (λ r, match agentRunMayUseApplication r "shop" fx_shop_limits with
                                  | inr _ => true | inl _ => false end)).
    + intros r. unfold resolvable.
      destruct (agentRunMayUseApplication r "shop" fx_shop_limits) as [|b]; [discriminate|].
      intros _. exists b. reflexivity.
    + vm_compute; reflexivity.
  - intros a b Ha Hb _ _ _ Hn.
    eapply NoDup_map_inj with (f := run_Name); [|exact Ha|exact Hb|exact Hn].
    apply (bool_decide_eq_true_1 _). vm_compute; reflexivity.
  - apply NoDup_singleton.
  - intros r ->%list_elem_of_singleton. split; [|split; [|split]].
    + apply list_elem_of_In. vm_compute. auto.
    + vm_compute. auto.
    + vm_compute; reflexivity.
    + vm_compute; reflexivity.
Defined.

(** The application gate can be exceeded: two runs of one application that
    share a name and a creation second in different namespaces precede each
    other in neither direction, so with a limit of one both find nobody to wait
    for. *)
Theorem application_queue_tie :
  let a := fx_run "ns1" "run" fx_epoch ∅ (fx_spec "shop") "" in
  let b := fx_run "ns2" "run" fx_epoch ∅ (fx_spec "shop") "" in
  let w := fx_cluster [a; b] [] [] [] in
  agentRunApplicationMaxConcurrentRuns 0 "shop" w = inr 1
  ∧ agentRunQueuedBehind 0 a w = inr (None, "")
  ∧ agentRunQueuedBehind 0 b w = inr (None, "").
Proof. vm_compute. auto. Qed.
