(* ===== verification/Merge.v ===== *)
(** * Layering of run configuration

    [agentRunApplyProfile] and the [agentRunMerge...] functions of
    [src/internal/controller/agent_run_controller.go], with the compositions of
    skill and tool sets and [agentRunHarnessWithProfile] of
    [agent_run_composition.go]: a run inherits from its profile, and its profile
    from a harness profile, field by field.

    A slice the code copies before it appends to it is a list; in particular a
    deep copy is the identity.  The maps from keys to positions the code keeps
    while it merges lists are part of the model ([mergeKeyed]), the values they
    index are shown to be in range. *)

From stdpp Require Import base list gmap strings sorting.
From Stdlib Require Import ZArith Lia Ascii.
From S2P Require Import Prelude GoStrings GoTime Names ApiRun Kube MemKube Fixtures.

(** ** One field *)

(** [if strings.TrimSpace(run.F) != "" { out.F = run.F }] *)
Definition orText (base run : string) : string := if blank run then base else run.
(** [if run.F != "" { out.F = run.F }] *)
Definition orValue (base run : string) : string := if String.eqb run "" then base else run.
(** [if run.F != nil { out.F = run.F.DeepCopy() }] *)
Definition orPtr {A} (base run : option A) : option A :=
  match run with Some _ => run | None => base end.
(** [if len(run.F) > 0 { out.F = copy of run.F }] *)
Definition orList {A} (base run : list A) : list A :=
  match run with [] => base | _ => run end.

(** The frame of the optional blocks: nil when both are nil, the profile's block
    when the run has none, and otherwise the run's block over the profile's (or
    over a zero block). *)
Definition mergeBlock {A} (zero : A) (over : A → A → A) (profile run : option A) : option A :=
  match profile, run with
  | None, None => None
  | Some p, None => Some p
  | _, Some r => Some (over (default zero profile) r)
  end.

Definition mergePromptText (profile run : string) : string :=
  let profile := TrimSpace profile in
  let run := TrimSpace run in
  if String.eqb profile "" then run
  else if String.eqb run "" then profile
  else profile +:+ nl +:+ nl +:+ run.

(** ** Lists without duplicates *)

(** One iteration of the loops that keep the first item of each key. *)
Definition keepFirst {A} (key : A → string) (st : list A * gset string) (item : A) :
    list A * gset string :=
  let '(out, seen) := st in
  if bool_decide (key item ∈ seen) then st else (out ++ [item], {[key item]} ∪ seen).

Definition uniqueString (st : list string * gset string) (value : string) :
    list string * gset string :=
  let value := TrimSpace value in
  if String.eqb value "" then st else keepFirst id st value.

Definition appendUniqueStrings (base additions : list string) : list string :=
  fst (foldl uniqueString ([], ∅) (base ++ additions)).

Definition nul : string := String (ascii_of_N 0) "".

Definition refreshRefKey (ref : AgentRunExternalSecretRefreshRef) : string :=
  TrimSpace (esr_Name ref) +:+ nul +:+ TrimSpace (ref_Namespace (esr_TargetSecretRef ref))
  +:+ nul +:+ TrimSpace (ref_Name (esr_TargetSecretRef ref)).

Definition mergeAgentRunExternalSecretRefreshRefs
    (profile run : list AgentRunExternalSecretRefreshRef) : list AgentRunExternalSecretRefreshRef :=
  fst (foldl (keepFirst refreshRefKey) ([], ∅) (profile ++ run)).

(** ** Lists with keys

    The state of the loops that let a later item replace an earlier one with the
    same key in place: the list built so far and the position of each key.
    [indexed] tells the items of the base list that are entered into the map,
    [named] the additions that have a key. *)
Section keyed.
Context {A : Type} (indexed named : A → bool) (key : A → string).

Definition indexBase (base : list A) : gmap string nat :=
  fst (foldl (λ '(positions, i) item,
         (if indexed item then <[key item := i]> positions else positions, S i))
       (∅, 0%nat) base).

Definition keyedStep (st : list A * gmap string nat) (item : A) : list A * gmap string nat :=
  let '(out, positions) := st in
  if negb (named item) then (out ++ [item], positions) else
  match positions !! key item with
  | Some index => (<[index := item]> out, positions)
  | None => (out ++ [item], <[key item := length out]> positions)
  end.

Definition mergeKeyed (base additions : list A) : list A :=
  fst (foldl keyedStep (base, indexBase base) additions).
End keyed.

Definition namespacedRefKey (namespace name : string) : string :=
  TrimSpace namespace +:+ "/" +:+ TrimSpace name.

Definition mergeNamespacedRefs : list NamespacedObjectReference →
    list NamespacedObjectReference → list NamespacedObjectReference :=
  mergeKeyed (λ _, true) (λ ref, negb (blank (ref_Name ref)))
    (λ ref, namespacedRefKey (ref_Namespace ref) (ref_Name ref)).

Definition envNamed (env : EnvVar) : bool := negb (blank (env_Name env)).
Definition mergeEnvVars : list EnvVar → list EnvVar → list EnvVar :=
  mergeKeyed envNamed envNamed env_Name.

Definition mergeAgentRunDataVolumeRefs : list AgentRunDataVolumeRef →
    list AgentRunDataVolumeRef → list AgentRunDataVolumeRef :=
  mergeKeyed (λ _, true) (λ ref, negb (blank (dvr_Name ref)))
    (λ ref, namespacedRefKey (dvr_Namespace ref) (dvr_Name ref)).

Definition localNamed (ref : LocalObjectReference) : bool := negb (blank (lor_Name ref)).
Definition mergeLocalObjectRefs : list LocalObjectReference →
    list LocalObjectReference → list LocalObjectReference :=
  mergeKeyed localNamed localNamed lor_Name.

Definition lowerHost (credential : AgentRunGitHubSkillCredential) : AgentRunGitHubSkillCredential :=
  credential <| cred_APIHost := ToLower (TrimSpace (cred_APIHost credential)) |>.

Definition mergeAgentRunSkillSourceCredentials
    (base additions : list AgentRunGitHubSkillCredential) : list AgentRunGitHubSkillCredential :=
  mergeKeyed (λ _, true) (λ _, true) cred_APIHost [] (map lowerHost (base ++ additions)).

Definition mergeStringMap (base additions : gmap string string) : gmap string string :=
  additions ∪ base.

(** ** Scope, docs, issue tracking, notifications *)

Definition normalizeAgentRunRepository (repo : option AgentRunRepositorySpec) :
    option AgentRunRepositorySpec :=
  match repo with
  | None => None
  | Some out =>
      let out := out
        <| repo_Name := TrimSpace (repo_Name out) |>
        <| repo_URL := TrimSpace (repo_URL out) |>
        <| repo_Ref := TrimSpace (repo_Ref out) |>
        <| repo_DestinationBranch := TrimSpace (repo_DestinationBranch out) |>
        <| repo_AllowedBranches := appendUniqueStrings [] (repo_AllowedBranches out) |> in
      let out := if String.eqb (repo_URL out) "" && negb (String.eqb (repo_Name out) "")
                 then out <| repo_URL := "https://github.com/" +:+ repo_Name out +:+ ".git" |>
                 else out in
      let out := if String.eqb (repo_Ref out) "" && negb (String.eqb (repo_DestinationBranch out) "")
                 then out <| repo_Ref := repo_DestinationBranch out |> else out in
      let out := if negb (String.eqb (repo_DestinationBranch out) "")
                 then out <| repo_AllowedBranches :=
                        appendUniqueStrings (repo_AllowedBranches out) [repo_DestinationBranch out] |>
                 else out in
      if String.eqb (repo_Name out) "" && String.eqb (repo_URL out) "" && String.eqb (repo_Ref out) ""
         && String.eqb (repo_DestinationBranch out) ""
         && (length (repo_AllowedBranches out) =? 0)%nat
      then None else Some out
  end.

Definition agentRunMergeRepository (profile run : option AgentRunRepositorySpec) :
    option AgentRunRepositorySpec :=
  match profile, run with
  | None, None => None
  | _, _ =>
      let out := default zero_AgentRunRepositorySpec profile in
      match run with
      | None => normalizeAgentRunRepository (Some out)
      | Some run =>
          normalizeAgentRunRepository (Some (out
            <| repo_Name := orText (repo_Name out) (repo_Name run) |>
            <| repo_URL := orText (repo_URL out) (repo_URL run) |>
            <| repo_Ref := orText (repo_Ref out) (repo_Ref run) |>
            <| repo_DestinationBranch :=
                 orText (repo_DestinationBranch out) (repo_DestinationBranch run) |>
            <| repo_AllowedBranches :=
                 if (0 <? length (repo_AllowedBranches run))%nat
                 then appendUniqueStrings [] (repo_AllowedBranches run)
                 else repo_AllowedBranches out |>))
      end
  end.

Definition agentRunMergeScope (profile run : AgentRunScopeSpec) : AgentRunScopeSpec :=
  profile
    <| scope_Summary := orText (scope_Summary profile) (scope_Summary run) |>
    <| scope_ApplicationRef := orPtr (scope_ApplicationRef profile) (scope_ApplicationRef run) |>
    <| scope_ApplicationTargetRef :=
         orPtr (scope_ApplicationTargetRef profile) (scope_ApplicationTargetRef run) |>
    <| scope_Namespaces := appendUniqueStrings (scope_Namespaces profile) (scope_Namespaces run) |>
    <| scope_ResourceKinds :=
         appendUniqueStrings (scope_ResourceKinds profile) (scope_ResourceKinds run) |>
    <| scope_Repository := agentRunMergeRepository (scope_Repository profile) (scope_Repository run) |>.

Definition agentRunMergeDocs : option AgentRunDocsSpec → option AgentRunDocsSpec →
    option AgentRunDocsSpec :=
  mergeBlock zero_AgentRunDocsSpec (λ out run, out
    <| docs_Policy := orValue (docs_Policy out) (docs_Policy run) |>
    <| docs_Paths := appendUniqueStrings (docs_Paths out) (docs_Paths run) |>
    <| docs_RuntimePaths := appendUniqueStrings (docs_RuntimePaths out) (docs_RuntimePaths run) |>
    <| docs_Notes := mergePromptText (docs_Notes out) (docs_Notes run) |>).

Definition agentRunMergeIssueTracking : option AgentRunIssueTrackingSpec →
    option AgentRunIssueTrackingSpec → option AgentRunIssueTrackingSpec :=
  mergeBlock zero_AgentRunIssueTrackingSpec (λ out run, out
    <| it_Provider := orValue (it_Provider out) (it_Provider run) |>
    <| it_Repository := orText (it_Repository out) (it_Repository run) |>
    <| it_Issues := it_Issues out ++ it_Issues run |>
    <| it_SearchQuery := orText (it_SearchQuery out) (it_SearchQuery run) |>
    <| it_UpdatePolicy := orValue (it_UpdatePolicy out) (it_UpdatePolicy run) |>).

Definition agentRunMergeNotifications : option AgentRunNotificationSpec →
    option AgentRunNotificationSpec → option AgentRunNotificationSpec :=
  mergeBlock zero_AgentRunNotificationSpec (λ out run, out
    <| nt_MobileOps := nt_MobileOps out || nt_MobileOps run |>
    <| nt_Telegram := orPtr (nt_Telegram out) (nt_Telegram run) |>
    <| nt_Discord := orPtr (nt_Discord out) (nt_Discord run) |>).

(** ** Backends *)

Definition agentRunMergeOpenCodeBackend : option AgentRunOpenCodeBackendSpec →
    option AgentRunOpenCodeBackendSpec → option AgentRunOpenCodeBackendSpec :=
  mergeBlock zero_AgentRunOpenCodeBackendSpec (λ out run, out
    <| oc_Model := orText (oc_Model out) (oc_Model run) |>
    <| oc_Agent := orText (oc_Agent out) (oc_Agent run) |>
    <| oc_Variant := orText (oc_Variant out) (oc_Variant run) |>
    <| oc_Format := orText (oc_Format out) (oc_Format run) |>
    <| oc_Auto := orPtr (oc_Auto out) (oc_Auto run) |>
    <| oc_Pure := orPtr (oc_Pure out) (oc_Pure run) |>
    <| oc_AdditionalArgs := oc_AdditionalArgs out ++ oc_AdditionalArgs run |>).

Definition agentRunMergeCodexBackend : option AgentRunCodexBackendSpec →
    option AgentRunCodexBackendSpec → option AgentRunCodexBackendSpec :=
  mergeBlock zero_AgentRunCodexBackendSpec (λ out run, out
    <| codex_Model := orText (codex_Model out) (codex_Model run) |>
    <| codex_ReasoningEffort := orText (codex_ReasoningEffort out) (codex_ReasoningEffort run) |>
    <| codex_Verbosity := orText (codex_Verbosity out) (codex_Verbosity run) |>
    <| codex_ServiceTier := orText (codex_ServiceTier out) (codex_ServiceTier run) |>
    <| codex_GoalMode := codex_GoalMode out || codex_GoalMode run |>
    <| codex_Goal := orText (codex_Goal out) (codex_Goal run) |>
    <| codex_Sandbox := orText (codex_Sandbox out) (codex_Sandbox run) |>
    <| codex_AdditionalArgs := codex_AdditionalArgs out ++ codex_AdditionalArgs run |>).

Definition agentRunMergeHermesBackend : option AgentRunHermesBackendSpec →
    option AgentRunHermesBackendSpec → option AgentRunHermesBackendSpec :=
  mergeBlock zero_AgentRunHermesBackendSpec (λ out run, out
    <| hermes_Model := orText (hermes_Model out) (hermes_Model run) |>
    <| hermes_ReasoningEffort := orText (hermes_ReasoningEffort out) (hermes_ReasoningEffort run) |>
    <| hermes_ServiceTier := orText (hermes_ServiceTier out) (hermes_ServiceTier run) |>
    <| hermes_Profile := orText (hermes_Profile out) (hermes_Profile run) |>
    <| hermes_UseCodexAppServer := hermes_UseCodexAppServer out || hermes_UseCodexAppServer run |>
    <| hermes_AdditionalArgs := hermes_AdditionalArgs out ++ hermes_AdditionalArgs run |>).

Definition agentRunMergeOpenClawBackend : option AgentRunOpenClawBackendSpec →
    option AgentRunOpenClawBackendSpec → option AgentRunOpenClawBackendSpec :=
  mergeBlock zero_AgentRunOpenClawBackendSpec (λ out run, out
    <| claw_AgentID := orText (claw_AgentID out) (claw_AgentID run) |>
    <| claw_Model := orText (claw_Model out) (claw_Model run) |>
    <| claw_Thinking := orText (claw_Thinking out) (claw_Thinking run) |>
    <| claw_ServiceTier := orText (claw_ServiceTier out) (claw_ServiceTier run) |>
    <| claw_Local := orPtr (claw_Local out) (claw_Local run) |>
    <| claw_AdditionalArgs := claw_AdditionalArgs out ++ claw_AdditionalArgs run |>).

Definition agentRunMergeGrokBuildBackend : option AgentRunGrokBuildBackendSpec →
    option AgentRunGrokBuildBackendSpec → option AgentRunGrokBuildBackendSpec :=
  mergeBlock zero_AgentRunGrokBuildBackendSpec (λ out run, out
    <| grok_Model := orText (grok_Model out) (grok_Model run) |>
    <| grok_ReasoningEffort := orText (grok_ReasoningEffort out) (grok_ReasoningEffort run) |>
    <| grok_ServiceTier := orText (grok_ServiceTier out) (grok_ServiceTier run) |>
    <| grok_Profile := orText (grok_Profile out) (grok_Profile run) |>
    <| grok_Command := orText (grok_Command out) (grok_Command run) |>
    <| grok_AdditionalArgs := grok_AdditionalArgs out ++ grok_AdditionalArgs run |>).

Definition agentRunMergePiBackend : option AgentRunPiBackendSpec →
    option AgentRunPiBackendSpec → option AgentRunPiBackendSpec :=
  mergeBlock zero_AgentRunPiBackendSpec (λ out run, out
    <| pi_Provider := orText (pi_Provider out) (pi_Provider run) |>
    <| pi_Model := orText (pi_Model out) (pi_Model run) |>
    <| pi_Thinking := orText (pi_Thinking out) (pi_Thinking run) |>
    <| pi_Mode := orText (pi_Mode out) (pi_Mode run) |>
    <| pi_NoSession := pi_NoSession out || pi_NoSession run |>
    <| pi_AdditionalArgs := pi_AdditionalArgs out ++ pi_AdditionalArgs run |>).

Definition agentRunMergePrimeBackend : option AgentRunPrimeBackendSpec →
    option AgentRunPrimeBackendSpec → option AgentRunPrimeBackendSpec :=
  mergeBlock zero_AgentRunPrimeBackendSpec (λ out run, out
    <| prime_Provider := orText (prime_Provider out) (prime_Provider run) |>
    <| prime_Model := orText (prime_Model out) (prime_Model run) |>
    <| prime_Thinking := orText (prime_Thinking out) (prime_Thinking run) |>
    <| prime_Mode := orText (prime_Mode out) (prime_Mode run) |>
    <| prime_NoSession := prime_NoSession out || prime_NoSession run |>
    <| prime_AdditionalArgs := prime_AdditionalArgs out ++ prime_AdditionalArgs run |>).

Definition agentRunMergeAgyBackend : option AgentRunAgyBackendSpec →
    option AgentRunAgyBackendSpec → option AgentRunAgyBackendSpec :=
  mergeBlock zero_AgentRunAgyBackendSpec (λ out run, out
    <| agy_Model := orText (agy_Model out) (agy_Model run) |>
    <| agy_Mode := orText (agy_Mode out) (agy_Mode run) |>
    <| agy_Thinking := orText (agy_Thinking out) (agy_Thinking run) |>
    <| agy_AdditionalArgs := agy_AdditionalArgs out ++ agy_AdditionalArgs run |>).

Definition agentRunMergeCustomBackend : option AgentRunCustomBackendSpec →
    option AgentRunCustomBackendSpec → option AgentRunCustomBackendSpec :=
  mergeBlock zero_AgentRunCustomBackendSpec (λ out run, out
    <| custom_Command := orList (custom_Command out) (custom_Command run) |>
    <| custom_Args := orList (custom_Args out) (custom_Args run) |>).

Definition agentRunMergeBackend (profile run : AgentRunHarnessBackendSpec) :
    AgentRunHarnessBackendSpec :=
  profile
    <| be_Kind := orValue (be_Kind profile) (be_Kind run) |>
    <| be_Image := orText (be_Image profile) (be_Image run) |>
    <| be_ModelProvider := orValue (be_ModelProvider profile) (be_ModelProvider run) |>
    <| be_ProviderAuthMode := orValue (be_ProviderAuthMode profile) (be_ProviderAuthMode run) |>
    <| be_ImagePullPolicy := orValue (be_ImagePullPolicy profile) (be_ImagePullPolicy run) |>
    <| be_Codex := agentRunMergeCodexBackend (be_Codex profile) (be_Codex run) |>
    <| be_OpenCode := agentRunMergeOpenCodeBackend (be_OpenCode profile) (be_OpenCode run) |>
    <| be_HermesAgent := agentRunMergeHermesBackend (be_HermesAgent profile) (be_HermesAgent run) |>
    <| be_OpenClaw := agentRunMergeOpenClawBackend (be_OpenClaw profile) (be_OpenClaw run) |>
    <| be_GrokBuild := agentRunMergeGrokBuildBackend (be_GrokBuild profile) (be_GrokBuild run) |>
    <| be_PiAgent := agentRunMergePiBackend (be_PiAgent profile) (be_PiAgent run) |>
    <| be_PrimeAgent := agentRunMergePrimeBackend (be_PrimeAgent profile) (be_PrimeAgent run) |>
    <| be_Agy := agentRunMergeAgyBackend (be_Agy profile) (be_Agy run) |>
    <| be_Custom := agentRunMergeCustomBackend (be_Custom profile) (be_Custom run) |>.

(** ** Execution and harness *)

Definition resourcesSet (r : ResourceRequirements) : bool :=
  (0 <? size (res_Requests r))%nat || (0 <? size (res_Limits r))%nat
  || (0 <? length (res_Claims r))%nat.

Definition agentRunMergeExecution (profile run : AgentRunHarnessExecutionSpec) :
    AgentRunHarnessExecutionSpec :=
  profile
    <| ex_ServiceAccountName := orText (ex_ServiceAccountName profile) (ex_ServiceAccountName run) |>
    <| ex_EnvSecretRefs := mergeNamespacedRefs (ex_EnvSecretRefs profile) (ex_EnvSecretRefs run) |>
    <| ex_SkillSourceCredentials := mergeAgentRunSkillSourceCredentials
         (ex_SkillSourceCredentials profile) (ex_SkillSourceCredentials run) |>
    <| ex_ExternalSecretRefreshRefs := mergeAgentRunExternalSecretRefreshRefs
         (ex_ExternalSecretRefreshRefs profile) (ex_ExternalSecretRefreshRefs run) |>
    <| ex_ExtraEnv := mergeEnvVars (ex_ExtraEnv profile) (ex_ExtraEnv run) |>
    <| ex_DataVolumeRefs :=
         mergeAgentRunDataVolumeRefs (ex_DataVolumeRefs profile) (ex_DataVolumeRefs run) |>
    <| ex_SpiffeWorkloadAPI :=
         if spiffe_Enabled (ex_SpiffeWorkloadAPI run)
            || negb (blank (spiffe_SPIFFEID (ex_SpiffeWorkloadAPI run)))
         then ex_SpiffeWorkloadAPI run else ex_SpiffeWorkloadAPI profile |>
    <| ex_Resources := if resourcesSet (ex_Resources run)
                       then ex_Resources run else ex_Resources profile |>
    <| ex_NodeSelector := mergeStringMap (ex_NodeSelector profile) (ex_NodeSelector run) |>
    <| ex_Affinity := orPtr (ex_Affinity profile) (ex_Affinity run) |>
    <| ex_Tolerations := ex_Tolerations profile ++ ex_Tolerations run |>
    <| ex_ImagePullSecrets :=
         mergeLocalObjectRefs (ex_ImagePullSecrets profile) (ex_ImagePullSecrets run) |>
    <| ex_PodSecurityContext := orPtr (ex_PodSecurityContext profile) (ex_PodSecurityContext run) |>
    <| ex_SecurityContext := orPtr (ex_SecurityContext profile) (ex_SecurityContext run) |>
    <| ex_Workdir := orText (ex_Workdir profile) (ex_Workdir run) |>
    <| ex_Runtime := orValue (ex_Runtime profile) (ex_Runtime run) |>
    <| ex_Substrate := orPtr (ex_Substrate profile) (ex_Substrate run) |>
    <| ex_TimeoutSeconds := if (ex_TimeoutSeconds run =? 0)%Z
                            then ex_TimeoutSeconds profile else ex_TimeoutSeconds run |>
    <| ex_TTLSecondsAfterFinished :=
         orPtr (ex_TTLSecondsAfterFinished profile) (ex_TTLSecondsAfterFinished run) |>.

Definition agentRunMergeHarness (profile run : AgentRunHarnessSpec) : AgentRunHarnessSpec :=
  profile
    <| har_Intent := orValue (har_Intent profile) (har_Intent run) |>
    <| har_Backend := agentRunMergeBackend (har_Backend profile) (har_Backend run) |>
    <| har_Execution := agentRunMergeExecution (har_Execution profile) (har_Execution run) |>
    <| har_SkillInjections := har_SkillInjections profile ++ har_SkillInjections run |>
    <| har_Subagents := har_Subagents profile ++ har_Subagents run |>
    <| har_Tools := har_Tools profile ++ har_Tools run |>
    <| har_SystemPrompt := mergePromptText (har_SystemPrompt profile) (har_SystemPrompt run) |>.

(** ** Skill and tool compositions *)

Definition agentRunMergeSkillComposition (profile run : option AgentSkillCompositionSpec) :
    option AgentSkillCompositionSpec :=
  match profile, run with
  | None, None => None
  | _, _ =>
      let excluded := match profile with Some p => sc_ExcludeGlobal p | None => false end in
      let out := default zero_AgentSkillCompositionSpec profile in
      match run with
      | None => Some out
      | Some run =>
          if String.eqb (sc_Mode run) AgentSkillCompositionReplace
          then Some (if excluded then run <| sc_ExcludeGlobal := true |> else run)
          else Some (out
            <| sc_Refs := sc_Refs out ++ sc_Refs run |>
            <| sc_Overrides := sc_Overrides out ++ sc_Overrides run |>
            <| sc_Mode := orValue (sc_Mode out) (sc_Mode run) |>
            <| sc_ExcludeGlobal := sc_ExcludeGlobal out || sc_ExcludeGlobal run |>)
      end
  end.

Definition AgentToolCompositionReplace : string := "Replace".

Definition agentRunMergeToolComposition (profile run : option AgentToolCompositionSpec) :
    option AgentToolCompositionSpec :=
  match profile, run with
  | None, None => None
  | _, _ =>
      let excluded := match profile with Some p => tc_ExcludeGlobal p | None => false end in
      let out := default zero_AgentToolCompositionSpec profile in
      match run with
      | None => Some out
      | Some run =>
          if String.eqb (tc_Mode run) AgentToolCompositionReplace
          then Some (if excluded then run <| tc_ExcludeGlobal := true |> else run)
          else Some (out
            <| tc_Refs := tc_Refs out ++ tc_Refs run |>
            <| tc_Mode := orValue (tc_Mode out) (tc_Mode run) |>
            <| tc_ExcludeGlobal := tc_ExcludeGlobal out || tc_ExcludeGlobal run |>)
      end
  end.

(** ** The layers *)

Definition agentRunApplyProfile (obj : AgentRun) (profile : AgentRunProfile) : AgentRun :=
  let spec := run_Spec obj in
  let p := prof_Spec profile in
  obj <| run_Spec := spec
    <| rs_Scope := agentRunMergeScope (ps_Scope p) (rs_Scope spec) |>
    <| rs_Docs := agentRunMergeDocs (ps_Docs p) (rs_Docs spec) |>
    <| rs_IssueTracking := agentRunMergeIssueTracking (ps_IssueTracking p) (rs_IssueTracking spec) |>
    <| rs_Harness := agentRunMergeHarness (ps_Harness p) (rs_Harness spec) |>
    <| rs_HarnessProfileRef := orPtr (ps_HarnessProfileRef p) (rs_HarnessProfileRef spec) |>
    <| rs_SkillSets := agentRunMergeSkillComposition (ps_SkillSets p) (rs_SkillSets spec) |>
    <| rs_ToolSets := agentRunMergeToolComposition (ps_ToolSets p) (rs_ToolSets spec) |>
    <| rs_CouncilRef := orPtr (ps_CouncilRef p) (rs_CouncilRef spec) |>
    <| rs_Notifications := agentRunMergeNotifications (ps_Notifications p) (rs_Notifications spec) |> |>.

Definition agentRunHarnessWithProfile (profile : option AgentRunProfile) (obj : AgentRun)
    (harnessProfile : AgentHarnessProfile) : AgentRunHarnessSpec :=
  let profileHarness := match profile with
                        | Some p => ps_Harness (prof_Spec p)
                        | None => zero_AgentRunHarnessSpec
                        end in
  let run := rs_Harness (run_Spec obj) in
  let backend := hps_Backend (hp_Spec harnessProfile) in
  let execution := hps_Execution (hp_Spec harnessProfile) in
  let inherits := match rs_HarnessProfileRef (run_Spec obj) with None => true | Some _ => false end in
  let backend := if inherits then agentRunMergeBackend backend (har_Backend profileHarness)
                 else backend in
  let execution := if inherits then agentRunMergeExecution execution (har_Execution profileHarness)
                   else execution in
  (agentRunMergeHarness profileHarness run)
    <| har_Backend := agentRunMergeBackend backend (har_Backend run) |>
    <| har_Execution := agentRunMergeExecution execution (har_Execution run) |>.

(** ** Last wins *)

Section keyed.
Context {A : Type} (indexed named : A → bool) (key : A → string).

(** The last item of a list that has a key and has this one: what a consumer
    that lets later items win sees. *)
Definition lastNamed (k : string) (l : list A) : option A :=
  last (filter (λ x, named x = true ∧ key x = k) l).

(** No named item at position [i] or behind it has the key. *)
Definition freeFrom (k : string) (i : nat) (l : list A) : Prop :=
  ∀ j y, (i ≤ j)%nat → l !! j = Some y → named y = true → key y ≠ k.

(** The map of positions is right: it points at an item of that key behind which
    no named item has the key, and it has every key of a named item. *)
Definition placed (st : list A * gmap string nat) : Prop :=
  ∀ k, match snd st !! k with
       | Some i => ∃ x, fst st !! i = Some x ∧ key x = k ∧ freeFrom k (S i) (fst st)
       | None => freeFrom k 0 (fst st)
       end.

Lemma freeFrom_snoc k i l x : freeFrom k i l → (named x = true → key x ≠ k) → freeFrom k i (l ++ [x]).
Proof.
  intros H Hx j y Hj [?|[? Hy%list_elem_of_lookup_2]]%lookup_app_Some; [eauto|].
  by apply list_elem_of_singleton in Hy as ->.
Qed.

Lemma placed_snoc out pos x : placed (out, pos) →
  placed (out ++ [x], <[key x := length out]> pos).
Proof.
  intros H k. cbn [fst snd]. destruct (decide (key x = k)) as [<-|Hne].
  - rewrite lookup_insert_eq. exists x. rewrite list_lookup_middle by done. repeat split.
    intros j y Hj Hy%lookup_lt_Some. rewrite length_app in Hy. simpl in Hy. lia.
  - rewrite lookup_insert_ne by done. specialize (H k). cbn [fst snd] in H.
    destruct (pos !! k) as [i|]; [|by apply freeFrom_snoc].
    destruct H as (y & ? & ? & ?). exists y. split; [by apply lookup_app_l_Some|].
    split; [done|by apply freeFrom_snoc].
Qed.

Lemma placed_unnamed out pos x : placed (out, pos) → named x = false → placed (out ++ [x], pos).
Proof.
  intros H Hx k. specialize (H k). cbn [fst snd] in *.
  destruct (pos !! k) as [i|]; [|apply freeFrom_snoc; [done|congruence]].
  destruct H as (y & ? & ? & ?). exists y. split; [by apply lookup_app_l_Some|].
  split; [done|apply freeFrom_snoc; [done|congruence]].
Qed.

Lemma placed_replace out pos i x :
  placed (out, pos) → pos !! key x = Some i → placed (<[i := x]> out, pos).
Proof.
  intros H Hi k. pose proof (H (key x)) as Hx. specialize (H k). cbn [fst snd] in *.
  rewrite Hi in Hx. destruct Hx as (y & Hy & Hyk & Hfree).
  pose proof (lookup_lt_Some _ _ _ Hy) as Hlt.
  assert (Hf : ∀ j, freeFrom k j out → key x ≠ k ∨ (i < j)%nat → freeFrom k j (<[i := x]> out)).
  { intros j Hj Hor j' y' Hle. destruct (decide (j' = i)) as [->|Hne].
    - rewrite list_lookup_insert_eq by done. intros [= <-] _. destruct Hor; [done|lia].
    - rewrite list_lookup_insert_ne by done. by apply Hj. }
  destruct (decide (key x = k)) as [<-|Hne].
  - rewrite Hi. exists x. rewrite list_lookup_insert_eq by done. repeat split; auto with lia.
  - destruct (pos !! k) as [i'|]; [|auto].
    destruct H as (z & Hz & <- & ?). exists z. split; [|auto].
    rewrite list_lookup_insert_ne; [done|]. intros ->. congruence.
Qed.

Lemma lastNamed_snoc k l x :
  lastNamed k (l ++ [x]) = if decide (named x = true ∧ key x = k) then Some x else lastNamed k l.
Proof.
  unfold lastNamed. rewrite filter_app, filter_cons, filter_nil. case_decide; [apply last_snoc|].
  by rewrite app_nil_r.
Qed.

Lemma lastNamed_replace k out i x y :
  out !! i = Some y → key y = key x → named x = true → freeFrom (key x) (S i) out →
  lastNamed k (<[i := x]> out) = if decide (named x = true ∧ key x = k) then Some x else lastNamed k out.
Proof.
  intros Hy Hk Hx Hfree. pose proof (lookup_lt_Some _ _ _ Hy) as Hlt.
  unfold lastNamed. rewrite insert_take_drop by done.
  assert (Eo : out = take i out ++ y :: drop (S i) out) by (by rewrite take_drop_middle).
  rewrite filter_app, filter_cons. case_decide as Hd.
  - destruct Hd as [_ <-]. assert (E : filter (λ z, named z = true ∧ key z = key x) (drop (S i) out) = []).
    { destruct (filter _ _) as [|z l] eqn:E; [done|].
      assert (Hz : z ∈ filter (λ z, named z = true ∧ key z = key x) (drop (S i) out)) by (rewrite E; left).
      apply list_elem_of_filter in Hz as [[Hz Hkz] [j Hj]%list_elem_of_lookup_1].
      rewrite lookup_drop in Hj. destruct (Hfree (S i + j)%nat z); auto with lia. }
    rewrite E. apply last_snoc.
  - rewrite Eo at 3. rewrite filter_app, filter_cons, decide_False; [done|].
    intros [? ?]. apply Hd. split; [done|congruence].
Qed.

Lemma keyedStep_placed st x : placed st → placed (keyedStep named key st x).
Proof.
  destruct st as [out pos]. intros H. unfold keyedStep. destruct (named x) eqn:Hx; simpl.
  - destruct (pos !! key x) as [i|] eqn:Hi; [by apply placed_replace|by apply placed_snoc].
  - by apply placed_unnamed.
Qed.

Lemma keyedStep_last k st x : placed st →
  lastNamed k (fst (keyedStep named key st x)) = lastNamed k (fst st ++ [x]).
Proof.
  destruct st as [out pos]. intros H. unfold keyedStep. destruct (named x) eqn:Hx; simpl; [|done].
  specialize (H (key x)). cbn [fst snd] in H. destruct (pos !! key x) as [i|]; [|done].
  destruct H as (y & ? & ? & ?). cbn [fst]. by rewrite (lastNamed_replace k out i x y), lastNamed_snoc.
Qed.

Lemma indexBase_snoc base x : indexBase indexed key (base ++ [x]) =
  if indexed x then <[key x := length base]> (indexBase indexed key base)
  else indexBase indexed key base.
Proof.
  unfold indexBase. rewrite foldl_snoc.
  assert (Hl : ∀ l, snd (foldl (λ '(positions, i) item,
    (if indexed item then <[key item := i]> positions else positions, S i))
    (∅ : gmap string nat, 0%nat) l) = length l).
  { induction l as [|y l IH] using rev_ind; [done|]. rewrite foldl_snoc, length_app.
    destruct (foldl _ _ l) as [m i]. simpl in *. lia. }
  specialize (Hl base). destruct (foldl _ _ base) as [m i]. simpl in *. by subst i.
Qed.

Lemma indexBase_placed base : (∀ x, named x = true → indexed x = true) →
  placed (base, indexBase indexed key base).
Proof.
  intros Hni. induction base as [|x base IH] using rev_ind.
  - intros k. cbn [fst snd]. rewrite (lookup_empty k : indexBase indexed key [] !! k = None).
    intros j y _. by rewrite lookup_nil.
  - rewrite indexBase_snoc. destruct (indexed x) eqn:Hx; [by apply placed_snoc|].
    apply placed_unnamed; [done|]. destruct (named x) eqn:?; [|done]. by rewrite Hni in Hx.
Qed.

(** Merging by key is last-wins: what a consumer sees of a key is what it would
    see of the plain concatenation. *)
Lemma mergeKeyed_last base additions k : (∀ x, named x = true → indexed x = true) →
  lastNamed k (mergeKeyed indexed named key base additions) = lastNamed k (base ++ additions).
Proof.
  intros Hni. unfold mergeKeyed.
  assert (Hst : ∀ l, let st := foldl (keyedStep named key) (base, indexBase indexed key base) l in
            placed st ∧ lastNamed k (fst st) = lastNamed k (base ++ l)).
  { induction l as [|x l [IH1 IH2]] using rev_ind; simpl.
    - rewrite app_nil_r. split; [by apply indexBase_placed|done].
    - rewrite foldl_snoc. split; [by apply keyedStep_placed|].
      rewrite keyedStep_last, app_assoc, !lastNamed_snoc, IH2 by done. done. }
  apply Hst.
Qed.

(** No two named items share a key. *)
Definition distinctKeys (l : list A) : Prop :=
  ∀ i j x y, l !! i = Some x → l !! j = Some y → named x = true → named y = true →
    key x = key y → i = j.

(** Every named item is where the map of positions says. *)
Definition anchored (st : list A * gmap string nat) : Prop :=
  ∀ i x, fst st !! i = Some x → named x = true → snd st !! key x = Some i.

Lemma anchored_distinct st : anchored st → distinctKeys (fst st).
Proof.
  intros H i j x y Hx Hy Nx Ny E. apply (H _ _ Hx) in Nx. apply (H _ _ Hy) in Ny. congruence.
Qed.

Lemma lookup_snoc_inv (l : list A) x i y :
  (l ++ [x]) !! i = Some y → l !! i = Some y ∨ i = length l ∧ y = x.
Proof.
  intros [?|[Hi Hy]]%lookup_app_Some; [by left|right].
  apply list_lookup_singleton_Some in Hy as [? ->]. split; [lia|done].
Qed.

Lemma keyedStep_anchored st x : placed st → anchored st → anchored (keyedStep named key st x).
Proof.
  destruct st as [out pos]. intros Hp H i y. unfold keyedStep.
  destruct (named x) eqn:Nx; cbn [negb].
  - destruct (pos !! key x) as [k|] eqn:Hk; cbn [fst snd].
    + specialize (Hp (key x)). cbn [fst snd] in Hp. rewrite Hk in Hp. destruct Hp as (z & Hz & _).
      destruct (decide (i = k)) as [->|Hne].
      * rewrite list_lookup_insert_eq by (by eapply lookup_lt_Some). by intros [= <-].
      * rewrite list_lookup_insert_ne by done. apply (H i y).
    + intros [Hy|[-> ->]]%lookup_snoc_inv Ny; [|by rewrite lookup_insert_eq].
      apply (H i y) in Ny as Hi; [|done]. cbn [snd] in Hi.
      rewrite lookup_insert_ne; [done|]. congruence.
  - cbn [fst snd]. intros [Hy|[-> ->]]%lookup_snoc_inv Ny; [by apply (H i y)|congruence].
Qed.

Lemma indexBase_anchored base : (∀ x, indexed x = named x) → distinctKeys base →
  anchored (base, indexBase indexed key base).
Proof.
  intros Heq. induction base as [|x base IH] using rev_ind; intros Hd i y; cbn [fst snd]; [done|].
  rewrite indexBase_snoc, Heq. intros [Hy|[-> ->]]%lookup_snoc_inv Ny.
  - assert (Hi : indexBase indexed key base !! key y = Some i).
    { apply IH; [|done..]. intros k l u v Hu Hv. apply Hd; by apply lookup_app_l_Some. }
    destruct (named x) eqn:Nx; [|done].
    rewrite lookup_insert_ne; [done|]. intros E. pose proof (lookup_lt_Some _ _ _ Hy) as Hlt.
    assert (i = length base); [|lia].
    apply (Hd i (length base) y x); auto; [by apply lookup_app_l_Some|by apply list_lookup_middle].
  - rewrite Ny. apply lookup_insert_eq.
Qed.

(** Distinct keys stay distinct. *)
Lemma mergeKeyed_distinct base additions : (∀ x, indexed x = named x) → distinctKeys base →
  distinctKeys (mergeKeyed indexed named key base additions).
Proof.
  intros Heq Hd. unfold mergeKeyed. apply anchored_distinct.
  assert (Hst : ∀ l, let st := foldl (keyedStep named key) (base, indexBase indexed key base) l in
            placed st ∧ anchored st).
  { induction l as [|x l [IH1 IH2]] using rev_ind; simpl.
    - split; [apply indexBase_placed; congruence|by apply indexBase_anchored].
    - rewrite foldl_snoc. auto using keyedStep_placed, keyedStep_anchored. }
  apply Hst.
Qed.
End keyed.

(** Lists with keys are merged so that the run wins: for every variable,
    reference, pull secret and host, what a consumer that takes the last entry
    sees of the merged list is what it would see of the profile's list followed by
    the run's; and when the names of the profile's list are distinct, so are those
    of the merged one (always, for the credentials). *)
Theorem keyed_merges_last_wins :
  (∀ base additions k, lastNamed envNamed env_Name k (mergeEnvVars base additions)
     = lastNamed envNamed env_Name k (base ++ additions))
  ∧ (∀ base additions k,
       let named ref := negb (blank (ref_Name ref)) in
       let key ref := namespacedRefKey (ref_Namespace ref) (ref_Name ref) in
       lastNamed named key k (mergeNamespacedRefs base additions) = lastNamed named key k (base ++ additions))
  ∧ (∀ base additions k,
       let named ref := negb (blank (dvr_Name ref)) in
       let key ref := namespacedRefKey (dvr_Namespace ref) (dvr_Name ref) in
       lastNamed named key k (mergeAgentRunDataVolumeRefs base additions)
       = lastNamed named key k (base ++ additions))
  ∧ (∀ base additions k, lastNamed localNamed lor_Name k (mergeLocalObjectRefs base additions)
     = lastNamed localNamed lor_Name k (base ++ additions))
  ∧ (∀ base additions host,
       lastNamed (λ _, true) cred_APIHost host (mergeAgentRunSkillSourceCredentials base additions)
       = lastNamed (λ _, true) cred_APIHost host (map lowerHost (base ++ additions)))
  ∧ (∀ base additions, distinctKeys envNamed env_Name base →
       distinctKeys envNamed env_Name (mergeEnvVars base additions))
  ∧ (∀ base additions, distinctKeys localNamed lor_Name base →
       distinctKeys localNamed lor_Name (mergeLocalObjectRefs base additions))
  ∧ (∀ base additions, NoDup (map cred_APIHost (mergeAgentRunSkillSourceCredentials base additions))).
Proof.
  split_and!; try (intros; first [by apply mergeKeyed_last | by apply mergeKeyed_distinct]).
  intros base additions. apply NoDup_alt. intros i j h.
  rewrite !list_lookup_fmap, !fmap_Some. intros (x & Hx & ->) (y & Hy & E).
  refine (mergeKeyed_distinct _ (λ _, true) cred_APIHost [] _ _ _ i j x y Hx Hy _ _ E); done.
Qed.

(** ** Unique strings *)

(** The reference: trim, drop blanks, and keep the first of equal strings. *)
Definition uniqueTrimmed (l : list string) : list string :=
  reverse (remove_dups (reverse (filter (λ v, v ≠ "") (map TrimSpace l)))).

Lemma keepFirst_id l st :
  snd st = list_to_set (fst st) →
  let st' := foldl (keepFirst id) st l in
  snd st' = list_to_set (fst st')
  ∧ reverse (fst st') = foldl (λ acc x, if decide (x ∈ acc) then acc else x :: acc) (reverse (fst st)) l.
Proof.
  revert st. induction l as [|x l IH]; intros [out seen] E; simpl in *; [done|].
  subst seen. unfold id at 1 2. case_bool_decide as Hin.
  - rewrite elem_of_list_to_set in Hin. rewrite decide_True by (by rewrite elem_of_reverse).
    by apply IH.
  - rewrite elem_of_list_to_set in Hin. rewrite decide_False by (by rewrite elem_of_reverse).
    replace (x :: reverse out) with (reverse (out ++ [x])) by (by rewrite reverse_snoc).
    apply (IH (out ++ [x], _)). simpl. rewrite list_to_set_app_L, list_to_set_singleton_L. apply (comm_L (∪)).
Qed.

Lemma foldl_remove_dups (l : list string) :
  foldl (λ acc x, if decide (x ∈ acc) then acc else x :: acc) [] l = remove_dups (reverse l).
Proof.
  induction l as [|x l IH] using rev_ind; [done|].
  rewrite foldl_snoc, IH, reverse_snoc. cbn [remove_dups].
  destruct (decide_rel elem_of x (reverse l)) as [H|H]; rewrite <- elem_of_remove_dups in H.
  - by rewrite decide_True.
  - by rewrite decide_False.
Qed.

Lemma uniqueString_fold l st :
  foldl uniqueString st l = foldl (keepFirst id) st (filter (λ v, v ≠ "") (map TrimSpace l)).
Proof.
  revert st. induction l as [|x l IH]; intros st; [done|]. cbn [foldl map]. rewrite IH, filter_cons.
  unfold uniqueString at 1. destruct (String.eqb_spec (TrimSpace x) "").
  - by rewrite decide_False by auto.
  - by rewrite decide_True by done.
Qed.

Lemma appendUniqueStrings_eq base additions :
  appendUniqueStrings base additions = uniqueTrimmed (base ++ additions).
Proof.
  unfold appendUniqueStrings. rewrite uniqueString_fold.
  destruct (keepFirst_id (filter (λ v, v ≠ "") (map TrimSpace (base ++ additions))) ([], ∅)) as [_ H]; [done|].
  apply (f_equal reverse) in H. rewrite reverse_involutive in H. rewrite H. simpl.
  by rewrite foldl_remove_dups.
Qed.

Lemma elem_of_uniqueTrimmed l v :
  v ∈ uniqueTrimmed l ↔ v ≠ "" ∧ ∃ x, x ∈ l ∧ v = TrimSpace x.
Proof.
  unfold uniqueTrimmed. rewrite elem_of_reverse, elem_of_remove_dups, elem_of_reverse,
    list_elem_of_filter, list_elem_of_fmap. naive_solver.
Qed.

Lemma uniqueTrimmed_snoc l x : uniqueTrimmed (l ++ [x]) =
  if decide (TrimSpace x = "" ∨ TrimSpace x ∈ uniqueTrimmed l) then uniqueTrimmed l
  else uniqueTrimmed l ++ [TrimSpace x].
Proof.
  unfold uniqueTrimmed. rewrite map_app, filter_app. cbn [map]. rewrite filter_cons, filter_nil.
  destruct (decide (TrimSpace x ≠ "")) as [Hx|Hx].
  - rewrite reverse_snoc. cbn [remove_dups]. destruct (decide_rel elem_of _ _) as [H|H].
    + rewrite decide_True; [done|]. right. by rewrite elem_of_reverse, elem_of_remove_dups.
    + rewrite decide_False; [by rewrite reverse_cons|].
      intros [?|Hin]; [done|]. by rewrite elem_of_reverse, elem_of_remove_dups in Hin.
  - rewrite app_nil_r, decide_True; [done|]. left. by apply dec_stable.
Qed.

Lemma NoDup_uniqueTrimmed l : NoDup (uniqueTrimmed l).
Proof.
  induction l as [|x l IH] using rev_ind; [constructor|]. rewrite uniqueTrimmed_snoc.
  case_decide as H; [done|]. apply NoDup_app. repeat split; [done| |apply NoDup_singleton].
  intros y Hy ->%list_elem_of_singleton. tauto.
Qed.

(** Appending strings that are all there already changes nothing. *)
Lemma uniqueTrimmed_absorb l m :
  Forall (λ x, TrimSpace x = "" ∨ TrimSpace x ∈ uniqueTrimmed l) m →
  uniqueTrimmed (l ++ m) = uniqueTrimmed l.
Proof.
  induction m as [|x m IH] using rev_ind; [by rewrite app_nil_r|].
  rewrite Forall_app, Forall_singleton. intros [Hm Hx].
  by rewrite app_assoc, uniqueTrimmed_snoc, IH, decide_True.
Qed.

Lemma uniqueTrimmed_fix l :
  NoDup l → Forall (λ x, TrimSpace x = x ∧ x ≠ "") l → uniqueTrimmed l = l.
Proof.
  induction l as [|x l IH] using rev_ind; [done|].
  rewrite NoDup_app, Forall_app, Forall_singleton. intros (Hl & Hd & _) (Hf & Hx & Hne).
  rewrite uniqueTrimmed_snoc, IH, Hx, decide_False; [done| |done..].
  intros [?|Hin]; [done|]. apply (Hd x); [done|by left].
Qed.

Lemma uniqueTrimmed_idem l : uniqueTrimmed (uniqueTrimmed l) = uniqueTrimmed l.
Proof.
  apply uniqueTrimmed_fix; [apply NoDup_uniqueTrimmed|].
  apply Forall_forall. intros v (? & x & _ & ->)%elem_of_uniqueTrimmed.
  by rewrite TrimSpace_idem.
Qed.

(** Lists of scopes, branches and paths are merged without loss or
    duplication: the result holds exactly the trimmed non-blank strings of both
    layers, each once, in the order of first appearance; merging the result with
    the same additions again changes nothing. *)
Theorem unique_strings_exact base additions :
  let out := appendUniqueStrings base additions in
  out = uniqueTrimmed (base ++ additions)
  ∧ NoDup out
  ∧ (∀ v, v ∈ out ↔ v ≠ "" ∧ ∃ x, x ∈ base ++ additions ∧ v = TrimSpace x)
  ∧ appendUniqueStrings out additions = out.
Proof.
  cbv zeta. rewrite !appendUniqueStrings_eq.
  split_and!; [done|apply NoDup_uniqueTrimmed|apply elem_of_uniqueTrimmed|].
  rewrite uniqueTrimmed_absorb, uniqueTrimmed_idem; [done|].
  apply Forall_forall. intros x Hx. destruct (decide (TrimSpace x = "")); [by left|right].
  rewrite uniqueTrimmed_idem. apply elem_of_uniqueTrimmed. split; [done|].
  exists x. split; [|done]. apply elem_of_app. by right.
Qed.

(** ** Repositories *)

(** The normal form of a repository: fields trimmed, branches unique, a URL for a
    named repository, and the destination branch checked out by default and always
    allowed. *)
Record normalRepository (r : AgentRunRepositorySpec) : Prop := {
  nr_Name : TrimSpace (repo_Name r) = repo_Name r;
  nr_URL : TrimSpace (repo_URL r) = repo_URL r;
  nr_Ref : TrimSpace (repo_Ref r) = repo_Ref r;
  nr_Branch : TrimSpace (repo_DestinationBranch r) = repo_DestinationBranch r;
  nr_Allowed : uniqueTrimmed (repo_AllowedBranches r) = repo_AllowedBranches r;
  nr_HasURL : repo_Name r ≠ "" → repo_URL r ≠ "";
  nr_HasRef : repo_DestinationBranch r ≠ "" → repo_Ref r ≠ "";
  nr_Destination : repo_DestinationBranch r ≠ "" →
    repo_DestinationBranch r ∈ repo_AllowedBranches r;
  nr_Some : repo_Name r ≠ "" ∨ repo_URL r ≠ "" ∨ repo_Ref r ≠ ""
    ∨ repo_DestinationBranch r ≠ "" ∨ repo_AllowedBranches r ≠ [] }.

Lemma githubURL_trimmed name :
  TrimSpace ("https://github.com/" +:+ name +:+ ".git") = "https://github.com/" +:+ name +:+ ".git".
Proof.
  assert (E : "https://github.com/" +:+ name +:+ ".git"
    = unbytes ("h"%char :: (bytes "ttps://github.com/" ++ bytes name ++ bytes ".gi") ++ ["t"%char])).
  { rewrite <- (unbytes_bytes ("https://github.com/" +:+ name +:+ ".git")). f_equal.
    rewrite !bytes_app, <- !app_assoc. done. }
  rewrite E. by apply TrimSpace_ends.
Qed.

Definition repositoryURL (url name : string) : string :=
  if String.eqb url "" && negb (String.eqb name "")
  then "https://github.com/" +:+ name +:+ ".git" else url.

Lemma normalize_eq n u r d a :
  let out := mkAgentRunRepositorySpec (TrimSpace n) (repositoryURL (TrimSpace u) (TrimSpace n))
    (if String.eqb (TrimSpace r) "" then TrimSpace d else TrimSpace r) (TrimSpace d)
    (uniqueTrimmed (a ++ [d])) in
  normalizeAgentRunRepository (Some (mkAgentRunRepositorySpec n u r d a))
  = if String.eqb (repo_Name out) "" && String.eqb (repo_URL out) "" && String.eqb (repo_Ref out) ""
       && String.eqb (repo_DestinationBranch out) ""
       && (length (repo_AllowedBranches out) =? 0)%nat
    then None else Some out.
Proof.
  assert (Ea : uniqueTrimmed (a ++ [d]) = if negb (String.eqb (TrimSpace d) "")
    then appendUniqueStrings (uniqueTrimmed a) [TrimSpace d] else uniqueTrimmed a).
  { rewrite appendUniqueStrings_eq, !uniqueTrimmed_snoc, uniqueTrimmed_idem, TrimSpace_idem.
    destruct (String.eqb_spec (TrimSpace d) "") as [->|]; [|done]. by rewrite decide_True by auto. }
  cbv zeta. rewrite Ea. unfold normalizeAgentRunRepository, repositoryURL.
  cbn -[String.eqb TrimSpace uniqueTrimmed appendUniqueStrings String.append].
  rewrite (appendUniqueStrings_eq [] a). cbn [app].
  generalize dependent (uniqueTrimmed (a ++ [d])).
  generalize (TrimSpace n), (TrimSpace u), (TrimSpace r), (TrimSpace d), (uniqueTrimmed a).
  clear. intros n u r d a _ _.
  destruct (String.eqb u "") eqn:Eu, (String.eqb n "") eqn:En, (String.eqb r "") eqn:Er,
    (String.eqb d "") eqn:Ed; cbn -[String.eqb]; rewrite ?Eu, ?En, ?Er, ?Ed; cbn -[String.eqb];
    rewrite ?Eu, ?En, ?Er, ?Ed; cbn -[String.eqb]; rewrite ?Eu, ?En, ?Er, ?Ed;
    try (apply String.eqb_eq in Er, Ed; subst); try done.
Qed.

Lemma repositoryURL_trimmed url name :
  TrimSpace url = url → TrimSpace (repositoryURL url name) = repositoryURL url name.
Proof. unfold repositoryURL. case_match; [intros _; apply githubURL_trimmed|done]. Qed.

Lemma repositoryURL_set url name : name ≠ "" → repositoryURL url name ≠ "".
Proof.
  unfold repositoryURL. intros Hn%String.eqb_neq. rewrite Hn, andb_true_r.
  destruct (String.eqb_spec url ""); done.
Qed.

Lemma normalize_normal repo out :
  normalizeAgentRunRepository repo = Some out → normalRepository out.
Proof.
  destruct repo as [[n u r d a]|]; [|done]. rewrite normalize_eq. cbv zeta.
  destruct (_ && _) eqn:Hsome; [done|]. intros [= <-].
  split; cbn [repo_Name repo_URL repo_Ref repo_DestinationBranch repo_AllowedBranches] in *.
  - apply TrimSpace_idem.
  - apply repositoryURL_trimmed, TrimSpace_idem.
  - case_match; apply TrimSpace_idem.
  - apply TrimSpace_idem.
  - apply uniqueTrimmed_idem.
  - apply repositoryURL_set.
  - intros Hd. destruct (String.eqb_spec (TrimSpace r) ""); done.
  - intros Hd. apply elem_of_uniqueTrimmed. split; [done|]. exists d. set_solver.
  - destruct (String.eqb_spec (TrimSpace n) ""), (String.eqb_spec (repositoryURL (TrimSpace u) (TrimSpace n)) ""),
      (String.eqb_spec (if String.eqb (TrimSpace r) "" then TrimSpace d else TrimSpace r) ""),
      (String.eqb_spec (TrimSpace d) ""), (uniqueTrimmed (a ++ [d])); naive_solver.
Qed.

Lemma normal_normalize r : normalRepository r → normalizeAgentRunRepository (Some r) = Some r.
Proof.
  intros [Hn Hu Hr Hd Ha HU HR HD HS]. destruct r as [n u r d a].
  cbn [repo_Name repo_URL repo_Ref repo_DestinationBranch repo_AllowedBranches] in *.
  rewrite normalize_eq, Hn, Hu, Hr, Hd. cbv zeta.
  assert (Eu : repositoryURL u n = u).
  { unfold repositoryURL. destruct (String.eqb_spec u ""), (String.eqb_spec n ""); try done. naive_solver. }
  assert (Er : (if String.eqb r "" then d else r) = r).
  { destruct (String.eqb_spec r "") as [->|]; [|done]. destruct (decide (d = "")); [done|naive_solver]. }
  assert (Ea : uniqueTrimmed (a ++ [d]) = a).
  { rewrite uniqueTrimmed_snoc, Ha, Hd, decide_True; [done|].
    destruct (decide (d = "")); [by left|right; auto]. }
  rewrite Eu, Er, Ea. cbn [repo_Name repo_URL repo_Ref repo_DestinationBranch repo_AllowedBranches].
  destruct (String.eqb_spec n ""), (String.eqb_spec u ""), (String.eqb_spec r ""),
    (String.eqb_spec d ""), a; try done. naive_solver.
Qed.

(** C36: whatever the profile and the run say, the repository of the effective
    run is in normal form: trimmed fields, unique branches, a URL when it has a
    name, and a destination branch that is the checkout default and always among
    the allowed branches; normalising it again (as the status does) changes
    nothing. *)
Theorem repository_normal_form profile run out :
  agentRunMergeRepository profile run = Some out →
  normalRepository out ∧ normalizeAgentRunRepository (Some out) = Some out.
Proof.
  unfold agentRunMergeRepository. intros H. assert (Hout : normalRepository out).
  { destruct profile, run; first [discriminate H | exact (normalize_normal _ _ H)]. }
  split; [exact Hout|exact (normal_normalize _ Hout)].
Qed.

Example repository_normal_form_witness :
  let repo := mkAgentRunRepositorySpec " hazyforge/anvil " "" "" "main" [" dev "; "dev"] in
  let out := mkAgentRunRepositorySpec "hazyforge/anvil" "https://github.com/hazyforge/anvil.git"
               "main" "main" ["dev"; "main"] in
  agentRunMergeRepository (Some repo) None = Some out
  ∧ normalizeAgentRunRepository (Some out) = Some out.
Proof.
  split; [reflexivity|].
  apply (repository_normal_form (Some (mkAgentRunRepositorySpec " hazyforge/anvil " "" "" "main" [" dev "; "dev"])) None).
  reflexivity.
Defined.

(** ** Layers

    A merge that behaves like layering: grouping does not matter, and an absent
    layer changes nothing. *)
Class Layered {A : Type} (zero : A) (over : A → A → A) : Prop := {
  layer_assoc a b c : over (over a b) c = over a (over b c);
  layer_zero a : over a zero = a }.

#[export] Instance orText_layered : Layered "" orText.
Proof.
  split; [|done]. intros a b c. unfold orText. by destruct (blank c) eqn:E; rewrite ?E.
Qed.
#[export] Instance orValue_layered : Layered "" orValue.
Proof.
  split; [|done]. intros a b c. unfold orValue. by destruct (String.eqb c "") eqn:E; rewrite ?E.
Qed.
#[export] Instance orPtr_layered {A} : Layered None (@orPtr A).
Proof. split; [|done]. by intros a b [c|]. Qed.
#[export] Instance orList_layered {A} : Layered [] (@orList A).
Proof. split; [|done]. by intros a b [|c l]. Qed.
#[export] Instance app_layered {A} : Layered [] (@app A).
Proof. split; [|apply app_nil_r]. intros a b c. by rewrite app_assoc. Qed.
#[export] Instance orb_layered : Layered false orb.
Proof. split; [|apply orb_false_r]. intros a b c. by rewrite orb_assoc. Qed.

#[export] Instance mergeBlock_layered {A} (zero : A) over :
  Layered zero over → Layered None (mergeBlock zero over).
Proof.
  intros [Hassoc Hzero]. split.
  - intros [a|] [b|] [c|]; simpl; rewrite <- ?Hassoc, ?Hzero; done.
  - by intros [a|].
Qed.

(** Layering of records is layering of their fields. *)
Ltac solve_layered :=
  split; [intros [] [] []|intros []]; cbn; f_equal;
  first [apply layer_assoc | apply layer_zero].

#[export] Instance codex_layered : Layered None agentRunMergeCodexBackend.
Proof. apply mergeBlock_layered. solve_layered. Qed.
#[export] Instance openCode_layered : Layered None agentRunMergeOpenCodeBackend.
Proof. apply mergeBlock_layered. solve_layered. Qed.
#[export] Instance hermes_layered : Layered None agentRunMergeHermesBackend.
Proof. apply mergeBlock_layered. solve_layered. Qed.
#[export] Instance openClaw_layered : Layered None agentRunMergeOpenClawBackend.
Proof. apply mergeBlock_layered. solve_layered. Qed.
#[export] Instance grokBuild_layered : Layered None agentRunMergeGrokBuildBackend.
Proof. apply mergeBlock_layered. solve_layered. Qed.
#[export] Instance pi_layered : Layered None agentRunMergePiBackend.
Proof. apply mergeBlock_layered. solve_layered. Qed.
#[export] Instance prime_layered : Layered None agentRunMergePrimeBackend.
Proof. apply mergeBlock_layered. solve_layered. Qed.
#[export] Instance agy_layered : Layered None agentRunMergeAgyBackend.
Proof. apply mergeBlock_layered. solve_layered. Qed.
#[export] Instance custom_layered : Layered None agentRunMergeCustomBackend.
Proof. apply mergeBlock_layered. solve_layered. Qed.
#[export] Instance backend_layered : Layered zero_AgentRunHarnessBackendSpec agentRunMergeBackend.
Proof. unfold agentRunMergeBackend. solve_layered. Qed.

(** Backend configuration is layered: how the harness profile, the profile
    and the run are grouped makes no difference, a layer that sets nothing changes
    nothing, and so the harness a run gets through a harness profile is the one
    its profile and the run would give on top of it. *)
Theorem backend_layers profile obj harnessProfile :
  rs_HarnessProfileRef (run_Spec obj) = None →
  har_Backend (agentRunHarnessWithProfile (Some profile) obj harnessProfile)
  = agentRunMergeBackend (hps_Backend (hp_Spec harnessProfile))
      (har_Backend (rs_Harness (run_Spec (agentRunApplyProfile obj profile))))
  ∧ har_Backend (agentRunHarnessWithProfile None obj harnessProfile)
    = agentRunMergeBackend (hps_Backend (hp_Spec harnessProfile)) (har_Backend (rs_Harness (run_Spec obj))).
Proof.
  intros Href. unfold agentRunHarnessWithProfile. rewrite Href. split.
  - apply layer_assoc.
  - apply (f_equal (λ b, agentRunMergeBackend b _)), layer_zero.
Qed.

Example backend_layers_witness :
  let run := fx_run "agents" "r" fx_epoch ∅ (fx_spec "shop") "" in
  let codex := zero_AgentRunHarnessBackendSpec <| be_Kind := "codex" |> in
  let hp := mkAgentHarnessProfile zero_ObjectMeta (mkAgentHarnessProfileSpec "" codex zero_AgentRunHarnessExecutionSpec) in
  rs_HarnessProfileRef (run_Spec run) = None
  ∧ har_Backend (agentRunHarnessWithProfile (Some zero_AgentRunProfile) run hp) = codex.
Proof.
  split; [reflexivity|]. etransitivity.
  - refine (proj1 (backend_layers zero_AgentRunProfile _ _ _)). reflexivity.
  - reflexivity.
Defined.
