(* ===== verification/Capabilities.v ===== *)
(** * Capabilities of a run

    [agentRunCapabilities] of [src/internal/controller/agent_run_composition.go]
    with its methods, and [create_agent.go]: the skills, tools and subagents that
    skill sets, tool sets, overrides, inline entries and councils contribute to a
    run, with the maps from names to positions the methods keep.

    The methods mutate the receiver and stop at the first refusal, so they are
    computations over the receiver.  The theorems show that the maps stay exact
    under every method, so that no indexing of them can be out of range and no
    two entries of a run share a name. *)

From stdpp Require Import base list gmap strings.
From Stdlib Require Import ZArith Lia.
From S2P Require Import Prelude GoStrings GoTime Names ApiRun Kube Merge.

Open Scope go_scope.

(** ** Councils *)

Record AgentCouncilMemberSpec := mkAgentCouncilMemberSpec {
  mem_Role : string;
  mem_ProfileRef : NamespacedObjectReference;
  mem_Description : string }.
Record AgentCouncilSpec := mkAgentCouncilSpec {
  cos_Description : string;
  cos_Members : list AgentCouncilMemberSpec;
  cos_CouncilPrompt : string }.
Record AgentCouncil := mkAgentCouncil {
  council_ObjectMeta : ObjectMeta;
  council_Spec : AgentCouncilSpec }.
Definition council_Name (c : AgentCouncil) : string := meta_Name (council_ObjectMeta c).
Definition council_Namespace (c : AgentCouncil) : string := meta_Namespace (council_ObjectMeta c).

(** [reflect.DeepEqual] on tools and subagents. *)
#[export] Instance AgentRunToolImageInitializerSpec_eq : EqDecision AgentRunToolImageInitializerSpec.
Proof. solve_decision. Defined.
#[export] Instance AgentRunToolSpec_eq : EqDecision AgentRunToolSpec.
Proof. solve_decision. Defined.
#[export] Instance AgentRunSubagentSpec_eq : EqDecision AgentRunSubagentSpec.
Proof. solve_decision. Defined.

(** ** State and effects *)

Record agentRunCapabilities := mkCapabilities {
  c_skills : list AgentRunSkillInjectionSpec;
  c_tools : list AgentRunToolSpec;
  c_subagents : list AgentRunSubagentSpec;
  c_skillIndexes : gmap string nat;
  c_toolIndexes : gmap string nat;
  c_subagentIndexes : gmap string nat }.
#[export] Instance eta_agentRunCapabilities : Eta agentRunCapabilities := λ r, mkCapabilities
  (c_skills r) (c_tools r) (c_subagents r) (c_skillIndexes r) (c_toolIndexes r) (c_subagentIndexes r).

Definition newAgentRunCapabilities : agentRunCapabilities := mkCapabilities [] [] [] ∅ ∅ ∅.

(** Why a resolution stops: an error to retry on, a phase with a reason and a
    message to report, or an index out of range. *)
Inductive Halt :=
  | HaltErr (e : GoErr)
  | HaltPhase (phase reason message : string)
  | HaltPanic.

Definition CapM (A : Type) : Type := M agentRunCapabilities Halt A.

(** [return "reason", "message"]: every caller reports it as [Failed]. *)
Definition refuse {A} (reason message : string) : CapM A :=
  mfail (HaltPhase AgentRunPhaseFailed reason message).

Definition getCaps : CapM agentRunCapabilities := mread (λ c, inr c).
Definition putCaps (c : agentRunCapabilities) : CapM unit := λ _, (c, inr tt).
(** [items[index]] *)
Definition itemAt {A} (items : list A) (index : nat) : CapM A :=
  match items !! index with Some x => mret x | None => mfail HaltPanic end.

(** ** Upserts *)

Definition skillKey (s : AgentRunSkillInjectionSpec) : string := TrimSpace (skill_Name s).
Definition toolKey (t : AgentRunToolSpec) : string := TrimSpace (tool_Name t).
Definition subagentKey (s : AgentRunSubagentSpec) : string := TrimSpace (sub_Name s).

(** [if index, exists := indexes[name]; exists { items[index] = item; return }
     indexes[name] = len(items); items = append(items, item)] *)
Definition upsert {A} (key : A → string) (items : list A) (indexes : gmap string nat) (item : A) :
    list A * gmap string nat :=
  match indexes !! key item with
  | Some index => (<[index := item]> items, indexes)
  | None => (items ++ [item], <[key item := length items]> indexes)
  end.

Definition upsertSkill (skill : AgentRunSkillInjectionSpec) : CapM unit :=
  let* c := getCaps in
  let '(skills, indexes) := upsert skillKey (c_skills c) (c_skillIndexes c) skill in
  putCaps (c <| c_skills := skills |> <| c_skillIndexes := indexes |>).

Definition upsertTool (tool : AgentRunToolSpec) : CapM unit :=
  let* c := getCaps in
  let '(tools, indexes) := upsert toolKey (c_tools c) (c_toolIndexes c) tool in
  putCaps (c <| c_tools := tools |> <| c_toolIndexes := indexes |>).

Definition upsertSubagent (subagent : AgentRunSubagentSpec) : CapM unit :=
  let* c := getCaps in
  let '(subagents, indexes) := upsert subagentKey (c_subagents c) (c_subagentIndexes c) subagent in
  putCaps (c <| c_subagents := subagents |> <| c_subagentIndexes := indexes |>).

(** The map the loop of [removeSkill] builds anew. *)
Definition reindex {A} (key : A → string) (items : list A) : gmap string nat :=
  indexBase (λ _, true) key items.

Definition removeSkill (index : nat) : CapM unit :=
  let* c := getCaps in
  let* _ := itemAt (c_skills c) index in
  let skills := take index (c_skills c) ++ drop (S index) (c_skills c) in
  putCaps (c <| c_skills := skills |> <| c_skillIndexes := reindex skillKey skills |>).

(** [c.skills[index] = skill] *)
Definition setSkill (index : nat) (skill : AgentRunSkillInjectionSpec) : CapM unit :=
  let* c := getCaps in
  let* _ := itemAt (c_skills c) index in
  putCaps (c <| c_skills := <[index := skill]> (c_skills c) |>).

(** ** Skill sets and tool sets *)

(** The guards each loop of [applySkillSet] and [applyToolSet] starts with: a
    name that is not blank and not seen before in the same set. *)
Definition freshName (what emptyReason duplicateReason owner name : string) (seen : gset string) :
    CapM (gset string) :=
  if String.eqb name "" then
    refuse emptyReason (owner +:+ " contains an empty " +:+ what +:+ " name.")
  else if bool_decide (name ∈ seen) then
    refuse duplicateReason (owner +:+ " contains duplicate " +:+ what +:+ " " +:+ quote name +:+ ".")
  else mret ({[name]} ∪ seen).

(** The conflict guard: an entry of the same name must be the same entry. *)
Definition sameEntry {A} `{EqDecision A} (items : list A) (indexes : gmap string nat) (name : string)
    (item : A) (reason message : string) : CapM unit :=
  match indexes !! name with
  | Some index =>
      let* existing := itemAt items index in
      if bool_decide (existing = item) then mret tt else refuse reason message
  | None => mret tt
  end.

Definition applyTool (owner conflict : string) (seen : gset string) (tool : AgentRunToolSpec) :
    CapM (gset string) :=
  let name := toolKey tool in
  let* seen := freshName "tool" "InvalidToolName" "DuplicateToolName" owner name seen in
  let* c := getCaps in
  let* _ := sameEntry (c_tools c) (c_toolIndexes c) name tool "ConflictingToolName"
              (conflict +:+ " define conflicting tool " +:+ quote name +:+ " contracts.") in
  upsertTool tool ;; mret seen.

Definition applySkill (owner : string) (seen : gset string) (skill : AgentRunSkillInjectionSpec) :
    CapM (gset string) :=
  let* seen := freshName "skill" "InvalidSkillName" "DuplicateSkillName" owner (skillKey skill) seen in
  upsertSkill skill ;; mret seen.

Definition applySubagent (owner : string) (seen : gset string) (subagent : AgentRunSubagentSpec) :
    CapM (gset string) :=
  let name := subagentKey subagent in
  let* seen := freshName "subagent" "InvalidSubagentName" "DuplicateSubagentName" owner name seen in
  let* c := getCaps in
  let* _ := sameEntry (c_subagents c) (c_subagentIndexes c) name subagent "ConflictingSubagentName"
              ("Selected AgentSkillSets define conflicting subagent " +:+ quote name +:+ " personas.") in
  upsertSubagent subagent ;; mret seen.

Definition skillSetKey (s : AgentSkillSet) : string :=
  meta_Namespace (ss_ObjectMeta s) +:+ "/" +:+ meta_Name (ss_ObjectMeta s).
Definition toolSetKey (s : AgentToolSet) : string :=
  meta_Namespace (ts_ObjectMeta s) +:+ "/" +:+ meta_Name (ts_ObjectMeta s).

Definition applySkillSet (skillSet : AgentSkillSet) : CapM unit :=
  let owner := "AgentSkillSet " +:+ skillSetKey skillSet in
  let* _ := mforeach (applySkill owner) (sss_Skills (ss_Spec skillSet)) ∅ in
  let* _ := mforeach (applyTool owner "Selected AgentSkillSets") (sss_Tools (ss_Spec skillSet)) ∅ in
  let* _ := mforeach (applySubagent owner) (sss_Subagents (ss_Spec skillSet)) ∅ in
  mret tt.

Definition applyToolSet (toolSet : AgentToolSet) : CapM unit :=
  let owner := "AgentToolSet " +:+ toolSetKey toolSet in
  let* _ := mforeach (applyTool owner "Selected AgentSkillSets and AgentToolSets")
              (tss_Tools (ts_Spec toolSet)) ∅ in
  mret tt.

(** ** Overrides *)

Definition skillFromOverride (override : AgentSkillOverrideSpec) : AgentRunSkillInjectionSpec :=
  mkAgentRunSkillInjectionSpec (TrimSpace (ov_Name override)) (ov_Description override)
    (ov_Content override) (ov_SourceRefs override) (ov_Paths override).

Definition augmentSkill (skill : AgentRunSkillInjectionSpec) (override : AgentSkillOverrideSpec) :
    AgentRunSkillInjectionSpec :=
  skill
    <| skill_Description := orText (skill_Description skill) (ov_Description override) |>
    <| skill_Content := if blank (ov_Content override) then skill_Content skill
         else mergePromptText (skill_Content skill)
                ("Local override:" +:+ nl +:+ TrimSpace (ov_Content override)) |>
    <| skill_SourceRefs := skill_SourceRefs skill ++ ov_SourceRefs override |>
    <| skill_Paths := appendUniqueStrings (skill_Paths skill) (ov_Paths override) |>.

(** One override, the name checked: the [switch] of the loop. *)
Definition overrideSkill (override : AgentSkillOverrideSpec) (name : string) : CapM unit :=
  let* c := getCaps in
  let operation := ov_Operation override in
  let index := c_skillIndexes c !! name in
  if String.eqb operation AgentSkillOverrideAdd then
    match index with
    | Some _ => refuse "InvalidSkillOverride"
        ("Add override for skill " +:+ quote name +:+ " requires the skill not to exist.")
    | None => upsertSkill (skillFromOverride override)
    end
  else if String.eqb operation AgentSkillOverrideAugment then
    match index with
    | None => refuse "UnknownSkillOverride"
        ("Augment override targets unknown skill " +:+ quote name +:+ ".")
    | Some index =>
        let* skill := itemAt (c_skills c) index in
        setSkill index (augmentSkill skill override)
    end
  else if String.eqb operation AgentSkillOverrideReplace then
    match index with
    | None => refuse "UnknownSkillOverride"
        ("Replace override targets unknown skill " +:+ quote name +:+ ".")
    | Some index => setSkill index (skillFromOverride override)
    end
  else if String.eqb operation AgentSkillOverrideDisable then
    match index with
    | None => refuse "UnknownSkillOverride"
        ("Disable override targets unknown skill " +:+ quote name +:+ ".")
    | Some index =>
        if negb (blank (ov_Description override)) || negb (blank (ov_Content override))
           || (0 <? length (ov_SourceRefs override))%nat || (0 <? length (ov_Paths override))%nat
        then refuse "InvalidSkillOverride"
          ("Disable override for skill " +:+ quote name +:+ " cannot include content fields.")
        else removeSkill index
    end
  else refuse "InvalidSkillOverride"
    ("Skill override " +:+ quote name +:+ " has unsupported operation " +:+ quote operation +:+ ".").

Definition applyOverride (seen : gset string) (override : AgentSkillOverrideSpec) : CapM (gset string) :=
  let name := TrimSpace (ov_Name override) in
  if String.eqb name "" then refuse "InvalidSkillOverride" "skillSets.overrides[].name must be set."
  else if bool_decide (name ∈ seen) then refuse "DuplicateSkillOverride"
    ("Skill override " +:+ quote name +:+ " appears more than once in the same composition layer.")
  else overrideSkill override name ;; mret ({[name]} ∪ seen).

Definition applyOverrides (overrides : list AgentSkillOverrideSpec) : CapM unit :=
  let* _ := mforeach applyOverride overrides ∅ in mret tt.

(** ** Reserved skills *)

Definition councilSkill (council : AgentCouncil) (prompt : string) : AgentRunSkillInjectionSpec :=
  mkAgentRunSkillInjectionSpec ("council-" +:+ council_Name council)
    ("Multi-agent interaction guidance for AgentCouncil " +:+ council_Name council +:+ ".")
    prompt [] [].

Definition applyCouncilPrompt (council : option AgentCouncil) : CapM unit :=
  match council with
  | None => mret tt
  | Some council =>
      let prompt := TrimSpace (cos_CouncilPrompt (council_Spec council)) in
      if String.eqb prompt "" then mret tt else
      let name := "council-" +:+ council_Name council in
      let* c := getCaps in
      match c_skillIndexes c !! name with
      | Some _ => refuse "CouncilSkillNameConflict"
          ("Skill name " +:+ quote name +:+ " is reserved for AgentCouncil "
           +:+ council_Namespace council +:+ "/" +:+ council_Name council +:+ " guidance.")
      | None => upsertSkill (councilSkill council prompt)
      end
  end.

(** ** The create-agent skill *)

Definition dq : string := String dquote "".

Definition createAgentSkillName : string :=
  "create-agent".

Definition createAgentRoleLabel : string :=
  "control.anvil.hazyforge.io/role".

Definition createAgentAllowLabel : string :=
  "control.anvil.hazyforge.io/create-agent".

Definition createAgentWrapperName : string :=
  "anvil-desktop-wrapper".

Definition createAgentSkillWhen : string :=
  "Create a named teammate (AgentRunProfile + standing-chat thread when chat is " +:+
  "enabled). Wrapper and manager only; peers request via requestPeer.".

Definition createAgentSkillContent : string :=
  "You have the baked-in create-agent tool. Only the Desktop Wrapper or a project " +:+
  "manager may create AgentRunProfiles." +:+ nl +:+ nl +:+
  "When the operator wants a new teammate, call create-agent with a DNS-1123 name, " +:+
  "a description or title, and optional systemPrompt or harnessProfileName. " +:+
  "Desktop fulfills the POST (composition write). You do not receive OIDC tokens." +:+ nl +:+
  nl +:+ "After success, tell peers the new profile name so they can address it." +:+ nl +:+ nl +:+
  "If you are not Wrapper/manager, do not call create-agent. Emit requestPeer " +:+
  "STATUS_JSON instead:" +:+ nl +:+ nl +:+ "ANVIL_AGENT_RUN_STATUS_JSON={" +:+ dq +:+ "type" +:+
  dq +:+ ":" +:+ dq +:+ "decision" +:+ dq +:+ "," +:+ dq +:+ "action" +:+ dq +:+ ":" +:+ dq +:+
  "requestPeer" +:+ dq +:+ "," +:+ dq +:+ "request" +:+ dq +:+ ":" +:+ dq +:+ "create-agent" +:+
  dq +:+ "," +:+ dq +:+ "name" +:+ dq +:+ ":" +:+ dq +:+ "<dns-label>" +:+ dq +:+ "," +:+ dq +:+
  "description" +:+ dq +:+ ":" +:+ dq +:+ "<why>" +:+ dq +:+ "," +:+ dq +:+ "peerProfileName" +:+
  dq +:+ ":" +:+ dq +:+ "desktop-manager" +:+ dq +:+ "}" +:+ nl +:+ nl +:+
  "Peers who call create-agent themselves are refused.".

Definition createAgentManagerNames : list string :=
  ["desktop-manager"; "manager-hazy-trade"; "anvil-primaris-agent-manager";
   "hazy-trade-agent-manager"; createAgentWrapperName; "wrapper"].

Definition profileMayCreateAgent (profile : option AgentRunProfile) : bool :=
  match profile with
  | None => false
  | Some profile =>
      let name := ToLower (TrimSpace (meta_Name (prof_ObjectMeta profile))) in
      let labels := meta_Labels (prof_ObjectMeta profile) in
      let role := ToLower (TrimSpace (mapGet labels createAgentRoleLabel)) in
      bool_decide (name ∈ createAgentManagerNames)
      || HasSuffix name "-agent-manager"
      || (String.eqb role "wrapper" || String.eqb role "manager")
      || String.eqb (ToLower (TrimSpace (mapGet labels createAgentAllowLabel))) "allow"
  end.

Definition createAgentSkill : AgentRunSkillInjectionSpec :=
  mkAgentRunSkillInjectionSpec createAgentSkillName createAgentSkillWhen createAgentSkillContent [] [].

Definition applyCreateAgentSkill (profile : option AgentRunProfile) : CapM unit :=
  if profileMayCreateAgent profile then upsertSkill createAgentSkill else
  let* c := getCaps in
  match c_skillIndexes c !! createAgentSkillName with
  | Some index => removeSkill index
  | None => mret tt
  end.

(** ** The maps are exact *)

Section indexes.
Context {A : Type} (key : A → string).

(** The map sends exactly the names of the entries to their positions. *)
Definition indexesOf (items : list A) (m : gmap string nat) : Prop :=
  ∀ k i, m !! k = Some i ↔ ∃ x, items !! i = Some x ∧ key x = k.

(** What a list of entries with distinct names stands for. *)
Definition entries (items : list A) : gmap string A :=
  list_to_map (map (λ x, (key x, x)) items).

Lemma indexesOf_nil : indexesOf [] ∅.
Proof. intros k i. rewrite lookup_empty, lookup_nil. split; [done|]. by intros (? & ? & _). Qed.

Lemma indexesOf_inj items m i j x y :
  indexesOf items m → items !! i = Some x → items !! j = Some y → key x = key y → i = j.
Proof.
  intros H Hx Hy E. assert (m !! key x = Some i) by (apply H; eauto).
  assert (m !! key x = Some j) by (apply H; eauto). congruence.
Qed.

Lemma indexesOf_NoDup items m : indexesOf items m → NoDup (map key items).
Proof.
  intros H. apply NoDup_alt. intros i j k.
  rewrite !list_lookup_fmap, !fmap_Some. intros (x & Hx & ->) (y & Hy & E).
  by eapply indexesOf_inj.
Qed.

Lemma indexesOf_None items m k : indexesOf items m → m !! k = None → k ∉ map key items.
Proof.
  intros H Hk (x & -> & [i Hi]%list_elem_of_lookup_1)%list_elem_of_fmap.
  assert (m !! key x = Some i) by (apply H; eauto). congruence.
Qed.

Lemma entries_lookup items m k x :
  indexesOf items m → entries items !! k = Some x ↔ ∃ i, m !! k = Some i ∧ items !! i = Some x.
Proof.
  intros H. unfold entries. rewrite <- elem_of_list_to_map.
  - rewrite list_elem_of_fmap. split.
    + intros (y & [= -> ->] & [i Hi]%list_elem_of_lookup_1). exists i. split; [apply H|]; eauto.
    + intros (i & Hi & Hx). apply H in Hi as (y & Hy & <-). assert (y = x) as -> by congruence.
      exists x. split; [done|]. by eapply list_elem_of_lookup_2.
  - rewrite <- list_fmap_compose. by eapply indexesOf_NoDup.
Qed.

Lemma upsert_indexes items m x :
  indexesOf items m →
  indexesOf (fst (upsert key items m x)) (snd (upsert key items m x)).
Proof.
  intros H k i. unfold upsert. destruct (m !! key x) as [j|] eqn:Hj; cbn [fst snd].
  - apply H in Hj as Hj'. destruct Hj' as (y & Hy & Hky). pose proof (lookup_lt_Some _ _ _ Hy) as Hlt.
    rewrite (H k i). destruct (decide (i = j)) as [->|Hne].
    + rewrite list_lookup_insert_eq by done. split; intros (z & Hz & <-).
      * exists x. split; [done|]. congruence.
      * injection Hz as <-. eauto.
    + by rewrite list_lookup_insert_ne.
  - pose proof (indexesOf_None _ _ _ H Hj) as Hnew.
    rewrite lookup_insert_Some, (H k i). split.
    + intros [[<- <-]|(Hne & y & Hy & <-)]; [exists x|exists y]; split; auto.
      * by apply list_lookup_middle.
      * by apply lookup_app_l_Some.
    + intros (y & [Hy|[-> ->]]%lookup_snoc_inv & <-); [right|by left].
      split; [|eauto]. intros E. apply Hnew. rewrite E. by eapply list_elem_of_fmap_2, list_elem_of_lookup_2.
Qed.

Lemma upsert_entries items m x : indexesOf items m →
  entries (fst (upsert key items m x)) = <[key x := x]> (entries items).
Proof.
  intros H. pose proof (upsert_indexes items m x H) as H'.
  apply map_eq. intros k. apply option_eq. intros y.
  rewrite (entries_lookup _ _ _ _ H'), lookup_insert_Some, (entries_lookup _ _ _ _ H).
  unfold upsert. destruct (m !! key x) as [j|] eqn:Hj; cbn [fst snd].
  - apply H in Hj as Hj'. destruct Hj' as (z & Hz & Hkz). pose proof (lookup_lt_Some _ _ _ Hz) as Hlt.
    split.
    + intros (i & Hi & Hy). destruct (decide (i = j)) as [->|Hne].
      * rewrite list_lookup_insert_eq in Hy by done. injection Hy as <-. left. split; [|done].
        apply H in Hi as (? & ? & <-). congruence.
      * rewrite list_lookup_insert_ne in Hy by done. right. split; [|eauto]. congruence.
    + intros [[<- <-]|(Hne & i & Hi & Hy)].
      * exists j. by rewrite list_lookup_insert_eq.
      * exists i. split; [done|]. rewrite list_lookup_insert_ne; [done|]. intros <-. apply H in Hi as (? & ? & <-). congruence.
  - split.
    + intros (i & Hi & [Hy|[-> ->]]%lookup_snoc_inv).
      * right. rewrite lookup_insert_Some in Hi. destruct Hi as [[<- <-]|[Hne Hi]]; [|eauto].
        apply lookup_lt_Some in Hy. lia.
      * left. rewrite lookup_insert_Some in Hi. destruct Hi as [[<- _]|[Hne Hi]]; [done|].
        apply H in Hi as (? & Hl%lookup_lt_Some & _). lia.
    + intros [[<- <-]|(Hne & i & Hi & Hy)].
      * exists (length items). rewrite lookup_insert_eq. split; [done|]. by apply list_lookup_middle.
      * exists i. rewrite lookup_insert_ne by done. split; [done|]. by apply lookup_app_l_Some.
Qed.

Lemma reindex_indexes items : NoDup (map key items) → indexesOf items (reindex key items).
Proof.
  intros Hnd k i. unfold reindex.
  assert (Hd : distinctKeys (λ _, true) key items).
  { intros a b x y Hx Hy _ _ E. rewrite NoDup_alt in Hnd. apply (Hnd a b (key x)).
    - rewrite list_lookup_fmap. by rewrite Hx.
    - rewrite list_lookup_fmap. by rewrite Hy, E. }
  pose proof (indexBase_anchored (λ _, true) (λ _, true) key items (λ _, eq_refl) Hd) as Ha.
  pose proof (indexBase_placed (λ _, true) (λ _, true) key items (λ _ _, eq_refl) k) as Hp.
  cbn [fst snd] in Hp. split.
  - intros E. rewrite E in Hp. destruct Hp as (x & ? & ? & _). eauto.
  - intros (x & Hx & <-). by apply (Ha i x).
Qed.

(** Removing the entry at a position. *)
Lemma remove_entries items m i x : indexesOf items m → items !! i = Some x →
  let rest := take i items ++ drop (S i) items in
  indexesOf rest (reindex key rest) ∧ entries rest = delete (key x) (entries items).
Proof.
  intros H Hx rest.
  pose proof (indexesOf_NoDup _ _ H) as Hnd.
  assert (E : items = take i items ++ x :: drop (S i) items) by (by rewrite take_drop_middle).
  assert (Hnd' : NoDup (map key rest) ∧ key x ∉ map key rest).
  { rewrite E in Hnd. rewrite map_app in Hnd. cbn [map] in Hnd.
    assert (Hp : NoDup (key x :: map key rest)).
    { unfold rest. rewrite map_app. by rewrite Permutation_middle. }
    by apply NoDup_cons in Hp as [? ?]. }
  destruct Hnd' as [Hnd' Hx'].
  assert (Hi := reindex_indexes _ Hnd'). split; [done|].
  assert (E' : entries items = entries (take i items) ∪ <[key x := x]> (entries (drop (S i) items))).
  { unfold entries at 1. rewrite E at 1. by rewrite map_app, list_to_map_app. }
  rewrite E'. unfold entries, rest in *. rewrite !map_app, list_to_map_app.
  rewrite map_app in Hx'. rewrite <- insert_union_r.
  - rewrite delete_insert_id; [done|]. apply lookup_union_None. split.
    + apply not_elem_of_list_to_map_1. rewrite <- list_fmap_compose. intros Hin. apply Hx'.
      apply elem_of_app. by left.
    + apply not_elem_of_list_to_map_1. rewrite <- list_fmap_compose. intros Hin. apply Hx'.
      apply elem_of_app. by right.
  - apply not_elem_of_list_to_map_1. rewrite <- list_fmap_compose. intros Hin. apply Hx'.
    apply elem_of_app. by left.
Qed.

(** Replacing the entry at a position by one of the same name. *)
Lemma set_entries items m i x y : indexesOf items m → items !! i = Some x → key y = key x →
  indexesOf (<[i := y]> items) m ∧ entries (<[i := y]> items) = <[key y := y]> (entries items).
Proof.
  intros H Hx E. assert (Hm : m !! key y = Some i) by (apply H; eauto).
  pose proof (upsert_indexes items m y H) as H1. pose proof (upsert_entries items m y H) as H2.
  unfold upsert in H1, H2. by rewrite Hm in H1, H2.
Qed.
End indexes.

(** ** Every method keeps them exact *)

Record wfCaps (c : agentRunCapabilities) : Prop := {
  wf_skills : indexesOf skillKey (c_skills c) (c_skillIndexes c);
  wf_tools : indexesOf toolKey (c_tools c) (c_toolIndexes c);
  wf_subagents : indexesOf subagentKey (c_subagents c) (c_subagentIndexes c) }.

Definition skillsOf (c : agentRunCapabilities) := entries skillKey (c_skills c).
Definition toolsOf (c : agentRunCapabilities) := entries toolKey (c_tools c).
Definition subagentsOf (c : agentRunCapabilities) := entries subagentKey (c_subagents c).

(** A method that changes the skills only. *)
Definition skillsOnly (c c' : agentRunCapabilities) : Prop :=
  c_tools c' = c_tools c ∧ c_subagents c' = c_subagents c
  ∧ c_toolIndexes c' = c_toolIndexes c ∧ c_subagentIndexes c' = c_subagentIndexes c.

Lemma wfCaps_new : wfCaps newAgentRunCapabilities.
Proof. split; apply indexesOf_nil. Qed.

Lemma upsertSkill_spec c s : wfCaps c →
  ∃ c', upsertSkill s c = (c', inr tt) ∧ wfCaps c'
    ∧ skillsOf c' = <[skillKey s := s]> (skillsOf c) ∧ skillsOnly c c'.
Proof.
  intros [H1 H2 H3]. unfold upsertSkill, mbnd, getCaps, mread, putCaps.
  pose proof (upsert_indexes _ _ _ s H1) as Hi. pose proof (upsert_entries _ _ _ s H1) as He.
  destruct (upsert skillKey _ _ s) as [skills m]. eexists. split; [done|].
  split; [by split|]. by split.
Qed.

Lemma removeSkill_spec c k i : wfCaps c → c_skillIndexes c !! k = Some i →
  ∃ c', removeSkill i c = (c', inr tt) ∧ wfCaps c'
    ∧ skillsOf c' = delete k (skillsOf c) ∧ skillsOnly c c'.
Proof.
  intros [H1 H2 H3] Hk. apply H1 in Hk as (x & Hx & <-).
  destruct (remove_entries _ _ _ _ _ H1 Hx) as [Hi He].
  unfold removeSkill, mbnd, getCaps, mread, putCaps, itemAt. rewrite Hx. eexists. split; [done|].
  split; [by split|]. by split.
Qed.

Lemma setSkill_spec c k i x s : wfCaps c → c_skillIndexes c !! k = Some i →
  c_skills c !! i = Some x → skillKey s = skillKey x →
  ∃ c', setSkill i s c = (c', inr tt) ∧ wfCaps c'
    ∧ skillsOf c' = <[skillKey s := s]> (skillsOf c) ∧ skillsOnly c c'.
Proof.
  intros [H1 H2 H3] Hk Hx Hs. destruct (set_entries _ _ _ _ _ _ H1 Hx Hs) as [Hi He].
  unfold setSkill, mbnd, getCaps, mread, putCaps, itemAt. rewrite Hx. eexists. split; [done|].
  split; [by split|]. by split.
Qed.

(** A computation that keeps the maps exact and never indexes out of range. *)
Definition exactly {A} (m : CapM A) (c : agentRunCapabilities) : Prop :=
  wp m (λ r c', wfCaps c' ∧ r ≠ inl HaltPanic) c.

Lemma exactly_ret {A} (a : A) c : wfCaps c → exactly (mret a) c.
Proof. by intros. Qed.
Lemma exactly_refuse {A} reason message c : wfCaps c → exactly (A := A) (refuse reason message) c.
Proof. by intros. Qed.
Lemma exactly_fail {A} h c : wfCaps c → h ≠ HaltPanic → exactly (A := A) (mfail h) c.
Proof. intros Hc Hh. split; [done|]. by intros [= ?]. Qed.
Lemma exactly_bind {A B} (m : CapM A) (k : A → CapM B) c :
  exactly m c → (∀ a c', wfCaps c' → exactly (k a) c') → exactly (mbnd m k) c.
Proof.
  intros Hm Hk. apply wp_bind. 
  apply (wp_mono m (λ r c', wfCaps c' ∧ r ≠ inl HaltPanic)); [exact Hm|]. intros [h|a] c' [Hc Hp]; [|by apply Hk].
  split; [done|]. intros [= ->]. done.
Qed.
Lemma exactly_get {B} (k : agentRunCapabilities → CapM B) c :
  exactly (k c) c → exactly (mbnd getCaps k) c.
Proof. done. Qed.
Lemma exactly_item {A B} (items : list A) i x (k : A → CapM B) c :
  items !! i = Some x → exactly (k x) c → exactly (mbnd (itemAt items i) k) c.
Proof. unfold exactly, wp, mbnd, itemAt. by intros ->. Qed.
Lemma exactly_foreach {A B} (f : B → A → CapM B) l b c :
  wfCaps c → (∀ b a c, wfCaps c → exactly (f b a) c) → exactly (mforeach f l b) c.
Proof.
  intros Hc Hf. revert b c Hc. induction l as [|a l IH]; intros b c Hc; [by apply exactly_ret|].
  apply exactly_bind; [by apply Hf|]. auto.
Qed.
Lemma exactly_run {A} (m : CapM A) c c' a : m c = (c', inr a) → wfCaps c' → exactly m c.
Proof. intros E Hc. unfold exactly, wp. by rewrite E. Qed.

Lemma exactly_upsertSkill s c : wfCaps c → exactly (upsertSkill s) c.
Proof. intros Hc. destruct (upsertSkill_spec c s Hc) as (c' & E & ? & _). by eapply exactly_run. Qed.
Lemma exactly_removeSkill k i c :
  wfCaps c → c_skillIndexes c !! k = Some i → exactly (removeSkill i) c.
Proof.
  intros Hc Hk. destruct (removeSkill_spec c k i Hc Hk) as (c' & E & ? & _). by eapply exactly_run.
Qed.
Lemma exactly_upsertTool t c : wfCaps c → exactly (upsertTool t) c.
Proof.
  intros [H1 H2 H3]. unfold exactly, wp, upsertTool, mbnd, getCaps, mread, putCaps.
  pose proof (upsert_indexes _ _ _ t H2) as Hi. by destruct (upsert toolKey _ _ t).
Qed.
Lemma exactly_upsertSubagent s c : wfCaps c → exactly (upsertSubagent s) c.
Proof.
  intros [H1 H2 H3]. unfold exactly, wp, upsertSubagent, mbnd, getCaps, mread, putCaps.
  pose proof (upsert_indexes _ _ _ s H3) as Hi. by destruct (upsert subagentKey _ _ s).
Qed.
Lemma exactly_fresh what e d owner name seen c : wfCaps c → exactly (freshName what e d owner name seen) c.
Proof. intros Hc. unfold freshName. by repeat case_match. Qed.
Lemma exactly_same {A} `{EqDecision A} key (items : list A) m name x reason message c :
  wfCaps c → indexesOf key items m → exactly (sameEntry items m name x reason message) c.
Proof.
  intros Hc Hi. unfold sameEntry. destruct (m !! name) as [i|] eqn:Hm; [|done].
  apply Hi in Hm as (y & Hy & _). eapply exactly_item; [done|]. by case_match.
Qed.
#[export] Hint Resolve exactly_ret exactly_refuse exactly_upsertSkill exactly_upsertTool
  exactly_upsertSubagent exactly_fresh exactly_same wf_skills wf_tools wf_subagents : anvil.

Ltac exact_steps :=
  repeat match goal with
  | |- exactly (mbnd getCaps _) _ => apply exactly_get
  | |- exactly (mbnd _ _) _ => apply exactly_bind; [|intros ???]
  end; eauto with anvil.

Lemma exactly_applySkill owner seen s c : wfCaps c → exactly (applySkill owner seen s) c.
Proof. intros. unfold applySkill. exact_steps. Qed.
Lemma exactly_applyTool owner conflict seen t c : wfCaps c → exactly (applyTool owner conflict seen t) c.
Proof.
  intros. unfold applyTool. exact_steps.
Qed.
Lemma exactly_applySubagent owner seen s c : wfCaps c → exactly (applySubagent owner seen s) c.
Proof.
  intros. unfold applySubagent. exact_steps.
Qed.
#[export] Hint Resolve exactly_applySkill exactly_applyTool exactly_applySubagent exactly_foreach : anvil.

Lemma exactly_applySkillSet s c : wfCaps c → exactly (applySkillSet s) c.
Proof. intros. unfold applySkillSet. exact_steps. Qed.
Lemma exactly_applyToolSet s c : wfCaps c → exactly (applyToolSet s) c.
Proof. intros. unfold applyToolSet. exact_steps. Qed.

Lemma exactly_overrideSkill o c : wfCaps c → exactly (overrideSkill o (TrimSpace (ov_Name o))) c.
Proof.
  intros Hc. apply exactly_get. cbv zeta. destruct (c_skillIndexes c !! _) as [i|] eqn:Hi.
  - apply (wf_skills _ Hc) in Hi as Hx. destruct Hx as (x & Hx & Hk).
    assert (Hset : ∀ s, skillKey s = skillKey x → exactly (setSkill i s) c).
    { intros s Hs. destruct (setSkill_spec c _ i x s Hc Hi Hx Hs) as (c' & E & ? & _). by eapply exactly_run. }
    repeat case_match; eauto with anvil.
    + eapply exactly_item; [done|]. by apply Hset.
    + apply Hset. rewrite Hk. apply TrimSpace_idem.
    + by eapply exactly_removeSkill.
  - repeat case_match; eauto with anvil.
Qed.

Lemma exactly_applyOverrides l c : wfCaps c → exactly (applyOverrides l) c.
Proof.
  intros Hc. apply exactly_bind; [|eauto with anvil]. apply exactly_foreach; [done|].
  intros seen o c' Hc'. unfold applyOverride. repeat case_match; eauto with anvil.
  apply exactly_bind; [by apply exactly_overrideSkill|eauto with anvil].
Qed.

Lemma exactly_applyCouncilPrompt council c : wfCaps c → exactly (applyCouncilPrompt council) c.
Proof.
  intros Hc. unfold applyCouncilPrompt. destruct council as [council|]; [|done].
  case_match; [done|]. apply exactly_get. case_match; eauto with anvil.
Qed.

(** The guidance of a council is its own: on success the reserved name was free
    and holds the prompt. *)
Lemma applyCouncilPrompt_spec council c c' : wfCaps c →
  applyCouncilPrompt (Some council) c = (c', inr tt) →
  blank (cos_CouncilPrompt (council_Spec council)) = false →
  skillsOf c' = <[skillKey (councilSkill council "") :=
    councilSkill council (TrimSpace (cos_CouncilPrompt (council_Spec council)))]> (skillsOf c).
Proof.
  intros Hc. unfold applyCouncilPrompt. intros E Hb.
  assert (Hp : String.eqb (TrimSpace (cos_CouncilPrompt (council_Spec council))) "" = false).
  { apply String.eqb_neq. by apply bool_decide_eq_false in Hb. }
  rewrite Hp in E. change (mbnd getCaps ?k c) with (k c c) in E. cbv beta in E.
  destruct (c_skillIndexes c !! _); [done|].
  edestruct (upsertSkill_spec c) as (c1 & E1 & _ & Hs & _); [done|]. rewrite E1 in E.
  injection E as <-. exact Hs.
Qed.

Lemma applyCreateAgentSkill_spec profile c : wfCaps c →
  ∃ c', applyCreateAgentSkill profile c = (c', inr tt) ∧ wfCaps c' ∧ skillsOnly c c'
    ∧ skillsOf c' = if profileMayCreateAgent profile
                    then <[createAgentSkillName := createAgentSkill]> (skillsOf c)
                    else delete createAgentSkillName (skillsOf c).
Proof.
  intros Hc. unfold applyCreateAgentSkill. destruct (profileMayCreateAgent profile).
  - destruct (upsertSkill_spec c createAgentSkill Hc) as (c' & E & ? & ? & ?). eauto.
  - change (mbnd getCaps ?k c) with (k c c). cbv beta.
    destruct (c_skillIndexes c !! createAgentSkillName) as [i|] eqn:Hi.
    + destruct (removeSkill_spec c _ i Hc Hi) as (c' & E & ? & ? & ?). eauto.
    + exists c. repeat split; try done; try apply Hc. symmetry. apply delete_id.
      destruct (skillsOf c !! _) as [x|] eqn:Hx; [|done].
      apply (entries_lookup _ _ _ _ _ (wf_skills _ Hc)) in Hx as (j & Hj & _). congruence.
Qed.
