(* ===== verification/Composition.v ===== *)
(** * Composition of a run

    [resolveAgentRunComposition] of
    [src/internal/controller/agent_run_composition.go]: the profile, the harness
    profile, the skill sets, the tool sets and the council of a run are read and
    folded into the effective run, with a status that records what was used.

    The reads of the library objects are parameters ([Library]), like the rest
    of the API.  The resolution mutates the effective run as it goes and returns
    it also when it stops, so it is a computation over the effective run; the
    capabilities are the computation of [Capabilities]. *)

From stdpp Require Import base list gmap strings sorting.
From Stdlib Require Import ZArith Lia.
From S2P Require Import Prelude GoStrings GoTime Names ApiRun Kube MemKube Fixtures Merge Capabilities.

Open Scope go_scope.

(** ** Reads of the library *)

Class Library (W : Type) := {
  getHarnessProfile : string → string → W → GoErr + AgentHarnessProfile;
  getSkillSet : string → string → W → GoErr + AgentSkillSet;
  listSkillSets : string → W → GoErr + list AgentSkillSet;
  getToolSet : string → string → W → GoErr + AgentToolSet;
  listToolSets : string → W → GoErr + list AgentToolSet;
  getCouncil : string → string → W → GoErr + AgentCouncil }.

(** Documented behaviour: an object is returned under its own namespace and name,
    and a list in a namespace holds objects of that namespace. *)
Class LibraryLaws (W : Type) `{Library W} : Prop := {
  getSkillSet_meta w ns n s : getSkillSet ns n w = inr s →
    meta_Namespace (ss_ObjectMeta s) = ns ∧ meta_Name (ss_ObjectMeta s) = n;
  listSkillSets_ns w ns l s : listSkillSets ns w = inr l → s ∈ l →
    meta_Namespace (ss_ObjectMeta s) = ns;
  getToolSet_meta w ns n s : getToolSet ns n w = inr s →
    meta_Namespace (ts_ObjectMeta s) = ns ∧ meta_Name (ts_ObjectMeta s) = n;
  listToolSets_ns w ns l s : listToolSets ns w = inr l → s ∈ l →
    meta_Namespace (ts_ObjectMeta s) = ns }.

(** ** Guards and references *)

Definition agentRunReservedCredentialBootstrapEnvironment : list string :=
  ["ANVIL_AGENT_RUN_GH_CONFIG_DIR"; "ANVIL_AGENT_RUN_TIMEOUT_SECONDS";
   "ANVIL_GITHUB_APP_PERMISSIONS_JSON"; "ANVIL_GITHUB_APP_REPOSITORY";
   "ANVIL_GITHUB_APP_REPOSITORY_ID"; "ANVIL_GITHUB_HOST"; "GH_CONFIG_DIR"; "GH_HOST"; "GH_TOKEN";
   "GITHUB_APP_ID"; "GITHUB_APP_INSTALLATION_ID"; "GITHUB_APP_PRIVATE_KEY"; "GITHUB_TOKEN"].

(** The first reserved variable a run sets itself. *)
Definition validateAgentRunCredentialBootstrapEnvironment (obj : AgentRun) : option (string * string) :=
  (λ '(_, item), ("ReservedCredentialBootstrapEnvironment",
     "spec.harness.execution.extraEnv must not set reserved credential bootstrap variable "
     +:+ quote (TrimSpace (env_Name item))
     +:+ "; configure it in a policy-reviewed profile or Secret."))
  <$> list_find (λ item, TrimSpace (env_Name item) ∈ agentRunReservedCredentialBootstrapEnvironment)
        (ex_ExtraEnv (har_Execution (rs_Harness (run_Spec obj)))).

Definition agentRunResolvedScopeStatus (scope : AgentRunScopeSpec) :
    option AgentRunResolvedScopeStatus :=
  let application := match scope_ApplicationRef scope with
                     | Some ref => TrimSpace (app_Name ref) | None => "" end in
  let target := match scope_ApplicationTargetRef scope with
                | Some ref => TrimSpace (apt_Name ref) | None => "" end in
  let status := match normalizeAgentRunRepository (scope_Repository scope) with
                | Some repo => mkAgentRunResolvedScopeStatus application target (repo_Name repo)
                    (repo_Ref repo) (repo_DestinationBranch repo) (repo_AllowedBranches repo)
                | None => mkAgentRunResolvedScopeStatus application target "" "" "" []
                end in
  if String.eqb (rsc_Application status) "" && String.eqb (rsc_ApplicationTarget status) ""
     && String.eqb (rsc_Repository status) "" && String.eqb (rsc_RepositoryRef status) ""
     && String.eqb (rsc_DestinationBranch status) "" && (length (rsc_AllowedBranches status) =? 0)%nat
  then None else Some status.

(** A read of an object that may be missing. *)
Definition fetch {A} (result : GoErr + A) (reason message : string) : Halt + A :=
  match result with
  | inr a => inr a
  | inl e => if IsNotFound e then inl (HaltPhase AgentRunPhaseNeedsHuman reason message)
             else inl (HaltErr e)
  end.

(** A reference that must be named and must stay in the run's namespace; the
    result is the name. *)
Definition localRef (namespace : string) (ref : NamespacedObjectReference)
    (invalidReason invalidMessage crossReason crossMessage : string) : Halt + string :=
  let name := TrimSpace (ref_Name ref) in
  if String.eqb name "" then inl (HaltPhase AgentRunPhaseFailed invalidReason invalidMessage)
  else if negb (String.eqb (firstNonEmpty [TrimSpace (ref_Namespace ref); namespace]) namespace)
  then inl (HaltPhase AgentRunPhaseFailed crossReason crossMessage)
  else inr name.

Definition andThen {A B} (r : Halt + A) (k : A → Halt + B) : Halt + B :=
  match r with inl h => inl h | inr a => k a end.

Section composition.
Context {W : Type} `{Client W, Library W}.

Definition resolveAgentRunProfileObject (obj : AgentRun) (w : W) : Halt + option AgentRunProfile :=
  match rs_ProfileRef (run_Spec obj) with
  | None => inr None
  | Some ref =>
      andThen (localRef (run_Namespace obj) ref
        "InvalidProfileRef" "spec.profileRef.name is required when profileRef is set."
        "CrossNamespaceProfileRef"
        "AgentRun profileRef must reference an AgentRunProfile in the AgentRun namespace.") (λ name,
      andThen (fetch (getProfile (run_Namespace obj) name w) "ProfileNotFound"
        ("AgentRunProfile " +:+ run_Namespace obj +:+ "/" +:+ name +:+ " was not found.")) (λ profile,
      inr (Some profile)))
  end.

Definition selectedAgentHarnessProfileRef (profile : option AgentRunProfile) (obj : AgentRun) :
    option NamespacedObjectReference :=
  match rs_HarnessProfileRef (run_Spec obj) with
  | Some ref => Some ref
  | None => match profile with Some p => ps_HarnessProfileRef (prof_Spec p) | None => None end
  end.

Definition resolveAgentHarnessProfileObject (namespace : string)
    (ref : option NamespacedObjectReference) (w : W) : Halt + option AgentHarnessProfile :=
  match ref with
  | None => inr None
  | Some ref =>
      andThen (localRef namespace ref
        "InvalidHarnessProfileRef"
        "spec.harnessProfileRef.name is required when harnessProfileRef is set."
        "CrossNamespaceHarnessProfileRef"
        "AgentRun harnessProfileRef must reference an AgentHarnessProfile in the AgentRun namespace.")
      (λ name,
      andThen (fetch (getHarnessProfile namespace name w) "HarnessProfileNotFound"
        ("AgentHarnessProfile " +:+ namespace +:+ "/" +:+ name +:+ " was not found.")) (λ profile,
      inr (Some profile)))
  end.

Definition agentRunExcludeGlobalSkills (profile run : option AgentSkillCompositionSpec) : bool :=
  match profile with Some p => sc_ExcludeGlobal p | None => false end
  || match run with Some r => sc_ExcludeGlobal r | None => false end.

Definition agentRunExcludeGlobalTools (profile run : option AgentToolCompositionSpec) : bool :=
  match profile with Some p => tc_ExcludeGlobal p | None => false end
  || match run with Some r => tc_ExcludeGlobal r | None => false end.

(** [sort.Slice] by name; the names of a namespace are distinct, so the order of
    equal names does not matter. *)
Definition notAfter {A} (name : A → string) (a b : A) : Prop := strLt (name b) (name a) = false.
#[global] Instance notAfter_dec {A} (name : A → string) : RelDecision (notAfter name).
Proof. intros a b. unfold notAfter. apply _. Defined.

Definition listGlobalAgentSkillSets (namespace : string) (w : W) : GoErr + list AgentSkillSet :=
  match listSkillSets namespace w with
  | inl e => inl e
  | inr items => inr (merge_sort (notAfter (λ s, meta_Name (ss_ObjectMeta s)))
                        (filter (λ s, sss_Global (ss_Spec s) = true) items))
  end.

Definition listGlobalAgentToolSets (namespace : string) (w : W) : GoErr + list AgentToolSet :=
  match listToolSets namespace w with
  | inl e => inl e
  | inr items => inr (merge_sort (notAfter (λ s, meta_Name (ts_ObjectMeta s)))
                        (filter (λ s, tss_Global (ts_Spec s) = true) items))
  end.

(** ** Skill sets and tool sets *)

(** A result computed without the capabilities. *)
Definition pureHalt {A} (r : Halt + A) : CapM A := λ c, (c, r).

(** [seenFromGlobal] and [resolved] of the resolution of sets of type [A]: a set
    attached twice is refused, unless an explicit reference restates a global
    set. *)
Definition Attached (A : Type) : Type := gmap string bool * list A.

Definition attach {A} (keyOf : A → string) (apply : A → CapM unit) (kind reason : string)
    (fromGlobal : bool) (acc : Attached A) (item : A) : CapM (Attached A) :=
  let '(seenFromGlobal, resolved) := acc in
  match seenFromGlobal !! keyOf item with
  | Some flag =>
      if flag && negb fromGlobal then mret acc
      else refuse reason (kind +:+ " " +:+ keyOf item +:+ " is selected more than once.")
  | None => apply item ;; mret (<[keyOf item := fromGlobal]> seenFromGlobal, resolved ++ [item])
  end.

Definition attachSkillSet : bool → Attached AgentSkillSet → AgentSkillSet → CapM (Attached AgentSkillSet) :=
  attach skillSetKey applySkillSet "AgentSkillSet" "DuplicateSkillSetRef".
Definition attachToolSet : bool → Attached AgentToolSet → AgentToolSet → CapM (Attached AgentToolSet) :=
  attach toolSetKey applyToolSet "AgentToolSet" "DuplicateToolSetRef".

Definition applySkillRef (obj : AgentRun) (w : W) (acc : Attached AgentSkillSet)
    (ref : NamespacedObjectReference) : CapM (Attached AgentSkillSet) :=
  let namespace := run_Namespace obj in
  let* skillSet := pureHalt (andThen (localRef namespace ref
      "InvalidSkillSetRef" "skillSets.refs[].name must be set."
      "CrossNamespaceSkillSetRef" "AgentSkillSet refs must stay in the AgentRun namespace.") (λ name,
    fetch (getSkillSet namespace name w) "SkillSetNotFound"
      ("AgentSkillSet " +:+ namespace +:+ "/" +:+ name +:+ " was not found."))) in
  attachSkillSet false acc skillSet.

Definition applySkillComposition (obj : AgentRun) (w : W) (acc : Attached AgentSkillSet)
    (composition : option AgentSkillCompositionSpec) : CapM (Attached AgentSkillSet) :=
  match composition with
  | None => mret acc
  | Some composition =>
      let* acc := mforeach (applySkillRef obj w) (sc_Refs composition) acc in
      applyOverrides (sc_Overrides composition) ;; mret acc
  end.

Definition resolveAgentSkillComposition (obj : AgentRun) (profile : option AgentRunProfile) (w : W) :
    CapM (list AgentSkillSet) :=
  let profileComposition := match profile with Some p => ps_SkillSets (prof_Spec p) | None => None end in
  let runComposition := rs_SkillSets (run_Spec obj) in
  let* acc :=
    if agentRunExcludeGlobalSkills profileComposition runComposition then mret (∅, [])
    else match listGlobalAgentSkillSets (run_Namespace obj) w with
         | inl e => mfail (HaltErr e)
         | inr globals => mforeach (attachSkillSet true) globals (∅, [])
         end in
  let replaces := match runComposition with
                  | Some r => String.eqb (sc_Mode r) AgentSkillCompositionReplace
                  | None => false
                  end in
  let* acc := if replaces then mret acc else applySkillComposition obj w acc profileComposition in
  let* acc := applySkillComposition obj w acc runComposition in
  mret (snd acc).

Definition applyToolRef (obj : AgentRun) (w : W) (acc : Attached AgentToolSet)
    (ref : NamespacedObjectReference) : CapM (Attached AgentToolSet) :=
  let namespace := run_Namespace obj in
  let* toolSet := pureHalt (andThen (localRef namespace ref
      "InvalidToolSetRef" "toolSets.refs[].name must be set."
      "CrossNamespaceToolSetRef" "AgentToolSet refs must stay in the AgentRun namespace.") (λ name,
    fetch (getToolSet namespace name w) "ToolSetNotFound"
      ("AgentToolSet " +:+ namespace +:+ "/" +:+ name +:+ " was not found."))) in
  attachToolSet false acc toolSet.

Definition applyToolComposition (obj : AgentRun) (w : W) (acc : Attached AgentToolSet)
    (composition : option AgentToolCompositionSpec) : CapM (Attached AgentToolSet) :=
  match composition with
  | None => mret acc
  | Some composition => mforeach (applyToolRef obj w) (tc_Refs composition) acc
  end.

Definition resolveAgentToolComposition (obj : AgentRun) (profile : option AgentRunProfile) (w : W) :
    CapM (list AgentToolSet) :=
  let profileComposition := match profile with Some p => ps_ToolSets (prof_Spec p) | None => None end in
  let runComposition := rs_ToolSets (run_Spec obj) in
  let* acc :=
    if agentRunExcludeGlobalTools profileComposition runComposition then mret (∅, [])
    else match listGlobalAgentToolSets (run_Namespace obj) w with
         | inl e => mfail (HaltErr e)
         | inr globals => mforeach (attachToolSet true) globals (∅, [])
         end in
  let replaces := match runComposition with
                  | Some r => String.eqb (tc_Mode r) AgentToolCompositionReplace
                  | None => false
                  end in
  let* acc := if replaces then mret acc else applyToolComposition obj w acc profileComposition in
  let* acc := applyToolComposition obj w acc runComposition in
  mret (snd acc).

(** ** Councils *)

Definition selectedAgentCouncilRef (profile : option AgentRunProfile) (obj : AgentRun) :
    option NamespacedObjectReference :=
  match rs_CouncilRef (run_Spec obj) with
  | Some ref => Some ref
  | None => match profile with Some p => ps_CouncilRef (prof_Spec p) | None => None end
  end.

(** One iteration over the members: the names seen, or the reason and message. *)
Definition checkMember (council : AgentCouncil) (i : nat) (seen : gset string)
    (member : AgentCouncilMemberSpec) : (string * string) + gset string :=
  let owner := "AgentCouncil " +:+ council_Namespace council +:+ "/" +:+ council_Name council in
  let at_ := owner +:+ " members[" +:+ fmtNat i +:+ "]" in
  let profileName := TrimSpace (ref_Name (mem_ProfileRef member)) in
  let memberNamespace := TrimSpace (ref_Namespace (mem_ProfileRef member)) in
  if blank (mem_Role member) then inl ("InvalidCouncilMemberRole", at_ +:+ ".role is required.")
  else if String.eqb profileName ""
  then inl ("InvalidCouncilMemberProfileRef", at_ +:+ ".profileRef.name is required.")
  else if negb (String.eqb memberNamespace "")
          && negb (String.eqb memberNamespace (council_Namespace council))
  then inl ("CrossNamespaceCouncilMemberProfileRef",
            at_ +:+ ".profileRef must stay in the council namespace.")
  else if bool_decide (profileName ∈ seen)
  then inl ("DuplicateCouncilMemberProfile",
            owner +:+ " lists profile " +:+ quote profileName +:+ " more than once.")
  else inr ({[profileName]} ∪ seen).

Fixpoint checkMembers (council : AgentCouncil) (i : nat) (seen : gset string)
    (members : list AgentCouncilMemberSpec) : option (string * string) :=
  match members with
  | [] => None
  | m :: members => match checkMember council i seen m with
                    | inl refusal => Some refusal
                    | inr seen => checkMembers council (S i) seen members
                    end
  end.

Definition validateAgentCouncilShape (council : AgentCouncil) : option (string * string) :=
  let members := cos_Members (council_Spec council) in
  let owner := "AgentCouncil " +:+ council_Namespace council +:+ "/" +:+ council_Name council in
  if (length members <? 1)%nat || (32 <? length members)%nat
  then Some ("InvalidCouncilMembers", owner +:+ " must list between 1 and 32 members.")
  else match checkMembers council 0 ∅ members with
       | Some refusal => Some refusal
       | None =>
           if (65536 <? Z.of_nat (length (runes (bytes (cos_CouncilPrompt (council_Spec council))))))%Z
           then Some ("CouncilPromptTooLarge", owner +:+ " councilPrompt exceeds 65536 characters.")
           else None
       end.

(** Every member profile must exist; nothing of it is copied. *)
Fixpoint memberProfiles (council : AgentCouncil) (i : nat) (members : list AgentCouncilMemberSpec)
    (w : W) : Halt + unit :=
  match members with
  | [] => inr tt
  | m :: members =>
      let profileName := TrimSpace (ref_Name (mem_ProfileRef m)) in
      let ns := council_Namespace council in
      andThen (fetch (getProfile ns profileName w) "CouncilMemberProfileNotFound"
        ("AgentCouncil " +:+ ns +:+ "/" +:+ council_Name council +:+ " members[" +:+ fmtNat i
         +:+ "] references missing AgentRunProfile " +:+ ns +:+ "/" +:+ profileName +:+ "."))
      (λ _, memberProfiles council (S i) members w)
  end.

Definition resolveAgentCouncilObject (obj : AgentRun) (profile : option AgentRunProfile) (w : W) :
    Halt + option AgentCouncil :=
  match selectedAgentCouncilRef profile obj with
  | None => inr None
  | Some ref =>
      let namespace := run_Namespace obj in
      andThen (localRef namespace ref
        "InvalidCouncilRef" "spec.councilRef.name is required when councilRef is set."
        "CrossNamespaceCouncilRef"
        "AgentRun councilRef must reference an AgentCouncil in the AgentRun namespace.") (λ name,
      andThen (fetch (getCouncil namespace name w) "CouncilNotFound"
        ("AgentCouncil " +:+ namespace +:+ "/" +:+ name +:+ " was not found.")) (λ council,
      match validateAgentCouncilShape council with
      | Some (reason, message) => inl (HaltPhase AgentRunPhaseFailed reason message)
      | None => andThen (memberProfiles council 0 (cos_Members (council_Spec council)) w) (λ _,
                inr (Some council))
      end))
  end.

(** ** The effective run *)

Definition resolvedObjectReferenceStatus (obj : ObjectMeta) (digest : string) :
    AgentRunResolvedObjectReferenceStatus :=
  mkAgentRunResolvedObjectReferenceStatus (meta_Name obj) (meta_Namespace obj) (meta_UID obj)
    (meta_Generation obj) (meta_ResourceVersion obj) digest false.

Definition EffM (A : Type) : Type := M AgentRun Halt A.
Definition getRunEff : EffM AgentRun := λ e, (e, inr e).
Definition setSpec (f : AgentRunSpec → AgentRunSpec) : EffM unit :=
  λ e, (e <| run_Spec := f (run_Spec e) |>, inr tt).
Definition putRunEff (e : AgentRun) : EffM unit := λ _, (e, inr tt).
Definition halting {A} (r : Halt + A) : EffM A := λ e, (e, r).
(** Run a computation on the capabilities inside the resolution. *)
Definition withCaps {A} (m : CapM A) (c : agentRunCapabilities) : EffM (A * agentRunCapabilities) :=
  λ e, match m c with
       | (c', inr a) => (e, inr (a, c'))
       | (_, inl h) => (e, inl h)
       end.

(** The inline entries, the council and the create-agent skill come last. *)
Definition overlay (harness : AgentRunHarnessSpec) (council : option AgentCouncil)
    (profile : option AgentRunProfile) : CapM unit :=
  let* _ := mforeach (λ _, upsertSkill) (har_SkillInjections harness) tt in
  let* _ := mforeach (λ _, upsertTool) (har_Tools harness) tt in
  let* _ := mforeach (λ _, upsertSubagent) (har_Subagents harness) tt in
  applyCouncilPrompt council ;;
  applyCreateAgentSkill profile.

Context `{Marshal AgentRunProfileSpec, Marshal AgentHarnessProfileSpec, Marshal AgentCouncilSpec,
  Marshal AgentSkillSetSpec, Marshal AgentToolSetSpec, Marshal AgentRunSpec}.

Definition compositionStatus (profile : option AgentRunProfile)
    (harnessProfile : option AgentHarnessProfile) (council : option AgentCouncil)
    (skillSets : list AgentSkillSet) (toolSets : list AgentToolSet) (effective : AgentRunSpec) :
    AgentRunResolvedCompositionStatus :=
  zero_AgentRunResolvedCompositionStatus
    <| rcs_ProfileRef := (λ p, resolvedObjectReferenceStatus (prof_ObjectMeta p)
         (digestJSON (jsonMarshal (prof_Spec p)))) <$> profile |>
    <| rcs_HarnessProfileRef := (λ p, resolvedObjectReferenceStatus (hp_ObjectMeta p)
         (digestJSON (jsonMarshal (hp_Spec p)))) <$> harnessProfile |>
    <| rcs_CouncilRef := (λ p, resolvedObjectReferenceStatus (council_ObjectMeta p)
         (digestJSON (jsonMarshal (council_Spec p)))) <$> council |>
    <| rcs_SkillSetRefs := map (λ s, (resolvedObjectReferenceStatus (ss_ObjectMeta s)
         (digestJSON (jsonMarshal (ss_Spec s)))) <| ror_Global := sss_Global (ss_Spec s) |>) skillSets |>
    <| rcs_ToolSetRefs := map (λ s, (resolvedObjectReferenceStatus (ts_ObjectMeta s)
         (digestJSON (jsonMarshal (ts_Spec s)))) <| ror_Global := tss_Global (ts_Spec s) |>) toolSets |>
    <| rcs_Scope := agentRunResolvedScopeStatus (rs_Scope effective) |>
    <| rcs_EffectiveDigest := digestJSON (jsonMarshal effective) |>.

Definition composeRun (obj : AgentRun) (w : W) : EffM AgentRunResolvedCompositionStatus :=
  let* _ := halting match validateAgentRunCredentialBootstrapEnvironment obj with
                    | Some (reason, message) => inl (HaltPhase AgentRunPhaseFailed reason message)
                    | None => inr tt
                    end in
  let* profile := halting (resolveAgentRunProfileObject obj w) in
  putRunEff (match profile with Some p => agentRunApplyProfile obj p | None => obj end) ;;
  let harnessRef := selectedAgentHarnessProfileRef profile obj in
  let* harnessProfile := halting (resolveAgentHarnessProfileObject (run_Namespace obj) harnessRef w) in
  setSpec (λ s, s <| rs_HarnessProfileRef := harnessRef |>) ;;
  setSpec (λ s, match harnessProfile with
                | Some h => s <| rs_Harness := agentRunHarnessWithProfile profile obj h |>
                | None => s
                end) ;;
  setSpec (λ s, s <| rs_SkillSets := agentRunMergeSkillComposition
    (match profile with Some p => ps_SkillSets (prof_Spec p) | None => None end)
    (rs_SkillSets (run_Spec obj)) |>) ;;
  let* skills := withCaps (resolveAgentSkillComposition obj profile w) newAgentRunCapabilities in
  setSpec (λ s, s <| rs_ToolSets := agentRunMergeToolComposition
    (match profile with Some p => ps_ToolSets (prof_Spec p) | None => None end)
    (rs_ToolSets (run_Spec obj)) |>) ;;
  let* tools := withCaps (resolveAgentToolComposition obj profile w) (snd skills) in
  setSpec (λ s, s <| rs_CouncilRef := selectedAgentCouncilRef profile obj |>) ;;
  let* council := halting (resolveAgentCouncilObject obj profile w) in
  let* effective := getRunEff in
  let* capabilities := withCaps (overlay (rs_Harness (run_Spec effective)) council profile) (snd tools) in
  setSpec (λ s, s <| rs_Harness := (rs_Harness s)
    <| har_SkillInjections := c_skills (snd capabilities) |>
    <| har_Tools := c_tools (snd capabilities) |>
    <| har_Subagents := c_subagents (snd capabilities) |> |>) ;;
  let* effective := getRunEff in
  let status := compositionStatus profile harnessProfile council (fst skills) (fst tools)
                  (run_Spec effective) in
  putRunEff (effective <| run_Status := (run_Status effective)
    <| st_ResolvedComposition := Some status |> |>) ;;
  mret status.

(** The effective run, and the status or why the resolution stopped. *)
Definition resolveAgentRunComposition (obj : AgentRun) (w : W) :
    AgentRun * (Halt + AgentRunResolvedCompositionStatus) :=
  composeRun obj w obj.
End composition.

(** ** Running computations *)

Lemma mbnd_inr {W E A B} (m : M W E A) (k : A → M W E B) w w' b :
  mbnd m k w = (w', inr b) → ∃ a w1, m w = (w1, inr a) ∧ k a w1 = (w', inr b).
Proof. unfold mbnd. destruct (m w) as [w1 [e|a]]; [done|]. eauto. Qed.

(** An invariant of the accumulator of a loop. *)
Lemma mforeach_acc {W E A B} (f : B → A → M W E B) (P : B → Prop) l acc w w' acc' :
  P acc → (∀ b a w w' b', P b → a ∈ l → f b a w = (w', inr b') → P b') →
  mforeach f l acc w = (w', inr acc') → P acc'.
Proof.
  revert acc w. induction l as [|a l IH]; intros acc w HP Hf; [by intros [= _ <-]|].
  intros (b & w1 & Hb & Hl)%mbnd_inr. eapply (IH b w1); [|intros; eapply Hf; eauto; by right|done].
  eapply Hf; eauto. by left.
Qed.

Section theorems.
Context {W : Type} `{Client W, Library W}.
Context `{Marshal AgentRunProfileSpec, Marshal AgentHarnessProfileSpec, Marshal AgentCouncilSpec,
  Marshal AgentSkillSetSpec, Marshal AgentToolSetSpec, Marshal AgentRunSpec}.

(** The layers below the run's own configuration. *)
Definition composedHarness (obj : AgentRun) (profile : option AgentRunProfile)
    (harnessProfile : option AgentHarnessProfile) : AgentRunHarnessSpec :=
  match harnessProfile with
  | Some h => agentRunHarnessWithProfile profile obj h
  | None => rs_Harness (run_Spec (match profile with Some p => agentRunApplyProfile obj p | None => obj end))
  end.

(** What a successful resolution went through. *)
Record composed (obj : AgentRun) (w : W) (effective : AgentRun)
    (status : AgentRunResolvedCompositionStatus) (profile : option AgentRunProfile)
    (harnessProfile : option AgentHarnessProfile) (council : option AgentCouncil) : Prop := {
  cp_env : validateAgentRunCredentialBootstrapEnvironment obj = None;
  cp_profile : resolveAgentRunProfileObject obj w = inr profile;
  cp_harness : resolveAgentHarnessProfileObject (run_Namespace obj)
                 (selectedAgentHarnessProfileRef profile obj) w = inr harnessProfile;
  cp_council : resolveAgentCouncilObject obj profile w = inr council;
  cp_caps : ∃ skills tools c1 c2 c3,
    resolveAgentSkillComposition obj profile w newAgentRunCapabilities = (c1, inr skills)
    ∧ resolveAgentToolComposition obj profile w c1 = (c2, inr tools)
    ∧ overlay (composedHarness obj profile harnessProfile) council profile c2 = (c3, inr tt)
    ∧ rs_Harness (run_Spec effective) = (composedHarness obj profile harnessProfile)
        <| har_SkillInjections := c_skills c3 |> <| har_Tools := c_tools c3 |>
        <| har_Subagents := c_subagents c3 |>
    ∧ status = compositionStatus profile harnessProfile council skills tools (run_Spec effective) }.

Lemma composed_of obj w effective status :
  resolveAgentRunComposition obj w = (effective, inr status) →
  ∃ profile harnessProfile council, composed obj w effective status profile harnessProfile council.
Proof.
  unfold resolveAgentRunComposition, composeRun.
  intros (? & e0 & Hv & Hrun)%mbnd_inr. unfold halting in Hv. injection Hv as <- Hv.
  apply mbnd_inr in Hrun as (profile & e1 & Hp & Hrun). injection Hp as <- Hp.
  apply mbnd_inr in Hrun as (? & e2 & [= <- _] & Hrun).
  apply mbnd_inr in Hrun as (hp & e3 & Hh & Hrun). injection Hh as <- Hh.
  apply mbnd_inr in Hrun as (? & e4 & [= <- _] & Hrun).
  apply mbnd_inr in Hrun as (? & e5 & [= <- _] & Hrun).
  apply mbnd_inr in Hrun as (? & e6 & [= <- _] & Hrun).
  apply mbnd_inr in Hrun as ([sk c1] & e7 & Hs & Hrun). unfold withCaps in Hs.
  destruct (resolveAgentSkillComposition _ _ _ _) as [c1' [h|sk']] eqn:Es; [done|]. injection Hs as <- <- <-.
  apply mbnd_inr in Hrun as (? & e8 & [= <- _] & Hrun).
  apply mbnd_inr in Hrun as ([tl c2] & e9 & Ht & Hrun). unfold withCaps in Ht. cbn [snd] in Ht.
  destruct (resolveAgentToolComposition _ _ _ _) as [c2' [h|tl']] eqn:Et; [done|]. injection Ht as <- <- <-.
  apply mbnd_inr in Hrun as (? & e10 & [= <- _] & Hrun).
  apply mbnd_inr in Hrun as (council & e11 & Hc & Hrun). injection Hc as <- Hc.
  apply mbnd_inr in Hrun as (? & e12 & [= <- <-] & Hrun).
  apply mbnd_inr in Hrun as ([[] c3] & e13 & Ho & Hrun). unfold withCaps in Ho. cbn [snd] in Ho.
  destruct (overlay _ _ _ _) as [c3' [h|[]]] eqn:Eo; [done|]. injection Ho as <- <-.
  apply mbnd_inr in Hrun as (? & e14 & [= <- _] & Hrun).
  apply mbnd_inr in Hrun as (? & e15 & [= <- <-] & Hrun).
  apply mbnd_inr in Hrun as (? & e16 & [= <- _] & [= <- <-]).
  exists profile, hp, council.
  assert (Eh : ∀ e : AgentRun, rs_Harness (match hp with
            | Some h => (run_Spec e) <| rs_Harness := agentRunHarnessWithProfile profile obj h |>
            | None => run_Spec e end) = match hp with
            | Some h => agentRunHarnessWithProfile profile obj h
            | None => rs_Harness (run_Spec e) end) by (by destruct hp).
  split; [destruct (validateAgentRunCredentialBootstrapEnvironment obj) as [[]|]; done|done..|].
  exists sk', tl', c1', c2', c3'. cbn [fst snd]. split_and!; [done|done| | |done].
  - etransitivity; [|exact Eo]. f_equal. unfold composedHarness. by destruct hp, profile.
  - unfold composedHarness. by destruct hp, profile.
Qed.

(** ** Names stay distinct, and no index is out of range *)

Lemma exactly_pureHalt {A} (r : Halt + A) c : wfCaps c → r ≠ inl HaltPanic → exactly (pureHalt r) c.
Proof. by intros. Qed.

Lemma fetch_halt {A} (r : GoErr + A) reason message : fetch r reason message ≠ inl HaltPanic.
Proof. unfold fetch. by repeat case_match. Qed.
Lemma localRef_halt ns ref a b c d : localRef ns ref a b c d ≠ inl HaltPanic.
Proof. unfold localRef. by repeat case_match. Qed.
Lemma andThen_halt {A B} (r : Halt + A) (k : A → Halt + B) :
  r ≠ inl HaltPanic → (∀ a, k a ≠ inl HaltPanic) → andThen r k ≠ inl HaltPanic.
Proof. destruct r; simpl; [|by auto]. intros Hr _ [= ->]. done. Qed.

Lemma exactly_attach {A} keyOf apply kind reason b acc (x : A) c :
  wfCaps c → (∀ x c, wfCaps c → exactly (apply x) c) →
  exactly (attach keyOf apply kind reason b acc x) c.
Proof.
  intros Hc Ha. destruct acc as [seen resolved]. unfold attach.
  repeat case_match; auto with anvil. apply exactly_bind; auto with anvil.
Qed.
#[local] Hint Resolve exactly_attach exactly_applySkillSet exactly_applyToolSet
  exactly_pureHalt exactly_foreach exactly_applyOverrides andThen_halt localRef_halt fetch_halt : anvil.

Lemma exactly_skillComposition obj w acc comp c :
  wfCaps c → exactly (applySkillComposition obj w acc comp) c.
Proof.
  intros Hc. destruct comp as [comp|]; cbn [applySkillComposition]; [|auto with anvil].
  apply exactly_bind; [apply exactly_foreach; [done|]|].
  - intros acc' ref c' Hc'. unfold applySkillRef. apply exactly_bind; [auto with anvil|].
    intros. apply exactly_attach; auto with anvil.
  - intros. apply exactly_bind; auto with anvil.
Qed.
Lemma exactly_toolComposition obj w acc comp c :
  wfCaps c → exactly (applyToolComposition obj w acc comp) c.
Proof.
  intros Hc. destruct comp as [comp|]; cbn [applyToolComposition]; [|auto with anvil].
  apply exactly_foreach; [done|].
  intros acc' ref c' Hc'. unfold applyToolRef. apply exactly_bind; [auto with anvil|].
  intros. apply exactly_attach; auto with anvil.
Qed.
#[local] Hint Resolve exactly_skillComposition exactly_toolComposition : anvil.

Lemma exactly_resolveSkills obj profile w c :
  wfCaps c → exactly (resolveAgentSkillComposition obj profile w) c.
Proof.
  intros Hc. unfold resolveAgentSkillComposition. apply exactly_bind.
  - destruct (agentRunExcludeGlobalSkills _ _); [auto with anvil|].
    destruct (listGlobalAgentSkillSets _ _); [by apply exactly_fail|].
    apply exactly_foreach; [done|]. intros. apply exactly_attach; auto with anvil.
  - intros. apply exactly_bind; [destruct (match _ with Some _ => _ | None => false end); auto with anvil|].
    intros. apply exactly_bind; auto with anvil.
Qed.
Lemma exactly_resolveTools obj profile w c :
  wfCaps c → exactly (resolveAgentToolComposition obj profile w) c.
Proof.
  intros Hc. unfold resolveAgentToolComposition. apply exactly_bind.
  - destruct (agentRunExcludeGlobalTools _ _); [auto with anvil|].
    destruct (listGlobalAgentToolSets _ _); [by apply exactly_fail|].
    apply exactly_foreach; [done|]. intros. apply exactly_attach; auto with anvil.
  - intros. apply exactly_bind; [destruct (match _ with Some _ => _ | None => false end); auto with anvil|].
    intros. apply exactly_bind; auto with anvil.
Qed.

Lemma exactly_overlay harness council profile c :
  wfCaps c → exactly (overlay harness council profile) c.
Proof.
  intros Hc. unfold overlay.
  do 3 (apply exactly_bind; [apply exactly_foreach; auto with anvil|clear dependent c; intros _ c Hc]).
  apply exactly_bind; [by apply exactly_applyCouncilPrompt|]. intros _ c' Hc'.
  destruct (applyCreateAgentSkill_spec profile c' Hc') as (c2 & E & ? & _). by eapply exactly_run.
Qed.

Lemma exactly_inr {A} (m : CapM A) c c' r : exactly m c → m c = (c', r) → wfCaps c'.
Proof. unfold exactly, wp. intros [Hwf _] E. by rewrite E in Hwf. Qed.

Lemma composed_wf obj w effective status profile hp council :
  composed obj w effective status profile hp council →
  ∃ c2 c3, wfCaps c2 ∧ wfCaps c3 ∧ overlay (composedHarness obj profile hp) council profile c2 = (c3, inr tt)
    ∧ har_SkillInjections (rs_Harness (run_Spec effective)) = c_skills c3
    ∧ har_Tools (rs_Harness (run_Spec effective)) = c_tools c3
    ∧ har_Subagents (rs_Harness (run_Spec effective)) = c_subagents c3.
Proof.
  intros [_ _ _ _ (sk & tl & c1 & c2 & c3 & E1 & E2 & E3 & -> & _)].
  apply exactly_inr in E1 as W1; [|apply exactly_resolveSkills, wfCaps_new].
  apply exactly_inr in E2 as W2; [|by apply exactly_resolveTools].
  apply exactly_inr in E3 as W3; [|by apply exactly_overlay]. eauto 10.
Qed.

(** The effective run is well formed: no two of its skills, tools or
    subagents share a (trimmed) name, whatever the sets, overrides and inline
    entries define. *)
Theorem composition_names_distinct obj w effective status :
  resolveAgentRunComposition obj w = (effective, inr status) →
  let harness := rs_Harness (run_Spec effective) in
  NoDup (map skillKey (har_SkillInjections harness))
  ∧ NoDup (map toolKey (har_Tools harness))
  ∧ NoDup (map subagentKey (har_Subagents harness)).
Proof.
  intros (profile & hp & council & Hc)%composed_of.
  destruct (composed_wf _ _ _ _ _ _ _ Hc) as (c2 & c3 & _ & [W1 W2 W3] & _ & Es & Et & Eb).
  cbv zeta. rewrite Es, Et, Eb. split_and!; by eapply indexesOf_NoDup.
Qed.

(** ** No panic *)

Lemma calm_bind {A B} (m : EffM A) (k : A → EffM B) e :
  (m e).2 ≠ inl HaltPanic →
  (∀ a e', m e = (e', inr a) → (k a e').2 ≠ inl HaltPanic) → (mbnd m k e).2 ≠ inl HaltPanic.
Proof.
  unfold mbnd. destruct (m e) as [e1 [h|a]]; cbn [snd]; [|by eauto].
  intros Hh _ [= ->]. done.
Qed.
Lemma calm_caps {A} (m : CapM A) c e : exactly m c → (withCaps m c e).2 ≠ inl HaltPanic.
Proof.
  unfold exactly, wp, withCaps. destruct (m c) as [c' [h|a]]; cbn [fst snd]; [|done].
  intros [_ Hh] [= ->]. done.
Qed.
Lemma withCaps_inr {A} (m : CapM A) c e e' a c' :
  exactly m c → withCaps m c e = (e', inr (a, c')) → wfCaps c'.
Proof.
  unfold withCaps. intros Hm. destruct (m c) as [c1 [h|b]] eqn:E; [done|].
  intros [= _ _ <-]. by eapply exactly_inr.
Qed.

(** Resolving a composition never indexes a slice out of range: it ends with
    the effective run, an error of the API to retry on, or a phase to report. *)
Theorem composition_never_panics obj w : (resolveAgentRunComposition obj w).2 ≠ inl HaltPanic.
Proof.
  unfold resolveAgentRunComposition, composeRun.
  apply calm_bind; [cbn [halting snd]; by repeat case_match|intros _ e1 _].
  apply calm_bind.
  { cbn [halting snd]. unfold resolveAgentRunProfileObject.
    case_match; [|done]. auto using andThen_halt, localRef_halt, fetch_halt. }
  intros profile e2 _. apply calm_bind; [done|intros _ e3 _].
  apply calm_bind.
  { cbn [halting snd]. unfold resolveAgentHarnessProfileObject.
    case_match; [|done]. auto using andThen_halt, localRef_halt, fetch_halt. }
  intros hp e4 _. do 3 (apply calm_bind; [done|intros _ ? _]).
  apply calm_bind; [apply calm_caps, exactly_resolveSkills, wfCaps_new|].
  intros [sk c1] e5 E1. apply withCaps_inr in E1; [|apply exactly_resolveSkills, wfCaps_new].
  apply calm_bind; [done|intros _ ? _].
  apply calm_bind; [by apply calm_caps, exactly_resolveTools|].
  intros [tl c2] e6 E2. apply withCaps_inr in E2; [|by apply exactly_resolveTools].
  apply calm_bind; [done|intros _ ? _]. apply calm_bind.
  { cbn [halting snd]. unfold resolveAgentCouncilObject. case_match; [|done].
    apply andThen_halt; [apply localRef_halt|intros]. apply andThen_halt; [apply fetch_halt|intros council].
    case_match; [by case_match|]. apply andThen_halt; [|done].
    generalize 0%nat. induction (cos_Members (council_Spec council)) as [|m l IH]; intros i; [done|].
    apply andThen_halt; [apply fetch_halt|auto]. }
  intros council e7 _. apply calm_bind; [done|intros eff e8 _].
  apply calm_bind; [by apply calm_caps, exactly_overlay|]. intros [[] c3] e9 _.
  by repeat (apply calm_bind; [done|intros ? ? _]).
Qed.

(** ** Reserved skills *)

Lemma overlay_inr harness council profile c c' : wfCaps c →
  overlay harness council profile c = (c', inr tt) →
  ∃ c1 c2, wfCaps c1 ∧ wfCaps c2 ∧ applyCouncilPrompt council c1 = (c2, inr tt)
    ∧ applyCreateAgentSkill profile c2 = (c', inr tt).
Proof.
  intros Hc. unfold overlay.
  intros (? & c1 & E1 & (? & c2 & E2 & (? & c3 & E3 & ([] & c4 & E4 & E5)%mbnd_inr)%mbnd_inr)%mbnd_inr)%mbnd_inr.
  apply exactly_inr in E1; [|apply exactly_foreach; auto with anvil].
  apply exactly_inr in E2; [|apply exactly_foreach; auto with anvil].
  apply exactly_inr in E3; [|apply exactly_foreach; auto with anvil].
  exists c3, c4. split_and!; try done. apply exactly_inr in E4; [done|]. by apply exactly_applyCouncilPrompt.
Qed.

Lemma skill_at c k s : wfCaps c →
  skillsOf c !! k = Some s ↔ s ∈ c_skills c ∧ skillKey s = k.
Proof.
  intros Hc. unfold skillsOf. rewrite (entries_lookup _ _ _ _ _ (wf_skills _ Hc)). split.
  - intros (i & Hi & Hs). split; [by eapply list_elem_of_lookup_2|].
    apply (wf_skills _ Hc) in Hi as (? & ? & <-). congruence.
  - intros [[i Hi]%list_elem_of_lookup_1 <-]. exists i. split; [|done]. apply (wf_skills _ Hc). eauto.
Qed.

(** Creating agents is reserved: a run has the create-agent skill exactly when
    its profile may create agents, and then it is the built-in one, whatever its
    sets and inline entries put under that name. *)
Theorem create_agent_reserved obj w effective status profile :
  resolveAgentRunComposition obj w = (effective, inr status) →
  resolveAgentRunProfileObject obj w = inr profile →
  let skills := har_SkillInjections (rs_Harness (run_Spec effective)) in
  (profileMayCreateAgent profile = true → createAgentSkill ∈ skills)
  ∧ ∀ s, s ∈ skills → skillKey s = createAgentSkillName →
      profileMayCreateAgent profile = true ∧ s = createAgentSkill.
Proof.
  intros (profile' & hp & council & Hc)%composed_of Hp. cbv zeta.
  rewrite (cp_profile _ _ _ _ _ _ _ Hc) in Hp. injection Hp as ->.
  destruct (composed_wf _ _ _ _ _ _ _ Hc) as (c2 & c3 & W2 & W3 & Eo & -> & _).
  apply overlay_inr in Eo as (c4 & c5 & _ & W5 & _ & E); [|done].
  destruct (applyCreateAgentSkill_spec profile c5 W5) as (c' & E' & _ & _ & Hs).
  rewrite E in E'. injection E' as <-. split.
  - intros Hm. rewrite Hm in Hs. apply (skill_at _ createAgentSkillName _ W3).
    rewrite Hs. apply lookup_insert_eq.
  - intros s Hin Hk. assert (Hl : skillsOf c3 !! createAgentSkillName = Some s) by (by apply skill_at).
    rewrite Hs in Hl. destruct (profileMayCreateAgent profile).
    + rewrite lookup_insert_eq in Hl. by injection Hl as <-.
    + by rewrite lookup_delete_eq in Hl.
Qed.

(** Council guidance is the council's own: when a run selects a council with
    a prompt, the skill of the reserved name holds exactly that prompt. *)
Theorem council_guidance obj w effective status profile council :
  resolveAgentRunComposition obj w = (effective, inr status) →
  resolveAgentRunProfileObject obj w = inr profile →
  resolveAgentCouncilObject obj profile w = inr (Some council) →
  blank (cos_CouncilPrompt (council_Spec council)) = false →
  TrimSpace ("council-" +:+ council_Name council) = "council-" +:+ council_Name council →
  ∀ s, s ∈ har_SkillInjections (rs_Harness (run_Spec effective)) ∧ skillKey s = "council-" +:+ council_Name council
    ↔ s = councilSkill council (TrimSpace (cos_CouncilPrompt (council_Spec council))).
Proof.
  intros (profile' & hp & council' & Hc)%composed_of Hp Hco Hb Ht s.
  rewrite (cp_profile _ _ _ _ _ _ _ Hc) in Hp. injection Hp as ->.
  rewrite (cp_council _ _ _ _ _ _ _ Hc) in Hco. injection Hco as ->.
  destruct (composed_wf _ _ _ _ _ _ _ Hc) as (c2 & c3 & W2 & W3 & Eo & -> & _).
  apply overlay_inr in Eo as (c4 & c5 & W4 & W5 & Ec & E); [|done].
  destruct (applyCreateAgentSkill_spec profile c5 W5) as (c' & E' & _ & _ & Hs).
  rewrite E in E'. injection E' as <-.
  pose proof (applyCouncilPrompt_spec _ _ _ W4 Ec Hb) as Hcs.
  rewrite <- (skill_at _ _ _ W3), Hs. unfold skillKey in Hcs. cbn [skill_Name councilSkill] in Hcs. rewrite Ht in Hcs.
  destruct (profileMayCreateAgent profile);
    rewrite ?lookup_insert_ne, ?lookup_delete_ne by done; rewrite Hcs, lookup_insert_eq; naive_solver.
Qed.

(** ** Credentials *)

(** The variables below the run's own: of the harness profile, and of the profile
    unless the run selected the harness profile itself. *)
Definition inheritedEnv (obj : AgentRun) (profile : option AgentRunProfile)
    (harnessProfile : option AgentHarnessProfile) : list EnvVar :=
  let profileEnv := match profile with
                    | Some p => ex_ExtraEnv (har_Execution (ps_Harness (prof_Spec p)))
                    | None => []
                    end in
  match harnessProfile with
  | None => profileEnv
  | Some h => match rs_HarnessProfileRef (run_Spec obj) with
              | None => mergeEnvVars (ex_ExtraEnv (hps_Execution (hp_Spec h))) profileEnv
              | Some _ => ex_ExtraEnv (hps_Execution (hp_Spec h))
              end
  end.

Lemma composed_env obj profile hp :
  let run := ex_ExtraEnv (har_Execution (rs_Harness (run_Spec obj))) in
  let env := ex_ExtraEnv (har_Execution (composedHarness obj profile hp)) in
  env = mergeEnvVars (inheritedEnv obj profile hp) run ∨ inheritedEnv obj profile hp = [] ∧ env = run.
Proof.
  cbv zeta. unfold composedHarness, inheritedEnv, agentRunHarnessWithProfile.
  destruct hp as [h|], profile as [p|]; cbn; try (by left); try (by right);
    left; by destruct (rs_HarnessProfileRef (run_Spec obj)).
Qed.

Lemma reserved_trimmed :
  Forall (λ n, TrimSpace n = n) agentRunReservedCredentialBootstrapEnvironment.
Proof. by repeat constructor. Qed.

Lemma lastNamed_app_none {A} named key k (l m : list A) :
  Forall (λ x, key x ≠ k) m → lastNamed named key k (l ++ m) = lastNamed named key k l.
Proof.
  induction m as [|x m IH] using rev_ind; [by rewrite app_nil_r|].
  rewrite Forall_app, Forall_singleton. intros [Hm Hx].
  rewrite app_assoc, lastNamed_snoc, decide_False; [auto|]. by intros [_ ?].
Qed.

(** C24: a run cannot set the variables of the credential bootstrap itself: when
    its composition resolves, the value each of them has in the effective run is
    the one its profile layers give. *)
Theorem reserved_env_inherited obj w effective status n profile harnessProfile :
  resolveAgentRunComposition obj w = (effective, inr status) →
  resolveAgentRunProfileObject obj w = inr profile →
  resolveAgentHarnessProfileObject (run_Namespace obj)
    (selectedAgentHarnessProfileRef profile obj) w = inr harnessProfile →
  n ∈ agentRunReservedCredentialBootstrapEnvironment →
  lastNamed envNamed env_Name n (ex_ExtraEnv (har_Execution (rs_Harness (run_Spec effective))))
  = lastNamed envNamed env_Name n (inheritedEnv obj profile harnessProfile).
Proof.
  intros (profile' & hp & council & Hc)%composed_of Hp Hh Hn.
  rewrite (cp_profile _ _ _ _ _ _ _ Hc) in Hp. injection Hp as ->.
  rewrite (cp_harness _ _ _ _ _ _ _ Hc) in Hh. injection Hh as ->.
  destruct (cp_caps _ _ _ _ _ _ _ Hc) as (? & ? & ? & ? & ? & _ & _ & _ & -> & _).
  assert (Hrun : Forall (λ e, env_Name e ≠ n) (ex_ExtraEnv (har_Execution (rs_Harness (run_Spec obj))))).
  { pose proof (cp_env _ _ _ _ _ _ _ Hc) as He.
    apply fmap_None in He. apply list_find_None in He. apply (Forall_impl _ _ _ He).
    intros e Hr <-. apply Hr. by rewrite (proj1 (Forall_forall _ _) reserved_trimmed _ Hn). }
  destruct (composed_env obj profile harnessProfile) as [E|[E1 E2]].
  - etransitivity; [exact (f_equal _ E)|]. unfold mergeEnvVars. rewrite mergeKeyed_last by done.
    by apply lastNamed_app_none.
  - etransitivity; [exact (f_equal _ E2)|]. rewrite E1. by apply (lastNamed_app_none _ _ _ []).
Qed.

(** ** The sets a run uses *)

(** The bookkeeping of attached sets: the keys seen are those of the sets
    resolved, each once, and every set is one that [P] allows. *)
Definition attachedOk {A} (keyOf : A → string) (P : A → Prop) (acc : Attached A) : Prop :=
  (∀ k, is_Some (fst acc !! k) ↔ k ∈ map keyOf (snd acc))
  ∧ NoDup (map keyOf (snd acc)) ∧ Forall P (snd acc).

Lemma attach_ok {A} keyOf apply kind reason b P (acc acc' : Attached A) x c c' :
  attachedOk keyOf P acc → P x → attach keyOf apply kind reason b acc x c = (c', inr acc') →
  attachedOk keyOf P acc'.
Proof.
  destruct acc as [seen resolved]. intros (Hk & Hnd & HP) Hx. unfold attach.
  destruct (seen !! keyOf x) as [flag|] eqn:E.
  - destruct (_ && _); [|done]. by intros [= _ <-].
  - intros ([] & c1 & _ & [= _ <-])%mbnd_inr. unfold attachedOk. cbn [fst snd] in *.
    assert (Hnew : keyOf x ∉ map keyOf resolved) by (rewrite <- Hk, E; by intros []).
    rewrite map_app. cbn [map]. split_and!.
    + intros k. rewrite elem_of_app, list_elem_of_singleton, <- Hk.
      destruct (decide (keyOf x = k)) as [<-|Hne].
      * rewrite lookup_insert_eq. naive_solver.
      * rewrite lookup_insert_ne by done. naive_solver.
    + apply NoDup_app. split_and!; [done| |apply NoDup_singleton].
      intros k Hin ->%list_elem_of_singleton. done.
    + apply Forall_app. auto.
Qed.

Lemma attachedOk_empty {A} keyOf (P : A → Prop) : attachedOk keyOf P (∅, []).
Proof.
  split_and!; cbn; [|constructor|constructor]. intros k. rewrite lookup_empty.
  split; [by intros []|]. by intros ?%list_elem_of_nil || by intros ?%elem_of_nil.
Qed.

Context `{!LibraryLaws W}.

Definition skillSetIn (ns : string) (s : AgentSkillSet) : Prop := meta_Namespace (ss_ObjectMeta s) = ns.
Definition toolSetIn (ns : string) (s : AgentToolSet) : Prop := meta_Namespace (ts_ObjectMeta s) = ns.

Lemma fetch_inr {A} (r : GoErr + A) reason message a : fetch r reason message = inr a → r = inr a.
Proof. unfold fetch. by destruct r as [e|]; [destruct (IsNotFound e)|]; intros [= ->]. Qed.
Lemma andThen_inr {A B} (r : Halt + A) (k : A → Halt + B) b :
  andThen r k = inr b → ∃ a, r = inr a ∧ k a = inr b.
Proof. destruct r; simpl; [done|eauto]. Qed.

Lemma skillComposition_ok obj w acc comp c c' acc' :
  attachedOk skillSetKey (skillSetIn (run_Namespace obj)) acc →
  applySkillComposition obj w acc comp c = (c', inr acc') →
  attachedOk skillSetKey (skillSetIn (run_Namespace obj)) acc'.
Proof.
  destruct comp as [comp|]; cbn [applySkillComposition]; [|by intros ? [= _ <-]].
  intros Hacc (a & c1 & E & ([] & c2 & _ & [= _ <-])%mbnd_inr)%mbnd_inr. revert E.
  apply mforeach_acc; [done|]. intros b ref d d' b' Hb _.
  intros (s & d1 & [= _ Hs] & E)%mbnd_inr. eapply attach_ok; [done| |done].
  apply andThen_inr in Hs as (name & _ & Hs). apply fetch_inr in Hs. by eapply getSkillSet_meta.
Qed.
Lemma toolComposition_ok obj w acc comp c c' acc' :
  attachedOk toolSetKey (toolSetIn (run_Namespace obj)) acc →
  applyToolComposition obj w acc comp c = (c', inr acc') →
  attachedOk toolSetKey (toolSetIn (run_Namespace obj)) acc'.
Proof.
  destruct comp as [comp|]; cbn [applyToolComposition]; [|by intros ? [= _ <-]].
  intros Hacc. apply mforeach_acc; [done|]. intros b ref d d' b' Hb _.
  intros (s & d1 & [= _ Hs] & E)%mbnd_inr. eapply attach_ok; [done| |done].
  apply andThen_inr in Hs as (name & _ & Hs). apply fetch_inr in Hs. by eapply getToolSet_meta.
Qed.

Lemma globalSkillSets_in ns w l s : listGlobalAgentSkillSets ns w = inr l → s ∈ l →
  skillSetIn ns s ∧ sss_Global (ss_Spec s) = true.
Proof.
  unfold listGlobalAgentSkillSets. destruct (listSkillSets ns w) as [e|items] eqn:E; [done|].
  intros [= <-]. rewrite merge_sort_Permutation. intros [Hg Hin]%list_elem_of_filter.
  split; [by eapply listSkillSets_ns|done].
Qed.
Lemma globalToolSets_in ns w l s : listGlobalAgentToolSets ns w = inr l → s ∈ l →
  toolSetIn ns s ∧ tss_Global (ts_Spec s) = true.
Proof.
  unfold listGlobalAgentToolSets. destruct (listToolSets ns w) as [e|items] eqn:E; [done|].
  intros [= <-]. rewrite merge_sort_Permutation. intros [Hg Hin]%list_elem_of_filter.
  split; [by eapply listToolSets_ns|done].
Qed.

Lemma resolveSkills_ok obj profile w c c' l :
  resolveAgentSkillComposition obj profile w c = (c', inr l) →
  NoDup (map skillSetKey l) ∧ Forall (skillSetIn (run_Namespace obj)) l.
Proof.
  unfold resolveAgentSkillComposition.
  intros (a1 & c1 & E1 & (a2 & c2 & E2 & (a3 & c3 & E3 & [= _ <-])%mbnd_inr)%mbnd_inr)%mbnd_inr.
  assert (H1' : attachedOk skillSetKey (skillSetIn (run_Namespace obj)) a1).
  { destruct (agentRunExcludeGlobalSkills _ _); [injection E1 as _ <-; apply attachedOk_empty|].
    destruct (listGlobalAgentSkillSets _ _) as [|globals] eqn:Eg; [done|]. revert E1.
    apply mforeach_acc; [apply attachedOk_empty|]. intros b s ? ? b' Hb Hin. apply attach_ok; [done|].
    by eapply globalSkillSets_in. }
  assert (H2' : attachedOk skillSetKey (skillSetIn (run_Namespace obj)) a2).
  { destruct (match rs_SkillSets _ with Some _ => _ | None => false end); [by injection E2 as _ <-|].
    by eapply skillComposition_ok. }
  eapply skillComposition_ok in E3 as (_ & ? & ?); done.
Qed.
Lemma resolveTools_ok obj profile w c c' l :
  resolveAgentToolComposition obj profile w c = (c', inr l) →
  NoDup (map toolSetKey l) ∧ Forall (toolSetIn (run_Namespace obj)) l.
Proof.
  unfold resolveAgentToolComposition.
  intros (a1 & c1 & E1 & (a2 & c2 & E2 & (a3 & c3 & E3 & [= _ <-])%mbnd_inr)%mbnd_inr)%mbnd_inr.
  assert (H1' : attachedOk toolSetKey (toolSetIn (run_Namespace obj)) a1).
  { destruct (agentRunExcludeGlobalTools _ _); [injection E1 as _ <-; apply attachedOk_empty|].
    destruct (listGlobalAgentToolSets _ _) as [|globals] eqn:Eg; [done|]. revert E1.
    apply mforeach_acc; [apply attachedOk_empty|]. intros b s ? ? b' Hb Hin. apply attach_ok; [done|].
    by eapply globalToolSets_in. }
  assert (H2' : attachedOk toolSetKey (toolSetIn (run_Namespace obj)) a2).
  { destruct (match rs_ToolSets _ with Some _ => _ | None => false end); [by injection E2 as _ <-|].
    by eapply toolComposition_ok. }
  eapply toolComposition_ok in E3 as (_ & ? & ?); done.
Qed.

Lemma NoDup_map_weaken {A B C} (f : A → B) (g : A → C) l :
  (∀ x y, x ∈ l → y ∈ l → g x = g y → f x = f y) → NoDup (map f l) → NoDup (map g l).
Proof.
  induction l as [|x l IH]; intros Hfg; [constructor|]. cbn [map]. rewrite !NoDup_cons.
  intros [Hx Hl]. split.
  - intros (y & E & Hy)%list_elem_of_fmap. apply Hx. apply list_elem_of_fmap. exists y. split; [|done].
    apply Hfg; [by left|by right|done].
  - apply IH; [|done]. intros y z Hy Hz. apply Hfg; by right.
Qed.

(** A composition stays in the run's namespace and uses each set once: the
    status names skill sets and tool sets of the run's namespace only, no two of
    them the same. *)
Theorem composition_local obj w effective status :
  resolveAgentRunComposition obj w = (effective, inr status) →
  Forall (λ r, ror_Namespace r = run_Namespace obj) (rcs_SkillSetRefs status)
  ∧ Forall (λ r, ror_Namespace r = run_Namespace obj) (rcs_ToolSetRefs status)
  ∧ NoDup (map ror_Name (rcs_SkillSetRefs status)) ∧ NoDup (map ror_Name (rcs_ToolSetRefs status)).
Proof.
  intros (profile & hp & council & Hc)%composed_of.
  destruct (cp_caps _ _ _ _ _ _ _ Hc) as (sk & tl & c1 & c2 & c3 & E1 & E2 & _ & _ & ->).
  apply resolveSkills_ok in E1 as [N1 F1]. apply resolveTools_ok in E2 as [N2 F2].
  cbn. rewrite !Forall_fmap, <- !list_fmap_compose. split_and!; [done|done|..].
  - eapply NoDup_map_weaken; [|exact N1]. intros x y Hx Hy E.
    rewrite Forall_forall in F1. unfold skillSetKey. by rewrite (F1 x Hx), (F1 y Hy), (E : meta_Name _ = meta_Name _).
  - eapply NoDup_map_weaken; [|exact N2]. intros x y Hx Hy E.
    rewrite Forall_forall in F2. unfold toolSetKey. by rewrite (F2 x Hx), (F2 y Hy), (E : meta_Name _ = meta_Name _).
Qed.
End theorems.

(** ** A concrete composition *)

(** A manager profile with a GitHub token, a namespace-global skill set that
    brings a create-agent skill of its own, and a council. *)
Definition fx_manager : AgentRunProfile :=
  mkAgentRunProfile (fx_meta "agents" "shop-agent-manager" "uid-p" fx_epoch ∅)
    (zero_AgentRunProfileSpec <| ps_Harness := zero_AgentRunHarnessSpec <| har_Execution :=
       zero_AgentRunHarnessExecutionSpec <| ex_ExtraEnv := [mkEnvVar "GH_TOKEN" "t" None] |> |> |>).
Definition fx_impostor : AgentSkillSet :=
  mkAgentSkillSet (fx_meta "agents" "extras" "uid-s" fx_epoch ∅)
    (mkAgentSkillSetSpec "" true
       [mkAgentRunSkillInjectionSpec "create-agent" "" "mine" [] [];
        mkAgentRunSkillInjectionSpec "review" "" "look twice" [] []] [] []).
Definition fx_council : AgentCouncil :=
  mkAgentCouncil (fx_meta "agents" "board" "uid-c" fx_epoch ∅)
    (mkAgentCouncilSpec "" [mkAgentCouncilMemberSpec "lead"
       (mkNamespacedObjectReference "shop-agent-manager" "") ""] " talk ").

Definition fx_library : Library MemCluster := {|
  getHarnessProfile _ _ _ := inl (notFound "AgentHarnessProfile");
  getSkillSet ns n _ := if String.eqb ns "agents" && String.eqb n "extras" then inr fx_impostor
                        else inl (notFound "AgentSkillSet");
  listSkillSets ns _ := inr (if String.eqb ns "agents" then [fx_impostor] else []);
  getToolSet _ _ _ := inl (notFound "AgentToolSet");
  listToolSets _ _ := inr [];
  getCouncil _ _ _ := inr fx_council |}.
#[local] Existing Instance fx_library.

Lemma fx_library_laws : LibraryLaws MemCluster.
Proof.
  split; cbn; try done.
  - intros w ns n s. destruct (String.eqb_spec ns "agents"), (String.eqb_spec n "extras"); cbn; try done.
    intros [= <-]. by subst.
  - intros w ns l s. destruct (String.eqb_spec ns "agents"); intros [= <-] Hs; [|by apply not_elem_of_nil in Hs].
    apply list_elem_of_singleton in Hs. by subst.
  - intros w ns l s [= <-] Hs. by apply not_elem_of_nil in Hs.
Qed.

Definition fx_composing_run : AgentRun :=
  fx_run "agents" "r" fx_epoch ∅
    ((fx_spec "shop") <| rs_ProfileRef := Some (mkNamespacedObjectReference "shop-agent-manager" "") |>
       <| rs_CouncilRef := Some (mkNamespacedObjectReference "board" "") |>) "".
Definition fx_composing_world : MemCluster :=
  mkMem (mkView ∅ ∅ ∅ ∅ {[("agents", "shop-agent-manager") := fx_manager]}) fx_epoch 0.

(** A stand-in for the JSON encoders. *)
Definition fx_no_json {A} : Marshal A := λ _, None.
#[local] Existing Instance fx_no_json.

Definition fx_composed : AgentRun * (Halt + AgentRunResolvedCompositionStatus) :=
  resolveAgentRunComposition fx_composing_run fx_composing_world.
Definition fx_effective : AgentRun := fst fx_composed.
Definition fx_composition_status : AgentRunResolvedCompositionStatus :=
  match snd fx_composed with inr s => s | inl _ => zero_AgentRunResolvedCompositionStatus end.

Lemma fx_composed_ok :
  resolveAgentRunComposition fx_composing_run fx_composing_world
  = (fx_effective, inr fx_composition_status).
Proof. vm_compute. reflexivity. Qed.

Example composition_names_distinct_witness :
  map skillKey (har_SkillInjections (rs_Harness (run_Spec fx_effective)))
    = ["create-agent"; "review"; "council-board"]
  ∧ NoDup (map skillKey (har_SkillInjections (rs_Harness (run_Spec fx_effective)))).
Proof.
  split; [vm_compute; reflexivity|].
  apply (composition_names_distinct fx_composing_run fx_composing_world fx_effective fx_composition_status).
  exact fx_composed_ok.
Defined.

Example create_agent_reserved_witness :
  createAgentSkill ∈ har_SkillInjections (rs_Harness (run_Spec fx_effective)).
Proof.
  apply (create_agent_reserved fx_composing_run fx_composing_world fx_effective fx_composition_status
           (Some fx_manager) fx_composed_ok); vm_compute; reflexivity.
Defined.

Example council_guidance_witness :
  councilSkill fx_council "talk" ∈ har_SkillInjections (rs_Harness (run_Spec fx_effective)).
Proof.
  refine (proj1 (proj2 (council_guidance fx_composing_run fx_composing_world fx_effective
    fx_composition_status (Some fx_manager) fx_council fx_composed_ok _ _ _ _
    (councilSkill fx_council "talk")) _)); vm_compute; reflexivity.
Defined.

Example reserved_env_inherited_witness :
  "GH_TOKEN" ∈ agentRunReservedCredentialBootstrapEnvironment
  ∧ lastNamed envNamed env_Name "GH_TOKEN"
      (ex_ExtraEnv (har_Execution (rs_Harness (run_Spec fx_effective))))
    = Some (mkEnvVar "GH_TOKEN" "t" None).
Proof.
  assert (Hn : "GH_TOKEN" ∈ agentRunReservedCredentialBootstrapEnvironment)
    by (apply (bool_decide_eq_true_1 _); vm_compute; reflexivity).
  split; [exact Hn|]. etransitivity.
  - refine (reserved_env_inherited fx_composing_run fx_composing_world fx_effective
      fx_composition_status "GH_TOKEN" (Some fx_manager) None fx_composed_ok _ _ Hn);
      vm_compute; reflexivity.
  - vm_compute; reflexivity.
Defined.

Example composition_local_witness :
  map ror_Name (rcs_SkillSetRefs fx_composition_status) = ["extras"]
  ∧ Forall (λ r, ror_Namespace r = "agents") (rcs_SkillSetRefs fx_composition_status).
Proof.
  split; [vm_compute; reflexivity|].
  refine (proj1 (@composition_local MemCluster _ fx_library _ _ _ _ _ _ fx_library_laws
    fx_composing_run fx_composing_world fx_effective fx_composition_status fx_composed_ok)).
Defined.
