(* ===== verification/Webhook.v ===== *)
(** * Webhook deliveries

    src/internal/runapi/external_triggers.go and external_triggers_hmac.go: the
    receiver of the API server for GitHub webhooks.  [handleExternalTriggerWebhook]
    is the whole HTTP handler: it authenticates a delivery, checks it against the
    trigger, creates or annotates AgentRuns, and records the delivery. *)

From stdpp Require Import base list gmap strings.
From Stdlib Require Import ZArith Lia Ascii.
From S2P Require Import Prelude GoStrings GoTime Sha256 Hmac Names ApiRun ApiWork ApiTrigger Kube RunControl Merge Capabilities Composition.

Open Scope Z_scope.

(** ** Requests and responses *)

(** A POST to /api/v1/external-triggers/{namespace}/{name}/{receiverID}: the path
    values, the headers X-Hub-Signature-256, X-Anvil-Trigger-Token,
    X-GitHub-Delivery and X-GitHub-Event, and the body or the error of reading it. *)
Record WebhookRequest := mkWebhookRequest {
  wr_Namespace : string; wr_Name : string; wr_ReceiverID : string;
  wr_Signature : string; wr_Token : string; wr_Delivery : string; wr_Event : string;
  wr_Body : GoErr + string }.

(** [writeAPIError] with its status, code and message, or the JSON answer. *)
Inductive Response :=
  | ApiError (status : Z) (code message : string)
  | Delivered (status : Z) (duplicate : bool) (deliveryID : string) (runRefs : list NamespacedObjectReference).

(** The fields of the payload that are decoded. *)
Record githubWebhookPayload := mkPayload {
  gh_Action : string;
  gh_RepositoryFullName : string;
  gh_RepositoryName : string;
  gh_RepositoryOwner : string;
  gh_Sender : string;
  gh_IssueNumber : Z;
  gh_IssueTitle : string;
  gh_PullRequestNumber : Z;
  gh_PullRequestTitle : string;
  gh_Ref : string;
  gh_Before : string;
  gh_After : string;
  gh_CommentBody : string }.
(** Go: [json.Unmarshal] into a payload. *)
Class PayloadDecoder := decodePayload : string → option githubWebhookPayload.

Record externalTriggerDeliveryContext := mkDelivery {
  dl_DeliveryID : string;
  dl_EventType : string;
  dl_Repository : string;
  dl_Action : string;
  dl_Summary : string;
  dl_AcceptedAt : Time;
  dl_PayloadHint : string }.
(** What is annotated to a run, as JSON. *)
Record DeliveryNote := mkDeliveryNote {
  dn_triggerName : string; dn_deliveryID : string; dn_eventType : string; dn_repository : string;
  dn_summary : string; dn_acceptedAt : string }.

(** The client of the receiver, beside [Client] and [Library]: a status patch is the
    merge patch from the first status to the second. *)
Class TriggerClient (W : Type) := {
  getTrigger : string → string → W → GoErr + AgentExternalTrigger;
  patchTriggerStatus : key → AgentExternalTriggerStatus → AgentExternalTriggerStatus → M W GoErr unit;
  getSecretData : string → string → W → GoErr + gmap string string;
  patchRunAnnotation : key → string → string → M W GoErr unit }.

(** ** Constants *)

Definition externalTriggerMaxBodyBytes : nat := Z.to_nat (256 * 1024).
Definition externalTriggerSummaryMaxRunes : nat := 512.
Definition externalTriggerPromptMaxRunes : nat := 4096.
Definition externalTriggerSeenDeliveryLimit : nat := 64.
Definition externalTriggerDefaultPrompt : string :=
  "GitHub webhook delivery {{deliveryID}} for {{repository}} (event {{eventType}})." +:+ nl +:+ nl +:+ "{{summary}}".
Definition githubSignaturePrefix : string := "sha256=".
Definition createdByLabel : string := "control.anvil.hazyforge.io/created-by".

Definition aet_key (t : AgentExternalTrigger) : key := (aet_Namespace t, aet_Name t).

(** ** Authentication *)

(** The error of the verification, [None] when the signature is that of the body. *)
Definition verifyGitHubSignature256 (secret signatureHeader body : string) : option string :=
  let signatureHeader := TrimSpace signatureHeader in
  if bool_decide (signatureHeader = "") then Some "missing X-Hub-Signature-256"
  else if negb (HasPrefix signatureHeader githubSignaturePrefix) then Some "unsupported signature scheme"
  else
  match hexDecode (unbytes (drop (String.length githubSignaturePrefix) (bytes signatureHeader))) with
  | None => Some "invalid signature encoding"
  | Some provided =>
      if bool_decide (secret = "") then Some "webhook secret is empty"
      else if bool_decide (provided = hmacSha256 (byteCodes secret) (byteCodes body)) then None
      else Some "signature mismatch"
  end.

(** The comparison in constant time: the bytes that differ are collected in [v]. *)
Fixpoint xorBytes (a b : list ascii) (v : N) : N :=
  match a, b with
  | x :: a, y :: b => xorBytes a b (N.lor v (N.lxor (code x) (code y)))
  | _, _ => v
  end.
Definition hmacEqualString (a b : string) : bool :=
  if negb (String.length a =? String.length b)%nat then false else (xorBytes (bytes a) (bytes b) 0 =? 0)%N.

(** ** Texts *)

Definition truncateToRunes (value : string) (max : nat) : string :=
  if (max =? 0)%nat || bool_decide (value = "") then ""
  else if (length (runes (bytes value)) <=? max)%nat then value
  else unbytes (concat (take max (runes (bytes value)))).

(** Go: [strings.NewReplacer(pairs...).Replace]: at each place the first pair that
    matches is replaced, and what is put in is not looked at again; [skip] bytes of a
    match remain to be dropped. *)
Fixpoint replaceFrom (pairs : list (string * string)) (skip : nat) (s : string) : string :=
  match s with
  | EmptyString => EmptyString
  | String c rest =>
      match skip with
      | S skip => replaceFrom pairs skip rest
      | O =>
          match find (λ pair, HasPrefix s pair.1) pairs with
          | Some (old, new) => new +:+ replaceFrom pairs (String.length old - 1) rest
          | None => String c (replaceFrom pairs 0 rest)
          end
      end
  end.
Definition renderExternalTriggerPrompt (template : string) (delivery : externalTriggerDeliveryContext) : string :=
  let text := TrimSpace template in
  let text := if bool_decide (text = "") then externalTriggerDefaultPrompt else text in
  replaceFrom [("{{eventType}}", dl_EventType delivery); ("{{repository}}", dl_Repository delivery);
               ("{{deliveryID}}", dl_DeliveryID delivery); ("{{summary}}", dl_PayloadHint delivery)] 0 text.

Definition agentRunChildNameLocal (parts : list string) : string :=
  let tokens := filter (λ t, t ≠ "") (map sanitizeLabelValue parts) in
  let name := Join tokens "-" in
  if (String.length name <=? 63)%nat then name else
  let suffix := default "" (last tokens) in
  if (String.length suffix <? 63)%nat then
    let prefixMax := (63 - String.length suffix - 1)%nat in
    TrimDash (takeStr prefixMax name) +:+ "-" +:+ suffix
  else takeStr 63 suffix.
Definition externalTriggerRunName (triggerName deliveryID profileName : string) : string :=
  let hash := shortHash (Join [triggerName; deliveryID; profileName] "|") in
  agentRunChildNameLocal ["agentrun"; triggerName; "gh"; hash].

(** ** The payload *)

Definition labelled (name value : string) : list string :=
  if bool_decide (value = "") then [] else [name +:+ value].
Definition numbered (name : string) (number : Z) (title : string) : list string :=
  if 0 <? number
  then (name +:+ "=#" +:+ fmtZ number) :: (if blank title then [] else ["title=" +:+ truncateToRunes (TrimSpace title) 120])
  else [].
Definition buildGitHubPayloadSummary (payload : githubWebhookPayload) (repo : string) : string :=
  let parts := labelled "repo=" repo ++ labelled "action=" (TrimSpace (gh_Action payload))
    ++ numbered "pr" (gh_PullRequestNumber payload) (gh_PullRequestTitle payload)
    ++ numbered "issue" (gh_IssueNumber payload) (gh_IssueTitle payload)
    ++ labelled "ref=" (TrimSpace (gh_Ref payload)) ++ labelled "sender=" (TrimSpace (gh_Sender payload))
    ++ (if blank (gh_CommentBody payload) then [] else ["comment=" +:+ truncateToRunes (TrimSpace (gh_CommentBody payload)) 160]) in
  if bool_decide (parts = []) then "github webhook delivery"
  else truncateToRunes (Join parts " ") externalTriggerSummaryMaxRunes.

Definition parseGitHubWebhookPayload `{PayloadDecoder} (body : string) : option (githubWebhookPayload * string * string) :=
  match decodePayload body with
  | None => None
  | Some payload =>
      let repo := TrimSpace (gh_RepositoryFullName payload) in
      let owner := TrimSpace (gh_RepositoryOwner payload) in
      let name := TrimSpace (gh_RepositoryName payload) in
      let repo := if bool_decide (repo = "") && negb (bool_decide (owner = "")) && negb (bool_decide (name = ""))
                  then owner +:+ "/" +:+ name else repo in
      Some (payload, repo, buildGitHubPayloadSummary payload repo)
  end.

(** ** Checks against the trigger *)

Definition githubRepositoryAllowed (github : option AgentExternalTriggerGitHubSpec) (repo : string) : bool :=
  match github with
  | None => false
  | Some github =>
      let repo := ToLower (TrimSpace repo) in
      if bool_decide (repo = "") then false
      else existsb (λ allowed, bool_decide (ToLower (TrimSpace allowed) = repo)) (tgh_Repositories github)
  end.
Definition githubEventAllowed (github : option AgentExternalTriggerGitHubSpec) (eventType : string) : bool :=
  match github with
  | None => false
  | Some github =>
      if bool_decide (tgh_Events github = []) then true
      else existsb (λ allowed, bool_decide (ToLower (TrimSpace allowed) = ToLower (TrimSpace eventType))) (tgh_Events github)
  end.

Definition externalTriggerSeenDelivery (seen : list string) (deliveryID : string) : bool :=
  existsb (λ id, bool_decide (id = TrimSpace deliveryID)) seen.
Definition appendSeenDeliveryID (seen : list string) (deliveryID : string) : list string :=
  if externalTriggerSeenDelivery seen deliveryID then seen else
  let seen := seen ++ [deliveryID] in
  if (externalTriggerSeenDeliveryLimit <? length seen)%nat
  then drop (length seen - externalTriggerSeenDeliveryLimit) seen else seen.

(** Go: [t.UTC().Format("2006-01-02")]. *)
Definition FormatDay (t : Time) : string := takeStr 10 (FormatRFC3339 t).
Definition ensureExternalTriggerDailyBudget (trigger : AgentExternalTrigger) (now : Time) : option string :=
  let limit := ext_MaxDeliveriesPerDay (aet_Spec trigger) in
  if limit <=? 0 then None else
  let day := FormatDay now in
  let status := aet_Status trigger in
  let count := if bool_decide (exs_DeliveriesTodayDate status = day) then exs_DeliveriesToday status else 0 in
  if limit <=? count then Some ("maxDeliveriesPerDay " +:+ fmtZ limit +:+ " reached for " +:+ day) else None.

(** The status that records an accepted delivery. *)
Definition recordedStatus (delivery : externalTriggerDeliveryContext) (runRefs : list NamespacedObjectReference)
    (status : AgentExternalTriggerStatus) : AgentExternalTriggerStatus :=
  let day := FormatDay (dl_AcceptedAt delivery) in
  let today := if bool_decide (exs_DeliveriesTodayDate status = day) then exs_DeliveriesToday status else 0 in
  status <| exs_DeliveriesTodayDate := day |> <| exs_DeliveriesToday := wrap64 (today + 1) |>
    <| exs_DeliveryCount := wrap64 (exs_DeliveryCount status + 1) |>
    <| exs_LastDeliveryID := dl_DeliveryID delivery |> <| exs_LastDeliveryAt := Some (dl_AcceptedAt delivery) |>
    <| exs_LastEventType := dl_EventType delivery |> <| exs_LastError := "" |> <| exs_LastRunRefs := runRefs |>
    <| exs_SeenDeliveryIDs := appendSeenDeliveryID (exs_SeenDeliveryIDs status) (dl_DeliveryID delivery) |>
    <| exs_Phase := if bool_decide (exs_Phase status = "") || bool_decide (exs_Phase status = AgentExternalTriggerPhasePending)
                    then AgentExternalTriggerPhaseReady else exs_Phase status |>.

(** ** Runs *)

(** The run that is created for a profile. *)
Definition externalTriggerRun (trigger : AgentExternalTrigger) (delivery : externalTriggerDeliveryContext)
    (profileName extraNote : string) (councilRef : option NamespacedObjectReference) : AgentRun :=
  let prompt := renderExternalTriggerPrompt (ext_PromptTemplate (aet_Spec trigger)) delivery in
  let prompt := if bool_decide (extraNote = "") then prompt else TrimSpace (prompt +:+ nl +:+ nl +:+ extraNote) in
  let prompt := truncateToRunes prompt externalTriggerPromptMaxRunes in
  mkAgentRun
    (zero_ObjectMeta <| meta_Name := externalTriggerRunName (aet_Name trigger) (dl_DeliveryID delivery) profileName |>
       <| meta_Namespace := aet_Namespace trigger |>
       <| meta_Labels := {[ AgentExternalTriggerLabel := sanitizeLabelValue (aet_Name trigger);
                            AgentExternalTriggerDeliveryIDLabel := sanitizeLabelValue (shortHash (dl_DeliveryID delivery));
                            createdByLabel := "anvil-agents-external-trigger" ]} |>)
    (zero_AgentRunSpec <| rs_Purpose := AgentRunPurposeManual |>
       <| rs_SourceRef := mkAgentRunSourceRef GroupVersion "AgentExternalTrigger" (aet_Namespace trigger) (aet_Name trigger) |>
       <| rs_SourceUID := aet_UID trigger |> <| rs_SourceGeneration := aet_Generation trigger |>
       <| rs_Trigger := zero_AgentRunTriggerSnapshot <| trg_Reason := "GitHubWebhookDelivery" |>
            <| trg_Message := truncateToRunes (dl_EventType delivery +:+ " " +:+ dl_DeliveryID delivery +:+ " " +:+ dl_PayloadHint delivery) 2048 |>
            <| trg_DetectedAt := Some (dl_AcceptedAt delivery) |> |>
       <| rs_Prompt := prompt |> <| rs_ProfileRef := Some (mkNamespacedObjectReference profileName "") |>
       <| rs_CouncilRef := councilRef |>)
    zero_AgentRunStatus.

Definition deliveryRunRef (run : AgentRun) : NamespacedObjectReference := mkNamespacedObjectReference (run_Name run) (run_Namespace run).

Section handler.
Context {W : Type} `{Client W, Library W, TriggerClient W, PayloadDecoder, !Marshal DeliveryNote}.
Local Open Scope go_scope.

(** The webhook secret and the path token, empty when none is asked for. *)
Definition loadExternalTriggerSecrets (trigger : AgentExternalTrigger) (w : W) : GoErr + (string * string) :=
  let ref := ext_SecretRef (aet_Spec trigger) in
  let secretName := TrimSpace (tsr_Name ref) in
  if bool_decide (secretName = "") then inl (ErrText "secretRef.name is required") else
  match getSecretData (aet_Namespace trigger) secretName w with
  | inl e => inl e
  | inr data =>
      let key := if blank (tsr_WebhookSecretKey ref) then DefaultWebhookSecretKey else TrimSpace (tsr_WebhookSecretKey ref) in
      let webhookSecret := default "" (data !! key) in
      if bool_decide (webhookSecret = "")
      then inl (ErrText ("secret " +:+ quote secretName +:+ " key " +:+ quote key +:+ " is missing or empty"))
      else
      let pathKey := TrimSpace (tsr_PathTokenKey ref) in
      if bool_decide (pathKey = "") then inr (webhookSecret, "") else
      let pathToken := default "" (data !! pathKey) in
      if bool_decide (pathToken = "")
      then inl (ErrText ("secret " +:+ quote secretName +:+ " path token key " +:+ quote pathKey +:+ " is missing or empty"))
      else inr (webhookSecret, pathToken)
  end.

(** The error of a delivery that must wait for runs of the trigger. *)
Definition ensureExternalTriggerConcurrency (trigger : AgentExternalTrigger) (w : W) : option GoErr :=
  let policy := ext_ConcurrencyPolicy (aet_Spec trigger) in
  let policy := if bool_decide (policy = "") then AgentExternalTriggerConcurrencyForbid else policy in
  if negb (bool_decide (policy = AgentExternalTriggerConcurrencyForbid)) then None else
  match listRuns (Some (aet_Namespace trigger)) (Some (AgentExternalTriggerLabel, sanitizeLabelValue (aet_Name trigger))) w with
  | inl e => Some e
  | inr runs =>
      (λ run, ErrText ("active AgentRun " +:+ run_Name run +:+ " blocks Forbid concurrency"))
        <$> find (λ run, negb (agentRunPhaseTerminal (run_Phase run))) runs
  end.

Definition createExternalTriggerRun (trigger : AgentExternalTrigger) (delivery : externalTriggerDeliveryContext)
    (profileName extraNote : string) (councilRef : option NamespacedObjectReference) : M W GoErr AgentRun :=
  let profileName := TrimSpace profileName in
  if bool_decide (profileName = "") then mfail (ErrText "profileName is required") else
  let run := externalTriggerRun trigger delivery profileName extraNote councilRef in
  let* created := mtry (createRun run) in
  match created with
  | inr stored => mret stored
  | inl e => if IsAlreadyExists e then mread (getRun (run_Namespace run) (run_Name run)) else mfail e
  end.

Definition annotateAgentRunWithExternalTriggerDelivery (run : AgentRun) (trigger : AgentExternalTrigger)
    (delivery : externalTriggerDeliveryContext) : M W GoErr unit :=
  match jsonMarshal (mkDeliveryNote (aet_Name trigger) (dl_DeliveryID delivery) (dl_EventType delivery)
          (dl_Repository delivery) (dl_PayloadHint delivery) (FormatRFC3339 (dl_AcceptedAt delivery))) with
  | None => mfail (ErrText "json: unsupported value")
  | Some payload => patchRunAnnotation (run_key run) AgentExternalTriggerDeliveryAnnotation payload
  end.

(** One member of a council: the references so far and the number of matches. *)
Definition deliverCouncilMember (trigger : AgentExternalTrigger) (delivery : externalTriggerDeliveryContext)
    (council : AgentCouncil) (deliveryMode : string) (acc : list NamespacedObjectReference * nat)
    (member : AgentCouncilMemberSpec) : M W GoErr (list NamespacedObjectReference * nat) :=
  let '(refs, matched) := acc in
  let role := TrimSpace (mem_Role member) in
  let profileName := TrimSpace (ref_Name (mem_ProfileRef member)) in
  let namespace := ref_Namespace (mem_ProfileRef member) in
  if bool_decide (profileName = "") then mret (refs, matched)
  else if negb (bool_decide (namespace = "")) && negb (bool_decide (namespace = aet_Namespace trigger))
  then mfail (ErrText ("council member profileRef namespace must be empty or " +:+ aet_Namespace trigger))
  else if negb (bool_decide (deliveryMode = AgentExternalTriggerCouncilDeliveryAllMembers)) && negb (bool_decide (role = deliveryMode))
  then mret (refs, matched)
  else
    let note := "Council " +:+ council_Name council +:+ " member role " +:+ quote role +:+ "." in
    let* run := createExternalTriggerRun trigger delivery profileName note
                  (Some (mkNamespacedObjectReference (council_Name council) "")) in
    mret (refs ++ [deliveryRunRef run], S matched).

Definition deliverExternalTriggerCouncil (trigger : AgentExternalTrigger) (target : AgentExternalTriggerTargetSpec)
    (delivery : externalTriggerDeliveryContext) : M W GoErr (list NamespacedObjectReference) :=
  let* council := mread (getCouncil (aet_Namespace trigger) (TrimSpace (tgt_Name target))) in
  let deliveryMode := TrimSpace (tgt_CouncilDelivery target) in
  let deliveryMode := if bool_decide (deliveryMode = "") then AgentExternalTriggerCouncilDeliveryAllMembers else deliveryMode in
  let* delivered := mforeach (deliverCouncilMember trigger delivery council deliveryMode) (cos_Members (council_Spec council)) ([], 0%nat) in
  let '(refs, matched) := delivered in
  if (matched =? 0)%nat then
    if bool_decide (deliveryMode = AgentExternalTriggerCouncilDeliveryAllMembers)
    then mfail (ErrText ("council " +:+ council_Name council +:+ " has no member profiles"))
    else mfail (ErrText ("council " +:+ council_Name council +:+ " has no member with role " +:+ quote deliveryMode))
  else mret refs.

(** A run that has not ended is annotated; one that has is succeeded by another of
    its profile.  A run that does not exist has no profile. *)
Definition deliverExternalTriggerAgentRunTarget (trigger : AgentExternalTrigger) (target : AgentExternalTriggerTargetSpec)
    (delivery : externalTriggerDeliveryContext) : M W GoErr (list NamespacedObjectReference) :=
  let missing := ErrText ("AgentRun target " +:+ quote (tgt_Name target) +:+ " is missing or terminal without a profileRef to copy") in
  let* got := mtry (mread (getRun (aet_Namespace trigger) (TrimSpace (tgt_Name target)))) in
  match got with
  | inl e => if IsNotFound e then mfail missing else mfail e
  | inr existing =>
      if negb (agentRunPhaseTerminal (run_Phase existing)) then
        annotateAgentRunWithExternalTriggerDelivery existing trigger delivery ;;
        mret [deliveryRunRef existing]
      else
      let profileName := match rs_ProfileRef (run_Spec existing) with Some ref => TrimSpace (ref_Name ref) | None => "" end in
      if bool_decide (profileName = "") then mfail missing else
      let note := "Successor of AgentRun " +:+ tgt_Name target +:+ " (previous phase " +:+ run_Phase existing +:+ ")." in
      let* run := createExternalTriggerRun trigger delivery profileName note (rs_CouncilRef (run_Spec existing)) in
      mret [deliveryRunRef run]
  end.

Definition deliverExternalTriggerTarget (trigger : AgentExternalTrigger) (target : AgentExternalTriggerTargetSpec)
    (delivery : externalTriggerDeliveryContext) : M W GoErr (list NamespacedObjectReference) :=
  if bool_decide (tgt_Kind target = AgentExternalTriggerTargetAgentRunProfile) then
    let* run := createExternalTriggerRun trigger delivery (TrimSpace (tgt_Name target)) "" None in
    mret [deliveryRunRef run]
  else if bool_decide (tgt_Kind target = AgentExternalTriggerTargetAgentCouncil) then
    deliverExternalTriggerCouncil trigger target delivery
  else if bool_decide (tgt_Kind target = AgentExternalTriggerTargetAgentRun) then
    deliverExternalTriggerAgentRunTarget trigger target delivery
  else mfail (ErrText ("unsupported target kind " +:+ quote (tgt_Kind target))).

Definition deliverExternalTrigger (trigger : AgentExternalTrigger) (delivery : externalTriggerDeliveryContext) :
    M W GoErr (list NamespacedObjectReference) :=
  mforeach (λ refs target, let* created := deliverExternalTriggerTarget trigger target delivery in mret (refs ++ created))
    (ext_Targets (aet_Spec trigger)) [].

Definition recordExternalTriggerSuccess (trigger : AgentExternalTrigger) (delivery : externalTriggerDeliveryContext)
    (runRefs : list NamespacedObjectReference) : M W GoErr unit :=
  let* fresh := mread (getTrigger (aet_Namespace trigger) (aet_Name trigger)) in
  patchTriggerStatus (aet_key fresh) (aet_Status fresh) (recordedStatus delivery runRefs (aet_Status fresh)).

Definition recordExternalTriggerError (trigger : AgentExternalTrigger) (message : string) : M W GoErr unit :=
  let* got := mtry (mread (getTrigger (aet_Namespace trigger) (aet_Name trigger))) in
  match got with
  | inl _ => mret tt
  | inr fresh =>
      let* _ := mtry (patchTriggerStatus (aet_key fresh) (aet_Status fresh)
                        ((aet_Status fresh) <| exs_LastError := truncateToRunes message 1024 |>)) in
      mret tt
  end.

(** ** The handler *)

Definition readExternalTriggerBody (request : WebhookRequest) : GoErr + string :=
  match wr_Body request with
  | inl e => inl (ErrWrap "read body" e)
  | inr raw =>
      let raw := takeStr (S externalTriggerMaxBodyBytes) raw in
      if (externalTriggerMaxBodyBytes <? String.length raw)%nat
      then inl (ErrText ("request body exceeds " +:+ fmtNat externalTriggerMaxBodyBytes +:+ " bytes")) else inr raw
  end.

Definition refuseWith (status : Z) (code message : string) : M W GoErr Response := mret (ApiError status code message).
Definition webhookNotFound : M W GoErr Response := refuseWith 404 "not_found" "resource not found".

(** The trigger accepts the delivery: runs are created and it is recorded. *)
Definition acceptDelivery (trigger : AgentExternalTrigger) (delivery : externalTriggerDeliveryContext) : M W GoErr Response :=
  let* delivered := mtry (deliverExternalTrigger trigger delivery) in
  match delivered with
  | inl e =>
      recordExternalTriggerError trigger (errorText e) ;;
      refuseWith 503 "delivery_failed" "delivery failed"
  | inr runRefs =>
      let* recorded := mtry (recordExternalTriggerSuccess trigger delivery runRefs) in
      match recorded with
      | inl _ => refuseWith 503 "status_update_failed" "delivery accepted but status update failed"
      | inr _ => mret (Delivered 202 false (dl_DeliveryID delivery) runRefs)
      end
  end.

(** An authenticated delivery: the checks of the trigger. *)
Definition admitDelivery (trigger : AgentExternalTrigger) (request : WebhookRequest) (body : string) (now : Time) :
    M W GoErr Response :=
  let spec := aet_Spec trigger in
  let status := aet_Status trigger in
  if ext_Suspend spec || bool_decide (exs_Phase status = AgentExternalTriggerPhaseSuspended)
  then refuseWith 409 "suspended" "trigger is suspended"
  else if bool_decide (exs_Phase status = AgentExternalTriggerPhaseBlocked) then refuseWith 409 "blocked" "trigger is blocked"
  else
  let deliveryID := TrimSpace (wr_Delivery request) in
  let eventType := TrimSpace (wr_Event request) in
  if bool_decide (deliveryID = "") then refuseWith 400 "missing_delivery_id" "X-GitHub-Delivery is required"
  else if bool_decide (eventType = "") then refuseWith 400 "missing_event_type" "X-GitHub-Event is required"
  else if externalTriggerSeenDelivery (exs_SeenDeliveryIDs status) deliveryID
  then mret (Delivered 200 true deliveryID (exs_LastRunRefs status))
  else
  match parseGitHubWebhookPayload body with
  | None => refuseWith 400 "invalid_payload" "payload is not valid JSON"
  | Some (payload, repo, summary) =>
      if negb (githubRepositoryAllowed (tso_GitHub (ext_Source spec)) repo)
      then refuseWith 403 "repository_not_allowed" "repository is not allowlisted"
      else if negb (githubEventAllowed (tso_GitHub (ext_Source spec)) eventType)
      then refuseWith 403 "event_not_allowed" "event type is not allowlisted"
      else
      match ensureExternalTriggerDailyBudget trigger now with
      | Some message => refuseWith 429 "daily_limit" message
      | None =>
          let* blocked := mread (λ w, inr (ensureExternalTriggerConcurrency trigger w)) in
          match blocked with
          | Some e => refuseWith 409 "concurrency_forbid" (errorText e)
          | None =>
              acceptDelivery trigger (mkDelivery deliveryID eventType repo (TrimSpace (gh_Action payload)) summary now
                                        (truncateToRunes summary externalTriggerSummaryMaxRunes))
          end
      end
  end.

(** [enabled]: the feature is on; [writable]: a write client is configured. *)
Definition handleExternalTriggerWebhook (enabled writable : bool) (request : WebhookRequest) (now : Time) : M W GoErr Response :=
  if negb enabled then webhookNotFound
  else if negb writable
  then refuseWith 503 "composition_write_disabled" "composition write client is not configured"
  else
  let namespace := TrimSpace (wr_Namespace request) in
  let name := TrimSpace (wr_Name request) in
  let receiverID := TrimSpace (wr_ReceiverID request) in
  if bool_decide (namespace = "") || bool_decide (name = "") || bool_decide (receiverID = "") then webhookNotFound else
  match readExternalTriggerBody request with
  | inl e => refuseWith 413 "payload_too_large" (errorText e)
  | inr body =>
      let* got := mtry (mread (getTrigger namespace name)) in
      match got with
      | inl e => if IsNotFound e then webhookNotFound else refuseWith 503 "kubernetes_unavailable" "trigger lookup failed"
      | inr trigger =>
          let known := exs_ReceiverID (aet_Status trigger) in
          if blank known || negb (bool_decide (known = receiverID)) then webhookNotFound else
          let* secrets := mtry (mread (loadExternalTriggerSecrets trigger)) in
          match secrets with
          | inl _ => refuseWith 503 "secret_unavailable" "webhook secret unavailable"
          | inr (secretValue, pathToken) =>
              if bool_decide (verifyGitHubSignature256 secretValue (wr_Signature request) body ≠ None)
              then refuseWith 401 "invalid_signature" "signature verification failed"
              else
              let provided := TrimSpace (wr_Token request) in
              if negb (bool_decide (pathToken = ""))
                 && (bool_decide (provided = "") || negb (hmacEqualString provided pathToken))
              then refuseWith 401 "invalid_path_token" "path token verification failed"
              else admitDelivery trigger request body now
          end
      end
  end.
End handler.
