(* ===== verification/WebhookSafety.v ===== *)
(** * Webhook deliveries: theorems

    What the receiver of [Webhook] promises to the owner of a trigger: nothing
    changes without the signature of the body and the checks of the trigger
    ([webhook_authenticated]); a delivery creates runs of the trigger in its
    namespace and records itself, and touches nothing else ([webhook_confined]); a
    delivery that was accepted is not taken again ([redelivery_ignored]) and the daily
    cap holds ([daily_cap_kept]). *)

From stdpp Require Import base list gmap strings.
From Stdlib Require Import ZArith Lia Ascii.
From S2P Require Import Prelude GoStrings GoTime Sha256 Hmac Names ApiRun ApiWork ApiTrigger Kube RunControl Merge Capabilities Composition Webhook.

Open Scope Z_scope.

(** ** The server *)

Record Hooks := mkHooks {
  hk_triggers : gmap key AgentExternalTrigger;
  hk_runs : gmap key AgentRun }.
#[export] Instance eta_Hooks : Eta Hooks := λ m, mkHooks (hk_triggers m) (hk_runs m).
Definition putTrigger (t : AgentExternalTrigger) (m : Hooks) : Hooks :=
  m <| hk_triggers := <[aet_key t := t]> (hk_triggers m) |>.
Definition putHookRun (r : AgentRun) (m : Hooks) : Hooks := m <| hk_runs := <[run_key r := r]> (hk_runs m) |>.

(** Versions of a trigger that differ in their status only, and of a run that differ
    in the annotation of deliveries only. *)
Definition sameTrigger (t t' : AgentExternalTrigger) : Prop :=
  aet_key t' = aet_key t ∧ aet_UID t' = aet_UID t ∧ aet_Generation t' = aet_Generation t ∧ aet_Spec t' = aet_Spec t.
Record sameRun (r r' : AgentRun) : Prop := mkSameRun {
  sr_key : run_key r' = run_key r;
  sr_UID : run_UID r' = run_UID r;
  sr_labels : run_Labels r' = run_Labels r;
  sr_spec : run_Spec r' = run_Spec r;
  sr_status : run_Status r' = run_Status r;
  sr_annotations a : a ≠ AgentExternalTriggerDeliveryAnnotation → run_Annotations r' !! a = run_Annotations r !! a }.

(** Documented behaviour: reads are those of the API server; a write is applied or
    refused, and an error can hide a write that was applied. *)
Class WebhookLaws (W : Type) `{Client W, TriggerClient W} := {
  hooks : W → Hooks;
  hook_run_key w k r : hk_runs (hooks w) !! k = Some r → run_key r = k;
  hook_getTrigger w ns n t :
    getTrigger ns n w = inr t → hk_triggers (hooks w) !! (ns, n) = Some t ∧ aet_key t = (ns, n);
  hook_getRun w ns n r : getRun ns n w = inr r → hk_runs (hooks w) !! (ns, n) = Some r;
  hook_listRuns w ns sel l k r :
    listRuns ns sel w = inr l → hk_runs (hooks w) !! k = Some r → matches ns sel r → r ∈ l;
  hook_createRun w w' r x :
    createRun r w = (w', x) →
    hooks w' = hooks w ∧ (∃ e, x = inl e)
    ∨ ∃ r', hk_runs (hooks w) !! run_key r = None ∧ createdFrom r r' ∧ hooks w' = putHookRun r' (hooks w);
  hook_annotate w w' k v x :
    patchRunAnnotation k AgentExternalTriggerDeliveryAnnotation v w = (w', x) →
    hooks w' = hooks w ∧ (∃ e, x = inl e)
    ∨ ∃ r r', hk_runs (hooks w) !! k = Some r ∧ sameRun r r' ∧ hooks w' = putHookRun r' (hooks w);
  hook_patchStatus w w' k base new x :
    patchTriggerStatus k base new w = (w', x) →
    hooks w' = hooks w ∧ (∃ e, x = inl e)
    ∨ ∃ t t', hk_triggers (hooks w) !! k = Some t ∧ sameTrigger t t' ∧ (aet_Status t = base → aet_Status t' = new)
       ∧ hooks w' = putTrigger t' (hooks w) }.
#[global] Arguments hooks W {_ _ _} w.

(** ** Signatures *)

Lemma fromHexChar_lowerByte c : fromHexChar (lowerByte c) = fromHexChar c.
Proof. by destruct c as [[] [] [] [] [] [] [] []]. Qed.
Lemma hexDecodeBytes_lower l : hexDecodeBytes (map lowerByte l) = hexDecodeBytes l.
Proof.
  remember (length l) as n eqn:En. revert l En. induction (lt_wf n) as [n _ IH]. intros l ->.
  destruct l as [|a [|b l]]; [done..|]. cbn [map hexDecodeBytes]. rewrite !fromHexChar_lowerByte.
  by rewrite (IH (length l) ltac:(cbn; lia) l eq_refl).
Qed.
Lemma prefix_split p s : HasPrefix s p = true → s = p +:+ unbytes (drop (String.length p) (bytes s)).
Proof.
  unfold HasPrefix. revert s. induction p as [|c p IH]; intros s.
  - intros _. change (s = unbytes (bytes s)). by rewrite unbytes_bytes.
  - destruct s as [|d s]; [done|]. cbn. destruct (ascii_dec c d) as [->|]; [|done]. intros Hp.
    change (String d s = String d (p +:+ unbytes (drop (String.length p) (bytes s)))). by rewrite <- IH.
Qed.
Lemma prefix_append p s : HasPrefix (p +:+ s) p = true.
Proof. unfold HasPrefix. induction p as [|c p IH]; [by destruct s|].
  change (String.prefix (String c p) (String c (p +:+ s)) = true). cbn. by destruct (ascii_dec c c).
Qed.
Lemma drop_prefix p s : unbytes (drop (String.length p) (bytes (p +:+ s))) = s.
Proof. rewrite bytes_app, <- length_bytes, drop_app_length. apply unbytes_bytes. Qed.

(** The body is signed with the secret: the header has the prefix and, in digits of
    either case, the HMAC-SHA-256 of the body. *)
Definition signed (secret header body : string) : Prop :=
  secret ≠ "" ∧ ∃ digits, TrimSpace header = githubSignaturePrefix +:+ digits
    ∧ map lowerByte (bytes digits) = bytes (hexEncode (hmacSha256 (byteCodes secret) (byteCodes body))).

(** The verification accepts exactly the signatures of the body. *)
Theorem signature_exact secret header body : verifyGitHubSignature256 secret header body = None ↔ signed secret header body.
Proof.
  unfold verifyGitHubSignature256, signed. set (mac := hmacSha256 _ _).
  assert (Forall (λ b, (b < 256)%N) mac) as Hmac by apply Sum256_bytes. clearbody mac. split.
  - case_bool_decide; [done|]. destruct (HasPrefix _ _) eqn:Ep; cbn [negb]; [|done].
    destruct (hexDecode _) as [provided|] eqn:Ed; [|done]. case_bool_decide as Hs; [done|]. case_bool_decide as He; [|done].
    intros _. subst provided. split; [done|]. eexists. split; [by apply prefix_split|]. by apply hexDecode_bytes in Ed as [? _].
  - intros [Hs (digits & Hh & Hd)]. rewrite bool_decide_eq_false_2 by (rewrite Hh; discriminate).
    rewrite Hh, prefix_append, drop_prefix. cbn [negb]. unfold hexDecode.
    rewrite <- (hexDecodeBytes_lower (bytes digits)), Hd. change (hexDecodeBytes (bytes (hexEncode mac))) with (hexDecode (hexEncode mac)).
    rewrite hexDecode_encode by done. rewrite bool_decide_eq_false_2 by done. by rewrite bool_decide_eq_true_2.
Qed.

Lemma xorBytes_zero a b v :
  length a = length b → xorBytes a b v = 0%N ↔ v = 0%N ∧ a = b.
Proof.
  revert b v. induction a as [|x a IH]; intros [|y b] v Hl; try done; cbn.
  { naive_solver. }
  rewrite IH by (cbn in Hl; lia). rewrite N.lor_eq_0_iff, N.lxor_eq_0_iff. unfold code. split.
  - intros [[-> Hxy] ->]. split; [done|]. f_equal. by rewrite <- (ascii_N_embedding x), <- (ascii_N_embedding y), Hxy.
  - intros [-> [= -> ->]]. done.
Qed.
Lemma hmacEqualString_eq a b : hmacEqualString a b = true ↔ a = b.
Proof.
  unfold hmacEqualString. destruct (Nat.eqb_spec (String.length a) (String.length b)) as [E|E]; cbn [negb].
  - rewrite N.eqb_eq, xorBytes_zero by by rewrite !length_bytes. split; [|by intros ->].
    intros [_ Hb]. by rewrite <- (unbytes_bytes a), <- (unbytes_bytes b), Hb.
  - split; [done|]. by intros ->.
Qed.

(** ** Deliveries *)

Section webhook.
Context {W : Type} `{Client W, Library W, TriggerClient W, !WebhookLaws W, PayloadDecoder, !Marshal DeliveryNote}.

(** The delivery that a request makes. *)
Definition deliveryOf (request : WebhookRequest) (repo summary : string) (payload : githubWebhookPayload) (now : Time) :=
  mkDelivery (TrimSpace (wr_Delivery request)) (TrimSpace (wr_Event request)) repo (TrimSpace (gh_Action payload)) summary now
    (truncateToRunes summary externalTriggerSummaryMaxRunes).

(** The request is authentic. *)
Record authentic (request : WebhookRequest) (trigger : AgentExternalTrigger) (body : string) (w : W) : Prop := mkAuthentic {
  au_stored : hk_triggers (hooks W w) !! (TrimSpace (wr_Namespace request), TrimSpace (wr_Name request)) = Some trigger;
  au_key : aet_key trigger = (TrimSpace (wr_Namespace request), TrimSpace (wr_Name request));
  au_receiver : exs_ReceiverID (aet_Status trigger) = TrimSpace (wr_ReceiverID request);
  au_body : readExternalTriggerBody request = inr body;
  au_secret : ∃ secret token, loadExternalTriggerSecrets trigger w = inr (secret, token)
    ∧ signed secret (wr_Signature request) body ∧ (token = "" ∨ TrimSpace (wr_Token request) = token) }.

(** The trigger takes the delivery. *)
Record admissible (request : WebhookRequest) (trigger : AgentExternalTrigger) (repo : string) (now : Time) (m : Hooks) : Prop :=
  mkAdmissible {
    ad_running : ext_Suspend (aet_Spec trigger) = false
      ∧ exs_Phase (aet_Status trigger) ∉ [AgentExternalTriggerPhaseSuspended; AgentExternalTriggerPhaseBlocked];
    ad_named : TrimSpace (wr_Delivery request) ≠ "" ∧ TrimSpace (wr_Event request) ≠ "";
    ad_new : TrimSpace (wr_Delivery request) ∉ exs_SeenDeliveryIDs (aet_Status trigger);
    ad_repository : ∃ github allowed, tso_GitHub (ext_Source (aet_Spec trigger)) = Some github
      ∧ allowed ∈ tgh_Repositories github ∧ ToLower (TrimSpace allowed) = ToLower (TrimSpace repo) ∧ ToLower (TrimSpace repo) ≠ ""
      ∧ (tgh_Events github = [] ∨ ∃ event, event ∈ tgh_Events github
           ∧ ToLower (TrimSpace event) = ToLower (TrimSpace (wr_Event request)));
    ad_budget : ext_MaxDeliveriesPerDay (aet_Spec trigger) ≤ 0
      ∨ exs_DeliveriesTodayDate (aet_Status trigger) ≠ FormatDay now
      ∨ exs_DeliveriesToday (aet_Status trigger) < ext_MaxDeliveriesPerDay (aet_Spec trigger);
    ad_alone : ext_ConcurrencyPolicy (aet_Spec trigger) ∈ [""; AgentExternalTriggerConcurrencyForbid] →
      ∀ k r, hk_runs m !! k = Some r → run_Namespace r = aet_Namespace trigger →
        run_Labels r !! AgentExternalTriggerLabel = Some (sanitizeLabelValue (aet_Name trigger)) →
        agentRunPhaseTerminal (run_Phase r) = true }.

(** A run that stays: it is as it was, or it is a live target of the trigger and was
    annotated. *)
Definition touched (trigger : AgentExternalTrigger) (r r' : AgentRun) : Prop :=
  r' = r ∨ sameRun r r' ∧ agentRunPhaseTerminal (run_Phase r) = false ∧ run_Namespace r = aet_Namespace trigger
    ∧ ∃ target, target ∈ ext_Targets (aet_Spec trigger) ∧ tgt_Kind target = AgentExternalTriggerTargetAgentRun
        ∧ run_Name r = TrimSpace (tgt_Name target).

(** What a delivery does to runs: live targets are annotated, and runs of the trigger
    are created. *)
Record runsFrom (trigger : AgentExternalTrigger) (delivery : externalTriggerDeliveryContext) (m m' : Hooks) : Prop := mkRunsFrom {
  rf_triggers : hk_triggers m' = hk_triggers m;
  rf_kept k r : hk_runs m !! k = Some r → ∃ r', hk_runs m' !! k = Some r' ∧ touched trigger r r';
  rf_new k r' : hk_runs m' !! k = Some r' → hk_runs m !! k = None →
    ∃ profileName note councilRef r, TrimSpace profileName ≠ ""
      ∧ createdFrom (externalTriggerRun trigger delivery (TrimSpace profileName) note councilRef) r ∧ touched trigger r r' }.

Lemma sameRun_refl r : sameRun r r.
Proof. by split. Qed.
Lemma sameRun_trans r r' r'' : sameRun r r' → sameRun r' r'' → sameRun r r''.
Proof. intros [] []. split; try congruence. intros a Ha. by rewrite sr_annotations1, sr_annotations0. Qed.
Lemma touched_trans t r r' r'' : touched t r r' → touched t r' r'' → touched t r r''.
Proof.
  intros [->|(Hs & Ht & Hn & Htg)]; [done|]. intros [->|(Hs' & _)]; [by right|]. right. split_and!; try done. by eapply sameRun_trans.
Qed.
Lemma runsFrom_refl t d m : runsFrom t d m m.
Proof. split; [done| |congruence]. intros k r Hr. exists r. split; [done|by left]. Qed.
Lemma runsFrom_trans t d m m1 m2 : runsFrom t d m m1 → runsFrom t d m1 m2 → runsFrom t d m m2.
Proof.
  intros [T1 K1 N1] [T2 K2 N2]. split; [congruence|..].
  - intros k r Hr. apply K1 in Hr as (r1 & Hr1 & Ht1). apply K2 in Hr1 as (r2 & Hr2 & Ht2). exists r2. split; [done|]. by eapply touched_trans.
  - intros k r' Hr' Hn. destruct (hk_runs m1 !! k) as [r1|] eqn:E1.
    + destruct (N1 k r1 E1 Hn) as (p & note & c & r & Hp & Hc & Ht). destruct (K2 k r1 E1) as (r2 & Hr2 & Ht2).
      assert (r2 = r') as -> by congruence. exists p, note, c, r. split_and!; try done. by eapply touched_trans.
    + by apply (N2 k).
Qed.
Lemma runsFrom_create t d m p note c r :
  hk_runs m !! run_key r = None → TrimSpace p ≠ "" → createdFrom (externalTriggerRun t d (TrimSpace p) note c) r →
  runsFrom t d m (putHookRun r m).
Proof.
  intros Hn Hp Hc. split; [done|..]; cbn.
  - intros k s Hs. exists s. rewrite lookup_insert_ne by congruence. split; [done|by left].
  - intros k r' [[<- <-]|[Hne Hk]]%lookup_insert_Some Hno; [|congruence]. exists p, note, c, r. split_and!; try done. by left.
Qed.
Lemma runsFrom_annotate t d m r r' :
  hk_runs m !! run_key r = Some r → run_key r' = run_key r → touched t r r' → runsFrom t d m (putHookRun r' m).
Proof.
  intros Hr Hk Ht. split; [done|..]; cbn; rewrite Hk.
  - intros k s Hs. destruct (decide (k = run_key r)) as [->|Hne].
    + exists r'. rewrite lookup_insert_eq. split; [done|]. by assert (s = r) as -> by congruence.
    + exists s. rewrite lookup_insert_ne by done. split; [done|by left].
  - intros k s [[<- <-]|[_ Hk']]%lookup_insert_Some Hno; congruence.
Qed.

Lemma wp_createExternalTriggerRun t d p note c m w :
  runsFrom t d m (hooks W w) →
  wp (createExternalTriggerRun t d p note c) (λ _ w', runsFrom t d m (hooks W w')) w.
Proof.
  intros Hm. unfold createExternalTriggerRun. case_bool_decide as Hp; [done|]. apply wp_bind, wp_try. unfold wp at 1.
  destruct (createRun _ w) as [w' x] eqn:E. cbn [fst snd].
  assert (runsFrom t d m (hooks W w')) as Hm'.
  { destruct (hook_createRun _ _ _ _ E) as [[-> _]|(r' & Hn & Hc & ->)]; [done|]. eapply runsFrom_trans; [done|].
    eapply (runsFrom_create t d _ p note c); [|done|done]. by rewrite (cf_key _ _ Hc). }
  destruct x as [e|r]; [|by apply wp_ret]. case_match; [by apply wp_read|by apply wp_fail].
Qed.

(** A loop whose body keeps [I] on the elements of the list. *)
Lemma wp_foreach_in {A B} (f : B → A → M W GoErr B) (I : W → Prop) l acc w :
  I w → (∀ b a w, a ∈ l → I w → wp (f b a) (λ _ w', I w') w) → wp (mforeach f l acc) (λ _ w', I w') w.
Proof.
  intros Hw Hf. revert acc w Hw. induction l as [|a l IH]; intros acc w Hw; [done|].
  cbn. apply wp_bind. eapply wp_mono; [apply Hf; [by left|done]|]. intros [e|b] w' Hw'; [done|].
  apply IH; [|done]. intros b' a' w2 Ha. apply Hf. by right.
Qed.

Lemma wp_deliverTarget t d target m w :
  target ∈ ext_Targets (aet_Spec t) → runsFrom t d m (hooks W w) →
  wp (deliverExternalTriggerTarget t target d) (λ _ w', runsFrom t d m (hooks W w')) w.
Proof.
  intros Hin Hm. unfold deliverExternalTriggerTarget. case_bool_decide.
  { apply wp_bind. eapply wp_mono; [by apply wp_createExternalTriggerRun|]. by intros [e|r]. }
  case_bool_decide.
  { unfold deliverExternalTriggerCouncil. apply wp_bind, wp_read. destruct (getCouncil _ _ w) as [e|council]; [done|].
    apply wp_bind. eapply wp_mono; [apply (wp_foreach_in _ (λ w', runsFrom t d m (hooks W w'))); [exact Hm|]|].
    - intros [refs n] member w1 _ Hm1. unfold deliverCouncilMember. repeat (case_match; [by apply wp_ret || by apply wp_fail|]).
      apply wp_bind. eapply wp_mono; [by apply wp_createExternalTriggerRun|]. by intros [e|r].
    - intros [e|[refs n]] w1 Hm1; [done|]. by repeat case_match. }
  case_bool_decide as Hkind; [|done]. unfold deliverExternalTriggerAgentRunTarget. apply wp_bind, wp_try, wp_read.
  destruct (getRun _ _ w) as [e|r] eqn:Eg; [by case_match|]. apply hook_getRun in Eg. pose proof (hook_run_key _ _ _ Eg) as Hkey.
  destruct (agentRunPhaseTerminal (run_Phase r)) eqn:Et; cbn [negb].
  - case_bool_decide; [done|]. apply wp_bind. eapply wp_mono; [by apply wp_createExternalTriggerRun|]. by intros [e|s].
  - apply wp_bind. unfold annotateAgentRunWithExternalTriggerDelivery. case_match; [|done]. unfold wp at 1.
    destruct (patchRunAnnotation _ _ _ w) as [w' x] eqn:E. cbn [fst snd].
    assert (runsFrom t d m (hooks W w')) as Hm'.
    { destruct (hook_annotate _ _ _ _ _ E) as [[-> _]|(r0 & r' & Hr0 & Hs & ->)]; [done|].
      assert (Some r0 = Some r) as [= ->] by (by rewrite <- Hr0, <- Eg, Hkey). eapply runsFrom_trans; [done|].
      apply runsFrom_annotate with r; [by rewrite Hkey|by apply sr_key|]. right. injection Hkey as Hns Hname. split_and!; try done.
      by exists target. }
    by destruct x.
Qed.

(** The effect of a delivery, with the recorded status. *)
Definition webhookEffect (t : AgentExternalTrigger) (d : externalTriggerDeliveryContext) (m m' : Hooks) : Prop :=
  ∃ m1, runsFrom t d m m1
    ∧ (m' = m1 ∨ ∃ t', sameTrigger t t' ∧ m' = putTrigger t' m1
         ∧ ((∃ refs, aet_Status t' = recordedStatus d refs (aet_Status t))
            ∨ ∃ message, aet_Status t' = (aet_Status t) <| exs_LastError := message |>)).

Lemma wp_acceptDelivery t d w :
  hk_triggers (hooks W w) !! aet_key t = Some t →
  wp (acceptDelivery t d) (λ x w', ∃ response, x = inr response ∧ webhookEffect t d (hooks W w) (hooks W w')
    ∧ ∀ id refs, response = Delivered 202 false id refs → ∃ m1 t', runsFrom t d (hooks W w) m1 ∧ sameTrigger t t'
        ∧ aet_Status t' = recordedStatus d refs (aet_Status t) ∧ hooks W w' = putTrigger t' m1 ∧ id = dl_DeliveryID d) w.
Proof.
  intros Ht. unfold acceptDelivery. apply wp_bind, wp_try.
  eapply wp_mono; [unfold deliverExternalTrigger; apply (wp_foreach_in _ (λ w', runsFrom t d (hooks W w) (hooks W w')));
    [apply runsFrom_refl|]|].
  { intros refs target w1 Hin Hm. apply wp_bind. eapply wp_mono; [by apply wp_deliverTarget|]. by intros [e|r]. }
  intros x w1 Hm. assert (∀ t0, hk_triggers (hooks W w1) !! aet_key t = Some t0 → t0 = t) as Hsame.
  { intros t0. rewrite (rf_triggers _ _ _ _ Hm). congruence. }
  destruct x as [e|refs].
  - apply wp_bind. unfold recordExternalTriggerError. apply wp_bind, wp_try, wp_read.
    destruct (getTrigger _ _ w1) as [e'|t0] eqn:Eg.
    + eexists. split; [reflexivity|]. split; [|done]. exists (hooks W w1). split; [done|by left].
    + apply hook_getTrigger in Eg as [Eg Ek]. apply Hsame in Eg as ->. apply wp_bind, wp_try. unfold wp at 1.
      destruct (patchTriggerStatus _ _ _ w1) as [w2 y] eqn:Ep. cbn [fst snd]. apply wp_ret, wp_ret.
      eexists. split; [reflexivity|]. split; [|done]. exists (hooks W w1). split; [done|].
      destruct (hook_patchStatus _ _ _ _ _ _ Ep) as [[-> _]|(t0 & t' & Ht0 & Hs & Hst & ->)]; [by left|right].
      apply Hsame in Ht0 as ->. exists t'. split_and!; try done. right. eexists. by apply Hst.
  - apply wp_bind, wp_try. unfold recordExternalTriggerSuccess. apply wp_bind, wp_read.
    destruct (getTrigger _ _ w1) as [e'|t0] eqn:Eg.
    + eexists. split; [reflexivity|]. split; [|done]. exists (hooks W w1). split; [done|by left].
    + apply hook_getTrigger in Eg as [Eg Ek]. apply Hsame in Eg as ->. unfold wp at 1.
      destruct (patchTriggerStatus _ _ _ w1) as [w2 y] eqn:Ep. cbn [fst snd].
      destruct (hook_patchStatus _ _ _ _ _ _ Ep) as [[Hh [e ->]]|(t0 & t' & Ht0 & Hs & Hst & Hh)].
      * eexists. split; [reflexivity|]. split; [|done]. exists (hooks W w1). split; [done|by left].
      * apply Hsame in Ht0 as ->. assert (webhookEffect t d (hooks W w) (hooks W w2)) as He.
        { exists (hooks W w1). split; [done|right]. exists t'. split_and!; try done. left. eexists. by apply Hst. }
        destruct y as [e|[]]; (eexists; split; [reflexivity|]; split; [done|]); [done|].
        intros id refs' [= -> <-]. exists (hooks W w1), t'. split_and!; try done. by apply Hst.
Qed.
(** ** The handler *)

Lemma repository_allowed github repo : githubRepositoryAllowed github repo = true →
  ∃ g allowed, github = Some g ∧ allowed ∈ tgh_Repositories g ∧ ToLower (TrimSpace allowed) = ToLower (TrimSpace repo)
    ∧ ToLower (TrimSpace repo) ≠ "".
Proof.
  unfold githubRepositoryAllowed. destruct github as [g|]; [|done]. case_bool_decide as Hr; [done|].
  intros (allowed & Hin & Ha)%existsb_exists. apply bool_decide_eq_true in Ha. exists g, allowed. split_and!; try done.
  by apply list_elem_of_In.
Qed.
Lemma event_allowed g event : githubEventAllowed (Some g) event = true →
  tgh_Events g = [] ∨ ∃ e, e ∈ tgh_Events g ∧ ToLower (TrimSpace e) = ToLower (TrimSpace event).
Proof.
  unfold githubEventAllowed. case_bool_decide; [by left|]. intros (e & Hin & He)%existsb_exists. right. exists e.
  apply bool_decide_eq_true in He. split; [|done]. by apply list_elem_of_In.
Qed.
Lemma seen_exact seen id : externalTriggerSeenDelivery seen (TrimSpace id) = false ↔ TrimSpace id ∉ seen.
Proof.
  unfold externalTriggerSeenDelivery. rewrite TrimSpace_idem, <- not_true_iff_false, existsb_exists. apply not_iff_compat.
  split.
  - intros (e & Hin & He). apply bool_decide_eq_true in He as <-. by apply list_elem_of_In.
  - intros Hin. exists (TrimSpace id). split; [by apply list_elem_of_In|]. by apply bool_decide_eq_true.
Qed.
Lemma concurrency_free t w k r :
  ensureExternalTriggerConcurrency t w = None → ext_ConcurrencyPolicy (aet_Spec t) ∈ [""; AgentExternalTriggerConcurrencyForbid] →
  hk_runs (hooks W w) !! k = Some r → run_Namespace r = aet_Namespace t →
  run_Labels r !! AgentExternalTriggerLabel = Some (sanitizeLabelValue (aet_Name t)) → agentRunPhaseTerminal (run_Phase r) = true.
Proof.
  intros Hc Hp Hr Hns Hl. unfold ensureExternalTriggerConcurrency in Hc. destruct (negb _) eqn:Ep.
  { exfalso. apply negb_true_iff, bool_decide_eq_false in Ep. revert Hp Ep.
    case_bool_decide; [done|]. set_solver. }
  destruct (listRuns _ _ w) as [e|runs] eqn:El; [done|].
  assert (r ∈ runs) as Hin.
  { eapply hook_listRuns; [done|done|]. split; [by intros n [= <-]|by intros a v [= <- <-]]. }
  destruct (find _ runs) eqn:Ef; [done|]. pose proof (find_none _ _ Ef r (proj1 (list_elem_of_In _ _) Hin)) as Hn.
  by apply negb_false_iff in Hn.
Qed.

(** What a request that changes anything satisfies. *)
Definition accepted (request : WebhookRequest) (now : Time) (w w' : W) : Prop :=
  ∃ trigger body payload repo summary, authentic request trigger body w
    ∧ parseGitHubWebhookPayload body = Some (payload, repo, summary)
    ∧ admissible request trigger repo now (hooks W w)
    ∧ webhookEffect trigger (deliveryOf request repo summary payload now) (hooks W w) (hooks W w').

Definition answered (request : WebhookRequest) (now : Time) (response : Response) (w w' : W) : Prop :=
  ∀ id refs, response = Delivered 202 false id refs →
    id = TrimSpace (wr_Delivery request) ∧
    ∃ trigger body payload repo summary m1 t', authentic request trigger body w
      ∧ admissible request trigger repo now (hooks W w)
      ∧ runsFrom trigger (deliveryOf request repo summary payload now) (hooks W w) m1 ∧ sameTrigger trigger t'
      ∧ aet_Status t' = recordedStatus (deliveryOf request repo summary payload now) refs (aet_Status trigger)
      ∧ hooks W w' = putTrigger t' m1.

Lemma wp_admitDelivery request t body now w :
  authentic request t body w →
  wp (admitDelivery t request body now) (λ x w', ∃ response, x = inr response
    ∧ (hooks W w' = hooks W w ∨ accepted request now w w') ∧ answered request now response w w') w.
Proof.
  intros Ha. assert (∀ response w', hooks W w' = hooks W w → (∀ id refs, response ≠ Delivered 202 false id refs) →
    ∃ r, (inr response : GoErr + Response) = inr r ∧ (hooks W w' = hooks W w ∨ accepted request now w w') ∧ answered request now r w w') as Hr.
  { intros response w' Hw Hn. exists response. split_and!; [done|by left|]. intros id refs E. by apply Hn in E. }
  unfold admitDelivery, refuseWith. destruct (_ || _) eqn:Es; [by apply wp_ret, Hr|].
  apply orb_false_iff in Es as [Es Ep%bool_decide_eq_false]. case_bool_decide as Eb; [by apply wp_ret, Hr|].
  case_bool_decide as Ed; [by apply wp_ret, Hr|]. case_bool_decide as Ee; [by apply wp_ret, Hr|].
  destruct (externalTriggerSeenDelivery _ _) eqn:Eseen; [by apply wp_ret, Hr|]. apply seen_exact in Eseen.
  destruct (parseGitHubWebhookPayload body) as [[[payload repo] summary]|] eqn:Epay; [|by apply wp_ret, Hr].
  destruct (githubRepositoryAllowed _ repo) eqn:Erepo; cbn [negb]; [|by apply wp_ret, Hr].
  destruct (githubEventAllowed _ _) eqn:Eevent; cbn [negb]; [|by apply wp_ret, Hr].
  destruct (ensureExternalTriggerDailyBudget t now) as [message|] eqn:Ebud; [by apply wp_ret, Hr|].
  apply wp_bind, wp_read. destruct (ensureExternalTriggerConcurrency t w) as [e|] eqn:Econ; [by apply wp_ret, Hr|].
  assert (admissible request t repo now (hooks W w)) as Had.
  { split; [by split; [|set_solver]|done|done| | |].
    - apply repository_allowed in Erepo as (g & allowed & Eg & ? & ? & ?). rewrite Eg in Eevent. apply event_allowed in Eevent. rewrite TrimSpace_idem in Eevent.
      by exists g, allowed.
    - unfold ensureExternalTriggerDailyBudget in Ebud. destruct (Z.leb_spec (ext_MaxDeliveriesPerDay (aet_Spec t)) 0); [by left|right].
      case_bool_decide as Eday; [right|by left]. destruct (Z.leb_spec (ext_MaxDeliveriesPerDay (aet_Spec t)) (exs_DeliveriesToday (aet_Status t))); [done|lia].
    - intros Hpol k r. by apply concurrency_free. }
  eapply wp_mono; [apply wp_acceptDelivery; rewrite (au_key _ _ _ _ Ha); by apply Ha|].
  intros x w' (response & -> & Heff & Hresp). exists response. split_and!; [done| |].
  - right. by exists t, body, payload, repo, summary.
  - intros id refs E. destruct (Hresp id refs E) as (m1 & t' & ? & ? & ? & ? & ->). split; [done|].
    by exists t, body, payload, repo, summary, m1, t'.
Qed.

Lemma wp_handle enabled writable request now w :
  wp (handleExternalTriggerWebhook enabled writable request now) (λ x w', ∃ response, x = inr response
    ∧ (hooks W w' = hooks W w ∨ enabled = true ∧ writable = true ∧ accepted request now w w')
    ∧ answered request now response w w') w.
Proof.
  assert (∀ status code message, ∃ r, (inr (ApiError status code message) : GoErr + Response) = inr r
    ∧ (hooks W w = hooks W w ∨ enabled = true ∧ writable = true ∧ accepted request now w w) ∧ answered request now r w w) as Hr.
  { intros. eexists. split; [done|]. split; [by left|done]. }
  unfold handleExternalTriggerWebhook, webhookNotFound, refuseWith. destruct enabled; cbn [negb]; [|by apply wp_ret].
  destruct writable; cbn [negb]; [|by apply wp_ret]. destruct (_ || _ || _); [by apply wp_ret|].
  destruct (readExternalTriggerBody request) as [e|body] eqn:Ebody; [by apply wp_ret|].
  apply wp_bind, wp_try, wp_read. destruct (getTrigger _ _ w) as [e|t] eqn:Et; [by case_match; apply wp_ret|].
  apply hook_getTrigger in Et as [Et Ekey]. destruct (blank _ || _) eqn:Erec; [by apply wp_ret|].
  apply orb_false_iff in Erec as [_ Erec%negb_false_iff%bool_decide_eq_true].
  apply wp_bind, wp_try, wp_read. destruct (loadExternalTriggerSecrets t w) as [e|[secret token]] eqn:Esec; [by apply wp_ret|].
  case_bool_decide as Esig; [by apply wp_ret|]. destruct (_ && _) eqn:Etok; [by apply wp_ret|].
  eapply wp_mono; [apply wp_admitDelivery|].
  - split; try done. exists secret, token. split_and!; [done| |].
    + apply signature_exact. destruct (verifyGitHubSignature256 _ _ _); [|done]. by destruct Esig.
    + apply andb_false_iff in Etok as [Etok%negb_false_iff%bool_decide_eq_true|Etok]; [by left|right].
      apply orb_false_iff in Etok as [_ Etok%negb_false_iff]. by apply hmacEqualString_eq.
  - intros x w' (response & -> & [Hsame|Hacc] & Hresp); eexists; (split; [done|]); (split; [|done]); [by left|by right].
Qed.

(** C10: the receiver answers every request, and changes anything only when the feature is
    on, the trigger exists under the receiver ID of the path, the body is signed with
    its secret, the path token matches when one is configured, the trigger is neither
    suspended nor blocked, the delivery is new, its repository and event are allowed,
    the daily cap is not reached, and, unless the trigger allows it, no run of the
    trigger is still going. *)
Theorem webhook_authenticated enabled writable request now (w w' : W) x :
  handleExternalTriggerWebhook enabled writable request now w = (w', x) →
  (∃ response, x = inr response)
  ∧ (hooks W w' ≠ hooks W w → enabled = true ∧ writable = true
     ∧ ∃ trigger body payload repo summary, authentic request trigger body w
        ∧ parseGitHubWebhookPayload body = Some (payload, repo, summary)
        ∧ admissible request trigger repo now (hooks W w)).
Proof.
  intros E. destruct (wp_elim _ _ _ _ _ (wp_handle enabled writable request now w) E) as (response & -> & Hc & _).
  split; [by exists response|]. intros Hne. destruct Hc as [?|(? & ? & t & body & payload & repo & summary & ? & ? & ? & _)]; [done|].
  split_and!; try done. by exists t, body, payload, repo, summary.
Qed.

(** C14: what a delivery changes: it creates runs of the trigger, in its namespace, under
    names given by trigger, delivery and profile; it annotates live runs that are
    targets; of the trigger it changes the status only; no run is lost, and nothing
    else changes. *)
Theorem webhook_confined enabled writable request now (w w' : W) x :
  handleExternalTriggerWebhook enabled writable request now w = (w', x) → hooks W w' ≠ hooks W w →
  ∃ trigger delivery, hk_triggers (hooks W w) !! aet_key trigger = Some trigger
    ∧ dl_DeliveryID delivery = TrimSpace (wr_Delivery request)
    ∧ (∀ k t, k ≠ aet_key trigger → hk_triggers (hooks W w') !! k = Some t ↔ hk_triggers (hooks W w) !! k = Some t)
    ∧ (∃ t', hk_triggers (hooks W w') !! aet_key trigger = Some t' ∧ sameTrigger trigger t')
    ∧ (∀ k r, hk_runs (hooks W w) !! k = Some r → ∃ r', hk_runs (hooks W w') !! k = Some r' ∧ touched trigger r r')
    ∧ (∀ k r', hk_runs (hooks W w') !! k = Some r' → hk_runs (hooks W w) !! k = None →
         ∃ profileName, profileName ≠ "" ∧ k = (aet_Namespace trigger,
             externalTriggerRunName (aet_Name trigger) (dl_DeliveryID delivery) profileName)
           ∧ rs_ProfileRef (run_Spec r') = Some (mkNamespacedObjectReference profileName "")
           ∧ run_Labels r' !! AgentExternalTriggerLabel = Some (sanitizeLabelValue (aet_Name trigger))
           ∧ rs_SourceUID (run_Spec r') = aet_UID trigger).
Proof.
  intros E Hne. destruct (wp_elim _ _ _ _ _ (wp_handle enabled writable request now w) E) as (response & -> & Hc & _).
  destruct Hc as [?|(_ & _ & t & body & payload & repo & summary & Ha & _ & _ & m1 & [Ht Hk Hn] & Hm)]; [done|].
  set (d := deliveryOf _ _ _ _ _) in *. pose proof (au_stored _ _ _ _ Ha) as Hst. rewrite <- (au_key _ _ _ _ Ha) in Hst.
  exists t, d. assert (hk_runs (hooks W w') = hk_runs m1) as -> by (destruct Hm as [->|(t' & _ & -> & _)]; done).
  split_and!; [done|done| | |done|].
  - intros k s Hks. destruct Hm as [->|(t' & Hs & -> & _)]; [by rewrite Ht|]. cbn.
    rewrite (proj1 Hs), lookup_insert_ne by done. by rewrite Ht.
  - destruct Hm as [->|(t' & Hs & -> & _)]; [exists t; by rewrite Ht|]. exists t'. cbn. rewrite (proj1 Hs), lookup_insert_eq. done.
  - intros k r' Hr' Hno. destruct (Hn k r' Hr' Hno) as (p & note & c & r & Hp & Hc & Htc). exists (TrimSpace p).
    assert (sameRun r r') as Hs by (destruct Htc as [->|[? _]]; [apply sameRun_refl|done]).
    pose proof (f_equal rs_ProfileRef (cf_spec _ _ Hc)) as Hprof. pose proof (f_equal rs_SourceUID (cf_spec _ _ Hc)) as Huid.
    rewrite (sr_spec _ _ Hs), (sr_labels _ _ Hs), (cf_labels _ _ Hc). split_and!; try done.
    assert (run_key r' = k) as <-.
    { apply (hook_run_key w'). destruct Hm as [->|(t' & _ & -> & _)]; done. }
    by rewrite (sr_key _ _ Hs), (cf_key _ _ Hc).
Qed.
(** ** Repeated deliveries *)

Lemma appendSeen_last seen id : id = TrimSpace id → id ∈ appendSeenDeliveryID seen id.
Proof.
  intros Hid. unfold appendSeenDeliveryID. destruct (externalTriggerSeenDelivery seen id) eqn:E.
  - rewrite Hid in E. rewrite Hid. apply dec_stable. intros Hn%seen_exact. congruence.
  - assert (id ∈ drop (length (seen ++ [id]) - externalTriggerSeenDeliveryLimit) (seen ++ [id])) as Hin.
    { rewrite drop_app_le; [apply elem_of_app; right; by left|]. rewrite length_app. unfold externalTriggerSeenDeliveryLimit. cbn. lia. }
    case_match; [done|]. apply elem_of_app. right. by left.
Qed.

(** C11: a delivery that was answered as accepted is not taken again: whatever a later
    request to the trigger with the same delivery ID says, and whatever happened to
    runs in the meantime, it changes nothing. *)
Theorem redelivery_ignored enabled writable request now (w w1 : W) id refs enabled' writable' request' now' w2 w3 x :
  handleExternalTriggerWebhook enabled writable request now w = (w1, inr (Delivered 202 false id refs)) →
  hk_triggers (hooks W w2) = hk_triggers (hooks W w1) →
  TrimSpace (wr_Namespace request') = TrimSpace (wr_Namespace request) → TrimSpace (wr_Name request') = TrimSpace (wr_Name request) →
  TrimSpace (wr_Delivery request') = id →
  handleExternalTriggerWebhook enabled' writable' request' now' w2 = (w3, x) →
  hooks W w3 = hooks W w2.
Proof.
  intros E Hw2 Hns Hname Hid E'.
  destruct (wp_elim _ _ _ _ _ (wp_handle enabled writable request now w) E) as (response & [= <-] & _ & Hans).
  destruct (Hans id refs eq_refl) as (-> & t & body & payload & repo & summary & m1 & t' & Ha & _ & _ & Hs & Hst & Hm).
  destruct (wp_elim _ _ _ _ _ (wp_handle enabled' writable' request' now' w2) E') as (response' & _ & Hc & _).
  destruct Hc as [?|(_ & _ & t2 & body2 & payload2 & repo2 & summary2 & Ha2 & _ & Had & _)]; [done|]. exfalso.
  pose proof (au_stored _ _ _ _ Ha2) as Hst2. rewrite Hw2, Hm, Hns, Hname, <- (au_key _ _ _ _ Ha) in Hst2. cbn in Hst2.
  rewrite (proj1 Hs), lookup_insert_eq in Hst2. injection Hst2 as <-. apply (ad_new _ _ _ _ _ Had). rewrite Hst, Hid.
  apply appendSeen_last. symmetry. apply TrimSpace_idem.
Qed.

(** A path token with white space at its ends, which the receiver does not trim while
    it trims the header, matches no request: the trigger takes no delivery. *)
Theorem padded_token_refuses_all enabled writable request now (w w' : W) x trigger secret token :
  hk_triggers (hooks W w) !! (TrimSpace (wr_Namespace request), TrimSpace (wr_Name request)) = Some trigger →
  loadExternalTriggerSecrets trigger w = inr (secret, token) → TrimSpace token ≠ token →
  handleExternalTriggerWebhook enabled writable request now w = (w', x) → hooks W w' = hooks W w.
Proof.
  intros Ht Hl Htok E. destruct (wp_elim _ _ _ _ _ (wp_handle enabled writable request now w) E) as (response & _ & Hc & _).
  destruct Hc as [?|(_ & _ & t2 & body & payload & repo & summary & Ha & _)]; [done|]. exfalso.
  pose proof (au_stored _ _ _ _ Ha) as Hst. assert (t2 = trigger) as -> by congruence.
  destruct (au_secret _ _ _ _ Ha) as (s2 & tok2 & Hl2 & _ & Hm). assert (tok2 = token) as -> by congruence.
  destruct Hm as [->|<-]; [by apply Htok|]. by rewrite TrimSpace_idem in Htok.
Qed.

(** ** The daily cap *)

Definition requestKey (request : WebhookRequest) : key := (TrimSpace (wr_Namespace request), TrimSpace (wr_Name request)).
(** Whether the answer says that a delivery of the trigger at [k] was accepted. *)
Definition acceptedAt (k : key) (request : WebhookRequest) (x : GoErr + Response) : Z :=
  match x with
  | inr (Delivered status duplicate _ _) =>
      if (status =? 202) && negb duplicate && bool_decide (requestKey request = k) then 1 else 0
  | _ => 0
  end.
Definition counter (t : AgentExternalTrigger) :=
  (exs_DeliveriesTodayDate (aet_Status t), exs_DeliveriesToday (aet_Status t), ext_MaxDeliveriesPerDay (aet_Spec t)).

(** Requests of one day and what others do, who leave the counter and the cap of the
    trigger at [k] alone; [n] deliveries of that trigger are answered as accepted. *)
Inductive dayTrace (k : key) (day : string) : W → Z → W → Prop :=
  | day_start w : dayTrace k day w 0 w
  | day_request w n w1 enabled writable request now w2 x :
      dayTrace k day w n w1 → FormatDay now = day →
      handleExternalTriggerWebhook enabled writable request now w1 = (w2, x) →
      dayTrace k day w (n + acceptedAt k request x) w2
  | day_others w n w1 w2 :
      dayTrace k day w n w1 →
      (∀ t2, hk_triggers (hooks W w2) !! k = Some t2 → ∃ t1, hk_triggers (hooks W w1) !! k = Some t1 ∧ counter t2 = counter t1) →
      dayTrace k day w n w2.

Definition withinCap (k : key) (day : string) (limit n : Z) (m : Hooks) : Prop :=
  0 ≤ n ≤ limit ∧ ∀ t, hk_triggers m !! k = Some t → ext_MaxDeliveriesPerDay (aet_Spec t) = limit
    ∧ (exs_DeliveriesTodayDate (aet_Status t) = day ∧ n ≤ exs_DeliveriesToday (aet_Status t) ≤ limit
       ∨ exs_DeliveriesTodayDate (aet_Status t) ≠ day ∧ n = 0).

Lemma recorded_within k day limit n t t' d refs :
  0 < limit ≤ maxInt64 → 0 ≤ n → FormatDay (dl_AcceptedAt d) = day → ext_MaxDeliveriesPerDay (aet_Spec t) = limit →
  (exs_DeliveriesTodayDate (aet_Status t) = day ∧ n ≤ exs_DeliveriesToday (aet_Status t) ≤ limit
     ∨ exs_DeliveriesTodayDate (aet_Status t) ≠ day ∧ n = 0) →
  (ext_MaxDeliveriesPerDay (aet_Spec t) ≤ 0 ∨ exs_DeliveriesTodayDate (aet_Status t) ≠ day
     ∨ exs_DeliveriesToday (aet_Status t) < ext_MaxDeliveriesPerDay (aet_Spec t)) →
  aet_Status t' = recordedStatus d refs (aet_Status t) → aet_Spec t' = aet_Spec t →
  withinCap k day limit (n + 1) (mkHooks {[ k := t' ]} ∅).
Proof.
  intros Hl Hn Hd Hlim Hin Had Hst Hsp.
  assert (exs_DeliveriesTodayDate (aet_Status t') = day ∧ n + 1 ≤ exs_DeliveriesToday (aet_Status t') ≤ limit) as [Hday Htoday].
  { rewrite Hst. cbn. rewrite Hd. split; [done|].
    assert (∀ z, 0 ≤ z < limit → wrap64 (z + 1) = z + 1) as Hw by (intros z Hz; apply wrap64_id; unfold inInt64, minInt64, maxInt64 in *; lia).
    case_bool_decide as Eq.
    - destruct Hin as [[_ ?]|[? _]]; [|done]. destruct Had as [?|[?|?]]; [lia|done|]. rewrite Hw by lia. lia.
    - destruct Hin as [[? _]|[_ ->]]; [done|]. rewrite Hw by lia. lia. }
  split; [lia|]. cbn. intros t2 Ht2. rewrite lookup_singleton_eq in Ht2. injection Ht2 as <-. rewrite Hsp. split; [done|by left].
Qed.

Lemma request_within k day limit n enabled writable request now (w w' : W) x :
  0 < limit ≤ maxInt64 → FormatDay now = day → withinCap k day limit n (hooks W w) →
  handleExternalTriggerWebhook enabled writable request now w = (w', x) →
  withinCap k day limit (n + acceptedAt k request x) (hooks W w').
Proof.
  intros Hl Hday [Hn Hin] E. destruct (wp_elim _ _ _ _ _ (wp_handle enabled writable request now w) E) as (response & -> & Hc & Hans).
  destruct (decide (acceptedAt k request (inr response) = 0)) as [Ez|Ez].
  - rewrite Ez, Z.add_0_r. destruct Hc as [->|(_ & _ & t & body & payload & repo & summary & Ha & _ & Had & m1 & Hr & Hm)]; [done|].
    split; [done|]. destruct Hm as [->|(t' & Hs & -> & Hst)]; [by rewrite (rf_triggers _ _ _ _ Hr)|].
    intros t2. cbn. rewrite (proj1 Hs), (rf_triggers _ _ _ _ Hr).
    intros [[<- <-]|[_ Ht2]]%lookup_insert_Some; [|by apply Hin].
    pose proof (au_stored _ _ _ _ Ha) as Hstored. rewrite <- (au_key _ _ _ _ Ha) in Hstored.
    destruct (Hin t Hstored) as [Hlim Hcnt]. destruct Hst as [[refs Hst]|[message Hst]].
    + assert (withinCap (aet_key t) day limit (n + 1) (mkHooks {[ aet_key t := t' ]} ∅)) as [_ Hw].
      { pose proof (ad_budget _ _ _ _ _ Had) as Hbud. rewrite Hday in Hbud.
        exact (recorded_within _ _ _ n t t' (deliveryOf request repo summary payload now) refs Hl (proj1 Hn) Hday Hlim Hcnt Hbud Hst (proj2 (proj2 (proj2 Hs)))). }
      destruct (Hw t') as [Hl' Hc']; [apply lookup_singleton_eq|]. split; [exact Hl'|].
      destruct Hc' as [[Hd' Hc']|[_ ?]]; [left; split; [exact Hd'|lia]|lia].
    + rewrite Hst. destruct Hs as (_ & _ & _ & ->). done.
  - unfold acceptedAt in *. destruct response as [|status duplicate id refs]; [done|].
    destruct (_ && _ && _) eqn:Ea; [|done]. apply andb_true_iff in Ea as [[E1%Z.eqb_eq E2%negb_true_iff]%andb_true_iff E3%bool_decide_eq_true].
    subst status duplicate. destruct (Hans id refs eq_refl) as (_ & t & body & payload & repo & summary & m1 & t' & Ha & Had & Hr & Hs & Hst & ->).
    assert (aet_key t = k) as Hk by (rewrite <- E3; apply Ha). pose proof (au_stored _ _ _ _ Ha) as Hstored.
    change (hk_triggers (hooks W w) !! requestKey request = Some t) in Hstored. rewrite E3 in Hstored.
    destruct (Hin t Hstored) as [Hlim Hcnt].
    assert (withinCap k day limit (n + 1) (mkHooks {[ k := t' ]} ∅)) as [Hn' Hw].
    { pose proof (ad_budget _ _ _ _ _ Had) as Hbud. rewrite Hday in Hbud.
      exact (recorded_within _ _ _ n t t' (deliveryOf request repo summary payload now) refs Hl (proj1 Hn) Hday Hlim Hcnt Hbud Hst (proj2 (proj2 (proj2 Hs)))). }
    split; [done|]. intros t2 Ht2. cbn in Ht2. rewrite (proj1 Hs), Hk, lookup_insert_eq in Ht2. injection Ht2 as <-.
    apply Hw, lookup_singleton_eq.
Qed.

(** C15: during a day, no more deliveries of a trigger are accepted than its daily cap,
    however requests and their failures are ordered. *)
Theorem daily_cap_kept k day limit (w w' : W) n trigger :
  hk_triggers (hooks W w) !! k = Some trigger → exs_DeliveriesTodayDate (aet_Status trigger) ≠ day →
  ext_MaxDeliveriesPerDay (aet_Spec trigger) = limit → 0 < limit ≤ maxInt64 → dayTrace k day w n w' → n ≤ limit.
Proof.
  intros Ht Hd Hlim Hl Htr. assert (withinCap k day limit n (hooks W w')) as [? _]; [|lia].
  induction Htr as [w|w n w1 enabled writable request now w2 x _ IH Hday E|w n w1 w2 _ IH Ho].
  - split; [lia|]. intros t Ht'. assert (t = trigger) as -> by congruence. split; [done|by right].
  - eapply request_within; [done|done|by apply IH|done].
  - destruct (IH Ht) as [Hn Hin]. split; [done|]. intros t2 Ht2. destruct (Ho t2 Ht2) as (t1 & Ht1 & [= Ec1 Ec2 Ec3]).
    rewrite Ec1, Ec2, Ec3. by apply Hin.
Qed.
End webhook.

(** ** Texts *)

Definition wellFormed (r : list ascii) : Prop := ∀ rest, runes (r ++ rest) = r :: runes rest.
Lemma runes_wellFormed l : Forall wellFormed (runes l).
Proof.
  remember (length l) as n eqn:En. revert l En. induction (lt_wf n) as [n _ IH]. intros l ->.
  assert (∀ l', (length l' < length l)%nat → Forall wellFormed (runes l')) as IH' by (intros l' Hl; by eapply IH).
  assert (wellFormed replacement) as Hrep by by intros rest. clear IH.
  destruct l as [|a l1]; [done|]. cbn [runes]. destruct (code a <? 128)%N eqn:E1.
  { constructor; [|apply IH'; cbn; lia]. intros rest. cbn. by rewrite E1. }
  destruct l1 as [|b l2]; [by constructor|]. destruct (_ && isCont 128 191 b) eqn:E2.
  { constructor; [|apply IH'; cbn; lia]. intros rest. cbn. by rewrite E1, E2. }
  destruct l2 as [|c l3]; [constructor; [done|apply IH'; cbn; lia]|]. destruct (second3 a b && _) eqn:E3.
  { constructor; [|apply IH'; cbn; lia]. intros rest. cbn. by rewrite E1, E2, E3. }
  destruct l3 as [|d l4]; [constructor; [done|apply IH'; cbn; lia]|]. destruct (second4 a b && _ && _) eqn:E4.
  { constructor; [|apply IH'; cbn; lia]. intros rest. cbn. by rewrite E1, E2, E3, E4. }
  constructor; [done|]. apply IH'. cbn. lia.
Qed.
Lemma runes_concat rs : Forall wellFormed rs → runes (concat rs) = rs.
Proof. induction 1 as [|r rs Hr _ IH]; [done|]. cbn. by rewrite Hr, IH. Qed.

(** Truncation keeps exactly the first runes of a text. *)
Theorem truncateToRunes_exact value max : runes (bytes (truncateToRunes value max)) = take max (runes (bytes value)).
Proof.
  unfold truncateToRunes. destruct (Nat.eqb_spec max 0) as [->|Hm]; cbn [orb]; [done|].
  case_bool_decide as Hv; [subst; by destruct max|]. destruct (Nat.leb_spec (length (runes (bytes value))) max).
  - by rewrite take_ge.
  - rewrite bytes_unbytes. apply runes_concat, Forall_take, runes_wellFormed.
Qed.

(** The deliveries that are recognised are the last 64: the list after any number of
    different deliveries holds the most recent ones in order. *)
Theorem seen_window_exact ids :
  NoDup ids → Forall (λ id, TrimSpace id = id) ids →
  foldl appendSeenDeliveryID [] ids = drop (length ids - externalTriggerSeenDeliveryLimit) ids.
Proof.
  induction ids as [|id ids IH] using rev_ind; [done|]. intros Hnd Htr.
  apply NoDup_app in Hnd as (Hnd & Hdis & _). apply Forall_app in Htr as [Htr [Hid _]%Forall_cons].
  rewrite foldl_app, IH by done. cbn [foldl]. unfold appendSeenDeliveryID.
  set (k := (length ids - externalTriggerSeenDeliveryLimit)%nat).
  assert (externalTriggerSeenDelivery (drop k ids) id = false) as ->.
  { rewrite <- Hid. apply seen_exact. rewrite Hid. intros Hin. apply (Hdis id); [|set_solver].
    rewrite <- (take_drop k ids). apply elem_of_app. by right. }
  rewrite !length_app, length_drop. cbn [length]. unfold k, externalTriggerSeenDeliveryLimit. clear k IH.
  destruct (Nat.ltb_spec 64 (length ids - (length ids - 64) + 1)).
  - replace (length ids - (length ids - 64) + 1 - 64)%nat with 1%nat by lia.
    replace (length ids + 1 - 64)%nat with (length ids - 64 + 1)%nat by lia.
    rewrite <- drop_drop. rewrite (drop_app_le ids) by lia. done.
  - replace (length ids - 64)%nat with 0%nat by lia. by replace (length ids + 1 - 64)%nat with 0%nat by lia.
Qed.

Lemma append_empty_r s : s +:+ "" = s.
Proof. induction s as [|c s IH]; [done|]. change (String c (s +:+ "") = String c s). by rewrite IH. Qed.

(** The default prompt holds the values of a delivery as they are: a placeholder that
    occurs in a value is not replaced. *)
Theorem default_prompt_exact delivery :
  renderExternalTriggerPrompt "" delivery
  = "GitHub webhook delivery " +:+ dl_DeliveryID delivery +:+ " for " +:+ dl_Repository delivery
      +:+ " (event " +:+ dl_EventType delivery +:+ ")." +:+ nl +:+ nl +:+ dl_PayloadHint delivery.
Proof. rewrite <- (append_empty_r (dl_PayloadHint delivery)). reflexivity. Qed.
