(* ===== verification/RunOutput.v ===== *)
(** * What a run reports

    The harness of a run prints status reports into its log, one JSON object per
    line behind a prefix.  src/internal/controller/agent_run_controller.go reads
    the log, keeps a bounded number of normalised reports, and derives from them
    the run's decision, its pull request, the summary and the question whether a
    human is needed.

    JSON decoding is a parameter ([Decode]): a decoder either fails or returns a
    value, and is a function of the text. *)

From stdpp Require Import base list gmap strings.
From Stdlib Require Import ZArith Lia Ascii.
From S2P Require Import Prelude GoStrings GoTime Names ApiRun.

Open Scope nat_scope.

(** ** JSON values, as [json.Unmarshal] leaves them in an [any] *)

#[warnings="-register-all"]
Inductive Json :=
  | JNull | JBool (b : bool) | JNumber (text : string) | JString (s : string)
  | JArray (items : list Json) | JObject (fields : list (string * Json)).

(** [decodeReport]: [json.Unmarshal] into an AgentRunStatusReport;
    [decodeObject]: into a [map[string]any]. *)
Class Decode := {
  decodeReport : string → option AgentRunStatusReport;
  decodeObject : string → option (gmap string Json) }.

#[export] Instance AgentRunStatusReport_eq_dec : EqDecision AgentRunStatusReport.
Proof. solve_decision. Defined.

(** ** Strings *)

(** Go: [strings.Index] on bytes: the position of the first occurrence. *)
Fixpoint indexBytes (p l : list ascii) : option nat :=
  if bool_decide (p `prefix_of` l) then Some 0
  else match l with
       | [] => None
       | _ :: l => S <$> indexBytes p l
       end.
Definition Index (s p : string) : option nat := indexBytes (bytes p) (bytes s).
(** Go: [s[n:]]. *)
Definition dropStr (n : nat) (s : string) : string := unbytes (drop n (bytes s)).

(** Go: [strings.Split(s, sep)] for a separator of one byte. *)
Fixpoint splitLoop (c : ascii) (cur l : list ascii) : list (list ascii) :=
  match l with
  | [] => [rev cur]
  | a :: l => if bool_decide (a = c) then rev cur :: splitLoop c [] l
              else splitLoop c (a :: cur) l
  end.
Definition SplitByte (c : ascii) (s : string) : list string :=
  map unbytes (splitLoop c [] (bytes s)).

Definition newline : ascii := ascii_of_N 10.
Definition carriage : ascii := ascii_of_N 13.

(** Go: [bufio.Scanner] over a string with [ScanLines] and a buffer of at most
    1 MiB: lines without their terminator; scanning stops at a line that does not
    fit the buffer; an empty last line is not returned. *)
Definition scannerMax : N := 1048576.
Definition dropCR (rcur : list ascii) : list ascii :=
  match rcur with
  | c :: t => if bool_decide (c = carriage) then rev t else rev rcur
  | [] => []
  end.
Fixpoint scanLoop (n : N) (rcur l : list ascii) : list (list ascii) :=
  match l with
  | [] => if ((n =? 0) || (scannerMax <=? n))%N then [] else [dropCR rcur]
  | c :: l =>
      if bool_decide (c = newline) then
        if (scannerMax <=? n)%N then [] else dropCR rcur :: scanLoop 0 [] l
      else scanLoop (n + 1) (c :: rcur) l
  end.
Definition scanLines (s : string) : list string := map unbytes (scanLoop 0 [] (bytes s)).

(** ** Reports *)

Definition agentRunStatusLinePrefix : string := "ANVIL_AGENT_RUN_STATUS_JSON=".

Definition agentRunLimitString (value : string) (max : nat) : string :=
  if (max =? 0) || (String.length value <=? max) then value else takeStr max value.

Definition agentRunNormalizeStatusReport (report : AgentRunStatusReport) : AgentRunStatusReport :=
  let report := report
    <| rep_Type := agentRunLimitString (TrimSpace (rep_Type report)) 64 |>
    <| rep_Level := agentRunLimitString (TrimSpace (rep_Level report)) 32 |>
    <| rep_Stage := agentRunLimitString (TrimSpace (rep_Stage report)) 96 |>
    <| rep_Classification := agentRunLimitString (TrimSpace (rep_Classification report)) 128 |>
    <| rep_Action := agentRunLimitString (TrimSpace (rep_Action report)) 128 |>
    <| rep_Summary := agentRunLimitString (TrimSpace (rep_Summary report)) 1000 |>
    <| rep_Detail := agentRunLimitString (TrimSpace (rep_Detail report)) 4000 |>
    <| rep_PullRequestURL := agentRunLimitString (TrimSpace (rep_PullRequestURL report)) 500 |>
    <| rep_ResidualRisk := agentRunLimitString (TrimSpace (rep_ResidualRisk report)) 1000 |>
    <| rep_HumanFollowUp := agentRunLimitString (TrimSpace (rep_HumanFollowUp report)) 1000 |> in
  if bool_decide (rep_Type report = "") && bool_decide (rep_Level report = "")
     && bool_decide (rep_Stage report = "") && bool_decide (rep_Classification report = "")
     && bool_decide (rep_Action report = "") && bool_decide (rep_Summary report = "")
     && bool_decide (rep_Detail report = "") && bool_decide (rep_PullRequestURL report = "")
     && bool_decide (rep_ResidualRisk report = "") && bool_decide (rep_HumanFollowUp report = "")
     && negb (rep_NeedsHuman report)
  then zero_AgentRunStatusReport else report.

Definition agentRunReportHasDecision (report : AgentRunStatusReport) : bool :=
  EqualFold (TrimSpace (rep_Type report)) "decision"
  || negb (blank (rep_Classification report)) || negb (blank (rep_Action report))
  || negb (blank (rep_ResidualRisk report)) || rep_NeedsHuman report.

Definition maxReports : nat := 25.

(** Go: [agentRunTrimStatusReports]: the last reports; when none of them carries a
    decision, the latest earlier one that does takes the first place. *)
Definition agentRunTrimStatusReports (reports : list AgentRunStatusReport) :
    list AgentRunStatusReport :=
  if length reports <=? maxReports then reports else
  let trimmed := drop (length reports - maxReports) reports in
  if existsb agentRunReportHasDecision trimmed then trimmed else
  match find agentRunReportHasDecision (rev (take (length reports - maxReports) reports)) with
  | Some report => report :: tail trimmed
  | None => trimmed
  end.

Section decode.
Context `{Decode}.

(** The body of the scanning loop: the report of one line, if it holds one. *)
Definition reportOfLine (text : string) : option AgentRunStatusReport :=
  let line := TrimSpace text in
  match Index line agentRunStatusLinePrefix with
  | None => None
  | Some index =>
      let raw := TrimSpace (dropStr (index + String.length agentRunStatusLinePrefix) line) in
      if bool_decide (raw = "") then None else
      match decodeReport raw with
      | None => None
      | Some report =>
          let report := agentRunNormalizeStatusReport report in
          if bool_decide (report = zero_AgentRunStatusReport) then None else Some report
      end
  end.

Definition agentRunStatusReportsFromOutput (output : string) : list AgentRunStatusReport :=
  agentRunTrimStatusReports (omap reportOfLine (scanLines output)).

End decode.

Definition decisionOf (report : AgentRunStatusReport) : AgentRunDecisionStatus :=
  mkAgentRunDecisionStatus (TrimSpace (rep_Classification report)) (TrimSpace (rep_Action report))
    (TrimSpace (rep_Summary report)) (TrimSpace (rep_ResidualRisk report)).

Definition applyReport (status : AgentRunStatus) (report : AgentRunStatusReport) : AgentRunStatus :=
  let status :=
    if blank (rep_PullRequestURL report) then status
    else status <| st_PullRequestURL := TrimSpace (rep_PullRequestURL report) |> in
  if agentRunReportHasDecision report then status <| st_Decision := Some (decisionOf report) |>
  else status.

Definition agentRunApplyStatusReports (status : AgentRunStatus)
    (reports : list AgentRunStatusReport) : AgentRunStatus :=
  if bool_decide (reports = []) then status else
  fold_left applyReport reports (status <| st_Reports := reports |>).

Definition agentRunReportsNeedHuman (reports : list AgentRunStatusReport) : bool :=
  existsb (λ report, rep_NeedsHuman report
                     || EqualFold (TrimSpace (rep_Type report)) "needsHuman") reports.

Definition agentRunLatestHumanFollowUp (reports : list AgentRunStatusReport) : string :=
  match find (λ report, negb (blank (rep_HumanFollowUp report))) (rev reports) with
  | Some report => TrimSpace (rep_HumanFollowUp report)
  | None => ""
  end.

(** ** Output *)

Definition maxOutputBytes : nat := Nat.mul 32 1024.
Definition agentRunTrimOutput (output : string) : string :=
  let output := TrimSpace output in
  if (N.of_nat (String.length output) <=? 32768)%N then output
  else dropStr (String.length output - maxOutputBytes) output.

(** The loop of agentRunOutputSummary over the lines from the last one: at most
    four lines that are not blank, in their order. *)
Fixpoint lastLines (budget : nat) (rlines compact : list string) : list string :=
  match rlines with
  | [] => compact
  | l :: rlines =>
      match budget with
      | 0 => compact
      | S b => let line := TrimSpace l in
               if bool_decide (line = "") then lastLines budget rlines compact
               else lastLines b rlines (line :: compact)
      end
  end.

Definition agentRunOutputSummary (output : string) : string :=
  let output := TrimSpace output in
  if bool_decide (output = "") then "Agent run harness completed." else
  let summary := Join (lastLines 4 (rev (SplitByte newline output)) []) " " in
  if 300 <? String.length summary then takeStr 300 summary else summary.

(** ** Decisions that name other runs *)

Definition agentRunDecisionRequestPeer : string := "requestPeer".
Definition agentRunDecisionInterruptDuplicate : string := "interruptDuplicate".

Definition jsonString (v : option Json) : option string :=
  match v with Some (JString s) => Some s | _ => None end.

(** Go: [strings.FieldsFunc] for a predicate on ASCII characters. *)
Fixpoint fieldsFunc (sep : ascii → bool) (cur l : list ascii) : list (list ascii) :=
  match l with
  | [] => if bool_decide (cur = []) then [] else [rev cur]
  | a :: l => if sep a then (if bool_decide (cur = []) then [] else [rev cur]) ++ fieldsFunc sep [] l
              else fieldsFunc sep (a :: cur) l
  end.

Section decisions.
Context `{Decode}.

Definition decisionFieldOfLine (action : string) (keys : list string) (found text : string) : string :=
  let line := TrimSpace text in
  match Index line agentRunStatusLinePrefix with
  | None => found
  | Some index =>
      let raw := TrimSpace (dropStr (index + String.length agentRunStatusLinePrefix) line) in
      match decodeObject raw with
      | None => found
      | Some payload =>
          if negb (bool_decide (TrimSpace (default "" (jsonString (payload !! "action"))) = action))
          then found
          else fold_left (λ found key,
                 match jsonString (payload !! key) with
                 | Some value => if blank value then found else TrimSpace value
                 | None => found
                 end) keys found
      end
  end.

Definition agentRunDecisionFieldFromOutput (output action : string) (keys : list string) : string :=
  fold_left (decisionFieldOfLine action keys) (scanLines output) "".

Definition peerSeparator (c : ascii) : bool :=
  bool_decide (c = ","%char) || bool_decide (c = ";"%char) || bool_decide (c = newline).

(** The search for [profile=...] in free text. *)
Fixpoint profileByPrefix (raw : string) (prefixes : list string) : string :=
  match prefixes with
  | [] => ""
  | prefix :: prefixes =>
      match Index raw prefix with
      | None => profileByPrefix raw prefixes
      | Some idx =>
          let rest := TrimSpace (dropStr (idx + String.length prefix) raw) in
          match fieldsFunc peerSeparator [] (bytes rest) with
          | [] => profileByPrefix raw prefixes
          | field :: _ => TrimSpace (unbytes field)
          end
      end
  end.

Fixpoint firstString (payload : gmap string Json) (keys : list string) : option string :=
  match keys with
  | [] => None
  | key :: keys =>
      match jsonString (payload !! key) with
      | Some value => if blank value then firstString payload keys else Some (TrimSpace value)
      | None => firstString payload keys
      end
  end.

Definition agentRunParsePeerProfile (raw : string) : string :=
  let raw := TrimSpace raw in
  if bool_decide (raw = "") then "" else
  match (decodeObject raw ≫= λ payload, firstString payload ["profile"; "profileName"; "peerProfile"]) with
  | Some name => name
  | None => profileByPrefix raw ["profile="; "profileName="; "peerProfile="]
  end.

Fixpoint peerProfileOfReports (rreports : list AgentRunStatusReport) : string :=
  match rreports with
  | [] => ""
  | report :: rreports =>
      let detail := agentRunParsePeerProfile (rep_Detail report) in
      if negb (bool_decide (detail = "")) then detail else
      let summary := agentRunParsePeerProfile (rep_Summary report) in
      if negb (bool_decide (summary = "")) then summary else peerProfileOfReports rreports
  end.

Definition agentRunPeerProfileName (status : AgentRunStatus) : string :=
  let name := agentRunDecisionFieldFromOutput (st_Output status) agentRunDecisionRequestPeer
                ["peerProfileName"; "profile"; "profileName"; "peerProfile"] in
  if negb (bool_decide (name = "")) then name else peerProfileOfReports (rev (st_Reports status)).

End decisions.

(** ** Theorems *)

Lemma find_app {A} (f : A → bool) (l k : list A) :
  find f (l ++ k) = match find f l with Some a => Some a | None => find f k end.
Proof. induction l as [|a l IH]; simpl; [done|]. by destruct (f a). Qed.
Lemma find_none_existsb {A} (f : A → bool) (l : list A) : find f l = None ↔ existsb f l = false.
Proof.
  induction l as [|a l IH]; simpl; [done|]. destruct (f a); simpl; [|done]. by split.
Qed.
Lemma existsb_rev {A} (f : A → bool) (l : list A) : existsb f (rev l) = existsb f l.
Proof.
  induction l as [|a l IH]; [done|]. simpl. rewrite existsb_app, IH. simpl.
  by destruct (f a), (existsb f l).
Qed.

Lemma limit_length value max : 0 < max → String.length (agentRunLimitString value max) ≤ max.
Proof.
  intros Hm. unfold agentRunLimitString.
  destruct (Nat.eqb_spec max 0), (Nat.leb_spec (String.length value) max); simpl; try lia.
  rewrite takeStr_length. lia.
Qed.

(** The sizes a stored report keeps to. *)
Definition boundedReport (r : AgentRunStatusReport) : Prop :=
  String.length (rep_Type r) ≤ 64 ∧ String.length (rep_Level r) ≤ 32
  ∧ String.length (rep_Stage r) ≤ 96 ∧ String.length (rep_Classification r) ≤ 128
  ∧ String.length (rep_Action r) ≤ 128 ∧ String.length (rep_Summary r) ≤ 1000
  ∧ String.length (rep_Detail r) ≤ 4000 ∧ String.length (rep_PullRequestURL r) ≤ 500
  ∧ String.length (rep_ResidualRisk r) ≤ 1000 ∧ String.length (rep_HumanFollowUp r) ≤ 1000.

Lemma normalize_bounded report : boundedReport (agentRunNormalizeStatusReport report).
Proof.
  unfold agentRunNormalizeStatusReport. cbv zeta.
  match goal with |- boundedReport (if ?b then _ else _) => destruct b end.
  - unfold boundedReport. simpl. lia.
  - unfold boundedReport. simpl. repeat split; apply limit_length; lia.
Qed.

Lemma trim_length reports : length (agentRunTrimStatusReports reports) ≤ maxReports.
Proof.
  unfold agentRunTrimStatusReports.
  destruct (Nat.leb_spec (length reports) maxReports) as [|Hl]; [done|]. cbv zeta.
  assert (length (drop (length reports - maxReports) reports) ≤ maxReports)
    by (rewrite length_drop; lia).
  destruct (existsb _ _); [done|]. destruct (find _ _); [|done].
  destruct (drop _ _); simpl in *; unfold maxReports in *; lia.
Qed.

Lemma trim_Forall (P : AgentRunStatusReport → Prop) reports :
  Forall P reports → Forall P (agentRunTrimStatusReports reports).
Proof.
  intros HP. unfold agentRunTrimStatusReports.
  destruct (_ <=? _); [done|]. cbv zeta.
  destruct (existsb _ _); [by apply Forall_drop|].
  destruct (find _ _) as [r|] eqn:E; [|by apply Forall_drop].
  constructor.
  - apply find_some in E as [Hin _]. rewrite <- in_rev in Hin.
    apply list_elem_of_In in Hin. eapply Forall_forall in HP; [done|].
    eapply elem_of_sublist; [done|apply sublist_take].
  - destruct (drop _ _) as [|a l] eqn:El; [done|]. simpl.
    assert (Forall P (a :: l)) as Ha by (rewrite <- El; by apply Forall_drop).
    by inversion Ha.
Qed.

Lemma find_rev_trim reports :
  find agentRunReportHasDecision (rev (agentRunTrimStatusReports reports))
  = find agentRunReportHasDecision (rev reports).
Proof.
  unfold agentRunTrimStatusReports.
  destruct (Nat.leb_spec (length reports) maxReports) as [|Hl]; [done|]. cbv zeta.
  set (n := length reports - maxReports).
  assert (rev reports = rev (drop n reports) ++ rev (take n reports)) as Hr
    by (rewrite <- rev_app_distr, take_drop; done).
  rewrite Hr, find_app.
  destruct (existsb _ _) eqn:E.
  - destruct (find _ (rev (drop n reports))) eqn:Ef; [done|].
    apply find_none_existsb in Ef. rewrite existsb_rev in Ef. congruence.
  - assert (find agentRunReportHasDecision (rev (drop n reports)) = None) as Hn
      by (apply find_none_existsb; by rewrite existsb_rev).
    rewrite Hn. destruct (find _ (rev (take n reports))) as [r|] eqn:Ef; [|done].
    apply find_some in Ef as [_ Hr']. destruct (drop n reports) as [|a l]; simpl in *;
      [by rewrite Hr'|].
    rewrite find_app in Hn |- *. destruct (find _ (rev l)); [done|]. simpl. by rewrite Hr'.
Qed.

Lemma applyReports_decision reports status :
  st_Decision (fold_left applyReport reports status)
  = match find agentRunReportHasDecision (rev reports) with
    | Some r => Some (decisionOf r)
    | None => st_Decision status
    end.
Proof.
  revert status. induction reports as [|r reports IH]; intros status; [done|].
  simpl. rewrite IH, find_app. destruct (find _ (rev reports)); [done|]. simpl.
  unfold applyReport. destruct (agentRunReportHasDecision r), (blank _); done.
Qed.

Lemma apply_decision status reports :
  st_Decision (agentRunApplyStatusReports status reports)
  = match find agentRunReportHasDecision (rev reports) with
    | Some r => Some (decisionOf r)
    | None => st_Decision status
    end.
Proof.
  unfold agentRunApplyStatusReports. case_bool_decide as E; [by subst|].
  by rewrite applyReports_decision.
Qed.

Section theorems.
Context `{Decode}.

(** Whatever a harness prints, the reports kept in the status of its run are
    at most 25, every text in them is bounded, and none of them is empty. *)
Theorem reports_bounded output :
  length (agentRunStatusReportsFromOutput output) ≤ 25
  ∧ Forall (λ r, boundedReport r ∧ r ≠ zero_AgentRunStatusReport)
      (agentRunStatusReportsFromOutput output).
Proof.
  split; [apply trim_length|]. apply trim_Forall, Forall_forall. intros r Hr.
  apply list_elem_of_omap in Hr as (line & _ & Hr). unfold reportOfLine in Hr. cbv zeta in Hr.
  destruct (Index _ _); [|done]. case_bool_decide; [done|].
  destruct (decodeReport _) as [report|]; [|done].
  case_bool_decide as Hz; [done|]. injection Hr as <-. split; [apply normalize_bounded|done].
Qed.

(** Dropping old reports never changes the decision of a run: it is the one
    of the latest report that carries a decision among all that were printed. *)
Theorem trimming_keeps_decision status output :
  st_Decision (agentRunApplyStatusReports status (agentRunStatusReportsFromOutput output))
  = match find agentRunReportHasDecision (rev (omap reportOfLine (scanLines output))) with
    | Some r => Some (decisionOf r)
    | None => st_Decision status
    end.
Proof.
  unfold agentRunStatusReportsFromOutput. by rewrite apply_decision, find_rev_trim.
Qed.
End theorems.

(** The request for a human is not treated like the decision: reports that ask
    for one can be dropped. *)
Definition fx_asks : AgentRunStatusReport := zero_AgentRunStatusReport <| rep_NeedsHuman := true |>.
Definition fx_notes : AgentRunStatusReport :=
  zero_AgentRunStatusReport <| rep_Action := "observe" |>.

(** A report that asks for a human is forgotten when 25 later reports follow
    it and one of them carries a decision: the run then ends as succeeded. *)
Theorem trimming_drops_request :
  let reports := fx_asks :: repeat fx_notes 25 in
  agentRunReportsNeedHuman reports = true
  ∧ agentRunReportsNeedHuman (agentRunTrimStatusReports reports) = false.
Proof. split; vm_compute; reflexivity. Qed.

Lemma trimOutput_length output :
  (N.of_nat (String.length (agentRunTrimOutput output)) ≤ 32768)%N.
Proof.
  unfold agentRunTrimOutput. cbv zeta.
  destruct (N.leb_spec (N.of_nat (String.length (TrimSpace output))) 32768) as [|Hl]; [done|].
  unfold dropStr. rewrite length_unbytes, length_drop, length_bytes.
  assert (N.of_nat maxOutputBytes = 32768%N) as Hm by (vm_compute; reflexivity). lia.
Qed.

Lemma outputSummary_length output : String.length (agentRunOutputSummary output) ≤ 300.
Proof.
  unfold agentRunOutputSummary. cbv zeta. case_bool_decide; [simpl; lia|].
  destruct (Nat.ltb_spec 300 (String.length (Join (lastLines 4
    (rev (SplitByte newline (TrimSpace output))) []) " "))); [|lia].
  rewrite takeStr_length. lia.
Qed.
