(* ===== verification/RunBackend.v ===== *)
(** * Backends, images and security contexts of a run

    The values agent_run_controller.go derives from an effective run before it
    builds anything: the backend, its model and provider, the image, the intent,
    the execution plane (src/api/v1alpha1/agent_substrate_types.go) and the
    security contexts of its Pod, with the operator's options
    (src/internal/controller/options.go) that they depend on. *)

From stdpp Require Import base list gmap strings.
From Stdlib Require Import ZArith Lia.
From S2P Require Import Prelude GoStrings GoTime Names ApiRun.

Open Scope Z_scope.

(** ** Options: the fields an AgentRun reconciliation reads *)

Record Options := mkOptions {
  opt_AgentRunTerminalRetention : Duration;
  opt_PlatformRepository : string;
  opt_PlatformRepositoryURL : string;
  opt_PlatformDocs : list string;
  opt_ApplicationMaxConcurrentRuns : Z;
  opt_GitHubAPIAllowedHosts : list string;
  opt_AllowInsecureGitHubAPI : bool;
  opt_CodexRunnerImage : string;
  opt_OpenCodeRunnerImage : string;
  opt_HermesAgentRunnerImage : string;
  opt_OpenClawRunnerImage : string;
  opt_GrokBuildRunnerImage : string;
  opt_PiAgentRunnerImage : string;
  opt_PrimeAgentRunnerImage : string;
  opt_AgyRunnerImage : string;
  opt_SubstrateActorsEnabled : bool;
  opt_SubstrateEndpoint : string;
  opt_SubstrateAtespace : string;
  opt_SubstrateGenerateOnActor : bool;
  opt_SubstrateGenerateActorClasses : list string }.
#[export] Instance eta_Options : Eta Options := λ r, mkOptions
  (opt_AgentRunTerminalRetention r) (opt_PlatformRepository r) (opt_PlatformRepositoryURL r)
  (opt_PlatformDocs r) (opt_ApplicationMaxConcurrentRuns r) (opt_GitHubAPIAllowedHosts r)
  (opt_AllowInsecureGitHubAPI r) (opt_CodexRunnerImage r) (opt_OpenCodeRunnerImage r)
  (opt_HermesAgentRunnerImage r) (opt_OpenClawRunnerImage r) (opt_GrokBuildRunnerImage r)
  (opt_PiAgentRunnerImage r) (opt_PrimeAgentRunnerImage r) (opt_AgyRunnerImage r)
  (opt_SubstrateActorsEnabled r) (opt_SubstrateEndpoint r) (opt_SubstrateAtespace r)
  (opt_SubstrateGenerateOnActor r) (opt_SubstrateGenerateActorClasses r).

(** The options of an operator started without any environment variable. *)
Definition DefaultOptions : Options := mkOptions 0
  "HazyForge/anvil-agents" "https://github.com/HazyForge/anvil-agents.git"
  ["docs/agent-run.md"; "internal/controller/prompts/agent-run-system.md";
   "internal/controller/agent_run_controller.go"]
  1 ["api.github.com"] false
  "anvil-agent-run-codex:dev" "anvil-agent-run-opencode:dev" "anvil-agent-run-hermes:dev"
  "anvil-agent-run-openclaw:dev" "anvil-agent-run-grok-build:dev" "anvil-agent-run-pi:dev"
  "anvil-agent-run-prime:dev" "anvil-agent-run-agy:dev"
  false "" "" false [].

(** ** The execution plane *)

Definition AgentRunExecutionRuntimeJob : string := "Job".
Definition AgentRunExecutionRuntimeSubstrateActor : string := "SubstrateActor".
Definition AgentRunExecutionRuntimeInProcess : string := "InProcess".

Definition EffectiveRuntime (s : AgentRunHarnessExecutionSpec) : string :=
  let runtime := TrimSpace (ex_Runtime s) in
  if bool_decide (runtime = AgentRunExecutionRuntimeSubstrateActor)
  then AgentRunExecutionRuntimeSubstrateActor
  else if bool_decide (runtime = AgentRunExecutionRuntimeInProcess)
  then AgentRunExecutionRuntimeInProcess
  else AgentRunExecutionRuntimeJob.
Definition UsesSubstrateActors (s : AgentRunHarnessExecutionSpec) : bool :=
  bool_decide (EffectiveRuntime s = AgentRunExecutionRuntimeSubstrateActor).
Definition UsesInProcess (s : AgentRunHarnessExecutionSpec) : bool :=
  bool_decide (EffectiveRuntime s = AgentRunExecutionRuntimeInProcess).

(** Go: [strings.ContainsAny(s, whitespace)] for the four characters used. *)
Definition containsBlank (s : string) : bool :=
  existsb (λ c, existsb (N.eqb (code c)) [32; 9; 10; 13]%N) (bytes s).

Definition validateActorSpec (s : AgentRunSubstrateActorSpec) : option (string * string) :=
  if negb (bool_decide (TrimSpace (sas_ActorClass s) = sas_ActorClass s))
     || containsBlank (sas_ActorClass s)
  then Some ("InvalidSubstrateSpec", "spec.harness.execution.substrate.actorClass must not contain surrounding or inner whitespace.")
  else if negb (bool_decide (TrimSpace (sas_Pool s) = sas_Pool s)) || containsBlank (sas_Pool s)
  then Some ("InvalidSubstrateSpec", "spec.harness.execution.substrate.pool must not contain surrounding or inner whitespace.")
  else None.

(** [None] stands for the pair of empty strings. *)
Definition ValidateSubstrateExecution (spec : AgentRunHarnessExecutionSpec) :
    option (string * string) :=
  if bool_decide (TrimSpace (ex_Runtime spec) = AgentRunExecutionRuntimeSubstrateActor) then
    match ex_Substrate spec with
    | None => Some ("InvalidSubstrateSpec", "spec.harness.execution.substrate is required when execution.runtime is SubstrateActor.")
    | Some s => validateActorSpec s
    end
  else match ex_Substrate spec with
       | Some _ => Some ("InvalidSubstrateSpec", "spec.harness.execution.substrate must only be set when execution.runtime is SubstrateActor.")
       | None => None
       end.

(** ** Backend *)

Definition execution (obj : AgentRun) : AgentRunHarnessExecutionSpec :=
  har_Execution (rs_Harness (run_Spec obj)).
Definition backend (obj : AgentRun) : AgentRunHarnessBackendSpec :=
  har_Backend (rs_Harness (run_Spec obj)).

Definition agentRunBackendKind (obj : AgentRun) : string :=
  if blank (be_Kind (backend obj)) then AgentRunHarnessBackendCodex else be_Kind (backend obj).

Definition agentRunIntent (obj : AgentRun) : string :=
  if blank (har_Intent (rs_Harness (run_Spec obj))) then AgentRunIntentObserve
  else har_Intent (rs_Harness (run_Spec obj)).

(** Go: a switch over the backend kind. *)
Definition byBackend {A} (kind : string) (codex openCode hermes openClaw grok pi prime agy other : A) : A :=
  if bool_decide (kind = AgentRunHarnessBackendCodex) then codex
  else if bool_decide (kind = AgentRunHarnessBackendOpenCode) then openCode
  else if bool_decide (kind = AgentRunHarnessBackendHermesAgent) then hermes
  else if bool_decide (kind = AgentRunHarnessBackendOpenClaw) then openClaw
  else if bool_decide (kind = AgentRunHarnessBackendGrokBuild) then grok
  else if bool_decide (kind = AgentRunHarnessBackendPiAgent) then pi
  else if bool_decide (kind = AgentRunHarnessBackendPrimeAgent) then prime
  else if bool_decide (kind = AgentRunHarnessBackendAgy) then agy
  else other.

Definition agentRunBackendModel (obj : AgentRun) : string :=
  let b := backend obj in
  let model {A} (f : A → string) (o : option A) : string :=
    match o with Some s => TrimSpace (f s) | None => "" end in
  byBackend (agentRunBackendKind obj)
    (model codex_Model (be_Codex b)) (model oc_Model (be_OpenCode b))
    (model hermes_Model (be_HermesAgent b)) (model claw_Model (be_OpenClaw b))
    (model grok_Model (be_GrokBuild b)) (model pi_Model (be_PiAgent b))
    (model prime_Model (be_PrimeAgent b)) (model agy_Model (be_Agy b)) "".

Definition agentRunModelProvider (obj : AgentRun) : string :=
  let provider := be_ModelProvider (backend obj) in
  if negb (blank provider) then provider
  else if bool_decide (agentRunBackendKind obj = AgentRunHarnessBackendGrokBuild)
          || bool_decide (agentRunBackendKind obj = AgentRunHarnessBackendPiAgent)
  then AgentRunModelProviderXAI else "".

Definition agentRunProviderAuthMode (obj : AgentRun) : string :=
  let authMode := be_ProviderAuthMode (backend obj) in
  if negb (blank authMode) then authMode else "".

Definition xaiByOAuth (obj : AgentRun) : bool :=
  bool_decide (agentRunModelProvider obj = AgentRunModelProviderXAI)
  && bool_decide (agentRunProviderAuthMode obj = AgentRunProviderAuthModeOAuth).

Definition agentRunHermesModelProvider (obj : AgentRun) : string :=
  if xaiByOAuth obj then "xai-oauth" else agentRunModelProvider obj.

Definition agentRunPiProvider (obj : AgentRun) (piAgent : AgentRunPiBackendSpec) : string :=
  if negb (blank (pi_Provider piAgent)) then TrimSpace (pi_Provider piAgent)
  else if xaiByOAuth obj then "xai-auth" else agentRunModelProvider obj.

Definition agentRunPrimeProvider (obj : AgentRun) (primeAgent : AgentRunPrimeBackendSpec) : string :=
  if negb (blank (prime_Provider primeAgent)) then TrimSpace (prime_Provider primeAgent)
  else agentRunModelProvider obj.

Definition agentRunImageWithOptions (obj : AgentRun) (options : Options) : string :=
  if negb (blank (be_Image (backend obj))) then TrimSpace (be_Image (backend obj)) else
  byBackend (agentRunBackendKind obj)
    (TrimSpace (opt_CodexRunnerImage options)) (TrimSpace (opt_OpenCodeRunnerImage options))
    (TrimSpace (opt_HermesAgentRunnerImage options)) (TrimSpace (opt_OpenClawRunnerImage options))
    (TrimSpace (opt_GrokBuildRunnerImage options)) (TrimSpace (opt_PiAgentRunnerImage options))
    (TrimSpace (opt_PrimeAgentRunnerImage options)) (TrimSpace (opt_AgyRunnerImage options)) "".

Definition agentRunOpenCodePure (openCode : AgentRunOpenCodeBackendSpec) : bool :=
  default true (oc_Pure openCode).
Definition agentRunOpenCodeAuto (openCode : AgentRunOpenCodeBackendSpec) : bool :=
  default false (oc_Auto openCode).

Definition agentRunImagePullPolicy (obj : AgentRun) : string :=
  if bool_decide (be_ImagePullPolicy (backend obj) = "") then "IfNotPresent"
  else be_ImagePullPolicy (backend obj).

Definition agentRunCodexSandbox (obj : AgentRun) (codex : AgentRunCodexBackendSpec) : string :=
  if negb (blank (codex_Sandbox codex)) then TrimSpace (codex_Sandbox codex)
  else if bool_decide (agentRunIntent obj = AgentRunIntentObserve) then "read-only"
  else "workspace-write".

(** ** Security contexts *)

Definition agentRunHasToolImageInitializers (obj : AgentRun) : bool :=
  existsb (λ tool, match tool_ImageInitializer tool with Some _ => true | None => false end)
    (har_Tools (rs_Harness (run_Spec obj))).

Definition seccompRuntimeDefault : Raw := "RuntimeDefault".
Definition agentRunToolsDefaultFSGroup : Z := 10001.

Definition agentRunPodSecurityContext (obj : AgentRun) : PodSecurityContext :=
  let out := default (mkPodSecurityContext None None None "") (ex_PodSecurityContext (execution obj)) in
  let out := match psc_RunAsNonRoot out with
             | None => out <| psc_RunAsNonRoot := Some true |> | Some _ => out end in
  let out := match psc_SeccompProfile out with
             | None => out <| psc_SeccompProfile := Some seccompRuntimeDefault |> | Some _ => out end in
  match psc_FSGroup out with
  | None => if agentRunHasToolImageInitializers obj
            then out <| psc_FSGroup := Some agentRunToolsDefaultFSGroup |> else out
  | Some _ => out
  end.

Definition agentRunDropsCapability (values : list string) (want : string) : bool :=
  existsb (λ value, bool_decide (value = want)) values.

Definition agentRunContainerSecurityContext (obj : AgentRun) : SecurityContext :=
  let out := default (mkSecurityContext None None None None "") (ex_SecurityContext (execution obj)) in
  let out := match sec_AllowPrivilegeEscalation out with
             | None => out <| sec_AllowPrivilegeEscalation := Some false |> | Some _ => out end in
  let out := match sec_RunAsNonRoot out with
             | None => out <| sec_RunAsNonRoot := Some true |> | Some _ => out end in
  let caps := default (mkSecurityCapabilities [] []) (sec_Capabilities out) in
  out <| sec_Capabilities := Some (
    if agentRunDropsCapability (cap_Drop caps) "ALL" then caps
    else mkSecurityCapabilities (cap_Add caps) (cap_Drop caps ++ ["ALL"])) |>.

(** What a container of a run may do: it drops every capability and adds none but
    those the spec adds; it is privileged only when the spec says so; unless the spec
    says otherwise it does not gain privileges and does not run as root; and nothing
    else of its context is set but by the spec. *)
Definition hardened (requested : option SecurityContext) (sc : SecurityContext) : Prop :=
  (∃ caps, sec_Capabilities sc = Some caps ∧ "ALL" ∈ cap_Drop caps
     ∧ cap_Add caps = match requested ≫= sec_Capabilities with Some r => cap_Add r | None => [] end)
  ∧ sec_Privileged sc = requested ≫= sec_Privileged
  ∧ sec_AllowPrivilegeEscalation sc
    = Some (default false (requested ≫= sec_AllowPrivilegeEscalation))
  ∧ sec_RunAsNonRoot sc = Some (default true (requested ≫= sec_RunAsNonRoot))
  ∧ sec_Rest sc = match requested with Some r => sec_Rest r | None => "" end.

Lemma containerSecurity_hardened obj :
  hardened (ex_SecurityContext (execution obj)) (agentRunContainerSecurityContext obj).
Proof.
  unfold hardened, agentRunContainerSecurityContext. cbv zeta.
  set (caps := λ c, if agentRunDropsCapability (cap_Drop c) "ALL" then c
    else mkSecurityCapabilities (cap_Add c) (cap_Drop c ++ ["ALL"])).
  assert (∀ c, "ALL" ∈ cap_Drop (caps c)) as Hcaps.
  { intros c. unfold caps. destruct (agentRunDropsCapability (cap_Drop c) "ALL") eqn:E.
    - unfold agentRunDropsCapability in E. apply existsb_exists in E as (v & Hv & Hd).
      bool_props. subst v. by apply list_elem_of_In.
    - simpl. apply elem_of_app. right. by apply list_elem_of_singleton. }
  assert (∀ c, cap_Add (caps c) = cap_Add c) as Hadd by (intros c; unfold caps; by case_match).
  destruct (ex_SecurityContext (execution obj)) as [[[?|] p [?|] [cs|] r]|]; simpl;
    (split; [eexists; split; [done|]; split;
       [first [apply Hcaps|apply (Hcaps (mkSecurityCapabilities [] []))]
       |first [apply Hadd|apply (Hadd (mkSecurityCapabilities [] []))]]|done]).
Qed.

(** The Pod, unless the spec says otherwise, is kept from running as root and under
    the default seccomp profile. *)
Lemma podSecurity_hardened obj :
  psc_RunAsNonRoot (agentRunPodSecurityContext obj)
    = Some (default true (ex_PodSecurityContext (execution obj) ≫= psc_RunAsNonRoot))
  ∧ psc_SeccompProfile (agentRunPodSecurityContext obj)
    = Some (default seccompRuntimeDefault (ex_PodSecurityContext (execution obj) ≫= psc_SeccompProfile)).
Proof.
  unfold agentRunPodSecurityContext. destruct (ex_PodSecurityContext (execution obj)) as [[[?|] [?|] [?|] r]|];
    simpl; by repeat case_match.
Qed.
