(* ===== verification/RunPayload.v ===== *)
(** * The payload of a run

    The files a run's Job mounts: the prompt, a description of the run, one file
    per skill and one per tool setup script (buildAgentRunPrompt,
    agentRunConfigMapData and the functions they call in
    src/internal/controller/agent_run_controller.go), collected in one ConfigMap
    of bounded size.  Skill text kept in a GitHub repository is fetched from an
    allowed host only.

    [net/url] and the HTTP exchange are parameters. *)

From stdpp Require Import base list gmap strings pretty.
From Stdlib Require Import ZArith Lia Ascii.
From S2P Require Import Prelude GoStrings GoTime Names ApiRun ApiWork Kube RunOutput RunBackend.

Open Scope Z_scope.

Definition agentRunPayloadMountPath : string := "/var/run/anvil-agent-run".
Definition agentRunPromptFile : string := "prompt.md".
Definition agentRunContextFile : string := "source.json".
Definition agentRunSkillFilePrefix : string := "skill-".
Definition agentRunToolFilePrefix : string := "tool-".
Definition agentRunPayloadConfigMapMaxBytes : Z := 900 * 1024.
Definition agentRunRemoteSkillMaxBytes : Z := 256 * 1024.

(** ** File names *)

(** [agentRunSkillFileNameUnsafeChars.ReplaceAllString(name, "-")]: every run of
    characters outside [A-Za-z0-9_.-] becomes one dash.  The bytes of a character
    beyond ASCII are all outside the set. *)
Definition safeFileChar (c : ascii) : bool :=
  let n := code c in
  ((65 <=? n) && (n <=? 90) || (97 <=? n) && (n <=? 122) || (48 <=? n) && (n <=? 57)
   || (n =? 95) || (n =? 46) || (n =? 45))%N.
Fixpoint replaceUnsafe (inRun : bool) (l : list ascii) : list ascii :=
  match l with
  | [] => []
  | c :: l => if safeFileChar c then c :: replaceUnsafe false l
              else if inRun then replaceUnsafe true l
              else "-"%char :: replaceUnsafe true l
  end.

(** [strings.Trim(name, "-_.")]. *)
Definition fileEdge (c : ascii) : bool := existsb (N.eqb (code c)) [45; 95; 46]%N.
Fixpoint dropEdge (l : list ascii) : list ascii :=
  match l with
  | c :: t => if fileEdge c then dropEdge t else l
  | [] => []
  end.
Definition trimEdges (l : list ascii) : list ascii := rev (dropEdge (rev (dropEdge l))).

Definition orUnnamed (l : list ascii) : list ascii :=
  if bool_decide (l = []) then bytes "unnamed" else l.

(** The middle part of a file name, from the name of a skill or a tool. *)
Definition fileStem (raw : string) : list ascii :=
  let name := orUnnamed (trimEdges (replaceUnsafe false (bytes (ToLower (TrimSpace raw))))) in
  if (80 <? length name)%nat then orUnnamed (trimEdges (take 80 name)) else name.

Definition fileNumber (index : nat) : string := pad 2 (Z.of_nat index + 1).

Definition agentRunSkillFileName (index : nat) (skill : AgentRunSkillInjectionSpec) : string :=
  agentRunSkillFilePrefix +:+ fileNumber index +:+ "-" +:+ unbytes (fileStem (skill_Name skill))
  +:+ ".md".
Definition agentRunToolSetupFileName (index : nat) (tool : AgentRunToolSpec) : string :=
  agentRunToolFilePrefix +:+ fileNumber index +:+ "-" +:+ unbytes (fileStem (tool_Name tool))
  +:+ "-setup.sh".

(** ** File contents *)

Record resolvedAgentRunSkillSource := mkSkillSource { rss_Description : string; rss_Content : string }.

Definition sourceParts (source : resolvedAgentRunSkillSource) : list string :=
  let description := if blank (rss_Description source) then "remote source"
                     else TrimSpace (rss_Description source) in
  [""; "### " +:+ description]
  ++ (if blank (rss_Content source) then [] else [""; TrimSpace (rss_Content source)]).

Definition agentRunSkillFileContentWithSources (skill : AgentRunSkillInjectionSpec)
    (sources : list resolvedAgentRunSkillSource) : string :=
  let parts :=
    ["# Skill: " +:+ TrimSpace (skill_Name skill)]
    ++ (if blank (skill_Description skill) then []
        else [""; "## When To Apply"; TrimSpace (skill_Description skill)])
    ++ (if bool_decide (skill_Paths skill = []) then []
        else [""; "## Required Context Paths"]
             ++ omap (λ path, if blank path then None else Some ("- " +:+ TrimSpace path))
                  (skill_Paths skill))
    ++ (if blank (skill_Content skill) then []
        else [""; "## Instructions"; TrimSpace (skill_Content skill)])
    ++ (if bool_decide (length sources = 0%nat) then []
        else [""; "## Downloaded Source Content"] ++ flat_map sourceParts sources) in
  Join parts nl +:+ nl.

Definition agentRunSkillFileContent (skill : AgentRunSkillInjectionSpec) : string :=
  agentRunSkillFileContentWithSources skill [].

Definition agentRunToolSetupFileContent (tool : AgentRunToolSpec) : string :=
  let script := TrimSpace (tool_SetupScript tool) in
  if HasPrefix script "#!" then script +:+ nl
  else "#!/usr/bin/env bash" +:+ nl +:+ "set -euo pipefail" +:+ nl +:+ nl +:+ script +:+ nl.

(** ** Remote skill sources *)

Record URL := mkURL {
  url_Scheme : string; url_User : bool; url_Host : string; url_Hostname : string;
  url_Path : string; url_RawQuery : string; url_Fragment : string }.
#[export] Instance eta_URL : Eta URL := λ r, mkURL
  (url_Scheme r) (url_User r) (url_Host r) (url_Hostname r) (url_Path r) (url_RawQuery r)
  (url_Fragment r).

(** [urlParse]: [url.Parse]; [withQuery u k v]: the encoding of the query of [u]
    with [k] set to [v]. *)
Class NetURL := {
  urlParse : string → GoErr + URL;
  withQuery : URL → string → string → string }.

(** Escaping in [net/url]: a byte that may not appear becomes [%XX].  A path
    segment escapes more of the reserved characters than a whole path. *)
Definition upperHexDigit (n : N) : ascii :=
  if (n <? 10)%N then ascii_of_N (48 + n) else ascii_of_N (55 + n).
Definition unreserved (c : ascii) : bool :=
  let n := code c in
  ((65 <=? n) && (n <=? 90) || (97 <=? n) && (n <=? 122) || (48 <=? n) && (n <=? 57)
   || (n =? 45) || (n =? 95) || (n =? 46) || (n =? 126))%N.
Definition oneOf (chars : string) (c : ascii) : bool :=
  existsb (λ d, bool_decide (c = d)) (bytes chars).
Definition escapeWith (keep : ascii → bool) (s : string) : string :=
  unbytes (flat_map (λ c, if keep c then [c]
    else ["%"%char; upperHexDigit (code c / 16); upperHexDigit (code c mod 16)]) (bytes s)).
Definition PathEscape : string → string := escapeWith (λ c, unreserved c || oneOf "$&+:=@" c).
Definition escapePath : string → string := escapeWith (λ c, unreserved c || oneOf "$&+,/:;=@" c).
(** [u.String()] for a URL with a scheme, a host and no user, whose path was set
    as a plain path. *)
Definition urlString (u : URL) : string :=
  url_Scheme u +:+ "://" +:+ url_Host u +:+ escapePath (url_Path u)
  +:+ (if bool_decide (url_RawQuery u = "") then "" else "?" +:+ url_RawQuery u)
  +:+ (if bool_decide (url_Fragment u = "") then "" else "#" +:+ url_Fragment u).

(** [strings.Trim(s, "/")] and [strings.TrimRight(s, "/")]. *)
Definition slash : ascii := "/"%char.
Fixpoint dropSlash (l : list ascii) : list ascii :=
  match l with
  | c :: t => if bool_decide (c = slash) then dropSlash t else l
  | [] => []
  end.
Definition TrimRightSlash (s : string) : string := unbytes (rev (dropSlash (rev (bytes s)))).
Definition TrimSlash (s : string) : string :=
  unbytes (rev (dropSlash (rev (dropSlash (bytes s))))).

Definition agentRunValidateRemoteFilePath (filePath : string) : option string :=
  if blank filePath then Some "github.path is required"
  else if HasPrefix filePath "/" then Some "github.path must be repository-relative"
  else if existsb (λ part, let part := TrimSpace part in
            bool_decide (part = "") || bool_decide (part = ".") || bool_decide (part = ".."))
            (SplitByte slash filePath)
  then Some "github.path must not contain empty, '.', or '..' segments"
  else None.

Definition ownerAndName (repository : string) : option (string * string) :=
  match SplitByte slash (TrimSlash (TrimSpace repository)) with
  | [owner; name] => if blank owner || blank name then None else Some (owner, name)
  | _ => None
  end.

Section remote.
Context `{NetURL} (options : Options).

Definition agentRunGitHubContentsURL (spec : AgentRunGitHubSkillSourceSpec) : GoErr + string :=
  let apiBase := TrimSpace (ghs_APIBaseURL spec) in
  let apiBase := if bool_decide (apiBase = "") then "https://api.github.com" else apiBase in
  match urlParse apiBase with
  | inl e => inl e
  | inr baseURL =>
      if url_User baseURL then inl (ErrText "github.apiBaseURL must not include credentials")
      else if bool_decide (url_Host baseURL = "") then inl (ErrText "github.apiBaseURL must include a host")
      else if negb (bool_decide (url_Scheme baseURL = "https"))
              && negb (opt_AllowInsecureGitHubAPI options && bool_decide (url_Scheme baseURL = "http"))
      then inl (ErrText "github.apiBaseURL must use https")
      else
        let host := ToLower (TrimSpace (url_Hostname baseURL)) in
        if negb (existsb (λ configured, bool_decide (host = ToLower (TrimSpace configured)))
                   (opt_GitHubAPIAllowedHosts options))
        then inl (ErrText ("github.apiBaseURL host " +:+ quote host
                           +:+ " is not in the operator allowlist"))
        else match ownerAndName (ghs_Repository spec) with
             | None => inl (ErrText "github.repository must use owner/name form")
             | Some (owner, name) =>
                 let filePath := TrimSpace (ghs_Path spec) in
                 match agentRunValidateRemoteFilePath filePath with
                 | Some e => inl (ErrText e)
                 | None =>
                     let segments := [TrimRightSlash (url_Path baseURL); "repos"; PathEscape owner;
                                      PathEscape name; "contents"]
                                     ++ map PathEscape (SplitByte slash filePath) in
                     let baseURL := baseURL <| url_Path := Join segments "/" |> in
                     let ref := TrimSpace (ghs_Ref spec) in
                     inr (urlString (if bool_decide (ref = "") then baseURL
                          else baseURL <| url_RawQuery := withQuery baseURL "ref" ref |>))
                 end
             end
  end.

Definition normalizeAgentRunSkillCredentialHost (raw : string) : GoErr + string :=
  let raw := TrimSpace raw in
  let bad := inl (ErrText ("skill source credential apiHost " +:+ quote raw
                           +:+ " must be an exact host without scheme or path")) in
  match urlParse ("https://" +:+ raw) with
  | inl _ => bad
  | inr parsed =>
      if url_User parsed || bool_decide (url_Host parsed = "")
         || negb (bool_decide (url_Path parsed = "")) || negb (bool_decide (url_RawQuery parsed = ""))
         || negb (bool_decide (url_Fragment parsed = ""))
      then bad else inr (ToLower (url_Host parsed))
  end.

Fixpoint selectCredential (host : string) (selected : option SecretKeyReference)
    (credentials : list AgentRunGitHubSkillCredential) : GoErr + option SecretKeyReference :=
  match credentials with
  | [] => inr selected
  | credential :: credentials =>
      match normalizeAgentRunSkillCredentialHost (cred_APIHost credential) with
      | inl e => inl e
      | inr credentialHost =>
          if negb (bool_decide (credentialHost = host)) then selectCredential host selected credentials
          else match selected with
               | Some _ => inl (ErrText ("multiple skill source credentials select API host " +:+ host))
               | None => selectCredential host (Some (cred_TokenSecretRef credential)) credentials
               end
      end
  end.

Definition agentRunSkillSourceCredentialRef (obj : AgentRun) (sourceURL : string) :
    GoErr + option SecretKeyReference :=
  match urlParse sourceURL with
  | inl e => inl e
  | inr parsed => selectCredential (ToLower (url_Host parsed)) None
                    (ex_SkillSourceCredentials (execution obj))
  end.
End remote.

(** ** Prompt and files *)

(** [json.MarshalIndent], on the values the payload encodes. *)
Class MarshalIndent (A : Type) := jsonMarshalIndent : A → option string.

Section prompt.
Context `{MarshalIndent AgentRunSpec} (agentRunSystemPromptMarkdown : string).

Definition agentRunSystemPrompt : string := TrimSpace agentRunSystemPromptMarkdown.

Definition buildAgentRunPrompt (obj : AgentRun) : string :=
  let source := default "" (jsonMarshalIndent (run_Spec obj)) in
  Join ([agentRunSystemPrompt; ""; "AgentRun spec JSON:"; source]
        ++ (if blank (rs_Prompt (run_Spec obj)) then []
            else [""; "Run prompt:"; rs_Prompt (run_Spec obj)])
        ++ (if blank (har_SystemPrompt (rs_Harness (run_Spec obj))) then []
            else [""; "Standing operator instructions:"; har_SystemPrompt (rs_Harness (run_Spec obj))]))
       nl.
End prompt.

Definition skills (obj : AgentRun) : list AgentRunSkillInjectionSpec :=
  har_SkillInjections (rs_Harness (run_Spec obj)).
Definition tools (obj : AgentRun) : list AgentRunToolSpec := har_Tools (rs_Harness (run_Spec obj)).

(** The loop over the tools with a setup script. *)
Definition addTool (data : gmap string string) (index : nat) (tool : AgentRunToolSpec) :
    gmap string string :=
  if blank (tool_SetupScript tool) then data
  else <[agentRunToolSetupFileName index tool := agentRunToolSetupFileContent tool]> data.

Fixpoint ifold {A B} (f : B → nat → A → B) (i : nat) (l : list A) (acc : B) : B :=
  match l with
  | [] => acc
  | a :: l => ifold f (S i) l (f acc i a)
  end.

Definition agentRunConfigMapDataSize (data : gmap string string) : Z :=
  map_fold (λ k v size, size + Z.of_nat (String.length k) + Z.of_nat (String.length v)) 0 data.

(** [httpGet url token]: a GET with the headers of the GitHub API, without
    following redirects: the status and the body.  [readSecret]: the data of a
    Secret. *)
Class Web (W : Type) := {
  httpGet : string → string → W → GoErr + (Z * string);
  readSecret : string → string → W → GoErr + gmap string string }.

Section files.
Context {W : Type} `{Web W, NetURL} (options : Options).

Definition agentRunReadSkillSourceToken (obj : AgentRun) (ref : SecretKeyReference) (w : W) :
    GoErr + string :=
  let namespace := if blank (skr_Namespace ref) then run_Namespace obj
                   else TrimSpace (skr_Namespace ref) in
  let where_ := namespace +:+ "/" +:+ skr_Name ref in
  if negb (bool_decide (namespace = run_Namespace obj))
  then inl (ErrText ("skill source token secret " +:+ where_
              +:+ " must be in the AgentRun namespace " +:+ run_Namespace obj))
  else match readSecret namespace (TrimSpace (skr_Name ref)) w with
       | inl e => inl e
       | inr data =>
           let key := TrimSpace (skr_Key ref) in
           match data !! key with
           | None => inl (ErrText ("skill source token secret " +:+ where_
                           +:+ " is missing key " +:+ quote key))
           | Some value =>
               let token := TrimSpace value in
               if bool_decide (token = "")
               then inl (ErrText ("skill source token secret " +:+ where_ +:+ " key "
                           +:+ quote key +:+ " is empty"))
               else inr token
           end
       end.

Definition resolveAgentRunGitHubSkillSource (obj : AgentRun) (spec : AgentRunGitHubSkillSourceSpec)
    (w : W) : GoErr + resolvedAgentRunSkillSource :=
  let where_ := ghs_Repository spec +:+ ":" +:+ ghs_Path spec in
  match agentRunGitHubContentsURL options spec with
  | inl e => inl e
  | inr sourceURL =>
  match agentRunSkillSourceCredentialRef obj sourceURL with
  | inl e => inl e
  | inr tokenRef =>
  match (match tokenRef with
         | None => inr ""
         | Some ref => agentRunReadSkillSourceToken obj ref w
         end) with
  | inl e => inl e
  | inr token =>
  match httpGet sourceURL token w with
  | inl e => inl e
  | inr (status, body) =>
      if (status <? 200) || (300 <=? status)
      then inl (ErrText ("GitHub contents request failed for " +:+ where_ +:+ " with HTTP "
                  +:+ fmtZ status))
      else if agentRunRemoteSkillMaxBytes <? Z.of_nat (String.length body)
      then inl (ErrText ("GitHub contents response exceeds the " +:+ fmtZ agentRunRemoteSkillMaxBytes
                  +:+ "-byte remote skill limit for " +:+ where_))
      else if blank body
      then inl (ErrText ("GitHub contents request returned empty content for " +:+ where_))
      else
        let ref := if blank (ghs_Ref spec) then "default branch" else TrimSpace (ghs_Ref spec) in
        inr (mkSkillSource ("GitHub " +:+ TrimSpace (ghs_Repository spec) +:+ ":"
               +:+ TrimSpace (ghs_Path spec) +:+ " @ " +:+ ref) body)
  end end end end.

Definition resolveAgentRunSkillSource (obj : AgentRun) (sourceRef : AgentRunSkillSourceRef) (w : W) :
    GoErr + resolvedAgentRunSkillSource :=
  match ssr_GitHub sourceRef with
  | Some spec => resolveAgentRunGitHubSkillSource obj spec w
  | None => inl (ErrText "sourceRefs entries must configure a provider")
  end.

Fixpoint resolveSources (obj : AgentRun) (skill : AgentRunSkillInjectionSpec) (i : nat)
    (refs : list AgentRunSkillSourceRef) (w : W) : GoErr + list resolvedAgentRunSkillSource :=
  match refs with
  | [] => inr []
  | sourceRef :: refs =>
      match resolveAgentRunSkillSource obj sourceRef w with
      | inl e => inl (ErrWrap ("resolve skill " +:+ quote (skill_Name skill) +:+ " sourceRefs["
                        +:+ fmtNat i +:+ "]") e)
      | inr source =>
          match resolveSources obj skill (S i) refs w with
          | inl e => inl e
          | inr sources => inr (source :: sources)
          end
      end
  end.

Definition skillContent (obj : AgentRun) (skill : AgentRunSkillInjectionSpec) (w : W) :
    GoErr + string :=
  if bool_decide (length (skill_SourceRefs skill) = 0%nat) then inr (agentRunSkillFileContent skill)
  else match resolveSources obj skill 0 (skill_SourceRefs skill) w with
       | inl e => inl e
       | inr sources => inr (agentRunSkillFileContentWithSources skill sources)
       end.

Fixpoint addSkills (obj : AgentRun) (w : W) (i : nat) (l : list AgentRunSkillInjectionSpec)
    (data : gmap string string) : GoErr + gmap string string :=
  match l with
  | [] => inr data
  | skill :: l =>
      match skillContent obj skill w with
      | inl e => inl e
      | inr content => addSkills obj w (S i) l (<[agentRunSkillFileName i skill := content]> data)
      end
  end.

Definition agentRunConfigMapData (obj : AgentRun) (prompt contextBody : string) (w : W) :
    GoErr + gmap string string :=
  let data : gmap string string :=
    <[agentRunContextFile := contextBody]> {[ agentRunPromptFile := prompt ]} in
  match addSkills obj w 0 (skills obj) data with
  | inl e => inl e
  | inr data =>
      let data := ifold addTool 0 (tools obj) data in
      let size := agentRunConfigMapDataSize data in
      if agentRunPayloadConfigMapMaxBytes <? size
      then inl (ErrText ("AgentRun payload is " +:+ fmtZ size
                 +:+ " bytes; maximum supported ConfigMap payload is "
                 +:+ fmtZ agentRunPayloadConfigMapMaxBytes +:+ " bytes"))
      else inr data
  end.
End files.

(** The lists of files in the environment of the harness. *)
Definition agentRunSkillFilesEnv (obj : AgentRun) : string :=
  Join (imap (λ i skill, agentRunPayloadMountPath +:+ "/" +:+ agentRunSkillFileName i skill)
          (skills obj)) nl.

Definition setupFiles (obj : AgentRun) : list string :=
  omap id (imap (λ i tool, if blank (tool_SetupScript tool) then None
    else Some (agentRunPayloadMountPath +:+ "/" +:+ agentRunToolSetupFileName i tool)) (tools obj)).
Definition agentRunToolSetupFilesEnv (obj : AgentRun) : string := Join (setupFiles obj) nl.

(** ** File names do not collide *)

Lemma pretty_N_go_head x s : (0 < x)%N →
  ∃ d t, pretty_N_go x s = String (pretty_N_char d) t ∧ (0 < d < 10)%N.
Proof.
  revert s. induction (N.lt_wf_0 x) as [x _ IH]. intros s Hx.
  rewrite pretty_N_go_step by done.
  destruct (decide (x < 10)%N) as [Hs|Hs].
  - rewrite N.div_small, N.mod_small by done. rewrite pretty_N_go_0. eauto.
  - apply IH; [by apply N.div_lt|]. apply N.div_str_pos. lia.
Qed.

Lemma pretty_N_go_chars (P : ascii → Prop) x s :
  (∀ d, (d < 10)%N → P (pretty_N_char d)) →
  Forall P (bytes s) → Forall P (bytes (pretty_N_go x s)).
Proof.
  intros HP. revert s. induction (N.lt_wf_0 x) as [x _ IH]. intros s Hs.
  destruct (decide (x = 0)%N) as [->|]; [by rewrite pretty_N_go_0|].
  rewrite pretty_N_go_step by lia. apply IH; [apply N.div_lt; lia|].
  simpl. constructor; [|done]. apply HP, N.mod_lt. lia.
Qed.

Lemma pretty_pos z : 0 < z → pretty z = pretty_N_go (Z.to_N z) "".
Proof.
  intros Hz. destruct z as [|p|p]; [lia| |lia].
  unfold pretty, pretty_Z, pretty, pretty_positive, pretty, pretty_N.
  by case_decide.
Qed.

Lemma digit_cases d : (d < 10)%N → d ∈ [0; 1; 2; 3; 4; 5; 6; 7; 8; 9]%N.
Proof. intros Hd. rewrite list_elem_of_In. simpl. lia. Qed.

Lemma fileNumber_dash i : "-"%char ∉ bytes (fileNumber i).
Proof.
  unfold fileNumber, pad. cbv zeta. rewrite bytes_app, bytes_unbytes, elem_of_app.
  intros [Hd|Hd].
  - by apply elem_of_replicate in Hd as [? _].
  - unfold fmtZ in Hd. rewrite pretty_pos in Hd by lia.
    assert (Forall (λ c, c ≠ "-"%char) (bytes (pretty_N_go (Z.to_N (Z.of_nat i + 1)) ""))) as Hf.
    { apply pretty_N_go_chars; [|done]. intros d Hd'. apply digit_cases in Hd'.
      rewrite list_elem_of_In in Hd'. simpl in Hd'. by destruct_or?; subst. }
    by eapply Forall_forall in Hd; [|exact Hf].
Qed.

Lemma fileNumber_inj i j : fileNumber i = fileNumber j → i = j.
Proof.
  unfold fileNumber, pad, fmtZ. cbv zeta. rewrite !pretty_pos by lia. intros E.
  destruct (pretty_N_go_head (Z.to_N (Z.of_nat i + 1)) "" ltac:(lia)) as (d & s & Es & Hd).
  destruct (pretty_N_go_head (Z.to_N (Z.of_nat j + 1)) "" ltac:(lia)) as (e & t & Et & He).
  assert (pretty_N_go (Z.to_N (Z.of_nat i + 1)) "" = pretty_N_go (Z.to_N (Z.of_nat j + 1)) "")
    as Eg.
  { rewrite Es, Et in E |- *. apply (f_equal bytes) in E.
    rewrite !bytes_app, !bytes_unbytes in E. simpl String.length in E.
    pose proof (digit_cases e (proj2 He)) as He'. pose proof (digit_cases d (proj2 Hd)) as Hd'.
    rewrite list_elem_of_In in He', Hd'. simpl in He', Hd'.
    assert (pretty_N_char e ≠ "0"%char ∧ pretty_N_char d ≠ "0"%char) as [Ne Nd]
      by (destruct_or?; subst; first [exfalso; lia|split; discriminate]).
    clear He' Hd' Hd He Es Et.
    assert (bytes (String (pretty_N_char d) s) = bytes (String (pretty_N_char e) t)) as Eb.
    { destruct s as [|? [|? ?]], t as [|? [|? ?]]; simpl in E |- *; congruence. }
    by apply (f_equal unbytes) in Eb; rewrite !unbytes_bytes in Eb. }
  rewrite <- !pretty_pos in Eg by lia. apply (inj pretty) in Eg. lia.
Qed.

Lemma split_unique {A} (c : A) (a b r q : list A) :
  c ∉ a → c ∉ b → a ++ c :: r = b ++ c :: q → a = b.
Proof.
  revert b. induction a as [|x a IH]; intros [|y b] Ha Hb E; simplify_eq/=; try set_solver.
  f_equal. apply IH; [set_solver..|done].
Qed.

Lemma numbered_inj prefix i j s t :
  prefix +:+ fileNumber i +:+ "-" +:+ s = prefix +:+ fileNumber j +:+ "-" +:+ t → i = j.
Proof.
  intros E. apply (f_equal bytes) in E. rewrite !bytes_app in E.
  apply app_inv_head in E. simpl in E. apply fileNumber_inj.
  rewrite <- (unbytes_bytes (fileNumber i)), <- (unbytes_bytes (fileNumber j)). f_equal.
  eapply split_unique; [apply fileNumber_dash..|exact E].
Qed.

Lemma skillFile_inj i j s t : agentRunSkillFileName i s = agentRunSkillFileName j t → i = j.
Proof. apply numbered_inj. Qed.
Lemma toolFile_inj i j s t : agentRunToolSetupFileName i s = agentRunToolSetupFileName j t → i = j.
Proof. apply numbered_inj. Qed.

Section payload.
Context {W : Type} `{Web W, NetURL} (options : Options).

Lemma addSkills_other obj w i l data data' k :
  addSkills options obj w i l data = inr data' →
  (∀ j s, i ≤ j → k ≠ agentRunSkillFileName j s)%nat → data' !! k = data !! k.
Proof.
  revert i data. induction l as [|s l IH]; intros i data Hd Hk; simpl in Hd; [by simplify_eq|].
  destruct (skillContent options obj s w) as [e|c]; [done|].
  erewrite IH by (done || (intros; apply Hk; lia)).
  rewrite lookup_insert_ne; [done|]. intros E. by eapply (Hk i).
Qed.

Lemma addSkills_lookup obj w i l data data' n s :
  addSkills options obj w i l data = inr data' → l !! n = Some s →
  ∃ c, skillContent options obj s w = inr c
    ∧ data' !! agentRunSkillFileName (i + n)%nat s = Some c.
Proof.
  revert i data n. induction l as [|s' l IH]; intros i data n Hd Hn; [done|]. simpl in Hd.
  destruct (skillContent options obj s' w) as [e|c] eqn:Ec; [done|].
  destruct n as [|n]; simplify_eq/=.
  - exists c. split; [done|]. rewrite Nat.add_0_r.
    erewrite addSkills_other; [|done|].
    + by rewrite lookup_insert_eq.
    + intros j t Hj E. apply skillFile_inj in E. lia.
  - rewrite Nat.add_succ_r. by eapply (IH (S i)).
Qed.

Lemma addTool_other i l (data : gmap string string) k :
  (∀ j t, i ≤ j → k ≠ agentRunToolSetupFileName j t)%nat →
  ifold addTool i l data !! k = data !! k.
Proof.
  revert i data. induction l as [|t l IH]; intros i data Hk; simpl; [done|].
  rewrite IH by (intros; apply Hk; lia). unfold addTool. destruct (blank _); [done|].
  rewrite lookup_insert_ne; [done|]. intros E. by eapply (Hk i).
Qed.

Lemma addTool_lookup i l (data : gmap string string) n t :
  l !! n = Some t → blank (tool_SetupScript t) = false →
  ifold addTool i l data !! agentRunToolSetupFileName (i + n)%nat t
  = Some (agentRunToolSetupFileContent t).
Proof.
  revert i data n. induction l as [|t' l IH]; intros i data n Hn Hb; [done|]. simpl.
  destruct n as [|n]; simplify_eq/=.
  - rewrite Nat.add_0_r, addTool_other.
    + unfold addTool. rewrite Hb. by rewrite lookup_insert_eq.
    + intros j u Hj E. apply toolFile_inj in E. lia.
  - rewrite Nat.add_succ_r. by apply (IH (S i)).
Qed.

(** The payload of a run holds the prompt, the description of the run, the
    text of every skill and the script of every tool that has one, each in a file
    of its own (no two overwrite each other), and fits the size limit. *)
Theorem payload_complete obj prompt contextBody (w : W) data :
  agentRunConfigMapData options obj prompt contextBody w = inr data →
  data !! agentRunPromptFile = Some prompt
  ∧ data !! agentRunContextFile = Some contextBody
  ∧ (∀ i skill, skills obj !! i = Some skill →
       ∃ text, skillContent options obj skill w = inr text
         ∧ data !! agentRunSkillFileName i skill = Some text)
  ∧ (∀ i tool, tools obj !! i = Some tool → blank (tool_SetupScript tool) = false →
       data !! agentRunToolSetupFileName i tool = Some (agentRunToolSetupFileContent tool))
  ∧ agentRunConfigMapDataSize data ≤ agentRunPayloadConfigMapMaxBytes.
Proof.
  unfold agentRunConfigMapData. cbv zeta.
  destruct (addSkills _ _ _ _ _ _) as [e|skilled] eqn:Es; [done|].
  destruct (Z.ltb_spec agentRunPayloadConfigMapMaxBytes
    (agentRunConfigMapDataSize (ifold addTool 0 (tools obj) skilled))); [done|].
  intros [= <-]. repeat split.
  - rewrite addTool_other by done.
    rewrite (addSkills_other _ _ _ _ _ _ _ Es) by (intros j s _ E; discriminate E).
    reflexivity.
  - rewrite addTool_other by done.
    rewrite (addSkills_other _ _ _ _ _ _ _ Es) by (intros j s _ E; discriminate E).
    reflexivity.
  - intros i skill Hi. destruct (addSkills_lookup _ _ _ _ _ _ _ _ Es Hi) as (text & Ht & Hl).
    exists text. split; [done|]. by rewrite addTool_other.
  - intros i tool Hi Hb. by apply (addTool_lookup 0).
  - done.
Qed.

(** The text of a skill is requested only over TLS (or over plain HTTP where
    the operator allowed it), from a host of the operator's list, without
    credentials in the address, for a path without empty or dot segments. *)
Theorem remote_skill_host_allowed spec address :
  agentRunGitHubContentsURL options spec = inr address →
  ∃ base u, urlParse base = inr u
    ∧ url_User u = false
    ∧ (url_Scheme u = "https"
       ∨ opt_AllowInsecureGitHubAPI options = true ∧ url_Scheme u = "http")
    ∧ (∃ host, host ∈ opt_GitHubAPIAllowedHosts options
         ∧ ToLower (TrimSpace (url_Hostname u)) = ToLower (TrimSpace host))
    ∧ Forall (λ part, TrimSpace part ∉ [""; "."; ".."])
        (SplitByte slash (TrimSpace (ghs_Path spec)))
    ∧ ∃ path query, address = urlString (u <| url_Path := path |> <| url_RawQuery := query |>).
Proof.
  unfold agentRunGitHubContentsURL. cbv zeta.
  destruct (urlParse _) as [e|u] eqn:Eu; [done|].
  destruct (url_User u) eqn:Euser; [done|].
  destruct (bool_decide (url_Host u = "")); [done|].
  destruct (_ && _) eqn:Es; [done|]. destruct (negb (existsb _ _)) eqn:Eh; [done|].
  destruct (ownerAndName _) as [[owner name]|]; [|done].
  destruct (agentRunValidateRemoteFilePath _) eqn:Ep; [done|]. intros [= <-].
  eexists _, u. split; [exact Eu|]. split; [done|]. split; [|split; [|split]].
  - apply andb_false_iff in Es as [Es|Es]; bool_props; [by left|by right].
  - apply negb_false_iff, existsb_exists in Eh as (host & Hh & E). bool_props.
    exists host. split; [by apply list_elem_of_In|done].
  - unfold agentRunValidateRemoteFilePath in Ep. destruct (blank _); [done|].
    destruct (HasPrefix _ _); [done|]. cbv zeta in Ep.
    destruct (existsb _ _) eqn:Ex in Ep; [done|].
    apply Forall_forall. intros part Hpart Hin.
    assert (existsb (λ part, bool_decide (TrimSpace part = "") || bool_decide (TrimSpace part = ".")
      || bool_decide (TrimSpace part = "..")) (SplitByte slash (TrimSpace (ghs_Path spec))) = true)
      as Hc; [|by rewrite Hc in Ex].
    apply existsb_exists. exists part. split; [by apply list_elem_of_In|].
    rewrite list_elem_of_In in Hin. simpl in Hin.
    by destruct Hin as [E|[E|[E|[]]]]; rewrite <- E.
  - match goal with |- context [if ?b then _ else _] => destruct b end.
    + eexists _, (url_RawQuery u). reflexivity.
    + eexists _, _. reflexivity.
Qed.
End payload.

(** ** Witnesses *)

Definition fx_github : NetURL := {|
  urlParse := λ s, inr (mkURL "https" false "api.github.com" "api.github.com" "" "" "");
  withQuery := λ _ k v, k +:+ "=" +:+ v |}.
Definition fx_no_web : Web unit := {|
  httpGet := λ _ _ _, inr (404, "");
  readSecret := λ _ _ _, inl (ErrText "no secret") |}.
Definition fx_equipped : AgentRun :=
  zero_AgentRun <| run_Spec := zero_AgentRunSpec <| rs_Harness := zero_AgentRunHarnessSpec
    <| har_SkillInjections := [zero_AgentRunSkillInjectionSpec <| skill_Name := "Triage!" |>;
                               zero_AgentRunSkillInjectionSpec <| skill_Name := "triage?" |>] |>
    <| har_Tools := [zero_AgentRunToolSpec <| tool_Name := "jq" |>
                       <| tool_SetupScript := "apk add jq" |>] |> |> |>.

Definition fx_payload : GoErr + gmap string string :=
  agentRunConfigMapData (H := fx_no_web) (H0 := fx_github) DefaultOptions fx_equipped "do it" "{}" tt.
Definition fx_triage : AgentRunSkillInjectionSpec :=
  zero_AgentRunSkillInjectionSpec <| skill_Name := "triage?" |>.

Lemma payload_complete_witness :
  ∃ data, fx_payload = inr data
    ∧ data !! "skill-02-triage.md" = Some (agentRunSkillFileContent fx_triage).
Proof.
  assert (match fx_payload with inr _ => true | inl _ => false end = true) as Hok
    by (vm_compute; reflexivity).
  destruct fx_payload as [e|data] eqn:E; [discriminate Hok|].
  exists data. split; [reflexivity|].
  destruct (payload_complete (H := fx_no_web) (H0 := fx_github) DefaultOptions fx_equipped
    "do it" "{}" tt data E) as (_ & _ & Hs & _).
  destruct (Hs 1%nat fx_triage eq_refl) as (text & Ht & Hl).
  injection Ht as <-.
  exact Hl.
Defined.

Definition fx_remote (path : string) : AgentRunGitHubSkillSourceSpec :=
  mkAgentRunGitHubSkillSourceSpec "acme/skills" "" path "".

Lemma remote_skill_host_allowed_witness :
  ∃ address, agentRunGitHubContentsURL (H := fx_github) DefaultOptions (fx_remote "docs/a.md")
             = inr address
    ∧ ∃ base u, @urlParse fx_github base = inr u ∧ url_Scheme u = "https".
Proof.
  exists "https://api.github.com/repos/acme/skills/contents/docs/a.md".
  split; [vm_compute; reflexivity|].
  destruct (remote_skill_host_allowed (H0 := fx_github) DefaultOptions (fx_remote "docs/a.md")
    "https://api.github.com/repos/acme/skills/contents/docs/a.md") as (base & u & Hu & _ & Hs & _).
  { vm_compute. reflexivity. }
  exists base, u. split; [exact Hu|]. destruct Hs as [Hs|[Hs _]]; [exact Hs|discriminate Hs].
Defined.

(** A path with a character that must be escaped is escaped twice, once per
    segment and once more when the address is printed, so the request names
    another file: [docs/a b.md] is requested as [docs/a%2520b.md]. *)
Theorem remote_path_escaped_twice :
  agentRunGitHubContentsURL (H := fx_github) DefaultOptions (fx_remote "docs/a b.md")
  = inr "https://api.github.com/repos/acme/skills/contents/docs/a%2520b.md".
Proof. vm_compute. reflexivity. Qed.
