(* ===== verification/RunJob.v ===== *)
(** * The Job of a run

    How agent_run_controller.go renders an effective run as a Kubernetes Job
    ([agentRunJob]): environment, volumes, initializers, labels; how a Job read
    back from the server is compared with it ([normalizeAgentRunJobSpec],
    [validateAgentRunJob]) and summarised in a digest ([agentRunJobSnapshotDigest]).

    The Kubernetes types carry the fields the code reads or writes by name; the
    other fields of a type are its [Rest], as JSON text, which is empty in what
    the code builds. *)

From stdpp Require Import base list gmap strings.
From Stdlib Require Import ZArith Lia Ascii.
From S2P Require Import Prelude GoStrings GoTime Names ApiRun ApiWork Kube LaunchGate Merge RunOutput RunBackend RunPayload.

Open Scope Z_scope.

(** ** batch/v1 and core/v1 *)

Record VolumeMount := mkVolumeMount {
  vm_Name : string; vm_MountPath : string; vm_SubPath : string; vm_ReadOnly : bool }.

(** Volume sources that the code distinguishes, each with its default mode. *)
Inductive VolumeSource :=
  | VolumeConfigMap (name : string) (defaultMode : option Z) (rest : Raw)
  | VolumeSecret (defaultMode : option Z) (rest : Raw)
  | VolumeDownwardAPI (defaultMode : option Z) (rest : Raw)
  | VolumeProjected (defaultMode : option Z) (rest : Raw)
  | VolumeEmptyDir
  | VolumeClaim (claim : string) (readOnly : bool)
  | VolumeCSI (driver : string) (readOnly : option bool)
  | VolumeOther (rest : Raw).
Record Volume := mkVolume { vol_Name : string; vol_Source : VolumeSource }.

Record Container := mkContainer {
  ctr_Name : string;
  ctr_Image : string;
  ctr_ImagePullPolicy : string;
  ctr_Command : list string;
  ctr_Args : list string;
  ctr_WorkingDir : string;
  ctr_Env : list EnvVar;
  ctr_EnvFrom : list string;
  ctr_VolumeMounts : list VolumeMount;
  ctr_Resources : ResourceRequirements;
  ctr_SecurityContext : option SecurityContext;
  ctr_TerminationMessagePath : string;
  ctr_TerminationMessagePolicy : string;
  ctr_Rest : Raw }.
#[export] Instance eta_Container : Eta Container := λ r, mkContainer
  (ctr_Name r) (ctr_Image r) (ctr_ImagePullPolicy r) (ctr_Command r) (ctr_Args r)
  (ctr_WorkingDir r) (ctr_Env r) (ctr_EnvFrom r) (ctr_VolumeMounts r) (ctr_Resources r)
  (ctr_SecurityContext r) (ctr_TerminationMessagePath r) (ctr_TerminationMessagePolicy r)
  (ctr_Rest r).

Record PodSpec := mkPodSpec {
  pod_ServiceAccountName : string;
  pod_DeprecatedServiceAccount : string;
  pod_RestartPolicy : string;
  pod_AutomountServiceAccountToken : option bool;
  pod_NodeSelector : gmap string string;
  pod_Affinity : option Raw;
  pod_Tolerations : list Raw;
  pod_ImagePullSecrets : list LocalObjectReference;
  pod_SecurityContext : option PodSecurityContext;
  pod_InitContainers : list Container;
  pod_Containers : list Container;
  pod_Volumes : list Volume;
  pod_EnableServiceLinks : option bool;
  pod_PreemptionPolicy : option string;
  pod_DNSPolicy : string;
  pod_SchedulerName : string;
  pod_TerminationGracePeriodSeconds : option Z;
  pod_Rest : Raw }.
#[export] Instance eta_PodSpec : Eta PodSpec := λ r, mkPodSpec
  (pod_ServiceAccountName r) (pod_DeprecatedServiceAccount r) (pod_RestartPolicy r) (pod_AutomountServiceAccountToken r)
  (pod_NodeSelector r) (pod_Affinity r) (pod_Tolerations r) (pod_ImagePullSecrets r)
  (pod_SecurityContext r) (pod_InitContainers r) (pod_Containers r) (pod_Volumes r)
  (pod_EnableServiceLinks r) (pod_PreemptionPolicy r) (pod_DNSPolicy r) (pod_SchedulerName r)
  (pod_TerminationGracePeriodSeconds r) (pod_Rest r).

Record PodTemplateSpec := mkPodTemplateSpec {
  tpl_Labels : gmap string string; tpl_Rest : Raw; tpl_Spec : PodSpec }.
#[export] Instance eta_PodTemplateSpec : Eta PodTemplateSpec := λ r, mkPodTemplateSpec
  (tpl_Labels r) (tpl_Rest r) (tpl_Spec r).

Record LabelSelector := mkLabelSelector { sel_MatchLabels : gmap string string; sel_Rest : Raw }.

Record JobSpec := mkJobSpec {
  js_Parallelism : option Z;
  js_Completions : option Z;
  js_ActiveDeadlineSeconds : option Z;
  js_BackoffLimit : option Z;
  js_Selector : option LabelSelector;
  js_ManualSelector : option bool;
  js_Template : PodTemplateSpec;
  js_TTLSecondsAfterFinished : option Z;
  js_CompletionMode : option string;
  js_Suspend : option bool;
  js_PodReplacementPolicy : option string;
  js_Rest : Raw }.
#[export] Instance eta_JobSpec : Eta JobSpec := λ r, mkJobSpec
  (js_Parallelism r) (js_Completions r) (js_ActiveDeadlineSeconds r) (js_BackoffLimit r)
  (js_Selector r) (js_ManualSelector r) (js_Template r) (js_TTLSecondsAfterFinished r)
  (js_CompletionMode r) (js_Suspend r) (js_PodReplacementPolicy r) (js_Rest r).

Record JobCondition := mkJobCondition {
  jc_Type : string; jc_Status : string; jc_Message : string }.
Record JobStatus := mkJobStatus { jst_Succeeded : Z; jst_Failed : Z; jst_Conditions : list JobCondition }.
Record Job := mkJob { job_ObjectMeta : ObjectMeta; job_Spec : JobSpec; job_Status : JobStatus }.
#[export] Instance eta_Job : Eta Job := λ r, mkJob (job_ObjectMeta r) (job_Spec r) (job_Status r).
Definition job_Name (j : Job) : string := meta_Name (job_ObjectMeta j).
Definition job_Namespace (j : Job) : string := meta_Namespace (job_ObjectMeta j).
Definition job_UID (j : Job) : string := meta_UID (job_ObjectMeta j).
Definition job_key (j : Job) : key := (job_Namespace j, job_Name j).

(** [apiequality.Semantic.DeepEqual], which does not tell empty maps and lists
    from absent ones. *)
#[export] Instance FileKeySelector_eq_dec : EqDecision FileKeySelector.
Proof. solve_decision. Defined.
#[export] Instance ObjectFieldSelector_eq_dec : EqDecision ObjectFieldSelector.
Proof. solve_decision. Defined.
#[export] Instance EnvVarSource_eq_dec : EqDecision EnvVarSource.
Proof. solve_decision. Defined.
#[export] Instance EnvVar_eq_dec : EqDecision EnvVar.
Proof. solve_decision. Defined.
#[export] Instance LocalObjectReference_eq_dec : EqDecision LocalObjectReference.
Proof. solve_decision. Defined.
#[export] Instance ResourceRequirements_eq_dec : EqDecision ResourceRequirements.
Proof. solve_decision. Defined.
#[export] Instance SecurityCapabilities_eq_dec : EqDecision SecurityCapabilities.
Proof. solve_decision. Defined.
#[export] Instance SecurityContext_eq_dec : EqDecision SecurityContext.
Proof. solve_decision. Defined.
#[export] Instance PodSecurityContext_eq_dec : EqDecision PodSecurityContext.
Proof. solve_decision. Defined.
#[export] Instance VolumeMount_eq_dec : EqDecision VolumeMount.
Proof. solve_decision. Defined.
#[export] Instance VolumeSource_eq_dec : EqDecision VolumeSource.
Proof. solve_decision. Defined.
#[export] Instance Volume_eq_dec : EqDecision Volume.
Proof. solve_decision. Defined.
#[export] Instance Container_eq_dec : EqDecision Container.
Proof. solve_decision. Defined.
#[export] Instance PodSpec_eq_dec : EqDecision PodSpec.
Proof. solve_decision. Defined.
#[export] Instance PodTemplateSpec_eq_dec : EqDecision PodTemplateSpec.
Proof. solve_decision. Defined.
#[export] Instance LabelSelector_eq_dec : EqDecision LabelSelector.
Proof. solve_decision. Defined.
#[export] Instance JobSpec_eq_dec : EqDecision JobSpec.
Proof. solve_decision. Defined.

(** ** Environment *)

Record resolvedAgentRunDataVolume := mkResolvedDataVolume {
  rdv_Name : string;
  rdv_Namespace : string;
  rdv_ClaimName : string;
  rdv_MountPath : string;
  rdv_SubPath : string;
  rdv_ReadOnly : bool;
  rdv_ExtraEnv : list EnvVar;
  rdv_NodeSelector : gmap string string }.

Definition agentRunDataVolumeStatuses (dataVolumes : list resolvedAgentRunDataVolume) :
    list AgentRunDataVolumeStatus :=
  map (λ item, mkAgentRunDataVolumeStatus (rdv_Name item) (rdv_Namespace item) (rdv_ClaimName item)
                 (rdv_MountPath item) (rdv_ReadOnly item)) dataVolumes.

(** An entry of ANVIL_AGENT_RUN_TOOLS_JSON; the last two fields are left out when
    empty. *)
Record ToolItem := mkToolItem {
  ti_name : string; ti_description : string; ti_setupFile : string; ti_verifyCommand : list string }.

Section environment.
Context `{Marshal (list AgentRunDataVolumeStatus), Marshal (list string), Marshal (list ToolItem)}.
Context (options : Options).

Definition toolItem (index : nat) (tool : AgentRunToolSpec) : ToolItem :=
  mkToolItem (TrimSpace (tool_Name tool)) (TrimSpace (tool_Description tool))
    (if blank (tool_SetupScript tool) then ""
     else agentRunPayloadMountPath +:+ "/" +:+ agentRunToolSetupFileName index tool)
    (tool_VerifyCommand tool).

Definition agentRunToolsJSONEnv (obj : AgentRun) : string :=
  if bool_decide (length (tools obj) = 0%nat) then ""
  else default "" (jsonMarshal (imap toolItem (tools obj))).

Definition ev (name value : string) : EnvVar := mkEnvVar name value None.
(** An entry that is present when its value is not empty. *)
Definition evNonEmpty (name value : string) : list EnvVar :=
  if bool_decide (value = "") then [] else [ev name value].
Definition formatBool (b : bool) : string := if b then "true" else "false".
(** The additional arguments of a backend, as JSON. *)
Definition evArgs (name : string) (args : list string) : list EnvVar :=
  if bool_decide (args = []) then [] else
  match jsonMarshal args with Some raw => [ev name raw] | None => [] end.

Definition evRef (prefix : string) (obj : AgentRun) (ref : option NamespacedObjectReference) :
    list EnvVar :=
  match ref with
  | None => []
  | Some ref =>
      [ev (prefix +:+ "_NAME") (TrimSpace (ref_Name ref));
       ev (prefix +:+ "_NAMESPACE") (firstNonEmpty [TrimSpace (ref_Namespace ref); run_Namespace obj])]
  end.

Definition repositoryEnv (obj : AgentRun) : list EnvVar :=
  match normalizeAgentRunRepository (scope_Repository (rs_Scope (run_Spec obj))) with
  | None => []
  | Some repo =>
      evNonEmpty "ANVIL_AGENT_RUN_REPOSITORY" (repo_Name repo)
      ++ evNonEmpty "ANVIL_AGENT_RUN_REPOSITORY_URL" (repo_URL repo)
      ++ evNonEmpty "ANVIL_AGENT_RUN_REPOSITORY_REF" (repo_Ref repo)
      ++ evNonEmpty "ANVIL_AGENT_RUN_DESTINATION_BRANCH" (repo_DestinationBranch repo)
      ++ (if bool_decide (repo_AllowedBranches repo = []) then []
          else [ev "ANVIL_AGENT_RUN_ALLOWED_BRANCHES" (Join (repo_AllowedBranches repo) ",")])
  end.

Definition dataVolumeEnv (dataVolumes : list resolvedAgentRunDataVolume) : list EnvVar :=
  if bool_decide (length dataVolumes = 0%nat) then [] else
  flat_map rdv_ExtraEnv dataVolumes
  ++ match jsonMarshal (agentRunDataVolumeStatuses dataVolumes) with
     | Some raw => [ev "ANVIL_AGENT_RUN_DATA_VOLUMES_JSON" raw]
     | None => []
     end.

Definition codexEnv (obj : AgentRun) : list EnvVar :=
  let codex := default zero_AgentRunCodexBackendSpec (be_Codex (backend obj)) in
  [ev "ANVIL_CODEX_MODEL" (TrimSpace (codex_Model codex));
   ev "ANVIL_CODEX_REASONING_EFFORT" (TrimSpace (codex_ReasoningEffort codex));
   ev "ANVIL_CODEX_VERBOSITY" (TrimSpace (codex_Verbosity codex));
   ev "ANVIL_CODEX_SERVICE_TIER" (TrimSpace (codex_ServiceTier codex));
   ev "ANVIL_CODEX_GOAL_MODE" (formatBool (codex_GoalMode codex));
   ev "ANVIL_CODEX_SANDBOX" (agentRunCodexSandbox obj codex);
   ev "ANVIL_CODEX_APPROVAL_POLICY" "never"]
  ++ evNonEmpty "ANVIL_CODEX_GOAL" (TrimSpace (codex_Goal codex))
  ++ evArgs "ANVIL_CODEX_ADDITIONAL_ARGS_JSON" (codex_AdditionalArgs codex).

Definition openCodeEnv (obj : AgentRun) : list EnvVar :=
  let openCode := default zero_AgentRunOpenCodeBackendSpec (be_OpenCode (backend obj)) in
  [ev "ANVIL_OPENCODE_MODEL" (TrimSpace (oc_Model openCode));
   ev "ANVIL_OPENCODE_AGENT" (TrimSpace (oc_Agent openCode));
   ev "ANVIL_OPENCODE_VARIANT" (TrimSpace (oc_Variant openCode));
   ev "ANVIL_OPENCODE_FORMAT" (TrimSpace (oc_Format openCode));
   ev "ANVIL_OPENCODE_AUTO" (formatBool (agentRunOpenCodeAuto openCode));
   ev "ANVIL_OPENCODE_PURE" (formatBool (agentRunOpenCodePure openCode))]
  ++ evArgs "ANVIL_OPENCODE_ADDITIONAL_ARGS_JSON" (oc_AdditionalArgs openCode).

Definition hermesEnv (obj : AgentRun) : list EnvVar :=
  let hermes := default zero_AgentRunHermesBackendSpec (be_HermesAgent (backend obj)) in
  [ev "ANVIL_HERMES_MODEL_PROVIDER" (agentRunHermesModelProvider obj);
   ev "ANVIL_HERMES_PROVIDER_AUTH_MODE" (agentRunProviderAuthMode obj);
   ev "ANVIL_HERMES_MODEL" (TrimSpace (hermes_Model hermes));
   ev "ANVIL_HERMES_REASONING_EFFORT" (TrimSpace (hermes_ReasoningEffort hermes));
   ev "ANVIL_HERMES_SERVICE_TIER" (TrimSpace (hermes_ServiceTier hermes));
   ev "ANVIL_HERMES_PROFILE" (TrimSpace (hermes_Profile hermes));
   ev "ANVIL_HERMES_USE_CODEX_APP_SERVER" (formatBool (hermes_UseCodexAppServer hermes))]
  ++ evArgs "ANVIL_HERMES_ADDITIONAL_ARGS_JSON" (hermes_AdditionalArgs hermes).

Definition openClawEnv (obj : AgentRun) : list EnvVar :=
  let openClaw := default zero_AgentRunOpenClawBackendSpec (be_OpenClaw (backend obj)) in
  [ev "ANVIL_OPENCLAW_PROVIDER" (agentRunModelProvider obj);
   ev "ANVIL_OPENCLAW_PROVIDER_AUTH_MODE" (agentRunProviderAuthMode obj);
   ev "ANVIL_OPENCLAW_AGENT_ID" (TrimSpace (claw_AgentID openClaw));
   ev "ANVIL_OPENCLAW_MODEL" (TrimSpace (claw_Model openClaw));
   ev "ANVIL_OPENCLAW_THINKING" (TrimSpace (claw_Thinking openClaw));
   ev "ANVIL_OPENCLAW_SERVICE_TIER" (TrimSpace (claw_ServiceTier openClaw))]
  ++ match claw_Local openClaw with
     | Some b => [ev "ANVIL_OPENCLAW_LOCAL" (formatBool b)]
     | None => []
     end
  ++ evArgs "ANVIL_OPENCLAW_ADDITIONAL_ARGS_JSON" (claw_AdditionalArgs openClaw).

Definition grokBuildEnv (obj : AgentRun) : list EnvVar :=
  let grokBuild := default zero_AgentRunGrokBuildBackendSpec (be_GrokBuild (backend obj)) in
  [ev "ANVIL_GROK_BUILD_MODEL_PROVIDER" (agentRunModelProvider obj);
   ev "ANVIL_GROK_BUILD_PROVIDER_AUTH_MODE" (agentRunProviderAuthMode obj);
   ev "ANVIL_GROK_BUILD_MODEL" (TrimSpace (grok_Model grokBuild));
   ev "ANVIL_GROK_BUILD_REASONING_EFFORT" (TrimSpace (grok_ReasoningEffort grokBuild));
   ev "ANVIL_GROK_BUILD_SERVICE_TIER" (TrimSpace (grok_ServiceTier grokBuild));
   ev "ANVIL_GROK_BUILD_PROFILE" (TrimSpace (grok_Profile grokBuild));
   ev "ANVIL_GROK_BUILD_COMMAND" (TrimSpace (grok_Command grokBuild))]
  ++ evArgs "ANVIL_GROK_BUILD_ADDITIONAL_ARGS_JSON" (grok_AdditionalArgs grokBuild).

Definition piEnv (obj : AgentRun) : list EnvVar :=
  let piAgent := default zero_AgentRunPiBackendSpec (be_PiAgent (backend obj)) in
  [ev "ANVIL_PI_MODEL_PROVIDER" (agentRunModelProvider obj);
   ev "ANVIL_PI_PROVIDER_AUTH_MODE" (agentRunProviderAuthMode obj);
   ev "ANVIL_PI_PROVIDER" (agentRunPiProvider obj piAgent);
   ev "ANVIL_PI_MODEL" (TrimSpace (pi_Model piAgent));
   ev "ANVIL_PI_THINKING" (TrimSpace (pi_Thinking piAgent));
   ev "ANVIL_PI_MODE" (TrimSpace (pi_Mode piAgent));
   ev "ANVIL_PI_NO_SESSION" (formatBool (pi_NoSession piAgent))]
  ++ evArgs "ANVIL_PI_ADDITIONAL_ARGS_JSON" (pi_AdditionalArgs piAgent).

Definition primeEnv (obj : AgentRun) : list EnvVar :=
  let primeAgent := default zero_AgentRunPrimeBackendSpec (be_PrimeAgent (backend obj)) in
  [ev "ANVIL_PRIME_MODEL_PROVIDER" (agentRunModelProvider obj);
   ev "ANVIL_PRIME_PROVIDER_AUTH_MODE" (agentRunProviderAuthMode obj);
   ev "ANVIL_PRIME_PROVIDER" (agentRunPrimeProvider obj primeAgent);
   ev "ANVIL_PRIME_MODEL" (TrimSpace (prime_Model primeAgent));
   ev "ANVIL_PRIME_THINKING" (TrimSpace (prime_Thinking primeAgent));
   ev "ANVIL_PRIME_MODE" (TrimSpace (prime_Mode primeAgent));
   ev "ANVIL_PRIME_NO_SESSION" (formatBool (prime_NoSession primeAgent))]
  ++ evArgs "ANVIL_PRIME_ADDITIONAL_ARGS_JSON" (prime_AdditionalArgs primeAgent).

Definition agyEnv (obj : AgentRun) : list EnvVar :=
  let agy := default zero_AgentRunAgyBackendSpec (be_Agy (backend obj)) in
  [ev "ANVIL_AGY_MODEL" (TrimSpace (agy_Model agy));
   ev "ANVIL_AGY_MODE" (TrimSpace (agy_Mode agy));
   ev "ANVIL_AGY_THINKING" (TrimSpace (agy_Thinking agy))]
  ++ evArgs "ANVIL_AGY_ADDITIONAL_ARGS_JSON" (agy_AdditionalArgs agy).

Definition agentRunEnv (obj : AgentRun) (dataVolumes : list resolvedAgentRunDataVolume) :
    list EnvVar :=
  let spec := run_Spec obj in
  [ev "ANVIL_AGENT_RUN" (run_Name obj);
   ev "ANVIL_AGENT_RUN_NAMESPACE" (run_Namespace obj);
   ev "ANVIL_AGENT_RUN_BACKEND" (agentRunBackendKind obj);
   ev "ANVIL_AGENT_RUN_INTENT" (agentRunIntent obj);
   ev "ANVIL_AGENT_RUN_SOURCE_KIND" (TrimSpace (src_Kind (rs_SourceRef spec)));
   ev "ANVIL_AGENT_RUN_SOURCE_NAME" (TrimSpace (src_Name (rs_SourceRef spec)));
   ev "ANVIL_AGENT_RUN_PROMPT_FILE" (agentRunPayloadMountPath +:+ "/" +:+ agentRunPromptFile);
   ev "ANVIL_AGENT_RUN_CONTEXT_FILE" (agentRunPayloadMountPath +:+ "/" +:+ agentRunContextFile);
   ev "ANVIL_AGENT_RUN_STATUS_FILE" "/tmp/anvil-agent-run-status/status.jsonl";
   ev "ANVIL_AGENT_RUN_STATUS_LOG_PREFIX" agentRunStatusLinePrefix;
   ev "ANVIL_AGENT_RUN_STATUS_TOOL" "anvil-agent-status";
   ev "ANVIL_AGENT_FEEDBACK_TOOL" "anvil-hotline";
   ev "ANVIL_HOTLINE_TOOL" "anvil-hotline";
   ev "ANVIL_AGENT_RUN_PLATFORM_REPOSITORY" (TrimSpace (opt_PlatformRepository options));
   ev "ANVIL_AGENT_RUN_PLATFORM_REPOSITORY_URL" (TrimSpace (opt_PlatformRepositoryURL options));
   ev "ANVIL_AGENT_RUN_PLATFORM_DOCS" (Join (opt_PlatformDocs options) ",")]
  ++ (if 0 <? ex_TimeoutSeconds (execution obj)
      then [ev "ANVIL_AGENT_RUN_TIMEOUT_SECONDS" (fmtZ (ex_TimeoutSeconds (execution obj)))] else [])
  ++ repositoryEnv obj
  ++ (if spiffe_Enabled (ex_SpiffeWorkloadAPI (execution obj))
      then [ev "SPIFFE_ENDPOINT_SOCKET" "unix:///spiffe-workload-api/spire-agent.sock";
            ev "ANVIL_AGENT_RUN_SPIFFE_ID"
               (TrimSpace (spiffe_SPIFFEID (ex_SpiffeWorkloadAPI (execution obj))))] else [])
  ++ evNonEmpty "ANVIL_AGENT_RUN_MODEL_PROVIDER" (agentRunModelProvider obj)
  ++ evNonEmpty "ANVIL_AGENT_RUN_PROVIDER_AUTH_MODE" (agentRunProviderAuthMode obj)
  ++ evRef "ANVIL_ADVERSE_SITUATION" obj (rs_SituationRef spec)
  ++ evRef "ANVIL_AGENT_SCHEDULE" obj (rs_ScheduleRef spec)
  ++ evRef "ANVIL_AGENT_RUN_PROFILE" obj (rs_ProfileRef spec)
  ++ evNonEmpty "ANVIL_AGENT_RUN_SKILL_FILES" (agentRunSkillFilesEnv obj)
  ++ evNonEmpty "ANVIL_AGENT_RUN_TOOL_SETUP_FILES" (agentRunToolSetupFilesEnv obj)
  ++ evNonEmpty "ANVIL_AGENT_RUN_TOOLS_JSON" (agentRunToolsJSONEnv obj)
  ++ dataVolumeEnv dataVolumes
  ++ byBackend (agentRunBackendKind obj) (codexEnv obj) (openCodeEnv obj) (hermesEnv obj)
       (openClawEnv obj) (grokBuildEnv obj) (piEnv obj) (primeEnv obj) (agyEnv obj) []
  ++ ex_ExtraEnv (execution obj).

Definition agentRunEnvFrom (obj : AgentRun) : list string :=
  omap (λ ref, if blank (ref_Name ref) then None else Some (TrimSpace (ref_Name ref)))
    (ex_EnvSecretRefs (execution obj)).

(** ** Labels, annotations and volumes *)

Definition agentRunLabel : string := "control.anvil.hazyforge.io/agent-run".
Definition agentRunJobLabel : string := "control.anvil.hazyforge.io/agent-run-job".
Definition agentRunLabelBackend : string := "control.anvil.hazyforge.io/agent-run-backend".
Definition agentRunLabelIntent : string := "control.anvil.hazyforge.io/agent-run-intent".
Definition agentRunLabelSourceKind : string := "control.anvil.hazyforge.io/agent-run-source-kind".
Definition agentRunLabelSourceName : string := "control.anvil.hazyforge.io/agent-run-source-name".
Definition adverseSituationLabel : string := "control.anvil.hazyforge.io/adverse-situation".
Definition agentRunLabelSpiffeWorkloadAPI : string := "control.anvil.hazyforge.io/spiffe-workload-api".
Definition agentRunLabelServiceAccount : string := "control.anvil.hazyforge.io/agent-run-service-account".
Definition agentRunAnnotationComposition : string := "control.anvil.hazyforge.io/resolved-composition".
Definition agentRunAnnotationRequestedTTL : string :=
  "control.anvil.hazyforge.io/requested-ttl-seconds-after-finished".

(** [labels[k] = v] when the guard holds. *)
Definition setWhen (b : bool) (k v : string) (m : gmap string string) : gmap string string :=
  if b then <[k := v]> m else m.
Definition setRef (k : string) (ref : option NamespacedObjectReference) (m : gmap string string) :
    gmap string string :=
  match ref with Some r => <[k := sanitizeLabelValue (ref_Name r)]> m | None => m end.

Definition agentRunLabels (obj : AgentRun) (jobName : string) : gmap string string :=
  let spec := run_Spec obj in
  let spiffe := spiffe_Enabled (ex_SpiffeWorkloadAPI (execution obj)) in
  let account := TrimSpace (ex_ServiceAccountName (execution obj)) in
  setWhen (spiffe && negb (bool_decide (account = ""))) agentRunLabelServiceAccount
    (sanitizeLabelValue account)
  (setWhen spiffe agentRunLabelSpiffeWorkloadAPI "true"
  (setWhen (negb (blank jobName)) agentRunJobLabel (sanitizeLabelValue jobName)
  (setRef agentRunScheduleLabel (rs_ScheduleRef spec)
  (setRef adverseSituationLabel (rs_SituationRef spec)
  (<[agentRunLabelSourceName := sanitizeLabelValue (src_Name (rs_SourceRef spec))]>
  (<[agentRunLabelSourceKind := sanitizeLabelValue (src_Kind (rs_SourceRef spec))]>
  {[ agentRunLabel := sanitizeLabelValue (run_Name obj) ]})))))).

Definition agentRunWorkloadLabels (obj : AgentRun) (jobName : string) : gmap string string :=
  <[agentRunLabelIntent := sanitizeLabelValue (agentRunIntent obj)]>
  (<[agentRunLabelBackend := sanitizeLabelValue (agentRunBackendKind obj)]>
   (agentRunLabels obj jobName)).

Definition agentRunDataVolumeName (index : nat) (item : resolvedAgentRunDataVolume) : string :=
  agentRunChildName ["agent-data-"; fmtNat (S index); rdv_Name item].

(** The selector of the run takes precedence over those of its volumes. *)
Definition agentRunNodeSelector (obj : AgentRun) (dataVolumes : list resolvedAgentRunDataVolume) :
    gmap string string :=
  ex_NodeSelector (execution obj)
  ∪ fold_left (λ out item, rdv_NodeSelector item ∪ out) dataVolumes ∅.

Definition agentRunToolsVolume : string := "agent-run-tools".
Definition agentRunToolsMountPath : string := "/opt/anvil/tools".
Definition agentRunPayloadVolume : string := "agent-run-payload".

Definition agentRunToolImageInitializerName (index : nat) (tool : AgentRunToolSpec) : string :=
  agentRunChildName ["tool-init"; fmtNat (S index); tool_Name tool].

Definition agentRunToolImageInitializerContainers (obj : AgentRun) : list Container :=
  omap id (imap (λ index tool,
    match tool_ImageInitializer tool with
    | None => None
    | Some initializer =>
        Some (mkContainer (agentRunToolImageInitializerName index tool)
          (TrimSpace (tii_Image initializer)) "IfNotPresent" (tii_Command initializer)
          (tii_Args initializer) agentRunToolsMountPath [] []
          [mkVolumeMount agentRunToolsVolume agentRunToolsMountPath "" false]
          (ex_Resources (execution obj)) (Some (agentRunContainerSecurityContext obj)) "" "" "")
    end) (tools obj)).

Context `{Marshal AgentRunResolvedCompositionStatus}.

Definition agentRunCompositionAnnotations (obj : AgentRun) : gmap string string :=
  match st_ResolvedComposition (run_Status obj) with
  | None => ∅
  | Some composition =>
      match jsonMarshal composition with
      | Some contents => {[ agentRunAnnotationComposition := contents ]}
      | None => ∅
      end
  end.

Definition agentRunJobAnnotations (obj : AgentRun) : gmap string string :=
  match ex_TTLSecondsAfterFinished (execution obj) with
  | None => agentRunCompositionAnnotations obj
  | Some ttl => <[agentRunAnnotationRequestedTTL := fmtZ ttl]> (agentRunCompositionAnnotations obj)
  end.

(** ** The Job *)

Definition agentRunVolumes (obj : AgentRun) (configMapName : string)
    (dataVolumes : list resolvedAgentRunDataVolume) : list VolumeMount * list Volume :=
  let spiffe := spiffe_Enabled (ex_SpiffeWorkloadAPI (execution obj)) in
  let initContainers := agentRunToolImageInitializerContainers obj in
  let withTools := negb (bool_decide (length initContainers = 0%nat)) in
  ([mkVolumeMount agentRunPayloadVolume agentRunPayloadMountPath "" true]
   ++ (if withTools then [mkVolumeMount agentRunToolsVolume agentRunToolsMountPath "" true] else [])
   ++ imap (λ index item, mkVolumeMount (agentRunDataVolumeName index item) (rdv_MountPath item)
              (rdv_SubPath item) (rdv_ReadOnly item)) dataVolumes
   ++ (if spiffe then [mkVolumeMount "spiffe-workload-api" "/spiffe-workload-api" "" true] else []),
   [mkVolume agentRunPayloadVolume (VolumeConfigMap configMapName None "")]
   ++ (if withTools then [mkVolume agentRunToolsVolume VolumeEmptyDir] else [])
   ++ imap (λ index item, mkVolume (agentRunDataVolumeName index item)
              (VolumeClaim (rdv_ClaimName item) (rdv_ReadOnly item))) dataVolumes
   ++ (if spiffe then [mkVolume "spiffe-workload-api" (VolumeCSI "csi.spiffe.io" (Some true))] else [])).

Definition agentRunContainer (obj : AgentRun) (configMapName : string)
    (dataVolumes : list resolvedAgentRunDataVolume) : Container :=
  let custom := if bool_decide (agentRunBackendKind obj = AgentRunHarnessBackendCustom)
                then be_Custom (backend obj) else None in
  mkContainer "agent" (agentRunImageWithOptions obj options) (agentRunImagePullPolicy obj)
    (match custom with Some c => custom_Command c | None => [] end)
    (match custom with Some c => custom_Args c | None => [] end)
    (TrimSpace (ex_Workdir (execution obj)))
    (agentRunEnv obj dataVolumes) (agentRunEnvFrom obj)
    (agentRunVolumes obj configMapName dataVolumes).1
    (ex_Resources (execution obj)) (Some (agentRunContainerSecurityContext obj)) "" "" "".

Definition agentRunJob (obj : AgentRun) (jobName configMapName : string)
    (dataVolumes : list resolvedAgentRunDataVolume) : Job :=
  let ex := execution obj in
  mkJob (zero_ObjectMeta <| meta_Name := jobName |> <| meta_Namespace := run_Namespace obj |>
           <| meta_Labels := agentRunWorkloadLabels obj jobName |>
           <| meta_Annotations := agentRunJobAnnotations obj |>)
    (mkJobSpec None None
       (if 0 <? ex_TimeoutSeconds ex then Some (ex_TimeoutSeconds ex) else None)
       (Some 0) None None
       (mkPodTemplateSpec (agentRunWorkloadLabels obj jobName) ""
          (mkPodSpec (firstNonEmpty [TrimSpace (ex_ServiceAccountName ex); "default"]) "" "Never" None
             (agentRunNodeSelector obj dataVolumes) (ex_Affinity ex) (ex_Tolerations ex)
             (ex_ImagePullSecrets ex) (Some (agentRunPodSecurityContext obj))
             (agentRunToolImageInitializerContainers obj)
             [agentRunContainer obj configMapName dataVolumes]
             (agentRunVolumes obj configMapName dataVolumes).2
             None None "" "" None ""))
       None None None None "")
    (mkJobStatus 0 0 []).
End environment.

(** ** Comparing Jobs *)

Definition agentRunLabelsWithoutTelemetry (labels : gmap string string) : gmap string string :=
  delete agentRunLabelIntent (delete agentRunLabelBackend labels).

(** Go: [if p != nil && *p == v { p = nil }]. *)
Definition unlessDefault {A} `{EqDecision A} (v : A) (p : option A) : option A :=
  if bool_decide (p = Some v) then None else p.
Definition unlessEqual (v s : string) : string := if bool_decide (s = v) then "" else s.

Definition normalizeContainer (c : Container) : Container :=
  c <| ctr_TerminationMessagePath := unlessEqual "/dev/termination-log" (ctr_TerminationMessagePath c) |>
    <| ctr_TerminationMessagePolicy := unlessEqual "File" (ctr_TerminationMessagePolicy c) |>.

Definition defaultMode : Z := 420.
Definition normalizeVolume (v : Volume) : Volume :=
  mkVolume (vol_Name v)
    match vol_Source v with
    | VolumeConfigMap n m r => VolumeConfigMap n (unlessDefault defaultMode m) r
    | VolumeSecret m r => VolumeSecret (unlessDefault defaultMode m) r
    | VolumeDownwardAPI m r => VolumeDownwardAPI (unlessDefault defaultMode m) r
    | VolumeProjected m r => VolumeProjected (unlessDefault defaultMode m) r
    | s => s
    end.

Definition normalizePod (p : PodSpec) : PodSpec :=
  p <| pod_EnableServiceLinks := unlessDefault true (pod_EnableServiceLinks p) |>
    <| pod_PreemptionPolicy := unlessDefault "PreemptLowerPriority" (pod_PreemptionPolicy p) |>
    <| pod_DeprecatedServiceAccount :=
         unlessEqual (pod_ServiceAccountName p) (pod_DeprecatedServiceAccount p) |>
    <| pod_DNSPolicy := unlessEqual "ClusterFirst" (pod_DNSPolicy p) |>
    <| pod_SchedulerName := unlessEqual "default-scheduler" (pod_SchedulerName p) |>
    <| pod_TerminationGracePeriodSeconds := unlessDefault 30 (pod_TerminationGracePeriodSeconds p) |>
    <| pod_Containers := map normalizeContainer (pod_Containers p) |>
    <| pod_InitContainers := map normalizeContainer (pod_InitContainers p) |>
    <| pod_Volumes := map normalizeVolume (pod_Volumes p) |>.

(** The labels the Job controller adds to the template, with their values. *)
Definition controllerLabels (job : Job) : list (string * string) :=
  [("batch.kubernetes.io/controller-uid", job_UID job);
   ("batch.kubernetes.io/job-name", job_Name job);
   ("controller-uid", job_UID job); ("job-name", job_Name job)].

Fixpoint dropControllerLabels (job : Job) (expected : list (string * string))
    (labels : gmap string string) : GoErr + gmap string string :=
  match expected with
  | [] => inr labels
  | (k, v) :: expected =>
      match labels !! k with
      | None => dropControllerLabels job expected labels
      | Some actual =>
          if bool_decide (job_UID job = "") || negb (bool_decide (actual = v))
          then inl (ErrText ("AgentRun Job " +:+ job_Namespace job +:+ "/" +:+ job_Name job
                      +:+ " has invalid controller label " +:+ k))
          else dropControllerLabels job expected (delete k labels)
      end
  end.

Definition normalizeSelector (job : Job) (selector : option LabelSelector) : GoErr + unit :=
  match selector with
  | None => inr tt
  | Some s =>
      if bool_decide (job_UID job = "")
      then inl (ErrText "AgentRun Job selector cannot be validated without a Job UID")
      else if bool_decide (s = mkLabelSelector {[ "batch.kubernetes.io/controller-uid" := job_UID job ]} "")
      then inr tt
      else inl (ErrText ("AgentRun Job " +:+ job_Namespace job +:+ "/" +:+ job_Name job
                  +:+ " has an invalid controller selector"))
  end.

Definition normalizeAgentRunJobSpec (spec : JobSpec) (job : Job) : GoErr + JobSpec :=
  match normalizeSelector job (js_Selector spec) with
  | inl e => inl e
  | inr _ =>
      let template := js_Template spec in
      match dropControllerLabels job (controllerLabels job)
              (agentRunLabelsWithoutTelemetry (tpl_Labels template)) with
      | inl e => inl e
      | inr labels =>
          inr (spec
            <| js_Selector := None |>
            <| js_ManualSelector := unlessDefault false (js_ManualSelector spec) |>
            <| js_Parallelism := unlessDefault 1 (js_Parallelism spec) |>
            <| js_Completions := unlessDefault 1 (js_Completions spec) |>
            <| js_CompletionMode := unlessDefault "NonIndexed" (js_CompletionMode spec) |>
            <| js_Suspend := unlessDefault false (js_Suspend spec) |>
            <| js_PodReplacementPolicy :=
                 unlessDefault "TerminatingOrFailed" (js_PodReplacementPolicy spec) |>
            <| js_Template := template <| tpl_Spec := normalizePod (tpl_Spec template) |>
                                       <| tpl_Labels := labels |> |>)
      end
  end.

(** Go: [metav1.GetControllerOf]. *)
Definition GetControllerOf (meta : ObjectMeta) : option OwnerReference :=
  find (λ o, match own_Controller o with Some true => true | _ => false end)
    (meta_OwnerReferences meta).

Definition agentRunControllerOwnerMatches (meta : ObjectMeta) (run : AgentRun) : bool :=
  negb (bool_decide (run_UID run = ""))
  && match GetControllerOf meta with
     | None => false
     | Some owner => bool_decide (own_APIVersion owner = GroupVersion)
                     && bool_decide (own_Kind owner = "AgentRun")
                     && bool_decide (own_Name owner = run_Name run)
                     && bool_decide (own_UID owner = run_UID run)
     end.

Definition validateAgentRunJob (job desired : Job) (run : AgentRun) : GoErr + unit :=
  let where_ := job_Namespace job +:+ "/" +:+ job_Name job in
  if negb (agentRunControllerOwnerMatches (job_ObjectMeta job) run)
  then inl (ErrText ("AgentRun Job " +:+ where_ +:+ " is not controlled by AgentRun "
              +:+ run_Namespace run +:+ "/" +:+ run_Name run +:+ " with the current UID"))
  else if negb (bool_decide (agentRunLabelsWithoutTelemetry (meta_Labels (job_ObjectMeta job))
                             = agentRunLabelsWithoutTelemetry (meta_Labels (job_ObjectMeta desired))))
  then inl (ErrText ("AgentRun Job " +:+ where_ +:+ " has invalid labels"))
  else if negb (bool_decide (meta_Annotations (job_ObjectMeta job)
                             = meta_Annotations (job_ObjectMeta desired)))
  then inl (ErrText ("AgentRun Job " +:+ where_ +:+ " has invalid annotations"))
  else match normalizeAgentRunJobSpec (job_Spec desired) job with
       | inl e => inl e
       | inr normalizedDesired =>
           match normalizeAgentRunJobSpec (job_Spec job) job with
           | inl e => inl e
           | inr normalizedActual =>
               if bool_decide (normalizedDesired = normalizedActual) then inr tt
               else inl (ErrText ("AgentRun Job " +:+ where_
                           +:+ " does not match the resolved run execution spec"))
           end
       end.

Record agentRunJobSnapshot := mkJobSnapshot {
  snap_Labels : gmap string string; snap_Annotations : gmap string string; snap_Spec : JobSpec }.

Definition agentRunJobSnapshotDigest `{Marshal agentRunJobSnapshot} (job : Job) : GoErr + string :=
  match normalizeAgentRunJobSpec (job_Spec job) job with
  | inl e => inl e
  | inr normalized =>
      let digest := digestJSON (jsonMarshal (mkJobSnapshot
        (agentRunLabelsWithoutTelemetry (meta_Labels (job_ObjectMeta job)))
        (meta_Annotations (job_ObjectMeta job)) normalized)) in
      if bool_decide (digest = "")
      then inl (ErrText ("digest AgentRun Job " +:+ job_Namespace job +:+ "/" +:+ job_Name job
                  +:+ " execution snapshot"))
      else inr digest
  end.

(** ** What the server adds to a Job

    The documented defaults of batch/v1 and core/v1 that a Job receives when it
    is stored.  Servers differ in which of them they know, so each is optional. *)

Definition defaulted {A} (v : A) (sent stored : option A) : Prop :=
  stored = sent ∨ sent = None ∧ stored = Some v.
Definition defaultedText (v sent stored : string) : Prop :=
  stored = sent ∨ sent = "" ∧ stored = v.

(** The defaults of an environment variable: the version of a field reference and
    whether a file key is optional. *)
Definition admittedField (sent stored : ObjectFieldSelector) : Prop :=
  ofs_FieldPath stored = ofs_FieldPath sent ∧ defaultedText "v1" (ofs_APIVersion sent) (ofs_APIVersion stored).
Definition admittedFile (sent stored : FileKeySelector) : Prop :=
  fks_Rest stored = fks_Rest sent ∧ defaulted false (fks_Optional sent) (fks_Optional stored).
Definition admittedSource (sent stored : EnvVarSource) : Prop :=
  evs_Rest stored = evs_Rest sent ∧ option_Forall2 admittedField (evs_FieldRef sent) (evs_FieldRef stored)
  ∧ option_Forall2 admittedFile (evs_FileKeyRef sent) (evs_FileKeyRef stored).
Definition admittedEnv (sent stored : EnvVar) : Prop :=
  env_Name stored = env_Name sent ∧ env_Value stored = env_Value sent
  ∧ option_Forall2 admittedSource (env_ValueFrom sent) (env_ValueFrom stored).

Definition containerCore (c : Container) : Container :=
  c <| ctr_Env := [] |> <| ctr_TerminationMessagePath := "" |> <| ctr_TerminationMessagePolicy := "" |>.
Record admittedContainer (sent stored : Container) : Prop := {
  ac_same : containerCore stored = containerCore sent;
  ac_env : Forall2 admittedEnv (ctr_Env sent) (ctr_Env stored);
  ac_path : defaultedText "/dev/termination-log" (ctr_TerminationMessagePath sent)
              (ctr_TerminationMessagePath stored);
  ac_policy : defaultedText "File" (ctr_TerminationMessagePolicy sent)
              (ctr_TerminationMessagePolicy stored) }.

Inductive admittedVolume : Volume → Volume → Prop :=
  | av_same v : admittedVolume v v
  | av_configMap n name rest :
      admittedVolume (mkVolume n (VolumeConfigMap name None rest))
                     (mkVolume n (VolumeConfigMap name (Some defaultMode) rest))
  | av_secret n rest : admittedVolume (mkVolume n (VolumeSecret None rest))
                                      (mkVolume n (VolumeSecret (Some defaultMode) rest))
  | av_downward n rest : admittedVolume (mkVolume n (VolumeDownwardAPI None rest))
                                        (mkVolume n (VolumeDownwardAPI (Some defaultMode) rest))
  | av_projected n rest : admittedVolume (mkVolume n (VolumeProjected None rest))
                                         (mkVolume n (VolumeProjected (Some defaultMode) rest)).

(** A Pod spec without the fields that receive defaults. *)
Definition podCore (p : PodSpec) : PodSpec :=
  p <| pod_EnableServiceLinks := None |> <| pod_PreemptionPolicy := None |>
    <| pod_DeprecatedServiceAccount := "" |> <| pod_DNSPolicy := "" |>
    <| pod_SchedulerName := "" |> <| pod_TerminationGracePeriodSeconds := None |>
    <| pod_Containers := [] |> <| pod_InitContainers := [] |> <| pod_Volumes := [] |>.

Record admittedPod (sent stored : PodSpec) : Prop := {
  ap_core : podCore stored = podCore sent;
  ap_links : defaulted true (pod_EnableServiceLinks sent) (pod_EnableServiceLinks stored);
  ap_preemption : defaulted "PreemptLowerPriority" (pod_PreemptionPolicy sent)
                    (pod_PreemptionPolicy stored);
  ap_account : defaultedText (pod_ServiceAccountName sent) (pod_DeprecatedServiceAccount sent)
                 (pod_DeprecatedServiceAccount stored);
  ap_dns : defaultedText "ClusterFirst" (pod_DNSPolicy sent) (pod_DNSPolicy stored);
  ap_scheduler : defaultedText "default-scheduler" (pod_SchedulerName sent) (pod_SchedulerName stored);
  ap_grace : defaulted 30 (pod_TerminationGracePeriodSeconds sent)
               (pod_TerminationGracePeriodSeconds stored);
  ap_containers : Forall2 admittedContainer (pod_Containers sent) (pod_Containers stored);
  ap_init : Forall2 admittedContainer (pod_InitContainers sent) (pod_InitContainers stored);
  ap_volumes : Forall2 admittedVolume (pod_Volumes sent) (pod_Volumes stored) }.

Definition specCore (s : JobSpec) : JobSpec :=
  s <| js_Selector := None |> <| js_ManualSelector := None |> <| js_Parallelism := None |>
    <| js_Completions := None |> <| js_CompletionMode := None |> <| js_Suspend := None |>
    <| js_PodReplacementPolicy := None |>
    <| js_Template := (js_Template s) <| tpl_Labels := ∅ |>
         <| tpl_Spec := mkPodSpec "" "" "" None ∅ None [] [] None [] [] [] None None "" "" None "" |> |>.

(** [stored] is [sent] as the server stores it: the same metadata with a UID, the
    selector and template labels of the Job controller, and defaults. *)
Record admitted (sent stored : Job) : Prop := {
  ad_name : job_key stored = job_key sent;
  ad_labels : meta_Labels (job_ObjectMeta stored) = meta_Labels (job_ObjectMeta sent);
  ad_annotations : meta_Annotations (job_ObjectMeta stored) = meta_Annotations (job_ObjectMeta sent);
  ad_uid : job_UID stored ≠ "";
  ad_core : specCore (job_Spec stored) = specCore (job_Spec sent);
  ad_selector : js_Selector (job_Spec stored) = js_Selector (job_Spec sent)
    ∨ js_Selector (job_Spec stored) = Some (mkLabelSelector
        {[ "batch.kubernetes.io/controller-uid" := job_UID stored ]} "");
  ad_manual : defaulted false (js_ManualSelector (job_Spec sent)) (js_ManualSelector (job_Spec stored));
  ad_parallelism : defaulted 1 (js_Parallelism (job_Spec sent)) (js_Parallelism (job_Spec stored));
  ad_completions : defaulted 1 (js_Completions (job_Spec sent)) (js_Completions (job_Spec stored));
  ad_mode : defaulted "NonIndexed" (js_CompletionMode (job_Spec sent)) (js_CompletionMode (job_Spec stored));
  ad_suspend : defaulted false (js_Suspend (job_Spec sent)) (js_Suspend (job_Spec stored));
  ad_replacement : defaulted "TerminatingOrFailed" (js_PodReplacementPolicy (job_Spec sent))
                     (js_PodReplacementPolicy (job_Spec stored));
  ad_template : ∃ added : gmap string string,
    added ⊆ list_to_map (controllerLabels stored)
    ∧ tpl_Labels (js_Template (job_Spec stored))
      = added ∪ tpl_Labels (js_Template (job_Spec sent));
  ad_pod : admittedPod (tpl_Spec (js_Template (job_Spec sent)))
                       (tpl_Spec (js_Template (job_Spec stored))) }.

Lemma unlessDefault_defaulted {A} `{EqDecision A} (v : A) p q :
  defaulted v p q → unlessDefault v q = unlessDefault v p.
Proof.
  intros [->|[-> ->]]; [done|]. unfold unlessDefault. rewrite bool_decide_eq_true_2 by done.
  by destruct (bool_decide _).
Qed.
Lemma unlessEqual_defaulted v s t : defaultedText v s t → unlessEqual v t = unlessEqual v s.
Proof.
  intros [->|[-> ->]]; [done|]. unfold unlessEqual. rewrite bool_decide_eq_true_2 by done.
  by destruct (bool_decide _).
Qed.

(** A variable that leaves the server nothing to add. *)
Definition settledEnv (e : EnvVar) : Prop :=
  ∀ s, env_ValueFrom e = Some s →
    (∀ f, evs_FieldRef s = Some f → ofs_APIVersion f ≠ "") ∧ (∀ k, evs_FileKeyRef s = Some k → fks_Optional k ≠ None).

Lemma admittedEnv_settled e d : settledEnv e → admittedEnv e d → d = e.
Proof.
  destruct e as [n v s], d as [n' v' s']. unfold settledEnv, admittedEnv. simpl. intros Hs (-> & -> & Ho). f_equal.
  destruct Ho as [[r f k] [r' f' k'] (Hr & Hf & Hk)|]; [|done]. simpl in *. destruct (Hs _ eq_refl) as [Hsf Hsk].
  do 2 f_equal; [done| |].
  - destruct Hf as [[a p] [a' p'] [Hp Ha]|]; [|done]. simpl in *. subst p'. specialize (Hsf _ eq_refl).
    by destruct Ha as [->|[-> _]].
  - destruct Hk as [[q o] [q' o'] [Hq Ho]|]; [|done]. simpl in *. subst q'. specialize (Hsk _ eq_refl).
    by destruct Ho as [->|[-> _]].
Qed.
Lemma admittedEnvs_settled l k : Forall settledEnv l → Forall2 admittedEnv l k → k = l.
Proof.
  intros Hl Hk. induction Hk as [|e d l k He _ IH]; [done|]. apply Forall_cons in Hl as [Hs Hl].
  by rewrite (admittedEnv_settled e d), IH.
Qed.

Definition settledContainer (c : Container) : Prop := Forall settledEnv (ctr_Env c).

Lemma normalizeContainer_admitted c d :
  settledContainer c → admittedContainer c d → normalizeContainer d = normalizeContainer c.
Proof.
  intros Hc [Hs He Hp Ho]. apply admittedEnvs_settled in He; [|done]. unfold normalizeContainer.
  rewrite (unlessEqual_defaulted _ _ _ Hp), (unlessEqual_defaulted _ _ _ Ho).
  destruct c, d; unfold containerCore in Hs; simpl in *. injection Hs; intros; subst. done.
Qed.
Lemma normalizeContainers_admitted l k :
  Forall settledContainer l → Forall2 admittedContainer l k → map normalizeContainer k = map normalizeContainer l.
Proof.
  intros Hl Hk. induction Hk as [|c d l k Hc _ IH]; [done|]. apply Forall_cons in Hl as [Hs Hl].
  simpl. by rewrite (normalizeContainer_admitted c d), IH.
Qed.

Definition settledPod (p : PodSpec) : Prop :=
  Forall settledContainer (pod_Containers p) ∧ Forall settledContainer (pod_InitContainers p).

Lemma normalizeVolume_admitted v u : admittedVolume v u → normalizeVolume u = normalizeVolume v.
Proof. by destruct 1. Qed.

Lemma map_Forall2_eq {A B} (f : A → B) (R : A → A → Prop) l k :
  (∀ a b, R a b → f b = f a) → Forall2 R l k → map f k = map f l.
Proof. intros Hf. induction 1; simpl; f_equal; auto. Qed.

Lemma normalizePod_admitted p q : settledPod p → admittedPod p q → normalizePod q = normalizePod p.
Proof.
  intros [Hsc Hsi] [Hc Hl Hp Ha Hd Hs Hg Hcs Hi Hv]. unfold normalizePod.
  assert (pod_ServiceAccountName q = pod_ServiceAccountName p) as Es
    by (by apply (f_equal pod_ServiceAccountName) in Hc).
  rewrite Es, (unlessDefault_defaulted _ _ _ Hl), (unlessDefault_defaulted _ _ _ Hp),
    (unlessEqual_defaulted _ _ _ Ha), (unlessEqual_defaulted _ _ _ Hd),
    (unlessEqual_defaulted _ _ _ Hs), (unlessDefault_defaulted _ _ _ Hg),
    (normalizeContainers_admitted _ _ Hsc Hcs), (normalizeContainers_admitted _ _ Hsi Hi),
    (map_Forall2_eq _ _ _ _ normalizeVolume_admitted Hv).
  destruct p, q; simpl in *. unfold podCore in Hc; simpl in Hc. injection Hc; intros; subst. done.
Qed.

(** ** Controller labels *)

Definition controllerKeys : list string :=
  ["batch.kubernetes.io/controller-uid"; "batch.kubernetes.io/job-name"; "controller-uid"; "job-name"].

(** Removing labels whose values are as expected succeeds and removes just them. *)
Lemma dropControllerLabels_ok job expected (labels : gmap string string) :
  job_UID job ≠ "" →
  NoDup expected.*1 →
  (∀ k v, (k, v) ∈ expected → labels !! k = None ∨ labels !! k = Some v) →
  ∃ out, dropControllerLabels job expected labels = inr out
    ∧ ∀ k, out !! k = if decide (k ∈ expected.*1) then None else labels !! k.
Proof.
  intros Hu. revert labels.
  induction expected as [|[k v] expected IH]; intros labels Hn Hl; cbn [dropControllerLabels].
  { exists labels. split; [done|]. intros k. rewrite decide_False; [done|apply not_elem_of_nil]. }
  rewrite fmap_cons in Hn |- *. cbn [fst] in Hn |- *. apply NoDup_cons in Hn as [Hk Hn].
  destruct (labels !! k) as [actual|] eqn:El.
  - assert (actual = v) as ->.
    { destruct (Hl k v) as [E|E]; [by left|congruence..]. }
    rewrite (bool_decide_eq_false_2 _ Hu), bool_decide_eq_true_2 by done. cbn [orb negb].
    destruct (IH (delete k labels)) as (out & Ho & Hs); [done| |].
    { intros k' v' Hin. destruct (decide (k' = k)) as [->|]; [by left; rewrite lookup_delete_eq|].
      rewrite lookup_delete_ne by done. apply Hl. by right. }
    exists out. split; [done|]. intros k'. rewrite Hs.
    destruct (decide (k' = k)) as [->|].
    + rewrite lookup_delete_eq. by repeat case_decide; try set_solver.
    + rewrite lookup_delete_ne by done. by repeat case_decide; try set_solver.
  - destruct (IH labels) as (out & Ho & Hs); [done|intros; apply Hl; by right|].
    exists out. split; [done|]. intros k'. rewrite Hs.
    destruct (decide (k' = k)) as [->|]; by repeat case_decide; try set_solver.
Qed.

Lemma dropControllerLabels_none job expected (labels : gmap string string) :
  (∀ k, k ∈ expected.*1 → labels !! k = None) →
  dropControllerLabels job expected labels = inr labels.
Proof.
  induction expected as [|[k v] expected IH]; intros Hl; [done|]. simpl.
  rewrite (Hl k) by by left. apply IH. intros k' Hk'. apply Hl. by right.
Qed.

Lemma controllerLabels_keys job : (controllerLabels job).*1 = controllerKeys.
Proof. done. Qed.
Lemma controllerKeys_nodup : NoDup controllerKeys.
Proof. by apply (bool_decide_unpack _). Qed.

Lemma setWhen_none b a v (m : gmap string string) k :
  a ≠ k → m !! k = None → setWhen b a v m !! k = None.
Proof. intros Hne Hm. destruct b; simpl; [|done]. by rewrite lookup_insert_ne. Qed.
Lemma setRef_none a ref (m : gmap string string) k :
  a ≠ k → m !! k = None → setRef a ref m !! k = None.
Proof. intros Hne Hm. destruct ref; simpl; [|done]. by rewrite lookup_insert_ne. Qed.

Lemma labels_no_controller obj jobName k :
  k ∈ controllerKeys → agentRunWorkloadLabels obj jobName !! k = None.
Proof.
  intros Hk. unfold agentRunWorkloadLabels, agentRunLabels. cbv zeta.
  assert (k ∉ [agentRunLabelIntent; agentRunLabelBackend; agentRunLabelServiceAccount;
    agentRunLabelSpiffeWorkloadAPI; agentRunJobLabel; agentRunScheduleLabel; adverseSituationLabel;
    agentRunLabelSourceName; agentRunLabelSourceKind; agentRunLabel]) as Hn.
  { revert Hk. unfold controllerKeys. rewrite !elem_of_cons.
    intros [->|[->|[->|[->|Hk]]]]; [by apply (bool_decide_unpack _)..|].
    by apply not_elem_of_nil in Hk. }
  rewrite !not_elem_of_cons in Hn. destruct_and! Hn.
  rewrite !lookup_insert_ne by done. do 3 (apply setWhen_none; [done|]).
  do 2 (apply setRef_none; [done|]).
  rewrite !lookup_insert_ne by done. by rewrite lookup_singleton_ne by done.
Qed.

Lemma withoutTelemetry_lookup (m : gmap string string) k : k ∈ controllerKeys →
  agentRunLabelsWithoutTelemetry m !! k = m !! k.
Proof.
  intros Hk. unfold agentRunLabelsWithoutTelemetry.
  rewrite !lookup_delete_ne; [done|..]; intros <-; revert Hk;
    by apply (bool_decide_unpack (_ ∉ controllerKeys)).
Qed.

(** ** A stored Job matches its plan *)

Lemma normalize_sent job sent :
  js_Selector (job_Spec sent) = None →
  (∀ k, k ∈ controllerKeys → tpl_Labels (js_Template (job_Spec sent)) !! k = None) →
  ∃ spec, normalizeAgentRunJobSpec (job_Spec sent) job = inr spec
    ∧ tpl_Labels (js_Template spec)
      = agentRunLabelsWithoutTelemetry (tpl_Labels (js_Template (job_Spec sent))).
Proof.
  intros Hs Hl. unfold normalizeAgentRunJobSpec. rewrite Hs. simpl normalizeSelector. cbv iota.
  rewrite dropControllerLabels_none.
  - eexists. split; [reflexivity|]. done.
  - intros k Hk. rewrite controllerLabels_keys in Hk. rewrite withoutTelemetry_lookup by done.
    by apply Hl.
Qed.

Lemma selector_admitted sent stored : admitted sent stored →
  js_Selector (job_Spec sent) = None →
  normalizeSelector stored (js_Selector (job_Spec stored)) = inr tt.
Proof.
  intros Had Hs. unfold normalizeSelector. destruct (ad_selector _ _ Had) as [->| ->]; [by rewrite Hs|].
  rewrite (bool_decide_eq_false_2 _ (ad_uid _ _ Had)). by rewrite bool_decide_eq_true_2.
Qed.

Lemma labels_admitted sent stored : admitted sent stored →
  (∀ k, k ∈ controllerKeys → tpl_Labels (js_Template (job_Spec sent)) !! k = None) →
  dropControllerLabels stored (controllerLabels stored)
    (agentRunLabelsWithoutTelemetry (tpl_Labels (js_Template (job_Spec stored))))
  = inr (agentRunLabelsWithoutTelemetry (tpl_Labels (js_Template (job_Spec sent)))).
Proof.
  intros Had Hl. destruct (ad_template _ _ Had) as (added & Hadd & Ht).
  assert (∀ k, added !! k = None ∨ added !! k = (list_to_map (controllerLabels stored) : gmap _ _) !! k)
    as Ha.
  { intros k. destruct (added !! k) eqn:E; [right|by left].
    symmetry. by eapply lookup_weaken. }
  destruct (dropControllerLabels_ok stored (controllerLabels stored)
    (agentRunLabelsWithoutTelemetry (tpl_Labels (js_Template (job_Spec stored)))))
    as (out & Ho & Hs).
  - apply (ad_uid _ _ Had).
  - rewrite controllerLabels_keys. apply controllerKeys_nodup.
  - intros k v Hin.
    assert (k ∈ controllerKeys) as Hk
      by (rewrite <- (controllerLabels_keys stored); by apply (list_elem_of_fmap_2 fst) in Hin).
    rewrite withoutTelemetry_lookup by done. rewrite Ht, lookup_union, Hl by done.
    rewrite (right_id None union). destruct (Ha k) as [E|E]; [by left|right].
    rewrite E. apply elem_of_list_to_map_1; [|done].
    rewrite controllerLabels_keys. apply controllerKeys_nodup.
  - rewrite Ho. f_equal. apply map_eq. intros k. rewrite Hs, controllerLabels_keys.
    case_decide as Hk; [by rewrite withoutTelemetry_lookup, Hl|].
    unfold agentRunLabelsWithoutTelemetry. rewrite Ht.
    rewrite !lookup_delete. repeat case_decide; [done..|]. rewrite lookup_union.
    assert (added !! k = None) as ->; [|by rewrite (left_id None union)].
    destruct (Ha k) as [E|E]; [done|]. rewrite E. apply not_elem_of_list_to_map_1.
    by rewrite controllerLabels_keys.
Qed.

Lemma normalize_admitted sent stored job : admitted sent stored →
  settledPod (tpl_Spec (js_Template (job_Spec sent))) →
  js_Selector (job_Spec sent) = None →
  (∀ k, k ∈ controllerKeys → tpl_Labels (js_Template (job_Spec sent)) !! k = None) →
  normalizeAgentRunJobSpec (job_Spec stored) stored = normalizeAgentRunJobSpec (job_Spec sent) job.
Proof.
  intros Had Hset Hs Hl. unfold normalizeAgentRunJobSpec.
  rewrite (selector_admitted _ _ Had Hs), (labels_admitted _ _ Had Hl), Hs.
  simpl normalizeSelector. cbv iota. rewrite dropControllerLabels_none.
  2:{ intros k Hk. rewrite controllerLabels_keys in Hk. rewrite withoutTelemetry_lookup by done.
      by apply Hl. }
  f_equal.
  rewrite (unlessDefault_defaulted _ _ _ (ad_manual _ _ Had)),
    (unlessDefault_defaulted _ _ _ (ad_parallelism _ _ Had)),
    (unlessDefault_defaulted _ _ _ (ad_completions _ _ Had)),
    (unlessDefault_defaulted _ _ _ (ad_mode _ _ Had)),
    (unlessDefault_defaulted _ _ _ (ad_suspend _ _ Had)),
    (unlessDefault_defaulted _ _ _ (ad_replacement _ _ Had)),
    (normalizePod_admitted _ _ Hset (ad_pod _ _ Had)).
  pose proof (ad_core _ _ Had) as Hc.
  destruct (job_Spec sent) as [? ? ? ? ? ? [? ? ?] ? ? ? ? ?],
    (job_Spec stored) as [? ? ? ? ? ? [? ? ?] ? ? ? ? ?]; simpl in *.
  unfold specCore in Hc; simpl in Hc. injection Hc; intros; subst. done.
Qed.

Section plan.
Context `{Marshal (list AgentRunDataVolumeStatus), Marshal (list string), Marshal (list ToolItem),
  Marshal AgentRunResolvedCompositionStatus, Marshal agentRunJobSnapshot}.
Context (options : Options).

(** C25: the Job of a run cannot retry and is hardened: its Pod is started once
    (no restarts, no retries); every container drops all capabilities, adds
    capabilities or is privileged only as the spec of the run asks, and, unless that spec says otherwise,
    runs as a user other than root without gaining privileges, in a Pod that is kept from
    running as root and under the default seccomp profile; the payload is mounted
    read-only. *)
Theorem job_hardened obj jobName configMapName dataVolumes :
  let job := agentRunJob options obj jobName configMapName dataVolumes in
  let pod := tpl_Spec (js_Template (job_Spec job)) in
  js_BackoffLimit (job_Spec job) = Some 0
  ∧ pod_RestartPolicy pod = "Never"
  ∧ (∃ psc, pod_SecurityContext pod = Some psc
       ∧ psc_RunAsNonRoot psc = Some (default true (ex_PodSecurityContext (execution obj) ≫= psc_RunAsNonRoot))
       ∧ psc_SeccompProfile psc
         = Some (default "RuntimeDefault" (ex_PodSecurityContext (execution obj) ≫= psc_SeccompProfile)))
  ∧ (∃ c, pod_Containers pod = [c]
       ∧ mkVolumeMount agentRunPayloadVolume agentRunPayloadMountPath "" true ∈ ctr_VolumeMounts c)
  ∧ ∀ c, c ∈ pod_InitContainers pod ++ pod_Containers pod →
      ∃ sc, ctr_SecurityContext c = Some sc
        ∧ hardened (ex_SecurityContext (execution obj)) sc.
Proof.
  cbv zeta. split; [done|]. split; [done|]. split.
  { exists (agentRunPodSecurityContext obj). split; [done|]. apply podSecurity_hardened. }
  split.
  { eexists. split; [done|]. simpl. by left. }
  intros c Hc. exists (agentRunContainerSecurityContext obj).
  split; [|apply containerSecurity_hardened].
  simpl in Hc. apply elem_of_app in Hc as [Hc|Hc].
  - unfold agentRunToolImageInitializerContainers in Hc.
    apply list_elem_of_omap in Hc as (o & Ho & Ec). apply elem_of_lookup_imap in Ho as (i & tool & -> & _).
    simpl in Ec. destruct (tool_ImageInitializer tool); [|done]. by injection Ec as <-.
  - by apply list_elem_of_singleton in Hc as ->.
Qed.

(** The variables the controller sets itself have plain values. *)
Definition plainEnv (e : EnvVar) : Prop := env_ValueFrom e = None.
Lemma plain_ev n v : plainEnv (ev n v).
Proof. done. Qed.
Lemma plain_nonEmpty n v : Forall plainEnv (evNonEmpty n v).
Proof. unfold evNonEmpty. case_match; repeat constructor. Qed.
Lemma plain_args n l : Forall plainEnv (evArgs n l).
Proof. unfold evArgs. repeat case_match; repeat constructor. Qed.
Lemma plain_ref p obj r : Forall plainEnv (evRef p obj r).
Proof. unfold evRef. case_match; repeat constructor. Qed.
Lemma settled_plain l : Forall plainEnv l → Forall settledEnv l.
Proof. intros Hl. eapply Forall_impl; [exact Hl|]. intros e He s Hs. by rewrite He in Hs. Qed.

Ltac plain :=
  repeat first
    [ apply plain_nonEmpty | apply plain_args | apply plain_ref | apply Forall_nil_2 | apply Forall_app; split
    | apply Forall_cons; split; [apply plain_ev|]
    | match goal with |- Forall plainEnv (match ?x with _ => _ end) => destruct x end ].

(** The variables that are given with the run and its volumes. *)
Definition givenEnv (obj : AgentRun) (dataVolumes : list resolvedAgentRunDataVolume) : list EnvVar :=
  ex_ExtraEnv (execution obj) ++ flat_map rdv_ExtraEnv dataVolumes.

Lemma backendEnv_plain obj :
  Forall plainEnv (byBackend (agentRunBackendKind obj) (codexEnv obj) (openCodeEnv obj) (hermesEnv obj)
    (openClawEnv obj) (grokBuildEnv obj) (piEnv obj) (primeEnv obj) (agyEnv obj) []).
Proof.
  unfold byBackend, codexEnv, openCodeEnv, hermesEnv, openClawEnv, grokBuildEnv, piEnv, primeEnv, agyEnv. cbv zeta. plain.
Qed.

Lemma jobEnv_settled obj dataVolumes :
  Forall settledEnv (givenEnv obj dataVolumes) → Forall settledEnv (agentRunEnv options obj dataVolumes).
Proof.
  intros [Hx Hv]%Forall_app. unfold agentRunEnv. cbv zeta.
  repeat (apply Forall_app; split); try exact Hx.
  all: try (apply settled_plain; first [apply backendEnv_plain|unfold repositoryEnv; by plain]).
  unfold dataVolumeEnv. case_bool_decide; [done|]. apply Forall_app. split; [exact Hv|]. apply settled_plain. plain.
Qed.

Lemma initializers_env obj c : c ∈ agentRunToolImageInitializerContainers obj → ctr_Env c = [].
Proof.
  unfold agentRunToolImageInitializerContainers.
  intros (o & Ho & Ec)%list_elem_of_omap. apply elem_of_lookup_imap in Ho as (i & tool & -> & _).
  simpl in Ec. destruct (tool_ImageInitializer tool); [|done]. by injection Ec as <-.
Qed.

Lemma jobPod_settled obj jobName configMapName dataVolumes :
  Forall settledEnv (givenEnv obj dataVolumes) →
  settledPod (tpl_Spec (js_Template (job_Spec (agentRunJob options obj jobName configMapName dataVolumes)))).
Proof.
  intros Hx. split; simpl.
  - apply Forall_singleton. by apply jobEnv_settled.
  - apply Forall_forall. intros c Hc. unfold settledContainer. by rewrite (initializers_env obj c Hc).
Qed.

(** C27: what the server adds to a Job does not show, when the environment of the run
    leaves it nothing to add to a variable: the digest recorded before the Job is
    created is the digest of the Job as the server stores it, so a reconciliation that
    finds the Job recognises it, and it validates against the plan when the run controls
    it. *)
Theorem stored_job_recognised obj jobName configMapName dataVolumes stored :
  Forall settledEnv (givenEnv obj dataVolumes) →
  admitted (agentRunJob options obj jobName configMapName dataVolumes) stored →
  agentRunJobSnapshotDigest stored
  = agentRunJobSnapshotDigest (agentRunJob options obj jobName configMapName dataVolumes)
  ∧ ∀ run, agentRunControllerOwnerMatches (job_ObjectMeta stored) run = true →
      validateAgentRunJob stored (agentRunJob options obj jobName configMapName dataVolumes) run
      = inr tt.
Proof.
  intros Hx Had. set (sent := agentRunJob options obj jobName configMapName dataVolumes) in *.
  assert (js_Selector (job_Spec sent) = None) as Hs by done.
  assert (∀ k, k ∈ controllerKeys → tpl_Labels (js_Template (job_Spec sent)) !! k = None) as Hl
    by apply labels_no_controller.
  assert (settledPod (tpl_Spec (js_Template (job_Spec sent)))) as Hset by by apply jobPod_settled.
  destruct (normalize_sent sent sent Hs Hl) as (spec & Hn & _).
  destruct (normalize_sent stored sent Hs Hl) as (spec' & Hn' & _).
  split.
  - unfold agentRunJobSnapshotDigest. rewrite (normalize_admitted _ _ sent Had Hset Hs Hl), Hn.
    rewrite (ad_labels _ _ Had), (ad_annotations _ _ Had).
    pose proof (ad_name _ _ Had) as Hk. unfold job_key in Hk. by injection Hk as -> ->.
  - intros run Hown. unfold validateAgentRunJob. rewrite Hown. cbn [negb].
    rewrite (ad_labels _ _ Had), (ad_annotations _ _ Had), !bool_decide_eq_true_2 by done. cbn [negb].
    rewrite (normalize_admitted _ _ stored Had Hset Hs Hl), Hn'. by rewrite bool_decide_eq_true_2.
Qed.
End plan.

(** The part of a container that decides what it executes: all but where its last
    message goes. *)
Definition executes (c : Container) :=
  (ctr_Name c, ctr_Image c, ctr_ImagePullPolicy c, ctr_Command c, ctr_Args c, ctr_WorkingDir c, ctr_Env c,
   ctr_EnvFrom c, ctr_VolumeMounts c, ctr_Resources c, ctr_SecurityContext c, ctr_Rest c).
(** The same volume: an absent file mode is 0644. *)
Definition sameMode (m m' : option Z) : Prop := default 420 m = default 420 m'.
Definition sameVolume (v u : Volume) : Prop :=
  vol_Name v = vol_Name u
  ∧ match vol_Source v, vol_Source u with
    | VolumeConfigMap n m r, VolumeConfigMap n' m' r' => n = n' ∧ sameMode m m' ∧ r = r'
    | VolumeSecret m r, VolumeSecret m' r' => sameMode m m' ∧ r = r'
    | VolumeDownwardAPI m r, VolumeDownwardAPI m' r' => sameMode m m' ∧ r = r'
    | VolumeProjected m r, VolumeProjected m' r' => sameMode m m' ∧ r = r'
    | x, y => x = y
    end.
Definition orDefaultText (v s : string) : string := if bool_decide (s = "") then v else s.
(** What a Pod runs, as whom and where. *)
Definition placement (p : PodSpec) :=
  (pod_ServiceAccountName p, pod_AutomountServiceAccountToken p, pod_RestartPolicy p, pod_SecurityContext p,
   pod_ImagePullSecrets p, pod_NodeSelector p, pod_Affinity p, pod_Tolerations p,
   orDefaultText "default-scheduler" (pod_SchedulerName p), pod_Rest p).

Lemma executes_normalize l k :
  map normalizeContainer l = map normalizeContainer k → map executes l = map executes k.
Proof.
  assert (∀ l, map executes (map normalizeContainer l) = map executes l) as He
    by (intros m; induction m; simpl; f_equal; done).
  intros E. transitivity (map executes (map normalizeContainer l)); [by rewrite He|].
  by rewrite E, He.
Qed.
Lemma unlessDefault_eq {A} `{EqDecision A} (v : A) p q :
  unlessDefault v p = unlessDefault v q → default v p = default v q.
Proof. unfold unlessDefault. repeat case_bool_decide; intros; by subst. Qed.
Lemma unlessEqual_eq v s t : unlessEqual v s = unlessEqual v t → orDefaultText v s = orDefaultText v t.
Proof. unfold unlessEqual, orDefaultText. repeat case_bool_decide; intros; by subst. Qed.

Lemma normalizeVolume_eq v u : normalizeVolume v = normalizeVolume u → sameVolume v u.
Proof.
  destruct v as [n v], u as [n' u]. unfold normalizeVolume, sameVolume, sameMode. simpl.
  destruct v, u; simpl; intros [= ]; subst; split_and!; try done; by apply unlessDefault_eq.
Qed.
Lemma normalizeVolumes_eq l k : map normalizeVolume l = map normalizeVolume k → Forall2 sameVolume l k.
Proof.
  revert k. induction l as [|v l IH]; intros [|u k]; try done. simpl. intros [Hv Hl]%cons_eq_inj.
  constructor; [by apply normalizeVolume_eq|by apply IH].
Qed.
Lemma normalizePod_placement p q : normalizePod p = normalizePod q → placement p = placement q.
Proof.
  intros E. unfold placement. f_equal; [|exact (f_equal pod_Rest E)].
  f_equal; [|by apply unlessEqual_eq, (f_equal pod_SchedulerName E)].
  exact (f_equal (λ p, (pod_ServiceAccountName p, pod_AutomountServiceAccountToken p, pod_RestartPolicy p,
    pod_SecurityContext p, pod_ImagePullSecrets p, pod_NodeSelector p, pod_Affinity p, pod_Tolerations p)) E).
Qed.

Lemma normalize_spec spec job out : normalizeAgentRunJobSpec spec job = inr out →
  js_BackoffLimit out = js_BackoffLimit spec
  ∧ js_ActiveDeadlineSeconds out = js_ActiveDeadlineSeconds spec
  ∧ js_Parallelism out = unlessDefault 1 (js_Parallelism spec)
  ∧ js_Completions out = unlessDefault 1 (js_Completions spec)
  ∧ tpl_Spec (js_Template out) = normalizePod (tpl_Spec (js_Template spec)).
Proof.
  unfold normalizeAgentRunJobSpec. destruct (normalizeSelector _ _); [done|].
  destruct (dropControllerLabels _ _ _); [done|]. by intros [= <-].
Qed.

Lemma validated_specs job desired run :
  validateAgentRunJob job desired run = inr tt →
  agentRunControllerOwnerMatches (job_ObjectMeta job) run = true
  ∧ meta_Annotations (job_ObjectMeta job) = meta_Annotations (job_ObjectMeta desired)
  ∧ ∃ spec, normalizeAgentRunJobSpec (job_Spec desired) job = inr spec
     ∧ normalizeAgentRunJobSpec (job_Spec job) job = inr spec.
Proof.
  unfold validateAgentRunJob. cbv zeta.
  destruct (agentRunControllerOwnerMatches _ _); [|done]. cbn [negb].
  destruct (bool_decide (agentRunLabelsWithoutTelemetry _ = _)); [|done]. cbn [negb].
  destruct (bool_decide (meta_Annotations _ = _)) eqn:Ea; [|done]. cbn [negb].
  destruct (normalizeAgentRunJobSpec (job_Spec desired) job) as [|nd]; [done|].
  destruct (normalizeAgentRunJobSpec (job_Spec job) job) as [|na]; [done|].
  destruct (bool_decide (nd = na)) eqn:Eq; [|done]. intros _. bool_props. subst na. eauto.
Qed.

Lemma validated_pods job desired run :
  validateAgentRunJob job desired run = inr tt →
  normalizePod (tpl_Spec (js_Template (job_Spec job))) = normalizePod (tpl_Spec (js_Template (job_Spec desired))).
Proof.
  intros (_ & _ & spec & Hd & Ha)%validated_specs.
  destruct (normalize_spec _ _ _ Hd) as (_ & _ & _ & _ & <-). by destruct (normalize_spec _ _ _ Ha) as (_ & _ & _ & _ & <-).
Qed.

(** C20: a Job that passes validation is controlled by the run and executes what
    was planned: the same number of Pods with the same containers (images, commands,
    environment, mounts, resources and security contexts) and volumes, under the same
    account, with the same limits, and with the same node selector, affinity,
    tolerations and scheduler. *)
Theorem validated_job_executes_plan job desired run :
  validateAgentRunJob job desired run = inr tt →
  agentRunControllerOwnerMatches (job_ObjectMeta job) run = true
  ∧ meta_Annotations (job_ObjectMeta job) = meta_Annotations (job_ObjectMeta desired)
  ∧ js_BackoffLimit (job_Spec job) = js_BackoffLimit (job_Spec desired)
  ∧ js_ActiveDeadlineSeconds (job_Spec job) = js_ActiveDeadlineSeconds (job_Spec desired)
  ∧ default 1 (js_Parallelism (job_Spec job)) = default 1 (js_Parallelism (job_Spec desired))
  ∧ default 1 (js_Completions (job_Spec job)) = default 1 (js_Completions (job_Spec desired))
  ∧ let actual := tpl_Spec (js_Template (job_Spec job)) in
    let planned := tpl_Spec (js_Template (job_Spec desired)) in
    map executes (pod_Containers actual) = map executes (pod_Containers planned)
    ∧ map executes (pod_InitContainers actual) = map executes (pod_InitContainers planned)
    ∧ Forall2 sameVolume (pod_Volumes actual) (pod_Volumes planned)
    ∧ placement actual = placement planned.
Proof.
  intros Hv. pose proof (validated_pods _ _ _ Hv) as E. destruct (validated_specs _ _ _ Hv) as (Ho & Ha & spec & Hd & Hs).
  destruct (normalize_spec _ _ _ Hd) as (Hb & Hl & Hp & Hc & _), (normalize_spec _ _ _ Hs) as (Hb' & Hl' & Hp' & Hc' & _).
  split; [done|]. split; [done|]. split; [congruence|]. split; [congruence|].
  split; [apply unlessDefault_eq; congruence|]. split; [apply unlessDefault_eq; congruence|].
  cbv zeta. split_and!.
  - by apply executes_normalize, (f_equal pod_Containers E).
  - by apply executes_normalize, (f_equal pod_InitContainers E).
  - by apply normalizeVolumes_eq, (f_equal pod_Volumes E).
  - by apply normalizePod_placement.
Qed.

(** ** A server that adds every default *)

Definition orDefault {A} (v : A) (p : option A) : option A := Some (default v p).
Definition storeEnv (e : EnvVar) : EnvVar :=
  mkEnvVar (env_Name e) (env_Value e)
    ((λ s, mkEnvVarSource (evs_Rest s)
       ((λ f, mkObjectFieldSelector (orDefaultText "v1" (ofs_APIVersion f)) (ofs_FieldPath f)) <$> evs_FieldRef s)
       ((λ k, mkFileKeySelector (fks_Rest k) (orDefault false (fks_Optional k))) <$> evs_FileKeyRef s)) <$> env_ValueFrom e).
Definition storeContainer (c : Container) : Container :=
  c <| ctr_Env := map storeEnv (ctr_Env c) |>
    <| ctr_TerminationMessagePath := orDefaultText "/dev/termination-log" (ctr_TerminationMessagePath c) |>
    <| ctr_TerminationMessagePolicy := orDefaultText "File" (ctr_TerminationMessagePolicy c) |>.
Definition storeVolume (v : Volume) : Volume :=
  mkVolume (vol_Name v)
    match vol_Source v with
    | VolumeConfigMap n m r => VolumeConfigMap n (orDefault defaultMode m) r
    | VolumeSecret m r => VolumeSecret (orDefault defaultMode m) r
    | VolumeDownwardAPI m r => VolumeDownwardAPI (orDefault defaultMode m) r
    | VolumeProjected m r => VolumeProjected (orDefault defaultMode m) r
    | s => s
    end.
Definition storePod (p : PodSpec) : PodSpec :=
  p <| pod_EnableServiceLinks := orDefault true (pod_EnableServiceLinks p) |>
    <| pod_PreemptionPolicy := orDefault "PreemptLowerPriority" (pod_PreemptionPolicy p) |>
    <| pod_DeprecatedServiceAccount :=
         orDefaultText (pod_ServiceAccountName p) (pod_DeprecatedServiceAccount p) |>
    <| pod_DNSPolicy := orDefaultText "ClusterFirst" (pod_DNSPolicy p) |>
    <| pod_SchedulerName := orDefaultText "default-scheduler" (pod_SchedulerName p) |>
    <| pod_TerminationGracePeriodSeconds := orDefault 30 (pod_TerminationGracePeriodSeconds p) |>
    <| pod_Containers := map storeContainer (pod_Containers p) |>
    <| pod_InitContainers := map storeContainer (pod_InitContainers p) |>
    <| pod_Volumes := map storeVolume (pod_Volumes p) |>.

Definition storeJob (uid : string) (j : Job) : Job :=
  let j := j <| job_ObjectMeta := (job_ObjectMeta j) <| meta_UID := uid |> |> in
  let s := job_Spec j in
  j <| job_Spec := s
    <| js_Selector := Some (mkLabelSelector {[ "batch.kubernetes.io/controller-uid" := uid ]} "") |>
    <| js_ManualSelector := orDefault false (js_ManualSelector s) |>
    <| js_Parallelism := orDefault 1 (js_Parallelism s) |>
    <| js_Completions := orDefault 1 (js_Completions s) |>
    <| js_CompletionMode := orDefault "NonIndexed" (js_CompletionMode s) |>
    <| js_Suspend := orDefault false (js_Suspend s) |>
    <| js_PodReplacementPolicy := orDefault "TerminatingOrFailed" (js_PodReplacementPolicy s) |>
    <| js_Template := (js_Template s)
         <| tpl_Labels := list_to_map (controllerLabels j) ∪ tpl_Labels (js_Template s) |>
         <| tpl_Spec := storePod (tpl_Spec (js_Template s)) |> |> |>.

Lemma orDefault_defaulted {A} (v : A) p : defaulted v p (orDefault v p).
Proof. destruct p; [by left|by right]. Qed.
Lemma orText_defaulted v s : defaultedText v s (orDefaultText v s).
Proof. unfold orDefaultText. case_bool_decide; [by right|by left]. Qed.
#[export] Hint Resolve orDefault_defaulted orText_defaulted : anvil.

Lemma Forall2_map_r {A} (R : A → A → Prop) f l : (∀ a, R a (f a)) → Forall2 R l (map f l).
Proof. intros Hf. induction l; constructor; auto. Qed.
Lemma storeEnv_admitted e : admittedEnv e (storeEnv e).
Proof.
  destruct e as [n v [[r f k]|]]; split_and!; try done; constructor. split_and!; [done| |]; simpl.
  - destruct f; constructor. split; [done|]. apply orText_defaulted.
  - destruct k; constructor. split; [done|]. apply orDefault_defaulted.
Qed.
Lemma storeContainer_admitted c : admittedContainer c (storeContainer c).
Proof. constructor; [done|apply Forall2_map_r, storeEnv_admitted|apply orText_defaulted..]. Qed.
Lemma storeVolume_admitted v : admittedVolume v (storeVolume v).
Proof.
  destruct v as [n [? [?|] ?|[?|] ?|[?|] ?|[?|] ?| | | |]]; unfold storeVolume; simpl; constructor.
Qed.
Lemma storePod_admitted p : admittedPod p (storePod p).
Proof.
  constructor; try apply orDefault_defaulted; try apply orText_defaulted; try done;
    apply Forall2_map_r; first [apply storeContainer_admitted|apply storeVolume_admitted].
Qed.
Lemma storeJob_admitted uid j : uid ≠ "" → admitted j (storeJob uid j).
Proof.
  intros Hu. constructor; try apply orDefault_defaulted; try done.
  - by right.
  - eexists. split; [|reflexivity]. reflexivity.
  - apply storePod_admitted.
Qed.

Lemma admitted_owners j s owners : admitted j s →
  admitted j (s <| job_ObjectMeta := (job_ObjectMeta s) <| meta_OwnerReferences := owners |> |>).
Proof. intros []. constructor; assumption. Qed.

(** A variable of the run that refers to a field without naming the version costs the
    run its Job: the server stores the reference with the version [v1], as documented,
    and the stored Job is refused as not being the planned one. *)
Theorem unversioned_field_refused `{Marshal (list AgentRunDataVolumeStatus), Marshal (list string),
    Marshal (list ToolItem), Marshal AgentRunResolvedCompositionStatus}
    options obj jobName configMapName dataVolumes uid stored run e s f :
  e ∈ ex_ExtraEnv (execution obj) → env_ValueFrom e = Some s → evs_FieldRef s = Some f → ofs_APIVersion f = "" →
  job_Spec stored = job_Spec (storeJob uid (agentRunJob options obj jobName configMapName dataVolumes)) →
  validateAgentRunJob stored (agentRunJob options obj jobName configMapName dataVolumes) run ≠ inr tt.
Proof.
  intros He Hs Hf Ha Hst Hv%validated_pods. rewrite Hst in Hv. apply (f_equal pod_Containers), executes_normalize in Hv.
  apply (f_equal (λ l, match l with [] => [] | (_, env, _, _, _, _, _) :: _ => env end)) in Hv.
  change (map storeEnv (agentRunEnv options obj dataVolumes) = agentRunEnv options obj dataVolumes) in Hv.
  assert (e ∈ agentRunEnv options obj dataVolumes) as Hin.
  { unfold agentRunEnv. cbv zeta. rewrite !elem_of_app. tauto. }
  assert (storeEnv e = e) as Hee.
  { revert Hv Hin. generalize (agentRunEnv options obj dataVolumes). intros l. induction l as [|d l IH]; [by intros _ ?%not_elem_of_nil|].
    simpl. intros [Hd Hl]%cons_eq_inj Hin. apply elem_of_cons in Hin as [Hin|Hin]; [rewrite Hin; exact Hd|]. by apply IH. }
  apply (f_equal (λ e, env_ValueFrom e ≫= evs_FieldRef)) in Hee. unfold storeEnv in Hee. simpl in Hee.
  rewrite Hs in Hee. simpl in Hee. rewrite Hf in Hee. simpl in Hee. injection Hee as Hee.
  apply (f_equal ofs_APIVersion) in Hee. simpl in Hee. by rewrite Ha in Hee.
Qed.

Definition fx_job_run : AgentRun :=
  zero_AgentRun <| run_ObjectMeta := zero_ObjectMeta <| meta_Name := "triage" |>
    <| meta_Namespace := "ops" |> <| meta_UID := "run-1" |> |>
  <| run_Spec := zero_AgentRunSpec <| rs_Harness := (rs_Harness zero_AgentRunSpec)
       <| har_Execution := (har_Execution (rs_Harness zero_AgentRunSpec))
            <| ex_ExtraEnv := [mkEnvVar "NODE" "" (Some (mkEnvVarSource ""
                 (Some (mkObjectFieldSelector "v1" "spec.nodeName")) None))] |>
            <| ex_NodeSelector := {[ "disk" := "ssd" ]} |> |> |> |>.
Definition fx_owner (run : AgentRun) : OwnerReference :=
  mkOwnerReference GroupVersion "AgentRun" (run_Name run) (run_UID run) (Some true).
Definition fx_json {A} : Marshal A := λ _, Some "{}".
Definition fx_job : Job :=
  agentRunJob (H := fx_json) (H0 := fx_json) (H1 := fx_json) (H2 := fx_json) DefaultOptions
    fx_job_run "triage-harness" "triage-context" [].
Definition fx_stored_job : Job :=
  let j := storeJob "job-1" fx_job in
  j <| job_ObjectMeta := (job_ObjectMeta j) <| meta_OwnerReferences := [fx_owner fx_job_run] |> |>.

Lemma fx_stored_job_admitted : admitted fx_job fx_stored_job.
Proof. apply admitted_owners, storeJob_admitted. discriminate. Qed.

(** Its one variable refers to a field and names the version. *)
Lemma fx_settled : Forall settledEnv (givenEnv fx_job_run []).
Proof.
  apply Forall_singleton. intros s [= <-]. split; [|discriminate]. intros f [= <-]. discriminate.
Qed.

Lemma stored_job_recognised_witness :
  ∃ digest, agentRunJobSnapshotDigest (H := fx_json) fx_stored_job = inr digest
    ∧ validateAgentRunJob fx_stored_job fx_job fx_job_run = inr tt.
Proof.
  destruct (stored_job_recognised (H := fx_json) (H0 := fx_json) (H1 := fx_json) (H2 := fx_json)
    (H3 := fx_json) DefaultOptions fx_job_run "triage-harness" "triage-context" []
    fx_stored_job fx_settled fx_stored_job_admitted) as [Hd Hv].
  exists (digestJSON (Some "{}")). split.
  - rewrite Hd. vm_compute. reflexivity.
  - apply Hv. vm_compute. reflexivity.
Defined.

Lemma validated_job_executes_plan_witness :
  validateAgentRunJob fx_stored_job fx_job fx_job_run = inr tt
  ∧ js_BackoffLimit (job_Spec fx_stored_job) = Some 0
  ∧ pod_NodeSelector (tpl_Spec (js_Template (job_Spec fx_stored_job))) = {[ "disk" := "ssd" ]}.
Proof.
  assert (validateAgentRunJob fx_stored_job fx_job fx_job_run = inr tt) as E
    by (vm_compute; reflexivity).
  split; [exact E|].
  destruct (validated_job_executes_plan fx_stored_job fx_job fx_job_run E) as (_ & _ & Hb & _ & _ & _ & _ & _ & _ & Hp).
  split; [rewrite Hb; reflexivity|]. 
  pose proof (f_equal (λ t, match t with (_, n, _, _, _, _) => n end) Hp) as Hn.
  refine (eq_trans Hn _). vm_compute. reflexivity.
Defined.
