(* ===== verification/Standing.v ===== *)
(** * Claims on standing turns

    src/internal/standing/claim.go: an API replica that drives a chat turn stamps
    a claim on the turn's AgentRun; other replicas and the controller yield while
    the claim is fresh.  [ClaimForTurn] is the one predicate they all use.

    JSON encoding is a parameter with its round-trip law. *)

From stdpp Require Import base list gmap strings.
From Stdlib Require Import ZArith Lia.
From S2P Require Import Prelude GoStrings GoTime Names ApiRun Kube.

Open Scope Z_scope.

Definition ClaimTTL : Duration := 90 * Second.
Definition AgentRunStandingClaimAnnotation : string := "control.anvil.hazyforge.io/standing-claim".

Record Claim := mkClaim { claim_TurnID : string; claim_Owner : string; claim_AtUnix : Z }.
#[export] Instance eta_Claim : Eta Claim := λ c, mkClaim (claim_TurnID c) (claim_Owner c) (claim_AtUnix c).

(** [encodeClaim]: [json.Marshal] of a claim, whose timestamp is an int64;
    [decodeClaim]: [json.Unmarshal] into one.  What was encoded is decoded, and
    the text neither starts nor ends with white space.  This is for claims whose texts
    are valid UTF-8, as turn ids and owners are: [json.Marshal] replaces other bytes. *)
Class ClaimJSON := {
  encodeClaim : Claim → option string;
  decodeClaim : string → option Claim;
  encode_trim c s : encodeClaim c = Some s → TrimSpace s = s ∧ s ≠ "";
  decode_encode c s : encodeClaim c = Some s → decodeClaim s = Some c }.

Definition claimTime (c : Claim) : Time := claim_AtUnix c * Second.

Definition Fresh (claim : Claim) (now : Time) (ttl : Duration) : bool :=
  if IsZero now || (ttl <=? 0) || (claim_AtUnix claim <=? 0) then false else
  let elapsed := Sub now (claimTime claim) in
  let elapsed := if elapsed <? 0 then 0 else elapsed in
  elapsed <? ttl.

Section claims.
Context `{ClaimJSON}.

Definition EncodeClaim (claim : Claim) : GoErr + string :=
  if blank (claim_TurnID claim) then inl (ErrText "standing claim turn ID is required")
  else if blank (claim_Owner claim) then inl (ErrText "standing claim owner is required")
  else if claim_AtUnix claim <=? 0 then inl (ErrText "standing claim timestamp is required")
  else match encodeClaim claim with
       | Some raw => inr raw
       | None => inl (ErrText "json")
       end.

Definition ParseClaim (raw : string) : GoErr + Claim :=
  match decodeClaim (TrimSpace raw) with
  | None => inl (ErrText "json")
  | Some claim =>
      let claim := claim <| claim_TurnID := TrimSpace (claim_TurnID claim) |>
                         <| claim_Owner := TrimSpace (claim_Owner claim) |> in
      if bool_decide (claim_TurnID claim = "") then inl (ErrText "standing claim turn ID is required")
      else if bool_decide (claim_Owner claim = "") then inl (ErrText "standing claim owner is required")
      else if claim_AtUnix claim <=? 0 then inl (ErrText "standing claim timestamp is required")
      else inr claim
  end.

Definition ClaimForTurn (annotations : gmap string string) (turnID : string) (now : Time)
    (ttl : Duration) : option Claim :=
  let turnID := TrimSpace turnID in
  if bool_decide (turnID = "") then None else
  let raw := TrimSpace (mapGet annotations AgentRunStandingClaimAnnotation) in
  if bool_decide (raw = "") then None else
  match ParseClaim raw with
  | inl _ => None
  | inr claim =>
      if negb (bool_decide (claim_TurnID claim = turnID)) || negb (Fresh claim now ttl) then None
      else Some claim
  end.

(** ** Theorems *)

Lemma parse_encode claim raw : EncodeClaim claim = inr raw →
  TrimSpace raw = raw ∧ raw ≠ ""
  ∧ ParseClaim raw = inr (claim <| claim_TurnID := TrimSpace (claim_TurnID claim) |>
                                <| claim_Owner := TrimSpace (claim_Owner claim) |>)
  ∧ 0 < claim_AtUnix claim ∧ TrimSpace (claim_TurnID claim) ≠ "".
Proof.
  unfold EncodeClaim. destruct (blank (claim_TurnID claim)) eqn:Et; [done|].
  destruct (blank (claim_Owner claim)) eqn:Eo; [done|].
  destruct (claim_AtUnix claim <=? 0) eqn:Ea; [done|].
  destruct (encodeClaim claim) as [s|] eqn:Es; [|done]. intros [= ->].
  destruct (encode_trim _ _ Es) as [Htrim Hne]. unfold blank in *. bool_props.
  split; [done|]. split; [done|]. split; [|done].
  unfold ParseClaim. rewrite Htrim, (decode_encode _ _ Es). simpl.
  rewrite !bool_decide_eq_false_2 by done.
  by rewrite (proj2 (Z.leb_gt (claim_AtUnix claim) 0)).
Qed.

Lemma fresh_window claim now : 0 < claim_AtUnix claim → IsZero now = false →
  inInt64 (now - claimTime claim) →
  Fresh claim now ClaimTTL = bool_decide (now < claimTime claim + ClaimTTL).
Proof.
  intros Ha Hz Hr. unfold Fresh. rewrite Hz, (proj2 (Z.leb_gt _ _) Ha). simpl.
  unfold Sub, inInt64 in *. rewrite Z.min_r, Z.max_r by lia.
  destruct (Z.ltb_spec (now - claimTime claim) 0), (Z.ltb_spec (now - claimTime claim) ClaimTTL);
    simpl; repeat case_bool_decide; try done; unfold ClaimTTL, Second in *; lia.
Qed.

(** C35: a claim that was stamped on a run is what every reader finds for that
    turn, from the moment of its timestamp until 90 seconds later and no longer,
    and for no other turn. *)
Theorem claim_round_trip claim raw annotations turn now :
  EncodeClaim claim = inr raw →
  annotations !! AgentRunStandingClaimAnnotation = Some raw →
  IsZero now = false → inInt64 (now - claimTime claim) →
  ClaimForTurn annotations turn now ClaimTTL
  = if bool_decide (TrimSpace turn = TrimSpace (claim_TurnID claim)
                    ∧ now < claimTime claim + ClaimTTL)
    then Some (claim <| claim_TurnID := TrimSpace (claim_TurnID claim) |>
                     <| claim_Owner := TrimSpace (claim_Owner claim) |>)
    else None.
Proof.
  intros He Ha Hz Hr. destruct (parse_encode _ _ He) as (Ht & Hne & Hp & Hat & Hid).
  unfold ClaimForTurn, mapGet. rewrite Ha. simpl. rewrite Ht.
  rewrite (bool_decide_eq_false_2 (raw = "")) by done. rewrite Hp.
  rewrite (fresh_window (claim <| claim_TurnID := TrimSpace (claim_TurnID claim) |>
    <| claim_Owner := TrimSpace (claim_Owner claim) |>)) by done. simpl.
  unfold claimTime in *; simpl in *.
  destruct (decide (TrimSpace turn = TrimSpace (claim_TurnID claim))) as [E|E].
  - rewrite E, (bool_decide_eq_false_2 (_ = "")), bool_decide_eq_true_2 by done. simpl.
    destruct (decide (now < claim_AtUnix claim * Second + ClaimTTL)) as [Hn|Hn];
      [rewrite !bool_decide_eq_true_2|rewrite !bool_decide_eq_false_2]; tauto.
  - rewrite (bool_decide_eq_false_2 (_ ∧ _)) by tauto.
    destruct (bool_decide (TrimSpace turn = "")); [done|].
    by rewrite bool_decide_eq_false_2 by congruence.
Qed.
End claims.

(** A stand-in encoding for one claim, on which the round trip can be run. *)
Definition fx_claim : Claim := mkClaim "turn-1" "api-0/7" 1700000000.
Lemma fx_claim_laws c s :
  (if decide (claim_TurnID c = "turn-1" ∧ claim_Owner c = "api-0/7" ∧ claim_AtUnix c = 1700000000)
   then Some "claim" else None) = Some s →
  (TrimSpace s = s ∧ s ≠ "") ∧ (if decide (s = "claim") then Some fx_claim else None) = Some c.
Proof.
  case_decide as Hc; [|done]. intros [= <-]. split; [split; [vm_compute; reflexivity|done]|].
  simpl. destruct c; simpl in *. destruct_and! Hc. by subst.
Qed.
Definition fx_claim_json : ClaimJSON := {|
  encodeClaim := λ c, if decide (claim_TurnID c = "turn-1" ∧ claim_Owner c = "api-0/7"
                                 ∧ claim_AtUnix c = 1700000000) then Some "claim" else None;
  decodeClaim := λ s, if decide (s = "claim") then Some fx_claim else None;
  encode_trim := λ c s E, proj1 (fx_claim_laws c s E);
  decode_encode := λ c s E, proj2 (fx_claim_laws c s E) |}.

Lemma claim_round_trip_witness :
  ClaimForTurn (H := fx_claim_json) {[ AgentRunStandingClaimAnnotation := "claim" ]} "turn-1"
    (1700000060 * Second) ClaimTTL = Some fx_claim
  ∧ ClaimForTurn (H := fx_claim_json) {[ AgentRunStandingClaimAnnotation := "claim" ]} "turn-1"
    (1700000090 * Second) ClaimTTL = None.
Proof.
  split; (etransitivity; [apply (claim_round_trip (H := fx_claim_json) fx_claim "claim");
    [vm_compute; reflexivity|vm_compute; reflexivity|vm_compute; reflexivity
    |vm_compute; split; discriminate]|vm_compute; reflexivity]).
Defined.
