(* ===== verification/Substrate.v ===== *)
(** * Substrate actors

    src/internal/substrate: the actor that serves a chat thread (naming.go,
    gate.go), how a turn obtains it and releases it (dispatch.go), and who may
    generate on an actor (generate.go).  The actor backend and its generator are
    parameters ([Actors]). *)

From stdpp Require Import base list gmap strings.
From Stdlib Require Import ZArith Lia Ascii.
From S2P Require Import Prelude GoStrings GoTime Sha256 Names ApiRun Kube RunBackend RunPayload.

Open Scope Z_scope.

Record ActorSpec := mkActorSpec {
  as_Namespace : string; as_Name : string; as_HarnessKind : string; as_ActorClass : string;
  as_Pool : string; as_Labels : gmap string string }.
Record ActorHandle := mkActorHandle {
  ah_Namespace : string; ah_Name : string; ah_ID : string; ah_State : string }.
Record GenerateRequest := mkGenerateRequest {
  gr_ActorName : string; gr_Atespace : string; gr_SessionID : string; gr_Prompt : string }.

Class Actors (W : Type) := {
  describeActor : string → string → M W GoErr ActorHandle;
  resumeActor : string → string → M W GoErr ActorHandle;
  createActor : ActorSpec → M W GoErr ActorHandle;
  suspendActor : string → string → M W GoErr ActorHandle;
  generate : GenerateRequest → M W GoErr string }.

Definition ErrActorNotFound : string := "substrate actor not found".
Definition ErrGenerateTransient : string := "substrate atenet generate transient".

(** ** Names *)

Definition actorChar (l : list ascii) : option ascii :=
  match l with
  | [c] => if isLowerAlnum c || isDash c || bool_decide (c = "."%char) then Some c else None
  | _ => None
  end.
Definition actorEdge (c : ascii) : bool := isDash c || bool_decide (c = "."%char).
Fixpoint dropActorEdge (l : list ascii) : list ascii :=
  match l with
  | c :: t => if actorEdge c then dropActorEdge t else l
  | [] => []
  end.
Definition sanitizeActorNameSegment (raw : string) : list ascii :=
  let out := map (λ r, default dash (actorChar r)) (runes (bytes raw)) in
  rev (dropActorEdge (rev (dropActorEdge out))).

Definition maxActorNameLen : nat := 253.
Definition ActorNameForThread (threadID : string) : string :=
  let sanitized := sanitizeActorNameSegment (ToLower (TrimSpace threadID)) in
  let sanitized := if bool_decide (sanitized = []) then bytes "unknown" else sanitized in
  let name := "chat-" +:+ unbytes sanitized in
  if (String.length name <=? maxActorNameLen)%nat then name else
  let suffix := takeStr 12 (sha256Hex threadID) in
  let keep := (maxActorNameLen - 5 - String.length suffix - 1)%nat in
  "chat-" +:+ unbytes (take keep sanitized) +:+ "-" +:+ suffix.

Definition ThreadIDForRun (sourceKind sourceName runName : string) : string :=
  if bool_decide (TrimSpace sourceKind = "ChatThread") && negb (blank sourceName)
  then TrimSpace sourceName else TrimSpace runName.

Definition ActorSpecForRun (namespace actorName harnessKind actorClass pool : string)
    (extraLabels : gmap string string) : ActorSpec :=
  mkActorSpec (TrimSpace namespace) (TrimSpace actorName) (TrimSpace harnessKind)
    (TrimSpace actorClass) (TrimSpace pool)
    (filter (λ kv, blank kv.1 = false) extraLabels).

Definition ShouldSuspendOnIdle (suspendOnIdle : option bool) : bool := default true suspendOnIdle.

Definition GenerateEnabled (generateOnActor : bool) (classes : list string) (actorClass : string) : bool :=
  if negb generateOnActor then false else
  let class := TrimSpace actorClass in
  if bool_decide (class = "") || bool_decide (class = "standing-chat") then false
  else existsb (λ allowed, bool_decide (TrimSpace allowed = class)) classes.

Definition ValidateSpec (spec : ActorSpec) : option string :=
  if blank (as_Namespace spec) then Some "substrate actor namespace is required"
  else if blank (as_Name spec) then Some "substrate actor name is required"
  else if negb (bool_decide (TrimSpace (as_ActorClass spec) = as_ActorClass spec))
          || containsBlank (as_ActorClass spec)
  then Some "substrate actor class must not contain surrounding or inner whitespace"
  else if negb (bool_decide (TrimSpace (as_Pool spec) = as_Pool spec)) || containsBlank (as_Pool spec)
  then Some "substrate actor pool must not contain surrounding or inner whitespace"
  else None.

(** ** Dispatch *)

Section dispatch.
Context {W : Type} `{Actors W}.
Local Open Scope go_scope.

(** [EnsureTurnActor]: the actor and whether it was warm. *)
Definition EnsureTurnActor (spec : ActorSpec) : M W GoErr (ActorHandle * bool) :=
  match ValidateSpec spec with
  | Some e => mfail (ErrText e)
  | None =>
      let create := let* created := createActor spec in mret (created, false) in
      let* described := mtry (describeActor (as_Namespace spec) (as_Name spec)) in
      match described with
      | inl e => if errIs ErrActorNotFound e then create else mfail e
      | inr _ =>
          let* resumed := mtry (resumeActor (as_Namespace spec) (as_Name spec)) in
          match resumed with
          | inr handle => mret (handle, true)
          | inl e => if errIs ErrActorNotFound e then create else mfail e
          end
      end
  end.

Definition SuspendIdleActor (namespace name : string) (suspendOnIdle : option bool) : M W GoErr bool :=
  if negb (ShouldSuspendOnIdle suspendOnIdle) then mret false else
  let* suspended := mtry (suspendActor namespace name) in
  match suspended with
  | inl e => if errIs ErrActorNotFound e then mret false else mfail e
  | inr _ => mret true
  end.
End dispatch.

(** ** Theorems *)

Lemma actorName_length threadID : (String.length (ActorNameForThread threadID) ≤ maxActorNameLen)%nat.
Proof.
  unfold ActorNameForThread. cbv zeta.
  match goal with |- context [if (?a <=? ?b)%nat then _ else _] => destruct (Nat.leb_spec a b) end;
    [done|].
  rewrite !length_append, length_unbytes, length_take, takeStr_length, sha256Hex_length.
  cbn [String.length]. unfold maxActorNameLen. lia.
Qed.
