(* ===== verification/RunValidation.v ===== *)
(** * What a run must satisfy before anything is created for it

    agentRunBlockingValidation and the functions it calls in
    src/internal/controller/agent_run_controller.go: references stay in the run's
    namespace, credentials and sources are well formed, sources and tool images
    are immutable, the backend has an image, and runs of the other execution
    planes are held back (the plane's gate is in agent_run_substrate_live.go). *)

From stdpp Require Import base list gmap strings.
From Stdlib Require Import ZArith Lia Ascii.
From S2P Require Import Prelude GoStrings GoTime Names ApiRun ApiWork Kube RunOutput RunBackend RunPayload Standing Substrate.

Open Scope Z_scope.

(** A refusal: phase, reason and message; [None] stands for the empty phase. *)
Definition Refusal : Type := option (string * string * string).
Definition failed (reason message : string) : Refusal := Some (AgentRunPhaseFailed, reason, message).
Definition needsHuman (reason message : string) : Refusal :=
  Some (AgentRunPhaseNeedsHuman, reason, message).

(** The first refusal of a sequence of checks. *)
Definition orElse (r : Refusal) (k : Refusal) : Refusal := match r with Some x => Some x | None => k end.
Notation "r ?? k" := (orElse r k) (at level 60, right associativity) : go_scope.
Definition refuseIf (b : bool) (r : Refusal) : Refusal := if b then r else None.
Fixpoint firstRefusal {A} (check : A → Refusal) (l : list A) : Refusal :=
  match l with
  | [] => None
  | a :: l => orElse (check a) (firstRefusal check l)
  end.

(** [namespace := strings.TrimSpace(ns); namespace != "" && namespace != obj.Namespace] *)
Definition foreignNamespace (obj : AgentRun) (ns : string) : bool :=
  negb (blank ns) && negb (bool_decide (TrimSpace ns = run_Namespace obj)).

(** The patterns [^([0-9a-fA-F]{40}|[0-9a-fA-F]{64})$] and
    [^[^[:space:]@]+@sha256:[0-9a-f]{64}$]; the latter's first class excludes the
    ASCII white space of RE2. *)
Definition hexChar (upper : bool) (c : ascii) : bool :=
  let n := code c in
  ((48 <=? n) && (n <=? 57) || (97 <=? n) && (n <=? 102))%N
  || upper && ((65 <=? n) && (n <=? 70))%N.
Definition agentRunImmutableGitRefPattern (s : string) : bool :=
  ((String.length s =? 40) || (String.length s =? 64))%nat && forallb (hexChar true) (bytes s).
Definition imageNameChar (c : ascii) : bool :=
  negb (existsb (N.eqb (code c)) [9; 10; 11; 12; 13; 32; 64]%N).
Definition agentRunImmutableToolImagePattern (s : string) : bool :=
  let l := bytes s in
  let tail := bytes "@sha256:" in
  (72 <? length l)%nat
  && forallb imageNameChar (take (length l - 72) l)
  && bool_decide (take 8 (drop (length l - 72) l) = tail)
  && forallb (hexChar false) (drop (length l - 64) l).

(** What the reconciler is configured with beside its options: whether a
    substrate client and a generator are present. *)
Record Planes := mkPlanes { substrateClient : bool; substrateGenerate : bool }.

Section validation.
Context `{NetURL, ClaimJSON} (options : Options) (planes : Planes).
(** [spiffeid.FromString] accepts. *)
Context (validSPIFFEID : string → bool).
Local Open Scope go_scope.

Definition agentRunValidateGitHubSkillSource (source : AgentRunGitHubSkillSourceSpec) : Refusal :=
  match ownerAndName (ghs_Repository source) with
  | None => failed "InvalidSkillSource" "spec.harness.skillInjections sourceRefs.github.repository must use owner/name form."
  | Some _ =>
      match agentRunValidateRemoteFilePath (TrimSpace (ghs_Path source)) with
      | Some _ => failed "InvalidSkillSource" "spec.harness.skillInjections sourceRefs.github.path must be a repository-relative file path without '..' segments."
      | None =>
          match agentRunGitHubContentsURL options source with
          | inl e => failed "InvalidSkillSource" ("spec.harness.skillInjections sourceRefs.github is invalid: " +:+ errorText e)
          | inr _ =>
              refuseIf (negb (agentRunImmutableGitRefPattern (TrimSpace (ghs_Ref source))))
                (failed "MutableSkillSourceRef" "spec.harness.skillInjections sourceRefs.github.ref must be a full immutable Git commit object ID.")
          end
      end
  end.

(** The loop over credentials, with the hosts seen so far. *)
Fixpoint validateCredentials (obj : AgentRun) (hosts : gset string)
    (l : list AgentRunGitHubSkillCredential) : Refusal :=
  match l with
  | [] => None
  | credential :: l =>
      match normalizeAgentRunSkillCredentialHost (cred_APIHost credential) with
      | inl e => failed "InvalidSkillSourceCredential" (errorText e)
      | inr host =>
          if bool_decide (host ∈ hosts)
          then failed "DuplicateSkillSourceCredential" ("spec.harness.execution.skillSourceCredentials contains duplicate API host " +:+ quote host +:+ ".")
          else
            let ref := cred_TokenSecretRef credential in
            if blank (skr_Name ref) || blank (skr_Key ref)
            then failed "InvalidSkillSourceCredential" "skill source credential tokenSecretRef name and key are required."
            else if foreignNamespace obj (skr_Namespace ref)
            then failed "CrossNamespaceSkillSourceToken" "Skill source credential Secret refs must be in the agent run namespace."
            else validateCredentials obj ({[ host ]} ∪ hosts) l
      end
  end.

Definition validateEnvSecretRef (obj : AgentRun) (ref : NamespacedObjectReference) : Refusal :=
  refuseIf (blank (ref_Name ref)) (failed "InvalidEnvSecretRef" "spec.harness.execution.envSecretRefs entries must set name.")
  ?? refuseIf (foreignNamespace obj (ref_Namespace ref))
       (failed "CrossNamespaceEnvSecretRef" "Kubernetes envFrom secret refs must be in the agent run namespace.").

Definition validateRefreshRef (obj : AgentRun) (ref : AgentRunExternalSecretRefreshRef) : Refusal :=
  let targetSecret := TrimSpace (ref_Name (esr_TargetSecretRef ref)) in
  refuseIf (blank (esr_Name ref)) (failed "InvalidExternalSecretRefreshRef" "spec.harness.execution.externalSecretRefreshRefs entries must set name.")
  ?? refuseIf (bool_decide (targetSecret = "")) (failed "InvalidExternalSecretRefreshTarget" "spec.harness.execution.externalSecretRefreshRefs entries must set targetSecretRef.name.")
  ?? refuseIf (foreignNamespace obj (ref_Namespace (esr_TargetSecretRef ref)))
       (failed "CrossNamespaceExternalSecretRefreshTarget" "ExternalSecret refresh target Secret refs must be in the agent run namespace.")
  ?? refuseIf (negb (existsb (λ r, bool_decide (TrimSpace (ref_Name r) = targetSecret))
                        (ex_EnvSecretRefs (execution obj))))
       (failed "ExternalSecretRefreshNotInjected" ("ExternalSecret refresh target Secret " +:+ quote targetSecret +:+ " must also appear in spec.harness.execution.envSecretRefs.")).

Definition validateDataVolumeRef (obj : AgentRun) (ref : AgentRunDataVolumeRef) : Refusal :=
  refuseIf (blank (dvr_Name ref)) (failed "InvalidDataVolumeRef" "spec.harness.execution.dataVolumeRefs entries must set name.")
  ?? refuseIf (foreignNamespace obj (dvr_Namespace ref))
       (failed "CrossNamespaceDataVolumeRef" "AgentRun dataVolumeRefs must be in the agent run namespace.").

Definition validateSkill (skill : AgentRunSkillInjectionSpec) : Refusal :=
  refuseIf (blank (skill_Name skill)) (failed "InvalidSkillInjection" "spec.harness.skillInjections entries must set name.")
  ?? firstRefusal (λ sourceRef,
        match ssr_GitHub sourceRef with
        | None => failed "InvalidSkillSource" "spec.harness.skillInjections sourceRefs entries must configure a supported provider."
        | Some source => agentRunValidateGitHubSkillSource source
        end) (skill_SourceRefs skill).

Definition validateTool (tool : AgentRunToolSpec) : Refusal :=
  refuseIf (blank (tool_Name tool)) (failed "InvalidTool" "spec.harness.tools entries must set name.")
  ?? refuseIf (match tool_VerifyCommand tool with command :: _ => blank command | [] => false end)
       (failed "InvalidToolVerifyCommand" "spec.harness.tools verifyCommand entries must start with a command.")
  ?? match tool_ImageInitializer tool with
      | None => None
      | Some initializer =>
          refuseIf (negb (agentRunImmutableToolImagePattern (TrimSpace (tii_Image initializer))))
            (failed "MutableToolInitializerImage" "spec.harness.tools imageInitializer.image must be an OCI image reference pinned as image@sha256:<64 lowercase hex>.")
          ?? refuseIf (existsb blank (tii_Command initializer))
            (failed "InvalidToolInitializerCommand" "spec.harness.tools imageInitializer.command entries must not be empty.")
      end.

Definition agentRunBackendValidation (obj : AgentRun) : Refusal :=
  let requireImage reason message :=
    refuseIf (blank (agentRunImageWithOptions obj options)) (needsHuman reason message) in
  byBackend (agentRunBackendKind obj)
    (requireImage "CodexImageNotConfigured" "A Codex agent run container image is required.")
    (requireImage "OpenCodeImageNotConfigured" "An OpenCode AgentRun container image is required.")
    (requireImage "HermesAgentImageNotConfigured" "A Hermes AgentRun container image is required.")
    (requireImage "OpenClawImageNotConfigured" "An OpenClaw AgentRun container image is required.")
    (requireImage "GrokBuildImageNotConfigured" "A Grok Build AgentRun container image is required.")
    (requireImage "PiAgentImageNotConfigured" "A Pi AgentRun container image is required.")
    (requireImage "PrimeAgentImageNotConfigured" "A Prime AgentRun container image is required.")
    (requireImage "AgyImageNotConfigured" "An Agy AgentRun container image is required.")
    (if bool_decide (agentRunBackendKind obj = AgentRunHarnessBackendCustom)
     then refuseIf (blank (be_Image (backend obj)))
            (needsHuman "CustomImageNotConfigured" "spec.harness.backend.image is required when backend.kind is custom.")
     else failed "UnsupportedBackend" ("Unsupported agent run harness backend " +:+ quote (be_Kind (backend obj)) +:+ ".")).

(** ** The other execution planes *)

Definition substrateLiveClient : bool :=
  opt_SubstrateActorsEnabled options && negb (blank (opt_SubstrateEndpoint options))
  && substrateClient planes.

Definition substrateActorClass (obj : AgentRun) : string :=
  match ex_Substrate (execution obj) with Some s => TrimSpace (sas_ActorClass s) | None => "" end.

Definition shouldGenerateOnActor (obj : AgentRun) : bool :=
  UsesSubstrateActors (execution obj) && substrateLiveClient && substrateGenerate planes
  && GenerateEnabled (opt_SubstrateGenerateOnActor options)
       (opt_SubstrateGenerateActorClasses options) (substrateActorClass obj).

Definition AgentRunChatTurnLabel : string := "control.anvil.hazyforge.io/chat-turn".
Definition AgentRunChatThreadLabel : string := "control.anvil.hazyforge.io/chat-thread".

Definition runClaim (obj : AgentRun) (now : Time) : option Claim :=
  ClaimForTurn (run_Annotations obj) (TrimSpace (run_label obj AgentRunChatTurnLabel)) now ClaimTTL.

Definition agentRunSubstrateHold (obj : AgentRun) (now : Time) : Refusal :=
  if negb (UsesSubstrateActors (execution obj)) then None else
  match runClaim obj now with
  | Some claim => needsHuman "StandingClaimed" ("execution.runtime SubstrateActor standing turn " +:+ quote (claim_TurnID claim) +:+ " is owned by API replica " +:+ quote (claim_Owner claim) +:+ "; the controller yields and created no Kubernetes Job. See docs/standing-inprocess-harness.md (slice 4).")
  | None =>
      if shouldGenerateOnActor obj then None
      else needsHuman "SubstrateActorNotWired" "execution.runtime SubstrateActor is an API-first spike surface; live Substrate dispatch is not enabled in this build, so no Kubernetes Job was created. See docs/substrate-spike.md for the Kind e2e follow-up."
  end.

Definition agentRunInProcessHold (obj : AgentRun) (now : Time) : Refusal :=
  if negb (UsesInProcess (execution obj)) then None else
  match runClaim obj now with
  | Some claim => needsHuman "StandingClaimed" ("execution.runtime InProcess standing turn " +:+ quote (claim_TurnID claim) +:+ " is owned by API replica " +:+ quote (claim_Owner claim) +:+ "; the controller yields and created no Kubernetes Job. See docs/standing-inprocess-harness.md (slice 4).")
  | None => needsHuman "InProcessNotWired" "execution.runtime InProcess is an API-first slice-1 surface; no standing in-process harness backend is wired in this build, so no Kubernetes Job was created. See docs/standing-inprocess-harness.md for the live-backend follow-up."
  end.

Definition refNamespace (ref : option NamespacedObjectReference) : string :=
  match ref with Some r => ref_Namespace r | None => "" end.

Definition agentRunBlockingValidation (obj : AgentRun) (now : Time) : Refusal :=
  let spec := run_Spec obj in
  let ex := execution obj in
  let spiffe := ex_SpiffeWorkloadAPI ex in
  refuseIf (blank (src_Kind (rs_SourceRef spec))) (failed "MissingSourceKind" "spec.sourceRef.kind is required.")
  ?? refuseIf (blank (src_Name (rs_SourceRef spec))) (failed "MissingSourceName" "spec.sourceRef.name is required.")
  ?? refuseIf (foreignNamespace obj (refNamespace (rs_SituationRef spec)))
       (failed "CrossNamespaceSituationRef" "AgentRun situationRef must be in the agent run namespace.")
  ?? refuseIf (foreignNamespace obj (refNamespace (rs_ScheduleRef spec)))
       (failed "CrossNamespaceScheduleRef" "AgentRun scheduleRef must be in the agent run namespace.")
  ?? refuseIf (ex_TimeoutSeconds ex <? 0) (failed "InvalidTimeout" "spec.harness.execution.timeoutSeconds cannot be negative.")
  ?? refuseIf (match ex_TTLSecondsAfterFinished ex with Some ttl => ttl <? 0 | None => false end)
       (failed "InvalidTTL" "spec.harness.execution.ttlSecondsAfterFinished cannot be negative.")
  ?? refuseIf (negb (spiffe_Enabled spiffe) && negb (blank (spiffe_SPIFFEID spiffe)))
       (failed "InvalidSPIFFEWorkloadAPI" "spec.harness.execution.spiffeWorkloadAPI.spiffeId requires enabled=true.")
  ?? refuseIf (spiffe_Enabled spiffe && blank (spiffe_SPIFFEID spiffe))
       (failed "InvalidSPIFFEWorkloadAPI" "spec.harness.execution.spiffeWorkloadAPI.spiffeId is required when enabled.")
  ?? refuseIf (spiffe_Enabled spiffe && negb (validSPIFFEID (TrimSpace (spiffe_SPIFFEID spiffe))))
       (failed "InvalidSPIFFEWorkloadAPI" "spec.harness.execution.spiffeWorkloadAPI.spiffeId must be a valid SPIFFE ID.")
  ?? firstRefusal (validateEnvSecretRef obj) (ex_EnvSecretRefs ex)
  ?? validateCredentials obj ∅ (ex_SkillSourceCredentials ex)
  ?? firstRefusal (validateRefreshRef obj) (ex_ExternalSecretRefreshRefs ex)
  ?? firstRefusal (validateDataVolumeRef obj) (ex_DataVolumeRefs ex)
  ?? match ValidateSubstrateExecution ex with
      | Some (reason, message) => failed reason message
      | None => None
      end
  ?? firstRefusal validateSkill (skills obj)
  ?? firstRefusal (λ subagent, refuseIf (blank (sub_Name subagent))
         (failed "InvalidSubagent" "spec.harness.subagents entries must set name."))
        (har_Subagents (rs_Harness spec))
  ?? firstRefusal validateTool (tools obj)
  ?? agentRunBackendValidation obj
  ?? agentRunSubstrateHold obj now
  ?? agentRunInProcessHold obj now.

(** ** Theorems *)

Lemma orElse_none r k : r ?? k = None ↔ r = None ∧ k = None.
Proof. destruct r; simpl; naive_solver. Qed.
Lemma refuseIf_none b x : refuseIf b (Some x) = None ↔ b = false.
Proof. destruct b; simpl; naive_solver. Qed.
Lemma refuseIf_failed b reason message : refuseIf b (failed reason message) = None ↔ b = false.
Proof. apply refuseIf_none. Qed.
Lemma firstRefusal_none {A} (check : A → Refusal) l :
  firstRefusal check l = None ↔ Forall (λ a, check a = None) l.
Proof.
  induction l as [|a l IH]; simpl; [by split|]. by rewrite orElse_none, IH, Forall_cons.
Qed.
Lemma foreign_local obj ns : foreignNamespace obj ns = false →
  TrimSpace ns = "" ∨ TrimSpace ns = run_Namespace obj.
Proof.
  unfold foreignNamespace, blank. intros E. apply andb_false_iff in E as [E|E]; bool_props; auto.
Qed.

(** A reference that stays in the namespace of the run. *)
Definition local (obj : AgentRun) (ns : string) : Prop :=
  TrimSpace ns = "" ∨ TrimSpace ns = run_Namespace obj.

Lemma credentials_local obj l hosts : validateCredentials obj hosts l = None →
  Forall (λ c, local obj (skr_Namespace (cred_TokenSecretRef c))) l.
Proof.
  revert hosts. induction l as [|c l IH]; intros hosts Hv; [done|]. simpl in Hv.
  destruct (normalizeAgentRunSkillCredentialHost _) as [|host]; [done|].
  destruct (bool_decide (host ∈ hosts)); [done|]. destruct (_ || _); [done|].
  destruct (foreignNamespace _ _) eqn:Ef; [done|].
  constructor; [by apply foreign_local|by eapply IH].
Qed.

(** A commit hash, of 40 or 64 hexadecimal digits. *)
Definition commitHash (s : string) : Prop :=
  (String.length s = 40 ∨ String.length s = 64)%nat ∧ Forall (λ c, c ∈ bytes "0123456789abcdefABCDEF") (bytes s).
(** An image named by its digest. *)
Definition digestImage (s : string) : Prop :=
  ∃ name digest, bytes s = name ++ bytes "@sha256:" ++ digest ∧ name ≠ [] ∧ ("@"%char ∉ name)
    ∧ length digest = 64%nat ∧ Forall (λ c, c ∈ bytes "0123456789abcdef") digest.
(** A source on a host the operator allows, over an encrypted connection unless the
    operator allows otherwise. *)
Definition allowedSource (source : AgentRunGitHubSkillSourceSpec) : Prop :=
  ∃ url, urlParse (if bool_decide (TrimSpace (ghs_APIBaseURL source) = "") then "https://api.github.com"
                   else TrimSpace (ghs_APIBaseURL source)) = inr url
    ∧ url_User url = false
    ∧ (url_Scheme url = "https" ∨ opt_AllowInsecureGitHubAPI options = true ∧ url_Scheme url = "http")
    ∧ ∃ host, host ∈ opt_GitHubAPIAllowedHosts options
        ∧ ToLower (TrimSpace (url_Hostname url)) = ToLower (TrimSpace host).

Lemma hexChar_digit upper c :
  hexChar upper c = true → c ∈ bytes (if upper then "0123456789abcdefABCDEF" else "0123456789abcdef").
Proof.
  intros Hc. apply (bool_decide_unpack _).
  revert Hc. destruct upper, c as [[] [] [] [] [] [] [] []]; vm_compute; first [discriminate|intros _; exact I].
Qed.
Lemma hex_digits upper l :
  forallb (hexChar upper) l = true →
  Forall (λ c, c ∈ bytes (if upper then "0123456789abcdefABCDEF" else "0123456789abcdef")) l.
Proof.
  intros Hl. apply Forall_forall. intros c Hc%list_elem_of_In. apply hexChar_digit. rewrite forallb_forall in Hl. by apply Hl.
Qed.

Lemma gitRef_commit s : agentRunImmutableGitRefPattern s = true → commitHash s.
Proof.
  unfold agentRunImmutableGitRefPattern, commitHash. intros [Hl Hd]%andb_true_iff. split; [|exact (hex_digits true _ Hd)].
  apply orb_true_iff in Hl as [?%Nat.eqb_eq|?%Nat.eqb_eq]; auto.
Qed.

Lemma toolImage_digest s : agentRunImmutableToolImagePattern s = true → digestImage s.
Proof.
  unfold agentRunImmutableToolImagePattern, digestImage. set (l := bytes s). intros [H3 Hd]%andb_true_iff.
  apply andb_true_iff in H3 as [H2 Ht]. apply andb_true_iff in H2 as [Hlen%Nat.ltb_lt Hn]. bool_props.
  exists (take (length l - 72) l), (drop (length l - 64) l).
  assert (drop (length l - 72) l = bytes "@sha256:" ++ drop (length l - 64) l) as Hdrop.
  { rewrite <- Ht. rewrite <- (take_drop 8 (drop (length l - 72) l)) at 1. f_equal. rewrite drop_drop. f_equal. lia. }
  split_and!.
  - by rewrite <- Hdrop, take_drop.
  - intros E. apply (f_equal length) in E. rewrite length_take in E. simpl in E. lia.
  - intros Hat%list_elem_of_In. rewrite forallb_forall in Hn. by apply Hn in Hat.
  - rewrite length_drop. lia.
  - exact (hex_digits false _ Hd).
Qed.

Lemma contents_allowed source address :
  agentRunGitHubContentsURL options source = inr address → allowedSource source.
Proof.
  unfold agentRunGitHubContentsURL, allowedSource. cbv zeta. destruct (urlParse _) as [e|url]; [done|].
  destruct (url_User url) eqn:Eu; [done|]. destruct (bool_decide (url_Host url = "")); [done|].
  destruct (negb _ && negb _) eqn:Es; [done|]. destruct (negb (existsb _ _)) eqn:Eh; [done|]. intros _. exists url.
  split_and!; [done|done| |].
  - apply andb_false_iff in Es as [Es|Es]; apply negb_false_iff in Es; [left|right]; [by bool_props|].
    apply andb_true_iff in Es as [? ?]. by bool_props.
  - apply negb_false_iff, existsb_exists in Eh as (host & Hin & Hh). bool_props. exists host.
    split; [by apply list_elem_of_In|done].
Qed.

Lemma source_pinned source : agentRunValidateGitHubSkillSource source = None →
  commitHash (TrimSpace (ghs_Ref source)) ∧ allowedSource source.
Proof.
  unfold agentRunValidateGitHubSkillSource. destruct (ownerAndName _); [|done].
  destruct (agentRunValidateRemoteFilePath _); [done|].
  destruct (agentRunGitHubContentsURL _ _) as [|address] eqn:Ea; [done|].
  intros Hr. apply refuseIf_none, negb_false_iff in Hr. split; [by apply gitRef_commit|by eapply contents_allowed].
Qed.

Lemma backend_image obj : agentRunBackendValidation obj = None →
  blank (agentRunImageWithOptions obj options) = false.
Proof.
  unfold agentRunBackendValidation, byBackend. cbv zeta.
  repeat match goal with
  | |- (if bool_decide ?P then _ else _) = None → _ =>
      destruct (bool_decide P) eqn:?; [intros Hr; by apply refuseIf_none in Hr|]
  end.
  destruct (bool_decide (agentRunBackendKind obj = AgentRunHarnessBackendCustom)); [|done].
  intros Hr. apply refuseIf_none in Hr. unfold agentRunImageWithOptions. rewrite Hr. cbn [negb].
  unfold blank in *. bool_props. apply bool_decide_eq_false_2. by rewrite TrimSpace_idem.
Qed.

(** Where a run executes: in a Job, unless it asks for an actor or the process of the
    controller; on an actor only when the operator has enabled actors and opted the class
    of the run in. *)
Definition inJob (obj : AgentRun) : Prop :=
  TrimSpace (ex_Runtime (execution obj)) ∉ ["SubstrateActor"; "InProcess"].
Record onActor (obj : AgentRun) : Prop := mkOnActor {
  oa_runtime : TrimSpace (ex_Runtime (execution obj)) = "SubstrateActor";
  oa_enabled : opt_SubstrateActorsEnabled options = true ∧ opt_SubstrateGenerateOnActor options = true;
  oa_endpoint : TrimSpace (opt_SubstrateEndpoint options) ≠ "";
  oa_class : let class := TrimSpace (substrateActorClass obj) in
    class ≠ "" ∧ class ≠ "standing-chat"
    ∧ ∃ allowed, allowed ∈ opt_SubstrateGenerateActorClasses options ∧ TrimSpace allowed = class }.

Lemma generates_onActor obj : shouldGenerateOnActor obj = true → onActor obj.
Proof.
  unfold shouldGenerateOnActor, substrateLiveClient, GenerateEnabled, UsesSubstrateActors, EffectiveRuntime. cbv zeta.
  intros [Hx Hgen]%andb_true_iff. apply andb_true_iff in Hx as [Hx _]. apply andb_true_iff in Hx as [Hrun Hlive].
  apply andb_true_iff in Hlive as [[Hen Hep]%andb_true_iff _].
  destruct (opt_SubstrateGenerateOnActor options) eqn:Eg; [|done]. cbn [negb] in Hgen.
  destruct (_ || _) eqn:Ec; [done|]. apply orb_false_iff in Ec as [Ec1 Ec2].
  apply existsb_exists in Hgen as (allowed & Hin & Ha). unfold blank in Hep. bool_props. split; try done.
  - revert Hrun. repeat case_bool_decide; try done.
  - split_and!; [done..|]. exists allowed. split; [by apply list_elem_of_In|done].
Qed.

(** The plane a validated run executes on. *)
Lemma plane_of obj now :
  agentRunSubstrateHold obj now = None → agentRunInProcessHold obj now = None → inJob obj ∨ onActor obj.
Proof.
  unfold agentRunSubstrateHold, agentRunInProcessHold. intros Hs Hi.
  destruct (UsesSubstrateActors (execution obj)) eqn:Eu; cbn [negb] in Hs.
  - destruct (runClaim obj now); [done|]. destruct (shouldGenerateOnActor obj) eqn:Eg; [|done].
    right. by apply generates_onActor.
  - destruct (UsesInProcess (execution obj)) eqn:Ei; cbn [negb] in Hi; [by destruct (runClaim obj now)|].
    left. unfold inJob, UsesSubstrateActors, UsesInProcess, EffectiveRuntime in *. cbv zeta in *.
    rewrite !not_elem_of_cons. split_and!; [| |apply not_elem_of_nil]; intros E; rewrite E in Eu, Ei; done.
Qed.

(** C26: of a run that passes validation, the references to a situation, a schedule,
    environment Secrets, the Secrets of skill credentials, refresh targets and data
    volumes stay in its own namespace; its skills come from commits of repositories on
    hosts the operator allows and its initialized tools from images named by digest; it
    has an image for its backend, and executes in a Job or on an actor class the operator
    opted in. *)
Theorem validated_run_confined obj now :
  agentRunBlockingValidation obj now = None →
  local obj (refNamespace (rs_SituationRef (run_Spec obj)))
  ∧ local obj (refNamespace (rs_ScheduleRef (run_Spec obj)))
  ∧ Forall (λ r, local obj (ref_Namespace r) ∧ blank (ref_Name r) = false)
      (ex_EnvSecretRefs (execution obj))
  ∧ Forall (λ c, local obj (skr_Namespace (cred_TokenSecretRef c)))
      (ex_SkillSourceCredentials (execution obj))
  ∧ Forall (λ r, local obj (ref_Namespace (esr_TargetSecretRef r)))
      (ex_ExternalSecretRefreshRefs (execution obj))
  ∧ Forall (λ r, local obj (dvr_Namespace r)) (ex_DataVolumeRefs (execution obj))
  ∧ Forall (λ s, Forall (λ ref, ∃ source, ssr_GitHub ref = Some source
        ∧ commitHash (TrimSpace (ghs_Ref source)) ∧ allowedSource source)
      (skill_SourceRefs s)) (skills obj)
  ∧ Forall (λ t, ∀ i, tool_ImageInitializer t = Some i →
        digestImage (TrimSpace (tii_Image i))) (tools obj)
  ∧ blank (agentRunImageWithOptions obj options) = false
  ∧ (inJob obj ∨ onActor obj).
Proof.
  unfold agentRunBlockingValidation. cbv zeta. rewrite !orElse_none, !refuseIf_failed.
  intros (_ & _ & Hsit & Hsched & _ & _ & _ & _ & _ & Henv & Hcred & Href & Hvol & _ & Hskill & _
    & Htool & Hback & Hsub & Hin).
  apply firstRefusal_none in Henv, Href, Hvol, Hskill, Htool.
  split; [by apply foreign_local|]. split; [by apply foreign_local|].
  split; [|split; [by eapply credentials_local|]].
  { eapply Forall_impl; [exact Henv|]. intros r Hr. unfold validateEnvSecretRef in Hr.
    rewrite orElse_none, !refuseIf_failed in Hr. destruct Hr as [Hb Hf].
    split; [by apply foreign_local|done]. }
  split.
  { eapply Forall_impl; [exact Href|]. intros r Hr. unfold validateRefreshRef in Hr. cbv zeta in Hr.
    rewrite !orElse_none, !refuseIf_failed in Hr. destruct Hr as (_ & _ & Hf & _).
    by apply foreign_local. }
  split.
  { eapply Forall_impl; [exact Hvol|]. intros r Hr. unfold validateDataVolumeRef in Hr.
    rewrite orElse_none, !refuseIf_failed in Hr. destruct Hr as [_ Hf]. by apply foreign_local. }
  split.
  { eapply Forall_impl; [exact Hskill|]. intros s Hs. unfold validateSkill in Hs.
    rewrite orElse_none, firstRefusal_none in Hs. eapply Forall_impl; [apply Hs|].
    intros ref Hr. simpl in Hr. destruct (ssr_GitHub ref) as [source|]; [|done].
    exists source. split; [done|]. by apply source_pinned. }
  split.
  { eapply Forall_impl; [exact Htool|]. intros t Ht i Hi. unfold validateTool in Ht.
    rewrite Hi in Ht. rewrite !orElse_none, !refuseIf_failed in Ht.
    destruct Ht as (_ & _ & Ht & _). by apply toolImage_digest, negb_false_iff. }
  split; [by apply backend_image|by eapply plane_of].
Qed.
End validation.

(** ** Witness *)

Definition fx_valid_run : AgentRun :=
  fx_equipped <| run_ObjectMeta := zero_ObjectMeta <| meta_Name := "triage" |> <| meta_Namespace := "ops" |> |>
    <| run_Spec := (run_Spec fx_equipped)
         <| rs_SourceRef := mkAgentRunSourceRef "v1" "Pod" "ops" "web-0" |>
         <| rs_ScheduleRef := Some (mkNamespacedObjectReference "nightly" "ops") |> |>.

Lemma validated_run_confined_witness :
  agentRunBlockingValidation (H := fx_github) (H0 := fx_claim_json) DefaultOptions
    (mkPlanes false false) (λ _, true) fx_valid_run 0 = None
  ∧ blank (agentRunImageWithOptions fx_valid_run DefaultOptions) = false.
Proof.
  assert (agentRunBlockingValidation (H := fx_github) (H0 := fx_claim_json) DefaultOptions
    (mkPlanes false false) (λ _, true) fx_valid_run 0 = None) as E by (vm_compute; reflexivity).
  split; [exact E|].
  destruct (validated_run_confined (H := fx_github) (H0 := fx_claim_json) DefaultOptions
    (mkPlanes false false) (λ _, true) fx_valid_run 0 E) as (_ & _ & _ & _ & _ & _ & _ & _ & Hb & _).
  exact Hb.
Defined.
