(* ===== verification/ApiVolume.v ===== *)
(** * Types of the data volume API

    src/api/v1alpha1/agent_data_volume_types.go and volume_profile_types.go; the
    Kubernetes claims and storage classes behind them.  Storage quantities are
    exact numbers (in nano-units) with the text they print as. *)

From stdpp Require Import base list gmap strings.
From Stdlib Require Import ZArith Lia.
From S2P Require Import Prelude GoTime ApiRun.

Open Scope Z_scope.

Record Quantity := mkQuantity { q_Nano : Z; q_Text : string }.
Definition zero_Quantity : Quantity := mkQuantity 0 "0".
Definition gibibytes (n : Z) (text : string) : Quantity := mkQuantity (n * 2 ^ 30 * 10 ^ 9) text.

Record ExternalVolumeSyncSpec := mkExternalVolumeSyncSpec {
  evs_Disabled : bool; evs_Provider : string; evs_Direction : string; evs_Other : Raw }.
Record ExternalVolumeSyncStatus := mkExternalVolumeSyncStatus {
  evt_Phase : string;
  evt_Provider : string;
  evt_Direction : string;
  evt_LastAttemptTime : option Time;
  evt_LastSuccessTime : option Time;
  evt_LastError : string;
  evt_Message : string;
  evt_Conditions : list Condition }.
#[export] Instance eta_ExternalVolumeSyncStatus : Eta ExternalVolumeSyncStatus := λ r,
  mkExternalVolumeSyncStatus (evt_Phase r) (evt_Provider r) (evt_Direction r)
    (evt_LastAttemptTime r) (evt_LastSuccessTime r) (evt_LastError r) (evt_Message r) (evt_Conditions r).

Record AgentDataVolumePathEnvVar := mkPathEnvVar { pev_Name : string; pev_Value : string }.

Record AgentDataVolumeSpec := mkAgentDataVolumeSpec {
  dv_ApplicationRef : option ApplicationReferenceSpec;
  dv_AgentName : string;
  dv_Backend : string;
  dv_ProfileRef : option LocalObjectReference;
  dv_ProfileVolumeName : string;
  dv_ClaimName : string;
  dv_MountPath : string;
  dv_SubPath : string;
  dv_StorageClassName : string;
  dv_Size : Quantity;
  dv_AccessModes : list string;
  dv_NodeSelector : gmap string string;
  dv_ExtraEnv : list AgentDataVolumePathEnvVar;
  dv_ExternalSync : option ExternalVolumeSyncSpec;
  dv_Notes : string }.
#[export] Instance eta_AgentDataVolumeSpec : Eta AgentDataVolumeSpec := λ r, mkAgentDataVolumeSpec
  (dv_ApplicationRef r) (dv_AgentName r) (dv_Backend r) (dv_ProfileRef r) (dv_ProfileVolumeName r)
  (dv_ClaimName r) (dv_MountPath r) (dv_SubPath r) (dv_StorageClassName r) (dv_Size r)
  (dv_AccessModes r) (dv_NodeSelector r) (dv_ExtraEnv r) (dv_ExternalSync r) (dv_Notes r).
Definition zero_AgentDataVolumeSpec : AgentDataVolumeSpec := mkAgentDataVolumeSpec
  None "" "" None "" "" "" "" "" zero_Quantity [] ∅ [] None "".

Record AgentDataVolumeStatus := mkAgentDataVolumeStatus {
  dvt_ObservedGeneration : Z;
  dvt_Conditions : list Condition;
  dvt_Phase : string;
  dvt_ProfileRef : option NamespacedObjectReference;
  dvt_ProfileVolumeName : string;
  dvt_ClaimRef : option NamespacedObjectReference;
  dvt_ClaimUID : string;
  dvt_StorageClassName : string;
  dvt_VolumeName : string;
  dvt_Capacity : string;
  dvt_MountPath : string;
  dvt_SubPath : string;
  dvt_NodeSelector : gmap string string;
  dvt_ExtraEnv : list AgentDataVolumePathEnvVar;
  dvt_ExternalSync : option ExternalVolumeSyncStatus;
  dvt_LastError : string }.
#[export] Instance eta_AgentDataVolumeStatus : Eta AgentDataVolumeStatus := λ r, mkAgentDataVolumeStatus
  (dvt_ObservedGeneration r) (dvt_Conditions r) (dvt_Phase r) (dvt_ProfileRef r)
  (dvt_ProfileVolumeName r) (dvt_ClaimRef r) (dvt_ClaimUID r) (dvt_StorageClassName r)
  (dvt_VolumeName r) (dvt_Capacity r) (dvt_MountPath r) (dvt_SubPath r) (dvt_NodeSelector r)
  (dvt_ExtraEnv r) (dvt_ExternalSync r) (dvt_LastError r).
Definition zero_AgentDataVolumeStatus : AgentDataVolumeStatus := mkAgentDataVolumeStatus
  0 [] "" None "" None "" "" "" "" "" "" ∅ [] None "".

Record AgentDataVolume := mkAgentDataVolume {
  adv_ObjectMeta : ObjectMeta; adv_Spec : AgentDataVolumeSpec; adv_Status : AgentDataVolumeStatus }.
#[export] Instance eta_AgentDataVolume : Eta AgentDataVolume := λ r, mkAgentDataVolume
  (adv_ObjectMeta r) (adv_Spec r) (adv_Status r).
Definition adv_Name (v : AgentDataVolume) : string := meta_Name (adv_ObjectMeta v).
Definition adv_Namespace (v : AgentDataVolume) : string := meta_Namespace (adv_ObjectMeta v).
Definition adv_UID (v : AgentDataVolume) : string := meta_UID (adv_ObjectMeta v).

Definition AgentDataVolumePhasePending : string := "Pending".
Definition AgentDataVolumePhaseReady : string := "Ready".
Definition AgentDataVolumePhaseBlocked : string := "Blocked".

Record VolumeProfileVolumeSpec := mkVolumeProfileVolumeSpec {
  vpv_Name : string;
  vpv_Purpose : string;
  vpv_MountPath : string;
  vpv_SubPath : string;
  vpv_StorageClassName : string;
  vpv_SizeRequest : Quantity;
  vpv_AccessModes : list string;
  vpv_NodeSelector : gmap string string;
  vpv_ExtraEnv : list AgentDataVolumePathEnvVar;
  vpv_ExternalSync : option ExternalVolumeSyncSpec }.
Record VolumeProfileCapacityPolicySpec := mkVolumeProfileCapacityPolicySpec {
  vcp_MaxNodeAllocatableEphemeralStoragePercent : option Z }.
Record VolumeProfileSpec := mkVolumeProfileSpec {
  vps_ApplicationRef : option ApplicationReferenceSpec;
  vps_Description : string;
  vps_CapacityPolicy : option VolumeProfileCapacityPolicySpec;
  vps_Volumes : list VolumeProfileVolumeSpec;
  vps_Notes : string }.
Record VolumeProfileVolumeStatus := mkVolumeProfileVolumeStatus {
  vpvs_Name : string;
  vpvs_Purpose : string;
  vpvs_RequestedStorage : string;
  vpvs_ExternalSync : option ExternalVolumeSyncStatus }.
Record VolumeProfileStatus := mkVolumeProfileStatus {
  vpst_ObservedGeneration : Z;
  vpst_Phase : string;
  vpst_Conditions : list Condition;
  vpst_VolumeCount : Z;
  vpst_TotalRequestedStorage : string;
  vpst_Volumes : list VolumeProfileVolumeStatus;
  vpst_LastError : string }.
#[export] Instance eta_VolumeProfileStatus : Eta VolumeProfileStatus := λ r, mkVolumeProfileStatus
  (vpst_ObservedGeneration r) (vpst_Phase r) (vpst_Conditions r) (vpst_VolumeCount r)
  (vpst_TotalRequestedStorage r) (vpst_Volumes r) (vpst_LastError r).
Record VolumeProfile := mkVolumeProfile {
  vp_ObjectMeta : ObjectMeta; vp_Spec : VolumeProfileSpec; vp_Status : VolumeProfileStatus }.
Definition vp_Name (v : VolumeProfile) : string := meta_Name (vp_ObjectMeta v).
Definition vp_Namespace (v : VolumeProfile) : string := meta_Namespace (vp_ObjectMeta v).
Definition VolumeProfilePhaseReady : string := "Ready".
Definition VolumeProfilePhaseBlocked : string := "Blocked".

(** Claims: the fields the code reads or writes.  [pvc_Provenance] tells whether a
    selector, a data source or a volume mode other than Filesystem is set. *)
Record PersistentVolumeClaim := mkPersistentVolumeClaim {
  pvc_ObjectMeta : ObjectMeta;
  pvc_AccessModes : list string;
  pvc_StorageClassName : option string;
  pvc_Request : option Quantity;
  pvc_VolumeName : string;
  pvc_Provenance : bool;
  pvc_Phase : string;
  pvc_Capacity : option Quantity }.
#[export] Instance eta_PersistentVolumeClaim : Eta PersistentVolumeClaim := λ r, mkPersistentVolumeClaim
  (pvc_ObjectMeta r) (pvc_AccessModes r) (pvc_StorageClassName r) (pvc_Request r) (pvc_VolumeName r)
  (pvc_Provenance r) (pvc_Phase r) (pvc_Capacity r).
Definition pvc_Name (c : PersistentVolumeClaim) : string := meta_Name (pvc_ObjectMeta c).
Definition pvc_Namespace (c : PersistentVolumeClaim) : string := meta_Namespace (pvc_ObjectMeta c).
Definition pvc_UID (c : PersistentVolumeClaim) : string := meta_UID (pvc_ObjectMeta c).

(** [storageClass.VolumeBindingMode]. *)
Record StorageClass := mkStorageClass { sclass_VolumeBindingMode : option string }.
