(* ===== verification/ApiMaintenance.v ===== *)
(** * API types: volume copies and auth sessions

    The types of [src/api/v1alpha1/agent_data_volume_copy_types.go] and
    [agent_auth_session_types.go], by the same conventions as [ApiRun]. *)

From stdpp Require Import base list gmap strings.
From Stdlib Require Import ZArith.
From S2P Require Import Prelude GoStrings GoTime ApiRun ApiVolume.

Open Scope Z_scope.

(** ** AgentDataVolumeCopy *)

Record AgentDataVolumeCopyDestination := mkAgentDataVolumeCopyDestination {
  dcd_Name : string;
  dcd_NodeSelector : gmap string string;
  dcd_StorageClassName : string;
  dcd_Size : option Quantity;
  dcd_Backend : string;
  dcd_Notes : string }.
#[export] Instance eta_AgentDataVolumeCopyDestination : Eta AgentDataVolumeCopyDestination := λ r, mkAgentDataVolumeCopyDestination
  (dcd_Name r) (dcd_NodeSelector r) (dcd_StorageClassName r) (dcd_Size r)
  (dcd_Backend r) (dcd_Notes r).
Definition zero_AgentDataVolumeCopyDestination : AgentDataVolumeCopyDestination := mkAgentDataVolumeCopyDestination
  "" ∅ "" None "" "".

Record AgentDataVolumeCopySpec := mkAgentDataVolumeCopySpec {
  dcs_SourceRef : LocalObjectReference;
  dcs_Destination : AgentDataVolumeCopyDestination;
  dcs_Method : string;
  dcs_AllowNonEmptyDestination : bool;
  dcs_Verify : option bool;
  dcs_TimeoutSeconds : Z }.
#[export] Instance eta_AgentDataVolumeCopySpec : Eta AgentDataVolumeCopySpec := λ r, mkAgentDataVolumeCopySpec
  (dcs_SourceRef r) (dcs_Destination r) (dcs_Method r)
  (dcs_AllowNonEmptyDestination r) (dcs_Verify r) (dcs_TimeoutSeconds r).
Definition zero_AgentDataVolumeCopySpec : AgentDataVolumeCopySpec := mkAgentDataVolumeCopySpec
  (mkLocalObjectReference "") zero_AgentDataVolumeCopyDestination "" false
  None 0.

Record AgentDataVolumeCopyStatus := mkAgentDataVolumeCopyStatus {
  dct_ObservedGeneration : Z;
  dct_Conditions : list Condition;
  dct_Phase : string;
  dct_SourceRef : option NamespacedObjectReference;
  dct_SourceUID : string;
  dct_SourceClaimRef : option NamespacedObjectReference;
  dct_SourceClaimUID : string;
  dct_SourceNode : string;
  dct_DestinationRef : option NamespacedObjectReference;
  dct_DestinationUID : string;
  dct_DestinationClaimRef : option NamespacedObjectReference;
  dct_DestinationClaimUID : string;
  dct_DestinationNode : string;
  dct_SourceJobRef : option NamespacedObjectReference;
  dct_SourceJobUID : string;
  dct_DestinationJobRef : option NamespacedObjectReference;
  dct_DestinationJobUID : string;
  dct_ServiceRef : option NamespacedObjectReference;
  dct_ActiveConsumerRuns : list string;
  dct_BytesCopiedHint : string;
  dct_FileCountSource : option Z;
  dct_FileCountDest : option Z;
  dct_StartedAt : option Time;
  dct_CompletedAt : option Time;
  dct_LastError : string }.
#[export] Instance eta_AgentDataVolumeCopyStatus : Eta AgentDataVolumeCopyStatus := λ r, mkAgentDataVolumeCopyStatus
  (dct_ObservedGeneration r) (dct_Conditions r) (dct_Phase r)
  (dct_SourceRef r) (dct_SourceUID r) (dct_SourceClaimRef r)
  (dct_SourceClaimUID r) (dct_SourceNode r) (dct_DestinationRef r)
  (dct_DestinationUID r) (dct_DestinationClaimRef r)
  (dct_DestinationClaimUID r) (dct_DestinationNode r) (dct_SourceJobRef r)
  (dct_SourceJobUID r) (dct_DestinationJobRef r) (dct_DestinationJobUID r)
  (dct_ServiceRef r) (dct_ActiveConsumerRuns r) (dct_BytesCopiedHint r)
  (dct_FileCountSource r) (dct_FileCountDest r) (dct_StartedAt r)
  (dct_CompletedAt r) (dct_LastError r).
Definition zero_AgentDataVolumeCopyStatus : AgentDataVolumeCopyStatus := mkAgentDataVolumeCopyStatus
  0 [] "" None "" None "" "" None "" None "" "" None "" None "" None [] ""
  None None None None "".

Record AgentDataVolumeCopy := mkAgentDataVolumeCopy {
  adc_ObjectMeta : ObjectMeta;
  adc_Spec : AgentDataVolumeCopySpec;
  adc_Status : AgentDataVolumeCopyStatus }.
#[export] Instance eta_AgentDataVolumeCopy : Eta AgentDataVolumeCopy := λ r, mkAgentDataVolumeCopy
  (adc_ObjectMeta r) (adc_Spec r) (adc_Status r).
Definition zero_AgentDataVolumeCopy : AgentDataVolumeCopy := mkAgentDataVolumeCopy
  zero_ObjectMeta zero_AgentDataVolumeCopySpec zero_AgentDataVolumeCopyStatus.

(** ** AgentAuthSession *)

Record AgentAuthSessionSpec := mkAgentAuthSessionSpec {
  aus_Provider : string;
  aus_Action : string;
  aus_DataVolumeRef : LocalObjectReference;
  aus_StagingSecretRef : option LocalObjectReference;
  aus_BootstrapSecretRef : option LocalObjectReference;
  aus_BootstrapSecretKey : string;
  aus_SeedID : string;
  aus_TimeoutSeconds : Z }.
#[export] Instance eta_AgentAuthSessionSpec : Eta AgentAuthSessionSpec := λ r, mkAgentAuthSessionSpec
  (aus_Provider r) (aus_Action r) (aus_DataVolumeRef r)
  (aus_StagingSecretRef r) (aus_BootstrapSecretRef r)
  (aus_BootstrapSecretKey r) (aus_SeedID r) (aus_TimeoutSeconds r).
Definition zero_AgentAuthSessionSpec : AgentAuthSessionSpec := mkAgentAuthSessionSpec
  "" "" (mkLocalObjectReference "") None None "" "" 0.

Record AgentAuthSessionStatus := mkAgentAuthSessionStatus {
  aut_ObservedGeneration : Z;
  aut_Conditions : list Condition;
  aut_Phase : string;
  aut_DataVolumeRef : option NamespacedObjectReference;
  aut_DataVolumeUID : string;
  aut_ClaimRef : option NamespacedObjectReference;
  aut_ClaimUID : string;
  aut_MountPath : string;
  aut_SeedID : string;
  aut_JobRef : option NamespacedObjectReference;
  aut_JobUID : string;
  aut_ActiveConsumerRuns : list string;
  aut_StartedAt : option Time;
  aut_CompletedAt : option Time;
  aut_LastError : string }.
#[export] Instance eta_AgentAuthSessionStatus : Eta AgentAuthSessionStatus := λ r, mkAgentAuthSessionStatus
  (aut_ObservedGeneration r) (aut_Conditions r) (aut_Phase r)
  (aut_DataVolumeRef r) (aut_DataVolumeUID r) (aut_ClaimRef r)
  (aut_ClaimUID r) (aut_MountPath r) (aut_SeedID r) (aut_JobRef r)
  (aut_JobUID r) (aut_ActiveConsumerRuns r) (aut_StartedAt r)
  (aut_CompletedAt r) (aut_LastError r).
Definition zero_AgentAuthSessionStatus : AgentAuthSessionStatus := mkAgentAuthSessionStatus
  0 [] "" None "" None "" "" "" None "" [] None None "".

Record AgentAuthSession := mkAgentAuthSession {
  aas_ObjectMeta : ObjectMeta;
  aas_Spec : AgentAuthSessionSpec;
  aas_Status : AgentAuthSessionStatus }.
#[export] Instance eta_AgentAuthSession : Eta AgentAuthSession := λ r, mkAgentAuthSession
  (aas_ObjectMeta r) (aas_Spec r) (aas_Status r).
Definition zero_AgentAuthSession : AgentAuthSession := mkAgentAuthSession
  zero_ObjectMeta zero_AgentAuthSessionSpec zero_AgentAuthSessionStatus.

(** ** Constants *)

Definition AgentDataVolumeCopyPhasePending : string := "Pending".
Definition AgentDataVolumeCopyPhaseWaitingForIdle : string := "WaitingForIdle".
Definition AgentDataVolumeCopyPhasePreparingDestination : string := "PreparingDestination".
Definition AgentDataVolumeCopyPhaseStreaming : string := "Streaming".
Definition AgentDataVolumeCopyPhaseVerifying : string := "Verifying".
Definition AgentDataVolumeCopyPhaseSucceeded : string := "Succeeded".
Definition AgentDataVolumeCopyPhaseFailed : string := "Failed".
Definition AgentDataVolumeCopyMethodStream : string := "Stream".
Definition AgentAuthSessionProviderCodex : string := "codex".
Definition AgentAuthSessionProviderGrokBuild : string := "grokBuild".
Definition AgentAuthSessionActionReauth : string := "reauth".
Definition AgentAuthSessionActionLogout : string := "logout".
Definition AgentAuthSessionPhasePending : string := "Pending".
Definition AgentAuthSessionPhaseWaitingForIdle : string := "WaitingForIdle".
Definition AgentAuthSessionPhaseRunning : string := "Running".
Definition AgentAuthSessionPhaseSucceeded : string := "Succeeded".
Definition AgentAuthSessionPhaseFailed : string := "Failed".

(** Names of the objects. *)
Definition adc_Name (o : AgentDataVolumeCopy) : string := meta_Name (adc_ObjectMeta o).
Definition adc_Namespace (o : AgentDataVolumeCopy) : string := meta_Namespace (adc_ObjectMeta o).
Definition adc_UID (o : AgentDataVolumeCopy) : string := meta_UID (adc_ObjectMeta o).
Definition adc_Generation (o : AgentDataVolumeCopy) : Z := meta_Generation (adc_ObjectMeta o).
Definition aas_Name (o : AgentAuthSession) : string := meta_Name (aas_ObjectMeta o).
Definition aas_Namespace (o : AgentAuthSession) : string := meta_Namespace (aas_ObjectMeta o).
Definition aas_UID (o : AgentAuthSession) : string := meta_UID (aas_ObjectMeta o).
Definition aas_Generation (o : AgentAuthSession) : Z := meta_Generation (aas_ObjectMeta o).

(** Go: [AgentDataVolumeCopyIsTerminal], [AgentAuthSessionIsTerminal] and
    [AgentDataVolumeCopyVerifyEnabled]. *)
Definition AgentAuthSessionIsTerminal (phase : string) : bool :=
  bool_decide (phase = AgentAuthSessionPhaseSucceeded) || bool_decide (phase = AgentAuthSessionPhaseFailed).
Definition AgentDataVolumeCopyIsTerminal (phase : string) : bool :=
  bool_decide (phase = AgentDataVolumeCopyPhaseSucceeded) || bool_decide (phase = AgentDataVolumeCopyPhaseFailed).
Definition AgentDataVolumeCopyVerifyEnabled (spec : AgentDataVolumeCopySpec) : bool :=
  default true (dcs_Verify spec).
