(* ===== verification/DataVolumes.v ===== *)
(** * Data volumes

    src/internal/controller/agent_data_volume_controller.go: an AgentDataVolume
    owns one PersistentVolumeClaim for life.  The controller creates it, never
    adopts or replaces one, lets it grow but not shrink, and reports what a run
    mounts: path, selector and the environment variables that name directories
    under the mount. *)

From stdpp Require Import base list gmap strings sorting.
From Stdlib Require Import ZArith Lia Ascii.
From S2P Require Import Prelude GoStrings GoTime Names ApiRun ApiWork Kube Merge RunOutput RunBackend RunPayload RunJob ApiVolume ApiMaintenance.

Open Scope Z_scope.

(** ** Paths: [path.Clean] and [path.IsAbs] *)

Definition cleanStep (rooted : bool) (stack : list string) (seg : string) : list string :=
  if bool_decide (seg = "") || bool_decide (seg = ".") then stack
  else if bool_decide (seg = "..") then
    match stack with
    | top :: rest => if bool_decide (top = "..") then seg :: stack else rest
    | [] => if rooted then [] else [seg]
    end
  else seg :: stack.
Definition Clean (p : string) : string :=
  let rooted := HasPrefix p "/" in
  let segs := rev (fold_left (cleanStep rooted) (SplitByte slash p) []) in
  if rooted then "/" +:+ Join segs "/"
  else if bool_decide (segs = []) then "." else Join segs "/".
Definition IsAbs (p : string) : bool := HasPrefix p "/".

(** The pattern of the variables a volume may set. *)
Definition envWordChar (c : ascii) : bool :=
  let n := code c in ((65 <=? n) && (n <=? 90) || (48 <=? n) && (n <=? 57) || (n =? 95))%N.
Definition envPrefix (l : list ascii) : bool :=
  match l with
  | [] => true
  | c :: t => (65 <=? code c)%N && (code c <=? 90)%N && forallb envWordChar t
              && match last t with Some d => bool_decide (d = "_"%char) | None => false end
  end.
Definition agentDataVolumePathEnvNamePattern (name : string) : bool :=
  existsb (λ suffix, HasSuffix name suffix
    && envPrefix (take (String.length name - String.length suffix) (bytes name)))
    ["HOME"; "STATE_DIR"; "CACHE_DIR"; "CONFIG_DIR"; "DATA_DIR"].

Definition validatePathEnvItem (mountPath : string) (item : AgentDataVolumePathEnvVar) : option string :=
  let name := TrimSpace (pev_Name item) in
  let value := Clean (TrimSpace (pev_Value item)) in
  if negb (agentDataVolumePathEnvNamePattern name)
  then Some ("extraEnv name " +:+ quote name +:+ " must identify a backend HOME, STATE_DIR, CACHE_DIR, CONFIG_DIR, or DATA_DIR")
  else if negb (IsAbs value)
          || negb (bool_decide (value = mountPath)) && negb (HasPrefix value (mountPath +:+ "/"))
  then Some ("extraEnv " +:+ name +:+ " value must be an absolute path under mountPath " +:+ mountPath)
  else None.

Fixpoint firstError {A} (check : A → option string) (l : list A) : option string :=
  match l with
  | [] => None
  | a :: l => match check a with Some e => Some e | None => firstError check l end
  end.

Definition validateAgentDataVolumePathEnv (values : list AgentDataVolumePathEnvVar) (mountPath : string) :
    option string :=
  firstError (validatePathEnvItem (Clean (TrimSpace mountPath))) values.

Definition trimEnv (item : AgentDataVolumePathEnvVar) : AgentDataVolumePathEnvVar :=
  mkPathEnvVar (TrimSpace (pev_Name item)) (TrimSpace (pev_Value item)).
Definition mergeAgentDataVolumePathEnv (base additions : list AgentDataVolumePathEnvVar) :
    list AgentDataVolumePathEnvVar :=
  mergeKeyed (λ _, true) (λ _, true) pev_Name [] (map trimEnv (base ++ additions)).

(** ** What a volume resolves to *)

Definition agentDataVolumeClaimName (obj : AgentDataVolume) : string :=
  if negb (blank (dv_ClaimName (adv_Spec obj))) then TrimSpace (dv_ClaimName (adv_Spec obj))
  else agentRunChildName ["agent-data"; adv_Name obj].

Definition agentDataVolumeMountPath (obj : AgentDataVolume) : string :=
  if negb (blank (dv_MountPath (adv_Spec obj))) then TrimSpace (dv_MountPath (adv_Spec obj))
  else byBackend (dv_Backend (adv_Spec obj)) "/codex-home" "/opt/anvil/opencode" "/opt/anvil/hermes"
         "/opt/anvil/openclaw" "/opt/anvil/grok-build" "/opt/anvil/pi" "/opt/anvil/prime"
         "/opt/anvil/agy" "/agent-state".

Definition agentDataVolumeStatusCurrent (obj : AgentDataVolume) : bool :=
  let observed := dvt_ObservedGeneration (adv_Status obj) in
  negb (observed =? 0) && (observed =? meta_Generation (adv_ObjectMeta obj)).

Definition agentDataVolumeResolvedMountPath (obj : AgentDataVolume) : string :=
  if agentDataVolumeStatusCurrent obj && negb (blank (dvt_MountPath (adv_Status obj)))
  then TrimSpace (dvt_MountPath (adv_Status obj)) else agentDataVolumeMountPath obj.

Definition agentDataVolumeResolvedSubPath (obj : AgentDataVolume) : string :=
  if agentDataVolumeStatusCurrent obj then TrimSpace (dvt_SubPath (adv_Status obj))
  else TrimSpace (dv_SubPath (adv_Spec obj)).

Definition agentDataVolumeResolvedNodeSelector (obj : AgentDataVolume) : gmap string string :=
  if agentDataVolumeStatusCurrent obj && negb (bool_decide (dvt_NodeSelector (adv_Status obj) = ∅))
  then dvt_NodeSelector (adv_Status obj) else dv_NodeSelector (adv_Spec obj).

Definition agentDataVolumeResolvedExtraEnv (obj : AgentDataVolume) : list EnvVar :=
  let values :=
    if agentDataVolumeStatusCurrent obj && negb (bool_decide (length (dvt_ExtraEnv (adv_Status obj)) = 0%nat))
    then dvt_ExtraEnv (adv_Status obj) else dv_ExtraEnv (adv_Spec obj) in
  map (λ item, mkEnvVar (pev_Name item) (pev_Value item) None) values.

(** ** Claims *)

Definition agentDataVolumeAccessModes (obj : AgentDataVolume) : list string :=
  match dv_AccessModes (adv_Spec obj) with [] => ["ReadWriteOnce"] | modes => modes end.

Definition agentDataVolumeSize (obj : AgentDataVolume) : Quantity :=
  if q_Nano (dv_Size (adv_Spec obj)) =? 0 then gibibytes 10 "10Gi" else dv_Size (adv_Spec obj).

(** The counting loops of agentDataVolumeAccessModesEqual. *)
Definition countModes (modes : list string) : gmap string Z :=
  fold_left (λ (counts : gmap string Z) mode, <[mode := default 0 (counts !! mode) + 1]> counts) modes ∅.
Fixpoint discount (counts : gmap string Z) (modes : list string) : option (gmap string Z) :=
  match modes with
  | [] => Some counts
  | mode :: modes =>
      let n := default 0 (counts !! mode) - 1 in
      if n <? 0 then None else discount (<[mode := n]> counts) modes
  end.
Definition agentDataVolumeAccessModesEqual (a b : list string) : bool :=
  if negb (length a =? length b)%nat then false else
  match discount (countModes a) b with
  | None => false
  | Some counts => bool_decide (map_Forall (λ _ count, count = 0) counts)
  end.

Definition agentDataVolumeLabels (obj : AgentDataVolume) : gmap string string :=
  let spec := adv_Spec obj in
  setWhen (negb (blank (dv_ProfileVolumeName spec))) "control.anvil.hazyforge.io/volume-profile-entry"
    (sanitizeLabelValue (TrimSpace (dv_ProfileVolumeName spec)))
  (let profile := match dv_ProfileRef spec with Some r => lor_Name r | None => "" end in
   setWhen (negb (blank profile)) "control.anvil.hazyforge.io/volume-profile"
     (sanitizeLabelValue (TrimSpace profile))
  (setWhen (negb (blank (dv_AgentName spec))) "control.anvil.hazyforge.io/agent-data-agent"
     (sanitizeLabelValue (TrimSpace (dv_AgentName spec)))
  (setWhen (negb (blank (dv_Backend spec))) "control.anvil.hazyforge.io/agent-data-backend"
     (sanitizeLabelValue (TrimSpace (dv_Backend spec)))
  {[ "control.anvil.hazyforge.io/agent-data-volume" := sanitizeLabelValue (adv_Name obj) ]}))).

(** ** The client of the volume controllers *)

Class VolumeClient (W : Type) := {
  getDataVolume : string → string → W → GoErr + AgentDataVolume;
  patchDataVolumeStatus : key → AgentDataVolumeStatus → M W GoErr unit;
  getVolumeProfile : string → string → W → GoErr + VolumeProfile;
  getClaim : string → string → W → GoErr + PersistentVolumeClaim;
  createClaim : PersistentVolumeClaim → M W GoErr unit;
  patchClaimRequest : key → Quantity → M W GoErr unit;
  getStorageClass : string → W → GoErr + StorageClass;
  listAuthSessions : string → W → GoErr + list AgentAuthSession;
  listVolumeCopies : string → W → GoErr + list AgentDataVolumeCopy }.

(** ** Profiles *)

Definition resolveVolumeProfileVolume (profile : VolumeProfile) (selectedName : string) :
    (string * (string * string)) + (VolumeProfileVolumeSpec * string) :=
  let where_ := meta_Namespace (vp_ObjectMeta profile) +:+ "/" +:+ meta_Name (vp_ObjectMeta profile) in
  let name := TrimSpace selectedName in
  if bool_decide (name = "") then
    match vps_Volumes (vp_Spec profile) with
    | [volume] => inr (volume, TrimSpace (vpv_Name volume))
    | volumes => inl ("", ("ProfileVolumeRequired", "VolumeProfile " +:+ where_ +:+ " has " +:+ fmtNat (length volumes) +:+ " volume entries; spec.profileVolumeName must select one."))
    end
  else match find (λ v, bool_decide (TrimSpace (vpv_Name v) = name)) (vps_Volumes (vp_Spec profile)) with
       | Some volume => inr (volume, name)
       | None => inl (name, ("ProfileVolumeNotFound", "VolumeProfile " +:+ where_ +:+ " does not contain volume entry " +:+ quote name +:+ "."))
       end.

Definition applyVolumeProfileDefaults (obj : AgentDataVolume) (p : VolumeProfileVolumeSpec) : AgentDataVolume :=
  let spec := adv_Spec obj in
  obj <| adv_Spec := spec
    <| dv_StorageClassName := if blank (dv_StorageClassName spec) then TrimSpace (vpv_StorageClassName p)
                              else dv_StorageClassName spec |>
    <| dv_Size := if (q_Nano (dv_Size spec) =? 0) && negb (q_Nano (vpv_SizeRequest p) =? 0)
                  then vpv_SizeRequest p else dv_Size spec |>
    <| dv_AccessModes := match dv_AccessModes spec with [] => vpv_AccessModes p | modes => modes end |>
    <| dv_MountPath := if blank (dv_MountPath spec) then TrimSpace (vpv_MountPath p) else dv_MountPath spec |>
    <| dv_SubPath := if blank (dv_SubPath spec) then TrimSpace (vpv_SubPath p) else dv_SubPath spec |>
    <| dv_NodeSelector := mergeStringMap (vpv_NodeSelector p) (dv_NodeSelector spec) |>
    <| dv_ExtraEnv := mergeAgentDataVolumePathEnv (vpv_ExtraEnv p) (dv_ExtraEnv spec) |>
    <| dv_ExternalSync := match dv_ExternalSync spec with None => vpv_ExternalSync p | s => s end |> |>.

(** The result of resolving a profile: the effective volume, the reference and the
    entry it came from, and why it is blocked. *)
Record ProfileResolution := mkProfileResolution {
  pr_Effective : AgentDataVolume;
  pr_Ref : option NamespacedObjectReference;
  pr_Volume : string;
  pr_Block : option (string * string) }.

Definition applicationName (ref : option ApplicationReferenceSpec) : string :=
  match ref with Some a => TrimSpace (app_Name a) | None => "" end.

Section operations.
Context {W : Type} `{VolumeClient W, Conditions} (DefaultStorageClass : string).
Local Open Scope go_scope.

Definition resolveAgentDataVolumeProfile (obj : AgentDataVolume) (w : W) : GoErr + ProfileResolution :=
  match dv_ProfileRef (adv_Spec obj) with
  | None => inr (mkProfileResolution obj None "" None)
  | Some ref =>
      let profileName := TrimSpace (lor_Name ref) in
      if bool_decide (profileName = "")
      then inr (mkProfileResolution obj None "" (Some ("InvalidProfileRef", "spec.profileRef.name must be set when profileRef is declared.")))
      else
        let profileRef := Some (mkNamespacedObjectReference profileName (adv_Namespace obj)) in
        let where_ := adv_Namespace obj +:+ "/" +:+ profileName in
        match getVolumeProfile (adv_Namespace obj) profileName w with
        | inl e => if IsNotFound e
                   then inr (mkProfileResolution obj profileRef "" (Some ("ProfileNotFound", "VolumeProfile " +:+ where_ +:+ " was not found.")))
                   else inl e
        | inr profile =>
            let profileApplication := applicationName (vps_ApplicationRef (vp_Spec profile)) in
            let volumeApplication := applicationName (dv_ApplicationRef (adv_Spec obj)) in
            if negb (bool_decide (profileApplication = "")) && negb (bool_decide (volumeApplication = ""))
               && negb (bool_decide (profileApplication = volumeApplication))
            then inr (mkProfileResolution obj profileRef "" (Some ("ProfileApplicationMismatch", "VolumeProfile " +:+ where_ +:+ " is scoped to Application " +:+ quote profileApplication +:+ ", but AgentDataVolume " +:+ adv_Namespace obj +:+ "/" +:+ adv_Name obj +:+ " is scoped to " +:+ quote volumeApplication +:+ ".")))
            else match resolveVolumeProfileVolume profile (dv_ProfileVolumeName (adv_Spec obj)) with
                 | inl (volumeName, block) => inr (mkProfileResolution obj profileRef volumeName (Some block))
                 | inr (volume, volumeName) =>
                     inr (mkProfileResolution (applyVolumeProfileDefaults obj volume) profileRef volumeName None)
                 end
        end
  end.

Definition externalVolumeSyncStatus (spec : option ExternalVolumeSyncSpec)
    (existing : option ExternalVolumeSyncStatus) (now : Time) : option ExternalVolumeSyncStatus :=
  match spec with
  | None => None
  | Some spec =>
      let base := match existing with
                  | Some e => e <| evt_Phase := "" |> <| evt_Message := "" |>
                                <| evt_Provider := evs_Provider spec |> <| evt_Direction := evs_Direction spec |>
                  | None => mkExternalVolumeSyncStatus "" (evs_Provider spec) (evs_Direction spec) None None "" "" []
                  end in
      let finish phase message status reason :=
        Some (base <| evt_Phase := phase |> <| evt_Message := message |>
          <| evt_Conditions := SetStatusCondition (evt_Conditions base)
               (mkCondition "Ready" status 0 now reason message) |>) in
      if evs_Disabled spec
      then finish "Disabled" "external volume sync is disabled for this volume." ConditionTrue "Disabled"
      else finish "StubOnly" "external volume sync is declared but sync execution is not implemented yet." ConditionFalse "StubOnly"
  end.

Definition agentDataVolumeStorageClassName (obj : AgentDataVolume) : string :=
  if negb (blank (dv_StorageClassName (adv_Spec obj))) then TrimSpace (dv_StorageClassName (adv_Spec obj))
  else TrimSpace DefaultStorageClass.

(** A claim and whether this call created it. *)
Definition ensureAgentDataVolumePVC (owner effective : AgentDataVolume) :
    M W GoErr (PersistentVolumeClaim * bool) :=
  let name := agentDataVolumeClaimName effective in
  let* existing := mtry (mread (getClaim (adv_Namespace owner) name)) in
  match existing with
  | inr pvc => mret (pvc, false)
  | inl e =>
      if negb (IsNotFound e) then mfail e else
      let storageClassName := agentDataVolumeStorageClassName effective in
      let pvc := mkPersistentVolumeClaim
        (zero_ObjectMeta <| meta_Name := name |> <| meta_Namespace := adv_Namespace owner |>
           <| meta_Labels := agentDataVolumeLabels effective |>
           <| meta_OwnerReferences := [mkOwnerReference GroupVersion "AgentDataVolume" (adv_Name owner)
                                         (adv_UID owner) (Some true)] |>)
        (agentDataVolumeAccessModes effective)
        (if bool_decide (storageClassName = "") then None else Some storageClassName)
        (Some (agentDataVolumeSize effective)) "" false "" None in
      let* created := mtry (createClaim pvc) in
      match created with
      | inl e => if negb (IsAlreadyExists e) then mfail e
                 else let* pvc := mread (getClaim (adv_Namespace owner) name) in mret (pvc, false)
      | inr _ => let* pvc := mread (getClaim (adv_Namespace owner) name) in mret (pvc, true)
      end
  end.

(** Whether an expansion is pending, or why the claim does not fit. *)
Definition reconcileAgentDataVolumePVC (obj : AgentDataVolume) (pvc : PersistentVolumeClaim) :
    M W GoErr (bool * option (string * string)) :=
  let where_ := pvc_Namespace pvc +:+ "/" +:+ pvc_Name pvc in
  let drift reason message := mret (false, Some (reason, message)) in
  let desiredStorageClass := agentDataVolumeStorageClassName obj in
  let actualStorageClass := match pvc_StorageClassName pvc with Some s => TrimSpace s | None => "" end in
  if negb (bool_decide (desiredStorageClass = "")) && negb (bool_decide (actualStorageClass = desiredStorageClass))
  then drift "ImmutableStorageClassDrift" ("spec.storageClassName resolves to " +:+ quote desiredStorageClass +:+ ", but PersistentVolumeClaim " +:+ where_ +:+ " uses immutable storageClassName " +:+ quote actualStorageClass +:+ ".")
  else if negb (agentDataVolumeAccessModesEqual (agentDataVolumeAccessModes obj) (pvc_AccessModes pvc))
  then drift "ImmutableAccessModesDrift" ("spec.accessModes [" +:+ Join (agentDataVolumeAccessModes obj) " " +:+ "] do not match immutable PersistentVolumeClaim " +:+ where_ +:+ " accessModes [" +:+ Join (pvc_AccessModes pvc) " " +:+ "].")
  else if pvc_Provenance pvc
  then drift "UnsupportedClaimProvenance" ("PersistentVolumeClaim " +:+ where_ +:+ " contains selector, data source, or volume mode fields not created by AgentDataVolume.")
  else if q_Nano (dv_Size (adv_Spec obj)) =? 0 then mret (false, None) else
  let desired := dv_Size (adv_Spec obj) in
  let current := default zero_Quantity (pvc_Request pvc) in
  if q_Nano desired <? q_Nano current
  then drift "SizeReductionNotAllowed" ("spec.size " +:+ q_Text desired +:+ " is smaller than the existing PersistentVolumeClaim request " +:+ q_Text current +:+ "; AgentDataVolume size may only increase.")
  else
    (if q_Nano current <? q_Nano desired
     then let* r := mtry (patchClaimRequest (pvc_Namespace pvc, pvc_Name pvc) desired) in
          match r with
          | inl e => mfail (ErrWrap ("expand PersistentVolumeClaim " +:+ where_ +:+ " to " +:+ q_Text desired) e)
          | inr _ => mret tt
          end
     else mret tt) ;;
    mret (q_Nano (default zero_Quantity (pvc_Capacity pvc)) <? q_Nano desired, None).

Definition patchAgentDataVolumeStatus (obj : AgentDataVolume) (status : AgentDataVolumeStatus) :
    M W GoErr Result :=
  let* r := mtry (patchDataVolumeStatus (adv_Namespace obj, adv_Name obj) status) in
  match r with
  | inl e => if IsConflict e then mret requeueNow else mfail e
  | inr _ => mret Done
  end.

Definition readyCondition (obj : AgentDataVolume) (now : Time) (st reason message : string)
    (status : AgentDataVolumeStatus) : AgentDataVolumeStatus :=
  status <| dvt_Conditions := SetStatusCondition (dvt_Conditions status)
    (mkCondition "Ready" st (meta_Generation (adv_ObjectMeta obj)) now reason message) |>.

(** The volume is blocked: phase, error and condition. *)
Definition volumeBlockedStatus (obj : AgentDataVolume) (now : Time) (reason message : string)
    (status : AgentDataVolumeStatus) : AgentDataVolumeStatus :=
  readyCondition obj now ConditionFalse reason message
    (status <| dvt_Phase := AgentDataVolumePhaseBlocked |> <| dvt_LastError := message |>).

Definition claimOwnedBy (obj : AgentDataVolume) (pvc : PersistentVolumeClaim) : bool :=
  match GetControllerOf (pvc_ObjectMeta pvc) with
  | None => false
  | Some owner => bool_decide (own_UID owner = adv_UID obj) && bool_decide (own_Name owner = adv_Name obj)
                  && bool_decide (own_APIVersion owner = GroupVersion)
                  && bool_decide (own_Kind owner = "AgentDataVolume")
  end.

(** The final switch over the phase of the claim. *)
Definition claimPhaseStatus (obj effective : AgentDataVolume) (pvc : PersistentVolumeClaim) (now : Time)
    (expansionPending : bool) (status : AgentDataVolumeStatus) : AgentDataVolumeStatus :=
  let where_ := pvc_Namespace pvc +:+ "/" +:+ pvc_Name pvc in
  if bool_decide (pvc_Phase pvc = "Lost")
  then volumeBlockedStatus obj now "ClaimLost" ("PersistentVolumeClaim " +:+ where_ +:+ " is Lost.") status
  else if bool_decide (pvc_Phase pvc = "Bound") then
    if expansionPending
    then readyCondition obj now ConditionFalse "ExpansionPending" ("PersistentVolumeClaim " +:+ where_ +:+ " is expanding to " +:+ q_Text (agentDataVolumeSize effective) +:+ ".")
           (status <| dvt_Phase := AgentDataVolumePhasePending |>)
    else readyCondition obj now ConditionTrue "ClaimBound" ("PersistentVolumeClaim " +:+ where_ +:+ " is bound to " +:+ pvc_VolumeName pvc +:+ ".")
           (status <| dvt_Phase := AgentDataVolumePhaseReady |>)
  else readyCondition obj now ConditionFalse "ClaimPending" ("PersistentVolumeClaim " +:+ where_ +:+ " is " +:+ firstNonEmpty [pvc_Phase pvc; "Pending"] +:+ " and is not bound yet.")
         (status <| dvt_Phase := AgentDataVolumePhasePending |>).

(** From the claim on. *)
Definition reconcileClaim (obj effective : AgentDataVolume) (now : Time)
    (status : AgentDataVolumeStatus) : M W GoErr Result :=
  let* ensured := ensureAgentDataVolumePVC obj effective in
  let '(pvc, created) := ensured in
  let where_ := pvc_Namespace pvc +:+ "/" +:+ pvc_Name pvc in
  let blocked reason message := patchAgentDataVolumeStatus obj (volumeBlockedStatus obj now reason message status) in
  if negb (claimOwnedBy obj pvc)
  then blocked "ForeignClaimCollision" ("PersistentVolumeClaim " +:+ where_ +:+ " is not controller-owned by this AgentDataVolume; automatic claim adoption is forbidden.")
  else if negb (bool_decide (dvt_ClaimUID status = "")) && negb (bool_decide (dvt_ClaimUID status = pvc_UID pvc))
  then blocked "ClaimIdentityChanged" ("PersistentVolumeClaim " +:+ where_ +:+ " UID changed from " +:+ dvt_ClaimUID status +:+ " to " +:+ pvc_UID pvc +:+ "; refusing replacement claim.")
  else if bool_decide (dvt_ClaimUID status = "") && negb created && negb (blank (pvc_VolumeName pvc))
  then blocked "UnverifiedBoundClaim" ("PersistentVolumeClaim " +:+ where_ +:+ " is already bound before this AgentDataVolume recorded its UID; refusing unsafe crash-gap adoption.")
  else
    let* fit := reconcileAgentDataVolumePVC effective pvc in
    let '(expansionPending, drift) := fit in
    let status := status
      <| dvt_ClaimRef := Some (mkNamespacedObjectReference (pvc_Name pvc) (pvc_Namespace pvc)) |>
      <| dvt_ClaimUID := pvc_UID pvc |>
      <| dvt_StorageClassName := match pvc_StorageClassName pvc with Some s => TrimSpace s | None => "" end |>
      <| dvt_VolumeName := pvc_VolumeName pvc |>
      <| dvt_Capacity := match pvc_Capacity pvc with Some c => q_Text c | None => "" end |>
      <| dvt_LastError := "" |> in
    match drift with
    | Some (reason, message) =>
        patchAgentDataVolumeStatus obj (volumeBlockedStatus obj now reason message status)
    | None => patchAgentDataVolumeStatus obj (claimPhaseStatus obj effective pvc now expansionPending status)
    end.

Definition reconcileDataVolume (namespace name : string) (now : Time) : M W GoErr Result :=
  let* got := mtry (mread (getDataVolume namespace name)) in
  match got with
  | inl e => if IsNotFound e then mret Done else mfail e
  | inr obj =>
      if (match meta_DeletionTimestamp (adv_ObjectMeta obj) with Some _ => true | None => false end)
      then mret Done else
      let* resolved := mread (resolveAgentDataVolumeProfile obj) in
      let effective := pr_Effective resolved in
      let mountPath := agentDataVolumeMountPath effective in
      let status := (adv_Status obj)
        <| dvt_ObservedGeneration := meta_Generation (adv_ObjectMeta obj) |>
        <| dvt_ProfileRef := pr_Ref resolved |>
        <| dvt_ProfileVolumeName := pr_Volume resolved |>
        <| dvt_MountPath := mountPath |>
        <| dvt_SubPath := TrimSpace (dv_SubPath (adv_Spec effective)) |>
        <| dvt_NodeSelector := dv_NodeSelector (adv_Spec effective) |>
        <| dvt_ExtraEnv := [] |>
        <| dvt_ExternalSync := externalVolumeSyncStatus (dv_ExternalSync (adv_Spec effective))
                                 (dvt_ExternalSync (adv_Status obj)) now |> in
      let blocked reason message status :=
        patchAgentDataVolumeStatus obj (volumeBlockedStatus obj now reason message status) in
      match pr_Block resolved with
      | Some (reason, message) => blocked reason message status
      | None =>
      match validateAgentDataVolumePathEnv (dv_ExtraEnv (adv_Spec effective)) mountPath with
      | Some message => blocked "InvalidPathEnvironment" message status
      | None =>
          let status := status <| dvt_ExtraEnv := dv_ExtraEnv (adv_Spec effective) |> in
          if q_Nano (dv_Size (adv_Spec effective)) <? 0
          then blocked "InvalidSize" "spec.size cannot be negative." status
          else
            let desiredClaimName := agentDataVolumeClaimName effective in
            let recorded := match dvt_ClaimRef status with Some r => TrimSpace (ref_Name r) | None => "" end in
            if negb (bool_decide (recorded = "")) && negb (bool_decide (recorded = desiredClaimName))
            then blocked "ImmutableClaimDrift" ("spec.claimName resolves to " +:+ quote desiredClaimName +:+ ", but this AgentDataVolume already resolved immutable claim " +:+ quote recorded +:+ ".") status
            else reconcileClaim obj effective now status
      end end
  end.
End operations.
