(* ===== verification/VolumeSafety.v ===== *)
(** * Data volumes: what a reconciliation may do to claims

    The documented behaviour of the volume client, a server in memory that has it,
    and the guarantees of the data volume controller: access modes are compared as
    multisets; no claim is adopted, replaced or shrunk. *)

From stdpp Require Import base list gmap strings.
From Stdlib Require Import ZArith Lia.
From S2P Require Import Prelude GoStrings GoTime Names ApiRun ApiWork Kube MemKube Fixtures RunJob ApiVolume DataVolumes.

Open Scope Z_scope.

(** ** Access modes are a multiset *)

Definition occurrences (x : string) (l : list string) : Z :=
  Z.of_nat (length (filter (λ y, y = x) l)).
Definition tally (counts : gmap string Z) (x : string) : Z := default 0 (counts !! x).

Lemma occurrences_cons x y l :
  occurrences x (y :: l) = (if decide (y = x) then 1 else 0) + occurrences x l.
Proof. unfold occurrences. rewrite filter_cons. destruct (decide (y = x)); cbn [length]; lia. Qed.
Lemma occurrences_nonneg x l : 0 ≤ occurrences x l.
Proof. unfold occurrences. lia. Qed.
Hint Rewrite occurrences_cons : anvil_rw.
#[local] Hint Resolve occurrences_nonneg : anvil.

Lemma tally_insert counts y v x :
  tally (<[y := v]> counts) x = if decide (y = x) then v else tally counts x.
Proof.
  unfold tally. destruct (decide (y = x)) as [->|]; by rewrite ?lookup_insert_eq, ?lookup_insert_ne.
Qed.

Lemma countModes_tally modes x : tally (countModes modes) x = occurrences x modes.
Proof.
  unfold countModes.
  enough (∀ counts : gmap string Z, tally (fold_left (λ (counts : gmap string Z) mode,
      <[mode := default 0 (counts !! mode) + 1]> counts) modes counts) x
    = tally counts x + occurrences x modes) as -> by done.
  induction modes as [|m modes IH]; intros counts; simpl; [unfold occurrences; simpl; lia|].
  rewrite IH, tally_insert, occurrences_cons. fold (tally counts m).
  destruct (decide (m = x)) as [->|]; lia.
Qed.

Lemma discount_spec counts modes :
  match discount counts modes with
  | Some out => ∀ x, tally out x = tally counts x - occurrences x modes
  | None => ∃ x, tally counts x < occurrences x modes
  end.
Proof.
  revert counts. induction modes as [|m modes IH]; intros counts; simpl.
  { intros x. unfold occurrences; simpl; lia. }
  fold (tally counts m). destruct (Z.ltb_spec (tally counts m - 1) 0) as [Hn|Hn].
  - exists m. rewrite occurrences_cons, decide_True by done.
    pose proof (occurrences_nonneg m modes). lia.
  - specialize (IH (<[m := tally counts m - 1]> counts)).
    destruct (discount _ _) as [out|].
    + intros x. rewrite IH, tally_insert, occurrences_cons. destruct (decide (m = x)) as [->|]; lia.
    + destruct IH as [x Hx]. exists x. rewrite tally_insert in Hx. rewrite occurrences_cons.
      destruct (decide (m = x)) as [->|]; lia.
Qed.

Lemma occurrences_absent x l : x ∉ l → occurrences x l = 0.
Proof.
  induction l as [|y l IH]; [done|]. intros [Hy Hl]%not_elem_of_cons.
  rewrite occurrences_cons, decide_False by done. rewrite IH by done. done.
Qed.

Lemma occurrences_same_length l k :
  length l = length k → (∀ x, occurrences x k ≤ occurrences x l) → l ≡ₚ k.
Proof.
  intros Hlen Hle. symmetry. apply submseteq_length_Permutation; [|lia].
  clear Hlen. revert k Hle. induction l as [|a l IH]; intros k Hle.
  - destruct k as [|b k]; [done|]. specialize (Hle b). rewrite occurrences_cons, decide_True in Hle by done.
    pose proof (occurrences_nonneg b k). unfold occurrences in Hle at 2. simpl in Hle. lia.
  - destruct (decide (a ∈ k)) as [(k1 & k2 & ->)%list_elem_of_split|Hn].
    + rewrite <- Permutation_middle. apply submseteq_skip, IH. intros x. specialize (Hle x).
      assert (occurrences x (k1 ++ a :: k2) = occurrences x (a :: k1 ++ k2)) as Hm
        by (unfold occurrences; by rewrite Permutation_middle).
      rewrite Hm, !occurrences_cons in Hle. lia.
    + apply submseteq_cons, IH. intros x. specialize (Hle x). rewrite occurrences_cons in Hle.
      destruct (decide (a = x)) as [->|]; [|lia]. rewrite occurrences_absent by done. auto with anvil.
Qed.

(** The comparison of access modes, by counting up over one list and down over
    the other, accepts exactly the reorderings of the list. *)
Theorem access_modes_multiset a b : agentDataVolumeAccessModesEqual a b = true ↔ a ≡ₚ b.
Proof.
  unfold agentDataVolumeAccessModesEqual.
  destruct (Nat.eqb_spec (length a) (length b)) as [Hlen|Hlen]; simpl.
  2:{ split; [done|]. intros Hp%Permutation_length. lia. }
  pose proof (discount_spec (countModes a) b) as Hd.
  destruct (discount _ _) as [out|].
  - rewrite bool_decide_eq_true. split.
    + intros Hz. apply occurrences_same_length; [done|]. intros x. specialize (Hd x).
      rewrite countModes_tally in Hd. enough (tally out x = 0) by lia.
      unfold tally. destruct (out !! x) as [v|] eqn:E; [|done]. by apply (Hz x v E).
    + intros Hp x v Hv. specialize (Hd x). rewrite countModes_tally in Hd.
      unfold tally in Hd. rewrite Hv in Hd. simpl in Hd.
      assert (occurrences x a = occurrences x b) by (unfold occurrences; by rewrite Hp). lia.
  - split; [done|]. intros Hp. destruct Hd as [x Hx]. rewrite countModes_tally in Hx.
    assert (occurrences x a = occurrences x b) by (unfold occurrences; by rewrite Hp). lia.
Qed.

(** ** Documented behaviour of the client *)

Definition volume_key (v : AgentDataVolume) : key := (adv_Namespace v, adv_Name v).
Definition claim_key (c : PersistentVolumeClaim) : key := (pvc_Namespace c, pvc_Name c).
Definition requested (c : PersistentVolumeClaim) : Z := q_Nano (default zero_Quantity (pvc_Request c)).

(** Writes keep the identity of a claim. *)
Definition sameClaim (c c' : PersistentVolumeClaim) : Prop :=
  claim_key c' = claim_key c ∧ pvc_UID c' = pvc_UID c
  ∧ meta_OwnerReferences (pvc_ObjectMeta c') = meta_OwnerReferences (pvc_ObjectMeta c).

Class VolumeLaws (W : Type) `{VolumeClient W} := {
  claims : W → gmap key PersistentVolumeClaim;
  volumes : W → gmap key AgentDataVolume;
  claims_key w k c : claims w !! k = Some c → claim_key c = k;
  getDataVolume_ok w ns n v :
    getDataVolume ns n w = inr v → volumes w !! (ns, n) = Some v ∧ volume_key v = (ns, n);
  getClaim_ok w ns n c : getClaim ns n w = inr c → claims w !! (ns, n) = Some c;
  getClaim_notfound w ns n e :
    getClaim ns n w = inl e → IsNotFound e = true → claims w !! (ns, n) = None;
  (** a create stores the claim under a name that was free, or changes nothing *)
  createClaim_any w w' c x :
    createClaim c w = (w', x) →
    volumes w' = volumes w
    ∧ (claims w' = claims w
       ∨ claims w !! claim_key c = None
         ∧ ∃ c', claim_key c' = claim_key c
            ∧ meta_OwnerReferences (pvc_ObjectMeta c') = meta_OwnerReferences (pvc_ObjectMeta c)
            ∧ claims w' = <[claim_key c := c']> (claims w));
  (** a patch of the request, applied or not, changes no more than that of a claim *)
  patchClaimRequest_any w w' k q x :
    patchClaimRequest k q w = (w', x) →
    volumes w' = volumes w
    ∧ (claims w' = claims w
       ∨ ∃ c c', claims w !! k = Some c ∧ sameClaim c c' ∧ pvc_Request c' = Some q
           ∧ claims w' = <[k := c']> (claims w));
  patchDataVolumeStatus_any w w' k s x :
    patchDataVolumeStatus k s w = (w', x) →
    claims w' = claims w
    ∧ (volumes w' = volumes w
       ∨ ∃ v v', volumes w !! k = Some v ∧ adv_Status v' = s
           ∧ volumes w' = <[k := v']> (volumes w));
}.

(** ** Claims are created, kept and grown *)

(** What a reconciliation of [obj] may do to the claims. *)
Record claimsGuarded (obj : AgentDataVolume) (before after : gmap key PersistentVolumeClaim) : Prop := {
  (** a claim that exists stays; only one this volume owns and has recorded, or has
      not recorded any yet, changes, and then its request grows *)
  cg_kept k c : before !! k = Some c → ∃ c', after !! k = Some c'
    ∧ (c' = c ∨ sameClaim c c' ∧ requested c < requested c'
         ∧ claimOwnedBy obj c = true ∧ dvt_ClaimUID (adv_Status obj) ∈ [""; pvc_UID c]);
  (** a new claim is owned by this volume *)
  cg_new k c : before !! k = None → after !! k = Some c → claimOwnedBy obj c = true }.

(** The claim whose identity a status records: owned by the volume, and created in
    this reconciliation or not bound to a volume. *)
Definition recordable (obj : AgentDataVolume) (before after : gmap key PersistentVolumeClaim)
    (uid : string) : Prop :=
  ∃ k c, after !! k = Some c ∧ pvc_UID c = uid ∧ claimOwnedBy obj c = true
    ∧ (before !! k = None ∨ ∃ c0, before !! k = Some c0 ∧ blank (pvc_VolumeName c0) = true).

Lemma owned_same obj c c' :
  meta_OwnerReferences (pvc_ObjectMeta c') = meta_OwnerReferences (pvc_ObjectMeta c) →
  claimOwnedBy obj c' = claimOwnedBy obj c.
Proof. unfold claimOwnedBy, GetControllerOf. by intros ->. Qed.

Lemma guarded_refl obj m : claimsGuarded obj m m.
Proof. split; [intros k c Hc; exists c; auto|intros k c H1 H2; by rewrite H1 in H2]. Qed.
#[local] Hint Resolve guarded_refl : anvil.

Lemma guarded_insert_new obj m k c :
  m !! k = None → claimOwnedBy obj c = true → claimsGuarded obj m (<[k := c]> m).
Proof.
  intros Hk Ho. split.
  - intros k' c' Hc'. exists c'. rewrite lookup_insert_ne by congruence. auto.
  - intros k' c' H1 H2. destruct (decide (k' = k)) as [->|].
    + rewrite lookup_insert_eq in H2. congruence.
    + rewrite lookup_insert_ne in H2 by done. congruence.
Qed.

Lemma guarded_grow obj m0 m k c c' :
  claimsGuarded obj m0 m → m !! k = Some c → (m0 !! k = None ∨ m0 !! k = Some c) →
  sameClaim c c' → requested c < requested c' → claimOwnedBy obj c = true →
  dvt_ClaimUID (adv_Status obj) ∈ [""; pvc_UID c] → claimsGuarded obj m0 (<[k := c']> m).
Proof.
  intros [Hkept Hnew] Hc H0 Hs Hr Ho Hu. split.
  - intros k1 c1 Hc1. destruct (decide (k1 = k)) as [->|].
    + destruct H0 as [H0|H0]; [congruence|]. rewrite H0 in Hc1. injection Hc1 as <-.
      exists c'. rewrite lookup_insert_eq. auto 10.
    + rewrite lookup_insert_ne by done. auto.
  - intros k1 c1 H1 H2. destruct (decide (k1 = k)) as [->|].
    + rewrite lookup_insert_eq in H2. injection H2 as <-.
      by rewrite (owned_same obj c) by apply Hs.
    + rewrite lookup_insert_ne in H2 by done. by eapply Hnew.
Qed.

Section safety.
Context {W : Type} `{HV : VolumeClient W} `{HL : !VolumeLaws W} `{HK : Conditions}.
Context (storageClass : string).

Lemma wp_ensure obj effective w :
  adv_Namespace effective = adv_Namespace obj →
  wp (ensureAgentDataVolumePVC storageClass obj effective)
    (λ x w', volumes w' = volumes w ∧ claimsGuarded obj (claims w) (claims w')
       ∧ ∀ pvc created, x = inr (pvc, created) →
           claims w' !! claim_key pvc = Some pvc
           ∧ (claims w !! claim_key pvc = None
              ∨ created = false ∧ claims w !! claim_key pvc = Some pvc)) w.
Proof.
  intros Hns. unfold ensureAgentDataVolumePVC. apply wp_bind, wp_try, wp_read.
  destruct (getClaim _ _ w) as [e|pvc] eqn:Eg.
  2:{ apply wp_ret. split_and!; [done|auto with anvil|]. intros ? ? [= <- <-].
      pose proof (getClaim_ok _ _ _ _ Eg) as Hc. rewrite (claims_key _ _ _ Hc); auto. }
  destruct (IsNotFound e) eqn:En; cbn [negb]; [|apply wp_fail; split_and!; auto with anvil; done].
  pose proof (getClaim_notfound _ _ _ _ Eg En) as Hnone.
  apply wp_bind, wp_try. unfold wp at 1.
  destruct (createClaim _ w) as [w1 y] eqn:Ec; cbn [fst snd].
  apply createClaim_any in Ec as [Hv Hc].
  assert (claimsGuarded obj (claims w) (claims w1)) as Hg.
  { destruct Hc as [->|(_ & c' & _ & Ho & ->)]; [auto with anvil|].
    apply guarded_insert_new; [done|]. rewrite (owned_same obj _ _ Ho).
    unfold claimOwnedBy, GetControllerOf. simpl. by rewrite !bool_decide_eq_true_2 by done. }
  assert (∀ pvc, getClaim (adv_Namespace obj) (agentDataVolumeClaimName effective) w1 = inr pvc →
    claims w1 !! claim_key pvc = Some pvc ∧ claims w !! claim_key pvc = None) as Hget.
  { intros pvc Hp%getClaim_ok. by rewrite (claims_key _ _ _ Hp). }
  assert (∀ b, wp (mbnd (mread (getClaim (adv_Namespace obj) (agentDataVolumeClaimName effective)))
             (λ pvc, mret (pvc, b)))
    (λ x w', volumes w' = volumes w ∧ claimsGuarded obj (claims w) (claims w')
       ∧ ∀ pvc created, x = inr (pvc, created) →
           claims w' !! claim_key pvc = Some pvc
           ∧ (claims w !! claim_key pvc = None
              ∨ created = false ∧ claims w !! claim_key pvc = Some pvc)) w1) as Hread.
  { intros b. apply wp_bind, wp_read. destruct (getClaim _ _ w1) as [e1|pvc] eqn:E1; [by split_and!|].
    apply wp_ret. split_and!; [done..|]. intros ? ? [= <- <-]. destruct (Hget _ eq_refl); auto. }
  destruct y as [e1|[]]; [destruct (IsAlreadyExists e1)|]; cbn [negb];
    [apply Hread| |apply Hread]. apply wp_fail. by split_and!.
Qed.

Lemma wp_fit obj eff pvc m0 w :
  claimsGuarded obj m0 (claims w) → claims w !! claim_key pvc = Some pvc →
  (m0 !! claim_key pvc = None ∨ m0 !! claim_key pvc = Some pvc) →
  claimOwnedBy obj pvc = true → dvt_ClaimUID (adv_Status obj) ∈ [""; pvc_UID pvc] →
  wp (reconcileAgentDataVolumePVC storageClass eff pvc)
    (λ _ w', volumes w' = volumes w ∧ claimsGuarded obj m0 (claims w')
       ∧ ∃ c', claims w' !! claim_key pvc = Some c' ∧ sameClaim pvc c') w.
Proof.
  intros Hg Hc H0 Ho Hu.
  assert (volumes w = volumes w ∧ claimsGuarded obj m0 (claims w)
    ∧ ∃ c', claims w !! claim_key pvc = Some c' ∧ sameClaim pvc c') as Hid.
  { split_and!; [done..|]. by exists pvc. }
  unfold reconcileAgentDataVolumePVC. do 5 (wp_case; [by apply wp_ret|]).
  apply wp_bind. destruct (Z.ltb_spec (q_Nano (default zero_Quantity (pvc_Request pvc)))
    (q_Nano (dv_Size (adv_Spec eff)))) as [Hlt|]; [|by apply wp_ret, wp_ret].
  apply wp_bind, wp_try. unfold wp at 1.
  destruct (patchClaimRequest _ _ w) as [w1 y] eqn:Ep; cbn [fst snd].
  apply patchClaimRequest_any in Ep as [Hv Hw].
  assert (volumes w1 = volumes w ∧ claimsGuarded obj m0 (claims w1)
    ∧ ∃ c', claims w1 !! claim_key pvc = Some c' ∧ sameClaim pvc c') as Hpost.
  { destruct Hw as [->|(c & c' & Hc1 & Hs & Hr & ->)]; [by rewrite Hv|].
    change (pvc_Namespace pvc, pvc_Name pvc) with (claim_key pvc) in *.
    rewrite Hc in Hc1. injection Hc1 as <-. split_and!; [done| |].
    - eapply guarded_grow; [done..| |done|done]. unfold requested at 2. by rewrite Hr.
    - exists c'. by rewrite lookup_insert_eq. }
  destruct y as [e|[]]; [by apply wp_fail|by apply wp_ret, wp_ret].
Qed.

(** What a status patch may record, [uid0] being recorded before. *)
Definition volumesGuarded (obj : AgentDataVolume) (m0 m : gmap key PersistentVolumeClaim)
    (before after : gmap key AgentDataVolume) : Prop :=
  ∀ k v', after !! k = Some v' → before !! k = Some v'
    ∨ k = volume_key obj
      ∧ let old := dvt_ClaimUID (adv_Status obj) in
        let new := dvt_ClaimUID (adv_Status v') in
        new = old ∨ old = "" ∧ recordable obj m0 m new.

Lemma wp_patchVolumeStatus obj s m0 (w0 w : W) :
  volumes w = volumes w0 → claimsGuarded obj m0 (claims w) →
  (dvt_ClaimUID s = dvt_ClaimUID (adv_Status obj)
   ∨ dvt_ClaimUID (adv_Status obj) = "" ∧ recordable obj m0 (claims w) (dvt_ClaimUID s)) →
  wp (patchAgentDataVolumeStatus obj s)
    (λ _ w', claimsGuarded obj m0 (claims w')
       ∧ volumesGuarded obj m0 (claims w') (volumes w0) (volumes w')) w.
Proof.
  intros Hv Hg Hs. unfold patchAgentDataVolumeStatus. apply wp_bind, wp_try. unfold wp at 1.
  destruct (patchDataVolumeStatus _ s w) as [w1 y] eqn:Ep; cbn [fst snd].
  apply patchDataVolumeStatus_any in Ep as [Hc Hw].
  assert (claimsGuarded obj m0 (claims w1)
    ∧ volumesGuarded obj m0 (claims w1) (volumes w0) (volumes w1)) as Hpost.
  { rewrite Hc. split; [done|]. rewrite <- Hv. intros k v' Hk.
    destruct Hw as [Hw|(v & v1 & Hv0 & Hst & Hw)]; rewrite Hw in Hk; [by left|].
    destruct (decide (k = (adv_Namespace obj, adv_Name obj))) as [->|].
    + rewrite lookup_insert_eq in Hk. injection Hk as <-. right. split; [done|].
      rewrite Hst. destruct Hs as [|[]]; auto.
    + rewrite lookup_insert_ne in Hk by done. by left. }
  destruct y as [e|[]]; [destruct (IsConflict e)|]; first [by apply wp_ret|by apply wp_fail].
Qed.

Lemma wp_claim obj effective now status (w : W) :
  adv_Namespace effective = adv_Namespace obj →
  dvt_ClaimUID status = dvt_ClaimUID (adv_Status obj) →
  wp (reconcileClaim storageClass obj effective now status)
    (λ _ w', claimsGuarded obj (claims w) (claims w')
       ∧ volumesGuarded obj (claims w) (claims w') (volumes w) (volumes w')) w.
Proof.
  intros Hns Hst. unfold reconcileClaim. apply wp_bind. eapply wp_mono; [by apply wp_ensure|].
  intros [e|[pvc created]] w1 (Hv1 & Hg1 & Hpvc).
  { split; [done|]. rewrite Hv1. by left. }
  destruct (Hpvc _ _ eq_refl) as [Hc1 H0]. clear Hpvc.
  destruct (claimOwnedBy obj pvc) eqn:Eo; cbn [negb];
    [|apply wp_patchVolumeStatus; [done..|by left]].
  destruct (negb (bool_decide (dvt_ClaimUID status = ""))
            && negb (bool_decide (dvt_ClaimUID status = pvc_UID pvc))) eqn:Eid;
    [apply wp_patchVolumeStatus; [done..|by left]|].
  destruct (_ && negb created && negb _) eqn:Egap; [apply wp_patchVolumeStatus; [done..|by left]|].
  rewrite Hst in Eid, Egap.
  assert (dvt_ClaimUID (adv_Status obj) ∈ [""; pvc_UID pvc]) as Hu.
  { apply andb_false_iff in Eid as [H|H]; bool_props; set_solver. }
  apply wp_bind. eapply wp_mono; [apply (wp_fit obj _ _ (claims w)); [done..| |done|done]|].
  { destruct H0 as [|[]]; auto. }
  intros [e|[pending drift]] w2 (Hv2 & Hg2 & c' & Hc2 & Hs).
  { split; [done|]. rewrite Hv2, Hv1. by left. }
  assert (pvc_UID pvc = dvt_ClaimUID (adv_Status obj)
    ∨ dvt_ClaimUID (adv_Status obj) = "" ∧ recordable obj (claims w) (claims w2) (pvc_UID pvc)) as Hrec.
  { destruct (decide (dvt_ClaimUID (adv_Status obj) = "")) as [Hn|Hn].
    2:{ left. set_solver. }
    right. split; [done|]. exists (claim_key pvc), c'. split_and!; [done|apply Hs| |].
    - by rewrite (owned_same obj pvc) by apply Hs.
    - destruct H0 as [|[-> H0]]; [by left|right]. exists pvc. split; [done|].
      rewrite bool_decide_eq_true_2 in Egap by done. cbn in Egap. by apply negb_false_iff. }
  destruct drift as [[reason message]|]; (apply wp_patchVolumeStatus; [congruence|done|]).
  - exact Hrec.
  - unfold claimPhaseStatus. repeat case_match; exact Hrec.
Qed.

Lemma resolved_namespace obj (w : W) res :
  resolveAgentDataVolumeProfile obj w = inr res →
  adv_Namespace (pr_Effective res) = adv_Namespace obj.
Proof.
  unfold resolveAgentDataVolumeProfile. intros Hr.
  repeat (case_match; simplify_eq; try done).
Qed.

(** C19: a reconciliation of a data volume never adopts, replaces, shrinks or removes
    a claim.  Claims that exist stay, and only a claim that the volume owns (and,
    once it recorded one, the claim with the recorded UID) changes, by a larger
    request; a claim that appears is owned by the volume.  Of the volumes only the
    reconciled one changes: a recorded claim UID stays for ever, and the first one
    is recorded for an owned claim that was created now or was not bound before. *)
Theorem claims_never_adopted ns name now (w w' : W) obj x :
  getDataVolume ns name w = inr obj → reconcileDataVolume storageClass ns name now w = (w', x) →
  claimsGuarded obj (claims w) (claims w')
  ∧ volumesGuarded obj (claims w) (claims w') (volumes w) (volumes w').
Proof.
  intros Hget Hrec.
  refine (wp_elim _ (λ _ w', claimsGuarded obj (claims w) (claims w')
    ∧ volumesGuarded obj (claims w) (claims w') (volumes w) (volumes w')) _ _ _ _ Hrec).
  unfold reconcileDataVolume. apply wp_bind, wp_try, wp_read. rewrite Hget.
  assert (claimsGuarded obj (claims w) (claims w)
    ∧ volumesGuarded obj (claims w) (claims w) (volumes w) (volumes w)) as Hid
    by (split; [auto with anvil|by left]).
  wp_case; [by apply wp_ret|]. apply wp_bind, wp_read.
  destruct (resolveAgentDataVolumeProfile obj w) as [e|res] eqn:Er; [done|].
  apply resolved_namespace in Er. wp_case; [destruct p; apply wp_patchVolumeStatus; auto with anvil|].
  wp_case; [apply wp_patchVolumeStatus; auto with anvil|].
  wp_case; [apply wp_patchVolumeStatus; auto with anvil|].
  wp_case; [apply wp_patchVolumeStatus; auto with anvil|].
  by apply wp_claim.
Qed.
End safety.

(** ** A server in memory *)

Record MemVolumes := mkMemVolumes {
  mv_volumes : gmap key AgentDataVolume;
  mv_claims : gmap key PersistentVolumeClaim;
  mv_next : nat }.

Definition mv_createClaim (c : PersistentVolumeClaim) : M MemVolumes GoErr unit := λ w,
  match mv_claims w !! claim_key c with
  | Some _ => (w, inl (ErrApi ReasonAlreadyExists "already exists"))
  | None =>
      let c' := c <| pvc_ObjectMeta := (pvc_ObjectMeta c) <| meta_UID := "uid-" +:+ fmtNat (mv_next w) |> |>
                  <| pvc_Phase := "Pending" |> in
      (mkMemVolumes (mv_volumes w) (<[claim_key c := c']> (mv_claims w)) (S (mv_next w)), inr tt)
  end.

(** Objects filed under another name are not visible. *)
Definition mv_visible (w : MemVolumes) : gmap key PersistentVolumeClaim :=
  filter (λ kc, claim_key kc.2 = kc.1) (mv_claims w).

Definition mv_patchRequest (k : key) (q : Quantity) : M MemVolumes GoErr unit := λ w,
  match mv_visible w !! k with
  | None => (w, inl (notFound "PersistentVolumeClaim"))
  | Some c => (mkMemVolumes (mv_volumes w) (<[k := c <| pvc_Request := Some q |>]> (mv_claims w))
                 (mv_next w), inr tt)
  end.

#[export] Instance mem_volumes : VolumeClient MemVolumes := {
  getDataVolume ns n w :=
    match mv_volumes w !! (ns, n) with
    | Some v => if bool_decide (volume_key v = (ns, n)) then inr v else inl (notFound "AgentDataVolume")
    | None => inl (notFound "AgentDataVolume")
    end;
  patchDataVolumeStatus k s w :=
    match mv_volumes w !! k with
    | None => (w, inl (notFound "AgentDataVolume"))
    | Some v => (mkMemVolumes (<[k := v <| adv_Status := s |>]> (mv_volumes w)) (mv_claims w) (mv_next w),
                 inr tt)
    end;
  getVolumeProfile ns n w := inl (notFound "VolumeProfile");
  getClaim ns n w := found "PersistentVolumeClaim" (mv_visible w !! (ns, n));
  createClaim c w := match mv_visible w !! claim_key c with
                     | Some _ => (w, inl (ErrApi ReasonAlreadyExists "already exists"))
                     | None => mv_createClaim c w
                     end;
  patchClaimRequest := mv_patchRequest;
  getStorageClass n w := inl (notFound "StorageClass");
  listAuthSessions ns w := inr [];
  listVolumeCopies ns w := inr [] }.

#[refine, export] Instance mem_volume_laws : VolumeLaws MemVolumes :=
  { claims := mv_visible; volumes := mv_volumes }.
Proof.
  - intros w k c. by intros [_ ?]%map_lookup_filter_Some.
  - intros w ns n v. simpl. destruct (mv_volumes w !! (ns, n)) as [v0|]; [|done].
    case_bool_decide; [|done]. by intros [= <-].
  - intros w ns n c H. by apply found_inr in H.
  - intros w ns n e H _. by apply found_inl in H.
  - intros w w' c x. simpl. destruct (mv_visible w !! claim_key c) eqn:Ev;
      [intros [= <- <-]; by auto|].
    unfold mv_createClaim. destruct (mv_claims w !! claim_key c); intros [= <- <-]; [by auto|].
    split; [done|right]. split; [done|]. eexists. split_and!; [| |unfold mv_visible;
      cbn [mv_claims]; apply map_filter_insert_True]; done.
  - intros w w' k q x. simpl. unfold mv_patchRequest.
    destruct (mv_visible w !! k) as [c|] eqn:Ev; intros [= <- <-]; [|by auto].
    split; [done|right]. exists c. eexists. split_and!; [done| | |unfold mv_visible;
      cbn [mv_claims]; apply map_filter_insert_True]; try done.
    by apply map_lookup_filter_Some in Ev as [_ ?].
  - intros w w' k s x. simpl. destruct (mv_volumes w !! k) as [v|] eqn:Ev; intros [= <- <-];
      [|by auto]. split; [done|right]. exists v, (v <| adv_Status := s |>). by split_and!.
Defined.

(** ** Witness *)

Definition fx_volume : AgentDataVolume :=
  mkAgentDataVolume (fx_meta "agents" "codex" "uid-codex" fx_epoch ∅)
    (zero_AgentDataVolumeSpec <| dv_Backend := "codex" |>) zero_AgentDataVolumeStatus.
Definition fx_volumes : MemVolumes := mkMemVolumes {[ volume_key fx_volume := fx_volume ]} ∅ 0.
Definition fx_volumes_ran : MemVolumes :=
  fst (reconcileDataVolume "" "agents" "codex" fx_epoch fx_volumes).

(** The reconciliation of the witness creates the claim and records its UID. *)
Example fx_volume_recorded :
  (λ v, dvt_ClaimUID (adv_Status v)) <$> mv_volumes fx_volumes_ran !! ("agents", "codex") = Some "uid-0".
Proof. vm_compute; reflexivity. Qed.

Lemma claims_never_adopted_witness :
  claimsGuarded fx_volume (claims fx_volumes) (claims fx_volumes_ran)
  ∧ volumesGuarded fx_volume (claims fx_volumes) (claims fx_volumes_ran)
      (volumes fx_volumes) (volumes fx_volumes_ran).
Proof.
  refine (claims_never_adopted "" "agents" "codex" fx_epoch fx_volumes fx_volumes_ran fx_volume _ _
    (surjective_pairing _)).
  vm_compute; reflexivity.
Defined.
