(* ===== verification/RunLaunch.v ===== *)
(** * Launching the Job of a run

    The part of src/internal/controller/agent_run_controller.go that writes the
    payload ConfigMap and the Job of a run and recognises them again: the launch
    receipt of a run's status, its validation against the plan and against what
    is found on the server, and the lookup of the Job of a run. *)

From stdpp Require Import base list gmap strings.
From Stdlib Require Import ZArith Lia.
From S2P Require Import Prelude GoStrings GoTime Names ApiRun ApiWork ApiAdverse Kube LaunchGate Merge RunOutput RunBackend RunPayload RunJob.

Open Scope Z_scope.

(** ** core/v1 *)

Record ConfigMap := mkConfigMap {
  cm_ObjectMeta : ObjectMeta;
  cm_Data : gmap string string;
  cm_BinaryData : gmap string string;
  cm_Immutable : option bool }.
#[export] Instance eta_ConfigMap : Eta ConfigMap := λ r, mkConfigMap
  (cm_ObjectMeta r) (cm_Data r) (cm_BinaryData r) (cm_Immutable r).
Definition cm_Name (c : ConfigMap) : string := meta_Name (cm_ObjectMeta c).
Definition cm_Namespace (c : ConfigMap) : string := meta_Namespace (cm_ObjectMeta c).
Definition cm_UID (c : ConfigMap) : string := meta_UID (cm_ObjectMeta c).

(** The state of a container: waiting (reason, message) or terminated. *)
Record ContainerStatus := mkContainerStatus {
  cs_Name : string;
  cs_Waiting : option (string * string);
  cs_Terminated : option (string * string) }.
Record Pod := mkPod {
  pd_ObjectMeta : ObjectMeta;
  pd_NodeName : string;
  pd_InitContainerStatuses : list ContainerStatus;
  pd_ContainerStatuses : list ContainerStatus }.
Definition pd_Name (p : Pod) : string := meta_Name (pd_ObjectMeta p).
Definition pd_Namespace (p : Pod) : string := meta_Namespace (pd_ObjectMeta p).

(** An ExternalSecret, read as an unstructured object. *)
Record ExternalSecret := mkExternalSecret {
  xs_Annotations : gmap string string;
  xs_Object : list (string * Json) }.

Record ArchiveResult := mkArchiveResult {
  ar_Store : string; ar_ArchivedAt : Time; ar_Digest : string }.

(** ** The client of the AgentRun controller, beside [Client]

    [patchRunStatus k lock base s]: the merge patch that leads from the status
    [base] to [s]; with [lock] it is refused unless the run still has that
    resource version.  [createGenerated]:
    a create with [metadata.generateName].  Patches return the run as stored. *)
Class Workloads (W : Type) := {
  getJob : string → string → W → GoErr + Job;
  listJobs : string → option (string * string) → W → GoErr + list Job;
  createJob : Job → M W GoErr Job;
  deleteJob : key → M W GoErr unit;
  patchJobTTL : key → Z → M W GoErr unit;
  listPods : string → string * string → W → GoErr + list Pod;
  readPodLogs : string → string → W → GoErr + string;
  getConfigMap : string → string → W → GoErr + ConfigMap;
  createConfigMap : ConfigMap → M W GoErr ConfigMap;
  updateConfigMap : ConfigMap → M W GoErr ConfigMap;
  getExternalSecret : string → string → W → GoErr + ExternalSecret;
  annotateExternalSecret : key → gmap string string → M W GoErr unit;
  getSituation : string → string → W → GoErr + AdverseSituation;
  patchRunStatus : key → option string → AgentRunStatus → AgentRunStatus → M W GoErr AgentRun;
  annotateRun : key → string → string → M W GoErr AgentRun;
  createGenerated : string → AgentRun → M W GoErr AgentRun;
  deleteRun : key → M W GoErr unit }.

#[export] Instance NamespacedObjectReference_eq_dec : EqDecision NamespacedObjectReference.
Proof. solve_decision. Defined.
#[export] Instance AgentRunDataVolumeStatus_eq_dec : EqDecision AgentRunDataVolumeStatus.
Proof. solve_decision. Defined.
#[export] Instance ResolvedRef_eq_dec : EqDecision AgentRunResolvedObjectReferenceStatus.
Proof. solve_decision. Defined.
#[export] Instance ResolvedScope_eq_dec : EqDecision AgentRunResolvedScopeStatus.
Proof. solve_decision. Defined.
#[export] Instance ResolvedComposition_eq_dec : EqDecision AgentRunResolvedCompositionStatus.
Proof. solve_decision. Defined.

(** Go: [controllerutil.SetControllerReference(run, obj, scheme)] on a new object. *)
Definition controllerRef (run : AgentRun) : OwnerReference :=
  mkOwnerReference GroupVersion "AgentRun" (run_Name run) (run_UID run) (Some true).
Definition setControllerReference (run : AgentRun) (meta : ObjectMeta) : ObjectMeta :=
  meta <| meta_OwnerReferences := meta_OwnerReferences meta ++ [controllerRef run] |>.

(** ** The receipt *)

Definition namedRef (ref : option NamespacedObjectReference) : bool :=
  match ref with
  | Some r => negb (blank (ref_Name r)) && negb (blank (ref_Namespace r))
  | None => false
  end.

Definition agentRunLaunchReceiptComplete (status : AgentRunStatus) : bool :=
  namedRef (st_PlannedJobRef status)
  && negb (blank (st_JobSpecDigest status))
  && namedRef (st_PayloadRef status)
  && negb (blank (st_PayloadUID status))
  && negb (blank (st_PromptHash status))
  && match st_ResolvedComposition status with
     | Some c => negb (blank (rcs_PayloadDigest c))
     | None => false
     end.

Definition at_ (namespace name : string) : string := namespace +:+ "/" +:+ name.
Definition jobAt (job : Job) : string := at_ (job_Namespace job) (job_Name job).
Definition cmAt (c : ConfigMap) : string := at_ (cm_Namespace c) (cm_Name c).
Definition runAt (r : AgentRun) : string := at_ (run_Namespace r) (run_Name r).
Definition refAt (r : NamespacedObjectReference) : string := at_ (ref_Namespace r) (ref_Name r).
Definition isSet {A} (o : option A) : bool := match o with Some _ => true | None => false end.
Definition immutable (c : ConfigMap) : bool :=
  match cm_Immutable c with Some b => b | None => false end.

(** Guards that return an error. *)
Definition check (b : bool) (message : string) : GoErr + unit :=
  if b then inr tt else inl (ErrText message).
Definition sbind {A B} (r : GoErr + A) (k : A → GoErr + B) : GoErr + B :=
  match r with inl e => inl e | inr a => k a end.
Declare Scope check_scope.
Notation "'try' x ':=' m 'in' k" := (sbind m (λ x, k))
  (at level 10, x binder, m at level 100, k at level 200) : check_scope.
Notation "m 'also' k" := (sbind m (λ _, k)) (at level 100, k at level 200, right associativity) :
  check_scope.

Section launch.
Context `{Marshal agentRunJobSnapshot}.
Local Open Scope check_scope.

Definition validateAgentRunLaunchPlan (status : AgentRunStatus) (desiredJob : Job) (payload : ConfigMap)
    (promptHash : string) (composition : AgentRunResolvedCompositionStatus)
    (dataVolumes : list resolvedAgentRunDataVolume) : GoErr + unit :=
  check (agentRunLaunchReceiptComplete status) "AgentRun launch receipt is incomplete" also
  match st_PlannedJobRef status, st_PayloadRef status with
  | Some planned, Some payloadRef =>
      check (bool_decide (ref_Namespace planned = job_Namespace desiredJob)
             && bool_decide (ref_Name planned = job_Name desiredJob))
        ("AgentRun launch plan references Job " +:+ refAt planned +:+ ", not resolved Job " +:+ jobAt desiredJob) also
      try digest := agentRunJobSnapshotDigest desiredJob in
      check (bool_decide (st_JobSpecDigest status = digest))
        "AgentRun resolved execution changed after its launch receipt was recorded" also
      check (bool_decide (ref_Namespace payloadRef = cm_Namespace payload)
             && bool_decide (ref_Name payloadRef = cm_Name payload))
        ("AgentRun launch plan references payload " +:+ refAt payloadRef +:+ ", not resolved payload " +:+ cmAt payload) also
      check (bool_decide (st_PayloadUID status = "") || bool_decide (st_PayloadUID status = cm_UID payload))
        ("AgentRun payload ConfigMap " +:+ cmAt payload +:+ " UID " +:+ cm_UID payload +:+ " does not match recorded UID " +:+ st_PayloadUID status) also
      check (bool_decide (st_PromptHash status = promptHash))
        "AgentRun prompt changed after its launch receipt was recorded" also
      check (bool_decide (st_DataVolumes status = agentRunDataVolumeStatuses dataVolumes))
        "AgentRun data volumes changed after its launch receipt was recorded" also
      check (bool_decide (st_ResolvedComposition status = Some composition))
        "AgentRun composition changed after its launch receipt was recorded"
  | _, _ => inl (ErrPanic "nil pointer dereference")
  end.

Context {W : Type} `{Workloads W, Marshal (gmap string string)}.

Definition validateAgentRunLaunchReceipt (run : AgentRun) (job : Job) (status : AgentRunStatus) (w : W) :
    GoErr + unit :=
  check (agentRunLaunchReceiptComplete status)
    ("AgentRun " +:+ runAt run +:+ " has no complete launch receipt") also
  match st_PlannedJobRef status, st_PayloadRef status, st_ResolvedComposition status with
  | Some planned, Some payloadRef, Some composition =>
      check (bool_decide (ref_Namespace planned = run_Namespace run)
             && bool_decide (ref_Name planned = job_Name job)
             && bool_decide (job_Namespace job = run_Namespace run))
        ("recovered AgentRun Job " +:+ jobAt job +:+ " does not match the recorded planned Job " +:+ refAt planned) also
      try digest := agentRunJobSnapshotDigest job in
      check (bool_decide (digest = st_JobSpecDigest status))
        ("recovered AgentRun Job " +:+ jobAt job +:+ " does not match the recorded execution snapshot") also
      let namespace := firstNonEmpty [TrimSpace (ref_Namespace payloadRef); run_Namespace run] in
      check (bool_decide (namespace = run_Namespace run))
        ("AgentRun payload reference " +:+ at_ namespace (ref_Name payloadRef) +:+ " is outside AgentRun namespace " +:+ run_Namespace run) also
      try payload := match getConfigMap namespace (TrimSpace (ref_Name payloadRef)) w with
                     | inl e => inl (ErrWrap ("get recorded AgentRun payload ConfigMap " +:+ at_ namespace (ref_Name payloadRef)) e)
                     | inr payload => inr payload
                     end in
      check (agentRunControllerOwnerMatches (cm_ObjectMeta payload) run)
        ("AgentRun payload ConfigMap " +:+ cmAt payload +:+ " is not controlled by AgentRun " +:+ runAt run +:+ " with the current UID") also
      check (bool_decide (st_PayloadUID status = "") || bool_decide (cm_UID payload = st_PayloadUID status))
        ("AgentRun payload ConfigMap " +:+ cmAt payload +:+ " UID " +:+ cm_UID payload +:+ " does not match recorded UID " +:+ st_PayloadUID status) also
      check (immutable payload)
        ("AgentRun payload ConfigMap " +:+ cmAt payload +:+ " is mutable; refusing recovered execution") also
      check (bool_decide (cm_BinaryData payload = ∅)
             && bool_decide (digestJSON (jsonMarshal (cm_Data payload)) = rcs_PayloadDigest composition))
        ("AgentRun payload ConfigMap " +:+ cmAt payload +:+ " does not match the recorded payload digest") also
      check (bool_decide (shortHash (mapGet (cm_Data payload) agentRunPromptFile) = st_PromptHash status))
        ("AgentRun payload ConfigMap " +:+ cmAt payload +:+ " prompt does not match the recorded prompt hash") also
      check (bool_decide (cm_Name payload = agentRunChildName [run_Name run; "context"; st_PromptHash status])
             && bool_decide (job_Name job = agentRunChildName [run_Name run; "harness"; st_PromptHash status]))
        "AgentRun recovered child names do not match the recorded prompt identity"
  | _, _, _ => inl (ErrPanic "nil pointer dereference")
  end.
End launch.

(** ** The payload *)

(** The value of source.json. *)
Record AgentRunContext := mkRunContext {
  ctx_Name : string;
  ctx_Namespace : string;
  ctx_Generation : Z;
  ctx_UID : string;
  ctx_Spec : AgentRunSpec;
  ctx_ResolvedComposition : option AgentRunResolvedCompositionStatus;
  ctx_Repository : string;
  ctx_RepositoryURL : string;
  ctx_DocsPaths : list string;
  ctx_AdverseSituation : option AdverseSituation;
  ctx_AgentSchedule : option AgentSchedule }.

Definition sanitizedSituation (s : AdverseSituation) : AdverseSituation :=
  s <| sit_Spec := (sit_Spec s) <| ssp_Responders := zero_AdverseSituationRespondersSpec |> |>
    <| sit_Status := (sit_Status s)
         <| sis_Events := map (λ e, e <| aev_ReportIDs := [] |>) (sis_Events (sit_Status s)) |> |>.
Definition sanitizedSchedule (s : AgentSchedule) : AgentSchedule :=
  s <| sched_Spec := (sched_Spec s) <| sp_RunTemplate := zero_AgentRunSpec |> <| sp_RunTemplates := [] |> |>.

Section payload.
Context {W : Type} `{Client W, Workloads W, Web W, NetURL}.
Context `{MarshalIndent AgentRunContext, Marshal (gmap string string)} (options : Options).
Local Open Scope check_scope.

(** The object a reference of the run names, if it can be read; a reference outside
    the namespace is an error. *)
Definition contextRef {A} (obj : AgentRun) (what : string) (ref : option NamespacedObjectReference)
    (get : string → string → W → GoErr + A) (w : W) : GoErr + option A :=
  match ref with
  | Some ref =>
      if blank (ref_Name ref) then inr None else
      let namespace := firstNonEmpty [TrimSpace (ref_Namespace ref); run_Namespace obj] in
      check (bool_decide (namespace = run_Namespace obj))
        ("AgentRun " +:+ what +:+ " must be in namespace " +:+ run_Namespace obj) also
      inr (match get namespace (TrimSpace (ref_Name ref)) w with inr a => Some a | inl _ => None end)
  | None => inr None
  end.

Definition agentRunContextJSON (obj : AgentRun) (w : W) : GoErr + string :=
  try situation := contextRef obj "situationRef" (rs_SituationRef (run_Spec obj)) getSituation w in
  try schedule := contextRef obj "scheduleRef" (rs_ScheduleRef (run_Spec obj)) getSchedule w in
  match jsonMarshalIndent (mkRunContext (run_Name obj) (run_Namespace obj)
          (meta_Generation (run_ObjectMeta obj)) (run_UID obj) (run_Spec obj)
          (st_ResolvedComposition (run_Status obj))
          (TrimSpace (opt_PlatformRepository options)) (TrimSpace (opt_PlatformRepositoryURL options))
          (opt_PlatformDocs options) (sanitizedSituation <$> situation) (sanitizedSchedule <$> schedule)) with
  | Some body => inr body
  | None => inl (ErrText "json: unsupported value")
  end.

Definition validateAgentRunConfigMapIdentityAndData (configMap : ConfigMap) (run : AgentRun)
    (expectedData : gmap string string) : GoErr + unit :=
  check (agentRunControllerOwnerMatches (cm_ObjectMeta configMap) run)
    ("AgentRun payload ConfigMap " +:+ cmAt configMap +:+ " is not controlled by AgentRun " +:+ runAt run +:+ " with the current UID") also
  check (bool_decide (cm_Data configMap = expectedData) && bool_decide (cm_BinaryData configMap = ∅))
    ("AgentRun payload ConfigMap " +:+ cmAt configMap +:+ " does not match the resolved run payload") also
  match find (λ kv, negb (bool_decide (mapGet (meta_Labels (cm_ObjectMeta configMap)) kv.1 = kv.2)))
          (map_to_list (agentRunLabels run "")) with
  | Some (key, _) => inl (ErrText ("AgentRun payload ConfigMap " +:+ cmAt configMap +:+ " has invalid label " +:+ key))
  | None => inr tt
  end.

Definition validateAgentRunConfigMap (configMap : ConfigMap) (run : AgentRun)
    (expectedData : gmap string string) : GoErr + unit :=
  validateAgentRunConfigMapIdentityAndData configMap run expectedData also
  check (immutable configMap)
    ("AgentRun payload ConfigMap " +:+ cmAt configMap +:+ " is mutable; refusing to execute it").

Local Open Scope go_scope.

Definition liftErr {A} (r : GoErr + A) : M W GoErr A := λ w, (w, r).

(** The ConfigMap of the run and the digest of its data. *)
Definition ensureAgentRunConfigMap (obj : AgentRun) (prompt promptHash : string) :
    M W GoErr (ConfigMap * string) :=
  let* contextBody := mread (agentRunContextJSON obj) in
  let name := agentRunChildName [run_Name obj; "context"; promptHash] in
  let* data := mread (agentRunConfigMapData options obj prompt contextBody) in
  let* existing := mtry (mread (getConfigMap (run_Namespace obj) name)) in
  let* configMap :=
    match existing with
    | inl e =>
        if negb (IsNotFound e) then mfail e else
        createConfigMap (mkConfigMap
          (setControllerReference obj (zero_ObjectMeta <| meta_Name := name |>
             <| meta_Namespace := run_Namespace obj |> <| meta_Labels := agentRunLabels obj "" |>))
          data ∅ (Some true))
    | inr configMap =>
        liftErr (validateAgentRunConfigMapIdentityAndData configMap obj data) ;;
        let* configMap :=
          if immutable configMap then mret configMap
          else let* updated := mtry (updateConfigMap (configMap <| cm_Immutable := Some true |>)) in
               match updated with
               | inl e => mfail (ErrWrap ("make AgentRun payload ConfigMap " +:+ cmAt configMap +:+ " immutable") e)
               | inr c => mret c
               end in
        liftErr (validateAgentRunConfigMap configMap obj data) ;;
        mret configMap
    end in
  mret (configMap, digestJSON (jsonMarshal (cm_Data configMap))).

(** ** The Job *)

Context `{Marshal (list AgentRunDataVolumeStatus), Marshal (list string), Marshal (list ToolItem)}.
Context `{Marshal AgentRunResolvedCompositionStatus}.

Definition harnessJobName (obj : AgentRun) (promptHash : string) : string :=
  agentRunChildName [run_Name obj; "harness"; promptHash].

Definition ensureAgentRunJob (obj : AgentRun) (promptHash : string)
    (dataVolumes : list resolvedAgentRunDataVolume) : M W GoErr Job :=
  let jobName := harnessJobName obj promptHash in
  let desired := agentRunJob options obj jobName (agentRunChildName [run_Name obj; "context"; promptHash])
                   dataVolumes in
  let* existing := mtry (mread (getJob (run_Namespace obj) jobName)) in
  match existing with
  | inl e =>
      if negb (IsNotFound e) then mfail e
      else createJob (desired <| job_ObjectMeta := setControllerReference obj (job_ObjectMeta desired) |>)
  | inr job =>
      if isSet (setTime (meta_DeletionTimestamp (job_ObjectMeta job)))
      then mfail (ErrText ("AgentRun Job " +:+ jobAt job +:+ " is still terminating; retry after deletion completes"))
      else liftErr (validateAgentRunJob job desired obj) ;; mret job
  end.

(** The loop over the listed Jobs: the one this run owns. *)
Fixpoint ownedJob (obj : AgentRun) (jobs : list Job) (owned : option Job) : GoErr + option Job :=
  match jobs with
  | [] => inr owned
  | job :: jobs =>
      if isSet (setTime (meta_DeletionTimestamp (job_ObjectMeta job))) then ownedJob obj jobs owned
      else if negb (agentRunControllerOwnerMatches (job_ObjectMeta job) obj) then ownedJob obj jobs owned
      else match owned with
           | Some first => inl (ErrText ("AgentRun " +:+ runAt obj +:+ " owns multiple harness Jobs (" +:+ job_Name first +:+ " and " +:+ job_Name job +:+ "); refusing to select one"))
           | None => ownedJob obj jobs (Some job)
           end
  end.

(** The Job of a run, if any, and why its absence is final. *)
Definition listedAgentRunJob (obj : AgentRun) (w : W) : GoErr + (option Job * string) :=
  match listJobs (run_Namespace obj) (Some (agentRunLabel, sanitizeLabelValue (run_Name obj))) w with
  | inl e => inl (ErrWrap ("list Jobs owned by AgentRun " +:+ runAt obj) e)
  | inr jobs => match ownedJob obj jobs None with
                | inl e => inl e
                | inr owned => inr (owned, "")
                end
  end.

Definition existingAgentRunJob (obj : AgentRun) (ref : option NamespacedObjectReference)
    (expectedUID : string) (allowPlannedMissing : bool) (w : W) : GoErr + (option Job * string) :=
  match ref with
  | Some ref =>
      if negb (blank (ref_Name ref)) then
        let namespace := firstNonEmpty [TrimSpace (ref_Namespace ref); run_Namespace obj] in
        let name := TrimSpace (ref_Name ref) in
        if negb (bool_decide (namespace = run_Namespace obj))
        then inr (None, "Agent run job reference " +:+ at_ namespace name +:+ " is outside AgentRun namespace " +:+ run_Namespace obj +:+ ".")
        else match getJob namespace name w with
             | inl e =>
                 if IsNotFound e then
                   if allowPlannedMissing && bool_decide (expectedUID = "") then inr (None, "")
                   else inr (None, "Agent run job " +:+ at_ namespace name +:+ " no longer exists.")
                 else inl (ErrWrap ("get agent run job " +:+ at_ namespace name) e)
             | inr job =>
                 if negb (agentRunControllerOwnerMatches (job_ObjectMeta job) obj)
                 then inr (None, "Agent run job " +:+ at_ namespace name +:+ " is not controller-owned by AgentRun " +:+ runAt obj +:+ " with the current UID.")
                 else if negb (bool_decide (expectedUID = "")) && negb (bool_decide (job_UID job = expectedUID))
                 then inr (None, "Agent run job " +:+ at_ namespace name +:+ " UID " +:+ job_UID job +:+ " does not match recorded UID " +:+ expectedUID +:+ ".")
                 else inr (Some job, "")
             end
      else listedAgentRunJob obj w
  | None => listedAgentRunJob obj w
  end.
End payload.
