(* ===== verification/SpecEq.v ===== *)
(** * Equality of specs

    [apiequality.Semantic.DeepEqual] on run specs and on the status of situations: as
    nil and empty lists are not told apart, it is equality of the records. *)

From stdpp Require Import base list gmap strings.
From Stdlib Require Import ZArith.
From S2P Require Import Prelude GoStrings GoTime ApiRun ApiAdverse Capabilities RunJob RunLaunch.

#[export] Instance AgentRunSourceRef_eq_dec : EqDecision AgentRunSourceRef.
Proof. solve_decision. Defined.
#[export] Instance AgentRunTriggerSnapshot_eq_dec : EqDecision AgentRunTriggerSnapshot.
Proof. solve_decision. Defined.
#[export] Instance ApplicationReferenceSpec_eq_dec : EqDecision ApplicationReferenceSpec.
Proof. solve_decision. Defined.
#[export] Instance ApplicationTargetReferenceSpec_eq_dec : EqDecision ApplicationTargetReferenceSpec.
Proof. solve_decision. Defined.
#[export] Instance AgentRunRepositorySpec_eq_dec : EqDecision AgentRunRepositorySpec.
Proof. solve_decision. Defined.
#[export] Instance AgentRunScopeSpec_eq_dec : EqDecision AgentRunScopeSpec.
Proof. solve_decision. Defined.
#[export] Instance AgentRunDocsSpec_eq_dec : EqDecision AgentRunDocsSpec.
Proof. solve_decision. Defined.
#[export] Instance AgentRunIssueRef_eq_dec : EqDecision AgentRunIssueRef.
Proof. solve_decision. Defined.
#[export] Instance AgentRunIssueTrackingSpec_eq_dec : EqDecision AgentRunIssueTrackingSpec.
Proof. solve_decision. Defined.
#[export] Instance AgentRunGitHubSkillSourceSpec_eq_dec : EqDecision AgentRunGitHubSkillSourceSpec.
Proof. solve_decision. Defined.
#[export] Instance AgentRunSkillSourceRef_eq_dec : EqDecision AgentRunSkillSourceRef.
Proof. solve_decision. Defined.
#[export] Instance AgentSkillOverrideSpec_eq_dec : EqDecision AgentSkillOverrideSpec.
Proof. solve_decision. Defined.
#[export] Instance AgentSkillCompositionSpec_eq_dec : EqDecision AgentSkillCompositionSpec.
Proof. solve_decision. Defined.
#[export] Instance AgentToolCompositionSpec_eq_dec : EqDecision AgentToolCompositionSpec.
Proof. solve_decision. Defined.
#[export] Instance AgentRunCodexBackendSpec_eq_dec : EqDecision AgentRunCodexBackendSpec.
Proof. solve_decision. Defined.
#[export] Instance AgentRunOpenCodeBackendSpec_eq_dec : EqDecision AgentRunOpenCodeBackendSpec.
Proof. solve_decision. Defined.
#[export] Instance AgentRunHermesBackendSpec_eq_dec : EqDecision AgentRunHermesBackendSpec.
Proof. solve_decision. Defined.
#[export] Instance AgentRunOpenClawBackendSpec_eq_dec : EqDecision AgentRunOpenClawBackendSpec.
Proof. solve_decision. Defined.
#[export] Instance AgentRunGrokBuildBackendSpec_eq_dec : EqDecision AgentRunGrokBuildBackendSpec.
Proof. solve_decision. Defined.
#[export] Instance AgentRunPiBackendSpec_eq_dec : EqDecision AgentRunPiBackendSpec.
Proof. solve_decision. Defined.
#[export] Instance AgentRunPrimeBackendSpec_eq_dec : EqDecision AgentRunPrimeBackendSpec.
Proof. solve_decision. Defined.
#[export] Instance AgentRunAgyBackendSpec_eq_dec : EqDecision AgentRunAgyBackendSpec.
Proof. solve_decision. Defined.
#[export] Instance AgentRunCustomBackendSpec_eq_dec : EqDecision AgentRunCustomBackendSpec.
Proof. solve_decision. Defined.
#[export] Instance AgentRunHarnessBackendSpec_eq_dec : EqDecision AgentRunHarnessBackendSpec.
Proof. solve_decision. Defined.
#[export] Instance AgentRunSkillInjectionSpec_eq_dec : EqDecision AgentRunSkillInjectionSpec.
Proof. solve_decision. Defined.
#[export] Instance SecretKeyReference_eq_dec : EqDecision SecretKeyReference.
Proof. solve_decision. Defined.
#[export] Instance AgentRunGitHubSkillCredential_eq_dec : EqDecision AgentRunGitHubSkillCredential.
Proof. solve_decision. Defined.
#[export] Instance AgentRunDataVolumeRef_eq_dec : EqDecision AgentRunDataVolumeRef.
Proof. solve_decision. Defined.
#[export] Instance AgentRunExternalSecretRefreshRef_eq_dec : EqDecision AgentRunExternalSecretRefreshRef.
Proof. solve_decision. Defined.
#[export] Instance AgentRunSpiffeWorkloadAPISpec_eq_dec : EqDecision AgentRunSpiffeWorkloadAPISpec.
Proof. solve_decision. Defined.
#[export] Instance AgentRunSubstrateActorSpec_eq_dec : EqDecision AgentRunSubstrateActorSpec.
Proof. solve_decision. Defined.
#[export] Instance AgentRunHarnessExecutionSpec_eq_dec : EqDecision AgentRunHarnessExecutionSpec.
Proof. solve_decision. Defined.
#[export] Instance AgentRunHarnessSpec_eq_dec : EqDecision AgentRunHarnessSpec.
Proof. solve_decision. Defined.
#[export] Instance AgentRunTelegramNotificationSpec_eq_dec : EqDecision AgentRunTelegramNotificationSpec.
Proof. solve_decision. Defined.
#[export] Instance AgentRunDiscordNotificationSpec_eq_dec : EqDecision AgentRunDiscordNotificationSpec.
Proof. solve_decision. Defined.
#[export] Instance AgentRunNotificationSpec_eq_dec : EqDecision AgentRunNotificationSpec.
Proof. solve_decision. Defined.
#[export] Instance AgentRunSpec_eq_dec : EqDecision AgentRunSpec.
Proof. solve_decision. Defined.
#[export] Instance Condition_eq_dec : EqDecision Condition.
Proof. solve_decision. Defined.
#[export] Instance AdverseSituationEvent_eq_dec : EqDecision AdverseSituationEvent.
Proof. solve_decision. Defined.
#[export] Instance AdverseSituationStatus_eq_dec : EqDecision AdverseSituationStatus.
Proof. solve_decision. Defined.
#[export] Instance AdverseSignalStatus_eq_dec : EqDecision AdverseSignalStatus.
Proof. solve_decision. Defined.
