(* ===== verification/Adverse.v ===== *)
(** * Adverse events: sources, classification and the event buffer

    The functions of src/internal/controller/adverse_situation_controller.go,
    adverse_signal_controller.go and adverse_source_config.go that do not call the
    API server, with the classifier of sources in agent_run_controller.go.

    A situation buffers adverse events.  Reports of one event are counted in it
    ([adverseSituationRecordEvent] for watched objects,
    [adverseSituationRecordSignalEvent] for AdverseSignals).  A signal leaves its
    report identifier in the event as a receipt until it is marked as accepted; an
    event with receipts may not be dropped from the buffer. *)

From stdpp Require Import base list gmap strings sorting.
From Stdlib Require Import ZArith Lia Ascii.
From S2P Require Import Prelude GoStrings GoTime Names ApiRun ApiAdverse Kube RunControl RunOutput RunPayload RunJob RunLaunch SpecEq.

Open Scope Z_scope.

(** Go: addition on [int32]. *)
Definition wrap32 (z : Z) : Z := (z + 2 ^ 31) mod 2 ^ 32 - 2 ^ 31.

Definition adverseSituationReady : string := "Ready".
Definition adverseSituationDefaultName : string := "adverse-default".
Definition adverseSituationDefaultGroupKey : string := "namespace/default".
Definition adverseSituationDefaultQuietPeriodSeconds : Z := 300.
Definition adverseSituationDefaultDedupeWindowSeconds : Z := 120.
Definition adverseSituationDefaultPullRequestHoldSeconds : Z := 900.
Definition adverseSituationDefaultMaxEvents : Z := 80.
Definition adverseSituationHardMaxEvents : Z := 200.
Definition adverseSituationMaxReportIDsPerEvent : Z := 64.
Definition adverseSituationPollInterval : Duration := 15 * Second.
Definition adverseSituationGroupLabel : string := "control.anvil.hazyforge.io/adverse-group".
Definition adverseSignalAccepted : string := "Accepted".
Definition adverseSignalReceiptFinalizer : string := "control.anvil.hazyforge.io/adverse-signal-receipt".
Definition adverseSignalPendingRequeue : Duration := 15 * Second.

(** ** Watched objects *)

Record GroupVersionKind := mkGVK { gvk_Group : string; gvk_Version : string; gvk_Kind : string }.

(** An unstructured object. *)
Record SourceObject := mkSourceObject {
  so_GVK : GroupVersionKind;
  so_ObjectMeta : ObjectMeta;
  so_Object : list (string * Json) }.
Definition so_Name (s : SourceObject) : string := meta_Name (so_ObjectMeta s).
Definition so_Namespace (s : SourceObject) : string := meta_Namespace (so_ObjectMeta s).
Definition so_UID (s : SourceObject) : string := meta_UID (so_ObjectMeta s).
Definition so_Generation (s : SourceObject) : Z := meta_Generation (so_ObjectMeta s).

Record AdverseSourceClassifier := mkClassifier {
  cl_RequireObservedGeneration : option bool;
  cl_ObservedGenerationPath : string;
  cl_PhasePath : string;
  cl_ConditionsPath : string;
  cl_AdversePhases : list string;
  cl_AdverseConditionTypes : list string;
  cl_DetailConditionType : string }.
Definition zero_Classifier : AdverseSourceClassifier := mkClassifier None "" "" "" [] [] "".

Record AdverseSourceConfig := mkSourceConfig {
  sc_Name : string;
  sc_APIVersion : string;
  sc_Kind : string;
  sc_Resource : string;
  sc_Namespaces : list string;
  sc_ObjectSelector : option Raw;
  sc_SituationRef : option NamespacedObjectReference;
  sc_GroupKey : string;
  sc_Classifier : AdverseSourceClassifier }.

(** What the Kubernetes machinery does with unstructured objects and names:
    [NestedFieldNoCopy], [NestedString] and [NestedSlice] ([None] is an error, the
    boolean tells whether the field was found), the conversion of a condition, the
    number of a JSON value that is one, label selectors ([None]: invalid), group
    versions, and the name checks of [utilvalidation]. *)
Class Unstructured := {
  NestedFieldNoCopy : list (string * Json) → list string → option (Json * bool);
  NestedString : list (string * Json) → list string → option (string * bool);
  NestedSlice : list (string * Json) → list string → option (list Json * bool);
  convertCondition : list (string * Json) → option Condition;
  numberInt64 : string → Z;
  selectorMatches : Raw → gmap string string → option bool;
  ParseGroupVersion : string → option (string * string);
  GroupVersionString : GroupVersionKind → string;
  GVKString : GroupVersionKind → string;
  IsDNS1035Label : string → bool;
  IsDNS1123Label : string → bool;
  IsDNS1123Subdomain : string → bool }.

(** ** Configuration *)

(** Go: [strings.Trim(value, ".")]. *)
Fixpoint dropDots (l : list ascii) : list ascii :=
  match l with
  | [] => []
  | c :: l' => if (code c =? 46)%N then dropDots l' else l
  end.
Definition TrimDots (s : string) : string := unbytes (rev (dropDots (rev (dropDots (bytes s))))).

Definition adverseSourceFieldPath (value : string) : list string :=
  filter (λ part, part ≠ "") (map TrimSpace (SplitByte (ascii_of_N 46) (TrimDots (TrimSpace value)))).

Definition adverseSourceClassifierOrDefault (c : AdverseSourceClassifier) : AdverseSourceClassifier :=
  let orElse value fallback := if blank value then fallback else value in
  let orList values fallback := match values with [] => fallback | _ => values end in
  mkClassifier (cl_RequireObservedGeneration c)
    (orElse (cl_ObservedGenerationPath c) "status.observedGeneration")
    (orElse (cl_PhasePath c) "status.phase")
    (orElse (cl_ConditionsPath c) "status.conditions")
    (orList (cl_AdversePhases c) ["Failed"; "Error"; "NeedsHuman"; "ActionRequired"])
    (orList (cl_AdverseConditionTypes c) ["Failed"; "NeedsHuman"; "ActionRequired"])
    (orElse (cl_DetailConditionType c) "Ready").

Definition adverseSourceRequiresObservedGeneration (c : AdverseSourceClassifier) : bool :=
  default true (cl_RequireObservedGeneration c).

(** The text before and after the last slash. *)
Fixpoint lastSlash (seen l : list ascii) : option (list ascii * list ascii) :=
  match l with
  | [] => None
  | c :: l' =>
      match lastSlash (seen ++ [c]) l' with
      | Some split => Some split
      | None => if (code c =? 47)%N then Some (seen, l') else None
      end
  end.

Section config.
Context `{Unstructured}.
Local Open Scope check_scope.

Definition parseAdverseSourceGVK (value : string) : GoErr + GroupVersionKind :=
  let value := TrimSlash (TrimSpace value) in
  let invalid := inl (ErrText ("invalid adverse source " +:+ quote value +:+ ": expected apiVersion/kind")) in
  match lastSlash [] (bytes value) with
  | None => invalid
  | Some (apiVersion, kind) =>
      if bool_decide (apiVersion = []) || bool_decide (kind = []) then invalid else
      match ParseGroupVersion (unbytes apiVersion) with
      | None => inl (ErrText ("parse adverse source " +:+ quote value))
      | Some (group, version) =>
          check (negb (blank (unbytes kind)))
            ("invalid adverse source " +:+ quote value +:+ ": kind is required") also
          inr (mkGVK group version (unbytes kind))
      end
  end.

Definition adverseSourceGVK (source : AdverseSourceConfig) : GoErr + GroupVersionKind :=
  parseAdverseSourceGVK (TrimSpace (sc_APIVersion source) +:+ "/" +:+ TrimSpace (sc_Kind source)).

(** Go: [strings.ContainsAny(resource, "/*, ")]. *)
Definition inexactResource (resource : string) : bool :=
  existsb (λ c, existsb (λ n, (code c =? n)%N) [47; 42; 44; 32]%N) (bytes resource).

Definition badFieldPath (path : string) : bool :=
  negb (blank path) && bool_decide (adverseSourceFieldPath path = []).

(** The paths of the classifier are checked in an order Go leaves open; the error
    names one that is bad. *)
Definition validateAdverseSourceConfig (source : AdverseSourceConfig) : GoErr + unit :=
  check (negb (blank (sc_APIVersion source))) "apiVersion is required" also
  check (negb (blank (sc_Kind source))) "kind is required" also
  let resource := TrimSpace (sc_Resource source) in
  check (negb (bool_decide (resource = ""))) "resource is required for exact read RBAC" also
  check (negb (inexactResource resource))
    ("resource " +:+ quote resource +:+ " must be one exact plural resource name") also
  check (IsDNS1035Label resource) ("resource " +:+ quote resource +:+ " is invalid") also
  try _ := adverseSourceGVK source in
  try _ := match sc_SituationRef source with
           | None => inr tt
           | Some ref =>
               check (negb (blank (ref_Name ref))) "situationRef.name is required when situationRef is set" also
               check (IsDNS1123Subdomain (TrimSpace (ref_Name ref))) "situationRef.name is invalid" also
               check (blank (ref_Namespace ref) || IsDNS1123Label (TrimSpace (ref_Namespace ref)))
                 "situationRef.namespace is invalid" also inr tt
           end in
  check (forallb (λ namespace, IsDNS1123Label (TrimSpace namespace)) (sc_Namespaces source))
    "namespace is invalid" also
  check (match sc_ObjectSelector source with
         | Some selector => match selectorMatches selector ∅ with Some _ => true | None => false end
         | None => true
         end) "objectSelector" also
  check (negb (badFieldPath (cl_ObservedGenerationPath (sc_Classifier source))
               || badFieldPath (cl_PhasePath (sc_Classifier source))
               || badFieldPath (cl_ConditionsPath (sc_Classifier source))))
    "classifier path must contain a field path" also
  inr tt.

Fixpoint validateSources (index : nat) (sources : list AdverseSourceConfig) : GoErr + unit :=
  match sources with
  | [] => inr tt
  | source :: sources =>
      match validateAdverseSourceConfig source with
      | inl e => inl (ErrWrap ("adverse source " +:+ fmtNat index) e)
      | inr _ => validateSources (S index) sources
      end
  end.

(** [decodeSources]: [json.Unmarshal] into a list of configurations. *)
Definition ParseAdverseSourcesJSON (decodeSources : string → GoErr + list AdverseSourceConfig) (raw : string) :
    GoErr + list AdverseSourceConfig :=
  let raw := TrimSpace raw in
  if bool_decide (raw ∈ [""; "[]"; "null"]) then inr [] else
  match decodeSources raw with
  | inl e => inl (ErrWrap "parse adverse sources JSON" e)
  | inr sources => try _ := validateSources 0 sources in inr sources
  end.

(** The watches of [SetupAdverseSituationTriggerReconcilers]: the configurations of a
    kind together, sorted by the kind; a kind that is only listed gets the default
    configuration. *)
Definition addSource (gvk : GroupVersionKind) (source : AdverseSourceConfig)
    (byGVK : gmap string (GroupVersionKind * list AdverseSourceConfig)) :
    gmap string (GroupVersionKind * list AdverseSourceConfig) :=
  <[GVKString gvk := (gvk, match byGVK !! GVKString gvk with Some (_, l) => l | None => [] end ++ [source])]> byGVK.

Fixpoint addIntegrations (integrations : list AdverseSourceConfig)
    (byGVK : gmap string (GroupVersionKind * list AdverseSourceConfig)) :
    GoErr + gmap string (GroupVersionKind * list AdverseSourceConfig) :=
  match integrations with
  | [] => inr byGVK
  | integration :: rest =>
      try gvk := adverseSourceGVK integration in addIntegrations rest (addSource gvk integration byGVK)
  end.

Definition plainSource (gvk : GroupVersionKind) : AdverseSourceConfig :=
  mkSourceConfig "" (GroupVersionString gvk) (gvk_Kind gvk) "" [] None None "" zero_Classifier.

Fixpoint addConfigured (structured : gset string) (configured : list string)
    (byGVK : gmap string (GroupVersionKind * list AdverseSourceConfig)) :
    GoErr + gmap string (GroupVersionKind * list AdverseSourceConfig) :=
  match configured with
  | [] => inr byGVK
  | value :: rest =>
      try gvk := parseAdverseSourceGVK value in
      addConfigured structured rest
        (if bool_decide (GVKString gvk ∈ structured) then byGVK else addSource gvk (plainSource gvk) byGVK)
  end.

Definition keyOrder (a b : string * (GroupVersionKind * list AdverseSourceConfig)) : Prop := strLt b.1 a.1 = false.
#[local] Instance keyOrder_dec : RelDecision keyOrder.
Proof. intros a b. unfold keyOrder. apply _. Defined.

Definition adverseTriggers (configured : list string) (integrations : list AdverseSourceConfig) :
    GoErr + list (GroupVersionKind * list AdverseSourceConfig) :=
  try structured := addIntegrations integrations ∅ in
  try byGVK := addConfigured (dom structured) configured structured in
  inr (map snd (merge_sort keyOrder (map_to_list byGVK))).

(** ** Matching and classifying a source *)

Definition adverseSourceConfigMatches (integration : AdverseSourceConfig) (source : SourceObject) : bool :=
  (bool_decide (sc_Namespaces integration = [])
   || existsb (λ namespace, bool_decide (TrimSpace namespace = so_Namespace source)) (sc_Namespaces integration))
  && match sc_ObjectSelector integration with
     | None => true
     | Some selector => default false (selectorMatches selector (meta_Labels (so_ObjectMeta source)))
     end.

Definition adverseSituationRouteForSource (source : SourceObject) (integration : AdverseSourceConfig) :
    string * string * string :=
  let namespace := TrimSpace (so_Namespace source) in
  let '(namespace, name, groupKey) :=
    match sc_SituationRef integration with
    | None => (namespace, adverseSituationDefaultName, adverseSituationDefaultGroupKey)
    | Some ref =>
        let namespace := firstNonEmpty [TrimSpace (ref_Namespace ref); namespace] in
        let name := firstNonEmpty [TrimSpace (ref_Name ref); adverseSituationDefaultName] in
        (namespace, name, "situation/" +:+ namespace +:+ "/" +:+ name)
    end in
  (firstNonEmpty [namespace; "default"], name,
   if blank (sc_GroupKey integration) then groupKey else TrimSpace (sc_GroupKey integration)).

Definition adverseSourceConditionStale (condition : Condition) (generation : Z) : bool :=
  (0 <? cond_ObservedGeneration condition) && (0 <? generation)
  && negb (cond_ObservedGeneration condition =? generation).

Definition adverseSourceValueMatches (values : list string) (candidate : string) : bool :=
  existsb (λ value, EqualFold (TrimSpace value) (TrimSpace candidate)) values.

Definition negativeCondition (generation : Z) (classifier : AdverseSourceClassifier) (condition : Condition) : bool :=
  bool_decide (cond_Status condition = ConditionTrue) && negb (adverseSourceConditionStale condition generation)
  && adverseSourceValueMatches (cl_AdverseConditionTypes classifier) (cond_Type condition).

Definition detailCondition (generation : Z) (classifier : AdverseSourceClassifier) (condition : Condition) : bool :=
  negb (adverseSourceConditionStale condition generation)
  && EqualFold (cond_Type condition) (cl_DetailConditionType classifier)
  && bool_decide (cond_Status condition = ConditionFalse).

Definition agentRunNegativeConditionWithClassifier (conditions : list Condition) (phase : string)
    (generation : Z) (classifier : AdverseSourceClassifier) : option Condition :=
  match find (negativeCondition generation classifier) conditions with
  | Some condition => Some condition
  | None =>
      if negb (adverseSourceValueMatches (cl_AdversePhases classifier) phase) then None
      else find (detailCondition generation classifier) conditions
  end.

Definition int64FromValue (value : Json) : Z :=
  match value with JNumber text => numberInt64 text | _ => 0 end.
Definition firstNonZero (values : list Z) : Z := default 0 (find (λ v, negb (v =? 0)) values).

Definition extractConditionsFromStatusMap (items : list Json) : option (list Condition) :=
  mapM (λ item, match item with JObject fields => convertCondition fields | _ => None end) items.

Definition agentRunTriggerForSourceWithClassifier (obj : SourceObject) (configured : AdverseSourceClassifier)
    (now : Time) : option AgentRunTriggerSnapshot :=
  let classifier := adverseSourceClassifierOrDefault configured in
  '(observed, _) ← NestedFieldNoCopy (so_Object obj) (adverseSourceFieldPath (cl_ObservedGenerationPath classifier));
  let observedGeneration := int64FromValue observed in
  if adverseSourceRequiresObservedGeneration classifier
     && ((observedGeneration =? 0) || negb (observedGeneration =? so_Generation obj)) then None else
  '(phaseValue, _) ← NestedString (so_Object obj) (adverseSourceFieldPath (cl_PhasePath classifier));
  '(items, found) ← NestedSlice (so_Object obj) (adverseSourceFieldPath (cl_ConditionsPath classifier));
  conditions ← (if found : bool then extractConditionsFromStatusMap items else Some []);
  let trigger := mkAgentRunTriggerSnapshot (TrimSpace phaseValue) "" "" "" "" observedGeneration
                   (meta_ResourceVersion (so_ObjectMeta obj)) (Some now) in
  match agentRunNegativeConditionWithClassifier conditions phaseValue (so_Generation obj) classifier with
  | Some condition =>
      Some (trigger <| trg_ConditionType := cond_Type condition |> <| trg_ConditionStatus := cond_Status condition |>
              <| trg_Reason := cond_Reason condition |> <| trg_Message := cond_Message condition |>
              <| trg_ObservedGeneration := firstNonZero [cond_ObservedGeneration condition; observedGeneration] |>)
  | None =>
      if adverseSourceValueMatches (cl_AdversePhases classifier) phaseValue then
        Some (trigger <| trg_Reason := gvk_Kind (so_GVK obj) +:+ "NegativePhase" |>
                <| trg_Message := gvk_Kind (so_GVK obj) +:+ " " +:+ so_Namespace obj +:+ "/" +:+ so_Name obj
                     +:+ " reported phase " +:+ TrimSpace phaseValue +:+ "." |>)
      else None
  end.

Definition adverseSituationEventID (source : SourceObject) (trigger : AgentRunTriggerSnapshot) : string :=
  shortHash (Join [GVKString (so_GVK source); so_Namespace source; so_Name source; so_UID source;
    fmtZ (so_Generation source); trg_Phase trigger; trg_ConditionType trigger; trg_Reason trigger] "/").
End config.

(** ** Limits of the buffer *)

Definition positiveOr (value fallback : Z) : Z := if 0 <? value then value else fallback.
Definition adverseSituationQuietPeriodSeconds (buffer : AdverseSituationBufferSpec) : Z :=
  positiveOr (buf_QuietPeriodSeconds buffer) adverseSituationDefaultQuietPeriodSeconds.
Definition adverseSituationDedupeWindowSeconds (buffer : AdverseSituationBufferSpec) : Z :=
  positiveOr (buf_DedupeWindowSeconds buffer) adverseSituationDefaultDedupeWindowSeconds.
Definition adverseSituationPullRequestHoldSeconds (situation : AdverseSituation) : Z :=
  positiveOr (buf_PullRequestQuietPeriodSeconds (ssp_Buffer (sit_Spec situation)))
    adverseSituationDefaultPullRequestHoldSeconds.
Definition adverseSituationMaxEvents (buffer : AdverseSituationBufferSpec) : Z :=
  if 0 <? buf_MaxEvents buffer then Z.min (buf_MaxEvents buffer) adverseSituationHardMaxEvents
  else adverseSituationDefaultMaxEvents.
Definition adverseSituationBuffer (situation : AdverseSituation) : AdverseSituationBufferSpec :=
  ssp_Buffer (sit_Spec situation).
Definition adverseSituationQuietUntil (now : Time) (buffer : AdverseSituationBufferSpec) : option Time :=
  Some (Add now (seconds (adverseSituationQuietPeriodSeconds buffer))).

(** Go: [utf8.RuneStart]. *)
Definition runeStart (c : ascii) : bool := negb ((128 <=? code c) && (code c <? 192))%N.
Fixpoint runeBoundary (l : list ascii) (n : nat) : nat :=
  match n with
  | O => O
  | S m => if runeStart (nth n l zero) then n else runeBoundary l m
  end.
Definition adverseSituationLimitString (value : string) (maxBytes : Z) : string :=
  let value := TrimSpace value in
  if (maxBytes <=? 0) || (Z.of_nat (length (bytes value)) <=? maxBytes) then value
  else TrimSpace (takeStr (runeBoundary (bytes value) (Z.to_nat maxBytes)) value).

Definition adverseSituationNormalizeEvent (event : AdverseSituationEvent) : AdverseSituationEvent :=
  let limit := adverseSituationLimitString in
  let source := aev_SourceRef event in
  event <| aev_ID := limit (aev_ID event) 64 |>
    <| aev_SourceRef := mkAgentRunSourceRef (limit (src_APIVersion source) 128) (limit (src_Kind source) 256)
         (limit (src_Namespace source) 253) (limit (src_Name source) 253) |>
    <| aev_SourceUID := limit (aev_SourceUID event) 256 |>
    <| aev_SourceURL := limit (aev_SourceURL event) 2048 |>
    <| aev_Phase := limit (aev_Phase event) 128 |>
    <| aev_ConditionType := limit (aev_ConditionType event) 256 |>
    <| aev_Reason := limit (aev_Reason event) 256 |>
    <| aev_Message := limit (aev_Message event) 8192 |>
    <| aev_ResourceVersion := limit (aev_ResourceVersion event) 256 |>.

(** ** Recording an event *)

(** A resolved situation starts a new sequence, unless a receipt is outstanding. *)
Definition adverseSituationPrepareSequence (status : AdverseSituationStatus) : option AdverseSituationStatus :=
  if (0 <? sis_Sequence status) && negb (bool_decide (sis_Phase status = AdverseSituationPhaseResolved))
  then Some status
  else if existsb (λ event, negb (bool_decide (aev_ReportIDs event = []))) (sis_Events status) then None
  else
    let next := wrap64 (sis_Sequence status + 1) in
    Some (status <| sis_Sequence := if next <=? 0 then 1 else next |>
      <| sis_Events := [] |> <| sis_EventCount := 0 |> <| sis_DuplicateCount := 0 |>
      <| sis_ActiveResponderRef := None |> <| sis_ActiveResponderUID := "" |> <| sis_ActiveResponderDigest := "" |>
      <| sis_PullRequestURL := "" |> <| sis_PullRequestObservedAt := None |> <| sis_PullRequestQuietUntil := None |>
      <| sis_ResolvedAt := None |>).

(** The situation is open again, and quiet no sooner than its quiet period from now. *)
Definition reopened (now : Time) (buffer : AdverseSituationBufferSpec) (status : AdverseSituationStatus) :
    AdverseSituationStatus :=
  status <| sis_EventCount := wrap32 (sis_EventCount status + 1) |> <| sis_LastEventAt := Some now |>
    <| sis_QuietUntil := adverseSituationQuietUntil now buffer |>
    <| sis_Phase := AdverseSituationPhaseOpen |> <| sis_ResolvedAt := None |>.
Definition duplicated (now : Time) (buffer : AdverseSituationBufferSpec) (status : AdverseSituationStatus) :
    AdverseSituationStatus :=
  (reopened now buffer status) <| sis_DuplicateCount := wrap32 (sis_DuplicateCount status + 1) |>.

Definition adverseSituationAppendEvent (event : AdverseSituationEvent) (now : Time)
    (buffer : AdverseSituationBufferSpec) (status : AdverseSituationStatus) : option AdverseSituationStatus :=
  let maxEvents := Z.to_nat (adverseSituationMaxEvents buffer) in
  let evictCount := (length (sis_Events status) + 1 - maxEvents)%nat in
  if existsb (λ evicted, negb (bool_decide (aev_ReportIDs evicted = []))) (take evictCount (sis_Events status))
  then None
  else
    let event := event <| aev_FirstSeenAt := Some now |> <| aev_LastSeenAt := Some now |> <| aev_Count := 1 |> in
    let events := sis_Events status ++ [event] in
    Some (reopened now buffer (status <| sis_Events := drop (length events - maxEvents) events |>)).

(** The event of the identifier, if it was seen within the window. *)
Definition dedupes (id : string) (now : Time) (buffer : AdverseSituationBufferSpec) (event : AdverseSituationEvent) :
    bool :=
  let window := seconds (adverseSituationDedupeWindowSeconds buffer) in
  bool_decide (aev_ID event = id)
  && negb (match aev_LastSeenAt event with
           | Some seen => (0 <? window) && (window <? Sub now seen)
           | None => false
           end).

(** The first event that satisfies [p] is updated. *)
Fixpoint updateFirst (p : AdverseSituationEvent → bool) (f : AdverseSituationEvent → AdverseSituationEvent)
    (events : list AdverseSituationEvent) : option (list AdverseSituationEvent) :=
  match events with
  | [] => None
  | event :: events =>
      if p event then Some (f event :: events)
      else cons event <$> updateFirst p f events
  end.

Definition seenAgain (now : Time) (event : AdverseSituationEvent) : AdverseSituationEvent :=
  event <| aev_Count := wrap32 (aev_Count event + 1) |> <| aev_LastSeenAt := Some now |>.

Definition sourceEvent `{Unstructured} (source : SourceObject) (trigger : AgentRunTriggerSnapshot) :
    AdverseSituationEvent :=
  zero_AdverseSituationEvent
    <| aev_ID := adverseSituationEventID source trigger |>
    <| aev_SourceRef := mkAgentRunSourceRef (GroupVersionString (so_GVK source)) (gvk_Kind (so_GVK source))
         (so_Namespace source) (so_Name source) |>
    <| aev_SourceUID := so_UID source |> <| aev_SourceGeneration := so_Generation source |>
    <| aev_Phase := TrimSpace (trg_Phase trigger) |> <| aev_ConditionType := TrimSpace (trg_ConditionType trigger) |>
    <| aev_ConditionStatus := trg_ConditionStatus trigger |> <| aev_Reason := TrimSpace (trg_Reason trigger) |>
    <| aev_Message := TrimSpace (trg_Message trigger) |>
    <| aev_ResourceVersion := TrimSpace (trg_ResourceVersion trigger) |>.

(** [None]: not recorded. *)
Definition adverseSituationRecordEvent `{Unstructured} (source : SourceObject) (trigger : AgentRunTriggerSnapshot)
    (buffer : AdverseSituationBufferSpec) (now : Time) (status : AdverseSituationStatus) :
    option AdverseSituationStatus :=
  status ← adverseSituationPrepareSequence status;
  let again event := (seenAgain now event)
    <| aev_Message := adverseSituationLimitString (trg_Message trigger) 8192 |>
    <| aev_ResourceVersion := adverseSituationLimitString (trg_ResourceVersion trigger) 256 |> in
  match updateFirst (dedupes (adverseSituationEventID source trigger) now buffer) again (sis_Events status) with
  | Some events => Some (duplicated now buffer (status <| sis_Events := events |>))
  | None => adverseSituationAppendEvent (adverseSituationNormalizeEvent (sourceEvent source trigger)) now buffer status
  end.

(** The receipts in the buffer. *)
Definition receipts (status : AdverseSituationStatus) : list string :=
  sis_Events status ≫= aev_ReportIDs.

(** The latest report of an event replaces what the event says of its source. *)
Definition latestReport (now : Time) (latest : AdverseSituationEvent) (reportID : string)
    (recorded : AdverseSituationEvent) : AdverseSituationEvent :=
  latest <| aev_ID := aev_ID recorded |> <| aev_ReportIDs := aev_ReportIDs recorded ++ [reportID] |>
    <| aev_Count := wrap32 (aev_Count recorded + 1) |> <| aev_FirstSeenAt := aev_FirstSeenAt recorded |>
    <| aev_LastSeenAt := Some now |>.

(** What becomes of a report: already recorded, refused for want of capacity, or
    recorded in a new status. *)
Inductive Delivery := Recorded | Refused | Changed (status : AdverseSituationStatus).

Definition adverseSituationRecordSignalEvent (event : AdverseSituationEvent) (reportID : string)
    (buffer : AdverseSituationBufferSpec) (now : Time) (status : AdverseSituationStatus) : Delivery :=
  if bool_decide (reportID = "") then Refused
  else if bool_decide (reportID ∈ receipts status) then Recorded
  else match adverseSituationPrepareSequence status with
  | None => Refused
  | Some status =>
      let same := dedupes (aev_ID event) now buffer in
      match find same (sis_Events status) with
      | Some recorded =>
          if adverseSituationMaxReportIDsPerEvent <=? Z.of_nat (length (aev_ReportIDs recorded)) then Refused
          else match updateFirst same (latestReport now (adverseSituationNormalizeEvent event) reportID)
                       (sis_Events status) with
               | Some events => Changed (duplicated now buffer (status <| sis_Events := events |>))
               | None => Refused
               end
      | None =>
          let event := event <| aev_ReportIDs := [reportID] |>
            <| aev_ID := if bool_decide (aev_ID event = "") then shortHash reportID else aev_ID event |> in
          match adverseSituationAppendEvent (adverseSituationNormalizeEvent event) now buffer status with
          | Some status => Changed status
          | None => Refused
          end
      end
  end.
