(* ===== verification/RunPreflight.v ===== *)
(** * What a run waits for before its Job is created

    src/internal/controller/agent_run_controller.go: the data volumes a run mounts
    ([resolveAgentRunDataVolumes], with the reservations of auth sessions and volume
    copies) and the freshness of the external secrets it depends on
    ([ensureAgentRunExternalSecretFreshness]). *)

From stdpp Require Import base list gmap strings.
From Stdlib Require Import ZArith Lia.
From S2P Require Import Prelude GoStrings GoTime Names ApiRun ApiWork Kube RunControl LaunchGate Merge RunOutput RunBackend RunPayload RunJob RunValidation ApiVolume ApiMaintenance DataVolumes RunLaunch.

Open Scope Z_scope.

Definition pending (reason message : string) : Refusal :=
  Some (AgentRunPhasePending, reason, message).

(** ** Data volumes *)

(** The node selector with that of a volume added, or the key on which they differ. *)
Fixpoint addSelector (entries : list (string * string)) (selector : gmap string string) :
    (string * string * string) + gmap string string :=
  match entries with
  | [] => inr selector
  | (key, value) :: entries =>
      match selector !! key with
      | Some existing =>
          if negb (bool_decide (existing = value)) then inl (key, value, existing)
          else addSelector entries (<[key := value]> selector)
      | None => addSelector entries (<[key := value]> selector)
      end
  end.

Section volumes.
Context {W : Type} `{Client W, VolumeClient W}.

Definition AgentAuthSessionBlocksDataVolume (namespace volumeName : string) (w : W) :
    GoErr + option string :=
  match listAuthSessions namespace w with
  | inl e => inl e
  | inr sessions => inr (aas_Name <$> find (λ s,
      bool_decide (TrimSpace (lor_Name (aus_DataVolumeRef (aas_Spec s))) = volumeName)
      && negb (AgentAuthSessionIsTerminal (aut_Phase (aas_Status s)))) sessions)
  end.

Definition AgentDataVolumeCopyBlocksDataVolume (namespace volumeName : string) (w : W) :
    GoErr + option string :=
  match listVolumeCopies namespace w with
  | inl e => inl e
  | inr copies => inr (adc_Name <$> find (λ c,
      negb (AgentDataVolumeCopyIsTerminal (dct_Phase (adc_Status c)))
      && (bool_decide (TrimSpace (lor_Name (dcs_SourceRef (adc_Spec c))) = volumeName)
          || bool_decide (TrimSpace (dcd_Name (dcs_Destination (adc_Spec c))) = volumeName))) copies)
  end.

Definition agentRunDataVolumeWaitingForConsumer (volume : AgentDataVolume) (w : W) : GoErr + bool :=
  match dvt_ClaimRef (adv_Status volume) with
  | None => inr false
  | Some ref =>
      match FindStatusCondition (dvt_Conditions (adv_Status volume)) "Ready" with
      | None => inr false
      | Some ready =>
          if negb (bool_decide (cond_Status ready = ConditionFalse))
             || negb (bool_decide (cond_Reason ready = "ClaimPending")) then inr false else
          let namespace := firstNonEmpty [TrimSpace (ref_Namespace ref); adv_Namespace volume] in
          let claimName := TrimSpace (ref_Name ref) in
          if negb (bool_decide (namespace = adv_Namespace volume)) || bool_decide (claimName = "")
          then inr false
          else match getClaim namespace claimName w with
               | inl e => inl (ErrWrap ("get pending AgentDataVolume claim " +:+ at_ namespace claimName) e)
               | inr pvc =>
                   let className := match pvc_StorageClassName pvc with Some s => TrimSpace s | None => "" end in
                   if negb (bool_decide (pvc_Phase pvc = "Pending")) || bool_decide (className = "")
                   then inr false
                   else match getStorageClass className w with
                        | inl e => inl (ErrWrap ("get StorageClass " +:+ className +:+ " for pending AgentDataVolume " +:+ at_ (adv_Namespace volume) (adv_Name volume)) e)
                        | inr class => inr (bool_decide (sclass_VolumeBindingMode class = Some "WaitForFirstConsumer"))
                        end
               end
      end
  end.

(** Why a volume that exists cannot be mounted now: its application, its status, a
    reservation. *)
Definition volumeAvailable (applicationName namespace name : string) (volume : AgentDataVolume) (w : W) :
    GoErr + Refusal :=
  let where_ := at_ namespace name in
  let status := adv_Status volume in
  let volumeApplication := DataVolumes.applicationName (dv_ApplicationRef (adv_Spec volume)) in
  if isSet (dv_ApplicationRef (adv_Spec volume))
     && (bool_decide (applicationName = "") || negb (bool_decide (volumeApplication = applicationName)))
  then inr (failed "DataVolumeApplicationMismatch" ("AgentDataVolume " +:+ where_ +:+ " is scoped to Application " +:+ quote volumeApplication +:+ ", but the AgentRun resolves to " +:+ quote applicationName +:+ "."))
  else if negb (agentDataVolumeStatusCurrent volume)
  then inr (pending "DataVolumeStatusStale" ("Waiting for AgentDataVolume " +:+ where_ +:+ " status to observe generation " +:+ fmtZ (meta_Generation (adv_ObjectMeta volume)) +:+ "."))
  else
  let waits := bool_decide (dvt_Phase status = AgentDataVolumePhasePending) || bool_decide (dvt_Phase status = "") in
  match (if waits then agentRunDataVolumeWaitingForConsumer volume w else inr true) with
  | inl e => inl e
  | inr false => inr (pending "DataVolumeNotReady" ("Waiting for AgentDataVolume " +:+ where_ +:+ " to become Ready."))
  | inr true =>
      if bool_decide (dvt_Phase status = AgentDataVolumePhaseBlocked)
      then inr (needsHuman "DataVolumeBlocked" (firstNonEmpty [TrimSpace (dvt_LastError status); "AgentDataVolume " +:+ where_ +:+ " is blocked."]))
      else
      match AgentAuthSessionBlocksDataVolume namespace name w with
      | inl e => inl (ErrWrap ("check AgentAuthSession reservation for " +:+ where_) e)
      | inr (Some session) => inr (pending "AuthSessionActive" ("Waiting for AgentAuthSession " +:+ at_ namespace session +:+ " to finish maintenance on AgentDataVolume " +:+ name +:+ "."))
      | inr None =>
          match AgentDataVolumeCopyBlocksDataVolume namespace name w with
          | inl e => inl (ErrWrap ("check AgentDataVolumeCopy reservation for " +:+ where_) e)
          | inr (Some copy) => inr (pending "VolumeCopyActive" ("Waiting for AgentDataVolumeCopy " +:+ at_ namespace copy +:+ " to finish on AgentDataVolume " +:+ name +:+ "."))
          | inr None => inr None
          end
      end
  end.

(** The claim of an available volume: its name, or why it cannot be used. *)
Definition volumeClaim (namespace name : string) (volume : AgentDataVolume) (w : W) :
    GoErr + ((string * string * string) + string) :=
  let where_ := at_ namespace name in
  let refuse phase reason message := inr (inl (phase, reason, message)) in
  let recorded := match dvt_ClaimRef (adv_Status volume) with
                  | Some ref => if blank (ref_Name ref) then None else Some ref
                  | None => None
                  end in
  let claimNamespace := match recorded with
                        | Some ref => firstNonEmpty [TrimSpace (ref_Namespace ref); namespace]
                        | None => namespace
                        end in
  let claimName := match recorded with
                   | Some ref => TrimSpace (ref_Name ref)
                   | None => agentDataVolumeClaimName volume
                   end in
  if negb (bool_decide (claimNamespace = namespace))
  then refuse AgentRunPhaseFailed "CrossNamespaceDataVolumeClaim" ("AgentDataVolume " +:+ where_ +:+ " resolved claim " +:+ at_ claimNamespace claimName +:+ " outside the AgentRun namespace.")
  else if blank claimName
  then refuse AgentRunPhaseNeedsHuman "DataVolumeClaimNotConfigured" ("AgentDataVolume " +:+ where_ +:+ " does not resolve to a PersistentVolumeClaim.")
  else
  let claimUID := TrimSpace (dvt_ClaimUID (adv_Status volume)) in
  if bool_decide (claimUID = "")
  then refuse AgentRunPhasePending "DataVolumeClaimIdentityPending" ("Waiting for AgentDataVolume " +:+ where_ +:+ " to record its PersistentVolumeClaim UID.")
  else
  match getClaim namespace claimName w with
  | inl e =>
      if IsNotFound e
      then refuse AgentRunPhasePending "DataVolumeClaimMissing" ("Waiting for PersistentVolumeClaim " +:+ at_ namespace claimName +:+ " recorded by AgentDataVolume " +:+ where_ +:+ ".")
      else inl (ErrWrap ("get AgentDataVolume claim " +:+ at_ namespace claimName) e)
  | inr pvc =>
      if negb (claimOwnedBy volume pvc)
      then refuse AgentRunPhaseFailed "ForeignDataVolumeClaim" ("PersistentVolumeClaim " +:+ at_ namespace claimName +:+ " is not controlled by AgentDataVolume " +:+ where_ +:+ " with the current UID.")
      else if negb (bool_decide (pvc_UID pvc = claimUID))
      then refuse AgentRunPhaseFailed "DataVolumeClaimReplaced" ("PersistentVolumeClaim " +:+ at_ namespace claimName +:+ " UID no longer matches AgentDataVolume " +:+ where_ +:+ " status.")
      else inr (inr claimName)
  end.

(** One reference: the resolved volume and the node selector so far. *)
Definition resolveVolumeRef (obj : AgentRun) (applicationName : string) (ref : AgentRunDataVolumeRef)
    (nodeSelector : gmap string string) (w : W) :
    GoErr + ((string * string * string) + (resolvedAgentRunDataVolume * gmap string string)) :=
  let refuse phase reason message := inr (inl (phase, reason, message)) in
  let name := TrimSpace (dvr_Name ref) in
  if bool_decide (name = "")
  then refuse AgentRunPhaseFailed "InvalidDataVolumeRef" "spec.harness.execution.dataVolumeRefs entries must set name."
  else
  let namespace := firstNonEmpty [TrimSpace (dvr_Namespace ref); run_Namespace obj] in
  if negb (bool_decide (namespace = run_Namespace obj))
  then refuse AgentRunPhaseFailed "CrossNamespaceDataVolumeRef" "AgentRun dataVolumeRefs must reference AgentDataVolume objects in the AgentRun namespace."
  else
  match getDataVolume namespace name w with
  | inl e => if IsNotFound e
             then refuse AgentRunPhaseNeedsHuman "DataVolumeNotFound" ("AgentDataVolume " +:+ at_ namespace name +:+ " was not found.")
             else inl e
  | inr volume =>
      match volumeAvailable applicationName namespace name volume w with
      | inl e => inl e
      | inr (Some refusal) => inr (inl refusal)
      | inr None =>
          match volumeClaim namespace name volume w with
          | inl e => inl e
          | inr (inl refusal) => inr (inl refusal)
          | inr (inr claimName) =>
              let volumeNodeSelector := agentDataVolumeResolvedNodeSelector volume in
              match addSelector (map_to_list volumeNodeSelector) nodeSelector with
              | inl (key, value, existing) =>
                  refuse AgentRunPhaseFailed "ConflictingNodeSelector" ("AgentDataVolume " +:+ at_ namespace name +:+ " requires nodeSelector " +:+ key +:+ "=" +:+ value +:+ ", but the AgentRun already sets " +:+ key +:+ "=" +:+ existing +:+ ".")
              | inr nodeSelector =>
                  inr (inr (mkResolvedDataVolume name namespace claimName
                    (firstNonEmpty [TrimSpace (dvr_MountPath ref); agentDataVolumeResolvedMountPath volume])
                    (firstNonEmpty [TrimSpace (dvr_SubPath ref); agentDataVolumeResolvedSubPath volume])
                    (dvr_ReadOnly ref) (agentDataVolumeResolvedExtraEnv volume) volumeNodeSelector,
                    nodeSelector))
              end
          end
      end
  end.

Fixpoint resolveVolumeRefs (obj : AgentRun) (applicationName : string) (refs : list AgentRunDataVolumeRef)
    (nodeSelector : gmap string string) (out : list resolvedAgentRunDataVolume) (w : W) :
    GoErr + (list resolvedAgentRunDataVolume * Refusal) :=
  match refs with
  | [] => inr (out, None)
  | ref :: refs =>
      match resolveVolumeRef obj applicationName ref nodeSelector w with
      | inl e => inl e
      | inr (inl refusal) => inr ([], Some refusal)
      | inr (inr (volume, nodeSelector)) =>
          resolveVolumeRefs obj applicationName refs nodeSelector (out ++ [volume]) w
      end
  end.

Definition resolveAgentRunDataVolumes (obj : AgentRun) (w : W) :
    GoErr + (list resolvedAgentRunDataVolume * Refusal) :=
  match ex_DataVolumeRefs (execution obj) with
  | [] => inr ([], None)
  | refs =>
      match resolveAgentRunApplicationName obj w with
      | inl e => inl (ErrWrap "resolve AgentRun application for data volumes" e)
      | inr applicationName =>
          resolveVolumeRefs obj applicationName refs (ex_NodeSelector (execution obj)) [] w
      end
  end.
End volumes.

(** ** External secrets *)

Definition agentRunExternalSecretRefreshPollInterval : Duration := 2 * Second.
Definition agentRunExternalSecretRefreshTimeout : Duration := 120 * Second.
Definition agentRunExternalSecretHealthyMaxAge : Duration := 900 * Second.
Definition agentRunExternalSecretHealthyAcceptAfter : Duration := 10 * Second.

(** Go: [unstructured.NestedFieldNoCopy]; an error and an absent field are both
    [None], as the callers treat them alike. *)
Fixpoint nested (fields : list (string * Json)) (path : list string) : option Json :=
  match path with
  | [] => None
  | name :: path =>
      match snd <$> find (λ kv, bool_decide (kv.1 = name)) fields with
      | None => None
      | Some value =>
          match path, value with
          | [], _ => Some value
          | _, JObject fields => nested fields path
          | _, _ => None
          end
      end
  end.
Definition nestedString (fields : list (string * Json)) (path : list string) : option string :=
  match nested fields path with Some (JString s) => Some s | _ => None end.

Fixpoint externalReadyCondition (items : list Json) : bool * string :=
  match items with
  | [] => (false, "")
  | JObject condition :: items =>
      if negb (bool_decide (nestedString condition ["type"] = Some "Ready")) then externalReadyCondition items
      else if bool_decide (nestedString condition ["status"] = Some "True") then (true, "")
      else match nestedString condition ["message"] with
           | Some message => (false, TrimSpace message)
           | None => (false, "ExternalSecret Ready condition is not true")
           end
  | _ :: items => externalReadyCondition items
  end.

Definition agentRunExternalSecretReady (obj : ExternalSecret) : bool * string :=
  match nested (xs_Object obj) ["status"; "conditions"] with
  | Some (JArray conditions) => externalReadyCondition conditions
  | _ => (false, "")
  end.

Definition agentRunExternalSecretRefreshTime (obj : ExternalSecret) : option Time :=
  match nestedString (xs_Object obj) ["status"; "refreshTime"] with
  | Some value => if blank value then None else ParseRFC3339Nano value
  | None => None
  end.

Definition agentRunExternalSecretTargetName (obj : ExternalSecret) (fallback : string) : string :=
  let named path := match nestedString (xs_Object obj) path with
                    | Some name => if blank name then None else Some (TrimSpace name)
                    | None => None
                    end in
  match named ["status"; "binding"; "name"] with
  | Some name => name
  | None => default fallback (named ["spec"; "target"; "name"])
  end.

Definition agentRunExternalSecretRefreshTimedOut (entry : AgentRunExternalSecretRefreshStatus) (now : Time) :
    bool :=
  match ess_RefreshedAt entry, ess_RequestedAt entry with
  | None, Some requested => agentRunExternalSecretRefreshTimeout <=? Sub now requested
  | _, _ => false
  end.

Definition agentRunExternalSecretRefreshChanged (entry : AgentRunExternalSecretRefreshStatus)
    (refreshTime : Time) : bool :=
  match ess_PreviousRefreshTime entry with
  | Some previous => After refreshTime previous
  | None => match ess_RequestedAt entry with
            | Some requested => negb (Before refreshTime (Truncate requested Second))
            | None => false
            end
  end.

Definition agentRunExternalSecretRefreshStale (refreshTime now : Time) : bool :=
  if IsZero refreshTime || IsZero now then true
  else agentRunExternalSecretHealthyMaxAge <? Sub now refreshTime.

Definition agentRunExternalSecretAcceptHealthyStable (entry : AgentRunExternalSecretRefreshStatus)
    (refreshTime now : Time) : bool :=
  match ess_RequestedAt entry with
  | None => false
  | Some requested =>
      if IsZero refreshTime then false
      else if agentRunExternalSecretRefreshStale refreshTime now then false
      else negb (Before now (Add requested agentRunExternalSecretHealthyAcceptAfter))
  end.

Definition agentRunExternalSecretRefreshDetail (message : string) : string :=
  if blank message then "" else ": " +:+ TrimSpace message.

(** The entry of a reference: its position in the status. *)
Definition agentRunExternalSecretRefreshStatus (status : AgentRunStatus)
    (name namespace targetSecret : string) : option (nat * AgentRunExternalSecretRefreshStatus) :=
  list_find (λ entry, ess_Name entry = name ∧ ess_Namespace entry = namespace
                      ∧ ess_TargetSecret entry = targetSecret) (st_ExternalSecretRefreshes status).

Section freshness.
Context {W : Type} `{Workloads W, Web W}.
Local Open Scope go_scope.

(** The wait of one reference whose refresh was requested: [None] when it is fresh.
    The arguments [accept], [timeout], [stale] are the readings of the clock. *)
Definition freshnessWait (where_ targetWhere : string) (externalSecret : ExternalSecret)
    (entry : AgentRunExternalSecretRefreshStatus) (secretExists : bool) (accept timeout stale : Time) :
    Refusal :=
  let '(ready, readyMessage) := agentRunExternalSecretReady externalSecret in
  let refreshTime := agentRunExternalSecretRefreshTime externalSecret in
  if ready && secretExists
     && match refreshTime with
        | Some t => agentRunExternalSecretRefreshChanged entry t
                    || agentRunExternalSecretAcceptHealthyStable entry t accept
        | None => false
        end
  then None
  else if agentRunExternalSecretRefreshTimedOut entry timeout
  then failed "ExternalSecretRefreshTimedOut" ("ExternalSecret " +:+ where_ +:+ " did not report a fresh target Secret within 2m0s.")
  else if negb ready
  then pending "WaitingForExternalSecretRefresh" ("Waiting for ExternalSecret " +:+ where_ +:+ " to finish its provider reconciliation" +:+ agentRunExternalSecretRefreshDetail readyMessage +:+ ".")
  else if negb secretExists
  then pending "WaitingForExternalSecretTarget" ("Waiting for ExternalSecret " +:+ where_ +:+ " to create target Secret " +:+ targetWhere +:+ ".")
  else match refreshTime with
       | None => pending "WaitingForExternalSecretRefresh" ("Waiting for ExternalSecret " +:+ where_ +:+ " to report a refresh after the AgentRun request.")
       | Some t =>
           if agentRunExternalSecretRefreshStale t stale
           then pending "WaitingForExternalSecretRefresh" ("Waiting for ExternalSecret " +:+ where_ +:+ " to refresh; last Ready refreshTime is older than 15m0s.")
           else pending "WaitingForExternalSecretRefresh" ("Waiting for ExternalSecret " +:+ where_ +:+ " to report a refresh after the AgentRun request.")
       end.

(** One reference: the status with its entry and why the run waits or fails. *)
Definition freshnessOf (obj : AgentRun) (ref : AgentRunExternalSecretRefreshRef) (clock : nat → Time)
    (status : AgentRunStatus) : M W GoErr (AgentRunStatus * Refusal) :=
  let name := TrimSpace (esr_Name ref) in
  let namespace := run_Namespace obj in
  let where_ := at_ namespace name in
  let targetSecret := TrimSpace (ref_Name (esr_TargetSecretRef ref)) in
  let* got := mtry (mread (getExternalSecret namespace name)) in
  match got with
  | inl e =>
      if IsNotFound e
      then mret (status, failed "ExternalSecretNotFound" ("ExternalSecret " +:+ where_ +:+ " was not found for the AgentRun credential preflight."))
      else mfail (ErrWrap ("get ExternalSecret " +:+ where_) e)
  | inr externalSecret =>
      let resolved := agentRunExternalSecretTargetName externalSecret name in
      if negb (bool_decide (resolved = targetSecret))
      then mret (status, failed "ExternalSecretTargetMismatch" ("ExternalSecret " +:+ where_ +:+ " targets Secret " +:+ quote resolved +:+ ", but the AgentRun freshness ref declares " +:+ quote targetSecret +:+ "."))
      else
      match agentRunExternalSecretRefreshStatus status name namespace targetSecret with
      | None =>
          let now := clock 0%nat in
          let* updated := mtry (annotateExternalSecret (namespace, name)
            (<["force-sync" := "agentrun-" +:+ run_UID obj +:+ "-" +:+ fmtZ now]> (xs_Annotations externalSecret))) in
          match updated with
          | inl e => mfail (ErrWrap ("request ExternalSecret refresh " +:+ where_) e)
          | inr _ =>
              let entry := mkAgentRunExternalSecretRefreshStatus name namespace targetSecret (Some now)
                             (agentRunExternalSecretRefreshTime externalSecret) None in
              mret (status <| st_ExternalSecretRefreshes := st_ExternalSecretRefreshes status ++ [entry] |>,
                    pending "ExternalSecretRefreshRequested" ("Requested a fresh provider reconciliation for ExternalSecret " +:+ where_ +:+ " before creating the AgentRun Job."))
          end
      | Some (i, entry) =>
          let* secret := mtry (mread (readSecret namespace targetSecret)) in
          match secret with
          | inl e =>
              if IsNotFound e
              then mret (status, freshnessWait where_ (at_ namespace targetSecret) externalSecret entry false
                                   (clock 1%nat) (clock 2%nat) (clock 3%nat))
              else mfail (ErrWrap ("get ExternalSecret target Secret " +:+ at_ namespace targetSecret) e)
          | inr _ =>
              match freshnessWait where_ (at_ namespace targetSecret) externalSecret entry true
                      (clock 1%nat) (clock 2%nat) (clock 3%nat) with
              | Some r => mret (status, Some r)
              | None =>
                  mret (status <| st_ExternalSecretRefreshes :=
                          <[i := entry <| ess_RefreshedAt := agentRunExternalSecretRefreshTime externalSecret |>]>
                            (st_ExternalSecretRefreshes status) |>, None)
              end
          end
      end
  end.

Fixpoint freshnessLoop (obj : AgentRun) (refs : list AgentRunExternalSecretRefreshRef) (clock : nat → Time)
    (status : AgentRunStatus) : M W GoErr (AgentRunStatus * Refusal) :=
  match refs with
  | [] => mret (status, None)
  | ref :: refs =>
      let* r := freshnessOf obj ref clock status in
      match r with
      | (status, Some refusal) => mret (status, Some refusal)
      | (status, None) => freshnessLoop obj refs (λ n, clock (4 + n)%nat) status
      end
  end.

(** The secrets are fresh when there is no refusal. *)
Definition ensureAgentRunExternalSecretFreshness (obj : AgentRun) (clock : nat → Time)
    (status : AgentRunStatus) : M W GoErr (AgentRunStatus * Refusal) :=
  freshnessLoop obj (ex_ExternalSecretRefreshRefs (execution obj)) clock status.
End freshness.
