(* ===== verification/Archive.v ===== *)
(** * The archive of finished runs

    src/internal/archive/store.go: the row of a run, its normal form and its digest,
    and the upsert of the store.  The database executes the statement; what the
    store sends to it is modelled. *)

From stdpp Require Import base list gmap strings.
From Stdlib Require Import ZArith Lia.
From S2P Require Import Prelude GoStrings GoTime Sha256 Names ApiRun Kube Fixtures RunLaunch.

Open Scope Z_scope.

Definition AgentRunArchiveStorePostgres : string := "anvilhub-postgres".

Record AgentRunArchiveRecord := mkArchiveRecord {
  ar_Namespace : string;
  ar_Name : string;
  ar_UID : string;
  ar_ResourceVersion : string;
  ar_Phase : string;
  ar_Backend : string;
  ar_Intent : string;
  ar_Image : string;
  ar_SourceKind : string;
  ar_SourceNamespace : string;
  ar_SourceName : string;
  ar_ScheduleNamespace : string;
  ar_ScheduleName : string;
  ar_SituationNamespace : string;
  ar_SituationName : string;
  ar_RunnerNode : string;
  ar_PullRequestURL : string;
  ar_Error : string;
  ar_CreatedAt : Time;
  ar_StartedAt : Time;
  ar_CompletedAt : Time;
  ar_RecordedAt : Time;
  ar_RecordDigest : string;
  ar_Labels : Raw;
  ar_Annotations : Raw;
  ar_Spec : Raw;
  ar_Status : Raw;
  ar_Decision : Raw;
  ar_Reports : Raw;
  ar_Result : Raw;
  ar_Output : string }.
#[export] Instance eta_AgentRunArchiveRecord : Eta AgentRunArchiveRecord := λ r, mkArchiveRecord
  (ar_Namespace r) (ar_Name r) (ar_UID r) (ar_ResourceVersion r) (ar_Phase r) (ar_Backend r)
  (ar_Intent r) (ar_Image r) (ar_SourceKind r) (ar_SourceNamespace r) (ar_SourceName r)
  (ar_ScheduleNamespace r) (ar_ScheduleName r) (ar_SituationNamespace r) (ar_SituationName r)
  (ar_RunnerNode r) (ar_PullRequestURL r) (ar_Error r) (ar_CreatedAt r) (ar_StartedAt r)
  (ar_CompletedAt r) (ar_RecordedAt r) (ar_RecordDigest r) (ar_Labels r) (ar_Annotations r)
  (ar_Spec r) (ar_Status r) (ar_Decision r) (ar_Reports r) (ar_Result r) (ar_Output r).

(** What the digest covers. *)
Record ArchiveDigestBody := mkDigestBody {
  db_Namespace : string; db_Name : string; db_UID : string; db_ResourceVersion : string;
  db_Phase : string; db_Spec : Raw; db_Status : Raw }.

(** Rows by primary key: namespace, name and UID. *)
Definition archiveKey (r : AgentRunArchiveRecord) : string * string * string :=
  (ar_Namespace r, ar_Name r, ar_UID r).

(** The statement [INSERT ... ON CONFLICT DO UPDATE] of ArchiveAgentRun. *)
Class ArchiveDB (W : Type) := upsertArchive : AgentRunArchiveRecord → M W GoErr unit.

Definition textOr (text fallback : Raw) : Raw := if bool_decide (text = "") then fallback else text.

Section records.
Context `{Marshal ArchiveDigestBody, Marshal AgentRunSpec, Marshal AgentRunStatus, Marshal (gmap string string)}.
Context `{Marshal AgentRunDecisionStatus, Marshal (list AgentRunStatusReport)}.
Local Open Scope check_scope.

Definition marshalled {A} `{Marshal A} (what : string) (a : A) : GoErr + string :=
  match jsonMarshal a with
  | Some text => inr text
  | None => inl (ErrWrap ("marshal AgentRun " +:+ what) (ErrText "json: unsupported value"))
  end.

Definition agentRunArchiveDigest (r : AgentRunArchiveRecord) : GoErr + string :=
  try body := marshalled "archive digest body" (mkDigestBody (ar_Namespace r) (ar_Name r) (ar_UID r)
                (ar_ResourceVersion r) (ar_Phase r) (ar_Spec r) (ar_Status r)) in
  inr ("sha256:" +:+ sha256Hex body).

Definition trimRecord (r : AgentRunArchiveRecord) : AgentRunArchiveRecord :=
  mkArchiveRecord (TrimSpace (ar_Namespace r)) (TrimSpace (ar_Name r)) (TrimSpace (ar_UID r))
    (TrimSpace (ar_ResourceVersion r)) (TrimSpace (ar_Phase r)) (TrimSpace (ar_Backend r))
    (TrimSpace (ar_Intent r)) (TrimSpace (ar_Image r)) (TrimSpace (ar_SourceKind r))
    (TrimSpace (ar_SourceNamespace r)) (TrimSpace (ar_SourceName r))
    (TrimSpace (ar_ScheduleNamespace r)) (TrimSpace (ar_ScheduleName r))
    (TrimSpace (ar_SituationNamespace r)) (TrimSpace (ar_SituationName r))
    (TrimSpace (ar_RunnerNode r)) (TrimSpace (ar_PullRequestURL r)) (TrimSpace (ar_Error r))
    (ar_CreatedAt r) (ar_StartedAt r) (ar_CompletedAt r) (ar_RecordedAt r) (ar_RecordDigest r)
    (ar_Labels r) (ar_Annotations r) (ar_Spec r) (ar_Status r) (ar_Decision r) (ar_Reports r)
    (ar_Result r) (TrimSpace (ar_Output r)).

(** [now] is read when the record has no time of its own. *)
Definition NormalizeAgentRunArchiveRecord (record : AgentRunArchiveRecord) (now : Time) :
    GoErr + AgentRunArchiveRecord :=
  let r := trimRecord record in
  check (negb (bool_decide (ar_Namespace r = ""))) "AgentRun namespace is required" also
  check (negb (bool_decide (ar_Name r = ""))) "AgentRun name is required" also
  check (negb (bool_decide (ar_UID r = ""))) "AgentRun UID is required" also
  check (negb (bool_decide (ar_Phase r = ""))) "AgentRun phase is required" also
  let r := r <| ar_RecordedAt := if IsZero (ar_RecordedAt r) then now else ar_RecordedAt r |>
             <| ar_Labels := textOr (ar_Labels r) "{}" |>
             <| ar_Annotations := textOr (ar_Annotations r) "{}" |> in
  check (negb (bool_decide (ar_Spec r = ""))) "AgentRun spec archive is required" also
  check (negb (bool_decide (ar_Status r = ""))) "AgentRun status archive is required" also
  let r := r <| ar_Reports := textOr (ar_Reports r) "[]" |> in
  try digest := agentRunArchiveDigest r in
  inr (r <| ar_RecordDigest := digest |>).

Definition archiveRef (ref : option NamespacedObjectReference) (f : NamespacedObjectReference → string) : string :=
  match ref with Some r => TrimSpace (f r) | None => "" end.

Definition NewAgentRunArchiveRecord (run : AgentRun) (archivedAt now : Time) : GoErr + AgentRunArchiveRecord :=
  let archivedAt := if IsZero archivedAt then now else archivedAt in
  let spec := run_Spec run in
  let st := run_Status run in
  try specText := marshalled "spec" spec in
  try statusText := marshalled "status" st in
  try labels := marshalled "labels" (run_Labels run) in
  try annotations := marshalled "annotations" (run_Annotations run) in
  try decision := match st_Decision st with Some d => marshalled "decision" d | None => inr "" end in
  try reports := marshalled "reports" (st_Reports st) in
  NormalizeAgentRunArchiveRecord (mkArchiveRecord (TrimSpace (run_Namespace run)) (TrimSpace (run_Name run))
    (run_UID run) (TrimSpace (meta_ResourceVersion (run_ObjectMeta run))) (st_Phase st)
    (TrimSpace (st_Backend st)) (TrimSpace (st_Intent st)) (TrimSpace (st_Image st))
    (TrimSpace (src_Kind (rs_SourceRef spec))) (TrimSpace (src_Namespace (rs_SourceRef spec)))
    (TrimSpace (src_Name (rs_SourceRef spec)))
    (archiveRef (rs_ScheduleRef spec) ref_Namespace) (archiveRef (rs_ScheduleRef spec) ref_Name)
    (archiveRef (rs_SituationRef spec) ref_Namespace) (archiveRef (rs_SituationRef spec) ref_Name)
    (TrimSpace (st_RunnerNode st)) (TrimSpace (st_PullRequestURL st)) (TrimSpace (st_Error st))
    (run_CreationTimestamp run) (default zeroTime (st_StartedAt st)) (default zeroTime (st_CompletedAt st))
    archivedAt "" labels annotations specText statusText decision reports (st_Result st)
    (TrimSpace (st_Output st))) now.

Context {W : Type} `{ArchiveDB W}.
Local Open Scope go_scope.

Definition ArchiveAgentRun (record : AgentRunArchiveRecord) (now : Time) : M W GoErr ArchiveResult :=
  let* r := liftErr (NormalizeAgentRunArchiveRecord record now) in
  let* stored := mtry (upsertArchive r) in
  match stored with
  | inl e => mfail (ErrWrap ("archive AgentRun " +:+ at_ (ar_Namespace r) (ar_Name r)) e)
  | inr _ => mret (mkArchiveResult AgentRunArchiveStorePostgres (ar_RecordedAt r) (ar_RecordDigest r))
  end.

(** ** Theorems *)

Lemma check_inr b message u : check b message = inr u ↔ b = true.
Proof. destruct b, u; simpl; naive_solver. Qed.
Lemma sbind_inr {A B} (r : GoErr + A) (k : A → GoErr + B) b :
  sbind r k = inr b ↔ ∃ a, r = inr a ∧ k a = inr b.
Proof. destruct r; simpl; naive_solver. Qed.

Lemma trimRecord_idem r : trimRecord (trimRecord r) = trimRecord r.
Proof. destruct r. unfold trimRecord; simpl. by rewrite !TrimSpace_idem. Qed.
Lemma textOr_idem text fallback : textOr (textOr text fallback) fallback = textOr text fallback.
Proof. unfold textOr. repeat case_bool_decide; done. Qed.

(** What a normal record looks like. *)
Record normalRecord (r : AgentRunArchiveRecord) : Prop := {
  nr_trimmed : trimRecord r = r;
  nr_key : ar_Namespace r ≠ "" ∧ ar_Name r ≠ "" ∧ ar_UID r ≠ "" ∧ ar_Phase r ≠ "";
  nr_texts : ar_Spec r ≠ "" ∧ ar_Status r ≠ "";
  nr_defaults : textOr (ar_Labels r) "{}" = ar_Labels r ∧ textOr (ar_Annotations r) "{}" = ar_Annotations r
                ∧ textOr (ar_Reports r) "[]" = ar_Reports r;
  nr_time : IsZero (ar_RecordedAt r) = false;
  nr_digest : agentRunArchiveDigest r = inr (ar_RecordDigest r) }.

Lemma archive_normalize_normal record now r :
  IsZero now = false → NormalizeAgentRunArchiveRecord record now = inr r → normalRecord r.
Proof.
  intros Hnow. unfold NormalizeAgentRunArchiveRecord.
  do 4 (intros ([] & ?%check_inr & Hx)%sbind_inr; revert Hx).
  do 2 (intros ([] & ?%check_inr & Hx)%sbind_inr; revert Hx).
  intros (digest & Hd & [= <-])%sbind_inr. bool_props. pose proof (trimRecord_idem record) as Ht.
  split; [|done|done| | |exact Hd].
  - injection Ht; intros. unfold trimRecord at 1. cbn. by f_equal.
  - cbn. by rewrite !textOr_idem.
  - cbn. by destruct (IsZero (ar_RecordedAt record)) eqn:E.
Qed.

Lemma normal_fixed r now : normalRecord r → NormalizeAgentRunArchiveRecord r now = inr r.
Proof.
  intros [Ht (Hn & Ha & Hu & Hp) [Hs Hst] (Hl & Han & Hr) Htime Hd].
  unfold NormalizeAgentRunArchiveRecord. rewrite Ht, Htime. cbn -[agentRunArchiveDigest].
  rewrite !bool_decide_eq_false_2 by done. cbn -[agentRunArchiveDigest].
  rewrite Hl, Han, Hr. destruct r. cbn in *. by rewrite Hd.
Qed.

(** The row of a run is written as it was built: the second normalization, which
    the store applies, changes nothing, and the digest that the run's status records
    is the digest of the row, over the run's identity, phase, spec and status.
    Readings of the clock are never the zero time. *)
Theorem archive_row_as_recorded run archivedAt now now' r (w w' : W) result :
  IsZero now = false → NewAgentRunArchiveRecord run archivedAt now = inr r →
  ArchiveAgentRun r now' w = (w', inr result) →
  upsertArchive r w = (w', inr tt)
  ∧ result = mkArchiveResult AgentRunArchiveStorePostgres (ar_RecordedAt r) (ar_RecordDigest r)
  ∧ archiveKey r = (TrimSpace (run_Namespace run), TrimSpace (run_Name run), TrimSpace (run_UID run))
  ∧ ∃ body specText statusText, jsonMarshal (run_Spec run) = Some specText
     ∧ jsonMarshal (run_Status run) = Some statusText
     ∧ jsonMarshal (mkDigestBody (TrimSpace (run_Namespace run)) (TrimSpace (run_Name run))
         (TrimSpace (run_UID run)) (TrimSpace (meta_ResourceVersion (run_ObjectMeta run)))
         (TrimSpace (run_Phase run)) specText statusText) = Some body
     ∧ ar_Digest result = "sha256:" +:+ sha256Hex body.
Proof.
  intros Hnow Hnew Harch.
  assert (normalRecord r) as Hr.
  { revert Hnew. unfold NewAgentRunArchiveRecord.
    do 6 (intros (? & _ & Hx)%sbind_inr; revert Hx). by apply archive_normalize_normal. }
  unfold ArchiveAgentRun, mbnd, liftErr in Harch. rewrite (normal_fixed _ _ Hr) in Harch.
  unfold mtry in Harch. destruct (upsertArchive r w) as [w1 [e|[]]] eqn:Eu; [done|].
  injection Harch as <- <-. split_and!; [done|done| |].
  all: revert Hnew; unfold NewAgentRunArchiveRecord.
  all: intros (specText & Hspec & Hx)%sbind_inr; revert Hx.
  all: intros (statusText & Hstatus & Hx)%sbind_inr; revert Hx.
  all: do 4 (intros (? & _ & Hx)%sbind_inr; revert Hx).
  all: unfold NormalizeAgentRunArchiveRecord; do 6 (intros (? & _ & Hx)%sbind_inr; revert Hx).
  all: intros (digest & Hd & [= <-])%sbind_inr.
  - unfold archiveKey. cbn. by rewrite !TrimSpace_idem.
  - unfold agentRunArchiveDigest in Hd. apply sbind_inr in Hd as (body & Hb & [= <-]).
    unfold marshalled in *. cbn -[TrimSpace] in Hb. rewrite !TrimSpace_idem in Hb. unfold run_Phase.
    destruct (jsonMarshal (run_Spec run)) eqn:E1; [|done]. injection Hspec as ->.
    destruct (jsonMarshal (run_Status run)) eqn:E2; [|done]. injection Hstatus as ->.
    destruct (jsonMarshal _) as [b|] eqn:E3 in Hb; [|done]. injection Hb as ->.
    exists body, specText, statusText. by split_and!.
Qed.
End records.

(** ** Witness: a database in memory *)

Lemma run_result {A B} (p : A * B) b : snd p = b → p = (fst p, b).
Proof. destruct p. by intros <-. Qed.

Definition MemArchive : Type := gmap (string * string * string) AgentRunArchiveRecord.
#[export] Instance mem_archive : ArchiveDB MemArchive := λ r w, (<[archiveKey r := r]> w, inr tt).

(** An encoding that writes every value alike. *)
Definition fx_any_json {A} : Marshal A := λ _, Some "{}".
#[local] Existing Instance fx_any_json.

Definition fx_finished : AgentRun := fx_run "agents" "triage" fx_epoch ∅ zero_AgentRunSpec "Succeeded".
Definition fx_row : AgentRunArchiveRecord :=
  match NewAgentRunArchiveRecord fx_finished fx_epoch fx_epoch with
  | inr r => r
  | inl _ => mkArchiveRecord "" "" "" "" "" "" "" "" "" "" "" "" "" "" "" "" "" "" 0 0 0 0 "" "" "" "" "" "" "" "" ""
  end.
Definition fx_db : MemArchive := ∅.
Notation fx_archived := (ArchiveAgentRun fx_row fx_epoch fx_db).
Definition fx_result : ArchiveResult :=
  match snd fx_archived with inr r => r | inl _ => mkArchiveResult "" 0 "" end.

Lemma archive_row_as_recorded_witness :
  snd fx_archived = inr fx_result
    ∧ fx_result = mkArchiveResult AgentRunArchiveStorePostgres (ar_RecordedAt fx_row) (ar_RecordDigest fx_row)
    ∧ archiveKey fx_row = ("agents", "triage", "uid-triage").
Proof.
  assert (snd fx_archived = inr fx_result) as Hs by (vm_compute; reflexivity).
  assert (NewAgentRunArchiveRecord fx_finished fx_epoch fx_epoch = inr fx_row) as Hnew
    by (vm_compute; reflexivity).
  destruct (archive_row_as_recorded fx_finished fx_epoch fx_epoch fx_epoch fx_row fx_db (fst fx_archived)
    fx_result eq_refl Hnew (run_result fx_archived _ Hs)) as (_ & Hr & Hk & _).
  split; [exact Hs|]. split; [exact Hr|]. etransitivity; [exact Hk|vm_compute; reflexivity].
Defined.
