(* ===== verification/RunTerminal.v ===== *)
(** * The end of a run

    Patching the status of a run, terminal runs (agent_run_archive.go: archive,
    retention, deletion; the TTL of their Job) and runs held as duplicates, of
    src/internal/controller. *)

From stdpp Require Import base list gmap strings.
From Stdlib Require Import ZArith Lia Ascii.
From S2P Require Import Prelude GoStrings GoTime Names ApiRun ApiWork Kube RunControl LaunchGate Merge RunOutput RunBackend RunPayload RunJob Standing Substrate RunValidation RunLaunch Archive.

Open Scope Z_scope.

Definition agentRunReady : string := "Ready".
Definition agentRunArchiveRetryInterval : Duration := 300 * Second.
Definition agentRunAnnotationPeerRun : string := "control.anvil.hazyforge.io/peer-run".
Definition agentRunAnnotationPeerOf : string := "control.anvil.hazyforge.io/peer-of".
Definition agentRunLabelPeerOf : string := "control.anvil.hazyforge.io/peer-of".
Definition agentRunAnnotationInterruptDuplicate : string :=
  "control.anvil.hazyforge.io/interrupt-duplicate".

(** The value of [status.result]. *)
Record AgentRunResult := mkRunResult {
  res_output : string;
  res_pullRequestURL : string;
  res_decision : option AgentRunDecisionStatus;
  res_reports : list AgentRunStatusReport }.

(** Go: [strconv.ParseInt(s, 10, 32)]. *)
Definition digit (c : ascii) : option Z :=
  let n := Z.of_N (code c) in if (48 <=? n) && (n <=? 57) then Some (n - 48) else None.
Fixpoint digits (acc : Z) (l : list ascii) : option Z :=
  match l with
  | [] => Some acc
  | c :: l => match digit c with Some d => digits (10 * acc + d) l | None => None end
  end.
Definition ParseInt32 (s : string) : option Z :=
  let value := match bytes s with
               | c :: (_ :: _) as l =>
                   if bool_decide (c = "-"%char) then Z.opp <$> digits 0 (tail l)
                   else if bool_decide (c = "+"%char) then digits 0 (tail l) else digits 0 l
               | [] => None
               | l => digits 0 l
               end in
  match value with
  | Some v => if (- 2 ^ 31 <=? v) && (v <? 2 ^ 31) then Some v else None
  | None => None
  end.

Definition TrimPrefix (s prefix : string) : string :=
  if HasPrefix s prefix then dropStr (String.length prefix) s else s.

(** What the reconciler is configured with: [rc_Archive] tells whether an archive
    store is present. *)
Record RunConfig := mkRunConfig { rc_Options : Options; rc_Planes : Planes; rc_Archive : bool }.

Section terminal.
Context {W : Type} `{Client W, Workloads W, Actors W, ArchiveDB W, Conditions}.
Context `{Marshal AgentRunResult, Decode}.
Context `{Marshal ArchiveDigestBody, Marshal AgentRunSpec, Marshal AgentRunStatus, Marshal (gmap string string)}.
Context `{Marshal AgentRunDecisionStatus, Marshal (list AgentRunStatusReport)}.
Context (cfg : RunConfig).
Local Open Scope go_scope.

Definition agentRunRawResult (status : AgentRunStatus) : Raw :=
  default "" (jsonMarshal (mkRunResult (TrimSpace (st_Output status)) (TrimSpace (st_PullRequestURL status))
                             (st_Decision status) (st_Reports status))).
Definition withResult (status : AgentRunStatus) : AgentRunStatus :=
  status <| st_Result := agentRunRawResult status |>.

(** [apimeta.SetStatusCondition] of the Ready condition. *)
Definition runReady (obj : AgentRun) (now : Time) (st reason message : string) (status : AgentRunStatus) :
    AgentRunStatus :=
  status <| st_Conditions := SetStatusCondition (st_Conditions status)
    (mkCondition agentRunReady st (meta_Generation (run_ObjectMeta obj)) now reason message) |>.

(** A status patch of the run [original]; [ok] gives the result when it is accepted,
    from the run as the server returned it. *)
Definition patchStatusWith (original : AgentRun) (lock : option string) (status : AgentRunStatus)
    (ok : AgentRun → Result) : M W GoErr Result :=
  let* r := mtry (patchRunStatus (run_key original) lock (run_Status original) status) in
  match r with
  | inl e => if IsConflict e then mret requeueNow else mfail e
  | inr patched => mret (ok patched)
  end.
Definition patchStatusThen (original : AgentRun) (lock : option string) (status : AgentRunStatus)
    (ok : Result) : M W GoErr Result := patchStatusWith original lock status (λ _, ok).
Definition patchAgentRunStatus (original : AgentRun) (status : AgentRunStatus) (requeue : bool) :
    M W GoErr Result :=
  patchStatusThen original None status (if requeue then mkResult false agentRunPollInterval else Done).

(** ** Terminal runs *)

Definition agentRunArchived (run : AgentRun) : bool :=
  match st_Archive (run_Status run) with
  | None => false
  | Some a => negb (blank (arch_Store a)) && isSet (arch_ArchivedAt a)
              && negb (blank (arch_Digest a)) && blank (arch_Error a)
  end.

(** Whether the retention has elapsed, and when to look again. *)
Definition terminalRetentionWindow (run : AgentRun) (now : Time) : bool * Duration :=
  if negb (agentRunPhaseTerminal (run_Phase run)) || negb (agentRunArchived run) then (false, 0)
  else if isSet (rs_SituationRef (run_Spec run)) then (false, 0)
  else if opt_AgentRunTerminalRetention (rc_Options cfg) <=? 0 then (false, 0)
  else match setTime (st_CompletedAt (run_Status run)) with
       | None => (false, 0)
       | Some completedAt =>
           let requeueAfter := Sub (Add completedAt (opt_AgentRunTerminalRetention (rc_Options cfg))) now in
           if requeueAfter <=? 0 then (true, 0) else (false, requeueAfter)
       end.
Definition terminalRetentionElapsed (run : AgentRun) (now : Time) : bool := (terminalRetentionWindow run now).1.
Definition terminalRetentionRequeueAfter (run : AgentRun) (now : Time) : Duration :=
  (terminalRetentionWindow run now).2.

Definition substrateThreadID (effective : AgentRun) : string :=
  ThreadIDForRun (src_Kind (rs_SourceRef (run_Spec effective))) (src_Name (rs_SourceRef (run_Spec effective)))
    (run_Name effective).

(** Best effort: the result is ignored. *)
Definition suspendSubstrateActorOnTerminal (run : AgentRun) : M W GoErr unit :=
  if negb (UsesSubstrateActors (execution run)) || negb (substrateLiveClient (rc_Options cfg) (rc_Planes cfg)) then mret tt else
  mtry (SuspendIdleActor (run_Namespace run) (ActorNameForThread (substrateThreadID run))
          (match ex_Substrate (execution run) with Some s => sas_SuspendOnIdle s | None => None end)) ;;
  mret tt.

Definition ensureTerminalAgentRunJobTTL (run : AgentRun) : M W GoErr unit :=
  match st_JobRef (run_Status run) with
  | None => mret tt
  | Some ref =>
      if blank (ref_Name ref) then mret tt else
      let namespace := firstNonEmpty [TrimSpace (ref_Namespace ref); run_Namespace run] in
      if negb (bool_decide (namespace = run_Namespace run))
      then mfail (ErrText ("terminal AgentRun job reference " +:+ at_ namespace (ref_Name ref) +:+ " is outside AgentRun namespace " +:+ run_Namespace run))
      else
      let* got := mtry (mread (getJob namespace (TrimSpace (ref_Name ref)))) in
      match got with
      | inl e => if IsNotFound e then mret tt else mfail e
      | inr job =>
          let uid := st_JobUID (run_Status run) in
          if negb (bool_decide (uid = "")) && negb (bool_decide (job_UID job = uid))
          then mfail (ErrText ("terminal AgentRun Job " +:+ jobAt job +:+ " UID " +:+ job_UID job +:+ " does not match recorded UID " +:+ uid))
          else if isSet (js_TTLSecondsAfterFinished (job_Spec job)) then mret tt
          else
          let raw := TrimSpace (mapGet (meta_Annotations (job_ObjectMeta job)) agentRunAnnotationRequestedTTL) in
          if bool_decide (raw = "") then mret tt else
          let invalid := mfail (ErrText ("Job " +:+ jobAt job +:+ " has invalid requested TTL annotation " +:+ quote raw)) in
          match ParseInt32 raw with
          | None => invalid
          | Some ttl => if ttl <? 0 then invalid else patchJobTTL (job_key job) ttl
          end
      end
  end.

Definition agentRunArchiveErrorMessage (e : GoErr) : string := takeStr 1000 (TrimSpace (errorText e)).

Definition archiveTerminalAgentRun (run : AgentRun) (clock : nat → Time) : M W GoErr Result :=
  let archivedAt := clock 0%nat in
  let* attempt := mtry (let* record := liftErr (NewAgentRunArchiveRecord run archivedAt (clock 1%nat)) in
                        ArchiveAgentRun record (clock 2%nat)) in
  let withArchive a := (run_Status run) <| st_Archive := Some a |> in
  match attempt with
  | inr result =>
      let status := withArchive (mkAgentRunArchiveStatus (ar_Store result) (Some (ar_ArchivedAt result))
                                   (ar_Digest result) "") in
      patchStatusWith run None status (λ archived,
        if terminalRetentionElapsed archived (clock 3%nat) then requeueNow
        else if 0 <? terminalRetentionRequeueAfter archived (clock 4%nat)
        then mkResult false (terminalRetentionRequeueAfter archived (clock 4%nat)) else Done)
  | inl e =>
      patchStatusThen run None (withArchive (mkAgentRunArchiveStatus AgentRunArchiveStorePostgres None ""
                                               (agentRunArchiveErrorMessage e)))
        (mkResult false agentRunArchiveRetryInterval)
  end.

Definition reconcileTerminalAgentRun (run : AgentRun) (clock : nat → Time) : M W GoErr Result :=
  suspendSubstrateActorOnTerminal run ;;
  ensureTerminalAgentRunJobTTL run ;;
  if rc_Archive cfg && negb (agentRunArchived run) then archiveTerminalAgentRun run clock
  else if terminalRetentionElapsed run (clock 5%nat) then
    let* deleted := mtry (deleteRun (run_key run)) in
    match deleted with
    | inl e => if IsNotFound e then mret Done else mfail e
    | inr _ => mret Done
    end
  else if 0 <? terminalRetentionRequeueAfter run (clock 6%nat)
  then mret (mkResult false (terminalRetentionRequeueAfter run (clock 6%nat)))
  else mret Done.

(** ** Runs held as duplicates *)

Definition agentRunInterruptDuplicateRequester (obj : AgentRun) : string :=
  TrimSpace (mapGet (run_Annotations obj) agentRunAnnotationInterruptDuplicate).

Definition agentRunStatusShowsInterruptDuplicate (status : AgentRunStatus) : bool :=
  HasPrefix (TrimSpace (st_Error status)) "interruptDuplicate:"
  || existsb (λ c, bool_decide (cond_Type c = agentRunReady) && bool_decide (cond_Reason c = "InterruptDuplicate"))
       (st_Conditions status).

Definition agentRunInterruptDuplicateHold (obj : AgentRun) : option string :=
  let requester := agentRunInterruptDuplicateRequester obj in
  if negb (bool_decide (requester = "")) then Some requester
  else if agentRunStatusShowsInterruptDuplicate (run_Status obj) then Some "" else None.

Definition duplicateDecision (summary : string) : AgentRunDecisionStatus :=
  mkAgentRunDecisionStatus "duplicate work" agentRunDecisionInterruptDuplicate summary "".

Definition heldStatus (obj : AgentRun) (requester : string) (now : Time) : AgentRunStatus :=
  let status := run_Status obj in
  let message :=
    if HasPrefix (TrimSpace (st_Error status)) "interruptDuplicate:" then TrimSpace (st_Error status)
    else if negb (bool_decide (requester = ""))
    then "interruptDuplicate: duplicate work requested by AgentRun " +:+ at_ (run_Namespace obj) requester
    else "interruptDuplicate: duplicate work" in
  let summary := TrimSpace (TrimPrefix message "interruptDuplicate:") in
  let decided := match st_Decision status with
                 | Some d => bool_decide (TrimSpace (dec_Action d) = agentRunDecisionInterruptDuplicate)
                 | None => false
                 end in
  runReady obj now ConditionFalse "InterruptDuplicate" message
    (status <| st_Phase := AgentRunPhaseFailed |> <| st_CompletedAt := Some now |> <| st_Error := message |>
       <| st_Decision := if decided then st_Decision status
            else Some (duplicateDecision (if bool_decide (summary = "") then "duplicate work" else summary)) |>).

Definition reconcileAgentRunInterruptDuplicateHold (obj : AgentRun) (requester : string)
    (clock : nat → Time) : M W GoErr Result :=
  let* result := patchAgentRunStatus obj (heldStatus obj requester (clock 0%nat)) false in
  let* obj := mread (getRun (run_Namespace obj) (run_Name obj)) in
  reconcileTerminalAgentRun obj (λ n, clock (S n)) ;;
  mret result.
End terminal.
