(* ===== verification/RunObserve.v ===== *)
(** * Watching the execution of a run

    The part of src/internal/controller/agent_run_controller.go that reads the Job
    and the Pod of a run, the peers a running run asks for or interrupts, and
    src/internal/controller/agent_run_substrate_live.go: a turn generated on a
    substrate actor instead of a Job. *)

From stdpp Require Import base list gmap strings.
From Stdlib Require Import ZArith Lia.
From S2P Require Import Prelude GoStrings GoTime Names ApiRun ApiWork Kube RunControl LaunchGate Merge RunOutput RunBackend RunPayload RunJob Standing Substrate RunValidation RunLaunch Archive RunTerminal.

Open Scope Z_scope.

(** ** The Job *)

Definition harnessContainer (job : Job) : option Container :=
  head (pod_Containers (tpl_Spec (js_Template (job_Spec job)))).

Definition agentRunJobContainerImage (job : Job) : string :=
  match harnessContainer job with Some c => TrimSpace (ctr_Image c) | None => "" end.

Definition agentRunJobEnvValue (job : Job) (name : string) : string :=
  match harnessContainer job with
  | Some c => match find (λ item, bool_decide (env_Name item = name)) (ctr_Env c) with
              | Some item => TrimSpace (env_Value item)
              | None => ""
              end
  | None => ""
  end.

Definition agentRunModelFromJob (job : Job) : string :=
  firstNonEmpty (map (λ key, TrimSpace (agentRunJobEnvValue job key))
    ["ANVIL_CODEX_MODEL"; "ANVIL_OPENCODE_MODEL"; "ANVIL_HERMES_MODEL"; "ANVIL_OPENCLAW_MODEL";
     "ANVIL_GROK_BUILD_MODEL"; "ANVIL_PI_MODEL"; "ANVIL_PRIME_MODEL"; "ANVIL_AGY_MODEL"]).

(** [json.Unmarshal] into the two values a Job carries. *)
Class JobRecords := {
  decodeComposition : string → option AgentRunResolvedCompositionStatus;
  decodeVolumes : string → option (list AgentRunDataVolumeStatus) }.

Definition agentRunResolvedCompositionFromJob `{JobRecords} (job : Job) :
    option AgentRunResolvedCompositionStatus :=
  let contents := TrimSpace (mapGet (meta_Annotations (job_ObjectMeta job)) agentRunAnnotationComposition) in
  if bool_decide (contents = "") then None else decodeComposition contents.

Definition agentRunDataVolumeStatusesFromJob `{JobRecords} (job : Job) : list AgentRunDataVolumeStatus :=
  let raw := agentRunJobEnvValue job "ANVIL_AGENT_RUN_DATA_VOLUMES_JSON" in
  if bool_decide (raw = "") then [] else default [] (decodeVolumes raw).

Definition jobConditionTrue (type : string) (job : Job) : bool :=
  existsb (λ c, bool_decide (jc_Type c = type) && bool_decide (jc_Status c = "True"))
    (jst_Conditions (job_Status job)).
Definition agentRunJobComplete (job : Job) : bool :=
  (0 <? jst_Succeeded (job_Status job)) || jobConditionTrue "Complete" job.
Definition agentRunJobFailed (job : Job) : bool := jobConditionTrue "Failed" job.

Definition jobFailureMessage (job : Job) : string :=
  match find (λ c, bool_decide (jc_Type c = "Failed") && negb (blank (jc_Message c)))
          (jst_Conditions (job_Status job)) with
  | Some c => TrimSpace (jc_Message c)
  | None => ""
  end.

(** ** The Pod *)

Definition podTerminationMessage (pod : option Pod) : string :=
  match pod with
  | None => ""
  | Some pod =>
      match omap cs_Terminated (pd_ContainerStatuses pod) with
      | (reason, message) :: _ => firstNonEmpty [TrimSpace message; TrimSpace reason]
      | [] => ""
      end
  end.

Definition agentRunContainerWaitingIsLaunchFailure (reason : string) : bool :=
  bool_decide (TrimSpace reason ∈ ["ErrImagePull"; "ImagePullBackOff"; "InvalidImageName"]).

Fixpoint launchFailureOf (pod : Pod) (statuses : list ContainerStatus) : string :=
  match statuses with
  | [] => ""
  | status :: statuses =>
      match cs_Waiting status with
      | None => launchFailureOf pod statuses
      | Some (reason, message) =>
          if negb (agentRunContainerWaitingIsLaunchFailure reason) then launchFailureOf pod statuses else
          let detail := if blank message then TrimSpace reason else TrimSpace message in
          "Agent run harness pod " +:+ at_ (pd_Namespace pod) (pd_Name pod)
            +:+ " cannot start container " +:+ quote (cs_Name status) +:+ ": " +:+ detail
      end
  end.
Definition agentRunPodLaunchFailureMessage (pod : option Pod) : string :=
  match pod with
  | None => ""
  | Some pod => launchFailureOf pod (pd_InitContainerStatuses pod ++ pd_ContainerStatuses pod)
  end.

Definition podOfJob (job : Job) (pod : Pod) : bool :=
  match GetControllerOf (pd_ObjectMeta pod) with
  | None => false
  | Some owner => bool_decide (own_APIVersion owner = "batch/v1") && bool_decide (own_Kind owner = "Job")
                  && bool_decide (own_Name owner = job_Name job) && bool_decide (own_UID owner = job_UID job)
  end.

(** The loop of [findAgentRunRunnerPod]: the newest Pod of the Job. *)
Definition newerPod (job : Job) (selected : option Pod) (pod : Pod) : option Pod :=
  if negb (podOfJob job pod) then selected else
  match selected with
  | None => Some pod
  | Some s => if After (meta_CreationTimestamp (pd_ObjectMeta pod)) (meta_CreationTimestamp (pd_ObjectMeta s))
              then Some pod else Some s
  end.

Definition findAgentRunRunnerPod {W} `{Workloads W} (job : Job) (w : W) : GoErr + option Pod :=
  if bool_decide (job_UID job = "") then inr None else
  match listPods (job_Namespace job) (agentRunJobLabel, job_Name job) w with
  | inl e => inl (ErrWrap "list agent run pods" e)
  | inr pods => inr (foldl (newerPod job) None pods)
  end.
Definition podRef (pod : Pod) : NamespacedObjectReference := mkNamespacedObjectReference (pd_Name pod) (pd_Namespace pod).

Section observe.
Context {W : Type} `{Client W, Workloads W, Actors W, Conditions}.
Context `{Marshal AgentRunResult, Decode}.
Context (cfg : RunConfig).
Local Open Scope go_scope.

Definition deleteAgentRunJobAfterLaunchFailure (job : Job) : M W GoErr unit :=
  if isSet (setTime (meta_DeletionTimestamp (job_ObjectMeta job))) then mret tt else
  let* deleted := mtry (deleteJob (job_key job)) in
  match deleted with
  | inl e => if IsNotFound e then mret tt else mfail e
  | inr _ => mret tt
  end.

(** ** Peers *)

Definition peerRun (obj : AgentRun) (profile prompt : string) : AgentRun :=
  let spec := run_Spec obj in
  zero_AgentRun
    <| run_ObjectMeta := zero_ObjectMeta
         <| meta_Namespace := run_Namespace obj |>
         <| meta_Labels := <[agentRunLabelIntent := sanitizeLabelValue (har_Intent (rs_Harness spec))]>
              (<[agentRunLabelSourceName := sanitizeLabelValue (src_Name (rs_SourceRef spec))]>
              (<[agentRunLabelSourceKind := sanitizeLabelValue (src_Kind (rs_SourceRef spec))]>
              {[ agentRunLabelPeerOf := sanitizeLabelValue (run_Name obj) ]})) |>
         <| meta_Annotations := {[ agentRunAnnotationPeerOf := run_Name obj ]} |> |>
    <| run_Spec := zero_AgentRunSpec
         <| rs_Purpose := rs_Purpose spec |> <| rs_SourceRef := rs_SourceRef spec |>
         <| rs_SourceUID := rs_SourceUID spec |> <| rs_Prompt := prompt |>
         <| rs_ProfileRef := Some (mkNamespacedObjectReference profile "") |>
         <| rs_Scope := rs_Scope spec |> <| rs_CouncilRef := rs_CouncilRef spec |> |>.

(** Both return the run as it is after their patches of it. *)
Definition ensureRequestedPeerAgentRun (obj : AgentRun) (status : AgentRunStatus)
    (decision : AgentRunDecisionStatus) : M W GoErr AgentRun :=
  if negb (blank (mapGet (run_Annotations obj) agentRunAnnotationPeerRun)) then mret obj else
  let profile := firstNonEmpty [agentRunPeerProfileName status;
    match rs_ProfileRef (run_Spec obj) with Some ref => TrimSpace (ref_Name ref) | None => "" end] in
  if bool_decide (profile = "") then mret obj else
  let prompt := firstNonEmpty [
    agentRunDecisionFieldFromOutput (st_Output status) agentRunDecisionRequestPeer ["peerPrompt"];
    TrimSpace (dec_Summary decision); TrimSpace (rs_Prompt (run_Spec obj))] in
  let* created := mtry (createGenerated (sanitizeLabelValue (run_Name obj) +:+ "-peer-")
                          (peerRun obj profile prompt)) in
  match created with
  | inl e => mfail (ErrWrap ("create peer AgentRun for " +:+ runAt obj) e)
  | inr peer =>
      let* recorded := mtry (annotateRun (run_key obj) agentRunAnnotationPeerRun (run_Name peer)) in
      match recorded with
      | inl e => mfail (ErrWrap ("record peer AgentRun " +:+ run_Name peer +:+ " on " +:+ runAt obj) e)
      | inr obj => mret obj
      end
  end.

Definition interruptible (obj : AgentRun) (named : string) (peer : AgentRun) : bool :=
  negb (bool_decide (run_Name peer = run_Name obj))
  && (bool_decide (named = "") || bool_decide (run_Name peer = named))
  && (negb (bool_decide (named = ""))
      || bool_decide (TrimSpace (src_Name (rs_SourceRef (run_Spec peer)))
                      = TrimSpace (src_Name (rs_SourceRef (run_Spec obj)))))
  && (bool_decide (run_Phase peer = AgentRunPhaseRunning) || bool_decide (run_Phase peer = AgentRunPhasePending)).

Definition interruptedStatus (peer : AgentRun) (summary : string) (now : Time) : AgentRunStatus :=
  let message := "interruptDuplicate: " +:+ summary in
  runReady peer now ConditionFalse "InterruptDuplicate" message
    ((run_Status peer) <| st_Phase := AgentRunPhaseFailed |> <| st_CompletedAt := Some now |>
       <| st_Error := message |> <| st_Decision := Some (duplicateDecision summary) |>).

Definition interruptPeer (obj : AgentRun) (named summary : string) (now : Time) (u : unit) (peer : AgentRun) :
    M W GoErr unit :=
  if negb (interruptible obj named peer) then mret tt else
  let* annotated := mtry (annotateRun (run_key peer) agentRunAnnotationInterruptDuplicate (run_Name obj)) in
  match annotated with
  | inl e => if IsConflict e then mret tt
             else mfail (ErrWrap ("record interrupt-duplicate on AgentRun " +:+ runAt peer) e)
  | inr annotated =>
      let* reloaded := mtry (mread (getRun (run_Namespace annotated) (run_Name annotated))) in
      match reloaded with
      | inl e => mfail (ErrWrap ("reload interrupted AgentRun " +:+ runAt annotated) e)
      | inr peer =>
          let* patched := mtry (patchRunStatus (run_key peer) None (run_Status peer)
                                  (interruptedStatus peer summary now)) in
          match patched with
          | inl e => if IsConflict e then mret tt
                     else mfail (ErrWrap ("interrupt duplicate AgentRun " +:+ runAt peer) e)
          | inr _ => mret tt
          end
      end
  end.

Definition interruptDuplicatePeerRuns (obj : AgentRun) (status : AgentRunStatus)
    (decision : AgentRunDecisionStatus) (now : Time) : M W GoErr unit :=
  let named := agentRunDecisionFieldFromOutput (st_Output status) agentRunDecisionInterruptDuplicate
                 ["duplicateRunName"] in
  let* listed := mtry (mread (listRuns (Some (run_Namespace obj)) None)) in
  match listed with
  | inl e => mfail (ErrWrap "list AgentRuns to interrupt duplicates" e)
  | inr peers =>
      let summary := if blank (dec_Summary decision) then "duplicate work" else TrimSpace (dec_Summary decision) in
      mforeach (interruptPeer obj named summary now) peers tt
  end.

Definition reconcileMidRunPeerDecisions (obj : AgentRun) (status : AgentRunStatus) (now : Time) :
    M W GoErr AgentRun :=
  match st_Decision status with
  | None => mret obj
  | Some decision =>
      let action := TrimSpace (dec_Action decision) in
      if bool_decide (action = agentRunDecisionRequestPeer) then ensureRequestedPeerAgentRun obj status decision
      else if bool_decide (action = agentRunDecisionInterruptDuplicate)
      then interruptDuplicatePeerRuns obj status decision now ;; mret obj
      else mret obj
  end.

(** ** Substrate actors *)

Definition substrateActorSpecForRun (effective : AgentRun) (actorName : string) : ActorSpec :=
  let field f := match ex_Substrate (execution effective) with Some s => f s | None => "" end in
  ActorSpecForRun (run_Namespace effective) actorName (agentRunBackendKind effective)
    (field sas_ActorClass) (field sas_Pool)
    (<[AgentRunChatThreadLabel := sanitizeLabelValue (substrateThreadID effective)]>
       {[ agentRunLabel := sanitizeLabelValue (run_Name effective) ]}).

Definition substrateGenerateAtespace (handle : ActorHandle) : string :=
  let forced := TrimSpace (opt_SubstrateAtespace (rc_Options cfg)) in
  if bool_decide (forced = "") then TrimSpace (ah_Namespace handle) else forced.

(** A status patch after which the actor of the run is suspended. *)
Definition patchThenSuspend (original : AgentRun) (status : AgentRunStatus) : M W GoErr Result :=
  let* r := mtry (patchRunStatus (run_key original) None (run_Status original) status) in
  match r with
  | inl e => if IsConflict e
             then suspendSubstrateActorOnTerminal cfg (original <| run_Status := status |>) ;; mret requeueNow
             else mfail e
  | inr obj => suspendSubstrateActorOnTerminal cfg obj ;; mret Done
  end.

Definition failSubstrateGenerate (original obj : AgentRun) (status : AgentRunStatus) (now : Time)
    (message : string) : M W GoErr Result :=
  let status := withResult (status <| st_Phase := AgentRunPhaseFailed |> <| st_CompletedAt := Some now |>
                              <| st_Error := message |>) in
  patchThenSuspend original (runReady obj now ConditionFalse "SubstrateActorGenerateFailed" message status).

Definition completedDecision (effective : AgentRun) (status : AgentRunStatus) : AgentRunDecisionStatus :=
  mkAgentRunDecisionStatus "completed" (firstNonEmpty [TrimSpace (st_Intent status); agentRunIntent effective])
    (agentRunOutputSummary (st_Output status)) "".

Definition generatedStatus (obj effective : AgentRun) (status : AgentRunStatus) (prompt output : string)
    (now : Time) : AgentRunStatus :=
  let status := status <| st_Output := output |> <| st_PromptHash := shortHash prompt |>
                  <| st_CompletedAt := Some now |> <| st_Error := "" |> in
  let status := withResult (status <| st_Decision := Some (completedDecision effective status) |>) in
  runReady obj now ConditionTrue "SubstrateActorGenerated"
    "Generate-on-actor streamed the frozen prompt through atenet; no Kubernetes Job was created."
    (status <| st_Phase := AgentRunPhaseSucceeded |>).

Definition retryingStatus (obj : AgentRun) (status : AgentRunStatus) (actor : string) (warm : bool) (now : Time) :
    AgentRunStatus :=
  runReady obj now ConditionFalse "SubstrateActorBound"
    ("Generate-on-actor " +:+ (if warm then "resumed a warm Substrate actor" else "created a cold Substrate actor")
       +:+ " " +:+ actor +:+ "; retrying atenet stream. No Kubernetes Job was created.")
    (status <| st_CompletedAt := None |> <| st_Phase := AgentRunPhaseRunning |> <| st_Error := "" |>).

Definition reconcileSubstrateActorRun (original obj : AgentRun) (status : AgentRunStatus) (effective : AgentRun)
    (now : Time) : M W GoErr Result :=
  if agentRunPhaseTerminal (run_Phase obj) || agentRunPhaseTerminal (st_Phase status) then mret Done
  else if negb (shouldGenerateOnActor (rc_Options cfg) (rc_Planes cfg) effective) then mret Done else
  let threadID := substrateThreadID effective in
  let* ensured := EnsureTurnActor (substrateActorSpecForRun effective (ActorNameForThread threadID)) in
  let '(handle, warm) := ensured in
  let status := status <| st_ExecutionRuntime := AgentRunExecutionRuntimeSubstrateActor |>
    <| st_SubstrateActor := Some (mkAgentRunSubstrateActorStatus (ah_Name handle) (ah_ID handle) (ah_State handle)) |>
    <| st_StartedAt := Some (default now (st_StartedAt status)) |>
    <| st_Backend := agentRunBackendKind effective |> in
  let prompt := TrimSpace (rs_Prompt (run_Spec effective)) in
  if bool_decide (prompt = "")
  then failSubstrateGenerate original obj status now "AgentRun spec.prompt is empty; generate-on-actor cannot complete this turn."
  else
  let* reply := mtry (generate (mkGenerateRequest (ah_Name handle) (substrateGenerateAtespace handle) threadID prompt)) in
  match reply with
  | inl e =>
      if errIs ErrGenerateTransient e then
        let status := retryingStatus obj status (ah_Name handle) warm now in
        let* patched := mtry (patchRunStatus (run_key original) None (run_Status original) status) in
        match patched with
        | inl _ => patchAgentRunStatus original status true
        | inr _ => mfail e
        end
      else failSubstrateGenerate original obj status now "generate-on-actor failed; no Kubernetes Job was created."
  | inr text =>
      let output := agentRunTrimOutput text in
      if blank output
      then failSubstrateGenerate original obj status now "generate-on-actor returned an empty reply; no Kubernetes Job was created."
      else patchThenSuspend original (generatedStatus obj effective status prompt output now)
  end.
End observe.
