(* ===== verification/RunReconcile.v ===== *)
(** * Reconciling a run

    [AgentRunReconciler.Reconcile] of src/internal/controller/agent_run_controller.go,
    with the deadline of chat turns (agent_run_chat_startup.go).

    A live run passes through three stages.  [reconcileLive] looks for the Job the
    run may already have; a Job that is missing although it was launched ends the
    run.  [launch] prepares a run without a Job: it resolves its composition,
    validates it, waits for the launch gates, for volumes and secrets, records the
    plan of the launch in the status, then the attempt, and then creates the Job.
    [recoverJob] checks a Job that is found without a record.  [observeJob] follows
    the Job and ends the run with it.

    [clock n] is the n-th reading of the clock, [apiReader w] the cluster as the
    uncached reader sees it. *)

From stdpp Require Import base list gmap strings.
From Stdlib Require Import ZArith Lia.
From S2P Require Import Prelude GoStrings GoTime Names ApiRun ApiWork Kube RunControl LaunchGate Merge Capabilities Composition RunOutput RunBackend RunPayload RunJob Standing Substrate RunValidation ApiVolume DataVolumes RunLaunch RunPreflight Archive RunTerminal RunObserve.

Open Scope Z_scope.

Definition agentRunChatStartupBudget : Duration := 300 * Second.
Definition agentRunChatStartupReason : string := "ChatStartupDeadlineExceeded".
Definition agentRunChatStartupMessage : string :=
  "This chat turn did not start within 5 minutes. No runner Job was found. Send a new message to try again.".

(** [validLabelValue]: [validation.IsValidLabelValue] reports no error. *)
Definition agentRunChatStartupExpired (validLabelValue : string → bool) (run : AgentRun)
    (status : AgentRunStatus) (now : Time) : bool :=
  let source := rs_SourceRef (run_Spec run) in
  if negb (bool_decide (src_Kind source = "ChatThread")) || IsZero (run_CreationTimestamp run)
     || agentRunPhaseTerminal (st_Phase status) || bool_decide (st_Phase status = AgentRunPhaseRunning)
     || isSet (st_StartedAt status) || isSet (st_JobRef status) || negb (bool_decide (st_JobUID status = ""))
     || isSet (st_JobCreateAttemptedAt status) || isSet (st_RunnerPodRef status)
  then false else
  let thread := run_label run AgentRunChatThreadLabel in
  let turn := run_label run AgentRunChatTurnLabel in
  if bool_decide (thread = "") || bool_decide (turn = "") || negb (bool_decide (thread = src_Name source))
     || negb (validLabelValue thread) || negb (validLabelValue turn)
  then false
  else if negb (bool_decide (src_Namespace source = "")) && negb (bool_decide (src_Namespace source = run_Namespace run))
  then false
  else negb (Before now (Add (run_CreationTimestamp run) agentRunChatStartupBudget)).

Section reconcile.
Context {W : Type} `{Client W, Library W, Workloads W, Web W, VolumeClient W, Actors W, ArchiveDB W}.
Context `{Conditions, Decode, NetURL, ClaimJSON, JobRecords}.
Context `{Marshal AgentRunResult, Marshal ArchiveDigestBody, Marshal AgentRunStatus,
  Marshal (gmap string string), Marshal AgentRunDecisionStatus, Marshal (list AgentRunStatusReport)}.
Context `{Marshal AgentRunProfileSpec, Marshal AgentHarnessProfileSpec, Marshal AgentCouncilSpec,
  Marshal AgentSkillSetSpec, Marshal AgentToolSetSpec, Marshal AgentRunSpec}.
Context `{Marshal agentRunJobSnapshot, MarshalIndent AgentRunContext, MarshalIndent AgentRunSpec}.
Context `{Marshal (list AgentRunDataVolumeStatus), Marshal (list string), Marshal (list ToolItem),
  Marshal AgentRunResolvedCompositionStatus}.
Context (cfg : RunConfig) (apiReader : W → W).
Context (validSPIFFEID validLabelValue : string → bool) (agentRunSystemPromptMarkdown : string).
Local Open Scope go_scope.

(** ** Ends *)

(** Go: [if status.StartedAt == nil { status.StartedAt = &now }]. *)
Definition started (now : Time) (status : AgentRunStatus) : AgentRunStatus :=
  status <| st_StartedAt := Some (default now (st_StartedAt status)) |>.

(** The status of a run that is refused before it is launched. *)
Definition refusedStatus (obj : AgentRun) (now : Time) (phase reason message : string)
    (status : AgentRunStatus) : AgentRunStatus :=
  runReady obj now ConditionFalse reason message
    ((started now status) <| st_Phase := phase |> <| st_CompletedAt := Some now |> <| st_Error := message |>).

(** The status of a run that waits. *)
Definition waitingStatus (obj : AgentRun) (now : Time) (reason message : string) (status : AgentRunStatus) :
    AgentRunStatus :=
  runReady obj now ConditionFalse reason message
    (status <| st_Phase := AgentRunPhasePending |> <| st_CompletedAt := None |> <| st_Error := "" |>).

(** The status of a run whose execution failed. *)
Definition failedStatus (obj : AgentRun) (now : Time) (reason message : string) (status : AgentRunStatus) :
    AgentRunStatus :=
  runReady obj now ConditionFalse reason message
    (withResult (status <| st_Phase := AgentRunPhaseFailed |> <| st_CompletedAt := Some now |>
                   <| st_Error := message |>)).

(** ** The deadline of a chat turn *)

(** [None]: not handled here. *)
Definition reconcileAgentRunChatStartupDeadline (original run : AgentRun) (status : AgentRunStatus)
    (now : Time) : M W GoErr (option Result) :=
  if negb (agentRunChatStartupExpired validLabelValue run status now) then mret None else
  let* listed := mtry (mread (λ w, listJobs (run_Namespace run) None (apiReader w))) in
  match listed with
  | inl e => mfail (ErrWrap "confirm chat startup Job absence" e)
  | inr jobs =>
      if existsb (λ job, agentRunControllerOwnerMatches (job_ObjectMeta job) run) jobs
      then mret (Some (mkResult false agentRunPollInterval))
      else
      let status := failedStatus run now agentRunChatStartupReason agentRunChatStartupMessage status in
      let* result := patchStatusThen original (Some (meta_ResourceVersion (run_ObjectMeta original))) status Done in
      mret (Some result)
  end.

(** ** Resolution *)

(** The composition of the run; [recovered] is the Job found without a record. *)
Inductive Resolved :=
  | Stop (r : M W GoErr Result)
  | Go (effective : AgentRun) (composition : AgentRunResolvedCompositionStatus) (status : AgentRunStatus).

Definition resolveRun (obj : AgentRun) (status : AgentRunStatus) (recovered : option Job) (now later : Time)
    (w : W) : Resolved :=
  let '(effective, result) := resolveAgentRunComposition obj w in
  let resolvedStatus := status <| st_Backend := agentRunBackendKind effective |>
    <| st_Model := agentRunBackendModel effective |> <| st_Intent := agentRunIntent effective |>
    <| st_Image := agentRunImageWithOptions effective (rc_Options cfg) |>
    <| st_ExecutionRuntime := EffectiveRuntime (execution effective) |> in
  match result with
  | inl (HaltErr e) => Stop (mfail e)
  | inl HaltPanic => Stop (mfail (ErrPanic "index out of range"))
  | inl (HaltPhase phase reason message) =>
      match recovered with
      | Some job => Stop (mfail (ErrText ("cannot validate recovered AgentRun Job " +:+ jobAt job
          +:+ " without its original resolved composition: " +:+ message)))
      | None => Stop (patchAgentRunStatus obj (refusedStatus obj now phase reason message resolvedStatus) false)
      end
  | inr composition =>
      match agentRunBlockingValidation (rc_Options cfg) (rc_Planes cfg) validSPIFFEID effective later with
      | Some (phase, reason, message) =>
          Stop (patchAgentRunStatus obj (refusedStatus obj now phase reason message resolvedStatus) false)
      | None => Go effective composition resolvedStatus
      end
  end.

(** The volumes of the run. *)
Definition refusedVolumes (obj : AgentRun) (now : Time) (phase reason message : string) (status : AgentRunStatus) :
    M W GoErr Result :=
  if bool_decide (phase = AgentRunPhasePending)
  then patchAgentRunStatus obj (waitingStatus obj now reason message status) true
  else patchAgentRunStatus obj (refusedStatus obj now phase reason message status) false.

(** ** Following the Job *)

(** The output, the reports and the decision in the logs of the runner. *)
Definition withLogs (logs : string) (status : AgentRunStatus) : AgentRunStatus :=
  let status := agentRunApplyStatusReports status (agentRunStatusReportsFromOutput logs) in
  withResult (status <| st_Output := agentRunTrimOutput logs |>).

Definition withPod (pod : option Pod) (status : AgentRunStatus) : AgentRunStatus :=
  match pod with
  | None => status <| st_RunnerPodRef := None |> <| st_RunnerPodUID := "" |>
  | Some pod => status <| st_RunnerPodRef := Some (podRef pod) |>
                  <| st_RunnerPodUID := meta_UID (pd_ObjectMeta pod) |> <| st_RunnerNode := pd_NodeName pod |>
  end.

Definition readRunner (obj : AgentRun) (pod : option Pod) (status : AgentRunStatus) (now : Time) :
    M W GoErr (AgentRun * AgentRunStatus) :=
  match pod with
  | None => mret (obj, status)
  | Some pod =>
      let* logs := mtry (mread (readPodLogs (pd_Namespace pod) (pd_Name pod))) in
      match logs with
      | inl _ => mret (obj, status)
      | inr logs =>
          let status := withLogs logs status in
          let* obj := reconcileMidRunPeerDecisions obj status now in
          mret (obj, status)
      end
  end.

Definition succeededDecision (effective : AgentRun) (status : AgentRunStatus) : AgentRunDecisionStatus :=
  match st_Decision status with
  | None => completedDecision effective status
  | Some d => if blank (dec_Summary d) then d <| dec_Summary := agentRunOutputSummary (st_Output status) |> else d
  end.

Definition completedStatus (obj effective : AgentRun) (now : Time) (status : AgentRunStatus) : AgentRunStatus :=
  let decision := succeededDecision effective status in
  let status := withResult (status <| st_CompletedAt := Some now |> <| st_Error := "" |>
                              <| st_Decision := Some decision |>) in
  if agentRunReportsNeedHuman (st_Reports status) then
    runReady obj now ConditionFalse "HarnessNeedsHuman"
      (firstNonEmpty [dec_Summary decision; agentRunLatestHumanFollowUp (st_Reports status);
         "Agent run reported that human follow-up is required."])
      (status <| st_Phase := AgentRunPhaseNeedsHuman |>)
  else
    runReady obj now ConditionTrue "HarnessSucceeded"
      (firstNonEmpty [dec_Summary decision; "Agent run harness completed successfully."])
      (status <| st_Phase := AgentRunPhaseSucceeded |>).

Definition runningStatus (obj : AgentRun) (job : Job) (now : Time) (status : AgentRunStatus) : AgentRunStatus :=
  runReady obj now ConditionFalse "HarnessRunning" ("Agent run job " +:+ jobAt job +:+ " is running or pending.")
    (status <| st_Phase := AgentRunPhaseRunning |> <| st_CompletedAt := None |> <| st_Error := "" |>).

(** The switch over what the Job has come to. *)
Definition concludeJob (original obj effective : AgentRun) (job : Job) (pod : option Pod)
    (status : AgentRunStatus) (now : Time) (clock : nat → Time) : M W GoErr Result :=
  if agentRunJobComplete job
  then patchAgentRunStatus original (completedStatus obj effective now status) false
  else if agentRunJobFailed job then
    let message := firstNonEmpty [jobFailureMessage job; podTerminationMessage pod; "Agent run harness failed."] in
    patchAgentRunStatus original (failedStatus obj now "HarnessFailed" message status) false
  else match agentRunInterruptDuplicateHold obj with
       | Some requester => reconcileAgentRunInterruptDuplicateHold cfg obj requester clock
       | None =>
           if agentRunStatusShowsInterruptDuplicate status
           then reconcileAgentRunInterruptDuplicateHold cfg obj (agentRunInterruptDuplicateRequester obj) clock
           else patchAgentRunStatus original (runningStatus obj job now status) true
       end.

Definition observeJob (original obj effective : AgentRun) (job : Job) (status : AgentRunStatus) (now : Time)
    (clock : nat → Time) : M W GoErr Result :=
  let status := (started now status) <| st_Image :=
    firstNonEmpty [agentRunJobContainerImage job; agentRunImageWithOptions effective (rc_Options cfg)] |> in
  let* pod := mread (findAgentRunRunnerPod job) in
  let* read := readRunner obj pod (withPod pod status) (clock 0%nat) in
  let '(obj, status) := read in
  let message := agentRunPodLaunchFailureMessage pod in
  if negb (bool_decide (message = "")) then
    deleteAgentRunJobAfterLaunchFailure job ;;
    patchAgentRunStatus original (failedStatus obj now "HarnessLaunchFailed" message status) false
  else concludeJob original obj effective job pod status now (λ n, clock (S n)).

(** ** A Job that is on record *)

Definition jobRefOf (job : Job) : NamespacedObjectReference :=
  mkNamespacedObjectReference (job_Name job) (job_Namespace job).

(** What the status takes from the Job. *)
Definition filledFromJob (job : Job) (status : AgentRunStatus) : AgentRunStatus :=
  status
    <| st_JobUID := if bool_decide (st_JobUID status = "") then job_UID job else st_JobUID status |>
    <| st_ResolvedComposition := match st_ResolvedComposition status with
                                 | Some c => Some c
                                 | None => agentRunResolvedCompositionFromJob job
                                 end |>
    <| st_DataVolumes := match st_DataVolumes status with
                         | [] => agentRunDataVolumeStatusesFromJob job
                         | volumes => volumes
                         end |>
    <| st_Backend := firstNonEmpty [st_Backend status; agentRunJobEnvValue job "ANVIL_AGENT_RUN_BACKEND"] |>
    <| st_Model := firstNonEmpty [st_Model status; agentRunModelFromJob job] |>
    <| st_Intent := firstNonEmpty [st_Intent status; agentRunJobEnvValue job "ANVIL_AGENT_RUN_INTENT"] |>
    <| st_Image := firstNonEmpty [agentRunJobContainerImage job; st_Image status] |>
    <| st_ExecutionRuntime := firstNonEmpty [st_ExecutionRuntime status; AgentRunExecutionRuntimeJob] |>.

Definition resolvedAt (now : Time) (c : AgentRunResolvedCompositionStatus) : AgentRunResolvedCompositionStatus :=
  c <| rcs_ResolvedAt := Some now |>.

(** The Job of a launch whose plan is on record is taken as the run's execution. *)
Definition adoptedStatus (job : Job) (now : Time) (status : AgentRunStatus) : AgentRunStatus :=
  status <| st_JobUID := job_UID job |> <| st_JobRef := Some (jobRefOf job) |>
    <| st_ResolvedComposition :=
         match st_ResolvedComposition status with
         | Some c => Some (if isSet (rcs_ResolvedAt c) then c else resolvedAt now c)
         | None => None
         end |>.

(** ** A Job that is found without a record *)

Definition withComposition (c : AgentRunResolvedCompositionStatus) (effective : AgentRun) : AgentRun :=
  effective <| run_Status := (run_Status effective) <| st_ResolvedComposition := Some c |> |>.

Definition recoverJob (obj : AgentRun) (status : AgentRunStatus) (job : Job) (now : Time) (clock : nat → Time) :
    M W GoErr Result :=
  let* resolved := mread (λ w, inr (resolveRun obj status (Some job) now (clock 0%nat) w)) in
  match resolved with
  | Stop r => r
  | Go effective composition status =>
      let* volumes := mread (resolveAgentRunDataVolumes effective) in
      match volumes with
      | (_, Some (_, _, message)) =>
          mfail (ErrText ("cannot validate recovered AgentRun Job " +:+ jobAt job
            +:+ " without its original resolved data volumes: " +:+ message))
      | (dataVolumes, None) =>
          let prompt := buildAgentRunPrompt agentRunSystemPromptMarkdown effective in
          let promptHash := shortHash prompt in
          let expectedJobName := harnessJobName effective promptHash in
          if negb (bool_decide (job_Name job = expectedJobName))
          then mfail (ErrText ("recovered AgentRun Job " +:+ jobAt job +:+ " does not match expected identity "
                 +:+ at_ (run_Namespace effective) expectedJobName))
          else
          let effective := withComposition composition effective in
          let* ensured := ensureAgentRunConfigMap (rc_Options cfg) effective prompt promptHash in
          let '(payload, payloadDigest) := ensured in
          let composition := composition <| rcs_PayloadDigest := payloadDigest |> in
          let effective := withComposition composition effective in
          let* validated := ensureAgentRunJob (rc_Options cfg) effective promptHash dataVolumes in
          if negb (bool_decide (job_UID job = "")) && negb (bool_decide (job_UID validated = job_UID job))
          then mfail (ErrText ("recovered AgentRun Job " +:+ jobAt job +:+ " changed UID during validation"))
          else
          let* digest := liftErr (agentRunJobSnapshotDigest validated) in
          let status := status <| st_PromptHash := promptHash |> <| st_JobRef := Some (jobRefOf validated) |>
            <| st_JobUID := job_UID validated |>
            <| st_PayloadRef := Some (mkNamespacedObjectReference (cm_Name payload) (cm_Namespace payload)) |>
            <| st_PayloadUID := cm_UID payload |> <| st_JobSpecDigest := digest |>
            <| st_DataVolumes := agentRunDataVolumeStatuses dataVolumes |>
            <| st_ResolvedComposition := Some (resolvedAt now composition) |> in
          observeJob obj obj effective validated status now (λ n, clock (S n))
      end
  end.

(** ** Launching *)

Definition plannedStatus (effective : AgentRun) (promptHash digest : string) (payload : ConfigMap)
    (composition : AgentRunResolvedCompositionStatus) (dataVolumes : list resolvedAgentRunDataVolume)
    (status : AgentRunStatus) : AgentRunStatus :=
  status <| st_PromptHash := promptHash |>
    <| st_PlannedJobRef := Some (mkNamespacedObjectReference (harnessJobName effective promptHash)
                                   (run_Namespace effective)) |>
    <| st_JobSpecDigest := digest |>
    <| st_PayloadRef := Some (mkNamespacedObjectReference (cm_Name payload) (cm_Namespace payload)) |>
    <| st_PayloadUID := cm_UID payload |>
    <| st_DataVolumes := agentRunDataVolumeStatuses dataVolumes |>
    <| st_ResolvedComposition := Some composition |>.

(** The attempt is recorded, under the version of the run that was read, before the
    Job is created; [obj] is then the run as stored. *)
Definition recordAttempt (obj : AgentRun) (status : AgentRunStatus) (now : Time)
    (k : AgentRun → AgentRunStatus → M W GoErr Result) : M W GoErr Result :=
  match st_JobCreateAttemptedAt status with
  | Some _ => k obj status
  | None =>
      let status := status <| st_JobCreateAttemptedAt := Some now |> in
      let* patched := mtry (patchRunStatus (run_key obj) (Some (meta_ResourceVersion (run_ObjectMeta obj)))
                              (run_Status obj) status) in
      match patched with
      | inl e => if IsConflict e then mret requeueNow else mfail e
      | inr obj => k obj status
      end
  end.

Definition createRunJob (obj effective : AgentRun) (status : AgentRunStatus) (promptHash : string)
    (composition : AgentRunResolvedCompositionStatus) (dataVolumes : list resolvedAgentRunDataVolume)
    (now : Time) (clock : nat → Time) : M W GoErr Result :=
  let* job := ensureAgentRunJob (rc_Options cfg) effective promptHash dataVolumes in
  let status := status <| st_PromptHash := promptHash |> <| st_JobRef := Some (jobRefOf job) |>
    <| st_JobUID := job_UID job |> <| st_ResolvedComposition := Some (resolvedAt now composition) |> in
  observeJob obj obj effective job status now clock.

(** The plan of the launch, then its execution. *)
Definition launchJob (obj effective : AgentRun) (status : AgentRunStatus)
    (composition : AgentRunResolvedCompositionStatus) (dataVolumes : list resolvedAgentRunDataVolume)
    (now : Time) (clock : nat → Time) : M W GoErr Result :=
  let prompt := buildAgentRunPrompt agentRunSystemPromptMarkdown effective in
  let promptHash := shortHash prompt in
  let* ensured := ensureAgentRunConfigMap (rc_Options cfg) effective prompt promptHash in
  let '(payload, payloadDigest) := ensured in
  let composition := composition <| rcs_PayloadDigest := payloadDigest |> in
  let effective := withComposition composition effective in
  let desiredJob := agentRunJob (rc_Options cfg) effective (harnessJobName effective promptHash)
                      (cm_Name payload) dataVolumes in
  let* digest := liftErr (agentRunJobSnapshotDigest desiredJob) in
  if negb (agentRunLaunchReceiptComplete status)
  then patchAgentRunStatus obj
         (plannedStatus effective promptHash digest payload composition dataVolumes status) true
  else
  liftErr (validateAgentRunLaunchPlan status desiredJob payload promptHash composition dataVolumes) ;;
  if agentRunChatStartupExpired validLabelValue obj status (clock 0%nat) then mret requeueNow else
  recordAttempt obj status now (λ obj status,
    createRunJob obj effective status promptHash composition dataVolumes now (λ n, clock (S n))).

(** After the volumes: secrets, the authoritative gate, and where the run executes. *)
Definition dispatch (obj effective : AgentRun) (status : AgentRunStatus)
    (composition : AgentRunResolvedCompositionStatus) (dataVolumes : list resolvedAgentRunDataVolume)
    (now : Time) (clock : nat → Time) : M W GoErr Result :=
  let* freshness := ensureAgentRunExternalSecretFreshness effective (λ n, clock (20 + n)%nat) status in
  match freshness with
  | (status, Some (phase, reason, message)) =>
      let pendingPhase := bool_decide (phase = AgentRunPhasePending) in
      let status := runReady obj now ConditionFalse reason message
        (status <| st_Phase := phase |> <| st_CompletedAt := if pendingPhase then None else Some now |>
           <| st_Error := message |>) in
      if pendingPhase
      then patchStatusThen obj None status (mkResult false agentRunExternalSecretRefreshPollInterval)
      else patchAgentRunStatus obj status false
  | (status, None) =>
      let* paused := mread (λ w, agentRunLaunchPausedWithReader effective (clock 0%nat) (clock 1%nat) (apiReader w)) in
      let '(isPaused, reason, message, requeueAfter) := paused in
      if isPaused
      then patchStatusThen obj None (waitingStatus obj (clock 2%nat) reason message status)
             (mkResult false requeueAfter)
      else if shouldGenerateOnActor (rc_Options cfg) (rc_Planes cfg) effective
      then reconcileSubstrateActorRun cfg obj obj status effective now
      else launchJob obj effective status composition dataVolumes now (λ n, clock (3 + n)%nat)
  end.

Definition queuedMessage (reason : string) (ahead : AgentRun) : string :=
  (if bool_decide (reason = "QueuedBehindApplicationRun") then "Waiting behind application AgentRun "
   else "Waiting behind scheduled AgentRun ") +:+ runAt ahead +:+ ".".

Definition launch (obj : AgentRun) (status : AgentRunStatus) (now : Time) (clock : nat → Time) :
    M W GoErr Result :=
  let* resolved := mread (λ w, inr (resolveRun obj status None now (clock 0%nat) w)) in
  match resolved with
  | Stop r => r
  | Go effective composition status =>
      let* paused := mread (agentRunLaunchPausedWithReader effective (clock 1%nat) (clock 2%nat)) in
      let '(isPaused, reason, message, requeueAfter) := paused in
      if isPaused
      then patchStatusThen obj None (waitingStatus obj (clock 3%nat) reason message status)
             (mkResult false requeueAfter)
      else
      let* queued := mread (agentRunQueuedBehind (opt_ApplicationMaxConcurrentRuns (rc_Options cfg)) effective) in
      match queued with
      | (Some ahead, reason) =>
          patchAgentRunStatus obj (waitingStatus obj (clock 4%nat) reason (queuedMessage reason ahead) status) true
      | (None, _) =>
          let* volumes := mread (resolveAgentRunDataVolumes effective) in
          let '(dataVolumes, refusal) := volumes in
          let status := status <| st_DataVolumes := agentRunDataVolumeStatuses dataVolumes |> in
          match refusal with
          | Some (phase, reason, message) => refusedVolumes obj now phase reason message status
          | None => dispatch obj effective status composition dataVolumes now (λ n, clock (5 + n)%nat)
          end
      end
  end.

(** ** Reconciling *)

(** The status the reconciliation starts from: a change of the spec discards it,
    unless it records an execution. *)
Definition startingStatus (obj : AgentRun) : AgentRunStatus :=
  let status := run_Status obj in
  let generation := meta_Generation (run_ObjectMeta obj) in
  let changed := negb (st_ObservedGeneration status =? 0) && negb (st_ObservedGeneration status =? generation) in
  let preserveExecution := negb (agentRunPhaseTerminal (st_Phase status))
    && (match st_JobRef status with Some ref => negb (blank (ref_Name ref)) | None => false end
        || agentRunLaunchReceiptComplete status || isSet (st_JobCreateAttemptedAt status)) in
  (if changed && negb preserveExecution then zero_AgentRunStatus else status)
    <| st_ObservedGeneration := generation |>.

Definition plannedLaunch (status : AgentRunStatus) : bool :=
  agentRunLaunchReceiptComplete status && negb (isSet (st_JobRef status)) && bool_decide (st_JobUID status = "").

(** The Job of the run, and why its absence ends the run. *)
Definition lookupJob (obj : AgentRun) (status : AgentRunStatus) (w : W) : GoErr + (option Job * string) :=
  let planned := plannedLaunch status in
  let attempted := isSet (st_JobCreateAttemptedAt status) in
  let ref := if planned then st_PlannedJobRef status else st_JobRef status in
  match existingAgentRunJob obj ref (st_JobUID status) (planned && negb attempted) w with
  | inl e => inl e
  | inr (job, message) =>
      if negb (bool_decide (message = "")) && planned && attempted
      then inr (job, "Agent run job " +:+ match ref with Some ref => refAt ref | None => "" end
                +:+ " is absent after a recorded create attempt; refusing to create a replacement execution.")
      else inr (job, message)
  end.

Definition reconcileLive (obj : AgentRun) (clock : nat → Time) : M W GoErr Result :=
  let status := startingStatus obj in
  let now := clock 0%nat in
  let later n := clock (S n) in
  let* found := mread (lookupJob obj status) in
  let '(job, missing) := found in
  if negb (bool_decide (missing = ""))
  then patchAgentRunStatus obj (failedStatus obj now "HarnessJobMissing" missing status) false
  else match job with
  | None =>
      let* handled := reconcileAgentRunChatStartupDeadline obj obj status now in
      match handled with
      | Some result => mret result
      | None => launch obj status now later
      end
  | Some job =>
      if bool_decide (st_JobUID status = "") && agentRunLaunchReceiptComplete status then
        if negb (isSet (st_JobCreateAttemptedAt status))
        then mfail (ErrText ("AgentRun Job " +:+ jobAt job +:+ " exists without the required create-attempt receipt"))
        else
        mread (validateAgentRunLaunchReceipt obj job status) ;;
        observeJob obj obj obj job (filledFromJob job (adoptedStatus job now status)) now later
      else if isSet (st_JobRef status)
      then observeJob obj obj obj job (filledFromJob job status) now later
      else recoverJob obj status job now later
  end.

(** [AgentRunReconciler.Reconcile] *)
Definition reconcileAgentRun (namespace name : string) (clock : nat → Time) : M W GoErr Result :=
  let* got := mtry (mread (getRun namespace name)) in
  match got with
  | inl e => if IsNotFound e then mret Done else mfail e
  | inr obj =>
      if isSet (setTime (meta_DeletionTimestamp (run_ObjectMeta obj))) then mret Done else
      match agentRunInterruptDuplicateHold obj with
      | Some requester => reconcileAgentRunInterruptDuplicateHold cfg obj requester clock
      | None =>
          if agentRunPhaseTerminal (run_Phase obj) then reconcileTerminalAgentRun cfg obj clock
          else reconcileLive obj clock
      end
  end.

(** ** Corners of the handler *)

(** A Job that is found without a record does not keep the run from being refused: a
    run whose effective spec fails the blocking validation is ended, although its
    execution exists. *)
Theorem recovered_run_refused obj status job now clock w effective composition phase reason message :
  resolveAgentRunComposition obj w = (effective, inr composition) →
  agentRunBlockingValidation (rc_Options cfg) (rc_Planes cfg) validSPIFFEID effective (clock 0%nat)
    = Some (phase, reason, message) →
  ∃ ended, st_Phase ended = phase ∧ st_CompletedAt ended = Some now ∧ st_Error ended = message
    ∧ st_JobRef ended = st_JobRef status
    ∧ recoverJob obj status job now clock w = patchAgentRunStatus obj ended false w.
Proof.
  intros Hc Hv. eexists. do 4 (split; [shelve|]). unfold recoverJob, mbnd, mread, resolveRun.
  rewrite Hc, Hv. reflexivity. Unshelve. all: reflexivity.
Qed.

(** A held run is marked completed anew by every reconciliation, so that its
    retention never passes. *)
Theorem held_run_retained obj requester now later :
  0 < Sub (Add now (opt_AgentRunTerminalRetention (rc_Options cfg))) later →
  terminalRetentionElapsed cfg (obj <| run_Status := heldStatus obj requester now |>) later = false.
Proof.
  intros Hl. unfold terminalRetentionElapsed, terminalRetentionWindow.
  destruct (agentRunPhaseTerminal _); [|done]. destruct (agentRunArchived _); [|try done]; simpl.
  all: destruct (isSet _); [done|]; destruct (_ <=? 0); [done|].
  all: change (st_CompletedAt (run_Status (obj <| run_Status := heldStatus obj requester now |>))) with (Some now);
  unfold setTime; destruct (IsZero now); [done|]; destruct (_ <=? 0) eqn:E; [lia|done].
Qed.

(** The actor of a run is suspended by the spec of the run itself: a run that takes
    its runtime from a profile leaves its actor running. *)
Theorem suspend_reads_own_spec run w :
  UsesSubstrateActors (execution run) = false → suspendSubstrateActorOnTerminal cfg run w = (w, inr tt).
Proof. unfold suspendSubstrateActorOnTerminal. by intros ->. Qed.
End reconcile.
