(* ===== verification/RunTriples.v ===== *)
(** * Reasoning about reconciliations of runs

    The promises of the cluster the AgentRun controller relies on ([RunLaws]), the
    record of an execution in the status of a run ([safe]), and the rules by which
    a property of the server is carried through a whole reconciliation: a property
    that the writes of the controller keep ([Stable]) holds after it, but for what
    the launch of a Job does ([launches]).

    The controller reads runs through a cache: a read may return any version the
    server has stored ([g_seen]), not only the present one. *)

From stdpp Require Import base list gmap strings.
From Stdlib Require Import ZArith Lia.
From S2P Require Import Prelude GoStrings GoTime Names ApiRun ApiWork Kube RunControl LaunchGate Merge Capabilities Composition RunOutput RunBackend RunPayload RunJob Standing Substrate RunValidation ApiVolume DataVolumes RunLaunch RunPreflight Archive RunTerminal RunObserve RunReconcile.

Open Scope Z_scope.

(** ** The server *)

(** The Jobs the server has accepted, the runs it stores, every version of a run it
    has stored, and the versions that were the present ones when they were deleted. *)
Record RunGhost := mkGhost {
  g_jobs : list Job; g_current : gmap key AgentRun; g_seen : list AgentRun; g_deleted : list AgentRun }.

Definition putRun (r : AgentRun) (g : RunGhost) : RunGhost :=
  mkGhost (g_jobs g) (<[run_key r := r]> (g_current g)) (r :: g_seen g) (g_deleted g).
Definition dropRun (k : key) (g : RunGhost) : RunGhost :=
  mkGhost (g_jobs g) (delete k (g_current g)) (g_seen g) (g_deleted g ++ option_list (g_current g !! k)).
Definition addJob (j : Job) (g : RunGhost) : RunGhost :=
  mkGhost (g_jobs g ++ [j]) (g_current g) (g_seen g) (g_deleted g).

Definition resourceVersion (r : AgentRun) : string := meta_ResourceVersion (run_ObjectMeta r).

(** A JSON merge patch from [base] to [new] of a field of the stored status. *)
Definition mergedField {A} (f : AgentRunStatus → A) (base new stored out : AgentRunStatus) : Prop :=
  (f new = f base → f out = f stored) ∧ (f new ≠ f base → f out = f new).

(** A field that is an object is merged in turn. *)
Definition mergedRef (f : AgentRunStatus → option NamespacedObjectReference)
    (base new stored out : AgentRunStatus) : Prop :=
  (f new = f base → f out = f stored)
  ∧ (f new ≠ f base → f new = None → f out = None)
  ∧ ∀ n, f new ≠ f base → f new = Some n →
      ∃ m, f out = Some m
        ∧ (ref_Name m = ref_Name n ∨ ∃ c, f stored = Some c ∧ ref_Name m = ref_Name c).

Record patchedStatus (base new stored out : AgentRunStatus) : Prop := {
  ps_attempted : mergedField st_JobCreateAttemptedAt base new stored out;
  ps_uid : mergedField st_JobUID base new stored out;
  ps_ref : mergedRef st_JobRef base new stored out;
  ps_phase : mergedField st_Phase base new stored out;
  ps_completed : mergedField st_CompletedAt base new stored out }.

(** The Jobs controlled by the object with a UID. *)
Definition controlledBy (uid : string) (j : Job) : bool :=
  match GetControllerOf (job_ObjectMeta j) with
  | Some o => bool_decide (own_UID o = uid)
  | None => false
  end.

Section laws.
Context (W : Type) `{Client W, Workloads W, Actors W, ArchiveDB W}.

(** Documented behaviour of the API server and of the cache of the client.  Names
    are not used again, and Jobs do not leave the cache while one reconciliation
    writes the payload. *)
Class RunLaws := {
  ghost : W → RunGhost;
  ghost_key w k r : g_current (ghost w) !! k = Some r → run_key r = k;
  ghost_current w k r : g_current (ghost w) !! k = Some r → r ∈ g_seen (ghost w);
  ghost_version w r c :
    r ∈ g_seen (ghost w) → g_current (ghost w) !! run_key r = Some c →
    resourceVersion r = resourceVersion c → r = c;
  ghost_uid w r r' :
    r ∈ g_seen (ghost w) → r' ∈ g_seen (ghost w) → run_key r = run_key r' ↔ run_UID r = run_UID r';
  (** reads *)
  getRun_seen w ns n r : getRun ns n w = inr r → r ∈ g_seen (ghost w) ∧ run_key r = (ns, n);
  listRuns_seen w ns sel l r : listRuns ns sel w = inr l → r ∈ l → r ∈ g_seen (ghost w);
  getJob_named w ns n j : getJob ns n w = inr j → blank (job_Name j) = false;
  listJobs_named w ns sel l j : listJobs ns sel w = inr l → j ∈ l → blank (job_Name j) = false;
  listJobs_get w ns sel l j :
    listJobs ns sel w = inr l → j ∈ l →
    ∀ e, getJob ns (job_Name j) w = inl e → IsNotFound e = false;
  (** writes of runs: refused, or stored with a new version; a lost response can hide
      a write that was applied *)
  patchRunStatus_law k lock base s w w' x :
    patchRunStatus k lock base s w = (w', x) →
    (ghost w' = ghost w ∧ ∃ e, x = inl e)
    ∨ ∃ r r', g_current (ghost w) !! k = Some r
       ∧ (∀ v, lock = Some v → resourceVersion r = v)
       ∧ run_key r' = k ∧ run_UID r' = run_UID r
       ∧ patchedStatus base s (run_Status r) (run_Status r')
       ∧ ghost w' = putRun r' (ghost w) ∧ (∀ r'', x = inr r'' → r'' = r');
  annotateRun_law k a v w w' x :
    annotateRun k a v w = (w', x) →
    (ghost w' = ghost w ∧ ∃ e, x = inl e)
    ∨ ∃ r r', g_current (ghost w) !! k = Some r
       ∧ run_key r' = k ∧ run_UID r' = run_UID r ∧ run_Status r' = run_Status r
       ∧ ghost w' = putRun r' (ghost w) ∧ (∀ r'', x = inr r'' → r'' = r');
  createGenerated_law p r w w' x :
    createGenerated p r w = (w', x) →
    (ghost w' = ghost w ∧ ∃ e, x = inl e)
    ∨ ∃ r', (∀ s, s ∈ g_seen (ghost w) → run_key s ≠ run_key r' ∧ run_UID s ≠ run_UID r')
       ∧ (∀ j, j ∈ g_jobs (ghost w) → controlledBy (run_UID r') j = false)
       ∧ run_Status r' = zero_AgentRunStatus ∧ ghost w' = putRun r' (ghost w);
  deleteRun_law k w w' x :
    deleteRun k w = (w', x) → ghost w' = ghost w ∨ ghost w' = dropRun k (ghost w);
  (** writes of Jobs *)
  createJob_law j w w' x :
    createJob j w = (w', x) →
    (ghost w' = ghost w ∧ ∃ e, x = inl e)
    ∨ ∃ j', meta_OwnerReferences (job_ObjectMeta j') = meta_OwnerReferences (job_ObjectMeta j)
       ∧ admitted j j' ∧ blank (job_Name j') = false
       ∧ ghost w' = addJob j' (ghost w) ∧ (∀ j'', x = inr j'' → j'' = j');
  (** other writes *)
  getConfigMap_named w ns n c : getConfigMap ns n w = inr c → cm_Name c = n;
  createConfigMap_law c w w' x :
    createConfigMap c w = (w', x) →
    ghost w' = ghost w ∧ (∀ ns n, getJob ns n w' = getJob ns n w)
    ∧ ∀ c', x = inr c' → cm_Name c' = cm_Name c;
  updateConfigMap_law c w w' x :
    updateConfigMap c w = (w', x) →
    ghost w' = ghost w ∧ (∀ ns n, getJob ns n w' = getJob ns n w)
    ∧ ∀ c', x = inr c' → cm_Name c' = cm_Name c;
  deleteJob_quiet k w w' x : deleteJob k w = (w', x) → ghost w' = ghost w;
  patchJobTTL_quiet k t w w' x : patchJobTTL k t w = (w', x) → ghost w' = ghost w;
  annotateExternalSecret_quiet k m w w' x :
    annotateExternalSecret k m w = (w', x) → ghost w' = ghost w;
  describeActor_quiet ns n w w' x : describeActor ns n w = (w', x) → ghost w' = ghost w;
  resumeActor_quiet ns n w w' x : resumeActor ns n w = (w', x) → ghost w' = ghost w;
  createActor_quiet s w w' x : createActor s w = (w', x) → ghost w' = ghost w;
  suspendActor_quiet ns n w w' x : suspendActor ns n w = (w', x) → ghost w' = ghost w;
  generate_quiet r w w' x : generate r w = (w', x) → ghost w' = ghost w;
  upsertArchive_quiet r w w' x : upsertArchive r w = (w', x) → ghost w' = ghost w }.
End laws.

(** ** The invariant *)

(** A recorded UID comes with a reference, and a reference names a Job. *)
Definition identified (s : AgentRunStatus) : Prop :=
  (st_JobUID s ≠ "" → st_JobRef s ≠ None)
  ∧ ∀ ref, st_JobRef s = Some ref → blank (ref_Name ref) = false.
Definition attempted (s : AgentRunStatus) : Prop := st_JobCreateAttemptedAt s ≠ None.

Record safe (g : RunGhost) : Prop := {
  sf_identified r : r ∈ g_seen g → identified (run_Status r);
  sf_attempted r c : r ∈ g_seen g → g_current g !! run_key r = Some c →
    attempted (run_Status r) → attempted (run_Status c);
  sf_ref r c : r ∈ g_seen g → g_current g !! run_key r = Some c →
    st_JobRef (run_Status r) ≠ None → st_JobRef (run_Status c) ≠ None;
  sf_one uid : (length (filter (λ j, controlledBy uid j = true) (g_jobs g)) ≤ 1)%nat;
  sf_launched k c j : g_current g !! k = Some c → j ∈ g_jobs g →
    controlledBy (run_UID c) j = true → attempted (run_Status c) }.

(** A status that keeps the execution on record. *)
Record kept (base new : AgentRunStatus) : Prop := {
  kp_attempted : st_JobCreateAttemptedAt new = st_JobCreateAttemptedAt base;
  kp_ident : st_JobRef new = st_JobRef base ∧ st_JobUID new = st_JobUID base
             ∨ ∃ ref, st_JobRef new = Some ref ∧ blank (ref_Name ref) = false }.

(** ** What writes do to it *)

Lemma safe_drop k g : safe g → safe (dropRun k g).
Proof.
  intros [Hi Ha Hr Ho Hl]. split; simpl; auto.
  - intros r c Hs [_ Hc]%lookup_delete_Some. eauto.
  - intros r c Hs [_ Hc]%lookup_delete_Some. eauto.
  - intros k' c j [_ Hc]%lookup_delete_Some. eauto.
Qed.

(** A new version of a stored run that keeps what is on record. *)
Lemma safe_put g r r' :
  safe g → g_current g !! run_key r' = Some r → run_UID r' = run_UID r →
  r ∈ g_seen g → run_key r = run_key r' →
  identified (run_Status r') →
  (attempted (run_Status r) → attempted (run_Status r')) →
  (st_JobRef (run_Status r) ≠ None → st_JobRef (run_Status r') ≠ None) →
  safe (putRun r' g).
Proof.
  intros [Hi Ha Hr Ho Hl] Hc Hu Hs Hk Hid Hat Href. split; simpl; auto.
  - intros s [->|Hs']%elem_of_cons; auto.
  - intros s c [->|Hs']%elem_of_cons [[Hk' ->]|[Hne Hc']]%lookup_insert_Some ?; try done.
    + apply Hat. eapply Ha; eauto. by rewrite <- Hk'.
    + eauto.
  - intros s c [->|Hs']%elem_of_cons [[Hk' ->]|[Hne Hc']]%lookup_insert_Some ?; try done.
    + apply Href. eapply Hr; eauto. by rewrite <- Hk'.
    + eauto.
  - intros k c j [[Hk' ->]|[Hne Hc']]%lookup_insert_Some Hj Hcb; [|eauto].
    apply Hat. eapply Hl; eauto. by rewrite <- Hu.
Qed.

(** A new run. *)
Lemma safe_new g r' :
  safe g → (∀ s, s ∈ g_seen g → run_key s ≠ run_key r') →
  (∀ j, j ∈ g_jobs g → controlledBy (run_UID r') j = false) →
  run_Status r' = zero_AgentRunStatus → safe (putRun r' g).
Proof.
  intros [Hi Ha Hr Ho Hl] Hfresh Hj Hz. split; simpl; auto.
  - intros s [->|Hs']%elem_of_cons; [|auto]. rewrite Hz. split; [done|]. by intros ref.
  - intros s c [->|Hs']%elem_of_cons [[Hk' ->]|[Hne Hc']]%lookup_insert_Some ?; try done.
    + by destruct (Hfresh s Hs').
    + eauto.
  - intros s c [->|Hs']%elem_of_cons [[Hk' ->]|[Hne Hc']]%lookup_insert_Some ?; try done.
    + by destruct (Hfresh s Hs').
    + eauto.
  - intros k c j [[Hk' ->]|[Hne Hc']]%lookup_insert_Some Hjj Hcb; [|eauto].
    by rewrite (Hj j Hjj) in Hcb.
Qed.

Lemma filter_none {A} (P : A → Prop) `{∀ x, Decision (P x)} (l : list A) :
  (∀ x, x ∈ l → ¬ P x) → filter P l = [].
Proof.
  induction l as [|x l IH]; intros Hl; [done|]. rewrite filter_cons_False by (apply Hl; by left).
  apply IH. intros y Hy. apply Hl. by right.
Qed.

(** The Job of a run that was not launched and whose attempt is on record. *)
Lemma safe_job g j uid :
  safe g →
  (∀ u, controlledBy u j = true → u = uid) →
  (∀ j', j' ∈ g_jobs g → controlledBy uid j' = false) →
  (∀ k c, g_current g !! k = Some c → run_UID c = uid → attempted (run_Status c)) →
  safe (addJob j g).
Proof.
  intros [Hi Ha Hr Ho Hl] Hown Hno Hat. split; simpl; auto.
  - intros u. rewrite filter_app, length_app.
    destruct (controlledBy u j) eqn:E.
    + apply Hown in E as ->.
      assert (filter (λ j, controlledBy uid j = true) (g_jobs g) = []) as ->.
      { apply filter_none. intros j' Hj' Ht. by rewrite (Hno j' Hj') in Ht. }
      simpl. rewrite filter_cons. case_decide; simpl; lia.
    + rewrite filter_cons_False by (by rewrite E). simpl. rewrite Nat.add_0_r. apply Ho.
  - intros k c j' Hc [Hj'|Hj']%elem_of_app Hcb; [eauto|].
    apply list_elem_of_singleton in Hj' as ->. eapply Hat; eauto.
Qed.

(** The record of an execution in a status. *)
Definition ident (s : AgentRunStatus) : option Time * option NamespacedObjectReference * string :=
  (st_JobCreateAttemptedAt s, st_JobRef s, st_JobUID s).

Lemma ident_attempted s s' : ident s = ident s' → attempted s → attempted s'.
Proof. unfold ident, attempted. by intros [= -> _ _]. Qed.
Lemma ident_identified s s' : ident s = ident s' → identified s' → identified s.
Proof. unfold ident, identified. by intros [= _ -> ->]. Qed.
Lemma kept_ident base new : ident new = ident base → kept base new.
Proof. unfold ident. intros [= Ha Hr Hu]. split; auto. Qed.

Lemma kept_named base new ref :
  st_JobCreateAttemptedAt new = st_JobCreateAttemptedAt base →
  st_JobRef new = Some ref → blank (ref_Name ref) = false → kept base new.
Proof. intros. split; eauto. Qed.

(** A merge patch from a version of the run keeps the stored run identified. *)
Lemma patched_identified base new stored out :
  kept base new → patchedStatus base new stored out →
  (st_JobRef base ≠ None → st_JobRef stored ≠ None) → identified stored →
  identified out ∧ (st_JobRef stored ≠ None → st_JobRef out ≠ None).
Proof.
  intros [_ Hk] [_ [Hu _] (Hr1 & _ & Hr2) _ _] Hbase [Hi1 Hi2].
  destruct Hk as [[Er Eu]|(ref & Er & Hb)].
  - rewrite <- (Hr1 Er) in Hi1, Hi2 |- *. by rewrite <- (Hu Eu) in Hi1.
  - destruct (decide (st_JobRef new = st_JobRef base)) as [E|E].
    + rewrite (Hr1 E). assert (st_JobRef stored ≠ None) by (apply Hbase; by rewrite <- E, Er).
      split; [|done]. split; rewrite (Hr1 E); auto.
    + destruct (Hr2 ref E Er) as (m & Em & Hm). rewrite Em. split; [|done].
      split; rewrite Em; [done|]. intros ? [= <-].
      destruct Hm as [->|(c & Hc & ->)]; eauto.
Qed.

Lemma kept_next base status new : ident new = ident status → kept base status → kept base new.
Proof.
  unfold ident. intros [= Ha Hr Hu] [Hka Hki]. split; rewrite ?Ha, ?Hr, ?Hu; done.
Qed.

(** The run is what a read returned while the server was as it is in [w]. *)
Definition justRead {W} `{Client W, Workloads W, Actors W, ArchiveDB W, !RunLaws W} (run : AgentRun) (w : W) : Prop :=
  ∃ w1, ghost W w1 = ghost W w ∧ getRun (run_Namespace run) (run_Name run) w1 = inr run.

(** A property of the server that the writes of the controller keep, but for the
    launch of a Job; [T] holds of the readings of the clock. *)
Record Stable {W : Type} `{Client W, Workloads W, Actors W, ArchiveDB W, !RunLaws W} (cfg : RunConfig)
    (T : Time → Prop) := mkStable {
  sb_holds :> W → Prop;
  sb_safe w : sb_holds w → safe (ghost W w);
  sb_quiet w w' : ghost W w' = ghost W w → sb_holds w → sb_holds w';
  sb_put w w' r r' :
    sb_holds w → g_current (ghost W w) !! run_key r' = Some r → run_UID r' = run_UID r →
    identified (run_Status r') →
    (attempted (run_Status r) → attempted (run_Status r')) →
    (st_JobRef (run_Status r) ≠ None → st_JobRef (run_Status r') ≠ None) →
    ghost W w' = putRun r' (ghost W w) → sb_holds w';
  sb_new w w' r' :
    sb_holds w → (∀ s, s ∈ g_seen (ghost W w) → run_key s ≠ run_key r') →
    (∀ j, j ∈ g_jobs (ghost W w) → controlledBy (run_UID r') j = false) →
    run_Status r' = zero_AgentRunStatus → ghost W w' = putRun r' (ghost W w) → sb_holds w';
  sb_delete w w' run now :
    sb_holds w → run ∈ g_seen (ghost W w) → justRead run w → T now →
    terminalRetentionElapsed cfg run now = true →
    ghost W w' = dropRun (run_key run) (ghost W w) → sb_holds w' }.

Section triples.
Context {W : Type} `{Client W, Workloads W, Actors W, ArchiveDB W, !RunLaws W}.
Context {cfg : RunConfig} {T : Time → Prop} (J : Stable (W := W) cfg T).
Local Open Scope go_scope.

(** The property, and versions of runs that the server has stored. *)
Definition Safe (K : list AgentRun) (w : W) : Prop :=
  J w ∧ ∀ r, r ∈ K → r ∈ g_seen (ghost W w).
Definition keeps {A} (K : list AgentRun) (m : M W GoErr A) : Prop :=
  ∀ w, Safe K w → wp m (λ _ w', Safe K w') w.

Lemma Safe_ghost K w w' : ghost W w' = ghost W w → Safe K w → Safe K w'.
Proof. intros Hg [? ?]. split; [by eapply (sb_quiet _ _ J)|by rewrite Hg]. Qed.
Lemma Safe_weaken K K' w : (∀ r, r ∈ K' → r ∈ K) → Safe K w → Safe K' w.
Proof. intros HK [? ?]. split; auto. Qed.
Lemma Safe_tail K r w : Safe (r :: K) w → Safe K w.
Proof. apply Safe_weaken. intros s Hs. by right. Qed.

Lemma holds_extra {A} K r (m : M W GoErr A) w :
  keeps (r :: K) m → Safe (r :: K) w → wp m (λ _ w', Safe K w') w.
Proof. intros Hm Hw. eapply wp_mono; [by apply Hm|]. intros x w'. apply Safe_tail. Qed.
Lemma holds_ret {A} K (a : A) : keeps K (mret a).
Proof. by intros w Hw. Qed.
Lemma holds_fail {A} K e : keeps (A := A) K (mfail e).
Proof. by intros w Hw. Qed.
Lemma holds_read {A} K (f : W → GoErr + A) : keeps K (mread f).
Proof. by intros w Hw. Qed.
Lemma holds_lift {A} K (r : GoErr + A) : keeps K (liftErr r).
Proof. by intros w Hw. Qed.
Lemma holds_quiet {A} K (m : M W GoErr A) :
  (∀ w w' x, m w = (w', x) → ghost W w' = ghost W w) → keeps K m.
Proof. intros Hm w Hw. unfold wp. destruct (m w) as [w' x] eqn:E; simpl. eapply Safe_ghost; [by eapply Hm|done]. Qed.
Lemma holds_bind {A B} K (m : M W GoErr A) (k : A → M W GoErr B) :
  keeps K m → (∀ a, keeps K (k a)) → keeps K (mbnd m k).
Proof.
  intros Hm Hk w Hw. apply wp_bind. eapply wp_mono; [by apply Hm|]. intros [e|a] w' Hw'; [done|].
  by apply Hk.
Qed.
Lemma holds_try {A} K (m : M W GoErr A) : keeps K m → keeps K (mtry m).
Proof. intros Hm w Hw. apply wp_try. by apply Hm. Qed.
Lemma holds_foreach {A B} K (f : B → A → M W GoErr B) l acc :
  (∀ b a, a ∈ l → keeps K (f b a)) → keeps K (mforeach f l acc).
Proof.
  revert acc. induction l as [|a l IH]; intros acc Hf; [by apply holds_ret|].
  apply holds_bind; [apply Hf; by left|]. intros b. apply IH. intros b' a' Ha'. apply Hf. by right.
Qed.

(** A program that returns a stored version of a run. *)
Definition yields (K : list AgentRun) (m : M W GoErr AgentRun) : Prop :=
  ∀ w, Safe K w → wp m (λ x w', Safe K w' ∧ ∀ r, x = inr r → Safe (r :: K) w') w.

Lemma yields_ret K r : r ∈ K → yields K (mret r).
Proof.
  intros Hr w HS. apply wp_ret. split; [done|]. intros ? [= <-]. split; [apply HS|].
  intros s [->|Hs]%elem_of_cons; by apply HS.
Qed.
Lemma yields_fail K e : yields K (mfail e).
Proof. by intros w HS. Qed.
Lemma yields_bind {A} K (m : M W GoErr A) (k : A → M W GoErr AgentRun) :
  keeps K m → (∀ a, yields K (k a)) → yields K (mbnd m k).
Proof.
  intros Hm Hk w Hw. apply wp_bind. eapply wp_mono; [by apply Hm|]. intros [e|a] w' Hw'; [done|].
  by apply Hk.
Qed.
Lemma yields_try K (m : M W GoErr AgentRun) (k : GoErr + AgentRun → M W GoErr AgentRun) :
  yields K m → (∀ e, yields K (k (inl e))) → (∀ r, yields (r :: K) (k (inr r))) →
  yields K (mbnd (mtry m) k).
Proof.
  intros Hm He Hk w Hw. apply wp_bind, wp_try. eapply wp_mono; [by apply Hm|].
  intros [e|r] w' [Hw' Hr]; [by apply He|].
  eapply wp_mono; [by apply Hk, Hr|]. intros x w'' [HS HS']. split; [by eapply Safe_tail|].
  intros r' Hr'. eapply Safe_weaken; [|by apply HS']. set_solver.
Qed.

(** A status patch that keeps the record. *)
Lemma yields_patch K obj lock status :
  obj ∈ K → kept (run_Status obj) status →
  yields K (patchRunStatus (run_key obj) lock (run_Status obj) status).
Proof.
  intros Hobj Hkept w [Hsafe HK]. unfold wp.
  destruct (patchRunStatus _ _ _ _ w) as [w' x] eqn:E; simpl.
  destruct (patchRunStatus_law W _ _ _ _ _ _ _ E)
    as [[Hg [e ->]]|(r & r' & Hc & _ & Hk & Hu & Hp & Hg & Hx)].
  { split; [by eapply Safe_ghost|done]. }
  pose proof (HK _ Hobj) as Hseen. pose proof (ghost_key W _ _ _ Hc) as Hkr.
  pose proof (ghost_current W _ _ _ Hc) as Hr.
  destruct (patched_identified _ _ _ _ Hkept Hp) as [Hid Href];
    [by eapply sf_ref; [by apply (sb_safe _ _ J)|..]; eauto|by eapply sf_identified; [by apply (sb_safe _ _ J)|]|].
  assert (J w') as Hsafe'.
  { eapply (sb_put _ _ J w w' r r'); [done|congruence|done|done| |done|done].
    destruct Hp as [[Ha _] _ _ _ _]. unfold attempted. rewrite Ha; [done|]. apply Hkept. }
  assert (Safe (r' :: K) w') as HS.
  { split; [done|]. rewrite Hg; simpl. intros s [->|Hs]%elem_of_cons; [by left|right; auto]. }
  split; [by eapply Safe_tail|]. by intros r'' ->%Hx.
Qed.

Lemma holds_patch K obj lock status :
  obj ∈ K → kept (run_Status obj) status →
  keeps K (patchRunStatus (run_key obj) lock (run_Status obj) status).
Proof. intros Ho Hk w Hw. eapply wp_mono; [by apply yields_patch|]. by intros x w' [? _]. Qed.

(** An annotation of a run. *)
Lemma yields_annotate K k a v : yields K (annotateRun k a v).
Proof.
  intros w [Hsafe HK]. unfold wp. destruct (annotateRun k a v w) as [w' x] eqn:E; simpl.
  destruct (annotateRun_law W _ _ _ _ _ _ E) as [[Hg [e ->]]|(r & r' & Hc & Hk & Hu & Hs & Hg & Hx)].
  { split; [by eapply Safe_ghost|done]. }
  assert (J w') as Hsafe'.
  { pose proof (ghost_current W _ _ _ Hc) as Hr.
    eapply (sb_put _ _ J w w' r r'); rewrite ?Hs; auto; [congruence|].
    by eapply sf_identified; [by apply (sb_safe _ _ J)|]. }
  assert (Safe (r' :: K) w') as HS.
  { split; [done|]. rewrite Hg; simpl. intros s [->|Hs']%elem_of_cons; [by left|right; auto]. }
  split; [by eapply Safe_tail|]. by intros r'' ->%Hx.
Qed.

Lemma holds_createGenerated K p r : keeps K (createGenerated p r).
Proof.
  intros w [Hsafe HK]. unfold wp. destruct (createGenerated p r w) as [w' x] eqn:E; simpl.
  destruct (createGenerated_law W _ _ _ _ _ E) as [[Hg _]|(r' & Hf & Hj & Hz & Hg)]; [by eapply Safe_ghost|].
  split; [|rewrite Hg; intros s Hs; right; auto]. eapply (sb_new _ _ J w w' r'); auto. intros s Hs. by apply Hf.
Qed.

(** A program that leaves runs and Jobs as they are. *)
Definition idle {A} (m : M W GoErr A) : Prop := ∀ w, wp m (λ _ w', ghost W w' = ghost W w) w.

Lemma idle_ret {A} (a : A) : idle (mret a).
Proof. by intros w. Qed.
Lemma idle_fail {A} e : idle (A := A) (mfail e).
Proof. by intros w. Qed.
Lemma idle_read {A} (f : W → GoErr + A) : idle (mread f).
Proof. by intros w. Qed.
Lemma idle_op {A} (m : M W GoErr A) : (∀ w w' x, m w = (w', x) → ghost W w' = ghost W w) → idle m.
Proof. intros Hm w. unfold wp. destruct (m w) as [w' x] eqn:E. by eapply Hm. Qed.
Lemma idle_try {A} (m : M W GoErr A) : idle m → idle (mtry m).
Proof. intros Hm w. apply wp_try, Hm. Qed.
Lemma idle_bind {A B} (m : M W GoErr A) (k : A → M W GoErr B) :
  idle m → (∀ a, idle (k a)) → idle (mbnd m k).
Proof.
  intros Hm Hk w. apply wp_bind. eapply wp_mono; [apply Hm|]. intros [e|a] w' Hw'; [done|].
  eapply wp_mono; [apply Hk|]. intros x w'' Hw''. by rewrite Hw''.
Qed.

Lemma holds_deleteRun K run now w :
  run ∈ K → justRead run w → T now → terminalRetentionElapsed cfg run now = true → Safe K w →
  wp (deleteRun (run_key run)) (λ _ w', Safe K w') w.
Proof.
  intros Hr Hread HT Ht [Hsafe HK]. unfold wp. destruct (deleteRun (run_key run) w) as [w' x] eqn:E; simpl.
  destruct (deleteRun_law W _ _ _ _ E) as [Hg|Hg]; [by eapply Safe_ghost|].
  split; [|by rewrite Hg]. eapply (sb_delete _ _ J w w' run); [done|by apply HK|done|done|done|done].
Qed.

(** A read of a run. *)
Lemma yields_getRun K ns n : yields K (mread (getRun ns n)).
Proof.
  intros w HS. apply wp_read. split; [done|]. intros r Hr.
  destruct (getRun_seen W _ _ _ _ Hr) as [Hseen _]. split; [apply HS|].
  intros s [->|Hs]%elem_of_cons; [done|]. by apply HS.
Qed.

Lemma holds_bind_run {A} K (m : M W GoErr AgentRun) (k : AgentRun → M W GoErr A) :
  yields K m → (∀ r, keeps (r :: K) (k r)) → keeps K (mbnd m k).
Proof.
  intros Hm Hk w Hw. apply wp_bind. eapply wp_mono; [by apply Hm|]. intros [e|r] w' [Hw' Hr]; [done|].
  by apply (holds_extra K r), Hr.
Qed.
Lemma holds_bind_try {A} K (m : M W GoErr AgentRun) (k : GoErr + AgentRun → M W GoErr A) :
  yields K m → (∀ e, keeps K (k (inl e))) → (∀ r, keeps (r :: K) (k (inr r))) → keeps K (mbnd (mtry m) k).
Proof.
  intros Hm He Hk w Hw. apply wp_bind, wp_try. eapply wp_mono; [by apply Hm|].
  intros [e|r] w' [Hw' Hr]; [by apply He|].
  by apply (holds_extra K r), Hr.
Qed.
End triples.

Create HintDb runs.
#[export] Hint Resolve holds_ret holds_fail holds_read holds_lift holds_createGenerated : runs.
#[export] Hint Resolve holds_try : runs.

(** Walks a program, leaving what no rule decides. *)
Ltac runs_step :=
  cbv beta zeta;
  lazymatch goal with
  | |- ∀ _, _ => intros ?
  | |- keeps _ _ (mbnd _ _) => apply holds_bind
  | |- keeps _ _ (mtry _) => apply holds_try
  | |- keeps _ _ (match ?x with _ => _ end) => destruct x
  | |- keeps _ _ _ => solve [eauto with runs]
  end.
Ltac runs := repeat runs_step.

Create HintDb idle.
#[export] Hint Resolve idle_ret idle_fail idle_read : idle.
Ltac idles :=
  repeat (cbv beta zeta;
    lazymatch goal with
    | |- ∀ _, _ => intros ?
    | |- idle (mbnd _ _) => apply idle_bind
    | |- idle (mtry _) => apply idle_try
    | |- idle (match ?x with _ => _ end) => destruct x
    | |- idle _ => solve [eauto with idle]
    end).

Section programs.
Context {W : Type} `{Client W, Library W, Workloads W, Web W, VolumeClient W, Actors W, ArchiveDB W}.
Context `{!RunLaws W}.
Context `{Conditions, Decode, NetURL, ClaimJSON, JobRecords}.
Context `{Marshal AgentRunResult, Marshal ArchiveDigestBody, Marshal AgentRunStatus,
  Marshal (gmap string string), Marshal AgentRunDecisionStatus, Marshal (list AgentRunStatusReport)}.
Context `{Marshal AgentRunProfileSpec, Marshal AgentHarnessProfileSpec, Marshal AgentCouncilSpec,
  Marshal AgentSkillSetSpec, Marshal AgentToolSetSpec, Marshal AgentRunSpec}.
Context `{Marshal agentRunJobSnapshot, MarshalIndent AgentRunContext, MarshalIndent AgentRunSpec}.
Context `{Marshal (list AgentRunDataVolumeStatus), Marshal (list string), Marshal (list ToolItem),
  Marshal AgentRunResolvedCompositionStatus}.
Context (cfg : RunConfig) (apiReader : W → W).
Context (validSPIFFEID validLabelValue : string → bool) (agentRunSystemPromptMarkdown : string).
Context {T : Time → Prop} (J : Stable (W := W) cfg T).
Local Open Scope go_scope.
Implicit Types (K : list AgentRun) (obj effective : AgentRun) (status : AgentRunStatus).

(** ** Writes without effect on runs and launches *)

Lemma holds_SuspendIdleActor K ns n s : keeps J K (SuspendIdleActor ns n s).
Proof. unfold SuspendIdleActor. runs. apply holds_quiet, suspendActor_quiet. Qed.
Lemma holds_suspend K run : keeps J K (suspendSubstrateActorOnTerminal cfg run).
Proof. unfold suspendSubstrateActorOnTerminal. runs. apply holds_SuspendIdleActor. Qed.
Lemma holds_EnsureTurnActor K spec : keeps J K (EnsureTurnActor spec).
Proof.
  unfold EnsureTurnActor. runs;
    first [apply holds_quiet, describeActor_quiet | apply holds_quiet, resumeActor_quiet
          | apply holds_quiet, createActor_quiet].
Qed.
Lemma holds_generate K r : keeps J K (generate r).
Proof. apply holds_quiet, generate_quiet. Qed.
Lemma holds_jobTTL K run : keeps J K (ensureTerminalAgentRunJobTTL run).
Proof. unfold ensureTerminalAgentRunJobTTL. runs. apply holds_quiet, patchJobTTL_quiet. Qed.
Lemma holds_ArchiveAgentRun K r now : keeps J K (ArchiveAgentRun r now).
Proof. unfold ArchiveAgentRun. runs. apply holds_quiet, upsertArchive_quiet. Qed.
Lemma holds_deleteFailedJob K job : keeps J K (deleteAgentRunJobAfterLaunchFailure job).
Proof. unfold deleteAgentRunJobAfterLaunchFailure. runs. apply holds_quiet, deleteJob_quiet. Qed.
Hint Resolve holds_suspend holds_EnsureTurnActor holds_generate holds_jobTTL holds_ArchiveAgentRun
  holds_deleteFailedJob : runs.

(** ** Status patches *)

Lemma holds_patchStatusWith K obj lock status ok :
  obj ∈ K → kept (run_Status obj) status → keeps J K (patchStatusWith obj lock status ok).
Proof. intros Ho Hk. unfold patchStatusWith. runs. by apply holds_patch. Qed.
Lemma holds_patchStatusThen K obj lock status ok :
  obj ∈ K → kept (run_Status obj) status → keeps J K (patchStatusThen obj lock status ok).
Proof. apply holds_patchStatusWith. Qed.
Lemma holds_patchAgentRunStatus K obj status requeue :
  obj ∈ K → kept (run_Status obj) status → keeps J K (patchAgentRunStatus obj status requeue).
Proof. apply holds_patchStatusWith. Qed.

(** ** Terminal and held runs *)

Lemma idle_suspend run : idle (suspendSubstrateActorOnTerminal cfg run).
Proof. unfold suspendSubstrateActorOnTerminal, SuspendIdleActor. idles. apply idle_op, suspendActor_quiet. Qed.
Lemma idle_jobTTL run : idle (ensureTerminalAgentRunJobTTL run).
Proof. unfold ensureTerminalAgentRunJobTTL. idles. apply idle_op, patchJobTTL_quiet. Qed.

Lemma justRead_ghost run w w' : ghost W w' = ghost W w → justRead run w → justRead run w'.
Proof. intros Hg (w1 & Hw1 & Hr). exists w1. by rewrite Hg. Qed.

Lemma wp_idle {A} K run (m : M W GoErr A) w :
  idle m → Safe J K w ∧ justRead run w → wp m (λ _ w', Safe J K w' ∧ justRead run w') w.
Proof.
  intros Hm [HS Hr]. eapply wp_mono; [apply Hm|]. intros x w' Hg.
  split; [by eapply Safe_ghost; [exact Hg|]|by eapply justRead_ghost; [exact Hg|]].
Qed.

(** A run is deleted as it was read. *)
Lemma holds_terminal K run clock w :
  (∀ i, T (clock i)) → run ∈ K → Safe J K w → justRead run w →
  wp (reconcileTerminalAgentRun cfg run clock) (λ _ w', Safe J K w') w.
Proof.
  intros HT Hr HS Hread. unfold reconcileTerminalAgentRun.
  apply wp_bind. eapply wp_mono; [by apply (wp_idle K run); [apply idle_suspend|]|].
  intros [e|u] w1 [HS1 Hr1]; [done|]. apply wp_bind.
  eapply wp_mono; [by apply (wp_idle K run); [apply idle_jobTTL|]|].
  intros [e|u'] w2 [HS2 Hr2]; [done|]. clear HS Hread HS1 Hr1.
  case_match.
  { enough (keeps J K (archiveTerminalAgentRun cfg run clock)) as Hk by by apply Hk.
    unfold archiveTerminalAgentRun. runs; (apply holds_patchStatusWith; [done|]; by apply kept_ident). }
  destruct (terminalRetentionElapsed cfg run (clock 5%nat)) eqn:Ht; [|by case_match].
  apply wp_bind, wp_try. eapply wp_mono; [by apply (holds_deleteRun J K run (clock 5%nat))|]. intros [e|d] w3 HS3; by repeat case_match.
Qed.

Lemma kept_held obj requester now : kept (run_Status obj) (heldStatus obj requester now).
Proof. by apply kept_ident. Qed.

Lemma holds_hold K obj requester clock :
  (∀ i, T (clock i)) → obj ∈ K → keeps J K (reconcileAgentRunInterruptDuplicateHold cfg obj requester clock).
Proof.
  intros HT Ho. unfold reconcileAgentRunInterruptDuplicateHold.
  apply holds_bind; [by apply holds_patchAgentRunStatus, kept_held|]. intros result.
  intros w HS. apply wp_bind, wp_read. destruct (getRun _ _ w) as [e|obj'] eqn:Eg; [done|].
  destruct (getRun_seen W _ _ _ _ Eg) as [Hseen Hkey]. apply wp_bind.
  eapply (wp_mono _ (λ _ w', Safe J (obj' :: K) w')).
  - apply holds_terminal; [by auto|by left| |].
    + split; [apply HS|]. intros s [->|Hs]%elem_of_cons; [done|]. by apply HS.
    + exists w. split; [done|]. injection Hkey as -> ->. exact Eg.
  - intros [e|r] w' HS'; [|apply wp_ret]; by eapply Safe_tail.
Qed.

(** ** Peers *)

Lemma holds_interruptPeer K obj named summary now u peer :
  keeps J K (interruptPeer obj named summary now u peer).
Proof.
  unfold interruptPeer. runs_step; [by apply holds_ret|].
  apply holds_bind_try; [apply yields_annotate|by runs|]. intros annotated.
  apply holds_bind_try; [apply yields_getRun|by runs|]. intros reloaded.
  apply holds_bind; [|by runs]. apply holds_try, holds_patch; [by left|]. by apply kept_ident.
Qed.

Lemma yields_peerDecisions K obj status now :
  obj ∈ K → yields J K (reconcileMidRunPeerDecisions obj status now).
Proof.
  intros Ho. unfold reconcileMidRunPeerDecisions. destruct (st_Decision status) as [d|]; [|by apply yields_ret].
  case_bool_decide; [|case_bool_decide; [|by apply yields_ret]].
  - unfold ensureRequestedPeerAgentRun. case_match; [by apply yields_ret|].
    case_bool_decide; [by apply yields_ret|].
    apply yields_bind; [by auto with runs|]. intros [e|peer]; [apply yields_fail|].
    apply yields_try; [apply yields_annotate|intros e; apply yields_fail|].
    intros r. apply yields_ret. by left.
  - apply yields_bind; [|intros _; by apply yields_ret].
    unfold interruptDuplicatePeerRuns. runs. apply holds_foreach. intros. apply holds_interruptPeer.
Qed.

(** ** Actors *)

Lemma holds_patchThenSuspend K obj status :
  obj ∈ K → kept (run_Status obj) status → keeps J K (patchThenSuspend cfg obj status).
Proof. intros Ho Hk. unfold patchThenSuspend. runs. by apply holds_patch. Qed.

Lemma holds_substrate K obj status effective now :
  obj ∈ K → kept (run_Status obj) status →
  keeps J K (reconcileSubstrateActorRun cfg obj obj status effective now).
Proof.
  intros Ho Hk. unfold reconcileSubstrateActorRun, failSubstrateGenerate. runs;
    first [apply holds_patchThenSuspend | apply holds_patch | apply holds_patchAgentRunStatus];
    try done; (apply (kept_next _ status); [reflexivity|exact Hk]).
Qed.

(** ** The Job of a run *)

Lemma ident_reports status reports : ident (agentRunApplyStatusReports status reports) = ident status.
Proof.
  unfold agentRunApplyStatusReports. case_bool_decide; [done|].
  change (ident status) with (ident (status <| st_Reports := reports |>)).
  generalize (status <| st_Reports := reports |>). clear.
  induction reports as [|r reports IH]; intros s; [done|]. simpl. rewrite IH.
  unfold applyReport. by destruct (blank _), (agentRunReportHasDecision r).
Qed.
Lemma ident_logs logs status : ident (withLogs logs status) = ident status.
Proof. unfold withLogs. etrans; [|apply ident_reports]. reflexivity. Qed.
Lemma ident_pod pod status : ident (withPod pod status) = ident status.
Proof. by destruct pod. Qed.
Lemma ident_completed obj effective now status :
  ident (completedStatus obj effective now status) = ident status.
Proof. unfold completedStatus. by destruct (agentRunReportsNeedHuman _). Qed.

Lemma holds_conclude K obj obj' effective job pod status now clock :
  (∀ i, T (clock i)) → obj ∈ K → obj' ∈ K → kept (run_Status obj) status →
  keeps J K (concludeJob cfg obj obj' effective job pod status now clock).
Proof.
  intros HT Ho Ho' Hk. unfold concludeJob. runs;
    first [by apply holds_hold | apply holds_patchAgentRunStatus; [done|]];
    (apply (kept_next _ status); [first [apply ident_completed | reflexivity]|exact Hk]).
Qed.

Lemma holds_observe K obj effective job status now clock :
  (∀ i, T (clock i)) → obj ∈ K → kept (run_Status obj) status →
  keeps J K (observeJob cfg obj obj effective job status now clock).
Proof.
  intros HT Ho Hk. unfold observeJob. apply holds_bind; [apply holds_read|]. intros pod.
  set (s := withPod _ _).
  assert (kept (run_Status obj) s) as Hs by (eapply kept_next; [apply ident_pod|]; by apply (kept_next _ status)).
  clearbody s.
  enough (∀ w, Safe J K w → wp (readRunner obj pod s (clock 0%nat))
    (λ x w', Safe J K w' ∧ ∀ obj' s', x = inr (obj', s') → Safe J (obj' :: K) w' ∧ kept (run_Status obj) s') w)
    as Hread.
  { intros w Hw. apply wp_bind. eapply wp_mono; [by apply Hread|]. intros [e|[obj' s']] w' [Hw' Hx]; [done|].
    destruct (Hx obj' s' eq_refl) as [HS Hk'].
    apply (holds_extra J K obj'); [|done]. runs.
    - apply holds_patchAgentRunStatus; [by right|]. by apply (kept_next _ s').
    - apply holds_conclude; [by auto|by right|by left|done]. }
  intros w Hw. unfold readRunner. destruct pod as [pod|].
  2:{ apply wp_ret. split; [done|]. intros ? ? [= <- <-]. split; [|done].
      by eapply Safe_weaken; [|exact Hw]; set_solver. }
  apply wp_bind, wp_try, wp_read. destruct (readPodLogs _ _ w) as [e|logs].
  { apply wp_ret. split; [done|]. intros ? ? [= <- <-]. split; [|done].
    by eapply Safe_weaken; [|exact Hw]; set_solver. }
  apply wp_bind. eapply wp_mono; [by apply yields_peerDecisions|].
  intros [e|r] w' [Hw' Hr]; [done|]. apply wp_ret. split; [done|]. intros ? ? [= <- <-].
  split; [by apply Hr|]. eapply kept_next; [apply ident_logs|exact Hs].
Qed.

(** ** The effective run is the run *)

Definition sameMeta {A} obj (m : EffM A) : Prop :=
  ∀ e, run_ObjectMeta e = run_ObjectMeta obj → wp m (λ _ e', run_ObjectMeta e' = run_ObjectMeta obj) e.

Lemma sameMeta_bind {A B} obj (m : EffM A) (k : A → EffM B) :
  sameMeta obj m → (∀ a, sameMeta obj (k a)) → sameMeta obj (mbnd m k).
Proof.
  intros Hm Hk e He. apply wp_bind. eapply wp_mono; [by apply Hm|]. intros [h|a] e' He'; [done|].
  by apply Hk.
Qed.
Lemma sameMeta_halting {A} obj (r : Halt + A) : sameMeta obj (halting r).
Proof. by intros e He. Qed.
Lemma sameMeta_withCaps {A} obj (m : CapM A) c : sameMeta obj (withCaps m c).
Proof. intros e He. unfold wp, withCaps. by destruct (m c) as [? [?|?]]. Qed.

Lemma sameMeta_get {B} obj (k : AgentRun → EffM B) :
  (∀ a, run_ObjectMeta a = run_ObjectMeta obj → sameMeta obj (k a)) → sameMeta obj (mbnd getRunEff k).
Proof. intros Hk e He. apply wp_bind. by apply (Hk e He). Qed.
Lemma sameMeta_put obj e : run_ObjectMeta e = run_ObjectMeta obj → sameMeta obj (putRunEff e).
Proof. by intros He e' He'. Qed.
Lemma sameMeta_setSpec obj f : sameMeta obj (setSpec f).
Proof. by intros e He. Qed.

Lemma composition_meta obj (w : W) :
  run_ObjectMeta (fst (resolveAgentRunComposition obj w)) = run_ObjectMeta obj.
Proof.
  enough (sameMeta obj (composeRun obj w)) as Hs by by apply Hs.
  unfold composeRun.
  repeat lazymatch goal with
  | |- sameMeta _ (halting _) => apply sameMeta_halting
  | |- sameMeta _ (withCaps _ _) => apply sameMeta_withCaps
  | |- sameMeta _ (setSpec _) => apply sameMeta_setSpec
  | |- sameMeta _ (mbnd getRunEff _) => apply sameMeta_get; intros ? ?
  | |- sameMeta _ (mbnd _ _) => apply sameMeta_bind; [|intros ?]
  | |- sameMeta _ (putRunEff _) => apply sameMeta_put; try done
  | |- sameMeta _ (mret _) => by intros e He
  end.
  by case_match.
Qed.

(** ** Payload and Job *)

Definition still (w w' : W) : Prop :=
  ghost W w' = ghost W w ∧ ∀ ns n, getJob ns n w' = getJob ns n w.

Definition contextName obj (promptHash : string) : string :=
  agentRunChildName [run_Name obj; "context"; promptHash].

Lemma wp_configMap obj prompt promptHash w :
  wp (ensureAgentRunConfigMap (rc_Options cfg) obj prompt promptHash)
    (λ x w', still w w' ∧ ∀ c d, x = inr (c, d) → cm_Name c = contextName obj promptHash) w.
Proof.
  unfold ensureAgentRunConfigMap. apply wp_bind, wp_read. destruct (agentRunContextJSON _ _ w); [done|].
  apply wp_bind, wp_read. destruct (agentRunConfigMapData _ _ _ _ w); [done|].
  apply wp_bind, wp_try, wp_read, wp_bind. destruct (getConfigMap _ _ w) as [e|c] eqn:Eg.
  - case_match; [done|]. unfold wp at 1. destruct (createConfigMap _ w) as [w' x] eqn:E.
    apply (createConfigMap_law W) in E as (Hg & Hj & Hn). destruct x as [|c]; [done|].
    split; [done|]. intros ? ? [= <- _]. by rewrite (Hn c eq_refl).
  - apply (getConfigMap_named W) in Eg.
    apply wp_bind. unfold liftErr at 1, wp at 1; simpl.
    destruct (validateAgentRunConfigMapIdentityAndData _ _ _); [done|].
    apply wp_bind. case_match.
    { apply wp_ret, wp_bind. unfold liftErr, wp at 1; simpl. destruct (validateAgentRunConfigMap _ _ _); [done|].
      apply wp_ret, wp_ret. split; [done|]. by intros ? ? [= <- _]. }
    apply wp_bind, wp_try. unfold wp at 1. destruct (updateConfigMap _ w) as [w' x] eqn:E.
    apply (updateConfigMap_law W) in E as (Hg & Hj & Hn). destruct x as [|c']; [done|]. simpl.
    apply wp_ret, wp_bind.
    unfold liftErr, wp at 1; simpl. destruct (validateAgentRunConfigMap _ _ _); [done|].
    apply wp_ret, wp_ret. split; [done|]. intros ? ? [= <- _]. by rewrite (Hn c' eq_refl).
Qed.

(** The Job that is sent for a run. *)
Definition sentJob effective promptHash (dataVolumes : list resolvedAgentRunDataVolume) : Job :=
  let desired := agentRunJob (rc_Options cfg) effective (harnessJobName effective promptHash)
    (contextName effective promptHash) dataVolumes in
  desired <| job_ObjectMeta := setControllerReference effective (job_ObjectMeta desired) |>.

Lemma controlledBy_created obj (j : Job) uid :
  meta_OwnerReferences (job_ObjectMeta j) = [controllerRef obj] →
  controlledBy uid j = true → uid = run_UID obj.
Proof. unfold controlledBy, GetControllerOf. intros ->. simpl. by intros ?%bool_decide_eq_true. Qed.

(** The Job is found and validated, or created when none has its name. *)
Lemma wp_ensureJob obj promptHash dataVolumes w :
  wp (ensureAgentRunJob (rc_Options cfg) obj promptHash dataVolumes) (λ x w',
    (∀ j, x = inr j → blank (job_Name j) = false)
    ∧ (ghost W w' = ghost W w
       ∨ (∃ e, getJob (run_Namespace obj) (harnessJobName obj promptHash) w = inl e ∧ IsNotFound e = true)
         ∧ ∃ j, admitted (sentJob obj promptHash dataVolumes) j
            ∧ meta_OwnerReferences (job_ObjectMeta j) = [controllerRef obj]
            ∧ ghost W w' = addJob j (ghost W w))) w.
Proof.
  unfold ensureAgentRunJob. apply wp_bind, wp_try, wp_read.
  destruct (getJob _ _ w) as [e|job] eqn:Eg.
  - destruct (IsNotFound e) eqn:En; simpl; [|apply wp_fail; split; [done|by left]].
    unfold wp. destruct (createJob _ w) as [w' x] eqn:E; simpl.
    destruct (createJob_law W _ _ _ _ E) as [[Hg [e' ->]]|(j' & Ho & Had & Hb & Hg & Hx)]; [by split; [|left]|].
    split; [by intros j ->%Hx|]. right. split; [by eauto|]. by exists j'.
  - case_match; [apply wp_fail; split; [done|by left]|]. apply wp_bind. unfold liftErr, wp at 1; simpl.
    destruct (validateAgentRunJob _ _ _); [by split; [|left]|]. apply wp_ret. split; [|by left].
    intros ? [= <-]. by eapply (getJob_named W).
Qed.

(** ** Recovery *)

(** What a resolution leaves of the status: the receipt and the record. *)
Definition onRecord (s : AgentRunStatus) := (ident s, (agentRunLaunchReceiptComplete s, st_JobSpecDigest s)).

Lemma resolve_stop K obj status recovered now later w r :
  obj ∈ K → kept (run_Status obj) status →
  resolveRun cfg validSPIFFEID obj status recovered now later w = Stop r → keeps J K r.
Proof.
  intros Ho Hk. unfold resolveRun. destruct (resolveAgentRunComposition obj w) as [eff [[e|phase reason msg|]|c]].
  - intros [= <-]. apply holds_fail.
  - destruct recovered; intros [= <-]; [apply holds_fail|].
    apply holds_patchAgentRunStatus; [done|]. by apply (kept_next _ status).
  - intros [= <-]. apply holds_fail.
  - destruct (agentRunBlockingValidation _ _ _ _ _) as [[[phase reason] msg]|]; [|done].
    intros [= <-]. apply holds_patchAgentRunStatus; [done|]. by apply (kept_next _ status).
Qed.

Lemma resolve_go obj status recovered now later w effective composition status' :
  resolveRun cfg validSPIFFEID obj status recovered now later w = Go effective composition status' →
  resolveAgentRunComposition obj w = (effective, inr composition)
  ∧ agentRunBlockingValidation (rc_Options cfg) (rc_Planes cfg) validSPIFFEID effective later = None
  ∧ onRecord status' = onRecord status ∧ run_ObjectMeta effective = run_ObjectMeta obj.
Proof.
  unfold resolveRun. pose proof (composition_meta obj w) as Hm.
  destruct (resolveAgentRunComposition obj w) as [eff [[e|phase reason msg|]|c]]; [done| |done|].
  { by destruct recovered. }
  destruct (agentRunBlockingValidation _ _ _ _ _) as [[[phase reason] msg]|] eqn:Ev; [done|].
  intros [= <- <- <-]. done.
Qed.

Lemma onRecord_ident s s' : onRecord s = onRecord s' → ident s = ident s'.
Proof. apply (f_equal fst). Qed.
Lemma onRecord_receipt s s' :
  onRecord s = onRecord s' → agentRunLaunchReceiptComplete s = agentRunLaunchReceiptComplete s'.
Proof. intros E. exact (f_equal (λ x, fst (snd x)) E). Qed.
Lemma onRecord_digest s s' : onRecord s = onRecord s' → st_JobSpecDigest s = st_JobSpecDigest s'.
Proof. intros E. exact (f_equal (λ x, snd (snd x)) E). Qed.

Lemma wp_recover K obj status job now clock w :
  (∀ i, T (clock i)) → obj ∈ K → Safe J K w → kept (run_Status obj) status →
  (∀ e, getJob (run_Namespace obj) (job_Name job) w = inl e → IsNotFound e = false) →
  wp (recoverJob cfg validSPIFFEID agentRunSystemPromptMarkdown obj status job now clock)
    (λ _ w', Safe J K w') w.
Proof.
  intros HT Ho HS Hk Hpresent. unfold recoverJob. apply wp_bind, wp_read.
  destruct (resolveRun _ _ _ _ _ _ _ w) as [r|effective composition s] eqn:Er.
  { by apply (resolve_stop K _ _ _ _ _ _ _ Ho Hk Er). }
  destruct (resolve_go _ _ _ _ _ _ _ _ _ Er) as (_ & _ & Hrec & Hmeta).
  apply wp_bind, wp_read. destruct (resolveAgentRunDataVolumes effective w) as [e|[dv [[[ph rs] msg]|]]]; [done|done|].
  case_match eqn:Ename; [done|]. apply negb_false_iff, bool_decide_eq_true in Ename.
  apply wp_bind. eapply wp_mono; [apply wp_configMap|].
  intros [e|[payload digest]] w1 [[Hg Hj] _]; [by eapply Safe_ghost|].
  set (eff := withComposition _ _).
  assert (run_Namespace eff = run_Namespace obj ∧ harnessJobName eff (shortHash
    (buildAgentRunPrompt agentRunSystemPromptMarkdown effective)) = job_Name job) as [Hns Hname].
  { rewrite Ename. unfold run_Namespace, harnessJobName, run_Name. simpl. by rewrite Hmeta. }
  apply wp_bind. eapply wp_mono; [apply wp_ensureJob|].
  intros x w2 [Hb [Hg2|[(e & He & Hn) _]]].
  2:{ rewrite Hns, Hname, Hj in He. by rewrite (Hpresent e He) in Hn. }
  assert (Safe J K w2) as HS2 by (by eapply Safe_ghost; [|exact HS]; rewrite Hg2, Hg).
  destruct x as [e|validated]; [done|]. specialize (Hb validated eq_refl). clear Hpresent Hj.
  case_match; [done|]. apply wp_bind. unfold liftErr, wp at 1; simpl.
  destruct (agentRunJobSnapshotDigest validated) as [e|d]; [done|].
  apply holds_observe; [by auto|done| |done].
  apply (kept_named _ _ (jobRefOf validated)); [|done|done].
  apply onRecord_ident in Hrec. unfold ident in Hrec. simpl. destruct Hk as [<- _]. congruence.
Qed.


Lemma wp_freshness effective clock status w :
  wp (ensureAgentRunExternalSecretFreshness effective clock status) (λ x w',
    ghost W w' = ghost W w ∧ ∀ s r, x = inr (s, r) → onRecord s = onRecord status) w.
Proof.
  unfold ensureAgentRunExternalSecretFreshness.
  generalize (ex_ExternalSecretRefreshRefs (execution effective)) as refs. intros refs.
  revert clock status w. induction refs as [|ref refs IH]; intros clock status w.
  { apply wp_ret. split; [done|]. by intros s r [= <- <-]. }
  simpl. apply wp_bind.
  assert (wp (freshnessOf effective ref clock status) (λ x w',
    ghost W w' = ghost W w ∧ ∀ s r, x = inr (s, r) → onRecord s = onRecord status) w) as Hone.
  { unfold freshnessOf. apply wp_bind, wp_try, wp_read. destruct (getExternalSecret _ _ w) as [e|xs].
    { case_match; [|by apply wp_fail]. apply wp_ret. split; [done|]. by intros s r [= <- <-]. }
    case_match; [apply wp_ret; split; [done|]; by intros s r [= <- <-]|].
    destruct (agentRunExternalSecretRefreshStatus _ _ _ _) as [[i entry]|].
    - apply wp_bind, wp_try, wp_read. destruct (readSecret _ _ w) as [e|data].
      { case_match; [|by apply wp_fail]. apply wp_ret. split; [done|]. by intros s r [= <- <-]. }
      destruct (freshnessWait _ _ _ _ _ _ _ _); (apply wp_ret; split; [done|]; by intros s r [= <- <-]).
    - apply wp_bind, wp_try. unfold wp at 1. destruct (annotateExternalSecret _ _ w) as [w' x] eqn:E.
      apply (annotateExternalSecret_quiet W) in E. simpl. destruct x; [by apply wp_fail|].
      apply wp_ret. split; [done|]. by intros s r [= <- <-]. }
  eapply wp_mono; [exact Hone|]. intros [e|[s [r|]]] w' [Hg Hs]; [done| |].
  { apply wp_ret. split; [done|]. intros s' r' [= <- <-]. by eapply Hs. }
  eapply wp_mono; [apply IH|]. intros x w'' [Hg' Hx]. split; [congruence|].
  intros s' r' Ex. rewrite (Hx _ _ Ex). by eapply Hs.
Qed.

(** ** The lookup *)

Lemma ownedJob_in obj jobs owned job :
  ownedJob obj jobs owned = inr (Some job) → owned = Some job ∨ job ∈ jobs.
Proof.
  revert owned. induction jobs as [|j jobs IH]; intros owned; simpl; [intros [= ->]; by left|].
  case_match; [intros [?|?]%IH; set_solver|]. case_match; [intros [?|?]%IH; set_solver|].
  destruct owned; [done|]. intros [[= <-]|?]%IH; set_solver.
Qed.

Lemma existing_found obj ref uid allow w job m :
  existingAgentRunJob obj ref uid allow w = inr (Some job, m) →
  blank (job_Name job) = false
  ∧ (ref = None → ∀ e, getJob (run_Namespace obj) (job_Name job) w = inl e → IsNotFound e = false).
Proof.
  assert (listedAgentRunJob obj w = inr (Some job, m) →
    blank (job_Name job) = false
    ∧ ∀ e, getJob (run_Namespace obj) (job_Name job) w = inl e → IsNotFound e = false) as Hlisted.
  { unfold listedAgentRunJob. destruct (listJobs _ _ w) as [e|jobs] eqn:El; [done|].
    destruct (ownedJob _ _ _) as [e|owned] eqn:Eo; [done|]. intros [= -> _].
    apply ownedJob_in in Eo as [|Hin]; [done|].
    split; [by eapply (listJobs_named W)|by eapply (listJobs_get W)]. }
  unfold existingAgentRunJob. destruct ref as [ref|]; [|by naive_solver].
  case_match; [|by intros [? _]%Hlisted]. intros Hx. split; [|done]. clear Hlisted. revert Hx.
  case_match; [done|].
  destruct (getJob _ _ w) as [e|j] eqn:Eg; [by destruct (IsNotFound e), (allow && bool_decide (uid = ""))|].
  case_match; [done|]. case_match; [done|]. intros [= <- _]. by eapply (getJob_named W).
Qed.

(** A launched run never reaches the launch: its Job is found, or its absence is
    reported. *)
Lemma existing_reported obj ref uid w m :
  existingAgentRunJob obj (Some ref) uid false w = inr (None, m) → blank (ref_Name ref) = false → m ≠ "".
Proof.
  unfold existingAgentRunJob. intros Hx Hb. rewrite Hb in Hx. cbn [negb andb] in Hx. case_match; [by injection Hx as <-|].
  destruct (getJob _ _ w) as [e|j]; [case_match; [by injection Hx as <-|done]|].
  case_match; [by injection Hx as <-|]. case_match; [by injection Hx as <-|done].
Qed.

Lemma named_planned s :
  agentRunLaunchReceiptComplete s = true → ∃ ref, st_PlannedJobRef s = Some ref ∧ blank (ref_Name ref) = false.
Proof.
  unfold agentRunLaunchReceiptComplete, namedRef. destruct (st_PlannedJobRef s) as [ref|]; [|done].
  intros Hc. exists ref. split; [done|]. by destruct (blank (ref_Name ref)).
Qed.

Lemma lookup_none obj status w :
  identified status → lookupJob obj status w = inr (None, "") →
  attempted status → agentRunLaunchReceiptComplete status = false.
Proof.
  intros [Hu Hn] Hl Ha. destruct (agentRunLaunchReceiptComplete status) eqn:Er; [|done]. exfalso.
  unfold lookupJob in Hl. unfold attempted in Ha.
  destruct (st_JobCreateAttemptedAt status) as [t|]; [|done]. cbn [isSet negb] in Hl.
  rewrite andb_false_r in Hl.
  set (ref := if plannedLaunch status then st_PlannedJobRef status else st_JobRef status) in Hl.
  assert (∃ r, ref = Some r ∧ blank (ref_Name r) = false) as (r & Er' & Hb).
  { unfold ref, plannedLaunch. rewrite Er. destruct (st_JobRef status) as [jr|] eqn:Ej; simpl.
    - exists jr. split; [done|]. by apply Hn.
    - rewrite bool_decide_true by (destruct (decide (st_JobUID status = "")); [done|by destruct (Hu n)]).
      by apply named_planned. }
  rewrite Er' in Hl. destruct (existingAgentRunJob _ _ _ _ w) as [e|[job m]] eqn:Ex; [done|].
  assert (job = None) as -> by (case_match; by simplify_eq).
  pose proof (existing_reported _ _ _ _ _ Ex Hb) as Hm. rewrite bool_decide_false in Hl by done.
  simpl in Hl. destruct (plannedLaunch status); simpl in Hl; by simplify_eq.
Qed.

Lemma lookup_found obj status w job m :
  lookupJob obj status w = inr (Some job, m) →
  blank (job_Name job) = false
  ∧ (plannedLaunch status = false → st_JobRef status = None →
     ∀ e, getJob (run_Namespace obj) (job_Name job) w = inl e → IsNotFound e = false).
Proof.
  unfold lookupJob. destruct (existingAgentRunJob _ _ _ _ w) as [e|[job' m']] eqn:Ex; [done|].
  intros Hl. assert (job' = Some job) as -> by (case_match; by simplify_eq).
  apply existing_found in Ex as [Hb Hp]. split; [done|]. intros Hpl Hj. apply Hp. by rewrite Hpl.
Qed.

Lemma starting_ident obj :
  identified (run_Status obj) → agentRunPhaseTerminal (run_Phase obj) = false →
  ident (startingStatus obj) = ident (run_Status obj).
Proof.
  intros [Hu Hn] Hphase. unfold startingStatus. destruct (_ && negb _) eqn:E; [|done].
  apply andb_true_iff in E as [_ E]. apply negb_true_iff, andb_false_iff in E as [E|E].
  - unfold run_Phase in Hphase. by rewrite Hphase in E.
  - apply orb_false_iff in E as [[Ej _]%orb_false_iff Ea].
    destruct (st_JobRef (run_Status obj)) as [ref|] eqn:Er.
    { rewrite (Hn ref eq_refl) in Ej. done. }
    destruct (st_JobCreateAttemptedAt (run_Status obj)) eqn:Eat; [done|].
    unfold ident. rewrite Er, Eat. simpl. f_equal.
    destruct (decide (st_JobUID (run_Status obj) = "")) as [->|n]; [done|]. by destruct (Hu n).
Qed.


(** ** Launch *)

(** What holds when the Job of a run is about to be created: [w] is the cluster as
    the reconciliation found it. *)
Record launching (ns n : string) (w : W) obj effective (composition : AgentRunResolvedCompositionStatus)
    (dataVolumes : list resolvedAgentRunDataVolume) status (promptHash : string) : Prop := {
  ln_read : getRun ns n w = inr obj;
  ln_live : agentRunPhaseTerminal (run_Phase obj) = false ∧ agentRunInterruptDuplicateHold obj = None;
  ln_absent : lookupJob obj (startingStatus obj) w = inr (None, "");
  ln_composed : ∃ c, resolveAgentRunComposition obj w = (effective, inr c)
    ∧ ∃ digest, composition = c <| rcs_PayloadDigest := digest |>;
  ln_valid : ∃ t, agentRunBlockingValidation (rc_Options cfg) (rc_Planes cfg) validSPIFFEID effective t = None;
  ln_unpaused : ∃ t t' reason message after,
    agentRunLaunchPausedWithReader effective t t' w = inr (false, reason, message, after);
  ln_first : ∃ reason,
    agentRunQueuedBehind (opt_ApplicationMaxConcurrentRuns (rc_Options cfg)) effective w = inr (None, reason);
  ln_volumes : resolveAgentRunDataVolumes effective w = inr (dataVolumes, None);
  ln_gate : ∃ w1 t t' reason message after,
    agentRunLaunchPausedWithReader effective t t' (apiReader w1) = inr (false, reason, message, after);
  ln_runtime : shouldGenerateOnActor (rc_Options cfg) (rc_Planes cfg) effective = false;
  ln_prompt : promptHash = shortHash (buildAgentRunPrompt agentRunSystemPromptMarkdown effective);
  ln_record : onRecord status = onRecord (startingStatus obj);
  ln_receipt : agentRunLaunchReceiptComplete status = true;
  ln_plan : agentRunJobSnapshotDigest (agentRunJob (rc_Options cfg) (withComposition composition effective)
      (harnessJobName effective promptHash) (contextName effective promptHash) dataVolumes)
    = inr (st_JobSpecDigest status) }.

Lemma plan_digest status desired payload promptHash composition dataVolumes u :
  validateAgentRunLaunchPlan status desired payload promptHash composition dataVolumes = inr u →
  agentRunJobSnapshotDigest desired = inr (st_JobSpecDigest status).
Proof.
  unfold validateAgentRunLaunchPlan. intros (_ & _ & Hx)%sbind_inr. revert Hx.
  destruct (st_PlannedJobRef status); [|done]. destruct (st_PayloadRef status); [|done].
  intros (_ & _ & Hx)%sbind_inr. revert Hx. intros (digest & Hd & Hx)%sbind_inr. revert Hx.
  intros (_ & Hc%check_inr & _)%sbind_inr. apply bool_decide_eq_true in Hc. by rewrite Hc.
Qed.

Section reconciliation.
(** What is to hold at the end, and that the launch of a Job brings it about, when the
    reconciliation starts from a request and a cluster with [Q]. *)
Context (Q : string → string → W → Prop) (P : W → Prop) (HP : ∀ w, J w → P w).
Context (Hlaunch : ∀ ns n w obj effective composition dataVolumes status promptHash now clock w2,
  (∀ i, T (clock i)) → Q ns n w → J w → obj ∈ g_seen (ghost W w) →
  launching ns n w obj effective composition dataVolumes status promptHash →
  ghost W w2 = ghost W w →
  wp (recordAttempt obj status now (λ obj' status', createRunJob cfg obj' (withComposition composition effective)
        status' promptHash composition dataVolumes now clock))
     (λ _ w', P w') w2).

Lemma wp_P {A} K (m : M W GoErr A) w : Safe J K w → keeps J K m → wp m (λ _ w', P w') w.
Proof. intros HS Hm. eapply wp_mono; [by apply Hm|]. intros x w' [HJ _]. by apply HP. Qed.

(** A run without a Job, as it was found in [w]. *)
Record unlaunchedRun (ns n : string) (w : W) obj : Prop := {
  ul_read : getRun ns n w = inr obj;
  ul_J : J w;
  ul_Q : Q ns n w;
  ul_seen : obj ∈ g_seen (ghost W w);
  ul_live : agentRunPhaseTerminal (run_Phase obj) = false ∧ agentRunInterruptDuplicateHold obj = None;
  ul_absent : lookupJob obj (startingStatus obj) w = inr (None, "");
  ul_ident : ident (startingStatus obj) = ident (run_Status obj) }.

Lemma unlaunched_kept ns n w obj status s :
  unlaunchedRun ns n w obj → onRecord status = onRecord (startingStatus obj) → ident s = ident status →
  kept (run_Status obj) s.
Proof.
  intros Hu Ho%onRecord_ident Hs. apply kept_ident. rewrite Hs, Ho. by apply (ul_ident _ _ _ _ Hu).
Qed.

Lemma unlaunched_Safe ns n w obj w' :
  unlaunchedRun ns n w obj → ghost W w' = ghost W w → Safe J [obj] w'.
Proof.
  intros Hu Hg. eapply Safe_ghost; [exact Hg|]. split; [by eapply ul_J|].
  intros r ->%list_elem_of_singleton. by eapply ul_seen.
Qed.

(** What the run has passed before its execution is dispatched. *)
Definition passed ns n (w : W) obj effective c (dataVolumes : list resolvedAgentRunDataVolume) : Prop :=
  unlaunchedRun ns n w obj
  ∧ resolveAgentRunComposition obj w = (effective, inr c)
  ∧ (∃ t, agentRunBlockingValidation (rc_Options cfg) (rc_Planes cfg) validSPIFFEID effective t = None)
  ∧ (∃ t t' reason message after,
       agentRunLaunchPausedWithReader effective t t' w = inr (false, reason, message, after))
  ∧ (∃ reason, agentRunQueuedBehind (opt_ApplicationMaxConcurrentRuns (rc_Options cfg)) effective w
       = inr (None, reason))
  ∧ resolveAgentRunDataVolumes effective w = inr (dataVolumes, None).

Lemma wp_launchJob ns n w obj effective c dataVolumes status now clock w1 :
  (∀ i, T (clock i)) → passed ns n w obj effective c dataVolumes → onRecord status = onRecord (startingStatus obj) →
  (∃ w1 t t' reason message after,
     agentRunLaunchPausedWithReader effective t t' (apiReader w1) = inr (false, reason, message, after)) →
  shouldGenerateOnActor (rc_Options cfg) (rc_Planes cfg) effective = false →
  ghost W w1 = ghost W w →
  wp (launchJob cfg validLabelValue agentRunSystemPromptMarkdown obj effective status c dataVolumes now clock)
    (λ _ w', P w') w1.
Proof.
  intros HT (Hu & Hcomp & Hv & Hp & Hq & Hdv) Hrec Hgate Hsub Hg1. unfold launchJob.
  apply wp_bind. eapply wp_mono; [apply wp_configMap|].
  intros x w2 [[Hg2 _] Hname]. assert (ghost W w2 = ghost W w) as Hg by congruence. clear Hg1 Hg2.
  pose proof (unlaunched_Safe _ _ _ _ _ Hu Hg) as HS.
  destruct x as [e|[payload digest]]; [by apply HP, HS|]. specialize (Hname payload digest eq_refl).
  apply wp_bind. unfold liftErr at 1, wp at 1; simpl.
  destruct (agentRunJobSnapshotDigest _) as [e|d] eqn:Ed; [by apply HP, HS|].
  destruct (agentRunLaunchReceiptComplete status) eqn:Er; simpl.
  2:{ eapply wp_P; [exact HS|]. apply holds_patchAgentRunStatus; [by left|].
      by eapply unlaunched_kept. }
  apply wp_bind. unfold liftErr at 1, wp at 1; simpl.
  destruct (validateAgentRunLaunchPlan _ _ _ _ _ _) as [e|u] eqn:Epl; [by apply HP, HS|].
  case_match; [by apply HP, HS|].
  apply (Hlaunch ns n w); [by auto|by eapply ul_Q|by eapply ul_J|by eapply ul_seen| |done].
  split; try done; [by eapply ul_read|by eapply ul_live|by eapply ul_absent|by eauto|].
  apply plan_digest in Epl. by rewrite Hname in Epl.
Qed.

Lemma wp_dispatch ns n w obj effective c dataVolumes status now clock :
  (∀ i, T (clock i)) → passed ns n w obj effective c dataVolumes → onRecord status = onRecord (startingStatus obj) →
  wp (dispatch cfg apiReader validLabelValue agentRunSystemPromptMarkdown obj effective status c dataVolumes
        now clock) (λ _ w', P w') w.
Proof.
  intros HT Hpass Hrec. unfold dispatch. apply wp_bind. eapply wp_mono; [apply wp_freshness|].
  intros x w' [Hg Hs]. pose proof (unlaunched_Safe _ _ _ _ _ (proj1 Hpass) Hg) as HS.
  destruct x as [e|[s [[[phase reason] message]|]]]; [by apply HP, HS| |];
    (assert (onRecord s = onRecord (startingStatus obj)) as Hrec' by (rewrite <- Hrec; by eapply Hs)); clear Hs.
  { case_match; (eapply wp_P; [exact HS|]; apply holds_patchStatusWith; [by left|]);
      by eapply unlaunched_kept; [apply Hpass|exact Hrec'|]. }
  apply wp_bind, wp_read.
  destruct (agentRunLaunchPausedWithReader _ _ _ _) as [e|[[[isPaused reason] message] after]] eqn:Ep;
    [by apply HP, HS|].
  destruct isPaused.
  { eapply wp_P; [exact HS|]. apply holds_patchStatusThen; [by left|].
    by eapply unlaunched_kept; [apply Hpass|exact Hrec'|]. }
  destruct (shouldGenerateOnActor _ _ _) eqn:Esub.
  - eapply wp_P; [exact HS|]. apply holds_substrate; [by left|].
    by eapply unlaunched_kept; [apply Hpass|exact Hrec'|].
  - eapply wp_launchJob; [by auto|done|done| |done|done]. eauto 10.
Qed.

Lemma wp_launchRun ns n w obj now clock :
  (∀ i, T (clock i)) → unlaunchedRun ns n w obj →
  wp (launch cfg apiReader validSPIFFEID validLabelValue agentRunSystemPromptMarkdown obj (startingStatus obj)
        now clock) (λ _ w', P w') w.
Proof.
  intros HT Hu. pose proof (unlaunched_Safe _ _ _ _ _ Hu eq_refl) as HS. unfold launch. apply wp_bind, wp_read.
  assert (obj ∈ [obj]) as Ho by by left.
  destruct (resolveRun _ _ _ _ _ _ _ w) as [r|effective c s] eqn:Er.
  { eapply wp_P; [exact HS|]. eapply resolve_stop; [done| |exact Er]. by eapply unlaunched_kept. }
  destruct (resolve_go _ _ _ _ _ _ _ _ _ Er) as (Hcomp & Hval & Hrec & _). clear Er.
  apply wp_bind, wp_read.
  destruct (agentRunLaunchPausedWithReader _ _ _ _) as [e|[[[isPaused reason] message] after]] eqn:Ep;
    [by apply HP, HS|].
  destruct isPaused.
  { eapply wp_P; [exact HS|]. apply holds_patchStatusThen; [done|]. by eapply unlaunched_kept; [|exact Hrec|]. }
  apply wp_bind, wp_read. destruct (agentRunQueuedBehind _ _ _) as [e|[[ahead|] reason']] eqn:Eq;
    [by apply HP, HS| |].
  { eapply wp_P; [exact HS|]. apply holds_patchAgentRunStatus; [done|].
    by eapply unlaunched_kept; [|exact Hrec|]. }
  apply wp_bind, wp_read. destruct (resolveAgentRunDataVolumes _ _) as [e|[dv [[[phase reason''] msg]|]]] eqn:Ed;
    [by apply HP, HS| |].
  { unfold refusedVolumes. case_match; (eapply wp_P; [exact HS|]; apply holds_patchAgentRunStatus; [done|]);
      by eapply unlaunched_kept; [|exact Hrec|]. }
  apply (wp_dispatch ns n); [by auto| |exact Hrec]. unfold passed. eauto 15.
Qed.

Lemma wp_chatDeadline K obj status now w :
  obj ∈ K → Safe J K w → kept (run_Status obj) status →
  wp (reconcileAgentRunChatStartupDeadline apiReader validLabelValue obj obj status now)
    (λ x w', J w' ∧ (x = inr None → w' = w)) w.
Proof.
  intros Ho HS Hk. unfold reconcileAgentRunChatStartupDeadline.
  case_match; [apply wp_ret; split; [apply HS|done]|].
  apply wp_bind, wp_try, wp_read. destruct (listJobs _ _ _); [split; [apply HS|done]|].
  case_match; [apply wp_ret; split; [apply HS|done]|].
  apply wp_bind. eapply wp_mono.
  { apply (holds_patchStatusThen K); [exact Ho| |exact HS]. by apply (kept_next _ status). }
  intros [e|r] w' [HJ _]; [done|]. by apply wp_ret.
Qed.

Lemma kept_filled obj job status :
  identified status → st_JobRef status ≠ None → kept (run_Status obj) status →
  kept (run_Status obj) (filledFromJob job status).
Proof.
  intros [_ Hn] Hr [Ha _]. destruct (st_JobRef status) as [ref|] eqn:Er; [|done].
  by apply (kept_named _ _ ref); [exact Ha|exact Er|apply Hn].
Qed.

Lemma wp_live ns n w obj clock :
  (∀ i, T (clock i)) → getRun ns n w = inr obj → Q ns n w → Safe J [obj] w →
  agentRunPhaseTerminal (run_Phase obj) = false → agentRunInterruptDuplicateHold obj = None →
  wp (reconcileLive cfg apiReader validSPIFFEID validLabelValue agentRunSystemPromptMarkdown obj clock)
    (λ _ w', P w') w.
Proof.
  intros HT Hget HQ HS Hph Hhold. unfold reconcileLive. assert (obj ∈ [obj]) as Ho by by left.
  assert (identified (run_Status obj)) as Hidd.
  { eapply sf_identified; [apply (sb_safe _ _ J), HS|by apply HS]. }
  pose proof (starting_ident obj Hidd Hph) as Hid. set (status := startingStatus obj) in *.
  assert (identified status) as Hids by by eapply ident_identified.
  assert (kept (run_Status obj) status) as Hk by by apply kept_ident.
  apply wp_bind, wp_read. destruct (lookupJob obj status w) as [e|[job missing]] eqn:El; [by apply HP, HS|].
  case_bool_decide as Em; cbn [negb]; [subst missing|].
  2:{ eapply wp_P; [exact HS|]. apply holds_patchAgentRunStatus; [done|]. by apply (kept_next _ status). }
  destruct job as [job|].
  - clearbody status. apply lookup_found in El as [Hb Hpresent].
    destruct (bool_decide _ && _) eqn:Eadopt.
    + case_match; [by apply HP, HS|]. apply wp_bind, wp_read.
      destruct (validateAgentRunLaunchReceipt _ _ _ w); [by apply HP, HS|].
      eapply wp_P; [exact HS|]. apply holds_observe; [by auto|done|].
      apply (kept_named _ _ (jobRefOf job)); [|done|done]. destruct Hk as [<- _]. done.
    + destruct (st_JobRef status) as [ref|] eqn:Er; simpl.
      * eapply wp_P; [exact HS|]. apply holds_observe; [by auto|done|]. apply kept_filled; [done|by rewrite Er|done].
      * eapply wp_mono; [eapply (wp_recover [obj]); auto; try done|intros x w' HS'; by apply HP, HS'].
        apply Hpresent; [|done]. unfold plannedLaunch. rewrite Er. simpl. by rewrite andb_true_r, andb_comm.
  - apply wp_bind. eapply wp_mono; [by eapply wp_chatDeadline|].
    intros [e|[result|]] w' [HJ Hw']; [by apply HP|by apply HP|]. rewrite (Hw' eq_refl).
    apply (wp_launchRun ns n); [by auto|]. split; try done; [apply HS|by apply HS].
Qed.

Lemma wp_reconcile ns n clock w :
  (∀ i, T (clock i)) → Q ns n w → J w →
  wp (reconcileAgentRun cfg apiReader validSPIFFEID validLabelValue agentRunSystemPromptMarkdown ns n clock)
    (λ _ w', P w') w.
Proof.
  intros HT HQ HJ. unfold reconcileAgentRun. apply wp_bind, wp_try, wp_read.
  destruct (getRun ns n w) as [e|obj] eqn:Eg; [by case_match; apply HP|].
  assert (Safe J [obj] w) as HS.
  { split; [done|]. intros r ->%list_elem_of_singleton. by destruct (getRun_seen W _ _ _ _ Eg). }
  assert (obj ∈ [obj]) as Ho by by left. case_match; [by apply HP|].
  destruct (agentRunInterruptDuplicateHold obj) as [requester|] eqn:Eh.
  { eapply wp_P; [exact HS|]. by apply holds_hold. }
  destruct (agentRunPhaseTerminal _) eqn:Ep; [|by eapply wp_live].
  eapply wp_mono; [apply (holds_terminal [obj]); [by auto|done|done|]|intros x w' HS'; by apply HP, HS'].
  exists w. split; [done|]. destruct (getRun_seen W _ _ _ _ Eg) as [_ [= -> ->]]. exact Eg.
Qed.
End reconciliation.
End programs.
