(* ===== verification/RunSafety.v ===== *)
(** * At most one execution per run

    The theorems about whole reconciliations of AgentRuns: however they interleave
    with the rest of the cluster, and whatever version of a run each of them reads,
    a run is executed at most once; a Job is created only for a run that passed
    every gate, and is the one whose digest was recorded; a run is deleted only when
    it is archived and its retention has passed. *)

From stdpp Require Import base list gmap strings.
From Stdlib Require Import ZArith Lia.
From S2P Require Import Prelude GoStrings GoTime Names ApiRun ApiWork Kube RunControl LaunchGate Merge Capabilities Composition RunOutput RunBackend RunPayload RunJob Standing Substrate RunValidation ApiVolume DataVolumes RunLaunch RunPreflight Archive RunTerminal RunObserve RunReconcile RunTriples.

Open Scope Z_scope.

Section safety.
Context {W : Type} `{Client W, Library W, Workloads W, Web W, VolumeClient W, Actors W, ArchiveDB W}.
Context `{!RunLaws W}.
Context `{Conditions, Decode, NetURL, ClaimJSON, JobRecords}.
Context `{Marshal AgentRunResult, Marshal ArchiveDigestBody, Marshal AgentRunStatus,
  Marshal (gmap string string), Marshal AgentRunDecisionStatus, Marshal (list AgentRunStatusReport)}.
Context `{Marshal AgentRunProfileSpec, Marshal AgentHarnessProfileSpec, Marshal AgentCouncilSpec,
  Marshal AgentSkillSetSpec, Marshal AgentToolSetSpec, Marshal AgentRunSpec}.
Context `{Marshal agentRunJobSnapshot, MarshalIndent AgentRunContext, MarshalIndent AgentRunSpec}.
Context `{Marshal (list AgentRunDataVolumeStatus), Marshal (list string), Marshal (list ToolItem),
  Marshal AgentRunResolvedCompositionStatus}.
Context (cfg : RunConfig) (apiReader : W → W).
Context (validSPIFFEID validLabelValue : string → bool) (agentRunSystemPromptMarkdown : string).
Local Open Scope go_scope.
Implicit Types (K : list AgentRun) (obj effective : AgentRun) (status : AgentRunStatus).

(** ** The launch of a Job *)

(** Nothing was launched for the UID, and its run has the attempt on record. *)
Definition cleared (uid : string) (w : W) : Prop :=
  (∀ j, j ∈ g_jobs (ghost W w) → controlledBy uid j = false)
  ∧ ∀ k c, g_current (ghost W w) !! k = Some c → run_UID c = uid → attempted (run_Status c).

Section launch.
Context {T : Time → Prop} (J : Stable (W := W) cfg T).

(** The attempt goes on record only when the version that was read is the present
    one, so that nothing was launched before. *)
Lemma wp_recordAttempt obj status now k (P : W → Prop) w :
  J w → obj ∈ g_seen (ghost W w) → ident status = ident (run_Status obj) → ¬ attempted status →
  (∀ w, J w → P w) →
  (∀ obj' s w', J w' → obj' ∈ g_seen (ghost W w') → cleared (run_UID obj) w' →
     st_JobCreateAttemptedAt s = st_JobCreateAttemptedAt (run_Status obj') →
     wp (k obj' s) (λ _ w'', P w'') w') →
  wp (recordAttempt obj status now k) (λ _ w', P w') w.
Proof.
  intros HJ Ho Hid Hna HP Hk. unfold recordAttempt, attempted in Hna |- *.
  destruct (st_JobCreateAttemptedAt status) as [t|] eqn:Ea; [by destruct Hna|].
  assert (st_JobCreateAttemptedAt (run_Status obj) = None) as Eb by (unfold ident in Hid; congruence).
  apply wp_bind, wp_try. unfold wp at 1. destruct (patchRunStatus _ _ _ _ w) as [w' x] eqn:E.
  destruct (patchRunStatus_law W _ _ _ _ _ _ _ E)
    as [[Hg [e ->]]|(r & r' & Hc & Hlock & Hkey & Hu & Hp & Hg & Hx)].
  { simpl. assert (J w') by by eapply (sb_quiet _ _ J). case_match; by apply HP. }
  assert (obj = r) as <-. { eapply (ghost_version W); [done|done|]. symmetry. by apply Hlock. }
  pose proof (sb_safe _ _ J _ HJ) as Hsafe.
  destruct Hp as [[_ Hatt] [Huid _] [Hrefs _] _ _]. simpl in Hatt, Huid, Hrefs.
  assert (st_JobRef status = st_JobRef (run_Status obj) ∧ st_JobUID status = st_JobUID (run_Status obj))
    as [Er Eu] by (unfold ident in Hid; by injection Hid).
  rewrite Eb in Hatt. specialize (Hatt ltac:(done)). specialize (Huid Eu). specialize (Hrefs Er).
  assert (J w') as HJ'.
  { eapply (sb_put _ _ J w w' obj r'); [done|by rewrite Hkey|done| |by unfold attempted; rewrite Hatt
      |by rewrite Hrefs|done].
    split; rewrite ?Huid, Hrefs; by apply (sf_identified _ Hsafe obj). }
  destruct x as [e|obj']; simpl; [case_match; by apply HP|].
  rewrite (Hx obj' eq_refl) in *. clear Hx.
  apply Hk; [done|rewrite Hg; by left| |by rewrite Hatt]. split; rewrite Hg; simpl.
  - intros j Hj. destruct (controlledBy (run_UID obj) j) eqn:Ec; [|done].
    by destruct (sf_launched _ Hsafe _ _ _ Hc Hj Ec).
  - intros k' c [[_ <-]|[Hne Hc']]%lookup_insert_Some Hcu; [by unfold attempted; rewrite Hatt|].
    destruct Hne. rewrite Hkey. rewrite <- (ghost_key W _ _ _ Hc').
    symmetry. apply (ghost_uid W w); [by eapply ghost_current|done|done].
Qed.

(** What holds once the Job [j] is accepted. *)
Context (after : Job → Stable (W := W) cfg T) (P : W → Prop).
Context (HP : ∀ w, J w → P w).

Lemma wp_launchStep ns n w obj effective composition dataVolumes status promptHash now clock w2 :
  (∀ i, T (clock i)) → J w → obj ∈ g_seen (ghost W w) →
  launching cfg apiReader validSPIFFEID agentRunSystemPromptMarkdown ns n w obj effective composition
    dataVolumes status promptHash →
  ghost W w2 = ghost W w →
  (∀ w w' j, J w → cleared (run_UID obj) w →
     meta_OwnerReferences (job_ObjectMeta j) = [controllerRef (withComposition composition effective)] →
     ghost W w' = addJob j (ghost W w) → after j w') →
  (∀ w j, after j w → admitted (sentJob cfg (withComposition composition effective) promptHash dataVolumes) j →
     meta_OwnerReferences (job_ObjectMeta j) = [controllerRef (withComposition composition effective)] → P w) →
  wp (recordAttempt obj status now (λ obj' status', createRunJob cfg obj' (withComposition composition effective)
        status' promptHash composition dataVolumes now clock))
     (λ _ w', P w') w2.
Proof.
  intros HT HJ Ho Hl Hg Hadd Hafter.
  pose proof (sb_safe _ _ J _ HJ) as Hsafe. pose proof (sf_identified _ Hsafe _ Ho) as Hidd.
  pose proof (starting_ident obj Hidd (proj1 (ln_live _ _ _ _ _ _ _ _ _ _ _ _ _ Hl))) as Hid.
  pose proof (ln_record _ _ _ _ _ _ _ _ _ _ _ _ _ Hl) as Hrec.
  assert (ident status = ident (run_Status obj)) as Hids by (rewrite <- Hid; by apply onRecord_ident).
  apply wp_recordAttempt; [by eapply (sb_quiet _ _ J)|by rewrite Hg|done| |done|].
  { intros Ha. pose proof (ln_receipt _ _ _ _ _ _ _ _ _ _ _ _ _ Hl) as Hr.
    pose proof (ln_absent _ _ _ _ _ _ _ _ _ _ _ _ _ Hl) as Hn.
    rewrite (onRecord_receipt _ _ Hrec) in Hr.
    rewrite (lookup_none _ _ _ (ident_identified _ _ Hid Hidd) Hn) in Hr; [done|].
    by eapply ident_attempted; [apply onRecord_ident, Hrec|]. }
  intros obj' s w' HJ' Ho' Hclear Ha. unfold createRunJob. apply wp_bind.
  eapply wp_mono; [apply wp_ensureJob|].
  intros x w'' [Hb [Hg''|[_ (j & Had & Hown & Hg'')]]].
  - assert (J w'') as HJ'' by by eapply (sb_quiet _ _ J).
    destruct x as [e|job]; [by apply HP|]. eapply wp_mono.
    { apply (holds_observe _ apiReader validSPIFFEID validLabelValue "" J [obj']); [by auto|by left| |].
      - by apply (kept_named _ _ (jobRefOf job)); [|done|apply Hb].
      - split; [done|]. intros r ->%list_elem_of_singleton. by rewrite Hg''. }
    intros y w3 [HJ3 _]. by apply HP.
  - assert (after j w'') as HJ'' by by eapply Hadd.
    destruct x as [e|job]; [by eapply Hafter|]. eapply wp_mono.
    { apply (holds_observe _ apiReader validSPIFFEID validLabelValue "" (after j) [obj']); [by auto|by left| |].
      - by apply (kept_named _ _ (jobRefOf job)); [|done|apply Hb].
      - split; [done|]. intros r ->%list_elem_of_singleton. by rewrite Hg''. }
    intros y w3 [HJ3 _]. by eapply Hafter.
Qed.
End launch.

(** ** The record of executions *)

Definition safely (T : Time → Prop) : Stable (W := W) cfg T.
Proof.
  unshelve econstructor; [exact (λ w, safe (ghost W w))|..]; simpl.
  - done.
  - by intros w w' ->.
  - intros w w' r r' Hs Hc Hu Hi Ha Hr ->. pose proof (ghost_key W _ _ _ Hc) as Hk.
    pose proof (ghost_current W _ _ _ Hc). by eapply (safe_put _ r).
  - intros w w' r' Hs Hf Hj Hz ->. by apply safe_new.
  - intros w w' run now Hs _ _ _ _ ->. by apply safe_drop.
Defined.

Lemma safe_launched w w' j obj :
  safe (ghost W w) → cleared (run_UID obj) w →
  meta_OwnerReferences (job_ObjectMeta j) = [controllerRef obj] →
  ghost W w' = addJob j (ghost W w) → safe (ghost W w').
Proof.
  intros Hs [Hno Hat] Hown ->. eapply safe_job; [done| |exact Hno|exact Hat].
  intros uid. by apply controlledBy_created.
Qed.

(** The record of a launch is that of the run that was read. *)
Lemma launching_meta ns n w obj effective composition dataVolumes status promptHash :
  launching cfg apiReader validSPIFFEID agentRunSystemPromptMarkdown ns n w obj effective composition
    dataVolumes status promptHash →
  run_ObjectMeta effective = run_ObjectMeta obj
  ∧ (agentRunPhaseTerminal (run_Phase obj) = false →
     agentRunLaunchReceiptComplete (startingStatus obj) = true →
     agentRunLaunchReceiptComplete (run_Status obj) = true
     ∧ st_JobSpecDigest (startingStatus obj) = st_JobSpecDigest (run_Status obj)).
Proof.
  intros Hl. split.
  { destruct (ln_composed _ _ _ _ _ _ _ _ _ _ _ _ _ Hl) as (c & Hc & _).
    pose proof (composition_meta obj w) as Hm. by rewrite Hc in Hm. }
  intros Hph. unfold startingStatus. case_match; [by intros ?|]. by intros ?.
Qed.

Lemma launching_uid ns n w obj effective composition dataVolumes status promptHash :
  launching cfg apiReader validSPIFFEID agentRunSystemPromptMarkdown ns n w obj effective composition
    dataVolumes status promptHash →
  run_UID (withComposition composition effective) = run_UID obj.
Proof.
  intros Hl. destruct (launching_meta _ _ _ _ _ _ _ _ _ Hl) as [Hm _]. unfold run_UID. simpl. by rewrite Hm.
Qed.

Lemma reconcile_safe ns n clock w :
  safe (ghost W w) →
  wp (reconcileAgentRun cfg apiReader validSPIFFEID validLabelValue agentRunSystemPromptMarkdown ns n clock)
    (λ _ w', safe (ghost W w')) w.
Proof.
  intros Hs. apply (wp_reconcile cfg apiReader validSPIFFEID validLabelValue _ (safely (λ _, True)) (λ _ _ _, True) _ (λ _ H, H));
    [|done|done|done].
  intros ns' n' w1 obj effective c dv status hash now clock' w2 HT _ HJ Ho Hl Hg.
  eapply (wp_launchStep (safely _) (λ _, safely (λ _, True))); try done.
  intros w3 w4 j HJ3 Hc Hown Hg4. eapply safe_launched; [exact HJ3| |exact Hown|done].
  by rewrite (launching_uid _ _ _ _ _ _ _ _ _ Hl).
Qed.

(** ** What a reconciliation does to Jobs and runs *)

(** Reads of runs return what the server holds. *)
Definition upToDate : Prop :=
  ∀ w ns n r, getRun ns n w = inr r → g_current (ghost W w) !! (ns, n) = Some r.

(** The run [c] was deleted when it had been read as archived and its retention had
    passed at a time of [T]. *)
Definition expired (T : Time → Prop) (g : RunGhost) (c : AgentRun) : Prop :=
  ∃ run now, run ∈ g_seen g ∧ run_key run = run_key c ∧ run_UID run = run_UID c
    ∧ (upToDate → run = c) ∧ T now ∧ terminalRetentionElapsed cfg run now = true.

(** Since [before] only such have been deleted, and of the runs [runs] no other is gone. *)
Definition cleaned (T : Time → Prop) (runs : gmap key AgentRun) (before : list AgentRun) (g : RunGhost) : Prop :=
  ∃ gone, g_deleted g = before ++ gone
    ∧ (∀ k, is_Some (runs !! k) → is_Some (g_current g !! k) ∨ ∃ c, c ∈ gone ∧ run_key c = k)
    ∧ ∀ c, c ∈ gone → expired T g c.

Lemma cleaned_put T runs before r g : cleaned T runs before g → cleaned T runs before (putRun r g).
Proof.
  intros (gone & Hd & Hk & Hg). exists gone. split; [done|]. split.
  - intros k [Hcur|Hgone]%Hk; [left|by right]. simpl.
    destruct (decide (k = run_key r)) as [->|]; [rewrite lookup_insert_eq|rewrite lookup_insert_ne]; eauto.
  - intros c (run & now & Hs & Hx)%Hg. exists run, now. split; [by right|done].
Qed.

Lemma cleaned_drop T runs before w run now :
  cleaned T runs before (ghost W w) → run ∈ g_seen (ghost W w) → justRead run w → T now →
  terminalRetentionElapsed cfg run now = true → cleaned T runs before (dropRun (run_key run) (ghost W w)).
Proof.
  intros (gone & Hd & Hk & Hg) Hs (w1 & Hw1 & Hread) HT Ht.
  exists (gone ++ option_list (g_current (ghost W w) !! run_key run)). simpl. split; [by rewrite Hd, app_assoc|].
  split.
  - intros k [Hcur|(c & Hc & Hck)]%Hk; [|right; exists c; split; [apply elem_of_app; by left|done]].
    destruct (decide (k = run_key run)) as [->|]; [right|left; by rewrite lookup_delete_ne].
    destruct Hcur as [c Hc]. exists c. rewrite Hc. split; [apply elem_of_app; right; by left|].
    by eapply ghost_key.
  - intros c [Hc|Hc]%elem_of_app; [by apply Hg in Hc|]. destruct (g_current (ghost W w) !! run_key run) as [c'|] eqn:Ec; [|by apply not_elem_of_nil in Hc].
    apply list_elem_of_singleton in Hc as <-. rename Ec into Hc.
    pose proof (ghost_key W _ _ _ Hc) as Hkey. pose proof (ghost_current W _ _ _ Hc) as Hcs.
    exists run, now. split_and!; try done; [by apply (ghost_uid W w)|].
    intros Hfresh. apply Hfresh in Hread. rewrite Hw1 in Hread.
    assert (Some c = Some run) as [= ->] by exact (eq_trans (eq_sym Hc) Hread). done.
Qed.

(** The accepted Jobs are [jobs], and only expired runs have been deleted. *)
Definition calmly (T : Time → Prop) (runs : gmap key AgentRun) (before : list AgentRun) (jobs : list Job) :
    Stable (W := W) cfg T.
Proof.
  unshelve econstructor; [exact (λ w, safe (ghost W w) ∧ g_jobs (ghost W w) = jobs
    ∧ cleaned T runs before (ghost W w))|..]; simpl.
  - by intros w [? _].
  - by intros w w' ->.
  - intros w w' r r' (Hs & Hj & Hk) Hc Hu Hi Ha Hr Hg. split; [by eapply (sb_put _ _ (safely T) w)|].
    rewrite Hg. split; [done|]. by apply cleaned_put.
  - intros w w' r' (Hs & Hj & Hk) Hf Hjs Hz Hg. split; [by eapply (sb_new _ _ (safely T) w)|].
    rewrite Hg. split; [done|]. by apply cleaned_put.
  - intros w w' run now (Hs & Hj & Hk) Hrun Hread HT Ht Hg. split; [by eapply (sb_delete _ _ (safely T) w)|].
    rewrite Hg. split; [done|]. by eapply cleaned_drop.
Defined.

(** The Job [j] was sent for the run of the request. *)
Definition launchedFor (ns n : string) (w : W) (j : Job) : Prop :=
  ∃ obj effective composition dataVolumes status promptHash,
    launching cfg apiReader validSPIFFEID agentRunSystemPromptMarkdown ns n w obj effective composition
      dataVolumes status promptHash
    ∧ admitted (sentJob cfg (withComposition composition effective) promptHash dataVolumes) j
    ∧ meta_OwnerReferences (job_ObjectMeta j) = [controllerRef (withComposition composition effective)].

Lemma reconcile_outcome ns n clock w :
  safe (ghost W w) →
  wp (reconcileAgentRun cfg apiReader validSPIFFEID validLabelValue agentRunSystemPromptMarkdown ns n clock)
    (λ _ w', (g_jobs (ghost W w') = g_jobs (ghost W w)
              ∨ ∃ j, g_jobs (ghost W w') = g_jobs (ghost W w) ++ [j] ∧ launchedFor ns n w j)
      ∧ cleaned (λ t, ∃ i, t = clock i) (g_current (ghost W w)) (g_deleted (ghost W w)) (ghost W w')) w.
Proof.
  intros Hs. set (runs := g_current (ghost W w)). set (jobs := g_jobs (ghost W w)).
  set (before := g_deleted (ghost W w)).
  set (T t := ∃ i, t = clock i).
  apply (wp_reconcile cfg apiReader validSPIFFEID validLabelValue _ (calmly T runs before jobs)
    (λ ns' n' w', ns' = ns ∧ n' = n ∧ w' = w)); [by intros w' (_ & Hj & Hk); auto| |by eexists|done|].
  2:{ split_and!; [done|done|]. exists []. split; [by rewrite app_nil_r|]. split; [by auto|]. by intros c ?%not_elem_of_nil. }
  intros ns' n' w1 obj effective c dv status hash now clock' w2 HT (-> & -> & ->) HJ Ho Hl Hg.
  eapply (wp_launchStep (calmly T runs before jobs) (λ j, calmly T runs before (jobs ++ [j]))); try done.
  - by intros w' (_ & Hj & Hk); auto.
  - intros w3 w4 j (Hs3 & Hj3 & Hk3) Hc Hown Hg4. split.
    { eapply safe_launched; [exact Hs3| |exact Hown|done]. by rewrite (launching_uid _ _ _ _ _ _ _ _ _ Hl). }
    rewrite Hg4. simpl. split; [by rewrite Hj3|exact Hk3].
  - intros w' j (_ & Hj & Hk) Had Hown. split; [|done]. right. exists j. split; [done|].
    unfold launchedFor. eauto 12.
Qed.

(** ** The system *)

(** What the rest of the cluster does between reconciliations: anything to Jobs,
    Pods, secrets, volumes and the caches, and to runs what users and the other
    controllers do, which is to create, edit and delete them, not to write their
    status nor to create Jobs in their name. *)
Inductive elsewhere (w w' : W) : Prop :=
  | else_quiet : ghost W w' = ghost W w → elsewhere w w'
  | else_edit r r' :
      g_current (ghost W w) !! run_key r' = Some r → run_UID r' = run_UID r → run_Status r' = run_Status r →
      ghost W w' = putRun r' (ghost W w) → elsewhere w w'
  | else_create r' :
      (∀ s, s ∈ g_seen (ghost W w) → run_key s ≠ run_key r' ∧ run_UID s ≠ run_UID r') →
      (∀ j, j ∈ g_jobs (ghost W w) → controlledBy (run_UID r') j = false) →
      run_Status r' = zero_AgentRunStatus → ghost W w' = putRun r' (ghost W w) → elsewhere w w'
  | else_delete k : ghost W w' = dropRun k (ghost W w) → elsewhere w w'.

Inductive runStep (w w' : W) : Prop :=
  | step_reconcile ns n clock x :
      reconcileAgentRun cfg apiReader validSPIFFEID validLabelValue agentRunSystemPromptMarkdown ns n clock w
        = (w', x) → runStep w w'
  | step_elsewhere : elsewhere w w' → runStep w w'.

(** No Job yet and no status written. *)
Definition unlaunched (w : W) : Prop :=
  g_jobs (ghost W w) = [] ∧ ∀ r, r ∈ g_seen (ghost W w) → run_Status r = zero_AgentRunStatus.

Lemma unlaunched_safe w : unlaunched w → safe (ghost W w).
Proof.
  intros [Hj Hz]. split.
  - intros r Hr. rewrite (Hz r Hr). split; [done|]. by intros ref.
  - intros r c Hr _. by rewrite (Hz r Hr).
  - intros r c Hr _. by rewrite (Hz r Hr).
  - intros uid. rewrite Hj. simpl. lia.
  - intros k c j _. rewrite Hj. by intros ?%not_elem_of_nil.
Qed.

Lemma elsewhere_safe w w' : safe (ghost W w) → elsewhere w w' → safe (ghost W w').
Proof.
  intros Hs [Hg|r r' Hc Hu Hst Hg|r' Hf Hj Hz Hg|k Hg]; rewrite Hg; [done| | |by apply safe_drop].
  - pose proof (ghost_key W _ _ _ Hc) as Hk. pose proof (ghost_current W _ _ _ Hc) as Hr.
    eapply (safe_put _ r); rewrite ?Hst; auto. by apply (sf_identified _ Hs).
  - apply safe_new; auto. intros s Hs'. by apply Hf.
Qed.

Lemma step_safe w w' : safe (ghost W w) → runStep w w' → safe (ghost W w').
Proof.
  intros Hs [ns n clock x E|He]; [|by eapply elsewhere_safe].
  by apply (wp_elim _ _ _ _ _ (reconcile_safe ns n clock w Hs)) in E.
Qed.

Lemma steps_safe w w' : unlaunched w → rtc runStep w w' → safe (ghost W w').
Proof.
  intros Hu%unlaunched_safe Hsteps. revert Hu.
  induction Hsteps as [|w w1 w2 Hs _ IH]; [done|]. intros Hw. by apply IH, (step_safe w).
Qed.

(** C2: a run is executed at most once: however reconciliations of stale or fresh
    versions of runs, crashes and edits follow each other, the API server accepts at
    most one Job in the name of a run. *)
Theorem single_execution w w' uid :
  unlaunched w → rtc runStep w w' →
  (length (filter (λ j, controlledBy uid j = true) (g_jobs (ghost W w'))) ≤ 1)%nat.
Proof. intros Hu Hsteps. by apply sf_one, (steps_safe w). Qed.





(** C5: a Job is created only for a live run that passed every gate, under its recorded
    plan. *)
Theorem launch_admitted w0 w ns n clock w' x :
  unlaunched w0 → rtc runStep w0 w →
  reconcileAgentRun cfg apiReader validSPIFFEID validLabelValue agentRunSystemPromptMarkdown ns n clock w
    = (w', x) →
  g_jobs (ghost W w') ≠ g_jobs (ghost W w) →
  ∃ j obj effective composition dataVolumes promptHash,
    g_jobs (ghost W w') = g_jobs (ghost W w) ++ [j] ∧ getRun ns n w = inr obj
    ∧ agentRunPhaseTerminal (run_Phase obj) = false ∧ agentRunInterruptDuplicateHold obj = None
    ∧ (∃ c, resolveAgentRunComposition obj w = (effective, inr c))
    ∧ (∃ t, agentRunBlockingValidation (rc_Options cfg) (rc_Planes cfg) validSPIFFEID effective t = None)
    ∧ (∃ t t' reason message after,
         agentRunLaunchPausedWithReader effective t t' w = inr (false, reason, message, after))
    ∧ (∃ reason, agentRunQueuedBehind (opt_ApplicationMaxConcurrentRuns (rc_Options cfg)) effective w
         = inr (None, reason))
    ∧ resolveAgentRunDataVolumes effective w = inr (dataVolumes, None)
    ∧ agentRunLaunchReceiptComplete (run_Status obj) = true
    ∧ let desired := agentRunJob (rc_Options cfg) (withComposition composition effective)
        (harnessJobName effective promptHash) (contextName effective promptHash) dataVolumes in
      agentRunJobSnapshotDigest desired = inr (st_JobSpecDigest (run_Status obj))
      ∧ admitted (desired <| job_ObjectMeta := setControllerReference obj (job_ObjectMeta desired) |>) j
      ∧ controlledBy (run_UID obj) j = true.
Proof.
  intros Hu Hsteps E Hjobs.
  destruct (wp_elim _ _ _ _ _ (reconcile_outcome ns n clock w (steps_safe _ _ Hu Hsteps)) E)
    as [[Heq|(j & Hj & obj & effective & c & dv & status & hash & Hl & Had & Hown)] _]; [done|].
  exists j, obj, effective, c, dv, hash. destruct (launching_meta _ _ _ _ _ _ _ _ _ Hl) as [Hm Hstart].
  destruct Hl as [Hread [Hph Hhold] Habs (c' & Hcomp & _) Hval Hpause Hfirst Hvol _ _ Hprompt Hrec Hreceipt Hplan].
  pose proof (onRecord_receipt _ _ Hrec) as Hr'. rewrite Hreceipt in Hr'. symmetry in Hr'.
  destruct (Hstart Hph Hr') as [Hr Hd].
  split; [done|]. split; [done|]. split; [done|]. split; [done|]. split; [by eauto|].
  do 5 (split; [done|]). cbv zeta. split; [by rewrite Hplan, (onRecord_digest _ _ Hrec), Hd|]. split.
  - assert (controllerRef obj = controllerRef (withComposition c effective)) as Href
      by (unfold controllerRef, run_Name, run_UID; simpl; by rewrite Hm).
    unfold setControllerReference. rewrite Href. exact Had.
  - unfold controlledBy, GetControllerOf. rewrite Hown. simpl. apply bool_decide_eq_true.
    unfold run_UID. simpl. by rewrite Hm.
Qed.
End safety.
