(* ===== verification/RunMem.v ===== *)
(** * An in-memory cluster for runs

    A concrete server for the AgentRun controller: it keeps every version of a run,
    and every Job it accepted.  It satisfies the laws of [RunTriples], and the
    witnesses of the theorems on reconciliations run the controller on it. *)

From stdpp Require Import base list gmap strings.
From Stdlib Require Import ZArith Lia.
From S2P Require Import Prelude GoStrings GoTime Names ApiRun ApiWork Kube MemKube Fixtures RunControl LaunchGate Merge Capabilities Composition RunOutput RunBackend RunPayload RunJob Standing Substrate RunValidation ApiVolume DataVolumes RunLaunch RunPreflight Archive RunTerminal RunObserve RunReconcile RunTriples RunSafety.

Open Scope Z_scope.

(** [ms_seen]: the stored versions of runs; [ms_live]: the resource version of the
    present one; [ms_deleted]: the versions that were deleted. *)
Record MemState := mkMemState {
  ms_seen : list AgentRun;
  ms_live : gmap key string;
  ms_jobs : gmap key Job;
  ms_log : list Job;
  ms_maps : gmap key ConfigMap;
  ms_next : nat;
  ms_deleted : list AgentRun }.
#[export] Instance eta_MemState : Eta MemState := λ m, mkMemState
  (ms_seen m) (ms_live m) (ms_jobs m) (ms_log m) (ms_maps m) (ms_next m) (ms_deleted m).

(** Versions differ, and names and UIDs determine each other. *)
Definition versioned (seen : list AgentRun) : bool :=
  bool_decide (NoDup (map resourceVersion seen))
  && forallb (λ r, forallb (λ r', Bool.eqb (bool_decide (run_key r = run_key r'))
                                    (bool_decide (run_UID r = run_UID r'))) seen) seen.

Definition MemRuns : Type := { m : MemState | versioned (ms_seen m) = true }.

Definition ms_current (m : MemState) : gmap key AgentRun :=
  map_imap (λ k version, find (λ r, bool_decide (resourceVersion r = version)
                                  && bool_decide (run_key r = k)) (ms_seen m)) (ms_live m).
Definition memCurrent (w : MemRuns) : gmap key AgentRun := ms_current (proj1_sig w).
Definition memGhost (w : MemRuns) : RunGhost :=
  mkGhost (ms_log (proj1_sig w)) (memCurrent w) (ms_seen (proj1_sig w))
    (ms_deleted (proj1_sig w)).

(** Jobs under their own, nonblank names. *)
Definition memJobs (w : MemRuns) : gmap key Job :=
  filter (λ kj, job_key kj.2 = kj.1 ∧ blank (job_Name kj.2) = false) (ms_jobs (proj1_sig w)).

Definition refused {A} : GoErr + A := inl (ErrApi ReasonOther "refused").

(** A write of runs is refused when it would break the versions. *)
Definition storeState {A} (w : MemRuns) (m : MemState) (x : A) : MemRuns * (GoErr + A) :=
  match Bool.bool_dec (versioned (ms_seen m)) true with
  | left p => (exist _ m p, inr x)
  | right _ => (w, refused)
  end.

Definition versionedRun (w : MemRuns) (r : AgentRun) : AgentRun :=
  r <| run_ObjectMeta := (run_ObjectMeta r)
         <| meta_ResourceVersion := "v" +:+ fmtNat (ms_next (proj1_sig w)) |> |>.
Definition storeRun (w : MemRuns) (r : AgentRun) : MemRuns * (GoErr + AgentRun) :=
  let m := proj1_sig w in
  storeState w (m <| ms_seen := r :: ms_seen m |> <| ms_live := <[run_key r := resourceVersion r]> (ms_live m) |>
                  <| ms_next := S (ms_next m) |>) r.

(** The fields of the status that identify an execution are merged, the others
    replaced. *)
Definition mergeStatus (base new stored : AgentRunStatus) : AgentRunStatus :=
  let pick {A} `{EqDecision A} (f : AgentRunStatus → A) : A :=
    if bool_decide (f new = f base) then f stored else f new in
  new <| st_JobCreateAttemptedAt := pick st_JobCreateAttemptedAt |> <| st_JobUID := pick st_JobUID |>
    <| st_JobRef := pick st_JobRef |> <| st_Phase := pick st_Phase |>
    <| st_CompletedAt := pick st_CompletedAt |>.

Definition memPatchStatus (k : key) (lock : option string) (base s : AgentRunStatus) :
    M MemRuns GoErr AgentRun := λ w,
  match memCurrent w !! k with
  | None => (w, inl (notFound "AgentRun"))
  | Some r =>
      if match lock with Some v => negb (bool_decide (resourceVersion r = v)) | None => false end
      then (w, inl (ErrApi ReasonConflict "the object has been modified"))
      else storeRun w (versionedRun w (r <| run_Status := mergeStatus base s (run_Status r) |>))
  end.

Definition memAnnotate (k : key) (a v : string) : M MemRuns GoErr AgentRun := λ w,
  match memCurrent w !! k with
  | None => (w, inl (notFound "AgentRun"))
  | Some r => storeRun w (versionedRun w (r <| run_ObjectMeta := (run_ObjectMeta r)
                <| meta_Annotations := <[a := v]> (meta_Annotations (run_ObjectMeta r)) |> |>))
  end.

Definition memCreate (r : AgentRun) : M MemRuns GoErr AgentRun := λ w,
  let m := proj1_sig w in
  let r := versionedRun w (r <| run_ObjectMeta := (run_ObjectMeta r)
    <| meta_UID := "uid-" +:+ fmtNat (ms_next m) |> |> <| run_Status := zero_AgentRunStatus |>) in
  if forallb (λ s, negb (bool_decide (run_key s = run_key r)) && negb (bool_decide (run_UID s = run_UID r)))
       (ms_seen m) && forallb (λ j, negb (controlledBy (run_UID r) j)) (ms_log m)
  then storeRun w r else (w, inl (ErrApi ReasonAlreadyExists "already exists")).

Definition dropLive (k : key) (m : MemState) : MemState := m <| ms_deleted := ms_deleted m ++ option_list (ms_current m !! k) |> <| ms_live := delete k (ms_live m) |>.
Definition addMemJob (j : Job) (m : MemState) : MemState :=
  m <| ms_jobs := <[job_key j := j]> (ms_jobs m) |> <| ms_log := ms_log m ++ [j] |> <| ms_next := S (ms_next m) |>.
Definition dropMemJob (k : key) (m : MemState) : MemState := m <| ms_jobs := delete k (ms_jobs m) |>.
Definition cm_key (c : ConfigMap) : key := (cm_Namespace c, cm_Name c).
Definition putMemMap (c : ConfigMap) (m : MemState) : MemState :=
  m <| ms_maps := <[cm_key c := c]> (ms_maps m) |> <| ms_next := S (ms_next m) |>.

(** A write of something else than runs. *)
Definition otherwise (m' : MemState) (w : MemRuns) (H : ms_seen m' = ms_seen (proj1_sig w)) : MemRuns :=
  exist _ m' (eq_ind_r (λ seen, versioned seen = true) (proj2_sig w) H).

Definition memDelete (k : key) : M MemRuns GoErr unit := λ w,
  (otherwise (dropLive k (proj1_sig w)) w eq_refl, inr tt).

Definition memCreateJob (j : Job) : M MemRuns GoErr Job := λ w,
  match memJobs w !! job_key j with
  | Some _ => (w, inl (ErrApi ReasonAlreadyExists "already exists"))
  | None =>
      if blank (job_Name j) then (w, refused) else
      let j := storeJob ("job-uid-" +:+ fmtNat (ms_next (proj1_sig w))) j in
      (otherwise (addMemJob j (proj1_sig w)) w eq_refl, inr j)
  end.

Definition memDeleteJob (k : key) : M MemRuns GoErr unit := λ w,
  (otherwise (dropMemJob k (proj1_sig w)) w eq_refl, inr tt).

Definition memPutConfigMap (c : ConfigMap) : M MemRuns GoErr ConfigMap := λ w,
  let c := c <| cm_ObjectMeta := (cm_ObjectMeta c)
    <| meta_UID := "map-uid-" +:+ fmtNat (ms_next (proj1_sig w)) |> |> in
  (otherwise (putMemMap c (proj1_sig w)) w eq_refl, inr c).

Definition absent {A} (what : string) : GoErr + A := inl (notFound what).
Definition jobSelected (ns : string) (sel : option (string * string)) (j : Job) : bool :=
  bool_decide (job_Namespace j = ns)
  && match sel with
     | Some (k, v) => bool_decide (meta_Labels (job_ObjectMeta j) !! k = Some v)
     | None => true
     end.

#[export] Instance memruns_client : Client MemRuns := {
  getRun ns n w := found "AgentRun" (memCurrent w !! (ns, n));
  listRuns ns sel w := inr (filter (λ r, selects ns sel r = true) (map snd (map_to_list (memCurrent w))));
  createRun := memCreate;
  patchRunOwners _ _ := mfail (notFound "AgentRun");
  getChain _ _ _ := absent "AgentChain";
  patchChainFinalizers _ _ := mfail (notFound "AgentChain");
  patchChainStatus _ _ := mfail (notFound "AgentChain");
  getSchedule _ _ _ := absent "AgentSchedule";
  listSchedules _ := inr [];
  patchScheduleStatus _ _ := mfail (notFound "AgentSchedule");
  getControl _ _ := absent "AgentRunControl";
  listControls _ := inr [];
  patchControlStatus _ _ := mfail (notFound "AgentRunControl");
  getProfile _ _ _ := absent "AgentRunProfile" }.
#[export] Instance memruns_library : Library MemRuns := {
  getHarnessProfile _ _ _ := absent "AgentHarnessProfile";
  getSkillSet _ _ _ := absent "AgentSkillSet";
  listSkillSets _ _ := inr [];
  getToolSet _ _ _ := absent "AgentToolSet";
  listToolSets _ _ := inr [];
  getCouncil _ _ _ := absent "AgentCouncil" }.
#[export] Instance memruns_volumes : VolumeClient MemRuns := {
  getDataVolume _ _ _ := absent "AgentDataVolume";
  patchDataVolumeStatus _ _ := mfail (notFound "AgentDataVolume");
  getVolumeProfile _ _ _ := absent "VolumeProfile";
  getClaim _ _ _ := absent "PersistentVolumeClaim";
  createClaim _ := mfail (notFound "Namespace");
  patchClaimRequest _ _ := mfail (notFound "PersistentVolumeClaim");
  getStorageClass _ _ := absent "StorageClass";
  listAuthSessions _ _ := inr [];
  listVolumeCopies _ _ := inr [] }.
#[export] Instance memruns_web : Web MemRuns := {
  httpGet _ _ _ := absent "host";
  readSecret _ _ _ := absent "Secret" }.
#[export] Instance memruns_actors : Actors MemRuns := {
  describeActor _ _ := mfail (ErrText ErrActorNotFound);
  resumeActor _ _ := mfail (ErrText ErrActorNotFound);
  createActor s := mret (mkActorHandle (as_Namespace s) (as_Name s) "actor" "Running");
  suspendActor _ _ := mfail (ErrText ErrActorNotFound);
  generate _ := mret "reply" }.
#[export] Instance memruns_archive : ArchiveDB MemRuns := λ _, mret tt.
#[export] Instance memruns_workloads : Workloads MemRuns := {
  getJob ns n w := found "Job" (memJobs w !! (ns, n));
  listJobs ns sel w := inr (filter (λ j, jobSelected ns sel j = true) (map snd (map_to_list (memJobs w))));
  createJob := memCreateJob;
  deleteJob := memDeleteJob;
  patchJobTTL _ _ := mret tt;
  listPods _ _ _ := inr [];
  readPodLogs _ _ _ := absent "Pod";
  getConfigMap ns n w := found "ConfigMap" (filter (λ kc, cm_key kc.2 = kc.1) (ms_maps (proj1_sig w)) !! (ns, n));
  createConfigMap := memPutConfigMap;
  updateConfigMap := memPutConfigMap;
  getExternalSecret _ _ _ := absent "ExternalSecret";
  annotateExternalSecret _ _ := mfail (notFound "ExternalSecret");
  getSituation _ _ _ := absent "AdverseSituation";
  patchRunStatus := memPatchStatus;
  annotateRun := memAnnotate;
  createGenerated prefix r := λ w, memCreate (r <| run_ObjectMeta := (run_ObjectMeta r)
    <| meta_Name := prefix +:+ fmtNat (ms_next (proj1_sig w)) |> |>) w;
  deleteRun := memDelete }.

(** ** The laws *)

Lemma ms_current_lookup m k r :
  ms_current m !! k = Some r ↔
  ∃ v, ms_live m !! k = Some v
    ∧ find (λ r, bool_decide (resourceVersion r = v) && bool_decide (run_key r = k)) (ms_seen m) = Some r.
Proof.
  unfold ms_current. rewrite map_lookup_imap. destruct (ms_live m !! k) as [v|]; simpl; naive_solver.
Qed.

Lemma memCurrent_found w k r :
  memCurrent w !! k = Some r → r ∈ ms_seen (proj1_sig w) ∧ run_key r = k.
Proof.
  unfold memCurrent. rewrite ms_current_lookup. intros (v & _ & Hf).
  apply find_some in Hf as [Hin Hb]. apply andb_true_iff in Hb as [_ Hk]. bool_props.
  split; [by apply list_elem_of_In|done].
Qed.

Lemma ms_current_put m r :
  ms_current (m <| ms_seen := r :: ms_seen m |> <| ms_live := <[run_key r := resourceVersion r]> (ms_live m) |>
                <| ms_next := S (ms_next m) |>) = <[run_key r := r]> (ms_current m).
Proof.
  apply map_eq. intros k. unfold ms_current. rewrite map_lookup_imap. simpl.
  destruct (decide (k = run_key r)) as [->|Hne].
  - rewrite !lookup_insert_eq. simpl. by rewrite !bool_decide_true.
  - rewrite !lookup_insert_ne by done. rewrite map_lookup_imap. destruct (ms_live m !! k); [simpl|done].
    by rewrite (bool_decide_false (run_key r = k)) by congruence; rewrite andb_false_r.
Qed.

Lemma storeRun_ghost w r w' x :
  storeRun w r = (w', x) →
  (memGhost w' = memGhost w ∧ ∃ e, x = inl e) ∨ (memGhost w' = putRun r (memGhost w) ∧ x = inr r).
Proof.
  unfold storeRun, storeState. destruct (Bool.bool_dec _ _) as [p|]; intros [= <- <-]; [right|left; by eauto].
  split; [|done]. unfold memGhost, putRun, memCurrent. f_equal. exact (ms_current_put (proj1_sig w) r).
Qed.

Lemma merged_status base new stored : patchedStatus base new stored (mergeStatus base new stored).
Proof.
  assert (∀ A (f : AgentRunStatus → A) `{EqDecision A},
    (f new = f base → (if bool_decide (f new = f base) then f stored else f new) = f stored)
    ∧ (f new ≠ f base → (if bool_decide (f new = f base) then f stored else f new) = f new)) as Hpick.
  { intros A f He. split; intros; [by rewrite bool_decide_true|by rewrite bool_decide_false]. }
  split; try (split; apply Hpick).
  destruct (Hpick _ st_JobRef _) as [H1 H2]. split; [exact H1|]. split.
  - intros Hne Hn. change (st_JobRef (mergeStatus base new stored)) with
      (if bool_decide (st_JobRef new = st_JobRef base) then st_JobRef stored else st_JobRef new).
    by rewrite H2.
  - intros n Hne Hn. exists n. split; [|by left].
    change (st_JobRef (mergeStatus base new stored)) with
      (if bool_decide (st_JobRef new = st_JobRef base) then st_JobRef stored else st_JobRef new).
    by rewrite H2.
Qed.

Lemma memJobs_found w k j : memJobs w !! k = Some j → job_key j = k ∧ blank (job_Name j) = false.
Proof. unfold memJobs. by intros [_ ?]%map_lookup_filter_Some. Qed.

Lemma memJobs_listed w ns sel j :
  j ∈ filter (λ j, jobSelected ns sel j = true) (map snd (map_to_list (memJobs w))) →
  memJobs w !! (ns, job_Name j) = Some j ∧ blank (job_Name j) = false.
Proof.
  rewrite list_elem_of_filter. intros [Hs Hin]. apply list_elem_of_fmap in Hin as ([k j'] & -> & Hin).
  apply elem_of_map_to_list in Hin. pose proof (memJobs_found _ _ _ Hin) as [<- Hb]. split; [|done].
  unfold jobSelected in Hs. apply andb_true_iff in Hs as [Hns _]. bool_props. simpl in *. subst ns. done.
Qed.

Lemma NoDup_keys_inj {A B} (f : A → B) l x y : NoDup (map f l) → x ∈ l → y ∈ l → f x = f y → x = y.
Proof.
  induction l as [|a l IH]; simpl; [by intros _ ?%not_elem_of_nil|].
  intros [Ha Hl]%NoDup_cons [->|Hx]%elem_of_cons [->|Hy]%elem_of_cons E; auto; destruct Ha.
  - rewrite E. apply list_elem_of_fmap. by exists y.
  - rewrite <- E. apply list_elem_of_fmap. by exists x.
Qed.

Lemma stored_update w w' x k r r' (Q : AgentRun → Prop) :
  memCurrent w !! k = Some r → storeRun w (versionedRun w r') = (w', x) →
  run_key r' = run_key r → run_UID r' = run_UID r → Q (versionedRun w r') →
  (memGhost w' = memGhost w ∧ ∃ e, x = inl e)
  ∨ ∃ s, run_key s = k ∧ run_UID s = run_UID r ∧ Q s
     ∧ memGhost w' = putRun s (memGhost w) ∧ ∀ r'', x = inr r'' → r'' = s.
Proof.
  intros Hc Hs Hk Hu HQ. apply memCurrent_found in Hc as [_ <-].
  destruct (storeRun_ghost _ _ _ _ Hs) as [?|[Hg ->]]; [by left|right].
  exists (versionedRun w r'). split_and!; try done. by intros ? [= <-].
Qed.

#[refine, export] Instance memruns_laws : RunLaws MemRuns := { ghost := memGhost }.
Proof.
  - intros w k r Hr. by apply memCurrent_found in Hr as [_ ?].
  - intros w k r Hr. by apply memCurrent_found in Hr as [? _].
  - intros [m p] r c Hr Hc Hv. simpl in *. apply memCurrent_found in Hc as [Hc _].
    assert (versioned (ms_seen m) = true) as Hp by done. unfold versioned in Hp. apply andb_true_iff in Hp as [Hp _]. bool_props. by eapply (NoDup_keys_inj resourceVersion).
  - intros [m p] r r' Hr Hr'. simpl in *.
    assert (versioned (ms_seen m) = true) as Hp by done. unfold versioned in Hp. apply andb_true_iff in Hp as [_ Hp].
    rewrite forallb_forall in Hp. specialize (Hp r (proj1 (list_elem_of_In _ _) Hr)).
    rewrite forallb_forall in Hp. specialize (Hp r' (proj1 (list_elem_of_In _ _) Hr')).
    apply Bool.eqb_prop in Hp. split; intros E.
    + rewrite (bool_decide_true (run_key r = run_key r')) in Hp by done. by symmetry in Hp; bool_props.
    + rewrite (bool_decide_true (run_UID r = run_UID r')) in Hp by done. by bool_props.
  - intros w ns n r Hr. apply found_inr in Hr. by apply memCurrent_found in Hr.
  - intros w ns sel l r [= <-] Hr. apply list_elem_of_filter in Hr as [_ Hr].
    apply list_elem_of_fmap in Hr as ([k r'] & -> & Hin). apply elem_of_map_to_list in Hin.
    by apply memCurrent_found in Hin as [? _].
  - intros w ns n j Hj. apply found_inr in Hj. by apply memJobs_found in Hj as [_ ?].
  - intros w ns sel l j [= <-] Hj. by apply memJobs_listed in Hj as [_ ?].
  - intros w ns sel l j [= <-] Hj e He. apply memJobs_listed in Hj as [Hj _].
    apply found_inl in He. by rewrite Hj in He.
  - intros k lock base s w w' x. simpl. unfold memPatchStatus.
    destruct (memCurrent w !! k) as [r|] eqn:Ec; [|intros [= <- <-]; left; by eauto].
    destruct (match lock with Some v => _ | None => _ end) eqn:El; [intros [= <- <-]; left; by eauto|].
    intros Hs. destruct (stored_update w w' x k r _ (λ s', patchedStatus base s (run_Status r) (run_Status s'))
      Ec Hs eq_refl eq_refl (merged_status _ _ _)) as [?|(s' & ? & ? & ? & ? & ?)]; [by left|right].
    exists r, s'. split_and!; try done. intros v ->. by bool_props.
  - intros k a v w w' x. simpl. unfold memAnnotate.
    destruct (memCurrent w !! k) as [r|] eqn:Ec; [|intros [= <- <-]; left; by eauto].
    intros Hs. destruct (stored_update w w' x k r _ (λ s', run_Status s' = run_Status r)
      Ec Hs eq_refl eq_refl eq_refl) as [?|(s' & ? & ? & ? & ? & ?)]; [by left|right].
    by exists r, s'.
  - intros prefix r w w' x. simpl. unfold memCreate. set (r' := versionedRun w _).
    destruct (_ && _) eqn:Ef; [|intros [= <- <-]; left; by eauto]. apply andb_true_iff in Ef as [Ef Ej].
    intros Hs. destruct (storeRun_ghost _ _ _ _ Hs) as [?|[Hg ->]]; [by left|right].
    rewrite !forallb_forall in Ef, Ej. exists r'. split_and!; try done.
    + intros s Hin. specialize (Ef s (proj1 (list_elem_of_In _ _) Hin)). apply andb_true_iff in Ef as [? ?].
      by bool_props.
    + intros j Hj. specialize (Ej j (proj1 (list_elem_of_In _ _) Hj)). by apply negb_true_iff in Ej.
  - intros k [m p] w' x [= <- <-]. right. unfold memGhost, dropRun, memCurrent. simpl. f_equal.
    apply map_eq. intros k'. unfold ms_current. rewrite map_lookup_imap. simpl.
    destruct (decide (k' = k)) as [->|Hne]; [by rewrite (lookup_delete_eq (ms_live m)), lookup_delete_eq|].
    rewrite (lookup_delete_ne (ms_live m)), lookup_delete_ne, map_lookup_imap by done. done.
  - intros j w w' x. simpl. unfold memCreateJob. destruct (memJobs w !! _); [intros [= <- <-]; left; by eauto|].
    destruct (blank (job_Name j)) eqn:Eb; [intros [= <- <-]; left; by eauto|].
    set (j' := storeJob _ j). intros E. injection E as <- <-. right. exists j'. split; [reflexivity|].
    split; [apply storeJob_admitted; discriminate|]. split; [exact Eb|]. split; [reflexivity|].
    by intros j'' [= <-].
  - intros w ns n c Hc. apply found_inr, map_lookup_filter_Some in Hc as [_ Hk]. simpl in Hk.
    by injection Hk.
  - intros c [m p] w' x [= <- <-]. split_and!; try done. by intros ? [= <-].
  - intros c [m p] w' x [= <- <-]. split_and!; try done. by intros ? [= <-].
  - by intros k [m p] w' x [= <- <-].
  - by intros k t w w' x [= <- <-].
  - by intros k t w w' x [= <- <-].
  - by intros ns n w w' x [= <- <-].
  - by intros ns n w w' x [= <- <-].
  - by intros s w w' x [= <- <-].
  - by intros ns n w w' x [= <- <-].
  - by intros r w w' x [= <- <-].
  - by intros r w w' x [= <- <-].
Defined.

(** ** Witnesses *)

#[export] Instance fx_decode : Decode := {| decodeReport _ := None; decodeObject _ := None |}.
#[export] Instance fx_job_records : JobRecords := {| decodeComposition _ := None; decodeVolumes _ := None |}.
Definition fx_indent {A} : MarshalIndent A := λ _, Some "{}".
#[local] Existing Instances fx_any_json fx_indent fx_github fx_claim_json.
Definition fx_config : RunConfig := mkRunConfig (DefaultOptions <| opt_AgentRunTerminalRetention := 3600 * Second |>)
  (mkPlanes false false) true.

(** A run as it was just created. *)
Definition fx_new_run : AgentRun :=
  zero_AgentRun
    <| run_ObjectMeta := (fx_meta "ops" "triage" "uid-triage" fx_epoch ∅) <| meta_ResourceVersion := "v0" |> |>
    <| run_Spec := zero_AgentRunSpec <| rs_SourceRef := mkAgentRunSourceRef "v1" "Pod" "ops" "web-0" |>
         <| rs_Prompt := "look" |> |>.
Definition fx_runs : MemRuns :=
  exist _ (mkMemState [fx_new_run] {[ run_key fx_new_run := "v0" ]} ∅ [] ∅ 1 []) eq_refl.


(** The request for that run, at a time. *)
Definition fx_reconcile (now : Time) : M MemRuns GoErr Result :=
  reconcileAgentRun fx_config (λ w, w) (λ _, true) (λ _, true) "You are an agent." "ops" "triage" (λ _, now).
Definition fx_runStep : MemRuns → MemRuns → Prop :=
  runStep fx_config (λ w, w) (λ _, true) (λ _, true) "You are an agent.".

Definition fx_planned : MemRuns := fst (fx_reconcile fx_epoch fx_runs).
Definition fx_launched : MemRuns := fst (fx_reconcile fx_epoch fx_planned).

Lemma fx_step now w : fx_runStep w (fst (fx_reconcile now w)).
Proof. eapply (step_reconcile _ _ _ _ _ _ _ "ops" "triage" (λ _, now)). apply surjective_pairing. Qed.


Lemma fx_runs_unlaunched : unlaunched fx_runs.
Proof. split; [done|]. intros r Hr. by apply list_elem_of_singleton in Hr as ->. Qed.

Lemma fx_launched_reachable : rtc fx_runStep fx_runs fx_launched.
Proof. eapply rtc_l; [apply (fx_step fx_epoch)|]. eapply rtc_l; [apply (fx_step fx_epoch)|]. apply rtc_refl. Qed.


Lemma single_execution_witness :
  unlaunched fx_runs ∧ rtc fx_runStep fx_runs fx_launched
  ∧ length (filter (λ j, controlledBy "uid-triage" j = true) (g_jobs (ghost MemRuns fx_launched))) = 1%nat
  ∧ (length (filter (λ j, controlledBy "uid-triage" j = true) (g_jobs (ghost MemRuns fx_launched))) ≤ 1)%nat.
Proof.
  split; [exact fx_runs_unlaunched|]. split; [exact fx_launched_reachable|].
  split; [vm_compute; reflexivity|].
  exact (single_execution _ _ _ _ _ fx_runs fx_launched "uid-triage" fx_runs_unlaunched fx_launched_reachable).
Defined.

Lemma fx_planned_reachable : rtc fx_runStep fx_runs fx_planned.
Proof. eapply rtc_l; [apply (fx_step fx_epoch)|]. apply rtc_refl. Qed.

Lemma fx_job_created : g_jobs (ghost MemRuns fx_launched) ≠ g_jobs (ghost MemRuns fx_planned).
Proof.
  intros E. assert (length (g_jobs (ghost MemRuns fx_launched)) = 1%nat) as H1 by (vm_compute; reflexivity).
  rewrite E in H1. assert (length (g_jobs (ghost MemRuns fx_planned)) = 0%nat) as H0 by (vm_compute; reflexivity).
  rewrite H1 in H0. discriminate H0.
Qed.

Lemma launch_admitted_witness :
  unlaunched fx_runs ∧ rtc fx_runStep fx_runs fx_planned
  ∧ g_jobs (ghost MemRuns fx_launched) ≠ g_jobs (ghost MemRuns fx_planned)
  ∧ ∃ j obj, g_jobs (ghost MemRuns fx_launched) = g_jobs (ghost MemRuns fx_planned) ++ [j]
      ∧ getRun "ops" "triage" fx_planned = inr obj
      ∧ agentRunLaunchReceiptComplete (run_Status obj) = true ∧ controlledBy (run_UID obj) j = true.
Proof.
  split; [exact fx_runs_unlaunched|]. split; [exact fx_planned_reachable|]. split; [exact fx_job_created|].
  destruct (launch_admitted fx_config (λ w, w) (λ _, true) (λ _, true) "You are an agent." fx_runs fx_planned
    "ops" "triage" (λ _, fx_epoch) fx_launched (snd (fx_reconcile fx_epoch fx_planned))
    fx_runs_unlaunched fx_planned_reachable (surjective_pairing (fx_reconcile fx_epoch fx_planned)) fx_job_created)
    as (j & obj & eff & c & dv & h & Hj & Hget & _ & _ & _ & _ & _ & _ & _ & Hr & _ & _ & Hc).
  exists j, obj. exact (conj Hj (conj Hget (conj Hr Hc))).
Defined.


