(* ===== verification/ChainSpec.v ===== *)
(** * Chains: specification checks and identity

    The pure part of [src/internal/controller/agent_chain_controller.go] that
    reads an [AgentChain]'s specification: validation, the workflow digest that
    freezes an instance, the application a chain belongs to, and the position of
    a step.  The theorems say what a validated specification guarantees to the
    reconciler: a linear list of steps whose positions are unambiguous. *)

From stdpp Require Import base list gmap strings.
From Stdlib Require Import ZArith Lia.
From S2P Require Import Prelude GoStrings GoTime Names ApiRun ApiWork Kube MemKube Fixtures RunControl.

Open Scope Z_scope.

(** ** Definitions *)

Definition agentChainReady : string := "Ready".
Definition agentChainPollInterval : Duration := 30 * Second.
Definition agentRunChainLabel : string := "control.anvil.hazyforge.io/agent-chain".
Definition agentRunChainInstLabel : string := "control.anvil.hazyforge.io/agent-chain-instance".
Definition agentRunChainStepLabel : string := "control.anvil.hazyforge.io/agent-chain-step".
Definition agentRunChainDigestAnnotation : string :=
  "control.anvil.hazyforge.io/agent-chain-workflow-digest".
Definition agentChainDrainFinalizer : string :=
  "control.anvil.hazyforge.io/agent-chain-active-drain".
Definition agentChainHandoffMax : Z := 8192.
Definition agentManagedByLabel : string := "app.kubernetes.io/managed-by".
Definition agentApplicationLabel : string := "control.anvil.hazyforge.io/application".
Definition agentDynamicLabel : string := "control.anvil.hazyforge.io/agent-dynamic".
Definition agentManagerRepositoryLabel : string :=
  "control.anvil.hazyforge.io/agent-manager-repository".

(** The first index of a list whose entry fails a check; the loops
    [for j, x := range xs { if bad(x) { return ... } }]. *)
Fixpoint firstBad {A} (bad : A → bool) (j : nat) (l : list A) : option (nat * A) :=
  match l with
  | [] => None
  | x :: l => if bad x then Some (j, x) else firstBad bad (S j) l
  end.

Definition badWhenPhase (phase : string) : bool :=
  bool_decide (phase ≠ AgentRunPhaseSucceeded) && bool_decide (phase ≠ AgentRunPhaseFailed).

(** The body of the loop over the steps for a step after the first; [prevName]
    is [chain.Spec.Steps[i-1].Name]. *)
Definition validateNextStep (prevName name : string) (step : AgentChainStepSpec) : option string :=
  match step_When step with
  | None => Some ("step " +:+ quote name +:+ " requires when.previousStep")
  | Some when =>
      if blank (when_PreviousStep when) then
        Some ("step " +:+ quote name +:+ " requires when.previousStep")
      else
        match firstBad blank 0 (when_OnDecisionActions when) with
        | Some (j, _) => Some ("step " +:+ quote name +:+ " when.onDecisionActions["
                               +:+ fmtNat j +:+ "] must not be blank")
        | None =>
            match firstBad badWhenPhase 0 (when_OnPhases when) with
            | Some (j, phase) => Some ("step " +:+ quote name +:+ " when.onPhases[" +:+ fmtNat j
                 +:+ "]=" +:+ quote phase +:+ " is not a terminal AgentRun phase")
            | None =>
                let prev := TrimSpace (when_PreviousStep when) in
                if bool_decide (prev ≠ prevName) then
                  Some ("step " +:+ quote name
                    +:+ " when.previousStep must be the immediately previous step "
                    +:+ quote prevName +:+ " (got " +:+ quote prev +:+ "); v1 is linear only")
                else None
            end
        end
  end.

(** The loop over the steps; [prev] is the previous step's name, absent for the
    first step, and [seen] the trimmed names so far. *)
Fixpoint validateSteps (i : nat) (prev : option string) (seen : gset string)
    (steps : list AgentChainStepSpec) : option string :=
  match steps with
  | [] => None
  | step :: steps =>
      let name := TrimSpace (step_Name step) in
      if bool_decide (name = "") then Some ("spec.steps[" +:+ fmtNat i +:+ "].name is required")
      else if bool_decide (name ∈ seen) then Some ("duplicate step name " +:+ quote name)
      else
        let here :=
          match prev with
          | None =>
              match step_When step with
              | Some when =>
                  if blank (when_PreviousStep when) then None
                  else Some ("first step " +:+ quote name +:+ " must not set when.previousStep")
              | None => None
              end
          | Some prevName => validateNextStep prevName name step
          end in
        match here with
        | Some err => Some err
        | None => validateSteps (S i) (Some (step_Name step)) ({[name]} ∪ seen) steps
        end
  end.

(** The error of [validateAgentChainSpec], or [None] when the spec is valid. *)
Definition validateAgentChainSpec (chain : AgentChain) : option string :=
  let spec := chain_Spec chain in
  if bool_decide (cs_Steps spec = []) then Some "spec.steps must contain at least one step" else
  let policy := if bool_decide (cs_ConcurrencyPolicy spec = "")
                then AgentChainConcurrencyForbid else cs_ConcurrencyPolicy spec in
  if bool_decide (policy = AgentChainConcurrencyQueue) then
    Some "spec.concurrencyPolicy=Queue is not implemented yet; use Forbid"
  else if bool_decide (policy ≠ AgentChainConcurrencyForbid) then
    Some ("spec.concurrencyPolicy " +:+ quote policy +:+ " is not supported")
  else if (cs_StartIntervalSeconds spec <? 0) || (cs_StartInitialDelaySeconds spec <? 0) then
    Some "start interval/delay cannot be negative"
  else if cs_MaxInstancesPerDay spec <? 0 then
    Some "spec.maxInstancesPerDay cannot be negative"
  else if match cs_Backoff spec with
          | Some b => (cbo_FailedSeconds b <? 0) || (cbo_NeedsHumanSeconds b <? 0)
          | None => false
          end then
    Some "spec.backoff values cannot be negative"
  else
    match match cs_Completion spec with
          | Some c => firstBad blank 0 (cmp_OnDecisionActions c)
          | None => None
          end with
    | Some (i, _) => Some ("spec.completion.onDecisionActions[" +:+ fmtNat i
                           +:+ "] must not be blank")
    | None => validateSteps 0 None ∅ (cs_Steps spec)
    end.

(** The anonymous struct of [agentChainWorkflowDigest]. *)
Record ChainSnapshot := mkChainSnapshot {
  snap_ApplicationRef : option ApplicationReferenceSpec;
  snap_Completion : option AgentChainCompletionSpec;
  snap_PolicyLabels : gmap string string;
  snap_Steps : list AgentChainStepSpec }.

Definition agentChainSnapshot (chain : AgentChain) : ChainSnapshot :=
  mkChainSnapshot (cs_ApplicationRef (chain_Spec chain)) (cs_Completion (chain_Spec chain))
    (filter (λ kv, kv.2 ≠ "")
       (<[agentDynamicLabel := mapGet (chain_Labels chain) agentDynamicLabel]>
        {[agentManagerRepositoryLabel := mapGet (chain_Labels chain) agentManagerRepositoryLabel]}))
    (cs_Steps (chain_Spec chain)).

Definition agentChainWorkflowDigest `{Marshal ChainSnapshot} (chain : AgentChain) : string :=
  digestJSON (jsonMarshal (agentChainSnapshot chain)).

(** The names collected by [resolveAgentChainApplicationName]. *)
Definition chainApplicationNames (chain : AgentChain) : list string :=
  filter (λ name, name ≠ "")
    (map trimmedRef (cs_ApplicationRef (chain_Spec chain)
       :: map (λ step, scope_ApplicationRef (rs_Scope (step_RunTemplate step)))
            (cs_Steps (chain_Spec chain)))).

Definition resolveAgentChainApplicationName (chain : AgentChain) : GoErr + string :=
  match chainApplicationNames chain with
  | [] => inl (ErrText "AgentChain requires applicationRef or step runTemplate.scope.applicationRef")
  | canonical :: names =>
      match firstBad (λ name, bool_decide (name ≠ canonical)) 0 names with
      | Some (_, name) => inl (ErrText ("AgentChain application identity conflicts: "
                                 +:+ quote canonical +:+ " vs " +:+ quote name))
      | None => inr canonical
      end
  end.

(** [None] is Go's [-1]. *)
Definition agentChainStepIndex (chain : AgentChain) (stepName : string) : option nat :=
  fst <$> list_find (λ step, step_Name step = TrimSpace stepName) (cs_Steps (chain_Spec chain)).

(** ** Lemmas *)

Lemma firstBad_None {A} (bad : A → bool) j l :
  firstBad bad j l = None ↔ Forall (λ x, bad x = false) l.
Proof.
  revert j. induction l as [|x l IH]; intros j; simpl; [by split; constructor|].
  rewrite Forall_cons. destruct (bad x); [naive_solver|]. rewrite IH. naive_solver.
Qed.

Lemma firstBad_Some {A} (bad : A → bool) j l i x :
  firstBad bad j l = Some (i, x) → x ∈ l ∧ bad x = true.
Proof.
  revert j. induction l as [|y l IH]; intros j; simpl; [done|].
  destruct (bad y) eqn:E; [intros [= <- <-]|intros []%IH]; set_solver.
Qed.

(** What the loop checks of two consecutive steps. *)
Definition follows (s t : AgentChainStepSpec) : Prop :=
  ∃ when, step_When t = Some when
    ∧ TrimSpace (when_PreviousStep when) = step_Name s
    ∧ Forall (λ p, p = AgentRunPhaseSucceeded ∨ p = AgentRunPhaseFailed) (when_OnPhases when)
    ∧ Forall (λ a, blank a = false) (when_OnDecisionActions when).

Lemma badWhenPhase_false p :
  badWhenPhase p = false ↔ p = AgentRunPhaseSucceeded ∨ p = AgentRunPhaseFailed.
Proof.
  unfold badWhenPhase. rewrite !bool_decide_not, andb_false_iff, !negb_false_iff,
    !bool_decide_eq_true. done.
Qed.

Lemma validateNextStep_iff s t name :
  step_Name s ≠ "" →
  validateNextStep (step_Name s) name t = None ↔ follows s t.
Proof.
  intros Hs. unfold validateNextStep, follows.
  destruct (step_When t) as [when|]; [|naive_solver].
  unfold blank at 1. case_bool_decide as Hb; [split; [done|]; intros (w & [= <-] & ? & _); congruence|].
  pose proof (firstBad_None blank 0 (when_OnDecisionActions when)) as Ha.
  destruct (firstBad blank 0 _) as [[]|]; [naive_solver|].
  pose proof (firstBad_None badWhenPhase 0 (when_OnPhases when)) as Hp.
  rewrite (Forall_iff _ _ _ badWhenPhase_false) in Hp.
  destruct (firstBad badWhenPhase 0 _) as [[]|]; [naive_solver|].
  case_bool_decide; naive_solver.
Qed.

(** What the loop checks of the list that is left. *)
Definition validRest (prev : option AgentChainStepSpec) (seen : gset string)
    (steps : list AgentChainStepSpec) : Prop :=
  NoDup (map (TrimSpace ∘ step_Name) steps)
  ∧ Forall (λ s, TrimSpace (step_Name s) ≠ "" ∧ TrimSpace (step_Name s) ∉ seen) steps
  ∧ (∀ t, head steps = Some t →
       match prev with
       | Some s => follows s t
       | None => ∀ when, step_When t = Some when → blank (when_PreviousStep when) = true
       end)
  ∧ (∀ k s t, steps !! k = Some s → steps !! S k = Some t → follows s t).

Lemma validRest_cons prev seen s steps :
  validRest prev seen (s :: steps) ↔
  (TrimSpace (step_Name s) ≠ "") ∧ (TrimSpace (step_Name s) ∉ seen)
  ∧ match prev with
    | Some p => follows p s
    | None => ∀ when, step_When s = Some when → blank (when_PreviousStep when) = true
    end
  ∧ validRest (Some s) ({[TrimSpace (step_Name s)]} ∪ seen) steps.
Proof.
  unfold validRest. cbn [map]. rewrite NoDup_cons, Forall_cons. split.
  - intros ((Hin & Hnd) & ([H1 H2] & Hall) & Hhd & Hlk).
    do 2 (split; [done|]). split; [by apply Hhd|]. split; [done|]. split; [|split].
    + rewrite Forall_forall in *. intros t Ht. split; [by apply Hall|].
      apply not_elem_of_union. split; [|by apply Hall]. rewrite not_elem_of_singleton.
      intros Heq. apply Hin. apply list_elem_of_fmap. by exists t.
    + intros t Ht. apply (Hlk 0%nat); [done|]. by destruct steps.
    + intros k. apply (Hlk (S k)).
  - intros (H1 & H2 & Hh & Hnd & Hall & Hhd & Hlk). split; [|split; [|split]].
    + split; [|done]. intros (t & Heq & Ht)%list_elem_of_fmap. rewrite Forall_forall in Hall.
      destruct (Hall t Ht) as [_ Hn]. apply Hn. simpl in Heq. rewrite Heq. set_solver.
    + split; [done|]. eapply Forall_impl; [exact Hall|]. set_solver.
    + by intros t [= <-].
    + intros [|k] a b; [|by apply Hlk]. intros [= <-] Hb. apply Hhd. by destruct steps.
Qed.

Lemma validateSteps_iff i prev seen steps :
  (∀ s, prev = Some s → step_Name s ≠ "") →
  validateSteps i (step_Name <$> prev) seen steps = None ↔ validRest prev seen steps.
Proof.
  revert i prev seen. induction steps as [|s steps IH]; intros i prev seen Hp.
  { simpl. split; [|done]. intros _. split_and!; [constructor|constructor|done|done]. }
  rewrite validRest_cons. cbn [validateSteps].
  case_bool_decide as Hn; [by split; [|intros []]|].
  case_bool_decide as Hs; [by split; [|intros (_ & [] & _)]|].
  assert (step_Name s ≠ "") as Hne by (by intros Heq; rewrite Heq in Hn).
  assert (∀ x, Some s = Some x → step_Name x ≠ "") as Hsx by (by intros x [= <-]).
  specialize (IH (S i) (Some s) ({[TrimSpace (step_Name s)]} ∪ seen) Hsx).
  rewrite <- IH. destruct prev as [p|]; simpl.
  - pose proof (validateNextStep_iff p s (TrimSpace (step_Name s)) (Hp p eq_refl)) as Hf.
    destruct (validateNextStep _ _ s) as [e|].
    + split; [discriminate|]. intros (_ & _ & Hps & _). by apply Hf in Hps.
    + split; [|by intros (_ & _ & _ & Hr)]. intros Hr. split_and!; try done. by apply Hf.
  - destruct (step_When s) as [when|].
    + destruct (blank (when_PreviousStep when)) eqn:E.
      * split; [|by intros (_ & _ & _ & Hr)]. intros Hr. split_and!; try done.
        by intros w [= <-].
      * split; [discriminate|]. intros (_ & _ & Hw & _). by rewrite (Hw when eq_refl) in E.
    + split; [|by intros (_ & _ & _ & Hr)]. intros Hr. by split_and!.
Qed.

(** A linear workflow under the Forbid policy. *)
Record validChain (chain : AgentChain) : Prop := {
  vc_nonempty : cs_Steps (chain_Spec chain) ≠ [];
  vc_steps : validRest None ∅ (cs_Steps (chain_Spec chain));
  vc_forbid : cs_ConcurrencyPolicy (chain_Spec chain) = "" ∨
              cs_ConcurrencyPolicy (chain_Spec chain) = AgentChainConcurrencyForbid;
  vc_interval : 0 ≤ cs_StartIntervalSeconds (chain_Spec chain);
  vc_delay : 0 ≤ cs_StartInitialDelaySeconds (chain_Spec chain);
  vc_budget : 0 ≤ cs_MaxInstancesPerDay (chain_Spec chain);
  vc_backoff : ∀ b, cs_Backoff (chain_Spec chain) = Some b →
    0 ≤ cbo_FailedSeconds b ∧ 0 ≤ cbo_NeedsHumanSeconds b;
  vc_completion : ∀ c, cs_Completion (chain_Spec chain) = Some c →
    Forall (λ a, blank a = false) (cmp_OnDecisionActions c) }.

Lemma validated_valid chain :
  validateAgentChainSpec chain = None → validChain chain.
Proof.
  unfold validateAgentChainSpec.
  case_bool_decide as Hsteps; [done|].
  set (policy := if bool_decide (cs_ConcurrencyPolicy _ = "") then _ else _).
  case_bool_decide as Hq; [done|]. case_bool_decide as Hf; [done|].
  destruct (_ || _) eqn:Eneg; [done|].
  destruct (cs_MaxInstancesPerDay _ <? 0) eqn:Emax; [done|].
  destruct (match cs_Backoff _ with Some _ => _ | None => _ end) eqn:Eb; [done|].
  destruct (match cs_Completion _ with Some _ => _ | None => _ end) as [[]|] eqn:Ec; [done|].
  intros Hv%(validateSteps_iff 0 None); [|done]. bool_props.
  split; [done|done| |lia|lia|lia| |].
  - subst policy. case_bool_decide; [by left|by right].
  - intros b Hb. rewrite Hb in Eb. bool_props. lia.
  - intros c Hc. rewrite Hc in Ec. by apply firstBad_None in Ec.
Qed.

(** C28: validation accepts exactly the linear workflows under the Forbid policy:
    trimmed step names are distinct and not blank, the first step waits for
    nothing, every later step waits for exactly the step before it and only for
    [Succeeded] or [Failed] (never for a run that needs a human), no decision
    action is blank, and no interval, delay, budget or backoff is negative. *)
Theorem validation_exact chain :
  validateAgentChainSpec chain = None ↔ validChain chain.
Proof.
  split; [apply validated_valid|]. intros [Hne Hst Hpol Hi Hd Hm Hb Hc].
  unfold validateAgentChainSpec. rewrite bool_decide_eq_false_2 by done.
  assert ((if bool_decide (cs_ConcurrencyPolicy (chain_Spec chain) = "")
           then AgentChainConcurrencyForbid else cs_ConcurrencyPolicy (chain_Spec chain))
          = AgentChainConcurrencyForbid) as -> by (case_bool_decide; naive_solver).
  rewrite bool_decide_eq_false_2, bool_decide_eq_false_2 by (vm_compute; naive_solver).
  rewrite (proj2 (Z.ltb_ge _ _) Hi), (proj2 (Z.ltb_ge _ _) Hd), (proj2 (Z.ltb_ge _ _) Hm).
  cbn [orb]. destruct (cs_Backoff _) as [b|].
  1: destruct (Hb b eq_refl) as [Hb1 Hb2];
     rewrite (proj2 (Z.ltb_ge _ _) Hb1), (proj2 (Z.ltb_ge _ _) Hb2); cbn [orb].
  all: destruct (cs_Completion _) as [c|];
    [rewrite (proj2 (firstBad_None blank 0 _) (Hc c eq_refl))|];
    by apply (validateSteps_iff 0 None).
Qed.

Lemma validated_names_inj chain :
  validateAgentChainSpec chain = None →
  ∀ i j s t, cs_Steps (chain_Spec chain) !! i = Some s →
    cs_Steps (chain_Spec chain) !! j = Some t → step_Name s = step_Name t → i = j.
Proof.
  intros Hv i j s t Hi Hj Hn.
  assert (NoDup (map (TrimSpace ∘ step_Name) (cs_Steps (chain_Spec chain)))) as Hnd.
  { by apply (vc_steps chain), validated_valid. }
  eapply (NoDup_lookup (map (TrimSpace ∘ step_Name) (cs_Steps (chain_Spec chain))));
    [done|by rewrite list_lookup_fmap, Hi|rewrite list_lookup_fmap, Hj; simpl; by rewrite Hn].
Qed.

(** In a validated chain a step with a trimmed name is found at its own
    position: what the status records of a step identifies it. *)
Theorem step_index_exact chain i s :
  validateAgentChainSpec chain = None →
  cs_Steps (chain_Spec chain) !! i = Some s →
  TrimSpace (step_Name s) = step_Name s →
  agentChainStepIndex chain (step_Name s) = Some i.
Proof.
  intros Hv Hi Ht. pose proof (validated_names_inj chain Hv) as Hinj.
  unfold agentChainStepIndex. rewrite Ht.
  assert (list_find (λ step, step_Name step = step_Name s) (cs_Steps (chain_Spec chain))
          = Some (i, s)) as ->; [|done].
  apply list_find_Some. split_and!; [done|done|].
  intros j s' Hj Hlt Heq. rewrite (Hinj _ _ _ _ Hj Hi Heq) in Hlt. lia.
Qed.

(** A chain resolves to an application exactly when the non-blank
    references of the chain and of its steps name one application. *)
Theorem chain_application_exact chain app :
  resolveAgentChainApplicationName chain = inr app ↔
  chainApplicationNames chain ≠ [] ∧ Forall (λ n, n = app) (chainApplicationNames chain).
Proof.
  unfold resolveAgentChainApplicationName.
  destruct (chainApplicationNames chain) as [|n names]; [split; [done|by intros []]|].
  rewrite Forall_cons.
  pose proof (firstBad_None (λ name, bool_decide (name ≠ n)) 0 names) as Hb.
  assert (∀ x, bool_decide (x ≠ n) = false ↔ x = n) as Hx.
  { intros x. rewrite bool_decide_not, negb_false_iff. apply bool_decide_eq_true. }
  rewrite (Forall_iff _ _ _ Hx) in Hb.
  destruct (firstBad _ 0 names) as [[j y]|] eqn:E.
  - split; [done|]. intros (_ & -> & Hall). by apply Hb in Hall.
  - split; [intros [= ->]|by intros (_ & -> & _)]. split; [done|]. split; [done|]. by apply Hb.
Qed.

(** An application reference of a step that disagrees with the chain's is
    rejected before anything is launched. *)
Lemma chain_application_step chain app step r :
  resolveAgentChainApplicationName chain = inr app →
  step ∈ cs_Steps (chain_Spec chain) →
  scope_ApplicationRef (rs_Scope (step_RunTemplate step)) = Some r →
  TrimSpace (app_Name r) ≠ "" → TrimSpace (app_Name r) = app.
Proof.
  intros Hr Hin Href Hne. unfold resolveAgentChainApplicationName in Hr.
  assert (TrimSpace (app_Name r) ∈ chainApplicationNames chain) as Hm.
  { unfold chainApplicationNames. apply list_elem_of_filter. split; [done|].
    apply list_elem_of_fmap. exists (Some r). split; [done|]. right.
    apply list_elem_of_fmap. by exists step. }
  destruct (chainApplicationNames chain) as [|n names]; [done|].
  destruct (firstBad _ 0 names) as [[]|] eqn:E; [done|]. injection Hr as ->.
  apply firstBad_None in E. rewrite Forall_forall in E.
  apply elem_of_cons in Hm as [?|Hm]; [done|]. specialize (E _ Hm).
  rewrite bool_decide_not, negb_false_iff in E. by apply bool_decide_eq_true in E.
Qed.

(** ** Witnesses *)

(** A stand-in for the JSON encoder of workflow snapshots. *)
Definition fx_marshal_snapshot : Marshal ChainSnapshot :=
  λ s, Some (Join (map step_Name (snap_Steps s)) "|").

Lemma step_index_exact_witness : agentChainStepIndex fx_chain "review" = Some 1%nat.
Proof.
  exact (step_index_exact fx_chain 1 (fx_step "review" (Some "build")) eq_refl eq_refl eq_refl).
Defined.
