(* ===== verification/ChainCore.v ===== *)
(** * Chains: gates, identifiers, cadence and handoff

    The helpers of [src/internal/controller/agent_chain_controller.go] that
    decide whether a step may follow another, name an instance, compute when the
    next one starts and render what one step tells the next.  The theorems show
    that the cadence never schedules in the past, that a backoff only ever
    delays, that the recorded step runs stay those of one instance, and that a
    handoff is bounded. *)

From stdpp Require Import base list gmap strings.
From Stdlib Require Import ZArith Lia.
From S2P Require Import Prelude GoStrings GoTime Names ApiRun ApiWork Kube MemKube Fixtures RunControl ChainSpec.

Open Scope Z_scope.

(** ** Gates *)

Definition agentRunDecisionAction (run : AgentRun) : string :=
  match st_Decision (run_Status run) with Some d => TrimSpace (dec_Action d) | None => "" end.

Definition actionAllowed (allowed : list string) (action : string) : bool :=
  existsb (λ a, EqualFold (TrimSpace a) action) allowed.

Definition agentChainWhenMatches (when : option AgentChainWhenSpec) (expectedPrev : string)
    (prior : AgentRun) : bool :=
  if bool_decide (expectedPrev ≠ "")
     && bool_decide (run_label prior agentRunChainStepLabel ≠ sanitizeLabelValue expectedPrev)
  then false else
  let phases := match when with
                | Some w => match when_OnPhases w with
                            | [] => [AgentRunPhaseSucceeded]
                            | ps => ps
                            end
                | None => [AgentRunPhaseSucceeded]
                end in
  if negb (existsb (λ p, bool_decide (run_Phase prior = p)) phases) then false else
  match when with
  | Some w => match when_OnDecisionActions w with
              | [] => true
              | actions => actionAllowed actions (agentRunDecisionAction prior)
              end
  | None => true
  end.

Definition agentChainCompletionMatches (completion : option AgentChainCompletionSpec)
    (run : AgentRun) : bool :=
  if bool_decide (run_Phase run ≠ AgentRunPhaseSucceeded) then false else
  match completion with
  | None => true
  | Some c => match cmp_OnDecisionActions c with
              | [] => true
              | actions => actionAllowed actions (agentRunDecisionAction run)
              end
  end.

(** ** Instances *)

Definition agentChainClearActive (status : AgentChainStatus) : AgentChainStatus :=
  status <| cst_ActiveInstanceID := "" |> <| cst_ActiveStep := "" |>
    <| cst_ActiveRunRef := None |> <| cst_ActiveRunUID := "" |>
    <| cst_ActiveSourceGeneration := 0 |> <| cst_ActiveWorkflowDigest := "" |>
    <| cst_CancelRequestedInstanceID := "" |>.

Definition agentChainInstanceID (chain : AgentChain) (manual : bool) (startToken : string)
    (dueAt : Time) : string :=
  if manual then
    let token := if blank startToken then FormatRFC3339Nano dueAt else TrimSpace startToken in
    "m-" +:+ takeStr 12 (shortHash (Join [chain_UID chain; "manual"; token] "|"))
  else
    "i-" +:+ takeStr 12 (shortHash (Join [chain_UID chain; "interval"; FormatRFC3339 dueAt] "|")).

Definition agentChainUpsertStepRun (existing : list AgentChainStepRunStatus)
    (next : AgentChainStepRunStatus) : list AgentChainStepRunStatus :=
  let same item := bool_decide (sr_InstanceID item = sr_InstanceID next)
                   && bool_decide (sr_Step item = sr_Step next) in
  let out := map (λ item, if same item then next else item)
               (filter (λ item, sr_InstanceID item = sr_InstanceID next) existing) in
  if existsb same existing then out else out ++ [next].

(** ** Cadence *)

(** [a / b] on durations; Go panics on a zero divisor. *)
Definition divDuration (a b : Duration) : GoErr + Z :=
  if b =? 0 then inl (ErrPanic "runtime error: integer divide by zero") else inr (Z.quot a b).

(** The latest boundary [base + k * interval] not after [now]. *)
Definition latestBoundary (base : Time) (interval : Duration) (now : Time) : GoErr + Time :=
  match divDuration (Sub now base) interval with
  | inl e => inl e
  | inr period => inr (Add base (wrap64 (period * interval)))
  end.

Definition chainFirstStart (chain : AgentChain) : Time :=
  let base := chain_CreationTimestamp chain in
  if 0 <? cs_StartInitialDelaySeconds (chain_Spec chain)
  then Add base (seconds (cs_StartInitialDelaySeconds (chain_Spec chain))) else base.

Definition agentChainNextStartTime (chain : AgentChain) (status : AgentChainStatus) (now : Time) :
    GoErr + option Time :=
  if cs_StartIntervalSeconds (chain_Spec chain) <=? 0 then inr None else
  match cst_NextStartAt status with
  | Some t => inr (Some t)
  | None =>
      let base := chainFirstStart chain in
      if Before base now then
        match latestBoundary base (seconds (cs_StartIntervalSeconds (chain_Spec chain))) now with
        | inl e => inl e
        | inr latest => inr (Some latest)
        end
      else inr (Some base)
  end.

Definition agentChainStartDueAt (chain : AgentChain) (manual : bool) (nextStart : option Time)
    (now : Time) : GoErr + Time :=
  if manual then inr (Truncate now Second) else
  match nextStart with
  | Some t => inr (Truncate t Second)
  | None =>
      if 0 <? cs_StartIntervalSeconds (chain_Spec chain) then
        let base := chainFirstStart chain in
        if Before now base then inr base
        else latestBoundary base (seconds (cs_StartIntervalSeconds (chain_Spec chain))) now
      else inr (Truncate now Second)
  end.

Definition agentChainNextCadenceAfter (base : Time) (interval : Duration) (now : Time) : Time :=
  let next := Add base interval in
  if (interval <=? 0) || After next now then next else
  let missed := wrap64 (Z.quot (Sub now next) interval + 1) in
  Add next (wrap64 (missed * interval)).

(** ** Backoff *)

Definition terminalAt (run : AgentRun) : Time :=
  default (run_CreationTimestamp run) (setTime (st_CompletedAt (run_Status run))).

(** The delay configured for a terminal phase, if any. *)
Definition backoffDelay (backoff : AgentChainBackoffSpec) (phase : string) : option Z :=
  if bool_decide (phase = AgentRunPhaseFailed) then Some (cbo_FailedSeconds backoff)
  else if bool_decide (phase = AgentRunPhaseNeedsHuman) then Some (cbo_NeedsHumanSeconds backoff)
  else None.

Definition agentChainApplyTerminalBackoffDeadline (chain : AgentChain) (status : AgentChainStatus)
    (terminal : AgentRun) (now : Time) : AgentChainStatus :=
  match cs_Backoff (chain_Spec chain) with
  | None => status
  | Some backoff =>
      match backoffDelay backoff (run_Phase terminal) with
      | None => status
      | Some delay =>
          if delay <=? 0 then status else
          let until := Add (terminalAt terminal) (seconds delay) in
          if Before until now then status else
          match cst_NextStartAt status with
          | Some t => if After t until then status else status <| cst_NextStartAt := Some until |>
          | None => status <| cst_NextStartAt := Some until |>
          end
      end
  end.

(** [Some until] is Go's [true, until]. *)
Definition agentChainTerminalBackoffUntil (chain : AgentChain) (status : AgentChainStatus)
    (runs : list AgentRun) (now : Time) : option Time :=
  match cs_Backoff (chain_Spec chain) with
  | None => None
  | Some backoff =>
      let stored :=
        match cst_NextStartAt status, last (cst_StepRuns status) with
        | Some t, Some step =>
            if After t now && (bool_decide (sr_Phase step = AgentRunPhaseFailed)
                               || bool_decide (sr_Phase step = AgentRunPhaseNeedsHuman))
            then Some t else None
        | _, _ => None
        end in
      match stored with
      | Some t => Some t
      | None =>
          match last (cst_StepRuns status) with
          | None => None
          | Some step =>
              match backoffDelay backoff (sr_Phase step) with
              | None => None
              | Some delay =>
                  if delay <=? 0 then None else
                  let anchor :=
                    match sr_RunRef step with
                    | Some ref => snd <$> list_find (λ run, run_Name run = ref_Name ref
                                            ∧ run_Namespace run = ref_Namespace ref) runs
                    | None => None
                    end in
                  let until := Add (match anchor with Some run => terminalAt run | None => now end)
                                 (seconds delay) in
                  if After until now then Some until else None
              end
          end
      end
  end.

(** ** Handoff *)

Definition ellipsis : string := "…".

Definition truncateRunes (value : string) (max : Z) : string :=
  if max <=? 0 then value else
  let rs := runes (bytes value) in
  if Z.of_nat (length rs) <=? max then value
  else unbytes (concat (take (Z.to_nat max) rs)) +:+ ellipsis.

Definition handoffAncestors (step : AgentChainStepSpec) (handoff : AgentChainHandoffSpec) :
    list string :=
  match ho_IncludeAncestorSteps handoff with
  | [] => match step_When step with
          | Some when => if blank (when_PreviousStep when) then [] else [when_PreviousStep when]
          | None => []
          end
  | ancestors => ancestors
  end.

Definition excerptLimit (handoff : AgentChainHandoffSpec) : Z :=
  Z.min (ho_IncludeOutputExcerptBytes handoff) agentChainHandoffMax.

Definition outputExcerpt (limit : Z) (output : string) : string :=
  if limit <? Z.of_nat (String.length output)
  then takeStr (Z.to_nat limit) output +:+ ellipsis else output.

(** The part of the handoff about one prior run. *)
Definition handoffRun (handoff : AgentChainHandoffSpec) (name : string) (run : AgentRun) : string :=
  let status := run_Status run in
  nl +:+ "### Step " +:+ quote name +:+ " → AgentRun " +:+ run_Namespace run +:+ "/"
  +:+ run_Name run +:+ nl
  +:+ "- phase: " +:+ st_Phase status +:+ nl
  +:+ (if ho_IncludePullRequestURL handoff && negb (blank (st_PullRequestURL status))
       then "- pullRequestURL: " +:+ TrimSpace (st_PullRequestURL status) +:+ nl else "")
  +:+ (if ho_IncludeDecision handoff then
         match st_Decision status with
         | Some d =>
             "- decision.classification: " +:+ dec_Classification d +:+ nl
             +:+ "- decision.action: " +:+ dec_Action d +:+ nl
             +:+ (if blank (dec_Summary d) then ""
                  else "- decision.summary: " +:+ truncateRunes (TrimSpace (dec_Summary d)) 1024
                       +:+ nl)
         | None => ""
         end
       else "")
  +:+ (if ho_IncludeLatestReports handoff then
         Join (map (λ report, "- report[" +:+ rep_Type report +:+ "]: "
                      +:+ truncateRunes (rep_Summary report) 512 +:+ nl) (st_Reports status)) ""
       else "")
  +:+ (if (0 <? ho_IncludeOutputExcerptBytes handoff) && negb (blank (st_Output status)) then
         "- outputExcerpt:" +:+ nl +:+ "```" +:+ nl
         +:+ outputExcerpt (excerptLimit handoff) (st_Output status)
         +:+ nl +:+ "```" +:+ nl
       else "").

Definition handoffStep (handoff : AgentChainHandoffSpec) (priorByStep : gmap string AgentRun)
    (name : string) : string :=
  let run := match priorByStep !! name with
             | Some run => Some run
             | None => priorByStep !! sanitizeLabelValue name
             end in
  match run with
  | None => nl +:+ "### Step " +:+ quote name +:+ nl +:+ "- missing prior AgentRun" +:+ nl
  | Some run => handoffRun handoff name run
  end.

Definition handoffHeader : string :=
  "## AgentChain handoff (controller-injected, status only)" +:+ nl
  +:+ "This context is derived from prior AgentRun status. It is not release authority and does not grant credentials."
  +:+ nl.

Definition renderAgentChainHandoff (step : AgentChainStepSpec)
    (priorByStep : gmap string AgentRun) : string :=
  match step_Handoff step with
  | None => ""
  | Some handoff =>
      TrimSpace (handoffHeader
        +:+ Join (map (handoffStep handoff priorByStep) (handoffAncestors step handoff)) "")
  end.

(** ** Gates: theorems *)

(** A successor is only admitted after the expected predecessor, in one of
    the phases its gate names ([Succeeded] when it names none), and, when the
    gate lists decision actions, with a decision among them.  In a validated
    chain this excludes every phase but [Succeeded] and [Failed]; in particular
    a run that needs a human never opens a gate. *)
Theorem when_gate_sound chain k s t prior :
  validateAgentChainSpec chain = None →
  cs_Steps (chain_Spec chain) !! k = Some s → cs_Steps (chain_Spec chain) !! S k = Some t →
  agentChainWhenMatches (step_When t) (step_Name s) prior = true →
  run_label prior agentRunChainStepLabel = sanitizeLabelValue (step_Name s)
  ∧ (run_Phase prior = AgentRunPhaseSucceeded ∨ run_Phase prior = AgentRunPhaseFailed)
  ∧ (∀ w, step_When t = Some w → when_OnPhases w = [] → run_Phase prior = AgentRunPhaseSucceeded)
  ∧ (∀ w, step_When t = Some w → when_OnDecisionActions w ≠ [] →
       ∃ a, a ∈ when_OnDecisionActions w ∧ EqualFold (TrimSpace a) (agentRunDecisionAction prior) = true).
Proof.
  intros Hv Hs Ht. apply validated_valid in Hv as [_ (_ & Hn & _ & Hlin) _ _ _ _ _ _].
  destruct (Hlin _ _ _ Hs Ht) as (w & Hw & _ & Hph & _). rewrite Hw.
  assert (step_Name s ≠ "") as Hne.
  { rewrite Forall_forall in Hn. destruct (Hn s) as [Hs' _]; [by eapply list_elem_of_lookup_2|].
    intros Heq. by rewrite Heq in Hs'. }
  unfold agentChainWhenMatches. rewrite (bool_decide_eq_true_2 _ Hne). cbn [andb].
  case_bool_decide as Hl; [done|]. intros H.
  destruct (negb _) eqn:Ep; [done|]. apply negb_false_iff, existsb_exists in Ep as (p & Hp & Ep).
  apply bool_decide_eq_true in Ep. apply list_elem_of_In in Hp.
  split; [done|]. split; [|split].
  - destruct (when_OnPhases w) as [|q qs]; [set_solver|].
    rewrite Forall_forall in Hph. rewrite Ep. by apply Hph.
  - intros w' [= <-] Hnil. rewrite Hnil in Hp. set_solver.
  - intros w' [= <-] Hact. destruct (when_OnDecisionActions w) as [|a as_]; [done|].
    unfold actionAllowed in H. apply existsb_exists in H as (b & Hb & Heq).
    exists b. by split; [apply list_elem_of_In|].
Qed.

(** An instance is reported complete only for a [Succeeded] final run whose
    decision is among the completion actions when the chain lists any. *)
Theorem completion_sound completion run :
  agentChainCompletionMatches completion run = true ↔
  run_Phase run = AgentRunPhaseSucceeded
  ∧ ∀ c, completion = Some c → cmp_OnDecisionActions c ≠ [] →
      ∃ a, a ∈ cmp_OnDecisionActions c
        ∧ EqualFold (TrimSpace a) (agentRunDecisionAction run) = true.
Proof.
  unfold agentChainCompletionMatches, actionAllowed. case_bool_decide as Hp.
  { split; [done|]. by intros []. }
  destruct completion as [c|]; [|naive_solver].
  destruct (cmp_OnDecisionActions c) as [|a as_] eqn:Ea; [naive_solver|].
  rewrite existsb_exists. split.
  - intros (x & Hx & Heq). split; [done|]. intros c' [= <-] _. rewrite Ea.
    exists x. by split; [apply list_elem_of_In|].
  - intros [_ Hall]. destruct (Hall c eq_refl) as (x & Hx & Heq); [by rewrite Ea|].
    rewrite Ea in Hx. exists x. by split; [apply list_elem_of_In|].
Qed.

(** ** Cadence: theorems *)

Lemma wrap64_between a b x : 0 ≤ a → b ≤ maxInt64 → a ≤ x ≤ b → wrap64 x = x.
Proof. intros. apply wrap64_id. unfold inInt64, minInt64, maxInt64 in *. lia. Qed.

Lemma Sub_exact t u : 0 ≤ t - u ≤ maxInt64 → Sub t u = t - u.
Proof. unfold Sub, minInt64, maxInt64. lia. Qed.

Lemma quot_bounds a b : 0 ≤ a → 0 < b → 0 ≤ Z.quot a b ∧ Z.quot a b * b ≤ a < Z.quot a b * b + b.
Proof.
  intros. rewrite Z.quot_div_nonneg by lia.
  pose proof (Z.div_mod a b). pose proof (Z.mod_pos_bound a b). 
  pose proof (Z.div_pos a b). nia.
Qed.

Lemma latestBoundary_spec base interval now :
  0 < interval → base ≤ now → now - base ≤ maxInt64 →
  ∃ k, 0 ≤ k ∧ latestBoundary base interval now = inr (base + k * interval)
     ∧ base + k * interval ≤ now < base + k * interval + interval.
Proof.
  intros Hi Hb Hm. unfold latestBoundary, divDuration.
  destruct (Z.eqb_spec interval 0); [lia|]. rewrite Sub_exact by lia.
  destruct (quot_bounds (now - base) interval) as [Hq Hqb]; [lia|lia|].
  exists (Z.quot (now - base) interval). split; [done|].
  rewrite (wrap64_between 0 (now - base)) by nia. unfold Add. split; [done|lia].
Qed.

(** The first automatic start of a chain without a stored deadline is the
    first slot itself while that is still ahead, and otherwise the latest slot
    of its cadence that is due: a chain that was suspended for days owes one
    instance, not one per missed slot. *)
Theorem next_start_no_burst chain status now :
  let interval := seconds (cs_StartIntervalSeconds (chain_Spec chain)) in
  0 < cs_StartIntervalSeconds (chain_Spec chain) → 0 < interval →
  cst_NextStartAt status = None → now - chainFirstStart chain ≤ maxInt64 →
  ∃ k, 0 ≤ k ∧ let t := chainFirstStart chain + k * interval in
    agentChainNextStartTime chain status now = inr (Some t)
    ∧ (now ≤ chainFirstStart chain ∧ k = 0 ∨ t ≤ now < t + interval).
Proof.
  intros interval Hs Hi Hn Hm. unfold agentChainNextStartTime.
  destruct (Z.leb_spec (cs_StartIntervalSeconds (chain_Spec chain)) 0); [lia|]. rewrite Hn.
  unfold Before. destruct (Z.ltb_spec (chainFirstStart chain) now) as [Hlt|Hge].
  - destruct (latestBoundary_spec (chainFirstStart chain) interval now)
      as (k & Hk & Heq & Hb); [done|lia|lia|].
    exists k. split; [done|]. subst interval. rewrite Heq. split; [done|by right].
  - exists 0. split; [done|]. rewrite Z.mul_0_l, Z.add_0_r. split; [done|]. left. lia.
Qed.

(** After a recovery the next start is on the cadence of the recovered
    instance, strictly in the future, and at most one interval away (or the
    first slot after the base). *)
Theorem next_cadence_future base interval now :
  0 < interval → now - base ≤ maxInt64 - interval → interval ≤ maxInt64 →
  ∃ k, 1 ≤ k ∧ agentChainNextCadenceAfter base interval now = base + k * interval
    ∧ now < base + k * interval
    ∧ (k = 1 ∨ base + k * interval ≤ now + interval).
Proof.
  intros Hi Hm Him. unfold agentChainNextCadenceAfter, Add, After.
  destruct (Z.leb_spec interval 0); [lia|]. cbn [orb].
  destruct (Z.ltb_spec now (base + interval)) as [Hlt|Hge].
  - exists 1. split_and!; [lia|lia|lia|by left].
  - rewrite Sub_exact by lia.
    destruct (quot_bounds (now - (base + interval)) interval) as [Hq Hqb]; [lia|lia|].
    set (q := Z.quot _ _) in *.
    rewrite (wrap64_between 0 maxInt64 (q + 1)) by nia.
    rewrite (wrap64_between 0 maxInt64 ((q + 1) * interval)) by nia.
    exists (q + 2). split_and!; [lia|lia|nia|right; nia].
Qed.

(** A terminal backoff only ever delays: the stored deadline never moves
    earlier, a new one is not in the past, and nothing else of the status
    changes. *)
Theorem backoff_only_delays chain status run now :
  let status' := agentChainApplyTerminalBackoffDeadline chain status run now in
  status' <| cst_NextStartAt := cst_NextStartAt status |> = status
  ∧ (cst_NextStartAt status' = cst_NextStartAt status
     ∨ ∃ t, cst_NextStartAt status' = Some t ∧ now ≤ t
         ∧ ∀ u, cst_NextStartAt status = Some u → u ≤ t).
Proof.
  unfold agentChainApplyTerminalBackoffDeadline, Before, After.
  assert (status <| cst_NextStartAt := cst_NextStartAt status |> = status) as Hid
    by (by destruct status).
  destruct (cs_Backoff _) as [b|]; [|by auto].
  destruct (backoffDelay b _) as [d|]; [|by auto].
  destruct (d <=? 0); [by auto|].
  destruct (Z.ltb_spec (Add (terminalAt run) (seconds d)) now) as [|Hge]; [by auto|].
  destruct (cst_NextStartAt status) as [u|] eqn:Eu.
  - destruct (Z.ltb_spec (Add (terminalAt run) (seconds d)) u) as [|Hle]; [by rewrite Eu; auto|].
    split; [by destruct status; simpl in *; subst|]. right.
    eexists. split; [done|]. split; [done|]. by intros u' [= <-].
  - split; [by destruct status; simpl in *; subst|]. right. by eexists.
Qed.

(** ** Step runs: theorems *)

Definition sameStep (next item : AgentChainStepRunStatus) : bool :=
  bool_decide (sr_InstanceID item = sr_InstanceID next) && bool_decide (sr_Step item = sr_Step next).

Lemma upsert_steps existing next :
  map sr_Step (agentChainUpsertStepRun existing next)
  = let kept := map sr_Step (filter (λ i, sr_InstanceID i = sr_InstanceID next) existing) in
    if bool_decide (sr_Step next ∈ kept) then kept else kept ++ [sr_Step next].
Proof.
  unfold agentChainUpsertStepRun. fold (sameStep next).
  set (kept := filter _ existing).
  assert (map sr_Step (map (λ i, if sameStep next i then next else i) kept) = map sr_Step kept) as Hm.
  { rewrite map_map. apply map_ext. intros i. unfold sameStep.
    repeat case_bool_decide; simpl; congruence. }
  assert (existsb (sameStep next) existing = bool_decide (sr_Step next ∈ map sr_Step kept)) as ->.
  { apply eq_bool_prop_intro. split.
    - intros (i & Hi & Hs)%Is_true_true%existsb_exists. unfold sameStep in Hs. bool_props.
      apply Is_true_true, bool_decide_eq_true, list_elem_of_fmap. exists i. split; [done|].
      apply list_elem_of_filter. split; [done|]. by apply list_elem_of_In.
    - intros (i & Hs & [Hi Hin]%list_elem_of_filter)%Is_true_true%bool_decide_eq_true%list_elem_of_fmap.
      apply Is_true_true, existsb_exists. exists i. split; [by apply list_elem_of_In|].
      unfold sameStep. by rewrite !bool_decide_eq_true_2 by congruence. }
  case_bool_decide; [exact Hm|]. rewrite map_app. f_equal. exact Hm.
Qed.

(** Recording a step run keeps the list about one instance with one entry
    per step (so it is bounded by the number of steps), holds the new entry, and
    keeps the entries of the other steps of that instance. *)
Theorem upsert_step_run existing next :
  NoDup (map sr_Step (filter (λ i, sr_InstanceID i = sr_InstanceID next) existing)) →
  let out := agentChainUpsertStepRun existing next in
  Forall (λ i, sr_InstanceID i = sr_InstanceID next) out
  ∧ NoDup (map sr_Step out)
  ∧ next ∈ out
  ∧ (∀ i, i ∈ existing → sr_InstanceID i = sr_InstanceID next → sr_Step i ≠ sr_Step next → i ∈ out)
  ∧ (∀ i, i ∈ out → i = next ∨ i ∈ existing).
Proof.
  intros Hnd out. subst out.
  assert (∀ i, i ∈ agentChainUpsertStepRun existing next →
    sr_InstanceID i = sr_InstanceID next ∧ (i = next ∨ i ∈ existing)) as Hin.
  { intros i. unfold agentChainUpsertStepRun.
    destruct (existsb _ existing); rewrite ?elem_of_app, list_elem_of_fmap;
      [intros (j & -> & Hj)|intros [(j & -> & Hj)|Hj]]; try (apply list_elem_of_filter in Hj as [Hi Hj]);
      [destruct (_ && _); auto|destruct (_ && _); auto|].
    apply list_elem_of_singleton in Hj. subst. auto. }
  split_and!.
  - apply Forall_forall. intros i Hi. by apply Hin.
  - rewrite upsert_steps. simpl. case_bool_decide as Hd; [done|].
    apply NoDup_app. split; [done|]. split; [|apply NoDup_singleton]. set_solver.
  - unfold agentChainUpsertStepRun. destruct (existsb _ existing) eqn:E; [|set_solver].
    apply existsb_exists in E as (i & Hi & Hs). apply list_elem_of_fmap. exists i.
    rewrite Hs. split; [done|]. bool_props. apply list_elem_of_filter. split; [done|].
    by apply list_elem_of_In.
  - intros i Hi Hid Hs. unfold agentChainUpsertStepRun.
    assert (i ∈ map (λ item, if bool_decide (sr_InstanceID item = sr_InstanceID next)
              && bool_decide (sr_Step item = sr_Step next) then next else item)
            (filter (λ item, sr_InstanceID item = sr_InstanceID next) existing)).
    { apply list_elem_of_fmap. exists i. rewrite (bool_decide_eq_false_2 _ Hs), andb_false_r.
      split; [done|]. by apply list_elem_of_filter. }
    destruct (existsb _ existing); set_solver.
  - intros i Hi. by apply Hin.
Qed.

(** ** Handoff: theorems *)

Lemma length_append_str s t : String.length (s +:+ t) = (String.length s + String.length t)%nat.
Proof. induction s as [|c s IH]; [done|]. simpl. by rewrite IH. Qed.

Lemma excerpt_length limit output :
  0 ≤ limit → Z.of_nat (String.length (outputExcerpt limit output)) ≤ limit + 3.
Proof.
  intros Hl. unfold outputExcerpt.
  destruct (Z.ltb_spec limit (Z.of_nat (String.length output))); [|lia].
  rewrite length_append_str. pose proof (takeStr_length (Z.to_nat limit) output).
  change (String.length ellipsis) with 3%nat. lia.
Qed.

Lemma runes_width l : Forall (λ r, (length r ≤ 4)%nat) (runes l).
Proof.
  remember (length l) as n eqn:Hn. assert (length l ≤ n)%nat as Hl by lia. clear Hn.
  revert l Hl. induction n as [|n IH]; intros [|a l1] Hl; try constructor; [cbn in Hl; lia|].
  cbn [runes]. repeat case_match; subst; cbn [length] in Hl; apply Forall_cons_2;
    first [apply IH; cbn [length]; lia|cbn; lia].
Qed.

Lemma concat_width (ls : list (list Ascii.ascii)) k :
  Forall (λ r, (length r ≤ k)%nat) ls → (length (concat ls) ≤ k * length ls)%nat.
Proof. induction 1; simpl; [lia|]. rewrite length_app. lia. Qed.

(** What a handoff copies from a prior run is bounded: a summary cut at [n]
    runes takes at most [4n + 3] bytes unless it already had at most [n] runes,
    and the output excerpt takes at most 8192 + 3 bytes whatever the spec asks
    for. *)
Theorem handoff_bounded handoff output value n :
  0 < n →
  (n < Z.of_nat (length (runes (bytes value))) →
     Z.of_nat (String.length (truncateRunes value n)) ≤ 4 * n + 3)
  ∧ (0 < ho_IncludeOutputExcerptBytes handoff →
     Z.of_nat (String.length (outputExcerpt (excerptLimit handoff) output))
     ≤ agentChainHandoffMax + 3).
Proof.
  intros Hn. split.
  - intros Hlen. unfold truncateRunes. destruct (Z.leb_spec n 0); [lia|].
    destruct (Z.leb_spec (Z.of_nat (length (runes (bytes value)))) n); [lia|].
    rewrite length_append_str, length_unbytes. change (String.length ellipsis) with 3%nat.
    pose proof (concat_width (take (Z.to_nat n) (runes (bytes value))) 4
      (Forall_take _ _ _ (runes_width _))) as Hc.
    rewrite length_take in Hc. lia.
  - intros He. pose proof (excerpt_length (excerptLimit handoff) output) as Hx.
    unfold excerptLimit, agentChainHandoffMax in *. lia.
Qed.

(** ** Witnesses *)

Definition fx_built : AgentRun :=
  fx_run "agents" "run-build" fx_epoch {[agentRunChainStepLabel := "build"]} (fx_spec "shop")
    AgentRunPhaseSucceeded.

Lemma when_gate_sound_witness : run_label fx_built agentRunChainStepLabel = "build".
Proof.
  exact (proj1 (when_gate_sound fx_chain 0 (fx_step "build" None)
    (fx_step "review" (Some "build")) fx_built eq_refl eq_refl eq_refl eq_refl)).
Defined.

Lemma next_start_no_burst_witness :
  ∃ k, agentChainNextStartTime fx_chain zero_AgentChainStatus (fx_epoch + 3 * Day)
       = inr (Some (chainFirstStart fx_chain + k * seconds 3600)).
Proof.
  destruct (next_start_no_burst fx_chain zero_AgentChainStatus (fx_epoch + 3 * Day))
    as (k & _ & Hk & _); [done..|vm_compute; discriminate|].
  exists k. exact Hk.
Defined.

Lemma next_cadence_future_witness :
  ∃ k, fx_epoch + 3 * Day < fx_epoch + k * seconds 3600.
Proof.
  destruct (next_cadence_future fx_epoch (seconds 3600) (fx_epoch + 3 * Day))
    as (k & _ & _ & Hk & _); [done|vm_compute; discriminate|vm_compute; discriminate|].
  exists k. exact Hk.
Defined.

Lemma upsert_step_run_witness :
  let r := zero_AgentChainStepRunStatus <| sr_InstanceID := "i-1" |> <| sr_Step := "build" |> in
  r ∈ agentChainUpsertStepRun [r; r <| sr_InstanceID := "i-0" |>] r.
Proof.
  intros r. destruct (upsert_step_run [r; r <| sr_InstanceID := "i-0" |>] r) as (_ & _ & Hr & _).
  - vm_compute. apply NoDup_singleton.
  - exact Hr.
Defined.

Lemma handoff_bounded_witness :
  Z.of_nat (String.length (truncateRunes "a long summary" 3)) ≤ 15.
Proof.
  apply (proj1 (handoff_bounded zero_AgentChainHandoffSpec "" "a long summary" 3 eq_refl)).
  vm_compute; reflexivity.
Defined.
