(* ===== verification/ChainReconcile.v ===== *)
(** * Chains: the reconciler

    [AgentChainReconciler] of [src/internal/controller/agent_chain_controller.go]:
    the stateful operations on runs and on the chain, [reconcileActiveInstance]
    and [Reconcile], over the client of [Kube].  [Reconcile] is cut where the
    code moves to its next concern: deletion, the gates that stop everything
    (invalid spec, suspension, application identity, pause), recovery of a lost
    status, cancellation, the active instance, and the start of a new one.  The
    proofs are in [ChainSafety]. *)

From stdpp Require Import base list gmap strings.
From Stdlib Require Import ZArith Lia.
From S2P Require Import Prelude GoStrings GoTime Names ApiRun ApiWork Kube RunControl ChainSpec ChainCore.

Open Scope Z_scope.

Definition errAgentChainRunProvenance : string := "AgentRun provenance mismatch".

Definition runRef (run : AgentRun) : option NamespacedObjectReference :=
  Some (mkNamespacedObjectReference (run_Name run) (run_Namespace run)).

(** ** Runs of a chain *)

Definition controllerOwner (apiVersion kind name uid : string) (owner : OwnerReference) : bool :=
  bool_decide (own_Controller owner = Some true) && bool_decide (own_APIVersion owner = apiVersion)
  && bool_decide (own_Kind owner = kind) && bool_decide (own_Name owner = name)
  && bool_decide (own_UID owner = uid).

(** Go: [detachAgentRunControllerOwner] of [agent_schedule_controller.go]. *)
Definition detachAgentRunControllerOwner (run : AgentRun) (apiVersion kind name uid : string) :
    bool * AgentRun :=
  let owners := meta_OwnerReferences (run_ObjectMeta run) in
  let filtered := filter (λ o, controllerOwner apiVersion kind name uid o = false) owners in
  if existsb (controllerOwner apiVersion kind name uid) owners
  then (true, run <| run_ObjectMeta := (run_ObjectMeta run) <| meta_OwnerReferences := filtered |> |>)
  else (false, run).

Definition agentChainChildLabels (chain : AgentChain) (applicationName instanceID step : string) :
    gmap string string :=
  let labels : gmap string string :=
    <[agentRunChainLabel := sanitizeLabelValue (chain_Name chain)]>
    (<[agentRunChainInstLabel := sanitizeLabelValue instanceID]>
    (<[agentRunChainStepLabel := sanitizeLabelValue step]>
    {[agentManagedByLabel := "anvil-agents"]})) in
  let labels := if bool_decide (applicationName ≠ "")
    then <[agentApplicationLabel := sanitizeLabelValue applicationName]> labels else labels in
  let inherit key (labels : gmap string string) :=
    let v := mapGet (chain_Labels chain) key in
    if bool_decide (v ≠ "") then <[key := v]> labels else labels in
  inherit agentManagerRepositoryLabel (inherit agentDynamicLabel labels).

(** The source reference and UID every run of the chain carries. *)
Definition chainSourceRef (chain : AgentChain) : AgentRunSourceRef :=
  mkAgentRunSourceRef GroupVersion "AgentChain" (chain_Namespace chain) (chain_Name chain).

Definition sourceIs (chain : AgentChain) (run : AgentRun) : bool :=
  let ref := rs_SourceRef (run_Spec run) in
  bool_decide (src_APIVersion ref = GroupVersion) && bool_decide (src_Kind ref = "AgentChain")
  && bool_decide (src_Namespace ref = chain_Namespace chain)
  && bool_decide (src_Name ref = chain_Name chain)
  && bool_decide (rs_SourceUID (run_Spec run) = chain_UID chain).

(** The guard of the loop of [agentChainOwnedNonterminalRuns], negated. *)
Definition ownedNonterminal (chain : AgentChain) (run : AgentRun) : bool :=
  negb (agentRunPhaseTerminal (run_Phase run))
  && bool_decide (rs_Purpose (run_Spec run) = AgentRunPurposeChained)
  && sourceIs chain run.

(** The keys of [expected] whose value differs in [actual]; Go ranges over the
    map in no particular order. *)
Definition mapMismatch (expected actual : gmap string string) : option string :=
  fst <$> find (λ kv, bool_decide (mapGet actual kv.1 ≠ kv.2)) (map_to_list expected).

Definition agentChainExpectedMetadataMatches (actual expected : AgentRun) : bool :=
  bool_decide (mapMismatch (run_Labels expected) (run_Labels actual) = None)
  && bool_decide (mapMismatch (run_Annotations expected) (run_Annotations actual) = None).

Definition agentChainRunSpecsEqual `{Marshal AgentRunSpec} (actual expected : AgentRunSpec) : bool :=
  bool_decide (digestJSON (jsonMarshal (agentChainCanonicalRunSpec actual))
               = digestJSON (jsonMarshal (agentChainCanonicalRunSpec expected))).

(** The error of [validateAgentChainRecoverableRun], if any. *)
Definition validateAgentChainRecoverableRun (chain : AgentChain) (run : AgentRun) : option string :=
  let instanceID := TrimSpace (run_label run agentRunChainInstLabel) in
  let step := TrimSpace (run_label run agentRunChainStepLabel) in
  let applicationName := trimmedRef (scope_ApplicationRef (rs_Scope (run_Spec run))) in
  if (rs_SourceGeneration (run_Spec run) <=? 0)
     || blank (rs_SourceDigest (run_Spec run))
     || bool_decide (mapGet (run_Annotations run) agentRunChainDigestAnnotation
                     ≠ rs_SourceDigest (run_Spec run))
     || bool_decide (run_label run agentRunChainLabel ≠ sanitizeLabelValue (chain_Name chain))
     || bool_decide (instanceID = "") || bool_decide (step = "")
     || bool_decide (run_label run agentManagedByLabel ≠ "anvil-agents")
     || bool_decide (applicationName = "")
     || bool_decide (run_label run agentApplicationLabel ≠ sanitizeLabelValue applicationName)
  then Some "immutable source provenance or controller-owned identity metadata is incomplete or inconsistent"
  else None.

(** The name of the child of an instance for a step. *)
Definition chainChildName (chain : AgentChain) (instanceID step : string) : string :=
  agentRunChildName ["agentrun"; chain_Name chain; instanceID; step;
    shortHash (Join [chain_UID chain; instanceID; step] "|")].

(** The spec of the child: the template, with the application, the provenance,
    the trigger and the handoff set by the controller. *)
Definition chainedSpec (chain : AgentChain) (applicationName : string) (sourceGeneration : Z)
    (workflowDigest : string) (step : AgentChainStepSpec)
    (priorByStep : option (gmap string AgentRun)) (detectedAt : option Time)
    (triggerReason triggerMessage : string) : GoErr + AgentRunSpec :=
  let spec := step_RunTemplate step in
  let scoped :=
    if bool_decide (applicationName ≠ "") then
      match scope_ApplicationRef (rs_Scope spec) with
      | None => inr (spec <| rs_Scope := (rs_Scope spec)
                  <| scope_ApplicationRef := Some (mkApplicationReferenceSpec applicationName) |> |>)
      | Some ref =>
          if bool_decide (TrimSpace (app_Name ref) ≠ applicationName) then
            inl (ErrText ("chain applicationRef " +:+ quote applicationName
              +:+ " conflicts with step " +:+ quote (step_Name step) +:+ " applicationRef "
              +:+ quote (TrimSpace (app_Name ref))))
          else inr spec
      end
    else inr spec in
  match scoped with
  | inl e => inl e
  | inr spec =>
      let spec := spec <| rs_Purpose := AgentRunPurposeChained |>
        <| rs_SourceRef := chainSourceRef chain |>
        <| rs_SourceUID := chain_UID chain |>
        <| rs_SourceGeneration := sourceGeneration |>
        <| rs_SourceDigest := workflowDigest |>
        <| rs_Trigger := (rs_Trigger spec) <| trg_Reason := triggerReason |>
             <| trg_Message := triggerMessage |> <| trg_DetectedAt := detectedAt |> |>
        <| rs_ScheduleRef := None |> in
      match priorByStep, step_Handoff step with
      | Some prior, Some _ =>
          let handoff := renderAgentChainHandoff step prior in
          if bool_decide (handoff = "") then inr spec
          else if blank (rs_Prompt spec) then inr (spec <| rs_Prompt := handoff |>)
          else inr (spec <| rs_Prompt := TrimSpace (rs_Prompt spec) +:+ nl +:+ nl +:+ handoff |>)
      | _, _ => inr spec
      end
  end.

(** The run object sent to the API server. *)
Definition chainedRun (chain : AgentChain) (applicationName instanceID workflowDigest : string)
    (step : AgentChainStepSpec) (spec : AgentRunSpec) : AgentRun :=
  mkAgentRun (zero_ObjectMeta
      <| meta_Name := chainChildName chain instanceID (step_Name step) |>
      <| meta_Namespace := chain_Namespace chain |>
      <| meta_Labels := agentChainChildLabels chain applicationName instanceID (step_Name step) |>
      <| meta_Annotations := {[agentRunChainDigestAnnotation := workflowDigest]} |>)
    spec zero_AgentRunStatus.

Section operations.
Context {W : Type} `{Client W} `{Conditions} `{Marshal ChainSnapshot} `{Marshal AgentRunSpec}.
Local Open Scope go_scope.

(** Go: [createChainedAgentRun]: create, or accept the very same child. *)
Definition createChainedAgentRun (chain : AgentChain) (applicationName instanceID : string)
    (sourceGeneration : Z) (workflowDigest : string) (step : AgentChainStepSpec)
    (priorByStep : option (gmap string AgentRun)) (detectedAt : option Time)
    (triggerReason triggerMessage : string) : M W GoErr AgentRun :=
  match chainedSpec chain applicationName sourceGeneration workflowDigest step priorByStep
          detectedAt triggerReason triggerMessage with
  | inl e => mfail e
  | inr spec =>
      let expected := chainedRun chain applicationName instanceID workflowDigest step spec in
      let* created := mtry (createRun expected) in
      match created with
      | inr run => mret run
      | inl err =>
          if negb (IsAlreadyExists err) then mfail err else
          let* run := mread (getRun (run_Namespace expected) (run_Name expected)) in
          let name := run_Namespace run +:+ "/" +:+ run_Name run in
          if bool_decide (rs_SourceUID (run_Spec run) ≠ chain_UID chain)
             || bool_decide (run_label run agentRunChainLabel ≠ sanitizeLabelValue (chain_Name chain))
          then mfail (ErrText ("AgentRun " +:+ name +:+ " collides with the expected child for AgentChain "
                 +:+ chain_Namespace chain +:+ "/" +:+ chain_Name chain))
          else if bool_decide (run_label run agentRunChainInstLabel ≠ sanitizeLabelValue instanceID)
             || bool_decide (run_label run agentRunChainStepLabel ≠ sanitizeLabelValue (step_Name step))
          then mfail (ErrText ("AgentRun " +:+ name +:+ " has mismatched chain instance/step labels"))
          else if bool_decide (mapGet (run_Annotations run) agentRunChainDigestAnnotation ≠ workflowDigest)
             || bool_decide (rs_SourceGeneration (run_Spec run) ≠ sourceGeneration)
             || bool_decide (rs_SourceDigest (run_Spec run) ≠ workflowDigest)
             || negb (agentChainRunSpecsEqual (run_Spec run) (run_Spec expected))
             || negb (agentChainExpectedMetadataMatches run expected)
          then mfail (ErrText ("AgentRun " +:+ name
                 +:+ " already exists with a different immutable chain step spec or provenance"))
          else mret run
      end
  end.

(** Go: [agentChainRunByRef]: the run of a status reference, with its exact
    provenance. *)
Definition agentChainRunByRef (chain : AgentChain) (status : AgentChainStatus) (step : string)
    (ref : NamespacedObjectReference) (expectedUID : string) (w : W) : GoErr + AgentRun :=
  if blank (ref_Name ref) then inl (ErrText "run reference is incomplete") else
  let namespace := if blank (ref_Namespace ref) then chain_Namespace chain
                   else TrimSpace (ref_Namespace ref) in
  if bool_decide (namespace ≠ chain_Namespace chain) then
    inl (ErrText ("run reference namespace " +:+ quote namespace
      +:+ " differs from chain namespace " +:+ quote (chain_Namespace chain)))
  else
  match getRun namespace (ref_Name ref) w with
  | inl e => inl e
  | inr run =>
      let name := "AgentRun " +:+ run_Namespace run +:+ "/" +:+ run_Name run in
      if bool_decide (expectedUID ≠ "") && bool_decide (run_UID run ≠ expectedUID) then
        inl (ErrSentinel errAgentChainRunProvenance (name +:+ " UID " +:+ quote (run_UID run)
          +:+ " differs from frozen UID " +:+ quote expectedUID))
      else
      match resolveAgentChainApplicationName chain with
      | inl e => inl e
      | inr applicationName =>
          if negb (sourceIs chain run)
             || bool_decide (rs_SourceGeneration (run_Spec run) ≠ cst_ActiveSourceGeneration status)
             || bool_decide (rs_SourceDigest (run_Spec run) ≠ cst_ActiveWorkflowDigest status)
             || bool_decide (mapGet (run_Annotations run) agentRunChainDigestAnnotation
                             ≠ cst_ActiveWorkflowDigest status)
             || bool_decide (run_label run agentRunChainLabel ≠ sanitizeLabelValue (chain_Name chain))
             || bool_decide (run_label run agentRunChainInstLabel
                             ≠ sanitizeLabelValue (cst_ActiveInstanceID status))
             || bool_decide (run_label run agentRunChainStepLabel ≠ sanitizeLabelValue step)
          then inl (ErrSentinel errAgentChainRunProvenance (name
                 +:+ " identity does not match frozen instance " +:+ cst_ActiveInstanceID status
                 +:+ " step " +:+ step))
          else
          match mapMismatch (agentChainChildLabels chain applicationName
                  (cst_ActiveInstanceID status) step) (run_Labels run) with
          | Some key => inl (ErrSentinel errAgentChainRunProvenance (name +:+ " controller label "
                          +:+ quote key +:+ " does not match frozen instance"))
          | None => inr run
          end
      end
  end.

Definition agentChainActiveRun (chain : AgentChain) (status : AgentChainStatus) (w : W) :
    GoErr + AgentRun :=
  match cst_ActiveRunRef status with
  | None => inl (ErrText "status.activeRunRef is missing")
  | Some ref => agentChainRunByRef chain status (cst_ActiveStep status) ref
                  (cst_ActiveRunUID status) w
  end.

(** Go: [agentChainOwnedNonterminalRuns]. *)
Definition agentChainOwnedNonterminalRuns (chain : AgentChain) (w : W) : GoErr + list AgentRun :=
  match listRuns (Some (chain_Namespace chain)) None w with
  | inl e => inl (ErrWrap "list AgentRuns for orphan ownership recovery" e)
  | inr items => inr (filter (λ run, ownedNonterminal chain run = true) items)
  end.

(** The instance a run counts for in the daily budget, if any. *)
Definition instanceToday (chain : AgentChain) (dayStart : Time) (run : AgentRun) : option string :=
  let inst := run_label run agentRunChainInstLabel in
  if bool_decide (inst = "") then None else
  let firstStep := match cs_Steps (chain_Spec chain) with
                   | [] => ""
                   | step :: _ => sanitizeLabelValue (step_Name step)
                   end in
  if bool_decide (firstStep = "") || bool_decide (run_label run agentRunChainStepLabel ≠ firstStep)
  then None
  else if negb (Before (run_CreationTimestamp run) dayStart)
          && Before (run_CreationTimestamp run) (Add dayStart Day)
  then Some inst else None.

(** One iteration of the loop of [agentChainRuns]. *)
Definition chainRunsStep (chain : AgentChain) (dayStart : Time)
    (acc : list AgentRun * gset string) (run : AgentRun) : M W GoErr (list AgentRun * gset string) :=
  if bool_decide (run_label run agentRunChainLabel ≠ sanitizeLabelValue (chain_Name chain))
  then mret acc else
  let '(removed, run') := detachAgentRunControllerOwner run GroupVersion "AgentChain"
                            (chain_Name chain) (chain_UID chain) in
  let* _ := if removed then
      let* r := mtry (patchRunOwners (run_key run) (meta_OwnerReferences (run_ObjectMeta run'))) in
      match r with
      | inl e => mfail (ErrWrap ("detach durable AgentRun " +:+ run_Namespace run +:+ "/"
                   +:+ run_Name run +:+ " from AgentChain garbage collection") e)
      | inr _ => mret tt
      end
    else mret tt in
  mret (acc.1 ++ [run'], match instanceToday chain dayStart run' with
                         | Some inst => {[inst]} ∪ acc.2
                         | None => acc.2
                         end).

(** Go: [agentChainRuns]: the labelled runs and the number of instances whose
    first step was created on the current UTC day. *)
Definition agentChainRuns (chain : AgentChain) (now : Time) : M W GoErr (list AgentRun * Z) :=
  let* listed := mtry (mread (listRuns (Some (chain_Namespace chain))
    (Some (agentRunChainLabel, sanitizeLabelValue (chain_Name chain))))) in
  match listed with
  | inl e => mfail (ErrWrap "list chained agent runs" e)
  | inr items =>
      let* acc := mforeach (chainRunsStep chain (Truncate now Day)) items ([], ∅) in
      mret (acc.1, Z.of_nat (size acc.2))
  end.

(** ** Writes to the chain *)

Definition patchAgentChainStatus (obj : AgentChain) (status : AgentChainStatus)
    (requeueAfter : Duration) : M W GoErr Result :=
  let* r := mtry (patchChainStatus (chain_key obj) status) in
  match r with
  | inl err => if IsConflict err then mret requeueNow else mfail err
  | inr _ => if 0 <? requeueAfter then mret (mkResult false requeueAfter) else mret Done
  end.

(** Go: [apimeta.SetStatusCondition] of the [Ready] condition on a status. *)
Definition setReady (obj : AgentChain) (now : Time) (conditionStatus reason message : string)
    (status : AgentChainStatus) : AgentChainStatus :=
  status <| cst_Conditions := SetStatusCondition (cst_Conditions status)
    (mkCondition agentChainReady conditionStatus (chain_Generation obj) now reason message) |>.

(** The status of a blocked chain; the condition repeats the error. *)
Definition blockedStatus (obj : AgentChain) (now : Time) (reason err : string)
    (status : AgentChainStatus) : AgentChainStatus :=
  setReady obj now ConditionFalse reason err
    (status <| cst_Phase := AgentChainPhaseBlocked |> <| cst_LastError := err |>).

Definition hasDrainFinalizer (chain : AgentChain) : bool :=
  bool_decide (agentChainDrainFinalizer ∈ meta_Finalizers (chain_ObjectMeta chain)).

Definition removeAgentChainDrainFinalizer (ns name : string) : M W GoErr Result :=
  let* got := mtry (mread (getChain ns name)) in
  match got with
  | inl e => if IsNotFound e then mret Done else mfail e
  | inr chain =>
      if negb (hasDrainFinalizer chain) then mret Done else
      let* r := mtry (patchChainFinalizers (chain_key chain)
        (filter (λ f, f ≠ agentChainDrainFinalizer) (meta_Finalizers (chain_ObjectMeta chain)))) in
      match r with
      | inl err => if IsConflict err then mret requeueNow
                   else mfail (ErrWrap "remove AgentChain active-drain finalizer" err)
      | inr _ => mret Done
      end
  end.

(** ** The active instance *)

Definition stepRunStatus (status : AgentChainStatus) (step : string) (run : AgentRun) :
    AgentChainStepRunStatus :=
  mkAgentChainStepRunStatus (cst_ActiveInstanceID status) step (runRef run) (run_UID run)
    (run_Phase run) (cst_ActiveSourceGeneration status) (cst_ActiveWorkflowDigest status).

(** The loop that collects the prior runs of the instance from the exact
    references in the status; an error names the step it could not resolve. *)
Fixpoint collectPriors (chain : AgentChain) (status : AgentChainStatus)
    (stepRuns : list AgentChainStepRunStatus) (acc : gmap string AgentRun) (w : W) :
    (string * GoErr) + gmap string AgentRun :=
  match stepRuns with
  | [] => inr acc
  | item :: items =>
      match sr_RunRef item with
      | Some ref =>
          if bool_decide (sr_InstanceID item ≠ cst_ActiveInstanceID status)
          then collectPriors chain status items acc w
          else
            match agentChainRunByRef chain status (sr_Step item) ref (sr_RunUID item) w with
            | inl e => inl (sr_Step item, e)
            | inr run => collectPriors chain status items (<[sr_Step item := run]> acc) w
            end
      | None => collectPriors chain status items acc w
      end
  end.

(** The status of an instance that ended: inactive, with the instance recorded. *)
Definition endInstance (phase : string) (status : AgentChainStatus) : AgentChainStatus :=
  (agentChainClearActive (status <| cst_LastInstanceID := cst_ActiveInstanceID status |>))
    <| cst_Phase := phase |> <| cst_LastError := "" |>.

(** The last step is terminal: complete, or stop with a backoff. *)
Definition finishInstance (chain : AgentChain) (now : Time) (status : AgentChainStatus)
    (finalStep : string) (current : AgentRun) : AgentChainStatus :=
  let instanceID := cst_ActiveInstanceID status in
  let ended := endInstance AgentChainPhaseIdle status in
  if agentChainCompletionMatches (cs_Completion (chain_Spec chain)) current then
    setReady chain now ConditionTrue "InstanceCompleted"
      ("Instance " +:+ instanceID +:+ " completed successfully at final step "
       +:+ quote finalStep +:+ ".") ended
  else
    setReady chain now ConditionTrue
      (if bool_decide (run_Phase current ≠ AgentRunPhaseSucceeded) then "InstanceFailed"
       else "InstanceCompletionCriteriaUnmet")
      ("Instance " +:+ instanceID +:+ " stopped at final step " +:+ quote finalStep
       +:+ " with phase " +:+ run_Phase current +:+ " and decision action "
       +:+ quote (agentRunDecisionAction current) +:+ "; completion criteria did not match.")
      (agentChainApplyTerminalBackoffDeadline chain ended current now).

(** The next step is admitted: create its run and make it the active one. *)
Definition advanceInstance (chain : AgentChain) (now : Time) (applicationName : string)
    (status : AgentChainStatus) (step nextStep : AgentChainStepSpec) (current : AgentRun) :
    M W GoErr (AgentChainStatus * bool * Duration) :=
  let instanceID := cst_ActiveInstanceID status in
  let* priors := λ w, (w, inr (collectPriors chain status (cst_StepRuns status) ∅ w)) in
  match priors with
  | inl (failedStep, getErr) =>
      mret (blockedStatus chain now "HandoffProvenanceMismatch"
        ("cannot resolve exact handoff AgentRun for instance " +:+ instanceID +:+ " step "
         +:+ failedStep +:+ ": " +:+ errorText getErr) status, false, 0)
  | inr priorByStep =>
      let* run := createChainedAgentRun chain applicationName instanceID
        (cst_ActiveSourceGeneration status) (cst_ActiveWorkflowDigest status) nextStep
        (Some (<[step_Name step := current]> priorByStep)) (Some (terminalAt current))
        "AgentChainStep"
        ("instance=" +:+ instanceID +:+ " step=" +:+ step_Name nextStep +:+ " previousRun="
         +:+ run_Namespace current +:+ "/" +:+ run_Name current +:+ " previousPhase="
         +:+ run_Phase current) in
      let status := status <| cst_Phase := AgentChainPhaseRunning |>
        <| cst_ActiveStep := step_Name nextStep |> <| cst_ActiveRunRef := runRef run |>
        <| cst_ActiveRunUID := run_UID run |>
        <| cst_StepRuns := agentChainUpsertStepRun (cst_StepRuns status)
             (stepRunStatus status (step_Name nextStep) run) |>
        <| cst_LastError := "" |> in
      mret (setReady chain now ConditionFalse "StepAdvanced"
        ("Instance " +:+ instanceID +:+ " advanced to step " +:+ quote (step_Name nextStep)
         +:+ " as AgentRun " +:+ run_Namespace run +:+ "/" +:+ run_Name run +:+ ".") status,
        true, agentChainPollInterval)
  end.

(** The current run is terminal: stop for a human, finish, stop, or advance. *)
Definition settleStep (chain : AgentChain) (now : Time) (applicationName : string)
    (status : AgentChainStatus) (stepIndex : nat) (step : AgentChainStepSpec) (current : AgentRun) :
    M W GoErr (AgentChainStatus * bool * Duration) :=
  let instanceID := cst_ActiveInstanceID status in
  if bool_decide (run_Phase current = AgentRunPhaseNeedsHuman) then
    let ended := agentChainApplyTerminalBackoffDeadline chain
      (endInstance AgentChainPhaseWaitingHuman status) current now in
    mret (setReady chain now ConditionFalse "WaitingHuman"
      ("Instance " +:+ instanceID +:+ " stopped at step "
       +:+ quote (run_label current agentRunChainStepLabel) +:+ " with NeedsHuman on AgentRun "
       +:+ run_Namespace current +:+ "/" +:+ run_Name current +:+ ".") ended,
      true, agentChainPollInterval)
  else
  match cs_Steps (chain_Spec chain) !! S stepIndex with
  | None => mret (finishInstance chain now status (step_Name step) current,
                  true, agentChainPollInterval)
  | Some nextStep =>
      if negb (agentChainWhenMatches (step_When nextStep) (step_Name step) current) then
        let ended := agentChainApplyTerminalBackoffDeadline chain
          (endInstance AgentChainPhaseIdle status) current now in
        mret (setReady chain now ConditionTrue "InstanceStopped"
          ("Instance " +:+ instanceID +:+ " stopped after step " +:+ quote (step_Name step)
           +:+ " phase " +:+ run_Phase current +:+ "; next step " +:+ quote (step_Name nextStep)
           +:+ " when-clause did not match.") ended,
          true, agentChainPollInterval)
      else advanceInstance chain now applicationName status step nextStep current
  end.

(** Go: [reconcileActiveInstance]: the new status, [advanced] and the requeue
    delay. *)
Definition reconcileActiveInstance (chain : AgentChain) (status : AgentChainStatus)
    (applicationName : string) (now : Time) : M W GoErr (AgentChainStatus * bool * Duration) :=
  let instanceID := cst_ActiveInstanceID status in
  let workflowDigest := agentChainWorkflowDigest chain in
  let blocked reason err := mret (blockedStatus chain now reason err status, false, 0) in
  if bool_decide (cst_ActiveSourceGeneration status = 0)
     || bool_decide (cst_ActiveWorkflowDigest status = "") then
    blocked "MissingInstanceSnapshot"
      ("active instance " +:+ instanceID +:+ " has no frozen source generation/workflow digest")
  else if bool_decide (cst_ActiveWorkflowDigest status ≠ workflowDigest) then
    blocked "InstanceNeedsRevalidation"
      ("active instance " +:+ instanceID +:+ " is frozen at source generation "
       +:+ fmtZ (cst_ActiveSourceGeneration status) +:+ " digest "
       +:+ quote (cst_ActiveWorkflowDigest status) +:+ "; current AgentChain is generation "
       +:+ fmtZ (chain_Generation chain) +:+ " digest " +:+ quote workflowDigest)
  else
  match agentChainStepIndex chain (cst_ActiveStep status) with
  | None => blocked "InvalidActiveStep"
      ("active step " +:+ quote (cst_ActiveStep status) +:+ " is not in the chain spec")
  | Some stepIndex =>
      let* resolved := mtry (mread (agentChainActiveRun chain status)) in
      match resolved with
      | inl currentErr =>
          mret (blockedStatus chain now
            (if errIs errAgentChainRunProvenance currentErr then "StepProvenanceMismatch"
             else "MissingStepRun")
            ("cannot resolve exact AgentRun for active instance " +:+ instanceID +:+ " step "
             +:+ cst_ActiveStep status +:+ ": " +:+ errorText currentErr) status,
            false, agentChainPollInterval)
      | inr current =>
          let status := status <| cst_StepRuns := agentChainUpsertStepRun (cst_StepRuns status)
                          (stepRunStatus status (cst_ActiveStep status) current) |> in
          if negb (agentRunPhaseTerminal (run_Phase current)) then
            mret (setReady chain now ConditionFalse "StepRunning"
              ("Instance " +:+ instanceID +:+ " step " +:+ quote (cst_ActiveStep status)
               +:+ " is " +:+ run_Phase current +:+ " on AgentRun " +:+ run_Namespace current
               +:+ "/" +:+ run_Name current +:+ ".")
              (status <| cst_Phase := AgentChainPhaseRunning |> <| cst_LastError := "" |>),
              false, agentChainPollInterval)
          else
            match cs_Steps (chain_Spec chain) !! stepIndex with
            | None => mfail (ErrPanic "index out of range")
            | Some step => settleStep chain now applicationName status stepIndex step current
            end
      end
  end.

(** ** Recovery of a lost status *)

(** Adopt the one nonterminal run of the chain as the active one. *)
Definition adoptActive (obj : AgentChain) (now : Time) (status : AgentChainStatus)
    (active : AgentRun) : AgentChainStatus :=
  let instanceID := run_label active agentRunChainInstLabel in
  let step := run_label active agentRunChainStepLabel in
  let startToken := TrimSpace (mapGet (chain_Annotations obj) AgentChainStartNowAnnotation) in
  let status := status <| cst_Phase := AgentChainPhaseRunning |>
    <| cst_ActiveInstanceID := instanceID |> <| cst_ActiveStep := step |>
    <| cst_ActiveRunRef := runRef active |> <| cst_ActiveRunUID := run_UID active |>
    <| cst_ActiveSourceGeneration := rs_SourceGeneration (run_Spec active) |>
    <| cst_ActiveWorkflowDigest := rs_SourceDigest (run_Spec active) |>
    <| cst_LastInstanceID := instanceID |> in
  let status :=
    if HasPrefix instanceID "m-" && bool_decide (startToken ≠ "")
       && bool_decide (agentChainInstanceID obj true startToken now = instanceID)
    then status <| cst_LastStartToken := startToken |> else status in
  let status :=
    if 0 <? cs_StartIntervalSeconds (chain_Spec obj) then
      let base :=
        match setTime (trg_DetectedAt (rs_Trigger (run_Spec active))) with
        | Some t => if HasPrefix instanceID "i-" then t else run_CreationTimestamp active
        | None => run_CreationTimestamp active
        end in
      status <| cst_NextStartAt := Some (agentChainNextCadenceAfter base
        (seconds (cs_StartIntervalSeconds (chain_Spec obj))) now) |>
    else status in
  setReady obj now ConditionFalse "ActiveRunRecovered"
    ("Recovered Forbid ownership of nonterminal AgentRun " +:+ run_Namespace active +:+ "/"
     +:+ run_Name active +:+ " for instance " +:+ instanceID +:+ " step " +:+ step
     +:+ " after missing status.")
    (status <| cst_StepRuns := [stepRunStatus status step active] |> <| cst_LastError := "" |>).

(** [Some status] stops the reconciliation with that status. *)
Definition recoverActive (obj : AgentChain) (now : Time) (status : AgentChainStatus) (w : W) :
    GoErr + option AgentChainStatus :=
  if bool_decide (cst_ActiveInstanceID status ≠ "") then inr None else
  match agentChainOwnedNonterminalRuns obj w with
  | inl e => inl e
  | inr [] => inr None
  | inr [active] =>
      match validateAgentChainRecoverableRun obj active with
      | Some recoverErr =>
          inr (Some (blockedStatus obj now "UnrecoveredActiveRun"
            ("provenance-valid nonterminal AgentRun " +:+ run_Namespace active +:+ "/"
             +:+ run_Name active +:+ " cannot be safely recovered: " +:+ recoverErr) status))
      | None => inr (Some (adoptActive obj now status active))
      end
  | inr activeRuns =>
      inr (Some (blockedStatus obj now "UnrecoveredActiveRun"
        ("found " +:+ fmtNat (length activeRuns)
         +:+ " provenance-valid nonterminal AgentRuns without one frozen active status reference")
        status))
  end.

(** ** Cancellation *)

(** [inl] stops the reconciliation with a status, [inr] goes on with one. *)
Definition requestCancel (obj : AgentChain) (now : Time) (status : AgentChainStatus) :
    AgentChainStatus + AgentChainStatus :=
  let cancelToken := TrimSpace (mapGet (chain_Annotations obj) AgentChainCancelInstanceAnnotation) in
  if bool_decide (cancelToken ≠ "") && bool_decide (cancelToken ≠ cst_LastCancelToken status) then
    if bool_decide (cst_ActiveInstanceID status ≠ "")
       && (bool_decide (cancelToken = cst_ActiveInstanceID status) || bool_decide (cancelToken = "*"))
    then inl (setReady obj now ConditionFalse "CancellationPending"
      ("Chain instance " +:+ quote (cst_ActiveInstanceID status)
       +:+ " will not advance; waiting for its active AgentRun to become terminal without deleting its Job.")
      (status <| cst_CancelRequestedInstanceID := cst_ActiveInstanceID status |>
         <| cst_Phase := AgentChainPhaseCancelling |> <| cst_LastError := "" |>
         <| cst_LastCancelToken := cancelToken |>))
    else inr (status <| cst_LastCancelToken := cancelToken |>)
  else inr status.

Definition continueCancel (obj : AgentChain) (now : Time) (status : AgentChainStatus) (w : W) :
    option AgentChainStatus :=
  if bool_decide (cst_ActiveInstanceID status ≠ "")
     && bool_decide (cst_CancelRequestedInstanceID status = cst_ActiveInstanceID status) then
    match agentChainActiveRun obj status w with
    | inl currentErr =>
        Some (blockedStatus obj now "MissingCancellationRun"
          ("cannot resolve exact AgentRun while cancelling instance "
           +:+ cst_ActiveInstanceID status +:+ " step " +:+ cst_ActiveStep status +:+ ": "
           +:+ errorText currentErr) status)
    | inr current =>
        if negb (agentRunPhaseTerminal (run_Phase current)) then
          Some (status <| cst_Phase := AgentChainPhaseCancelling |> <| cst_LastError := "" |>)
        else
          Some (setReady obj now ConditionTrue "InstanceCancelled"
            ("Stopped chain instance " +:+ quote (cst_ActiveInstanceID status)
             +:+ " after its active AgentRun became terminal; no successor was created.")
            (endInstance AgentChainPhaseIdle status))
    end
  else None.

(** ** Starting an instance *)

Definition idleStatus (obj : AgentChain) (now : Time) (reason message : string)
    (status : AgentChainStatus) : AgentChainStatus :=
  setReady obj now ConditionTrue reason message
    (status <| cst_Phase := AgentChainPhaseIdle |> <| cst_LastError := "" |>).

Definition idleMessage (status : AgentChainStatus) : string :=
  match cst_NextStartAt status with
  | Some t => "Next automatic instance start is scheduled for " +:+ FormatRFC3339 t +:+ "."
  | None => "AgentChain is idle."
  end.

(** A run of the instance made from another generation or workflow. *)
Definition snapshotCollision (obj : AgentChain) (instanceID workflowDigest : string)
    (existing : AgentRun) : bool :=
  bool_decide (run_label existing agentRunChainInstLabel = sanitizeLabelValue instanceID)
  && (bool_decide (rs_SourceGeneration (run_Spec existing) ≠ chain_Generation obj)
      || bool_decide (rs_SourceDigest (run_Spec existing) ≠ workflowDigest)).

(** Launch the first step of a new instance. *)
Definition launchInstance (obj : AgentChain) (now : Time) (status : AgentChainStatus)
    (applicationName : string) (runs : list AgentRun) (manualPending : bool) (startToken : string)
    (dueAt : Time) : M W GoErr Result :=
  let instanceID := agentChainInstanceID obj manualPending startToken dueAt in
  let workflowDigest := agentChainWorkflowDigest obj in
  if bool_decide (workflowDigest = "") then mfail (ErrText "digest AgentChain workflow") else
  match firstBad (snapshotCollision obj instanceID workflowDigest) 0 runs with
  | Some (_, existing) =>
      patchAgentChainStatus obj (blockedStatus obj now "InstanceSnapshotCollision"
        ("existing AgentRun " +:+ run_Namespace existing +:+ "/" +:+ run_Name existing
         +:+ " for instance " +:+ instanceID +:+ " belongs to source generation "
         +:+ fmtZ (rs_SourceGeneration (run_Spec existing)) +:+ " digest "
         +:+ quote (rs_SourceDigest (run_Spec existing)) +:+ ", not generation "
         +:+ fmtZ (chain_Generation obj) +:+ " digest " +:+ quote workflowDigest) status)
        agentChainPollInterval
  | None =>
      match cs_Steps (chain_Spec obj) with
      | [] => mfail (ErrPanic "index out of range")
      | first :: _ =>
          let* run := createChainedAgentRun obj applicationName instanceID (chain_Generation obj)
            workflowDigest first None (if manualPending then None else Some dueAt)
            "AgentChainStart" ("instance=" +:+ instanceID +:+ " step=" +:+ step_Name first) in
          let status := status <| cst_Phase := AgentChainPhaseRunning |>
            <| cst_ActiveInstanceID := instanceID |>
            <| cst_ActiveSourceGeneration := chain_Generation obj |>
            <| cst_ActiveWorkflowDigest := workflowDigest |>
            <| cst_LastInstanceID := instanceID |>
            <| cst_ActiveStep := step_Name first |>
            <| cst_ActiveRunRef := runRef run |>
            <| cst_ActiveRunUID := run_UID run |> in
          let status := status <| cst_StepRuns := [stepRunStatus status (step_Name first) run] |>
            <| cst_LastError := "" |> in
          let status := if manualPending then status <| cst_LastStartToken := startToken |>
                        else status in
          let status :=
            if 0 <? cs_StartIntervalSeconds (chain_Spec obj) then
              status <| cst_NextStartAt := Some (Add (if manualPending then now else dueAt)
                          (seconds (cs_StartIntervalSeconds (chain_Spec obj)))) |>
            else if manualPending then status
            else status <| cst_NextStartAt := None |> in
          let* counted := agentChainRuns obj now in
          patchAgentChainStatus obj (setReady obj now ConditionFalse "InstanceStarted"
            ("Started chain instance " +:+ instanceID +:+ " with step "
             +:+ quote (step_Name first) +:+ " as AgentRun " +:+ run_Namespace run +:+ "/"
             +:+ run_Name run +:+ ".") (status <| cst_InstancesToday := counted.2 |>))
            agentChainPollInterval
      end
  end.

(** From the start token to the launch: is an instance due, within the daily
    budget and outside a backoff? *)
Definition startInstance (obj : AgentChain) (now : Time) (status : AgentChainStatus)
    (applicationName : string) (runs : list AgentRun) (instancesToday : Z) : M W GoErr Result :=
  let startToken := TrimSpace (mapGet (chain_Annotations obj) AgentChainStartNowAnnotation) in
  let manualPending := bool_decide (startToken ≠ "")
                       && bool_decide (startToken ≠ cst_LastStartToken status) in
  match agentChainNextStartTime obj status now with
  | inl e => mfail e
  | inr nextStart =>
      let status := status <| cst_NextStartAt :=
        match nextStart with Some t => Some t | None => cst_NextStartAt status end |> in
      let due := match nextStart with Some t => negb (After t now) | None => false end in
      if negb (manualPending || due) then
        patchAgentChainStatus obj (idleStatus obj now "Idle" (idleMessage status) status)
          (match cst_NextStartAt status with
           | Some t => if After t now then Sub t now else agentChainPollInterval
           | None => agentChainPollInterval
           end)
      else if (0 <? cs_MaxInstancesPerDay (chain_Spec obj))
              && (cs_MaxInstancesPerDay (chain_Spec obj) <=? instancesToday)
              && negb manualPending then
        patchAgentChainStatus obj (idleStatus obj now "DailyBudgetExhausted"
          ("maxInstancesPerDay=" +:+ fmtZ (cs_MaxInstancesPerDay (chain_Spec obj))
           +:+ " already reached for the current UTC day.") status) agentChainPollInterval
      else
        match (if manualPending then None else agentChainTerminalBackoffUntil obj status runs now) with
        | Some until =>
            patchAgentChainStatus obj (idleStatus obj now "TerminalBackoff"
              ("Automatic starts are backed off until " +:+ FormatRFC3339 until +:+ ".")
              (status <| cst_NextStartAt := Some until |>)) (Sub until now)
        | None =>
            match agentChainStartDueAt obj manualPending nextStart now with
            | inl e => mfail e
            | inr dueAt =>
                launchInstance obj now status applicationName runs manualPending startToken dueAt
            end
        end
  end.

(** ** Reconcile *)

(** Deletion: the finalizer stays until every run of the chain is terminal. *)
Definition drainChain (obj : AgentChain) : M W GoErr Result :=
  if negb (hasDrainFinalizer obj) then mret Done else
  let* activeRuns := mread (agentChainOwnedNonterminalRuns obj) in
  match activeRuns with
  | _ :: _ => mret (mkResult false agentChainPollInterval)
  | [] => removeAgentChainDrainFinalizer (chain_Namespace obj) (chain_Name obj)
  end.

Definition installDrainFinalizer (obj : AgentChain) : M W GoErr Result :=
  let* r := mtry (patchChainFinalizers (chain_key obj)
    (meta_Finalizers (chain_ObjectMeta obj) ++ [agentChainDrainFinalizer])) in
  match r with
  | inl err => if IsConflict err then mret requeueNow
               else mfail (ErrWrap "install AgentChain active-drain finalizer" err)
  | inr _ => mret requeueNow
  end.

(** Everything after the gates. *)
Definition reconcileInstances (obj : AgentChain) (now : Time) (status : AgentChainStatus)
    (applicationName : string) : M W GoErr Result :=
  let* counted := agentChainRuns obj now in
  let '(runs, instancesToday) := counted in
  let status := status <| cst_InstancesToday := instancesToday |> in
  let* recovered := mread (recoverActive obj now status) in
  match recovered with
  | Some status => patchAgentChainStatus obj status agentChainPollInterval
  | None =>
  match requestCancel obj now status with
  | inl status => patchAgentChainStatus obj status agentChainPollInterval
  | inr status =>
      let* cancelled := λ w, (w, inr (continueCancel obj now status w)) in
      match cancelled with
      | Some status => patchAgentChainStatus obj status agentChainPollInterval
      | None =>
          if bool_decide (cst_ActiveInstanceID status ≠ "") then
            let* outcome := reconcileActiveInstance obj status applicationName now in
            let '(status, advanced, requeue) := outcome in
            if advanced || (0 <? requeue) then patchAgentChainStatus obj status requeue
            else if bool_decide (cst_ActiveInstanceID status ≠ "")
            then patchAgentChainStatus obj status agentChainPollInterval
            else startInstance obj now status applicationName runs instancesToday
          else startInstance obj now status applicationName runs instancesToday
      end
  end
  end.

(** The gates that stop everything: invalid spec, suspension, no single
    application, a pause of the application. *)
Definition reconcileGated (obj : AgentChain) (now : Time) : M W GoErr Result :=
  let status := (chain_Status obj) <| cst_ObservedGeneration := chain_Generation obj |> in
  match validateAgentChainSpec obj with
  | Some err =>
      patchAgentChainStatus obj
        (blockedStatus obj now "InvalidSpec" err (status <| cst_NextStartAt := None |>)) 0
  | None =>
      if cs_Suspend (chain_Spec obj) then
        patchAgentChainStatus obj (setReady obj now ConditionFalse "Suspended"
          "AgentChain is suspended."
          (status <| cst_Phase := AgentChainPhaseSuspended |> <| cst_LastError := "" |>)) 0
      else
      match resolveAgentChainApplicationName obj with
      | inl err =>
          patchAgentChainStatus obj (blockedStatus obj now "InvalidApplicationIdentity"
            (errorText err) (status <| cst_NextStartAt := None |>)) agentChainPollInterval
      | inr applicationName =>
          let* pause := activeAgentRunPauseForApplication applicationName now in
          match pause with
          | Some pause =>
              let message := "Application " +:+ quote applicationName
                +:+ " is paused by AgentRunControl " +:+ quote (pause_ControlName pause) +:+ "." in
              let message := if bool_decide (pause_Reason pause ≠ "")
                then message +:+ " Reason: " +:+ pause_Reason pause else message in
              patchAgentChainStatus obj (setReady obj now ConditionFalse "ApplicationPaused" message
                (status <| cst_Phase := AgentChainPhaseSuspended |> <| cst_LastError := "" |>))
                agentChainPollInterval
          | None => reconcileInstances obj now status applicationName
          end
      end
  end.

(** Go: [AgentChainReconciler.Reconcile]. *)
Definition reconcileChain (ns name : string) (now : Time) : M W GoErr Result :=
  let* got := mtry (mread (getChain ns name)) in
  match got with
  | inl e => if IsNotFound e then mret Done else mfail e
  | inr obj =>
      if bool_decide (setTime (meta_DeletionTimestamp (chain_ObjectMeta obj)) ≠ None) then drainChain obj
      else if negb (hasDrainFinalizer obj) then installDrainFinalizer obj
      else reconcileGated obj now
  end.
End operations.
