(* ===== verification/ChainSafety.v ===== *)
(** * Chains: at most one run at a time

    The safety argument for the reconciler of [ChainReconcile].  A chain only
    supports the Forbid policy, so it must never have two runs in flight, even
    though a create can succeed while its response or the following status patch
    is lost, the spec can be edited at any time, and runs finish on their own.

    [forbid] is the invariant that relates the runs of a chain to its stored
    status: there is at most one nonterminal step, and while an instance is active
    it is the recorded one or the successor the next reconciliation would create.
    [reconcile_forbid] shows that [reconcileChain] preserves it from any state,
    whatever the API server answers; [ChainSystem] lifts it to executions. *)

From stdpp Require Import base list gmap strings.
From Stdlib Require Import ZArith Lia.
From S2P Require Import Prelude GoStrings GoTime Names ApiRun ApiWork Kube RunControl ChainSpec ChainCore ChainReconcile.

Open Scope Z_scope.

(** ** What a patch of owner references preserves *)

Definition runCore (r : AgentRun) :=
  (run_key r, run_UID r, run_Labels r, run_Annotations r, run_CreationTimestamp r,
   run_Spec r, run_Status r).

(** A run of a chain that has not ended: it is chained, names the chain and its UID as
    its source, and is in none of the phases in which a run ends ([ended]). *)
Definition unfinishedRun (chain : AgentChain) (r : AgentRun) : Prop :=
  rs_Purpose (run_Spec r) = AgentRunPurposeChained
  ∧ rs_SourceRef (run_Spec r)
    = mkAgentRunSourceRef GroupVersion "AgentChain" (chain_Namespace chain) (chain_Name chain)
  ∧ rs_SourceUID (run_Spec r) = chain_UID chain
  ∧ ¬ ended (run_Phase r).

(** The code takes exactly these for its own. *)
Lemma ownedNonterminal_exact chain r : ownedNonterminal chain r = true ↔ unfinishedRun chain r.
Proof.
  unfold ownedNonterminal, unfinishedRun, sourceIs. rewrite <- phase_ended, !andb_true_iff, !bool_decide_eq_true.
  rewrite negb_true_iff, <- not_true_iff_false. destruct (rs_SourceRef (run_Spec r)) as [v kd ns n]. cbn.
  split; [intros ((? & ?) & (((-> & ->) & ->) & ->) & ?); done|]. intros (? & [= -> -> -> ->] & ? & ?). done.
Qed.

Lemma unfinishedRun_core chain r r' : runCore r = runCore r' → unfinishedRun chain r → unfinishedRun chain r'.
Proof. intros [= _ _ _ _ _ _ Hs Hst]. unfold unfinishedRun, run_Phase. by rewrite Hs, Hst. Qed.

(** Two chains of the same identity own the same runs. *)
Definition sameChain (c c' : AgentChain) : Prop :=
  chain_key c' = chain_key c ∧ chain_UID c' = chain_UID c.

Lemma ownedNonterminal_same c c' r :
  sameChain c c' → ownedNonterminal c' r = ownedNonterminal c r.
Proof. intros [[= Hns Hn] Hu]. unfold ownedNonterminal, sourceIs. by rewrite Hns, Hn, Hu. Qed.

Lemma chainChildName_same c c' i s : sameChain c c' → chainChildName c' i s = chainChildName c i s.
Proof. intros [[= Hns Hn] Hu]. unfold chainChildName. by rewrite Hn, Hu. Qed.

(** ** The invariant *)

Section invariant.
Context (c0 : AgentChain).

(** A nonterminal run of the chain, in the namespace of the chain. *)
Definition owns (m : gmap key AgentRun) (k : key) : Prop :=
  k.1 = chain_Namespace c0 ∧ ∃ r, m !! k = Some r ∧ unfinishedRun c0 r.

(** A step of the chain in flight: a nonterminal run of the chain whose spec records
    the workflow it belongs to, as the runs that a chain creates do.  The peer that a
    run asks for copies the source of the run without the workflow. *)
Definition inFlight (m : gmap key AgentRun) (k : key) : Prop :=
  k.1 = chain_Namespace c0 ∧ ∃ r, m !! k = Some r ∧ unfinishedRun c0 r ∧ rs_SourceDigest (run_Spec r) ≠ "".

(** The run a status records as active. *)
Definition activeKey (s : AgentChainStatus) : option key :=
  (λ ref, (chain_Namespace c0, ref_Name ref)) <$> cst_ActiveRunRef s.

(** The child an advance from the active step of [steps] creates. *)
Definition successorKey (steps : list AgentChainStepSpec) (s : AgentChainStatus) (k : key) : Prop :=
  ∃ i t, fst <$> list_find (λ step, step_Name step = TrimSpace (cst_ActiveStep s)) steps = Some i
    ∧ steps !! S i = Some t
    ∧ k = (chain_Namespace c0, chainChildName c0 (cst_ActiveInstanceID s) (step_Name t)).

(** The workflows the chain has had: digest and steps of each. *)
Definition History := list (string * list AgentChainStepSpec).
Definition collisionFree (hist : History) : Prop :=
  ∀ d s1 s2, (d, s1) ∈ hist → (d, s2) ∈ hist → s1 = s2.

Record forbid (hist : History) (m : gmap key AgentRun) (s : AgentChainStatus) : Prop := {
  fb_unique : ∀ k k', inFlight m k → inFlight m k' → k = k';
  fb_active : cst_ActiveInstanceID s ≠ "" → ∀ k, inFlight m k →
    activeKey s = Some k
    ∨ ∃ steps, (cst_ActiveWorkflowDigest s, steps) ∈ hist ∧ successorKey steps s k }.

(** The parts of a status the invariant reads. *)
Definition sameActive (s s' : AgentChainStatus) : Prop :=
  cst_ActiveInstanceID s' = cst_ActiveInstanceID s ∧ cst_ActiveStep s' = cst_ActiveStep s
  ∧ cst_ActiveRunRef s' = cst_ActiveRunRef s
  ∧ cst_ActiveWorkflowDigest s' = cst_ActiveWorkflowDigest s.

Lemma sameActive_trans s s' s'' : sameActive s s' → sameActive s' s'' → sameActive s s''.
Proof. unfold sameActive. intuition congruence. Qed.

Lemma forbid_sameActive hist m s s' : sameActive s s' → forbid hist m s → forbid hist m s'.
Proof.
  intros (H1 & H2 & H3 & H4) [Hu Ha]. split; [done|].
  unfold activeKey, successorKey in *. by rewrite H1, H2, H3, H4.
Qed.

Lemma forbid_inactive hist m s s' :
  cst_ActiveInstanceID s' = "" → forbid hist m s → forbid hist m s'.
Proof. intros He [Hu _]. split; [done|]. by rewrite He. Qed.

Lemma inFlight_core m m' k : runCore <$> m = runCore <$> m' → inFlight m k → inFlight m' k.
Proof.
  intros Hm (Hns & r & Hr & Ho). split; [done|].
  assert ((runCore <$> m') !! k = Some (runCore r)) as Hr' by (by rewrite <- Hm, lookup_fmap, Hr).
  rewrite lookup_fmap in Hr'. apply fmap_Some in Hr' as (r' & Hr' & Hc).
  exists r'. destruct Ho as [Ho Hd]. split_and!; [done|by apply (unfinishedRun_core _ r)|].
  by injection Hc as _ _ _ _ _ _ <- _.
Qed.

Lemma forbid_core hist m m' s :
  runCore <$> m = runCore <$> m' → forbid hist m s → forbid hist m' s.
Proof.
  intros Hm [Hu Ha]. split.
  - intros k k' Hk Hk'. apply Hu; by eapply inFlight_core.
  - intros Hi k Hk. apply Ha; [done|]. by eapply inFlight_core.
Qed.

Lemma inFlight_insert m k r k' : inFlight (<[k := r]> m) k' → k' = k ∨ inFlight m k'.
Proof.
  intros (Hns & r' & Hr & Ho). destruct (decide (k' = k)) as [->|Hne]; [by left|].
  rewrite lookup_insert_ne in Hr by done. right. split; [done|]. by exists r'.
Qed.

(** Nothing was in flight before the insertion, so only the new run is after. *)
Lemma forbid_insert hist m k r s :
  (∀ k', ¬ inFlight m k') →
  (cst_ActiveInstanceID s ≠ "" →
     activeKey s = Some k ∨ ∃ steps, (cst_ActiveWorkflowDigest s, steps) ∈ hist
       ∧ successorKey steps s k) →
  forbid hist (<[k := r]> m) s.
Proof.
  intros Hn Hs. split.
  - intros k1 k2 [->|Hk1]%inFlight_insert [->|Hk2]%inFlight_insert; [done|..]; by edestruct Hn.
  - intros Hi k' [->|Hk]%inFlight_insert; [by apply Hs|by edestruct Hn].
Qed.
End invariant.

#[export] Hint Resolve forbid_sameActive forbid_inactive : anvil.

(** ** The reconciler preserves the invariant *)

Section reconcile.
Context {W : Type} `{HC : Client W} `{HL : !ClientLaws W} `{HK : Conditions}.
Context `{HS : Marshal ChainSnapshot} `{HR : Marshal AgentRunSpec}.
Context (c0 : AgentChain) (hist : History).

Definition runsOf (w : W) : gmap key AgentRun := v_runs (view w).
Definition chainAt (w : W) : option AgentChain := v_chains (view w) !! chain_key c0.

(** A chain of this identity whose workflow is on record. *)
Definition onRecord (c : AgentChain) : Prop :=
  sameChain c0 c ∧ (agentChainWorkflowDigest c, cs_Steps (chain_Spec c)) ∈ hist.

Definition inv (w : W) : Prop :=
  match chainAt w with
  | None => ∀ k k', inFlight c0 (runsOf w) k → inFlight c0 (runsOf w) k' → k = k'
  | Some c => onRecord c ∧ forbid c0 hist (runsOf w) (chain_Status c)
  end.

(** The state while the chain read at the start, [obj], is being handled. *)
Definition handling (obj : AgentChain) (w : W) : Prop :=
  chainAt w = Some obj ∧ onRecord obj ∧ forbid c0 hist (runsOf w) (chain_Status obj).

Lemma handling_inv obj w : handling obj w → inv w.
Proof. intros (Hc & Ho & Hf). unfold inv. by rewrite Hc. Qed.

Definition unchanged (w w' : W) : Prop :=
  runCore <$> runsOf w = runCore <$> runsOf w' ∧ v_chains (view w') = v_chains (view w).

Lemma unchanged_refl w : unchanged w w.
Proof. done. Qed.

Lemma handling_unchanged obj w w' : unchanged w w' → handling obj w → handling obj w'.
Proof.
  intros [Hr Hc] (Ha & Ho & Hf). split; [|split; [done|by eapply forbid_core]].
  unfold chainAt in *. by rewrite Hc.
Qed.

Lemma onRecord_ext c c' :
  sameChain c c' → chain_Labels c' = chain_Labels c → chain_Spec c' = chain_Spec c →
  onRecord c → onRecord c'.
Proof.
  intros [Hk Hu] Hl Hs [[Hk0 Hu0] Hin]. split; [split; congruence|].
  unfold agentChainWorkflowDigest, agentChainSnapshot in *. by rewrite Hl, Hs.
Qed.

Lemma wp_patchStatus obj s d w :
  handling obj w → forbid c0 hist (runsOf w) s →
  wp (patchAgentChainStatus obj s d) (λ _ w', inv w') w.
Proof.
  intros Hh Hs. apply wp_bind, wp_try. unfold wp at 1.
  destruct (patchChainStatus (chain_key obj) s w) as [w' x] eqn:E; simpl.
  assert (inv w') as Hi.
  { destruct Hh as (Hc & Ho & Hf). assert (chain_key obj = chain_key c0) as Hk by apply Ho.
    assert (runsOf w' = runsOf w) as Hr by (by eapply patchChainStatus_runs).
    unfold inv, chainAt in *. rewrite Hr. rewrite Hk in E.
    destruct (patchChainStatus_any _ _ _ _ _ E) as [->|(c & rv & Hc' & ->)]; [by rewrite Hc|].
    rewrite Hc in Hc'. injection Hc' as <-. split; [|done]. by apply (onRecord_ext obj). }
  destruct x as [err|[]].
  - destruct (IsConflict err); [by apply wp_ret|by apply wp_fail].
  - destruct (0 <? d); by apply wp_ret.
Qed.

(** *** Listing and detaching runs *)

Lemma patchOwners_unchanged k os w w' x : patchRunOwners k os w = (w', x) → unchanged w w'.
Proof.
  unfold unchanged, runsOf.
  intros [->|(r & r' & Hr & -> & Hk & Hu & Hl & Ha & Ht & Hs & Hst)]%patchRunOwners_view; [done|].
  split; [|done]. simpl. rewrite fmap_insert.
  rewrite insert_id; [done|]. rewrite lookup_fmap, Hr. simpl. unfold runCore. congruence.
Qed.

Lemma unchanged_trans w w' w'' : unchanged w w' → unchanged w' w'' → unchanged w w''.
Proof. intros [H1 H2] [H3 H4]. split; congruence. Qed.

Lemma wp_agentChainRuns chain now w :
  wp (agentChainRuns chain now) (λ _ w', unchanged w w') w.
Proof.
  apply wp_bind, wp_try, wp_read.
  destruct (listRuns _ _ w) as [e|items]; [by apply wp_fail|].
  apply wp_bind. eapply wp_mono.
  - apply (wp_foreach _ (unchanged w)); [apply unchanged_refl|].
    intros acc run w1 Hw1. unfold chainRunsStep. case_bool_decide; [by apply wp_ret|].
    destruct (detachAgentRunControllerOwner _ _ _ _ _) as [removed run'].
    apply wp_bind. destruct removed; [|by apply wp_ret].
    apply wp_bind, wp_try. unfold wp at 1.
    destruct (patchRunOwners _ _ w1) as [w2 x] eqn:E; simpl.
    assert (unchanged w w2) by (eapply unchanged_trans; [done|by eapply patchOwners_unchanged]).
    destruct x; [by apply wp_fail|by apply wp_ret, wp_ret].
  - intros [e|acc] w' Hw'; [done|by apply wp_ret].
Qed.

(** *** Creating a child *)

Definition childKey (chain : AgentChain) (instanceID step : string) : key :=
  (chain_Namespace chain, chainChildName chain instanceID step).

(** The runs after a create of the child [k]: as before, or with a new [k]. *)
Definition createdAt (k : key) (w w' : W) : Prop :=
  v_chains (view w') = v_chains (view w)
  ∧ (runsOf w' = runsOf w
     ∨ runsOf w !! k = None ∧ ∃ r, runsOf w' = <[k := r]> (runsOf w)).

Lemma wp_createChained chain app inst gen digest step priors detected reason message w :
  wp (createChainedAgentRun chain app inst gen digest step priors detected reason message)
    (λ x w', createdAt (childKey chain inst (step_Name step)) w w'
       ∧ ∀ run, x = inr run → run_key run = childKey chain inst (step_Name step)) w.
Proof.
  unfold createChainedAgentRun.
  destruct (chainedSpec _ _ _ _ _ _ _ _ _) as [e|spec].
  { apply wp_fail. split; [|done]. split; [done|by left]. }
  set (k := childKey chain inst (step_Name step)).
  set (sent := chainedRun _ _ _ _ _ _). assert (run_key sent = k) as Hk by done.
  apply wp_bind, wp_try. unfold wp at 1.
  destruct (createRun sent w) as [w' x] eqn:E; simpl. destruct x as [err|run].
  - assert (createdAt k w w') as Hc.
    { destruct (createRun_err _ _ _ _ E) as [Hv|(_ & Hn & r' & _ & Hv)].
      - unfold createdAt, runsOf. rewrite Hv. split; [done|by left].
      - unfold createdAt, runsOf. rewrite Hv, Hk in *. simpl. split; [done|]. right. eauto. }
    destruct (negb (IsAlreadyExists err)); [by apply wp_fail|].
    apply wp_bind, wp_read.
    destruct (getRun _ _ w') as [e|run] eqn:Eg; [done|].
    apply getRun_ok, view_key in Eg. change (run_key run = k) in Eg.
    repeat (case_match; [by apply wp_fail|]). apply wp_ret. split; [done|]. by intros ? [= <-].
  - apply wp_ret. destruct (createRun_ok _ _ _ _ E) as (Hn & Hf & Hv).
    unfold createdAt, runsOf. rewrite Hv, Hk in *. simpl. split; [split; [done|]; right; eauto|].
    intros ? [= <-]. by rewrite (cf_key _ _ Hf).
Qed.

Lemma createdAt_chainAt k w w' : createdAt k w w' → chainAt w' = chainAt w.
Proof. intros [Hc _]. unfold chainAt. by rewrite Hc. Qed.

(** What holds of any status whose active run is [k], or is not active, after
    nothing but [k] can be in flight. *)
Lemma createdAt_forbid k w w' s :
  createdAt k w w' → (∀ k', inFlight c0 (runsOf w) k' → k' = k) →
  (cst_ActiveInstanceID s ≠ "" →
     activeKey c0 s = Some k ∨ ∃ steps, (cst_ActiveWorkflowDigest s, steps) ∈ hist
       ∧ successorKey c0 steps s k) →
  forbid c0 hist (runsOf w') s.
Proof.
  intros [_ [Hr|(Hn & r & Hr)]] Hk Hs; rewrite Hr.
  - split.
    + intros k1 k2 H1%Hk H2%Hk. congruence.
    + intros Hi k' H1%Hk. subst k'. by apply Hs.
  - apply forbid_insert; [|done]. intros k' Ho. pose proof (Hk _ Ho) as ->.
    destruct Ho as (_ & r' & Hr' & _). by rewrite Hn in Hr'.
Qed.

(** *** The active run *)

Lemma activeRun_at obj s w current :
  sameChain c0 obj → agentChainActiveRun obj s w = inr current →
  ∃ k, activeKey c0 s = Some k ∧ runsOf w !! k = Some current.
Proof.
  intros [[= Hns _] _]. unfold agentChainActiveRun, activeKey.
  destruct (cst_ActiveRunRef s) as [ref|]; [|done]. unfold agentChainRunByRef.
  destruct (blank (ref_Name ref)); [done|].
  case_bool_decide as Hn; [done|]. rewrite Hn.
  destruct (getRun _ _ w) as [|run] eqn:Eg; [done|]. intros Hc.
  exists (chain_Namespace c0, ref_Name ref). split; [done|].
  rewrite Hns in Eg. apply getRun_ok in Eg. etransitivity; [exact Eg|]. f_equal.
  destruct (_ && _); [done|]. destruct (resolveAgentChainApplicationName obj); [done|].
  destruct (_ || _); [done|]. destruct (mapMismatch _ _); [done|]. by injection Hc.
Qed.

Lemma activeRun_terminal obj s w current k :
  sameChain c0 obj → agentChainActiveRun obj s w = inr current →
  agentRunPhaseTerminal (run_Phase current) = true →
  activeKey c0 s = Some k → ¬ inFlight c0 (runsOf w) k.
Proof.
  intros Hc Ha Ht Hk (_ & r & Hr & Ho & _). destruct (activeRun_at _ _ _ _ Hc Ha) as (k' & Hk' & Hr').
  rewrite Hk in Hk'. injection Hk' as <-. rewrite Hr in Hr'. injection Hr' as ->.
  by apply Ho, phase_ended.
Qed.

(** The postcondition of handling an active instance. *)
Definition handled (obj : AgentChain) (x : GoErr + (AgentChainStatus * bool * Duration)) (w : W) : Prop :=
  match x with
  | inl _ => inv w
  | inr (s, advanced, requeue) =>
      handling obj w ∧ forbid c0 hist (runsOf w) s
      ∧ (advanced || (0 <? requeue) = false → cst_ActiveInstanceID s ≠ "")
  end.

Lemma handled_same obj s s' advanced requeue w :
  handling obj w → forbid c0 hist (runsOf w) s → cst_ActiveInstanceID s ≠ "" → sameActive s s' →
  handled obj (inr (s', advanced, requeue)) w.
Proof.
  intros Hh Hf Hi Hs. split; [done|]. split; [by eapply forbid_sameActive|].
  intros _. destruct Hs as [-> _]. done.
Qed.

Lemma handled_ended obj s s' w :
  handling obj w → forbid c0 hist (runsOf w) s → cst_ActiveInstanceID s' = "" →
  handled obj (inr (s', true, agentChainPollInterval)) w.
Proof.
  intros Hh Hf He. split; [done|]. split; [by eapply forbid_inactive|done].
Qed.

Lemma backoff_active chain s run now :
  cst_ActiveInstanceID (agentChainApplyTerminalBackoffDeadline chain s run now)
  = cst_ActiveInstanceID s.
Proof. unfold agentChainApplyTerminalBackoffDeadline. by repeat case_match. Qed.

Context (Hfree : collisionFree hist).

Lemma wp_advance obj now app s i step next current w :
  handling obj w → forbid c0 hist (runsOf w) s →
  sameActive (chain_Status obj) s → cst_ActiveInstanceID s ≠ "" →
  cst_ActiveWorkflowDigest s = agentChainWorkflowDigest obj →
  agentChainStepIndex obj (cst_ActiveStep s) = Some i →
  cs_Steps (chain_Spec obj) !! S i = Some next →
  agentChainActiveRun obj s w = inr current →
  agentRunPhaseTerminal (run_Phase current) = true →
  wp (advanceInstance obj now app s step next current) (handled obj) w.
Proof.
  intros Hh Hf Hsame Hi Hd Hidx Hnext Hact Hterm.
  pose proof Hh as (Hc & [Hid Hin] & _). unfold advanceInstance. apply wp_bind, wp_pure.
  destruct (collectPriors _ _ _ _ w) as [[failed err]|priors].
  { apply wp_ret. by apply (handled_same _ s). }
  set (k := childKey obj (cst_ActiveInstanceID s) (step_Name next)).
  assert (successorKey c0 (cs_Steps (chain_Spec obj)) s k) as Hsucc.
  { exists i, next. split; [done|]. split; [done|]. unfold k, childKey.
    rewrite (chainChildName_same c0 obj) by done. destruct Hid as [[= -> _] _]. done. }
  assert (∀ k', inFlight c0 (runsOf w) k' → k' = k) as Honly.
  { intros k' Ho. destruct (fb_active _ _ _ _ Hf Hi k' Ho) as [Ha|(steps & Hst & Hk')].
    - by destruct (activeRun_terminal _ _ _ _ _ Hid Hact Hterm Ha).
    - rewrite Hd in Hst. rewrite (Hfree _ _ _ Hst Hin) in Hk'.
      destruct Hk' as (j & t & Hj & Ht & ->), Hsucc as (j' & t' & Hj' & Ht' & ->). congruence. }
  apply wp_bind. eapply wp_mono; [apply wp_createChained|].
  intros x w' [Hcr Hk]. fold k in Hcr, Hk.
  assert (handling obj w') as Hh'.
  { split; [by rewrite (createdAt_chainAt _ _ _ Hcr)|]. split; [done|].
    eapply forbid_sameActive; [|apply (createdAt_forbid k w w' s); [done|done|]].
    2:{ intros _. right. exists (cs_Steps (chain_Spec obj)). by rewrite Hd. }
    destruct Hsame as (H1 & H2 & H3 & H4). by repeat split. }
  destruct x as [e|run]; [by apply handling_inv in Hh'|]. apply wp_ret. split; [done|].
  split; [|done]. apply (createdAt_forbid k w w'); [done|done|]. intros _. left.
  unfold activeKey, runRef. simpl. specialize (Hk run eq_refl). unfold k, childKey, run_key in Hk.
  injection Hk as _ ->. unfold k, childKey. destruct Hid as [[= -> _] _]. done.
Qed.

Lemma wp_settle obj now app s i step current w :
  handling obj w → forbid c0 hist (runsOf w) s →
  sameActive (chain_Status obj) s → cst_ActiveInstanceID s ≠ "" →
  cst_ActiveWorkflowDigest s = agentChainWorkflowDigest obj →
  agentChainStepIndex obj (cst_ActiveStep s) = Some i →
  agentChainActiveRun obj s w = inr current →
  agentRunPhaseTerminal (run_Phase current) = true →
  wp (settleStep obj now app s i step current) (handled obj) w.
Proof.
  intros Hh Hf Hsame Hi Hd Hidx Hact Hterm. unfold settleStep.
  case_bool_decide.
  { apply wp_ret, (handled_ended _ s); [done|done|]. simpl. by rewrite backoff_active. }
  destruct (cs_Steps (chain_Spec obj) !! S i) as [next|] eqn:En.
  - destruct (negb _).
    + apply wp_ret, (handled_ended _ s); [done|done|]. simpl. by rewrite backoff_active.
    + by eapply wp_advance.
  - apply wp_ret, (handled_ended _ s); [done|done|]. unfold finishInstance.
    destruct (agentChainCompletionMatches _ _); simpl; [done|by rewrite backoff_active].
Qed.

Lemma wp_active obj s app now w :
  handling obj w → forbid c0 hist (runsOf w) s →
  sameActive (chain_Status obj) s → cst_ActiveInstanceID s ≠ "" →
  wp (reconcileActiveInstance obj s app now) (handled obj) w.
Proof.
  intros Hh Hf Hsame Hi. unfold reconcileActiveInstance.
  assert (∀ reason err rq, handled obj (inr (blockedStatus obj now reason err s, false, rq)) w) as Hblk.
  { intros. by apply (handled_same _ s). }
  destruct (_ || _); [by apply wp_ret|].
  case_bool_decide as Hd; [by apply wp_ret|].
  destruct (agentChainStepIndex obj (cst_ActiveStep s)) as [i|] eqn:Ei; [|by apply wp_ret].
  apply wp_bind, wp_try, wp_read.
  destruct (agentChainActiveRun obj s w) as [err|current] eqn:Ea; [by apply wp_ret|].
  destruct (negb _) eqn:Et; [by apply wp_ret, (handled_same _ s)|]. apply negb_false_iff in Et.
  destruct (cs_Steps (chain_Spec obj) !! i) as [step|]; [|by apply wp_fail, (handling_inv obj)].
  apply (wp_settle obj now app (s <| cst_StepRuns := agentChainUpsertStepRun (cst_StepRuns s)
           (stepRunStatus s (cst_ActiveStep s) current) |>)); try done.
  by apply (forbid_sameActive c0 _ _ s).
Qed.

(** *** Starting *)

Lemma wp_launch obj now s app runs manual token dueAt w :
  handling obj w → cst_ActiveInstanceID (chain_Status obj) = "" →
  (∀ k, ¬ inFlight c0 (runsOf w) k) → sameActive (chain_Status obj) s →
  wp (launchInstance obj now s app runs manual token dueAt) (λ _ w', inv w') w.
Proof.
  intros Hh Hi Hnone Hsame. pose proof Hh as (Hc & Hrec & Hf). pose proof (proj1 Hrec) as Hid. unfold launchInstance.
  case_bool_decide; [by apply wp_fail, (handling_inv obj)|].
  destruct (firstBad _ 0 runs) as [[]|].
  { apply wp_patchStatus; [done|]. by apply (forbid_sameActive c0 _ _ (chain_Status obj)). }
  destruct (cs_Steps (chain_Spec obj)) as [|first rest]; [by apply wp_fail, (handling_inv obj)|].
  set (inst := agentChainInstanceID _ _ _ _). set (k := childKey obj inst (step_Name first)).
  apply wp_bind. eapply wp_mono; [apply wp_createChained|].
  intros x w' [Hcr Hk]. fold inst k in Hcr, Hk.
  assert (∀ k', inFlight c0 (runsOf w) k' → k' = k) as Honly by (intros k' Ho; by destruct (Hnone k')).
  assert (handling obj w') as Hh'.
  { split; [by rewrite (createdAt_chainAt _ _ _ Hcr)|]. split; [done|].
    apply (createdAt_forbid k w w'); [done|done|by rewrite Hi]. }
  destruct x as [e|run]; [by apply (handling_inv obj)|]. specialize (Hk run eq_refl).
  apply wp_bind. eapply wp_mono; [apply wp_agentChainRuns|].
  intros [e|counted] w'' Hun; [by apply (handling_inv obj), (handling_unchanged obj w' w'')|].
  apply wp_patchStatus; [by eapply handling_unchanged|].
  eapply forbid_core; [apply Hun|]. apply (createdAt_forbid k w w'); [done|done|]. intros _. left.
  assert (activeKey c0 ((chain_Status obj) <| cst_ActiveRunRef := runRef run |>) = Some k) as Hact.
  { unfold activeKey. simpl. unfold k, childKey, run_key in *. injection Hk as _ ->.
    destruct Hid as [[= -> _] _]. done. }
  rewrite <- Hact. unfold activeKey. by repeat case_match.
Qed.

Lemma wp_start obj now s app runs today w :
  handling obj w → cst_ActiveInstanceID (chain_Status obj) = "" →
  (∀ k, ¬ inFlight c0 (runsOf w) k) → sameActive (chain_Status obj) s →
  wp (startInstance obj now s app runs today) (λ _ w', inv w') w.
Proof.
  intros Hh Hi Hnone Hsame. pose proof Hh as (_ & _ & Hf). unfold startInstance.
  destruct (agentChainNextStartTime obj s now) as [e|nextStart];
    [by apply wp_fail, (handling_inv obj)|].
  destruct (negb (_ || _)).
  { apply wp_patchStatus; [done|]. by apply (forbid_sameActive c0 _ _ (chain_Status obj)). }
  destruct (_ && negb _).
  { apply wp_patchStatus; [done|]. by apply (forbid_sameActive c0 _ _ (chain_Status obj)). }
  destruct (if _ : bool then None else _) as [until|].
  { apply wp_patchStatus; [done|]. by apply (forbid_sameActive c0 _ _ (chain_Status obj)). }
  destruct (agentChainStartDueAt _ _ _ _) as [e|dueAt]; [by apply wp_fail, (handling_inv obj)|].
  by apply wp_launch.
Qed.

(** *** Recovery *)

Lemma ownedRuns_exact obj w l :
  sameChain c0 obj → agentChainOwnedNonterminalRuns obj w = inr l →
  ∀ k, owns c0 (runsOf w) k ↔ ∃ r, r ∈ l ∧ run_key r = k.
Proof.
  intros Hid. unfold agentChainOwnedNonterminalRuns.
  destruct (listRuns _ _ w) as [e|items] eqn:El; [done|]. intros [= <-] k. split.
  - intros (Hns & r & Hr & Ho). pose proof (view_key _ _ _ Hr) as Hk. exists r. split; [|done].
    apply list_elem_of_filter. rewrite (ownedNonterminal_same c0) by done. split; [by apply ownedNonterminal_exact|].
    apply (listRuns_ok _ _ _ _ _ El). rewrite Hk. split; [exact Hr|]. split; [|done].
    intros n [= <-]. destruct Hid as [[= Hns' _] _]. rewrite Hns', <- Hns, <- Hk. done.
  - intros (r & [Ho Hin]%list_elem_of_filter & Hk).
    apply (listRuns_ok _ _ _ _ _ El) in Hin as [Hr [Hns _]].
    rewrite (ownedNonterminal_same c0), ownedNonterminal_exact in Ho by done. split.
    + rewrite <- Hk. destruct Hid as [[= <- _] _]. by apply Hns.
    + exists r. by rewrite <- Hk.
Qed.

Lemma inFlight_owns m k : inFlight c0 m k → owns c0 m k.
Proof. intros (Hns & r & Hr & Ho & _). split; [done|by exists r]. Qed.

Lemma recover_forbid obj now s w :
  sameChain c0 obj → forbid c0 hist (runsOf w) s →
  match recoverActive obj now s w with
  | inl _ => True
  | inr (Some s') => forbid c0 hist (runsOf w) s'
  | inr None => cst_ActiveInstanceID s = "" → ∀ k, ¬ inFlight c0 (runsOf w) k
  end.
Proof.
  intros Hid Hf. unfold recoverActive. case_bool_decide as Hi; [done|].
  destruct (agentChainOwnedNonterminalRuns obj w) as [e|l] eqn:El; [done|].
  pose proof (ownedRuns_exact _ _ _ Hid El) as Hl.
  destruct l as [|r [|r2 l]].
  - intros _ k (x & Hx & _)%inFlight_owns%Hl. by apply elem_of_nil in Hx.
  - destruct (validateAgentChainRecoverableRun obj r); [by apply (forbid_sameActive c0 _ _ s)|].
    assert (∀ k, inFlight c0 (runsOf w) k → k = run_key r) as Honly.
    { intros k (x & ->%list_elem_of_singleton & <-)%inFlight_owns%Hl. done. }
    split; [intros k k' ?%Honly ?%Honly; congruence|].
    intros _ k Ho. left. pose proof (proj1 Ho) as Hns. rewrite (Honly k Ho) in *.
    assert (activeKey c0 (adoptActive obj now s r) = Some (chain_Namespace c0, run_Name r)) as ->.
    { unfold activeKey, adoptActive. by repeat case_match. }
    rewrite <- Hns. by destruct r.
  - by apply (forbid_sameActive c0 _ _ s).
Qed.

Lemma requestCancel_same obj now s :
  match requestCancel obj now s with inl s' | inr s' => sameActive s s' end.
Proof. unfold requestCancel. destruct (_ && _); [destruct (_ && _)|]; done. Qed.

Lemma continueCancel_forbid obj now s w s' :
  forbid c0 hist (runsOf w) s → continueCancel obj now s w = Some s' →
  forbid c0 hist (runsOf w) s'.
Proof.
  intros Hf. unfold continueCancel. destruct (_ && _); [|done].
  destruct (agentChainActiveRun obj s w) as [e|run]; [|destruct (negb _)]; intros [= <-].
  - by apply (forbid_sameActive c0 _ _ s).
  - by apply (forbid_sameActive c0 _ _ s).
  - by apply (forbid_inactive c0 _ _ s).
Qed.

(** *** Reconcile *)

Lemma wp_instances obj now s app w :
  handling obj w → sameActive (chain_Status obj) s →
  wp (reconcileInstances obj now s app) (λ _ w', inv w') w.
Proof.
  intros Hh0 Hsame. unfold reconcileInstances. apply wp_bind.
  eapply wp_mono; [apply wp_agentChainRuns|]. intros x w1 Hun.
  pose proof (handling_unchanged _ _ _ Hun Hh0) as Hh. clear Hun Hh0.
  destruct x as [e|[runs today]]; [by apply (handling_inv obj)|].
  set (s1 := s <| cst_InstancesToday := today |>).
  pose proof Hh as (_ & [Hid _] & Hf0).
  assert (forbid c0 hist (runsOf w1) s1) as Hf
    by (by apply (forbid_sameActive c0 _ _ (chain_Status obj))).
  apply wp_bind, wp_read. pose proof (recover_forbid obj now s1 w1 Hid Hf) as Hrec.
  destruct (recoverActive obj now s1 w1) as [e|[s'|]]; [by apply (handling_inv obj)|by apply wp_patchStatus|].
  pose proof (requestCancel_same obj now s1) as Hreq.
  destruct (requestCancel obj now s1) as [s'|s2];
    [by apply wp_patchStatus; [|apply (forbid_sameActive c0 _ _ s1)]|].
  assert (forbid c0 hist (runsOf w1) s2) as Hf2 by (by apply (forbid_sameActive c0 _ _ s1)).
  assert (sameActive (chain_Status obj) s2) as Hsame2 by (by eapply sameActive_trans).
  apply wp_bind, wp_pure. destruct (continueCancel obj now s2 w1) as [s'|] eqn:Ec.
  { apply wp_patchStatus; [done|]. by eapply continueCancel_forbid. }
  case_bool_decide as Hi.
  - apply wp_bind. eapply wp_mono; [by apply wp_active|].
    intros [e|[[s3 advanced] requeue]] w2 Hd; [done|]. destruct Hd as (Hh2 & Hf3 & Hact).
    destruct (advanced || (0 <? requeue)); [by apply wp_patchStatus|].
    rewrite bool_decide_eq_true_2 by auto. by apply wp_patchStatus.
  - apply wp_start; [done| | |done].
    + destruct Hsame2 as [<- _]. done.
    + apply Hrec. destruct Hreq as [<- _]. done.
Qed.

Lemma wp_gated obj now w :
  handling obj w → wp (reconcileGated obj now) (λ _ w', inv w') w.
Proof.
  intros Hh. pose proof Hh as (_ & _ & Hf). unfold reconcileGated.
  assert (∀ s', sameActive (chain_Status obj) s' → ∀ d,
    wp (patchAgentChainStatus obj s' d) (λ _ w', inv w') w) as Hpatch.
  { intros s' Hs d. apply wp_patchStatus; [done|]. by apply (forbid_sameActive c0 _ _ (chain_Status obj)). }
  destruct (validateAgentChainSpec obj); [by apply Hpatch|].
  destruct (cs_Suspend _); [by apply Hpatch|].
  destruct (resolveAgentChainApplicationName obj) as [e|app]; [by apply Hpatch|].
  apply wp_bind. unfold wp at 1. rewrite pause_gate_read.
  destruct (activeAgentRunPauseForApplication app now w).2 as [e|[p|]];
    [by apply (handling_inv obj)|by apply Hpatch|by apply wp_instances].
Qed.

Lemma inv_finalizers k fs w w' x :
  inv w → k = chain_key c0 → patchChainFinalizers k fs w = (w', x) → inv w'.
Proof.
  intros Hi -> E. assert (runsOf w' = runsOf w) as Hr by (by eapply patchChainFinalizers_runs).
  unfold inv in *. rewrite Hr. destruct (chainAt w') as [c'|] eqn:Ec.
  - destruct (patchChainFinalizers_any _ _ _ _ _ _ E Ec) as (c & Hc & Hk & Hu & Hl & Hs & Hst).
    unfold chainAt in Hi. rewrite Hc in Hi. destruct Hi as [Ho Hf]. rewrite Hst.
    split; [|done]. by apply (onRecord_ext c).
  - destruct (chainAt w) as [c|]; [|done]. destruct Hi as [_ Hf]. apply Hf.
Qed.

Lemma wp_finalizers {A} k fs (f : GoErr + unit → M W GoErr A) w :
  inv w → k = chain_key c0 → (∀ x w, inv w → wp (f x) (λ _ w', inv w') w) →
  wp (mbnd (mtry (patchChainFinalizers k fs)) f) (λ _ w', inv w') w.
Proof.
  intros Hi Hk Hf. apply wp_bind, wp_try. unfold wp at 1.
  destruct (patchChainFinalizers k fs w) as [w' x] eqn:E. apply Hf. by eapply inv_finalizers.
Qed.

(** One reconciliation of the chain preserves the invariant. *)
Lemma reconcile_forbid now w :
  inv w → wp (reconcileChain (chain_Namespace c0) (chain_Name c0) now) (λ _ w', inv w') w.
Proof.
  intros Hi. unfold reconcileChain. apply wp_bind, wp_try, wp_read.
  destruct (getChain _ _ w) as [e|obj] eqn:Eg.
  { destruct (IsNotFound e); [by apply wp_ret|by apply wp_fail]. }
  apply getChain_ok in Eg. assert (chainAt w = Some obj) as Hc by exact Eg.
  assert (handling obj w) as Hh.
  { unfold inv in Hi. rewrite Hc in Hi. destruct Hi as [Ho Hf]. by split. }
  assert (chain_key obj = chain_key c0) as Hk by (by destruct Hh as (_ & [[? _] _] & _)).
  case_bool_decide.
  - unfold drainChain. destruct (negb _); [by apply wp_ret|]. apply wp_bind, wp_read.
    destruct (agentChainOwnedNonterminalRuns obj w) as [e|[|r l]]; [done| |by apply wp_ret].
    unfold removeAgentChainDrainFinalizer. apply wp_bind, wp_try, wp_read.
    injection Hk as -> ->.
    destruct (getChain _ _ w) as [e|c] eqn:Eg2.
    { destruct (IsNotFound e); [by apply wp_ret|by apply wp_fail]. }
    destruct (negb _); [by apply wp_ret|]. apply wp_finalizers; [done| |].
    + apply getChain_ok in Eg2. by apply view_chain_key in Eg2.
    + intros [e|[]] w' Hi'; [|by apply wp_ret].
      destruct (IsConflict e); [by apply wp_ret|by apply wp_fail].
  - destruct (negb _); [|by apply wp_gated]. apply wp_finalizers; [done|done|].
    intros [e|[]] w' Hi'; [|by apply wp_ret].
    destruct (IsConflict e); [by apply wp_ret|by apply wp_fail].
Qed.
End reconcile.
