(* ===== verification/ChainSystem.v ===== *)
(** * Chains: executions

    A chain in a cluster: reconciliations at any times with any answers of the
    API server, interleaved with everything else that happens to the chain and
    its runs between them.  The invariant of [ChainSafety] holds in every state
    reached, so a chain never has two steps in flight. *)

From stdpp Require Import base list gmap strings relations.
From Stdlib Require Import ZArith Lia.
From S2P Require Import Prelude GoStrings GoTime Names ApiRun ApiWork Kube MemKube Fixtures RunControl RunLaunch RunObserve ChainSpec ChainCore ChainReconcile ChainSafety.

Open Scope Z_scope.

Section system.
Context {W : Type} `{HC : Client W} `{HL : !ClientLaws W} `{HK : Conditions}.
Context `{HS : Marshal ChainSnapshot} `{HR : Marshal AgentRunSpec}.
Context (c0 : AgentChain).

(** A state of the cluster, with the workflows the chain has had so far. *)
Record State := mkState { st_world : W; st_hist : History }.

(** What others may do between reconciliations.  Runs start, finish and are
    deleted, and any other run may be created, a peer that a step asks for included
    (it has the source of the step and no workflow), but nobody else makes a run that
    claims to be a step of this chain, and a terminal step stays terminal.  The
    chain may be edited (a new workflow is recorded; two workflows of the chain
    never share a digest) and may disappear, but only the controller writes its
    status. *)
Record environment (s s' : State) : Prop := {
  env_runs : ∀ k, inFlight c0 (runsOf (st_world s')) k → inFlight c0 (runsOf (st_world s)) k;
  env_hist : collisionFree (st_hist s') ∧ ∀ e, e ∈ st_hist s → e ∈ st_hist s';
  env_chain : ∀ c', chainAt c0 (st_world s') = Some c' →
    ∃ c, chainAt c0 (st_world s) = Some c ∧ sameChain c c' ∧ chain_Status c' = chain_Status c
      ∧ (agentChainWorkflowDigest c', cs_Steps (chain_Spec c')) ∈ st_hist s' }.

(** One step: a reconciliation of the chain, or something else. *)
Inductive step : State → State → Prop :=
  | step_reconcile s now w' x :
      reconcileChain (chain_Namespace c0) (chain_Name c0) now (st_world s) = (w', x) →
      step s (mkState w' (st_hist s))
  | step_environment s s' : environment s s' → step s s'.

(** The chain as it was created: no instance, no runs. *)
Definition initial (s : State) : Prop :=
  chainAt c0 (st_world s) = Some c0 ∧ cst_ActiveInstanceID (chain_Status c0) = ""
  ∧ (∀ k, ¬ inFlight c0 (runsOf (st_world s)) k)
  ∧ st_hist s = [(agentChainWorkflowDigest c0, cs_Steps (chain_Spec c0))].

Definition invariant (s : State) : Prop :=
  collisionFree (st_hist s) ∧ inv c0 (st_hist s) (st_world s).

Lemma initial_invariant s : initial s → invariant s.
Proof.
  intros (Hc & Hi & Hn & Hh). split; rewrite ?Hh.
  - intros d s1 s2 H1 H2. set_solver.
  - unfold inv. rewrite Hc. split; [split; [done|set_solver]|].
    split; [intros k k' Hk; by destruct (Hn k)|by rewrite Hi].
Qed.

Lemma environment_invariant s s' : environment s s' → invariant s → invariant s'.
Proof.
  intros [Hruns [Hfree Hmono] Hchain] [_ Hinv]. split; [done|]. unfold inv in *.
  destruct (chainAt c0 (st_world s')) as [c'|] eqn:Ec.
  - destruct (Hchain c' eq_refl) as (c & Hc & Hsame & Hst & Hin). rewrite Hc in Hinv.
    destruct Hinv as [[[Hk Hu] _] [Huniq Hact]]. rewrite Hst. split.
    + split; [|done]. destruct Hsame as [Hk' Hu']. split; congruence.
    + split; [by auto|]. intros Hi k Hk1. destruct (Hact Hi k) as [?|(steps & Hs & Hsucc)];
        [by auto|by left|right; by eauto].
  - intros k k' H1%Hruns H2%Hruns. destruct (chainAt c0 (st_world s)); [|by auto].
    by apply Hinv.
Qed.

Lemma step_invariant s s' : step s s' → invariant s → invariant s'.
Proof.
  intros [s1 now w' x E|s1 s2 He]; [|by apply environment_invariant].
  intros [Hfree Hinv]. split; [done|]. simpl.
  eapply (wp_elim _ (λ _ w, inv c0 (st_hist s1) w)); [by apply reconcile_forbid|done].
Qed.

Lemma reachable_invariant s s' : initial s → rtc step s s' → invariant s'.
Proof.
  intros Hi%initial_invariant Hr. revert Hi.
  induction Hr as [|s1 s2 s3 Hs _ IH]; [done|]. intros H1. apply IH. by eapply step_invariant.
Qed.

(** C1: forbid holds in every execution.  Starting from a freshly created chain,
    after any interleaving of reconciliations (with creates whose response is
    lost, status patches that fail or are lost, retries) and of other activity
    (runs progressing and finishing, peers of steps, edits of the spec,
    cancellations, deletion), at most one step of the chain is nonterminal.  A step
    is a run of the chain that records its workflow, as every run that a chain
    creates does. *)
Theorem chain_never_overlaps s s' k k' r r' :
  initial s → rtc step s s' →
  runsOf (st_world s') !! k = Some r → runsOf (st_world s') !! k' = Some r' →
  run_Namespace r = chain_Namespace c0 → run_Namespace r' = chain_Namespace c0 →
  unfinishedRun c0 r → unfinishedRun c0 r' →
  rs_SourceDigest (run_Spec r) ≠ "" → rs_SourceDigest (run_Spec r') ≠ "" → k = k'.
Proof.
  intros Hi Hs Hr Hr' Hn Hn' Ho Ho' Hd Hd'.
  destruct (reachable_invariant s s' Hi Hs) as [_ Hinv].
  assert (inFlight c0 (runsOf (st_world s')) k) as Hk.
  { split; [|by exists r]. apply (view_key _ _ _) in Hr as <-. done. }
  assert (inFlight c0 (runsOf (st_world s')) k') as Hk'.
  { split; [|by exists r']. apply (view_key _ _ _) in Hr' as <-. done. }
  unfold inv in Hinv. destruct (chainAt c0 (st_world s')) as [c|]; [|by apply Hinv].
  by apply (fb_unique _ _ _ _ (proj2 Hinv)).
Qed.
End system.

(** The peer that a step asks for counts as a nonterminal run of the chain, which is
    not a step: it runs beside the steps, and it is taken for a run whose status was
    lost that cannot be recovered, so that the chain is held up when it is found
    between two instances. *)
Theorem peer_beside_steps chain r profile prompt :
  sourceIs chain r = true → rs_Purpose (run_Spec r) = AgentRunPurposeChained →
  ownedNonterminal chain (peerRun r profile prompt) = true
  ∧ rs_SourceDigest (run_Spec (peerRun r profile prompt)) = ""
  ∧ validateAgentChainRecoverableRun chain (peerRun r profile prompt) ≠ None.
Proof.
  intros Hs Hp. split_and!; [|done|done]. unfold ownedNonterminal, sourceIs in *. cbn. by rewrite Hp, Hs.
Qed.

(** ** Witnesses *)

#[local] Existing Instances fx_marshal_snapshot fx_marshal_spec.

Definition fx_release : AgentChain :=
  fx_chain <| chain_ObjectMeta := (chain_ObjectMeta fx_chain)
    <| meta_Finalizers := [agentChainDrainFinalizer] |> |>.
Definition fx_release_world : MemCluster := fx_cluster [] [fx_release] [] [].
Definition fx_release_start : State :=
  mkState fx_release_world [(agentChainWorkflowDigest fx_release, cs_Steps (chain_Spec fx_release))].
(** After the first reconciliation an hour later. *)
Definition fx_release_running : MemCluster :=
  fst (reconcileChain "agents" "release" (fx_epoch + 3600 * Second) fx_release_world).
Definition fx_release_run : AgentRun :=
  default zero_AgentRun (head (ok_list (listRuns None None fx_release_running))).
Definition fx_release_child : key :=
  childKey fx_release
    (agentChainInstanceID fx_release false "" (fx_epoch + 3600 * Second)) "build".

Lemma fx_release_initial : initial fx_release fx_release_start.
Proof.
  split; [vm_compute; reflexivity|]. split; [reflexivity|]. split; [|reflexivity].
  intros k (_ & r & Hr & _).
  assert (runsOf (st_world fx_release_start) = ∅) as He by (vm_compute; reflexivity).
  rewrite He in Hr. by rewrite lookup_empty in Hr.
Qed.

Lemma chain_never_overlaps_witness : run_key fx_release_run = fx_release_child.
Proof.
  apply (chain_never_overlaps fx_release fx_release_start
    (mkState fx_release_running (st_hist fx_release_start))
    (run_key fx_release_run) fx_release_child fx_release_run fx_release_run).
  - exact fx_release_initial.
  - apply rtc_once. eapply (step_reconcile fx_release fx_release_start (fx_epoch + 3600 * Second)).
    apply surjective_pairing.
  - vm_compute; reflexivity.
  - vm_compute; reflexivity.
  - vm_compute; reflexivity.
  - vm_compute; reflexivity.
  - apply ownedNonterminal_exact. vm_compute; reflexivity.
  - apply ownedNonterminal_exact. vm_compute; reflexivity.
  - vm_compute; discriminate.
  - vm_compute; discriminate.
Defined.
