(* ===== verification/ChainLaunch.v ===== *)
(** * Chains: why a run is launched

    The functional side of the reconciler: every run it creates is justified by
    the specification and by the state it was created in ([launch_justified]),
    a repeated create is recognised as the same run ([create_idempotent]), and a
    chain being deleted waits for its runs ([deletion_drains]).  Two examples at
    the end evaluate the reconciler where it does not do what it announces. *)

From stdpp Require Import base list gmap strings.
From Stdlib Require Import ZArith Lia.
From S2P Require Import Prelude GoStrings GoTime Names ApiRun ApiWork Kube MemKube Fixtures RunControl ChainSpec ChainCore ChainReconcile ChainSafety ChainSystem.

Open Scope Z_scope.

(** The parts of a status that freeze an active instance. *)
Definition sameFrozen (s s' : AgentChainStatus) : Prop :=
  sameActive s s' ∧ cst_ActiveRunUID s' = cst_ActiveRunUID s
  ∧ cst_ActiveSourceGeneration s' = cst_ActiveSourceGeneration s
  ∧ cst_CancelRequestedInstanceID s' = cst_CancelRequestedInstanceID s.

Section launch.
Context {W : Type} `{HC : Client W} `{HL : !ClientLaws W} `{HK : Conditions}.
Context `{HS : Marshal ChainSnapshot} `{HR : Marshal AgentRunSpec}.

(** The runs are the same up to owner references. *)
Definition quietly (w w' : W) : Prop := runCore <$> runsOf w = runCore <$> runsOf w'.

(** At most one run is created, for a reason [P]; nothing else happens to runs
    but a patch of owner references. *)
Definition launches (P : W → AgentRun → Prop) (w w' : W) : Prop :=
  quietly w w'
  ∨ ∃ w1 sent stored, quietly w w1 ∧ P w1 sent
     ∧ runsOf w1 !! run_key sent = None ∧ createdFrom sent stored
     ∧ runCore <$> runsOf w' = <[run_key sent := runCore stored]> (runCore <$> runsOf w1).

Lemma launches_mono (P P' : W → AgentRun → Prop) w w' :
  (∀ w1 r, P w1 r → P' w1 r) → launches P w w' → launches P' w w'.
Proof. intros Hp [?|(w1 & s & r & ? & ? & ?)]; [by left|right; by eauto 10]. Qed.

Lemma launches_quiet_l P w w1 w' : quietly w w1 → launches P w1 w' → launches P w w'.
Proof.
  unfold quietly. intros Hq [H1|(w2 & s & r & H1 & ?)]; [left; congruence|].
  right. exists w2, s, r. by split; [congruence|].
Qed.

Lemma launches_quiet_r P w w1 w' : launches P w w1 → quietly w1 w' → launches P w w'.
Proof.
  unfold quietly. intros [H1|(w2 & s & r & H1 & H2 & H3 & H4 & H5)] Hq; [left; congruence|].
  right. exists w2, s, r. by rewrite <- Hq.
Qed.

Lemma wp_patch_quiet obj s d w :
  wp (patchAgentChainStatus obj s d) (λ _ w', quietly w w') w.
Proof.
  apply wp_bind, wp_try. unfold wp at 1.
  destruct (patchChainStatus _ s w) as [w' x] eqn:E; simpl.
  assert (quietly w w') by (unfold quietly, runsOf; by rewrite (patchChainStatus_runs _ _ _ _ _ E)).
  destruct x as [err|[]]; [destruct (IsConflict err)|destruct (0 <? d)]; first [by apply wp_ret|by apply wp_fail].
Qed.

Lemma createRun_launches (P : W → AgentRun → Prop) sent w :
  P w sent → wp (createRun sent) (λ _ w', launches P w w') w.
Proof.
  intros Hsent. unfold wp. destruct (createRun sent w) as [w' x] eqn:E; simpl.
  assert (∀ r', v_runs (view w) !! run_key sent = None → createdFrom sent r' →
    view w' = (view w) <| v_runs := <[run_key sent := r']> (v_runs (view w)) |> →
    launches P w w') as Hnew.
  { intros r' Hn Hf Hv. right. exists w, sent, r'. do 4 (split; [done|]).
    unfold runsOf. rewrite Hv. simpl. apply fmap_insert. }
  destruct x as [err|run].
  - destruct (createRun_err _ _ _ _ E) as [Hv|(_ & Hn & r' & Hf & Hv)]; [|by eapply Hnew].
    left. unfold quietly, runsOf. by rewrite Hv.
  - destruct (createRun_ok _ _ _ _ E) as (Hn & Hf & Hv). by eapply Hnew.
Qed.

(** The reason for a run that [createChainedAgentRun] sends. *)
Definition sentAs (chain : AgentChain) (app inst digest : string) (gen : Z)
    (step : AgentChainStepSpec) (sent : AgentRun) : Prop :=
  ∃ priors detected reason message spec,
    chainedSpec chain app gen digest step priors detected reason message = inr spec
    ∧ sent = chainedRun chain app inst digest step spec.

Lemma wp_create_launches (P : W → AgentRun → Prop) chain app inst gen digest step priors detected
    reason message w :
  (∀ sent, sentAs chain app inst digest gen step sent → P w sent) →
  wp (createChainedAgentRun chain app inst gen digest step priors detected reason message)
    (λ _ w', launches P w w') w.
Proof.
  intros HP. unfold createChainedAgentRun.
  destruct (chainedSpec _ _ _ _ _ _ _ _ _) as [e|spec] eqn:Es; [by apply wp_fail; left|].
  set (sent := chainedRun _ _ _ _ _ _).
  assert (P w sent) as Hsent by (apply HP; repeat eexists; exact Es).
  apply wp_bind, wp_try. eapply wp_mono; [by apply createRun_launches|]. intros x w' Hl.
  destruct x as [err|run]; [|by apply wp_ret].
  destruct (negb _); [by apply wp_fail|]. apply wp_bind, wp_read.
  destruct (getRun _ _ w') as [e|run]; [done|].
  repeat (case_match; [by apply wp_fail|]). by apply wp_ret.
Qed.

(** The two reasons to create a run. *)
Inductive justified (obj : AgentChain) (w : W) : AgentRun → Prop :=
  | justified_start app inst first rest sent :
      cs_Steps (chain_Spec obj) = first :: rest →
      cst_ActiveInstanceID (chain_Status obj) = "" →
      agentChainOwnedNonterminalRuns obj w = inr [] →
      sentAs obj app inst (agentChainWorkflowDigest obj) (chain_Generation obj) first sent →
      justified obj w sent
  | justified_step app i prev step current sent :
      cst_ActiveInstanceID (chain_Status obj) ≠ "" →
      cst_CancelRequestedInstanceID (chain_Status obj) ≠ cst_ActiveInstanceID (chain_Status obj) →
      cst_ActiveWorkflowDigest (chain_Status obj) = agentChainWorkflowDigest obj →
      agentChainStepIndex obj (cst_ActiveStep (chain_Status obj)) = Some i →
      cs_Steps (chain_Spec obj) !! i = Some prev → cs_Steps (chain_Spec obj) !! S i = Some step →
      agentChainActiveRun obj (chain_Status obj) w = inr current →
      agentRunPhaseTerminal (run_Phase current) = true →
      run_Phase current ≠ AgentRunPhaseNeedsHuman →
      agentChainWhenMatches (step_When step) (step_Name prev) current = true →
      sentAs obj app (cst_ActiveInstanceID (chain_Status obj)) (agentChainWorkflowDigest obj)
        (cst_ActiveSourceGeneration (chain_Status obj)) step sent →
      justified obj w sent.

Lemma activeRun_frozen obj s s' w :
  sameFrozen s s' → agentChainActiveRun obj s' w = agentChainActiveRun obj s w.
Proof.
  intros ((Hi & Hst & Hr & Hd) & Hu & Hg & _).
  unfold agentChainActiveRun, agentChainRunByRef. by rewrite Hi, Hst, Hr, Hd, Hu, Hg.
Qed.

(** An instance that was neither advanced nor requeued is still active. *)
Definition stillActive (x : GoErr + (AgentChainStatus * bool * Duration)) : Prop :=
  match x with
  | inl _ => True
  | inr (s, advanced, requeue) => advanced || (0 <? requeue) = false → cst_ActiveInstanceID s ≠ ""
  end.

Lemma wp_active_launches obj s app now w :
  sameFrozen (chain_Status obj) s → cst_ActiveInstanceID s ≠ "" →
  cst_CancelRequestedInstanceID s ≠ cst_ActiveInstanceID s →
  wp (reconcileActiveInstance obj s app now)
    (λ x w', launches (justified obj) w w' ∧ stillActive x) w.
Proof.
  intros Hfz Hi Hcancel. pose proof Hfz as ((Ei & Est & Er & Ed) & Eu & Eg & Ec).
  assert (∀ x, stillActive x → launches (justified obj) w w ∧ stillActive x) as Hquiet
    by (by split; [left|]).
  unfold reconcileActiveInstance. destruct (_ || _); [apply wp_ret, Hquiet; first [done|exact (λ _, Hi)]|].
  case_bool_decide as Hd; [apply wp_ret, Hquiet; first [done|exact (λ _, Hi)]|].
  destruct (agentChainStepIndex obj _) as [i|] eqn:Eidx; [|apply wp_ret, Hquiet; first [done|exact (λ _, Hi)]].
  apply wp_bind, wp_try, wp_read. rewrite (activeRun_frozen obj _ _ _ Hfz).
  destruct (agentChainActiveRun obj _ w) as [err|current] eqn:Ea; [apply wp_ret, Hquiet; first [done|exact (λ _, Hi)]|].
  destruct (negb _) eqn:Et; [apply wp_ret, Hquiet; first [done|exact (λ _, Hi)]|]. apply negb_false_iff in Et.
  destruct (cs_Steps (chain_Spec obj) !! i) as [prev|] eqn:Ep; [|by apply wp_fail, Hquiet].
  unfold settleStep. case_bool_decide as Hh; [apply wp_ret, Hquiet; first [done|exact (λ _, Hi)]|].
  destruct (cs_Steps (chain_Spec obj) !! S i) as [step|] eqn:En; [|apply wp_ret, Hquiet; first [done|exact (λ _, Hi)]].
  destruct (negb _) eqn:Ew; [apply wp_ret, Hquiet; first [done|exact (λ _, Hi)]|]. apply negb_false_iff in Ew.
  unfold advanceInstance. apply wp_bind, wp_pure.
  destruct (collectPriors _ _ _ _ w) as [[]|priors]; [apply wp_ret, Hquiet; first [done|exact (λ _, Hi)]|].
  apply wp_bind. eapply wp_mono; [apply (wp_create_launches (justified obj))|].
  - intros sent Hs. simpl in Hs. rewrite Ei, Hd, Eg in Hs. rewrite Est in Eidx.
    apply (justified_step obj w app i prev step current); try done; congruence.
  - intros [e|run] w' Hl; [done|by apply wp_ret].
Qed.

Lemma runs_quiet chain now w : wp (agentChainRuns chain now) (λ _ w', quietly w w') w.
Proof. eapply wp_mono; [apply wp_agentChainRuns|]. by intros x w' [Hq _]. Qed.

Lemma patch_launches P obj s d w :
  wp (patchAgentChainStatus obj s d) (λ _ w', launches P w w') w.
Proof. eapply wp_mono; [apply wp_patch_quiet|]. by left. Qed.

Lemma wp_start_launches obj now s app runs today w :
  sameFrozen (chain_Status obj) s → cst_ActiveInstanceID s = "" →
  agentChainOwnedNonterminalRuns obj w = inr [] →
  wp (startInstance obj now s app runs today) (λ _ w', launches (justified obj) w w') w.
Proof.
  intros Hfz Hi Hnone. unfold startInstance.
  destruct (agentChainNextStartTime obj s now) as [e|nextStart]; [by apply wp_fail; left|].
  destruct (negb (_ || _)); [apply patch_launches|].
  destruct (_ && negb _); [apply patch_launches|].
  destruct (if _ : bool then None else _) as [until|]; [apply patch_launches|].
  destruct (agentChainStartDueAt _ _ _ _) as [e|dueAt]; [by apply wp_fail; left|].
  unfold launchInstance. case_bool_decide; [by apply wp_fail; left|].
  destruct (firstBad _ 0 runs) as [[]|]; [apply patch_launches|].
  destruct (cs_Steps (chain_Spec obj)) as [|first rest] eqn:Est; [by apply wp_fail; left|].
  apply wp_bind. eapply wp_mono; [apply (wp_create_launches (justified obj))|].
  - intros sent Hs. eapply justified_start; try done. destruct Hfz as ((<- & _) & _). done.
  - intros [e|run] w' Hl; [done|]. apply wp_bind. eapply wp_mono; [apply runs_quiet|].
    intros [e|counted] w'' Hq; [by eapply launches_quiet_r|].
    eapply wp_mono; [apply wp_patch_quiet|]. intros x w3 Hq'.
    eapply launches_quiet_r; [|exact Hq']. by eapply launches_quiet_r.
Qed.

Lemma requestCancel_frozen obj now s s' :
  requestCancel obj now s = inr s' → sameFrozen s s'.
Proof. unfold requestCancel. destruct (_ && _); [destruct (_ && _)|]; by intros [= <-]. Qed.

Lemma sameFrozen_trans s s' s'' : sameFrozen s s' → sameFrozen s' s'' → sameFrozen s s''.
Proof. unfold sameFrozen, sameActive. intuition congruence. Qed.

Lemma wp_instances_launches obj now s app w :
  sameFrozen (chain_Status obj) s →
  wp (reconcileInstances obj now s app) (λ _ w', launches (justified obj) w w') w.
Proof.
  intros Hfz. unfold reconcileInstances. apply wp_bind. eapply wp_mono; [apply runs_quiet|].
  intros [e|[runs today]] w1 Hq; [by left|].
  apply (wp_mono _ (λ _ w', launches (justified obj) w1 w'));
    [clear Hq|intros x w' Hl; by eapply launches_quiet_l].
  set (s1 := s <| cst_InstancesToday := today |>).
  apply wp_bind, wp_read. destruct (recoverActive obj now s1 w1) as [e|[s'|]] eqn:Erec;
    [by left|apply patch_launches|].
  destruct (requestCancel obj now s1) as [s'|s2] eqn:Ereq; [apply patch_launches|].
  apply requestCancel_frozen in Ereq as Hfz2.
  assert (sameFrozen (chain_Status obj) s2) as Hfz3 by (exact (sameFrozen_trans _ _ _ Hfz Hfz2)).
  apply wp_bind, wp_pure. destruct (continueCancel obj now s2 w1) as [s'|] eqn:Ec;
    [apply patch_launches|].
  case_bool_decide as Hi.
  - assert (cst_CancelRequestedInstanceID s2 ≠ cst_ActiveInstanceID s2) as Hnc.
    { intros Heq. unfold continueCancel in Ec. rewrite !bool_decide_eq_true_2 in Ec by done.
      simpl in Ec. by repeat case_match. }
    apply wp_bind. eapply wp_mono; [by apply wp_active_launches|].
    intros [e|[[s3 advanced] requeue]] w2 [Hl Hact]; [done|]. simpl in Hact.
    destruct (advanced || (0 <? requeue)).
    { eapply wp_mono; [apply wp_patch_quiet|]. intros x w3. by apply launches_quiet_r. }
    rewrite bool_decide_eq_true_2 by auto.
    eapply wp_mono; [apply wp_patch_quiet|]. intros x w3. by apply launches_quiet_r.
  - apply wp_start_launches; [done|done|].
    unfold recoverActive in Erec. destruct Hfz2 as ((Hi2 & _) & _).
    rewrite bool_decide_eq_false_2 in Erec by (by rewrite <- Hi2, Hi; intros []).
    destruct (agentChainOwnedNonterminalRuns obj w1) as [e|[|r [|r2 l]]]; try done.
    by destruct (validateAgentChainRecoverableRun obj r).
Qed.

Lemma finalizers_launches {A} P k fs (f : GoErr + unit → M W GoErr A) w :
  (∀ y w1, fst (f y w1) = w1) →
  wp (mbnd (mtry (patchChainFinalizers k fs)) f) (λ _ w', launches P w w') w.
Proof.
  intros Hf. apply wp_bind, wp_try. unfold wp.
  destruct (patchChainFinalizers k fs w) as [w1 y] eqn:E. simpl. rewrite Hf. left.
  unfold quietly, runsOf. by rewrite (patchChainFinalizers_runs _ _ _ _ _ E).
Qed.

(** The gates in front of every launch. *)
Record gatesOpen (obj : AgentChain) (now : Time) (w : W) : Prop := {
  go_live : setTime (meta_DeletionTimestamp (chain_ObjectMeta obj)) = None;
  go_valid : validateAgentChainSpec obj = None;
  go_resumed : cs_Suspend (chain_Spec obj) = false;
  go_unpaused : ∃ app, resolveAgentChainApplicationName obj = inr app
    ∧ snd (activeAgentRunPauseForApplication app now w) = inr None }.

(** C4: a reconciliation creates at most one run, and only for a reason.  The
    chain is not being deleted, its spec is valid, it is not suspended and its
    one application is not paused; and the run is either the first step of a new
    instance, when no instance is active and no run of the chain is in flight,
    or the step after the active one, when the workflow is the frozen one, the
    instance is not being cancelled, the exact active run is terminal without
    needing a human, and the gate of the step admits it.  Otherwise no run
    changes but for owner references. *)
Theorem launch_justified ns name now (w w' : W) obj x :
  getChain ns name w = inr obj → reconcileChain ns name now w = (w', x) →
  launches (λ w1 sent, gatesOpen obj now w ∧ justified obj w1 sent) w w'.
Proof.
  intros Hget Hrec.
  refine (wp_elim _ (λ _ w', launches _ w w') _ _ _ _ Hrec). unfold reconcileChain.
  apply wp_bind, wp_try, wp_read. rewrite Hget. case_bool_decide as Hdel.
  { unfold drainChain. destruct (negb _); [by apply wp_ret; left|]. apply wp_bind, wp_read.
    destruct (agentChainOwnedNonterminalRuns obj w) as [e|[|r l]]; [by left| |by apply wp_ret; left].
    unfold removeAgentChainDrainFinalizer. apply wp_bind, wp_try, wp_read.
    destruct (getChain (chain_Namespace obj) (chain_Name obj) w) as [e|c].
    { destruct (IsNotFound e); [by apply wp_ret; left|by apply wp_fail; left]. }
    destruct (negb _); [by apply wp_ret; left|]. apply finalizers_launches.
    intros [e|[]] w1; [by destruct (IsConflict e)|done]. }
  destruct (negb _).
  { apply finalizers_launches. intros [e|[]] w1; [by destruct (IsConflict e)|done]. }
  unfold reconcileGated.
  destruct (validateAgentChainSpec obj) eqn:Ev; [apply patch_launches|].
  destruct (cs_Suspend _) eqn:Es; [apply patch_launches|].
  destruct (resolveAgentChainApplicationName obj) as [e|app] eqn:Ea; [apply patch_launches|].
  apply wp_bind. unfold wp at 1. rewrite pause_gate_read.
  destruct (activeAgentRunPauseForApplication app now w).2 as [e|[p|]] eqn:Ep;
    [by left|apply patch_launches|].
  eapply wp_mono; [by apply wp_instances_launches|]. intros y w1. apply launches_mono.
  intros w2 r Hj. split; [|done]. split; [done|done|done|]. by exists app.
Qed.

(** ** Repeated creates *)

Lemma mapMismatch_refl m : mapMismatch m m = None.
Proof.
  unfold mapMismatch. destruct (find _ (map_to_list m)) as [[k v]|] eqn:E; [|done].
  apply find_some in E as [Hin Hb]. apply list_elem_of_In, elem_of_map_to_list in Hin.
  apply bool_decide_eq_true in Hb. unfold mapGet in Hb. simpl in Hb. by rewrite Hin in Hb.
Qed.

Lemma canonical_source s s' :
  agentChainCanonicalRunSpec s = agentChainCanonicalRunSpec s' →
  rs_SourceUID s = rs_SourceUID s' ∧ rs_SourceGeneration s = rs_SourceGeneration s'
  ∧ rs_SourceDigest s = rs_SourceDigest s'.
Proof.
  intros Heq. split_and!; [change (rs_SourceUID (agentChainCanonicalRunSpec s) = rs_SourceUID s')
    |change (rs_SourceGeneration (agentChainCanonicalRunSpec s) = rs_SourceGeneration s')
    |change (rs_SourceDigest (agentChainCanonicalRunSpec s) = rs_SourceDigest s')]; by rewrite Heq.
Qed.

Lemma chainedSpec_source chain app gen digest step priors detected reason message spec :
  chainedSpec chain app gen digest step priors detected reason message = inr spec →
  rs_SourceUID spec = chain_UID chain ∧ rs_SourceGeneration spec = gen
  ∧ rs_SourceDigest spec = digest ∧ rs_SourceRef spec = chainSourceRef chain
  ∧ rs_Purpose spec = AgentRunPurposeChained.
Proof.
  unfold chainedSpec. destruct (if bool_decide _ then _ else _) as [e|sp]; [done|].
  intros Heq. repeat case_match; by injection Heq as <-.
Qed.

Lemma childLabels_chain chain app inst step :
  let labels := agentChainChildLabels chain app inst step in
  mapGet labels agentRunChainLabel = sanitizeLabelValue (chain_Name chain)
  ∧ mapGet labels agentRunChainInstLabel = sanitizeLabelValue inst
  ∧ mapGet labels agentRunChainStepLabel = sanitizeLabelValue step.
Proof.
  unfold agentChainChildLabels, mapGet.
  by split_and!; repeat case_bool_decide; simplify_map_eq.
Qed.

(** A create is idempotent.  When the server reports that the child already
    exists and the stored run is the one an earlier attempt sent (up to the
    defaults the server adds), the attempt succeeds with that run: a retry after
    a lost response or a lost status patch adopts the run instead of failing or
    creating a second one. *)
Theorem create_idempotent chain app inst gen digest step priors detected reason message spec
    (w w' : W) e run :
  chainedSpec chain app gen digest step priors detected reason message = inr spec →
  let sent := chainedRun chain app inst digest step spec in
  createRun sent w = (w', inl e) → IsAlreadyExists e = true →
  getRun (run_Namespace sent) (run_Name sent) w' = inr run → createdFrom sent run →
  createChainedAgentRun chain app inst gen digest step priors detected reason message w = (w', inr run).
Proof.
  intros Hspec sent Hcr He Hget Hfrom. pose proof (chainedSpec_source _ _ _ _ _ _ _ _ _ _ Hspec)
    as (Hu & Hg & Hd & _).
  destruct (canonical_source _ _ (cf_spec _ _ Hfrom)) as (Hu' & Hg' & Hd').
  destruct (childLabels_chain chain app inst (step_Name step)) as (Hl1 & Hl2 & Hl3).
  assert (∀ k, run_label run k = mapGet (agentChainChildLabels chain app inst (step_Name step)) k) as Hl.
  { intros k. unfold run_label. by rewrite (cf_labels _ _ Hfrom). }
  assert (mapGet (run_Annotations run) agentRunChainDigestAnnotation = digest) as Han.
  { rewrite (cf_annotations _ _ Hfrom). unfold mapGet. simpl. by simplify_map_eq. }
  unfold createChainedAgentRun. rewrite Hspec. unfold mbnd, mtry. fold sent. rewrite Hcr.
  cbn beta iota. rewrite He. cbn [negb]. unfold mread. rewrite Hget. cbn beta iota zeta.
  rewrite !Hl, Hl1, Hl2, Hl3, Han, Hu', Hg', Hd'. change (run_Spec sent) with spec.
  rewrite Hu, Hg, Hd. unfold agentChainRunSpecsEqual, agentChainExpectedMetadataMatches.
  rewrite (cf_spec _ _ Hfrom), (cf_labels _ _ Hfrom), (cf_annotations _ _ Hfrom).
  rewrite !mapMismatch_refl. rewrite !bool_decide_eq_false_2 by (intros []; reflexivity).
  rewrite !bool_decide_eq_true_2 by reflexivity. reflexivity.
Qed.

(** C33: a chain that is being deleted keeps its finalizer, and so stays, while
    any of its runs is nonterminal: the reconciliation changes nothing. *)
Theorem deletion_drains ns name now (w : W) obj k :
  getChain ns name w = inr obj → setTime (meta_DeletionTimestamp (chain_ObjectMeta obj)) ≠ None →
  owns obj (runsOf w) k → fst (reconcileChain ns name now w) = w.
Proof.
  intros Hget Hdel Ho. unfold reconcileChain, mbnd, mtry, mread. rewrite Hget. cbn beta iota.
  rewrite bool_decide_eq_true_2 by done. unfold drainChain. destruct (negb _); [done|].
  unfold mbnd, mread. pose proof (ownedRuns_exact obj obj w) as Hex.
  destruct (agentChainOwnedNonterminalRuns obj w) as [e|[|r l]]; [done| |done].
  destruct (proj1 (Hex [] ltac:(by split) eq_refl k) Ho) as (r & Hr & _). by apply elem_of_nil in Hr.
Qed.
End launch.

(** ** Two behaviours worth knowing *)

#[local] Existing Instances fx_marshal_snapshot fx_marshal_spec.

Definition chainStatusAt (w : MemCluster) (ns name : string) : AgentChainStatus :=
  match getChain ns name w with inr c => chain_Status c | inl _ => zero_AgentChainStatus end.
Definition readyReason (s : AgentChainStatus) : string :=
  match FindStatusCondition (cst_Conditions s) agentChainReady with
  | Some c => cond_Reason c
  | None => ""
  end.
Definition reconcileOnce (name : string) (now : Time) (w : MemCluster) : MemCluster :=
  fst (reconcileChain "agents" name now w).

(** A one-step chain whose step name [a--b] is a valid DNS label, right after
    its run was created and the status patch was lost. *)
Definition fx_dashes : AgentChain :=
  mkAgentChain ((fx_meta "agents" "dashes" "uid-dashes" fx_epoch ∅)
      <| meta_Finalizers := [agentChainDrainFinalizer] |>)
    (fx_chain_spec [fx_step "a--b" None]) zero_AgentChainStatus.
Definition fx_dashes_lost : MemCluster :=
  let w := reconcileOnce "dashes" (fx_epoch + 60 * Second) (fx_cluster [] [fx_dashes] [] []) in
  fx_cluster (ok_list (listRuns None None w)) [fx_dashes] [] [].

(** Recovery after a lost status can wedge a valid chain.  The recovered
    active step is the label of the run, and labels are sanitized: the step
    [a--b] is recovered as [a-b], which is not a step of the chain, so the next
    reconciliation blocks the instance with [InvalidActiveStep] although its run
    is healthy. *)
Theorem recovery_wedges_sanitized_step :
  let now := fx_epoch + 120 * Second in
  let recovered := reconcileOnce "dashes" now fx_dashes_lost in
  let after := reconcileOnce "dashes" (now + 30 * Second) recovered in
  validateAgentChainSpec fx_dashes = None
  ∧ readyReason (chainStatusAt recovered "agents" "dashes") = "ActiveRunRecovered"
  ∧ cst_ActiveStep (chainStatusAt recovered "agents" "dashes") = "a-b"
  ∧ cst_Phase (chainStatusAt after "agents" "dashes") = AgentChainPhaseBlocked
  ∧ readyReason (chainStatusAt after "agents" "dashes") = "InvalidActiveStep".
Proof. vm_compute. auto 10. Qed.

(** A chain without a start interval that holds a backoff deadline. *)
Definition fx_manual : AgentChain :=
  mkAgentChain ((fx_meta "agents" "manual" "uid-manual" fx_epoch ∅)
      <| meta_Finalizers := [agentChainDrainFinalizer] |>)
    ((fx_chain_spec [fx_step "build" None]) <| cs_StartIntervalSeconds := 0 |>)
    (zero_AgentChainStatus <| cst_NextStartAt := Some (fx_epoch + 600 * Second) |>).
Definition fx_manual_world : MemCluster := fx_cluster [] [fx_manual] [] [].

(** An idle chain without a start interval that holds a backoff deadline
    reports that its next automatic start is scheduled for it, but no automatic
    start follows when the deadline has passed: no run is created and the message
    stays. *)
Theorem idle_announces_no_start :
  let before := reconcileOnce "manual" (fx_epoch + 60 * Second) fx_manual_world in
  let after := reconcileOnce "manual" (fx_epoch + Day) before in
  let message w := match FindStatusCondition (cst_Conditions (chainStatusAt w "agents" "manual"))
                           agentChainReady with
                   | Some c => cond_Message c
                   | None => ""
                   end in
  message before = "Next automatic instance start is scheduled for 2026-01-01T00:10:00Z."
  ∧ message after = message before
  ∧ ok_list (listRuns None None after) = [].
Proof. vm_compute. auto. Qed.

(** ** Witnesses *)

Lemma launch_justified_witness :
  launches (λ w1 sent, gatesOpen fx_release (fx_epoch + 3600 * Second) fx_release_world
                       ∧ justified fx_release w1 sent) fx_release_world fx_release_running.
Proof.
  refine (launch_justified "agents" "release" (fx_epoch + 3600 * Second) fx_release_world
    fx_release_running fx_release _ _ (surjective_pairing _)).
  vm_compute; reflexivity.
Defined.

Definition fx_sent_spec : AgentRunSpec :=
  match chainedSpec fx_release "shop" 1 "d" (fx_step "build" None) None None "r" "m" with
  | inr s => s
  | inl _ => zero_AgentRunSpec
  end.
Definition fx_sent : AgentRun := chainedRun fx_release "shop" "i-1" "d" (fx_step "build" None) fx_sent_spec.
Definition fx_sent_world : MemCluster := fst (createRun fx_sent fx_release_world).
Definition fx_stored : AgentRun := mem_stored fx_release_world fx_sent.

Lemma create_idempotent_witness :
  createChainedAgentRun fx_release "shop" "i-1" 1 "d" (fx_step "build" None) None None "r" "m"
    fx_sent_world = (fx_sent_world, inr fx_stored).
Proof.
  refine (create_idempotent fx_release "shop" "i-1" 1 "d" (fx_step "build" None) None None "r" "m"
    fx_sent_spec fx_sent_world fx_sent_world (ErrApi ReasonAlreadyExists "already exists")
    fx_stored _ _ _ _ _).
  - vm_compute; reflexivity.
  - vm_compute; reflexivity.
  - reflexivity.
  - vm_compute; reflexivity.
  - apply mem_stored_created.
Defined.

Definition fx_deleting : AgentChain :=
  fx_release <| chain_ObjectMeta := (chain_ObjectMeta fx_release)
    <| meta_DeletionTimestamp := Some fx_epoch |> |>.
Definition fx_deleting_world : MemCluster :=
  fx_cluster (ok_list (listRuns None None fx_release_running)) [fx_deleting] [] [].

Lemma deletion_drains_witness :
  fst (reconcileChain "agents" "release" (fx_epoch + Day) fx_deleting_world) = fx_deleting_world.
Proof.
  refine (deletion_drains "agents" "release" (fx_epoch + Day) fx_deleting_world fx_deleting
    fx_release_child _ _ _).
  - vm_compute; reflexivity.
  - vm_compute; discriminate.
  - split; [vm_compute; reflexivity|]. exists fx_release_run. split; [vm_compute; reflexivity|].
    apply ownedNonterminal_exact. vm_compute; reflexivity.
Defined.
