(* ===== verification/Schedule.v ===== *)
(** * Schedules: due times, templates and run requests

    The pure part of [src/internal/controller/agent_schedule_controller.go]:
    when the next run is due, which template it uses and what it is called.  The
    theorems give the loop that advances the due time its closed form and its
    termination condition, and show that a due time identifies one run. *)

From stdpp Require Import base list gmap strings.
From Stdlib Require Import ZArith Lia.
From S2P Require Import Prelude GoStrings GoTime Names ApiRun ApiWork Kube MemKube Fixtures RunControl LaunchGate ChainSpec ChainCore ChainReconcile.

Open Scope Z_scope.

Definition agentScheduleReady : string := "Ready".
Definition agentSchedulePollInterval : Duration := 30 * Second.
Definition agentRunTemplateLabel : string := "control.anvil.hazyforge.io/agent-schedule-template".

Record agentScheduleRunRequest := mkRequest {
  req_ApplicationName : string;
  req_NameSegment : string;
  req_NameTimestamp : string;
  req_NameIdentityKey : string;
  req_TemplateName : string;
  req_TriggerReason : string;
  req_TriggerMessage : string;
  req_ForceTrigger : bool;
  req_Token : string;
  req_NameTime : Time }.
#[export] Instance eta_agentScheduleRunRequest : Eta agentScheduleRunRequest := λ r, mkRequest
  (req_ApplicationName r) (req_NameSegment r) (req_NameTimestamp r) (req_NameIdentityKey r)
  (req_TemplateName r) (req_TriggerReason r) (req_TriggerMessage r) (req_ForceTrigger r)
  (req_Token r) (req_NameTime r).

(** ** Due times *)

Definition agentScheduleNextRunTime (schedule : AgentSchedule) (status : AgentScheduleStatus)
    (now : Time) (generationChanged : bool) : Time :=
  let computed :=
    match sst_LastRunAt status with
    | Some t => Add t (seconds (sp_IntervalSeconds (sched_Spec schedule)))
    | None =>
        if 0 <? sp_InitialDelaySeconds (sched_Spec schedule)
        then Add (sched_CreationTimestamp schedule)
               (seconds (sp_InitialDelaySeconds (sched_Spec schedule)))
        else now
    end in
  match sst_NextRunAt status with
  | Some t => if generationChanged then computed else t
  | None => computed
  end.

Definition scheduleBackoffSeconds (backoff : AgentScheduleBackoffSpec) (phase : string) : option Z :=
  if bool_decide (phase = AgentRunPhaseFailed) then Some (sbo_FailedSeconds backoff)
  else if bool_decide (phase = AgentRunPhaseNeedsHuman) then Some (sbo_NeedsHumanSeconds backoff)
  else None.

Definition agentScheduleNextRunWithTerminalBackoff (schedule : AgentSchedule)
    (newest : option AgentRun) (existing : Time) : Time * bool :=
  match sp_Backoff (sched_Spec schedule), newest with
  | Some backoff, Some newest =>
      match scheduleBackoffSeconds backoff (run_Phase newest) with
      | None => (existing, false)
      | Some delay =>
          if delay <=? 0 then (existing, false) else
          if IsZero (terminalAt newest) then (existing, false) else
          let backoffUntil := Add (terminalAt newest) (seconds delay) in
          if After backoffUntil existing then (backoffUntil, true)
          else (existing, backoffUntil =? existing)
      end
  | _, _ => (existing, false)
  end.

(** The loop [for !next.After(now) { next = next.Add(interval) }]; [None] when
    the fuel runs out. *)
Fixpoint advanceDue (fuel : nat) (next : Time) (interval : Duration) (now : Time) : option Time :=
  if After next now then Some next else
  match fuel with
  | O => None
  | S fuel => advanceDue fuel (Add next interval) interval now
  end.

(** Enough iterations for any positive interval ([due_loop_terminates]). *)
Definition dueFuel (next : Time) (interval : Duration) (now : Time) : nat :=
  if 0 <? interval then S (Z.to_nat ((now - next) / interval)) else 0.

Definition agentScheduleNextRunAfterCreation (schedule : AgentSchedule) (scheduledNext now : Time)
    (manual : bool) : GoErr + Time :=
  if manual then inr scheduledNext else
  let interval := seconds (sp_IntervalSeconds (sched_Spec schedule)) in
  match advanceDue (dueFuel scheduledNext interval now) scheduledNext interval now with
  | Some next => inr next
  | None => inl ErrHang
  end.

(** ** Templates *)

Definition agentScheduleManualRunToken (schedule : AgentSchedule) : string :=
  TrimSpace (mapGet (sched_Annotations schedule) AgentScheduleRunNowAnnotation).
Definition agentScheduleManualRunTemplateName (schedule : AgentSchedule) : string :=
  TrimSpace (mapGet (sched_Annotations schedule) AgentScheduleRunTemplateAnnotation).

Definition agentScheduleNextTemplateName (schedule : AgentSchedule) (lastTemplateName : string) :
    string :=
  let templates := sp_RunTemplates (sched_Spec schedule) in
  match templates with
  | [] => ""
  | t0 :: _ =>
      if blank lastTemplateName then tpl_Name t0 else
      match list_find (λ t, tpl_Name t = lastTemplateName) templates with
      | Some (index, _) => match templates !! ((index + 1) mod length templates)%nat with
                           | Some t => tpl_Name t
                           | None => tpl_Name t0
                           end
      | None => tpl_Name t0
      end
  end.

Definition agentScheduleSelectedRunTemplate (schedule : AgentSchedule) (templateName : string) :
    GoErr + (AgentRunSpec * string) :=
  let templateName := TrimSpace templateName in
  match sp_RunTemplates (sched_Spec schedule) with
  | [] =>
      if bool_decide (templateName ≠ "") then
        inl (ErrText ("run template " +:+ quote templateName
               +:+ " was requested, but spec.runTemplates is empty"))
      else inr (sp_RunTemplate (sched_Spec schedule), "")
  | t0 :: _ as templates =>
      let templateName := if bool_decide (templateName = "") then tpl_Name t0 else templateName in
      match list_find (λ t, tpl_Name t = templateName) templates with
      | Some (_, t) => inr (tpl_Template t, tpl_Name t)
      | None => inl (ErrText ("run template " +:+ quote templateName
                  +:+ " was not found in AgentSchedule " +:+ sched_Namespace schedule +:+ "/"
                  +:+ sched_Name schedule))
      end
  end.

(** ** Requests *)

Definition agentScheduleIntervalTriggerMessage (schedule : AgentSchedule) (dueAt : Time) : string :=
  "AgentSchedule " +:+ sched_Namespace schedule +:+ "/" +:+ sched_Name schedule
  +:+ " reached its interval due at " +:+ FormatRFC3339 dueAt +:+ ".".

Definition agentScheduleIntervalRunRequest (schedule : AgentSchedule) (dueAt : Time)
    (lastTemplateName : string) : agentScheduleRunRequest :=
  mkRequest "" "" "" "" (agentScheduleNextTemplateName schedule lastTemplateName)
    "ScheduledAgentRun" (agentScheduleIntervalTriggerMessage schedule dueAt) false
    (FormatRFC3339Nano dueAt) dueAt.

Definition agentScheduleManualNameTimestamp (token : string) (fallback : Time) : string :=
  let token := TrimSpace token in
  match ParseCompact token with
  | Some t => FormatCompact t
  | None =>
      match ParseRFC3339Nano token with
      | Some t => FormatCompact t
      | None =>
          let sanitized := sanitizeDNSLabel token in
          if bool_decide (sanitized ≠ "") then
            if (24 <? String.length sanitized)%nat then takeStr 24 sanitized else sanitized
          else FormatCompact fallback
      end
  end.

Definition agentScheduleManualRunRequest (schedule : AgentSchedule) (token templateName : string)
    (now : Time) : agentScheduleRunRequest :=
  mkRequest "" "manual" (agentScheduleManualNameTimestamp token now)
    ("manual|" +:+ TrimSpace token) (TrimSpace templateName) "ManualAgentScheduleNudge"
    ("AgentSchedule " +:+ sched_Namespace schedule +:+ "/" +:+ sched_Name schedule
     +:+ " was manually nudged with token " +:+ quote token +:+ ".") true (TrimSpace token) zeroTime.

Definition agentScheduleProvenanceLabels (schedule : AgentSchedule) : gmap string string :=
  list_to_map (filter (λ kv, kv.2 ≠ "")
    (map (λ key, (key, TrimSpace (mapGet (sched_Labels schedule) key)))
       [agentManagedByLabel; agentApplicationLabel; agentDynamicLabel; agentManagerRepositoryLabel])).

(** The name of the run of a request. *)
Definition scheduledRunName (schedule : AgentSchedule) (request : agentScheduleRunRequest)
    (now : Time) : string :=
  let nameTime := if IsZero (req_NameTime request) then now else req_NameTime request in
  let nameTimestamp := if blank (req_NameTimestamp request) then FormatCompact nameTime
                       else TrimSpace (req_NameTimestamp request) in
  let nameIdentityKey := if blank (req_NameIdentityKey request) then FormatRFC3339Nano nameTime
                         else TrimSpace (req_NameIdentityKey request) in
  let nameTemplatePart :=
    if bool_decide (req_TriggerReason request = "ScheduledAgentRun")
       && blank (req_NameSegment request) then "" else req_TemplateName request in
  agentRunChildName ["agentrun"; sched_Name schedule; req_NameSegment request; nameTemplatePart;
    nameTimestamp;
    shortHash (Join [nameIdentityKey; req_Token request; req_TriggerReason request;
                     nameTemplatePart] "|")].

(** ** Choosing runs *)

Definition pickRun (better : AgentRun → AgentRun → bool) (selected : option AgentRun)
    (run : AgentRun) : option AgentRun :=
  match selected with
  | None => Some run
  | Some s => if better run s then Some run else selected
  end.
Definition agentScheduleOldestRun (runs : list AgentRun) : option AgentRun :=
  fold_left (pickRun agentRunPrecedes) runs None.
Definition agentScheduleNewestRun (runs : list AgentRun) : option AgentRun :=
  fold_left (pickRun (λ run s, agentRunPrecedes s run)) runs None.
Definition agentScheduleActiveRunForStatus (policy : string) (runs : list AgentRun) :
    option AgentRun :=
  if bool_decide (policy = AgentScheduleConcurrencyQueue) then agentScheduleOldestRun runs
  else agentScheduleNewestRun runs.
Definition agentScheduleRunInList (runs : list AgentRun) (candidate : AgentRun) : bool :=
  existsb (λ run, bool_decide (run_Namespace run = run_Namespace candidate)
                  && bool_decide (run_Name run = run_Name candidate)) runs.

(** ** Due times: theorems *)

Lemma advanceDue_spec fuel next interval now :
  0 < interval → now < next + Z.of_nat fuel * interval →
  ∃ k, 0 ≤ k ∧ advanceDue fuel next interval now = Some (next + k * interval)
     ∧ now < next + k * interval ∧ (k = 0 ∨ next + k * interval ≤ now + interval).
Proof.
  intros Hi. revert next. induction fuel as [|fuel IH]; intros next Hf; simpl; unfold After.
  - destruct (Z.ltb_spec now next); [|lia]. exists 0. rewrite Z.mul_0_l, Z.add_0_r.
    split_and!; [lia|done|lia|by left].
  - destruct (Z.ltb_spec now next).
    { exists 0. rewrite Z.mul_0_l, Z.add_0_r. split_and!; [lia|done|lia|by left]. }
    destruct (IH (Add next interval)) as (k & Hk & Heq & Hlt & Hle); [unfold Add; lia|].
    exists (k + 1). unfold Add in *. replace (next + (k + 1) * interval)
      with (next + interval + k * interval) by lia.
    split_and!; [lia|done|lia|right]. destruct Hle as [->|Hle]; lia.
Qed.

(** C34: advancing the due time terminates for every schedule whose interval is
    representable, with the first tick of the cadence that is in the future: a
    schedule that was down for a week owes one run, not one per missed tick. *)
Theorem due_loop_terminates schedule due now :
  let interval := seconds (sp_IntervalSeconds (sched_Spec schedule)) in
  0 < interval →
  ∃ k, 0 ≤ k
    ∧ agentScheduleNextRunAfterCreation schedule due now false = inr (due + k * interval)
    ∧ now < due + k * interval ∧ (k = 0 ∨ due + k * interval ≤ now + interval).
Proof.
  intros interval Hi. unfold agentScheduleNextRunAfterCreation. fold interval.
  destruct (advanceDue_spec (dueFuel due interval now) due interval now)
    as (k & Hk & -> & Hlt & Hle); [done| |by eauto].
  unfold dueFuel. destruct (Z.ltb_spec 0 interval); [|lia].
  pose proof (Z.mod_pos_bound (now - due) interval Hi).
  pose proof (Z.div_mod (now - due) interval). nia.
Qed.

(** An interval of 9223372037 seconds is accepted (only [intervalSeconds <= 0]
    is refused) but its duration overflows to a negative one, and the loop that
    advances a due time never ends, however many iterations it is given. *)
Theorem due_loop_overflow_diverges fuel due now :
  due ≤ now → advanceDue fuel due (seconds 9223372037) now = None.
Proof.
  assert (seconds 9223372037 < 0) as Hneg by (vm_compute; reflexivity).
  revert Hneg. generalize (seconds 9223372037) as interval. intros interval Hneg.
  revert due. induction fuel as [|fuel IH]; intros due Hd; simpl; unfold After;
    destruct (Z.ltb_spec now due); try lia; [done|]. apply IH. unfold Add. lia.
Qed.

(** The terminal backoff of a schedule never makes a run due earlier, and
    reports itself only when it determines the due time. *)
Theorem schedule_backoff_delays schedule newest existing :
  let '(due, applied) := agentScheduleNextRunWithTerminalBackoff schedule newest existing in
  existing ≤ due
  ∧ (applied = true → ∃ run delay, newest = Some run ∧ 0 < delay
       ∧ due = terminalAt run + seconds delay
       ∧ (run_Phase run = AgentRunPhaseFailed ∨ run_Phase run = AgentRunPhaseNeedsHuman))
  ∧ (applied = false → due = existing).
Proof.
  unfold agentScheduleNextRunWithTerminalBackoff, scheduleBackoffSeconds, After, Add.
  destruct (sp_Backoff _) as [b|]; [|done]. destruct newest as [run|]; [|done].
  set (delays := if bool_decide (run_Phase run = _) then _ else _).
  destruct delays as [delay|] eqn:Ed; [|done].
  assert (run_Phase run = AgentRunPhaseFailed ∨ run_Phase run = AgentRunPhaseNeedsHuman) as Hph.
  { subst delays. repeat case_bool_decide; auto. done. }
  destruct (Z.leb_spec delay 0); [done|]. destruct (IsZero _); [done|].
  destruct (Z.ltb_spec existing (terminalAt run + seconds delay)).
  - split; [lia|]. split; [|done]. intros _. by exists run, delay.
  - split; [lia|]. split; [|done]. intros Heq%Z.eqb_eq. exists run, delay. by rewrite Heq.
Qed.

(** ** Identity of a due run *)

(** A due time identifies one interval run: the name of the run created for
    it depends neither on the template the rotation selects nor on the time of
    the attempt, so a second create for the same tick collides with the first. *)
Theorem interval_run_name_unique schedule due last1 last2 now1 now2 app1 app2 :
  IsZero due = false →
  scheduledRunName schedule
    ((agentScheduleIntervalRunRequest schedule due last1) <| req_ApplicationName := app1 |>) now1
  = scheduledRunName schedule
    ((agentScheduleIntervalRunRequest schedule due last2) <| req_ApplicationName := app2 |>) now2.
Proof. intros Hz. unfold scheduledRunName. simpl. by rewrite Hz. Qed.

(** ** Rotation *)

(** Sequential rotation: the template after the one recorded last is the
    next in the list, wrapping around, when the recorded name is a template's
    name. *)
Theorem rotation_cycles schedule i t :
  NoDup (map tpl_Name (sp_RunTemplates (sched_Spec schedule))) →
  sp_RunTemplates (sched_Spec schedule) !! i = Some t → blank (tpl_Name t) = false →
  ∃ t', sp_RunTemplates (sched_Spec schedule)
          !! ((i + 1) mod length (sp_RunTemplates (sched_Spec schedule)))%nat = Some t'
    ∧ agentScheduleNextTemplateName schedule (tpl_Name t) = tpl_Name t'.
Proof.
  intros Hnd Hi Hb. unfold agentScheduleNextTemplateName.
  assert (list_find (λ t0, tpl_Name t0 = tpl_Name t) (sp_RunTemplates (sched_Spec schedule))
          = Some (i, t)) as Hfind.
  { apply list_find_Some. split_and!; [done|done|]. intros j s Hj Hlt Heq.
    assert (j = i); [|lia]. eapply (NoDup_lookup _ _ _ (tpl_Name t) Hnd);
      rewrite list_lookup_fmap, ?Hj, ?Hi; simpl; congruence. }
  pose proof (lookup_lt_Some _ _ _ Hi) as Hlt.
  destruct (lookup_lt_is_Some_2 (sp_RunTemplates (sched_Spec schedule))
    ((i + 1) mod length (sp_RunTemplates (sched_Spec schedule)))%nat) as [t' Ht'].
  { apply Nat.mod_upper_bound. lia. }
  exists t'. split; [done|]. destruct (sp_RunTemplates (sched_Spec schedule)) as [|t0 ts]; [done|].
  rewrite Hb. change (list_find _ _) with (list_find (λ t1, tpl_Name t1 = tpl_Name t) (t0 :: ts)).
  rewrite Hfind. by rewrite Ht'.
Qed.

(** Two templates whose names are not label values. *)
Definition fx_templates : AgentSchedule :=
  fx_schedule "agents" "nightly" "" (zero_AgentScheduleSpec
    <| sp_RunTemplates := [mkAgentScheduleRunTemplateSpec "Grok Build" (fx_spec "shop");
                           mkAgentScheduleRunTemplateSpec "Composer" (fx_spec "shop")] |>).

(** Rotation gets stuck on the first template when template names are not
    label values.  The name recorded last is read back from the run's label,
    which holds the sanitized name, so it is never found among the templates. *)
Theorem rotation_stuck_on_labels :
  agentScheduleNextTemplateName fx_templates "" = "Grok Build"
  ∧ agentScheduleNextTemplateName fx_templates (sanitizeLabelValue "Grok Build") = "Grok Build".
Proof. vm_compute. auto. Qed.

(** ** Witnesses *)

Lemma due_loop_terminates_witness :
  ∃ k, agentScheduleNextRunAfterCreation
         (fx_schedule "agents" "nightly" "" (zero_AgentScheduleSpec <| sp_IntervalSeconds := 3600 |>))
         fx_epoch (fx_epoch + Day) false = inr (fx_epoch + k * seconds 3600).
Proof.
  destruct (due_loop_terminates (fx_schedule "agents" "nightly" ""
    (zero_AgentScheduleSpec <| sp_IntervalSeconds := 3600 |>)) fx_epoch (fx_epoch + Day))
    as (k & _ & Hk & _); [vm_compute; reflexivity|]. exists k. exact Hk.
Defined.

Lemma due_loop_overflow_diverges_witness :
  advanceDue 1000 fx_epoch (seconds 9223372037) fx_epoch = None.
Proof. apply (due_loop_overflow_diverges 1000 fx_epoch fx_epoch). lia. Defined.

Lemma interval_run_name_unique_witness :
  scheduledRunName fx_templates ((agentScheduleIntervalRunRequest fx_templates fx_epoch "")
    <| req_ApplicationName := "shop" |>) fx_epoch
  = scheduledRunName fx_templates ((agentScheduleIntervalRunRequest fx_templates fx_epoch "Grok Build")
    <| req_ApplicationName := "shop" |>) (fx_epoch + Day).
Proof.
  apply (interval_run_name_unique fx_templates fx_epoch "" "Grok Build" fx_epoch (fx_epoch + Day)
    "shop" "shop"). vm_compute; reflexivity.
Defined.

Lemma rotation_cycles_witness :
  ∃ t', agentScheduleNextTemplateName fx_templates "Composer" = tpl_Name t'.
Proof.
  destruct (rotation_cycles fx_templates 1 (mkAgentScheduleRunTemplateSpec "Composer" (fx_spec "shop")))
    as (t' & _ & Ht').
  - apply (bool_decide_eq_true_1 _). vm_compute; reflexivity.
  - reflexivity.
  - vm_compute; reflexivity.
  - exists t'. exact Ht'.
Defined.
