(* ===== verification/ScheduleReconcile.v ===== *)
(** * Schedules: the reconciler

    [AgentScheduleReconciler] of
    [src/internal/controller/agent_schedule_controller.go]: reading the runs of a
    schedule, creating the run of a request, and [Reconcile], cut into the checks
    of the specification, the wait states, the guard against a second run for the
    same due time, and the launch. *)

From stdpp Require Import base list gmap strings.
From Stdlib Require Import ZArith Lia.
From S2P Require Import Prelude GoStrings GoTime Names ApiRun ApiWork Kube RunControl LaunchGate ChainSpec ChainCore ChainReconcile Schedule.

Open Scope Z_scope.

(** What [agentScheduleRuns] gathers in its loop. *)
Record ScheduleRuns := mkScheduleRuns {
  sr_active : list AgentRun;
  sr_last : option AgentRun;
  sr_lastInterval : option AgentRun;
  sr_runsToday : Z }.

Definition gatherRun (dayStart : Time) (acc : ScheduleRuns) (run : AgentRun) : ScheduleRuns :=
  mkScheduleRuns
    (if agentRunPhaseTerminal (run_Phase run) then sr_active acc else sr_active acc ++ [run])
    (match sr_last acc with
     | None => Some run
     | Some l => if After (run_CreationTimestamp run) (run_CreationTimestamp l) then Some run
                 else Some l
     end)
    (if bool_decide (trg_Reason (rs_Trigger (run_Spec run)) = "ScheduledAgentRun")
     then pickRun (λ r s, agentRunPrecedes s r) (sr_lastInterval acc) run
     else sr_lastInterval acc)
    (if negb (Before (run_CreationTimestamp run) dayStart)
        && Before (run_CreationTimestamp run) (Add dayStart Day)
     then sr_runsToday acc + 1 else sr_runsToday acc).

Definition lastIntervalTemplate (runs : ScheduleRuns) : string :=
  match sr_lastInterval runs with
  | Some run => run_label run agentRunTemplateLabel
  | None => ""
  end.

(** The defaults the controller fills into the spec of a scheduled run. *)
Definition scheduledSpec (schedule : AgentSchedule) (request : agentScheduleRunRequest) (now : Time)
    (spec : AgentRunSpec) : GoErr + AgentRunSpec :=
  let applicationName :=
    if blank (req_ApplicationName request) then trimmedRef (sp_ApplicationRef (sched_Spec schedule))
    else TrimSpace (req_ApplicationName request) in
  let scoped :=
    if bool_decide (applicationName ≠ "") then
      match scope_ApplicationRef (rs_Scope spec) with
      | None => inr (spec <| rs_Scope := (rs_Scope spec)
                  <| scope_ApplicationRef := Some (mkApplicationReferenceSpec applicationName) |> |>)
      | Some ref =>
          if bool_decide (TrimSpace (app_Name ref) ≠ applicationName) then
            inl (ErrText ("resolved schedule applicationRef " +:+ quote applicationName
              +:+ " conflicts with selected run template applicationRef "
              +:+ quote (TrimSpace (app_Name ref))))
          else inr spec
      end
    else inr spec in
  match scoped with
  | inl e => inl e
  | inr spec =>
      let spec := if blank (rs_Purpose spec)
                  then spec <| rs_Purpose := AgentRunPurposeScheduledHealthCheck |> else spec in
      let spec := if blank (src_Kind (rs_SourceRef spec))
                  then spec <| rs_SourceRef := mkAgentRunSourceRef GroupVersion "AgentSchedule"
                                 (sched_Namespace schedule) (sched_Name schedule) |>
                  else spec in
      if negb (blank (rs_SourceUID spec)) && bool_decide (rs_SourceUID spec ≠ sched_UID schedule) then
        inl (ErrText "selected run template sourceUID does not match AgentSchedule UID")
      else
      let spec := if blank (rs_SourceUID spec)
                  then spec <| rs_SourceUID := sched_UID schedule |> else spec in
      if bool_decide (rs_SourceGeneration spec ≠ 0)
         && bool_decide (rs_SourceGeneration spec ≠ sched_Generation schedule) then
        inl (ErrText "selected run template sourceGeneration does not match AgentSchedule generation")
      else
      let spec := if bool_decide (rs_SourceGeneration spec = 0)
                  then spec <| rs_SourceGeneration := sched_Generation schedule |> else spec in
      let spec := if req_ForceTrigger request || blank (trg_Reason (rs_Trigger spec))
                  then spec <| rs_Trigger := (rs_Trigger spec)
                         <| trg_Reason := req_TriggerReason request |>
                         <| trg_Message := req_TriggerMessage request |>
                         <| trg_DetectedAt := Some now |> |>
                  else spec in
      inr (match rs_ScheduleRef spec with
           | None => spec <| rs_ScheduleRef := Some (mkNamespacedObjectReference
                       (sched_Name schedule) (sched_Namespace schedule)) |>
           | Some _ => spec
           end)
  end.

Definition scheduledLabels (schedule : AgentSchedule) (templateName : string) : gmap string string :=
  let labels := agentScheduleProvenanceLabels schedule
                ∪ {[agentRunScheduleLabel := sanitizeLabelValue (sched_Name schedule)]} in
  if bool_decide (templateName ≠ "")
  then <[agentRunTemplateLabel := sanitizeLabelValue templateName]> labels else labels.

Definition scheduledRun (schedule : AgentSchedule) (request : agentScheduleRunRequest) (now : Time)
    (spec : AgentRunSpec) : AgentRun :=
  mkAgentRun (zero_ObjectMeta <| meta_Name := scheduledRunName schedule request now |>
      <| meta_Namespace := sched_Namespace schedule |>
      <| meta_Labels := scheduledLabels schedule (req_TemplateName request) |>)
    spec zero_AgentRunStatus.

Section operations.
Context {W : Type} `{Client W} `{Conditions} `{Marshal AgentRunSpec}.
Local Open Scope go_scope.

(** ** Accepting an existing run *)

Definition scheduledAgentRunSpecMatches (actual expected : AgentRunSpec) : bool :=
  bool_decide (digestJSON (jsonMarshal actual)
    = digestJSON (jsonMarshal (expected <| rs_Trigger := (rs_Trigger expected)
        <| trg_DetectedAt := trg_DetectedAt (rs_Trigger actual) |> |>))).

(** The spec a template of the schedule would have given the run, if the template
    fits it. *)
Definition templateCandidate (run expected : AgentRun) (schedule : AgentSchedule)
    (candidate : AgentRunSpec) : option AgentRunSpec :=
  let candidate := if blank (rs_Purpose candidate)
    then candidate <| rs_Purpose := AgentRunPurposeScheduledHealthCheck |> else candidate in
  let scoped :=
    match scope_ApplicationRef (rs_Scope (run_Spec expected)) with
    | None => Some candidate
    | Some app =>
        match scope_ApplicationRef (rs_Scope candidate) with
        | None => Some (candidate <| rs_Scope := (rs_Scope candidate)
                          <| scope_ApplicationRef := Some app |> |>)
        | Some own => if bool_decide (TrimSpace (app_Name own) ≠ TrimSpace (app_Name app))
                      then None else Some candidate
        end
    end in
  match scoped with
  | None => None
  | Some candidate =>
      let candidate := if blank (src_Kind (rs_SourceRef candidate))
        then candidate <| rs_SourceRef := mkAgentRunSourceRef GroupVersion "AgentSchedule"
                            (sched_Namespace schedule) (sched_Name schedule) |> else candidate in
      if bool_decide (rs_SourceUID candidate ≠ "")
         && bool_decide (rs_SourceUID candidate ≠ sched_UID schedule) then None
      else if bool_decide (rs_SourceGeneration candidate ≠ 0)
         && bool_decide (rs_SourceGeneration candidate ≠ sched_Generation schedule) then None
      else
      Some (candidate <| rs_SourceUID := sched_UID schedule |>
        <| rs_SourceGeneration := sched_Generation schedule |>
        <| rs_Trigger := (rs_Trigger (run_Spec expected))
             <| trg_DetectedAt := trg_DetectedAt (rs_Trigger (run_Spec run)) |> |>
        <| rs_ScheduleRef := match rs_ScheduleRef candidate with
             | None => Some (mkNamespacedObjectReference (sched_Name schedule)
                               (sched_Namespace schedule))
             | Some ref => Some ref
             end |>)
  end.

Definition scheduledAgentRunMatchesSelectedTemplate (run : AgentRun) (schedule : AgentSchedule)
    (expected : AgentRun) : bool :=
  if bool_decide (trg_Reason (rs_Trigger (run_Spec run)) ≠ "ScheduledAgentRun") then false else
  let templateLabel := TrimSpace (run_label run agentRunTemplateLabel) in
  existsb (λ item : string * AgentRunSpec,
      bool_decide (sanitizeLabelValue item.1 = templateLabel)
      && match templateCandidate run expected schedule item.2 with
         | Some candidate => scheduledAgentRunSpecMatches (run_Spec run) candidate
         | None => false
         end)
    (("", sp_RunTemplate (sched_Spec schedule))
     :: map (λ t, (tpl_Name t, tpl_Template t)) (sp_RunTemplates (sched_Spec schedule))).

Definition validateScheduledAgentRun (run expected : AgentRun) (schedule : AgentSchedule) :
    option GoErr :=
  let name := "AgentRun " +:+ run_Namespace run +:+ "/" +:+ run_Name run in
  let collides := ErrText (name +:+ " collides with the expected child for AgentSchedule "
                    +:+ sched_Namespace schedule +:+ "/" +:+ sched_Name schedule) in
  if bool_decide (run_Namespace run ≠ run_Namespace expected)
     || bool_decide (run_Name run ≠ run_Name expected)
     || bool_decide (rs_SourceUID (run_Spec run) ≠ sched_UID schedule)
  then Some collides
  else
  match mapMismatch (delete agentRunTemplateLabel (run_Labels expected)) (run_Labels run) with
  | Some key => Some (ErrText (name +:+ " has invalid AgentSchedule provenance label " +:+ key))
  | None =>
      if scheduledAgentRunSpecMatches (run_Spec run) (run_Spec expected)
         || scheduledAgentRunMatchesSelectedTemplate run schedule expected
      then None else Some collides
  end.

(** Go: [createScheduledAgentRun]. *)
Definition createScheduledAgentRun (schedule : AgentSchedule) (now : Time)
    (request : agentScheduleRunRequest) : M W GoErr (AgentRun * string) :=
  match agentScheduleSelectedRunTemplate schedule (req_TemplateName request) with
  | inl e => mfail e
  | inr (template, templateName) =>
      let request := request <| req_TemplateName := templateName |> in
      match scheduledSpec schedule request now template with
      | inl e => mfail e
      | inr spec =>
          let expected := scheduledRun schedule request now spec in
          let* created := mtry (createRun expected) in
          match created with
          | inr run => mret (run, templateName)
          | inl err =>
              if negb (IsAlreadyExists err) then mfail err else
              let* run := mread (getRun (run_Namespace expected) (run_Name expected)) in
              match validateScheduledAgentRun run expected schedule with
              | Some e => mfail e
              | None => mret (run, templateName)
              end
          end
      end
  end.

(** ** Reading the runs *)

Definition scheduleRunsStep (schedule : AgentSchedule) (dayStart : Time) (acc : ScheduleRuns)
    (run : AgentRun) : M W GoErr ScheduleRuns :=
  if negb (agentRunBelongsToSchedule run schedule) then mret acc else
  let '(removed, run') := detachAgentRunControllerOwner run GroupVersion "AgentSchedule"
                            (sched_Name schedule) (sched_UID schedule) in
  let* _ := if removed then
      let* r := mtry (patchRunOwners (run_key run) (meta_OwnerReferences (run_ObjectMeta run'))) in
      match r with
      | inl e => mfail (ErrWrap ("detach durable AgentRun " +:+ run_Namespace run +:+ "/"
                   +:+ run_Name run +:+ " from AgentSchedule garbage collection") e)
      | inr _ => mret tt
      end
    else mret tt in
  mret (gatherRun dayStart acc run').

Definition agentScheduleRuns (schedule : AgentSchedule) (now : Time) : M W GoErr ScheduleRuns :=
  let* listed := mtry (mread (listRuns (Some (sched_Namespace schedule))
    (Some (agentRunScheduleLabel, sanitizeLabelValue (sched_Name schedule))))) in
  match listed with
  | inl e => mfail (ErrWrap "list scheduled agent runs" e)
  | inr items => mforeach (scheduleRunsStep schedule (Truncate now Day)) items
                   (mkScheduleRuns [] None None 0)
  end.

Definition intervalRunFor (schedule : AgentSchedule) (message : string) (run : AgentRun) : bool :=
  agentRunBelongsToSchedule run schedule
  && bool_decide (trg_Reason (rs_Trigger (run_Spec run)) = "ScheduledAgentRun")
  && bool_decide (TrimSpace (trg_Message (rs_Trigger (run_Spec run))) = message).

Definition agentScheduleIntervalRunForMessage (schedule : AgentSchedule) (message : string) (w : W) :
    GoErr + option AgentRun :=
  let message := TrimSpace message in
  if bool_decide (message = "") then inr None else
  match listRuns (Some (sched_Namespace schedule))
          (Some (agentRunScheduleLabel, sanitizeLabelValue (sched_Name schedule))) w with
  | inl e => inl (ErrWrap "list scheduled agent runs for due interval" e)
  | inr items => inr (fold_left (pickRun (λ r s, agentRunPrecedes s r))
                        (filter (λ run, intervalRunFor schedule message run = true) items) None)
  end.

(** ** Writes to the schedule *)

Definition patchAgentScheduleStatus (obj : AgentSchedule) (status : AgentScheduleStatus)
    (requeueAfter : Duration) : M W GoErr Result :=
  let* r := mtry (patchScheduleStatus (sched_key obj) status) in
  match r with
  | inl err => if IsConflict err then mret requeueNow else mfail err
  | inr _ => if 0 <? requeueAfter then mret (mkResult false requeueAfter) else mret Done
  end.

Definition setScheduleReady (obj : AgentSchedule) (now : Time)
    (phase conditionStatus reason message : string) (status : AgentScheduleStatus) :
    AgentScheduleStatus :=
  status <| sst_Phase := phase |>
    <| sst_Conditions := SetStatusCondition (sst_Conditions status)
         (mkCondition agentScheduleReady conditionStatus (sched_Generation obj) now reason message) |>.

(** ** Reconcile *)

(** The checks of the specification: reason and message. *)
Definition scheduleSpecError (obj : AgentSchedule) : option (string * string) :=
  let spec := sched_Spec obj in
  if sp_IntervalSeconds spec <=? 0 then
    Some ("InvalidInterval", "spec.intervalSeconds must be greater than zero.")
  else if sp_MaxConcurrentRuns spec <? 0 then
    Some ("InvalidMaxConcurrentRuns", "spec.maxConcurrentRuns cannot be negative.")
  else if sp_MaxRunsPerDay spec <? 0 then
    Some ("InvalidMaxRunsPerDay", "spec.maxRunsPerDay cannot be negative.")
  else
    match sp_Backoff spec with
    | Some b =>
        if (sbo_FailedSeconds b <? 0) || (sbo_NeedsHumanSeconds b <? 0) then
          Some ("InvalidBackoff", "spec.backoff failedSeconds and needsHumanSeconds cannot be negative.")
        else None
    | None => None
    end.

(** The status with the runs that were found. *)
Definition observeRuns (policy : string) (runs : ScheduleRuns) (status : AgentScheduleStatus) :
    AgentScheduleStatus :=
  let status := status
    <| sst_ActiveRunRef := match agentScheduleActiveRunForStatus policy (sr_active runs) with
                           | Some active => runRef active
                           | None => None
                           end |>
    <| sst_ActiveRunCount := Z.of_nat (length (sr_active runs)) |> in
  match sr_last runs with
  | None => status
  | Some last =>
      let status := status <| sst_LastRunRef := runRef last |> <| sst_LastRunPhase := run_Phase last |> in
      match st_StartedAt (run_Status last) with
      | Some t => status <| sst_LastRunAt := Some t |>
      | None => status
      end
  end.

(** The due time already has a run: advance without creating. *)
Definition skipCreatedDue (obj : AgentSchedule) (now : Time) (policy : string)
    (active : option AgentRun) (nextRunAt : Time) (existingDue : AgentRun)
    (status : AgentScheduleStatus) : M W GoErr Result :=
  match agentScheduleNextRunAfterCreation obj nextRunAt now false with
  | inl e => mfail e
  | inr next =>
      let status := status <| sst_ActiveRunRef :=
        match active with
        | Some a => runRef a
        | None => if negb (agentRunPhaseTerminal (run_Phase existingDue)) then runRef existingDue
                  else sst_ActiveRunRef status
        end |>
        <| sst_LastRunRef := runRef existingDue |>
        <| sst_LastRunPhase := run_Phase existingDue |>
        <| sst_LastRunAt := match st_StartedAt (run_Status existingDue) with
             | Some t => Some t
             | None => match sst_LastRunAt status with Some t => Some t | None => Some now end
             end |>
        <| sst_LastRunTemplate :=
             let template := run_label existingDue agentRunTemplateLabel in
             if bool_decide (template ≠ "") then template else sst_LastRunTemplate status |>
        <| sst_NextRunAt := Some next |> <| sst_LastError := "" |> in
      let created := "Interval due at " +:+ FormatRFC3339 nextRunAt +:+ " already created AgentRun "
        +:+ run_Namespace existingDue +:+ "/" +:+ run_Name existingDue in
      let message :=
        match active with
        | Some a =>
            if bool_decide (policy = AgentScheduleConcurrencyQueue)
            then created +:+ "; waiting for queue head " +:+ run_Namespace a +:+ "/" +:+ run_Name a
                 +:+ ". Next AgentRun is scheduled for " +:+ FormatRFC3339 next +:+ "."
            else created +:+ "; advanced next run to " +:+ FormatRFC3339 next +:+ "."
        | None => created +:+ "; advanced next run to " +:+ FormatRFC3339 next +:+ "."
        end in
      patchAgentScheduleStatus obj (setScheduleReady obj now AgentSchedulePhaseRunning ConditionFalse
        "IntervalAlreadyCreated" message status) agentSchedulePollInterval
  end.

(** Create the run of the request and record it. *)
Definition launchScheduled (obj : AgentSchedule) (now : Time) (policy applicationName : string)
    (runs : ScheduleRuns) (manualPending : bool) (manualToken : string) (nextRunAt : Time)
    (status : AgentScheduleStatus) : M W GoErr Result :=
  let active := agentScheduleActiveRunForStatus policy (sr_active runs) in
  let request := if manualPending
    then agentScheduleManualRunRequest obj manualToken (agentScheduleManualRunTemplateName obj) now
    else agentScheduleIntervalRunRequest obj nextRunAt (lastIntervalTemplate runs) in
  let request := request <| req_ApplicationName := applicationName |> in
  let* created := createScheduledAgentRun obj now request in
  let '(run, selectedTemplateName) := created in
  let activeForStatus :=
    match active with
    | Some a => if bool_decide (policy = AgentScheduleConcurrencyQueue) then a else run
    | None => run
    end in
  match agentScheduleNextRunAfterCreation obj nextRunAt now manualPending with
  | inl e => mfail e
  | inr next =>
      let status := status <| sst_ActiveRunRef := runRef activeForStatus |>
        <| sst_LastRunRef := runRef run |>
        <| sst_ActiveRunCount :=
             if negb (agentRunPhaseTerminal (run_Phase run))
                && negb (agentScheduleRunInList (sr_active runs) run)
             then Z.of_nat (length (sr_active runs)) + 1 else sst_ActiveRunCount status |>
        <| sst_LastRunAt := Some now |> <| sst_LastRunTemplate := selectedTemplateName |>
        <| sst_NextRunAt := Some next |>
        <| sst_LastManualRunToken := if manualPending then manualToken
                                     else sst_LastManualRunToken status |>
        <| sst_LastError := "" |> in
      let what := (if manualPending then "Created manually nudged AgentRun "
                   else "Created scheduled AgentRun ")
        +:+ run_Namespace run +:+ "/" +:+ run_Name run
        +:+ (if bool_decide (selectedTemplateName ≠ "")
             then " from template " +:+ quote selectedTemplateName else "")
        +:+ (if manualPending then " for token " +:+ quote manualToken else "") +:+ "." in
      patchAgentScheduleStatus obj (setScheduleReady obj now AgentSchedulePhaseRunning ConditionFalse
        "RunCreated" what status) agentSchedulePollInterval
  end.

(** Forbid with an active run: wait for it, and move a due time that passed
    meanwhile; a status to stop with, if so. *)
Definition scheduleForbidden (obj : AgentSchedule) (now : Time) (policy : string)
    (runs : ScheduleRuns) (manualPending : bool) (manualToken : string) (nextRunAt : Time)
    (status : AgentScheduleStatus) : GoErr + option AgentScheduleStatus :=
  match agentScheduleActiveRunForStatus policy (sr_active runs) with
  | Some active =>
      if bool_decide (policy = AgentScheduleConcurrencyForbid) then
        let name := "active AgentRun " +:+ run_Namespace active +:+ "/" +:+ run_Name active
                    +:+ " to finish." in
        let message := if manualPending
          then "Manual run token " +:+ quote manualToken +:+ " is pending; waiting for " +:+ name
          else "Waiting for " +:+ name in
        let waiting status := inr (Some (setScheduleReady obj now AgentSchedulePhaseRunning
          ConditionFalse "RunActive" message (status <| sst_LastError := "" |>))) in
        if negb manualPending && negb (After nextRunAt now) then
          match agentScheduleNextRunAfterCreation obj nextRunAt now false with
          | inl e => inl e
          | inr next => waiting (status <| sst_NextRunAt := Some next |>)
          end
        else waiting status
      else inr None
  | None => inr None
  end.

(** Allow at its limit. *)
Definition scheduleFull (obj : AgentSchedule) (now : Time) (policy : string) (runs : ScheduleRuns)
    (manualPending : bool) (manualToken : string) (status : AgentScheduleStatus) :
    option (AgentScheduleStatus * Duration) :=
  let active := Z.of_nat (length (sr_active runs)) in
  let maxConcurrent := agentScheduleMaxConcurrentRuns obj in
  if bool_decide (policy = AgentScheduleConcurrencyAllow)
     && ((0 <? maxConcurrent) && (maxConcurrent <=? active)) then
    let tail := fmtZ active +:+ " active AgentRuns to drop below maxConcurrentRuns="
                +:+ fmtZ maxConcurrent +:+ "." in
    Some (setScheduleReady obj now AgentSchedulePhaseRunning ConditionFalse "MaxConcurrentRunsReached"
      (if manualPending
       then "Manual run token " +:+ quote manualToken +:+ " is pending; waiting for " +:+ tail
       else "Waiting for " +:+ tail) (status <| sst_LastError := "" |>), agentSchedulePollInterval)
  else None.

Definition scheduledStatus (obj : AgentSchedule) (now : Time) (backedOff : bool)
    (runs : ScheduleRuns) (due : string) (status : AgentScheduleStatus) : AgentScheduleStatus :=
  match backedOff, sr_last runs with
  | true, Some last =>
      setScheduleReady obj now AgentSchedulePhaseScheduled ConditionTrue "TerminalBackoff"
        ("Newest AgentRun " +:+ run_Namespace last +:+ "/" +:+ run_Name last +:+ " is "
         +:+ run_Phase last +:+ "; automatic runs are backed off until " +:+ due +:+ ".") status
  | _, _ =>
      setScheduleReady obj now AgentSchedulePhaseScheduled ConditionTrue "NextRunScheduled"
        ("Next AgentRun is scheduled for " +:+ due +:+ ".") status
  end.

(** Not due yet, and not nudged. *)
Definition scheduleNotDue (obj : AgentSchedule) (now : Time) (policy : string) (runs : ScheduleRuns)
    (manualPending : bool) (nextRunAt : Time) (backedOff : bool) (status : AgentScheduleStatus) :
    option (AgentScheduleStatus * Duration) :=
  if negb manualPending && After nextRunAt now then
    let active := agentScheduleActiveRunForStatus policy (sr_active runs) in
    let maxConcurrent := agentScheduleMaxConcurrentRuns obj in
    let due := FormatRFC3339 nextRunAt in
    let status := status <| sst_LastError := "" |> in
    match active with
    | Some a =>
        if bool_decide (policy = AgentScheduleConcurrencyQueue) then
          let message := "Waiting for " +:+ fmtNat (length (sr_active runs))
            +:+ " non-terminal AgentRuns to drain"
            +:+ (if 1 <? maxConcurrent then " with maxConcurrentRuns=" +:+ fmtZ maxConcurrent else "")
            +:+ "; queue head is " +:+ run_Namespace a +:+ "/" +:+ run_Name a
            +:+ ". Next AgentRun is scheduled for " +:+ due +:+ "." in
          Some (setScheduleReady obj now AgentSchedulePhaseRunning ConditionFalse "QueueActive" message
                  status, agentSchedulePollInterval)
        else Some (scheduledStatus obj now backedOff runs due status, Sub nextRunAt now)
    | None => Some (scheduledStatus obj now backedOff runs due status, Sub nextRunAt now)
    end
  else None.

(** The daily budget, which manual nudges share. *)
Definition scheduleBudget (obj : AgentSchedule) (now : Time) (runs : ScheduleRuns)
    (manualPending : bool) (manualToken : string) (status : AgentScheduleStatus) :
    option (AgentScheduleStatus * Duration) :=
  let limit := sp_MaxRunsPerDay (sched_Spec obj) in
  if (0 <? limit) && (limit <=? sr_runsToday runs) then
    let dayEnd := Add (Truncate now Day) Day in
    let n := fmtZ (sr_runsToday runs) in
    let tail := "the UTC daily maxRunsPerDay=" +:+ fmtZ limit +:+ " budget to reset." in
    Some (setScheduleReady obj now AgentSchedulePhaseBlocked ConditionFalse "DailyRunBudgetReached"
      (if manualPending
       then "Manual run token " +:+ quote manualToken +:+ " is pending; created " +:+ n
            +:+ " AgentRuns today and is waiting for " +:+ tail
       else "Created " +:+ n +:+ " AgentRuns today; waiting for " +:+ tail)
      (status <| sst_LastError := "" |>), Sub dayEnd now)
  else None.

(** From the due time to the launch. *)
Definition scheduleDue (obj : AgentSchedule) (now : Time) (applicationName : string)
    (runs : ScheduleRuns) (generationChanged manualPending : bool) (manualToken : string)
    (status : AgentScheduleStatus) : M W GoErr Result :=
  let policy := agentScheduleConcurrencyPolicy obj in
  let '(nextRunAt, backedOff) := agentScheduleNextRunWithTerminalBackoff obj (sr_last runs)
    (agentScheduleNextRunTime obj status now generationChanged) in
  let status := status <| sst_NextRunAt := Some nextRunAt |> in
  match scheduleForbidden obj now policy runs manualPending manualToken nextRunAt status with
  | inl e => mfail e
  | inr (Some status) => patchAgentScheduleStatus obj status agentSchedulePollInterval
  | inr None =>
  match scheduleFull obj now policy runs manualPending manualToken status with
  | Some (status, requeue) => patchAgentScheduleStatus obj status requeue
  | None =>
  match scheduleNotDue obj now policy runs manualPending nextRunAt backedOff status with
  | Some (status, requeue) => patchAgentScheduleStatus obj status requeue
  | None =>
  match scheduleBudget obj now runs manualPending manualToken status with
  | Some (status, requeue) => patchAgentScheduleStatus obj status requeue
  | None =>
      let launch := launchScheduled obj now policy applicationName runs manualPending manualToken
                      nextRunAt status in
      if manualPending then launch else
      let* existingDue := mread (agentScheduleIntervalRunForMessage obj
        (agentScheduleIntervalTriggerMessage obj nextRunAt)) in
      match existingDue with
      | Some existing =>
          skipCreatedDue obj now policy (agentScheduleActiveRunForStatus policy (sr_active runs))
            nextRunAt existing status
      | None => launch
      end
  end end end end.

(** Go: [AgentScheduleReconciler.Reconcile]. *)
Definition reconcileSchedule (ns name : string) (now : Time) : M W GoErr Result :=
  let* got := mtry (mread (getSchedule ns name)) in
  match got with
  | inl e => if IsNotFound e then mret Done else mfail e
  | inr obj =>
      if bool_decide (setTime (meta_DeletionTimestamp (sched_ObjectMeta obj)) ≠ None) then mret Done
      else
      let previousObservedGeneration := sst_ObservedGeneration (sched_Status obj) in
      let status := (sched_Status obj) <| sst_ObservedGeneration := sched_Generation obj |> in
      let generationChanged := bool_decide (previousObservedGeneration ≠ 0)
        && bool_decide (previousObservedGeneration ≠ sched_Generation obj) in
      let manualToken := agentScheduleManualRunToken obj in
      let manualPending := bool_decide (manualToken ≠ "")
        && bool_decide (manualToken ≠ sst_LastManualRunToken status) in
      if sp_Suspend (sched_Spec obj) then
        patchAgentScheduleStatus obj (setScheduleReady obj now AgentSchedulePhaseSuspended
          ConditionFalse "Suspended"
          (if manualPending then "AgentSchedule is suspended; manual run token "
             +:+ quote manualToken +:+ " remains pending."
           else "AgentSchedule is suspended.") (status <| sst_NextRunAt := None |>)) 0
      else
      match scheduleSpecError obj with
      | Some (reason, message) =>
          patchAgentScheduleStatus obj (setScheduleReady obj now AgentSchedulePhaseBlocked
            ConditionFalse reason message (status <| sst_LastError := message |>)) 0
      | None =>
      let* resolved := mtry (mread (resolveAgentScheduleApplicationName obj)) in
      match resolved with
      | inl err =>
          patchAgentScheduleStatus obj (setScheduleReady obj now AgentSchedulePhaseBlocked
            ConditionFalse "InvalidApplicationIdentity" (errorText err)
            (status <| sst_NextRunAt := None |> <| sst_LastError := errorText err |>))
            agentSchedulePollInterval
      | inr applicationName =>
          let* runs := agentScheduleRuns obj now in
          let status := observeRuns (agentScheduleConcurrencyPolicy obj) runs status in
          let* pause := activeAgentRunPauseForApplication applicationName now in
          match pause with
          | Some pause =>
              let message := "Application " +:+ quote applicationName
                +:+ " is paused by AgentRunControl " +:+ quote (pause_ControlName pause) +:+ "." in
              let message := if bool_decide (pause_Reason pause ≠ "")
                then message +:+ " Reason: " +:+ pause_Reason pause else message in
              patchAgentScheduleStatus obj (setScheduleReady obj now AgentSchedulePhaseSuspended
                ConditionFalse "ApplicationPaused" message
                (status <| sst_NextRunAt := None |> <| sst_LastError := "" |>))
                (agentRunPauseRequeueAfter (Some pause) now)
          | None => scheduleDue obj now applicationName runs generationChanged manualPending
                      manualToken status
          end
      end
      end
  end.
End operations.
