(* ===== verification/ScheduleSafety.v ===== *)
(** * Schedules: why a run is launched

    Every run [reconcileSchedule] creates is justified by the specification, the
    concurrency policy, the daily budget and the due time; and the concurrency
    policy Forbid is never overstepped by a reconciliation. *)

From stdpp Require Import base list gmap strings.
From Stdlib Require Import ZArith Lia.
From S2P Require Import Prelude GoStrings GoTime Names ApiRun ApiWork Kube MemKube Fixtures RunControl LaunchGate ChainSpec ChainCore ChainReconcile ChainSafety ChainLaunch Schedule ScheduleReconcile.

Open Scope Z_scope.

(** ** What the loop over the runs computes *)

Definition detached (schedule : AgentSchedule) (run : AgentRun) : AgentRun :=
  snd (detachAgentRunControllerOwner run GroupVersion "AgentSchedule" (sched_Name schedule)
         (sched_UID schedule)).

Definition scheduleRunsOf (schedule : AgentSchedule) (items : list AgentRun) : list AgentRun :=
  filter (λ run, agentRunBelongsToSchedule run schedule = true) items.

Definition gathered (schedule : AgentSchedule) (now : Time) (items : list AgentRun) : ScheduleRuns :=
  fold_left (gatherRun (Truncate now Day)) (map (detached schedule) (scheduleRunsOf schedule items))
    (mkScheduleRuns [] None None 0).

(** Created on the UTC day of [now]. *)
Definition createdToday (now : Time) (run : AgentRun) : bool :=
  negb (Before (run_CreationTimestamp run) (Truncate now Day))
  && Before (run_CreationTimestamp run) (Add (Truncate now Day) Day).

Lemma detached_core schedule run : runCore (detached schedule run) = runCore run.
Proof. unfold detached, detachAgentRunControllerOwner. by destruct (existsb _ _). Qed.

Lemma gather_spec now runs acc :
  let out := fold_left (gatherRun (Truncate now Day)) runs acc in
  sr_active out = sr_active acc ++ filter (λ r, agentRunPhaseTerminal (run_Phase r) = false) runs
  ∧ sr_runsToday out = sr_runsToday acc
      + Z.of_nat (length (filter (λ r, createdToday now r = true) runs)).
Proof.
  revert acc. induction runs as [|r runs IH]; intros acc; simpl;
    [rewrite !filter_nil, app_nil_r; split; [done|by rewrite Z.add_0_r]|].
  destruct (IH (gatherRun (Truncate now Day) acc r)) as [-> ->]. rewrite !filter_cons.
  change (sr_runsToday (gatherRun (Truncate now Day) acc r))
    with (if createdToday now r then sr_runsToday acc + 1 else sr_runsToday acc).
  split.
  - simpl. destruct (agentRunPhaseTerminal _); repeat case_decide; try done.
    by rewrite <- (assoc_L (++)).
  - destruct (createdToday now r); repeat case_decide; try done; cbn [length]; lia.
Qed.

Lemma filter_detached schedule (P : AgentRun → Prop) `{∀ r, Decision (P r)} items :
  (∀ r r', runCore r = runCore r' → P r ↔ P r') →
  filter P (map (detached schedule) items) = map (detached schedule) (filter P items).
Proof.
  intros HP. induction items as [|r items IH]; [done|]. simpl. rewrite !filter_cons.
  pose proof (HP _ _ (detached_core schedule r)) as Hr.
  repeat case_decide; simpl; rewrite IH; tauto.
Qed.

Lemma gathered_spec schedule now items :
  let mine := scheduleRunsOf schedule items in
  sr_active (gathered schedule now items)
    = map (detached schedule) (filter (λ r, agentRunPhaseTerminal (run_Phase r) = false) mine)
  ∧ sr_runsToday (gathered schedule now items)
    = Z.of_nat (length (filter (λ r, createdToday now r = true) mine)).
Proof.
  intros mine. unfold gathered. fold mine.
  destruct (gather_spec now (map (detached schedule) mine) (mkScheduleRuns [] None None 0)) as [-> ->].
  simpl. rewrite !filter_detached.
  - by rewrite length_map.
  - intros r r' [= _ _ _ _ _ Ht _ _]. unfold createdToday. by rewrite Ht.
  - intros r r' [= _ _ _ _ _ _ _ Hs]. unfold run_Phase. by rewrite Hs.
Qed.

Lemma pickRun_some better l s : fold_left (pickRun better) l (Some s) ≠ None.
Proof.
  revert s. induction l as [|x l IH]; intros s; simpl; [done|]. destruct (better x s); apply IH.
Qed.

Lemma activeForStatus_none policy runs :
  agentScheduleActiveRunForStatus policy runs = None → runs = [].
Proof.
  unfold agentScheduleActiveRunForStatus, agentScheduleOldestRun, agentScheduleNewestRun.
  destruct runs as [|r runs]; [done|]. simpl.
  case_bool_decide; intros Hn; by apply pickRun_some in Hn.
Qed.

Section launch.
Context {W : Type} `{HC : Client W} `{HL : !ClientLaws W} `{HK : Conditions}.
Context `{HR : Marshal AgentRunSpec}.

Lemma wp_scheduleRuns schedule now w :
  wp (agentScheduleRuns schedule now)
    (λ x w', quietly w w' ∧ ∀ runs, x = inr runs → ∃ items,
       listRuns (Some (sched_Namespace schedule))
         (Some (agentRunScheduleLabel, sanitizeLabelValue (sched_Name schedule))) w = inr items
       ∧ runs = gathered schedule now items) w.
Proof.
  apply wp_bind, wp_try, wp_read. destruct (listRuns _ _ w) as [e|items]; [by apply wp_fail|].
  eapply (wp_mono _ (λ x w', quietly w w' ∧ ∀ runs, x = inr runs → runs = gathered schedule now items));
    [|intros x w' [Hq Hr]; split; [done|]; intros runs Hx; exists items; auto].
  unfold gathered. generalize (mkScheduleRuns [] None None 0) as acc.
  assert (quietly w w) as Hq by done. revert Hq. generalize w at 2 4.
  induction items as [|r items IH]; intros w1 Hq acc.
  { apply wp_ret. split; [done|]. by intros runs [= <-]. }
  simpl. apply wp_bind. unfold scheduleRunsStep at 1, scheduleRunsOf. rewrite filter_cons.
  destruct (agentRunBelongsToSchedule r schedule) eqn:Eb; simpl.
  2:{ apply wp_ret. by apply IH. }
  destruct (detachAgentRunControllerOwner _ _ _ _ _) as [removed r'] eqn:Ed.
  assert (detached schedule r = r') as Hd by (unfold detached; by rewrite Ed).
  rewrite Hd.
  apply wp_bind. destruct removed; [|by apply wp_ret, wp_ret, IH].
  apply wp_bind, wp_try. unfold wp at 1. destruct (patchRunOwners _ _ w1) as [w2 x] eqn:E; simpl.
  assert (quietly w w2) as Hq2.
  { unfold quietly in *. rewrite Hq. by destruct (patchOwners_unchanged _ _ _ _ _ E). }
  destruct x; [by apply wp_fail|]. by apply wp_ret, wp_ret, IH.
Qed.

(** The request a reconciliation makes. *)
Definition requestOf (obj : AgentSchedule) (now due : Time) (app last : string) (manual : bool) :
    agentScheduleRunRequest :=
  (if manual
   then agentScheduleManualRunRequest obj (agentScheduleManualRunToken obj)
          (agentScheduleManualRunTemplateName obj) now
   else agentScheduleIntervalRunRequest obj due last) <| req_ApplicationName := app |>.

(** [sent] is the run of a request, made from a template of the schedule. *)
Definition sentFor (obj : AgentSchedule) (now : Time) (request : agentScheduleRunRequest)
    (sent : AgentRun) : Prop :=
  ∃ template name spec,
    agentScheduleSelectedRunTemplate obj (req_TemplateName request) = inr (template, name)
    ∧ scheduledSpec obj (request <| req_TemplateName := name |>) now template = inr spec
    ∧ sent = scheduledRun obj (request <| req_TemplateName := name |>) now spec.

(** *** When a run is due *)

(** The newest of the runs of a schedule. *)
Definition newestOf (runs : list AgentRun) (newest : option AgentRun) : Prop :=
  match newest with
  | None => runs = []
  | Some r => r ∈ runs ∧ ∀ r', r' ∈ runs → run_CreationTimestamp r' ≤ run_CreationTimestamp r
  end.
(** When the schedule ran last: its newest run tells, or else its status. *)
Definition lastStart (obj : AgentSchedule) (newest : option AgentRun) : option Time :=
  match newest ≫= λ r, st_StartedAt (run_Status r) with
  | Some t => Some t
  | None => sst_LastRunAt (sched_Status obj)
  end.
(** No time is planned, or the schedule was edited since it was planned. *)
Definition replanned (obj : AgentSchedule) : Prop :=
  sst_NextRunAt (sched_Status obj) = None
  ∨ sst_ObservedGeneration (sched_Status obj) ≠ 0 ∧ sst_ObservedGeneration (sched_Status obj) ≠ sched_Generation obj.

(** The time on the cadence: the one that is planned, or else one interval after the
    last start; the first run of a schedule is due after its initial delay, or at
    once. *)
Inductive slot (obj : AgentSchedule) (now : Time) (newest : option AgentRun) : Time → Prop :=
  | slot_planned t : sst_NextRunAt (sched_Status obj) = Some t → ¬ replanned obj → slot obj now newest t
  | slot_interval t :
      replanned obj → lastStart obj newest = Some t →
      slot obj now newest (t + seconds (sp_IntervalSeconds (sched_Spec obj)))
  | slot_delayed :
      replanned obj → lastStart obj newest = None → 0 < sp_InitialDelaySeconds (sched_Spec obj) →
      slot obj now newest (sched_CreationTimestamp obj + seconds (sp_InitialDelaySeconds (sched_Spec obj)))
  | slot_first :
      replanned obj → lastStart obj newest = None → sp_InitialDelaySeconds (sched_Spec obj) ≤ 0 → slot obj now newest now.

(** The end of the pause after a newest run that failed or needs a human. *)
Definition backoffEnd (obj : AgentSchedule) (newest : option AgentRun) (until : Time) : Prop :=
  ∃ backoff r delay, sp_Backoff (sched_Spec obj) = Some backoff ∧ newest = Some r
    ∧ (run_Phase r = AgentRunPhaseFailed ∧ delay = sbo_FailedSeconds backoff
       ∨ run_Phase r = AgentRunPhaseNeedsHuman ∧ delay = sbo_NeedsHumanSeconds backoff)
    ∧ 0 < delay ∧ IsZero (terminalAt r) = false ∧ until = terminalAt r + seconds delay.

(** The due time is the later of the two. *)
Definition dueTime (obj : AgentSchedule) (now : Time) (newest : option AgentRun) (due : Time) : Prop :=
  (∃ t, slot obj now newest t ∧ t ≤ due ∧ (due = t ∨ backoffEnd obj newest due))
  ∧ ∀ until, backoffEnd obj newest until → until ≤ due.

Lemma gather_last now runs acc :
  let out := fold_left (gatherRun (Truncate now Day)) runs acc in
  match sr_last out with
  | None => sr_last acc = None ∧ runs = []
  | Some r => (sr_last acc = Some r ∨ r ∈ runs)
      ∧ (∀ r', r' ∈ runs ∨ sr_last acc = Some r' → run_CreationTimestamp r' ≤ run_CreationTimestamp r)
  end.
Proof.
  revert acc. induction runs as [|r runs IH]; intros acc; cbn [fold_left].
  { destruct (sr_last acc) eqn:E; [|done]. split; [by left|]. intros r' [Hn|[= ->]]; [by apply elem_of_nil in Hn|lia]. }
  specialize (IH (gatherRun (Truncate now Day) acc r)). cbn zeta in IH |- *. destruct (sr_last (fold_left _ _ _)) as [x|].
  2:{ destruct IH as [IH _]. unfold gatherRun in IH. cbn in IH. by repeat case_match. }
  destruct IH as [Hin Hmax]. unfold gatherRun in Hin, Hmax. cbn in Hin, Hmax. destruct (sr_last acc) as [l|] eqn:El.
  - unfold After in *. destruct (Z.ltb_spec (run_CreationTimestamp l) (run_CreationTimestamp r)) as [Hlt|Hge].
    + split; [destruct Hin as [[= ->]|?]; right; set_solver|].
      intros r' [[->|?]%elem_of_cons|[= <-]]; [auto|auto|]. pose proof (Hmax r (or_intror eq_refl)). lia.
    + split; [destruct Hin as [[= ->]|?]; [by left|right; set_solver]|].
      intros r' [[->|?]%elem_of_cons|[= <-]]; [|auto|auto]. pose proof (Hmax l (or_intror eq_refl)). lia.
  - split; [destruct Hin as [[= ->]|?]; right; set_solver|]. intros r' [[->|?]%elem_of_cons|?]; auto; done.
Qed.

Lemma gathered_last schedule now items :
  ∃ newest, newestOf (scheduleRunsOf schedule items) newest
    ∧ sr_last (gathered schedule now items) = detached schedule <$> newest.
Proof.
  unfold gathered. pose proof (gather_last now (map (detached schedule) (scheduleRunsOf schedule items))
    (mkScheduleRuns [] None None 0)) as Hl. cbn zeta in Hl. destruct (sr_last _) as [x|].
  - destruct Hl as [[?|(r & -> & Hr)%list_elem_of_fmap] Hmax]; [done|]. exists (Some r). split; [|done]. split; [done|].
    intros r' Hr'. specialize (Hmax (detached schedule r') (or_introl (list_elem_of_fmap_2 _ _ _ Hr'))).
    pose proof (detached_core schedule r) as [= _ _ _ _ _ Hc0 _ _]. pose proof (detached_core schedule r') as [= _ _ _ _ _ Hc _ _].
    by rewrite Hc, Hc0 in Hmax.
  - destruct Hl as [_ Hl%map_eq_nil]. by exists None.
Qed.

(** The reasons to create a run for the schedule [obj] read in [w]; [w1] is the
    state in which the run is created. *)
Record scheduleJustified (obj : AgentSchedule) (now : Time) (w w1 : W) (sent : AgentRun) : Prop := {
  sj_live : setTime (meta_DeletionTimestamp (sched_ObjectMeta obj)) = None;
  sj_resumed : sp_Suspend (sched_Spec obj) = false;
  sj_valid : scheduleSpecError obj = None;
  sj_unpaused : ∃ app, resolveAgentScheduleApplicationName obj w = inr app
    ∧ snd (activeAgentRunPauseForApplication app now w1) = inr None;
  sj_runs : ∃ items,
    listRuns (Some (sched_Namespace obj))
      (Some (agentRunScheduleLabel, sanitizeLabelValue (sched_Name obj))) w = inr items
    ∧ let mine := scheduleRunsOf obj items in
      let active := filter (λ r, agentRunPhaseTerminal (run_Phase r) = false) mine in
      (agentScheduleConcurrencyPolicy obj = AgentScheduleConcurrencyForbid → active = [])
      ∧ (agentScheduleConcurrencyPolicy obj = AgentScheduleConcurrencyAllow →
         0 < agentScheduleMaxConcurrentRuns obj →
         Z.of_nat (length active) < agentScheduleMaxConcurrentRuns obj)
      ∧ (0 < sp_MaxRunsPerDay (sched_Spec obj) →
         Z.of_nat (length (filter (λ r, createdToday now r = true) mine))
         < sp_MaxRunsPerDay (sched_Spec obj));
  sj_due : ∃ due app last manual, sentFor obj now (requestOf obj now due app last manual) sent
    ∧ if manual : bool
      then agentScheduleManualRunToken obj ≠ ""
           ∧ agentScheduleManualRunToken obj ≠ sst_LastManualRunToken (sched_Status obj)
      else due ≤ now
           ∧ agentScheduleIntervalRunForMessage obj (agentScheduleIntervalTriggerMessage obj due) w1
             = inr None
           ∧ ∃ items newest,
               listRuns (Some (sched_Namespace obj))
                 (Some (agentRunScheduleLabel, sanitizeLabelValue (sched_Name obj))) w = inr items
               ∧ newestOf (scheduleRunsOf obj items) newest ∧ dueTime obj now newest due }.

Lemma createScheduled_launches (P : W → AgentRun → Prop) obj now request w :
  (∀ sent, sentFor obj now request sent → P w sent) →
  wp (createScheduledAgentRun obj now request) (λ _ w', launches P w w') w.
Proof.
  intros HP. unfold createScheduledAgentRun.
  destruct (agentScheduleSelectedRunTemplate _ _) as [e|[template name]] eqn:Et;
    [by apply wp_fail; left|].
  destruct (scheduledSpec _ _ _ _) as [e|spec] eqn:Es; [by apply wp_fail; left|].
  apply wp_bind, wp_try. eapply wp_mono; [apply createRun_launches, HP; by exists template, name, spec|].
  intros [err|run] w' Hl; [|by apply wp_ret].
  destruct (negb _); [by apply wp_fail|]. apply wp_bind, wp_read.
  destruct (getRun _ _ w') as [e|run]; [done|].
  destruct (validateScheduledAgentRun _ _ _); [by apply wp_fail|by apply wp_ret].
Qed.

Lemma schedulePatch_launches P obj s d w :
  wp (patchAgentScheduleStatus obj s d) (λ _ w', launches P w w') w.
Proof.
  apply wp_bind, wp_try. unfold wp at 1.
  destruct (patchScheduleStatus _ s w) as [w' x] eqn:E; simpl.
  assert (launches P w w') by (left; unfold quietly, runsOf;
    by rewrite (patchScheduleStatus_runs _ _ _ _ _ E)).
  destruct x as [err|[]]; [destruct (IsConflict err)|destruct (0 <? d)];
    first [by apply wp_ret|by apply wp_fail].
Qed.

Lemma launchScheduled_launches (P : W → AgentRun → Prop) obj now policy app runs manual due s w :
  (∀ sent, sentFor obj now (requestOf obj now due app (lastIntervalTemplate runs) manual) sent →
     P w sent) →
  wp (launchScheduled obj now policy app runs manual (agentScheduleManualRunToken obj) due s)
    (λ _ w', launches P w w') w.
Proof.
  intros HP. unfold launchScheduled. apply wp_bind.
  eapply wp_mono; [apply (createScheduled_launches P); exact HP|].
  intros [e|[run name]] w' Hl; [done|].
  destruct (agentScheduleNextRunAfterCreation _ _ _ _) as [e|next]; [by apply wp_fail|].
  eapply wp_mono; [apply (schedulePatch_launches (λ _ _, False))|].
  intros x w2 [Hq|(w3 & sent & r & _ & [] & _)]. by eapply launches_quiet_r.
Qed.

(** What the wait states leave open. *)
Lemma forbidden_open obj now policy runs manual token due s :
  scheduleForbidden obj now policy runs manual token due s = inr None →
  policy = AgentScheduleConcurrencyForbid → sr_active runs = [].
Proof.
  unfold scheduleForbidden. intros Hw Hp. rewrite bool_decide_eq_true_2 in Hw by done.
  destruct (agentScheduleActiveRunForStatus policy (sr_active runs)) eqn:Ea;
    [by repeat case_match|by eapply activeForStatus_none].
Qed.

Lemma full_open obj now policy runs manual token s :
  scheduleFull obj now policy runs manual token s = None →
  policy = AgentScheduleConcurrencyAllow → 0 < agentScheduleMaxConcurrentRuns obj →
  Z.of_nat (length (sr_active runs)) < agentScheduleMaxConcurrentRuns obj.
Proof.
  unfold scheduleFull. intros Hw Hp Hm. rewrite bool_decide_eq_true_2 in Hw by done. simpl in Hw.
  rewrite (proj2 (Z.ltb_lt _ _) Hm) in Hw. simpl in Hw. by destruct (Z.leb_spec
    (agentScheduleMaxConcurrentRuns obj) (Z.of_nat (length (sr_active runs)))).
Qed.

Lemma budget_open obj now runs manual token s :
  scheduleBudget obj now runs manual token s = None → 0 < sp_MaxRunsPerDay (sched_Spec obj) →
  sr_runsToday runs < sp_MaxRunsPerDay (sched_Spec obj).
Proof.
  unfold scheduleBudget. intros Hw Hm. rewrite (proj2 (Z.ltb_lt _ _) Hm) in Hw. simpl in Hw.
  by destruct (Z.leb_spec (sp_MaxRunsPerDay (sched_Spec obj)) (sr_runsToday runs)).
Qed.

Lemma notDue_open obj now policy runs manual due backedOff s :
  scheduleNotDue obj now policy runs manual due backedOff s = None → manual = false → due ≤ now.
Proof.
  unfold scheduleNotDue, After. intros Hw ->. simpl in Hw.
  destruct (Z.ltb_spec now due); [by repeat case_match|done].
Qed.

(** The schedule was edited since its status was written. *)
Definition edited (obj : AgentSchedule) : bool :=
  bool_decide (sst_ObservedGeneration (sched_Status obj) ≠ 0)
  && bool_decide (sst_ObservedGeneration (sched_Status obj) ≠ sched_Generation obj).
(** The status a reconciliation starts from. *)
Definition observed (obj : AgentSchedule) (now : Time) (items : list AgentRun) : AgentScheduleStatus :=
  observeRuns (agentScheduleConcurrencyPolicy obj) (gathered obj now items)
    ((sched_Status obj) <| sst_ObservedGeneration := sched_Generation obj |>).

Lemma observed_last obj now items newest :
  sr_last (gathered obj now items) = detached obj <$> newest →
  sst_NextRunAt (observed obj now items) = sst_NextRunAt (sched_Status obj)
  ∧ sst_LastRunAt (observed obj now items) = lastStart obj newest.
Proof.
  intros Hl. unfold observed, observeRuns, lastStart. rewrite Hl. destruct newest as [r|]; [|done]. cbn.
  pose proof (detached_core obj r) as [= _ _ _ _ _ _ _ ->]. by destruct (st_StartedAt (run_Status r)).
Qed.
Lemma next_slot obj now items newest :
  sr_last (gathered obj now items) = detached obj <$> newest →
  slot obj now newest (agentScheduleNextRunTime obj (observed obj now items) now (edited obj)).
Proof.
  intros Hl. destruct (observed_last _ _ _ _ Hl) as [En Es]. unfold agentScheduleNextRunTime. rewrite En, Es.
  assert (replanned obj → slot obj now newest match lastStart obj newest with
    | Some t => Add t (seconds (sp_IntervalSeconds (sched_Spec obj)))
    | None => if 0 <? sp_InitialDelaySeconds (sched_Spec obj)
              then Add (sched_CreationTimestamp obj) (seconds (sp_InitialDelaySeconds (sched_Spec obj))) else now
    end) as Hr.
  { intros Hr. destruct (lastStart obj newest) eqn:El; [by apply slot_interval|].
    destruct (Z.ltb_spec 0 (sp_InitialDelaySeconds (sched_Spec obj))); [by apply slot_delayed|by apply slot_first]. }
  destruct (sst_NextRunAt (sched_Status obj)) as [t|] eqn:Et; [|apply Hr; by left].
  destruct (edited obj) eqn:Ee; unfold edited in Ee; [apply Hr; right; by bool_props|].
  apply slot_planned; [done|]. intros [Hn|[H1 H2]]; [congruence|].
  by rewrite !bool_decide_eq_true_2 in Ee.
Qed.
Lemma later_of_backoff obj now newest t due backedOff :
  slot obj now newest t → agentScheduleNextRunWithTerminalBackoff obj (detached obj <$> newest) t = (due, backedOff) →
  dueTime obj now newest due.
Proof.
  intros Hs. assert ((∀ until, ¬ backoffEnd obj newest until) → dueTime obj now newest t) as Hno.
  { intros Hn. split; [exists t; split_and!; [done|lia|by left]|]. intros til Hu. by destruct (Hn til). }
  unfold agentScheduleNextRunWithTerminalBackoff. destruct (sp_Backoff (sched_Spec obj)) as [backoff|] eqn:Eb.
  2:{ intros [= <- _]. apply Hno. by intros til (? & ? & ? & ? & _); simplify_eq. }
  destruct newest as [r|]; cbn [fmap option_fmap option_map].
  2:{ intros [= <- _]. apply Hno. by intros til (? & ? & ? & ? & ? & _). }
  assert (run_Phase (detached obj r) = run_Phase r ∧ terminalAt (detached obj r) = terminalAt r) as [-> ->].
  { pose proof (detached_core obj r) as [= _ _ _ _ _ Hc _ Hst]. unfold terminalAt, run_Phase. by rewrite Hc, Hst. }
  assert (∀ until, backoffEnd obj (Some r) until → ∃ delay, scheduleBackoffSeconds backoff (run_Phase r) = Some delay
    ∧ 0 < delay ∧ IsZero (terminalAt r) = false ∧ until = terminalAt r + seconds delay) as Hinv.
  { intros til (b & r' & delay & E1 & [= <-] & Hp & Hd & Hz & ->). simplify_eq. exists delay. split_and!; try done.
    unfold scheduleBackoffSeconds. destruct Hp as [[-> ->]|[-> ->]]; by vm_compute. }
  destruct (scheduleBackoffSeconds backoff (run_Phase r)) as [delay|] eqn:Ed.
  2:{ intros [= <- _]. apply Hno. by intros til (? & ? & _)%Hinv. }
  destruct (Z.leb_spec delay 0) as [|Hpos].
  { intros [= <- _]. apply Hno. intros til (? & [= <-] & ? & _)%Hinv. lia. }
  destruct (IsZero (terminalAt r)) eqn:Ez.
  { intros [= <- _]. apply Hno. by intros til (? & _ & _ & ? & _)%Hinv. }
  assert (backoffEnd obj (Some r) (terminalAt r + seconds delay)) as Hend.
  { exists backoff, r, delay. split_and!; try done. unfold scheduleBackoffSeconds in Ed.
    case_bool_decide; [left|case_bool_decide; [right|done]]; by injection Ed as <-. }
  unfold After, Add. destruct (Z.ltb_spec t (terminalAt r + seconds delay)) as [Hlt|Hge]; intros [= <- _].
  - split; [exists t; split_and!; [done|lia|by right]|]. intros til (? & [= <-] & _ & _ & ->)%Hinv. lia.
  - split; [exists t; split_and!; [done|lia|by left]|]. intros til (? & [= <-] & _ & _ & ->)%Hinv. lia.
Qed.

Lemma scheduleDue_launches obj now app items manual (w w1 : W) :
  setTime (meta_DeletionTimestamp (sched_ObjectMeta obj)) = None →
  sp_Suspend (sched_Spec obj) = false → scheduleSpecError obj = None →
  resolveAgentScheduleApplicationName obj w = inr app →
  snd (activeAgentRunPauseForApplication app now w1) = inr None →
  listRuns (Some (sched_Namespace obj))
    (Some (agentRunScheduleLabel, sanitizeLabelValue (sched_Name obj))) w = inr items →
  (manual = true → agentScheduleManualRunToken obj ≠ ""
     ∧ agentScheduleManualRunToken obj ≠ sst_LastManualRunToken (sched_Status obj)) →
  wp (scheduleDue obj now app (gathered obj now items) (edited obj) manual
        (agentScheduleManualRunToken obj) (observed obj now items))
    (λ _ w', launches (scheduleJustified obj now w) w1 w') w1.
Proof.
  intros Hdel Hsus Herr Happ Hpause Hitems Hmanual. unfold scheduleDue.
  destruct (gathered_last obj now items) as (newest & Hnewest & Hlast). rewrite Hlast.
  destruct (agentScheduleNextRunWithTerminalBackoff _ _ _) as [due backedOff] eqn:Edue.
  apply (later_of_backoff _ now) in Edue; [|by apply next_slot].
  destruct (scheduleForbidden _ _ _ _ _ _ _ _) as [e|[s'|]] eqn:Ef;
    [by apply wp_fail; left|apply schedulePatch_launches|].
  destruct (scheduleFull _ _ _ _ _ _ _) as [[]|] eqn:Efull; [apply schedulePatch_launches|].
  destruct (scheduleNotDue _ _ _ _ _ _ _ _) as [[]|] eqn:End; [apply schedulePatch_launches|].
  destruct (scheduleBudget _ _ _ _ _ _) as [[]|] eqn:Eb; [apply schedulePatch_launches|].
  destruct (gathered_spec obj now items) as [Hact Htoday].
  assert (∀ sent last, sentFor obj now (requestOf obj now due app last manual) sent →
    (manual = false → agentScheduleIntervalRunForMessage obj
       (agentScheduleIntervalTriggerMessage obj due) w1 = inr None) →
    scheduleJustified obj now w w1 sent) as Hj.
  { intros sent last Hsent Hfresh. split; try done; [by exists app| |].
    - exists items. split; [done|]. split_and!.
      + intros Hp. eapply forbidden_open in Ef; [|done]. rewrite Hact in Ef.
        by destruct (filter _ _).
      + intros Hp Hm. eapply full_open in Efull; [|done|done].
        by rewrite Hact, length_map in Efull.
      + intros Hm. eapply budget_open in Eb; [|done]. by rewrite Htoday in Eb.
    - exists due, app, last, manual. split; [done|]. destruct manual; [by apply Hmanual|].
      split_and!; [by eapply notDue_open|by apply Hfresh|by exists items, newest]. }
  destruct manual.
  - apply launchScheduled_launches. intros sent Hs. by eapply Hj.
  - apply wp_bind, wp_read.
    destruct (agentScheduleIntervalRunForMessage _ _ w1) as [e|[r|]] eqn:Ei; [by left| |].
    + unfold skipCreatedDue. destruct (agentScheduleNextRunAfterCreation _ _ _ _);
        [by apply wp_fail; left|apply schedulePatch_launches].
    + apply launchScheduled_launches. intros sent Hs. by eapply Hj.
Qed.

(** C7: a reconciliation of a schedule creates at most one run, and only when
    the schedule is live, not suspended and valid, its application is not paused,
    the policy leaves room (Forbid: no active run of the schedule; Allow: fewer
    than the limit), fewer runs than the daily budget were created today, and the
    run was nudged with a fresh token or is due and no run for that due time exists
    yet.  The due time is the one on the cadence (the planned time, or one interval
    after the last start when none is planned or the schedule was edited; the first
    run after the initial delay), and no earlier than the end of the backoff after a
    newest run that failed or needs a human. *)
Theorem schedule_launch_justified ns name now (w w' : W) obj x :
  getSchedule ns name w = inr obj → reconcileSchedule ns name now w = (w', x) →
  launches (scheduleJustified obj now w) w w'.
Proof.
  intros Hget Hrec. refine (wp_elim _ (λ _ w', launches _ w w') _ _ _ _ Hrec).
  unfold reconcileSchedule. apply wp_bind, wp_try, wp_read. rewrite Hget.
  case_bool_decide as Hdel; [by apply wp_ret; left|].
  destruct (sp_Suspend _) eqn:Esus; [apply schedulePatch_launches|].
  destruct (scheduleSpecError obj) as [[]|] eqn:Eerr; [apply schedulePatch_launches|].
  apply wp_bind, wp_try, wp_read.
  destruct (resolveAgentScheduleApplicationName obj w) as [e|app] eqn:Eapp;
    [apply schedulePatch_launches|].
  apply wp_bind. eapply wp_mono; [apply wp_scheduleRuns|].
  intros [e|runs] w1 [Hq Hruns]; [by left|].
  destruct (Hruns runs eq_refl) as (items & Hitems & ->). clear Hruns.
  eapply (wp_mono _ (λ _ w', launches (scheduleJustified obj now w) w1 w'));
    [|intros y w2; by apply launches_quiet_l].
  apply wp_bind. unfold wp at 1. rewrite pause_gate_read.
  destruct (activeAgentRunPauseForApplication app now w1).2 as [e|[p|]] eqn:Ep;
    [by left|apply schedulePatch_launches|].
  apply scheduleDue_launches; try done. intros Hm. bool_props. done.
Qed.
End launch.

(** ** Witness *)

#[local] Existing Instance fx_marshal_spec.

Definition fx_nightly : AgentSchedule :=
  fx_schedule "agents" "nightly" "" (zero_AgentScheduleSpec <| sp_IntervalSeconds := 3600 |>
    <| sp_ApplicationRef := Some (mkApplicationReferenceSpec "shop") |>
    <| sp_RunTemplate := fx_spec "shop" |>).
Definition fx_nightly_world : MemCluster := fx_cluster [] [] [fx_nightly] [].
Definition fx_nightly_ran : MemCluster :=
  fst (reconcileSchedule "agents" "nightly" fx_epoch fx_nightly_world).

(** The reconciliation of the witness does create a run. *)
Example fx_nightly_creates : length (ok_list (listRuns None None fx_nightly_ran)) = 1%nat.
Proof. vm_compute; reflexivity. Qed.

Lemma schedule_launch_justified_witness :
  launches (scheduleJustified fx_nightly fx_epoch fx_nightly_world) fx_nightly_world fx_nightly_ran.
Proof.
  refine (schedule_launch_justified "agents" "nightly" fx_epoch fx_nightly_world fx_nightly_ran
    fx_nightly _ _ (surjective_pairing _)).
  vm_compute; reflexivity.
Defined.
