(* ===== verification/AdverseReconcile.v ===== *)
(** * Reconciling adverse signals, sources and situations

    The handlers of src/internal/controller/adverse_signal_controller.go and
    adverse_situation_controller.go.

    [reconcileSignal] delivers a signal to its situation: it installs a finalizer,
    records the report with a receipt, marks the signal as accepted, and only then
    clears the receipt and removes the finalizer, so that a crash at any point leaves
    enough behind to go on without counting the report again.  [reconcileTrigger]
    records the adverse states of watched objects.  [reconcileSituation] starts the
    responder of a situation and resolves the situation when it has been quiet. *)

From stdpp Require Import base list gmap strings.
From Stdlib Require Import ZArith Lia.
From S2P Require Import Prelude GoStrings GoTime Names ApiRun ApiWork ApiAdverse Kube RunControl ChainReconcile RunJob RunLaunch SpecEq Adverse.

Open Scope Z_scope.

Definition sig_key (s : AdverseSignal) : key := (sig_Namespace s, sig_Name s).
Definition sit_key (s : AdverseSituation) : key := (sit_Namespace s, sit_Name s).

(** The client of the controllers, beside [Client].  [patchSituationStatus k base s]
    and [patchSignalStatus k base s] are the merge patches that lead from the status
    [base] to [s]; patches return the object as stored. *)
Class AdverseClient (W : Type) := {
  getSignal : string → string → W → GoErr + AdverseSignal;
  patchSignalFinalizers : key → list string → M W GoErr AdverseSignal;
  patchSignalStatus : key → AdverseSignalStatus → AdverseSignalStatus → M W GoErr AdverseSignal;
  readSituation : string → string → W → GoErr + AdverseSituation;
  createSituation : AdverseSituation → M W GoErr AdverseSituation;
  patchSituationStatus : key → AdverseSituationStatus → AdverseSituationStatus → M W GoErr AdverseSituation;
  getSource : GroupVersionKind → string → string → W → GoErr + SourceObject }.

(** Go: [result.Requeue || result.RequeueAfter > 0]. *)
Definition again (r : Result) : bool := Requeue r || (0 <? RequeueAfter r).
Definition deletes (meta : ObjectMeta) : bool := isSet (setTime (meta_DeletionTimestamp meta)).

(** ** Signals *)

Definition adverseSignalValidationError (signal : AdverseSignal) : option (string * string) :=
  let spec := sig_Spec signal in
  if blank (lor_Name (asp_SituationRef spec)) then Some ("InvalidSituationRef", "spec.situationRef.name is required.")
  else if blank (src_Kind (asp_SourceRef spec)) || blank (src_Name (asp_SourceRef spec))
  then Some ("InvalidSourceRef", "spec.sourceRef.kind and spec.sourceRef.name are required.")
  else if blank (atr_Reason (asp_Trigger spec)) then Some ("InvalidTrigger", "spec.trigger.reason is required.")
  else None.

Definition adverseSignalReportID (signal : AdverseSignal) : string :=
  shortHash ("adverse-signal-report/" +:+ firstNonEmpty [sig_UID signal; at_ (sig_Namespace signal) (sig_Name signal)]).

Definition adverseSignalStatusEventID (signal : AdverseSignal) (situationUID : string) : string :=
  let spec := sig_Spec signal in
  let source := asp_SourceRef spec in
  let trigger := asp_Trigger spec in
  let dedupeKey :=
    if blank (asp_DedupeKey spec)
    then Join [src_APIVersion source; src_Kind source; src_Namespace source; src_Name source;
               atr_Phase trigger; atr_ConditionType trigger; atr_Reason trigger] "/"
    else TrimSpace (asp_DedupeKey spec) in
  shortHash ("adverse-signal-event/" +:+ situationUID +:+ "/" +:+ dedupeKey).

Definition adverseSignalEvent (signal : AdverseSignal) (situation : AdverseSituation) : AdverseSituationEvent :=
  let spec := sig_Spec signal in
  let trigger := asp_Trigger spec in
  zero_AdverseSituationEvent
    <| aev_ID := adverseSignalStatusEventID signal (sit_UID situation) |>
    <| aev_SignalRef := Some (mkNamespacedObjectReference (sig_Name signal) (sig_Namespace signal)) |>
    <| aev_SourceRef := asp_SourceRef spec |> <| aev_SourceUID := TrimSpace (asp_SourceUID spec) |>
    <| aev_SourceURL := TrimSpace (asp_SourceURL spec) |>
    <| aev_SourceGeneration := atr_ObservedGeneration trigger |>
    <| aev_Phase := TrimSpace (atr_Phase trigger) |> <| aev_ConditionType := TrimSpace (atr_ConditionType trigger) |>
    <| aev_ConditionStatus := atr_ConditionStatus trigger |> <| aev_Reason := TrimSpace (atr_Reason trigger) |>
    <| aev_Message := TrimSpace (atr_Message trigger) |>
    <| aev_ResourceVersion := TrimSpace (atr_ResourceVersion trigger) |>
    <| aev_ObservedAt := atr_ObservedAt trigger |>.

Definition hasReceiptFinalizer (signal : AdverseSignal) : bool :=
  bool_decide (adverseSignalReceiptFinalizer ∈ meta_Finalizers (sig_ObjectMeta signal)).

(** The receipts of a report are taken out of the buffer. *)
Definition withoutReceipt (reportID : string) (status : AdverseSituationStatus) : AdverseSituationStatus :=
  status <| sis_Events := map (λ event, event <| aev_ReportIDs := filter (λ r, r ≠ reportID) (aev_ReportIDs event) |>)
                            (sis_Events status) |>.

Section signals.
Context {W : Type} `{AdverseClient W, Conditions}.
Local Open Scope go_scope.

(** A status that a delivery ends in; [accepted] is the situation, its UID, the
    sequence and the time. *)
Definition signalStatus (signal : AdverseSignal) (phase conditionStatus reason message : string)
    (accepted : option (NamespacedObjectReference * string * Z * Time)) (now : Time) : AdverseSignalStatus :=
  let '(ref, uid, sequence, acceptedAt) :=
    match accepted with
    | Some (ref, uid, sequence, time) => (Some ref, uid, sequence, Some time)
    | None => (None, "", 0, None)
    end in
  (sig_Status signal) <| ast_ObservedGeneration := sig_Generation signal |> <| ast_Phase := phase |>
    <| ast_SituationRef := ref |> <| ast_SituationUID := uid |> <| ast_SituationSequence := sequence |>
    <| ast_AcceptedAt := acceptedAt |>
    <| ast_EventID := if bool_decide (phase = AdverseSignalPhaseAccepted)
                      then adverseSignalStatusEventID signal uid else "" |>
    <| ast_Conditions := SetStatusCondition (ast_Conditions (sig_Status signal))
         (mkCondition adverseSignalAccepted conditionStatus (sig_Generation signal) now reason message) |>.

(** The result, and the signal as it is afterwards. *)
Definition patchAdverseSignalStatus (signal : AdverseSignal) (status : AdverseSignalStatus) (requeueAfter : Duration) :
    M W GoErr (Result * AdverseSignal) :=
  let* patched := mtry (patchSignalStatus (sig_key signal) (sig_Status signal) status) in
  match patched with
  | inl e => if IsConflict e then mret (requeueNow, signal <| sig_Status := status |>) else mfail e
  | inr signal => mret (if 0 <? requeueAfter then mkResult false requeueAfter else Done, signal)
  end.

Definition pendingSignal (signal : AdverseSignal) (reason message : string) (now : Time) : M W GoErr Result :=
  let* patched := patchAdverseSignalStatus signal
    (signalStatus signal AdverseSignalPhasePending ConditionFalse reason message None now)
    adverseSignalPendingRequeue in
  mret (fst patched).

Definition clearReceiptOf (signal : AdverseSignal) (situation : AdverseSituation) : M W GoErr Result :=
  let uid := ast_SituationUID (sig_Status signal) in
  if negb (bool_decide (uid = "")) && negb (bool_decide (sit_UID situation = uid)) then mret Done else
  let reportID := adverseSignalReportID signal in
  let status := sit_Status situation in
  if negb (bool_decide (reportID ∈ receipts status)) then mret Done else
  let* patched := mtry (patchSituationStatus (sit_key situation) status (withoutReceipt reportID status)) in
  match patched with
  | inl e => if IsConflict e then mret requeueNow else mfail (ErrWrap "clear AdverseSignal receipt" e)
  | inr _ => mret Done
  end.

Definition clearAdverseSignalReceipt (signal : AdverseSignal) (situation : option AdverseSituation) :
    M W GoErr Result :=
  match situation with
  | Some situation => clearReceiptOf signal situation
  | None =>
      let recorded := match ast_SituationRef (sig_Status signal) with Some ref => TrimSpace (ref_Name ref) | None => "" end in
      let name := if bool_decide (recorded = "") then TrimSpace (lor_Name (asp_SituationRef (sig_Spec signal)))
                  else recorded in
      if bool_decide (name = "") then mret Done else
      let* got := mtry (mread (readSituation (sig_Namespace signal) name)) in
      match got with
      | inl e => if IsNotFound e then mret Done else mfail e
      | inr situation => clearReceiptOf signal situation
      end
  end.

Definition removeAdverseSignalFinalizer (k : key) : M W GoErr Result :=
  let* got := mtry (mread (getSignal k.1 k.2)) in
  match got with
  | inl e => if IsNotFound e then mret Done else mfail e
  | inr signal =>
      if negb (hasReceiptFinalizer signal) then mret Done else
      let* patched := mtry (patchSignalFinalizers (sig_key signal)
        (filter (λ f, f ≠ adverseSignalReceiptFinalizer) (meta_Finalizers (sig_ObjectMeta signal)))) in
      match patched with
      | inl e => if IsConflict e then mret requeueNow else mfail (ErrWrap "remove AdverseSignal receipt finalizer" e)
      | inr _ => mret Done
      end
  end.

(** The report is on record in the situation: accept the signal, then clear the
    receipt, then let the signal go. *)
Definition acceptSignal (signal : AdverseSignal) (situation : AdverseSituation) (sequence : Z) (clock : nat → Time) :
    M W GoErr Result :=
  let ref := mkNamespacedObjectReference (sit_Name situation) (sit_Namespace situation) in
  let* patched := patchAdverseSignalStatus signal
    (signalStatus signal AdverseSignalPhaseAccepted ConditionTrue "Recorded"
       ("Recorded in AdverseSituation " +:+ at_ (sit_Namespace situation) (sit_Name situation) +:+ " sequence "
          +:+ fmtZ sequence +:+ ".")
       (Some (ref, sit_UID situation, sequence, clock 0%nat)) (clock 1%nat)) 0 in
  let '(result, signal) := patched in
  if again result then mret result else
  let* result := clearAdverseSignalReceipt signal (Some situation) in
  if again result then mret result else removeAdverseSignalFinalizer (sig_key signal).

Definition deliverSignal (signal : AdverseSignal) (clock : nat → Time) : M W GoErr Result :=
  let name := TrimSpace (lor_Name (asp_SituationRef (sig_Spec signal))) in
  let* got := mtry (mread (readSituation (sig_Namespace signal) name)) in
  match got with
  | inl e =>
      if IsNotFound e
      then pendingSignal signal "SituationNotFound"
             ("Waiting for same-namespace AdverseSituation " +:+ at_ (sig_Namespace signal) name +:+ ".") (clock 0%nat)
      else mfail (ErrWrap "get AdverseSituation for signal" e)
  | inr situation =>
      let where_ := at_ (sit_Namespace situation) (sit_Name situation) in
      if deletes (sit_ObjectMeta situation)
      then pendingSignal signal "SituationDeleting" ("Waiting for a current AdverseSituation " +:+ where_ +:+ ".") (clock 0%nat)
      else
      let status := sit_Status situation in
      match adverseSituationRecordSignalEvent (adverseSignalEvent signal situation) (adverseSignalReportID signal)
              (adverseSituationBuffer situation) (clock 0%nat) status with
      | Refused => pendingSignal signal "SituationBusy"
          ("Waiting for delivery capacity in AdverseSituation " +:+ where_ +:+ ".") (clock 1%nat)
      | Recorded => acceptSignal signal situation (sis_Sequence status) (λ n, clock (S n))
      | Changed recorded =>
          let* patched := mtry (patchSituationStatus (sit_key situation) status
                                  (recorded <| sis_ObservedGeneration := sit_Generation situation |>)) in
          match patched with
          | inl e => if IsConflict e then mret requeueNow else mfail (ErrWrap "record AdverseSignal in situation" e)
          | inr situation => acceptSignal signal situation (sis_Sequence recorded) (λ n, clock (S n))
          end
      end
  end.

(** The receipt of a signal that is done with is cleared, and the signal let go. *)
Definition releaseSignal (signal : AdverseSignal) : M W GoErr Result :=
  let* result := clearAdverseSignalReceipt signal None in
  if again result then mret result
  else if negb (hasReceiptFinalizer signal) then mret Done
  else removeAdverseSignalFinalizer (sig_key signal).

(** [AdverseSignalReconciler.Reconcile] *)
Definition reconcileSignal (namespace name : string) (clock : nat → Time) : M W GoErr Result :=
  let* got := mtry (mread (getSignal namespace name)) in
  match got with
  | inl e => if IsNotFound e then mret Done else mfail e
  | inr signal =>
      let held := hasReceiptFinalizer signal in
      let phase := ast_Phase (sig_Status signal) in
      if deletes (sig_ObjectMeta signal) then
        if negb held then mret Done else releaseSignal signal
      else if bool_decide (phase = AdverseSignalPhaseAccepted) then releaseSignal signal
      else if bool_decide (phase = AdverseSignalPhaseRejected) then
        if negb held then mret Done else removeAdverseSignalFinalizer (sig_key signal)
      else if negb held then
        let* patched := mtry (patchSignalFinalizers (sig_key signal)
          (meta_Finalizers (sig_ObjectMeta signal) ++ [adverseSignalReceiptFinalizer])) in
        match patched with
        | inl e => if IsConflict e then mret requeueNow else mfail (ErrWrap "install AdverseSignal receipt finalizer" e)
        | inr _ => mret requeueNow
        end
      else match adverseSignalValidationError signal with
           | Some (reason, message) =>
               let* patched := patchAdverseSignalStatus signal
                 (signalStatus signal AdverseSignalPhaseRejected ConditionFalse reason message None (clock 0%nat)) 0 in
               mret (fst patched)
           | None => deliverSignal signal clock
           end
  end.
End signals.

(** ** Watched objects *)

Definition defaultAdverseSituation (namespace name : string) : AdverseSituation :=
  zero_AdverseSituation
    <| sit_ObjectMeta := zero_ObjectMeta <| meta_Name := name |> <| meta_Namespace := namespace |>
         <| meta_Labels := {[ adverseSituationGroupLabel := sanitizeLabelValue adverseSituationDefaultGroupKey ]} |> |>
    <| sit_Spec := zero_AdverseSituationSpec <| ssp_GroupKey := adverseSituationDefaultGroupKey |>
         <| ssp_Buffer := mkAdverseSituationBufferSpec adverseSituationDefaultQuietPeriodSeconds
              adverseSituationDefaultDedupeWindowSeconds adverseSituationDefaultPullRequestHoldSeconds
              adverseSituationDefaultMaxEvents |> |>.

(** The situation that is created for events of a group. *)
Definition groupSituation (namespace name groupKey : string) : AdverseSituation :=
  let situation := defaultAdverseSituation namespace name in
  situation <| sit_Spec := (sit_Spec situation) <| ssp_GroupKey := groupKey |> |>
    <| sit_ObjectMeta := (sit_ObjectMeta situation) <| meta_Labels :=
         <[adverseSituationGroupLabel := sanitizeLabelValue groupKey]> (meta_Labels (sit_ObjectMeta situation)) |> |>.

Section triggers.
Context {W : Type} `{AdverseClient W, Unstructured}.
Local Open Scope go_scope.

Definition ensureSituation (namespace name groupKey : string) : M W GoErr AdverseSituation :=
  let* got := mtry (mread (readSituation namespace name)) in
  match got with
  | inr situation => mret situation
  | inl e =>
      if negb (IsNotFound e) then mfail e else
      let* created := mtry (createSituation (groupSituation namespace name groupKey)) in
      match created with
      | inl e => if IsAlreadyExists e then mread (readSituation namespace name) else mfail e
      | inr _ => mread (readSituation namespace name)
      end
  end.

Definition recordSource (source : SourceObject) (integration : AdverseSourceConfig)
    (trigger : AgentRunTriggerSnapshot) (now : Time) : M W GoErr Result :=
  let '(namespace, name, groupKey) := adverseSituationRouteForSource source integration in
  let* situation := ensureSituation namespace name groupKey in
  let status := sit_Status situation in
  match adverseSituationRecordEvent source trigger (adverseSituationBuffer situation) now status with
  | None => mret (mkResult false adverseSituationPollInterval)
  | Some recorded =>
      let* patched := mtry (patchSituationStatus (sit_key situation) status
                              (recorded <| sis_ObservedGeneration := sit_Generation situation |>)) in
      match patched with
      | inl e => if IsConflict e then mret requeueNow else mfail e
      | inr _ => mret Done
      end
  end.

(** The configurations that fit the object, each route once. *)
Fixpoint recordSources (source : SourceObject) (recorded : list string) (integrations : list AdverseSourceConfig)
    (clock : nat → Time) : M W GoErr Result :=
  match integrations with
  | [] => mret Done
  | integration :: rest =>
      let next recorded := recordSources source recorded rest (λ n, clock (2 + n)%nat) in
      if negb (adverseSourceConfigMatches integration source) then next recorded else
      match agentRunTriggerForSourceWithClassifier source (sc_Classifier integration) (clock 0%nat) with
      | None => next recorded
      | Some trigger =>
          let '(namespace, name, _) := adverseSituationRouteForSource source integration in
          let routeKey := namespace +:+ "/" +:+ name +:+ "/" +:+ adverseSituationEventID source trigger in
          if bool_decide (routeKey ∈ recorded) then next recorded else
          let* result := recordSource source integration trigger (clock 1%nat) in
          if again result then mret result else next (routeKey :: recorded)
      end
  end.

(** [AdverseSituationTriggerReconciler.Reconcile] *)
Definition reconcileTrigger (gvk : GroupVersionKind) (sources : list AdverseSourceConfig) (namespace name : string)
    (clock : nat → Time) : M W GoErr Result :=
  let* got := mtry (mread (getSource gvk namespace name)) in
  match got with
  | inl e => if IsNotFound e then mret Done else mfail e
  | inr source =>
      if deletes (so_ObjectMeta source) then mret Done else recordSources source [] sources clock
  end.
End triggers.

(** ** Situations *)

Definition adverseSituationLastEvent (events : list AdverseSituationEvent) : AdverseSituationEvent :=
  default zero_AdverseSituationEvent (last events).

Definition adverseSituationOpenSummary (status : AdverseSituationStatus) : string :=
  match sis_Events status with
  | [] => "No adverse events have been recorded."
  | events =>
      let last := adverseSituationLastEvent events in
      "Adverse stream has " +:+ fmtZ (sis_EventCount status) +:+ " reports across " +:+ fmtNat (length events)
        +:+ " buffered events; latest " +:+ src_Kind (aev_SourceRef last) +:+ "/" +:+ src_Name (aev_SourceRef last)
        +:+ " reason=" +:+ firstNonEmpty [aev_Reason last; aev_Phase last; "unknown"] +:+ "."
  end.

Definition adverseSituationAgentRunEnabled (situation : AdverseSituation) : bool :=
  match rsps_AgentRun (ssp_Responders (sit_Spec situation)) with
  | Some responder => default false (resp_Enabled responder)
  | None => false
  end.

Definition adverseSituationCanResolve (status : AdverseSituationStatus) (run : option AgentRun) (now : Time) : bool :=
  match sis_QuietUntil status with Some t => negb (Before now t) | None => false end
  && match sis_PullRequestQuietUntil status with Some t => negb (Before now t) | None => true end
  && match run with Some run => agentRunPhaseTerminal (run_Phase run) | None => true end.

Definition adverseSituationNextRequeue (status : AdverseSituationStatus) (now : Time) : Duration :=
  fold_left (λ next value,
    match value with
    | Some t => if After t now && (0 <? Sub t now) && (Sub t now <? next) then Sub t now else next
    | None => next
    end) [sis_QuietUntil status; sis_PullRequestQuietUntil status] adverseSituationPollInterval.

Definition situationSourceRef (situation : AdverseSituation) : AgentRunSourceRef :=
  mkAgentRunSourceRef GroupVersion "AdverseSituation" (sit_Namespace situation) (sit_Name situation).

Definition adverseSituationAgentRunFor (situation : AdverseSituation) (name : string) : AgentRun :=
  let status := sit_Status situation in
  let base := zero_AgentRunSpec
    <| rs_Purpose := AgentRunPurposeAdverseSituation |> <| rs_SourceRef := situationSourceRef situation |>
    <| rs_SourceUID := sit_UID situation |> <| rs_SourceGeneration := sit_Generation situation |>
    <| rs_Trigger := mkAgentRunTriggerSnapshot (sis_Phase status) "" "" "AdverseSituationOpen"
         (adverseSituationOpenSummary status) (sis_ObservedGeneration status)
         (meta_ResourceVersion (sit_ObjectMeta situation))
         (aev_LastSeenAt (adverseSituationLastEvent (sis_Events status))) |>
    <| rs_SituationRef := Some (mkNamespacedObjectReference (sit_Name situation) (sit_Namespace situation)) |>
    <| rs_Harness := zero_AgentRunHarnessSpec <| har_Intent := AgentRunIntentObserve |> |> in
  let spec :=
    match rsps_AgentRun (ssp_Responders (sit_Spec situation)) with
    | None => base
    | Some r =>
        base <| rs_Harness := if blank (har_Intent (resp_Harness r))
                              then (resp_Harness r) <| har_Intent := AgentRunIntentObserve |> else resp_Harness r |>
          <| rs_Docs := resp_Docs r |> <| rs_IssueTracking := resp_IssueTracking r |>
          <| rs_Notifications := resp_Notifications r |> <| rs_ProfileRef := resp_ProfileRef r |>
          <| rs_HarnessProfileRef := resp_HarnessProfileRef r |> <| rs_SkillSets := resp_SkillSets r |>
          <| rs_ToolSets := resp_ToolSets r |> <| rs_Prompt := resp_Prompt r |> <| rs_Scope := resp_Scope r |>
    end in
  mkAgentRun (zero_ObjectMeta <| meta_Name := name |> <| meta_Namespace := sit_Namespace situation |>
      <| meta_Labels := {[ adverseSituationLabel := sanitizeLabelValue (sit_Name situation) ]} |>)
    spec zero_AgentRunStatus.

(** The run names the situation as its source. *)
Definition respondsTo (run : AgentRun) (situation : AdverseSituation) : bool :=
  bool_decide (run_Namespace run = sit_Namespace situation)
  && bool_decide (rs_Purpose (run_Spec run) = AgentRunPurposeAdverseSituation)
  && bool_decide (rs_SourceRef (run_Spec run) = situationSourceRef situation)
  && bool_decide (rs_SourceUID (run_Spec run) = sit_UID situation)
  && match rs_SituationRef (run_Spec run) with
     | Some ref => bool_decide (ref_Name ref = sit_Name situation)
                   && bool_decide (firstNonEmpty [ref_Namespace ref; run_Namespace run] = sit_Namespace situation)
     | None => false
     end.

Definition adverseSituationAgentRunMatches (run : AgentRun) (situation : AdverseSituation) : bool :=
  let expected := adverseSituationAgentRunFor situation (run_Name run) in
  respondsTo run situation && bool_decide (run_Spec run = run_Spec expected)
  && forallb (λ kv, bool_decide (mapGet (run_Labels run) kv.1 = kv.2)) (map_to_list (run_Labels expected)).

Definition adverseSituationAgentRunStableIdentityMatches (run : AgentRun) (situation : AdverseSituation) : bool :=
  respondsTo run situation
  && bool_decide (mapGet (run_Labels run) adverseSituationLabel = sanitizeLabelValue (sit_Name situation)).

Section situations.
Context {W : Type} `{Client W, AdverseClient W, Conditions, Marshal AgentRunSpec}.
Local Open Scope go_scope.

Definition detachAdverseSituationAgentRunOwners (situation : AdverseSituation) : M W GoErr unit :=
  let* listed := mtry (mread (listRuns (Some (sit_Namespace situation))
    (Some (adverseSituationLabel, sanitizeLabelValue (sit_Name situation))))) in
  match listed with
  | inl e => mfail (ErrWrap "list adverse responder AgentRuns for durable-history migration" e)
  | inr runs =>
      mforeach (λ _ run,
        let '(removed, detached) := detachAgentRunControllerOwner run GroupVersion "AdverseSituation"
                                      (sit_Name situation) (sit_UID situation) in
        if negb removed then mret tt else
        let* patched := mtry (patchRunOwners (run_key run) (meta_OwnerReferences (run_ObjectMeta detached))) in
        match patched with
        | inl e => mfail (ErrWrap ("detach durable AgentRun " +:+ runAt run
                     +:+ " from AdverseSituation garbage collection") e)
        | inr _ => mret tt
        end) runs tt
  end.

Definition responderName (situation : AdverseSituation) (sequence : Z) : string :=
  agentRunChildName ["agrun"; sit_Name situation; fmtZ sequence; shortHash (sit_UID situation)].

(** The run the situation has, or a new one when it has none on record. *)
Definition findResponder (situation : AdverseSituation) (name : string) (hasResponderRef : bool) :
    M W GoErr AgentRun :=
  let* got := mtry (mread (getRun (sit_Namespace situation) name)) in
  match got with
  | inr run => mret run
  | inl e =>
      if negb (IsNotFound e) then mfail e
      else if hasResponderRef
      then mfail (ErrText ("recorded adverse responder AgentRun " +:+ at_ (sit_Namespace situation) name
             +:+ " no longer exists"))
      else createRun (adverseSituationAgentRunFor situation name)
  end.

(** Why a run may not be taken as the responder on record. *)
Definition responderError (situation : AdverseSituation) (status : AdverseSituationStatus) (run : AgentRun)
    (hasResponderRef : bool) : option string :=
  let uid := sis_ActiveResponderUID status in
  let digest := sis_ActiveResponderDigest status in
  if hasResponderRef && negb (blank uid) && negb (blank digest) then
    if negb (adverseSituationAgentRunStableIdentityMatches run situation)
    then Some ("AgentRun " +:+ runAt run +:+ " no longer matches the established adverse responder identity for AdverseSituation UID "
           +:+ sit_UID situation)
    else if negb (bool_decide (uid = run_UID run))
    then Some ("AgentRun " +:+ runAt run +:+ " UID " +:+ run_UID run
           +:+ " does not match the established adverse responder UID " +:+ uid)
    else if negb (bool_decide (digest = digestJSON (jsonMarshal (run_Spec run))))
    then Some ("AgentRun " +:+ runAt run +:+ " spec no longer matches the established adverse responder digest")
    else None
  else if hasResponderRef then
    if negb (blank uid) || negb (blank digest)
    then Some ("AdverseSituation " +:+ at_ (sit_Namespace situation) (sit_Name situation)
           +:+ " has an incomplete established responder receipt")
    else if adverseSituationAgentRunMatches run situation then None
    else Some ("legacy adverse responder AgentRun " +:+ runAt run
           +:+ " has no receipt and no longer exactly matches the current creation snapshot")
  else if adverseSituationAgentRunMatches run situation then None
  else Some ("AgentRun " +:+ runAt run +:+ " collides with adverse responder identity for AdverseSituation UID "
         +:+ sit_UID situation).

Definition ensureAdverseSituationAgentRun (situation : AdverseSituation) (status : AdverseSituationStatus) :
    M W GoErr (AdverseSituationStatus * option AgentRun) :=
  if negb (adverseSituationAgentRunEnabled situation) then mret (status, None) else
  let status := if sis_Sequence status <=? 0 then status <| sis_Sequence := 1 |> else status in
  let recorded := match sis_ActiveResponderRef status with Some ref => TrimSpace (ref_Name ref) | None => "" end in
  let hasResponderRef := negb (bool_decide (recorded = "")) in
  let name := if hasResponderRef then recorded else responderName situation (sis_Sequence status) in
  let* run := findResponder situation name hasResponderRef in
  match responderError situation status run hasResponderRef with
  | Some message => mfail (ErrText message)
  | None =>
      mret (status <| sis_ActiveResponderRef := Some (mkNamespacedObjectReference (run_Name run) (run_Namespace run)) |>
              <| sis_ActiveResponderUID := run_UID run |>
              <| sis_ActiveResponderDigest := digestJSON (jsonMarshal (run_Spec run)) |>, Some run)
  end.

(** The pull request of the responder holds the situation open for a while. *)
Definition withPullRequest (situation : AdverseSituation) (run : option AgentRun) (now : Time)
    (status : AdverseSituationStatus) : AdverseSituationStatus :=
  match run with
  | None => status
  | Some run =>
      let url := TrimSpace (st_PullRequestURL (run_Status run)) in
      if bool_decide (url = "") then status else
      let status := status <| sis_PullRequestURL := url |> in
      match sis_PullRequestObservedAt status with
      | Some _ => status
      | None => status <| sis_PullRequestObservedAt := Some now |>
                  <| sis_PullRequestQuietUntil :=
                       Some (Add now (seconds (adverseSituationPullRequestHoldSeconds situation))) |>
      end
  end.

Definition situationReady (situation : AdverseSituation) (now : Time) (conditionStatus reason : string)
    (status : AdverseSituationStatus) : AdverseSituationStatus :=
  status <| sis_Conditions := SetStatusCondition (sis_Conditions status)
    (mkCondition adverseSituationReady conditionStatus (sit_Generation situation) now reason (sis_Summary status)) |>.

(** The phase of the situation, and when to look at it again. *)
Definition settleSituation (situation : AdverseSituation) (run : option AgentRun) (now : Time)
    (status : AdverseSituationStatus) : AdverseSituationStatus * Duration :=
  match sis_Events status with
  | [] =>
      (situationReady situation now ConditionFalse "NoEvents"
         (status <| sis_Phase := AdverseSituationPhasePending |>
            <| sis_Summary := "No adverse events have been recorded." |>), adverseSituationPollInterval)
  | _ =>
      if adverseSituationCanResolve status run now then
        (situationReady situation now ConditionTrue "QuietWindowElapsed"
           (status <| sis_Phase := AdverseSituationPhaseResolved |> <| sis_ResolvedAt := Some now |>
              <| sis_Summary := "Adverse stream stayed quiet for the configured resolution window." |>), 0)
      else
        (situationReady situation now ConditionFalse "AdverseStreamOpen"
           (status <| sis_Phase := AdverseSituationPhaseQuieting |>
              <| sis_Summary := adverseSituationOpenSummary status |>), adverseSituationNextRequeue status now)
  end.

Definition patchAdverseSituationStatus (original : AdverseSituation) (status : AdverseSituationStatus)
    (requeueAfter : Duration) : M W GoErr Result :=
  let* patched := mtry (patchSituationStatus (sit_key original) (sit_Status original) status) in
  match patched with
  | inl e => if IsConflict e then mret requeueNow else mfail e
  | inr _ => mret (if 0 <? requeueAfter then mkResult false requeueAfter else Done)
  end.

(** [AdverseSituationReconciler.Reconcile] *)
Definition reconcileSituation (namespace name : string) (now : Time) : M W GoErr Result :=
  let* got := mtry (mread (readSituation namespace name)) in
  match got with
  | inl e => if IsNotFound e then mret Done else mfail e
  | inr obj =>
      if deletes (sit_ObjectMeta obj) then mret Done else
      detachAdverseSituationAgentRunOwners obj ;;
      let status := (sit_Status obj) <| sis_ObservedGeneration := sit_Generation obj |> in
      let open := negb (bool_decide (sis_Events status = []))
                  && negb (bool_decide (sis_Phase status = AdverseSituationPhaseResolved)) in
      let* ensured := if open then ensureAdverseSituationAgentRun obj status else mret (status, None) in
      let '(status, run) := ensured in
      let '(status, requeueAfter) := settleSituation obj run now (withPullRequest obj run now status) in
      patchAdverseSituationStatus obj status requeueAfter
  end.
End situations.
