(* ===== verification/AdverseBuffer.v ===== *)
(** * The buffer of a situation

    What recording does to the buffer of an adverse situation: receipts stay until
    their signal takes them out, a report adds exactly one, and the buffer is bounded
    in every respect. *)

From stdpp Require Import base list gmap strings.
From Stdlib Require Import ZArith Lia Ascii.
From S2P Require Import Prelude GoStrings GoTime Names ApiRun ApiAdverse Kube Adverse AdverseReconcile.

Open Scope Z_scope.

(** ** The buffer *)

Lemma receipts_app l l' status :
  receipts (status <| sis_Events := l ++ l' |>) = (l ≫= aev_ReportIDs) ++ (l' ≫= aev_ReportIDs).
Proof. unfold receipts. simpl. apply bind_app. Qed.

Lemma no_receipts l :
  existsb (λ e, negb (bool_decide (aev_ReportIDs e = []))) l = false → l ≫= aev_ReportIDs = [].
Proof.
  induction l as [|e l IH]; [done|]. cbn [existsb]. intros [He Hl]%orb_false_iff.
  apply negb_false_iff, bool_decide_eq_true in He. rewrite bind_cons, He. by apply IH.
Qed.

Lemma prepare_receipts status prepared :
  adverseSituationPrepareSequence status = Some prepared → receipts prepared = receipts status.
Proof.
  unfold adverseSituationPrepareSequence. case_match; [by intros [= <-]|].
  destruct (existsb _ _) eqn:E; [done|]. intros [= <-]. unfold receipts at 2. by rewrite no_receipts.
Qed.

Lemma maxEvents_range buffer : (1 ≤ Z.to_nat (adverseSituationMaxEvents buffer) ≤ 200)%nat.
Proof.
  unfold adverseSituationMaxEvents, adverseSituationHardMaxEvents, adverseSituationDefaultMaxEvents.
  destruct (0 <? _) eqn:Em; lia.
Qed.

(** The event as it is appended. *)
Definition firstSeen (now : Time) (event : AdverseSituationEvent) : AdverseSituationEvent :=
  event <| aev_FirstSeenAt := Some now |> <| aev_LastSeenAt := Some now |> <| aev_Count := 1 |>.

Lemma append_events event now buffer status recorded :
  adverseSituationAppendEvent event now buffer status = Some recorded →
  let n := (length (sis_Events status) + 1 - Z.to_nat (adverseSituationMaxEvents buffer))%nat in
  sis_Events recorded = drop n (sis_Events status) ++ [firstSeen now event]
  ∧ take n (sis_Events status) ≫= aev_ReportIDs = []
  ∧ recorded = reopened now buffer (status <| sis_Events := sis_Events recorded |>).
Proof.
  unfold adverseSituationAppendEvent. pose proof (maxEvents_range buffer). set (m := Z.to_nat _) in *.
  destruct (existsb _ _) eqn:E; [done|]. apply no_receipts in E. intros [= <-]. simpl.
  split; [|by split]. etrans; [by cbn; rewrite length_app|]. apply drop_app_le. simpl. lia.
Qed.

Lemma append_receipts event now buffer status recorded :
  adverseSituationAppendEvent event now buffer status = Some recorded →
  receipts recorded = receipts status ++ aev_ReportIDs event.
Proof.
  intros (He & Hn & _)%append_events. unfold receipts. rewrite He, bind_app. f_equal; [|by rewrite bind_singleton].
  pose proof (bind_app aev_ReportIDs (take (length (sis_Events status) + 1
    - Z.to_nat (adverseSituationMaxEvents buffer)) (sis_Events status))
    (drop (length (sis_Events status) + 1 - Z.to_nat (adverseSituationMaxEvents buffer)) (sis_Events status))) as Hb.
  by rewrite take_drop, Hn in Hb.
Qed.

Lemma updateFirst_some p f events events' :
  updateFirst p f events = Some events' →
  ∃ l e l', events = l ++ e :: l' ∧ events' = l ++ f e :: l' ∧ find p events = Some e.
Proof.
  revert events'. induction events as [|e events IH]; [done|]. intros events'. simpl.
  destruct (p e) eqn:Ep; [intros [= <-]; by exists [], e, events|].
  destruct (updateFirst p f events) as [l|]; [|done]. intros [= <-].
  destruct (IH l eq_refl) as (l1 & e' & l2 & -> & -> & Hf). by exists (e :: l1), e', l2.
Qed.

Lemma updateFirst_find p f events e : find p events = Some e → is_Some (updateFirst p f events).
Proof.
  induction events as [|e' events IH]; [done|]. simpl. destruct (p e'); [by eauto|].
  intros [l ->]%IH. by eexists.
Qed.

(** Recording the state of a watched object leaves every receipt in the buffer, and
    recording a report adds exactly its receipt. *)
Lemma record_receipts `{Unstructured} source trigger buffer now status recorded :
  adverseSituationRecordEvent source trigger buffer now status = Some recorded →
  receipts recorded = receipts status.
Proof.
  unfold adverseSituationRecordEvent. destruct (adverseSituationPrepareSequence status) as [s|] eqn:Ep; [|done].
  cbn [mbind option_bind]. rewrite <- (prepare_receipts _ _ Ep).
  destruct (updateFirst _ _ _) as [events|] eqn:Eu.
  - intros [= <-]. apply updateFirst_some in Eu as (l & e & l' & He & -> & _).
    unfold receipts. rewrite He. etrans; [by cbn; rewrite bind_app|]. by rewrite bind_app.
  - intros Hr%append_receipts. by rewrite Hr, app_nil_r.
Qed.

Lemma signal_receipts event reportID buffer now status recorded :
  adverseSituationRecordSignalEvent event reportID buffer now status = Changed recorded →
  (receipts recorded ≡ₚ reportID :: receipts status)
  ∧ (reportID ∉ receipts status) ∧ reportID ≠ "".
Proof.
  unfold adverseSituationRecordSignalEvent. case_bool_decide as Hr; [done|]. case_bool_decide as Hin; [done|].
  destruct (adverseSituationPrepareSequence status) as [s|] eqn:Ep; [|done].
  rewrite <- (prepare_receipts _ _ Ep) in Hin |- *. destruct (find _ _) as [e|] eqn:Ef.
  - case_match; [done|]. destruct (updateFirst _ _ _) as [events|] eqn:Eu; [|done].
    intros [= <-]. split; [|done]. apply updateFirst_some in Eu as (l & e' & l' & He & -> & _).
    unfold receipts. rewrite He. etrans; [by cbn; rewrite bind_app|]. rewrite bind_app. cbn.
    by rewrite <- !app_assoc, !Permutation_middle.
  - destruct (adverseSituationAppendEvent _ _ _ _) as [s'|] eqn:Ea; [|done]. intros [= <-]. split; [|done].
    apply append_receipts in Ea. rewrite Ea. cbn. by rewrite <- Permutation_cons_append.
Qed.

Lemma signal_count event reportID buffer now status recorded :
  adverseSituationRecordSignalEvent event reportID buffer now status = Changed recorded →
  ∃ prepared, adverseSituationPrepareSequence status = Some prepared
    ∧ sis_Sequence recorded = sis_Sequence prepared
    ∧ sis_EventCount recorded = wrap32 (sis_EventCount prepared + 1).
Proof.
  unfold adverseSituationRecordSignalEvent. do 2 (case_bool_decide; [done|]).
  destruct (adverseSituationPrepareSequence status) as [s|]; [|done]. intros E. exists s. split; [done|].
  revert E. destruct (find _ _) as [e|].
  - case_match; [done|]. destruct (updateFirst _ _ _); [|done]. by intros [= <-].
  - destruct (adverseSituationAppendEvent _ _ _ _) as [s'|] eqn:Ea; [|done]. intros [= <-].
    apply append_events in Ea as (_ & _ & ->). done.
Qed.

(** ** Bounds *)

Lemma TrimSpace_length s : (length (bytes (TrimSpace s)) ≤ length (bytes s))%nat.
Proof.
  unfold TrimSpace. rewrite bytes_unbytes. destruct (trimRight_prefix (trimLeftBytes (bytes s))) as [n ->].
  rewrite length_take. unfold trimLeftBytes. destruct (dropSpace_suffix isSpace2 isSpace3 (bytes s)) as [k ->].
  rewrite length_drop. lia.
Qed.

Lemma runeBoundary_le l n : (runeBoundary l n ≤ n)%nat.
Proof. induction n as [|n IH]; cbn; [done|]. case_match; lia. Qed.

Lemma limited_length value maxBytes :
  0 < maxBytes → Z.of_nat (length (bytes (adverseSituationLimitString value maxBytes))) <= maxBytes.
Proof.
  intros Hm. unfold adverseSituationLimitString. destruct (Z.leb_spec maxBytes 0); [lia|]. cbn [orb].
  destruct (Z.leb_spec (Z.of_nat (length (bytes (TrimSpace value)))) maxBytes); [done|].
  set (v := TrimSpace value). set (n := runeBoundary _ _).
  pose proof (TrimSpace_length (takeStr n v)) as Ht. unfold takeStr at 2 in Ht. rewrite bytes_unbytes, length_take in Ht.
  pose proof (runeBoundary_le (bytes v) (Z.to_nat maxBytes)). fold n in H1. lia.
Qed.

(** The texts of an event with their limits. *)
Definition eventTexts (e : AdverseSituationEvent) : list (string * Z) :=
  [(aev_ID e, 64); (src_APIVersion (aev_SourceRef e), 128); (src_Kind (aev_SourceRef e), 256);
   (src_Namespace (aev_SourceRef e), 253); (src_Name (aev_SourceRef e), 253); (aev_SourceUID e, 256);
   (aev_SourceURL e, 2048); (aev_Phase e, 128); (aev_ConditionType e, 256); (aev_Reason e, 256);
   (aev_Message e, 8192); (aev_ResourceVersion e, 256)].

Definition eventBounded (e : AdverseSituationEvent) : Prop :=
  Forall (λ text, Z.of_nat (length (bytes text.1)) <= text.2) (eventTexts e)
  ∧ Z.of_nat (length (aev_ReportIDs e)) <= adverseSituationMaxReportIDsPerEvent.

(** The buffer holds a bounded number of events of bounded size. *)
Definition bufferBounded (status : AdverseSituationStatus) : Prop :=
  Z.of_nat (length (sis_Events status)) <= adverseSituationHardMaxEvents ∧ Forall eventBounded (sis_Events status).

Lemma normalize_bounded_event e :
  (length (aev_ReportIDs e) ≤ 1)%nat → eventBounded (adverseSituationNormalizeEvent e).
Proof.
  intros Hl. split; [|cbn; unfold adverseSituationMaxReportIDsPerEvent; lia].
  unfold eventTexts. repeat (apply Forall_cons; split; [cbn -[adverseSituationLimitString]; apply limited_length; lia|]). by apply Forall_nil.
Qed.

Lemma prepare_bounded status prepared :
  adverseSituationPrepareSequence status = Some prepared → bufferBounded status → bufferBounded prepared.
Proof.
  unfold adverseSituationPrepareSequence. case_match; [by intros [= <-]|]. case_match; [done|].
  intros [= <-] _. split; cbn; [unfold adverseSituationHardMaxEvents; lia|constructor].
Qed.

Lemma append_bounded event now buffer status recorded :
  adverseSituationAppendEvent event now buffer status = Some recorded → bufferBounded status → eventBounded event →
  bufferBounded recorded.
Proof.
  intros (He & _ & _)%append_events [Hl Hb] Hevent. pose proof (maxEvents_range buffer).
  unfold bufferBounded. rewrite He. split.
  - rewrite length_app, length_drop. cbn [length]. unfold adverseSituationHardMaxEvents in *. lia.
  - apply Forall_app. split; [by apply Forall_drop|]. by apply Forall_cons.
Qed.

Lemma update_bounded p f events events' :
  updateFirst p f events = Some events' → Forall eventBounded events →
  (∀ e, find p events = Some e → eventBounded e → eventBounded (f e)) →
  length events' = length events ∧ Forall eventBounded events'.
Proof.
  intros (l & e & l' & -> & -> & Hf)%updateFirst_some [Hl [He Hl']%Forall_cons]%Forall_app Hk.
  rewrite !length_app. split; [done|]. apply Forall_app. split; [done|]. apply Forall_cons. auto.
Qed.

Lemma latest_bounded now latest reportID e :
  eventBounded latest → eventBounded e →
  Z.of_nat (length (aev_ReportIDs e)) < adverseSituationMaxReportIDsPerEvent →
  eventBounded (latestReport now latest reportID e).
Proof.
  intros [Ht _] [He _] Hl. split; [|cbn; rewrite length_app; cbn; lia].
  unfold eventTexts in *. apply Forall_cons in Ht as [_ Ht]. apply Forall_cons in He as [Hid _].
  apply Forall_cons. split; [exact Hid|exact Ht].
Qed.

Lemma record_bounded `{Unstructured} source trigger buffer now status recorded :
  adverseSituationRecordEvent source trigger buffer now status = Some recorded →
  bufferBounded status → bufferBounded recorded.
Proof.
  unfold adverseSituationRecordEvent. destruct (adverseSituationPrepareSequence status) as [s|] eqn:Ep; [|done].
  cbn [mbind option_bind]. intros Hr Hb%(prepare_bounded _ _ Ep). revert Hr.
  destruct (updateFirst _ _ _) as [events|] eqn:Eu.
  - intros [= <-]. destruct (update_bounded _ _ _ _ Eu (proj2 Hb)) as [Hl Hf].
    { intros e _ [Ht Hr]. split; [|exact Hr]. unfold eventTexts in *. cbn in Ht |- *.
      do 10 (apply Forall_cons in Ht as [? Ht]; apply Forall_cons; split; [done|]).
      repeat (apply Forall_cons; split; [cbn -[adverseSituationLimitString]; apply limited_length; lia|]). by apply Forall_nil. }
    split; [cbn; rewrite Hl; apply Hb|exact Hf].
  - intros Ha. eapply append_bounded; [exact Ha|exact Hb|]. apply normalize_bounded_event. cbn. lia.
Qed.

Lemma signal_bounded event reportID buffer now status recorded :
  adverseSituationRecordSignalEvent event reportID buffer now status = Changed recorded →
  aev_ReportIDs event = [] → bufferBounded status → bufferBounded recorded.
Proof.
  unfold adverseSituationRecordSignalEvent. case_bool_decide as Hr; [done|]. case_bool_decide as Hin; [done|].
  destruct (adverseSituationPrepareSequence status) as [s|] eqn:Ep; [|done].
  intros Hc Hn Hb%(prepare_bounded _ _ Ep). revert Hc. destruct (find _ _) as [e|] eqn:Ef.
  - destruct (Z.leb_spec adverseSituationMaxReportIDsPerEvent (Z.of_nat (length (aev_ReportIDs e)))); [done|].
    destruct (updateFirst _ _ _) as [events|] eqn:Eu; [|done]. intros [= <-].
    destruct (update_bounded _ _ _ _ Eu (proj2 Hb)) as [Hl Hf].
    { intros e' Hf He. rewrite Hf in Ef. injection Ef as ->. apply latest_bounded; [|done|done].
      apply normalize_bounded_event. rewrite Hn. cbn. lia. }
    split; [cbn; rewrite Hl; apply Hb|exact Hf].
  - destruct (adverseSituationAppendEvent _ _ _ _) as [s'|] eqn:Ea; [|done]. intros [= <-].
    eapply append_bounded; [exact Ea|exact Hb|]. apply normalize_bounded_event. cbn. lia.
Qed.

(** ** The buffer keeps its receipts and its bounds *)

(** Recording the state of a watched object leaves the receipts as they are; a report
    that is recorded adds its own receipt, once, and one to the count of the sequence;
    a report whose receipt is present is not recorded again. *)
Theorem signal_recording_exact event reportID buffer now status :
  match adverseSituationRecordSignalEvent event reportID buffer now status with
  | Changed recorded =>
      receipts recorded ≡ₚ reportID :: receipts status
      ∧ (∃ prepared, adverseSituationPrepareSequence status = Some prepared
           ∧ sis_Sequence recorded = sis_Sequence prepared
           ∧ sis_EventCount recorded = wrap32 (sis_EventCount prepared + 1))
      ∧ ∀ event' buffer' now', adverseSituationRecordSignalEvent event' reportID buffer' now' recorded = Recorded
  | Recorded => reportID ∈ receipts status
  | Refused => reportID ∉ receipts status ∨ reportID = ""
  end.
Proof.
  destruct (adverseSituationRecordSignalEvent _ _ _ _ _) as [| |recorded] eqn:E.
  - revert E. unfold adverseSituationRecordSignalEvent. case_bool_decide; [done|]. case_bool_decide; [done|].
    by repeat case_match.
  - revert E. unfold adverseSituationRecordSignalEvent. case_bool_decide; [by right|]. case_bool_decide; [done|].
    by left.
  - pose proof (signal_receipts _ _ _ _ _ _ E) as (Hp & Hnew & Hr). split; [done|]. split.
    + by apply signal_count in E.
    + intros event' buffer' now'. unfold adverseSituationRecordSignalEvent. rewrite bool_decide_eq_false_2 by done.
      rewrite bool_decide_eq_true_2; [done|]. rewrite Hp. by left.
Qed.

(** The buffer of a situation is bounded in the number of its events, of the receipts
    of an event and in every text, whatever is recorded. *)
Theorem buffer_bounded `{Unstructured} status :
  bufferBounded status →
  (∀ source trigger buffer now recorded,
     adverseSituationRecordEvent source trigger buffer now status = Some recorded → bufferBounded recorded)
  ∧ (∀ signal situation reportID buffer now recorded,
     adverseSituationRecordSignalEvent (adverseSignalEvent signal situation) reportID buffer now status = Changed recorded →
     bufferBounded recorded)
  ∧ (∀ reportID, bufferBounded (withoutReceipt reportID status)).
Proof.
  intros Hb. split_and!.
  - intros source trigger buffer now recorded Hr. by eapply record_bounded.
  - intros signal situation reportID buffer now recorded Hr. by eapply signal_bounded.
  - intros reportID. destruct Hb as [Hl Hf]. split; [by cbn; rewrite length_map|]. cbn. apply Forall_map.
    eapply Forall_impl; [exact Hf|]. intros e [Ht Hr]. split; [exact Ht|]. cbn.
    pose proof (length_filter (λ r, r ≠ reportID) (aev_ReportIDs e)). lia.
Qed.

