(* ===== verification/AdverseSafety.v ===== *)
(** * Delivery of adverse reports

    The protocol between signals and situations, over all sequences of
    reconciliations with failures at any call: a report is recorded at most once per
    situation, and a signal that is marked as accepted has been recorded
    ([signals_recorded_once]).  Responders and the resolution of situations
    ([responder_fixed], [resolved_when_quiet]), and what stale reads do to the
    protocol ([stale_read_loses_report]). *)

From stdpp Require Import base list gmap strings.
From Stdlib Require Import ZArith Lia.
From S2P Require Import Prelude GoStrings GoTime Names ApiRun ApiWork ApiAdverse Kube RunControl ChainReconcile RunLaunch SpecEq Adverse AdverseReconcile AdverseBuffer.

Open Scope Z_scope.

(** ** The server *)

(** The stored situations and signals, and the reports recorded so far: the UID of
    the situation with the report that appeared among its receipts. *)
Record Adv := mkAdv {
  ad_situations : gmap key AdverseSituation;
  ad_signals : gmap key AdverseSignal;
  ad_recorded : list (string * string) }.

(** A merge patch sets the fields in which [new] differs from [base]. *)
Definition mergedValue {A} `{EqDecision A} (base new stored : A) : A :=
  if bool_decide (new = base) then stored else new.
Definition mergeSituationStatus (base new stored : AdverseSituationStatus) : AdverseSituationStatus :=
  let pick {A} `{EqDecision A} (f : AdverseSituationStatus → A) : A := mergedValue (f base) (f new) (f stored) in
  mkAdverseSituationStatus (pick sis_ObservedGeneration) (pick sis_Conditions) (pick sis_Phase) (pick sis_Sequence)
    (pick sis_Events) (pick sis_EventCount) (pick sis_DuplicateCount) (pick sis_LastEventAt) (pick sis_QuietUntil)
    (pick sis_ResolvedAt) (pick sis_PullRequestObservedAt) (pick sis_PullRequestQuietUntil)
    (pick sis_ActiveResponderRef) (pick sis_ActiveResponderUID) (pick sis_ActiveResponderDigest)
    (pick sis_PullRequestURL) (pick sis_Summary).
Definition mergeSignalStatus (base new stored : AdverseSignalStatus) : AdverseSignalStatus :=
  let pick {A} `{EqDecision A} (f : AdverseSignalStatus → A) : A := mergedValue (f base) (f new) (f stored) in
  mkAdverseSignalStatus (pick ast_ObservedGeneration) (pick ast_Conditions) (pick ast_Phase) (pick ast_SituationRef)
    (pick ast_SituationUID) (pick ast_EventID) (pick ast_SituationSequence) (pick ast_AcceptedAt).

Lemma mergedValue_fresh {A} `{EqDecision A} (base new : A) : mergedValue base new base = new.
Proof. unfold mergedValue. by case_bool_decide. Qed.
Lemma mergeSituation_fresh base new : mergeSituationStatus base new base = new.
Proof. unfold mergeSituationStatus. rewrite !mergedValue_fresh. by destruct new. Qed.
Lemma mergeSignal_fresh base new : mergeSignalStatus base new base = new.
Proof. unfold mergeSignalStatus. rewrite !mergedValue_fresh. by destruct new. Qed.

(** The receipts a version of a situation has beyond those of the version before. *)
Definition gained (old : option AdverseSituation) (s : AdverseSituation) : list (string * string) :=
  map (pair (sit_UID s)) (filter (λ r, r ∉ match old with Some o => receipts (sit_Status o) | None => [] end)
                            (receipts (sit_Status s))).
Definition putSituation (s : AdverseSituation) (a : Adv) : Adv :=
  mkAdv (<[sit_key s := s]> (ad_situations a)) (ad_signals a)
    (ad_recorded a ++ gained (ad_situations a !! sit_key s) s).
Definition putSignal (g : AdverseSignal) (a : Adv) : Adv :=
  mkAdv (ad_situations a) (<[sig_key g := g]> (ad_signals a)) (ad_recorded a).
Definition dropSignal (k : key) (a : Adv) : Adv := mkAdv (ad_situations a) (delete k (ad_signals a)) (ad_recorded a).
Definition dropSituation (k : key) (a : Adv) : Adv := mkAdv (delete k (ad_situations a)) (ad_signals a) (ad_recorded a).

(** What the controllers rely on: reads are current, a patch is applied once or (its
    response may be lost) not reported, a new situation has a new UID. *)
Class AdverseLaws (W : Type) `{Client W, AdverseClient W} := {
  adv : W → Adv;
  readSituation_ok w ns n s : readSituation ns n w = inr s → ad_situations (adv w) !! (ns, n) = Some s;
  getSignal_ok w ns n g : getSignal ns n w = inr g → ad_signals (adv w) !! (ns, n) = Some g;
  patchSituationStatus_law w w' k base new x :
    patchSituationStatus k base new w = (w', x) →
    adv w' = adv w ∧ (∃ e, x = inl e)
    ∨ ∃ s s', ad_situations (adv w) !! k = Some s ∧ sit_key s' = sit_key s ∧ sit_UID s' = sit_UID s
       ∧ sit_Spec s' = sit_Spec s ∧ sit_Status s' = mergeSituationStatus base new (sit_Status s)
       ∧ adv w' = putSituation s' (adv w) ∧ ∀ t, x = inr t → t = s';
  createSituation_law w w' s x :
    createSituation s w = (w', x) →
    adv w' = adv w
    ∨ ∃ s', ad_situations (adv w) !! sit_key s' = None ∧ sit_Status s' = zero_AdverseSituationStatus
       ∧ (∀ k t, ad_situations (adv w) !! k = Some t → sit_UID t ≠ sit_UID s')
       ∧ (∀ p, p ∈ ad_recorded (adv w) → p.1 ≠ sit_UID s')
       ∧ adv w' = putSituation s' (adv w);
  patchSignalStatus_law w w' k base new x :
    patchSignalStatus k base new w = (w', x) →
    adv w' = adv w ∧ (∃ e, x = inl e)
    ∨ ∃ g g', ad_signals (adv w) !! k = Some g ∧ sig_key g' = sig_key g ∧ sig_UID g' = sig_UID g
       ∧ deletes (sig_ObjectMeta g') = deletes (sig_ObjectMeta g)
       ∧ sig_Status g' = mergeSignalStatus base new (sig_Status g)
       ∧ adv w' = putSignal g' (adv w) ∧ ∀ t, x = inr t → t = g';
  patchSignalFinalizers_law w w' k fs x :
    patchSignalFinalizers k fs w = (w', x) →
    adv w' = adv w ∨ adv w' = dropSignal k (adv w)
    ∨ ∃ g g', ad_signals (adv w) !! k = Some g ∧ sig_key g' = sig_key g ∧ sig_UID g' = sig_UID g
       ∧ deletes (sig_ObjectMeta g') = deletes (sig_ObjectMeta g) ∧ sig_Status g' = sig_Status g
       ∧ adv w' = putSignal g' (adv w);
  createRun_adv w w' r x : createRun r w = (w', x) → adv w' = adv w;
  patchRunOwners_adv w w' k os x : patchRunOwners k os w = (w', x) → adv w' = adv w }.
#[global] Arguments adv W {_ _ _} w.

(** ** The invariant of the protocol *)

(** The signal is done with: no reconciliation records it again. *)
Definition closed (g : AdverseSignal) : Prop :=
  deletes (sig_ObjectMeta g) = true ∨ ast_Phase (sig_Status g) = AdverseSignalPhaseAccepted
  ∨ ast_Phase (sig_Status g) = AdverseSignalPhaseRejected.

Definition allClosed (a : Adv) (r : string) : Prop :=
  ∀ k g, ad_signals a !! k = Some g → adverseSignalReportID g = r → closed g.

(** A recorded report has its receipt in the situation, or its signal is closed. *)
Definition settled (a : Adv) (p : string * string) : Prop :=
  (∀ k s, ad_situations a !! k = Some s → sit_UID s = p.1 → p.2 ∈ receipts (sit_Status s)) ∨ allClosed a p.2.

Record sound (a : Adv) : Prop := mkSound {
  sd_situation_key k s : ad_situations a !! k = Some s → sit_key s = k;
  sd_signal_key k g : ad_signals a !! k = Some g → sig_key g = k;
  sd_uid k k' s s' : ad_situations a !! k = Some s → ad_situations a !! k' = Some s' → sit_UID s = sit_UID s' → k = k';
  sd_report k k' g g' : ad_signals a !! k = Some g → ad_signals a !! k' = Some g' →
    adverseSignalReportID g = adverseSignalReportID g' → k = k';
  sd_settled p : p ∈ ad_recorded a → settled a p;
  sd_nodup : NoDup (ad_recorded a);
  sd_accepted k g : ad_signals a !! k = Some g → ast_Phase (sig_Status g) = AdverseSignalPhaseAccepted →
    (ast_SituationUID (sig_Status g), adverseSignalReportID g) ∈ ad_recorded a;
  sd_receipt k s r : ad_situations a !! k = Some s → r ∈ receipts (sit_Status s) → (sit_UID s, r) ∈ ad_recorded a }.

Lemma elem_of_gained old s p :
  p ∈ gained old s ↔ p.1 = sit_UID s ∧ p.2 ∈ receipts (sit_Status s)
    ∧ p.2 ∉ match old with Some o => receipts (sit_Status o) | None => [] end.
Proof.
  unfold gained. rewrite list_elem_of_fmap. setoid_rewrite list_elem_of_filter. destruct p as [u r]; simpl. split.
  - intros (r' & [= -> ->] & ? & ?). done.
  - intros (-> & ? & ?). by exists r.
Qed.

(** A version of a stored situation. *)
Lemma sound_version a s s' :
  sound a → ad_situations a !! sit_key s' = Some s → sit_UID s' = sit_UID s →
  NoDup (gained (Some s) s') → (∀ p, p ∈ gained (Some s) s' → p ∉ ad_recorded a) →
  (∀ r, r ∈ receipts (sit_Status s) → r ∉ receipts (sit_Status s') → allClosed a r) →
  sound (putSituation s' a).
Proof.
  intros Hs Hk Hu Hnd Hnew Hlost. unfold putSituation. rewrite Hk. split; cbn [ad_situations ad_signals ad_recorded].
  - intros k t [[<- <-]|[_ Ht]]%lookup_insert_Some; [done|]. by apply (sd_situation_key _ Hs).
  - apply (sd_signal_key _ Hs).
  - intros k k' t t' [[<- <-]|[_ Ht]]%lookup_insert_Some [[<- <-]|[_ Ht']]%lookup_insert_Some E; try done.
    + eapply (sd_uid _ Hs); [exact Hk|exact Ht'|congruence].
    + eapply (sd_uid _ Hs); [exact Ht|exact Hk|congruence].
    + by eapply (sd_uid _ Hs).
  - apply (sd_report _ Hs).
  - assert (∀ r k t, r ∈ receipts (sit_Status s') → <[sit_key s':=s']> (ad_situations a) !! k = Some t →
      sit_UID t = sit_UID s' → r ∈ receipts (sit_Status t)) as Honly.
    { intros r k t Hr [[<- <-]|[Hne Ht]]%lookup_insert_Some Eu; [done|].
      destruct Hne. eapply (sd_uid _ Hs); [exact Hk|exact Ht|congruence]. }
    intros [u r] [Hp|Hp]%elem_of_app.
    + destruct (sd_settled _ Hs _ Hp) as [Hf|Hc]; [|by right]. simpl in *.
      destruct (decide (u = sit_UID s')) as [->|Hne].
      * pose proof (Hf _ _ Hk (eq_sym Hu)) as Hr.
        destruct (decide (r ∈ receipts (sit_Status s'))) as [Hin|Hout]; [left; simpl; eauto|right].
        simpl. by apply Hlost.
      * left. cbn [ad_situations fst snd]. intros k t [[<- <-]|[_ Ht]]%lookup_insert_Some Eu; [by destruct Hne|]. by eapply Hf.
    + apply elem_of_gained in Hp as (Eu & Hr & _). left. simpl in *. subst u. eauto.
  - apply NoDup_app. split; [apply (sd_nodup _ Hs)|]. split; [|done]. intros p Hp Hg. by apply (Hnew p Hg).
  - intros k g Hg Hph. apply elem_of_app. left. by apply (sd_accepted _ Hs k).
  - intros k t r [[<- <-]|[_ Ht]]%lookup_insert_Some Hr; apply elem_of_app.
    + destruct (decide (r ∈ receipts (sit_Status s))) as [Hin|Hout].
      * left. rewrite Hu. by eapply (sd_receipt _ Hs).
      * right. by apply elem_of_gained.
    + left. by eapply (sd_receipt _ Hs).
Qed.

Lemma filter_keeps {A} (P : A → Prop) `{∀ x, Decision (P x)} (l : list A) :
  (∀ x, x ∈ l → ¬ P x) → filter P l = [].
Proof.
  induction l as [|x l IH]; [done|]. intros Hn. rewrite filter_cons_False by (apply Hn; by left).
  apply IH. intros y Hy. apply Hn. by right.
Qed.

Lemma gained_nil s s' :
  (∀ r, r ∈ receipts (sit_Status s') → r ∈ receipts (sit_Status s)) → gained (Some s) s' = [].
Proof.
  intros Hsub. unfold gained. rewrite filter_keeps; [done|]. intros r Hr Hn. by apply Hn, Hsub.
Qed.

(** Nothing is recorded, and only receipts of closed signals go. *)
Lemma sound_fewer a s s' :
  sound a → ad_situations a !! sit_key s' = Some s → sit_UID s' = sit_UID s →
  (∀ r, r ∈ receipts (sit_Status s') → r ∈ receipts (sit_Status s)) →
  (∀ r, r ∈ receipts (sit_Status s) → r ∉ receipts (sit_Status s') → allClosed a r) →
  sound (putSituation s' a) ∧ ad_recorded (putSituation s' a) = ad_recorded a.
Proof.
  intros Hs Hk Hu Hsub Hlost. unfold putSituation at 2. cbn [ad_recorded]. rewrite Hk, (gained_nil _ _ Hsub), app_nil_r.
  split; [|done]. apply (sound_version a s); auto; rewrite (gained_nil _ _ Hsub); [constructor|].
  intros p Hp. by apply not_elem_of_nil in Hp.
Qed.

(** A report of an open signal is recorded. *)
Lemma sound_recorded a s s' r :
  sound a → ad_situations a !! sit_key s' = Some s → sit_UID s' = sit_UID s →
  receipts (sit_Status s') ≡ₚ r :: receipts (sit_Status s) → r ∉ receipts (sit_Status s) →
  ¬ allClosed a r → sound (putSituation s' a) ∧ (sit_UID s', r) ∈ ad_recorded (putSituation s' a).
Proof.
  intros Hs Hk Hu Hp Hr Hopen.
  assert (gained (Some s) s' ≡ₚ [(sit_UID s', r)]) as Hg.
  { unfold gained. rewrite Hp, filter_cons_True by done. rewrite filter_keeps; [done|].
    intros r' Hr' Hn. by apply Hn. }
  split.
  - apply (sound_version a s); auto.
    + rewrite Hg. apply NoDup_singleton.
    + intros p. rewrite Hg. intros ->%list_elem_of_singleton Hrec.
      destruct (sd_settled _ Hs _ Hrec) as [Hf|Hc]; [|done]. simpl in Hf. by apply Hr, (Hf _ _ Hk).
    + intros r' Hin Hout. destruct Hout. rewrite Hp. by right.
  - unfold putSituation. cbn [ad_recorded]. rewrite Hk. apply elem_of_app. right. rewrite Hg. by left.
Qed.

Lemma report_same g g' :
  sig_key g' = sig_key g → sig_UID g' = sig_UID g → adverseSignalReportID g' = adverseSignalReportID g.
Proof. intros [= Hn Hm] Hu. unfold adverseSignalReportID. by rewrite Hu, Hn, Hm. Qed.

(** A version of a stored signal. *)
Lemma sound_signal a g g' :
  sound a → ad_signals a !! sig_key g' = Some g → sig_key g' = sig_key g → sig_UID g' = sig_UID g →
  (closed g → closed g') →
  (ast_Phase (sig_Status g') = AdverseSignalPhaseAccepted →
   (ast_SituationUID (sig_Status g'), adverseSignalReportID g') ∈ ad_recorded a) →
  sound (putSignal g' a).
Proof.
  intros Hs Hk Hkey Hu Hc Ha. pose proof (report_same _ _ Hkey Hu) as Hrep.
  unfold putSignal. split; cbn [ad_situations ad_signals ad_recorded].
  - apply (sd_situation_key _ Hs).
  - intros k t [[<- <-]|[_ Ht]]%lookup_insert_Some; [done|]. by apply (sd_signal_key _ Hs).
  - apply (sd_uid _ Hs).
  - intros k k' t t' [[<- <-]|[_ Ht]]%lookup_insert_Some [[<- <-]|[_ Ht']]%lookup_insert_Some E; try done.
    + eapply (sd_report _ Hs); [exact Hk|exact Ht'|congruence].
    + eapply (sd_report _ Hs); [exact Ht|exact Hk|congruence].
    + by eapply (sd_report _ Hs).
  - intros p Hp. destruct (sd_settled _ Hs _ Hp) as [Hf|Hcl]; [by left|right].
    intros k t. cbn [ad_signals]. intros [[<- <-]|[_ Ht]]%lookup_insert_Some E; [|by eapply Hcl].
    apply Hc. eapply Hcl; [exact Hk|congruence].
  - apply (sd_nodup _ Hs).
  - intros k t [[<- <-]|[_ Ht]]%lookup_insert_Some; [done|]. by apply (sd_accepted _ Hs k).
  - apply (sd_receipt _ Hs).
Qed.

Lemma sound_dropSignal a k : sound a → sound (dropSignal k a).
Proof.
  intros Hs. split; unfold dropSignal; cbn [ad_situations ad_signals ad_recorded]; try apply Hs.
  - intros k' g [_ Hg]%lookup_delete_Some. by apply (sd_signal_key _ Hs).
  - intros k1 k2 g g' [_ Hg]%lookup_delete_Some [_ Hg']%lookup_delete_Some. by eapply (sd_report _ Hs).
  - intros p Hp. destruct (sd_settled _ Hs _ Hp) as [Hf|Hcl]; [by left|right].
    intros k' g. cbn [ad_signals]. intros [_ Hg]%lookup_delete_Some. by eapply Hcl.
  - intros k' g [_ Hg]%lookup_delete_Some. by apply (sd_accepted _ Hs k').
Qed.

Lemma sound_dropSituation a k : sound a → sound (dropSituation k a).
Proof.
  intros Hs. split; unfold dropSituation; cbn [ad_situations ad_signals ad_recorded]; try apply Hs.
  - intros k' s [_ Hg]%lookup_delete_Some. by apply (sd_situation_key _ Hs).
  - intros k1 k2 s s' [_ Hg]%lookup_delete_Some [_ Hg']%lookup_delete_Some. by eapply (sd_uid _ Hs).
  - intros p Hp. destruct (sd_settled _ Hs _ Hp) as [Hf|Hcl]; [left|by right].
    intros k' s. cbn [ad_situations]. intros [_ Hg]%lookup_delete_Some. by eapply Hf.
  - intros k' s r [_ Hg]%lookup_delete_Some. by apply (sd_receipt _ Hs k').
Qed.

Lemma sound_newSituation a s :
  sound a → ad_situations a !! sit_key s = None → sit_Status s = zero_AdverseSituationStatus →
  (∀ k t, ad_situations a !! k = Some t → sit_UID t ≠ sit_UID s) →
  (∀ p, p ∈ ad_recorded a → p.1 ≠ sit_UID s) → sound (putSituation s a).
Proof.
  intros Hs Hk Hz Hu Hp. unfold putSituation. rewrite Hk.
  assert (gained None s = []) as -> by (unfold gained; by rewrite Hz). rewrite app_nil_r.
  split; cbn [ad_situations ad_signals ad_recorded]; try apply Hs.
  - intros k t [[<- <-]|[_ Ht]]%lookup_insert_Some; [done|]. by apply (sd_situation_key _ Hs).
  - intros k k' t t' [[<- <-]|[_ Ht]]%lookup_insert_Some [[<- <-]|[_ Ht']]%lookup_insert_Some E; try done.
    + by destruct (Hu _ _ Ht').
    + by destruct (Hu _ _ Ht).
    + by eapply (sd_uid _ Hs).
  - intros p Hin. destruct (sd_settled _ Hs _ Hin) as [Hf|Hcl]; [left|by right]. cbn [ad_situations].
    intros k t [[<- <-]|[_ Ht]]%lookup_insert_Some E; [by destruct (Hp _ Hin)|by eapply Hf].
  - intros k t r [[<- <-]|[_ Ht]]%lookup_insert_Some; [|by eapply (sd_receipt _ Hs)].
    rewrite Hz. by intros ?%not_elem_of_nil.
Qed.

Lemma sound_newSignal a g :
  sound a → ad_signals a !! sig_key g = None → sig_Status g = zero_AdverseSignalStatus →
  (∀ k t, ad_signals a !! k = Some t → adverseSignalReportID t ≠ adverseSignalReportID g) →
  (∀ p, p ∈ ad_recorded a → p.2 ≠ adverseSignalReportID g) → sound (putSignal g a).
Proof.
  intros Hs Hk Hz Hu Hp. unfold putSignal. split; cbn [ad_situations ad_signals ad_recorded]; try apply Hs.
  - intros k t [[<- <-]|[_ Ht]]%lookup_insert_Some; [done|]. by apply (sd_signal_key _ Hs).
  - intros k k' t t' [[<- <-]|[_ Ht]]%lookup_insert_Some [[<- <-]|[_ Ht']]%lookup_insert_Some E; try done.
    + by destruct (Hu _ _ Ht').
    + by destruct (Hu _ _ Ht).
    + by eapply (sd_report _ Hs).
  - intros p Hin. destruct (sd_settled _ Hs _ Hin) as [Hf|Hcl]; [by left|right]. intros k t. cbn [ad_signals].
    intros [[<- <-]|[_ Ht]]%lookup_insert_Some E; [by destruct (Hp _ Hin)|by eapply Hcl].
  - intros k t [[<- <-]|[_ Ht]]%lookup_insert_Some; [by rewrite Hz|]. by apply (sd_accepted _ Hs k).
Qed.

(** ** The handlers *)

Lemma elem_of_receipts r status :
  r ∈ receipts status ↔ ∃ e, e ∈ sis_Events status ∧ r ∈ aev_ReportIDs e.
Proof. unfold receipts. rewrite list_elem_of_bind. split; intros (e & ? & ?); eauto. Qed.

Lemma without_receipts r r' status :
  r' ∈ receipts (withoutReceipt r status) ↔ r' ∈ receipts status ∧ r' ≠ r.
Proof.
  rewrite !elem_of_receipts. unfold withoutReceipt. cbn. setoid_rewrite list_elem_of_fmap. split.
  - intros (e & (e' & -> & He') & Hr). cbn in Hr. apply list_elem_of_filter in Hr as [Hne Hr]. eauto.
  - intros [(e & He & Hr) Hne]. eexists. split; [by exists e|]. cbn. by apply list_elem_of_filter.
Qed.

Section handlers.
Context {W : Type} `{Client W, AdverseClient W, !AdverseLaws W, Conditions, Unstructured, Marshal AgentRunSpec}.
Implicit Types (w : W) (Q : GoErr + Result → W → Prop).

Lemma wp_patchSituation s new w (Q : GoErr + AdverseSituation → W → Prop) :
  ad_situations (adv W w) !! sit_key s = Some s →
  (∀ e w', adv W w' = adv W w → Q (inl e) w') →
  (∀ x w' s', sit_key s' = sit_key s → sit_UID s' = sit_UID s → sit_Spec s' = sit_Spec s → sit_Status s' = new →
     adv W w' = putSituation s' (adv W w) → (∀ t, x = inr t → t = s') → Q x w') →
  wp (patchSituationStatus (sit_key s) (sit_Status s) new) Q w.
Proof.
  intros Hk He Hp. unfold wp. destruct (patchSituationStatus _ _ _ w) as [w' x] eqn:E.
  destruct (patchSituationStatus_law _ _ _ _ _ _ E) as [[Ha [e ->]]|(t & s' & Ht & Hkey & Hu & Hsp & Hst & Ha & Hx)];
    [by apply He|]. rewrite Hk in Ht. injection Ht as <-. rewrite mergeSituation_fresh in Hst. by eapply Hp.
Qed.

Lemma wp_patchSignal g new w (Q : GoErr + AdverseSignal → W → Prop) :
  ad_signals (adv W w) !! sig_key g = Some g →
  (∀ e w', adv W w' = adv W w → Q (inl e) w') →
  (∀ x w' g', sig_key g' = sig_key g → sig_UID g' = sig_UID g →
     deletes (sig_ObjectMeta g') = deletes (sig_ObjectMeta g) → sig_Status g' = new →
     adv W w' = putSignal g' (adv W w) → (∀ t, x = inr t → t = g') → Q x w') →
  wp (patchSignalStatus (sig_key g) (sig_Status g) new) Q w.
Proof.
  intros Hk He Hp. unfold wp. destruct (patchSignalStatus _ _ _ w) as [w' x] eqn:E.
  destruct (patchSignalStatus_law _ _ _ _ _ _ E) as [[Ha [e ->]]|(t & g' & Ht & Hkey & Hu & Hd & Hst & Ha & Hx)];
    [by apply He|]. rewrite Hk in Ht. injection Ht as <-. rewrite mergeSignal_fresh in Hst. by eapply Hp.
Qed.

Lemma wp_clearReceiptOf signal situation w :
  sound (adv W w) → ad_situations (adv W w) !! sit_key situation = Some situation →
  allClosed (adv W w) (adverseSignalReportID signal) →
  wp (clearReceiptOf signal situation) (λ _ w', sound (adv W w')) w.
Proof.
  intros Hs Hk Hc. unfold clearReceiptOf. destruct (_ && _); [by apply wp_ret|].
  destruct (bool_decide _); cbn [negb]; [|by apply wp_ret].
  apply wp_bind, wp_try, wp_patchSituation; [done| |].
  { intros e w' Ha. case_match; [by apply wp_ret; rewrite Ha|by apply wp_fail; rewrite Ha]. }
  intros x w' s' Hkey Hu _ Hst Ha _.
  assert (sound (adv W w')) as Hs'.
  { rewrite Ha. eapply sound_fewer; [done|by rewrite Hkey|done|..]; rewrite Hst.
    - by intros r [? _]%without_receipts.
    - intros r Hin Hout. destruct (decide (r = adverseSignalReportID signal)) as [->|]; [done|].
      destruct Hout. by apply without_receipts. }
  destruct x as [e|t]; [case_match; [by apply wp_ret|by apply wp_fail]|by apply wp_ret].
Qed.

Lemma finalizers_sound k fs w w' x :
  sound (adv W w) → patchSignalFinalizers k fs w = (w', x) → sound (adv W w').
Proof.
  intros Hs E. destruct (patchSignalFinalizers_law _ _ _ _ _ E) as [->|[->|(t & g' & Ht & Hk & Hu & Hd & Hst & ->)]];
    [done|by apply sound_dropSignal|]. pose proof (sd_signal_key _ Hs _ _ Ht).
  apply (sound_signal _ t); [done|by rewrite Hk; subst|done|done|..].
  - unfold closed. by rewrite Hd, Hst.
  - rewrite Hst, (report_same _ _ Hk Hu). by apply (sd_accepted _ Hs k).
Qed.

Lemma wp_removeFinalizer k w :
  sound (adv W w) → wp (removeAdverseSignalFinalizer k) (λ _ w', sound (adv W w')) w.
Proof.
  intros Hs. unfold removeAdverseSignalFinalizer. apply wp_bind, wp_try, wp_read.
  destruct (getSignal _ _ w) as [e|g] eqn:Eg; [by case_match|]. case_match; [done|]. apply wp_bind, wp_try.
  unfold wp at 1. destruct (patchSignalFinalizers _ _ w) as [w' x] eqn:E.
  assert (sound (adv W w')) by by eapply finalizers_sound.
  cbn [fst snd]. destruct x as [e|t]; [destruct (IsConflict e)|]; done.
Qed.

(** An open signal is given a status. *)
Lemma wp_patchAdverseSignalStatus g new requeueAfter w :
  sound (adv W w) → ad_signals (adv W w) !! sig_key g = Some g → ¬ closed g →
  (ast_Phase new = AdverseSignalPhaseAccepted →
   (ast_SituationUID new, adverseSignalReportID g) ∈ ad_recorded (adv W w)) →
  wp (patchAdverseSignalStatus g new requeueAfter) (λ x w', sound (adv W w')
    ∧ ad_situations (adv W w') = ad_situations (adv W w)
    ∧ ∀ r g', x = inr (r, g') → again r = false →
        ad_signals (adv W w') !! sig_key g = Some g' ∧ sig_key g' = sig_key g ∧ sig_UID g' = sig_UID g
        ∧ sig_Status g' = new) w.
Proof.
  intros Hs Hk Hopen Hacc. unfold patchAdverseSignalStatus. apply wp_bind, wp_try, wp_patchSignal; [done| |].
  { intros e w' Ha. destruct (IsConflict e); [apply wp_ret|apply wp_fail]; rewrite Ha; split_and!; try done.
    by intros r g' [= <- <-]. }
  intros x w' g' Hkey Hu Hd Hst Ha Hx.
  assert (sound (adv W w')) as Hs'.
  { rewrite Ha. apply (sound_signal _ g); try done; [by rewrite Hkey|].
    by rewrite Hst, (report_same _ _ Hkey Hu). }
  destruct x as [e|t]; cbn [fst snd].
  - destruct (IsConflict e); [apply wp_ret|apply wp_fail]; (split_and!; [done|by rewrite Ha|]); [|done].
    by intros r t [= <- <-].
  - apply wp_ret. split; [done|]. split; [by rewrite Ha|]. intros r t' [= <- <-] _.
    rewrite (Hx t eq_refl), Ha. unfold putSignal. cbn [ad_signals]. by rewrite Hkey, lookup_insert_eq.
Qed.

(** What a signal is closed by is that all signals of its report are. *)
Lemma closed_all a k g :
  sound a → ad_signals a !! k = Some g → closed g → allClosed a (adverseSignalReportID g).
Proof.
  intros Hs Hk Hc k' g' Hk' Hr. assert (k' = k) as -> by (by eapply (sd_report _ Hs)). by simplify_eq.
Qed.

Lemma wp_acceptSignal g s sequence clock w :
  sound (adv W w) → ad_signals (adv W w) !! sig_key g = Some g → ¬ closed g →
  ad_situations (adv W w) !! sit_key s = Some s →
  (sit_UID s, adverseSignalReportID g) ∈ ad_recorded (adv W w) →
  wp (acceptSignal g s sequence clock) (λ _ w', sound (adv W w')) w.
Proof.
  intros Hs Hg Hopen Hk Hrec. unfold acceptSignal. apply wp_bind.
  eapply wp_mono; [by apply wp_patchAdverseSignalStatus|]. intros [e|[r g']] w' (Hs' & Hsit & Hx); [done|].
  destruct (again r) eqn:Er; [by apply wp_ret|]. destruct (Hx r g' eq_refl Er) as (Hg' & Hkey & Hu & Hst).
  apply wp_bind. unfold clearAdverseSignalReceipt. eapply wp_mono.
  { apply wp_clearReceiptOf; [done|by rewrite Hsit|]. eapply closed_all; [done|exact Hg'|].
    right; left. by rewrite Hst. }
  intros [e|r'] w'' Hs''; [done|]. case_match; [by apply wp_ret|]. by apply wp_removeFinalizer.
Qed.

Lemma wp_pendingSignal g reason message now w :
  sound (adv W w) → ad_signals (adv W w) !! sig_key g = Some g → ¬ closed g →
  wp (pendingSignal g reason message now) (λ _ w', sound (adv W w')) w.
Proof.
  intros Hs Hg Hopen. unfold pendingSignal. apply wp_bind. eapply wp_mono.
  { apply wp_patchAdverseSignalStatus; [done|done|done|]. done. }
  intros [e|[r g']] w' [Hs' _]; done.
Qed.

Lemma wp_deliverSignal g clock w :
  sound (adv W w) → ad_signals (adv W w) !! sig_key g = Some g → ¬ closed g →
  wp (deliverSignal g clock) (λ _ w', sound (adv W w')) w.
Proof.
  intros Hs Hg Hopen. unfold deliverSignal. apply wp_bind, wp_try, wp_read.
  destruct (readSituation _ _ w) as [e|s] eqn:Es; [case_match; [by apply wp_pendingSignal|done]|].
  apply readSituation_ok in Es. pose proof (sd_situation_key _ Hs _ _ Es) as Hkey. rewrite <- Hkey in Es.
  case_match; [by apply wp_pendingSignal|].
  destruct (adverseSituationRecordSignalEvent _ _ _ _ _) as [| |recorded] eqn:Er; [|by apply wp_pendingSignal|].
  - apply wp_acceptSignal; try done. eapply (sd_receipt _ Hs); [exact Es|].
    revert Er. unfold adverseSituationRecordSignalEvent. case_bool_decide; [done|]. case_bool_decide; [done|].
    by repeat case_match.
  - apply signal_receipts in Er as (Hp & Hnew & _). apply wp_bind, wp_try, wp_patchSituation; [done| |].
    { intros e w' Ha. case_match; [apply wp_ret|apply wp_fail]; by rewrite Ha. }
    intros x w' s' Hkey' Hu _ Hst Ha Hx.
    destruct (sound_recorded (adv W w) s s' (adverseSignalReportID g)) as [Hs' Hrec]; try done.
    { by rewrite Hkey'. }
    { rewrite Hst. exact Hp. }
    { intros Hc. by apply Hopen, (Hc _ _ Hg). }
    rewrite <- Ha in Hs', Hrec. destruct x as [e|t]; cbn [fst snd]; [by destruct (IsConflict e)|].
    rewrite (Hx t eq_refl). apply wp_acceptSignal; [done| |done| |done].
    + by rewrite Ha.
    + rewrite Ha. unfold putSituation. cbn [ad_situations]. apply lookup_insert_eq.
Qed.

Lemma wp_releaseSignal g w :
  sound (adv W w) → ad_signals (adv W w) !! sig_key g = Some g → closed g →
  wp (releaseSignal g) (λ _ w', sound (adv W w')) w.
Proof.
  intros Hs Hg Hc. unfold releaseSignal. apply wp_bind. eapply (wp_mono _ (λ _ w', sound (adv W w'))).
  - unfold clearAdverseSignalReceipt. set (name := if bool_decide (_ = "") then TrimSpace _ else _). clearbody name.
    destruct (bool_decide _); [done|]. apply wp_bind, wp_try, wp_read.
    destruct (readSituation _ _ w) as [e|s] eqn:Es; [by destruct (IsNotFound e)|]. apply readSituation_ok in Es.
    apply wp_clearReceiptOf; [done|by rewrite (sd_situation_key _ Hs _ _ Es)|by eapply closed_all].
  - intros [e|r] w' Hs'; [done|]. case_match; [done|]. case_match; [done|]. by apply wp_removeFinalizer.
Qed.

Lemma wp_reconcileSignal ns n clock w :
  sound (adv W w) → wp (reconcileSignal ns n clock) (λ _ w', sound (adv W w')) w.
Proof.
  intros Hs. unfold reconcileSignal. apply wp_bind, wp_try, wp_read.
  destruct (getSignal ns n w) as [e|g] eqn:Eg; [by case_match|]. apply getSignal_ok in Eg.
  pose proof (sd_signal_key _ Hs _ _ Eg) as Hkey. rewrite <- Hkey in Eg.
  destruct (deletes (sig_ObjectMeta g)) eqn:Ed.
  { case_match; [done|]. apply wp_releaseSignal; [done|done|]. by left. }
  case_bool_decide as Ha; [apply wp_releaseSignal; [done|done|]; by right; left|].
  case_bool_decide as Hr; [case_match; [done|by apply wp_removeFinalizer]|].
  assert (¬ closed g) as Hopen by (intros [Hd|[?|?]]; congruence).
  case_match.
  { apply wp_bind, wp_try. unfold wp at 1. destruct (patchSignalFinalizers _ _ w) as [w' x] eqn:E.
    assert (sound (adv W w')) by by eapply finalizers_sound.
    cbn [fst snd]. destruct x as [e|t]; [destruct (IsConflict e)|]; done. }
  destruct (adverseSignalValidationError g) as [[reason message]|]; [|by apply wp_deliverSignal].
  apply wp_bind. eapply wp_mono; [by apply wp_patchAdverseSignalStatus|]. by intros [e|[r g']] w' [Hs' _].
Qed.

(** A new status with the same receipts. *)
Lemma wp_keepReceipts {A} s new w (k : GoErr + AdverseSituation → M W GoErr A) :
  sound (adv W w) → ad_situations (adv W w) !! sit_key s = Some s →
  receipts new = receipts (sit_Status s) →
  (∀ x w', sound (adv W w') → wp (k x) (λ _ w'', sound (adv W w'')) w') →
  wp (mbnd (mtry (patchSituationStatus (sit_key s) (sit_Status s) new)) k) (λ _ w', sound (adv W w')) w.
Proof.
  intros Hs Hk Hr Hnext. apply wp_bind, wp_try, wp_patchSituation; [done| |].
  { intros e w' Ha. apply Hnext. by rewrite Ha. }
  intros x w' s' Hkey Hu _ Hst Ha _. apply Hnext. rewrite Ha.
  eapply sound_fewer; [done|by rewrite Hkey|done|..]; rewrite Hst, Hr; auto. by intros r Hin Hout.
Qed.

Lemma wp_ensureSituation ns n groupKey w :
  sound (adv W w) →
  wp (ensureSituation ns n groupKey) (λ x w', sound (adv W w')
    ∧ ∀ s, x = inr s → ad_situations (adv W w') !! (ns, n) = Some s) w.
Proof.
  intros Hs. unfold ensureSituation. apply wp_bind, wp_try, wp_read.
  assert (∀ w, sound (adv W w) → wp (mread (readSituation ns n)) (λ x w', sound (adv W w')
    ∧ ∀ s, x = inr s → ad_situations (adv W w') !! (ns, n) = Some s) w) as Hread.
  { intros w1 Hw1. apply wp_read. split; [done|]. apply readSituation_ok. }
  destruct (readSituation ns n w) as [e|s] eqn:Es.
  - case_match; [done|]. apply wp_bind, wp_try. unfold wp at 1. destruct (createSituation _ w) as [w' x] eqn:E.
    assert (sound (adv W w')) as Hs'.
    { destruct (createSituation_law _ _ _ _ E) as [->|(s' & Hk & Hz & Hu & Hp & ->)]; [done|].
      by apply sound_newSituation. }
    cbn [fst snd]. destruct x as [e'|s']; [case_match; [by apply Hread|done]|by apply Hread].
  - apply wp_ret. split; [done|]. intros s' [= <-]. by apply readSituation_ok.
Qed.

Lemma wp_recordSource source integration trigger now w :
  sound (adv W w) → wp (recordSource source integration trigger now) (λ _ w', sound (adv W w')) w.
Proof.
  intros Hs. unfold recordSource. destruct (adverseSituationRouteForSource _ _) as [[ns n] groupKey].
  apply wp_bind. eapply wp_mono; [by apply wp_ensureSituation|]. intros [e|s] w' [Hs' Hx]; [done|].
  specialize (Hx s eq_refl). rewrite <- (sd_situation_key _ Hs' _ _ Hx) in Hx.
  destruct (adverseSituationRecordEvent _ _ _ _ _) as [recorded|] eqn:Er; [|done].
  apply wp_keepReceipts; [done|done|by rewrite <- (record_receipts _ _ _ _ _ _ Er)|].
  intros [e|t] w'' Hs''; [by destruct (IsConflict e)|done].
Qed.

Lemma wp_recordSources source recorded integrations clock w :
  sound (adv W w) → wp (recordSources source recorded integrations clock) (λ _ w', sound (adv W w')) w.
Proof.
  revert recorded clock w. induction integrations as [|i integrations IH]; intros recorded clock w Hs; [done|].
  cbn [recordSources]. destruct (negb _); [by apply IH|].
  destruct (agentRunTriggerForSourceWithClassifier _ _ _) as [trigger|]; [|by apply IH].
  destruct (adverseSituationRouteForSource _ _) as [[ns n] groupKey]. destruct (bool_decide _); [by apply IH|].
  apply wp_bind. eapply wp_mono; [by apply wp_recordSource|]. intros [e|r] w' Hs'; [done|].
  case_match; [done|]. by apply IH.
Qed.

Lemma wp_reconcileTrigger gvk sources ns n clock w :
  sound (adv W w) → wp (reconcileTrigger gvk sources ns n clock) (λ _ w', sound (adv W w')) w.
Proof.
  intros Hs. unfold reconcileTrigger. apply wp_bind, wp_try, wp_read.
  destruct (getSource _ _ _ w) as [e|source]; [by destruct (IsNotFound e)|].
  case_match; [done|]. by apply wp_recordSources.
Qed.

(** Runs are elsewhere. *)
Lemma wp_detach s w :
  wp (detachAdverseSituationAgentRunOwners s) (λ _ w', adv W w' = adv W w) w.
Proof.
  unfold detachAdverseSituationAgentRunOwners. apply wp_bind, wp_try, wp_read.
  destruct (listRuns _ _ w) as [e|runs]; [done|].
  apply (wp_foreach _ (λ w', adv W w' = adv W w)); [done|].
  intros u run w1 Hw. destruct (detachAgentRunControllerOwner _ _ _ _ _) as [removed detached].
  destruct removed; [|by apply wp_ret]. cbn [negb]. apply wp_bind, wp_try. unfold wp at 1.
  destruct (patchRunOwners _ _ w1) as [w2 x] eqn:E. apply patchRunOwners_adv in E. cbn [fst snd].
  destruct x as [e|t]; [apply wp_fail|apply wp_ret]; congruence.
Qed.

(** What is known of the status once the responder is there. *)
Definition responded (situation : AdverseSituation) (status : AdverseSituationStatus)
    (x : GoErr + AdverseSituationStatus * option AgentRun) : Prop :=
  ∀ status' run, x = inr (status', run) →
    sis_Events status' = sis_Events status
    ∧ (adverseSituationAgentRunEnabled situation = true →
         ∃ r, run = Some r ∧ sis_ActiveResponderUID status' = run_UID r).

Lemma wp_ensureRun s status w :
  wp (ensureAdverseSituationAgentRun s status) (λ x w', adv W w' = adv W w ∧ responded s status x) w.
Proof.
  unfold ensureAdverseSituationAgentRun, responded.
  destruct (adverseSituationAgentRunEnabled s); cbn [negb]; [|apply wp_ret; split; [done|]; by intros ? ? [= <- <-]].
  set (status1 := if sis_Sequence status <=? 0 then _ else status).
  assert (sis_Events status1 = sis_Events status) as Hev by (unfold status1; by case_match). clearbody status1.
  set (has := negb _). set (name := if has then _ else _). clearbody has name.
  apply wp_bind. apply (wp_mono _ (λ _ w', adv W w' = adv W w)).
  - unfold findResponder. apply wp_bind, wp_try, wp_read. destruct (getRun _ _ w) as [e|run]; [|done].
    destruct (negb _); [done|]. destruct has; [done|]. unfold wp.
    destruct (createRun _ w) as [w' x] eqn:E. by apply createRun_adv in E.
  - intros [e|run] w' Hw; [by split|]. destruct (responderError _ _ _ _); [by apply wp_fail|].
    apply wp_ret. split; [done|]. intros ? ? [= <- <-]. split; [done|]. by exists run.
Qed.

Lemma settle_events s run now status : sis_Events (settleSituation s run now status).1 = sis_Events status.
Proof.
  unfold settleSituation. destruct (sis_Events status) eqn:E; [by cbn; rewrite E|].
  destruct (adverseSituationCanResolve _ _ _); by cbn; rewrite E.
Qed.

Lemma pullRequest_events s run now status : sis_Events (withPullRequest s run now status) = sis_Events status.
Proof. unfold withPullRequest. by repeat case_match. Qed.

(** The status a reconciliation of the stored situation leads to. *)
Definition settledStatus (s : AdverseSituation) (now : Time) (new : AdverseSituationStatus) : Prop :=
  ∃ run status, new = (settleSituation s run now (withPullRequest s run now status)).1
    ∧ sis_Events status = sis_Events (sit_Status s)
    ∧ (sis_Events (sit_Status s) ≠ [] → sis_Phase (sit_Status s) ≠ AdverseSituationPhaseResolved →
       adverseSituationAgentRunEnabled s = true →
         ∃ r, run = Some r ∧ sis_ActiveResponderUID status = run_UID r).

Lemma wp_situation ns n now w s :
  (∀ s', readSituation ns n w = inr s' → s' = s) → ad_situations (adv W w) !! sit_key s = Some s →
  wp (reconcileSituation ns n now) (λ _ w', adv W w' = adv W w
    ∨ ∃ s', adv W w' = putSituation s' (adv W w) ∧ sit_key s' = sit_key s ∧ sit_UID s' = sit_UID s
        ∧ settledStatus s now (sit_Status s')) w.
Proof.
  intros Hread Hk. unfold reconcileSituation. apply wp_bind, wp_try, wp_read.
  destruct (readSituation ns n w) as [e|t]; [by destruct (IsNotFound e); left|]. rewrite (Hread t eq_refl). clear Hread.
  destruct (deletes _); [by left|]. apply wp_bind. eapply wp_mono; [apply wp_detach|].
  intros [e|u] w1 Hw1; [by left|]. set (status := _ <| sis_ObservedGeneration := _ |>).
  assert (sis_Events status = sis_Events (sit_Status s) ∧ sis_Phase status = sis_Phase (sit_Status s)) as [Hev Hph] by done.
  clearbody status. rewrite Hev, Hph. set (open := _ && _). apply wp_bind.
  apply (wp_mono _ (λ x w', adv W w' = adv W w ∧ ∀ status' run, x = inr (status', run) →
    sis_Events status' = sis_Events status ∧ (open = true → adverseSituationAgentRunEnabled s = true →
      ∃ r, run = Some r ∧ sis_ActiveResponderUID status' = run_UID r))).
  { destruct open; [rewrite <- Hw1|apply wp_ret; split; [done|]; by intros ? ? [= <- <-]].
    eapply wp_mono; [apply wp_ensureRun|]. intros x w' [Ha Hx]. split; [done|]. intros ? ? E.
    destruct (Hx _ _ E) as [? Hr]. split; [done|]. by intros _. }
  intros [e|[status' run]] w2 [Hw2 Hx]; [by left|]. destruct (Hx status' run eq_refl) as [Hev' Hrun]. clear Hx.
  destruct (settleSituation _ _ _ _) as [new after] eqn:Eset. unfold patchAdverseSituationStatus.
  apply wp_bind, wp_try, wp_patchSituation; [by rewrite Hw2| |].
  { intros e w' Ha. rewrite Hw2 in Ha. destruct (IsConflict e); by left. }
  intros x w' s' Hkey Hu _ Hst Ha _. rewrite Hw2 in Ha.
  assert (settledStatus s now (sit_Status s')) as Hs.
  { exists run, status'. rewrite Eset, Hst. split; [done|]. split; [congruence|]. intros He Hp. apply Hrun.
    unfold open. rewrite !bool_decide_eq_false_2; done. }
  destruct x as [e|t']; [destruct (IsConflict e)|]; right; eauto.
Qed.

Lemma settled_receipts s now new : settledStatus s now new → receipts new = receipts (sit_Status s).
Proof.
  intros (run & status & -> & Hev & _). unfold receipts. by rewrite settle_events, pullRequest_events, Hev.
Qed.

Lemma wp_reconcileSituation ns n now w :
  sound (adv W w) → wp (reconcileSituation ns n now) (λ _ w', sound (adv W w')) w.
Proof.
  intros Hs. destruct (readSituation ns n w) as [e|s] eqn:Es.
  { unfold reconcileSituation. apply wp_bind, wp_try, wp_read. rewrite Es. by destruct (IsNotFound e). }
  pose proof (readSituation_ok _ _ _ _ Es) as Hk. rewrite <- (sd_situation_key _ Hs _ _ Hk) in Hk.
  eapply wp_mono; [apply (wp_situation ns n now w s); [by rewrite Es; intros ? [=]|done]|].
  intros x w' [->|(s' & -> & Hkey & Hu & Hst)]; [done|]. apply settled_receipts in Hst.
  apply (sound_fewer _ s); rewrite ?Hst; auto; [by rewrite Hkey|]. by intros r Hin Hout.
Qed.

(** ** The system *)

(** What others do between reconciliations: they create situations and signals under
    new identities, edit and delete them, but do not write their status. *)
Inductive adverseElsewhere w w' : Prop :=
  | adv_quiet : adv W w' = adv W w → adverseElsewhere w w'
  | adv_situation s :
      ad_situations (adv W w) !! sit_key s = None → sit_Status s = zero_AdverseSituationStatus →
      (∀ k t, ad_situations (adv W w) !! k = Some t → sit_UID t ≠ sit_UID s) →
      (∀ p, p ∈ ad_recorded (adv W w) → p.1 ≠ sit_UID s) →
      adv W w' = putSituation s (adv W w) → adverseElsewhere w w'
  | adv_editSituation s s' :
      ad_situations (adv W w) !! sit_key s' = Some s → sit_UID s' = sit_UID s → sit_Status s' = sit_Status s →
      adv W w' = putSituation s' (adv W w) → adverseElsewhere w w'
  | adv_dropSituation k : adv W w' = dropSituation k (adv W w) → adverseElsewhere w w'
  | adv_signal g :
      ad_signals (adv W w) !! sig_key g = None → sig_Status g = zero_AdverseSignalStatus →
      (∀ k t, ad_signals (adv W w) !! k = Some t → adverseSignalReportID t ≠ adverseSignalReportID g) →
      (∀ p, p ∈ ad_recorded (adv W w) → p.2 ≠ adverseSignalReportID g) →
      adv W w' = putSignal g (adv W w) → adverseElsewhere w w'
  | adv_editSignal g g' :
      ad_signals (adv W w) !! sig_key g' = Some g → sig_key g' = sig_key g → sig_UID g' = sig_UID g →
      sig_Status g' = sig_Status g → (deletes (sig_ObjectMeta g) = true → deletes (sig_ObjectMeta g') = true) →
      adv W w' = putSignal g' (adv W w) → adverseElsewhere w w'
  | adv_dropSignal k : adv W w' = dropSignal k (adv W w) → adverseElsewhere w w'.

Inductive adverseStep w w' : Prop :=
  | step_signal ns n clock x : reconcileSignal ns n clock w = (w', x) → adverseStep w w'
  | step_trigger gvk sources ns n clock x : reconcileTrigger gvk sources ns n clock w = (w', x) → adverseStep w w'
  | step_situation ns n now x : reconcileSituation ns n now w = (w', x) → adverseStep w w'
  | step_others : adverseElsewhere w w' → adverseStep w w'.

(** Nothing has been recorded and no signal reconciled. *)
Record undelivered (a : Adv) : Prop := {
  ud_situation k s : ad_situations a !! k = Some s → sit_key s = k ∧ receipts (sit_Status s) = [];
  ud_signal k g : ad_signals a !! k = Some g → sig_key g = k ∧ sig_Status g = zero_AdverseSignalStatus;
  ud_uid k k' s s' : ad_situations a !! k = Some s → ad_situations a !! k' = Some s' → sit_UID s = sit_UID s' → k = k';
  ud_report k k' g g' : ad_signals a !! k = Some g → ad_signals a !! k' = Some g' →
    adverseSignalReportID g = adverseSignalReportID g' → k = k';
  ud_recorded : ad_recorded a = [] }.

Lemma undelivered_sound a : undelivered a → sound a.
Proof.
  intros [Hsit Hsig Hu Hr Hrec]. split; rewrite ?Hrec; auto.
  - intros k s Hk. by apply Hsit.
  - intros k g Hk. by apply Hsig.
  - by intros p ?%not_elem_of_nil.
  - constructor.
  - intros k g Hk. destruct (Hsig _ _ Hk) as [_ ->]. done.
  - intros k s r Hk. destruct (Hsit _ _ Hk) as [_ ->]. by intros ?%not_elem_of_nil.
Qed.

Lemma elsewhere_sound w w' : sound (adv W w) → adverseElsewhere w w' → sound (adv W w').
Proof.
  intros Hs [->|s Hk Hz Hu Hp ->|s s' Hk Hu Hst ->|k ->|g Hk Hz Hr Hp ->|g g' Hk Hkey Hu Hst Hd ->|k ->]; [done|..].
  - by apply sound_newSituation.
  - apply (sound_fewer _ s); rewrite ?Hst; auto. by intros r Hin Hout.
  - by apply sound_dropSituation.
  - by apply sound_newSignal.
  - apply (sound_signal _ g); try done; rewrite ?Hst.
    + unfold closed. rewrite Hst. intros [?|?]; [left; auto|by right].
    + rewrite (report_same _ _ Hkey Hu). by apply (sd_accepted _ Hs (sig_key g')).
  - by apply sound_dropSignal.
Qed.

Lemma step_sound w w' : sound (adv W w) → adverseStep w w' → sound (adv W w').
Proof.
  intros Hs [ns n clock x E|gvk sources ns n clock x E|ns n now x E|He]; [..|by eapply elsewhere_sound].
  - exact (wp_elim _ _ _ _ _ (wp_reconcileSignal ns n clock w Hs) E).
  - exact (wp_elim _ _ _ _ _ (wp_reconcileTrigger gvk sources ns n clock w Hs) E).
  - exact (wp_elim _ _ _ _ _ (wp_reconcileSituation ns n now w Hs) E).
Qed.

Lemma steps_sound w w' : undelivered (adv W w) → rtc adverseStep w w' → sound (adv W w').
Proof.
  intros Hu%undelivered_sound Hsteps. revert Hu.
  induction Hsteps as [|w w1 w2 Hstep _ IH]; [done|]. intros Hw. by apply IH, (step_sound w).
Qed.

(** C8: a report is recorded at most once in a situation, and a signal that is marked as
    accepted has been recorded in the situation it names: over all sequences of
    reconciliations of signals, watched objects and situations in which any call can
    fail, also after it took effect. *)
Theorem signals_recorded_once w w' :
  undelivered (adv W w) → rtc adverseStep w w' →
  NoDup (ad_recorded (adv W w'))
  ∧ ∀ k g, ad_signals (adv W w') !! k = Some g → ast_Phase (sig_Status g) = AdverseSignalPhaseAccepted →
      (ast_SituationUID (sig_Status g), adverseSignalReportID g) ∈ ad_recorded (adv W w').
Proof.
  intros Hu Hsteps. pose proof (steps_sound _ _ Hu Hsteps) as Hs.
  split; [apply (sd_nodup _ Hs)|apply (sd_accepted _ Hs)].
Qed.
End handlers.

(** ** Responders and resolution *)

Section responders.
Context {W : Type} `{Client W, AdverseClient W, !AdverseLaws W, Conditions, Unstructured, Marshal AgentRunSpec}.

(** The responder on record is final: a reconciliation that goes on does so with the
    run of that UID and spec, and creates no other. *)
Theorem responder_fixed situation status (w w' : W) status' run :
  ensureAdverseSituationAgentRun situation status w = (w', inr (status', run)) →
  adverseSituationAgentRunEnabled situation = true →
  (∃ ref, sis_ActiveResponderRef status = Some ref ∧ blank (ref_Name ref) = false) →
  blank (sis_ActiveResponderUID status) = false → blank (sis_ActiveResponderDigest status) = false →
  w' = w
  ∧ sis_ActiveResponderUID status' = sis_ActiveResponderUID status
  ∧ sis_ActiveResponderDigest status' = sis_ActiveResponderDigest status
  ∧ ∃ r, run = Some r ∧ run_UID r = sis_ActiveResponderUID status
       ∧ digestJSON (jsonMarshal (run_Spec r)) = sis_ActiveResponderDigest status
       ∧ adverseSituationAgentRunStableIdentityMatches r situation = true.
Proof.
  intros E He (ref & Href & Hn) Hu Hd. revert E. unfold ensureAdverseSituationAgentRun. rewrite He. cbn [negb].
  set (status1 := if sis_Sequence status <=? 0 then _ else status).
  assert (sis_ActiveResponderRef status1 = sis_ActiveResponderRef status
    ∧ sis_ActiveResponderUID status1 = sis_ActiveResponderUID status
    ∧ sis_ActiveResponderDigest status1 = sis_ActiveResponderDigest status) as (Er & Eu & Ed)
    by (unfold status1; by case_match). clearbody status1. rewrite Er, Href.
  unfold blank in Hn. rewrite Hn. cbn [negb]. unfold mbnd, findResponder, mbnd, mtry, mread.
  destruct (getRun _ _ w) as [e|r]; [by destruct (IsNotFound e)|]. cbn.
  unfold responderError. rewrite Eu, Ed, Hu, Hd. cbn [negb andb].
  destruct (adverseSituationAgentRunStableIdentityMatches r situation) eqn:Em; [|done].
  destruct (bool_decide (_ = run_UID r)) eqn:Hru; cbn [negb]; [|done]. apply bool_decide_eq_true in Hru.
  destruct (bool_decide (_ = digestJSON _)) eqn:Hrd; cbn [negb]; [|done]. apply bool_decide_eq_true in Hrd. intros [= <- <- <-].
  split_and!; try done. by exists r.
Qed.

(** A run that was created for the situation but not recorded, for want of a status
    patch, is refused once the situation has another resource version: the
    reconciliation of the situation fails from then on. *)
Theorem responder_wedges situation situation' status name :
  meta_ResourceVersion (sit_ObjectMeta situation') ≠ meta_ResourceVersion (sit_ObjectMeta situation) →
  is_Some (responderError situation' status (adverseSituationAgentRunFor situation name) false).
Proof.
  intros Hrv. unfold responderError. cbn [andb]. unfold adverseSituationAgentRunMatches.
  rewrite (bool_decide_eq_false_2 (run_Spec _ = run_Spec _)); [by rewrite andb_false_r|].
  intros Heq. apply Hrv. symmetry.
  pose proof (f_equal (λ spec, trg_ResourceVersion (rs_Trigger spec)) Heq) as Ht. revert Ht.
  unfold adverseSituationAgentRunFor. cbn.
  destruct (rsps_AgentRun (ssp_Responders (sit_Spec situation))), (rsps_AgentRun (ssp_Responders (sit_Spec situation'))); done.
Qed.

End responders.


(** ** Stale reads *)

(** The status of a situation is patched without a check of its version.  Of two
    reports that are recorded from the same version, because the second reader had not
    seen the first write, only the second stays in the buffer, and one is counted. *)
Theorem stale_read_loses_report event event' r r' buffer buffer' now now' base first second :
  adverseSituationRecordSignalEvent event r buffer now base = Changed first →
  adverseSituationRecordSignalEvent event' r' buffer' now' base = Changed second → r ≠ r' →
  (r ∉ receipts (mergeSituationStatus base second first))
  ∧ sis_EventCount (mergeSituationStatus base second first) = sis_EventCount first.
Proof.
  intros H1 H2 Hne.
  apply signal_receipts in H1 as Hr1. destruct Hr1 as (_ & Hnew & _).
  apply signal_receipts in H2 as Hr2. destruct Hr2 as (Hp & Hnew' & _).
  apply signal_count in H1 as (p1 & Hp1 & _ & Hc1). apply signal_count in H2 as (p2 & Hp2 & _ & Hc2).
  assert (p2 = p1) as -> by congruence. split.
  - unfold receipts, mergeSituationStatus, mergedValue. cbn [sis_Events].
    rewrite bool_decide_eq_false_2; [fold (receipts second); rewrite Hp; by intros [->|?]%elem_of_cons|].
    intros Heq. apply Hnew'. unfold receipts. rewrite <- Heq. fold (receipts second). rewrite Hp. by left.
  - unfold mergeSituationStatus, mergedValue. cbn [sis_EventCount]. case_bool_decide; congruence.
Qed.
