(* ===== verification/AdverseMem.v ===== *)
(** * An in-memory cluster for adverse signals

    A concrete server for the controllers of adverse signals and situations, with a
    proof that it satisfies the laws of [AdverseSafety]; the witnesses take two
    signals from their creation to their acceptance on it. *)

From stdpp Require Import base list gmap strings.
From Stdlib Require Import ZArith Lia.
From S2P Require Import Prelude GoStrings GoTime Names ApiRun ApiWork ApiAdverse Kube MemKube Fixtures RunControl RunLaunch SpecEq Adverse AdverseReconcile AdverseBuffer AdverseSafety.

Open Scope Z_scope.

Record AdvWorld := mkAdvWorld { aw_cluster : MemCluster; aw_adv : Adv; aw_next : nat }.
#[export] Instance eta_AdvWorld : Eta AdvWorld := λ w, mkAdvWorld (aw_cluster w) (aw_adv w) (aw_next w).

Definition onCluster {A} (m : M MemCluster GoErr A) : M AdvWorld GoErr A := λ w,
  let '(c, x) := m (aw_cluster w) in (w <| aw_cluster := c |>, x).

#[export] Instance adv_client : Client AdvWorld := {
  getRun ns n w := getRun ns n (aw_cluster w);
  listRuns ns sel w := listRuns ns sel (aw_cluster w);
  createRun r := onCluster (createRun r);
  patchRunOwners k os := onCluster (patchRunOwners k os);
  getChain ns n w := getChain ns n (aw_cluster w);
  patchChainFinalizers k fs := onCluster (patchChainFinalizers k fs);
  patchChainStatus k s := onCluster (patchChainStatus k s);
  getSchedule ns n w := getSchedule ns n (aw_cluster w);
  listSchedules w := listSchedules (aw_cluster w);
  patchScheduleStatus k s := onCluster (patchScheduleStatus k s);
  getControl n w := getControl n (aw_cluster w);
  listControls w := listControls (aw_cluster w);
  patchControlStatus k s := onCluster (patchControlStatus k s);
  getProfile ns n w := getProfile ns n (aw_cluster w) }.

Definition putAdv (a : Adv) (w : AdvWorld) : AdvWorld := w <| aw_adv := a |> <| aw_next := S (aw_next w) |>.
Definition nextVersion (w : AdvWorld) : string := "v" +:+ fmtNat (aw_next w).

Definition patchedSituation (w : AdvWorld) (base new : AdverseSituationStatus) (s : AdverseSituation) : AdverseSituation :=
  s <| sit_ObjectMeta := (sit_ObjectMeta s) <| meta_ResourceVersion := nextVersion w |> |>
    <| sit_Status := mergeSituationStatus base new (sit_Status s) |>.
Definition patchedSignal (base new : AdverseSignalStatus) (g : AdverseSignal) : AdverseSignal :=
  g <| sig_Status := mergeSignalStatus base new (sig_Status g) |>.
Definition refinalized (fs : list string) (g : AdverseSignal) : AdverseSignal :=
  g <| sig_ObjectMeta := (sig_ObjectMeta g) <| meta_Finalizers := fs |> |>.

Definition memPatchSituation (k : key) (base new : AdverseSituationStatus) : M AdvWorld GoErr AdverseSituation := λ w,
  match ad_situations (aw_adv w) !! k with
  | None => (w, inl (notFound "AdverseSituation"))
  | Some s =>
      let s' := patchedSituation w base new s in
      (putAdv (putSituation s' (aw_adv w)) w, inr s')
  end.

Definition memPatchSignal (k : key) (base new : AdverseSignalStatus) : M AdvWorld GoErr AdverseSignal := λ w,
  match ad_signals (aw_adv w) !! k with
  | None => (w, inl (notFound "AdverseSignal"))
  | Some g =>
      let g' := patchedSignal base new g in
      (putAdv (putSignal g' (aw_adv w)) w, inr g')
  end.

Definition memPatchFinalizers (k : key) (fs : list string) : M AdvWorld GoErr AdverseSignal := λ w,
  match ad_signals (aw_adv w) !! k with
  | None => (w, inl (notFound "AdverseSignal"))
  | Some g =>
      let g' := refinalized fs g in
      if deletes (sig_ObjectMeta g) && bool_decide (fs = []) then (putAdv (dropSignal k (aw_adv w)) w, inr g')
      else (putAdv (putSignal g' (aw_adv w)) w, inr g')
  end.

(** A situation gets a new UID; one that was used before is refused. *)
Definition memCreateSituation (s : AdverseSituation) : M AdvWorld GoErr AdverseSituation := λ w,
  let a := aw_adv w in
  let s' := s <| sit_ObjectMeta := (sit_ObjectMeta s) <| meta_UID := "situation-" +:+ fmtNat (aw_next w) |>
                   <| meta_ResourceVersion := nextVersion w |> |> <| sit_Status := zero_AdverseSituationStatus |> in
  if negb (isSet (ad_situations a !! sit_key s'))
     && bool_decide (map_Forall (λ _ t, sit_UID t ≠ sit_UID s') (ad_situations a))
     && bool_decide (Forall (λ p, p.1 ≠ sit_UID s') (ad_recorded a))
  then (putAdv (putSituation s' a) w, inr s')
  else (w, inl (ErrApi ReasonAlreadyExists "already exists")).

#[export] Instance adv_adverse : AdverseClient AdvWorld := {
  getSignal ns n w := found "AdverseSignal" (ad_signals (aw_adv w) !! (ns, n));
  patchSignalFinalizers := memPatchFinalizers;
  patchSignalStatus := memPatchSignal;
  readSituation ns n w := found "AdverseSituation" (ad_situations (aw_adv w) !! (ns, n));
  createSituation := memCreateSituation;
  patchSituationStatus := memPatchSituation;
  getSource _ _ _ _ := inl (notFound "source") }.

Lemma found_some {A} what (o : option A) a : found what o = inr a → o = Some a.
Proof. destruct o; [by intros [= <-]|done]. Qed.

Lemma onCluster_adv {A} (m : M MemCluster GoErr A) w w' x : onCluster m w = (w', x) → aw_adv w' = aw_adv w.
Proof. unfold onCluster. destruct (m (aw_cluster w)). intros E%(f_equal fst). cbn in E. by subst. Qed.

#[refine, export] Instance adv_laws : AdverseLaws AdvWorld := { adv := aw_adv }.
Proof.
  - intros w ns n s. apply found_some.
  - intros w ns n g. apply found_some.
  - intros w w' k base new x. cbn. unfold memPatchSituation.
    destruct (ad_situations (aw_adv w) !! k) as [s|] eqn:E; [|intros [= <- <-]; left; eauto].
    intros [= <- <-]. right. exists s, (patchedSituation w base new s). split; [done|]. do 5 (split; [done|]). by intros t [= <-].
  - intros w w' s x. cbn. unfold memCreateSituation. set (s' := _ <| sit_Status := _ |>).
    destruct (_ && _) eqn:E; [|intros [= <- <-]; by left]. intros [= <- <-]. right. exists s'.
    apply andb_true_iff in E as [[E1 E2%bool_decide_eq_true]%andb_true_iff E3%bool_decide_eq_true].
    split; [by destruct (ad_situations _ !! sit_key s')|]. split; [done|]. split; [intros k t Ht; by apply (E2 k)|].
    split; [|done]. intros p Hp. rewrite Forall_forall in E3. by apply E3.
  - intros w w' k base new x. cbn. unfold memPatchSignal.
    destruct (ad_signals (aw_adv w) !! k) as [g|] eqn:E; [|intros [= <- <-]; left; eauto].
    intros [= <- <-]. right. exists g, (patchedSignal base new g). split; [done|]. do 5 (split; [done|]). by intros t [= <-].
  - intros w w' k fs x. cbn. unfold memPatchFinalizers.
    destruct (ad_signals (aw_adv w) !! k) as [g|] eqn:E; [|intros [= <- <-]; by left].
    destruct (_ && _); intros [= <- <-]; right; [by left|]. right. exists g, (refinalized fs g). split; [done|]. by split_and!.
  - intros w w' r x. apply onCluster_adv.
  - intros w w' k os x. apply onCluster_adv.
Defined.

(** ** Two signals *)

#[local] Existing Instance fx_marshal_spec.
#[local] Instance fx_unstructured : Unstructured := {
  NestedFieldNoCopy _ _ := None; NestedString _ _ := None; NestedSlice _ _ := None; convertCondition _ := None;
  numberInt64 _ := 0; selectorMatches _ _ := Some true; ParseGroupVersion _ := None; GroupVersionString := gvk_Version;
  GVKString := gvk_Kind; IsDNS1035Label _ := true; IsDNS1123Label _ := true; IsDNS1123Subdomain _ := true }.

Definition fx_situation : AdverseSituation :=
  zero_AdverseSituation <| sit_ObjectMeta := fx_meta "ops" "incident" "uid-incident" fx_epoch ∅ |>.
Definition fx_signal (name : string) : AdverseSignal :=
  zero_AdverseSignal <| sig_ObjectMeta := fx_meta "ops" name ("uid-" +:+ name) fx_epoch ∅ |>
    <| sig_Spec := zero_AdverseSignalSpec <| asp_SituationRef := mkLocalObjectReference "incident" |>
         <| asp_SourceRef := mkAgentRunSourceRef "v1" "Deployment" "ops" name |>
         <| asp_Trigger := zero_AdverseSignalTriggerSpec <| atr_Reason := "CrashLoop" |> |> |>.

Definition fx_adv_start : AdvWorld :=
  mkAdvWorld (fx_cluster [] [] [] [])
    (mkAdv {[ ("ops", "incident") := fx_situation ]}
       (<[("ops", "api") := fx_signal "api"]> {[ ("ops", "web") := fx_signal "web" ]}) []) 0.

Definition fx_clock (n : nat) : Time := fx_epoch + Z.of_nat n * Second.
Definition fx_deliver (name : string) (w : AdvWorld) : AdvWorld :=
  fst (reconcileSignal "ops" name fx_clock (fst (reconcileSignal "ops" name fx_clock w))).
Definition fx_adv_api : AdvWorld := fx_deliver "api" fx_adv_start.
Definition fx_adv_end : AdvWorld := fx_deliver "web" fx_adv_api.

Lemma fx_deliver_steps name w : rtc adverseStep w (fx_deliver name w).
Proof.
  eapply rtc_l; [|apply rtc_once]; eapply step_signal; apply surjective_pairing.
Qed.

Lemma fx_reports : adverseSignalReportID (fx_signal "api") ≠ adverseSignalReportID (fx_signal "web").
Proof.
  intros Heq. apply (f_equal (λ r, bool_decide (r = adverseSignalReportID (fx_signal "web")))) in Heq.
  vm_compute in Heq. discriminate.
Qed.

Lemma fx_undelivered : undelivered (adv AdvWorld fx_adv_start).
Proof.
  assert (∀ k s, ad_situations (adv AdvWorld fx_adv_start) !! k = Some s → k = ("ops", "incident") ∧ s = fx_situation) as Hs.
  { intros k s. cbn [adv adv_laws aw_adv ad_situations fx_adv_start]. by intros [<- <-]%lookup_singleton_Some. }
  assert (∀ k g, ad_signals (adv AdvWorld fx_adv_start) !! k = Some g →
    k = ("ops", "api") ∧ g = fx_signal "api" ∨ k = ("ops", "web") ∧ g = fx_signal "web") as Hg.
  { intros k g. cbn [adv adv_laws aw_adv ad_signals fx_adv_start].
    intros [[<- <-]|[_ [<- <-]%lookup_singleton_Some]]%lookup_insert_Some; auto. }
  split; [| | | |done].
  - intros k s [-> ->]%Hs. done.
  - intros k g [[-> ->]|[-> ->]]%Hg; done.
  - intros k k' s s' [-> _]%Hs [-> _]%Hs. done.
  - intros k k' g g' [[-> ->]|[-> ->]]%Hg [[-> ->]|[-> ->]]%Hg Heq; [reflexivity| | |reflexivity].
    + exact (False_ind _ (fx_reports Heq)).
    + exact (False_ind _ (fx_reports (eq_sym Heq))).
Qed.

Lemma fx_delivered : rtc adverseStep fx_adv_start fx_adv_end.
Proof.
  etrans; [exact (fx_deliver_steps "api" fx_adv_start)|exact (fx_deliver_steps "web" fx_adv_api)].
Qed.

Lemma signals_recorded_once_witness :
  undelivered (adv AdvWorld fx_adv_start) ∧ rtc adverseStep fx_adv_start fx_adv_end
  ∧ length (ad_recorded (adv AdvWorld fx_adv_end)) = 2%nat ∧ NoDup (ad_recorded (adv AdvWorld fx_adv_end)).
Proof.
  split; [exact fx_undelivered|]. split; [exact fx_delivered|]. split; [vm_compute; reflexivity|].
  exact (proj1 (signals_recorded_once fx_adv_start fx_adv_end fx_undelivered fx_delivered)).
Defined.





(** Both signals recorded from the version without events. *)
Definition recordedB (d : Delivery) : bool := match d with Changed _ => true | _ => false end.
Definition statusOf (d : Delivery) : AdverseSituationStatus :=
  match d with Changed status => status | _ => zero_AdverseSituationStatus end.
Lemma recorded_changed d : recordedB d = true → d = Changed (statusOf d).
Proof. by destruct d. Qed.

Definition fx_api_recorded := recorded_changed
  (adverseSituationRecordSignalEvent (adverseSignalEvent (fx_signal "api") fx_situation)
    (adverseSignalReportID (fx_signal "api")) (adverseSituationBuffer fx_situation) fx_epoch (sit_Status fx_situation))
  (ltac:(vm_compute; reflexivity)).
Definition fx_web_recorded := recorded_changed
  (adverseSituationRecordSignalEvent (adverseSignalEvent (fx_signal "web") fx_situation)
    (adverseSignalReportID (fx_signal "web")) (adverseSituationBuffer fx_situation) fx_epoch (sit_Status fx_situation))
  (ltac:(vm_compute; reflexivity)).

Lemma stale_read_loses_report_witness :
  ∃ base first second, sis_EventCount first = 1 ∧ sis_EventCount second = 1
    ∧ sis_EventCount (mergeSituationStatus base second first) = 1.
Proof.
  refine (ex_intro _ _ (ex_intro _ _ (ex_intro _ _ (conj _ (conj _ (eq_trans (proj2 (stale_read_loses_report
    _ _ _ _ _ _ _ _ _ _ _ fx_api_recorded fx_web_recorded fx_reports)) _)))))); vm_compute; reflexivity.
Defined.

Lemma fx_empty_bounded : bufferBounded (sit_Status fx_situation).
Proof. split; [vm_compute; discriminate|by apply Forall_nil]. Qed.

Lemma buffer_bounded_witness : ∃ status, length (sis_Events status) = 1%nat ∧ bufferBounded status.
Proof.
  refine (ex_intro _ _ (conj _ (proj1 (proj2 (buffer_bounded (sit_Status fx_situation) fx_empty_bounded))
    _ _ _ _ _ _ fx_api_recorded))).
  vm_compute. reflexivity.
Defined.
