(* ===== verification/VolumeCopy.v ===== *)
(** * Copies of data volumes

    src/internal/controller/agent_data_volume_copy_controller.go: an
    AgentDataVolumeCopy streams the files of one volume to another between two
    Jobs.  [reconcileCopy] is the whole handler: it waits until no run and no other
    copy uses either volume, prepares the destination, the stream Service and the
    two Jobs, and reports their outcome. *)

From stdpp Require Import base list gmap strings.
From Stdlib Require Import ZArith Lia Ascii.
From S2P Require Import Prelude GoStrings GoTime Names ApiRun ApiWork Kube RunControl Merge RunOutput RunBackend RunJob ApiVolume ApiMaintenance DataVolumes RunLaunch RunObserve.

Open Scope Z_scope.

(** ** Kubernetes objects *)

(** The node affinity a volume requires; [None] when it has none. *)
Record NodeSelectorRequirement := mkNodeSelectorRequirement {
  nsr_Key : string; nsr_Operator : string; nsr_Values : list string }.
Record NodeSelectorTerm := mkNodeSelectorTerm {
  nst_MatchExpressions : list NodeSelectorRequirement; nst_MatchFields : list NodeSelectorRequirement }.
Record PersistentVolume := mkPersistentVolume { pv_NodeAffinity : option (list NodeSelectorTerm) }.

Record ServicePort := mkServicePort {
  sp_Name : string; sp_Port : Z; sp_TargetPort : Z; sp_Protocol : string }.
Record Service := mkService {
  svc_ObjectMeta : ObjectMeta; svc_Selector : gmap string string; svc_Ports : list ServicePort }.
Definition svc_key (s : Service) : key := (meta_Namespace (svc_ObjectMeta s), meta_Name (svc_ObjectMeta s)).

Record Secret := mkSecret {
  scr_ObjectMeta : ObjectMeta; scr_Type : string; scr_Data : gmap string string }.
#[export] Instance eta_Secret : Eta Secret := λ r, mkSecret (scr_ObjectMeta r) (scr_Type r) (scr_Data r).
Definition scr_key (s : Secret) : key := (meta_Namespace (scr_ObjectMeta s), meta_Name (scr_ObjectMeta s)).

(** Go: [resource.ParseQuantity] and [Quantity.Add]. *)
Class Quantities := {
  ParseQuantity : string → option Quantity;
  addQuantity : Quantity → Quantity → Quantity }.

(** The client of the maintenance controllers, beside [Client], [VolumeClient] and
    [Workloads].  A status patch is the merge patch from the first status to the
    second; a create returns the object as stored. *)
Class Maintenance (W : Type) := {
  getVolumeCopy : string → string → W → GoErr + AgentDataVolumeCopy;
  patchVolumeCopyStatus : key → AgentDataVolumeCopyStatus → AgentDataVolumeCopyStatus → M W GoErr unit;
  createDataVolume : AgentDataVolume → M W GoErr AgentDataVolume;
  getPersistentVolume : string → W → GoErr + PersistentVolume;
  getService : string → string → W → GoErr + Service;
  createService : Service → M W GoErr Service;
  patchVolumeProfileStatus : key → VolumeProfileStatus → VolumeProfileStatus → M W GoErr unit;
  getAuthSession : string → string → W → GoErr + AgentAuthSession;
  patchAuthSessionStatus : key → AgentAuthSessionStatus → AgentAuthSessionStatus → M W GoErr unit;
  getSecret : string → string → W → GoErr + Secret;
  createSecret : Secret → M W GoErr unit;
  patchSecret : key → Secret → Secret → M W GoErr unit;
  deleteSecret : key → M W GoErr unit }.

(** Go: [controllerutil.SetControllerReference] on an object without owners. *)
Definition soleController (kind : string) (owner : ObjectMeta) : list OwnerReference :=
  [mkOwnerReference GroupVersion kind (meta_Name owner) (meta_UID owner) (Some true)].

(** A text with its double quotes written as back quotes. *)
Fixpoint ticks (s : string) : string :=
  match s with
  | EmptyString => EmptyString
  | String c s => String (if Ascii.eqb c "`" then dquote else c) (ticks s)
  end.

(** ** Constants *)

Definition agentDataVolumeCopyLabel : string := "control.anvil.hazyforge.io/agent-data-volume-copy".
Definition agentDataVolumeCopyRoleLabel : string := "control.anvil.hazyforge.io/agent-data-volume-copy-role".
Definition agentDataVolumeCopyManagedByLabel : string := "app.kubernetes.io/managed-by".
Definition agentDataVolumeCopyManagedByValue : string := "anvil-agents".
Definition agentDataVolumeCopyComponentLabel : string := "app.kubernetes.io/component".
Definition agentDataVolumeCopyComponentValue : string := "agent-data-volume-copy".
Definition agentDataVolumeCopyDefaultTimeout : Z := 1800.
Definition agentDataVolumeCopyDefaultImage : string := "public.ecr.aws/docker/library/alpine:3.20".
Definition agentDataVolumeCopyStreamPort : Z := 9876.
Definition agentDataVolumeCopySourceRole : string := "source".
Definition agentDataVolumeCopyDestinationRole : string := "destination".

Definition adc_key (c : AgentDataVolumeCopy) : key := (adc_Namespace c, adc_Name c).
Definition copySourceName (c : AgentDataVolumeCopy) : string := TrimSpace (lor_Name (dcs_SourceRef (adc_Spec c))).
Definition copyDestinationName (c : AgentDataVolumeCopy) : string := TrimSpace (dcd_Name (dcs_Destination (adc_Spec c))).

(** ** Pure parts *)

Definition validateAgentDataVolumeCopySpec (obj : AgentDataVolumeCopy) : option string :=
  let spec := adc_Spec obj in
  if bool_decide (copySourceName obj = "") then Some "spec.sourceRef.name is required"
  else if bool_decide (copyDestinationName obj = "") then Some "spec.destination.name is required"
  else if bool_decide (copySourceName obj = copyDestinationName obj)
  then Some "source and destination names must differ"
  else if bool_decide (dcd_NodeSelector (dcs_Destination spec) = ∅)
  then Some "spec.destination.nodeSelector is required"
  else
  let method := if bool_decide (dcs_Method spec = "") then AgentDataVolumeCopyMethodStream else dcs_Method spec in
  if negb (bool_decide (method = AgentDataVolumeCopyMethodStream))
  then Some ("unsupported method " +:+ quote method) else None.

(** The first value of the first requirement on [key]. *)
Definition firstValue (key : string) (requirements : list NodeSelectorRequirement) : option string :=
  match find (λ e, bool_decide (nsr_Key e = key) && negb (bool_decide (nsr_Values e = []))) requirements with
  | Some e => head (nsr_Values e)
  | None => None
  end.
Fixpoint termsNode (terms : list NodeSelectorTerm) : string :=
  match terms with
  | [] => ""
  | term :: terms =>
      match firstValue "kubernetes.io/hostname" (nst_MatchExpressions term) with
      | Some node => node
      | None => match firstValue "metadata.name" (nst_MatchFields term) with
                | Some node => node
                | None => termsNode terms
                end
      end
  end.

Definition uniqueStrings (values : list string) : list string := (foldl uniqueString ([], ∅) values).1.

(** Go: [agentRunIsTerminal] of agent_auth_session_controller.go, which does not
    count the phase NeedsHuman. *)
Definition agentRunIsTerminal (phase : string) : bool :=
  bool_decide (phase = AgentRunPhaseSucceeded) || bool_decide (phase = AgentRunPhaseFailed).

Definition usesVolume (volumeName : string) (run : AgentRun) : bool :=
  existsb (λ ref, bool_decide (TrimSpace (dvr_Name ref) = volumeName))
    (ex_DataVolumeRefs (execution run))
  || existsb (λ v, bool_decide (TrimSpace (dvs_Name v) = volumeName)) (st_DataVolumes (run_Status run)).

(** The destination that is created for a copy. *)
Definition destinationVolume `{Quantities} (obj : AgentDataVolumeCopy) (source : AgentDataVolume) : AgentDataVolume :=
  let destination := dcs_Destination (adc_Spec obj) in
  let sourceSpec := adv_Spec source in
  let size :=
    match dcd_Size destination with
    | Some size => size
    | None =>
        if (q_Nano (dv_Size sourceSpec) =? 0) && negb (blank (dvt_Capacity (adv_Status source)))
        then default (dv_Size sourceSpec) (ParseQuantity (TrimSpace (dvt_Capacity (adv_Status source))))
        else dv_Size sourceSpec
    end in
  let size := if q_Nano size =? 0 then gibibytes 10 "10Gi" else size in
  let storageClass := firstNonEmpty [TrimSpace (dcd_StorageClassName destination);
                                     TrimSpace (dv_StorageClassName sourceSpec);
                                     TrimSpace (dvt_StorageClassName (adv_Status source))] in
  let backend := if bool_decide (dcd_Backend destination = "") then dv_Backend sourceSpec else dcd_Backend destination in
  let notes := if blank (dcd_Notes destination)
               then "Created by AgentDataVolumeCopy " +:+ adc_Name obj +:+ " from source " +:+ adv_Name source +:+ "."
               else TrimSpace (dcd_Notes destination) in
  let applicationRef :=
    match dv_ApplicationRef sourceSpec with
    | Some ref => if blank (app_Name ref) then None else Some (mkApplicationReferenceSpec (TrimSpace (app_Name ref)))
    | None => None
    end in
  mkAgentDataVolume
    (zero_ObjectMeta <| meta_Name := copyDestinationName obj |> <| meta_Namespace := adc_Namespace obj |>
       <| meta_Labels := {[ agentDataVolumeCopyLabel := sanitizeLabelValue (adc_Name obj);
                            agentDataVolumeCopyManagedByLabel := agentDataVolumeCopyManagedByValue;
                            agentDataVolumeCopyComponentLabel := agentDataVolumeCopyComponentValue ]} |>
       <| meta_Annotations := {[ "control.anvil.hazyforge.io/copied-from" := adv_Name source ]} |>)
    (zero_AgentDataVolumeSpec
       <| dv_ApplicationRef := applicationRef |> <| dv_AgentName := dv_AgentName sourceSpec |>
       <| dv_Backend := backend |>
       <| dv_MountPath := firstNonEmpty [TrimSpace (dv_MountPath sourceSpec);
                                         TrimSpace (dvt_MountPath (adv_Status source)); "/opt/anvil"] |>
       <| dv_SubPath := dv_SubPath sourceSpec |> <| dv_StorageClassName := storageClass |>
       <| dv_Size := size |> <| dv_AccessModes := dv_AccessModes sourceSpec |>
       <| dv_NodeSelector := dcd_NodeSelector destination |> <| dv_ExtraEnv := dv_ExtraEnv sourceSpec |>
       <| dv_Notes := notes |>)
    zero_AgentDataVolumeStatus.

Definition streamService (obj : AgentDataVolumeCopy) : Service :=
  mkService
    (zero_ObjectMeta <| meta_Name := agentRunChildName ["vcopy-svc"; adc_Name obj] |>
       <| meta_Namespace := adc_Namespace obj |>
       <| meta_Labels := {[ agentDataVolumeCopyLabel := sanitizeLabelValue (adc_Name obj);
                            agentDataVolumeCopyManagedByLabel := agentDataVolumeCopyManagedByValue;
                            agentDataVolumeCopyComponentLabel := agentDataVolumeCopyComponentValue ]} |>
       <| meta_OwnerReferences := soleController "AgentDataVolumeCopy" (adc_ObjectMeta obj) |>)
    {[ agentDataVolumeCopyLabel := sanitizeLabelValue (adc_Name obj);
       agentDataVolumeCopyRoleLabel := agentDataVolumeCopySourceRole ]}
    [mkServicePort "tar-stream" agentDataVolumeCopyStreamPort agentDataVolumeCopyStreamPort "TCP"].

Definition copyJobLabels (obj : AgentDataVolumeCopy) (role : string) : gmap string string :=
  {[ agentDataVolumeCopyLabel := sanitizeLabelValue (adc_Name obj);
     agentDataVolumeCopyRoleLabel := role;
     agentDataVolumeCopyManagedByLabel := agentDataVolumeCopyManagedByValue;
     agentDataVolumeCopyComponentLabel := agentDataVolumeCopyComponentValue ]}.

(** The Job [createCopyJob] sends. *)
Definition copyJob (obj : AgentDataVolumeCopy) (jobName role claimName mountPath image : string) (timeout : Z)
    (script : string) (nodeSelector : gmap string string) (readWrite : bool) : Job :=
  let labels := copyJobLabels obj role in
  let readOnly := negb readWrite in
  mkJob
    (zero_ObjectMeta <| meta_Name := jobName |> <| meta_Namespace := adc_Namespace obj |> <| meta_Labels := labels |>
       <| meta_OwnerReferences := soleController "AgentDataVolumeCopy" (adc_ObjectMeta obj) |>)
    (mkJobSpec None None (Some timeout) (Some 0) None None
       (mkPodTemplateSpec labels ""
          (mkPodSpec "" "" "Never" (Some false) nodeSelector None [] []
             (Some (mkPodSecurityContext None None (Some 0) "")) []
             [mkContainer "copy" image "IfNotPresent" ["/bin/sh"; "-lc"; script] [] "" [] []
                [mkVolumeMount "volume" mountPath "" readOnly]
                (mkResourceRequirements {[ "cpu" := "1"; "memory" := "512Mi" ]} {[ "cpu" := "10m"; "memory" := "64Mi" ]} [])
                (Some (mkSecurityContext (Some false) None None
                         (Some (mkSecurityCapabilities ["NET_BIND_SERVICE"] ["ALL"])) "")) "" "" ""]
             [mkVolume "volume" (VolumeClaim claimName readOnly)] None None "" "" None ""))
       (Some 1800) None None None "")
    (mkJobStatus 0 0 []).

Definition sourceScript : string := ticks "
set -euo pipefail
apk add --no-cache netcat-openbsd tar gzip >/dev/null
echo `source stream ready on :9876`
# Serve one tar stream then exit when the client disconnects.
tar -C /source -czf - . | nc -l -p 9876 -N
echo `source stream finished`
".

Definition destinationScript (serviceName allowNonEmpty verify : string) : string :=
  ticks "
set -euo pipefail
apk add --no-cache netcat-openbsd tar gzip findutils coreutils >/dev/null
SRC_HOST=" +:+ quote serviceName +:+ "
ALLOW_NONEMPTY=" +:+ quote allowNonEmpty +:+ "
VERIFY=" +:+ quote verify +:+ ticks "
mkdir -p /dest
# Wait for source stream.
for i in $(seq 1 120); do
  if nc -z -w 2 `$SRC_HOST` 9876 2>/dev/null; then
    break
  fi
  sleep 2
done
if ! nc -z -w 2 `$SRC_HOST` 9876 2>/dev/null; then
  echo `source stream never became ready at ${SRC_HOST}:9876` >&2
  exit 1
fi
# Refuse clobber unless allowed.
entries=`$(find /dest -mindepth 1 -maxdepth 1 ! -name lost+found | wc -l | tr -d ' ')`
if [ `$entries` != `0` ] && [ `$ALLOW_NONEMPTY` != `1` ]; then
  echo `destination is not empty; set allowNonEmptyDestination=true to overwrite` >&2
  find /dest -mindepth 1 -maxdepth 1 | head
  exit 2
fi
if [ `$ALLOW_NONEMPTY` = `1` ]; then
  find /dest -mindepth 1 -maxdepth 1 ! -name lost+found -exec rm -rf {} +
fi
echo `receiving stream from ${SRC_HOST}:9876`
nc -w 30 `$SRC_HOST` 9876 | tar -C /dest -xzf -
sync
if [ `$VERIFY` = `1` ]; then
  count=`$(find /dest -type f | wc -l | tr -d ' ')`
  echo `destination file count=${count}`
fi
echo `destination copy finished`
".

Definition sourceJob (obj : AgentDataVolumeCopy) (claimName sourceNode image : string) (timeout : Z) : Job :=
  copyJob obj (agentRunChildName ["vcopy-src"; adc_Name obj]) agentDataVolumeCopySourceRole claimName "/source" image
    timeout sourceScript {[ "kubernetes.io/hostname" := sourceNode ]} false.
Definition destinationJob (obj : AgentDataVolumeCopy) (claimName image : string) (timeout : Z) (serviceName : string) : Job :=
  let allowNonEmpty := if dcs_AllowNonEmptyDestination (adc_Spec obj) then "1" else "0" in
  let verify := if AgentDataVolumeCopyVerifyEnabled (adc_Spec obj) then "1" else "0" in
  copyJob obj (agentRunChildName ["vcopy-dst"; adc_Name obj]) agentDataVolumeCopyDestinationRole claimName "/dest" image
    timeout (destinationScript serviceName allowNonEmpty verify) (dcd_NodeSelector (dcs_Destination (adc_Spec obj))) true.

(** ** The handler *)

Section handler.
Context {W : Type} `{Client W, VolumeClient W, Workloads W, Maintenance W, Conditions, Quantities}.
Local Open Scope go_scope.

Definition copyReady (obj : AgentDataVolumeCopy) (now : Time) (st reason message : string)
    (status : AgentDataVolumeCopyStatus) : AgentDataVolumeCopyStatus :=
  status <| dct_Conditions := SetStatusCondition (dct_Conditions status)
              (mkCondition "Ready" st (adc_Generation obj) now reason message) |>.

Definition patchCopyStatus (obj : AgentDataVolumeCopy) (status : AgentDataVolumeCopyStatus) : M W GoErr unit :=
  let* patched := mtry (patchVolumeCopyStatus (adc_key obj) (adc_Status obj) status) in
  match patched with
  | inl e => mfail (ErrWrap "patch AgentDataVolumeCopy status" e)
  | inr _ => mret tt
  end.

Definition failCopy (obj : AgentDataVolumeCopy) (status : AgentDataVolumeCopyStatus) (now : Time)
    (reason message : string) : M W GoErr Result :=
  patchCopyStatus obj
    (copyReady obj now ConditionFalse reason message
       (status <| dct_Phase := AgentDataVolumeCopyPhaseFailed |> <| dct_LastError := message |>
          <| dct_CompletedAt := Some now |>)) ;;
  mret Done.

(** The copy waits: its status is written and it is looked at again after [delay]. *)
Definition waitCopy (obj : AgentDataVolumeCopy) (now : Time) (reason message : string) (delay : Duration)
    (status : AgentDataVolumeCopyStatus) : M W GoErr Result :=
  patchCopyStatus obj (copyReady obj now ConditionFalse reason message status) ;;
  mret (mkResult false delay).

Definition persistentVolumeNodeName (volumeName : string) (w : W) : GoErr + string :=
  let volumeName := TrimSpace volumeName in
  if bool_decide (volumeName = "") then inr "" else
  match getPersistentVolume volumeName w with
  | inl e => inl e
  | inr pv => inr (match pv_NodeAffinity pv with Some terms => termsNode terms | None => "" end)
  end.

(** The runs of a namespace that use a volume and have not ended. *)
Definition listActiveAuthVolumeConsumers (namespace volumeName : string) (w : W) : GoErr + list string :=
  match listRuns (Some namespace) None w with
  | inl e => inl (ErrWrap "list AgentRuns" e)
  | inr runs => inr (map run_Name
      (List.filter (λ run, negb (agentRunIsTerminal (run_Phase run)) && usesVolume volumeName run) runs))
  end.

Definition sharesVolume (sourceName destName : string) (c : AgentDataVolumeCopy) : bool :=
  bool_decide (copySourceName c = sourceName) || bool_decide (copySourceName c = destName)
  || bool_decide (copyDestinationName c = sourceName) || bool_decide (copyDestinationName c = destName).
Definition otherActiveCopyForVolumes (obj : AgentDataVolumeCopy) (sourceName destName : string) (w : W) :
    GoErr + option string :=
  match listVolumeCopies (adc_Namespace obj) w with
  | inl e => inl e
  | inr copies => inr (adc_Name <$> find (λ c,
      negb (bool_decide (adc_Name c = adc_Name obj))
      && negb (AgentDataVolumeCopyIsTerminal (dct_Phase (adc_Status c)))
      && sharesVolume sourceName destName c) copies)
  end.

Definition ensureDestinationVolume (obj : AgentDataVolumeCopy) (source : AgentDataVolume) : M W GoErr AgentDataVolume :=
  let name := copyDestinationName obj in
  let* existing := mtry (mread (getDataVolume (adc_Namespace obj) name)) in
  match existing with
  | inr volume => mret volume
  | inl e =>
      if negb (IsNotFound e) then mfail e else
      let* created := mtry (createDataVolume (destinationVolume obj source)) in
      match created with
      | inr volume => mret volume
      | inl e => if IsAlreadyExists e then mread (getDataVolume (adc_Namespace obj) name)
                 else mfail (ErrWrap "create destination AgentDataVolume" e)
      end
  end.

Definition ensureStreamService (obj : AgentDataVolumeCopy) : M W GoErr Service :=
  let svc := streamService obj in
  let name := meta_Name (svc_ObjectMeta svc) in
  let* existing := mtry (mread (getService (adc_Namespace obj) name)) in
  match existing with
  | inr service => mret service
  | inl e =>
      if negb (IsNotFound e) then mfail e else
      let* created := mtry (createService svc) in
      match created with
      | inr service => mret service
      | inl e => if IsAlreadyExists e then mread (getService (adc_Namespace obj) name)
                 else mfail (ErrWrap "create stream Service" e)
      end
  end.

(** A Job that is found by its name, or created; [failure] is the context of an
    error of the creation. *)
Definition ensureNamedJob (job : Job) (failure : string) : M W GoErr Job :=
  let* existing := mtry (mread (getJob (job_Namespace job) (job_Name job))) in
  match existing with
  | inr found => mret found
  | inl e =>
      if negb (IsNotFound e) then mfail e else
      let* created := mtry (createJob job) in
      match created with
      | inr stored => mret stored
      | inl e => if IsAlreadyExists e then mread (getJob (job_Namespace job) (job_Name job))
                 else mfail (ErrWrap failure e)
      end
  end.
Definition ensureCopyJob (job : Job) : M W GoErr Job := ensureNamedJob job ("create copy Job " +:+ job_Name job).

Definition recordedClaim (volume : AgentDataVolume) : string :=
  match dvt_ClaimRef (adv_Status volume) with
  | Some ref => if blank (ref_Name ref) then agentDataVolumeClaimName volume else TrimSpace (ref_Name ref)
  | None => agentDataVolumeClaimName volume
  end.

(** What the two Jobs say of the copy. *)
Definition concludeCopy (obj : AgentDataVolumeCopy) (source dest : AgentDataVolume) (sourceJob destJob : Job)
    (clock : nat → Time) (status : AgentDataVolumeCopyStatus) : M W GoErr Result :=
  let now := clock 0%nat in
  if (0 <? jst_Failed (job_Status sourceJob)) || (0 <? jst_Failed (job_Status destJob))
  then failCopy obj status now "JobFailed"
         (firstNonEmpty [jobFailureMessage sourceJob; jobFailureMessage destJob; "volume copy Job failed"])
  else if (0 <? jst_Succeeded (job_Status destJob)) && (0 <? jst_Succeeded (job_Status sourceJob)) then
    let* node := mtry (mread (persistentVolumeNodeName (dvt_VolumeName (adv_Status dest)))) in
    let status := match node with inr node => status <| dct_DestinationNode := node |> | inl _ => status end in
    let completed := clock 1%nat in
    patchCopyStatus obj
      (copyReady obj completed ConditionTrue "Succeeded"
         ("Copied AgentDataVolume " +:+ at_ (adv_Namespace source) (adv_Name source) +:+ " to "
            +:+ at_ (adv_Namespace dest) (adv_Name dest) +:+ ".")
         (status <| dct_Phase := AgentDataVolumeCopyPhaseSucceeded |> <| dct_LastError := "" |>
            <| dct_ActiveConsumerRuns := [] |> <| dct_CompletedAt := Some completed |>)) ;;
    mret Done
  else
    waitCopy obj now "Streaming"
      ("Streaming copy Jobs source=" +:+ job_Name sourceJob +:+ " destination=" +:+ job_Name destJob +:+ ".")
      (5 * Second) (status <| dct_Phase := AgentDataVolumeCopyPhaseStreaming |> <| dct_LastError := "" |>).

(** The volumes are free: destination, Service and Jobs. *)
Definition streamCopy (obj : AgentDataVolumeCopy) (source : AgentDataVolume) (sourceClaimName sourceNode : string)
    (clock : nat → Time) (status : AgentDataVolumeCopyStatus) : M W GoErr Result :=
  let now := clock 0%nat in
  let status := status <| dct_Phase := AgentDataVolumeCopyPhasePreparingDestination |> in
  let* prepared := mtry (ensureDestinationVolume obj source) in
  match prepared with
  | inl e => failCopy obj status now "DestinationPrepareFailed" (errorText e)
  | inr dest =>
      let destClaimName := recordedClaim dest in
      let status := status
        <| dct_DestinationRef := Some (mkNamespacedObjectReference (adv_Name dest) (adv_Namespace dest)) |>
        <| dct_DestinationUID := adv_UID dest |>
        <| dct_DestinationClaimRef := Some (mkNamespacedObjectReference destClaimName (adv_Namespace dest)) |>
        <| dct_DestinationClaimUID := TrimSpace (dvt_ClaimUID (adv_Status dest)) |>
        <| dct_StartedAt := match dct_StartedAt status with Some t => Some t | None => Some now end |> in
      let timeout := if dcs_TimeoutSeconds (adc_Spec obj) <=? 0 then agentDataVolumeCopyDefaultTimeout
                     else dcs_TimeoutSeconds (adc_Spec obj) in
      let image := agentDataVolumeCopyDefaultImage in
      let* svc := ensureStreamService obj in
      let status := status <| dct_ServiceRef := Some (mkNamespacedObjectReference (meta_Name (svc_ObjectMeta svc))
                                                         (meta_Namespace (svc_ObjectMeta svc))) |> in
      let* sourceJob := ensureCopyJob (sourceJob obj sourceClaimName sourceNode image timeout) in
      let status := status
        <| dct_SourceJobRef := Some (mkNamespacedObjectReference (job_Name sourceJob) (job_Namespace sourceJob)) |>
        <| dct_SourceJobUID := job_UID sourceJob |> in
      let* destJob := ensureCopyJob (destinationJob obj destClaimName image timeout (meta_Name (svc_ObjectMeta svc))) in
      let status := status
        <| dct_DestinationJobRef := Some (mkNamespacedObjectReference (job_Name destJob) (job_Namespace destJob)) |>
        <| dct_DestinationJobUID := job_UID destJob |> in
      concludeCopy obj source dest sourceJob destJob clock status
  end.

(** The source is ready: who uses the volumes. *)
Definition guardCopy (obj : AgentDataVolumeCopy) (source : AgentDataVolume) (sourceClaimName sourceNode : string)
    (clock : nat → Time) (status : AgentDataVolumeCopyStatus) : M W GoErr Result :=
  let now := clock 0%nat in
  let destName := copyDestinationName obj in
  let* sourceActive := mread (listActiveAuthVolumeConsumers (adc_Namespace obj) (adv_Name source)) in
  let* destActive := mread (listActiveAuthVolumeConsumers (adc_Namespace obj) destName) in
  let active := uniqueStrings (sourceActive ++ destActive) in
  let status := status <| dct_ActiveConsumerRuns := active |> in
  if negb (bool_decide (active = [])) then
    waitCopy obj now "WaitingForIdle"
      ("Waiting for active AgentRuns using source/destination volumes to finish: " +:+ Join active ", ") (10 * Second)
      (status <| dct_Phase := AgentDataVolumeCopyPhaseWaitingForIdle |> <| dct_LastError := "" |>)
  else
  let* peer := mread (otherActiveCopyForVolumes obj (adv_Name source) destName) in
  match peer with
  | Some peerName =>
      waitCopy obj now "VolumeReserved"
        ("Waiting for AgentDataVolumeCopy " +:+ at_ (adc_Namespace obj) peerName
           +:+ " that already holds one of the volumes.") (5 * Second)
        (status <| dct_Phase := AgentDataVolumeCopyPhaseWaitingForIdle |>)
  | None => streamCopy obj source sourceClaimName sourceNode clock status
  end.

(** A live copy that has not ended. *)
Definition reconcileLiveCopy (obj : AgentDataVolumeCopy) (clock : nat → Time) : M W GoErr Result :=
  let now := clock 0%nat in
  let status := (adc_Status obj) <| dct_ObservedGeneration := adc_Generation obj |> in
  let status := if bool_decide (dct_Phase status = "") || bool_decide (dct_Phase status = AgentDataVolumeCopyPhasePending)
                then status <| dct_Phase := AgentDataVolumeCopyPhasePending |> else status in
  match validateAgentDataVolumeCopySpec obj with
  | Some message => failCopy obj status now "InvalidSpec" message
  | None =>
      let* got := mtry (mread (getDataVolume (adc_Namespace obj) (copySourceName obj))) in
      match got with
      | inl e =>
          if IsNotFound e
          then failCopy obj status now "SourceNotFound"
                 ("source AgentDataVolume " +:+ at_ (adc_Namespace obj) (lor_Name (dcs_SourceRef (adc_Spec obj)))
                    +:+ " was not found")
          else mfail e
      | inr source =>
          if negb (bool_decide (dvt_Phase (adv_Status source) = AgentDataVolumePhaseReady)) then
            waitCopy obj now "SourceNotReady"
              ("Waiting for source AgentDataVolume " +:+ at_ (adv_Namespace source) (adv_Name source)
                 +:+ " to become Ready (phase=" +:+ dvt_Phase (adv_Status source) +:+ ").") (10 * Second)
              (status <| dct_Phase := AgentDataVolumeCopyPhasePending |>)
          else
          let sourceClaimName := recordedClaim source in
          let sourceClaimUID := TrimSpace (dvt_ClaimUID (adv_Status source)) in
          if bool_decide (sourceClaimUID = "")
          then failCopy obj status now "SourceClaimIdentityMissing" "source AgentDataVolume has no claim UID"
          else
          let* sourceNode := mread (persistentVolumeNodeName (dvt_VolumeName (adv_Status source))) in
          if blank sourceNode
          then failCopy obj status now "SourceNodeUnknown" "source PersistentVolume has no kubernetes.io/hostname affinity"
          else
          guardCopy obj source sourceClaimName sourceNode clock
            (status <| dct_SourceRef := Some (mkNamespacedObjectReference (adv_Name source) (adv_Namespace source)) |>
               <| dct_SourceUID := adv_UID source |>
               <| dct_SourceClaimRef := Some (mkNamespacedObjectReference sourceClaimName (adv_Namespace source)) |>
               <| dct_SourceClaimUID := sourceClaimUID |> <| dct_SourceNode := sourceNode |>)
      end
  end.

(** [AgentDataVolumeCopyReconciler.Reconcile] *)
Definition reconcileCopy (namespace name : string) (clock : nat → Time) : M W GoErr Result :=
  let* got := mtry (mread (getVolumeCopy namespace name)) in
  match got with
  | inl e => if IsNotFound e then mret Done else mfail e
  | inr obj =>
      if isSet (setTime (meta_DeletionTimestamp (adc_ObjectMeta obj))) then mret Done
      else if AgentDataVolumeCopyIsTerminal (dct_Phase (adc_Status obj))
              && (dct_ObservedGeneration (adc_Status obj) =? adc_Generation obj) then mret Done
      else reconcileLiveCopy obj clock
  end.
End handler.
