(* ===== verification/AuthSession.v ===== *)
(** * Auth sessions

    src/internal/controller/agent_auth_session_controller.go: an AgentAuthSession
    replaces or clears the credentials in the durable home of an agent.
    [reconcileSession] is the whole handler: it checks the volume and the Secrets,
    waits until no run and no older session uses the volume, runs the maintenance
    Job, and after a reauthentication writes the bootstrap Secret and removes the
    staging Secret. *)

From stdpp Require Import base list gmap strings.
From Stdlib Require Import ZArith Lia Ascii.
From S2P Require Import Prelude GoStrings GoTime Names ApiRun ApiWork Kube RunControl Merge RunOutput RunBackend RunPayload RunJob ApiVolume ApiMaintenance DataVolumes RunLaunch RunObserve VolumeCopy.

Open Scope Z_scope.

(** ** Paths: [path.Join] and [path.Dir] *)

Definition pathJoin (parts : list string) : string :=
  match List.filter (λ p, negb (bool_decide (p = ""))) parts with
  | [] => ""
  | parts => Clean (Join parts "/")
  end.
Definition pathDir (p : string) : string :=
  let segments := SplitByte slash p in
  Clean (if bool_decide (length segments = 1%nat) then "" else Join (removelast segments) "/" +:+ "/").

(** ** Providers *)

Definition agentAuthSessionLabel : string := "control.anvil.hazyforge.io/agent-auth-session".
Definition agentAuthSessionActionLabel : string := "control.anvil.hazyforge.io/agent-auth-action".
Definition agentAuthSessionProviderLabel : string := "control.anvil.hazyforge.io/agent-auth-provider".
Definition agentAuthSessionVolumeLabel : string := "control.anvil.hazyforge.io/agent-auth-volume".
Definition agentAuthSessionManagedByLabel : string := "app.kubernetes.io/managed-by".
Definition agentAuthSessionManagedByValue : string := "anvil-agents".
Definition agentAuthSessionComponentLabel : string := "app.kubernetes.io/component".
Definition agentAuthSessionComponentValue : string := "agent-auth-session".
Definition agentAuthStagingOwnerLabel : string := "control.anvil.hazyforge.io/agent-auth-staging-for".
Definition agentAuthDefaultTimeoutSeconds : Z := 300.
Definition agentAuthContainerName : string := "auth".

Record agentAuthProviderLayout := mkLayout {
  lay_Provider : string;
  lay_AuthEnvKey : string;
  lay_SeedEnvKey : string;
  lay_SeedSecretKey : string;
  lay_DefaultBootstrapKey : string;
  lay_AuthRelPath : string;
  lay_SeedFileName : string;
  lay_LogoutFileName : string;
  lay_ComponentLabel : string }.

Definition agentAuthLayout (provider : string) : GoErr + agentAuthProviderLayout :=
  if bool_decide (provider = AgentAuthSessionProviderCodex) then
    inr (mkLayout AgentAuthSessionProviderCodex "CODEX_AUTH_JSON" "ANVIL_CODEX_AUTH_SEED_ID" "CODEX_AUTH_SEED_ID"
           "CODEX_AUTH_JSON" "auth.json" ".anvil-codex-auth-seed-id" ".anvil-codex-auth-logged-out" "codex-auth-seed")
  else if bool_decide (provider = AgentAuthSessionProviderGrokBuild) then
    inr (mkLayout AgentAuthSessionProviderGrokBuild "GROK_AUTH_JSON" "ANVIL_GROK_AUTH_SEED_ID" "GROK_AUTH_SEED_ID"
           "GROK_AUTH_JSON" ".grok/auth.json" ".anvil-grok-auth-seed-id" ".anvil-grok-auth-logged-out" "grok-auth-seed")
  else inl (ErrText ("unsupported provider " +:+ quote provider)).

Definition aas_key (s : AgentAuthSession) : key := (aas_Namespace s, aas_Name s).
Definition sessionVolume (s : AgentAuthSession) : string := TrimSpace (lor_Name (aus_DataVolumeRef (aas_Spec s))).
Definition refName (ref : option LocalObjectReference) : string :=
  match ref with Some ref => TrimSpace (lor_Name ref) | None => "" end.
Definition reauths (s : AgentAuthSession) : bool := bool_decide (aus_Action (aas_Spec s) = AgentAuthSessionActionReauth).

Definition validateAgentAuthSessionSpec (obj : AgentAuthSession) : option string :=
  let spec := aas_Spec obj in
  match agentAuthLayout (aus_Provider spec) with
  | inl e => Some (errorText e)
  | inr _ =>
      if negb (reauths obj) && negb (bool_decide (aus_Action spec = AgentAuthSessionActionLogout))
      then Some ("unsupported action " +:+ quote (aus_Action spec))
      else if bool_decide (sessionVolume obj = "") then Some "spec.dataVolumeRef.name is required"
      else if reauths obj then
        if bool_decide (refName (aus_StagingSecretRef spec) = "")
        then Some "spec.stagingSecretRef.name is required for reauth"
        else if blank (aus_SeedID spec) then Some "spec.seedID is required for reauth" else None
      else None
  end.

Definition secretManagedByExternalSecret (secret : Secret) : bool :=
  let meta := scr_ObjectMeta secret in
  match GetControllerOf meta with
  | Some owner => Contains (ToLower (own_Kind owner)) "externalsecret" || Contains (own_APIVersion owner) "external-secrets"
  | None => false
  end
  || existsb (λ kv, Contains (ToLower kv.1) "external-secrets" || Contains (ToLower kv.2) "external-secrets")
       (map_to_list (meta_Labels meta))
  || existsb (λ kv, Contains (ToLower kv.1) "external-secrets") (map_to_list (meta_Annotations meta)).

(** ** The maintenance Job *)

Definition authSessionImage (provider : string) (options : option Options) : string :=
  let configured := match options with
    | Some o => TrimSpace (if bool_decide (provider = AgentAuthSessionProviderGrokBuild)
                           then opt_GrokBuildRunnerImage o else opt_CodexRunnerImage o)
    | None => ""
    end in
  if negb (bool_decide (configured = "")) then configured
  else if bool_decide (provider = AgentAuthSessionProviderGrokBuild) then "anvil-agent-run-grok-build:dev"
  else "anvil-agent-run-codex:dev".

Definition envValue (name value : string) : EnvVar := mkEnvVar name value None.
Definition agentAuthSessionEnv (obj : AgentAuthSession) : list EnvVar :=
  let spec := aas_Spec obj in
  let env := [envValue "ANVIL_AUTH_ACTION" (aus_Action spec); envValue "ANVIL_AUTH_PROVIDER" (aus_Provider spec)] in
  match agentAuthLayout (aus_Provider spec) with
  | inl _ => env
  | inr layout => if blank (aus_SeedID spec) then env
                  else env ++ [envValue (lay_SeedEnvKey layout) (TrimSpace (aus_SeedID spec))]
  end.
Definition agentAuthSessionEnvFrom (obj : AgentAuthSession) : list string :=
  match aus_StagingSecretRef (aas_Spec obj) with
  | Some ref => if reauths obj then [TrimSpace (lor_Name ref)] else []
  | None => []
  end.

Definition agentAuthSessionScript (action mountPath : string) (layout : agentAuthProviderLayout) : string :=
  let authPath := pathJoin [mountPath; lay_AuthRelPath layout] in
  let paths := "set -euo pipefail
mount=" +:+ quote mountPath +:+ "
auth=" +:+ quote authPath +:+ "
auth_dir=" +:+ quote (pathDir authPath) +:+ "
seed=" +:+ quote (pathJoin [mountPath; lay_SeedFileName layout]) +:+ "
logout=" +:+ quote (pathJoin [mountPath; lay_LogoutFileName layout]) +:+ nl in
  if bool_decide (action = AgentAuthSessionActionLogout) then
    paths +:+ ticks "mkdir -p `$mount` `$auth_dir`
rm -f `$auth` `$seed`
umask 077
printf 'logged-out\n' > `$logout`
sync
echo `ANVIL_AUTH_SESSION_COMPLETE action=logout provider=" +:+ lay_Provider layout +:+ ticks " mount=$mount`
"
  else
    let auth := lay_AuthEnvKey layout in
    let seed := lay_SeedEnvKey layout in
    paths +:+ ticks (": `${" +:+ auth +:+ ":?" +:+ auth +:+ " is required}`
: `${" +:+ seed +:+ ":?" +:+ seed +:+ " is required}`
mkdir -p `$mount` `$auth_dir`
umask 077
tmp=`$(mktemp `$auth_dir/.auth.json.XXXXXX`)`
printf '%s' `${" +:+ auth +:+ "}` > `$tmp`
chmod 600 `$tmp`
seed_tmp=`$(mktemp `$mount/.seed.XXXXXX`)`
printf '%s\n' `${" +:+ seed +:+ "}` > `$seed_tmp`
chmod 600 `$seed_tmp`
mv `$seed_tmp` `$seed`
rm -f `$logout`
mv `$tmp` `$auth`
sync
# Never print credentials.
echo `ANVIL_AUTH_SESSION_COMPLETE action=reauth provider=" +:+ lay_Provider layout +:+ " mount=$mount seed_written=true`
").

Definition authJobLabels (obj : AgentAuthSession) (volume : AgentDataVolume) : gmap string string :=
  {[ agentAuthSessionLabel := sanitizeLabelValue (aas_Name obj);
     agentAuthSessionActionLabel := sanitizeLabelValue (aus_Action (aas_Spec obj));
     agentAuthSessionProviderLabel := sanitizeLabelValue (aus_Provider (aas_Spec obj));
     agentAuthSessionVolumeLabel := sanitizeLabelValue (adv_Name volume);
     agentAuthSessionManagedByLabel := agentAuthSessionManagedByValue;
     agentAuthSessionComponentLabel := agentAuthSessionComponentValue ]}.

Definition authSessionJob (options : option Options) (obj : AgentAuthSession) (volume : AgentDataVolume)
    (claimName mountPath : string) (layout : agentAuthProviderLayout) : Job :=
  let spec := aas_Spec obj in
  let timeout := if aus_TimeoutSeconds spec <=? 0 then agentAuthDefaultTimeoutSeconds else aus_TimeoutSeconds spec in
  let labels := authJobLabels obj volume in
  mkJob
    (zero_ObjectMeta <| meta_Name := agentRunChildName ["auth"; aas_Name obj] |> <| meta_Namespace := aas_Namespace obj |>
       <| meta_Labels := labels |>
       <| meta_OwnerReferences := soleController "AgentAuthSession" (aas_ObjectMeta obj) |>)
    (mkJobSpec None None (Some timeout) (Some 0) None None
       (mkPodTemplateSpec labels ""
          (mkPodSpec "" "" "Never" (Some false) (agentDataVolumeResolvedNodeSelector volume) None [] []
             (Some (mkPodSecurityContext (Some true) None (Some 10001) "")) []
             [mkContainer agentAuthContainerName (authSessionImage (aus_Provider spec) options) "IfNotPresent"
                ["/bin/bash"; "-lc"; agentAuthSessionScript (aus_Action spec) mountPath layout] [] ""
                (agentAuthSessionEnv obj) (agentAuthSessionEnvFrom obj)
                [mkVolumeMount "agent-home" mountPath "" false] zero_ResourceRequirements
                (Some (mkSecurityContext (Some false) None (Some true) (Some (mkSecurityCapabilities [] ["ALL"])) "")) "" "" ""]
             [mkVolume "agent-home" (VolumeClaim claimName false)] None None "" "" None ""))
       (Some 600) None None None "")
    (mkJobStatus 0 0 []).

(** ** The handler *)

(** What [resolveAuthSessionVolume] found. *)
Inductive SessionVolume :=
  | VolumeFailed (reason message : string)
  | VolumePending (volume : AgentDataVolume) (claimName claimUID reason message : string)
  | VolumeResolved (volume : AgentDataVolume) (claimName claimUID mountPath : string).

Section handler.
Context {W : Type} `{Client W, VolumeClient W, Workloads W, Maintenance W, Conditions}.
Context (options : option Options).
Local Open Scope go_scope.

Definition resolveAuthSessionVolume (obj : AgentAuthSession) (w : W) : GoErr + SessionVolume :=
  let volumeName := sessionVolume obj in
  match getDataVolume (aas_Namespace obj) volumeName w with
  | inl e => if IsNotFound e
             then inr (VolumeFailed "DataVolumeNotFound"
                         ("AgentDataVolume " +:+ at_ (aas_Namespace obj) volumeName +:+ " was not found."))
             else inl e
  | inr volume =>
      let status := adv_Status volume in
      let where_ := at_ (adv_Namespace volume) (adv_Name volume) in
      if (dvt_ObservedGeneration status =? 0)
         || negb (dvt_ObservedGeneration status =? meta_Generation (adv_ObjectMeta volume))
      then inr (VolumePending volume "" "" "DataVolumeStatusStale"
                  ("Waiting for AgentDataVolume " +:+ where_ +:+ " status to observe generation "
                     +:+ fmtZ (meta_Generation (adv_ObjectMeta volume)) +:+ "."))
      else if bool_decide (dvt_Phase status = AgentDataVolumePhaseBlocked)
      then inr (VolumeFailed "DataVolumeBlocked" (firstNonEmpty [dvt_LastError status; "AgentDataVolume is blocked"]))
      else if negb (bool_decide (dvt_Phase status = AgentDataVolumePhaseReady)) && negb (bool_decide (dvt_Phase status = ""))
      then inr (VolumePending volume "" "" "DataVolumeNotReady"
                  ("Waiting for AgentDataVolume " +:+ where_ +:+ " to become Ready."))
      else
      let claimName := recordedClaim volume in
      let claimUID := TrimSpace (dvt_ClaimUID status) in
      let claim := at_ (adv_Namespace volume) claimName in
      if bool_decide (claimName = "") || bool_decide (claimUID = "")
      then inr (VolumePending volume claimName claimUID "DataVolumeClaimIdentityPending"
                  ("Waiting for AgentDataVolume " +:+ where_ +:+ " to record its claim identity."))
      else
      match getClaim (adv_Namespace volume) claimName w with
      | inl e => if IsNotFound e
                 then inr (VolumePending volume claimName claimUID "DataVolumeClaimMissing"
                             ("Waiting for PersistentVolumeClaim " +:+ claim +:+ "."))
                 else inl e
      | inr pvc =>
          let owned := match GetControllerOf (pvc_ObjectMeta pvc) with
            | Some owner => bool_decide (own_APIVersion owner = GroupVersion) && bool_decide (own_Kind owner = "AgentDataVolume")
                            && bool_decide (own_Name owner = adv_Name volume) && bool_decide (own_UID owner = adv_UID volume)
            | None => false
            end in
          if negb owned
          then inr (VolumeFailed "ForeignDataVolumeClaim"
                      ("PersistentVolumeClaim " +:+ claim +:+ " is not controlled by AgentDataVolume " +:+ where_ +:+ "."))
          else if negb (bool_decide (pvc_UID pvc = claimUID))
          then inr (VolumeFailed "DataVolumeClaimReplaced"
                      ("PersistentVolumeClaim " +:+ claim +:+ " UID no longer matches AgentDataVolume status."))
          else inr (VolumeResolved volume claimName claimUID (agentDataVolumeResolvedMountPath volume))
      end
  end.

Definition validateStagingSecret (obj : AgentAuthSession) (w : W) : option GoErr :=
  match agentAuthLayout (aus_Provider (aas_Spec obj)) with
  | inl e => Some e
  | inr layout =>
      match aus_StagingSecretRef (aas_Spec obj) with
      | None => Some (ErrPanic "nil stagingSecretRef")
      | Some ref =>
          let name := TrimSpace (lor_Name ref) in
          match getSecret (aas_Namespace obj) name w with
          | inl e => if IsNotFound e
                     then Some (ErrText ("staging Secret " +:+ at_ (aas_Namespace obj) name +:+ " was not found"))
                     else Some e
          | inr secret =>
              if bool_decide (default "" (scr_Data secret !! lay_AuthEnvKey layout) = "")
              then Some (ErrText ("staging Secret " +:+ at_ (aas_Namespace obj) name +:+ " is missing non-empty key "
                                    +:+ lay_AuthEnvKey layout))
              else None
          end
      end
  end.

Definition validateBootstrapSecretWritable (namespace name : string) (w : W) : option GoErr :=
  match getSecret namespace name w with
  | inl e => if IsNotFound e then None else Some e
  | inr secret =>
      if secretManagedByExternalSecret secret
      then Some (ErrText ("bootstrap Secret " +:+ at_ namespace name
                            +:+ " is managed by External Secrets Operator; refuse to race its writer. Point AgentAuthSession at a CLI-owned seed Secret instead"))
      else None
  end.

(** The first session that holds the volume before this one: older, or of the same
    second with a smaller name. *)
Definition sessionPrecedes (session obj : AgentAuthSession) : bool :=
  let created s := meta_CreationTimestamp (aas_ObjectMeta s) in
  Before (created session) (created obj)
  || bool_decide (created session = created obj) && strLt (aas_Name session) (aas_Name obj).
Definition otherActiveSessionForVolume (obj : AgentAuthSession) (volumeName : string) (w : W) : GoErr + option string :=
  match listAuthSessions (aas_Namespace obj) w with
  | inl e => inl e
  | inr sessions => inr (aas_Name <$> find (λ s,
      negb (bool_decide (aas_UID s = aas_UID obj)) && bool_decide (sessionVolume s = volumeName)
      && negb (AgentAuthSessionIsTerminal (aut_Phase (aas_Status s))) && sessionPrecedes s obj) sessions)
  end.

Definition ensureAuthSessionJob (obj : AgentAuthSession) (volume : AgentDataVolume) (claimName mountPath : string) :
    M W GoErr Job :=
  match agentAuthLayout (aus_Provider (aas_Spec obj)) with
  | inr layout => ensureNamedJob (authSessionJob options obj volume claimName mountPath layout) "create auth Job"
  | inl e =>
      let* existing := mtry (mread (getJob (aas_Namespace obj) (agentRunChildName ["auth"; aas_Name obj]))) in
      match existing with
      | inr found => mret found
      | inl e' => if negb (IsNotFound e') then mfail e' else mfail e
      end
  end.

(** The bootstrap Secret with the new credentials and their seed. *)
Definition seededSecret (layout : agentAuthProviderLayout) (key auth seedID : string) (existing : Secret) : Secret :=
  existing
    <| scr_Data := <[lay_SeedSecretKey layout := seedID]> (<[key := auth]> (scr_Data existing)) |>
    <| scr_ObjectMeta := (scr_ObjectMeta existing)
         <| meta_Labels := <[agentAuthSessionComponentLabel := lay_ComponentLabel layout]>
              (<[agentAuthSessionManagedByLabel := agentAuthSessionManagedByValue]>
                 (meta_Labels (scr_ObjectMeta existing))) |> |>.

Definition applyBootstrapSecret (obj : AgentAuthSession) : M W GoErr unit :=
  let spec := aas_Spec obj in
  let bootstrapName := refName (aus_BootstrapSecretRef spec) in
  if bool_decide (bootstrapName = "") then mret tt else
  match agentAuthLayout (aus_Provider spec), aus_StagingSecretRef spec with
  | inl e, _ => mfail e
  | inr _, None => mfail (ErrPanic "nil stagingSecretRef")
  | inr layout, Some ref =>
      let* got := mtry (mread (getSecret (aas_Namespace obj) (TrimSpace (lor_Name ref)))) in
      match got with
      | inl e => mfail (ErrWrap "get staging Secret" e)
      | inr staging =>
          let auth := default "" (scr_Data staging !! lay_AuthEnvKey layout) in
          if bool_decide (auth = "") then mfail (ErrText ("staging Secret missing " +:+ lay_AuthEnvKey layout)) else
          let key := firstNonEmpty [TrimSpace (aus_BootstrapSecretKey spec); lay_DefaultBootstrapKey layout] in
          let seedID := TrimSpace (aus_SeedID spec) in
          let* found := mtry (mread (getSecret (aas_Namespace obj) bootstrapName)) in
          match found with
          | inl e =>
              if IsNotFound e then
                let secret := mkSecret
                  (zero_ObjectMeta <| meta_Name := bootstrapName |> <| meta_Namespace := aas_Namespace obj |>
                     <| meta_Labels := {[ agentAuthSessionManagedByLabel := agentAuthSessionManagedByValue;
                                          agentAuthSessionComponentLabel := lay_ComponentLabel layout ]} |>)
                  "Opaque" (<[lay_SeedSecretKey layout := seedID]> {[ key := auth ]}) in
                let* created := mtry (createSecret secret) in
                match created with
                | inl e => mfail (ErrWrap "create bootstrap Secret" e)
                | inr _ => mret tt
                end
              else mfail e
          | inr existing =>
              if secretManagedByExternalSecret existing
              then mfail (ErrText ("bootstrap Secret " +:+ at_ (aas_Namespace obj) bootstrapName
                                     +:+ " became ExternalSecret-managed during the session"))
              else
                let* patched := mtry (patchSecret (aas_Namespace obj, bootstrapName) existing
                                        (seededSecret layout key auth seedID existing)) in
                match patched with
                | inl e => mfail (ErrWrap "patch bootstrap Secret" e)
                | inr _ => mret tt
                end
          end
      end
  end.

Definition deleteOwnedStagingSecret (obj : AgentAuthSession) : M W GoErr unit :=
  match aus_StagingSecretRef (aas_Spec obj) with
  | None => mret tt
  | Some ref =>
      let name := TrimSpace (lor_Name ref) in
      let* got := mtry (mread (getSecret (aas_Namespace obj) name)) in
      match got with
      | inl e => if IsNotFound e then mret tt else mfail e
      | inr secret =>
          if negb (bool_decide (default "" (meta_Labels (scr_ObjectMeta secret) !! agentAuthStagingOwnerLabel)
                                = sanitizeLabelValue (aas_Name obj))) then mret tt else
          let* deleted := mtry (deleteSecret (scr_key secret)) in
          match deleted with
          | inl e => if IsNotFound e then mret tt else mfail (ErrWrap "delete staging Secret" e)
          | inr _ => mret tt
          end
      end
  end.

Definition sessionReady (obj : AgentAuthSession) (now : Time) (st reason message : string)
    (status : AgentAuthSessionStatus) : AgentAuthSessionStatus :=
  status <| aut_Conditions := SetStatusCondition (aut_Conditions status)
              (mkCondition "Ready" st (aas_Generation obj) now reason message) |>.
Definition patchAgentAuthSessionStatus (obj : AgentAuthSession) (status : AgentAuthSessionStatus) : M W GoErr unit :=
  let* patched := mtry (patchAuthSessionStatus (aas_key obj) (aas_Status obj) status) in
  match patched with
  | inl e => mfail (ErrWrap "patch AgentAuthSession status" e)
  | inr _ => mret tt
  end.
Definition failSession (obj : AgentAuthSession) (status : AgentAuthSessionStatus) (now : Time) (reason message : string) :
    M W GoErr Result :=
  patchAgentAuthSessionStatus obj
    (sessionReady obj now ConditionFalse reason message
       (status <| aut_Phase := AgentAuthSessionPhaseFailed |> <| aut_LastError := message |>
          <| aut_CompletedAt := Some now |>)) ;;
  mret Done.
Definition waitSession (obj : AgentAuthSession) (now : Time) (reason message : string) (delay : Duration)
    (status : AgentAuthSessionStatus) : M W GoErr Result :=
  patchAgentAuthSessionStatus obj (sessionReady obj now ConditionFalse reason message status) ;;
  mret (mkResult false delay).

(** What the Job says of the session. *)
Definition concludeSession (obj : AgentAuthSession) (volume : AgentDataVolume) (job : Job) (clock : nat → Time)
    (status : AgentAuthSessionStatus) : M W GoErr Result :=
  let now := clock 0%nat in
  if 0 <? jst_Succeeded (job_Status job) then
    let* applied := (if reauths obj then mtry (applyBootstrapSecret obj) else mret (inr tt)) in
    match applied with
    | inl e => failSession obj status now "BootstrapSecretUpdateFailed" (errorText e)
    | inr _ =>
        (if reauths obj then deleteOwnedStagingSecret obj else mret tt) ;;
        let completed := clock 1%nat in
        patchAgentAuthSessionStatus obj
          (sessionReady obj completed ConditionTrue "Succeeded"
             ("Auth session " +:+ aus_Action (aas_Spec obj) +:+ " completed for AgentDataVolume "
                +:+ at_ (adv_Namespace volume) (adv_Name volume) +:+ ".")
             (status <| aut_Phase := AgentAuthSessionPhaseSucceeded |> <| aut_LastError := "" |>
                <| aut_ActiveConsumerRuns := [] |> <| aut_CompletedAt := Some completed |>)) ;;
        mret Done
    end
  else if 0 <? jst_Failed (job_Status job) then
    failSession obj status now "JobFailed" (firstNonEmpty [jobFailureMessage job; "auth maintenance Job failed"])
  else
    waitSession obj now "Running"
      ("Auth maintenance Job " +:+ at_ (job_Namespace job) (job_Name job) +:+ " is running.") (5 * Second)
      (status <| aut_Phase := AgentAuthSessionPhaseRunning |> <| aut_LastError := "" |>).

(** The volume is resolved: who uses it, and the Job. *)
Definition guardSession (obj : AgentAuthSession) (volume : AgentDataVolume) (claimName mountPath : string)
    (clock : nat → Time) (status : AgentAuthSessionStatus) : M W GoErr Result :=
  let now := clock 0%nat in
  let* active := mread (listActiveAuthVolumeConsumers (aas_Namespace obj) (adv_Name volume)) in
  let status := status <| aut_ActiveConsumerRuns := active |> in
  if negb (bool_decide (active = [])) then
    waitSession obj now "WaitingForIdle"
      ("Waiting for active AgentRuns using AgentDataVolume " +:+ at_ (adv_Namespace volume) (adv_Name volume)
         +:+ " to finish: " +:+ Join active ", ") (10 * Second)
      (status <| aut_Phase := AgentAuthSessionPhaseWaitingForIdle |> <| aut_LastError := "" |>)
  else
  let* peer := mread (otherActiveSessionForVolume obj (adv_Name volume)) in
  match peer with
  | Some peerName =>
      waitSession obj now "VolumeReserved"
        ("Waiting for AgentAuthSession " +:+ at_ (aas_Namespace obj) peerName +:+ " that already holds AgentDataVolume "
           +:+ adv_Name volume +:+ ".") (5 * Second)
        (status <| aut_Phase := AgentAuthSessionPhaseWaitingForIdle |>)
  | None =>
      let* job := ensureAuthSessionJob obj volume claimName mountPath in
      concludeSession obj volume job clock
        (status <| aut_JobRef := Some (mkNamespacedObjectReference (job_Name job) (job_Namespace job)) |>
           <| aut_JobUID := job_UID job |>
           <| aut_StartedAt := match aut_StartedAt status with Some t => Some t | None => Some now end |>)
  end.

(** Why a reauthentication cannot go on: the reason and the error. *)
Definition stagingError (obj : AgentAuthSession) (w : W) : option (string * GoErr) :=
  if negb (reauths obj) then None else
  match validateStagingSecret obj w with
  | Some e => Some ("InvalidStagingSecret", e)
  | None =>
      let bootstrapName := refName (aus_BootstrapSecretRef (aas_Spec obj)) in
      if bool_decide (bootstrapName = "") then None
      else (λ e, ("BootstrapSecretNotWritable", e)) <$> validateBootstrapSecretWritable (aas_Namespace obj) bootstrapName w
  end.

(** A live session that has not ended. *)
Definition reconcileLiveSession (obj : AgentAuthSession) (clock : nat → Time) : M W GoErr Result :=
  let now := clock 0%nat in
  let status := (aas_Status obj) <| aut_ObservedGeneration := aas_Generation obj |> in
  match validateAgentAuthSessionSpec obj with
  | Some message => failSession obj status now "InvalidSpec" message
  | None =>
      let* resolved := mread (resolveAuthSessionVolume obj) in
      let identified volume claimName claimUID mountPath := status
        <| aut_DataVolumeRef := Some (mkNamespacedObjectReference (adv_Name volume) (adv_Namespace volume)) |>
        <| aut_DataVolumeUID := adv_UID volume |>
        <| aut_ClaimRef := Some (mkNamespacedObjectReference claimName (adv_Namespace volume)) |>
        <| aut_ClaimUID := claimUID |> <| aut_MountPath := mountPath |> in
      match resolved with
      | VolumeFailed reason message => failSession obj status now reason message
      | VolumePending volume claimName claimUID reason message =>
          waitSession obj now reason message (5 * Second)
            ((identified volume claimName claimUID "")
               <| aut_Phase := AgentAuthSessionPhasePending |> <| aut_LastError := message |>)
      | VolumeResolved volume claimName claimUID mountPath =>
          let status := (identified volume claimName claimUID mountPath)
                          <| aut_SeedID := TrimSpace (aus_SeedID (aas_Spec obj)) |> in
          let* refused := mread (λ w, inr (stagingError obj w)) in
          match refused with
          | Some (reason, e) => failSession obj status now reason (errorText e)
          | None => guardSession obj volume claimName mountPath clock status
          end
      end
  end.

(** [AgentAuthSessionReconciler.Reconcile] *)
Definition reconcileSession (namespace name : string) (clock : nat → Time) : M W GoErr Result :=
  let* got := mtry (mread (getAuthSession namespace name)) in
  match got with
  | inl e => if IsNotFound e then mret Done else mfail e
  | inr obj =>
      if isSet (setTime (meta_DeletionTimestamp (aas_ObjectMeta obj))) then mret Done
      else if AgentAuthSessionIsTerminal (aut_Phase (aas_Status obj))
              && (aut_ObservedGeneration (aas_Status obj) =? aas_Generation obj) then mret Done
      else reconcileLiveSession obj clock
  end.
End handler.
