(* ===== verification/ProfileStatus.v ===== *)
(** * The status of volume profiles

    src/internal/controller/volume_profile_controller.go: [reconcileProfile] validates
    the entries of a VolumeProfile and records their number, sizes and the state of
    their synchronisation.  [profile_ready_exact] says which profiles are accepted. *)

From stdpp Require Import base list gmap strings.
From Stdlib Require Import ZArith Lia.
From S2P Require Import Prelude GoStrings GoTime Names ApiRun ApiWork Kube RunLaunch ApiVolume ApiMaintenance DataVolumes Adverse VolumeCopy.

Open Scope Z_scope.

Definition volumeProfileReady : string := "Ready".
Definition volumeProfileCapacityPolicySatisfied : string := "CapacityPolicySatisfied".

(** Go: [apimeta.RemoveStatusCondition]. *)
Definition RemoveStatusCondition (conditions : list Condition) (ty : string) : list Condition :=
  filter (λ c, cond_Type c ≠ ty) conditions.

(** The variables of the loop over the entries: the sum of the requests, the names
    seen, the statuses, and the first reason to block the profile. *)
Record ProfileScan := mkProfileScan {
  scan_total : Quantity;
  scan_seen : gset string;
  scan_statuses : list VolumeProfileVolumeStatus;
  scan_block : option (string * string) }.
Definition orBlock (block : option (string * string)) (bad : bool) (reason message : string) : option (string * string) :=
  match block with Some b => Some b | None => if bad then Some (reason, message) else None end.

Section controller.
Context {W : Type} `{VolumeClient W, Maintenance W, Conditions, Quantities}.
Local Open Scope go_scope.

Definition scanVolume (existingSync : gmap string ExternalVolumeSyncStatus) (now : Time) (scan : ProfileScan)
    (volume : VolumeProfileVolumeSpec) : ProfileScan :=
  let name := TrimSpace (vpv_Name volume) in
  let request := vpv_SizeRequest volume in
  let sized := negb (q_Nano request =? 0) in
  let block := orBlock (scan_block scan) (bool_decide (name = "")) "InvalidVolumeName" "spec.volumes entries must set name." in
  let block := orBlock block (negb (bool_decide (name = "")) && bool_decide (name ∈ scan_seen scan)) "DuplicateVolumeName"
                 ("spec.volumes contains duplicate entry " +:+ quote name +:+ ".") in
  let block := orBlock block (sized && (q_Nano request <? 0)) "InvalidVolumeSize"
                 ("spec.volumes[" +:+ quote name +:+ "].size.request cannot be negative.") in
  let envError := validateAgentDataVolumePathEnv (vpv_ExtraEnv volume)
                    (firstNonEmpty [TrimSpace (vpv_MountPath volume); "/agent-state"]) in
  let block := orBlock block (isSet envError) "InvalidPathEnvironment"
                 ("spec.volumes[" +:+ quote name +:+ "] " +:+ default "" envError) in
  mkProfileScan
    (if sized then addQuantity (scan_total scan) request else scan_total scan)
    (if bool_decide (name = "") then scan_seen scan else {[name]} ∪ scan_seen scan)
    (scan_statuses scan ++ [mkVolumeProfileVolumeStatus name (TrimSpace (vpv_Purpose volume))
       (if sized then q_Text request else "")
       (externalVolumeSyncStatus (vpv_ExternalSync volume) (existingSync !! name) now)])
    block.

(** The recorded synchronisation of each entry; a later entry of a name wins. *)
Definition recordedSync (volumes : list VolumeProfileVolumeStatus) : gmap string ExternalVolumeSyncStatus :=
  foldl (λ m v, match vpvs_ExternalSync v with Some s => <[vpvs_Name v := s]> m | None => m end) ∅ volumes.

Definition scanVolumes (profile : VolumeProfile) (now : Time) : ProfileScan :=
  foldl (scanVolume (recordedSync (vpst_Volumes (vp_Status profile))) now)
    (mkProfileScan zero_Quantity ∅ [] None) (vps_Volumes (vp_Spec profile)).

Definition profileStatus (obj : VolumeProfile) (now : Time) : VolumeProfileStatus :=
  let volumes := vps_Volumes (vp_Spec obj) in
  let generation := meta_Generation (vp_ObjectMeta obj) in
  let scan := scanVolumes obj now in
  let block := orBlock (scan_block scan) (bool_decide (volumes = [])) "NoVolumes"
                 "spec.volumes must contain at least one reusable volume entry." in
  let policy := match vps_CapacityPolicy (vp_Spec obj) with
    | Some p => isSet (vcp_MaxNodeAllocatableEphemeralStoragePercent p)
    | None => false
    end in
  let conditions := vpst_Conditions (vp_Status obj) in
  let conditions :=
    if policy
    then SetStatusCondition conditions (mkCondition volumeProfileCapacityPolicySatisfied "Unknown" generation now "NotEvaluated"
           "capacity percentage policy is recorded as intent; node capacity resolution is not implemented in this slice.")
    else RemoveStatusCondition conditions volumeProfileCapacityPolicySatisfied in
  let status := (vp_Status obj)
    <| vpst_ObservedGeneration := generation |> <| vpst_VolumeCount := wrap32 (Z.of_nat (length volumes)) |>
    <| vpst_LastError := "" |> <| vpst_Volumes := scan_statuses scan |>
    <| vpst_TotalRequestedStorage := q_Text (scan_total scan) |> in
  match block with
  | Some (reason, message) =>
      status <| vpst_Phase := VolumeProfilePhaseBlocked |> <| vpst_LastError := message |>
        <| vpst_Conditions := SetStatusCondition conditions
             (mkCondition volumeProfileReady ConditionFalse generation now reason message) |>
  | None =>
      status <| vpst_Phase := VolumeProfilePhaseReady |>
        <| vpst_Conditions := SetStatusCondition conditions
             (mkCondition volumeProfileReady ConditionTrue generation now "ProfileAccepted"
                ("VolumeProfile declares " +:+ fmtNat (length volumes) +:+ " reusable volume entries.")) |>
  end.

(** [VolumeProfileReconciler.Reconcile] *)
Definition reconcileProfile (namespace name : string) (now : Time) : M W GoErr Result :=
  let* got := mtry (mread (getVolumeProfile namespace name)) in
  match got with
  | inl e => if IsNotFound e then mret Done else mfail e
  | inr obj =>
      if isSet (setTime (meta_DeletionTimestamp (vp_ObjectMeta obj))) then mret Done else
      let* patched := mtry (patchVolumeProfileStatus (vp_Namespace obj, vp_Name obj) (vp_Status obj) (profileStatus obj now)) in
      match patched with
      | inl e => if IsConflict e then mret requeueNow else mfail e
      | inr _ => mret Done
      end
  end.
End controller.

(** ** Which profiles are accepted *)

Definition entryName (v : VolumeProfileVolumeSpec) : string := TrimSpace (vpv_Name v).
Definition acceptable (v : VolumeProfileVolumeSpec) : Prop :=
  entryName v ≠ "" ∧ 0 <= q_Nano (vpv_SizeRequest v)
  ∧ validateAgentDataVolumePathEnv (vpv_ExtraEnv v) (firstNonEmpty [TrimSpace (vpv_MountPath v); "/agent-state"]) = None.

Section accepted.
Context `{Conditions, Quantities}.

Lemma orBlock_None block bad reason message :
  orBlock block bad reason message = None ↔ block = None ∧ bad = false.
Proof. destruct block, bad; naive_solver. Qed.

Lemma scanVolume_block sync now scan v :
  scan_block (scanVolume sync now scan v) = None ↔
  scan_block scan = None ∧ acceptable v ∧ entryName v ∉ scan_seen scan.
Proof.
  unfold acceptable, entryName. cbn [scan_block scanVolume]. rewrite !orBlock_None, !andb_false_iff, !negb_false_iff, !bool_decide_eq_false, bool_decide_eq_true.
  rewrite Z.eqb_eq, Z.ltb_ge. destruct (validateAgentDataVolumePathEnv _ _); cbn; naive_solver lia.
Qed.

Lemma scanVolumes_block sync now l scan :
  scan_block (foldl (scanVolume sync now) scan l) = None ↔
  scan_block scan = None ∧ Forall acceptable l ∧ NoDup (map entryName l)
  ∧ ∀ n, n ∈ map entryName l → n ∉ scan_seen scan.
Proof.
  revert scan. induction l as [|v l IH]; intros scan; cbn [foldl map].
  - rewrite Forall_nil, NoDup_nil. set_solver.
  - rewrite IH, scanVolume_block, Forall_cons, NoDup_cons. cbn [scan_seen scanVolume]. fold (entryName v).
    destruct (decide (entryName v = "")) as [E|E].
    + unfold acceptable. naive_solver.
    + rewrite bool_decide_eq_false_2 by done. set_solver.
Qed.

(** A profile is Ready exactly when it has entries, their trimmed names are set and
    distinct, no requested size is negative, and the path environment of each entry
    is valid; otherwise it is Blocked. *)
Theorem profile_ready_exact obj now :
  let volumes := vps_Volumes (vp_Spec obj) in
  (vpst_Phase (profileStatus obj now) = VolumeProfilePhaseReady ↔
     volumes ≠ [] ∧ NoDup (map entryName volumes) ∧ Forall acceptable volumes)
  ∧ vpst_Phase (profileStatus obj now) ∈ [VolumeProfilePhaseReady; VolumeProfilePhaseBlocked]
  ∧ map vpvs_Name (vpst_Volumes (profileStatus obj now)) = map entryName volumes.
Proof.
  cbn zeta. unfold profileStatus.
  set (block := orBlock _ _ _ _).
  assert (block = None ↔ vps_Volumes (vp_Spec obj) ≠ [] ∧ NoDup (map entryName (vps_Volumes (vp_Spec obj)))
            ∧ Forall acceptable (vps_Volumes (vp_Spec obj))) as Hb.
  { unfold block, scanVolumes. rewrite orBlock_None, scanVolumes_block, bool_decide_eq_false. cbn [scan_block scan_seen]. set_solver. }
  split_and!.
  - rewrite <- Hb. destruct block as [[reason message]|]; cbn; naive_solver.
  - destruct block as [[reason message]|]; cbn; set_solver.
  - clearbody block. transitivity (map vpvs_Name (scan_statuses (scanVolumes obj now))); [by destruct block as [[??]|]|].
    unfold scanVolumes. set (scan := mkProfileScan _ _ _ _).
    transitivity (map vpvs_Name (scan_statuses scan) ++ map entryName (vps_Volumes (vp_Spec obj))); [|done].
    generalize scan. clear. induction (vps_Volumes (vp_Spec obj)) as [|v l IH]; intros scan; cbn [foldl map].
    + by rewrite app_nil_r.
    + rewrite IH. cbn [scan_statuses scanVolume]. by rewrite map_app, <- app_assoc.
Qed.

End accepted.
