(* ===== verification/MaintenanceSafety.v ===== *)
(** * Maintenance of volumes: copies and auth sessions

    What the controllers of [VolumeCopy] and [AuthSession] promise of the volumes and
    Secrets they work on, over all sequences of their reconciliations and of what
    others do: two copies over one volume do not both own Jobs, nor do two sessions of
    different seconds ([maintenance_exclusive]); a Job is created only when nobody uses its volumes
    ([copy_launch_justified]); only the named Secrets change ([secrets_confined]).
    The price: two copies that share a volume stop each other for good
    ([copies_block_each_other]), and so do a session and a run that waits for it
    ([session_and_run_wait]). *)

From stdpp Require Import base list gmap strings.
From Stdlib Require Import ZArith Lia.
From S2P Require Import Prelude GoStrings GoTime Names ApiRun ApiWork Kube RunControl Merge RunOutput RunBackend RunPayload RunJob ApiVolume ApiMaintenance DataVolumes RunLaunch RunPreflight RunObserve VolumeCopy AuthSession.

Open Scope Z_scope.

(** ** The server *)

Record Maint := mkMaint {
  mt_copies : gmap key AgentDataVolumeCopy;
  mt_sessions : gmap key AgentAuthSession;
  mt_runs : gmap key AgentRun;
  mt_secrets : gmap key Secret;
  mt_jobs : gmap key Job }.
#[export] Instance eta_Maint : Eta Maint := λ m, mkMaint
  (mt_copies m) (mt_sessions m) (mt_runs m) (mt_secrets m) (mt_jobs m).

Definition putCopy (c : AgentDataVolumeCopy) (m : Maint) : Maint :=
  m <| mt_copies := <[adc_key c := c]> (mt_copies m) |>.
Definition putSession (s : AgentAuthSession) (m : Maint) : Maint :=
  m <| mt_sessions := <[aas_key s := s]> (mt_sessions m) |>.
Definition putJob (j : Job) (m : Maint) : Maint := m <| mt_jobs := <[job_key j := j]> (mt_jobs m) |>.
Definition putSecret (s : Secret) (m : Maint) : Maint :=
  m <| mt_secrets := <[scr_key s := s]> (mt_secrets m) |>.

(** Versions of an object differ in their status only. *)
Definition sameCopy (c c' : AgentDataVolumeCopy) : Prop :=
  adc_key c' = adc_key c ∧ adc_UID c' = adc_UID c ∧ adc_Generation c' = adc_Generation c ∧ adc_Spec c' = adc_Spec c.
Definition sameSession (s s' : AgentAuthSession) : Prop :=
  aas_key s' = aas_key s ∧ aas_UID s' = aas_UID s ∧ aas_Generation s' = aas_Generation s ∧ aas_Spec s' = aas_Spec s
  ∧ meta_CreationTimestamp (aas_ObjectMeta s') = meta_CreationTimestamp (aas_ObjectMeta s).
(** What a Secret says, without the version the server gives it. *)
Definition secretContents (s : Secret) :=
  (scr_key s, scr_Type s, scr_Data s, meta_Labels (scr_ObjectMeta s), meta_Annotations (scr_ObjectMeta s),
   meta_OwnerReferences (scr_ObjectMeta s)).
(** The claims a Job mounts. *)
Definition isClaim (v : Volume) : bool := match vol_Source v with VolumeClaim _ _ => true | _ => false end.
Definition jobClaims (j : Job) : list Volume := List.filter isClaim (pod_Volumes (tpl_Spec (js_Template (job_Spec j)))).

(** Documented behaviour: reads are those of the API server; a write is applied or
    refused, and an error can hide a write that was applied. *)
Class MaintenanceLaws (W : Type) `{Client W, VolumeClient W, Workloads W, Maintenance W} := {
  maint : W → Maint;
  maint_run_named w k r : mt_runs (maint w) !! k = Some r → blank (run_Name r) = false;
  getVolumeCopy_ok w ns n c :
    getVolumeCopy ns n w = inr c → mt_copies (maint w) !! (ns, n) = Some c ∧ adc_key c = (ns, n);
  getAuthSession_ok w ns n s :
    getAuthSession ns n w = inr s → mt_sessions (maint w) !! (ns, n) = Some s ∧ aas_key s = (ns, n);
  listVolumeCopies_ok w ns l k c :
    listVolumeCopies ns w = inr l → mt_copies (maint w) !! k = Some c → adc_Namespace c = ns → c ∈ l;
  listAuthSessions_ok w ns l k s :
    listAuthSessions ns w = inr l → mt_sessions (maint w) !! k = Some s → aas_Namespace s = ns → s ∈ l;
  listRuns_all w ns l k r :
    listRuns (Some ns) None w = inr l → mt_runs (maint w) !! k = Some r → run_Namespace r = ns → r ∈ l;
  getDataVolume_name w ns n v : getDataVolume ns n w = inr v → adv_Namespace v = ns ∧ adv_Name v = n;
  getJob_stored w ns n j : getJob ns n w = inr j → mt_jobs (maint w) !! (ns, n) = Some j;
  getSecret_stored w ns n s :
    getSecret ns n w = inr s → mt_secrets (maint w) !! (ns, n) = Some s ∧ scr_key s = (ns, n);
  patchVolumeCopyStatus_law w w' k base new x :
    patchVolumeCopyStatus k base new w = (w', x) →
    maint w' = maint w ∧ (∃ e, x = inl e)
    ∨ ∃ c c', mt_copies (maint w) !! k = Some c ∧ sameCopy c c' ∧ (adc_Status c = base → adc_Status c' = new)
       ∧ maint w' = putCopy c' (maint w);
  patchAuthSessionStatus_law w w' k base new x :
    patchAuthSessionStatus k base new w = (w', x) →
    maint w' = maint w ∧ (∃ e, x = inl e)
    ∨ ∃ s s', mt_sessions (maint w) !! k = Some s ∧ sameSession s s' ∧ (aas_Status s = base → aas_Status s' = new)
       ∧ maint w' = putSession s' (maint w);
  createDataVolume_law w w' v x :
    createDataVolume v w = (w', x) →
    maint w' = maint w ∧ ∀ v', x = inr v' → adv_Namespace v' = adv_Namespace v ∧ adv_Name v' = adv_Name v;
  createService_quiet w w' s x : createService s w = (w', x) → maint w' = maint w;
  createJob_stored w w' j x :
    createJob j w = (w', x) →
    maint w' = maint w ∧ (∃ e, x = inl e)
    ∨ ∃ j', mt_jobs (maint w) !! job_key j = None ∧ job_key j' = job_key j
       ∧ meta_OwnerReferences (job_ObjectMeta j') = meta_OwnerReferences (job_ObjectMeta j)
       ∧ jobClaims j' = jobClaims j ∧ job_Status j' = job_Status j
       ∧ maint w' = putJob j' (maint w) ∧ ∀ t, x = inr t → t = j';
  createSecret_law w w' s x :
    createSecret s w = (w', x) →
    maint w' = maint w
    ∨ ∃ s', mt_secrets (maint w) !! scr_key s = None ∧ secretContents s' = secretContents s
       ∧ maint w' = putSecret s' (maint w);
  patchSecret_law w w' k base new x :
    patchSecret k base new w = (w', x) →
    maint w' = maint w
    ∨ ∃ s s', mt_secrets (maint w) !! k = Some s ∧ scr_key s' = scr_key s
       ∧ (s = base → secretContents s' = secretContents new) ∧ maint w' = putSecret s' (maint w);
  deleteSecret_law w w' k x :
    deleteSecret k w = (w', x) →
    maint w' = maint w ∨ maint w' = (maint w) <| mt_secrets := delete k (mt_secrets (maint w)) |> }.
#[global] Arguments maint W {_ _ _ _ _} w.

(** The Job has a controller with this UID. *)
Definition jobOf (uid : string) (j : Job) : Prop :=
  ∃ owner, GetControllerOf (job_ObjectMeta j) = Some owner ∧ own_UID owner = uid.
Definition hasJob (m : Maint) (uid : string) : Prop := ∃ k j, mt_jobs m !! k = Some j ∧ jobOf uid j.

(** Copies and sessions are open until they have succeeded or failed. *)
Definition finishedPhase (phase : string) : Prop := phase = "Succeeded" ∨ phase = "Failed".
Definition copyOpen (c : AgentDataVolumeCopy) : Prop := ¬ finishedPhase (dct_Phase (adc_Status c)).
Definition sessionOpen (s : AgentAuthSession) : Prop := ¬ finishedPhase (aut_Phase (aas_Status s)).

Lemma open_exact phase :
  bool_decide (phase = "Succeeded") || bool_decide (phase = "Failed") = false ↔ ¬ finishedPhase phase.
Proof. unfold finishedPhase. rewrite orb_false_iff, !bool_decide_eq_false. tauto. Qed.
Lemma copyOpen_exact c : AgentDataVolumeCopyIsTerminal (dct_Phase (adc_Status c)) = false ↔ copyOpen c.
Proof. apply open_exact. Qed.
Lemma sessionOpen_exact s : AgentAuthSessionIsTerminal (aut_Phase (aas_Status s)) = false ↔ sessionOpen s.
Proof. apply open_exact. Qed.
Lemma runOpen_exact r : agentRunIsTerminal (run_Phase r) = false ↔ ¬ finishedPhase (run_Phase r).
Proof. apply open_exact. Qed.

(** The run refers to the volume, or its status records it. *)
Definition atVolume (volumeName : string) (r : AgentRun) : Prop :=
  (∃ ref, ref ∈ ex_DataVolumeRefs (execution r) ∧ TrimSpace (dvr_Name ref) = volumeName)
  ∨ ∃ v, v ∈ st_DataVolumes (run_Status r) ∧ TrimSpace (dvs_Name v) = volumeName.

Lemma existsb_elem {A} (f : A → bool) l : existsb f l = true ↔ ∃ a, a ∈ l ∧ f a = true.
Proof. rewrite existsb_exists. by setoid_rewrite <- list_elem_of_In. Qed.

Lemma usesVolume_exact volumeName r : usesVolume volumeName r = true ↔ atVolume volumeName r.
Proof.
  unfold usesVolume, atVolume. rewrite orb_true_iff, !existsb_elem. by setoid_rewrite bool_decide_eq_true.
Qed.

(** No run that has not ended uses the volume. *)
Definition idleVolume (m : Maint) (namespace volumeName : string) : Prop :=
  ∀ k r, mt_runs m !! k = Some r → run_Namespace r = namespace → atVolume volumeName r →
    finishedPhase (run_Phase r).

(** The copies read or write a volume in common. *)
Definition sharing (c c' : AgentDataVolumeCopy) : Prop :=
  ∃ v, v ∈ [copySourceName c; copyDestinationName c] ∧ v ∈ [copySourceName c'; copyDestinationName c'].

Lemma sharesVolume_exact c c' :
  sharesVolume (copySourceName c) (copyDestinationName c) c' = true ↔ sharing c c'.
Proof.
  unfold sharesVolume, sharing. rewrite !orb_true_iff, !bool_decide_eq_true. setoid_rewrite elem_of_cons.
  setoid_rewrite list_elem_of_singleton. naive_solver.
Qed.

(** Nobody else works on the volumes of the copy. *)
Record copyFree (obj : AgentDataVolumeCopy) (m : Maint) : Prop := mkCopyFree {
  cf_valid : validateAgentDataVolumeCopySpec obj = None;
  cf_source : idleVolume m (adc_Namespace obj) (copySourceName obj);
  cf_destination : idleVolume m (adc_Namespace obj) (copyDestinationName obj);
  cf_alone k c : mt_copies m !! k = Some c → adc_Namespace c = adc_Namespace obj → adc_Name c ≠ adc_Name obj →
    copyOpen c → ¬ sharing obj c }.

Record sessionFree (obj : AgentAuthSession) (m : Maint) : Prop := mkSessionFree {
  sf_valid : validateAgentAuthSessionSpec obj = None;
  sf_idle : idleVolume m (aas_Namespace obj) (sessionVolume obj);
  sf_first k s : mt_sessions m !! k = Some s → aas_Namespace s = aas_Namespace obj → aas_UID s ≠ aas_UID obj →
    sessionVolume s = sessionVolume obj → sessionOpen s → sessionPrecedes s obj = false }.

(** ** Reads *)

Lemma find_None {A} (f : A → bool) l : find f l = None ↔ ∀ a, a ∈ l → f a = false.
Proof.
  split.
  - intros Hf a Ha%list_elem_of_In. by eapply find_none.
  - induction l as [|b l IH]; [done|]. intros Hl. cbn. rewrite (Hl b) by by left. apply IH. intros a Ha. apply Hl. by right.
Qed.

Lemma uniqueStrings_nil l : uniqueStrings l = [] → Forall (λ s, blank s = true) l.
Proof.
  unfold uniqueStrings. rewrite uniqueString_fold. intros E. apply Forall_forall. intros s Hs.
  destruct (blank s) eqn:Eb; [done|]. exfalso. unfold blank in Eb. apply bool_decide_eq_false in Eb.
  assert (TrimSpace s ∈ filter (λ v, v ≠ "") (map TrimSpace l)) as Hin.
  { apply list_elem_of_filter. split; [done|]. apply list_elem_of_fmap. by exists s. }
  destruct (filter _ _) as [|v vs]; [set_solver|].
  assert (∀ vs out seen, out ≠ [] → (foldl (keepFirst id) (out, seen) vs).1 ≠ []) as Hne.
  { clear. induction vs as [|v vs IH]; intros out seen Ho; [done|]. cbn. case_bool_decide; apply IH; [done|]. by destruct out. }
  cbn [foldl keepFirst] in E. rewrite bool_decide_eq_false_2 in E by set_solver. by apply Hne in E.
Qed.

Section copies.
Context {W : Type} `{Client W, VolumeClient W, Workloads W, Maintenance W, !MaintenanceLaws W, Conditions, Quantities}.

Lemma consumers_none ns volumeName w l :
  listActiveAuthVolumeConsumers ns volumeName w = inr l → Forall (λ s, blank s = true) l → idleVolume (maint W w) ns volumeName.
Proof.
  unfold listActiveAuthVolumeConsumers. destruct (listRuns _ _ w) as [e|runs] eqn:E; [done|]. intros [= <-] Hl k r Hk Hns Hu.
  apply usesVolume_exact in Hu. destruct (decide (run_Phase r = "Succeeded")) as [?|Hn1]; [by left|].
  destruct (decide (run_Phase r = "Failed")) as [?|Hn2]; [by right|].
  assert (agentRunIsTerminal (run_Phase r) = false) as Et by (apply runOpen_exact; by intros [?|?]).
  pose proof (maint_run_named _ _ _ Hk) as Hb. rewrite Forall_forall in Hl. rewrite (Hl (run_Name r)) in Hb; [done|].
  apply list_elem_of_fmap. exists r. split; [done|]. apply list_elem_of_In, filter_In. split; [|by rewrite Et, Hu].
  apply list_elem_of_In. by eapply listRuns_all.
Qed.

Lemma peers_none obj w :
  otherActiveCopyForVolumes obj (copySourceName obj) (copyDestinationName obj) w = inr None →
  ∀ k c, mt_copies (maint W w) !! k = Some c → adc_Namespace c = adc_Namespace obj → adc_Name c ≠ adc_Name obj →
    copyOpen c → ¬ sharing obj c.
Proof.
  unfold otherActiveCopyForVolumes. destruct (listVolumeCopies _ w) as [e|l] eqn:E; [done|]. intros Hf k c Hk Hns Hn Ho.
  destruct (find _ l) eqn:Ef; [done|]. rewrite find_None in Ef.
  specialize (Ef c ltac:(by eapply listVolumeCopies_ok)). apply copyOpen_exact in Ho.
  rewrite <- sharesVolume_exact. rewrite bool_decide_eq_false_2, Ho in Ef by done. cbn in Ef. by rewrite Ef.
Qed.

(** ** What a reconciliation of a copy does *)

(** Jobs of a kind may have been added. *)
Definition jobsGrown (P : Job → Prop) (m m' : Maint) : Prop :=
  mt_copies m' = mt_copies m ∧ mt_sessions m' = mt_sessions m ∧ mt_runs m' = mt_runs m ∧ mt_secrets m' = mt_secrets m
  ∧ mt_jobs m ⊆ mt_jobs m'
  ∧ ∀ k j, mt_jobs m' !! k = Some j → mt_jobs m !! k = Some j ∨ mt_jobs m !! k = None ∧ P j.

Lemma jobsGrown_refl P m : jobsGrown P m m.
Proof. split_and!; try done. by left. Qed.
Lemma jobsGrown_put (P : Job → Prop) m0 m j :
  jobsGrown P m0 m → mt_jobs m !! job_key j = None → P j → jobsGrown P m0 (putJob j m).
Proof.
  intros (?&?&?&?&Hsub&Hj) Hn Ho. split_and!; try done; cbn.
  - etrans; [exact Hsub|]. by apply insert_subseteq.
  - intros k j' [[<- <-]|[_ Hk]]%lookup_insert_Some; [|by apply Hj]. right. split; [|done].
    destruct (mt_jobs m0 !! job_key j) eqn:E; [|done]. by rewrite (lookup_weaken _ _ _ _ E Hsub) in Hn.
Qed.

Lemma wp_ensureNamedJob (P : Job → Prop) job failure m0 w :
  jobsGrown P m0 (maint W w) →
  (∀ j', job_key j' = job_key job → meta_OwnerReferences (job_ObjectMeta j') = meta_OwnerReferences (job_ObjectMeta job) →
     jobClaims j' = jobClaims job → P j') →
  wp (ensureNamedJob job failure) (λ x w', jobsGrown P m0 (maint W w')
    ∧ ∀ j, x = inr j → mt_jobs (maint W w') !! job_key job = Some j) w.
Proof.
  intros Hg Hown. unfold ensureNamedJob. apply wp_bind, wp_try, wp_read.
  destruct (getJob _ _ w) as [e|j] eqn:Eg.
  2: { apply wp_ret. split; [done|]. intros j' [= <-]. by apply getJob_stored in Eg. }
  destruct (IsNotFound e); cbn [negb]; [|by apply wp_fail].
  apply wp_bind, wp_try. unfold wp at 1. destruct (createJob job w) as [w' x] eqn:Ec. cbn [fst snd].
  destruct (createJob_stored _ _ _ _ Ec) as [[Hm [e' ->]]|(j' & Hn & Hk & Ho & Hcl & Hst & Hm & Hx)].
  - case_match; [apply wp_read|apply wp_fail]; rewrite Hm; (split; [done|]); [|done].
    intros j Hj%getJob_stored. by rewrite Hm in Hj.
  - assert (jobsGrown P m0 (maint W w')) as Hg' by (rewrite Hm; apply jobsGrown_put; [done|by rewrite Hk|by apply Hown]).
    assert (mt_jobs (maint W w') !! job_key job = Some j') as Hl by (rewrite Hm; cbn; rewrite Hk; apply lookup_insert_eq).
    destruct x as [e'|t]; [case_match; [apply wp_read|by apply wp_fail]|apply wp_ret]; (split; [done|]).
    + by intros j Hj%getJob_stored.
    + intros j [= <-]. by rewrite (Hx t eq_refl).
Qed.

Lemma controlled_owner kind (owner : ObjectMeta) j :
  meta_OwnerReferences (job_ObjectMeta j) = soleController kind owner → jobOf (meta_UID owner) j.
Proof. intros E. unfold jobOf, GetControllerOf. rewrite E. by eexists. Qed.

(** The claim of a volume: the one its status records, else the one its spec names,
    else the one its controller names after it. *)
Definition claimOf (v : AgentDataVolume) (claim : string) : Prop :=
  let recorded := match dvt_ClaimRef (adv_Status v) with Some ref => TrimSpace (ref_Name ref) | None => "" end in
  let named := TrimSpace (dv_ClaimName (adv_Spec v)) in
  recorded ≠ "" ∧ claim = recorded
  ∨ recorded = "" ∧ named ≠ "" ∧ claim = named
  ∨ recorded = "" ∧ named = "" ∧ claim = agentRunChildName ["agent-data"; adv_Name v].

Lemma recordedClaim_claimOf v : claimOf v (recordedClaim v).
Proof.
  unfold claimOf, recordedClaim, agentDataVolumeClaimName, blank.
  destruct (dvt_ClaimRef _) as [ref|]; repeat case_bool_decide; naive_solver.
Qed.

Definition jobSucceeded (m : Maint) (k : key) : Prop := ∃ j, mt_jobs m !! k = Some j ∧ 0 < jst_Succeeded (job_Status j).

Section effect.
(** The cluster as the reconciliation finds it. *)
Context (w0 : W).

(** The Jobs of a copy: one mounts the claim of its source, read-only, the other the
    claim of its destination. *)
Definition copyJobOf (obj : AgentDataVolumeCopy) (j : Job) : Prop :=
  let ns := adc_Namespace obj in
  jobOf (adc_UID obj) j
  ∧ (job_key j = (ns, agentRunChildName ["vcopy-src"; adc_Name obj])
       ∧ (∃ source claim, getDataVolume ns (copySourceName obj) w0 = inr source ∧ claimOf source claim
            ∧ jobClaims j = [mkVolume "volume" (VolumeClaim claim true)])
     ∨ job_key j = (ns, agentRunChildName ["vcopy-dst"; adc_Name obj])
       ∧ (∃ dest claim, adv_Namespace dest = ns ∧ adv_Name dest = copyDestinationName obj
            ∧ (∀ v, getDataVolume ns (copyDestinationName obj) w0 = inr v → dest = v) ∧ claimOf dest claim
            ∧ jobClaims j = [mkVolume "volume" (VolumeClaim claim false)])).

(** The effect of a reconciliation: Jobs of the copy are added, if nobody else uses
    its volumes; its status is written, with success only when both Jobs succeeded. *)
Definition copyEffect (obj : AgentDataVolumeCopy) (m m' : Maint) : Prop :=
  ∃ m1, jobsGrown (copyJobOf obj) m m1 ∧ (mt_jobs m1 = mt_jobs m ∨ copyFree obj m)
    ∧ (m' = m1 ∨ ∃ c', sameCopy obj c' ∧ dct_ObservedGeneration (adc_Status c') = adc_Generation obj
         ∧ (dct_Phase (adc_Status c') = AgentDataVolumeCopyPhaseSucceeded → copyFree obj m
             ∧ jobSucceeded m1 (adc_Namespace obj, agentRunChildName ["vcopy-src"; adc_Name obj])
             ∧ jobSucceeded m1 (adc_Namespace obj, agentRunChildName ["vcopy-dst"; adc_Name obj]))
         ∧ m' = putCopy c' m1).

Lemma copyEffect_refl obj m : copyEffect obj m m.
Proof. exists m. split; [apply jobsGrown_refl|]. split; by left. Qed.

(** A status that is written in a state [m1] reached from [m]. *)
Lemma wp_patchCopyStatus obj status m w (Q : GoErr + unit → W → Prop) :
  mt_copies m !! adc_key obj = Some obj →
  jobsGrown (copyJobOf obj) m (maint W w) → (mt_jobs (maint W w) = mt_jobs m ∨ copyFree obj m) →
  dct_ObservedGeneration status = adc_Generation obj →
  (dct_Phase status = AgentDataVolumeCopyPhaseSucceeded → copyFree obj m
     ∧ jobSucceeded (maint W w) (adc_Namespace obj, agentRunChildName ["vcopy-src"; adc_Name obj])
     ∧ jobSucceeded (maint W w) (adc_Namespace obj, agentRunChildName ["vcopy-dst"; adc_Name obj])) →
  (∀ x w', copyEffect obj m (maint W w') → Q x w') →
  wp (patchCopyStatus obj status) Q w.
Proof.
  intros Hk Hg Hfree Hgen Hphase HQ. unfold patchCopyStatus. apply wp_bind, wp_try. unfold wp at 1.
  destruct (patchVolumeCopyStatus _ _ _ w) as [w' x] eqn:E. cbn [fst snd].
  assert (copyEffect obj m (maint W w')) as He.
  { exists (maint W w). split; [done|]. split; [done|].
    destruct (patchVolumeCopyStatus_law _ _ _ _ _ _ E) as [[-> _]|(c & c' & Hc & Hs & Hst & ->)]; [by left|]. right. exists c'.
    rewrite (proj1 Hg), Hk in Hc. injection Hc as <-. by rewrite (Hst eq_refl). }
  destruct x as [e|[]]; [apply wp_fail|apply wp_ret]; by apply HQ.
Qed.

Lemma wp_failCopy obj status now reason message m w :
  mt_copies m !! adc_key obj = Some obj →
  jobsGrown (copyJobOf obj) m (maint W w) → (mt_jobs (maint W w) = mt_jobs m ∨ copyFree obj m) →
  dct_ObservedGeneration status = adc_Generation obj →
  wp (failCopy obj status now reason message) (λ _ w', copyEffect obj m (maint W w')) w.
Proof.
  intros. unfold failCopy. apply wp_bind. eapply wp_patchCopyStatus; [done..|]. intros [e|[]] w' He; [done|by apply wp_ret].
Qed.
Lemma wp_waitCopy obj now reason message delay status m w :
  mt_copies m !! adc_key obj = Some obj →
  jobsGrown (copyJobOf obj) m (maint W w) → (mt_jobs (maint W w) = mt_jobs m ∨ copyFree obj m) →
  dct_ObservedGeneration status = adc_Generation obj → dct_Phase status ≠ AgentDataVolumeCopyPhaseSucceeded →
  wp (waitCopy obj now reason message delay status) (λ _ w', copyEffect obj m (maint W w')) w.
Proof.
  intros. unfold waitCopy. apply wp_bind. eapply wp_patchCopyStatus; [done..|]. intros [e|[]] w' He; [done|by apply wp_ret].
Qed.

Lemma wp_concludeCopy obj source dest sourceJob destJob clock status m w :
  mt_copies m !! adc_key obj = Some obj → jobsGrown (copyJobOf obj) m (maint W w) → copyFree obj m →
  dct_ObservedGeneration status = adc_Generation obj →
  mt_jobs (maint W w) !! (adc_Namespace obj, agentRunChildName ["vcopy-src"; adc_Name obj]) = Some sourceJob →
  mt_jobs (maint W w) !! (adc_Namespace obj, agentRunChildName ["vcopy-dst"; adc_Name obj]) = Some destJob →
  wp (concludeCopy obj source dest sourceJob destJob clock status) (λ _ w', copyEffect obj m (maint W w')) w.
Proof.
  intros Hk Hg Hf Hgen Hs Hd. unfold concludeCopy. case_match; [apply wp_failCopy; auto|].
  destruct (_ && _) eqn:Eok.
  - apply andb_true_iff in Eok as [Ed%Z.ltb_lt Es%Z.ltb_lt]. apply wp_bind, wp_try, wp_read.
    set (status' := match persistentVolumeNodeName _ _ with inl _ => _ | inr _ => _ end).
    assert (dct_ObservedGeneration status' = adc_Generation obj) as Hgen' by (unfold status'; by case_match).
    clearbody status'. apply wp_bind. eapply wp_patchCopyStatus; [done|done|by right|done| |].
    + intros _. split; [done|]. by split; [exists sourceJob|exists destJob].
    + intros [e|[]] w' He; [done|by apply wp_ret].
  - apply wp_waitCopy; auto.
Qed.

(** Calls that leave the objects of the view alone; the destination is the volume of
    its name. *)
Lemma wp_ensureDestination obj source w (Q : GoErr + AgentDataVolume → W → Prop) :
  (∀ x w', maint W w' = maint W w →
     (∀ dest, x = inr dest → adv_Namespace dest = adc_Namespace obj ∧ adv_Name dest = copyDestinationName obj
        ∧ ∀ v, getDataVolume (adc_Namespace obj) (copyDestinationName obj) w = inr v → dest = v) → Q x w') →
  wp (ensureDestinationVolume obj source) Q w.
Proof.
  intros HQ. unfold ensureDestinationVolume. apply wp_bind, wp_try, wp_read.
  destruct (getDataVolume _ _ w) as [e|v] eqn:Eg.
  2: { apply wp_ret, HQ; [done|]. intros dest [= <-]. apply getDataVolume_name in Eg as [? ?]. by split_and!; [..|intros v' [= ->]]. }
  destruct (negb (IsNotFound e)); [by apply wp_fail, HQ|]. apply wp_bind, wp_try. unfold wp at 1.
  destruct (createDataVolume _ w) as [w' x] eqn:E. apply createDataVolume_law in E as [Hm Hv]. cbn [fst snd].
  destruct x as [e'|v].
  - destruct (IsAlreadyExists e'); [|by apply wp_fail, HQ]. apply wp_read, HQ; [done|]. intros dest Hd%getDataVolume_name.
    by destruct Hd.
  - apply wp_ret, HQ; [done|]. intros dest [= <-]. destruct (Hv v eq_refl) as [-> ->]. done.
Qed.
Lemma wp_ensureService obj w (Q : GoErr + Service → W → Prop) :
  (∀ x w', maint W w' = maint W w → Q x w') → wp (ensureStreamService obj) Q w.
Proof.
  intros HQ. unfold ensureStreamService. apply wp_bind, wp_try, wp_read.
  destruct (getService _ _ w) as [e|v]; [|by apply wp_ret, HQ].
  destruct (negb (IsNotFound e)); [by apply wp_fail, HQ|]. apply wp_bind, wp_try. unfold wp at 1.
  destruct (createService _ w) as [w' x] eqn:E. apply createService_quiet in E. cbn [fst snd].
  destruct x as [e'|v]; [|by apply wp_ret, HQ]. destruct (IsAlreadyExists e'); [by apply wp_read, HQ|by apply wp_fail, HQ].
Qed.

Lemma copyEffect_jobs obj m w :
  jobsGrown (copyJobOf obj) m (maint W w) → copyFree obj m → copyEffect obj m (maint W w).
Proof. intros Hg Hf. exists (maint W w). split; [done|]. split; [by right|by left]. Qed.

Lemma jobsGrown_trans P m m1 m2 : jobsGrown P m m1 → jobsGrown P m1 m2 → jobsGrown P m m2.
Proof.
  intros (E1&E2&E3&E4&Hs1&G1) (F1&F2&F3&F4&Hs2&G2). split_and!; [congruence..|by etrans|].
  intros k j [Hj|[Hn Hp]]%G2; [by apply G1|]. right. split; [|done].
  destruct (mt_jobs m !! k) eqn:E; [|done]. by rewrite (lookup_weaken _ _ _ _ E Hs1) in Hn.
Qed.

Lemma wp_streamCopy obj source sourceNode clock status :
  mt_copies (maint W w0) !! adc_key obj = Some obj → copyFree obj (maint W w0) →
  getDataVolume (adc_Namespace obj) (copySourceName obj) w0 = inr source →
  dct_ObservedGeneration status = adc_Generation obj →
  wp (streamCopy obj source (recordedClaim source) sourceNode clock status)
    (λ _ w', copyEffect obj (maint W w0) (maint W w')) w0.
Proof.
  intros Hk Hf Hsrc Hgen. unfold streamCopy. apply wp_bind, wp_try, wp_ensureDestination. intros x w1 Hm1 Hdest.
  set (m := maint W w0) in *. assert (jobsGrown (copyJobOf obj) m (maint W w1)) as Hg1 by (rewrite Hm1; apply jobsGrown_refl).
  destruct x as [e|dest]; [apply wp_failCopy; auto|]. destruct (Hdest dest eq_refl) as (Hdns & Hdn & Hdv).
  apply wp_bind, wp_ensureService. intros x w2 Hm2.
  rewrite <- Hm2 in Hg1. destruct x as [e|svc]; [by apply copyEffect_jobs|].
  apply wp_bind. eapply wp_mono; [unfold ensureCopyJob; apply (wp_ensureNamedJob (copyJobOf obj) _ _ m); [exact Hg1|]|].
  { intros j' Hj Ho Hc. split; [exact (controlled_owner "AgentDataVolumeCopy" (adc_ObjectMeta obj) _ Ho)|]. left. split; [done|].
    exists source, (recordedClaim source). split_and!; [done|apply recordedClaim_claimOf|exact Hc]. }
  intros [e|js] w3 [Hg3 Hs]; [by apply copyEffect_jobs|]. specialize (Hs js eq_refl).
  apply wp_bind. eapply wp_mono; [unfold ensureCopyJob; apply (wp_ensureNamedJob (copyJobOf obj) _ _ (maint W w3)); [apply jobsGrown_refl|]|].
  { intros j' Hj Ho Hc. split; [exact (controlled_owner "AgentDataVolumeCopy" (adc_ObjectMeta obj) _ Ho)|]. right. split; [done|].
    exists dest, (recordedClaim dest). split_and!; [done..|apply recordedClaim_claimOf|exact Hc]. }
  intros [e|jd] w4 [Hg4 Hd]; pose proof (jobsGrown_trans _ _ _ _ Hg3 Hg4) as Hg; [by apply copyEffect_jobs|].
  specialize (Hd jd eq_refl). apply wp_concludeCopy; try done.
  destruct Hg4 as (_&_&_&_&Hsub&_). by eapply lookup_weaken.
Qed.

Lemma wp_guardCopy obj source sourceNode clock status :
  mt_copies (maint W w0) !! adc_key obj = Some obj → validateAgentDataVolumeCopySpec obj = None →
  getDataVolume (adc_Namespace obj) (copySourceName obj) w0 = inr source → dct_ObservedGeneration status = adc_Generation obj →
  wp (guardCopy obj source (recordedClaim source) sourceNode clock status)
    (λ _ w', copyEffect obj (maint W w0) (maint W w')) w0.
Proof.
  intros Hk Hv Hsrc Hgen. pose proof (proj2 (getDataVolume_name _ _ _ _ Hsrc)) as Hn. unfold guardCopy. apply wp_bind, wp_read.
  destruct (listActiveAuthVolumeConsumers _ (adv_Name source) w0) as [e|l1] eqn:E1; [apply copyEffect_refl|].
  apply wp_bind, wp_read.
  destruct (listActiveAuthVolumeConsumers _ (copyDestinationName obj) w0) as [e|l2] eqn:E2; [apply copyEffect_refl|].
  set (active := uniqueStrings _). destruct (bool_decide (active = [])) eqn:Ea; cbn [negb].
  2: { apply wp_waitCopy; try done; [apply jobsGrown_refl|by left]. }
  apply bool_decide_eq_true, uniqueStrings_nil, Forall_app in Ea as [Ea1 Ea2].
  apply wp_bind, wp_read. destruct (otherActiveCopyForVolumes _ _ _ w0) as [e|[peer|]] eqn:Ep; [apply copyEffect_refl| |].
  { apply wp_waitCopy; try done; [apply jobsGrown_refl|by left]. }
  apply wp_streamCopy; [done| |done|done]. rewrite Hn in *. split; [done| | |].
  - by eapply consumers_none.
  - by eapply consumers_none.
  - by apply peers_none.
Qed.

Lemma wp_reconcileLiveCopy obj clock :
  mt_copies (maint W w0) !! adc_key obj = Some obj →
  wp (reconcileLiveCopy obj clock) (λ _ w', copyEffect obj (maint W w0) (maint W w')) w0.
Proof.
  intros Hk. unfold reconcileLiveCopy. set (status := if _ || _ then _ else _).
  assert (dct_ObservedGeneration status = adc_Generation obj) as Hgen by (unfold status; by case_match). clearbody status.
  pose proof (jobsGrown_refl (copyJobOf obj) (maint W w0)) as Hg.
  destruct (validateAgentDataVolumeCopySpec obj) as [message|] eqn:Ev; [apply wp_failCopy; auto|].
  apply wp_bind, wp_try, wp_read. destruct (getDataVolume _ _ w0) as [e|source] eqn:Es.
  { destruct (IsNotFound e); [apply wp_failCopy; auto|apply copyEffect_refl]. }
  destruct (negb _); [apply wp_waitCopy; auto; done|]. case_match; [apply wp_failCopy; auto|].
  apply wp_bind, wp_read. destruct (persistentVolumeNodeName _ w0) as [e|node]; [apply copyEffect_refl|].
  destruct (blank node); [apply wp_failCopy; auto|]. by apply wp_guardCopy.
Qed.

(** A copy that is reconciled is stored, live and open, or nothing changes. *)
Lemma wp_reconcileCopy ns n clock :
  wp (reconcileCopy ns n clock) (λ _ w', maint W w' = maint W w0 ∨
    ∃ obj, mt_copies (maint W w0) !! (ns, n) = Some obj ∧ adc_key obj = (ns, n)
      ∧ (copyOpen obj ∨ dct_ObservedGeneration (adc_Status obj) ≠ adc_Generation obj)
      ∧ copyEffect obj (maint W w0) (maint W w')) w0.
Proof.
  unfold reconcileCopy. apply wp_bind, wp_try, wp_read. destruct (getVolumeCopy ns n w0) as [e|obj] eqn:E.
  { case_match; by left. }
  apply getVolumeCopy_ok in E as [Hk Hkey]. case_match; [by left|].
  destruct (_ && _) eqn:Et; [by left|]. eapply wp_mono; [apply wp_reconcileLiveCopy; by rewrite Hkey|].
  intros x w' He. right. exists obj. split_and!; try done.
  apply andb_false_iff in Et as [Et|Et%Z.eqb_neq]; [left; by apply copyOpen_exact|by right].
Qed.

End effect.

End copies.

(** ** What a reconciliation of a session does *)

Section sessions.
Context {W : Type} `{Client W, VolumeClient W, Workloads W, Maintenance W, !MaintenanceLaws W, Conditions}.
Context (options : option Options).

Definition sessionJobKey (obj : AgentAuthSession) : key := (aas_Namespace obj, agentRunChildName ["auth"; aas_Name obj]).
Definition sessionJobOf (obj : AgentAuthSession) (j : Job) : Prop :=
  jobOf (aas_UID obj) j ∧ job_key j = sessionJobKey obj
  ∧ ∃ claim, jobClaims j = [mkVolume "agent-home" (VolumeClaim claim false)].

Definition bootstrapKey (obj : AgentAuthSession) : key := (aas_Namespace obj, refName (aus_BootstrapSecretRef (aas_Spec obj))).
Definition stagingKey (obj : AgentAuthSession) : key := (aas_Namespace obj, refName (aus_StagingSecretRef (aas_Spec obj))).
Definition stagedFor (obj : AgentAuthSession) (s : Secret) : Prop :=
  default "" (meta_Labels (scr_ObjectMeta s) !! agentAuthStagingOwnerLabel) = sanitizeLabelValue (aas_Name obj).

(** The credentials of the staging Secret are written to the bootstrap Secret. *)
Definition seeded (obj : AgentAuthSession) (before after : gmap key Secret) : Prop :=
  after = before ∨ ∃ layout staging s', agentAuthLayout (aus_Provider (aas_Spec obj)) = inr layout
    ∧ before !! stagingKey obj = Some staging ∧ after = <[bootstrapKey obj := s']> before
    ∧ scr_Data s' = <[lay_SeedSecretKey layout := TrimSpace (aus_SeedID (aas_Spec obj))]>
        (<[firstNonEmpty [TrimSpace (aus_BootstrapSecretKey (aas_Spec obj)); lay_DefaultBootstrapKey layout]
             := default "" (scr_Data staging !! lay_AuthEnvKey layout)]>
           (default ∅ (scr_Data <$> before !! bootstrapKey obj)))
    ∧ ∀ s, before !! bootstrapKey obj = Some s → secretManagedByExternalSecret s = false
        ∧ meta_Labels (scr_ObjectMeta s') !! agentAuthStagingOwnerLabel = meta_Labels (scr_ObjectMeta s) !! agentAuthStagingOwnerLabel.
(** The staging Secret is removed. *)
Definition cleared (obj : AgentAuthSession) (before after : gmap key Secret) : Prop :=
  after = before ∨ ∃ s, before !! stagingKey obj = Some s ∧ stagedFor obj s ∧ after = delete (stagingKey obj) before.

(** The effect: a Job is added when nobody else uses the volume; after it succeeded
    the Secrets of a reauthentication are written; the status is written. *)
Definition sessionEffect (obj : AgentAuthSession) (m m' : Maint) : Prop :=
  ∃ m1 secrets, jobsGrown (sessionJobOf obj) m m1 ∧ (mt_jobs m1 = mt_jobs m ∨ sessionFree obj m)
    ∧ (secrets = mt_secrets m
       ∨ reauths obj = true ∧ jobSucceeded m1 (sessionJobKey obj)
         ∧ ∃ between, seeded obj (mt_secrets m) between ∧ cleared obj between secrets)
    ∧ (m' = m1 <| mt_secrets := secrets |>
       ∨ ∃ s', sameSession obj s' ∧ aut_ObservedGeneration (aas_Status s') = aas_Generation obj
           ∧ (aut_Phase (aas_Status s') = AgentAuthSessionPhaseSucceeded → sessionFree obj m)
           ∧ m' = putSession s' (m1 <| mt_secrets := secrets |>)).

(** A state on the way: the status is not written yet. *)
Definition sessionUnderway (obj : AgentAuthSession) (m m' : Maint) : Prop :=
  ∃ m1 secrets, jobsGrown (sessionJobOf obj) m m1 ∧ (mt_jobs m1 = mt_jobs m ∨ sessionFree obj m)
    ∧ (secrets = mt_secrets m
       ∨ reauths obj = true ∧ jobSucceeded m1 (sessionJobKey obj)
         ∧ ∃ between, seeded obj (mt_secrets m) between ∧ cleared obj between secrets)
    ∧ m' = m1 <| mt_secrets := secrets |>.

Lemma keep_secrets (m : Maint) : m <| mt_secrets := mt_secrets m |> = m.
Proof. by destruct m. Qed.
Lemma underway_effect obj m m' : sessionUnderway obj m m' → sessionEffect obj m m'.
Proof. intros (m1 & secrets & ? & ? & ? & ?). exists m1, secrets. auto. Qed.
Lemma underway_jobs obj m m1 :
  jobsGrown (sessionJobOf obj) m m1 → (mt_jobs m1 = mt_jobs m ∨ sessionFree obj m) → sessionUnderway obj m m1.
Proof.
  intros Hg Hf. exists m1, (mt_secrets m). split_and!; [done|done|by left|].
  destruct Hg as (_&_&_&<-&_). by rewrite keep_secrets.
Qed.
Lemma underway_refl obj m : sessionUnderway obj m m.
Proof. apply underway_jobs; [apply jobsGrown_refl|by left]. Qed.
Lemma underway_sessions obj m m' : sessionUnderway obj m m' → mt_sessions m' = mt_sessions m.
Proof. intros (m1 & secrets & (_&E&_) & _ & _ & ->). by rewrite <- E. Qed.

Lemma wp_patchSession obj status m w (Q : GoErr + unit → W → Prop) :
  mt_sessions m !! aas_key obj = Some obj → sessionUnderway obj m (maint W w) →
  aut_ObservedGeneration status = aas_Generation obj →
  (aut_Phase status = AgentAuthSessionPhaseSucceeded → sessionFree obj m) →
  (∀ x w', sessionEffect obj m (maint W w') → Q x w') →
  wp (patchAgentAuthSessionStatus obj status) Q w.
Proof.
  intros Hk Hu Hgen Hok HQ. unfold patchAgentAuthSessionStatus. apply wp_bind, wp_try. unfold wp at 1.
  destruct (patchAuthSessionStatus _ _ _ w) as [w' x] eqn:E. cbn [fst snd].
  assert (sessionEffect obj m (maint W w')) as He.
  { destruct (patchAuthSessionStatus_law _ _ _ _ _ _ E) as [[-> _]|(s & s' & Hs & Hsame & Hst & ->)]; [by apply underway_effect|].
    rewrite (underway_sessions _ _ _ Hu), Hk in Hs. injection Hs as <-.
    destruct Hu as (m1 & secrets & Hg & Hf & Hsec & ->). exists m1, secrets. split_and!; [done..|]. right. exists s'.
    by rewrite (Hst eq_refl). }
  destruct x as [e|[]]; [apply wp_fail|apply wp_ret]; by apply HQ.
Qed.
Lemma wp_failSession obj status now reason message m w :
  mt_sessions m !! aas_key obj = Some obj → sessionUnderway obj m (maint W w) →
  aut_ObservedGeneration status = aas_Generation obj →
  wp (failSession obj status now reason message) (λ _ w', sessionEffect obj m (maint W w')) w.
Proof. intros. unfold failSession. apply wp_bind. eapply wp_patchSession; [done..|]. by intros [e|[]] w' He. Qed.
Lemma wp_waitSession obj now reason message delay status m w :
  mt_sessions m !! aas_key obj = Some obj → sessionUnderway obj m (maint W w) →
  aut_ObservedGeneration status = aas_Generation obj → aut_Phase status ≠ AgentAuthSessionPhaseSucceeded →
  wp (waitSession obj now reason message delay status) (λ _ w', sessionEffect obj m (maint W w')) w.
Proof. intros. unfold waitSession. apply wp_bind. eapply wp_patchSession; [done..|]. by intros [e|[]] w' He. Qed.

Definition onlySecrets (m m' : Maint) (P : gmap key Secret → gmap key Secret → Prop) : Prop :=
  ∃ secrets, P (mt_secrets m) secrets ∧ m' = m <| mt_secrets := secrets |>.
Lemma onlySecrets_refl (m : Maint) (P : gmap key Secret → gmap key Secret → Prop) : P (mt_secrets m) (mt_secrets m) → onlySecrets m m P.
Proof. intros HP. exists (mt_secrets m). by rewrite keep_secrets. Qed.

Lemma wp_applyBootstrapSecret obj w :
  wp (applyBootstrapSecret obj) (λ _ w', onlySecrets (maint W w) (maint W w') (seeded obj)) w.
Proof.
  assert (∀ w', maint W w' = maint W w → onlySecrets (maint W w) (maint W w') (seeded obj)) as Hr.
  { intros w' ->. apply onlySecrets_refl. by left. }
  unfold applyBootstrapSecret. case_match; [by apply wp_ret, Hr|].
  destruct (agentAuthLayout _) as [e|layout] eqn:El; [by apply wp_fail, Hr|].
  destruct (aus_StagingSecretRef _) as [ref|] eqn:Eref; [|by apply wp_fail, Hr].
  apply wp_bind, wp_try, wp_read. destruct (getSecret _ (TrimSpace (lor_Name ref)) w) as [e|staging] eqn:Es; [by apply wp_fail, Hr|].
  apply getSecret_stored in Es as [Hs _]. case_match; [by apply wp_fail, Hr|]. apply wp_bind, wp_try, wp_read.
  assert (mt_secrets (maint W w) !! stagingKey obj = Some staging) as Hst by (unfold stagingKey, refName; by rewrite Eref).
  destruct (getSecret _ (refName (aus_BootstrapSecretRef _)) w) as [e|s] eqn:Eb.
  - destruct (IsNotFound e); [|by apply wp_fail, Hr]. apply wp_bind, wp_try. unfold wp at 1.
    destruct (createSecret _ w) as [w' x] eqn:Ec. cbn [fst snd].
    assert (onlySecrets (maint W w) (maint W w') (seeded obj)) as Ho.
    { destruct (createSecret_law _ _ _ _ Ec) as [?|(s' & Hn & Hc & ->)]; [by apply Hr|].
      injection Hc as Hns Hname _ Hd _ _ _. eexists. split; [|done]. right. exists layout, staging, s'. change (mt_secrets (maint W w) !! bootstrapKey obj = None) in Hn.
      assert (scr_key s' = bootstrapKey obj) as -> by (unfold scr_key; by rewrite Hns, Hname).
      split_and!; [done|done|done| |by rewrite Hn]. by rewrite Hn, Hd. }
    destruct x; [by apply wp_fail|by apply wp_ret].
  - pose proof Eb as Eb'. apply getSecret_stored in Eb as [Hb _]. destruct (secretManagedByExternalSecret s) eqn:Em; [by apply wp_fail, Hr|].
    apply wp_bind, wp_try. unfold wp at 1. destruct (patchSecret _ _ _ w) as [w' x] eqn:Ec. cbn [fst snd].
    assert (onlySecrets (maint W w) (maint W w') (seeded obj)) as Ho.
    { destruct (patchSecret_law _ _ _ _ _ _ Ec) as [?|(t & s' & Ht & Hk & Hc & ->)]; [by apply Hr|].
      change (mt_secrets (maint W w) !! bootstrapKey obj = Some s) in Hb. change (mt_secrets (maint W w) !! bootstrapKey obj = Some t) in Ht.
      assert (t = s) as -> by congruence. specialize (Hc eq_refl). injection Hc as _ _ _ Hd Hl _ _.
      eexists. split; [|done]. right. exists layout, staging, s'.
      assert (scr_key s' = bootstrapKey obj) as -> by (rewrite Hk; exact (proj2 (getSecret_stored _ _ _ _ Eb'))).
      split_and!; [done|done|done|by rewrite Hb, Hd|]. intros s0 Hs0. assert (s0 = s) as -> by congruence.
      split; [done|]. rewrite Hl. cbn. by rewrite !lookup_insert_ne. }
    destruct x; [by apply wp_fail|by apply wp_ret].
Qed.

Lemma wp_deleteOwnedStagingSecret obj w :
  wp (deleteOwnedStagingSecret obj) (λ _ w', onlySecrets (maint W w) (maint W w') (cleared obj)) w.
Proof.
  assert (∀ w', maint W w' = maint W w → onlySecrets (maint W w) (maint W w') (cleared obj)) as Hr.
  { intros w' ->. apply onlySecrets_refl. by left. }
  unfold deleteOwnedStagingSecret. destruct (aus_StagingSecretRef _) as [ref|] eqn:Eref; [|by apply wp_ret, Hr].
  apply wp_bind, wp_try, wp_read. destruct (getSecret _ _ w) as [e|s] eqn:Es.
  { destruct (IsNotFound e); [by apply wp_ret, Hr|by apply wp_fail, Hr]. }
  apply getSecret_stored in Es as [Hs Hk].
  assert ((aas_Namespace obj, TrimSpace (lor_Name ref)) = stagingKey obj) as Hkey by (unfold stagingKey, refName; by rewrite Eref).
  destruct (bool_decide (default "" _ = _)) eqn:Eb; cbn [negb]; [|by apply wp_ret, Hr].
  apply bool_decide_eq_true in Eb. apply wp_bind, wp_try. unfold wp at 1.
  destruct (deleteSecret _ w) as [w' x] eqn:Ed. cbn [fst snd].
  assert (onlySecrets (maint W w) (maint W w') (cleared obj)) as Ho.
  { destruct (deleteSecret_law _ _ _ _ Ed) as [?|Hdel]; [by apply Hr|]. rewrite Hdel, Hk, Hkey. rewrite Hkey in Hs.
    eexists. split; [|done]. right. by exists s. }
  destruct x as [e|[]]; [destruct (IsNotFound e); [by apply wp_ret|by apply wp_fail]|by apply wp_ret].
Qed.

(** The Secrets are written after the Job of the session has succeeded. *)
Lemma underway_seeded obj m w w1 :
  jobsGrown (sessionJobOf obj) m (maint W w) → sessionFree obj m → reauths obj = true →
  jobSucceeded (maint W w) (sessionJobKey obj) → onlySecrets (maint W w) (maint W w1) (seeded obj) →
  sessionUnderway obj m (maint W w1) ∧ ∀ w2, onlySecrets (maint W w1) (maint W w2) (cleared obj) → sessionUnderway obj m (maint W w2).
Proof.
  intros Hg Hf Hr Hj (secrets & Hs & Hm1). assert (mt_secrets (maint W w) = mt_secrets m) as Hsec by (destruct Hg as (_&_&_&E&_); done).
  rewrite Hsec in Hs. split.
  - exists (maint W w), secrets. split_and!; [done|by right| |done]. right. split_and!; [done..|]. exists secrets. split; [done|by left].
  - intros w2 (secrets' & Hc & Hm2). exists (maint W w), secrets'. split_and!; [done|by right| |].
    + right. split_and!; [done..|]. exists secrets. by rewrite Hm1 in Hc.
    + by rewrite Hm2, Hm1.
Qed.

Lemma wp_concludeSession obj volume job clock status m w :
  mt_sessions m !! aas_key obj = Some obj → jobsGrown (sessionJobOf obj) m (maint W w) → sessionFree obj m →
  aut_ObservedGeneration status = aas_Generation obj → mt_jobs (maint W w) !! sessionJobKey obj = Some job →
  wp (concludeSession obj volume job clock status) (λ _ w', sessionEffect obj m (maint W w')) w.
Proof.
  intros Hk Hg Hf Hgen Hj. pose proof (underway_jobs _ _ _ Hg (or_intror Hf)) as Hu.
  unfold concludeSession. destruct (0 <? jst_Succeeded _) eqn:Es.
  2: { destruct (0 <? jst_Failed _); [by apply wp_failSession|by apply wp_waitSession]. }
  apply Z.ltb_lt in Es. destruct (reauths obj) eqn:Er.
  - apply wp_bind, wp_try. eapply wp_mono; [apply wp_applyBootstrapSecret|]. intros x w1 Ho.
    destruct (underway_seeded obj m w w1 Hg Hf Er) as [Hu1 Hu2]; [by exists job|done|].
    destruct x as [e|[]]; [by apply wp_failSession|]. apply wp_bind.
    eapply wp_mono; [apply wp_deleteOwnedStagingSecret|]. intros [e|[]] w2 Hc%Hu2; [by apply underway_effect|].
    apply wp_bind. eapply wp_patchSession; [done..|]. by intros [e|[]] w' He.
  - apply wp_bind, wp_ret, wp_bind, wp_ret, wp_bind. eapply wp_patchSession; [done..|]. by intros [e|[]] w' He.
Qed.

Lemma older_none obj volumeName w :
  otherActiveSessionForVolume obj volumeName w = inr None →
  ∀ k s, mt_sessions (maint W w) !! k = Some s → aas_Namespace s = aas_Namespace obj → aas_UID s ≠ aas_UID obj →
    sessionVolume s = volumeName → sessionOpen s → sessionPrecedes s obj = false.
Proof.
  unfold otherActiveSessionForVolume. destruct (listAuthSessions _ w) as [e|l] eqn:E; [done|]. intros Hf k s Hk Hns Hu Hv Ho.
  destruct (find _ l) eqn:Ef; [done|]. rewrite find_None in Ef. specialize (Ef s ltac:(by eapply listAuthSessions_ok)).
  apply sessionOpen_exact in Ho. by rewrite (bool_decide_eq_false_2 (_ = _)), (bool_decide_eq_true_2 (_ = _)), Ho in Ef by done.
Qed.

Lemma wp_guardSession obj volume claimName mountPath clock status w :
  mt_sessions (maint W w) !! aas_key obj = Some obj → validateAgentAuthSessionSpec obj = None →
  adv_Name volume = sessionVolume obj → aut_ObservedGeneration status = aas_Generation obj →
  wp (guardSession options obj volume claimName mountPath clock status) (λ _ w', sessionEffect obj (maint W w) (maint W w')) w.
Proof.
  intros Hk Hv Hn Hgen. pose proof (underway_refl obj (maint W w)) as Hu. unfold guardSession. apply wp_bind, wp_read.
  destruct (listActiveAuthVolumeConsumers _ _ w) as [e|active] eqn:Ea; [by apply underway_effect|].
  destruct (bool_decide (active = [])) eqn:El; cbn [negb]; [|by apply wp_waitSession].
  apply bool_decide_eq_true in El as ->. apply wp_bind, wp_read.
  destruct (otherActiveSessionForVolume _ _ w) as [e|[peer|]] eqn:Ep; [by apply underway_effect|by apply wp_waitSession|].
  assert (sessionFree obj (maint W w)) as Hf.
  { rewrite Hn in *. split; [done|eapply consumers_none; [exact Ea|by apply Forall_nil]|by apply older_none]. }
  apply wp_bind. unfold ensureAuthSessionJob.
  destruct (agentAuthLayout _) as [e|layout] eqn:Elay.
  { exfalso. revert Hv. unfold validateAgentAuthSessionSpec. by rewrite Elay. }
  eapply wp_mono; [apply (wp_ensureNamedJob (sessionJobOf obj) _ _ (maint W w)); [apply jobsGrown_refl|]|].
  { intros j' Hj Ho Hc. split; [exact (controlled_owner "AgentAuthSession" (aas_ObjectMeta obj) _ Ho)|].
    split; [exact Hj|]. exists claimName. exact Hc. }
  intros [e|job] w1 [Hg Hj]; [apply underway_effect, underway_jobs; auto|]. specialize (Hj job eq_refl).
  apply wp_concludeSession; try done.
Qed.

Lemma resolved_name obj w volume claimName claimUID mountPath :
  resolveAuthSessionVolume obj w = inr (VolumeResolved volume claimName claimUID mountPath) → adv_Name volume = sessionVolume obj.
Proof.
  unfold resolveAuthSessionVolume. destruct (getDataVolume _ _ w) as [e|v] eqn:E; [by case_match|].
  apply getDataVolume_name in E as [_ Hn]. intros Hr.
  assert (volume = v) as ->; [|done]. revert Hr. destruct (_ || _); [done|]. destruct (bool_decide _); [done|]. destruct (_ && _); [done|].
  destruct (_ || _); [done|]. destruct (getClaim _ _ w) as [e|pvc]; [by destruct (IsNotFound e)|].
  destruct (negb _); [done|]. destruct (negb _); [done|]. by intros [= <-].
Qed.

Lemma wp_reconcileSession ns n clock w :
  wp (reconcileSession options ns n clock) (λ _ w', maint W w' = maint W w ∨
    ∃ obj, mt_sessions (maint W w) !! (ns, n) = Some obj ∧ aas_key obj = (ns, n)
      ∧ (sessionOpen obj ∨ aut_ObservedGeneration (aas_Status obj) ≠ aas_Generation obj)
      ∧ sessionEffect obj (maint W w) (maint W w')) w.
Proof.
  unfold reconcileSession. apply wp_bind, wp_try, wp_read. destruct (getAuthSession ns n w) as [e|obj] eqn:E.
  { case_match; by left. }
  apply getAuthSession_ok in E as [Hk Hkey]. case_match; [by left|]. destruct (_ && _) eqn:Et; [by left|].
  assert (mt_sessions (maint W w) !! aas_key obj = Some obj) as Hk' by by rewrite Hkey.
  eapply (wp_mono _ (λ _ w', sessionEffect obj (maint W w) (maint W w'))).
  2: { intros x w' He. right. exists obj. split_and!; try done.
       apply andb_false_iff in Et as [Et|Et%Z.eqb_neq]; [left; by apply sessionOpen_exact|by right]. }
  pose proof (underway_refl obj (maint W w)) as Hu. unfold reconcileLiveSession.
  destruct (validateAgentAuthSessionSpec obj) as [message|] eqn:Ev; [by apply wp_failSession|].
  apply wp_bind, wp_read. destruct (resolveAuthSessionVolume obj w) as [e|resolved] eqn:Er; [by apply underway_effect|].
  destruct resolved as [reason message|volume claimName claimUID reason message|volume claimName claimUID mountPath];
    [by apply wp_failSession|by apply wp_waitSession|]. apply resolved_name in Er.
  apply wp_bind, wp_read. destruct (stagingError obj w) as [[reason e]|]; [by apply wp_failSession|]. by apply wp_guardSession.
Qed.

(** C17: a reconciliation of a session leaves the Secrets alone, or its Job has succeeded,
    it is a reauthentication, and then: only the bootstrap Secret it names, which no
    ExternalSecret manages, and the staging Secret labelled for it change; the
    bootstrap Secret is given the staged credentials and the seed and keeps its other
    data. *)
Theorem secrets_confined ns n clock (w w' : W) x :
  reconcileSession options ns n clock w = (w', x) →
  let before := mt_secrets (maint W w) in
  let after := mt_secrets (maint W w') in
  after = before
  ∨ ∃ obj, mt_sessions (maint W w) !! (ns, n) = Some obj ∧ reauths obj = true
     ∧ jobSucceeded (maint W w') (ns, agentRunChildName ["auth"; n])
     ∧ (∀ k s, before !! k = Some s →
          after !! k = Some s ∨ k = bootstrapKey obj ∧ secretManagedByExternalSecret s = false
          ∨ k = stagingKey obj ∧ stagedFor obj s)
     ∧ (∀ k s, after !! k = Some s → before !! k = Some s ∨ k = bootstrapKey obj
          ∧ ∃ layout staging, agentAuthLayout (aus_Provider (aas_Spec obj)) = inr layout
          ∧ before !! stagingKey obj = Some staging
          ∧ scr_Data s = <[lay_SeedSecretKey layout := TrimSpace (aus_SeedID (aas_Spec obj))]>
              (<[firstNonEmpty [TrimSpace (aus_BootstrapSecretKey (aas_Spec obj)); lay_DefaultBootstrapKey layout]
                   := default "" (scr_Data staging !! lay_AuthEnvKey layout)]>
                 (default ∅ (scr_Data <$> before !! k)))).
Proof.
  intros E before after. subst before after.
  destruct (wp_elim _ _ _ _ _ (wp_reconcileSession ns n clock w) E) as [->|(obj & Hk & Hkey & _ & m1 & secrets & Hg & _ & Hsec & Hm)].
  { by left. }
  assert (mt_secrets (maint W w') = secrets ∧ mt_jobs (maint W w') = mt_jobs m1) as [-> Hjobs].
  { by destruct Hm as [->|(s' & _ & _ & _ & ->)]. }
  destruct Hsec as [->|(Hr & Hj & between & Hs & Hc)]; [by left|]. right. exists obj. split_and!; try done.
  { unfold jobSucceeded. rewrite Hjobs. unfold sessionJobKey in Hj. injection Hkey as <- <-. done. }
  - intros k s Hs0. destruct (decide (k = bootstrapKey obj)) as [->|Hne].
    + destruct Hs as [->|(layout & staging & s' & _ & _ & -> & _ & Hb)]; [|by right; left; split; [|eapply Hb]].
      destruct Hc as [->|(t & Ht & Hst & ->)]; [by left|].
      destruct (decide (bootstrapKey obj = stagingKey obj)) as [E'|E']; [|left; by rewrite lookup_delete_ne].
      right; right. split; [done|]. rewrite E' in Hs0. congruence.
    + assert (between !! k = Some s) as Hb.
      { destruct Hs as [->|(layout & staging & s' & _ & _ & -> & _)]; [done|]. by rewrite lookup_insert_ne. }
      destruct Hc as [->|(t & Ht & Hst & ->)]; [by left|].
      destruct (decide (k = stagingKey obj)) as [->|]; [|left; by rewrite lookup_delete_ne].
      right; right. split; [done|]. congruence.
  - intros k s Hs0. assert (between !! k = Some s) as Hb.
    { destruct Hc as [->|(t & _ & _ & ->)]; [done|]. by apply lookup_delete_Some in Hs0 as [_ ?]. }
    destruct Hs as [->|(layout & staging & s' & Hl & Hst & -> & Hd & _)]; [by left|].
    apply lookup_insert_Some in Hb as [[<- <-]|[_ ?]]; [|by left]. right. split; [done|]. by exists layout, staging.
Qed.
End sessions.

(** ** Exclusion *)

(** The copies share a volume. *)
Definition conflicting (c c' : AgentDataVolumeCopy) : Prop :=
  adc_Namespace c = adc_Namespace c' ∧ sharing c c'.
Definition rivals (s s' : AgentAuthSession) : Prop :=
  aas_Namespace s = aas_Namespace s' ∧ sessionVolume s = sessionVolume s'.

Definition sessionCreated (s : AgentAuthSession) : Time := meta_CreationTimestamp (aas_ObjectMeta s).

(** UIDs are not shared, and objects are stored under their names. *)
Record identified (m : Maint) : Prop := mkIdentified {
  id_copy_key k c : mt_copies m !! k = Some c → adc_key c = k;
  id_session_key k s : mt_sessions m !! k = Some s → aas_key s = k;
  id_copies k k' c c' : mt_copies m !! k = Some c → mt_copies m !! k' = Some c' → adc_UID c = adc_UID c' → k = k';
  id_sessions k k' s s' : mt_sessions m !! k = Some s → mt_sessions m !! k' = Some s' → aas_UID s = aas_UID s' → k = k';
  id_cross k k' c s : mt_copies m !! k = Some c → mt_sessions m !! k' = Some s → adc_UID c ≠ aas_UID s }.

(** The invariant.  An ended object has recorded its generation, so it is not taken
    up again; open copies that share a volume do not both own Jobs; a session owns no
    Job while one of its volume that was created in an earlier second is open. *)
Record orderly (m : Maint) : Prop := mkOrderly {
  od_identified : identified m;
  od_copy_ended k c : mt_copies m !! k = Some c → copyOpen c ∨ dct_ObservedGeneration (adc_Status c) = adc_Generation c;
  od_session_ended k s : mt_sessions m !! k = Some s → sessionOpen s ∨ aut_ObservedGeneration (aas_Status s) = aas_Generation s;
  od_copies k k' c c' : mt_copies m !! k = Some c → mt_copies m !! k' = Some c' → k ≠ k' →
    copyOpen c → copyOpen c' → conflicting c c' → hasJob m (adc_UID c) → ¬ hasJob m (adc_UID c');
  od_sessions k k' s s' : mt_sessions m !! k = Some s → mt_sessions m !! k' = Some s' →
    sessionOpen s → sessionOpen s' → rivals s s' → sessionCreated s < sessionCreated s' → ¬ hasJob m (aas_UID s') }.

(** What others do: they create and delete copies and sessions, but write neither
    their specs, which are immutable, nor their statuses; no Job appears in the name
    of a copy or session; the clock of the server does not go back: a new session is
    not created in an earlier second than one that exists.  Runs, volumes, Secrets and
    the status of Jobs change freely. *)
Record others (m m' : Maint) : Prop := mkOthers {
  ot_identified : identified m';
  ot_copies k c : mt_copies m' !! k = Some c → mt_copies m !! k = Some c
    ∨ mt_copies m !! k = None ∧ copyOpen c ∧ ¬ hasJob m' (adc_UID c);
  ot_sessions k s : mt_sessions m' !! k = Some s → mt_sessions m !! k = Some s
    ∨ mt_sessions m !! k = None ∧ sessionOpen s ∧ (¬ hasJob m' (aas_UID s))
      ∧ ∀ k' t, mt_sessions m !! k' = Some t → sessionCreated t <= sessionCreated s;
  ot_jobs uid : hasJob m' uid → hasJob m uid
    ∨ (∀ k c, mt_copies m' !! k = Some c → adc_UID c ≠ uid) ∧ (∀ k s, mt_sessions m' !! k = Some s → aas_UID s ≠ uid) }.

Lemma copies_conflict_sym c c' : conflicting c c' → conflicting c' c.
Proof. intros [? (v & ? & ?)]. split; [done|]. by exists v. Qed.

(** A version of a copy stands for the copy in everything but its phase. *)
Lemma sameCopy_conflicting c c' d : sameCopy c c' → conflicting c' d ↔ conflicting c d.
Proof.
  intros ([= Hns Hn] & _ & _ & Hs). unfold conflicting, sharing, copySourceName, copyDestinationName. rewrite Hs.
  unfold adc_Namespace in *. by rewrite Hns.
Qed.

Lemma orderly_others m m' : orderly m → others m m' → orderly m'.
Proof.
  intros Ho Ht. split; [apply (ot_identified _ _ Ht)| | | |].
  - intros k c [Hc|(_&?&_)]%(ot_copies _ _ Ht); [by eapply od_copy_ended|by left].
  - intros k s [Hs|(_&?&_)]%(ot_sessions _ _ Ht); [by eapply od_session_ended|by left].
  - intros k k' c c' Hk Hk' Hne Hc Hc' Hcf Hj Hj'.
    destruct (ot_jobs _ _ Ht _ Hj) as [G|[G _]]; [|exact (G _ _ Hk eq_refl)].
    destruct (ot_jobs _ _ Ht _ Hj') as [G'|[G' _]]; [|exact (G' _ _ Hk' eq_refl)].
    apply (ot_copies _ _ Ht) in Hk as [Hk|(_&_&[]%(λ f, f Hj))]. apply (ot_copies _ _ Ht) in Hk' as [Hk'|(_&_&[]%(λ f, f Hj'))].
    by apply (od_copies _ Ho k k' c c').
  - intros k k' s s' Hk Hk' Hs Hs' Hr Hp Hj. destruct (ot_jobs _ _ Ht _ Hj) as [G|[_ G]]; [|exact (G _ _ Hk' eq_refl)].
    apply (ot_sessions _ _ Ht) in Hk' as [Hk'|(_&_&[]%(λ f, f Hj)&_)].
    apply (ot_sessions _ _ Ht) in Hk as [Hk|(_&_&_&Hnew)]; [by apply (od_sessions _ Ho k k' s s')|].
    specialize (Hnew k' s' Hk'). lia.
Qed.

(** Jobs of one object are added, versions of it are stored. *)
Lemma hasJob_grown uid (P : Job → Prop) m m' uid' :
  jobsGrown P m m' → (∀ j, P j → jobOf uid j) → hasJob m' uid' → hasJob m uid' ∨ uid' = uid.
Proof.
  intros (_&_&_&_&_&Hnew) HP (k & j & Hk & Ho). apply Hnew in Hk as [Hk|[_ Hp%HP]]; [left; by exists k, j|].
  right. destruct Ho as (o & E & <-), Hp as (o' & E' & <-). congruence.
Qed.
Lemma hasJob_jobs m m' uid : mt_jobs m' = mt_jobs m → hasJob m' uid → hasJob m uid.
Proof. unfold hasJob. by intros ->. Qed.

(** The copies after a reconciliation: those before, with a version of one of them. *)
Lemma copy_versions m m1 obj m' k c :
  mt_copies m1 = mt_copies m → mt_copies m !! adc_key obj = Some obj →
  (m' = m1 ∨ ∃ c', sameCopy obj c' ∧ dct_ObservedGeneration (adc_Status c') = adc_Generation obj ∧ m' = putCopy c' m1) →
  mt_copies m' !! k = Some c → mt_copies m !! k = Some c
    ∨ k = adc_key obj ∧ sameCopy obj c ∧ dct_ObservedGeneration (adc_Status c) = adc_Generation obj.
Proof.
  intros E Hk [->|(c' & Hs & Hg & ->)]; [rewrite E; by left|]. cbn. rewrite (proj1 Hs), E.
  intros [[<- <-]|[_ ?]]%lookup_insert_Some; [by right|by left].
Qed.
Lemma session_versions m m1 obj m' k s :
  mt_sessions m1 = mt_sessions m → mt_sessions m !! aas_key obj = Some obj →
  (m' = m1 ∨ ∃ s', sameSession obj s' ∧ aut_ObservedGeneration (aas_Status s') = aas_Generation obj ∧ m' = putSession s' m1) →
  mt_sessions m' !! k = Some s → mt_sessions m !! k = Some s
    ∨ k = aas_key obj ∧ sameSession obj s ∧ aut_ObservedGeneration (aas_Status s) = aas_Generation obj.
Proof.
  intros E Hk [->|(s' & Hs & Hg & ->)]; [rewrite E; by left|]. cbn. rewrite (proj1 Hs), E.
  intros [[<- <-]|[_ ?]]%lookup_insert_Some; [by right|by left].
Qed.

(** Versions keep the identities. *)
Lemma identified_versions m m' :
  identified m →
  (∀ k c', mt_copies m' !! k = Some c' → ∃ c, mt_copies m !! k = Some c ∧ adc_key c' = adc_key c ∧ adc_UID c' = adc_UID c) →
  (∀ k s', mt_sessions m' !! k = Some s' → ∃ s, mt_sessions m !! k = Some s ∧ aas_key s' = aas_key s ∧ aas_UID s' = aas_UID s) →
  identified m'.
Proof.
  intros Hi Hc Hs. split.
  - intros k c (c0 & Hk & -> & _)%Hc. by apply (id_copy_key _ Hi).
  - intros k s (s0 & Hk & -> & _)%Hs. by apply (id_session_key _ Hi).
  - intros k k' c c' (c0 & Hk & _ & ->)%Hc (c0' & Hk' & _ & ->)%Hc. by apply (id_copies _ Hi).
  - intros k k' s s' (s0 & Hk & _ & ->)%Hs (s0' & Hk' & _ & ->)%Hs. by apply (id_sessions _ Hi).
  - intros k k' c s (c0 & Hk & _ & ->)%Hc (s0 & Hk' & _ & ->)%Hs. by apply (id_cross _ Hi k k').
Qed.

(** A copy whose volumes are free has no open rival. *)
Lemma alone_conflict m k k' d d' obj :
  identified m → mt_copies m !! adc_key obj = Some obj → copyFree obj m → mt_copies m !! k = Some d →
  mt_copies m !! k' = Some d' → k ≠ k' → adc_UID d = adc_UID obj → copyOpen d' → conflicting d d' ∨ conflicting d' d → False.
Proof.
  intros Hi Hobj Hf Hd Hd' Hne Hu Ho Hc. assert (k = adc_key obj) as -> by (by apply (id_copies _ Hi _ _ _ _ Hd Hobj)).
  assert (d = obj) as -> by congruence. assert (conflicting obj d') as [Hns Hsh] by (destruct Hc; [done|by apply copies_conflict_sym]).
  apply (cf_alone _ _ Hf k' d'); [done..| |done|done]. intros Hn. apply Hne.
  rewrite <- (id_copy_key _ Hi _ _ Hd'). unfold adc_key. by rewrite Hns, Hn.
Qed.

(** A reconciliation of a copy keeps the invariant. *)
Lemma orderly_copy {W} `{Client W, VolumeClient W, Workloads W, Maintenance W, !MaintenanceLaws W} (w0 : W) m m' obj :
  orderly m → mt_copies m !! adc_key obj = Some obj →
  (copyOpen obj ∨ dct_ObservedGeneration (adc_Status obj) ≠ adc_Generation obj) → copyEffect w0 obj m m' → orderly m'.
Proof.
  intros Ho Hobj Hop (m1 & Hg & Hf & Hm). pose proof (od_identified _ Ho) as Hi.
  assert (copyOpen obj) as Hopen by (destruct Hop; [done|]; by destruct (od_copy_ended _ Ho _ _ Hobj)).
  assert (m' = m1 ∨ ∃ c', sameCopy obj c' ∧ dct_ObservedGeneration (adc_Status c') = adc_Generation obj ∧ m' = putCopy c' m1) as Hm'
    by (destruct Hm as [?|(c' & ? & ? & _ & ?)]; [by left|right; by exists c']).
  assert (mt_sessions m' = mt_sessions m) as Hs by (destruct Hg as (_&E&_), Hm' as [->|(?&_&_&->)]; done).
  assert (mt_jobs m' = mt_jobs m1) as Hjobs by (destruct Hm' as [->|(?&_&_&->)]; done).
  assert (∀ k c, mt_copies m' !! k = Some c → mt_copies m !! k = Some c
    ∨ k = adc_key obj ∧ sameCopy obj c ∧ dct_ObservedGeneration (adc_Status c) = adc_Generation obj) as Hv.
  { intros k c. by apply (copy_versions m m1 obj); [apply Hg| |]. }
  assert (∀ uid, hasJob m' uid → hasJob m uid ∨ uid = adc_UID obj ∧ copyFree obj m) as Hj.
  { intros uid Hj%(hasJob_jobs _ _ _ Hjobs). destruct Hf as [Hf|Hf]; [left; by apply (hasJob_jobs _ _ _ Hf)|].
    destruct (hasJob_grown (adc_UID obj) _ _ _ _ Hg (λ j Hp, proj1 Hp) Hj); auto. }
  clear Hm Hm' Hf Hjobs. split.
  - apply (identified_versions m); [done| |rewrite Hs; eauto].
    intros k c [?|(-> & (? & ? & _) & _)]%Hv; eauto.
  - intros k c [?|(-> & (_ & _ & -> & _) & ?)]%Hv; [by eapply od_copy_ended|by right].
  - rewrite Hs. apply (od_session_ended _ Ho).
  - assert (∀ k c, mt_copies m' !! k = Some c → copyOpen c → ∃ c0, mt_copies m !! k = Some c0 ∧ copyOpen c0
              ∧ adc_UID c = adc_UID c0 ∧ adc_Spec c = adc_Spec c0 ∧ adc_Namespace c = adc_Namespace c0) as Hrep.
    { intros k c [?|(-> & (Hk & Hu & _ & Hsp) & _)]%Hv Hc; [by exists c|]. exists obj. injection Hk as ? ?. done. }
    intros k k' c c' Hk Hk' Hne Hc Hc' Hcf Hjc Hjc'.
    destruct (Hrep _ _ Hk Hc) as (d & Hd & Hod & Hud & Hsd & Hnd), (Hrep _ _ Hk' Hc') as (d' & Hd' & Hod' & Hud' & Hsd' & Hnd').
    rewrite Hud in Hjc. rewrite Hud' in Hjc'.
    assert (conflicting d d') as Hcd.
    { destruct Hcf as [E1 E2]. split; [congruence|]. revert E2. unfold sharing, copySourceName, copyDestinationName. by rewrite Hsd, Hsd'. }
    clear Hud Hud' Hsd Hsd' Hnd Hnd' Hk Hk' Hc Hc' Hcf c c'.
    destruct (Hj _ Hjc) as [G|[Hu Hfree]], (Hj _ Hjc') as [G'|[Hu' Hfree']].
    + by apply (od_copies _ Ho k k' d d').
    + apply (alone_conflict m k' k d' d obj); auto.
    + apply (alone_conflict m k k' d d' obj); auto.
    + apply (alone_conflict m k k' d d' obj); auto.
  - rewrite Hs. intros k k' s s' Hk Hk' Hos Hos' Hr Hp [Hj'|[Hu _]]%Hj; [by apply (od_sessions _ Ho k k' s s')|].
    by apply (id_cross _ Hi _ _ _ _ Hobj Hk').
Qed.

(** A reconciliation of a session keeps the invariant. *)
Lemma orderly_session m m' obj :
  orderly m → mt_sessions m !! aas_key obj = Some obj →
  (sessionOpen obj ∨ aut_ObservedGeneration (aas_Status obj) ≠ aas_Generation obj) → sessionEffect obj m m' → orderly m'.
Proof.
  intros Ho Hobj Hop (m1 & secrets & Hg & Hf & _ & Hm). pose proof (od_identified _ Ho) as Hi.
  assert (sessionOpen obj) as Hopen by (destruct Hop; [done|]; by destruct (od_session_ended _ Ho _ _ Hobj)).
  assert (mt_copies m' = mt_copies m) as Hc by (destruct Hg as (E&_), Hm as [->|(?&_&_&_&->)]; done).
  assert (mt_jobs m' = mt_jobs m1) as Hjobs by (destruct Hm as [->|(?&_&_&_&->)]; done).
  assert (∀ k s, mt_sessions m' !! k = Some s → mt_sessions m !! k = Some s
    ∨ k = aas_key obj ∧ sameSession obj s ∧ aut_ObservedGeneration (aas_Status s) = aas_Generation obj) as Hv.
  { intros k s. eapply (session_versions m (m1 <| mt_secrets := secrets |>) obj); [by destruct Hg as (_&E&_)|done|].
    destruct Hm as [?|(s' & ? & ? & _ & ?)]; [by left|right; by exists s']. }
  assert (∀ uid, hasJob m' uid → hasJob m uid ∨ uid = aas_UID obj ∧ sessionFree obj m) as Hj.
  { intros uid Hj%(hasJob_jobs _ _ _ Hjobs). destruct Hf as [Hf|Hf]; [left; by apply (hasJob_jobs _ _ _ Hf)|].
    destruct (hasJob_grown (aas_UID obj) _ _ _ _ Hg (λ j Hp, proj1 Hp) Hj); auto. }
  clear Hm Hf Hjobs. split.
  - apply (identified_versions m); [done|rewrite Hc; eauto|]. intros k s [?|(-> & (? & ? & _) & _)]%Hv; eauto.
  - rewrite Hc. apply (od_copy_ended _ Ho).
  - intros k s [?|(-> & (_ & _ & -> & _) & ?)]%Hv; [by eapply od_session_ended|by right].
  - rewrite Hc. intros k k' c c' Hk Hk' Hne Hoc Hoc' Hcf [Hjc|[Hu _]]%Hj [Hjc'|[Hu' _]]%Hj.
    + by apply (od_copies _ Ho k k' c c').
    + by apply (id_cross _ Hi _ _ _ _ Hk' Hobj).
    + by apply (id_cross _ Hi _ _ _ _ Hk Hobj).
    + by apply (id_cross _ Hi _ _ _ _ Hk Hobj).
  - assert (∀ k s, mt_sessions m' !! k = Some s → sessionOpen s → ∃ t, mt_sessions m !! k = Some t ∧ sessionOpen t
              ∧ aas_key s = aas_key t ∧ aas_UID s = aas_UID t ∧ aas_Spec s = aas_Spec t
              ∧ meta_CreationTimestamp (aas_ObjectMeta s) = meta_CreationTimestamp (aas_ObjectMeta t)) as Hrep.
    { intros k s [?|(-> & (Hk & Hu & _ & Hsp & Ht) & _)]%Hv Hs; [by exists s|by exists obj]. }
    intros k k' s s' Hk Hk' Hos Hos' [Hns Hvol] Hp Hjs.
    destruct (Hrep _ _ Hk Hos) as (t & Ht & Hot & [= Hnt Hnmt] & Hut & Hst & Htt),
             (Hrep _ _ Hk' Hos') as (t' & Ht' & Hot' & [= Hnt' Hnmt'] & Hut' & Hst' & Htt').
    assert (sessionCreated t < sessionCreated t') as Hp' by (unfold sessionCreated in *; by rewrite <- Htt, <- Htt').
    rewrite Hut' in Hjs.
    assert (rivals t t') as Hr.
    { split; [congruence|]. revert Hvol. unfold sessionVolume. by rewrite Hst, Hst'. }
    destruct (Hj _ Hjs) as [G|[Hu Hfree]]; [by apply (od_sessions _ Ho k k' t t')|].
    assert (k' = aas_key obj) as -> by (by apply (id_sessions _ Hi _ _ _ _ Ht' Hobj)). assert (t' = obj) as -> by congruence.
    destruct (decide (aas_UID t = aas_UID obj)) as [E|E].
    + assert (k = aas_key obj) as -> by (by apply (id_sessions _ Hi _ _ _ _ Ht Hobj)). assert (t = obj) as -> by congruence.
      lia.
    + destruct Hr. assert (sessionPrecedes t obj = false) as Hf by by eapply (sf_first _ _ Hfree k t).
      unfold sessionPrecedes, Before in Hf. apply orb_false_iff in Hf as [Hf%Z.ltb_ge _]. unfold sessionCreated in Hp'. lia.
Qed.

Section system.
Context {W : Type} `{Client W, VolumeClient W, Workloads W, Maintenance W, !MaintenanceLaws W, Conditions, Quantities}.
Context (options : option Options).

(** One reconciliation of a copy or a session, or what others do. *)
Inductive maintStep : W → W → Prop :=
  | step_copy ns n clock w w' x : reconcileCopy ns n clock w = (w', x) → maintStep w w'
  | step_session ns n clock w w' x : reconcileSession options ns n clock w = (w', x) → maintStep w w'
  | step_others w w' : others (maint W w) (maint W w') → maintStep w w'.

Lemma step_orderly w w' : orderly (maint W w) → maintStep w w' → orderly (maint W w').
Proof.
  intros Ho Hstep. revert Ho. destruct Hstep as [ns n clock w1 w2 x E|ns n clock w1 w2 x E|w1 w2 Ht]; intros Ho.
  - destruct (wp_elim _ _ _ _ _ (wp_reconcileCopy w1 ns n clock) E) as [->|(obj & Hk & Hkey & Hop & He)]; [done|].
    rewrite <- Hkey in Hk. by eapply orderly_copy.
  - destruct (wp_elim _ _ _ _ _ (wp_reconcileSession options ns n clock w1) E) as [->|(obj & Hk & Hkey & Hop & He)]; [done|].
    rewrite <- Hkey in Hk. by eapply orderly_session.
  - by eapply orderly_others.
Qed.
Lemma steps_orderly w w' : orderly (maint W w) → rtc maintStep w w' → orderly (maint W w').
Proof. intros Ho Hs. revert Ho. induction Hs as [|w w1 w2 Hstep _ IH]; [done|]. intros Ho. by apply IH, (step_orderly w). Qed.

Lemma orderly_empty m : mt_copies m = ∅ → mt_sessions m = ∅ → orderly m.
Proof. intros Ec Es. split; [split|..]; rewrite ?Ec, ?Es; intros *; by rewrite ?lookup_empty. Qed.

(** The session came first: in an earlier second, or in the same one with the smaller
    name. *)
Definition cameFirst (s s' : AgentAuthSession) : Prop :=
  sessionCreated s < sessionCreated s' ∨ sessionCreated s = sessionCreated s' ∧ strLt (aas_Name s) (aas_Name s') = true.

(** A session is given its Job only when no open one of its volume came first. *)
Lemma first_job ns n clock w w' x k k' s s' :
  orderly (maint W w) → reconcileSession options ns n clock w = (w', x) →
  mt_sessions (maint W w) !! k = Some s → mt_sessions (maint W w) !! k' = Some s' → k ≠ k' →
  sessionOpen s → rivals s s' → ¬ hasJob (maint W w) (aas_UID s') → hasJob (maint W w') (aas_UID s') → ¬ cameFirst s s'.
Proof.
  intros Ho E Hs Hs' Hne Hop [Hns Hvol] Hn Hj. pose proof (od_identified _ Ho) as Hi.
  destruct (wp_elim _ _ _ _ _ (wp_reconcileSession options ns n clock w) E)
    as [Hm|(obj & Hk & Hkey & _ & m1 & secrets & Hg & Hf & _ & Hm)]; [by rewrite Hm in Hj|].
  assert (hasJob m1 (aas_UID s')) as Hj1 by (by destruct Hm as [Hm|(?&_&_&_&Hm)]; rewrite Hm in Hj).
  destruct Hf as [Hf|Hf]; [by destruct Hn; apply (hasJob_jobs _ _ _ Hf)|].
  destruct (hasJob_grown (aas_UID obj) _ _ _ _ Hg (λ j Hp, proj1 Hp) Hj1) as [|Hu]; [done|].
  assert (k' = (ns, n)) as -> by (by apply (id_sessions _ Hi _ _ _ _ Hs' Hk)).
  assert (Some s' = Some obj) as [= ->] by exact (eq_trans (eq_sym Hs') Hk).
  assert (sessionPrecedes s obj = false) as Hp.
  { apply (sf_first _ _ Hf k s); try done. intros Hus. apply Hne. by apply (id_sessions _ Hi _ _ _ _ Hs Hk). }
  unfold sessionPrecedes, Before in Hp. apply orb_false_iff in Hp as [Hp1%Z.ltb_ge Hp2].
  unfold cameFirst, sessionCreated. intros [?|[Et Hlt]]; [lia|]. by rewrite bool_decide_eq_true_2, Hlt in Hp2.
Qed.

(** C9: two open copies that share a volume never both own Jobs, and neither do two open
    sessions of one volume that were created in different seconds: over all sequences of
    reconciliations of copies and sessions, in which any call can fail, also after it
    took effect, and of what others do, from a server without copies and sessions.  And
    a reconciliation gives a session its Job only when no open one of its volume came
    first, by creation time and then by name. *)
Theorem maintenance_exclusive w w' :
  mt_copies (maint W w) = ∅ → mt_sessions (maint W w) = ∅ → rtc maintStep w w' →
  let m := maint W w' in
  (∀ k k' c c', mt_copies m !! k = Some c → mt_copies m !! k' = Some c' → k ≠ k' → copyOpen c → copyOpen c' →
     conflicting c c' → ¬ (hasJob m (adc_UID c) ∧ hasJob m (adc_UID c')))
  ∧ (∀ k k' s s', mt_sessions m !! k = Some s → mt_sessions m !! k' = Some s' → sessionOpen s → sessionOpen s' →
     rivals s s' → sessionCreated s ≠ sessionCreated s' → ¬ (hasJob m (aas_UID s) ∧ hasJob m (aas_UID s')))
  ∧ (∀ ns n clock w'' x k k' s s', reconcileSession options ns n clock w' = (w'', x) →
     mt_sessions m !! k = Some s → mt_sessions m !! k' = Some s' → k ≠ k' → sessionOpen s → rivals s s' →
     ¬ hasJob m (aas_UID s') → hasJob (maint W w'') (aas_UID s') → ¬ cameFirst s s').
Proof.
  intros Ec Es Hsteps m. assert (orderly m) as Ho by (eapply steps_orderly; [by apply orderly_empty|done]). split_and!.
  - intros k k' c c' Hk Hk' Hne Hc Hc' Hcf [Hj Hj']. by apply (od_copies _ Ho k k' c c').
  - intros k k' s s' Hk Hk' Hs Hs' Hr Hne [Hj Hj'].
    destruct (Z.lt_total (sessionCreated s) (sessionCreated s')) as [Hp|[Hp|Hp]]; [|done|].
    + by apply (od_sessions _ Ho k k' s s').
    + apply (od_sessions _ Ho k' k s' s); try done. destruct Hr; split; congruence.
  - intros ns n clock w'' x k k' s s' E. by apply (first_job ns n clock w' w'' x).
Qed.

(** ** Copies that share a volume *)

(** Two open copies over one volume. *)
Definition deadlocked (m : Maint) (k k' : key) : Prop :=
  ∃ c c', mt_copies m !! k = Some c ∧ mt_copies m !! k' = Some c' ∧ adc_key c = k ∧ adc_key c' = k' ∧ k ≠ k'
    ∧ copyOpen c ∧ copyOpen c' ∧ conflicting c c'.
Definition copyFailed (m : Maint) (k : key) : Prop :=
  ∃ c, mt_copies m !! k = Some c ∧ dct_Phase (adc_Status c) = AgentDataVolumeCopyPhaseFailed
    ∧ dct_ObservedGeneration (adc_Status c) = adc_Generation c.

(** The controllers run and others do anything but create, change or delete copies. *)
Inductive undisturbed : W → W → Prop :=
  | calm_copy ns n clock w w' x : reconcileCopy ns n clock w = (w', x) → undisturbed w w'
  | calm_session ns n clock w w' x : reconcileSession options ns n clock w = (w', x) → undisturbed w w'
  | calm_others w w' : mt_copies (maint W w') = mt_copies (maint W w) → undisturbed w w'.

Lemma deadlocked_sym m k k' : deadlocked m k k' → deadlocked m k' k.
Proof. intros (c & c' & ? & ? & ? & ? & ? & ? & ? & ?%copies_conflict_sym). exists c', c. split_and!; try done. Qed.

(** A reconciliation of one of the two fails it, or leaves both open. *)
Lemma deadlocked_copy (w0 : W) m m' obj k' :
  deadlocked m (adc_key obj) k' → mt_copies m !! adc_key obj = Some obj → copyEffect w0 obj m m' →
  deadlocked m' (adc_key obj) k' ∨ copyFailed m' (adc_key obj).
Proof.
  intros (c & c' & Hc & Hc' & _ & Hk' & Hne & Ho & Ho' & Hcf) Hobj (m1 & (Ec & _) & _ & Hm).
  assert (c = obj) as -> by congruence.
  destruct Hm as [->|(t & Hs & Hg & Hok & ->)].
  { left. exists obj, c'. rewrite Ec. done. }
  assert (mt_copies (putCopy t m1) !! adc_key obj = Some t) as Ht by (cbn; rewrite (proj1 Hs); apply lookup_insert_eq).
  destruct (decide (dct_Phase (adc_Status t) = AgentDataVolumeCopyPhaseFailed)) as [E|E].
  { right. exists t. split_and!; [done|done|]. by rewrite Hg, (proj1 (proj2 (proj2 Hs))). }
  left. exists t, c'. split_and!; try done.
  - cbn. rewrite (proj1 Hs), lookup_insert_ne by done. by rewrite Ec.
  - by rewrite (proj1 Hs).
  - intros [Hp|?]; [|done]. destruct (Hok Hp) as [Hfree _]. destruct Hcf as [Hns Hsh].
    apply (cf_alone _ _ Hfree k' c'); [done|done| |done|done]. intros Hn. apply Hne.
    rewrite <- Hk'. unfold adc_key. by rewrite Hns, Hn.
  - by apply (sameCopy_conflicting obj).
Qed.

Lemma deadlocked_step w w' k k' :
  deadlocked (maint W w) k k' ∨ copyFailed (maint W w) k ∨ copyFailed (maint W w) k' → undisturbed w w' →
  deadlocked (maint W w') k k' ∨ copyFailed (maint W w') k ∨ copyFailed (maint W w') k'.
Proof.
  assert (∀ m m', mt_copies m' = mt_copies m →
    deadlocked m k k' ∨ copyFailed m k ∨ copyFailed m k' → deadlocked m' k k' ∨ copyFailed m' k ∨ copyFailed m' k') as Hsame.
  { intros m m' E. unfold deadlocked, copyFailed. by rewrite E. }
  intros Hd Hstep. revert Hd. destruct Hstep as [ns n clock w w' x E|ns n clock w w' x E|w w' E]; [| |by apply Hsame].
  2: { apply Hsame. destruct (wp_elim _ _ _ _ _ (wp_reconcileSession options ns n clock w) E) as [->|(obj & _ & _ & _ & He)]; [done|].
       destruct He as (m1 & secrets & (Ec & _) & _ & _ & [->|(s' & _ & _ & _ & ->)]); done. }
  destruct (wp_elim _ _ _ _ _ (wp_reconcileCopy w ns n clock) E) as [->|(obj & Hk & Hkey & Hop & He)]; [done|].
  rewrite <- Hkey in Hk. clear E Hkey ns n.
  assert (∀ k, adc_key obj ≠ k → mt_copies (maint W w') !! k = mt_copies (maint W w) !! k) as Hother.
  { intros k0 Hne. destruct He as (m1 & (Ec & _) & _ & [->|(c' & Hs & _ & _ & ->)]); [by rewrite Ec|].
    cbn. rewrite (proj1 Hs), lookup_insert_ne by done. by rewrite Ec. }
  assert (∀ k, copyFailed (maint W w) k → copyFailed (maint W w') k) as Hfailed.
  { intros k0 (c & Hc & Hp & Hg). exists c. split_and!; [|done|done]. rewrite Hother; [done|]. intros <-.
    pose proof (eq_trans (eq_sym Hc) Hk) as Hco. injection Hco as ->. destruct Hop as [Ho|]; [|done]. apply Ho. by right. }
  intros [Hd|[?|?]]; [|right; left; by apply Hfailed|right; right; by apply Hfailed].
  destruct (decide (adc_key obj = k)) as [<-|Hne].
  { destruct (deadlocked_copy _ _ _ _ _ Hd Hk He); auto. }
  destruct (decide (adc_key obj = k')) as [<-|Hne'].
  { apply deadlocked_sym in Hd. destruct (deadlocked_copy _ _ _ _ _ Hd Hk He) as [?%deadlocked_sym|]; auto. }
  left. destruct Hd as (c & c' & ? & ? & ?). exists c, c'. by rewrite !Hother.
Qed.

(** C40: two open copies that share a volume wait for each other for ever: whatever the
    controllers do, also when all their Jobs have succeeded, neither is ever marked as
    succeeded unless one of them is failed first. *)
Theorem copies_block_each_other w w' k k' :
  deadlocked (maint W w) k k' → rtc undisturbed w w' →
  deadlocked (maint W w') k k' ∨ copyFailed (maint W w') k ∨ copyFailed (maint W w') k'.
Proof.
  intros Hd Hs. assert (deadlocked (maint W w) k k' ∨ copyFailed (maint W w) k ∨ copyFailed (maint W w) k') as Hor by by left.
  clear Hd. induction Hs as [|w w1 w2 Hstep _ IH]; [done|]. by apply IH, (deadlocked_step w).
Qed.
End system.

(** ** A session and a run that wait for each other *)

Section waiting.
Context {W : Type} `{Client W, VolumeClient W, Workloads W, Maintenance W, !MaintenanceLaws W, Conditions}.
Context (options : option Options).

(** While a session of a volume is open and a run that refers to the volume has not
    ended, neither goes on: the session gets no Job and does not succeed, since it
    counts every such run as active, also one that is still Pending; and the volume is
    refused to the run, since it counts every such session, also one that waits. *)
Theorem session_and_run_wait ns n clock (w w' : W) x s k r application volume :
  mt_sessions (maint W w) !! (ns, n) = Some s → aas_key s = (ns, n) → sessionOpen s →
  mt_runs (maint W w) !! k = Some r → run_Namespace r = ns → usesVolume (sessionVolume s) r = true →
  agentRunIsTerminal (run_Phase r) = false →
  reconcileSession options ns n clock w = (w', x) →
  mt_jobs (maint W w') = mt_jobs (maint W w)
  ∧ (∀ s', mt_sessions (maint W w') !! (ns, n) = Some s' → aut_Phase (aas_Status s') ≠ AgentAuthSessionPhaseSucceeded)
  ∧ volumeAvailable application ns (sessionVolume s) volume w ≠ inr None.
Proof.
  intros Hs Hkey Ho Hr Hns Hu Ht E.
  assert (¬ sessionFree s (maint W w)) as Hnf.
  { intros Hf. injection Hkey as <- <-. apply runOpen_exact in Ht. apply Ht, (sf_idle _ _ Hf k r); [done..|]. by apply usesVolume_exact. }
  assert (aut_Phase (aas_Status s) ≠ AgentAuthSessionPhaseSucceeded) as Hp.
  { intros Hp. apply sessionOpen_exact in Ho. by rewrite Hp in Ho. }
  split_and!.
  - destruct (wp_elim _ _ _ _ _ (wp_reconcileSession options ns n clock w) E) as [->|(obj & Hk & _ & _ & m1 & secrets & Hg & Hf & _ & Hm)]; [done|].
    assert (obj = s) as -> by congruence. destruct Hf as [<-|]; [|done]. by destruct Hm as [->|(s' & _ & _ & _ & ->)].
  - intros s' Hs'. destruct (wp_elim _ _ _ _ _ (wp_reconcileSession options ns n clock w) E) as [Hm|(obj & Hk & _ & _ & m1 & secrets & Hg & _ & _ & Hm)].
    { rewrite Hm, Hs in Hs'. injection Hs' as <-. done. }
    assert (obj = s) as -> by congruence. destruct Hg as (_ & Es & _). destruct Hm as [Hm|(t & Hsame & _ & Hok & Hm)]; rewrite Hm in Hs'; cbn in Hs'.
    + rewrite Es, Hs in Hs'. by injection Hs' as <-.
    + rewrite (proj1 Hsame), Hkey, lookup_insert_eq in Hs'. injection Hs' as <-. by intros ?%Hok.
  - unfold volumeAvailable. destruct (_ && _); [done|]. destruct (negb _); [done|].
    destruct (if _ : bool then _ else _) as [e|[]]; [done| |done]. destruct (bool_decide _); [done|].
    unfold AgentAuthSessionBlocksDataVolume. destruct (listAuthSessions ns w) as [e|l] eqn:El; [done|].
    destruct (find _ l) eqn:Ef; [done|]. exfalso. rewrite find_None in Ef.
    specialize (Ef s ltac:(eapply listAuthSessions_ok; [exact El|exact Hs|by injection Hkey as <- <-])).
    apply sessionOpen_exact in Ho. unfold sessionVolume in Ef. by rewrite bool_decide_eq_true_2, Ho in Ef.
Qed.
End waiting.

(** ** Names *)

(** The Jobs of a copy with a name of 56 to 62 characters have the same name, so that
    the second is never created: [agentRunChildName] cuts what tells them apart. *)
Theorem long_copy_has_one_job name :
  sanitizeDNSLabel name = name → (56 <= String.length name <= 62)%nat →
  agentRunChildName ["vcopy-src"; name] = agentRunChildName ["vcopy-dst"; name].
Proof.
  intros Hs Hl. assert (name ≠ "") as Hne by (intros ->; cbn in Hl; lia). unfold agentRunChildName. cbn [map]. rewrite Hs.
  replace (sanitizeDNSLabel "vcopy-src") with "vcopy-src" by (vm_compute; reflexivity).
  replace (sanitizeDNSLabel "vcopy-dst") with "vcopy-dst" by (vm_compute; reflexivity).
  rewrite !filter_cons_True, filter_nil by done. cbn [Join last default from_option].
  assert ((String.length ("vcopy-src" +:+ "-" +:+ name) <=? 63) = false)%nat as E1
    by (rewrite !length_append; apply Nat.leb_gt; cbn; lia).
  assert ((String.length ("vcopy-dst" +:+ "-" +:+ name) <=? 63) = false)%nat as E2
    by (rewrite !length_append; apply Nat.leb_gt; cbn; lia).
  assert ((String.length name <? 63) = true)%nat as E3 by (apply Nat.ltb_lt; lia). rewrite E1, E2.
  change (id name) with name. rewrite E3.
  assert (63 - String.length name - 1 <= 6)%nat as Hp by lia. revert Hp. generalize (63 - String.length name - 1)%nat. intros p Hp.
  assert (takeStr p ("vcopy-src" +:+ "-" +:+ name) = takeStr p ("vcopy-dst" +:+ "-" +:+ name)) as ->; [|done].
  do 7 (destruct p as [|p]; [reflexivity|]). lia.
Qed.
