(* ===== verification/MaintenanceMem.v ===== *)
(** * An in-memory cluster for volume maintenance

    A concrete server for the controllers of volume copies and auth sessions, with a
    proof that it satisfies the laws of [MaintenanceSafety].  The witnesses run the
    controllers on it, and so do the examples of what the exclusion of [copyFree] and
    [sessionFree] leaves open. *)

From stdpp Require Import base list gmap strings.
From Stdlib Require Import ZArith Lia.
From S2P Require Import Prelude GoStrings GoTime Names ApiRun ApiWork Kube MemKube Fixtures RunControl Merge RunOutput RunBackend RunPayload RunJob ApiVolume ApiMaintenance DataVolumes RunLaunch RunPreflight RunObserve VolumeCopy AuthSession MaintenanceSafety.

Open Scope Z_scope.

(** [mw_deaf]: the server refuses patches of the status. *)
Record MaintWorld := mkMaintWorld {
  mw_view : Maint;
  mw_volumes : gmap key AgentDataVolume;
  mw_claims : gmap key PersistentVolumeClaim;
  mw_disks : gmap string PersistentVolume;
  mw_services : gmap key Service;
  mw_next : nat;
  mw_deaf : bool }.
#[export] Instance eta_MaintWorld : Eta MaintWorld := λ w, mkMaintWorld
  (mw_view w) (mw_volumes w) (mw_claims w) (mw_disks w) (mw_services w) (mw_next w) (mw_deaf w).

(** Runs without a name are not visible. *)
Definition mw_maint (w : MaintWorld) : Maint :=
  (mw_view w) <| mt_runs := filter (λ kr, blank (run_Name kr.2) = false) (mt_runs (mw_view w)) |>.
Definition onView (f : Maint → Maint) (w : MaintWorld) : MaintWorld :=
  w <| mw_view := f (mw_view w) |> <| mw_next := S (mw_next w) |>.

Definition adv_key (v : AgentDataVolume) : key := (adv_Namespace v, adv_Name v).
(** An object that is stored under its own name. *)
Definition at_key {A} (keyOf : A → key) (objects : gmap key A) (what ns n : string) : GoErr + A :=
  found what (a ← objects !! (ns, n); if bool_decide (keyOf a = (ns, n)) then Some a else None).
Definition exists_ {A} : GoErr + A := inl (ErrApi ReasonAlreadyExists "already exists").
Definition unavailable {A} : GoErr + A := inl (ErrApi ReasonOther "unavailable").

#[export] Instance maint_client : Client MaintWorld := {
  getRun ns n w := found "AgentRun" (mt_runs (mw_maint w) !! (ns, n));
  listRuns ns sel w := inr (filter (λ r, selects ns sel r = true) (map snd (map_to_list (mt_runs (mw_maint w)))));
  createRun _ := mfail (notFound "Namespace");
  patchRunOwners _ _ := mfail (notFound "AgentRun");
  getChain _ _ _ := inl (notFound "AgentChain");
  patchChainFinalizers _ _ := mfail (notFound "AgentChain");
  patchChainStatus _ _ := mfail (notFound "AgentChain");
  getSchedule _ _ _ := inl (notFound "AgentSchedule");
  listSchedules _ := inr [];
  patchScheduleStatus _ _ := mfail (notFound "AgentSchedule");
  getControl _ _ := inl (notFound "AgentRunControl");
  listControls _ := inr [];
  patchControlStatus _ _ := mfail (notFound "AgentRunControl");
  getProfile _ _ _ := inl (notFound "AgentRunProfile") }.
#[export] Instance maint_volumes : VolumeClient MaintWorld := {
  getDataVolume ns n w := at_key adv_key (mw_volumes w) "AgentDataVolume" ns n;
  patchDataVolumeStatus _ _ := mfail (notFound "AgentDataVolume");
  getVolumeProfile _ _ _ := inl (notFound "VolumeProfile");
  getClaim ns n w := found "PersistentVolumeClaim" (mw_claims w !! (ns, n));
  createClaim _ := mfail (notFound "Namespace");
  patchClaimRequest _ _ := mfail (notFound "PersistentVolumeClaim");
  getStorageClass _ _ := inl (notFound "StorageClass");
  listAuthSessions ns w := inr (filter (λ s, aas_Namespace s = ns) (map snd (map_to_list (mt_sessions (mw_maint w)))));
  listVolumeCopies ns w := inr (filter (λ c, adc_Namespace c = ns) (map snd (map_to_list (mt_copies (mw_maint w))))) }.

Definition mw_createJob (j : Job) : M MaintWorld GoErr Job := λ w,
  if isSet (mt_jobs (mw_maint w) !! job_key j) then (w, exists_)
  else let stored := storeJob ("job-uid-" +:+ fmtNat (mw_next w)) j in (onView (putJob stored) w, inr stored).
#[export] Instance maint_workloads : Workloads MaintWorld := {
  getJob ns n w := found "Job" (mt_jobs (mw_maint w) !! (ns, n));
  listJobs _ _ _ := inr [];
  createJob := mw_createJob;
  deleteJob _ := mfail (notFound "Job");
  patchJobTTL _ _ := mfail (notFound "Job");
  listPods _ _ _ := inr [];
  readPodLogs _ _ _ := inl (notFound "Pod");
  getConfigMap _ _ _ := inl (notFound "ConfigMap");
  createConfigMap _ := mfail (notFound "Namespace");
  updateConfigMap _ := mfail (notFound "ConfigMap");
  getExternalSecret _ _ _ := inl (notFound "ExternalSecret");
  annotateExternalSecret _ _ := mfail (notFound "ExternalSecret");
  getSituation _ _ _ := inl (notFound "AdverseSituation");
  patchRunStatus _ _ _ _ := mfail (notFound "AgentRun");
  annotateRun _ _ _ := mfail (notFound "AgentRun");
  createGenerated _ _ := mfail (notFound "Namespace");
  deleteRun _ := mfail (notFound "AgentRun") }.

(** A patch of a status replaces it. *)
Definition mw_patchStatus {A} (get : Maint → option A) (put : A → Maint → Maint) : M MaintWorld GoErr unit := λ w,
  if mw_deaf w then (w, unavailable)
  else match get (mw_view w) with
       | None => (w, inl (notFound "object"))
       | Some a => (onView (put a) w, inr tt)
       end.
Definition mw_createVolume (v : AgentDataVolume) : M MaintWorld GoErr AgentDataVolume := λ w,
  if isSet (mw_volumes w !! adv_key v) then (w, exists_)
  else (w <| mw_volumes := <[adv_key v := v]> (mw_volumes w) |>, inr v).
Definition mw_createService (s : Service) : M MaintWorld GoErr Service := λ w,
  if isSet (mw_services w !! svc_key s) then (w, exists_)
  else (w <| mw_services := <[svc_key s := s]> (mw_services w) |>, inr s).
Definition mw_createSecret (s : Secret) : M MaintWorld GoErr unit := λ w,
  if isSet (mt_secrets (mw_view w) !! scr_key s) then (w, exists_) else (onView (putSecret s) w, inr tt).
Definition mw_patchSecret (k : key) (base new : Secret) : M MaintWorld GoErr unit := λ w,
  match mt_secrets (mw_view w) !! k with
  | None => (w, inl (notFound "Secret"))
  | Some s => if bool_decide (scr_key new = scr_key s) then (onView (putSecret new) w, inr tt) else (w, unavailable)
  end.
Definition mw_deleteSecret (k : key) : M MaintWorld GoErr unit := λ w,
  (onView (λ m, m <| mt_secrets := delete k (mt_secrets m) |>) w, inr tt).

#[export] Instance maint_maintenance : Maintenance MaintWorld := {
  getVolumeCopy ns n w := at_key adc_key (mt_copies (mw_view w)) "AgentDataVolumeCopy" ns n;
  patchVolumeCopyStatus k _ s := mw_patchStatus (λ m, mt_copies m !! k) (λ c, putCopy (c <| adc_Status := s |>));
  createDataVolume := mw_createVolume;
  getPersistentVolume n w := found "PersistentVolume" (mw_disks w !! n);
  getService ns n w := found "Service" (mw_services w !! (ns, n));
  createService := mw_createService;
  patchVolumeProfileStatus _ _ _ := mfail (notFound "VolumeProfile");
  getAuthSession ns n w := at_key aas_key (mt_sessions (mw_view w)) "AgentAuthSession" ns n;
  patchAuthSessionStatus k _ s := mw_patchStatus (λ m, mt_sessions m !! k) (λ c, putSession (c <| aas_Status := s |>));
  getSecret ns n w := at_key scr_key (mt_secrets (mw_view w)) "Secret" ns n;
  createSecret := mw_createSecret;
  patchSecret := mw_patchSecret;
  deleteSecret := mw_deleteSecret }.
(** A server that knows no quantities. *)
#[export] Instance maint_quantities : Quantities := {
  ParseQuantity _ := None;
  addQuantity p q := mkQuantity (q_Nano p + q_Nano q) "" }.

(** ** The laws *)

Lemma at_key_inr {A} (keyOf : A → key) objects what ns n a :
  at_key keyOf objects what ns n = inr a → objects !! (ns, n) = Some a ∧ keyOf a = (ns, n).
Proof.
  unfold at_key. intros [b [Hb Hk]]%found_inr%bind_Some. case_bool_decide; [|done]. by injection Hk as ->.
Qed.
Lemma listed_all {A} (f : A → Prop) `{∀ a, Decision (f a)} (objects : gmap key A) k a :
  objects !! k = Some a → f a → a ∈ filter f (map snd (map_to_list objects)).
Proof.
  intros Hk Hf. apply list_elem_of_filter. split; [done|]. apply list_elem_of_fmap. exists (k, a). split; [done|].
  by apply elem_of_map_to_list.
Qed.
Lemma isSet_None {A} (o : option A) : isSet o = false → o = None.
Proof. by destruct o. Qed.

Lemma stored_claims uid j : jobClaims (storeJob uid j) = jobClaims j.
Proof.
  unfold jobClaims. cbn. induction (pod_Volumes _) as [|[n v] vs IH]; [done|].
  cbn [map List.filter]. rewrite IH. by destruct v.
Qed.

#[refine, export] Instance maint_laws : MaintenanceLaws MaintWorld := { maint := mw_maint }.
Proof.
  - intros w k r. cbn. by intros [_ ?]%map_lookup_filter_Some.
  - intros w ns n c Hc. by apply at_key_inr in Hc.
  - intros w ns n s Hs. by apply at_key_inr in Hs.
  - intros w ns l k c [= <-] Hk Hns. by eapply listed_all.
  - intros w ns l k s [= <-] Hk Hns. by eapply listed_all.
  - intros w ns l k r [= <-] Hk Hns. eapply listed_all; [done|]. unfold selects. by rewrite bool_decide_eq_true_2.
  - intros w ns n v Hv. apply at_key_inr in Hv as [_ Hk]. by injection Hk as <- <-.
  - intros w ns n j Hj. by apply found_inr in Hj.
  - intros w ns n s Hs. by apply at_key_inr in Hs.
  - intros w w' k base new x. cbn. unfold mw_patchStatus. destruct (mw_deaf w); [intros [= <- <-]; left; by eauto|].
    destruct (mt_copies (mw_view w) !! k) as [c|] eqn:E; [|intros [= <- <-]; left; by eauto].
    intros [= <- <-]. right. by exists c, (c <| adc_Status := new |>).
  - intros w w' k base new x. cbn. unfold mw_patchStatus. destruct (mw_deaf w); [intros [= <- <-]; left; by eauto|].
    destruct (mt_sessions (mw_view w) !! k) as [c|] eqn:E; [|intros [= <- <-]; left; by eauto].
    intros [= <- <-]. right. by exists c, (c <| aas_Status := new |>).
  - intros w w' v x. cbn. unfold mw_createVolume. case_match; intros [= <- <-]; [done|]. split; [done|]. by intros v' [= <-].
  - intros w w' v x. cbn. unfold mw_createService. by case_match; intros [= <- <-].
  - intros w w' j x. cbn. unfold mw_createJob. destruct (isSet _) eqn:E; [intros [= <- <-]; left; by eauto|].
    set (j' := storeJob _ j). intros E'. injection E' as <- <-. right. exists j'.
    split; [by apply isSet_None|]. split_and!; [reflexivity|reflexivity|apply stored_claims|reflexivity|reflexivity|].
    by intros t [= <-].
  - intros w w' s x. cbn. unfold mw_createSecret. destruct (isSet _) eqn:E; [intros [= <- <-]; by left|].
    intros [= <- <-]. right. exists s. split_and!; [by apply isSet_None|done|done].
  - intros w w' k base new x. cbn. unfold mw_patchSecret.
    destruct (mt_secrets (mw_view w) !! k) as [s|] eqn:E; [|intros [= <- <-]; by left].
    case_bool_decide as Hk; intros [= <- <-]; [right|by left]. by exists s, new.
  - intros w w' k x [= <- <-]. by right.
Defined.

(** ** Objects *)

Definition fx_clock (n : nat) : Time := fx_epoch + Z.of_nat n * Second.
(** A volume that is ready, with its claim and disk. *)
Definition fx_volume (name : string) : AgentDataVolume :=
  mkAgentDataVolume (fx_meta "agents" name ("uid-" +:+ name) fx_epoch ∅) zero_AgentDataVolumeSpec
    (zero_AgentDataVolumeStatus <| dvt_ObservedGeneration := 1 |> <| dvt_Phase := AgentDataVolumePhaseReady |>
       <| dvt_ClaimUID := "claim-uid-" +:+ name |> <| dvt_VolumeName := "disk-" +:+ name |>).
Definition fx_claim (name : string) : PersistentVolumeClaim :=
  mkPersistentVolumeClaim
    ((fx_meta "agents" ("agent-data-" +:+ name) ("claim-uid-" +:+ name) fx_epoch ∅)
       <| meta_OwnerReferences := [mkOwnerReference GroupVersion "AgentDataVolume" name ("uid-" +:+ name) (Some true)] |>)
    [] None None ("disk-" +:+ name) true "Bound" None.
Definition fx_disk : PersistentVolume :=
  mkPersistentVolume (Some [mkNodeSelectorTerm [mkNodeSelectorRequirement "kubernetes.io/hostname" "In" ["node-1"]] []]).

Definition fx_copy (name source destination : string) : AgentDataVolumeCopy :=
  mkAgentDataVolumeCopy (fx_meta "agents" name ("uid-" +:+ name) fx_epoch ∅)
    (zero_AgentDataVolumeCopySpec <| dcs_SourceRef := mkLocalObjectReference source |>
       <| dcs_Destination := zero_AgentDataVolumeCopyDestination <| dcd_Name := destination |>
            <| dcd_NodeSelector := {[ "kubernetes.io/hostname" := "node-2" ]} |> |>)
    zero_AgentDataVolumeCopyStatus.
Definition fx_session (name volume : string) : AgentAuthSession :=
  mkAgentAuthSession (fx_meta "agents" name ("uid-" +:+ name) fx_epoch ∅)
    (zero_AgentAuthSessionSpec <| aus_Provider := AgentAuthSessionProviderCodex |>
       <| aus_Action := AgentAuthSessionActionReauth |> <| aus_DataVolumeRef := mkLocalObjectReference volume |>
       <| aus_StagingSecretRef := Some (mkLocalObjectReference "staged") |>
       <| aus_BootstrapSecretRef := Some (mkLocalObjectReference "codex-seed") |> <| aus_SeedID := "seed-7" |>)
    zero_AgentAuthSessionStatus.
(** The credentials the command line client staged for the session [login]. *)
Definition fx_staged : Secret :=
  mkSecret (fx_meta "agents" "staged" "uid-staged" fx_epoch {[ agentAuthStagingOwnerLabel := "login" ]}) "Opaque"
    {[ "CODEX_AUTH_JSON" := "{}" ]}.
Definition fx_user (volume : string) : AgentRun :=
  fx_run "agents" "triage" fx_epoch ∅
    (zero_AgentRunSpec <| rs_Harness := (rs_Harness zero_AgentRunSpec)
       <| har_Execution := (har_Execution (rs_Harness zero_AgentRunSpec))
            <| ex_DataVolumeRefs := [zero_AgentRunDataVolumeRef <| dvr_Name := volume |>] |> |> |>)
    AgentRunPhasePending.

Definition fx_maint (copies : list AgentDataVolumeCopy) (sessions : list AgentAuthSession) (runs : list AgentRun) : MaintWorld :=
  mkMaintWorld
    (mkMaint (list_to_map (map (λ c, (adc_key c, c)) copies)) (list_to_map (map (λ s, (aas_key s, s)) sessions))
       (list_to_map (map (λ r, (run_key r, r)) runs)) {[ scr_key fx_staged := fx_staged ]} ∅)
    (list_to_map (map (λ n, (("agents", n), fx_volume n)) ["data"; "home"]))
    (list_to_map (map (λ n, (("agents", "agent-data-" +:+ n), fx_claim n)) ["data"; "home"]))
    (list_to_map (map (λ n, ("disk-" +:+ n, fx_disk)) ["data"; "home"])) ∅ 0 false.

Definition copied (name : string) (w : MaintWorld) : MaintWorld := (reconcileCopy "agents" name fx_clock w).1.
Definition sessioned (name : string) (w : MaintWorld) : MaintWorld := (reconcileSession None "agents" name fx_clock w).1.
(** Every Job succeeds. *)
Definition jobsDone (w : MaintWorld) : MaintWorld :=
  onView (λ m, m <| mt_jobs := (λ j, j <| job_Status := mkJobStatus 1 0 [] |>) <$> mt_jobs m |>) w.

Definition hasJobAt (w : MaintWorld) (n : string) : bool := isSet (mt_jobs (maint _ w) !! ("agents", n)).
Definition copyPhase (w : MaintWorld) (n : string) : option string :=
  (λ c, dct_Phase (adc_Status c)) <$> mt_copies (maint _ w) !! ("agents", n).
Definition sessionPhase (w : MaintWorld) (n : string) : option string :=
  (λ s, aut_Phase (aas_Status s)) <$> mt_sessions (maint _ w) !! ("agents", n).

(** ** Witnesses *)

Definition fx_free : MaintWorld := fx_maint [fx_copy "nightly" "data" "data-2"] [fx_session "login" "home"] [].


Lemma secrets_confined_witness :
  let w := jobsDone (sessioned "login" fx_free) in
  let after := mt_secrets (maint _ (sessioned "login" w)) in
  sessionPhase (sessioned "login" w) "login" = Some AgentAuthSessionPhaseSucceeded
  ∧ (scr_Data <$> after !! ("agents", "codex-seed")) ≫= (.!! "CODEX_AUTH_SEED_ID") = Some "seed-7"
  ∧ after !! ("agents", "staged") = None
  ∧ (after = mt_secrets (maint _ w) ∨ ∃ obj, mt_sessions (maint _ w) !! ("agents", "login") = Some obj ∧ reauths obj = true).
Proof.
  intros w after. split_and!; [vm_compute; reflexivity..|].
  destruct (secrets_confined None "agents" "login" fx_clock w _ _ (surjective_pairing _)) as [E|(obj & Ho & Hr & _)].
  - left. exact E.
  - right. exact (ex_intro _ obj (conj Ho Hr)).
Defined.

(** A copy and a session are created. *)
Definition added (c : AgentDataVolumeCopy) (s : AgentAuthSession) (m : Maint) : Maint := putSession s (putCopy c m).
Definition unusedUID (uid : string) (m : Maint) : bool :=
  forallb (λ c, negb (bool_decide (adc_UID c = uid))) (map snd (map_to_list (mt_copies m)))
  && forallb (λ s, negb (bool_decide (aas_UID s = uid))) (map snd (map_to_list (mt_sessions m)))
  && forallb (λ j, match GetControllerOf (job_ObjectMeta j) with
                   | Some o => negb (bool_decide (own_UID o = uid)) | None => true end) (map snd (map_to_list (mt_jobs m))).
Definition notLater (s : AgentAuthSession) (m : Maint) : bool :=
  forallb (λ t, sessionCreated t <=? sessionCreated s) (map snd (map_to_list (mt_sessions m))).

Lemma forallb_stored {A} (f : A → bool) (objects : gmap key A) k a :
  forallb f (map snd (map_to_list objects)) = true → objects !! k = Some a → f a = true.
Proof.
  intros Hf Hk. rewrite forallb_forall in Hf. apply Hf, list_elem_of_In, list_elem_of_fmap. exists (k, a).
  split; [done|]. by apply elem_of_map_to_list.
Qed.

Lemma unused_uid uid m :
  unusedUID uid m = true →
  (∀ k c, mt_copies m !! k = Some c → adc_UID c ≠ uid) ∧ (∀ k s, mt_sessions m !! k = Some s → aas_UID s ≠ uid)
  ∧ ¬ hasJob m uid.
Proof.
  unfold unusedUID. intros [[Hc Hs]%andb_true_iff Hj]%andb_true_iff. split_and!.
  - intros k c Hk. apply (forallb_stored _ _ _ _ Hc) in Hk. by apply negb_true_iff, bool_decide_eq_false in Hk.
  - intros k s Hk. apply (forallb_stored _ _ _ _ Hs) in Hk. by apply negb_true_iff, bool_decide_eq_false in Hk.
  - intros (k & j & Hk & o & Ho & Hu). apply (forallb_stored _ _ _ _ Hj) in Hk. rewrite Ho in Hk.
    by apply negb_true_iff, bool_decide_eq_false in Hk.
Qed.

Lemma identified_added c s m :
  identified m → unusedUID (adc_UID c) m = true → unusedUID (aas_UID s) m = true → adc_UID c ≠ aas_UID s →
  identified (added c s m).
Proof.
  intros Hi (C1 & C2 & _)%unused_uid (S1 & S2 & _)%unused_uid Hne. split; cbn.
  - intros k c' [[<- <-]|[_ Hk]]%lookup_insert_Some; [done|by apply (id_copy_key _ Hi)].
  - intros k s' [[<- <-]|[_ Hk]]%lookup_insert_Some; [done|by apply (id_session_key _ Hi)].
  - intros k k' d d' [[<- <-]|[_ Hk]]%lookup_insert_Some [[<- <-]|[_ Hk']]%lookup_insert_Some E;
      [done|by destruct (C1 _ _ Hk')|by destruct (C1 _ _ Hk)|by apply (id_copies _ Hi _ _ _ _ Hk Hk')].
  - intros k k' t t' [[<- <-]|[_ Hk]]%lookup_insert_Some [[<- <-]|[_ Hk']]%lookup_insert_Some E;
      [done|by destruct (S2 _ _ Hk')|by destruct (S2 _ _ Hk)|by apply (id_sessions _ Hi _ _ _ _ Hk Hk')].
  - intros k k' d t [[<- <-]|[_ Hk]]%lookup_insert_Some [[<- <-]|[_ Hk']]%lookup_insert_Some;
      [done|by apply not_eq_sym, (C2 _ _ Hk')|by apply (S1 _ _ Hk)|by apply (id_cross _ Hi _ _ _ _ Hk Hk')].
Qed.

Lemma others_added c s m :
  identified m → mt_copies m !! adc_key c = None → mt_sessions m !! aas_key s = None → copyOpen c → sessionOpen s →
  unusedUID (adc_UID c) m = true → unusedUID (aas_UID s) m = true → adc_UID c ≠ aas_UID s → notLater s m = true →
  others m (added c s m).
Proof.
  intros Hi Hc Hs Hco Hso Huc Hus Hne Ht. split; [by apply identified_added|..]; cbn.
  - intros k c' [[<- <-]|[_ Hk]]%lookup_insert_Some; [right|by left].
    split_and!; [done|done|]. by apply unused_uid in Huc as (_ & _ & ?).
  - intros k s' [[<- <-]|[_ Hk]]%lookup_insert_Some; [right|by left].
    split_and!; [done|done|by apply unused_uid in Hus as (_ & _ & ?)|].
    intros k' t Hk'. apply (forallb_stored _ _ _ _ Ht) in Hk'. by apply Z.leb_le in Hk'.
  - intros uid Hj. by left.
Qed.

(** A copy and a session at work; then a copy of the same volume and, a second later, a
    session of the same volume are created and reconciled. *)
Definition fx_empty : MaintWorld := fx_maint [] [] [].
Definition fx_started : MaintWorld :=
  onView (added (fx_copy "nightly" "data" "data-2") (fx_session "login" "home")) fx_empty.
Definition fx_working : MaintWorld := sessioned "login" (copied "nightly" fx_started).
Definition fx_laterSession : AgentAuthSession :=
  let s := fx_session "again" "home" in
  s <| aas_ObjectMeta := (aas_ObjectMeta s) <| meta_CreationTimestamp := fx_epoch + Second |> |>.
Definition fx_contended : MaintWorld := onView (added (fx_copy "weekly" "data" "data-3") fx_laterSession) fx_working.

Lemma step_added c s w :
  identified (maint _ w) → mt_copies (maint _ w) !! adc_key c = None → mt_sessions (maint _ w) !! aas_key s = None →
  copyOpen c → sessionOpen s → unusedUID (adc_UID c) (maint _ w) = true → unusedUID (aas_UID s) (maint _ w) = true →
  adc_UID c ≠ aas_UID s → notLater s (maint _ w) = true → maintStep None w (onView (added c s) w).
Proof.
  intros. apply step_others. change (maint _ (onView (added c s) w)) with (added c s (maint _ w)). by apply others_added.
Qed.

Lemma fx_working_reachable : rtc (maintStep None) fx_empty fx_working.
Proof.
  eapply rtc_l.
  { apply (step_added (fx_copy "nightly" "data" "data-2") (fx_session "login" "home") fx_empty);
      [by apply od_identified, orderly_empty|vm_compute; reflexivity|vm_compute; reflexivity|by intros [[=]|[=]]|by intros [[=]|[=]]
      |vm_compute; reflexivity|vm_compute; reflexivity|discriminate|vm_compute; reflexivity]. }
  eapply rtc_l; [exact (step_copy None "agents" "nightly" fx_clock fx_started _ _ (surjective_pairing _))|].
  eapply rtc_l; [exact (step_session None "agents" "login" fx_clock (copied "nightly" fx_started) _ _ (surjective_pairing _))|].
  apply rtc_refl.
Qed.

Lemma fx_contended_reachable : rtc (maintStep None) fx_empty fx_contended.
Proof.
  eapply rtc_r; [exact fx_working_reachable|].
  apply (step_added (fx_copy "weekly" "data" "data-3") fx_laterSession fx_working);
    [|vm_compute; reflexivity|vm_compute; reflexivity|by intros [[=]|[=]]|by intros [[=]|[=]]
    |vm_compute; reflexivity|vm_compute; reflexivity|discriminate|vm_compute; reflexivity].
  eapply od_identified, steps_orderly; [|exact fx_working_reachable]. by apply orderly_empty.
Qed.

Lemma maintenance_exclusive_witness :
  let w := sessioned "again" (copied "weekly" fx_contended) in
  hasJobAt w "vcopy-src-nightly" = true ∧ hasJobAt w "vcopy-src-weekly" = false
  ∧ hasJobAt w "auth-login" = true ∧ hasJobAt w "auth-again" = false
  ∧ copyPhase w "nightly" = Some AgentDataVolumeCopyPhaseStreaming
  ∧ copyPhase w "weekly" = Some AgentDataVolumeCopyPhaseWaitingForIdle
  ∧ sessionPhase w "login" = Some AgentAuthSessionPhaseRunning
  ∧ sessionPhase w "again" = Some AgentAuthSessionPhaseWaitingForIdle
  ∧ (∀ k k' c c', mt_copies (maint _ w) !! k = Some c → mt_copies (maint _ w) !! k' = Some c' → k ≠ k' →
       copyOpen c → copyOpen c' → conflicting c c' → ¬ (hasJob (maint _ w) (adc_UID c) ∧ hasJob (maint _ w) (adc_UID c')))
  ∧ (∀ k k' s s', mt_sessions (maint _ w) !! k = Some s → mt_sessions (maint _ w) !! k' = Some s' →
       sessionOpen s → sessionOpen s' → rivals s s' → sessionCreated s ≠ sessionCreated s' →
       ¬ (hasJob (maint _ w) (aas_UID s) ∧ hasJob (maint _ w) (aas_UID s'))).
Proof.
  intros w. assert (rtc (maintStep None) fx_empty w) as Hw.
  { eapply rtc_r; [eapply rtc_r; [exact fx_contended_reachable|]|].
    - exact (step_copy None "agents" "weekly" fx_clock fx_contended _ _ (surjective_pairing _)).
    - exact (step_session None "agents" "again" fx_clock (copied "weekly" fx_contended) _ _ (surjective_pairing _)). }
  do 8 (split; [vm_compute; reflexivity|]).
  assert (mt_copies (maint _ fx_empty) = ∅) as Ec by reflexivity.
  assert (mt_sessions (maint _ fx_empty) = ∅) as Es by reflexivity.
  destruct (maintenance_exclusive None fx_empty w Ec Es Hw) as (Hc & Hs & _). exact (conj Hc Hs).
Defined.

Definition fx_rivals : MaintWorld := fx_maint [fx_copy "one" "data" "data-1"; fx_copy "two" "data" "data-2"] [] [].

Lemma copies_block_each_other_witness :
  let w := copied "two" (copied "one" fx_rivals) in
  deadlocked (maint _ w) ("agents", "one") ("agents", "two")
  ∨ copyFailed (maint _ w) ("agents", "one") ∨ copyFailed (maint _ w) ("agents", "two").
Proof.
  intros w. apply (copies_block_each_other None fx_rivals w).
  - exists (fx_copy "one" "data" "data-1"), (fx_copy "two" "data" "data-2"). split_and!; try done.
    1-2: by intros [[=]|[=]].
    split; [done|]. exists "data". split; apply list_elem_of_here.
  - eapply rtc_l; [exact (calm_copy None "agents" "one" fx_clock fx_rivals _ _ (surjective_pairing _))|].
    eapply rtc_l; [exact (calm_copy None "agents" "two" fx_clock (copied "one" fx_rivals) _ _ (surjective_pairing _))|].
    apply rtc_refl.
Defined.

Definition fx_waiting : MaintWorld := fx_maint [] [fx_session "login" "home"] [fx_user "home"].

Lemma session_and_run_wait_witness :
  sessionPhase (sessioned "login" fx_waiting) "login" = Some AgentAuthSessionPhaseWaitingForIdle
  ∧ mt_jobs (maint _ (sessioned "login" fx_waiting)) = mt_jobs (maint _ fx_waiting)
  ∧ volumeAvailable "shop" "agents" "home" (fx_volume "home") fx_waiting ≠ inr None.
Proof.
  split; [vm_compute; reflexivity|].
  assert (mt_sessions (maint _ fx_waiting) !! ("agents", "login") = Some (fx_session "login" "home")) as Hs
    by (vm_compute; reflexivity).
  assert (mt_runs (maint _ fx_waiting) !! ("agents", "triage") = Some (fx_user "home")) as Hr by (vm_compute; reflexivity).
  assert (usesVolume "home" (fx_user "home") = true) as Hu by (vm_compute; reflexivity).
  assert (sessionOpen (fx_session "login" "home")) as Ho by (by intros [[=]|[=]]).
  destruct (session_and_run_wait None "agents" "login" fx_clock fx_waiting _ _ _ _ _ "shop" (fx_volume "home")
    Hs eq_refl Ho Hr eq_refl Hu eq_refl (surjective_pairing _)) as (Hj & _ & Hv).
  exact (conj Hj Hv).
Defined.

Lemma long_copy_has_one_job_witness :
  let name := "nightly-copy-of-the-shared-research-volume-to-the-new-node" in
  agentRunChildName ["vcopy-src"; name] = agentRunChildName ["vcopy-dst"; name].
Proof. apply long_copy_has_one_job; [vm_compute; reflexivity|cbn; lia]. Defined.

(** ** What the exclusion leaves open *)

(** Sessions of one second are ordered by their names, not by which was there first: a
    session that is created after another one of its volume has its Job, within the
    second and with a smaller name, is given a Job too, and both mount the volume. *)
Theorem same_second_sessions_overlap :
  let first := onView (added (fx_copy "nightly" "data" "data-2") (fx_session "login" "home")) fx_empty in
  let working := sessioned "login" first in
  let joined := sessioned "again" (onView (putSession (fx_session "again" "home")) working) in
  sessionPhase joined "login" = Some AgentAuthSessionPhaseRunning
  ∧ sessionPhase joined "again" = Some AgentAuthSessionPhaseRunning
  ∧ jobClaims <$> mt_jobs (maint _ joined) !! ("agents", "auth-login")
    = Some [mkVolume "agent-home" (VolumeClaim "agent-data-home" false)]
  ∧ jobClaims <$> mt_jobs (maint _ joined) !! ("agents", "auth-again")
    = Some [mkVolume "agent-home" (VolumeClaim "agent-data-home" false)].
Proof. vm_compute. split_and!; reflexivity. Qed.

(** A reauthentication whose Job succeeded writes the credentials and deletes the
    staging Secret before it writes its status.  When that write fails, the next
    reconciliation does not find the staging Secret and marks the session Failed,
    although the volume and the bootstrap Secret have the new credentials. *)
Theorem lost_status_fails_session :
  let w := (jobsDone (sessioned "login" fx_free)) <| mw_deaf := true |> in
  let lost := (sessioned "login" w) <| mw_deaf := false |> in
  let next := sessioned "login" lost in
  isSet (mt_secrets (maint _ lost) !! ("agents", "codex-seed")) = true
  ∧ mt_secrets (maint _ lost) !! ("agents", "staged") = None
  ∧ sessionPhase lost "login" = Some AgentAuthSessionPhaseRunning
  ∧ sessionPhase next "login" = Some AgentAuthSessionPhaseFailed
  ∧ (λ s, aut_LastError (aas_Status s)) <$> mt_sessions (maint _ next) !! ("agents", "login")
    = Some "staging Secret agents/staged was not found".
Proof. vm_compute. split_and!; reflexivity. Qed.

Definition fx_shared : MaintWorld := fx_maint [fx_copy "nightly" "home" "home-2"] [fx_session "login" "home"] [].
(** The claims a Job mounts, with whether they are read-only. *)
Definition mountedAt (w : MaintWorld) (n : string) : option (list Volume) :=
  jobClaims <$> mt_jobs (maint _ w) !! ("agents", n).

(** A copy and a session do not exclude each other: the Job that reads a volume and
    the Job that rewrites the credentials on it run at once. *)
Theorem copy_and_session_share_volume :
  let w := sessioned "login" (copied "nightly" fx_shared) in
  mountedAt w "vcopy-src-nightly" = Some [mkVolume "volume" (VolumeClaim "agent-data-home" true)]
  ∧ mountedAt w "auth-login" = Some [mkVolume "agent-home" (VolumeClaim "agent-data-home" false)].
Proof. vm_compute. split; reflexivity. Qed.
