(* ===== verification/TriggerRoutes.v ===== *)
(** * External triggers: validation and public routes

    src/internal/controller/agent_external_trigger_controller.go and
    external_trigger_httproute.go: the controller gives a trigger its receiver ID,
    validates it, and exposes the webhook of a trigger that is Ready through one
    Gateway API HTTPRoute.  [reconcileExternalTrigger] is the whole handler. *)

From stdpp Require Import base list gmap strings.
From Stdlib Require Import ZArith Lia Ascii.
From S2P Require Import Prelude GoStrings GoTime Sha256 Hmac Names ApiRun ApiWork ApiVolume ApiTrigger Kube RunControl Merge RunOutput RunPayload ChainSpec Schedule RunJob DataVolumes ProfileStatus Webhook.

Open Scope Z_scope.

(** ** Gateway API *)

Record ParentReference := mkParentReference {
  pr_Group : option string; pr_Kind : option string; pr_Namespace : option string; pr_Name : string;
  pr_SectionName : option string; pr_Port : option Z }.
Record HTTPBackendRef := mkHTTPBackendRef { hb_Name : string; hb_Namespace : option string; hb_Port : option Z }.
Record HTTPPathMatch := mkHTTPPathMatch { pm_Type : string; pm_Value : string }.
Record HTTPRouteRule := mkHTTPRouteRule { rr_Matches : list HTTPPathMatch; rr_BackendRefs : list HTTPBackendRef }.
Record HTTPRouteSpec := mkHTTPRouteSpec {
  hr_ParentRefs : list ParentReference; hr_Hostnames : list string; hr_Rules : list HTTPRouteRule }.
(** [rt_Parents]: the conditions each parent reports. *)
Record HTTPRoute := mkHTTPRoute {
  rt_ObjectMeta : ObjectMeta; rt_Spec : HTTPRouteSpec; rt_Parents : list (list Condition) }.
#[export] Instance eta_HTTPRoute : Eta HTTPRoute := λ r, mkHTTPRoute (rt_ObjectMeta r) (rt_Spec r) (rt_Parents r).
Definition rt_Name (r : HTTPRoute) : string := meta_Name (rt_ObjectMeta r).
Definition rt_Namespace (r : HTTPRoute) : string := meta_Namespace (rt_ObjectMeta r).
Definition rt_key (r : HTTPRoute) : key := (rt_Namespace r, rt_Name r).
Definition rt_Labels (r : HTTPRoute) : gmap string string := meta_Labels (rt_ObjectMeta r).
Definition PathMatchExact : string := "Exact".

(** The client of the controller: a patch returns the object as stored;
    [IsNoMatchError]: the kind is not installed. *)
Class RouteClient (W : Type) := {
  getRoute : string → string → W → GoErr + HTTPRoute;
  listRoutes : option string → list (string * string) → W → GoErr + list HTTPRoute;
  createRoute : HTTPRoute → M W GoErr HTTPRoute;
  patchRoute : key → HTTPRoute → HTTPRoute → M W GoErr HTTPRoute;
  deleteRoute : key → M W GoErr unit;
  patchTriggerFinalizers : key → list string → M W GoErr AgentExternalTrigger;
  IsNoMatchError : GoErr → bool }.

(** ** Configuration *)

Record ExternalTriggerHTTPRouteParentRef := mkParentRef {
  xp_Group : string; xp_Kind : string; xp_Namespace : string; xp_Name : string; xp_SectionName : string; xp_Port : Z }.
Record ExternalTriggerHTTPRouteConfig := mkRouteConfig {
  xc_Enabled : bool;
  xc_ParentRefs : list ExternalTriggerHTTPRouteParentRef;
  xc_Hostnames : list string;
  xc_BackendName : string;
  xc_BackendNamespace : string;
  xc_BackendPort : Z;
  xc_RouteNamespace : string }.
#[export] Instance eta_RouteConfig : Eta ExternalTriggerHTTPRouteConfig := λ c, mkRouteConfig
  (xc_Enabled c) (xc_ParentRefs c) (xc_Hostnames c) (xc_BackendName c) (xc_BackendNamespace c) (xc_BackendPort c) (xc_RouteNamespace c).
Definition zero_RouteConfig : ExternalTriggerHTTPRouteConfig := mkRouteConfig false [] [] "" "" 0 "".
(** Go: [json.Unmarshal] into a configuration. *)
Class RouteConfigDecoder := decodeRouteConfig : string → GoErr + ExternalTriggerHTTPRouteConfig.

Definition ParseExternalTriggerHTTPRouteJSON `{RouteConfigDecoder} (raw : string) : GoErr + ExternalTriggerHTTPRouteConfig :=
  let raw := TrimSpace raw in
  if bool_decide (raw = "") || bool_decide (raw = "{}") || bool_decide (raw = "null") then inr zero_RouteConfig else
  match decodeRouteConfig raw with
  | inl e => inl (ErrWrap "parse external trigger HTTPRoute JSON" e)
  | inr cfg => inr (cfg <| xc_Enabled := false |>)
  end.

(** Go: the pattern [^[A-Za-z0-9]([A-Za-z0-9.-]*[A-Za-z0-9])?$]. *)
Definition isAlnum (c : ascii) : bool := isLowerAlnum (lowerByte c).
Definition hostChar (c : ascii) : bool := isAlnum c || (code c =? 46)%N || (code c =? 45)%N.
Definition exactHostnamePattern (s : string) : bool :=
  match bytes s with
  | [] => false
  | c :: l => isAlnum c && forallb hostChar l && isAlnum (List.last l c)
  end.
(** Go: [net.ParseIP(s) != nil] for a text without colons: four decimal numbers up to
    255 without leading zeros. *)
Definition ipv4Field (s : string) : bool :=
  let l := bytes s in
  negb (bool_decide (l = [])) && forallb (λ c, (48 <=? code c) && (code c <=? 57))%N l
  && (bool_decide (length l = 1%nat) || negb (bool_decide (head l = Some "0"%char)))
  && (fold_left (λ n c, n * 10 + (Z.of_N (code c) - 48)) l 0 <=? 255).
Definition parsesAsIPv4 (s : string) : bool :=
  let fields := SplitByte (ascii_of_N 46) s in bool_decide (length fields = 4%nat) && forallb ipv4Field fields.

(** The error of a hostname, [None] when it is exact. *)
Definition validateExactHostname (hostname : string) : option string :=
  let hostname := TrimSpace hostname in
  if bool_decide (hostname = "") then Some "hostname is required"
  else if Contains hostname "*" then Some ("hostname " +:+ quote hostname +:+ " must be exact, never a wildcard")
  else if negb (exactHostnamePattern hostname) then Some ("hostname " +:+ quote hostname +:+ " must be an exact DNS hostname")
  else if parsesAsIPv4 hostname then Some ("hostname " +:+ quote hostname +:+ " must be a DNS name, not an IP")
  else None.

(** The first error of an entry, with the name and index of the list. *)
Fixpoint firstEntryError {A} (check : A → option string) (name : string) (index : nat) (l : list A) : option string :=
  match l with
  | [] => None
  | a :: l =>
      match check a with
      | Some message => Some (name +:+ "[" +:+ fmtNat index +:+ "]" +:+ message)
      | None => firstEntryError check name (S index) l
      end
  end.
Definition parentRefError (parent : ExternalTriggerHTTPRouteParentRef) : option string :=
  if blank (xp_Name parent) then Some ".name is required"
  else if blank (xp_SectionName parent) then Some ".sectionName is required" else None.
Definition Validate (cfg : ExternalTriggerHTTPRouteConfig) : option string :=
  if bool_decide (length (xc_ParentRefs cfg) = 0%nat) then Some "parentRefs must contain at least one Gateway parent" else
  match firstEntryError parentRefError "parentRefs" 0 (xc_ParentRefs cfg) with
  | Some message => Some message
  | None =>
      if bool_decide (xc_Hostnames cfg = []) then Some "hostnames must contain an explicit hostname" else
      match firstEntryError (λ h, (λ m, ": " +:+ m) <$> validateExactHostname h) "hostnames" 0 (xc_Hostnames cfg) with
      | Some message => Some message
      | None =>
          if blank (xc_BackendName cfg) then Some "backendName is required"
          else if (xc_BackendPort cfg <? 1) || (65535 <? xc_BackendPort cfg) then Some "backendPort must be a valid TCP port"
          else None
      end
  end.

(** The controller's settings: the feature, the configuration, and what the
    environment and the ServiceAccount file say of the namespace of its Pod. *)
Record RouteSettings := mkRouteSettings {
  rset_TriggersEnabled : bool;
  rset_HTTPRoute : ExternalTriggerHTTPRouteConfig;
  rset_PodNamespaceEnv : string;
  rset_PodNamespaceFile : option string }.
Definition controllerPodNamespace (s : RouteSettings) : string :=
  if negb (blank (rset_PodNamespaceEnv s)) then TrimSpace (rset_PodNamespaceEnv s)
  else match rset_PodNamespaceFile s with Some data => TrimSpace data | None => "" end.
Definition resolvedRouteNamespace (s : RouteSettings) : string :=
  if negb (blank (xc_RouteNamespace (rset_HTTPRoute s))) then TrimSpace (xc_RouteNamespace (rset_HTTPRoute s))
  else controllerPodNamespace s.
Definition httpRouteNamespace (s : RouteSettings) : GoErr + string :=
  let ns := resolvedRouteNamespace s in
  if bool_decide (ns = "")
  then inl (ErrText "webhook HTTPRoute namespace is unset; set api.externalTriggerHTTPRoute.namespace or run in the controller namespace")
  else inr ns.
Definition managesHTTPRoutes (s : RouteSettings) : bool := rset_TriggersEnabled s && xc_Enabled (rset_HTTPRoute s).

(** ** Names and specs *)

Definition agentExternalTriggerReady : string := "Ready".
Definition agentExternalTriggerHTTPRouteFinalizer : string := "control.anvil.hazyforge.io/external-trigger-httproute".
Definition agentExternalTriggerHTTPRouteReady : string := "HTTPRouteReady".
Definition agentExternalTriggerHTTPRouteComponent : string := "external-trigger-httproute".
Definition agentExternalTriggerUIDAnnotation : string := "control.anvil.hazyforge.io/agent-external-trigger-uid".
Definition agentExternalTriggerHTTPRoutePoll : Duration := agentSchedulePollInterval.
Definition componentLabel : string := "app.kubernetes.io/component".

Definition agentExternalTriggerHTTPRouteName (obj : AgentExternalTrigger) : string :=
  agentRunChildName [aet_Namespace obj; aet_Name obj; "webhook"].
Definition agentExternalTriggerLegacyHTTPRouteName (obj : AgentExternalTrigger) : string :=
  agentRunChildName [aet_Name obj; "webhook"].
Definition externalTriggerWebhookPath (namespace name receiverID : string) : string :=
  "/api/v1/external-triggers/" +:+ TrimSpace namespace +:+ "/" +:+ TrimSpace name +:+ "/" +:+ TrimSpace receiverID.
Definition agentExternalTriggerPublicURL (hostname path : string) : string :=
  let hostname := TrimSpace hostname in
  let path := TrimSpace path in
  if bool_decide (hostname = "") || bool_decide (path = "") then "" else
  "https://" +:+ hostname +:+ (if HasPrefix path "/" then path else "/" +:+ path).

(** The repositories and targets of a spec that are not acceptable. *)
Definition repositoryError (repo : string) : option string :=
  let repo := TrimSpace repo in
  if bool_decide (repo = "") || negb (Contains repo "/") || HasPrefix repo "/" || HasSuffix repo "/"
  then Some " must be owner/name." else None.
Definition targetError (target : AgentExternalTriggerTargetSpec) : option string :=
  if blank (tgt_Name target) then Some ".name is required."
  else if bool_decide (tgt_Kind target = AgentExternalTriggerTargetAgentRunProfile)
          || bool_decide (tgt_Kind target = AgentExternalTriggerTargetAgentCouncil)
          || bool_decide (tgt_Kind target = AgentExternalTriggerTargetAgentRun) then None
  else Some ".kind is unsupported.".

(** The reason and message that block a trigger. *)
Definition validateAgentExternalTriggerSpec (obj : AgentExternalTrigger) : option (string * string) :=
  let spec := aet_Spec obj in
  if negb (bool_decide (tso_Kind (ext_Source spec) = AgentExternalTriggerSourceGitHubWebhook))
  then Some ("UnsupportedSource", "spec.source.kind must be githubWebhook.") else
  let repositories := match tso_GitHub (ext_Source spec) with Some g => tgh_Repositories g | None => [] end in
  if bool_decide (repositories = [])
  then Some ("InvalidSource", "spec.source.github.repositories must contain at least one owner/name repository.") else
  match firstEntryError repositoryError "spec.source.github.repositories" 0 repositories with
  | Some message => Some ("InvalidRepository", message)
  | None =>
  if blank (tsr_Name (ext_SecretRef spec)) then Some ("InvalidSecretRef", "spec.secretRef.name is required.")
  else if bool_decide (length (ext_Targets spec) = 0%nat) then Some ("InvalidTargets", "spec.targets must contain at least one target.")
  else
  match firstEntryError targetError "spec.targets" 0 (ext_Targets spec) with
  | Some message => Some ("InvalidTarget", message)
  | None =>
  let host := match ext_HTTPRoute spec with Some route => TrimSpace (trs_Hostname route) | None => "" end in
  if negb (bool_decide (host = "")) && bool_decide (validateExactHostname host ≠ None)
  then Some ("InvalidHTTPRouteHostname", "spec.httpRoute.hostname must be an exact hostname, never a wildcard.")
  else if ext_MaxDeliveriesPerDay spec <? 0
  then Some ("InvalidMaxDeliveriesPerDay", "spec.maxDeliveriesPerDay cannot be negative.")
  else if bool_decide (ext_ConcurrencyPolicy spec = "")
          || bool_decide (ext_ConcurrencyPolicy spec = AgentExternalTriggerConcurrencyForbid)
          || bool_decide (ext_ConcurrencyPolicy spec = AgentExternalTriggerConcurrencyAllow) then None
  else Some ("InvalidConcurrencyPolicy", "spec.concurrencyPolicy must be Forbid or Allow.")
  end
  end.

(** ** The route of a trigger *)

(** The loop over the configured hostnames. *)
Fixpoint configuredHostnames (hostnames out : list string) : GoErr + list string :=
  match hostnames with
  | [] => inr out
  | hostname :: hostnames =>
      let hostname := TrimSpace hostname in
      if bool_decide (hostname = "") then configuredHostnames hostnames out else
      match validateExactHostname hostname with
      | Some message => inl (ErrText message)
      | None => configuredHostnames hostnames (out ++ [hostname])
      end
  end.
Definition agentExternalTriggerRouteHostnames (obj : AgentExternalTrigger) (cfg : ExternalTriggerHTTPRouteConfig) :
    GoErr + list string :=
  let host := match ext_HTTPRoute (aet_Spec obj) with Some route => TrimSpace (trs_Hostname route) | None => "" end in
  if negb (bool_decide (host = "")) then
    match validateExactHostname host with
    | Some message => inl (ErrText message)
    | None => inr [host]
    end
  else
  match configuredHostnames (xc_Hostnames cfg) [] with
  | inl e => inl e
  | inr [] => inl (ErrText "hostnames must contain an explicit hostname")
  | inr hostnames => inr hostnames
  end.

Definition agentExternalTriggerHTTPRouteLabels (obj : AgentExternalTrigger) : gmap string string :=
  {[ agentManagedByLabel := "anvil-agents";
     "app.kubernetes.io/name" := "anvil-agents-external-trigger";
     componentLabel := agentExternalTriggerHTTPRouteComponent;
     AgentExternalTriggerLabel := sanitizeLabelValue (aet_Name obj);
     AgentExternalTriggerNamespaceLabel := sanitizeLabelValue (aet_Namespace obj) ]}.
Definition agentExternalTriggerHTTPRouteAnnotations (obj : AgentExternalTrigger) : gmap string string :=
  {[ agentExternalTriggerUIDAnnotation := aet_UID obj ]}.

Definition ifSet (s : string) : option string := if blank s then None else Some (TrimSpace s).
Definition routeParent (parent : ExternalTriggerHTTPRouteParentRef) : ParentReference :=
  mkParentReference (ifSet (xp_Group parent)) (ifSet (xp_Kind parent)) (ifSet (xp_Namespace parent)) (TrimSpace (xp_Name parent))
    (Some (TrimSpace (xp_SectionName parent))) (if 0 <? xp_Port parent then Some (xp_Port parent) else None).
Definition buildAgentExternalTriggerHTTPRoute (obj : AgentExternalTrigger) (cfg : ExternalTriggerHTTPRouteConfig)
    (hostnames : list string) (webhookPath routeNamespace : string) : GoErr + HTTPRoute :=
  let path := TrimSpace webhookPath in
  let routeNamespace := TrimSpace routeNamespace in
  if bool_decide (path = "") then inl (ErrText "webhookPath is required")
  else if bool_decide (routeNamespace = "") then inl (ErrText "route namespace is required")
  else
  match Validate cfg with
  | Some message => inl (ErrText message)
  | None =>
      if bool_decide (hostnames = []) then inl (ErrText "hostnames must contain an explicit hostname") else
      match find (λ h, bool_decide (validateExactHostname h ≠ None)) hostnames with
      | Some h => inl (ErrText (default "" (validateExactHostname h)))
      | None =>
          let ns := TrimSpace (xc_BackendNamespace cfg) in
          let backend := mkHTTPBackendRef (TrimSpace (xc_BackendName cfg))
            (if negb (bool_decide (ns = "")) && negb (bool_decide (ns = routeNamespace)) then Some ns else None)
            (Some (xc_BackendPort cfg)) in
          inr (mkHTTPRoute
            (zero_ObjectMeta <| meta_Name := agentExternalTriggerHTTPRouteName obj |> <| meta_Namespace := routeNamespace |>
               <| meta_Labels := agentExternalTriggerHTTPRouteLabels obj |>
               <| meta_Annotations := agentExternalTriggerHTTPRouteAnnotations obj |>)
            (mkHTTPRouteSpec (map routeParent (xc_ParentRefs cfg)) hostnames
               [mkHTTPRouteRule [mkHTTPPathMatch PathMatchExact path] [backend]]) [])
      end
  end.

Definition rt_label (route : HTTPRoute) (label : string) : string := default "" (rt_Labels route !! label).
Definition IsControlledBy (meta : ObjectMeta) (uid : string) : bool :=
  match GetControllerOf meta with Some owner => bool_decide (own_UID owner = uid) | None => false end.
(** The labels say that the route is of the trigger. *)
Definition labelledFor (route : HTTPRoute) (obj : AgentExternalTrigger) : bool :=
  bool_decide (rt_label route agentManagedByLabel = "anvil-agents")
  && bool_decide (rt_label route componentLabel = agentExternalTriggerHTTPRouteComponent)
  && bool_decide (rt_label route AgentExternalTriggerLabel = sanitizeLabelValue (aet_Name obj))
  && (let ns := rt_label route AgentExternalTriggerNamespaceLabel in
      if bool_decide (ns = "") then bool_decide (rt_Namespace route = aet_Namespace obj)
      else bool_decide (ns = sanitizeLabelValue (aet_Namespace obj))).
Definition httpRouteManagedByTrigger (route : HTTPRoute) (obj : AgentExternalTrigger) : bool :=
  IsControlledBy (rt_ObjectMeta route) (aet_UID obj) || labelledFor route obj.

(** The conditions of all parents: whether the kind was seen, and whether every one
    of it is true. *)
Definition parentCondition (route : HTTPRoute) (ty : string) : option bool :=
  let conditions := List.filter (λ c, bool_decide (cond_Type c = ty)) (concat (rt_Parents route)) in
  match conditions with
  | [] => None
  | _ => Some (forallb (λ c, bool_decide (cond_Status c = ConditionTrue)) conditions)
  end.
Definition observeHTTPRouteParentConditions (route : HTTPRoute) : option bool * option bool :=
  let accepted := parentCondition route "Accepted" in
  (accepted,
   match parentCondition route "Programmed", accepted, parentCondition route "ResolvedRefs" with
   | Some programmed, _, _ => Some programmed
   | None, Some accepted, Some resolved => Some (accepted && resolved)
   | None, _, _ => None
   end).

(** ** The handler *)

Section handler.
Context {W : Type} `{TriggerClient W, RouteClient W, Conditions}.
Context (settings : RouteSettings).
Local Open Scope go_scope.

(** The loop variables of [listManagedHTTPRoutes]: the keys seen and the routes. *)
Definition addRoute (obj : AgentExternalTrigger) (acc : gset key * list HTTPRoute) (route : HTTPRoute) : gset key * list HTTPRoute :=
  if negb (httpRouteManagedByTrigger route obj) then acc
  else if bool_decide (rt_key route ∈ acc.1) then acc
  else ({[rt_key route]} ∪ acc.1, acc.2 ++ [route]).
(** The routes of a list, none when the kind is not installed. *)
Definition listedRoutes (ns : option string) (labels : list (string * string)) (w : W) : GoErr + list HTTPRoute :=
  match listRoutes ns labels w with
  | inl e => if IsNoMatchError e then inr [] else inl e
  | inr l => inr l
  end.
Fixpoint namedRoutes (keys : list key) (w : W) : GoErr + list HTTPRoute :=
  match keys with
  | [] => inr []
  | (ns, n) :: keys =>
      match getRoute ns n w with
      | inl e => if IsNotFound e || IsNoMatchError e then namedRoutes keys w else inl e
      | inr route => match namedRoutes keys w with inl e => inl e | inr l => inr (route :: l) end
      end
  end.
Definition routeKeys (obj : AgentExternalTrigger) : list key :=
  (aet_Namespace obj, agentExternalTriggerLegacyHTTPRouteName obj)
  :: match httpRouteNamespace settings with
     | inr ns => [(ns, agentExternalTriggerHTTPRouteName obj); (ns, agentExternalTriggerLegacyHTTPRouteName obj)]
     | inl _ => []
     end.
Definition listManagedHTTPRoutes (obj : AgentExternalTrigger) (w : W) : GoErr + list HTTPRoute :=
  let name := (AgentExternalTriggerLabel, sanitizeLabelValue (aet_Name obj)) in
  match listedRoutes None [name; (AgentExternalTriggerNamespaceLabel, sanitizeLabelValue (aet_Namespace obj))] w with
  | inl e => inl e
  | inr labeled =>
      match listedRoutes (Some (aet_Namespace obj)) [name] w with
      | inl e => inl e
      | inr legacy =>
          match namedRoutes (routeKeys obj) w with
          | inl e => inl e
          | inr named => inr (foldl (addRoute obj) (∅, []) (labeled ++ legacy ++ named)).2
          end
      end
  end.

(** [keep] is the key of a route that stays. *)
Definition removeRoute (keep : option key) (_ : unit) (route : HTTPRoute) : M W GoErr unit :=
  if bool_decide (keep = Some (rt_key route)) then mret tt else
  let* deleted := mtry (deleteRoute (rt_key route)) in
  match deleted with
  | inl e => if IsNotFound e then mret tt
             else mfail (ErrWrap ("delete HTTPRoute " +:+ rt_Namespace route +:+ "/" +:+ rt_Name route) e)
  | inr _ => mret tt
  end.
Definition deleteStaleHTTPRoutes (obj : AgentExternalTrigger) (keep : option key) : M W GoErr unit :=
  let* routes := mread (listManagedHTTPRoutes obj) in mforeach (removeRoute keep) routes tt.
Definition deleteManagedHTTPRoutes (obj : AgentExternalTrigger) : M W GoErr unit := deleteStaleHTTPRoutes obj None.

(** An existing route is taken over when it is of the trigger. *)
Definition takeRoute (obj : AgentExternalTrigger) (desired existing : HTTPRoute) : M W GoErr HTTPRoute :=
  if negb (httpRouteManagedByTrigger existing obj)
  then mfail (ErrText ("HTTPRoute " +:+ rt_Namespace existing +:+ "/" +:+ rt_Name existing
         +:+ " exists and is not managed by AgentExternalTrigger " +:+ aet_Namespace obj +:+ "/" +:+ aet_Name obj))
  else
    let patch := existing
      <| rt_ObjectMeta := (rt_ObjectMeta existing)
           <| meta_Labels := rt_Labels desired ∪ rt_Labels existing |>
           <| meta_Annotations := meta_Annotations (rt_ObjectMeta desired) ∪ meta_Annotations (rt_ObjectMeta existing) |> |>
      <| rt_Spec := rt_Spec desired |> in
    let* patched := mtry (patchRoute (rt_key existing) existing patch) in
    match patched with
    | inl e => mfail (ErrWrap "patch HTTPRoute" e)
    | inr stored => mret stored
    end.
Definition ensureHTTPRoute (obj : AgentExternalTrigger) (desired : HTTPRoute) : M W GoErr HTTPRoute :=
  let* got := mtry (mread (getRoute (rt_Namespace desired) (rt_Name desired))) in
  match got with
  | inr existing => takeRoute obj desired existing
  | inl e =>
      if IsNotFound e then
        let* created := mtry (createRoute desired) in
        match created with
        | inr stored => mret stored
        | inl e =>
            if IsAlreadyExists e then
              let* existing := mread (getRoute (rt_Namespace desired) (rt_Name desired)) in
              takeRoute obj desired existing
            else mfail (ErrWrap "create HTTPRoute" e)
        end
      else if IsNoMatchError e then mfail (ErrText "Gateway API HTTPRoute CRD is not installed")
      else mfail e
  end.

Definition triggerCondition (obj : AgentExternalTrigger) (now : Time) (ty st reason message : string)
    (status : AgentExternalTriggerStatus) : AgentExternalTriggerStatus :=
  status <| exs_Conditions := SetStatusCondition (exs_Conditions status)
              (mkCondition ty st (aet_Generation obj) now reason message) |>.
(** The routes are removed and the status says why. *)
Definition detachRoute (obj : AgentExternalTrigger) (now : Time) (reason message : string)
    (status : AgentExternalTriggerStatus) : M W GoErr (Result * AgentExternalTriggerStatus) :=
  deleteManagedHTTPRoutes obj ;;
  mret (Done, triggerCondition obj now agentExternalTriggerHTTPRouteReady ConditionFalse reason message
                (status <| exs_HTTPRoute := None |>)).

(** The route is up: what its parents say. *)
Definition observeRoute (obj : AgentExternalTrigger) (now : Time) (route : HTTPRoute) (hostname : string)
    (status : AgentExternalTriggerStatus) : Result * AgentExternalTriggerStatus :=
  let '(accepted, programmed) := observeHTTPRouteParentConditions route in
  let publicURL := agentExternalTriggerPublicURL hostname (exs_WebhookPath status) in
  let status := status <| exs_HTTPRoute := Some (mkAgentExternalTriggerHTTPRouteStatus (rt_Name route) (rt_Namespace route)
                                                   publicURL accepted programmed) |> in
  let where_ := "HTTPRoute " +:+ rt_Namespace route +:+ "/" +:+ rt_Name route in
  if bool_decide (accepted = Some true) && negb (bool_decide (programmed = Some false))
  then (Done, triggerCondition obj now agentExternalTriggerHTTPRouteReady ConditionTrue "RouteReady"
                (where_ +:+ " is accepted at " +:+ publicURL +:+ ".") status)
  else (mkResult false agentExternalTriggerHTTPRoutePoll,
        triggerCondition obj now agentExternalTriggerHTTPRouteReady ConditionFalse "RoutePending"
          (where_ +:+ " is waiting for Gateway Accepted.") status).

Definition reconcileHTTPRoute (obj : AgentExternalTrigger) (now : Time) (expose : bool)
    (status : AgentExternalTriggerStatus) : M W GoErr (Result * AgentExternalTriggerStatus) :=
  if negb (managesHTTPRoutes settings) then
    mret (Done, status <| exs_HTTPRoute := None |>
                  <| exs_Conditions := RemoveStatusCondition (exs_Conditions status) agentExternalTriggerHTTPRouteReady |>)
  else if negb expose || blank (exs_WebhookPath status) || blank (exs_ReceiverID status) then
    detachRoute obj now "RouteDetached" "Public HTTPRoute is detached for a suspended or blocked trigger." status
  else
  match Validate (rset_HTTPRoute settings) with
  | Some message =>
      detachRoute obj now "GatewayParentsUnset"
        ("HTTPRoute creation is enabled but Gateway parentRefs/hostnames are missing or invalid: " +:+ message) status
  | None =>
      match httpRouteNamespace settings with
      | inl e => detachRoute obj now "RouteNamespaceUnset" (errorText e) status
      | inr routeNamespace =>
          match agentExternalTriggerRouteHostnames obj (rset_HTTPRoute settings) with
          | inl e => detachRoute obj now "InvalidHostname" (errorText e) status
          | inr hostnames =>
              match buildAgentExternalTriggerHTTPRoute obj (rset_HTTPRoute settings) hostnames (exs_WebhookPath status) routeNamespace with
              | inl e => detachRoute obj now "InvalidHTTPRoute" (errorText e) status
              | inr desired =>
                  let* route := ensureHTTPRoute obj desired in
                  deleteStaleHTTPRoutes obj (Some (rt_key desired)) ;;
                  mret (observeRoute obj now route (default "" (head hostnames)) status)
              end
          end
      end
  end.

Definition patchAgentExternalTriggerStatus (obj : AgentExternalTrigger) (status : AgentExternalTriggerStatus) : M W GoErr unit :=
  let* got := mtry (mread (getTrigger (aet_Namespace obj) (aet_Name obj))) in
  match got with
  | inl e => if IsNotFound e then mret tt else patchTriggerStatus (aet_key obj) (aet_Status obj) status
  | inr _ => patchTriggerStatus (aet_key obj) (aet_Status obj) status
  end.

Definition hasRouteFinalizer (obj : AgentExternalTrigger) : bool :=
  bool_decide (agentExternalTriggerHTTPRouteFinalizer ∈ meta_Finalizers (aet_ObjectMeta obj)).
Definition removeHTTPRouteFinalizer (namespace name : string) : M W GoErr Result :=
  let* got := mtry (mread (getTrigger namespace name)) in
  match got with
  | inl e => if IsNotFound e then mret Done else mfail e
  | inr obj =>
      if negb (hasRouteFinalizer obj) then mret Done else
      let* patched := mtry (patchTriggerFinalizers (aet_key obj)
        (filter (λ f, f ≠ agentExternalTriggerHTTPRouteFinalizer) (meta_Finalizers (aet_ObjectMeta obj)))) in
      match patched with
      | inl e => if IsConflict e then mret requeueNow
                 else mfail (ErrWrap "remove AgentExternalTrigger HTTPRoute finalizer" e)
      | inr _ => mret Done
      end
  end.

(** What the validation makes of the status, and whether the webhook is exposed. *)
Definition triggerStatus (obj : AgentExternalTrigger) (receiverID : string) (now : Time) : AgentExternalTriggerStatus * bool :=
  let status := (aet_Status obj) <| exs_ObservedGeneration := aet_Generation obj |> <| exs_ReceiverID := receiverID |>
    <| exs_WebhookPath := externalTriggerWebhookPath (aet_Namespace obj) (aet_Name obj) receiverID |> in
  match validateAgentExternalTriggerSpec obj with
  | Some (reason, message) =>
      (triggerCondition obj now agentExternalTriggerReady ConditionFalse reason message
         (status <| exs_Phase := AgentExternalTriggerPhaseBlocked |> <| exs_LastError := message |>), false)
  | None =>
      if ext_Suspend (aet_Spec obj) then
        (triggerCondition obj now agentExternalTriggerReady ConditionFalse "Suspended" "AgentExternalTrigger is suspended."
           (status <| exs_Phase := AgentExternalTriggerPhaseSuspended |> <| exs_LastError := "" |>), false)
      else
        (triggerCondition obj now agentExternalTriggerReady ConditionTrue "ReceiverReady"
           ("Webhook receiver ready at " +:+ exs_WebhookPath status +:+ ".")
           (status <| exs_Phase := AgentExternalTriggerPhaseReady |> <| exs_LastError := "" |>), true)
  end.

(** A trigger that is not being deleted; [random] are the bytes of a new receiver ID. *)
Definition reconcileLiveTrigger (obj : AgentExternalTrigger) (random : GoErr + list N) (clock : nat → Time) : M W GoErr Result :=
  let known := exs_ReceiverID (aet_Status obj) in
  match (if blank known then match random with
                             | inl e => inl (ErrWrap "generate receiverID" e)
                             | inr buf => inr (hexEncode buf)
                             end else inr known) with
  | inl e => mfail e
  | inr receiverID =>
      let '(status, exposeRoute) := triggerStatus obj receiverID (clock 0%nat) in
      let* routed := reconcileHTTPRoute obj (clock 1%nat) exposeRoute status in
      patchAgentExternalTriggerStatus obj routed.2 ;;
      mret routed.1
  end.

(** [AgentExternalTriggerReconciler.Reconcile] *)
Definition reconcileExternalTrigger (namespace name : string) (random : GoErr + list N) (clock : nat → Time) : M W GoErr Result :=
  let* got := mtry (mread (getTrigger namespace name)) in
  match got with
  | inl e => if IsNotFound e then mret Done else mfail e
  | inr obj =>
      if bool_decide (setTime (meta_DeletionTimestamp (aet_ObjectMeta obj)) ≠ None) then
        (if hasRouteFinalizer obj || managesHTTPRoutes settings then deleteManagedHTTPRoutes obj else mret tt) ;;
        if hasRouteFinalizer obj then removeHTTPRouteFinalizer (aet_Namespace obj) (aet_Name obj) else mret Done
      else if managesHTTPRoutes settings && negb (hasRouteFinalizer obj) then
        let* patched := mtry (patchTriggerFinalizers (aet_key obj)
          (meta_Finalizers (aet_ObjectMeta obj) ++ [agentExternalTriggerHTTPRouteFinalizer])) in
        match patched with
        | inl e => if IsConflict e then mret requeueNow
                   else mfail (ErrWrap "install AgentExternalTrigger HTTPRoute finalizer" e)
        | inr obj => reconcileLiveTrigger obj random clock
        end
      else reconcileLiveTrigger obj random clock
  end.
End handler.

(** The trigger of a route, for the watch on routes. *)
Definition enqueueAgentExternalTriggerForHTTPRoute (route : HTTPRoute) : option key :=
  if negb (bool_decide (rt_label route agentManagedByLabel = "anvil-agents")) then None
  else if negb (bool_decide (rt_label route componentLabel = agentExternalTriggerHTTPRouteComponent)) then None
  else
  let name := TrimSpace (rt_label route AgentExternalTriggerLabel) in
  let namespace := TrimSpace (rt_label route AgentExternalTriggerNamespaceLabel) in
  let namespace := if bool_decide (namespace = "") then rt_Namespace route else namespace in
  if bool_decide (name = "") || bool_decide (namespace = "") then None else Some (namespace, name).
