(* ===== verification/TriggerSafety.v ===== *)
(** * External triggers: theorems on routes

    A trigger that is Ready is exposed by one route with exact hostnames and the exact
    path of its receiver, and one that is suspended, blocked or being deleted by none
    ([routes_exact]); routes without the marks of the trigger are left alone
    ([routes_confined]).  Routes are told apart by sanitized names, so two triggers
    can share one ([triggers_share_route], [route_names_collide]). *)

From stdpp Require Import base list gmap strings.
From Stdlib Require Import ZArith Lia Ascii.
From S2P Require Import Prelude GoStrings GoTime Sha256 Hmac Names ApiRun ApiWork ApiVolume ApiTrigger Kube RunControl Merge RunOutput RunPayload ChainSpec Schedule RunJob DataVolumes ProfileStatus Webhook WebhookSafety TriggerRoutes.

Open Scope Z_scope.

(** ** The server *)

Record RouteView := mkRouteView {
  rv_triggers : gmap key AgentExternalTrigger;
  rv_routes : gmap key HTTPRoute }.
#[export] Instance eta_RouteView : Eta RouteView := λ m, mkRouteView (rv_triggers m) (rv_routes m).
Definition putRoute (r : HTTPRoute) (m : RouteView) : RouteView := m <| rv_routes := <[rt_key r := r]> (rv_routes m) |>.

Definition deleting (r : HTTPRoute) : Prop := setTime (meta_DeletionTimestamp (rt_ObjectMeta r)) ≠ None.
Definition sameTriggerStatus (t t' : AgentExternalTrigger) : Prop := sameTrigger t t' ∧ aet_Status t' = aet_Status t.

(** Documented behaviour: reads are those of the API server; a write is applied or
    refused, and an error can hide a write that was applied; a deleted route with
    finalizers stays, marked as being deleted. *)
Class RouteLaws (W : Type) `{TriggerClient W, RouteClient W} := {
  routes : W → RouteView;
  route_key w k r : rv_routes (routes w) !! k = Some r → rt_key r = k;
  route_getTrigger w ns n t : getTrigger ns n w = inr t → rv_triggers (routes w) !! (ns, n) = Some t ∧ aet_key t = (ns, n);
  route_getTrigger_notfound w ns n e :
    getTrigger ns n w = inl e → IsNotFound e = true → rv_triggers (routes w) !! (ns, n) = None;
  route_get w ns n r : getRoute ns n w = inr r → rv_routes (routes w) !! (ns, n) = Some r;
  route_list_sound w ns labels l r : listRoutes ns labels w = inr l → r ∈ l → rv_routes (routes w) !! rt_key r = Some r;
  route_list_complete w ns labels l k r :
    listRoutes ns labels w = inr l → rv_routes (routes w) !! k = Some r → (∀ n, ns = Some n → rt_Namespace r = n) →
    Forall (λ kv, rt_Labels r !! kv.1 = Some kv.2) labels → r ∈ l;
  route_no_match w ns labels e :
    listRoutes ns labels w = inl e → IsNoMatchError (W := W) e = true → rv_routes (routes w) = ∅;
  route_create w w' r x :
    createRoute r w = (w', x) →
    routes w' = routes w ∧ (∃ e, x = inl e)
    ∨ ∃ r', rv_routes (routes w) !! rt_key r = None ∧ rt_key r' = rt_key r ∧ rt_Labels r' = rt_Labels r ∧ rt_Spec r' = rt_Spec r
       ∧ routes w' = putRoute r' (routes w);
  route_patch w w' k base new x :
    patchRoute k base new w = (w', x) →
    routes w' = routes w ∧ (∃ e, x = inl e)
    ∨ ∃ r r', rv_routes (routes w) !! k = Some r ∧ rt_key r' = rt_key r
       ∧ (r = base → rt_Labels r' = rt_Labels new ∧ rt_Spec r' = rt_Spec new)
       ∧ routes w' = putRoute r' (routes w);
  route_delete w w' k x :
    deleteRoute k w = (w', x) →
    routes w' = routes w ∧ (∃ e, x = inl e ∧ (IsNotFound e = true → rv_routes (routes w) !! k = None))
    ∨ routes w' = (routes w) <| rv_routes := delete k (rv_routes (routes w)) |>
    ∨ ∃ r r', rv_routes (routes w) !! k = Some r ∧ rt_key r' = rt_key r ∧ deleting r' ∧ routes w' = putRoute r' (routes w);
  route_patchStatus w w' k base new x :
    patchTriggerStatus k base new w = (w', x) →
    rv_routes (routes w') = rv_routes (routes w)
    ∧ ∀ k', k' ≠ k → rv_triggers (routes w') !! k' = rv_triggers (routes w) !! k';
  route_patchFinalizers w w' k fs x :
    patchTriggerFinalizers k fs w = (w', x) →
    rv_routes (routes w') = rv_routes (routes w)
    ∧ (∀ k', k' ≠ k → rv_triggers (routes w') !! k' = rv_triggers (routes w) !! k')
    ∧ ∀ t', x = inr t' → ∃ t, rv_triggers (routes w) !! k = Some t ∧ sameTriggerStatus t t' }.
#[global] Arguments routes W {_ _ _} w.

(** ** Names that collide *)

Definition namedTrigger (namespace name uid : string) : AgentExternalTrigger :=
  zero_AgentExternalTrigger <| aet_ObjectMeta := zero_ObjectMeta <| meta_Namespace := namespace |> <| meta_Name := name |>
    <| meta_UID := uid |> |>.

(** The namespace and the name of a trigger are joined by the character that they
    consist of: triggers of two namespaces claim one route name, and only the first of
    them gets its route. *)
Theorem route_names_collide :
  let t := namedTrigger "team" "a-push" "uid-1" in
  let t' := namedTrigger "team-a" "push" "uid-2" in
  agentExternalTriggerHTTPRouteName t = agentExternalTriggerHTTPRouteName t'
  ∧ ∀ cfg hostnames path ns r, buildAgentExternalTriggerHTTPRoute t cfg hostnames path ns = inr r →
      httpRouteManagedByTrigger r t' = false.
Proof.
  cbn zeta. split; [vm_compute; reflexivity|]. intros cfg hostnames path ns r. unfold buildAgentExternalTriggerHTTPRoute.
  destruct (bool_decide (TrimSpace path = "")); [done|]. destruct (bool_decide (TrimSpace ns = "")); [done|].
  destruct (Validate cfg); [done|]. destruct (bool_decide (hostnames = [])); [done|]. destruct (find _ hostnames); [done|].
  intros [= <-]. vm_compute. reflexivity.
Qed.

(** Routes carry the UID of their trigger, but it is not looked at: of two triggers of
    a namespace whose names agree once sanitized, each takes the route of the other
    for its own, and rewrites or deletes it. *)
Theorem triggers_share_route :
  let t := namedTrigger "team" "git.push" "uid-1" in
  let t' := namedTrigger "team" "git-push" "uid-2" in
  agentExternalTriggerHTTPRouteName t = agentExternalTriggerHTTPRouteName t'
  ∧ ∀ cfg hostnames path ns r, buildAgentExternalTriggerHTTPRoute t cfg hostnames path ns = inr r →
      httpRouteManagedByTrigger r t' = true.
Proof.
  cbn zeta. split; [vm_compute; reflexivity|]. intros cfg hostnames path ns r. unfold buildAgentExternalTriggerHTTPRoute.
  destruct (bool_decide (TrimSpace path = "")); [done|]. destruct (bool_decide (TrimSpace ns = "")); [done|].
  destruct (Validate cfg); [done|]. destruct (bool_decide (hostnames = [])); [done|]. destruct (find _ hostnames); [done|].
  intros [= <-]. vm_compute. reflexivity.
Qed.

(** ** The route that is built *)

Lemma dropSpace_last two three l c :
  isAsciiSpace c = false → (∀ a, two a c = false) → (∀ a b, three a b c = false) → dropSpace two three (l ++ [c]) ≠ [].
Proof.
  intros Hc H2 H3. induction l as [l IH] using (induction_ltof1 _ (@length ascii)); unfold ltof in IH.
  destruct l as [|a [|b [|d l]]]; cbn; [by rewrite Hc|..]; destruct (isAsciiSpace a).
  - by rewrite Hc.
  - by rewrite H2.
  - apply (IH [b]). cbn. lia.
  - destruct (two a b); [by rewrite Hc|]. by rewrite H3.
  - apply (IH (b :: d :: l)). cbn. lia.
  - destruct (two a b); [apply (IH (d :: l)); cbn; lia|]. destruct (three a b d); [apply (IH l); cbn; lia|done].
Qed.
Lemma slash_nonblank l : TrimSpace (unbytes ("/"%char :: l)) ≠ "".
Proof.
  unfold TrimSpace. rewrite bytes_unbytes. unfold trimLeftBytes. rewrite asciiText_stuck by done. unfold trimRightBytes. cbn [rev].
  intros Heq. apply (f_equal bytes) in Heq. rewrite bytes_unbytes in Heq. apply (f_equal (@rev ascii)) in Heq.
  rewrite rev_involutive in Heq. by apply dropSpace_last in Heq.
Qed.
Lemma webhookPath_nonblank namespace name receiver : blank (externalTriggerWebhookPath namespace name receiver) = false.
Proof.
  apply bool_decide_eq_false. rewrite <- (unbytes_bytes (externalTriggerWebhookPath namespace name receiver)).
  apply slash_nonblank.
Qed.

Lemma exact_hostname h : h = TrimSpace h → validateExactHostname h = None → forallb hostChar (bytes h) = true ∧ h ≠ "".
Proof.
  unfold validateExactHostname. intros <-. case_bool_decide as Hh; [done|]. destruct (Contains h "*"); [done|].
  destruct (exactHostnamePattern h) eqn:Ep; [|done]. intros _. split; [|done]. unfold exactHostnamePattern in Ep.
  destruct (bytes h) as [|c l]; [done|]. cbn. apply andb_true_iff in Ep as [[Hc Hl]%andb_true_iff _]. rewrite Hl.
  unfold hostChar. by rewrite Hc.
Qed.
Lemma firstEntryError_None {A} (check : A → option string) name i l : firstEntryError check name i l = None → Forall (λ a, check a = None) l.
Proof. revert i. induction l as [|a l IH]; intros i; cbn; [done|]. destruct (check a) eqn:E; [done|]. constructor; [done|by eapply IH]. Qed.

Definition trimmedExact (h : string) : Prop := validateExactHostname h = None ∧ h = TrimSpace h.
Lemma validate_trim h : validateExactHostname (TrimSpace h) = validateExactHostname h.
Proof. unfold validateExactHostname. by rewrite TrimSpace_idem. Qed.
Lemma configured_exact l out hs : Forall trimmedExact out → configuredHostnames l out = inr hs → Forall trimmedExact hs.
Proof.
  revert out. induction l as [|h l IH]; intros out Hout; cbn; [by intros [= <-]|]. case_bool_decide; [by apply IH|].
  destruct (validateExactHostname (TrimSpace h)) eqn:E; [done|]. apply IH. apply Forall_app. split; [done|].
  constructor; [|done]. split; [done|by rewrite TrimSpace_idem].
Qed.
Lemma configured_total l out : Forall (λ h, validateExactHostname h = None) l → configuredHostnames l out = inr (out ++ map TrimSpace l).
Proof.
  intros Hl. revert out. induction Hl as [|h l Hh Hl IH]; intros out; cbn; [by rewrite app_nil_r|].
  case_bool_decide as Hb; [unfold validateExactHostname in Hh; by rewrite Hb in Hh|]. rewrite validate_trim, Hh, IH.
  by rewrite <- app_assoc.
Qed.
Lemma hostnames_exact obj cfg hs : agentExternalTriggerRouteHostnames obj cfg = inr hs → Forall trimmedExact hs.
Proof.
  unfold agentExternalTriggerRouteHostnames. set (host := match ext_HTTPRoute _ with Some _ => _ | None => _ end).
  case_bool_decide as Hh; cbn [negb].
  - destruct (configuredHostnames _ _) as [e|[|h l]] eqn:E; [done|done|]. intros [= <-]. by eapply configured_exact.
  - destruct (validateExactHostname host) eqn:E; [done|]. intros [= <-]. constructor; [|done]. split; [done|].
    subst host. destruct (ext_HTTPRoute (aet_Spec obj)); [by rewrite TrimSpace_idem|done].
Qed.
Lemma hostnames_total obj cfg :
  validateAgentExternalTriggerSpec obj = None → Validate cfg = None → ∃ hs, agentExternalTriggerRouteHostnames obj cfg = inr hs ∧ hs ≠ [].
Proof.
  intros Hs Hv. unfold agentExternalTriggerRouteHostnames.
  assert (∀ host, negb (bool_decide (host = "")) && bool_decide (validateExactHostname host ≠ None) = false →
    host = "" ∨ validateExactHostname host = None) as Hh.
  { intros host. case_bool_decide; [by left|]. cbn. intros Hd%bool_decide_eq_false. right. by apply dec_stable. }
  unfold validateAgentExternalTriggerSpec in Hs. repeat (case_match; [done|]).
  set (host := match ext_HTTPRoute _ with Some _ => _ | None => _ end) in *.
  match goal with Hx : negb (bool_decide (host = "")) && _ = false |- _ => apply Hh in Hx; rename Hx into E end.
  clear Hs; destruct (bool_decide_reflect (host = "")) as [Hb|Hb]; cbn [negb]; [|destruct E as [E|E]; [congruence|rewrite E; by eexists]].
  unfold Validate in Hv. case_bool_decide; [done|]. destruct (firstEntryError parentRefError _ _ _); [done|].
  case_bool_decide as Hnil; [done|]. destruct (firstEntryError _ "hostnames" _ _) eqn:Ef; [done|]. apply firstEntryError_None in Ef.
  rewrite configured_total.
  - destruct (xc_Hostnames cfg); [done|]. by eexists.
  - eapply Forall_impl; [exact Ef|]. cbn. intros h. by destruct (validateExactHostname h).
Qed.

Lemma build_spec obj cfg hs path ns r :
  buildAgentExternalTriggerHTTPRoute obj cfg hs path ns = inr r →
  rt_key r = (TrimSpace ns, agentExternalTriggerHTTPRouteName obj) ∧ rt_Labels r = agentExternalTriggerHTTPRouteLabels obj
  ∧ hs ≠ [] ∧ hr_Hostnames (rt_Spec r) = hs
  ∧ ∃ backends, hr_Rules (rt_Spec r) = [mkHTTPRouteRule [mkHTTPPathMatch PathMatchExact (TrimSpace path)] backends].
Proof.
  unfold buildAgentExternalTriggerHTTPRoute. case_bool_decide; [done|]. case_bool_decide; [done|]. destruct (Validate cfg); [done|].
  case_bool_decide; [done|]. destruct (find _ hs); [done|]. intros [= <-]. split_and!; try done. by eexists.
Qed.
Lemma build_total obj cfg hs path ns :
  blank path = false → TrimSpace ns ≠ "" → Validate cfg = None → hs ≠ [] → Forall trimmedExact hs →
  ∃ r, buildAgentExternalTriggerHTTPRoute obj cfg hs path ns = inr r.
Proof.
  intros Hp%bool_decide_eq_false Hns Hv Hnil Hhs. unfold buildAgentExternalTriggerHTTPRoute. rewrite (bool_decide_false (_ = "")) by done.
  rewrite (bool_decide_false (_ = "")), Hv, (bool_decide_false (hs = [])) by done. destruct (find _ hs) as [h|] eqn:E; [|by eexists]. apply find_some in E as [Hin Hb].
  apply bool_decide_eq_true in Hb. rewrite Forall_forall in Hhs. destruct (Hhs h) as [? _]; [by apply list_elem_of_In|done].
Qed.
(** The built route is labelled for its trigger. *)
Lemma labels_managed obj r :
  sanitizeLabelValue (aet_Namespace obj) ≠ "" →
  (∀ a v, agentExternalTriggerHTTPRouteLabels obj !! a = Some v → rt_Labels r !! a = Some v) → labelledFor r obj = true.
Proof.
  intros Hns Hl. unfold labelledFor, rt_label.
  rewrite (Hl agentManagedByLabel "anvil-agents") by reflexivity.
  rewrite (Hl componentLabel agentExternalTriggerHTTPRouteComponent) by reflexivity.
  rewrite (Hl AgentExternalTriggerLabel (sanitizeLabelValue (aet_Name obj))) by reflexivity.
  rewrite (Hl AgentExternalTriggerNamespaceLabel (sanitizeLabelValue (aet_Namespace obj))) by reflexivity.
  cbn [default from_option]. cbv zeta. rewrite (bool_decide_false (sanitizeLabelValue (aet_Namespace obj) = "")) by done.
  by rewrite !bool_decide_eq_true_2 by reflexivity.
Qed.

(** ** Removing routes *)

Section routes.
Context {W : Type} `{TriggerClient W, RouteClient W, !RouteLaws W, Conditions}.
Context (settings : RouteSettings).

(** Routes are removed or marked, none is added, and those of others stay. *)
Record withdrawn (obj : AgentExternalTrigger) (m m' : RouteView) : Prop := mkWithdrawn {
  wd_triggers : rv_triggers m' = rv_triggers m;
  wd_left k r' : rv_routes m' !! k = Some r' → ∃ r, rv_routes m !! k = Some r ∧ (r' = r ∨ deleting r');
  wd_others k r : rv_routes m !! k = Some r → httpRouteManagedByTrigger r obj = false → rv_routes m' !! k = Some r }.
Definition gone (k : key) (m : RouteView) : Prop := ∀ r, rv_routes m !! k = Some r → deleting r.

Lemma withdrawn_refl obj m : withdrawn obj m m.
Proof. split; [done| |done]. intros k r Hr. exists r. auto. Qed.
Lemma withdrawn_gone obj k m m' : withdrawn obj m m' → gone k m → gone k m'.
Proof. intros Hw Hg r' Hr'. destruct (wd_left _ _ _ Hw k r' Hr') as (r & Hr & [->|Hd]); [by apply Hg|done]. Qed.

Lemma addRoute_spec obj l acc :
  (∀ k, k ∈ acc.1 ↔ ∃ r, r ∈ acc.2 ∧ rt_key r = k) →
  let out := foldl (addRoute obj) acc l in
  (∀ k, k ∈ out.1 ↔ ∃ r, r ∈ out.2 ∧ rt_key r = k)
  ∧ (∀ r, r ∈ out.2 → r ∈ acc.2 ∨ r ∈ l ∧ httpRouteManagedByTrigger r obj = true)
  ∧ (∀ k, k ∈ acc.1 → k ∈ out.1)
  ∧ ∀ r, r ∈ l → httpRouteManagedByTrigger r obj = true → rt_key r ∈ out.1.
Proof.
  revert acc. induction l as [|r l IH]; intros acc Hacc; cbn zeta; cbn [foldl].
  { split_and!; [done|by left|done|set_solver]. }
  assert (∀ k, k ∈ (addRoute obj acc r).1 ↔ ∃ s, s ∈ (addRoute obj acc r).2 ∧ rt_key s = k) as Hacc'.
  { unfold addRoute. case_match; [done|]. case_bool_decide; [done|]. cbn. set_solver. }
  destruct (IH _ Hacc') as (E1 & E2 & E3 & E4). split_and!; [done|..].
  - intros s Hs. apply E2 in Hs as [Hs|[? ?]]; [|right; set_solver]. revert Hs. unfold addRoute.
    destruct (httpRouteManagedByTrigger r obj) eqn:Em; cbn [negb]; [|by left]. case_bool_decide; [by left|]. cbn. set_solver.
  - intros k Hk. apply E3. unfold addRoute. case_match; [done|]. case_bool_decide; [done|]. set_solver.
  - intros s [->|Hs]%elem_of_cons Hm; [|by apply E4]. apply E3. unfold addRoute. rewrite Hm. cbn [negb].
    case_bool_decide; [done|]. set_solver.
Qed.

Lemma listedRoutes_spec ns labels w l :
  listedRoutes ns labels w = inr l →
  (∀ r, r ∈ l → rv_routes (routes W w) !! rt_key r = Some r)
  ∧ ∀ k r, rv_routes (routes W w) !! k = Some r → (∀ n, ns = Some n → rt_Namespace r = n) →
      Forall (λ kv, rt_Labels r !! kv.1 = Some kv.2) labels → r ∈ l.
Proof.
  unfold listedRoutes. destruct (listRoutes ns labels w) as [e|l'] eqn:E.
  - destruct (IsNoMatchError e) eqn:Em; [|done]. intros [= <-]. rewrite (route_no_match _ _ _ _ E Em). split; [set_solver|].
    intros k r Hr. by rewrite lookup_empty in Hr.
  - intros [= <-]. split; [intros r Hr; exact (route_list_sound _ _ _ _ r E Hr)|intros k r; exact (route_list_complete _ _ _ _ k r E)].
Qed.
Lemma namedRoutes_spec keys w l r : namedRoutes keys w = inr l → r ∈ l → rv_routes (routes W w) !! rt_key r = Some r.
Proof.
  revert l. induction keys as [|[ns n] keys IH]; intros l; cbn; [intros [= <-]; set_solver|].
  destruct (getRoute ns n w) as [e|s] eqn:E; [case_match; [apply IH|done]|]. apply route_get in E.
  destruct (namedRoutes keys w) as [e|l']; [done|]. intros [= <-] [->|Hr]%elem_of_cons; [|by eapply IH].
  by rewrite (route_key _ _ _ E).
Qed.

(** The list has the routes of the trigger and only such: every route that is labelled
    for it is found. *)
Lemma listManaged_spec obj w l :
  sanitizeLabelValue (aet_Name obj) ≠ "" → listManagedHTTPRoutes settings obj w = inr l →
  (∀ r, r ∈ l → rv_routes (routes W w) !! rt_key r = Some r ∧ httpRouteManagedByTrigger r obj = true)
  ∧ ∀ k r, rv_routes (routes W w) !! k = Some r → labelledFor r obj = true → r ∈ l.
Proof.
  intros Hname. unfold listManagedHTTPRoutes. destruct (listedRoutes None _ w) as [e|l1] eqn:E1; [done|].
  destruct (listedRoutes (Some _) _ w) as [e|l2] eqn:E2; [done|]. destruct (namedRoutes _ w) as [e|l3] eqn:E3; [done|].
  intros [= <-]. apply listedRoutes_spec in E1 as [S1 C1], E2 as [S2 C2].
  assert (∀ r, r ∈ l1 ++ l2 ++ l3 → rv_routes (routes W w) !! rt_key r = Some r) as Hall.
  { intros r [Hr|[Hr|Hr]%elem_of_app]%elem_of_app; [by apply S1|by apply S2|by eapply namedRoutes_spec]. }
  destruct (addRoute_spec obj (l1 ++ l2 ++ l3) (∅, [])) as (Ekeys & Esound & _ & Ecomplete); [set_solver|]. split.
  - intros r Hr. apply Esound in Hr as [Hr|[Hr Hm]]; [set_solver|]. auto.
  - intros k r Hr Hl. assert (r ∈ l1 ++ l2 ++ l3) as Hin.
    { unfold labelledFor, rt_label in Hl. apply andb_true_iff in Hl as [[_ Hn%bool_decide_eq_true]%andb_true_iff Hns].
      assert (rt_Labels r !! AgentExternalTriggerLabel = Some (sanitizeLabelValue (aet_Name obj))) as Hn'.
      { destruct (rt_Labels r !! AgentExternalTriggerLabel) as [v|]; cbn in Hn; congruence. }
      case_bool_decide as Hempty; apply bool_decide_eq_true in Hns.
      - apply elem_of_app. right. apply elem_of_app. left. eapply C2; [done|by intros n [= <-]|by constructor].
      - apply elem_of_app. left. eapply C1; [done|done|]. repeat constructor; [done|]. cbn.
        destruct (rt_Labels r !! AgentExternalTriggerNamespaceLabel) as [v|]; cbn in *; congruence. }
    assert (httpRouteManagedByTrigger r obj = true) as Hm by (unfold httpRouteManagedByTrigger; by rewrite Hl, orb_true_r).
    destruct (proj1 (Ekeys (rt_key r)) (Ecomplete r Hin Hm)) as (s & Hs & Hkey). pose proof Hs as Hs'.
    apply Esound in Hs as [Hs|[Hs _]]; [set_solver|]. apply Hall in Hs. apply Hall in Hin. rewrite Hkey, Hin in Hs. by injection Hs as ->.
Qed.

Lemma delete_step obj m w w' k r x :
  withdrawn obj m (routes W w) → rv_routes m !! k = Some r → httpRouteManagedByTrigger r obj = true → deleteRoute k w = (w', x) →
  withdrawn obj m (routes W w') ∧ (∀ k', k' ≠ k → rv_routes (routes W w') !! k' = rv_routes (routes W w) !! k')
  ∧ (gone k (routes W w') ∨ rv_routes (routes W w') = rv_routes (routes W w) ∧ ∃ e, x = inl e ∧ IsNotFound e = false).
Proof.
  intros Hw Hr Hm E. destruct (route_delete _ _ _ _ E) as [(Hv & e & -> & He)|[Hv|(s & s' & Hs & Hk & Hd & Hv)]]; rewrite Hv.
  - split_and!; [done|done|]. destruct (IsNotFound e) eqn:En; [left|right; eauto]. intros s Hs. rewrite He in Hs; done.
  - split_and!; [split; cbn|cbn|left].
    + apply Hw.
    + intros k' s [_ Hs]%lookup_delete_Some. by apply (wd_left _ _ _ Hw).
    + intros k' s Hs Hu. rewrite lookup_delete_ne by congruence. by apply (wd_others _ _ _ Hw).
    + intros k' Hne. by rewrite lookup_delete_ne.
    + intros s. cbn. by rewrite lookup_delete_eq.
  - apply route_key in Hs as Hks. rewrite <- Hk in Hks. split_and!; [split; cbn|cbn|left].
    + apply Hw.
    + rewrite Hks. intros k' t [[<- <-]|[_ Ht]]%lookup_insert_Some; [exists r; auto|by apply (wd_left _ _ _ Hw)].
    + rewrite Hks. intros k' t Ht Hu. rewrite lookup_insert_ne by congruence. by apply (wd_others _ _ _ Hw).
    + rewrite Hks. intros k' Hne. by rewrite lookup_insert_ne.
    + intros t. cbn. rewrite Hks, lookup_insert_eq. by intros [= <-].
Qed.

(** What a run of deletions leaves: [keep] is untouched, and routes that are gone stay so. *)
Definition deletedTo (obj : AgentExternalTrigger) (keep : option key) (m : RouteView) (w w' : W) : Prop :=
  withdrawn obj m (routes W w')
  ∧ (∀ k, keep = Some k → rv_routes (routes W w') !! k = rv_routes (routes W w) !! k)
  ∧ ∀ k, gone k (routes W w) → gone k (routes W w').

Lemma wp_deletes obj keep m l w :
  withdrawn obj m (routes W w) →
  Forall (λ r, rv_routes m !! rt_key r = Some r ∧ httpRouteManagedByTrigger r obj = true) l →
  wp (mforeach (removeRoute keep) l tt)
    (λ x w', deletedTo obj keep m w w'
      ∧ ∀ u, x = inr u → Forall (λ r, keep = Some (rt_key r) ∨ gone (rt_key r) (routes W w')) l) w.
Proof.
  intros Hw Hl. revert w Hw. induction Hl as [|r l [Hr Hm] Hl IH]; intros w Hw; cbn [mforeach].
  { apply wp_ret. by split. }
  apply wp_bind. unfold removeRoute at 1. case_bool_decide as Hkeep.
  - apply wp_ret. eapply wp_mono; [by apply IH|]. intros x w' (Hw' & Hg). split; [done|].
    intros u Hx. constructor; [by left|by eapply Hg].
  - apply wp_bind, wp_try. unfold wp at 1. destruct (deleteRoute (rt_key r) w) as [w1 y] eqn:E. cbn [fst snd].
    destruct (delete_step _ _ _ _ _ _ _ Hw Hr Hm E) as (Hw1 & Hsame & Hgone).
    assert (deletedTo obj keep m w w1) as (_ & Hk1 & Hg1).
    { split_and!; [done|intros k Hk; apply Hsame; congruence|]. intros k. unfold gone.
      destruct (decide (k = rt_key r)) as [->|Hne]; [|by rewrite (Hsame k Hne)]. by destruct Hgone as [?|[-> _]]. }
    assert (gone (rt_key r) (routes W w1) → wp (mforeach (removeRoute keep) l tt)
      (λ x w', deletedTo obj keep m w w'
        ∧ ∀ u, x = inr u → Forall (λ r, keep = Some (rt_key r) ∨ gone (rt_key r) (routes W w')) (r :: l)) w1) as Hnext.
    { intros Hg. eapply wp_mono; [by apply IH|]. intros x w' ((Hw' & Hk' & Hg') & Hx). split; [split_and!; [done|..]|].
      - intros k Hk. by rewrite Hk', Hk1.
      - auto.
      - intros u Hu. constructor; [right; by apply Hg'|by eapply Hx]. }
    destruct Hgone as [Hg|(_ & e & -> & En)].
    + destruct y as [e|[]]; [|by apply wp_ret, Hnext]. destruct (IsNotFound e); [by apply wp_ret, Hnext|].
      apply wp_fail. by split.
    + rewrite En. apply wp_fail. by split.
Qed.

(** After the deletions, a route that is labelled for the trigger is the one to keep or
    is being deleted. *)
Lemma wp_deleteStale obj keep w :
  sanitizeLabelValue (aet_Name obj) ≠ "" →
  wp (deleteStaleHTTPRoutes settings obj keep) (λ x w', withdrawn obj (routes W w) (routes W w')
    ∧ (∀ k, keep = Some k → rv_routes (routes W w') !! k = rv_routes (routes W w) !! k)
    ∧ ∀ u, x = inr u → ∀ k r, rv_routes (routes W w') !! k = Some r → labelledFor r obj = true → keep = Some k ∨ deleting r) w.
Proof.
  intros Hname. unfold deleteStaleHTTPRoutes. apply wp_bind, wp_read.
  destruct (listManagedHTTPRoutes settings obj w) as [e|l] eqn:E.
  { split_and!; [apply withdrawn_refl|done|done]. }
  destruct (listManaged_spec _ _ _ Hname E) as [Hsound Hcomplete].
  eapply wp_mono; [apply (wp_deletes obj keep (routes W w) l); [apply withdrawn_refl|by apply Forall_forall]|].
  intros x w' ((Hw & Hk & _) & Hx). split_and!; [done|done|]. intros u Hu k r' Hr' Hl.
  destruct (wd_left _ _ _ Hw k r' Hr') as (r & Hr & [->|Hd]); [|by right].
  pose proof (route_key _ _ _ Hr) as Hkey. specialize (Hcomplete k r Hr Hl). specialize (Hx u Hu).
  rewrite Forall_forall in Hx. destruct (Hx r Hcomplete) as [Hkeep|Hg]; rewrite Hkey in *; [by left|right; by apply Hg].
Qed.
(** ** Exposing a route *)

(** The route of the trigger is up; the others are as they were. *)
Record exposed (obj : AgentExternalTrigger) (desired : HTTPRoute) (m m' : RouteView) : Prop := mkExposed {
  ex_triggers : rv_triggers m' = rv_triggers m;
  ex_others k : k ≠ rt_key desired → rv_routes m' !! k = rv_routes m !! k;
  ex_mine r : rv_routes m !! rt_key desired = Some r → httpRouteManagedByTrigger r obj = false → m' = m }.
Definition routeUp (desired : HTTPRoute) (m : RouteView) : Prop :=
  ∃ r, rv_routes m !! rt_key desired = Some r ∧ rt_Spec r = rt_Spec desired
    ∧ ∀ a v, rt_Labels desired !! a = Some v → rt_Labels r !! a = Some v.

Lemma wp_takeRoute obj desired existing m w :
  httpRouteManagedByTrigger desired obj = true → exposed obj desired m (routes W w) →
  rv_routes (routes W w) !! rt_key desired = Some existing →
  wp (takeRoute obj desired existing) (λ x w', exposed obj desired m (routes W w')
    ∧ ∀ r, x = inr r → routeUp desired (routes W w')) w.
Proof.
  intros Hd He Hr. unfold takeRoute. destruct (httpRouteManagedByTrigger existing obj) eqn:Em; cbn [negb]; [|by apply wp_fail].
  apply wp_bind, wp_try. unfold wp at 1. destruct (patchRoute _ _ _ w) as [w1 y] eqn:E. cbn [fst snd].
  pose proof (route_key _ _ _ Hr) as Hkey.
  destruct (route_patch _ _ _ _ _ _ E) as [(Hv & e & ->)|(r & r' & Hr0 & Hk & Hnew & Hv)].
  { apply wp_fail. by rewrite Hv. }
  rewrite Hkey, Hr in Hr0. injection Hr0 as <-. destruct (Hnew eq_refl) as [Hl Hs]. rewrite Hkey in Hk.
  assert (exposed obj desired m (routes W w1)) as He1.
  { rewrite Hv. split; cbn.
    - apply He.
    - intros k Hne. rewrite Hk, lookup_insert_ne by done. by apply (ex_others _ _ _ _ He).
    - intros r Hrm Hu. pose proof (ex_mine _ _ _ _ He r Hrm Hu) as Hm. rewrite Hm, Hrm in Hr. congruence. }
  destruct y as [e|stored]; [by apply wp_fail|]. apply wp_ret. split; [done|]. intros _ _. rewrite Hv. exists r'. cbn.
  rewrite Hk, lookup_insert_eq. split_and!; [done|by rewrite Hs|]. intros a v Ha. rewrite Hl. cbn.
  by apply lookup_union_Some_l.
Qed.
Lemma wp_ensureHTTPRoute obj desired w :
  httpRouteManagedByTrigger desired obj = true →
  wp (ensureHTTPRoute obj desired) (λ x w', exposed obj desired (routes W w) (routes W w')
    ∧ ∀ r, x = inr r → routeUp desired (routes W w')) w.
Proof.
  intros Hd. assert (exposed obj desired (routes W w) (routes W w)) as Hrefl by by split.
  unfold ensureHTTPRoute. apply wp_bind, wp_try, wp_read.
  destruct (getRoute _ _ w) as [e|existing] eqn:Eg; [|apply wp_takeRoute; [done|done|by apply route_get in Eg]].
  destruct (IsNotFound e); [|case_match; by apply wp_fail]. apply wp_bind, wp_try. unfold wp at 1.
  destruct (createRoute desired w) as [w1 y] eqn:E. cbn [fst snd].
  assert (exposed obj desired (routes W w) (routes W w1) ∧ ∀ r, y = inr r → routeUp desired (routes W w1)) as [He Hup].
  { destruct (route_create _ _ _ _ E) as [(Hv & e' & ->)|(r' & Hn & Hk & Hl & Hs & Hv)]; rewrite Hv; [by split|]. split; [split; cbn|].
    - done.
    - intros k Hne. by rewrite Hk, lookup_insert_ne.
    - intros r Hr. congruence.
    - intros _ _. exists r'. cbn. rewrite Hk, lookup_insert_eq. split_and!; [done|done|]. by rewrite Hl. }
  destruct y as [e'|stored]; [|apply wp_ret; split; [done|]; intros r [= <-]; by eapply Hup].
  destruct (IsAlreadyExists e'); [|by apply wp_fail]. apply wp_bind, wp_read.
  destruct (getRoute _ _ w1) as [e2|existing] eqn:Eg1; [done|]. apply wp_takeRoute; [done|done|by apply route_get in Eg1].
Qed.

(** ** The routes of a trigger *)

Definition routeOf (obj : AgentExternalTrigger) (path rns : string) (k : key) (r : HTTPRoute) : Prop :=
  k = (rns, agentExternalTriggerHTTPRouteName obj) ∧ hr_Hostnames (rt_Spec r) ≠ []
  ∧ Forall (λ h, forallb hostChar (bytes h) = true ∧ h ≠ "") (hr_Hostnames (rt_Spec r))
  ∧ ∃ backends, hr_Rules (rt_Spec r) = [mkHTTPRouteRule [mkHTTPPathMatch PathMatchExact (TrimSpace path)] backends].
Definition configured (rns : string) : Prop :=
  Validate (rset_HTTPRoute settings) = None ∧ httpRouteNamespace settings = inr rns.

(** The effect on routes: those of others are as they were, and what is new is the
    route of the trigger. *)
Record confined (obj : AgentExternalTrigger) (m m' : RouteView) : Prop := mkConfined {
  cn_triggers k : k ≠ aet_key obj → rv_triggers m' !! k = rv_triggers m !! k;
  cn_others (k : key) r : rv_routes m !! k = Some r → httpRouteManagedByTrigger r obj = false → rv_routes m' !! k = Some r;
  cn_new (k : key) r' : rv_routes m !! k = None → rv_routes m' !! k = Some r' → ∃ rns, configured rns ∧ k = (rns, agentExternalTriggerHTTPRouteName obj) }.

Lemma withdrawn_confined obj m m' : withdrawn obj m m' → confined obj m m'.
Proof. intros Hw. split; [by rewrite (wd_triggers _ _ _ Hw)|apply Hw|]. intros k r' Hn Hr'. destruct (wd_left _ _ _ Hw k r' Hr') as (r & Hr & _). by rewrite Hn in Hr. Qed.
Lemma exposed_confined obj desired m m1 m' rns :
  rt_key desired = (rns, agentExternalTriggerHTTPRouteName obj) → configured rns →
  exposed obj desired m m1 → withdrawn obj m1 m' → confined obj m m'.
Proof.
  intros Hk Hc He Hw. split.
  - by rewrite (wd_triggers _ _ _ Hw), (ex_triggers _ _ _ _ He).
  - intros k r Hr Hu. apply (wd_others _ _ _ Hw k r); [|done]. destruct (decide (k = rt_key desired)) as [->|Hne].
    + by rewrite (ex_mine _ _ _ _ He r Hr Hu).
    + by rewrite (ex_others _ _ _ _ He).
  - intros k r' Hn Hr'. exists rns. split; [done|]. destruct (wd_left _ _ _ Hw k r' Hr') as (r & Hr & _).
    destruct (decide (k = rt_key desired)) as [->|Hne]; [done|]. rewrite (ex_others _ _ _ _ He k Hne) in Hr. by rewrite Hn in Hr.
Qed.
Lemma namespace_trimmed rns : httpRouteNamespace settings = inr rns → TrimSpace rns = rns ∧ rns ≠ "".
Proof.
  unfold httpRouteNamespace. case_bool_decide as Hr; [done|]. intros [= <-]. split; [|done].
  unfold resolvedRouteNamespace, controllerPodNamespace. repeat case_match; try done; apply TrimSpace_idem.
Qed.

(** What the routes are like when the trigger is to be exposed, or not. *)
Definition settled (obj : AgentExternalTrigger) (expose : bool) (path : string) (m : RouteView) : Prop :=
  (∀ k r, rv_routes m !! k = Some r → labelledFor r obj = true → ¬ deleting r →
     expose = true ∧ ∃ rns, configured rns ∧ routeOf obj path rns k r)
  ∧ ∀ rns, expose = true → configured rns → ∃ k r, rv_routes m !! k = Some r ∧ labelledFor r obj = true ∧ routeOf obj path rns k r.

Lemma wp_detachRoute obj now reason message status expose path w :
  sanitizeLabelValue (aet_Name obj) ≠ "" → (expose = true → ∀ rns, ¬ configured rns) →
  wp (detachRoute settings obj now reason message status) (λ x w', confined obj (routes W w) (routes W w')
    ∧ ∀ y, x = inr y → settled obj expose path (routes W w')) w.
Proof.
  intros Hname Hno. unfold detachRoute, deleteManagedHTTPRoutes. apply wp_bind. eapply wp_mono; [by apply wp_deleteStale|].
  intros x w' (Hw & _ & Hx). apply withdrawn_confined in Hw. destruct x as [e|u]; [done|]. apply wp_ret. split; [done|].
  intros y _. split.
  - intros k r Hr Hl Hd. by destruct (Hx u eq_refl k r Hr Hl).
  - intros rns He Hc. by destruct (Hno He rns).
Qed.

Lemma wp_reconcileHTTPRoute obj now expose status w :
  managesHTTPRoutes settings = true → sanitizeLabelValue (aet_Name obj) ≠ "" → sanitizeLabelValue (aet_Namespace obj) ≠ "" →
  (expose = true → validateAgentExternalTriggerSpec obj = None) → blank (exs_WebhookPath status) = false →
  wp (reconcileHTTPRoute settings obj now expose status) (λ x w', confined obj (routes W w) (routes W w')
    ∧ ∀ y, x = inr y → settled obj (expose && negb (blank (exs_ReceiverID status))) (exs_WebhookPath status) (routes W w')) w.
Proof.
  intros Hm Hname Hns Hvalid Hpath. unfold reconcileHTTPRoute. rewrite Hm, Hpath, orb_false_r. cbn [negb].
  destruct (negb expose || blank (exs_ReceiverID status)) eqn:Ee.
  { apply wp_detachRoute; [done|]. by destruct expose, (blank (exs_ReceiverID status)). }
  apply orb_false_iff in Ee as [->%negb_false_iff ->]. cbn [andb negb]. specialize (Hvalid eq_refl).
  destruct (Validate (rset_HTTPRoute settings)) as [message|] eqn:Ev.
  { apply wp_detachRoute; [done|]. intros _ rns [? _]. congruence. }
  destruct (httpRouteNamespace settings) as [e|rns] eqn:En.
  { apply wp_detachRoute; [done|]. intros _ rns [_ ?]. congruence. }
  destruct (namespace_trimmed _ En) as [Ht Hrns].
  destruct (hostnames_total _ _ Hvalid Ev) as (hs & Eh & Hhs). pose proof (hostnames_exact _ _ _ Eh) as Hexact. rewrite Eh.
  destruct (build_total obj (rset_HTTPRoute settings) hs (exs_WebhookPath status) rns) as [desired Ed]; [done|by rewrite Ht|done..|].
  rewrite Ed. apply build_spec in Ed as (Hkey & Hlabels & _ & Hhosts & backends & Hrules). rewrite Ht in Hkey.
  assert (configured rns) as Hc by done.
  assert (httpRouteManagedByTrigger desired obj = true) as Hmine.
  { unfold httpRouteManagedByTrigger. rewrite labels_managed, orb_true_r; [done|done|]. by rewrite Hlabels. }
  apply wp_bind. eapply wp_mono; [by apply wp_ensureHTTPRoute|]. intros [e|route] w1 [He Hup].
  { split; [|done]. eapply exposed_confined; [done|done|done|apply withdrawn_refl]. }
  apply wp_bind. eapply wp_mono; [by apply wp_deleteStale|]. intros x w2 (Hw & Hkeep & Hx).
  pose proof (exposed_confined _ _ _ _ _ _ Hkey Hc He Hw) as Hconf. destruct x as [e|u]; [done|]. apply wp_ret. split; [done|].
  intros y _. destruct (Hup route eq_refl) as (r & Hr & Hspec & Hl). rewrite <- (Hkeep _ eq_refl) in Hr.
  assert (routeOf obj (exs_WebhookPath status) rns (rt_key desired) r) as Hof.
  { unfold routeOf. rewrite Hspec, Hhosts. split_and!; [done|done| |by exists backends].
    eapply Forall_impl; [exact Hexact|]. intros h [? ?]. by apply exact_hostname. }
  split.
  - intros k s Hs Hls Hd. split; [done|]. exists rns. split; [done|].
    destruct (Hx u eq_refl k s Hs Hls) as [Hk|?]; [|done]. injection Hk as <-. rewrite Hr in Hs. by injection Hs as <-.
  - intros rns' _ [_ Hrns']. rewrite En in Hrns'. injection Hrns' as <-. exists (rt_key desired), r. split_and!; [done| |done].
    apply labels_managed; [done|]. rewrite <- Hlabels. exact Hl.
Qed.

Lemma confined_refl obj m : confined obj m m.
Proof. apply withdrawn_confined, withdrawn_refl. Qed.
Lemma confined_triggers obj m m1 m2 :
  confined obj m m1 → rv_routes m2 = rv_routes m1 → (∀ k, k ≠ aet_key obj → rv_triggers m2 !! k = rv_triggers m1 !! k) → confined obj m m2.
Proof.
  intros Hc Hr Ht. split; [|rewrite Hr; apply Hc..]. intros k Hk. by rewrite (Ht k Hk), (cn_triggers _ _ _ Hc).
Qed.
(** What is not the status or a finalizer of the trigger decides the rest. *)
Lemma confined_same obj obj' m m1 m2 :
  sameTriggerStatus obj obj' → rv_routes m1 = rv_routes m → (∀ k, k ≠ aet_key obj → rv_triggers m1 !! k = rv_triggers m !! k) →
  confined obj' m1 m2 → confined obj m m2.
Proof.
  intros [(Hk & Hu & _ & _) _] Hr Ht Hc. pose proof Hk as Hk'. injection Hk as Hns Hname. split.
  - intros k Hne. rewrite (cn_triggers _ _ _ Hc), Ht by congruence. done.
  - intros k r. rewrite <- Hr. unfold httpRouteManagedByTrigger, labelledFor. rewrite <- Hns, <- Hname, <- Hu. apply Hc.
  - intros k r. rewrite <- Hr. unfold agentExternalTriggerHTTPRouteName. rewrite <- Hns, <- Hname. apply Hc.
Qed.
Lemma settled_same obj obj' expose path m : sameTriggerStatus obj obj' → settled obj' expose path m → settled obj expose path m.
Proof.
  intros [(Hk & _) _]. injection Hk as Hns Hname. unfold settled, labelledFor, routeOf, agentExternalTriggerHTTPRouteName.
  by rewrite Hns, Hname.
Qed.

(** Whether a trigger that is not being deleted is to be exposed, and its path. *)
Definition receiverOf (obj : AgentExternalTrigger) (random : GoErr + list N) : string :=
  if blank (exs_ReceiverID (aet_Status obj)) then match random with inr buf => hexEncode buf | inl _ => "" end
  else exs_ReceiverID (aet_Status obj).
Definition admitted (obj : AgentExternalTrigger) (random : GoErr + list N) : bool :=
  bool_decide (validateAgentExternalTriggerSpec obj = None) && negb (ext_Suspend (aet_Spec obj)) && negb (blank (receiverOf obj random)).
Definition pathOf (obj : AgentExternalTrigger) (random : GoErr + list N) : string :=
  externalTriggerWebhookPath (aet_Namespace obj) (aet_Name obj) (receiverOf obj random).

Lemma wp_liveTrigger obj random clock w :
  sanitizeLabelValue (aet_Name obj) ≠ "" → sanitizeLabelValue (aet_Namespace obj) ≠ "" →
  wp (reconcileLiveTrigger settings obj random clock) (λ x w', confined obj (routes W w) (routes W w')
    ∧ (managesHTTPRoutes settings = true → ∀ res, x = inr res → settled obj (admitted obj random) (pathOf obj random) (routes W w'))) w.
Proof.
  intros Hname Hns. unfold reconcileLiveTrigger.
  assert (∀ receiver, receiver = receiverOf obj random →
    wp (let '(status, exposeRoute) := triggerStatus obj receiver (clock 0%nat) in
        mbnd (reconcileHTTPRoute settings obj (clock 1%nat) exposeRoute status) (λ routed,
        mbnd (patchAgentExternalTriggerStatus obj routed.2) (λ _, mret routed.1)))
      (λ x w', confined obj (routes W w) (routes W w') ∧ (managesHTTPRoutes settings = true →
        ∀ res, x = inr res → settled obj (admitted obj random) (pathOf obj random) (routes W w'))) w) as Hgo.
  2:{ unfold receiverOf in Hgo. destruct (blank (exs_ReceiverID (aet_Status obj))); [|by apply Hgo].
      destruct random as [e|buf]; [|by apply Hgo]. apply wp_fail. split; [apply confined_refl|done]. }
  intros receiver ->. destruct (triggerStatus obj _ _) as [status expose] eqn:Et.
  assert (exs_WebhookPath status = pathOf obj random ∧ exs_ReceiverID status = receiverOf obj random
    ∧ (expose = true → validateAgentExternalTriggerSpec obj = None)
    ∧ admitted obj random = expose && negb (blank (exs_ReceiverID status))) as (Hp & Hrec & Hval & Hadm).
  { unfold triggerStatus in Et. unfold admitted. destruct (validateAgentExternalTriggerSpec obj) as [[]|].
    - by injection Et as <- <-.
    - destruct (ext_Suspend (aet_Spec obj)); by injection Et as <- <-. }
  rewrite Hadm, <- Hp. apply wp_bind.
  eapply (wp_mono _ (λ x w', confined obj (routes W w) (routes W w') ∧ (managesHTTPRoutes settings = true → ∀ y, x = inr y →
    settled obj (expose && negb (blank (exs_ReceiverID status))) (exs_WebhookPath status) (routes W w')))).
  { destruct (managesHTTPRoutes settings) eqn:Em.
    - eapply wp_mono; [apply wp_reconcileHTTPRoute; try done|].
      + rewrite Hp. apply webhookPath_nonblank.
      + intros x w' [Hc Hx]. by split.
    - unfold reconcileHTTPRoute. rewrite Em. apply wp_ret. split; [apply confined_refl|done]. }
  intros [e|routed] w1 [Hc Hx]; [by split|]. apply wp_bind.
  eapply (wp_mono _ (λ x w', rv_routes (routes W w') = rv_routes (routes W w1)
    ∧ ∀ k, k ≠ aet_key obj → rv_triggers (routes W w') !! k = rv_triggers (routes W w1) !! k)).
  { unfold patchAgentExternalTriggerStatus. apply wp_bind, wp_try, wp_read.
    assert (wp (patchTriggerStatus (aet_key obj) (aet_Status obj) routed.2) (λ x w', rv_routes (routes W w') = rv_routes (routes W w1)
      ∧ ∀ k, k ≠ aet_key obj → rv_triggers (routes W w') !! k = rv_triggers (routes W w1) !! k) w1) as Hp1.
    { unfold wp. destruct (patchTriggerStatus _ _ _ w1) as [w2 y] eqn:E. by apply route_patchStatus in E. }
    destruct (getTrigger _ _ w1); [destruct (IsNotFound _); [by apply wp_ret|done]|done]. }
  intros x w2 [Hr Ht]. assert (confined obj (routes W w) (routes W w2)) as Hc2 by by eapply confined_triggers.
  destruct x as [e|u]; [by split|]. apply wp_ret. split; [done|]. intros Hm res _. specialize (Hx Hm _ eq_refl).
  unfold settled in *. by rewrite Hr.
Qed.

Lemma wp_removeRouteFinalizer namespace name obj m w :
  aet_key obj = (namespace, name) → confined obj m (routes W w) →
  wp (removeHTTPRouteFinalizer namespace name) (λ _ w', confined obj m (routes W w') ∧ rv_routes (routes W w') = rv_routes (routes W w)) w.
Proof.
  intros Hk Hc. unfold removeHTTPRouteFinalizer. apply wp_bind, wp_try, wp_read.
  destruct (getTrigger namespace name w) as [e|t] eqn:E; [by case_match|]. apply route_getTrigger in E as [_ Ek].
  destruct (hasRouteFinalizer t); [|by apply wp_ret]. cbn [negb]. apply wp_bind, wp_try. unfold wp at 1.
  destruct (patchTriggerFinalizers _ _ w) as [w1 y] eqn:Ep. cbn [fst snd]. apply route_patchFinalizers in Ep as (Hr & Ht & _).
  assert (confined obj m (routes W w1)) as Hc1 by (eapply confined_triggers; [done|done|]; intros k; rewrite Hk, <- Ek; apply Ht).
  destruct y; [|by apply wp_ret]. case_match; [by apply wp_ret|by apply wp_fail].
Qed.

Definition live (obj : AgentExternalTrigger) : bool := bool_decide (setTime (meta_DeletionTimestamp (aet_ObjectMeta obj)) = None).
Lemma wp_reconcileExternalTrigger namespace name random clock obj w :
  rv_triggers (routes W w) !! (namespace, name) = Some obj →
  sanitizeLabelValue (aet_Name obj) ≠ "" → sanitizeLabelValue (aet_Namespace obj) ≠ "" →
  wp (reconcileExternalTrigger settings namespace name random clock) (λ x w', confined obj (routes W w) (routes W w')
    ∧ (managesHTTPRoutes settings = true → ∀ res, x = inr res → res ≠ requeueNow →
         settled obj (live obj && admitted obj random) (pathOf obj random) (routes W w'))) w.
Proof.
  intros Hobj Hname Hns. unfold reconcileExternalTrigger. apply wp_bind, wp_try, wp_read.
  destruct (getTrigger namespace name w) as [e|t] eqn:E.
  { destruct (IsNotFound e) eqn:En; [by rewrite (route_getTrigger_notfound _ _ _ _ E En) in Hobj|].
    apply wp_fail. split; [apply confined_refl|done]. }
  apply route_getTrigger in E as [E Ek]. assert (t = obj) as -> by congruence. unfold live.
  case_bool_decide as Hdel.
  - rewrite bool_decide_false by done. cbn [andb]. apply wp_bind.
    eapply (wp_mono _ (λ x w', confined obj (routes W w) (routes W w') ∧ (managesHTTPRoutes settings = true → ∀ u, x = inr u →
      settled obj false (pathOf obj random) (routes W w')))).
    { case_match eqn:Em.
      - eapply wp_mono; [by apply wp_deleteStale|]. intros x w' (Hw & _ & Hx). split; [by apply withdrawn_confined|].
        intros _ u Hu. split; [|done]. intros k r Hr Hl Hd. by destruct (Hx u Hu k r Hr Hl).
      - apply wp_ret. split; [apply confined_refl|]. intros Hm. by rewrite Hm, orb_true_r in Em. }
    intros [e|u] w1 [Hc Hx]; [by split|]. case_match; [|apply wp_ret; split; [done|]; intros; by eapply Hx].
    eapply wp_mono; [by apply (wp_removeRouteFinalizer _ _ obj (routes W w))|]. intros x w' [Hc' Hr]. split; [done|].
    intros Hm res _ _. specialize (Hx Hm u eq_refl). unfold settled in *. by rewrite Hr.
  - rewrite bool_decide_true by done. cbn [andb].
    destruct (managesHTTPRoutes settings && negb (hasRouteFinalizer obj)).
    2:{ eapply wp_mono; [by apply wp_liveTrigger|]. intros x w' [Hc Hx]. split; [done|]. intros Hm res Hres _. by eapply Hx. }
    apply wp_bind, wp_try. unfold wp at 1. destruct (patchTriggerFinalizers _ _ w) as [w1 y] eqn:Ep. cbn [fst snd].
    apply route_patchFinalizers in Ep as (Hr & Ht & Hsame).
    destruct y as [e|obj'].
    { assert (confined obj (routes W w) (routes W w1)) by (eapply confined_triggers; [apply confined_refl|done|done]).
      case_match; [apply wp_ret; split; [done|congruence]|by apply wp_fail]. }
    destruct (Hsame obj' eq_refl) as (t & Ht0 & Hs). rewrite Ek in Ht0.
    assert (Some t = Some obj) as [= ->] by (etransitivity; [symmetry; exact Ht0|exact Hobj]).
    assert (aet_Name obj' = aet_Name obj ∧ aet_Namespace obj' = aet_Namespace obj) as [Hn' Hns'].
    { destruct Hs as [(Hk & _) _]. by injection Hk. }
    eapply wp_mono; [apply wp_liveTrigger; by rewrite ?Hn', ?Hns'|]. intros x w' [Hc Hx]. split; [by eapply confined_same|].
    intros Hm res Hres _. apply (settled_same _ _ _ _ _ Hs). specialize (Hx Hm res Hres). revert Hx.
    destruct Hs as [(_ & _ & _ & Hspec) Hst]. unfold admitted, pathOf, receiverOf, validateAgentExternalTriggerSpec.
    by rewrite Hspec, Hst, Hn', Hns'.
Qed.

(** C12: a pass that does not ask to be repeated leaves a trigger with the routes it should
    have.  A labelled route that is not being deleted is there only for a trigger that
    is not being deleted, valid and not suspended; it has the name of the trigger in
    the configured namespace, plain host names and one rule for exactly the path of
    the receiver.  A trigger that should have a route has one. *)
Theorem routes_exact namespace name random clock obj w w' res :
  managesHTTPRoutes settings = true → rv_triggers (routes W w) !! (namespace, name) = Some obj →
  sanitizeLabelValue (aet_Name obj) ≠ "" → sanitizeLabelValue (aet_Namespace obj) ≠ "" →
  reconcileExternalTrigger settings namespace name random clock w = (w', inr res) → res ≠ requeueNow →
  let exposed := live obj && admitted obj random in
  (∀ k r, rv_routes (routes W w') !! k = Some r → labelledFor r obj = true → ¬ deleting r →
     exposed = true ∧ ∃ rns, configured rns ∧ routeOf obj (pathOf obj random) rns k r)
  ∧ ∀ rns, exposed = true → configured rns →
      ∃ k r, rv_routes (routes W w') !! k = Some r ∧ labelledFor r obj = true ∧ routeOf obj (pathOf obj random) rns k r.
Proof.
  intros Hm Hobj Hname Hns E Hres. pose proof (wp_elim _ _ _ _ _ (wp_reconcileExternalTrigger _ _ random clock _ _ Hobj Hname Hns) E) as [_ Hx].
  exact (Hx Hm res eq_refl Hres).
Qed.

(** What marks a route as one of the trigger: the trigger is its controller, or it
    carries the labels of the controller with the name and the namespace of the trigger
    as label values; a route without the label of the namespace is marked in the
    trigger's own namespace. *)
Definition markedFor (obj : AgentExternalTrigger) (r : HTTPRoute) : Prop :=
  (∃ o, o ∈ meta_OwnerReferences (rt_ObjectMeta r) ∧ own_Controller o = Some true ∧ own_UID o = aet_UID obj)
  ∨ rt_Labels r !! "app.kubernetes.io/managed-by" = Some "anvil-agents"
    ∧ rt_Labels r !! "app.kubernetes.io/component" = Some "external-trigger-httproute"
    ∧ rt_Labels r !! "control.anvil.hazyforge.io/agent-external-trigger" = Some (sanitizeLabelValue (aet_Name obj))
    ∧ (rt_Labels r !! "control.anvil.hazyforge.io/agent-external-trigger-namespace" = Some (sanitizeLabelValue (aet_Namespace obj))
       ∨ default "" (rt_Labels r !! "control.anvil.hazyforge.io/agent-external-trigger-namespace") = ""
         ∧ rt_Namespace r = aet_Namespace obj).

Lemma label_some (m : gmap string string) l v : v ≠ "" → default "" (m !! l) = v → m !! l = Some v.
Proof. intros Hv. destruct (m !! l); cbn; [by intros ->|]. intros E. by destruct Hv. Qed.

Lemma managed_marked obj r :
  sanitizeLabelValue (aet_Name obj) ≠ "" → sanitizeLabelValue (aet_Namespace obj) ≠ "" →
  httpRouteManagedByTrigger r obj = true → markedFor obj r.
Proof.
  intros Hn Hns. unfold httpRouteManagedByTrigger. intros [Hc|Hl]%orb_true_iff; [left|right].
  - unfold IsControlledBy in Hc. destruct (GetControllerOf _) as [o|] eqn:Eo; [|done]. apply bool_decide_eq_true in Hc.
    apply find_some in Eo as [Hin Ho]. exists o. split; [by apply list_elem_of_In|]. split; [|done].
    by destruct (own_Controller o) as [[]|].
  - unfold labelledFor, rt_label in Hl. apply andb_true_iff in Hl as [Hl Hx]. apply andb_true_iff in Hl as [Hl Ht].
    apply andb_true_iff in Hl as [Hm Hcomp]. apply bool_decide_eq_true in Hm, Hcomp, Ht.
    split_and!; [by apply label_some..|]. revert Hx.
    case_bool_decide as He; intros Hx%bool_decide_eq_true; [by right|left]. by apply label_some.
Qed.

(** C16: whatever the outcome of a pass, with errors that hide a write included: a route
    that is not marked as one of the trigger is as it was, so the labelled routes of
    every trigger whose name or namespace is another label value are; a new route has the
    name of the trigger in the configured namespace; and other triggers are untouched.  A
    route marked with the same label values is taken for the trigger's own
    ([triggers_share_route]). *)
Theorem routes_confined namespace name random clock obj w w' x :
  rv_triggers (routes W w) !! (namespace, name) = Some obj →
  sanitizeLabelValue (aet_Name obj) ≠ "" → sanitizeLabelValue (aet_Namespace obj) ≠ "" →
  reconcileExternalTrigger settings namespace name random clock w = (w', x) →
  (∀ (k : key) r, rv_routes (routes W w) !! k = Some r → ¬ markedFor obj r → rv_routes (routes W w') !! k = Some r)
  ∧ (∀ (k : key) r t, rv_routes (routes W w) !! k = Some r → meta_OwnerReferences (rt_ObjectMeta r) = [] →
       rt_Labels r = agentExternalTriggerHTTPRouteLabels t → sanitizeLabelValue (aet_Namespace t) ≠ "" →
       (sanitizeLabelValue (aet_Name t), sanitizeLabelValue (aet_Namespace t))
         ≠ (sanitizeLabelValue (aet_Name obj), sanitizeLabelValue (aet_Namespace obj)) →
       rv_routes (routes W w') !! k = Some r)
  ∧ (∀ (k : key) r', rv_routes (routes W w) !! k = None → rv_routes (routes W w') !! k = Some r' →
       ∃ rns, configured rns ∧ k = (rns, agentRunChildName [aet_Namespace obj; aet_Name obj; "webhook"]))
  ∧ ∀ k, k ≠ aet_key obj → rv_triggers (routes W w') !! k = rv_triggers (routes W w) !! k.
Proof.
  intros Hobj Hname Hns E.
  pose proof (proj1 (wp_elim _ _ _ _ _ (wp_reconcileExternalTrigger _ _ random clock _ _ Hobj Hname Hns) E)) as Hc.
  assert (∀ (k : key) r, rv_routes (routes W w) !! k = Some r → ¬ markedFor obj r → rv_routes (routes W w') !! k = Some r) as Hothers.
  { intros k r Hr Hm. apply (cn_others _ _ _ Hc k r Hr). destruct (httpRouteManagedByTrigger r obj) eqn:Em; [|done].
    destruct Hm. by apply managed_marked. }
  split_and!; [exact Hothers| |apply Hc|apply Hc].
  intros k r t Hr Ho Hl Ht Hne. apply (Hothers k r Hr). intros [(o & Hin & _)|(_ & _ & Hln & Hlns)].
  { rewrite Ho in Hin. by apply not_elem_of_nil in Hin. }
  rewrite Hl in Hln, Hlns. apply Hne. f_equal; [by injection Hln|].
  destruct Hlns as [Hlns|[Hlns _]]; [by injection Hlns|]. by destruct Ht.
Qed.
End routes.
