(* ===== verification/TriggerMem.v ===== *)
(** * An in-memory cluster for external triggers

    A concrete server for the webhook receiver and the controller of triggers, with a
    proof that it satisfies the laws of [WebhookSafety] and [TriggerSafety].  The
    witnesses and the examples run both on it. *)

From stdpp Require Import base list gmap strings.
From Stdlib Require Import ZArith Lia.
From S2P Require Import Prelude GoStrings GoTime Sha256 Hmac Names ApiRun ApiWork ApiVolume ApiTrigger Kube MemKube Fixtures RunControl Merge Capabilities Composition RunOutput RunPayload RunJob ChainSpec Schedule DataVolumes ProfileStatus Webhook WebhookSafety TriggerRoutes TriggerSafety.

Open Scope Z_scope.

Record TriggerWorld := mkTriggerWorld {
  tw_triggers : gmap key AgentExternalTrigger;
  tw_runs : gmap key AgentRun;
  tw_routes : gmap key HTTPRoute;
  tw_secrets : gmap key (gmap string string);
  tw_councils : gmap key AgentCouncil;
  tw_next : nat }.
#[export] Instance eta_TriggerWorld : Eta TriggerWorld := λ w, mkTriggerWorld
  (tw_triggers w) (tw_runs w) (tw_routes w) (tw_secrets w) (tw_councils w) (tw_next w).

(** Objects that are stored under another name are not visible. *)
Definition keyed {A} (keyOf : A → key) (objects : gmap key A) : gmap key A := filter (λ ka, keyOf ka.2 = ka.1) objects.
Definition tw_hooks (w : TriggerWorld) : Hooks := mkHooks (keyed aet_key (tw_triggers w)) (keyed run_key (tw_runs w)).
Definition tw_view (w : TriggerWorld) : RouteView := mkRouteView (keyed aet_key (tw_triggers w)) (keyed rt_key (tw_routes w)).
Definition exists_already {A} : GoErr + A := inl (ErrApi ReasonAlreadyExists "already exists").

Definition tw_storeRun (r : AgentRun) : M TriggerWorld GoErr AgentRun := λ w,
  match keyed run_key (tw_runs w) !! run_key r with
  | Some _ => (w, exists_already)
  | None =>
      let r' := r <| run_ObjectMeta := (run_ObjectMeta r) <| meta_UID := "uid-" +:+ fmtNat (tw_next w) |> |>
                  <| run_Status := zero_AgentRunStatus |> in
      (w <| tw_runs := <[run_key r := r']> (tw_runs w) |> <| tw_next := S (tw_next w) |>, inr r')
  end.
#[export] Instance trigger_runs : Client TriggerWorld := {
  getRun ns n w := found "AgentRun" (keyed run_key (tw_runs w) !! (ns, n));
  listRuns ns sel w := inr (filter (λ r, selects ns sel r = true) (map snd (map_to_list (keyed run_key (tw_runs w)))));
  createRun := tw_storeRun;
  patchRunOwners _ _ := mfail (notFound "AgentRun");
  getChain _ _ _ := inl (notFound "AgentChain");
  patchChainFinalizers _ _ := mfail (notFound "AgentChain");
  patchChainStatus _ _ := mfail (notFound "AgentChain");
  getSchedule _ _ _ := inl (notFound "AgentSchedule");
  listSchedules _ := inr [];
  patchScheduleStatus _ _ := mfail (notFound "AgentSchedule");
  getControl _ _ := inl (notFound "AgentRunControl");
  listControls _ := inr [];
  patchControlStatus _ _ := mfail (notFound "AgentRunControl");
  getProfile _ _ _ := inl (notFound "AgentRunProfile") }.
#[export] Instance trigger_library : Library TriggerWorld := {
  getHarnessProfile _ _ _ := inl (notFound "AgentHarnessProfile");
  getSkillSet _ _ _ := inl (notFound "AgentSkillSet");
  listSkillSets _ _ := inr [];
  getToolSet _ _ _ := inl (notFound "AgentToolSet");
  listToolSets _ _ := inr [];
  getCouncil ns n w := found "AgentCouncil" (tw_councils w !! (ns, n)) }.

(** The patch of an object that exists, under its name. *)
Definition tw_patch {A} (keyOf : A → key) (objects : TriggerWorld → gmap key A) (set : gmap key A → TriggerWorld → TriggerWorld)
    (k : key) (f : A → A) : M TriggerWorld GoErr A := λ w,
  match keyed keyOf (objects w) !! k with
  | None => (w, inl (notFound "object"))
  | Some a => if bool_decide (keyOf (f a) = k) then (set (<[k := f a]> (objects w)) w, inr (f a))
              else (w, inl (ErrApi ReasonOther "name is immutable"))
  end.
Definition tw_patchTrigger : key → (AgentExternalTrigger → AgentExternalTrigger) → M TriggerWorld GoErr AgentExternalTrigger :=
  tw_patch aet_key tw_triggers (λ m w, w <| tw_triggers := m |>).
Definition annotated (a v : string) (r : AgentRun) : AgentRun :=
  r <| run_ObjectMeta := (run_ObjectMeta r) <| meta_Annotations := <[a := v]> (run_Annotations r) |> |>.
#[export] Instance trigger_client : TriggerClient TriggerWorld := {
  getTrigger ns n w := found "AgentExternalTrigger" (keyed aet_key (tw_triggers w) !! (ns, n));
  patchTriggerStatus k _ new := mbnd (tw_patchTrigger k (λ t, t <| aet_Status := new |>)) (λ _, mret tt);
  getSecretData ns n w := found "Secret" (tw_secrets w !! (ns, n));
  patchRunAnnotation k a v :=
    mbnd (tw_patch run_key tw_runs (λ m w, w <| tw_runs := m |>) k (annotated a v)) (λ _, mret tt) }.

Definition tw_storeRoute (r : HTTPRoute) : M TriggerWorld GoErr HTTPRoute := λ w,
  match keyed rt_key (tw_routes w) !! rt_key r with
  | Some _ => (w, exists_already)
  | None => (w <| tw_routes := <[rt_key r := r]> (tw_routes w) |>, inr r)
  end.
Definition hasLabels (labels : list (string * string)) (r : HTTPRoute) : bool :=
  forallb (λ kv, bool_decide (rt_Labels r !! kv.1 = Some kv.2)) labels.
#[export] Instance trigger_routes : RouteClient TriggerWorld := {
  getRoute ns n w := found "HTTPRoute" (keyed rt_key (tw_routes w) !! (ns, n));
  listRoutes ns labels w := inr (filter (λ r, match ns with Some n => bool_decide (rt_Namespace r = n) | None => true end
    && hasLabels labels r = true) (map snd (map_to_list (keyed rt_key (tw_routes w)))));
  createRoute := tw_storeRoute;
  patchRoute k _ new := tw_patch rt_key tw_routes (λ m w, w <| tw_routes := m |>) k (λ _, new);
  deleteRoute k := λ w, (w <| tw_routes := delete k (tw_routes w) |>, inr tt);
  patchTriggerFinalizers k fs :=
    tw_patchTrigger k (λ t, t <| aet_ObjectMeta := (aet_ObjectMeta t) <| meta_Finalizers := fs |> |>);
  IsNoMatchError _ := false }.

(** ** The laws *)

Lemma keyed_Some {A} (keyOf : A → key) objects k a : keyed keyOf objects !! k = Some a → keyOf a = k.
Proof. by intros [_ ?]%map_lookup_filter_Some. Qed.
Lemma keyed_insert {A} (keyOf : A → key) objects k a :
  keyOf a = k → keyed keyOf (<[k := a]> objects) = <[k := a]> (keyed keyOf objects).
Proof. intros Hk. unfold keyed. by rewrite map_filter_insert_True. Qed.
Lemma keyed_delete {A} (keyOf : A → key) objects k : keyed keyOf (delete k objects) = delete k (keyed keyOf objects).
Proof. apply map_filter_delete. Qed.
Lemma in_keyed {A} (keyOf : A → key) objects k a : keyed keyOf objects !! k = Some a → a ∈ map snd (map_to_list (keyed keyOf objects)).
Proof. intros Hk. apply list_elem_of_fmap. exists (k, a). split; [done|]. by apply elem_of_map_to_list. Qed.

(** A patch changes nothing, or stores the changed object. *)
Lemma tw_patch_spec {A} (keyOf : A → key) objects set k f w w' x :
  tw_patch keyOf objects set k f w = (w', x) →
  w' = w ∧ (∃ e, x = inl e)
  ∨ ∃ a, keyed keyOf (objects w) !! k = Some a ∧ keyOf (f a) = k ∧ keyOf a = k ∧ w' = set (<[k := f a]> (objects w)) w ∧ x = inr (f a).
Proof.
  unfold tw_patch. destruct (keyed keyOf (objects w) !! k) as [a|] eqn:E; [|intros [= <- <-]; left; by eauto].
  case_bool_decide; intros [= <- <-]; [right|left; by eauto]. exists a. split_and!; try done. by eapply keyed_Some.
Qed.

#[refine, export] Instance trigger_hook_laws : WebhookLaws TriggerWorld := { hooks := tw_hooks }.
Proof.
  - intros w k r. apply keyed_Some.
  - intros w ns n t Ht%found_inr. split; [done|by apply keyed_Some in Ht].
  - intros w ns n r Hr. by apply found_inr in Hr.
  - intros w ns sel l k r [= <-] Hk Hm. apply list_elem_of_filter. split; [by apply selects_matches|by eapply in_keyed].
  - intros w w' r x. cbn. unfold tw_storeRun. destruct (keyed run_key (tw_runs w) !! run_key r) eqn:E; intros [= <- <-]; [left; by eauto|].
    right. match goal with |- context [<[_ := ?r0]> (tw_runs w)] => exists r0 end. split; [done|]. split; [by split|]. unfold tw_hooks, putHookRun. cbn. f_equal. by rewrite keyed_insert.
  - intros w w' k v x. cbn. unfold mbnd. destruct (tw_patch _ _ _ _ _ w) as [w1 y] eqn:E.
    apply tw_patch_spec in E as [[-> [e ->]]|(r & Hr & Hk & Hk' & -> & ->)]; intros [= <- <-]; [left; by eauto|].
    right. exists r, (annotated AgentExternalTriggerDeliveryAnnotation v r). split_and!; [done| |].
    + split; try done. intros a Ha. cbn. by rewrite lookup_insert_ne.
    + unfold tw_hooks, putHookRun. cbn. f_equal. rewrite keyed_insert by done. by rewrite <- Hk'.
  - intros w w' k base new x. cbn. unfold mbnd, tw_patchTrigger. destruct (tw_patch _ _ _ _ _ w) as [w1 y] eqn:E.
    apply tw_patch_spec in E as [[-> [e ->]]|(t & Ht & Hk & Hk' & -> & ->)]; intros [= <- <-]; [left; by eauto|].
    right. exists t, (t <| aet_Status := new |>). split_and!; [done|done|done|].
    unfold tw_hooks, putTrigger. cbn. f_equal. rewrite keyed_insert by done. by rewrite <- Hk'.
Defined.

#[refine, export] Instance trigger_route_laws : RouteLaws TriggerWorld := { routes := tw_view }.
Proof.
  - intros w k r. apply keyed_Some.
  - intros w ns n t Ht%found_inr. split; [done|by apply keyed_Some in Ht].
  - intros w ns n e He _. by apply found_inl in He.
  - intros w ns n r Hr. by apply found_inr in Hr.
  - intros w ns labels l r [= <-] [_ Hr]%list_elem_of_filter. apply list_elem_of_fmap in Hr as ([k r'] & -> & Hr).
    apply elem_of_map_to_list in Hr. cbn. by rewrite (keyed_Some _ _ _ _ Hr).
  - intros w ns labels l k r [= <-] Hk Hns Hl. apply list_elem_of_filter. split; [|by eapply in_keyed].
    apply andb_true_iff. split; [destruct ns; [|done]; apply bool_decide_eq_true; by apply Hns|].
    apply forallb_forall. intros kv Hkv. rewrite Forall_forall in Hl. apply bool_decide_eq_true, Hl. by apply list_elem_of_In.
  - done.
  - intros w w' r x. cbn. unfold tw_storeRoute. destruct (keyed rt_key (tw_routes w) !! rt_key r) eqn:E; intros [= <- <-]; [left; by eauto|].
    right. exists r. split_and!; try done. unfold tw_view, putRoute. cbn. f_equal. by rewrite keyed_insert.
  - intros w w' k base new x E. apply tw_patch_spec in E as [[-> [e ->]]|(r & Hr & Hk & Hk' & -> & ->)]; [left; by eauto|].
    right. exists r, new. split_and!; [done|by rewrite Hk'|done|]. unfold tw_view, putRoute. cbn. f_equal.
    rewrite keyed_insert by done. by rewrite Hk.
  - intros w w' k x [= <- <-]. right. left. unfold tw_view. cbn. f_equal. apply keyed_delete.
  - intros w w' k base new x. cbn. unfold mbnd, tw_patchTrigger. destruct (tw_patch _ _ _ _ _ w) as [w1 y] eqn:E.
    apply tw_patch_spec in E as [[-> [e ->]]|(t & Ht & Hk & Hk' & -> & ->)]; intros [= <- <-]; [done|]. split; [done|].
    intros k' Hne. cbn. rewrite keyed_insert by done. by rewrite lookup_insert_ne.
  - intros w w' k fs x E. apply tw_patch_spec in E as [[-> [e ->]]|(t & Ht & Hk & Hk' & -> & ->)]; [done|].
    split_and!; [done| |].
    + intros k' Hne. cbn. rewrite keyed_insert by done. by rewrite lookup_insert_ne.
    + intros t' [= <-]. by exists t.
Defined.

(** ** Objects *)

(** A decoder that reads one push of the repository acme/shop into every body. *)
#[export] Instance fx_payloads : PayloadDecoder := λ _,
  Some (mkPayload "" "acme/shop" "shop" "acme" "ada" 0 "" 0 "" "refs/heads/main" "" "" "").
#[export] Instance fx_notes : Marshal DeliveryNote := λ note, Some (dn_deliveryID note).

Definition fx_receiver : string := "0123456789abcdef".
Definition fx_trigger (name : string) (targets : list AgentExternalTriggerTargetSpec) (cap : Z) : AgentExternalTrigger :=
  mkAgentExternalTrigger (fx_meta "agents" name ("uid-" +:+ name) fx_epoch ∅)
    (mkAgentExternalTriggerSpec false
       (mkAgentExternalTriggerSourceSpec AgentExternalTriggerSourceGitHubWebhook
          (Some (mkAgentExternalTriggerGitHubSpec ["acme/shop"] ["push"])))
       (mkAgentExternalTriggerSecretRef "hook" "" "pathToken") targets None "" AgentExternalTriggerConcurrencyAllow cap)
    (zero_AgentExternalTriggerStatus <| exs_ReceiverID := fx_receiver |> <| exs_Phase := AgentExternalTriggerPhaseReady |>).
Definition fx_profile (name : string) : AgentExternalTriggerTargetSpec :=
  mkAgentExternalTriggerTargetSpec AgentExternalTriggerTargetAgentRunProfile name "".
Definition fx_council : AgentCouncil :=
  mkAgentCouncil (fx_meta "agents" "board" "uid-board" fx_epoch ∅)
    (mkAgentCouncilSpec ""
       [mkAgentCouncilMemberSpec "critic" (mkNamespacedObjectReference "reviewer" "") "";
        mkAgentCouncilMemberSpec "judge" (mkNamespacedObjectReference "reviewer" "") ""] "").

Definition fx_token (token : string) (triggers : list AgentExternalTrigger) : TriggerWorld :=
  mkTriggerWorld (list_to_map (map (λ t, (aet_key t, t)) triggers)) ∅ ∅
    {[ ("agents", "hook") := {[ DefaultWebhookSecretKey := "key"; "pathToken" := token ]} ]}
    {[ ("agents", "board") := fx_council ]} 0.
Definition fx_hooks : list AgentExternalTrigger → TriggerWorld := fx_token "open sesame".

(** A push, signed with the key of the trigger. *)
Definition fx_body : string := "{}".
Definition fx_signature : string :=
  githubSignaturePrefix +:+ hexEncode (hmacSha256 (byteCodes "key") (byteCodes fx_body)).
Definition fx_push (name delivery token : string) : WebhookRequest :=
  mkWebhookRequest "agents" name fx_receiver fx_signature token delivery "push" (inr fx_body).
Definition post (name delivery token : string) (w : TriggerWorld) : TriggerWorld * (GoErr + Response) :=
  handleExternalTriggerWebhook true true (fx_push name delivery token) fx_epoch w.
Definition pushed (name delivery : string) (w : TriggerWorld) : TriggerWorld := (post name delivery "open sesame" w).1.

(** The status of an answer, and whether it repeats an earlier one. *)
Definition answer (x : GoErr + Response) : Z * bool :=
  match x with
  | inl _ => (0, false)
  | inr (ApiError status _ _) => (status, false)
  | inr (Delivered status duplicate _ _) => (status, duplicate)
  end.
Definition runsOf (w : TriggerWorld) : nat := length (map_to_list (hk_runs (hooks _ w))).

(** ** Examples *)

Definition fx_one : TriggerWorld := fx_hooks [fx_trigger "push" [fx_profile "triage"] 2].

(** A push creates a run; the same delivery again is answered as a duplicate; the
    third delivery of the day exceeds the cap; a bad signature is refused. *)
Example deliveries :
  answer (post "push" "d-1" "open sesame" fx_one).2 = (202, false) ∧ runsOf (pushed "push" "d-1" fx_one) = 1%nat
  ∧ answer (post "push" "d-1" "open sesame" (pushed "push" "d-1" fx_one)).2 = (200, true)
  ∧ answer (post "push" "d-3" "open sesame" (pushed "push" "d-2" (pushed "push" "d-1" fx_one))).2 = (429, false)
  ∧ answer (handleExternalTriggerWebhook true true (mkWebhookRequest "agents" "push" fx_receiver "sha256=00" "open sesame" "d-1"
              "push" (inr fx_body)) fx_epoch fx_one).2 = (401, false).
Proof. vm_compute. repeat split. Qed.

(** Two members of a council with one profile get one run between them: the name of a
    run is made of trigger, delivery and profile. *)
Example council_members_share_run :
  let w := fx_hooks [fx_trigger "push" [mkAgentExternalTriggerTargetSpec AgentExternalTriggerTargetAgentCouncil "board" ""] 0] in
  answer (post "push" "d-1" "open sesame" w).2 = (202, false) ∧ runsOf (pushed "push" "d-1" w) = 1%nat.
Proof. vm_compute. repeat split. Qed.

(** A delivery that failed after its first target left a run that refuses the retry,
    when runs of the trigger exclude each other. *)
Example partial_delivery_blocks_retry :
  let t := fx_trigger "push" [fx_profile "triage"; mkAgentExternalTriggerTargetSpec AgentExternalTriggerTargetAgentRun "gone" ""] 0 in
  let w := fx_hooks [t <| aet_Spec := (aet_Spec t) <| ext_ConcurrencyPolicy := AgentExternalTriggerConcurrencyForbid |> |>] in
  answer (post "push" "d-1" "open sesame" w).2 = (503, false) ∧ runsOf (pushed "push" "d-1" w) = 1%nat
  ∧ answer (post "push" "d-1" "open sesame" (pushed "push" "d-1" w)).2 = (409, false).
Proof. vm_compute. repeat split. Qed.

(** ** Witnesses *)

Lemma post_eq name delivery token w :
  handleExternalTriggerWebhook true true (fx_push name delivery token) fx_epoch w
  = ((post name delivery token w).1, (post name delivery token w).2).
Proof. unfold post. apply surjective_pairing. Qed.
Lemma pushed_eq name delivery w :
  handleExternalTriggerWebhook true true (fx_push name delivery "open sesame") fx_epoch w
  = (pushed name delivery w, (post name delivery "open sesame" w).2).
Proof. unfold pushed. apply post_eq. Qed.

Lemma pushed_changes : hooks _ (pushed "push" "d-1" fx_one) ≠ hooks _ fx_one.
Proof.
  intros E. assert (runsOf (pushed "push" "d-1" fx_one) = runsOf fx_one) as Hr by (unfold runsOf; by rewrite E).
  assert (runsOf (pushed "push" "d-1" fx_one) = 1%nat) as H1 by (vm_compute; reflexivity).
  assert (runsOf fx_one = 0%nat) as H0 by (vm_compute; reflexivity). lia.
Qed.

Lemma webhook_authenticated_witness :
  answer (post "push" "d-1" "open sesame" fx_one).2 = (202, false)
  ∧ ∃ trigger body payload repo summary, authentic (fx_push "push" "d-1" "open sesame") trigger body fx_one
      ∧ parseGitHubWebhookPayload body = Some (payload, repo, summary)
      ∧ admissible (fx_push "push" "d-1" "open sesame") trigger repo fx_epoch (hooks _ fx_one).
Proof.
  split; [vm_compute; reflexivity|].
  exact (proj2 (proj2 (proj2 (webhook_authenticated true true (fx_push "push" "d-1" "open sesame") fx_epoch fx_one _ _
           (pushed_eq "push" "d-1" fx_one)) pushed_changes))).
Defined.

Lemma webhook_confined_witness :
  ∃ trigger delivery, hk_triggers (hooks _ fx_one) !! aet_key trigger = Some trigger
    ∧ dl_DeliveryID delivery = "d-1"
    ∧ ∀ k r', hk_runs (hooks _ (pushed "push" "d-1" fx_one)) !! k = Some r' → hk_runs (hooks _ fx_one) !! k = None →
        rs_SourceUID (run_Spec r') = aet_UID trigger.
Proof.
  destruct (webhook_confined true true (fx_push "push" "d-1" "open sesame") fx_epoch fx_one _ _ (pushed_eq "push" "d-1" fx_one) pushed_changes)
    as (t & d & Ht & Hd & _ & _ & _ & Hnew).
  exists t, d. split; [exact Ht|]. split; [exact Hd|]. intros k r' Hr' Hn.
  destruct (Hnew k r' Hr' Hn) as (_ & _ & _ & _ & _ & Hu). exact Hu.
Defined.

Lemma redelivery_ignored_witness :
  let w := pushed "push" "d-1" fx_one in
  answer (post "push" "d-1" "open sesame" w).2 = (200, true) ∧ hooks _ (pushed "push" "d-1" w) = hooks _ w.
Proof.
  intros w. split; [vm_compute; reflexivity|].
  assert ((post "push" "d-1" "open sesame" fx_one).2 = inr (Delivered 202 false "d-1"
            [mkNamespacedObjectReference (externalTriggerRunName "push" "d-1" "triage") "agents"])) as E by (vm_compute; reflexivity).
  assert (handleExternalTriggerWebhook true true (fx_push "push" "d-1" "open sesame") fx_epoch fx_one = (w, inr (Delivered 202 false "d-1"
            [mkNamespacedObjectReference (externalTriggerRunName "push" "d-1" "triage") "agents"]))) as E'
    by (rewrite <- E; apply pushed_eq).
  exact (redelivery_ignored true true (fx_push "push" "d-1" "open sesame") fx_epoch fx_one w "d-1" _
           true true (fx_push "push" "d-1" "open sesame") fx_epoch w _ _ E' eq_refl eq_refl eq_refl eq_refl (pushed_eq "push" "d-1" w)).
Defined.

Lemma daily_cap_kept_witness :
  let w1 := pushed "push" "d-1" fx_one in
  let w2 := pushed "push" "d-2" w1 in
  let n := 0 + acceptedAt ("agents", "push") (fx_push "push" "d-1" "open sesame") (post "push" "d-1" "open sesame" fx_one).2
             + acceptedAt ("agents", "push") (fx_push "push" "d-2" "open sesame") (post "push" "d-2" "open sesame" w1).2
             + acceptedAt ("agents", "push") (fx_push "push" "d-3" "open sesame") (post "push" "d-3" "open sesame" w2).2 in
  n = 2 ∧ n ≤ 2.
Proof.
  intros w1 w2 n. split; [vm_compute; reflexivity|].
  assert (hk_triggers (hooks _ fx_one) !! ("agents", "push") = Some (fx_trigger "push" [fx_profile "triage"] 2)) as Ht
    by (vm_compute; reflexivity).
  refine (daily_cap_kept ("agents", "push") (FormatDay fx_epoch) 2 fx_one (pushed "push" "d-3" w2) n _ Ht _ eq_refl _ _).
  - assert (FormatDay fx_epoch = "2026-01-01") as -> by (vm_compute; reflexivity). discriminate.
  - unfold maxInt64. lia.
  - apply (day_request _ _ fx_one _ w2 true true (fx_push "push" "d-3" "open sesame") fx_epoch); [|reflexivity|apply pushed_eq].
    apply (day_request _ _ fx_one _ w1 true true (fx_push "push" "d-2" "open sesame") fx_epoch); [|reflexivity|apply pushed_eq].
    apply (day_request _ _ fx_one _ fx_one true true (fx_push "push" "d-1" "open sesame") fx_epoch); [|reflexivity|apply pushed_eq].
    apply day_start.
Defined.

(** A token that ends in a line break is never matched. *)
Lemma padded_token_refuses_all_witness :
  let w := fx_token ("open sesame" +:+ nl) [fx_trigger "push" [fx_profile "triage"] 2] in
  answer (post "push" "d-1" ("open sesame" +:+ nl) w).2 = (401, false)
  ∧ hooks _ (post "push" "d-1" ("open sesame" +:+ nl) w).1 = hooks _ w.
Proof.
  intros w. split; [vm_compute; reflexivity|].
  assert (hk_triggers (hooks _ w) !! ("agents", "push") = Some (fx_trigger "push" [fx_profile "triage"] 2)) as Ht
    by (vm_compute; reflexivity).
  assert (loadExternalTriggerSecrets (fx_trigger "push" [fx_profile "triage"] 2) w = inr ("key", "open sesame" +:+ nl)) as Hl
    by (vm_compute; reflexivity).
  refine (padded_token_refuses_all true true (fx_push "push" "d-1" ("open sesame" +:+ nl)) fx_epoch w _ _ _ "key"
    ("open sesame" +:+ nl) Ht Hl _ (post_eq _ _ _ w)).
  assert (TrimSpace ("open sesame" +:+ nl) = "open sesame") as -> by (vm_compute; reflexivity). discriminate.
Defined.

(** ** Routes *)

Definition fx_settings : RouteSettings :=
  mkRouteSettings true
    (mkRouteConfig true [mkParentRef "" "" "gateways" "public" "https" 0] ["hooks.example.org"] "run-api" "anvil" 8080 "")
    "anvil-system" None.
Definition routeTime (n : nat) : Time := fx_epoch + Z.of_nat n * Second.
Definition routed (name : string) (w : TriggerWorld) : TriggerWorld :=
  (reconcileExternalTrigger fx_settings "agents" name (inr []) routeTime w).1.
Lemma routed_eq name w :
  reconcileExternalTrigger fx_settings "agents" name (inr []) routeTime w
  = (routed name w, (reconcileExternalTrigger fx_settings "agents" name (inr []) routeTime w).2).
Proof. unfold routed. apply surjective_pairing. Qed.
Definition suspended (w : TriggerWorld) : TriggerWorld :=
  w <| tw_triggers := (λ t, t <| aet_Spec := (aet_Spec t) <| ext_Suspend := true |> |>) <$> tw_triggers w |>.
Definition routePaths (w : TriggerWorld) : list (key * list string) :=
  map (λ kr, (kr.1, map pm_Value (concat (map rr_Matches (hr_Rules (rt_Spec kr.2)))))) (map_to_list (rv_routes (routes _ w))).

(** The route of a trigger, and that it goes when the trigger is suspended. *)
Example route_comes_and_goes :
  routePaths (routed "push" fx_one)
  = [(("anvil-system", "agents-push-webhook"), ["/api/v1/external-triggers/agents/push/0123456789abcdef"])]
  ∧ routePaths (routed "push" (suspended (routed "push" fx_one))) = [].
Proof. vm_compute. split; reflexivity. Qed.

Lemma routes_exact_witness :
  ∃ k r, rv_routes (routes _ (routed "push" fx_one)) !! k = Some r
    ∧ routeOf (fx_trigger "push" [fx_profile "triage"] 2) (pathOf (fx_trigger "push" [fx_profile "triage"] 2) (inr [])) "anvil-system" k r.
Proof.
  set (t := fx_trigger "push" [fx_profile "triage"] 2).
  assert (rv_triggers (routes _ fx_one) !! ("agents", "push") = Some t) as Ht by (vm_compute; reflexivity).
  assert ((reconcileExternalTrigger fx_settings "agents" "push" (inr []) routeTime fx_one).2 = inr (mkResult false agentExternalTriggerHTTPRoutePoll))
    as Eres by (vm_compute; reflexivity).
  pose proof (routed_eq "push" fx_one) as E. rewrite Eres in E.
  assert (sanitizeLabelValue (aet_Name t) = "push" ∧ sanitizeLabelValue (aet_Namespace t) = "agents") as [Hn Hns]
    by (split; vm_compute; reflexivity).
  assert (live t && admitted t (inr []) = true) as Hx by (vm_compute; reflexivity).
  assert (configured fx_settings "anvil-system") as Hc by (split; vm_compute; reflexivity).
  destruct (proj2 (routes_exact fx_settings "agents" "push" (inr []) routeTime t fx_one _ _ eq_refl Ht
    ltac:(rewrite Hn; discriminate) ltac:(rewrite Hns; discriminate) E ltac:(discriminate)) "anvil-system" Hx Hc) as (k & r & Hr & _ & Hof).
  exists k, r. exact (conj Hr Hof).
Defined.

(** The route of another trigger beside that of [push]. *)
Definition fx_foreign : HTTPRoute :=
  mkHTTPRoute ((fx_meta "anvil-system" "agents-deploy-webhook" "uid-route" fx_epoch
    (agentExternalTriggerHTTPRouteLabels (fx_trigger "deploy" [fx_profile "triage"] 2)))) (mkHTTPRouteSpec [] [] []) [].
Definition fx_both : TriggerWorld := fx_one <| tw_routes := {[ rt_key fx_foreign := fx_foreign ]} |>.

Lemma routes_confined_witness :
  map fst (routePaths (routed "push" fx_both)) = [("anvil-system", "agents-deploy-webhook"); ("anvil-system", "agents-push-webhook")]
  ∧ rv_routes (routes _ (routed "push" fx_both)) !! rt_key fx_foreign = Some fx_foreign.
Proof.
  split; [vm_compute; reflexivity|].
  set (t := fx_trigger "push" [fx_profile "triage"] 2).
  assert (rv_triggers (routes _ fx_both) !! ("agents", "push") = Some t) as Ht by (vm_compute; reflexivity).
  assert (rv_routes (routes _ fx_both) !! rt_key fx_foreign = Some fx_foreign) as Hr by (vm_compute; reflexivity).
  assert (sanitizeLabelValue (aet_Name t) = "push" ∧ sanitizeLabelValue (aet_Namespace t) = "agents") as [Hn Hns]
    by (split; vm_compute; reflexivity).
  destruct (routes_confined fx_settings "agents" "push" (inr []) routeTime t fx_both _ _ Ht
    ltac:(rewrite Hn; discriminate) ltac:(rewrite Hns; discriminate) (routed_eq "push" fx_both)) as (_ & Hlabelled & _).
  assert (sanitizeLabelValue "deploy" = "deploy" ∧ sanitizeLabelValue "agents" = "agents") as [Hd Ha] by (split; vm_compute; reflexivity).
  apply (Hlabelled (rt_key fx_foreign) fx_foreign (fx_trigger "deploy" [fx_profile "triage"] 2) Hr eq_refl eq_refl).
  - change (sanitizeLabelValue "agents" ≠ ""). rewrite Ha. discriminate.
  - rewrite Hn, Hns. change ((sanitizeLabelValue "deploy", sanitizeLabelValue "agents") ≠ ("push", "agents")).
    rewrite Hd, Ha. discriminate.
Defined.
