(* ===== verification/ApiAccess.v ===== *)
(** * Access to the run API

    src/internal/runapi/config.go, auth.go and the middleware of server.go: the
    configuration with its normal form and validation, what a verified token says of
    its bearer, which permissions bindings grant, and the checks every request of the
    console passes before its handler runs.  Tokens are verified by a library, which
    is a parameter. *)

From stdpp Require Import base list gmap strings.
From Stdlib Require Import ZArith Lia.
From S2P Require Import Prelude GoStrings GoTime ApiRun Kube RunPayload.

Open Scope Z_scope.

(** ** Configuration *)

Definition PermissionRunsRead : string := "anvil-agents:runs:read".
Definition PermissionRunsStream : string := "anvil-agents:runs:stream".
Definition PermissionRunsCreate : string := "anvil-agents:runs:create".
Definition PermissionCompositionRead : string := "anvil-agents:composition:read".
Definition PermissionCompositionWrite : string := "anvil-agents:composition:write".
Definition PermissionControlsRead : string := "anvil-agents:controls:read".
Definition PermissionControlsWrite : string := "anvil-agents:controls:write".
Definition PermissionChatRead : string := "anvil-agents:chat:read".
Definition PermissionChatWrite : string := "anvil-agents:chat:write".
Definition knownPermissions : list string :=
  [PermissionRunsRead; PermissionRunsStream; PermissionRunsCreate; PermissionCompositionRead; PermissionCompositionWrite;
   PermissionControlsRead; PermissionControlsWrite; PermissionChatRead; PermissionChatWrite].

Record CompositionConfig := mkCompositionConfig { cpc_ReadEnabled : bool; cpc_WriteEnabled : bool }.
Record ControlsConfig := mkControlsConfig { ctc_ReadEnabled : bool; ctc_WriteEnabled : bool }.
Record ChatConfig := mkChatConfig { chc_Enabled : bool; chc_JevIntentEnabled : bool; chc_JevModel : string }.
#[export] Instance eta_ChatConfig : Eta ChatConfig := λ c, mkChatConfig (chc_Enabled c) (chc_JevIntentEnabled c) (chc_JevModel c).
Record StandingConfig := mkStandingConfig { sdc_LiveEnabled : bool; sdc_GenerateActorClasses : list string }.
#[export] Instance eta_StandingConfig : Eta StandingConfig := λ c, mkStandingConfig (sdc_LiveEnabled c) (sdc_GenerateActorClasses c).
Record UIConfig := mkUIConfig {
  uic_StaticDir : string; uic_ProductTitle : string; uic_DefaultNamespaces : list string;
  uic_ClientID : string; uic_Scopes : list string; uic_DesktopClientID : string }.
#[export] Instance eta_UIConfig : Eta UIConfig := λ c, mkUIConfig
  (uic_StaticDir c) (uic_ProductTitle c) (uic_DefaultNamespaces c) (uic_ClientID c) (uic_Scopes c) (uic_DesktopClientID c).
Record OIDCConfig := mkOIDCConfig {
  oid_Issuer : string; oid_Audiences : list string; oid_AllowedSigningAlgorithms : list string;
  oid_AdditionalJWKSHosts : list string; oid_CAFile : string; oid_AllowInsecureIssuer : bool;
  oid_DiscoveryRetryInterval : Duration; oid_DiscoveryRefreshInterval : Duration; oid_DiscoveryRequestTimeout : Duration }.
#[export] Instance eta_OIDCConfig : Eta OIDCConfig := λ c, mkOIDCConfig
  (oid_Issuer c) (oid_Audiences c) (oid_AllowedSigningAlgorithms c) (oid_AdditionalJWKSHosts c) (oid_CAFile c)
  (oid_AllowInsecureIssuer c) (oid_DiscoveryRetryInterval c) (oid_DiscoveryRefreshInterval c) (oid_DiscoveryRequestTimeout c).
Record AuthorizationBinding := mkAuthorizationBinding {
  bnd_Name : string; bnd_Roles : list string; bnd_Groups : list string; bnd_Subjects : list string; bnd_Emails : list string;
  bnd_Scopes : list string; bnd_Permissions : list string; bnd_Namespaces : list string; bnd_NamespacesFromClaim : bool }.
Record AuthorizationConfig := mkAuthorizationConfig {
  azc_ScopeClaims : list string; azc_RoleClaims : list string; azc_RoleObjectClaims : list string;
  azc_GroupClaims : list string; azc_NamespaceClaim : string; azc_Bindings : list AuthorizationBinding }.
Record StreamConfig := mkStreamConfig {
  smc_HeartbeatInterval : Duration; smc_StatusPollInterval : Duration; smc_MaxDuration : Duration;
  smc_DefaultTailLines : Z; smc_MaxTailLines : Z; smc_MaxLogBytes : Z; smc_MaxLineBytes : Z;
  smc_MaxConnections : Z; smc_MaxConnectionsPerSubject : Z }.
Record Config := mkConfig {
  cfg_BindAddress : string; cfg_OIDC : OIDCConfig; cfg_Authorization : AuthorizationConfig;
  cfg_AllowedOrigins : list string; cfg_MaxItems : Z; cfg_Stream : StreamConfig; cfg_UI : UIConfig;
  cfg_Composition : CompositionConfig; cfg_Controls : ControlsConfig; cfg_CreateEnabled : bool;
  cfg_ExternalTriggers : bool; cfg_Chat : ChatConfig; cfg_Standing : StandingConfig }.
#[export] Instance eta_Config : Eta Config := λ c, mkConfig
  (cfg_BindAddress c) (cfg_OIDC c) (cfg_Authorization c) (cfg_AllowedOrigins c) (cfg_MaxItems c) (cfg_Stream c) (cfg_UI c)
  (cfg_Composition c) (cfg_Controls c) (cfg_CreateEnabled c) (cfg_ExternalTriggers c) (cfg_Chat c) (cfg_Standing c).

Definition DefaultConfig : Config :=
  mkConfig ":8082" (mkOIDCConfig "" [] ["RS256"; "ES256"] [] "" false (15 * Second) (3600 * Second) (10 * Second))
    (mkAuthorizationConfig ["scope"; "scp"] ["roles"] [] ["groups"] "anvil_agents_namespaces" []) [] 5000
    (mkStreamConfig (15 * Second) Second (900 * Second) 200 10000 (4 * 1024 * 1024) (1024 * 1024) 50 5)
    (mkUIConfig "" "" [] "" [] "") (mkCompositionConfig false false) (mkControlsConfig false false) false false
    (mkChatConfig false false "") (mkStandingConfig false []).

(** [uniqueStrings]: trimmed, nonempty, without repetitions, in lower case on demand. *)
Fixpoint uniqueLoop (lower : bool) (values out : list string) : list string :=
  match values with
  | [] => out
  | value :: values =>
      let value := TrimSpace value in
      let value := if lower then ToLower value else value in
      uniqueLoop lower values (if negb (bool_decide (value = "")) && negb (bool_decide (value ∈ out)) then out ++ [value] else out)
  end.
Definition uniqueValues (values : list string) (lower : bool) : list string := uniqueLoop lower values [].

Definition normalizeBinding (b : AuthorizationBinding) : AuthorizationBinding :=
  mkAuthorizationBinding (TrimSpace (bnd_Name b)) (uniqueValues (bnd_Roles b) false) (uniqueValues (bnd_Groups b) false)
    (uniqueValues (bnd_Subjects b) false) (uniqueValues (bnd_Emails b) true) (uniqueValues (bnd_Scopes b) false)
    (uniqueValues (bnd_Permissions b) false) (uniqueValues (bnd_Namespaces b) false) (bnd_NamespacesFromClaim b).
Definition normalizeConfig (c : Config) : Config :=
  let oidc := cfg_OIDC c in
  let authz := cfg_Authorization c in
  c <| cfg_BindAddress := TrimSpace (cfg_BindAddress c) |>
    <| cfg_UI := (cfg_UI c) <| uic_StaticDir := TrimSpace (uic_StaticDir (cfg_UI c)) |>
         <| uic_ClientID := TrimSpace (uic_ClientID (cfg_UI c)) |>
         <| uic_DesktopClientID := TrimSpace (uic_DesktopClientID (cfg_UI c)) |> |>
    <| cfg_OIDC := oidc <| oid_Issuer := TrimSpace (oid_Issuer oidc) |> <| oid_Audiences := uniqueValues (oid_Audiences oidc) false |>
         <| oid_AllowedSigningAlgorithms := uniqueValues (oid_AllowedSigningAlgorithms oidc) false |>
         <| oid_AdditionalJWKSHosts := uniqueValues (oid_AdditionalJWKSHosts oidc) true |>
         <| oid_CAFile := TrimSpace (oid_CAFile oidc) |> |>
    <| cfg_Authorization := mkAuthorizationConfig (uniqueValues (azc_ScopeClaims authz) false) (uniqueValues (azc_RoleClaims authz) false)
         (uniqueValues (azc_RoleObjectClaims authz) false) (uniqueValues (azc_GroupClaims authz) false)
         (TrimSpace (azc_NamespaceClaim authz)) (map normalizeBinding (azc_Bindings authz)) |>
    <| cfg_AllowedOrigins := uniqueValues (cfg_AllowedOrigins c) false |>
    <| cfg_Chat := (cfg_Chat c) <| chc_JevModel := TrimSpace (chc_JevModel (cfg_Chat c)) |> |>
    <| cfg_Standing := (cfg_Standing c) <| sdc_GenerateActorClasses := uniqueValues (sdc_GenerateActorClasses (cfg_Standing c)) false |> |>.

Section validation.
Context `{NetURL}.

(** The first error of a list. *)
Fixpoint firstProblem {A} (check : nat → A → option string) (i : nat) (l : list A) : option string :=
  match l with
  | [] => None
  | a :: l => match check i a with Some e => Some e | None => firstProblem check (S i) l end
  end.
Definition permissionProblem (c : Config) (name : string) (permission : string) : option string :=
  let grants feature := Some ("authorization " +:+ name +:+ " grants " +:+ permission +:+ " but " +:+ feature +:+ " is false") in
  if negb (bool_decide (permission ∈ knownPermissions))
  then Some ("authorization " +:+ name +:+ " grants unsupported permission " +:+ quote permission)
  else if bool_decide (permission = PermissionCompositionRead) && negb (cpc_ReadEnabled (cfg_Composition c))
  then grants "composition.readEnabled"
  else if bool_decide (permission = PermissionCompositionWrite) && negb (cpc_WriteEnabled (cfg_Composition c))
  then grants "composition.writeEnabled"
  else if bool_decide (permission = PermissionRunsCreate) && negb (cfg_CreateEnabled c) then grants "runs.createEnabled"
  else if bool_decide (permission = PermissionControlsRead) && negb (ctc_ReadEnabled (cfg_Controls c))
  then grants "controls.readEnabled"
  else if bool_decide (permission = PermissionControlsWrite) && negb (ctc_WriteEnabled (cfg_Controls c))
  then grants "controls.writeEnabled"
  else if (bool_decide (permission = PermissionChatRead) || bool_decide (permission = PermissionChatWrite)) && negb (chc_Enabled (cfg_Chat c))
  then grants "chat.enabled"
  else None.
Definition bindingProblem (c : Config) (i : nat) (b : AuthorizationBinding) : option string :=
  let name := if bool_decide (bnd_Name b = "") then "binding[" +:+ fmtNat i +:+ "]" else bnd_Name b in
  if bool_decide (bnd_Roles b ++ bnd_Groups b ++ bnd_Subjects b ++ bnd_Emails b ++ bnd_Scopes b = [])
  then Some ("authorization " +:+ name +:+ " must have at least one role, group, subject, email, or scope selector")
  else if bool_decide (bnd_Permissions b = []) then Some ("authorization " +:+ name +:+ " must grant at least one permission")
  else
  match firstProblem (λ _, permissionProblem c name) 0 (bnd_Permissions b) with
  | Some e => Some e
  | None =>
      if bool_decide (bnd_Namespaces b = []) && negb (bnd_NamespacesFromClaim b)
      then Some ("authorization " +:+ name +:+ " must grant namespaces or enable namespacesFromClaim")
      else if bnd_NamespacesFromClaim b && bool_decide (azc_NamespaceClaim (cfg_Authorization c) = "")
      then Some ("authorization " +:+ name +:+ " enables namespacesFromClaim but authorization.namespaceClaim is empty")
      else None
  end.
Definition originProblem (origin : string) : option string :=
  if bool_decide (origin = "*") then Some "cors.allowedOrigins must not contain a wildcard" else
  match urlParse origin with
  | inl _ => Some ("cors.allowedOrigins contains invalid origin " +:+ quote origin)
  | inr u =>
      if bool_decide (url_Host u = "") || negb (bool_decide (url_Scheme u = "https") || bool_decide (url_Scheme u = "http"))
         || negb (bool_decide (url_Path u = "")) || negb (bool_decide (url_RawQuery u = "")) || negb (bool_decide (url_Fragment u = ""))
      then Some ("cors.allowedOrigins contains invalid origin " +:+ quote origin) else None
  end.
Definition issuerProblem (oidc : OIDCConfig) : option string :=
  let invalid := Some "oidc.issuer must be an absolute URL without query or fragment" in
  match urlParse (oid_Issuer oidc) with
  | inl _ => invalid
  | inr u =>
      if bool_decide (url_Host u = "") || negb (bool_decide (url_RawQuery u = "")) || negb (bool_decide (url_Fragment u = "")) then invalid
      else if negb (bool_decide (url_Scheme u = "https")) && negb (oid_AllowInsecureIssuer oidc && bool_decide (url_Scheme u = "http"))
      then Some "oidc.issuer must use HTTPS unless allowInsecureIssuer is explicitly enabled" else None
  end.
(** The limits of lists and streams and the features that need another. *)
Definition limitsProblem (c : Config) : option string :=
  let s := cfg_Stream c in
  if (smc_HeartbeatInterval s <=? 0) || (smc_StatusPollInterval s <=? 0) || (smc_MaxDuration s <=? 0)
  then Some "stream durations must be positive"
  else if (cfg_MaxItems c <? 1) || (100000 <? cfg_MaxItems c) then Some "list.maxItems must be between 1 and 100000"
  else if (smc_DefaultTailLines s <? 0) || (smc_MaxTailLines s <? 1) || (smc_MaxTailLines s <? smc_DefaultTailLines s)
  then Some "stream tail line limits are invalid"
  else if (smc_MaxLogBytes s <? 1) || (smc_MaxLineBytes s <? 1024) then Some "stream byte limits are invalid"
  else if (smc_MaxConnections s <? 1) || (smc_MaxConnectionsPerSubject s <? 1) || (smc_MaxConnections s <? smc_MaxConnectionsPerSubject s)
  then Some "stream connection limits are invalid"
  else if cpc_WriteEnabled (cfg_Composition c) && negb (cpc_ReadEnabled (cfg_Composition c))
  then Some "composition.writeEnabled requires composition.readEnabled"
  else if ctc_WriteEnabled (cfg_Controls c) && negb (ctc_ReadEnabled (cfg_Controls c))
  then Some "controls.writeEnabled requires controls.readEnabled"
  else None.
(** [Config.Validate]; [None] when the configuration is valid. *)
Definition validateConfig (c : Config) : option string :=
  let oidc := cfg_OIDC c in
  if bool_decide (cfg_BindAddress c = "") then Some "bindAddress is required" else
  match issuerProblem oidc with
  | Some e => Some e
  | None =>
  if bool_decide (oid_Audiences oidc = []) then Some "oidc.audiences must contain at least one API audience"
  else if bool_decide (oid_AllowedSigningAlgorithms oidc = []) then Some "oidc.allowedSigningAlgorithms must not be empty"
  else if (oid_DiscoveryRetryInterval oidc <=? 0) || (oid_DiscoveryRefreshInterval oidc <=? 0) || (oid_DiscoveryRequestTimeout oidc <=? 0)
  then Some "OIDC discovery durations must be positive"
  else if bool_decide (length (azc_Bindings (cfg_Authorization c)) = 0%nat)
  then Some "authorization.bindings must contain at least one explicit grant"
  else
  match firstProblem (bindingProblem c) 0 (azc_Bindings (cfg_Authorization c)) with
  | Some e => Some e
  | None =>
      match firstProblem (λ _, originProblem) 0 (cfg_AllowedOrigins c) with
      | Some e => Some e
      | None => limitsProblem c
      end
  end
  end.

(** The key set of the issuer may be fetched from its host or an allowed one. *)
Definition validateJWKSURL (oidc : OIDCConfig) (raw : string) : option string :=
  match urlParse (TrimSpace raw) with
  | inl _ => Some "OIDC discovery returned an invalid jwks_uri"
  | inr u =>
      if bool_decide (url_Host u = "") || negb (bool_decide (url_RawQuery u = "")) || negb (bool_decide (url_Fragment u = ""))
      then Some "OIDC discovery returned an invalid jwks_uri"
      else if negb (bool_decide (url_Scheme u = "https")) && negb (oid_AllowInsecureIssuer oidc && bool_decide (url_Scheme u = "http"))
      then Some "OIDC jwks_uri must use HTTPS"
      else
      let issuerHost := match urlParse (oid_Issuer oidc) with inr i => ToLower (url_Hostname i) | inl _ => "" end in
      if negb (bool_decide (ToLower (url_Hostname u) ∈ issuerHost :: oid_AdditionalJWKSHosts oidc))
      then Some ("OIDC jwks_uri host " +:+ quote (url_Hostname u) +:+ " is not the issuer host or an allowed additional host")
      else None
  end.
End validation.

(** ** Tokens *)

Record Principal := mkPrincipal {
  prn_Subject : string; prn_Issuer : string; prn_Email : string; prn_EmailVerified : bool;
  prn_Roles : list string; prn_Groups : list string; prn_Scopes : list string; prn_Namespaces : list string; prn_Expiry : Time }.
(** A token the library verified: [itk_Claims] are its raw claims. *)
Record IDToken := mkIDToken {
  itk_Audience : list string; itk_Subject : string; itk_Issuer : string; itk_Expiry : Time;
  itk_Claims : GoErr + gmap string string }.
(** Go: [json.Unmarshal] of a claim into a list, a string, an object (its keys, in the
    order of the range) and a boolean; [None] is an error. *)
Class ClaimDecoder := {
  claimStrings : string → option (list string);
  claimString : string → option string;
  claimKeys : string → option (list string);
  claimBool : string → option bool }.

Definition intersectsStrings (expected actual : list string) (lower : bool) : bool :=
  existsb (λ e, existsb (λ a, bool_decide ((if lower then ToLower e else e) = (if lower then ToLower a else a))) actual) expected.

Section tokens.
Context `{ClaimDecoder}.

Definition claimValues (raw : string) (splitSpace objectKeys : bool) : list string :=
  if bool_decide (raw = "") then [] else
  match claimStrings raw with
  | Some values => values
  | None =>
      match claimString raw with
      | Some value => if splitSpace then Fields value else [value]
      | None => if objectKeys then default [] (claimKeys raw) else []
      end
  end.
(** [claims[name]]: a claim that is missing is empty. *)
Definition rawClaim (claims : gmap string string) (name : string) : string := default "" (claims !! name).
Definition firstClaimString (claims : gmap string string) (name : string) : string := default "" (claimString (rawClaim claims name)).
Definition firstClaimBool (claims : gmap string string) (name : string) : bool := default false (claimBool (rawClaim claims name)).
Definition allClaims (claims : gmap string string) (names : list string) (splitSpace objectKeys : bool) : list string :=
  concat (map (λ name, claimValues (rawClaim claims name) splitSpace objectKeys) names).

Definition ErrAuthenticationUnavailable : string := "OIDC authentication is unavailable".
Definition ErrInvalidAccessToken : string := "invalid access token".

(** [OIDCAuthenticator.Verify]; [verifier] is there once discovery has succeeded. *)
Definition Verify (config : Config) (verifier : option (string → GoErr + IDToken)) (rawToken : string) : GoErr + Principal :=
  let authz := cfg_Authorization config in
  match verifier with
  | None => inl (ErrSentinel ErrAuthenticationUnavailable "")
  | Some verify =>
      match verify (TrimSpace rawToken) with
      | inl e => inl (ErrSentinel ErrInvalidAccessToken (errorText e))
      | inr token =>
          if negb (intersectsStrings (oid_Audiences (cfg_OIDC config)) (itk_Audience token) false)
          then inl (ErrSentinel ErrInvalidAccessToken "token audience is not accepted")
          else if blank (itk_Subject token) then inl (ErrSentinel ErrInvalidAccessToken "token subject is missing")
          else
          match itk_Claims token with
          | inl e => inl (ErrSentinel ErrInvalidAccessToken ("decode claims: " +:+ errorText e))
          | inr claims =>
              inr (mkPrincipal (TrimSpace (itk_Subject token)) (TrimSpace (itk_Issuer token)) (TrimSpace (firstClaimString claims "email"))
                (firstClaimBool claims "email_verified")
                (uniqueValues (allClaims claims (azc_RoleClaims authz) false false ++ allClaims claims (azc_RoleObjectClaims authz) false true) false)
                (uniqueValues (allClaims claims (azc_GroupClaims authz) false false) false)
                (uniqueValues (allClaims claims (azc_ScopeClaims authz) true false) false)
                (uniqueValues (if bool_decide (azc_NamespaceClaim authz = "") then []
                               else claimValues (rawClaim claims (azc_NamespaceClaim authz)) false false) false)
                (itk_Expiry token))
          end
      end
  end.
End tokens.

(** ** Permissions *)

Definition bindingMatchesPrincipal (b : AuthorizationBinding) (p : Principal) : bool :=
  if negb (bool_decide (bnd_Roles b = [])) && negb (intersectsStrings (bnd_Roles b) (prn_Roles p) false) then false
  else if negb (bool_decide (bnd_Groups b = [])) && negb (intersectsStrings (bnd_Groups b) (prn_Groups p) false) then false
  else if negb (bool_decide (bnd_Subjects b = [])) && negb (bool_decide (prn_Subject p ∈ bnd_Subjects b)) then false
  else if negb (bool_decide (bnd_Emails b = []))
          && (negb (prn_EmailVerified p) || negb (bool_decide (ToLower (prn_Email p) ∈ bnd_Emails b))) then false
  else if negb (bool_decide (bnd_Scopes b = [])) && negb (intersectsStrings (bnd_Scopes b) (prn_Scopes p) false) then false
  else true.
(** [Authorizer.Allowed]: what one binding says, and whether some binding allows it. *)
Definition bindingAllows (p : Principal) (permission namespace : string) (b : AuthorizationBinding) : bool :=
  if negb (bindingMatchesPrincipal b p) || negb (bool_decide (permission ∈ bnd_Permissions b)) then false
  else if bool_decide ("*" ∈ bnd_Namespaces b) || bool_decide (namespace ∈ bnd_Namespaces b) then true
  else bnd_NamespacesFromClaim b && (bool_decide ("*" ∈ prn_Namespaces p) || bool_decide (namespace ∈ prn_Namespaces p)).
Definition Allowed (authz : AuthorizationConfig) (p : Principal) (permission namespace : string) : bool :=
  existsb (bindingAllows p permission namespace) (azc_Bindings authz).

(** ** Requests *)

(** What the middleware looks at: the method, the Origin and Authorization headers,
    and whether the query has an access_token. *)
Record HttpRequest := mkHttpRequest {
  hq_Method : string; hq_Origin : string; hq_Authorization : list string; hq_QueryToken : bool }.
(** [writeAPIError] with its status, code and message, or an answer. *)
Inductive ApiReply (A : Type) :=
  | Problem (status : Z) (code message : string)
  | Answer (status : Z) (body : A).
#[global] Arguments Problem {A}.
#[global] Arguments Answer {A}.

Definition bearerToken (headers : list string) : option string :=
  match headers with
  | [header] =>
      match Fields header with
      | [scheme; token] => if negb (EqualFold scheme "Bearer") || blank token then None else Some token
      | _ => None
      end
  | _ => None
  end.
Definition authenticate `{ClaimDecoder} {A} (config : Config) (verifier : option (string → GoErr + IDToken)) (request : HttpRequest) :
    ApiReply A + Principal :=
  if hq_QueryToken request
  then inl (Problem 400 "query_token_rejected" "access tokens are accepted only in the Authorization header")
  else
  match bearerToken (hq_Authorization request) with
  | None => inl (Problem 401 "unauthorized" "a bearer access token is required")
  | Some rawToken =>
      match Verify config verifier rawToken with
      | inl (ErrSentinel sentinel _) =>
          if bool_decide (sentinel = ErrAuthenticationUnavailable)
          then inl (Problem 503 "authentication_unavailable" "OIDC verification is temporarily unavailable")
          else inl (Problem 401 "unauthorized" "the bearer access token is invalid")
      | inl _ => inl (Problem 401 "unauthorized" "the bearer access token is invalid")
      | inr principal => inr principal
      end
  end.
(** [cors]: the answer of a request that does not reach its handler; [None] is the
    empty answer to OPTIONS. *)
Definition corsGuard (config : Config) (request : HttpRequest) : option (option (Z * string * string)) :=
  let origin := TrimSpace (hq_Origin request) in
  if negb (bool_decide (origin = "")) && negb (bool_decide (origin ∈ cfg_AllowedOrigins config))
  then Some (Some (403, "origin_denied", "request origin is not allowed"))
  else if bool_decide (hq_Method request = "OPTIONS") then Some None
  else None.

(** ** Connections *)

(** The counters of [streamLimiter], under its mutex; [release] is what [acquire]
    returns. *)
Record streamLimiter := mkLimiter { lim_max : Z; lim_maxPerSubject : Z; lim_total : Z; lim_bySubject : gmap string Z }.
#[export] Instance eta_streamLimiter : Eta streamLimiter := λ l, mkLimiter
  (lim_max l) (lim_maxPerSubject l) (lim_total l) (lim_bySubject l).
Definition newStreamLimiter (max maxPerSubject : Z) : streamLimiter := mkLimiter max maxPerSubject 0 ∅.
Definition subjectCount (l : streamLimiter) (subject : string) : Z := default 0 (lim_bySubject l !! subject).
Definition acquire (subject : string) (l : streamLimiter) : option streamLimiter :=
  if (lim_max l <=? lim_total l) || (lim_maxPerSubject l <=? subjectCount l subject) then None
  else Some (l <| lim_total := lim_total l + 1 |>
               <| lim_bySubject := <[subject := subjectCount l subject + 1]> (lim_bySubject l) |>).
Definition release (subject : string) (l : streamLimiter) : streamLimiter :=
  let n := subjectCount l subject - 1 in
  l <| lim_total := lim_total l - 1 |>
    <| lim_bySubject := if n =? 0 then delete subject (lim_bySubject l) else <[subject := n]> (lim_bySubject l) |>.
