(* ===== verification/ApiWrites.v ===== *)
(** * Console writes

    src/internal/runapi/composition_management.go, composition.go,
    composition_harness.go, controls.go and runs_create.go: the handlers through which
    the console reads and writes composition objects, pauses applications and creates
    runs.  [serve] is a request as a whole: middleware, authentication, handler. *)

From stdpp Require Import base list gmap strings sorting.
From Stdlib Require Import ZArith Lia.
From S2P Require Import Prelude GoStrings GoTime Names ApiRun ApiWork ApiTrigger Kube RunControl Merge Capabilities Composition Webhook RunOutput RunPayload RunTerminal ApiAccess.

Open Scope Z_scope.

(** ** Management: who may change an object *)

Definition LabelManagedBy : string := "control.anvil.hazyforge.io/managed-by".
Definition ManagedByConsole : string := "anvil-agents-console".
Definition managementReasonConsoleManaged : string := "console_managed".
Definition managementReasonGitOpsProtected : string := "gitops_protected".
Definition managementReasonNotConsoleManaged : string := "not_console_managed".
Definition appManagedBy : string := "app.kubernetes.io/managed-by".

Definition isGitOpsLabelKey (key : string) : bool :=
  HasPrefix key "argocd.argoproj.io/" || HasPrefix key "kustomize.toolkit.fluxcd.io/"
  || HasPrefix key "helm.toolkit.fluxcd.io/" || HasPrefix key "helm.fluxcd.io/".
Definition isGitOpsAnnotationKey (key : string) : bool :=
  HasPrefix key "argocd.argoproj.io/" || HasPrefix key "meta.helm.sh/"
  || HasPrefix key "kustomize.toolkit.fluxcd.io/" || HasPrefix key "helm.toolkit.fluxcd.io/".
Definition gitOpsFamilyFromKey (key : string) : string :=
  if Contains key "argocd" then "argocd" else if Contains key "flux" then "flux" else if Contains key "helm" then "helm" else "gitops".
Definition gitOpsManagers : list string := ["argocd"; "helm"; "flux"; "kustomize-controller"; "helm-controller"; "kustomize"].

(** The order in which Go ranges over the keys of a map. *)
Class MapRange := {
  rangeKeys : gmap string string → list string;
  rangeKeys_all m k : k ∈ rangeKeys m ↔ is_Some (m !! k) }.

(** A label or annotation that says something. *)
Definition marked (m : gmap string string) (k : string) : bool := negb (blank (default "" (m !! k))).
(** [copyStringMap] and the loop that deletes keys. *)
Definition dropKeys (bad : string → bool) (m : gmap string string) : gmap string string := filter (λ kv, bad kv.1 = false) m.

Section management.
Context `{MapRange}.

Definition detectGitOpsManager (meta : ObjectMeta) : option string :=
  let labels := meta_Labels meta in
  let annotations := meta_Annotations meta in
  let manager := ToLower (TrimSpace (default "" (labels !! appManagedBy))) in
  if marked labels "argocd.argoproj.io/instance" then Some "argocd"
  else if marked labels "kustomize.toolkit.fluxcd.io/name" then Some "flux"
  else if marked labels "helm.toolkit.fluxcd.io/name" then Some "flux"
  else if bool_decide (manager ∈ gitOpsManagers) then Some manager
  else
  match find isGitOpsLabelKey (rangeKeys labels) with
  | Some key => Some (gitOpsFamilyFromKey key)
  | None =>
      if marked annotations "argocd.argoproj.io/tracking-id" then Some "argocd"
      else if marked annotations "meta.helm.sh/release-name" then Some "helm"
      else if marked annotations "meta.helm.sh/release-namespace" then Some "helm"
      else gitOpsFamilyFromKey <$> find isGitOpsAnnotationKey (rangeKeys annotations)
  end.

Record CompositionManagement := mkManagement { mg_Writable : bool; mg_Reason : string; mg_ManagedBy : string }.
Definition evaluateCompositionManagement (meta : ObjectMeta) : CompositionManagement :=
  match detectGitOpsManager meta with
  | Some manager => mkManagement false managementReasonGitOpsProtected manager
  | None =>
      if bool_decide (default "" (meta_Labels meta !! LabelManagedBy) = ManagedByConsole)
      then mkManagement true managementReasonConsoleManaged ManagedByConsole
      else
      let managedBy := TrimSpace (default "" (meta_Labels meta !! LabelManagedBy)) in
      mkManagement false managementReasonNotConsoleManaged (if bool_decide (managedBy = "") then "unmanaged" else managedBy)
  end.
Definition evaluateControlManagement (meta : ObjectMeta) : CompositionManagement :=
  match detectGitOpsManager meta with
  | Some manager => mkManagement false managementReasonGitOpsProtected manager
  | None =>
      let managedBy := TrimSpace (default "" (meta_Labels meta !! LabelManagedBy)) in
      mkManagement true managementReasonConsoleManaged (if bool_decide (managedBy = "") then "operator" else managedBy)
  end.
Definition compositionWriteBlockedMessage (management : CompositionManagement) : string :=
  if bool_decide (mg_Reason management = managementReasonGitOpsProtected)
  then "object is owned by GitOps (" +:+ mg_ManagedBy management +:+ "); edit the Git source of truth instead"
  else if bool_decide (mg_Reason management = managementReasonNotConsoleManaged)
  then "object is not console-managed; only objects labeled control.anvil.hazyforge.io/managed-by=anvil-agents-console can be mutated"
  else "object is not writable through the composition API".
Definition controlWriteBlockedMessage (management : CompositionManagement) : string :=
  if bool_decide (mg_Reason management = managementReasonGitOpsProtected)
  then "launch gate is owned by GitOps (" +:+ mg_ManagedBy management +:+ "); edit the Git source of truth instead"
  else "launch gate is not writable through this API".
End management.

Definition stampLabels (labels : gmap string string) : gmap string string :=
  let labels := dropKeys isGitOpsLabelKey (<[LabelManagedBy := ManagedByConsole]> labels) in
  match labels !! appManagedBy with
  | Some managedBy => if negb (EqualFold managedBy ManagedByConsole) then delete appManagedBy labels else labels
  | None => labels
  end.
Definition stampConsoleManaged (meta : ObjectMeta) : ObjectMeta :=
  meta <| meta_Labels := stampLabels (meta_Labels meta) |>
       <| meta_Annotations := dropKeys isGitOpsAnnotationKey (meta_Annotations meta) |>.

(** ** Composition objects *)

Record compositionKind := mkKind { ck_PathSegment : string; ck_Kind : string; ck_HasStatus : bool; ck_AppendOnly : bool }.
Definition compositionKinds : list compositionKind :=
  [mkKind "agent-run-profiles" "AgentRunProfile" false false;
   mkKind "agent-harness-profiles" "AgentHarnessProfile" false false;
   mkKind "agent-skill-sets" "AgentSkillSet" false false;
   mkKind "agent-tool-sets" "AgentToolSet" false false;
   mkKind "agent-councils" "AgentCouncil" false false;
   mkKind "agent-external-triggers" "AgentExternalTrigger" true false;
   mkKind "volume-profiles" "VolumeProfile" true false;
   mkKind "agent-data-volumes" "AgentDataVolume" true false;
   mkKind "agent-auth-sessions" "AgentAuthSession" true true].

Record CompositionMetadata := mkCompositionMetadata {
  cmd_Name : string; cmd_Namespace : string; cmd_UID : string; cmd_ResourceVersion : string; cmd_Generation : Z;
  cmd_CreationTimestamp : option Time; cmd_Labels : option (gmap string string); cmd_Annotations : option (gmap string string) }.
(** [cdc_Spec] and [cdc_Status] are raw JSON. *)
Record CompositionDocument := mkCompositionDocument {
  cdc_APIVersion : string; cdc_Kind : string; cdc_Metadata : CompositionMetadata; cdc_Spec : string; cdc_Status : string;
  cdc_Management : CompositionManagement }.
(** An object of any of the kinds: its metadata, and its spec and status as Go values. *)
Record CompositionObject (V : Type) := mkObject { cob_ObjectMeta : ObjectMeta; cob_Spec : V; cob_Status : V }.
#[global] Arguments mkObject {V}.
#[global] Arguments cob_ObjectMeta {V}.
#[global] Arguments cob_Spec {V}.
#[global] Arguments cob_Status {V}.
#[export] Instance eta_CompositionObject V : Eta (CompositionObject V) := λ o, mkObject (cob_ObjectMeta o) (cob_Spec o) (cob_Status o).
Definition cob_key {V} (o : CompositionObject V) : key := (meta_Namespace (cob_ObjectMeta o), meta_Name (cob_ObjectMeta o)).

(** The Go values of specs: [wrapSpec kind raw] is the JSON of an object with that kind
    and spec, [unwrapSpec] its decoding into a spec that exists, [encodeObject] the raw
    spec and status of an object, [setHarness] the assignment of a profile's
    harnessProfileRef. *)
Class SpecValues (V : Type) := {
  newSpec : string → V;
  wrapSpec : string → string → GoErr + string;
  unwrapSpec : string → V → GoErr + V;
  encodeObject : string → CompositionObject V → GoErr + (string * string);
  setHarness : option NamespacedObjectReference → V → V }.

Record ControlWriteRequest := mkControlWriteRequest {
  cwr_LaunchPolicy : string; cwr_Reason : string; cwr_ExpiresAt : string; cwr_SourceName : string; cwr_SourceURL : string;
  cwr_SourceActor : string; cwr_ResourceVersion : string }.
Record CreateAgentRunRequest := mkCreateAgentRunRequest {
  crr_Name : string; crr_GenerateName : string; crr_Prompt : string; crr_ProfileName : string; crr_HarnessProfileName : string;
  crr_SkillSetNames : list string; crr_ToolSetNames : list string; crr_Intent : string; crr_Purpose : string;
  crr_SourceKind : string; crr_SourceName : string; crr_SourceAPIVersion : string; crr_SourceNamespace : string;
  crr_Application : string; crr_ApplicationName : string; crr_PeerPrompt : string; crr_Backend : string }.
(** Go: [json.Unmarshal] of the bodies; the harness name is a pointer. *)
Class BodyDecoder := {
  decodeDocument : string → GoErr + CompositionDocument;
  decodeControl : string → GoErr + ControlWriteRequest;
  decodeRun : string → GoErr + CreateAgentRunRequest;
  decodeHarness : string → GoErr + option string }.
(** [NameIsDNSSubdomain] of k8s.io/apimachinery: what is wrong with a name or prefix. *)
Class NameRules := NameIsDNSSubdomain : string → bool → list string.

(** The client of the API server; a write returns the object as stored, and an error
    is [IsInvalid] when the object or the request was rejected. *)
Class ApiClient (V W : Type) := {
  getObject : string → string → string → W → GoErr + CompositionObject V;
  listObjects : string → string → W → GoErr + list (CompositionObject V);
  createObject : string → CompositionObject V → M W GoErr (CompositionObject V);
  updateObject : string → CompositionObject V → M W GoErr (CompositionObject V);
  deleteObject : string → key → M W GoErr unit;
  getLaunchControl : string → W → GoErr + AgentRunControl;
  listLaunchControls : W → GoErr + list AgentRunControl;
  updateControl : AgentRunControl → M W GoErr AgentRunControl;
  createConsoleRun : string → AgentRun → M W GoErr AgentRun;
  IsInvalid : GoErr → bool }.

(** [io.ReadAll] of at most one byte more than the limit; [None] is too large. *)
Definition readLimited (max : Z) (body : GoErr + string) : GoErr + option string :=
  match body with
  | inl e => inl e
  | inr raw => if max <? Z.of_nat (String.length raw) then inr None else inr (Some raw)
  end.

(** ** Runs *)

Definition createRunMaxBodyBytes : Z := 256 * 1024.
Definition createRunMaxPrompt : Z := 1024 * 1024.
Definition consoleCreatedBy : string := "anvil-agents-console".

(** [firstNonEmpty] of this package: the first value that is not blank, trimmed. *)
Fixpoint firstTrimmed (values : list string) : string :=
  match values with
  | [] => ""
  | value :: values => if bool_decide (TrimSpace value = "") then firstTrimmed values else TrimSpace value
  end.
Definition PublicCreateError (purpose : string) : string :=
  if bool_decide (purpose ∈ [AgentRunPurposeManual; AgentRunPurposeAdverseSituation; AgentRunPurposeScheduledHealthCheck]) then ""
  else if bool_decide (purpose = AgentRunPurposeChained) then "purpose " +:+ quote "chained" +:+ " is controller-only (AgentChain)"
  else if bool_decide (purpose = AgentRunPurposeInteractive)
  then "purpose " +:+ quote "interactive" +:+ " is reserved for the chat session API"
  else "invalid purpose " +:+ quote purpose.
Definition createRunPrompt (body : CreateAgentRunRequest) : string := firstTrimmed [crr_Prompt body; crr_PeerPrompt body].
Definition createRunApplication (body : CreateAgentRunRequest) : string := firstTrimmed [crr_Application body; crr_ApplicationName body].
Definition createRunBackendKind (raw : string) : string :=
  let raw := TrimSpace raw in
  if bool_decide (raw = "grok") || bool_decide (raw = AgentRunHarnessBackendGrokBuild) then AgentRunHarnessBackendGrokBuild
  else if bool_decide (raw = AgentRunHarnessBackendPrimeAgent) then AgentRunHarnessBackendPrimeAgent
  else if bool_decide (raw = AgentRunHarnessBackendAgy) then AgentRunHarnessBackendAgy
  else "".
Definition namespacedRefs (names : list string) : list NamespacedObjectReference :=
  map (λ name, mkNamespacedObjectReference name "") (uniqueValues names false).
Definition badIntent (intent : string) : bool :=
  negb (bool_decide (intent = "")) && negb (bool_decide (intent ∈ [AgentRunIntentObserve; AgentRunIntentFixTransient;
    AgentRunIntentProposeChange; AgentRunIntentCleanup])).

(** The name and the prefix of the new run. *)
Definition createRunNames `{NameRules} (body : CreateAgentRunRequest) : GoErr + (string * string) :=
  let name := TrimSpace (crr_Name body) in
  let generateName := TrimSpace (crr_GenerateName body) in
  let generateName := if bool_decide (name = "") && bool_decide (generateName = "") then "console-card-" else generateName in
  if negb (bool_decide (name = "")) && negb (bool_decide (generateName = ""))
  then inl (ErrText "set only one of name or generateName")
  else if negb (bool_decide (name = "")) && negb (bool_decide (NameIsDNSSubdomain name false = []))
  then inl (ErrText ("invalid name: " +:+ Join (NameIsDNSSubdomain name false) "; "))
  else if negb (bool_decide (generateName = "")) && negb (bool_decide (NameIsDNSSubdomain generateName true = []))
  then inl (ErrText ("invalid generateName: " +:+ Join (NameIsDNSSubdomain generateName true) "; "))
  else inr (name, generateName).
Definition createRunSpec (namespace : string) (body : CreateAgentRunRequest) (purpose : string) : AgentRunSpec :=
  let application := createRunApplication body in
  let harness := TrimSpace (crr_HarnessProfileName body) in
  let kind := createRunBackendKind (crr_Backend body) in
  let skills := namespacedRefs (crr_SkillSetNames body) in
  let tools := namespacedRefs (crr_ToolSetNames body) in
  zero_AgentRunSpec <| rs_Purpose := purpose |>
    <| rs_SourceRef := mkAgentRunSourceRef (TrimSpace (crr_SourceAPIVersion body))
         (if blank (crr_SourceKind body) then "ConsoleCard" else TrimSpace (crr_SourceKind body))
         (firstTrimmed [crr_SourceNamespace body; namespace])
         (if blank (crr_SourceName body) then "browser" else TrimSpace (crr_SourceName body)) |>
    <| rs_Prompt := createRunPrompt body |>
    <| rs_ProfileRef := Some (mkNamespacedObjectReference (TrimSpace (crr_ProfileName body)) "") |>
    <| rs_Scope := (rs_Scope zero_AgentRunSpec)
         <| scope_ApplicationRef := if bool_decide (application = "") then None else Some (mkApplicationReferenceSpec application) |> |>
    <| rs_HarnessProfileRef := if bool_decide (harness = "") then None else Some (mkNamespacedObjectReference harness "") |>
    <| rs_Harness := (rs_Harness zero_AgentRunSpec)
         <| har_Backend := (har_Backend (rs_Harness zero_AgentRunSpec)) <| be_Kind := kind |> |>
         <| har_Intent := TrimSpace (crr_Intent body) |> |>
    <| rs_SkillSets := if bool_decide (skills = []) then None else Some (mkAgentSkillCompositionSpec AgentSkillCompositionReplace skills [] false) |>
    <| rs_ToolSets := if bool_decide (tools = []) then None else Some (mkAgentToolCompositionSpec AgentToolCompositionReplace tools false) |>.
(** The generated name and the run. *)
Definition buildAgentRunFromCreateRequest `{NameRules} (namespace : string) (body : CreateAgentRunRequest) : GoErr + (string * AgentRun) :=
  if negb (bool_decide (NameIsDNSSubdomain namespace false = []))
  then inl (ErrText ("invalid namespace: " +:+ Join (NameIsDNSSubdomain namespace false) "; "))
  else
  match createRunNames body with
  | inl e => inl e
  | inr (name, generateName) =>
      let purpose := if blank (crr_Purpose body) then AgentRunPurposeManual else TrimSpace (crr_Purpose body) in
      if blank (crr_ProfileName body) then inl (ErrText "profileName is required")
      else if blank (createRunPrompt body) then inl (ErrText "prompt is required")
      else if createRunMaxPrompt <? Z.of_nat (String.length (createRunPrompt body))
      then inl (ErrText ("prompt exceeds " +:+ fmtZ createRunMaxPrompt +:+ " bytes"))
      else if negb (blank (crr_Purpose body)) && negb (bool_decide (PublicCreateError purpose = ""))
      then inl (ErrText (PublicCreateError purpose))
      else if badIntent (TrimSpace (crr_Intent body)) then inl (ErrText ("invalid intent " +:+ quote (crr_Intent body)))
      else inr (generateName, mkAgentRun
        (zero_ObjectMeta <| meta_Name := name |> <| meta_Namespace := namespace |>
           <| meta_Labels := {[ createdByLabel := consoleCreatedBy ]} |>)
        (createRunSpec namespace body purpose) zero_AgentRunStatus)
  end.

(** ** Launch gates *)

Definition controlMaxBodyBytes : Z := 256 * 1024.
Definition controlSourceFromWrite (body : ControlWriteRequest) : AgentRunControlSourceSpec :=
  let name := TrimSpace (cwr_SourceName body) in
  let url := TrimSpace (cwr_SourceURL body) in
  let actor := TrimSpace (cwr_SourceActor body) in
  if bool_decide (name = "") && bool_decide (url = "") && bool_decide (actor = "") then mkAgentRunControlSourceSpec "Operator" "" "" ""
  else mkAgentRunControlSourceSpec (if Contains (ToLower url) "github.com/" then "PullRequest" else "Operator") name url actor.
(** The checked content of a request: policy, reason and end of the pause. *)
Definition controlChange (body : ControlWriteRequest) : string + (string * string * option Time) :=
  let launchPolicy := TrimSpace (cwr_LaunchPolicy body) in
  let reason := TrimSpace (cwr_Reason body) in
  let value := TrimSpace (cwr_ExpiresAt body) in
  if negb (bool_decide (launchPolicy = AgentRunControlLaunchPolicyPaused)) && negb (bool_decide (launchPolicy = AgentRunControlLaunchPolicyAllowed))
  then inl "launchPolicy must be Paused or Allowed"
  else if bool_decide (reason = "") then inl "reason is required"
  else if negb (bool_decide (value = "")) && bool_decide (ParseRFC3339Nano value = None)
  then inl "expiresAt must be an RFC3339 timestamp"
  else
  let expiresAt := if bool_decide (value = "") then None else ParseRFC3339Nano value in
  if bool_decide (launchPolicy = AgentRunControlLaunchPolicyAllowed) && bool_decide (expiresAt ≠ None)
  then inl "expiresAt is only valid when pausing"
  else inr (launchPolicy, reason, expiresAt).
Definition controlApplication (control : AgentRunControl) : string := TrimSpace (app_Name (rc_ApplicationRef (ctl_Spec control))).
Definition controlWritten (body : ControlWriteRequest) (launchPolicy reason : string) (expiresAt : option Time) (current : AgentRunControl) :
    AgentRunControl :=
  current <| ctl_Spec := (ctl_Spec current) <| rc_LaunchPolicy := launchPolicy |> <| rc_Reason := reason |>
    <| rc_Source := Some (controlSourceFromWrite body) |>
    <| rc_ExpiresAt := if bool_decide (launchPolicy = AgentRunControlLaunchPolicyPaused) then expiresAt else None |> |>.

(** [newControlView] *)
Record ControlView := mkControlView {
  cvw_Name : string; cvw_Application : string; cvw_LaunchPolicy : string; cvw_Phase : string; cvw_Reason : string;
  cvw_ExpiresAt : option Time; cvw_Source : option AgentRunControlSourceSpec; cvw_AffectedSchedules : Z; cvw_PendingRuns : Z;
  cvw_ActiveRuns : Z; cvw_ResourceVersion : string; cvw_Generation : Z; cvw_CreatedAt : Time; cvw_Management : CompositionManagement }.
Definition newControlView `{MapRange} (control : AgentRunControl) : ControlView :=
  let meta := ctl_ObjectMeta control in
  let spec := ctl_Spec control in
  let status := ctl_Status control in
  mkControlView (meta_Name meta) (controlApplication control) (rc_LaunchPolicy spec) (rcst_Phase status) (rc_Reason spec)
    (rc_ExpiresAt spec) (rc_Source spec) (rcst_AffectedScheduleCount status) (rcst_PendingRunCount status) (rcst_ActiveRunCount status)
    (meta_ResourceVersion meta) (meta_Generation meta) (meta_CreationTimestamp meta) (evaluateControlManagement meta).

(** ** Handlers *)

Definition compositionMaxBodyBytes : Z := 2 * 1024 * 1024.
Definition compositionListDefault : Z := 50.
Definition compositionListMax : Z := 200.
Definition compositionHarnessPatchMaxBodyBytes : Z := 64 * 1024.

(** The bodies of answers; the view of a run is not spelled out. *)
Inductive Body :=
  | Document (doc : CompositionDocument)
  | Documents (docs : list CompositionDocument)
  | Text (status : string)
  | RunBody (run : AgentRun)
  | ControlBody (view : ControlView)
  | ControlBodies (views : list ControlView)
  | Empty.

Section handlers.
Context {V W : Type} `{SpecValues V, ApiClient V W, BodyDecoder, NameRules, MapRange}.
Context (config : Config) (writable : bool).
Local Open Scope go_scope.

Definition problem (status : Z) (code message : string) : M W GoErr (ApiReply Body) := mret (Problem status code message).
Definition missing : M W GoErr (ApiReply Body) := problem 404 "not_found" "resource not found".

(** The answer to a write that failed. *)
Definition writeProblem (e : GoErr) (conflict failed : string) : M W GoErr (ApiReply Body) :=
  if IsConflict e then problem 409 "conflict" conflict
  else if IsInvalid (V := V) (W := W) e then problem 400 "invalid" (errorText e)
  else problem 503 "kubernetes_unavailable" failed.

Definition authorizeCompositionKind (principal : Principal) (namespace pathSegment permission : string) : option compositionKind :=
  if negb (Allowed (cfg_Authorization config) principal permission namespace) then None else
  match find (λ k, bool_decide (ck_PathSegment k = pathSegment)) compositionKinds with
  | None => None
  | Some kind =>
      if bool_decide (pathSegment = "agent-external-triggers") && negb (cfg_ExternalTriggers config) then None else Some kind
  end.
(** The checks before a write of a composition object. *)
Definition writeGate (principal : Principal) (namespace pathSegment appendOnly : string)
    (k : compositionKind → M W GoErr (ApiReply Body)) : M W GoErr (ApiReply Body) :=
  match authorizeCompositionKind principal namespace pathSegment PermissionCompositionWrite with
  | None => missing
  | Some kind =>
      if ck_AppendOnly kind then problem 403 "append_only" appendOnly
      else if negb (cpc_WriteEnabled (cfg_Composition config))
      then problem 404 "composition_write_disabled" "composition write is disabled"
      else if negb writable then problem 503 "composition_write_disabled" "composition write client is not configured"
      else k kind
  end.

Definition readCompositionBody (body : GoErr + string) : GoErr + CompositionDocument :=
  match readLimited compositionMaxBodyBytes body with
  | inl e => inl (ErrWrap "read body" e)
  | inr None => inl (ErrText ("request body exceeds " +:+ fmtZ compositionMaxBodyBytes +:+ " bytes"))
  | inr (Some raw) =>
      match decodeDocument raw with
      | inl e => inl (ErrWrap "decode JSON body" e)
      | inr doc => if bool_decide (cdc_Spec doc = "") || bool_decide (cdc_Spec doc = "null") then inl (ErrText "spec is required") else inr doc
      end
  end.
Definition decodeSpecIntoObject (kind : compositionKind) (obj : CompositionObject V) (spec : string) : GoErr + CompositionObject V :=
  match wrapSpec (ck_Kind kind) spec with
  | inl e => inl (ErrWrap "encode spec wrapper" e)
  | inr raw =>
      match unwrapSpec raw (cob_Spec obj) with
      | inl e => inl (ErrWrap ("decode spec into " +:+ ck_Kind kind) e)
      | inr value => inr (obj <| cob_Spec := value |>)
      end
  end.
Definition newCompositionDocument (kind : compositionKind) (obj : CompositionObject V) : GoErr + CompositionDocument :=
  match encodeObject (ck_Kind kind) obj with
  | inl e => inl e
  | inr (spec, status) =>
      let meta := cob_ObjectMeta obj in
      inr (mkCompositionDocument GroupVersion (ck_Kind kind)
        (mkCompositionMetadata (meta_Name meta) (meta_Namespace meta) (meta_UID meta) (meta_ResourceVersion meta) (meta_Generation meta)
           (setTime (Some (meta_CreationTimestamp meta))) (Some (meta_Labels meta)) (Some (meta_Annotations meta)))
        spec (if ck_HasStatus kind && negb (bool_decide (status = "")) && negb (bool_decide (status = "null")) then status else "")
        (evaluateCompositionManagement meta))
  end.
(** The answer to a write that succeeded. *)
Definition written (status : Z) (word : string) (kind : compositionKind) (obj : CompositionObject V) : M W GoErr (ApiReply Body) :=
  match newCompositionDocument kind obj with
  | inl _ => mret (Answer status (Text word))
  | inr doc => mret (Answer status (Document doc))
  end.

(** The kinds of lists that [objectListItems] knows. *)
Definition listedKinds : list string :=
  ["AgentRunProfile"; "AgentHarnessProfile"; "AgentSkillSet"; "AgentToolSet"; "AgentCouncil"; "VolumeProfile"; "AgentDataVolume";
   "AgentAuthSession"].
Definition objectListItems (kind : compositionKind) (items : list (CompositionObject V)) : list (CompositionObject V) :=
  if bool_decide (ck_Kind kind ∈ listedKinds) then items else [].
Fixpoint documentsOf (kind : compositionKind) (items : list (CompositionObject V)) : GoErr + list CompositionDocument :=
  match items with
  | [] => inr []
  | item :: items =>
      match newCompositionDocument kind item with
      | inl e => inl e
      | inr doc => match documentsOf kind items with inl e => inl e | inr docs => inr (doc :: docs) end
      end
  end.
Definition parseListLimit (raw : string) : option Z :=
  if blank raw then Some compositionListDefault else
  match ParseInt32 (TrimSpace raw) with
  | Some n => if (n <? 1) || (compositionListMax <? n) then None else Some n
  | None => None
  end.
Definition handleCompositionList (principal : Principal) (namespace pathSegment limit : string) : M W GoErr (ApiReply Body) :=
  match authorizeCompositionKind principal namespace pathSegment PermissionCompositionRead with
  | None => missing
  | Some kind =>
      if negb (cpc_ReadEnabled (cfg_Composition config)) then missing else
      match parseListLimit limit with
      | None => problem 400 "invalid_limit" "limit must be between 1 and 200"
      | Some limit =>
          let* listed := mtry (mread (listObjects (ck_Kind kind) namespace)) in
          match listed with
          | inl _ => problem 503 "kubernetes_unavailable" "composition state is unavailable"
          | inr items =>
              let items := merge_sort (notAfter (λ o, meta_Name (cob_ObjectMeta o))) (objectListItems kind items) in
              match documentsOf kind (take (Z.to_nat limit) items) with
              | inl _ => problem 500 "encode_failed" "failed to encode composition object"
              | inr docs => mret (Answer 200 (Documents docs))
              end
          end
      end
  end.
Definition handleCompositionGet (principal : Principal) (namespace pathSegment name : string) : M W GoErr (ApiReply Body) :=
  match authorizeCompositionKind principal namespace pathSegment PermissionCompositionRead with
  | None => missing
  | Some kind =>
      if negb (cpc_ReadEnabled (cfg_Composition config)) then missing else
      let* got := mtry (mread (getObject (ck_Kind kind) namespace name)) in
      match got with
      | inl e => if IsNotFound e then missing else problem 503 "kubernetes_unavailable" "composition state is unavailable"
      | inr obj =>
          match newCompositionDocument kind obj with
          | inl _ => problem 500 "encode_failed" "failed to encode composition object"
          | inr doc => mret (Answer 200 (Document doc))
          end
      end
  end.

(** The object of a create: the labels and annotations of the client, stamped. *)
Definition createdMeta (namespace name : string) (metadata : CompositionMetadata) : ObjectMeta :=
  stampConsoleManaged (zero_ObjectMeta <| meta_Name := name |> <| meta_Namespace := namespace |>
    <| meta_Labels := default ∅ (cmd_Labels metadata) |> <| meta_Annotations := default ∅ (cmd_Annotations metadata) |>).
Definition handleCompositionCreate (principal : Principal) (namespace pathSegment : string) (body : GoErr + string) : M W GoErr (ApiReply Body) :=
  writeGate principal namespace pathSegment
    "AgentAuthSession objects are append-only operator intents; create them with anvil-agentctl auth, not the composition write API"
  (λ kind,
    match readCompositionBody body with
    | inl e => problem 400 "invalid_body" (errorText e)
    | inr doc =>
        let metadata := cdc_Metadata doc in
        let name := TrimSpace (cmd_Name metadata) in
        if bool_decide (name = "") then problem 400 "invalid_body" "metadata.name is required"
        else if negb (bool_decide (cmd_Namespace metadata = "")) && negb (bool_decide (cmd_Namespace metadata = namespace))
        then problem 400 "invalid_body" "metadata.namespace must match the URL namespace"
        else
        match decodeSpecIntoObject kind (mkObject zero_ObjectMeta (newSpec (ck_Kind kind)) (newSpec (ck_Kind kind))) (cdc_Spec doc) with
        | inl e => problem 400 "invalid" (errorText e)
        | inr obj =>
            let* created := mtry (createObject (ck_Kind kind) (obj <| cob_ObjectMeta := createdMeta namespace name metadata |>)) in
            match created with
            | inl e =>
                if IsAlreadyExists e then problem 409 "conflict" "resource already exists"
                else if IsInvalid (V := V) (W := W) e then problem 400 "invalid" (errorText e)
                else problem 503 "kubernetes_unavailable" "composition create failed"
            | inr obj => written 201 "created" kind obj
            end
        end
    end).

(** The metadata after an update: labels and annotations are replaced when the client
    sends them, without GitOps keys. *)
Definition updatedMeta (metadata : CompositionMetadata) (current : ObjectMeta) : ObjectMeta :=
  let meta := match cmd_Labels metadata with
              | Some labels => current <| meta_Labels := dropKeys isGitOpsLabelKey (<[LabelManagedBy := ManagedByConsole]> labels) |>
              | None => stampConsoleManaged current
              end in
  let meta := match cmd_Annotations metadata with
              | Some annotations => meta <| meta_Annotations := dropKeys isGitOpsAnnotationKey annotations |>
              | None => meta
              end in
  meta <| meta_Labels := <[LabelManagedBy := ManagedByConsole]> (meta_Labels meta) |>
       <| meta_ResourceVersion := cmd_ResourceVersion metadata |>.
Definition handleCompositionUpdate (principal : Principal) (namespace pathSegment name : string) (body : GoErr + string) :
    M W GoErr (ApiReply Body) :=
  writeGate principal namespace pathSegment "AgentAuthSession specs are immutable; create a new session with anvil-agentctl auth"
  (λ kind,
    match readCompositionBody body with
    | inl e => problem 400 "invalid_body" (errorText e)
    | inr doc =>
        let metadata := cdc_Metadata doc in
        if negb (bool_decide (cmd_Name metadata = "")) && negb (bool_decide (cmd_Name metadata = name))
        then problem 400 "invalid_body" "metadata.name must match the URL name"
        else if negb (bool_decide (cmd_Namespace metadata = "")) && negb (bool_decide (cmd_Namespace metadata = namespace))
        then problem 400 "invalid_body" "metadata.namespace must match the URL namespace"
        else if blank (cmd_ResourceVersion metadata)
        then problem 400 "invalid_body" "metadata.resourceVersion is required for updates"
        else
        let* got := mtry (mread (getObject (ck_Kind kind) namespace name)) in
        match got with
        | inl e => if IsNotFound e then missing else problem 503 "kubernetes_unavailable" "composition state is unavailable"
        | inr current =>
            let management := evaluateCompositionManagement (cob_ObjectMeta current) in
            if negb (mg_Writable management) then problem 403 (mg_Reason management) (compositionWriteBlockedMessage management)
            else if negb (bool_decide (meta_ResourceVersion (cob_ObjectMeta current) = cmd_ResourceVersion metadata))
            then problem 409 "conflict" "resourceVersion does not match the current object; reload and retry"
            else
            match decodeSpecIntoObject kind current (cdc_Spec doc) with
            | inl e => problem 400 "invalid" (errorText e)
            | inr obj =>
                let* updated := mtry (updateObject (ck_Kind kind) (obj <| cob_ObjectMeta := updatedMeta metadata (cob_ObjectMeta current) |>)) in
                match updated with
                | inl e => writeProblem e "resourceVersion conflict; reload and retry" "composition update failed"
                | inr obj => written 200 "updated" kind obj
                end
            end
        end
    end).
Definition handleCompositionDelete (principal : Principal) (namespace pathSegment name : string) : M W GoErr (ApiReply Body) :=
  writeGate principal namespace pathSegment "AgentAuthSession objects are not deleted through the composition API"
  (λ kind,
    let* got := mtry (mread (getObject (ck_Kind kind) namespace name)) in
    match got with
    | inl e => if IsNotFound e then missing else problem 503 "kubernetes_unavailable" "composition state is unavailable"
    | inr current =>
        let management := evaluateCompositionManagement (cob_ObjectMeta current) in
        if negb (mg_Writable management) then problem 403 (mg_Reason management) (compositionWriteBlockedMessage management)
        else
        let* deleted := mtry (deleteObject (ck_Kind kind) (cob_key current)) in
        match deleted with
        | inl e => if IsNotFound e then missing else problem 503 "kubernetes_unavailable" "composition delete failed"
        | inr _ => mret (Answer 204 Empty)
        end
    end).

Definition readRunProfileHarnessPatchBody (body : GoErr + string) : GoErr + string :=
  match readLimited compositionHarnessPatchMaxBodyBytes body with
  | inl e => inl e
  | inr None => inl (ErrText "unexpected EOF")
  | inr (Some raw) =>
      match decodeHarness raw with
      | inl e => inl e
      | inr None => inl (ErrText "harnessProfileName is required")
      | inr (Some name) => inr name
      end
  end.
(** The harness profile that is named exists; [None] is that it may be used. *)
Definition harnessProblem (namespace harnessName : string) (w : W) : option (Z * string * string) :=
  if bool_decide (harnessName = "") then None
  else if negb (bool_decide (NameIsDNSSubdomain harnessName false = []))
  then Some (400, "invalid", "harnessProfileName is invalid: " +:+ Join (NameIsDNSSubdomain harnessName false) "; ")
  else
  match getObject (V := V) "AgentHarnessProfile" namespace harnessName w with
  | inl e => if IsNotFound e then Some (400, "invalid", "harness profile is unavailable in this namespace")
             else Some (503, "kubernetes_unavailable", "composition state is unavailable")
  | inr _ => None
  end.
Definition handleRunProfileHarnessPatch (principal : Principal) (namespace name : string) (body : GoErr + string) : M W GoErr (ApiReply Body) :=
  match authorizeCompositionKind principal namespace "agent-run-profiles" PermissionCompositionWrite with
  | None => missing
  | Some kind =>
      if negb (cpc_ReadEnabled (cfg_Composition config)) || negb (cpc_WriteEnabled (cfg_Composition config))
      then problem 404 "composition_write_disabled" "composition write is disabled"
      else if negb writable then problem 503 "composition_write_disabled" "composition write client is not configured"
      else
      match readRunProfileHarnessPatchBody body with
      | inl e => problem 400 "invalid_body" (errorText e)
      | inr raw =>
          let harnessName := TrimSpace raw in
          let* refused := mread (λ w, inr (harnessProblem namespace harnessName w)) in
          match refused with
          | Some (status, code, message) => problem status code message
          | None =>
              let* got := mtry (mread (getObject (ck_Kind kind) namespace name)) in
              match got with
              | inl e => if IsNotFound e then missing else problem 503 "kubernetes_unavailable" "composition state is unavailable"
              | inr profile =>
                  let management := evaluateCompositionManagement (cob_ObjectMeta profile) in
                  if negb (mg_Writable management) then problem 403 (mg_Reason management) (compositionWriteBlockedMessage management)
                  else
                  let ref := if bool_decide (harnessName = "") then None else Some (mkNamespacedObjectReference harnessName "") in
                  let* updated := mtry (updateObject (ck_Kind kind) (profile <| cob_Spec := setHarness ref (cob_Spec profile) |>)) in
                  match updated with
                  | inl e => writeProblem e "resource was modified; reload and retry" "composition update failed"
                  | inr obj => written 200 "updated" kind obj
                  end
              end
          end
      end
  end.

Definition handleControlsList (principal : Principal) : M W GoErr (ApiReply Body) :=
  if negb (ctc_ReadEnabled (cfg_Controls config)) then missing else
  let* listed := mtry (mread (listLaunchControls (V := V))) in
  match listed with
  | inl _ => problem 503 "kubernetes_unavailable" "launch gate state is unavailable"
  | inr items =>
      let visible := filter (λ c, Allowed (cfg_Authorization config) principal PermissionControlsRead (controlApplication c) = true) items in
      mret (Answer 200 (ControlBodies (map newControlView (merge_sort (notAfter ctl_Name) visible))))
  end.
Definition handleControlsGet (principal : Principal) (name : string) : M W GoErr (ApiReply Body) :=
  if negb (ctc_ReadEnabled (cfg_Controls config)) then missing else
  let* got := mtry (mread (getLaunchControl (V := V) name)) in
  match got with
  | inl e => if IsNotFound e then missing else problem 503 "kubernetes_unavailable" "launch gate state is unavailable"
  | inr control =>
      if negb (Allowed (cfg_Authorization config) principal PermissionControlsRead (controlApplication control)) then missing
      else mret (Answer 200 (ControlBody (newControlView control)))
  end.
Definition handleControlsUpdate (principal : Principal) (name : string) (body : GoErr + string) : M W GoErr (ApiReply Body) :=
  if negb (ctc_WriteEnabled (cfg_Controls config)) then problem 404 "controls_write_disabled" "launch gate write is disabled"
  else if negb writable then problem 503 "composition_write_disabled" "composition write client is not configured"
  else
  match readLimited controlMaxBodyBytes body with
  | inl _ => problem 400 "invalid_body" "read body failed"
  | inr None => problem 400 "invalid_body" "request body too large"
  | inr (Some raw) =>
      match decodeControl raw with
      | inl _ => problem 400 "invalid_body" "decode JSON body failed"
      | inr body =>
          match controlChange body with
          | inl message => problem 400 "invalid" message
          | inr (launchPolicy, reason, expiresAt) =>
              let* got := mtry (mread (getLaunchControl (V := V) name)) in
              match got with
              | inl e => if IsNotFound e then missing else problem 503 "kubernetes_unavailable" "launch gate state is unavailable"
              | inr current =>
                  let management := evaluateControlManagement (ctl_ObjectMeta current) in
                  if negb (Allowed (cfg_Authorization config) principal PermissionControlsWrite (controlApplication current)) then missing
                  else if negb (mg_Writable management) then problem 403 (mg_Reason management) (controlWriteBlockedMessage management)
                  else if blank (cwr_ResourceVersion body) then problem 400 "invalid_body" "resourceVersion is required for updates"
                  else if negb (bool_decide (meta_ResourceVersion (ctl_ObjectMeta current) = TrimSpace (cwr_ResourceVersion body)))
                  then problem 409 "conflict" "resourceVersion does not match the current control; reload and retry"
                  else
                  let* updated := mtry (updateControl (V := V) (controlWritten body launchPolicy reason expiresAt current)) in
                  match updated with
                  | inl e => writeProblem e "resourceVersion conflict; reload and retry" "launch gate update failed"
                  | inr stored => mret (Answer 200 (ControlBody (newControlView stored)))
                  end
              end
          end
      end
  end.

Definition readCreateRunBody (body : GoErr + string) : GoErr + CreateAgentRunRequest :=
  match readLimited createRunMaxBodyBytes body with
  | inl e => inl (ErrWrap "read body" e)
  | inr None => inl (ErrText ("request body exceeds " +:+ fmtZ createRunMaxBodyBytes +:+ " bytes"))
  | inr (Some raw) => match decodeRun raw with inl e => inl (ErrWrap "decode JSON body" e) | inr request => inr request end
  end.
Definition handleCreateRun (principal : Principal) (namespace : string) (body : GoErr + string) : M W GoErr (ApiReply Body) :=
  if negb (cfg_CreateEnabled config) then problem 404 "runs_create_disabled" "AgentRun create is disabled"
  else if negb (Allowed (cfg_Authorization config) principal PermissionRunsCreate namespace) then missing
  else if negb writable then problem 503 "composition_write_disabled" "composition write client is not configured"
  else
  match readCreateRunBody body with
  | inl e => problem 400 "invalid_body" (errorText e)
  | inr request =>
      match buildAgentRunFromCreateRequest namespace request with
      | inl e => problem 400 "invalid" (errorText e)
      | inr (generateName, run) =>
          let* created := mtry (createConsoleRun (V := V) generateName run) in
          match created with
          | inl e =>
              if IsAlreadyExists e then problem 409 "conflict" "AgentRun already exists; choose a new name"
              else if IsInvalid (V := V) (W := W) e then problem 400 "invalid" (errorText e)
              else problem 503 "kubernetes_unavailable" "AgentRun create failed"
          | inr run => mret (Answer 201 (RunBody run))
          end
      end
  end.

(** ** Requests *)

Inductive Route :=
  | ListObjects (namespace pathSegment limit : string)
  | GetObject (namespace pathSegment name : string)
  | CreateObject (namespace pathSegment : string) (body : GoErr + string)
  | UpdateObject (namespace pathSegment name : string) (body : GoErr + string)
  | DeleteObject (namespace pathSegment name : string)
  | PatchHarness (namespace name : string) (body : GoErr + string)
  | ListControls
  | GetControl (name : string)
  | UpdateControl (name : string) (body : GoErr + string)
  | CreateRun (namespace : string) (body : GoErr + string).
Definition handle (principal : Principal) (route : Route) : M W GoErr (ApiReply Body) :=
  match route with
  | ListObjects namespace segment limit => handleCompositionList principal namespace segment limit
  | GetObject namespace segment name => handleCompositionGet principal namespace segment name
  | CreateObject namespace segment body => handleCompositionCreate principal namespace segment body
  | UpdateObject namespace segment name body => handleCompositionUpdate principal namespace segment name body
  | DeleteObject namespace segment name => handleCompositionDelete principal namespace segment name
  | PatchHarness namespace name body => handleRunProfileHarnessPatch principal namespace name body
  | ListControls => handleControlsList principal
  | GetControl name => handleControlsGet principal name
  | UpdateControl name body => handleControlsUpdate principal name body
  | CreateRun namespace body => handleCreateRun principal namespace body
  end.
(** [routes]: the middleware around the handler of a route. *)
Definition serve `{ClaimDecoder} (verifier : option (string → GoErr + IDToken)) (request : HttpRequest) (route : Route) :
    M W GoErr (ApiReply Body) :=
  match corsGuard config request with
  | Some (Some (status, code, message)) => problem status code message
  | Some None => mret (Answer 204 Empty)
  | None =>
      match authenticate config verifier request with
      | inl reply => mret reply
      | inr principal => handle principal route
      end
  end.
End handlers.
