(* ===== verification/ApiSafety.v ===== *)
(** * Console writes: theorems

    Nothing is written through the API without a verified token, a binding that grants
    the permission in the namespace, and the feature being on, and then only what the
    request names and the console may manage ([api_writes_authorized]); what the
    console creates it may change later ([console_objects_writable]); a validated
    configuration grants nothing by omission ([grants_explicit]); the connections of
    a subject and of all are bounded ([limiter_exact]). *)

From stdpp Require Import base list gmap strings sorting.
From Stdlib Require Import ZArith Lia Ascii.
From S2P Require Import Prelude GoStrings GoTime Names ApiRun ApiWork ApiTrigger Kube RunControl Merge Capabilities Composition Webhook RunOutput RunPayload RunTerminal ApiAccess ApiWrites.

Open Scope Z_scope.

(** ** The server *)

Record Console (V : Type) := mkConsole {
  con_objects : gmap (string * key) (CompositionObject V);
  con_controls : gmap string AgentRunControl;
  con_runs : gmap key AgentRun }.
#[global] Arguments mkConsole {V}.
#[global] Arguments con_objects {V}.
#[global] Arguments con_controls {V}.
#[global] Arguments con_runs {V}.
#[export] Instance eta_Console V : Eta (Console V) := λ m, mkConsole (con_objects m) (con_controls m) (con_runs m).
Definition putObject {V} (kind : string) (o : CompositionObject V) (m : Console V) : Console V :=
  m <| con_objects := <[(kind, cob_key o) := o]> (con_objects m) |>.
Definition putLaunchControl {V} (c : AgentRunControl) (m : Console V) : Console V :=
  m <| con_controls := <[ctl_Name c := c]> (con_controls m) |>.
Definition putConsoleRun {V} (r : AgentRun) (m : Console V) : Console V := m <| con_runs := <[run_key r := r]> (con_runs m) |>.

(** The metadata that the server takes over from a request. *)
Definition sameMarks (a b : ObjectMeta) : Prop :=
  meta_Name b = meta_Name a ∧ meta_Namespace b = meta_Namespace a ∧ meta_Labels b = meta_Labels a ∧ meta_Annotations b = meta_Annotations a.

(** Documented behaviour: reads are those of the API server; a write is applied or
    refused, and an error can hide a write that was applied; an update is applied only
    to the version it names; a deleted object with finalizers stays.  [admitSpec] are
    the defaults and the pruning of the schema. *)
Class ApiLaws (V W : Type) `{ApiClient V W} := {
  console : W → Console V;
  admitSpec : string → V → V;
  api_get w kind ns n o : getObject kind ns n w = inr o → con_objects (console w) !! (kind, (ns, n)) = Some o ∧ cob_key o = (ns, n);
  api_getControl w n c : getLaunchControl (V := V) n w = inr c → con_controls (console w) !! n = Some c ∧ ctl_Name c = n;
  api_create w w' kind o x :
    createObject kind o w = (w', x) →
    console w' = console w ∧ (∃ e, x = inl e)
    ∨ ∃ o', con_objects (console w) !! (kind, cob_key o) = None ∧ sameMarks (cob_ObjectMeta o) (cob_ObjectMeta o')
       ∧ cob_Spec o' = admitSpec kind (cob_Spec o) ∧ console w' = putObject kind o' (console w);
  api_update w w' kind o x :
    updateObject kind o w = (w', x) →
    console w' = console w ∧ (∃ e, x = inl e)
    ∨ ∃ old o', con_objects (console w) !! (kind, cob_key o) = Some old
       ∧ meta_ResourceVersion (cob_ObjectMeta old) = meta_ResourceVersion (cob_ObjectMeta o)
       ∧ meta_UID (cob_ObjectMeta o') = meta_UID (cob_ObjectMeta old) ∧ sameMarks (cob_ObjectMeta o) (cob_ObjectMeta o')
       ∧ cob_Spec o' = admitSpec kind (cob_Spec o) ∧ console w' = putObject kind o' (console w);
  api_delete w w' kind k x :
    deleteObject (V := V) kind k w = (w', x) →
    console w' = console w ∧ (∃ e, x = inl e)
    ∨ console w' = (console w) <| con_objects := delete (kind, k) (con_objects (console w)) |>
    ∨ ∃ old o', con_objects (console w) !! (kind, k) = Some old ∧ sameMarks (cob_ObjectMeta old) (cob_ObjectMeta o')
       ∧ cob_Spec o' = cob_Spec old ∧ console w' = putObject kind o' (console w);
  api_updateControl w w' c x :
    updateControl (V := V) c w = (w', x) →
    console w' = console w ∧ (∃ e, x = inl e)
    ∨ ∃ old c', con_controls (console w) !! ctl_Name c = Some old
       ∧ meta_ResourceVersion (ctl_ObjectMeta old) = meta_ResourceVersion (ctl_ObjectMeta c)
       ∧ sameMarks (ctl_ObjectMeta c) (ctl_ObjectMeta c') ∧ ctl_Spec c' = ctl_Spec c ∧ ctl_Status c' = ctl_Status old
       ∧ console w' = putLaunchControl c' (console w);
  api_createRun w w' generateName r x :
    createConsoleRun (V := V) generateName r w = (w', x) →
    console w' = console w ∧ (∃ e, x = inl e)
    ∨ ∃ r', con_runs (console w) !! run_key r' = None ∧ run_Namespace r' = run_Namespace r
       ∧ (run_Name r ≠ "" → run_Name r' = run_Name r) ∧ run_Labels r' = run_Labels r
       ∧ agentChainCanonicalRunSpec (run_Spec r') = agentChainCanonicalRunSpec (run_Spec r)
       ∧ console w' = putConsoleRun r' (console w) }.
#[global] Arguments console V W {_ _} w.

(** ** Permissions *)

(** What a binding asks of a principal, and where it grants. *)
Definition anyOf (expected actual : list string) : Prop := ∃ s, s ∈ expected ∧ s ∈ actual.
Record satisfies (b : AuthorizationBinding) (p : Principal) : Prop := mkSatisfies {
  sat_roles : bnd_Roles b ≠ [] → anyOf (bnd_Roles b) (prn_Roles p);
  sat_groups : bnd_Groups b ≠ [] → anyOf (bnd_Groups b) (prn_Groups p);
  sat_subject : bnd_Subjects b ≠ [] → prn_Subject p ∈ bnd_Subjects b;
  sat_email : bnd_Emails b ≠ [] → prn_EmailVerified p = true ∧ ToLower (prn_Email p) ∈ bnd_Emails b;
  sat_scopes : bnd_Scopes b ≠ [] → anyOf (bnd_Scopes b) (prn_Scopes p) }.
Definition grantsIn (b : AuthorizationBinding) (p : Principal) (namespace : string) : Prop :=
  "*" ∈ bnd_Namespaces b ∨ namespace ∈ bnd_Namespaces b
  ∨ bnd_NamespacesFromClaim b = true ∧ ("*" ∈ prn_Namespaces p ∨ namespace ∈ prn_Namespaces p).

Lemma intersects_anyOf expected actual : intersectsStrings expected actual false = true ↔ anyOf expected actual.
Proof.
  unfold intersectsStrings. rewrite existsb_exists. split.
  - intros (e & He & (a & Ha & Heq%bool_decide_eq_true)%existsb_exists). exists e. subst a. by rewrite !list_elem_of_In.
  - intros (s & He & Ha). exists s. rewrite <- list_elem_of_In. split; [done|]. apply existsb_exists. exists s.
    rewrite <- list_elem_of_In. split; [done|]. by apply bool_decide_eq_true.
Qed.
Lemma unless_true {P : Prop} `{Decision P} (b r : bool) :
  (if negb (bool_decide P) && negb b then false else r) = true ↔ (¬ P → b = true) ∧ r = true.
Proof. case_bool_decide; destruct b; cbn; naive_solver. Qed.
Lemma matches_satisfies b p : bindingMatchesPrincipal b p = true ↔ satisfies b p.
Proof.
  unfold bindingMatchesPrincipal. rewrite <- negb_andb, !unless_true, !intersects_anyOf, andb_true_iff, !bool_decide_eq_true.
  split; [intros (? & ? & ? & ? & ? & _); by split|intros []; by split_and!].
Qed.
Lemma allows_iff b p permission namespace :
  bindingAllows p permission namespace b = true ↔ satisfies b p ∧ permission ∈ bnd_Permissions b ∧ grantsIn b p namespace.
Proof.
  unfold bindingAllows, grantsIn. rewrite <- matches_satisfies.
  destruct (bindingMatchesPrincipal b p); cbn [negb orb]; [|naive_solver].
  destruct (bool_decide (permission ∈ _)) eqn:Ep; [apply bool_decide_eq_true in Ep|apply bool_decide_eq_false in Ep; naive_solver].
  cbn [negb]. destruct (bool_decide ("*" ∈ bnd_Namespaces b) || _) eqn:En.
  - apply orb_true_iff in En. rewrite !bool_decide_eq_true in En. naive_solver.
  - apply orb_false_iff in En. rewrite !bool_decide_eq_false in En. rewrite andb_true_iff, orb_true_iff, !bool_decide_eq_true. naive_solver.
Qed.

(** A principal is allowed exactly what some binding grants: every kind of selector
    the binding has must match, and the namespace is one of the binding's or, where
    the binding says so, of the token's. *)
Theorem allowed_exact authz p permission namespace :
  Allowed authz p permission namespace = true
  ↔ ∃ b, b ∈ azc_Bindings authz ∧ satisfies b p ∧ permission ∈ bnd_Permissions b ∧ grantsIn b p namespace.
Proof.
  unfold Allowed. rewrite existsb_exists. split; intros (b & Hin & Hb); exists b.
  - rewrite allows_iff in Hb. by rewrite list_elem_of_In.
  - rewrite <- list_elem_of_In. by rewrite allows_iff.
Qed.

(** The switch of the feature a permission belongs to. *)
Definition featureOn (config : Config) (permission : string) : Prop :=
  (permission = PermissionCompositionRead → cpc_ReadEnabled (cfg_Composition config) = true)
  ∧ (permission = PermissionCompositionWrite → cpc_WriteEnabled (cfg_Composition config) = true)
  ∧ (permission = PermissionRunsCreate → cfg_CreateEnabled config = true)
  ∧ (permission = PermissionControlsRead → ctc_ReadEnabled (cfg_Controls config) = true)
  ∧ (permission = PermissionControlsWrite → ctc_WriteEnabled (cfg_Controls config) = true)
  ∧ (permission = PermissionChatRead ∨ permission = PermissionChatWrite → chc_Enabled (cfg_Chat config) = true).

Lemma firstProblem_None {A} (check : nat → A → option string) i l a :
  firstProblem check i l = None → a ∈ l → ∃ j, check j a = None.
Proof.
  revert i. induction l as [|b l IH]; intros i; cbn; [set_solver|]. destruct (check i b) eqn:E; [done|].
  intros Hl [->|Ha]%elem_of_cons; [by exists i|by eapply IH].
Qed.
Lemma permission_on config name permission : permissionProblem config name permission = None → permission ∈ knownPermissions ∧ featureOn config permission.
Proof.
  unfold permissionProblem. destruct (negb (bool_decide (permission ∈ knownPermissions))) eqn:Ek; [discriminate|].
  apply negb_false_iff, bool_decide_eq_true in Ek. repeat match goal with |- (if ?b then _ else _) = _ → _ => destruct b eqn:?; [discriminate|] end.
  intros _. split; [exact Ek|].
  assert (∀ P (D : Decision P) b, @bool_decide P D && negb b = false → P → b = true) as Hg.
  { intros P D b Hb HP. rewrite bool_decide_true in Hb by done. by destruct b. }
  unfold featureOn. split_and!; try (eapply Hg; eassumption). intros Hor.
  match goal with Hx : (_ || _) && _ = false |- _ => rename Hx into Hc end. destruct (chc_Enabled (cfg_Chat config)); [done|].
  rewrite andb_true_r in Hc. apply orb_false_iff in Hc as [H1%bool_decide_eq_false H2%bool_decide_eq_false]. by destruct Hor.
Qed.

(** C23: a valid configuration grants nothing by omission: whoever is allowed something
    matches a binding with a selector, and the permission is a known one whose feature
    is switched on. *)
Theorem grants_explicit `{NetURL} config p permission namespace :
  validateConfig config = None → Allowed (cfg_Authorization config) p permission namespace = true →
  permission ∈ knownPermissions ∧ featureOn config permission
  ∧ ∃ b, b ∈ azc_Bindings (cfg_Authorization config) ∧ satisfies b p ∧ grantsIn b p namespace
      ∧ bnd_Roles b ++ bnd_Groups b ++ bnd_Subjects b ++ bnd_Emails b ++ bnd_Scopes b ≠ [].
Proof.
  intros Hv Ha. unfold Allowed in Ha. apply existsb_exists in Ha as (b & Hin & Hb). rewrite <- list_elem_of_In in Hin.
  apply allows_iff in Hb as (Hs & Hp & Hg). unfold validateConfig in Hv. case_bool_decide; [done|].
  destruct (issuerProblem _); [done|]. case_bool_decide; [done|]. case_bool_decide; [done|].
  destruct (_ || _ || _); [done|]. case_bool_decide; [done|]. destruct (firstProblem (bindingProblem config) _ _) eqn:E; [done|].
  destruct (firstProblem_None _ _ _ _ E Hin) as [i Ei]. unfold bindingProblem in Ei. case_bool_decide as Hsel; [done|].
  case_bool_decide; [done|]. destruct (firstProblem _ 0 (bnd_Permissions b)) eqn:Ep; [done|].
  destruct (firstProblem_None _ _ _ _ Ep Hp) as [j Ej]. apply permission_on in Ej as [Hk Hf]. split_and!; [done|done|].
  by exists b.
Qed.

(** ** Who may change an object *)

Lemma lower_a c : lowerByte c = "a"%char → c = "a"%char ∨ c = "A"%char.
Proof. destruct c as [[] [] [] [] [] [] [] []]; vm_compute; intros [=]; auto. Qed.
Lemma fold_first l rest : foldBytes l = "a"%char :: rest → ∃ c t, l = c :: t ∧ (c = "a"%char ∨ c = "A"%char) ∧ foldBytes t = rest.
Proof.
  destruct l as [|a [|b l]]; [done|..].
  - intros [= Ha <-]. exists a, []. split_and!; [done|by apply lower_a|done].
  - cbn [foldBytes]. destruct (_ && _); [done|]. destruct l as [|c l].
    + intros [= Ha <-]. exists a, [b]. split_and!; [done|by apply lower_a|done].
    + destruct (_ && _ && _); [done|]. intros [= Ha <-]. exists a, (b :: c :: l). split_and!; [done|by apply lower_a|done].
Qed.
Lemma lower_n c : lowerByte c = "n"%char → c = "n"%char ∨ c = "N"%char.
Proof. destruct c as [[] [] [] [] [] [] [] []]; vm_compute; intros [=]; auto. Qed.
Lemma fold_second l rest : foldBytes l = "n"%char :: rest → ∃ c t, l = c :: t ∧ (c = "n"%char ∨ c = "N"%char).
Proof.
  destruct l as [|a [|b l]]; [done|..].
  - intros [= Ha _]. exists a, []. split; [done|by apply lower_n].
  - cbn [foldBytes]. destruct (_ && _); [done|]. destruct l as [|c l]; [|destruct (_ && _ && _); [done|]].
    all: intros [= Ha _]; eexists a, _; split; [done|by apply lower_n].
Qed.
Lemma fold_console : ∃ rest, foldBytes (bytes ManagedByConsole) = "a"%char :: "n"%char :: rest.
Proof. eexists. vm_compute. reflexivity. Qed.
(** The one value of app.kubernetes.io/managed-by that a stamp keeps names no other
    manager. *)
Lemma console_not_gitops m : EqualFold m ManagedByConsole = true → ToLower (TrimSpace m) ∉ gitOpsManagers.
Proof.
  unfold EqualFold. rewrite bool_decide_eq_true. destruct fold_console as [r ->]. intros Hf. apply fold_first in Hf as (a & t & Hm & Ha & Ht).
  apply fold_second in Ht as (b & t2 & -> & Hb). unfold TrimSpace. rewrite Hm.
  assert (trimLeftBytes (a :: b :: t2) = a :: b :: t2) as ->.
  { apply dropSpace_stuck. destruct Ha as [->| ->], Hb as [->| ->]; split_and!; try done; destruct t2; done. }
  destruct (trimRight_prefix (a :: b :: t2)) as [n ->]. unfold ToLower. rewrite bytes_unbytes.
  destruct n as [|[|n]]; cbn [take].
  - vm_compute. set_solver.
  - destruct Ha as [->| ->]; vm_compute; set_solver.
  - assert (∃ rest, lowerBytes (a :: b :: take n t2) = "a"%char :: "n"%char :: rest) as [rest ->].
    { destruct Ha as [->| ->], Hb as [->| ->], (take n t2) as [|c [|d l]]; cbn; eauto. }
    cbn. unfold gitOpsManagers. rewrite !not_elem_of_cons. split_and!; try discriminate. apply not_elem_of_nil.
Qed.

Section gitops.
Context `{MapRange}.

Lemma dropKeys_lookup bad m k : dropKeys bad m !! k = if bad k then None else m !! k.
Proof.
  unfold dropKeys. destruct (bad k) eqn:E.
  - apply map_lookup_filter_None. right. intros x _. cbn. by rewrite E.
  - destruct (m !! k) as [x|] eqn:Ex; [by apply map_lookup_filter_Some|]. apply map_lookup_filter_None. by left.
Qed.
Lemma find_range bad m : (∀ k, bad k = true → m !! k = None) → find bad (rangeKeys m) = None.
Proof.
  intros Hm. destruct (find bad (rangeKeys m)) as [k|] eqn:E; [|done]. apply find_some in E as [Hin Hb].
  rewrite <- list_elem_of_In, rangeKeys_all, Hm in Hin by done. by destruct Hin.
Qed.
Lemma unmarked m k : m !! k = None → marked m k = false.
Proof. unfold marked. by intros ->. Qed.

(** No ownership by GitOps: what the labels and annotations must lack. *)
Definition free (meta : ObjectMeta) : Prop :=
  (∀ k, isGitOpsLabelKey k = true → meta_Labels meta !! k = None)
  ∧ (∀ k, isGitOpsAnnotationKey k = true → meta_Annotations meta !! k = None)
  ∧ ∀ v, meta_Labels meta !! appManagedBy = Some v → ToLower (TrimSpace v) ∉ gitOpsManagers.
Lemma free_detect meta : free meta → detectGitOpsManager meta = None.
Proof.
  intros (Hl & Ha & Hm). unfold detectGitOpsManager. rewrite !(unmarked (meta_Labels meta)) by (by apply Hl).
  rewrite (find_range isGitOpsLabelKey) by done. rewrite !(unmarked (meta_Annotations meta)) by (by apply Ha).
  rewrite (find_range isGitOpsAnnotationKey) by done. rewrite bool_decide_eq_false_2; [done|].
  destruct (meta_Labels meta !! appManagedBy) as [v|] eqn:E; [by apply Hm|]. vm_compute. set_solver.
Qed.
Lemma range_none bad m : find bad (rangeKeys m) = None → ∀ k, bad k = true → m !! k = None.
Proof.
  intros Hf k Hk. destruct (m !! k) eqn:E; [|done]. assert (k ∈ rangeKeys m) as Hin by (apply rangeKeys_all; by rewrite E).
  apply list_elem_of_In in Hin. pose proof (find_none _ _ Hf _ Hin). congruence.
Qed.
Lemma detect_free meta : detectGitOpsManager meta = None → free meta.
Proof.
  unfold detectGitOpsManager. destruct (marked _ _); [discriminate|]. destruct (marked _ _); [discriminate|].
  destruct (marked _ _); [discriminate|]. case_bool_decide as Hm; [discriminate|]. destruct (find isGitOpsLabelKey _) eqn:El; [discriminate|].
  destruct (marked _ _); [discriminate|]. destruct (marked _ _); [discriminate|]. destruct (marked _ _); [discriminate|].
  destruct (find isGitOpsAnnotationKey _) eqn:Ea; [discriminate|]. intros _. split_and!; [by apply range_none..|].
  intros v Hv. by rewrite Hv in Hm.
Qed.

(** The console may change exactly the objects that carry its label and no mark of a
    GitOps tool: no key of Argo CD, Flux or Helm, and no manager of that kind under
    app.kubernetes.io/managed-by; the order in which Go ranges over a map is no matter. *)
Theorem writable_exact meta :
  mg_Writable (evaluateCompositionManagement meta) = true ↔ free meta ∧ meta_Labels meta !! LabelManagedBy = Some ManagedByConsole.
Proof.
  unfold evaluateCompositionManagement. split.
  - destruct (detectGitOpsManager meta) eqn:Ed; [done|]. case_bool_decide as Hl; [|done]. intros _. split; [by apply detect_free|].
    destruct (_ !! LabelManagedBy); cbn in Hl; [congruence|discriminate].
  - intros [Hf Hl]. rewrite free_detect, Hl by done. by rewrite bool_decide_eq_true_2.
Qed.

Lemma stampLabels_lookup labels k : isGitOpsLabelKey k = true → stampLabels labels !! k = None.
Proof.
  intros Hk. unfold stampLabels. destruct (_ !! appManagedBy) as [v|]; [|by rewrite dropKeys_lookup, Hk].
  destruct (negb _); [|by rewrite dropKeys_lookup, Hk]. apply lookup_delete_None. right. by rewrite dropKeys_lookup, Hk.
Qed.
Lemma stampLabels_console labels : stampLabels labels !! LabelManagedBy = Some ManagedByConsole.
Proof.
  assert (dropKeys isGitOpsLabelKey (<[LabelManagedBy:=ManagedByConsole]> labels) !! LabelManagedBy = Some ManagedByConsole) as Hd.
  { rewrite dropKeys_lookup, lookup_insert_eq. done. }
  unfold stampLabels. destruct (_ !! appManagedBy) as [v|]; [|done]. destruct (negb _); [|done]. by rewrite lookup_delete_ne.
Qed.
Lemma stampLabels_manager labels v : stampLabels labels !! appManagedBy = Some v → EqualFold v ManagedByConsole = true.
Proof.
  unfold stampLabels. destruct (dropKeys _ _ !! appManagedBy) as [u|] eqn:E; [|by rewrite E].
  destruct (EqualFold u ManagedByConsole) eqn:Ef; cbn [negb]; [rewrite E; congruence|]. by rewrite lookup_delete_eq.
Qed.
Lemma stamped_free meta : free (stampConsoleManaged meta).
Proof.
  unfold free, stampConsoleManaged. cbn. split_and!.
  - intros k Hk. by apply stampLabels_lookup.
  - intros k Hk. by rewrite dropKeys_lookup, Hk.
  - intros v Hv. apply console_not_gitops, (stampLabels_manager _ _ Hv).
Qed.

(** What the console creates, whatever labels and annotations the client sends, is
    marked as the console's and owned by no GitOps tool, so the console may change it. *)
Theorem console_objects_writable namespace name metadata :
  evaluateCompositionManagement (createdMeta namespace name metadata) = mkManagement true managementReasonConsoleManaged ManagedByConsole
  ∧ ∀ k v, isGitOpsLabelKey k = false → k ≠ LabelManagedBy → k ≠ appManagedBy → default ∅ (cmd_Labels metadata) !! k = Some v →
      meta_Labels (createdMeta namespace name metadata) !! k = Some v.
Proof.
  unfold createdMeta. split.
  - unfold evaluateCompositionManagement. rewrite free_detect by apply stamped_free.
    assert (meta_Labels (stampConsoleManaged (zero_ObjectMeta <| meta_Name := name |> <| meta_Namespace := namespace |>
      <| meta_Labels := default ∅ (cmd_Labels metadata) |> <| meta_Annotations := default ∅ (cmd_Annotations metadata) |>))
      !! LabelManagedBy = Some ManagedByConsole) as -> by apply stampLabels_console. by rewrite bool_decide_eq_true_2.
  - intros k v Hk H1 H2 Hv. cbn. unfold stampLabels.
    assert (dropKeys isGitOpsLabelKey (<[LabelManagedBy:=ManagedByConsole]> (default ∅ (cmd_Labels metadata))) !! k = Some v) as Hd.
    { by rewrite dropKeys_lookup, Hk, lookup_insert_ne. }
    destruct (_ !! appManagedBy) as [u|]; [|done]. destruct (negb _); [|done]. by rewrite lookup_delete_ne.
Qed.
End gitops.

(** ** Connections *)

(** Connections that are open, by subject, after any sequence of openings and closings. *)
Inductive opened (max maxPerSubject : Z) : list string → streamLimiter → Prop :=
  | opened_none : opened max maxPerSubject [] (newStreamLimiter max maxPerSubject)
  | opened_more open subject l l' :
      opened max maxPerSubject open l → acquire subject l = Some l' → opened max maxPerSubject (subject :: open) l'
  | opened_less open before after subject l :
      opened max maxPerSubject open l → open = before ++ subject :: after →
      opened max maxPerSubject (before ++ after) (release subject l).
Definition openOf (subject : string) (open : list string) : Z := Z.of_nat (length (filter (subject =.) open)).

Lemma openOf_nonneg subject open : 0 ≤ openOf subject open.
Proof. unfold openOf. lia. Qed.
Lemma openOf_cons s subject open : openOf s (subject :: open) = openOf s open + if bool_decide (s = subject) then 1 else 0.
Proof. unfold openOf. rewrite filter_cons. case_bool_decide; case_decide; try done; cbn [length]; lia. Qed.
Lemma openOf_drop s subject before after :
  openOf s (before ++ subject :: after) = openOf s (before ++ after) + if bool_decide (s = subject) then 1 else 0.
Proof.
  unfold openOf. rewrite !filter_app, filter_cons, !length_app. case_bool_decide; case_decide; try done; cbn [length]; lia.
Qed.

(** The counter of a subject that has [n] open connections. *)
Definition counter (n : Z) : option Z := if n =? 0 then None else Some n.
Record counted (max maxPerSubject : Z) (open : list string) (l : streamLimiter) : Prop := mkCounted {
  ctd_max : lim_max l = max;
  ctd_maxPerSubject : lim_maxPerSubject l = maxPerSubject;
  ctd_total : lim_total l = Z.of_nat (length open);
  ctd_bound : Z.of_nat (length open) ≤ max;
  ctd_bySubject s : openOf s open ≤ maxPerSubject ∧ lim_bySubject l !! s = counter (openOf s open) }.
Lemma counted_subject max maxPerSubject open l s : counted max maxPerSubject open l → subjectCount l s = openOf s open.
Proof.
  intros [_ _ _ _ Hc]. unfold subjectCount. destruct (Hc s) as [_ ->]. unfold counter. destruct (Z.eqb_spec (openOf s open) 0); cbn; lia.
Qed.
Lemma counted_acquire max maxPerSubject open l l' subject :
  counted max maxPerSubject open l → acquire subject l = Some l' → counted max maxPerSubject (subject :: open) l'.
Proof.
  intros Hc. unfold acquire. rewrite (counted_subject _ _ _ _ subject Hc). destruct Hc as [E1 E2 E3 E4 E5].
  destruct (_ || _) eqn:Eg; [done|]. intros [= <-]. apply orb_false_iff in Eg as [Eg1%Z.leb_gt Eg2%Z.leb_gt].
  split; cbn; try lia. intros s. rewrite openOf_cons. pose proof (openOf_nonneg s open). case_bool_decide as Es.
  - subst s. rewrite lookup_insert_eq. split; [lia|]. unfold counter. by destruct (Z.eqb_spec (openOf subject open + 1) 0); [lia|].
  - rewrite lookup_insert_ne, Z.add_0_r by done. apply E5.
Qed.
Lemma counted_release max maxPerSubject before after subject l :
  counted max maxPerSubject (before ++ subject :: after) l → counted max maxPerSubject (before ++ after) (release subject l).
Proof.
  intros Hc. unfold release. rewrite (counted_subject _ _ _ _ subject Hc), openOf_drop, bool_decide_eq_true_2, Z.add_simpl_r by done.
  destruct Hc as [E1 E2 E3 E4 E5]. rewrite length_app in E3, E4. cbn [length] in E3, E4. split; cbn; rewrite ?length_app; try lia.
  intros s. destruct (E5 s) as [E6 E7]. rewrite openOf_drop in E6, E7. case_bool_decide as Es.
  - subst s. split; [lia|]. unfold counter. destruct (openOf subject (before ++ after) =? 0); [apply lookup_delete_eq|apply lookup_insert_eq].
  - rewrite Z.add_0_r in E6, E7. split; [done|].
    destruct (openOf subject (before ++ after) =? 0); [by rewrite lookup_delete_ne|by rewrite lookup_insert_ne].
Qed.
Lemma opened_counted max maxPerSubject open l :
  0 ≤ max → 0 ≤ maxPerSubject → opened max maxPerSubject open l → counted max maxPerSubject open l.
Proof.
  intros Hm Hs. induction 1 as [|open subject l l' _ IH E|open before after subject l _ IH ->].
  - by split.
  - by eapply counted_acquire.
  - by apply counted_release.
Qed.

(** C31: the counters are those of the open connections: no subject is left behind when it
    has none, neither limit is exceeded, and a connection is refused exactly when one
    of them is reached. *)
Theorem limiter_exact max maxPerSubject open l :
  0 ≤ max → 0 ≤ maxPerSubject → opened max maxPerSubject open l →
  lim_total l = Z.of_nat (length open) ∧ Z.of_nat (length open) ≤ max
  ∧ (∀ s, openOf s open ≤ maxPerSubject ∧ lim_bySubject l !! s = if openOf s open =? 0 then None else Some (openOf s open))
  ∧ ∀ s, acquire s l = None ↔ Z.of_nat (length open) = max ∨ openOf s open = maxPerSubject.
Proof.
  intros Hm Hs Ho. pose proof (opened_counted _ _ _ _ Hm Hs Ho) as Hc. split_and!; [apply Hc|apply Hc|apply Hc|]. intros s.
  unfold acquire. rewrite (counted_subject _ _ _ _ s Hc). destruct Hc as [-> -> -> E4 E5]. destruct (E5 s) as [E6 _].
  destruct (Z.leb_spec max (Z.of_nat (length open))), (Z.leb_spec maxPerSubject (openOf s open)); cbn [orb]; split; try done; lia.
Qed.

(** ** Writes *)

Section writes.
Context {V W : Type} `{SpecValues V, ApiClient V W, !ApiLaws V W, BodyDecoder, NameRules, MapRange, ClaimDecoder}.
Context (config : Config) (writable : bool).

Definition may (p : Principal) (permission namespace : string) : Prop := Allowed (cfg_Authorization config) p permission namespace = true.
Definition ownable (meta : ObjectMeta) : Prop := mg_Writable (evaluateCompositionManagement meta) = true.

(** Objects of the kind under a path may be written in a namespace. *)
Record editable (p : Principal) (namespace segment : string) (kind : compositionKind) : Prop := mkEditable {
  ed_kind : kind ∈ compositionKinds ∧ ck_PathSegment kind = segment;
  ed_may : may p PermissionCompositionWrite namespace;
  ed_on : cpc_WriteEnabled (cfg_Composition config) = true;
  ed_appendOnly : ck_AppendOnly kind = false;
  ed_triggers : segment = "agent-external-triggers" → cfg_ExternalTriggers config = true }.

(** What a request of a principal may do to the server; everything else stays. *)
Inductive writes (p : Principal) (m : Console V) : Route → Console V → Prop :=
  | writes_create namespace segment body kind doc v o :
      editable p namespace segment kind → readCompositionBody body = inr doc →
      cob_key o = (namespace, TrimSpace (cmd_Name (cdc_Metadata doc))) → TrimSpace (cmd_Name (cdc_Metadata doc)) ≠ "" →
      con_objects m !! (ck_Kind kind, cob_key o) = None → ownable (cob_ObjectMeta o) →
      decodeSpecIntoObject kind (mkObject zero_ObjectMeta (newSpec (ck_Kind kind)) (newSpec (ck_Kind kind))) (cdc_Spec doc) = inr v →
      cob_Spec o = admitSpec (W := W) (ck_Kind kind) (cob_Spec v) →
      writes p m (CreateObject namespace segment body) (putObject (ck_Kind kind) o m)
  | writes_update namespace segment name body kind doc old v o :
      editable p namespace segment kind → readCompositionBody body = inr doc →
      con_objects m !! (ck_Kind kind, (namespace, name)) = Some old → ownable (cob_ObjectMeta old) →
      meta_ResourceVersion (cob_ObjectMeta old) = cmd_ResourceVersion (cdc_Metadata doc) → cob_key o = (namespace, name) →
      meta_UID (cob_ObjectMeta o) = meta_UID (cob_ObjectMeta old) →
      meta_Labels (cob_ObjectMeta o) !! LabelManagedBy = Some ManagedByConsole →
      decodeSpecIntoObject kind old (cdc_Spec doc) = inr v → cob_Spec o = admitSpec (W := W) (ck_Kind kind) (cob_Spec v) →
      writes p m (UpdateObject namespace segment name body) (putObject (ck_Kind kind) o m)
  | writes_delete namespace segment name kind old :
      editable p namespace segment kind → con_objects m !! (ck_Kind kind, (namespace, name)) = Some old → ownable (cob_ObjectMeta old) →
      writes p m (DeleteObject namespace segment name) (m <| con_objects := delete (ck_Kind kind, (namespace, name)) (con_objects m) |>)
  | writes_deleting namespace segment name kind old o :
      editable p namespace segment kind → con_objects m !! (ck_Kind kind, (namespace, name)) = Some old → ownable (cob_ObjectMeta old) →
      sameMarks (cob_ObjectMeta old) (cob_ObjectMeta o) → cob_Spec o = cob_Spec old →
      writes p m (DeleteObject namespace segment name) (putObject (ck_Kind kind) o m)
  | writes_harness namespace name body harness old o :
      may p PermissionCompositionWrite namespace → cpc_WriteEnabled (cfg_Composition config) = true →
      cpc_ReadEnabled (cfg_Composition config) = true → readRunProfileHarnessPatchBody body = inr harness →
      (TrimSpace harness = "" ∨ is_Some (con_objects m !! ("AgentHarnessProfile", (namespace, TrimSpace harness)))) →
      con_objects m !! ("AgentRunProfile", (namespace, name)) = Some old → ownable (cob_ObjectMeta old) →
      sameMarks (cob_ObjectMeta old) (cob_ObjectMeta o) → meta_UID (cob_ObjectMeta o) = meta_UID (cob_ObjectMeta old) →
      cob_Spec o = admitSpec (W := W) "AgentRunProfile" (setHarness
        (if bool_decide (TrimSpace harness = "") then None else Some (mkNamespacedObjectReference (TrimSpace harness) "")) (cob_Spec old)) →
      writes p m (PatchHarness namespace name body) (putObject "AgentRunProfile" o m)
  | writes_control name body raw request launchPolicy reason expiresAt old c :
      ctc_WriteEnabled (cfg_Controls config) = true → readLimited controlMaxBodyBytes body = inr (Some raw) → decodeControl raw = inr request →
      controlChange request = inr (launchPolicy, reason, expiresAt) → con_controls m !! name = Some old →
      may p PermissionControlsWrite (controlApplication old) → free (ctl_ObjectMeta old) →
      meta_ResourceVersion (ctl_ObjectMeta old) = TrimSpace (cwr_ResourceVersion request) → ctl_Name c = name →
      ctl_Spec c = ctl_Spec (controlWritten request launchPolicy reason expiresAt old) → ctl_Status c = ctl_Status old →
      writes p m (UpdateControl name body) (putLaunchControl c m)
  | writes_run namespace body request generateName r r' :
      cfg_CreateEnabled config = true → may p PermissionRunsCreate namespace → readCreateRunBody body = inr request →
      buildAgentRunFromCreateRequest namespace request = inr (generateName, r) → con_runs m !! run_key r' = None →
      run_Namespace r' = namespace → run_Labels r' = {[ createdByLabel := consoleCreatedBy ]} →
      agentChainCanonicalRunSpec (run_Spec r') = agentChainCanonicalRunSpec (run_Spec r) →
      writes p m (CreateRun namespace body) (putConsoleRun r' m).

(** The end of a handler: nothing was written, or the write is a legitimate one. *)
Definition allowedTo (p : Principal) (route : Route) (w : W) (x : GoErr + ApiReply Body) (w' : W) : Prop :=
  (∃ reply, x = inr reply) ∧ (console V W w' = console V W w ∨ writable = true ∧ writes p (console V W w) route (console V W w')).

Lemma allowedTo_same p route w reply w' : console V W w' = console V W w → allowedTo p route w (inr reply) w'.
Proof. intros Hw. split; [by eexists|by left]. Qed.
Lemma allowedTo_ret p route w w' reply :
  console V W w' = console V W w ∨ writable = true ∧ writes p (console V W w) route (console V W w') →
  wp (mret reply) (allowedTo p route w) w'.
Proof. intros Hw. apply wp_ret. split; [by eexists|done]. Qed.
Lemma management_marks a b : sameMarks a b → evaluateCompositionManagement b = evaluateCompositionManagement a.
Proof. intros (_ & _ & Hl & Ha). unfold evaluateCompositionManagement, detectGitOpsManager. by rewrite Hl, Ha. Qed.
Lemma sameMarks_key {X} (a b : CompositionObject X) : sameMarks (cob_ObjectMeta a) (cob_ObjectMeta b) → cob_key b = cob_key a.
Proof. intros (Hn & Hns & _). unfold cob_key. by rewrite Hn, Hns. Qed.

Lemma wp_written p route w status word kind obj w' :
  console V W w' = console V W w ∨ writable = true ∧ writes p (console V W w) route (console V W w') →
  wp (written status word kind obj) (allowedTo p route w) w'.
Proof. intros Hw. unfold written. case_match; by apply allowedTo_ret. Qed.
Lemma wp_writeProblem p route w e conflict failed w' :
  console V W w' = console V W w ∨ writable = true ∧ writes p (console V W w) route (console V W w') →
  wp (writeProblem (V := V) e conflict failed) (allowedTo p route w) w'.
Proof. intros Hw. unfold writeProblem, problem. repeat case_match; by apply allowedTo_ret. Qed.

Lemma authorized_kind p namespace segment permission kind :
  authorizeCompositionKind config p namespace segment permission = Some kind →
  may p permission namespace ∧ kind ∈ compositionKinds ∧ ck_PathSegment kind = segment
  ∧ (segment = "agent-external-triggers" → cfg_ExternalTriggers config = true).
Proof.
  unfold authorizeCompositionKind. destruct (Allowed _ _ _ _) eqn:Ea; cbn [negb]; [|discriminate].
  destruct (find _ compositionKinds) as [k|] eqn:Ef; [|discriminate]. destruct (_ && _) eqn:Et; [discriminate|]. intros [= ->].
  apply find_some in Ef as [Hin Hseg%bool_decide_eq_true]. rewrite <- list_elem_of_In in Hin. split_and!; [exact Ea|exact Hin|exact Hseg|].
  intros Hs. rewrite bool_decide_eq_true_2 in Et by exact Hs. by destruct (cfg_ExternalTriggers config).
Qed.
Lemma wp_writeGate p route w namespace segment message k :
  (∀ kind, writable = true → editable p namespace segment kind → wp (k kind) (allowedTo p route w) w) →
  wp (writeGate (W := W) config writable p namespace segment message k) (allowedTo p route w) w.
Proof.
  intros Hk. unfold writeGate, missing, problem. destruct (authorizeCompositionKind _ _ _ _ _) as [kind|] eqn:E; [|by apply allowedTo_ret; left].
  apply authorized_kind in E as (Hm & Hin & Hs & Ht). destruct (ck_AppendOnly kind) eqn:Ea; [by apply allowedTo_ret; left|].
  destruct (cpc_WriteEnabled _) eqn:Ew; cbn [negb]; [|by apply allowedTo_ret; left].
  destruct (writable) eqn:Ewr; cbn [negb]; [|by apply allowedTo_ret; left]. by apply Hk.
Qed.

Lemma wp_create p w namespace segment body :
  wp (handleCompositionCreate config writable p namespace segment body) (allowedTo p (CreateObject namespace segment body) w) w.
Proof.
  apply wp_writeGate. intros kind Hwr Hed. unfold problem. destruct (readCompositionBody body) as [e|doc] eqn:Eb; [by apply allowedTo_ret; left|].
  case_bool_decide as En; [by apply allowedTo_ret; left|]. destruct (_ && _); [by apply allowedTo_ret; left|].
  destruct (decodeSpecIntoObject _ _ _) as [e|v] eqn:Ev; [by apply allowedTo_ret; left|].
  apply wp_bind, wp_try. unfold wp at 1. destruct (createObject _ _ w) as [w' x] eqn:Ec. cbn [fst snd].
  assert (console V W w' = console V W w ∨ writable = true ∧ writes p (console V W w) (CreateObject namespace segment body) (console V W w')) as Hw.
  { apply api_create in Ec as [[? _]|(o & Hn & Hs & Hsp & ->)]; [by left|right]. split; [done|].
    pose proof (sameMarks_key _ _ Hs) as Hk. rewrite <- Hk in Hn.
    apply (writes_create _ _ _ _ _ _ doc v o); try done. unfold ownable. rewrite (management_marks _ _ Hs).
    apply writable_exact. split; [apply stamped_free|apply stampLabels_console]. }
  destruct x as [e|o]; [|by apply wp_written]. repeat case_match; by apply allowedTo_ret.
Qed.

Lemma updated_console metadata current : meta_Labels (updatedMeta metadata current) !! LabelManagedBy = Some ManagedByConsole.
Proof. unfold updatedMeta. cbn. apply lookup_insert_eq. Qed.
Lemma updated_key metadata current :
  meta_Name (updatedMeta metadata current) = meta_Name current ∧ meta_Namespace (updatedMeta metadata current) = meta_Namespace current.
Proof. unfold updatedMeta. by destruct (cmd_Labels metadata), (cmd_Annotations metadata). Qed.

Lemma wp_update p w namespace segment name body :
  wp (handleCompositionUpdate config writable p namespace segment name body) (allowedTo p (UpdateObject namespace segment name body) w) w.
Proof.
  apply wp_writeGate. intros kind Hwr Hed. unfold problem, missing, problem.
  destruct (readCompositionBody body) as [e|doc] eqn:Eb; [by apply allowedTo_ret; left|].
  destruct (_ && _); [by apply allowedTo_ret; left|]. destruct (_ && _); [by apply allowedTo_ret; left|].
  destruct (blank _); [by apply allowedTo_ret; left|]. apply wp_bind, wp_try, wp_read.
  destruct (getObject _ _ _ w) as [e|current] eqn:Eg; [case_match; by apply allowedTo_ret; left|]. apply api_get in Eg as [Eg Ekey].
  destruct (mg_Writable _) eqn:Em; cbn [negb]; [|by apply allowedTo_ret; left].
  case_bool_decide as Erv; cbn [negb]; [|by apply allowedTo_ret; left].
  destruct (decodeSpecIntoObject _ _ _) as [e|v] eqn:Ev; [by apply allowedTo_ret; left|].
  apply wp_bind, wp_try. unfold wp at 1. destruct (updateObject _ _ w) as [w' x] eqn:Ec. cbn [fst snd].
  assert (console V W w' = console V W w
    ∨ writable = true ∧ writes p (console V W w) (UpdateObject namespace segment name body) (console V W w')) as Hw.
  { apply api_update in Ec as [[? _]|(old & o & Ho & Hv & Hu & Hs & Hsp & ->)]; [by left|right]. split; [done|].
    assert (cob_key (v <| cob_ObjectMeta := updatedMeta (cdc_Metadata doc) (cob_ObjectMeta current) |>) = (namespace, name)) as Hk.
    { unfold cob_key. destruct (updated_key (cdc_Metadata doc) (cob_ObjectMeta current)) as [En Ens].
      etransitivity; [exact (f_equal2 pair Ens En)|exact Ekey]. }
    rewrite Hk in Ho. pose proof (eq_trans (eq_sym Ho) Eg) as [= ->]. apply (writes_update _ _ _ _ _ _ _ doc current v o); try done.
    - by rewrite (sameMarks_key _ _ Hs).
    - destruct Hs as (_ & _ & -> & _). apply updated_console. }
  destruct x as [e|o]; [by apply wp_writeProblem|by apply wp_written].
Qed.

Lemma wp_delete p w namespace segment name :
  wp (handleCompositionDelete config writable p namespace segment name) (allowedTo p (DeleteObject namespace segment name) w) w.
Proof.
  apply wp_writeGate. intros kind Hwr Hed. unfold problem, missing, problem. apply wp_bind, wp_try, wp_read.
  destruct (getObject _ _ _ w) as [e|current] eqn:Eg; [case_match; by apply allowedTo_ret; left|]. apply api_get in Eg as [Eg Ekey].
  destruct (mg_Writable _) eqn:Em; cbn [negb]; [|by apply allowedTo_ret; left].
  apply wp_bind, wp_try. unfold wp at 1. rewrite Ekey. destruct (deleteObject _ _ w) as [w' x] eqn:Ec. cbn [fst snd].
  assert (console V W w' = console V W w
    ∨ writable = true ∧ writes p (console V W w) (DeleteObject namespace segment name) (console V W w')) as Hw.
  { apply api_delete in Ec as [[? _]|[->|(old & o & Ho & Hs & Hsp & ->)]]; [by left|right; split; [done|]..].
    - by eapply writes_delete.
    - pose proof (eq_trans (eq_sym Ho) Eg) as [= ->]. by eapply writes_deleting. }
  destruct x as [e|[]]; [|by apply allowedTo_ret]. case_match; by apply allowedTo_ret.
Qed.

Lemma harness_usable namespace name (w : W) :
  harnessProblem (V := V) namespace name w = None →
  name = "" ∨ is_Some (con_objects (console V W w) !! ("AgentHarnessProfile", (namespace, name))).
Proof.
  unfold harnessProblem. case_bool_decide; [by left|]. destruct (negb _); [discriminate|].
  destruct (getObject _ _ _ w) as [e|o] eqn:Eg; [by destruct (IsNotFound e)|]. apply api_get in Eg as [Eg _]. intros _. right. by eexists.
Qed.
Lemma wp_harness p w namespace name body :
  wp (handleRunProfileHarnessPatch config writable p namespace name body) (allowedTo p (PatchHarness namespace name body) w) w.
Proof.
  unfold handleRunProfileHarnessPatch, missing, problem.
  destruct (authorizeCompositionKind _ _ _ _ _) as [kind|] eqn:E; [|by apply allowedTo_ret; left].
  assert (ck_Kind kind = "AgentRunProfile") as ->.
  { unfold authorizeCompositionKind in E. destruct (negb _); [discriminate|]. by injection E as <-. }
  apply authorized_kind in E as (Hm & _ & _ & _). destruct (_ || _) eqn:Eon; [by apply allowedTo_ret; left|].
  apply orb_false_iff in Eon as [Er%negb_false_iff Ew%negb_false_iff].
  destruct (negb writable) eqn:Ewr; [by apply allowedTo_ret; left|apply negb_false_iff in Ewr].
  destruct (readRunProfileHarnessPatchBody body) as [e|harness] eqn:Eb; [by apply allowedTo_ret; left|].
  apply wp_bind, wp_read. destruct (harnessProblem _ _ w) as [[[status code] message]|] eqn:Eh; [by apply allowedTo_ret; left|].
  apply harness_usable in Eh. apply wp_bind, wp_try, wp_read.
  destruct (getObject _ _ _ w) as [e|current] eqn:Eg; [case_match; by apply allowedTo_ret; left|]. apply api_get in Eg as [Eg Ekey].
  destruct (mg_Writable _) eqn:Em; cbn [negb]; [|by apply allowedTo_ret; left].
  apply wp_bind, wp_try. unfold wp at 1. destruct (updateObject _ _ w) as [w' x] eqn:Ec. cbn [fst snd].
  assert (console V W w' = console V W w ∨ writable = true ∧ writes p (console V W w) (PatchHarness namespace name body) (console V W w')) as Hw.
  { apply api_update in Ec as [[? _]|(old & o & Ho & Hv & Hu & Hs & Hsp & ->)]; [by left|right]. split; [done|].
    change (con_objects (console V W w) !! ("AgentRunProfile", cob_key current) = Some old) in Ho. rewrite Ekey in Ho.
    pose proof (eq_trans (eq_sym Ho) Eg) as [= ->]. by apply (writes_harness _ _ _ _ _ harness current o). }
  destruct x as [e|o]; [by apply wp_writeProblem|by apply wp_written].
Qed.

Lemma control_free (meta : ObjectMeta) : mg_Writable (evaluateControlManagement meta) = true → free meta.
Proof. unfold evaluateControlManagement. destruct (detectGitOpsManager meta) eqn:Ed; [done|]. intros _. by apply detect_free. Qed.
Lemma wp_control p w name body :
  wp (handleControlsUpdate (V := V) config writable p name body) (allowedTo p (UpdateControl name body) w) w.
Proof.
  unfold handleControlsUpdate, missing, problem. destruct (ctc_WriteEnabled _) eqn:Eon; cbn [negb]; [|by apply allowedTo_ret; left].
  destruct (negb writable) eqn:Ewr; [by apply allowedTo_ret; left|apply negb_false_iff in Ewr].
  destruct (readLimited _ body) as [e|[raw|]] eqn:Eb; [by apply allowedTo_ret; left| |by apply allowedTo_ret; left].
  destruct (decodeControl raw) as [e|request] eqn:Ed; [by apply allowedTo_ret; left|].
  destruct (controlChange request) as [message|[[launchPolicy reason] expiresAt]] eqn:Ech; [by apply allowedTo_ret; left|].
  apply wp_bind, wp_try, wp_read.
  destruct (getLaunchControl name w) as [e|current] eqn:Eg; [case_match; by apply allowedTo_ret; left|]. apply api_getControl in Eg as [Eg Ename].
  destruct (Allowed _ _ _ _) eqn:Ea; cbn [negb]; [|by apply allowedTo_ret; left].
  destruct (mg_Writable _) eqn:Em; cbn [negb]; [|by apply allowedTo_ret; left]. destruct (blank _); [by apply allowedTo_ret; left|].
  case_bool_decide as Erv; cbn [negb]; [|by apply allowedTo_ret; left].
  apply wp_bind, wp_try. unfold wp at 1. destruct (updateControl _ w) as [w' x] eqn:Ec. cbn [fst snd].
  assert (console V W w' = console V W w ∨ writable = true ∧ writes p (console V W w) (UpdateControl name body) (console V W w')) as Hw.
  { apply api_updateControl in Ec as [[? _]|(old & c & Ho & Hv & Hs & Hsp & Hst & ->)]; [by left|right]. split; [done|].
    change (con_controls (console V W w) !! ctl_Name current = Some old) in Ho. rewrite Ename, Eg in Ho. injection Ho as <-.
    apply (writes_control _ _ _ _ raw request launchPolicy reason expiresAt current c); try done; [by apply control_free|].
    destruct Hs as (Hn & _). unfold ctl_Name in *. rewrite Hn. exact Ename. }
  destruct x as [e|o]; [by apply wp_writeProblem|by apply allowedTo_ret].
Qed.

Lemma built_run namespace request generateName r :
  buildAgentRunFromCreateRequest namespace request = inr (generateName, r) →
  run_Namespace r = namespace ∧ run_Labels r = {[ createdByLabel := consoleCreatedBy ]}.
Proof.
  unfold buildAgentRunFromCreateRequest. destruct (negb _); [discriminate|]. destruct (createRunNames request) as [e|[n g]]; [discriminate|].
  cbn zeta. do 5 (match goal with |- (if ?b then _ else _) = _ → _ => destruct b; [discriminate|] end).
  intros E. injection E as _ <-. done.
Qed.
Lemma wp_run p w namespace body :
  wp (handleCreateRun (V := V) config writable p namespace body) (allowedTo p (CreateRun namespace body) w) w.
Proof.
  unfold handleCreateRun, missing, problem. destruct (cfg_CreateEnabled _) eqn:Eon; cbn [negb]; [|by apply allowedTo_ret; left].
  destruct (Allowed _ _ _ _) eqn:Ea; cbn [negb]; [|by apply allowedTo_ret; left].
  destruct (negb writable) eqn:Ewr; [by apply allowedTo_ret; left|apply negb_false_iff in Ewr].
  destruct (readCreateRunBody body) as [e|request] eqn:Eb; [by apply allowedTo_ret; left|].
  destruct (buildAgentRunFromCreateRequest _ _) as [e|[generateName r]] eqn:Er; [by apply allowedTo_ret; left|].
  apply wp_bind, wp_try. unfold wp at 1. destruct (createConsoleRun _ _ w) as [w' x] eqn:Ec. cbn [fst snd].
  assert (console V W w' = console V W w ∨ writable = true ∧ writes p (console V W w) (CreateRun namespace body) (console V W w')) as Hw.
  { apply api_createRun in Ec as [[? _]|(r' & Hn & Hns & _ & Hl & Hsp & ->)]; [by left|right]. split; [done|].
    destruct (built_run _ _ _ _ Er) as [Bn Bl]. apply (writes_run _ _ _ _ request generateName r r'); try done; congruence. }
  destruct x as [e|o]; [|by apply allowedTo_ret]. repeat case_match; by apply allowedTo_ret.
Qed.

Lemma wp_reads p w route :
  match route with ListObjects _ _ _ | GetObject _ _ _ | ListControls | GetControl _ => True | _ => False end →
  wp (handle config writable p route) (allowedTo p route w) w.
Proof.
  destruct route; intros Hr; try done; cbn [handle].
  - unfold handleCompositionList, missing, problem. repeat (case_match; try by apply allowedTo_ret; left).
    apply wp_bind, wp_try, wp_read. repeat case_match; by apply allowedTo_ret; left.
  - unfold handleCompositionGet, missing, problem. repeat (case_match; try by apply allowedTo_ret; left).
    apply wp_bind, wp_try, wp_read. repeat case_match; by apply allowedTo_ret; left.
  - unfold handleControlsList, missing, problem. case_match; [by apply allowedTo_ret; left|].
    apply wp_bind, wp_try, wp_read. repeat case_match; by apply allowedTo_ret; left.
  - unfold handleControlsGet, missing, problem. case_match; [by apply allowedTo_ret; left|].
    apply wp_bind, wp_try, wp_read. repeat case_match; by apply allowedTo_ret; left.
Qed.
Lemma wp_route p w route : wp (handle config writable p route) (allowedTo p route w) w.
Proof.
  destruct route; try by apply wp_reads.
  - apply wp_create.
  - apply wp_update.
  - apply wp_delete.
  - apply wp_harness.
  - apply wp_control.
  - apply wp_run.
Qed.

(** The request bears one token, in its header, that the library verified for an
    accepted audience, and the principal is its subject. *)
Definition genuine (verifier : option (string → GoErr + IDToken)) (request : HttpRequest) (p : Principal) : Prop :=
  hq_QueryToken request = false ∧ ∃ raw verify token, bearerToken (hq_Authorization request) = Some raw
    ∧ verifier = Some verify ∧ verify (TrimSpace raw) = inr token ∧ anyOf (oid_Audiences (cfg_OIDC config)) (itk_Audience token)
    ∧ prn_Subject p = TrimSpace (itk_Subject token) ∧ prn_Subject p ≠ "" ∧ Verify config verifier raw = inr p.
Lemma authenticate_genuine verifier request p :
  authenticate (A := Body) config verifier request = inr p → genuine verifier request p.
Proof.
  unfold authenticate. destruct (hq_QueryToken request) eqn:Eq; [discriminate|].
  destruct (bearerToken _) as [raw|] eqn:Eb; [|discriminate]. destruct (Verify config verifier raw) as [e|p'] eqn:Ev.
  { destruct e; repeat case_match; discriminate. }
  intros [= ->]. split; [done|]. pose proof Ev as Ev'. unfold Verify in Ev. destruct verifier as [verify|]; [|discriminate].
  destruct (verify _) as [e|token] eqn:Et; [discriminate|]. destruct (intersectsStrings _ _ _) eqn:Ei; cbn [negb] in Ev; [|discriminate].
  destruct (blank _) eqn:Es; [discriminate|]. destruct (itk_Claims token) as [e|claims]; [discriminate|]. injection Ev as <-.
  exists raw, verify, token. apply intersects_anyOf in Ei. unfold blank in Es. apply bool_decide_eq_false in Es. by split_and!.
Qed.

(** C13: every request is answered; it changes something on the server only when its origin
    is allowed, it bears a verified token, and the change is one that its route and the
    permissions of the principal stand for: the objects of one kind in one namespace
    that the console may manage, one launch gate of an application, or one new run. *)
Theorem api_writes_authorized verifier request route (w w' : W) x :
  serve config writable verifier request route w = (w', x) →
  (∃ reply, x = inr reply)
  ∧ (console V W w' ≠ console V W w → writable = true
     ∧ (TrimSpace (hq_Origin request) = "" ∨ TrimSpace (hq_Origin request) ∈ cfg_AllowedOrigins config)
     ∧ ∃ p, genuine verifier request p ∧ writes p (console V W w) route (console V W w')).
Proof.
  unfold serve, corsGuard, problem, mret. destruct (_ && _) eqn:Eo; [intros [= <- <-]; split; [by eexists|done]|].
  assert (TrimSpace (hq_Origin request) = "" ∨ TrimSpace (hq_Origin request) ∈ cfg_AllowedOrigins config) as Ho.
  { apply andb_false_iff in Eo as [Eo%negb_false_iff%bool_decide_eq_true|Eo%negb_false_iff%bool_decide_eq_true]; [by left|by right]. }
  destruct (bool_decide (hq_Method request = _)); [intros [= <- <-]; split; [by eexists|done]|].
  destruct (authenticate config verifier request) as [reply|p] eqn:Ea; [intros [= <- <-]; split; [by eexists|done]|].
  intros E. destruct (wp_elim _ _ _ _ _ (wp_route p w route) E) as [Hx Hw]. split; [exact Hx|]. intros Hne.
  destruct Hw as [Hw|[Hwr Hw]]; [by destruct Hne|]. split_and!; [exact Hwr|exact Ho|]. exists p. split; [by apply authenticate_genuine|exact Hw].
Qed.

(** C37: an update through the console keeps an object of the console writable, except that
    the labels of the client are taken with their app.kubernetes.io/managed-by, which a
    create drops: a client that names a GitOps tool there locks the object. *)
Theorem update_keeps_writable metadata current :
  ownable current →
  ownable (updatedMeta metadata current)
  ↔ ∀ labels v, cmd_Labels metadata = Some labels → labels !! appManagedBy = Some v → ToLower (TrimSpace v) ∉ gitOpsManagers.
Proof.
  unfold ownable. rewrite !writable_exact. intros [(Hl & Ha & Hm) Hc]. unfold free. rewrite updated_console.
  assert (∀ k, isGitOpsAnnotationKey k = true → meta_Annotations (updatedMeta metadata current) !! k = None) as Ha'.
  { intros k Hk. unfold updatedMeta. destruct (cmd_Annotations metadata); destruct (cmd_Labels metadata); cbn; rewrite ?dropKeys_lookup, ?Hk; auto. }
  assert (∀ k, isGitOpsLabelKey k = true → meta_Labels (updatedMeta metadata current) !! k = None) as Hl'.
  { intros k Hk. assert (LabelManagedBy ≠ k) by (by intros <-). unfold updatedMeta.
    destruct (cmd_Annotations metadata); destruct (cmd_Labels metadata); cbn; rewrite lookup_insert_ne by done;
      rewrite ?dropKeys_lookup, ?Hk, ?stampLabels_lookup; auto. }
  assert (∀ labels, cmd_Labels metadata = Some labels → meta_Labels (updatedMeta metadata current) !! appManagedBy = labels !! appManagedBy) as Hs.
  { intros labels E. unfold updatedMeta. rewrite E. destruct (cmd_Annotations metadata); cbn; rewrite lookup_insert_ne by done;
      rewrite dropKeys_lookup; by rewrite lookup_insert_ne. }
  split.
  - intros [(_ & _ & Hw) _] labels v E Hv. apply Hw. by rewrite (Hs labels E).
  - intros Hw. split_and!; try done. intros v Hv. destruct (cmd_Labels metadata) as [labels|] eqn:E.
    + rewrite (Hs labels eq_refl) in Hv. by eapply Hw.
    + apply console_not_gitops, (stampLabels_manager (meta_Labels current)). unfold updatedMeta in Hv. rewrite E in Hv.
      destruct (cmd_Annotations metadata); cbn in Hv; rewrite lookup_insert_ne in Hv by done; exact Hv.
Qed.

(** The list of external triggers is empty whatever triggers there are. *)
Theorem trigger_list_is_empty p namespace limit (w w' : W) docs :
  handleCompositionList config p namespace "agent-external-triggers" limit w = (w', inr (Answer 200 (Documents docs))) → docs = [].
Proof.
  intros E. enough (wp (handleCompositionList config p namespace "agent-external-triggers" limit)
    (λ x _, ∀ docs, x = inr (Answer 200 (Documents docs)) → docs = []) w) as Hw by exact (wp_elim _ _ _ _ _ Hw E docs eq_refl).
  clear docs E w'. unfold handleCompositionList, missing, problem. destruct (authorizeCompositionKind _ _ _ _ _) as [kind|] eqn:Ek; [|by apply wp_ret].
  assert (ck_Kind kind = "AgentExternalTrigger") as Hk.
  { unfold authorizeCompositionKind in Ek. destruct (negb _); [discriminate|]. cbn in Ek. destruct (negb _); [discriminate|]. by injection Ek as <-. }
  destruct (negb _); [by apply wp_ret|]. destruct (parseListLimit _); [|by apply wp_ret]. apply wp_bind, wp_try, wp_read.
  destruct (listObjects _ _ w); [by apply wp_ret|]. unfold objectListItems. rewrite Hk, bool_decide_eq_false_2 by (unfold listedKinds; set_solver).
  cbn. rewrite take_nil. cbn. apply wp_ret. by intros docs [= <-].
Qed.
End writes.
