(* ===== verification/ApiMem.v ===== *)
(** * An in-memory server for the console

    A concrete API server with a proof that it satisfies the laws of [ApiSafety], and
    concrete functions for the decoding of bodies and claims.  The witnesses and the
    examples send requests to it. *)

From stdpp Require Import base list gmap strings sorting.
From Stdlib Require Import ZArith Lia.
From S2P Require Import Prelude GoStrings GoTime Names ApiRun ApiWork ApiTrigger Kube MemKube Fixtures RunControl Merge Capabilities Composition Webhook RunOutput RunPayload RunTerminal ApiAccess ApiWrites ApiSafety.

Open Scope Z_scope.

(** Specs are their JSON. *)
Abbreviation World := (Console string).

Definition mc_get (kind ns n : string) (w : World) : GoErr + CompositionObject string :=
  match con_objects w !! (kind, (ns, n)) with
  | Some o => if bool_decide (cob_key o = (ns, n)) then inr o else inl (notFound kind)
  | None => inl (notFound kind)
  end.
Definition mc_getControl (n : string) (w : World) : GoErr + AgentRunControl :=
  match con_controls w !! n with
  | Some c => if bool_decide (ctl_Name c = n) then inr c else inl (notFound "AgentRunControl")
  | None => inl (notFound "AgentRunControl")
  end.
Definition mc_create (kind : string) (o : CompositionObject string) : M World GoErr (CompositionObject string) := λ w,
  match con_objects w !! (kind, cob_key o) with
  | Some _ => (w, inl (ErrApi ReasonAlreadyExists "already exists"))
  | None =>
      let o' := o <| cob_ObjectMeta := (cob_ObjectMeta o) <| meta_UID := "uid" |> <| meta_ResourceVersion := "1" |> |> in
      (putObject kind o' w, inr o')
  end.
Definition conflict {A} : GoErr + A := inl (ErrApi ReasonConflict "the object has been modified").
Definition mc_update (kind : string) (o : CompositionObject string) : M World GoErr (CompositionObject string) := λ w,
  match con_objects w !! (kind, cob_key o) with
  | None => (w, inl (notFound kind))
  | Some old =>
      if bool_decide (meta_ResourceVersion (cob_ObjectMeta old) = meta_ResourceVersion (cob_ObjectMeta o)) then
        let o' := o <| cob_ObjectMeta := (cob_ObjectMeta o) <| meta_UID := meta_UID (cob_ObjectMeta old) |>
                         <| meta_ResourceVersion := meta_ResourceVersion (cob_ObjectMeta o) +:+ "+" |> |>
                    <| cob_Status := cob_Status old |> in
        (putObject kind o' w, inr o')
      else (w, conflict)
  end.
Definition mc_delete (kind : string) (k : key) : M World GoErr unit := λ w,
  match con_objects w !! (kind, k) with
  | None => (w, inl (notFound kind))
  | Some _ => (w <| con_objects := delete (kind, k) (con_objects w) |>, inr tt)
  end.
Definition mc_updateControl (c : AgentRunControl) : M World GoErr AgentRunControl := λ w,
  match con_controls w !! ctl_Name c with
  | None => (w, inl (notFound "AgentRunControl"))
  | Some old =>
      if bool_decide (meta_ResourceVersion (ctl_ObjectMeta old) = meta_ResourceVersion (ctl_ObjectMeta c)) then
        let c' := c <| ctl_ObjectMeta := (ctl_ObjectMeta c) <| meta_ResourceVersion := meta_ResourceVersion (ctl_ObjectMeta c) +:+ "+" |> |>
                    <| ctl_Status := ctl_Status old |> in
        (putLaunchControl c' w, inr c')
      else (w, conflict)
  end.
Definition mc_createRun (generateName : string) (r : AgentRun) : M World GoErr AgentRun := λ w,
  let r' := if bool_decide (run_Name r = "")
            then r <| run_ObjectMeta := (run_ObjectMeta r) <| meta_Name := generateName +:+ "x7f2k" |> |> else r in
  match con_runs w !! run_key r' with
  | Some _ => (w, inl (ErrApi ReasonAlreadyExists "already exists"))
  | None => (putConsoleRun r' w, inr r')
  end.
(** The object that is stored is known from the last of its properties. *)
Ltac stored := unfold sameMarks; split_and!; cycle -1; [reflexivity|done..].

#[export] Instance console_client : ApiClient string World := {
  getObject := mc_get;
  listObjects kind ns w := inr (map snd (filter (λ ko, ko.1.1 = kind ∧ ko.1.2.1 = ns) (map_to_list (con_objects w))));
  createObject := mc_create;
  updateObject := mc_update;
  deleteObject := mc_delete;
  getLaunchControl := mc_getControl;
  listLaunchControls w := inr (map snd (map_to_list (con_controls w)));
  updateControl := mc_updateControl;
  createConsoleRun := mc_createRun;
  IsInvalid _ := false }.

Lemma mc_update_law (w w' : World) kind o x :
  mc_update kind o w = (w', x) →
  w' = w ∧ (∃ e, x = inl e)
  ∨ ∃ old o', con_objects w !! (kind, cob_key o) = Some old
     ∧ meta_ResourceVersion (cob_ObjectMeta old) = meta_ResourceVersion (cob_ObjectMeta o)
     ∧ meta_UID (cob_ObjectMeta o') = meta_UID (cob_ObjectMeta old) ∧ sameMarks (cob_ObjectMeta o) (cob_ObjectMeta o')
     ∧ cob_Spec o' = cob_Spec o ∧ w' = putObject kind o' w.
Proof.
  unfold mc_update, conflict. destruct (_ !! _) as [old|]; [case_bool_decide|]; intros [= <- <-]; [right|left; eauto..].
  eexists old, _. stored.
Qed.
#[export] Instance console_laws : ApiLaws string World.
Proof.
  refine {| console w := w; admitSpec _ v := v |}.
  - intros w kind ns n o. cbn. unfold mc_get. destruct (_ !! _); [|discriminate]. case_bool_decide; [|discriminate]. by intros [= ->].
  - intros w n c. cbn. unfold mc_getControl. destruct (_ !! _); [|discriminate]. case_bool_decide; [|discriminate]. by intros [= ->].
  - intros w w' kind o x. cbn. unfold mc_create. destruct (_ !! _); intros [= <- <-]; [left; eauto|right]. eexists. stored.
  - apply mc_update_law.
  - intros w w' kind k x. cbn. unfold mc_delete. destruct (_ !! _); intros [= <- <-]; [right; by left|left; eauto].
  - intros w w' c x. cbn. unfold mc_updateControl, conflict. destruct (_ !! _) as [old|] eqn:E; [case_bool_decide|]; intros [= <- <-]; [right|left; eauto..].
    eexists old, _. stored.
  - intros w w' generateName r x. cbn. unfold mc_createRun. case_bool_decide; destruct (_ !! _) eqn:E; intros [= <- <-]; try (left; by eauto); right.
    all: eexists; stored.
Defined.

(** ** Requests *)

#[export] Instance console_range : MapRange.
Proof.
  refine {| rangeKeys m := map fst (map_to_list m) |}. intros m k. rewrite list_elem_of_fmap. split.
  - intros ([k' v] & -> & Hin). apply elem_of_map_to_list in Hin. by eexists.
  - intros [v Hv]. exists (k, v). split; [done|]. by apply elem_of_map_to_list.
Defined.
#[export] Instance console_specs : SpecValues string := {
  newSpec _ := "";
  wrapSpec _ raw := inr raw;
  unwrapSpec raw _ := inr raw;
  encodeObject _ o := inr (cob_Spec o, cob_Status o);
  setHarness ref spec := spec +:+ match ref with Some r => ref_Name r | None => "" end }.
#[export] Instance console_names : NameRules := λ name prefix, if blank name then ["a name is required"] else [].
#[export] Instance console_claims : ClaimDecoder := {
  claimStrings raw := if bool_decide (raw = "") then None else Some (Fields raw);
  claimString raw := Some raw;
  claimKeys _ := None;
  claimBool raw := Some (bool_decide (raw = "true")) }.
(** Two bodies of a profile, one of a pause and one of a run. *)
Definition profileDoc (version : string) (labels : option (gmap string string)) : CompositionDocument :=
  mkCompositionDocument "" "" (mkCompositionMetadata "triage" "" "" version 0 None labels None) "{}" "" (mkManagement false "" "").
#[export] Instance console_bodies : BodyDecoder := {
  decodeDocument raw := if bool_decide (raw = "new") then inr (profileDoc "" (Some {[ appManagedBy := "Helm" ]}))
                        else if bool_decide (raw = "changed") then inr (profileDoc "1" (Some {[ appManagedBy := "Helm" ]}))
                        else inl (ErrText "invalid character");
  decodeControl raw := inr (mkControlWriteRequest "Paused" raw "" "" "" "" "1");
  decodeRun raw := inr (mkCreateAgentRunRequest "" "" raw "triage" "" [] [] "" "" "" "" "" "" "" "" "" "");
  decodeHarness raw := inr (Some raw) }.

Definition fx_binding : AuthorizationBinding :=
  mkAuthorizationBinding "editors" [] ["editors"] [] [] [] [PermissionCompositionRead; PermissionCompositionWrite; PermissionRunsCreate] ["team"] false.
Definition fx_access : Config :=
  DefaultConfig <| cfg_OIDC := (cfg_OIDC DefaultConfig) <| oid_Issuer := "https://id.example.org" |> <| oid_Audiences := ["anvil"] |> |>
    <| cfg_Authorization := mkAuthorizationConfig ["scope"] ["roles"] [] ["groups"] "" [fx_binding] |>
    <| cfg_Composition := mkCompositionConfig true true |> <| cfg_CreateEnabled := true |> <| cfg_ExternalTriggers := true |>.
Definition fx_verifier : option (string → GoErr + IDToken) := Some (λ raw,
  if bool_decide (raw = "t0ken") then inr (mkIDToken ["anvil"] "alice" "https://id.example.org" fx_epoch (inr {[ "groups" := "editors" ]}))
  else inl (ErrText "bad signature")).
Definition fx_http (token : string) : HttpRequest := mkHttpRequest "POST" "" ["Bearer " +:+ token] false.
Definition fx_create : Route := CreateObject "team" "agent-run-profiles" (inr "new").
Definition fx_empty : World := mkConsole ∅ ∅ ∅.
Definition sent (token : string) (route : Route) (w : World) : World := (serve fx_access true fx_verifier (fx_http token) route w).1.
Lemma sent_eq token route w :
  serve fx_access true fx_verifier (fx_http token) route w = (sent token route w, (serve fx_access true fx_verifier (fx_http token) route w).2).
Proof. unfold sent. apply surjective_pairing. Qed.
Definition names (w : World) : list (string * key) := map fst (map_to_list (con_objects w)).

(** A profile is created in the namespace of the binding, and nowhere else or without
    a token; deleting it again leaves nothing. *)
Example console_lifecycle :
  names (sent "t0ken" fx_create fx_empty) = [("AgentRunProfile", ("team", "triage"))]
  ∧ names (sent "t0ken" (CreateObject "prod" "agent-run-profiles" (inr "new")) fx_empty) = []
  ∧ names (sent "stolen" fx_create fx_empty) = []
  ∧ names (sent "t0ken" (CreateObject "team" "agent-auth-sessions" (inr "new")) fx_empty) = []
  ∧ names (sent "t0ken" (DeleteObject "team" "agent-run-profiles" "triage") (sent "t0ken" fx_create fx_empty)) = [].
Proof. vm_compute. split_and!; reflexivity. Qed.
(** After an update with a label of Helm the object cannot be deleted any more. *)
Example console_locked :
  names (sent "t0ken" (DeleteObject "team" "agent-run-profiles" "triage")
    (sent "t0ken" (UpdateObject "team" "agent-run-profiles" "triage" (inr "changed")) (sent "t0ken" fx_create fx_empty)))
  = [("AgentRunProfile", ("team", "triage"))].
Proof. vm_compute. reflexivity. Qed.

Lemma api_writes_authorized_witness :
  ∃ p, genuine fx_access fx_verifier (fx_http "t0ken") p ∧ writes (W := World) fx_access p fx_empty fx_create (sent "t0ken" fx_create fx_empty).
Proof.
  assert (console string World (sent "t0ken" fx_create fx_empty) ≠ console string World fx_empty) as Hne.
  { intros E. assert (names (console string World (sent "t0ken" fx_create fx_empty)) = [("AgentRunProfile", ("team", "triage"))]) as E1
      by (vm_compute; reflexivity). rewrite E in E1. vm_compute in E1. discriminate E1. }
  exact (proj2 (proj2 (proj2 (api_writes_authorized fx_access true fx_verifier (fx_http "t0ken") fx_create fx_empty _ _ (sent_eq "t0ken" fx_create fx_empty)) Hne))).
Defined.

Definition fx_urls : NetURL := {|
  urlParse := λ s, inr (mkURL "https" false "id.example.org" "id.example.org" "" "" "");
  withQuery := λ _ k v, k +:+ "=" +:+ v |}.
Definition fx_alice : Principal := mkPrincipal "alice" "https://id.example.org" "" false [] ["editors"] [] [] fx_epoch.
Lemma grants_explicit_witness : featureOn fx_access PermissionRunsCreate ∧ satisfies fx_binding fx_alice ∧ grantsIn fx_binding fx_alice "team".
Proof.
  destruct (grants_explicit (H := fx_urls) fx_access fx_alice PermissionRunsCreate "team" ltac:(vm_compute; reflexivity) ltac:(vm_compute; reflexivity))
    as (_ & Hf & b & Hin & Hs & Hg & _). apply list_elem_of_singleton in Hin. subst b. exact (conj Hf (conj Hs Hg)).
Defined.

Definition fx_limiter (l : streamLimiter) : streamLimiter := default l (acquire "bob" l).
Lemma limiter_exact_witness :
  opened 2 1 ["bob"] (fx_limiter (newStreamLimiter 2 1)) ∧ acquire "bob" (fx_limiter (newStreamLimiter 2 1)) = None
  ∧ acquire "eve" (fx_limiter (newStreamLimiter 2 1)) ≠ None.
Proof.
  assert (opened 2 1 ["bob"] (fx_limiter (newStreamLimiter 2 1))) as Ho by (eapply opened_more; [constructor|vm_compute; reflexivity]).
  destruct (limiter_exact 2 1 ["bob"] _ ltac:(lia) ltac:(lia) Ho) as (_ & _ & _ & Hr). split; [exact Ho|]. split.
  - apply Hr. right. vm_compute. reflexivity.
  - intros E. apply Hr in E. revert E. vm_compute. intros [E|E]; discriminate E.
Defined.

Definition fx_owned : ObjectMeta := createdMeta "team" "triage" (cdc_Metadata (profileDoc "" None)).
Lemma update_keeps_writable_witness :
  ownable fx_owned ∧ ownable (updatedMeta (cdc_Metadata (profileDoc "1" None)) fx_owned)
  ∧ ¬ ownable (updatedMeta (cdc_Metadata (profileDoc "1" (Some {[ appManagedBy := "Helm" ]}))) fx_owned).
Proof.
  assert (ownable fx_owned) as Ho by (vm_compute; reflexivity). split; [exact Ho|]. split.
  - apply (update_keeps_writable _ _ Ho). intros labels v E. discriminate E.
  - intros Hw.
    apply (proj1 (update_keeps_writable _ _ Ho) Hw {[ appManagedBy := "Helm" ]} "Helm" eq_refl ltac:(vm_compute; reflexivity)).
    apply (bool_decide_eq_true (ToLower (TrimSpace "Helm") ∈ gitOpsManagers)). vm_compute. reflexivity.
Defined.

(** A trigger that exists is not listed. *)
Example trigger_not_listed :
  (handleCompositionList fx_access fx_alice "team" "agent-external-triggers" ""
    (mkConsole {[ ("AgentExternalTrigger", ("team", "push")) := mkObject fx_owned "{}" "" ]} ∅ ∅ : World)).2
  = inr (Answer 200 (Documents [])).
Proof. vm_compute. reflexivity. Qed.
