(* ===== verification/ChatModel.v ===== *)
(** * Conversations: data and validation

    The data of [src/internal/chat]: threads, messages and turns with their
    attempts, and the functions that validate and normalise them
    ([store.go], [turns.go], [retry.go], [standing.go], [reply_repair.go]).

    A turn is a durable outbox entry: one accepted user message together with
    the run that answers it.  [Env] is what the runtime supplies to one call of
    a store operation: the clock, the UUIDs it generates, and the order in which
    Go ranges over a map, which the language leaves open.  UUID parsing is a
    third-party package and the decoding of JSON text a parameter ([Codec]);
    raw JSON is kept as the text it is. *)

From stdpp Require Import base list gmap strings sorting.
From Stdlib Require Import ZArith Lia Ascii.
From S2P Require Import Prelude GoStrings GoTime.

Open Scope Z_scope.

(** ** Errors *)

Inductive ChatErr :=
  | ErrNotFound (detail : string)
  | ErrInvalid (detail : string)
  | ErrTurnActive
  | ErrConversationChanged
  | ErrRequestConflict.
#[export] Instance ChatErr_eq_dec : EqDecision ChatErr.
Proof. solve_decision. Defined.

(** A result or an error, in sequence. *)
Definition Res (A : Type) : Type := ChatErr + A.
#[export] Instance Res_bind : MBind Res := λ A B f m,
  match m with inl e => inl e | inr a => f a end.
#[export] Instance Res_ret : MRet Res := λ A a, inr a.
(** [if b { return err }] *)
Definition refuseIf (b : bool) (e : ChatErr) : Res unit := if b then inl e else inr tt.

(** ** Data *)

Record Thread := mkThread {
  th_ID : string;
  th_Namespace : string;
  th_ProfileName : string;
  th_Mode : string;
  th_Title : string;
  th_CreatedAt : Time;
  th_UpdatedAt : Time;
  th_CreatedBy : string;
  th_Metadata : string }.
#[export] Instance eta_Thread : Eta Thread := λ r, mkThread
  (th_ID r) (th_Namespace r) (th_ProfileName r) (th_Mode r) (th_Title r)
  (th_CreatedAt r) (th_UpdatedAt r) (th_CreatedBy r) (th_Metadata r).

Record Message := mkMessage {
  msg_ID : string;
  msg_ThreadID : string;
  msg_Role : string;
  msg_Content : string;
  msg_CreatedAt : Time;
  msg_Sequence : Z;
  msg_Metadata : string }.
#[export] Instance eta_Message : Eta Message := λ r, mkMessage
  (msg_ID r) (msg_ThreadID r) (msg_Role r) (msg_Content r) (msg_CreatedAt r)
  (msg_Sequence r) (msg_Metadata r).

Record ThreadFilter := mkThreadFilter {
  tf_Namespace : string;
  tf_ProfileName : string;
  tf_Mode : string;
  tf_Limit : Z }.
#[export] Instance eta_ThreadFilter : Eta ThreadFilter := λ r, mkThreadFilter
  (tf_Namespace r) (tf_ProfileName r) (tf_Mode r) (tf_Limit r).

Record TurnAttempt := mkTurnAttempt {
  at_RunName : string;
  at_RunUID : string;
  at_Error : string;
  at_CompletedAt : Time }.

Record TurnRetry := mkTurnRetry {
  tr_RunName : string;
  tr_RunJSON : string;
  tr_Reason : string;
  tr_At : Time }.

Record Delegate := mkDelegate {
  dl_ProfileName : string;
  dl_ThreadID : string;
  dl_TurnID : string;
  dl_RunName : string;
  dl_Status : string }.

Record Turn := mkTurn {
  tn_ExpectedSequence : option Z;
  tn_LockKeys : list string;
  tn_Deferred : bool;
  tn_Delegates : list Delegate;
  tn_ProfileName : string;
  tn_RunUID : string;
  tn_ID : string;
  tn_ThreadID : string;
  tn_Namespace : string;
  tn_RequestID : string;
  tn_RunName : string;
  tn_Status : string;
  tn_Error : string;
  tn_UserMessageID : string;
  tn_CreatedAt : Time;
  tn_RunJSON : string;
  tn_RetryCount : Z;
  tn_RetryAt : option Time;
  tn_RecoveryReason : string;
  tn_Attempts : list TurnAttempt }.
#[export] Instance eta_Turn : Eta Turn := λ r, mkTurn
  (tn_ExpectedSequence r) (tn_LockKeys r) (tn_Deferred r) (tn_Delegates r)
  (tn_ProfileName r) (tn_RunUID r) (tn_ID r) (tn_ThreadID r) (tn_Namespace r)
  (tn_RequestID r) (tn_RunName r) (tn_Status r) (tn_Error r) (tn_UserMessageID r)
  (tn_CreatedAt r) (tn_RunJSON r) (tn_RetryCount r) (tn_RetryAt r)
  (tn_RecoveryReason r) (tn_Attempts r).

Definition MaxTurnRetries : Z := 2.
Definition ModePersona : string := "persona".
Definition ModeFleet : string := "fleet".
Definition RoleSystem : string := "system".
Definition RoleUser : string := "user".
Definition RoleAssistant : string := "assistant".
Definition RoleTool : string := "tool".
Definition DefaultThreadTitle : string := "New chat".
Definition maxTitleRunes : Z := 200.
Definition maxMessageBytes : Z := 64 * 1024.
Definition maxMetadataBytes : Z := 8 * 1024.
Definition defaultListLimit : Z := 50.
Definition maxListLimit : Z := 200.
Definition maxAppendBatch : Z := 16.

Definition len (s : string) : Z := Z.of_nat (String.length s).

(** ** What the code takes from outside *)

(** [uuidParse s]: [uuid.Parse(s)] and, when it succeeds, the canonical text
    [parsed.String()].  [decodeObject s]: [json.Unmarshal] of [s] into a
    [map[string]any], where a JSON null is [None] in the map; [encodeObject] its
    [json.Marshal]; [decodeHarness s]: what [json.Unmarshal] leaves in a struct
    with the one field [harnessProfileName]. *)
Class Codec := {
  uuidParse : string → option string;
  JValue : Type;
  JValue_eq_dec :: EqDecision JValue;
  jsonString : string → JValue;
  decodeObject : string → option (gmap string (option JValue));
  encodeObject : gmap string (option JValue) → string;
  decodeHarness : string → string }.

Record Env := mkEnv {
  e_now : Time;
  e_uuid : nat → string;
  e_order : nat → ∀ A, gmap string A → list A;
  e_order_perm : ∀ n A m, e_order n A m ≡ₚ (map_to_list m).*2 }.

(** Go's [for _, v := range m], the [n]th such loop of a call. *)
Definition ranged {A} (env : Env) (n : nat) (m : gmap string A) : list A := e_order env n A m.

Lemma elem_of_ranged {A} env n (m : gmap string A) a :
  a ∈ ranged env n m ↔ ∃ k, m !! k = Some a.
Proof.
  unfold ranged. rewrite e_order_perm, list_elem_of_fmap. split.
  - intros ([k a'] & -> & Hin%elem_of_map_to_list). by exists k.
  - intros [k Hk]. exists (k, a). split; [done|]. by apply elem_of_map_to_list.
Qed.

Section validation.
Context `{Codec}.

Definition isUUID (s : string) : bool := bool_decide (is_Some (uuidParse s)).

(** Go: [time.Time.UTC] is the identity on instants, so that the branch on
    [now.IsZero()] only chooses the clock. *)
Definition nowOr (env : Env) (now : Time) : Time := if IsZero now then e_now env else now.

Definition normalizeMetadata (raw : string) : Res string :=
  if bool_decide (raw = "") then inr "{}" else
  _ ← refuseIf (maxMetadataBytes <? len raw)
        (ErrInvalid ("metadata exceeds " +:+ fmtZ maxMetadataBytes +:+ " bytes"));
  let trimmed := TrimSpace raw in
  if bool_decide (trimmed = "") || bool_decide (trimmed = "null") then inr "{}" else
  match decodeObject raw with
  | None => inl (ErrInvalid "metadata must be a JSON object")
  | Some _ => inr trimmed
  end.

Definition trimThread (thread : Thread) : Thread :=
  thread <| th_ID := TrimSpace (th_ID thread) |>
         <| th_Namespace := TrimSpace (th_Namespace thread) |>
         <| th_ProfileName := TrimSpace (th_ProfileName thread) |>
         <| th_Mode := (let m := TrimSpace (th_Mode thread) in
                        if bool_decide (m = "") then ModePersona else m) |>
         <| th_Title := TrimSpace (th_Title thread) |>
         <| th_CreatedBy := TrimSpace (th_CreatedBy thread) |>.

(** The identifier is assigned, or must be a UUID; [uuid] is the next generated
    one. *)
Definition assignID (uuid id what : string) : Res string :=
  if bool_decide (id = "") then inr uuid
  else if isUUID id then inr id
  else inl (ErrInvalid (what +:+ " id must be a UUID")).

Definition NormalizeThread (env : Env) (thread : Thread) (now : Time) : Res Thread :=
  let thread := trimThread thread in
  _ ← refuseIf (bool_decide (th_Mode thread ≠ ModePersona) && bool_decide (th_Mode thread ≠ ModeFleet))
        (ErrInvalid "mode must be persona or fleet");
  _ ← refuseIf (bool_decide (th_Namespace thread = "")) (ErrInvalid "namespace is required");
  _ ← refuseIf (bool_decide (th_CreatedBy thread = "")) (ErrInvalid "createdBy is required");
  _ ← refuseIf (bool_decide (th_Mode thread = ModePersona) && bool_decide (th_ProfileName thread = "")
                && blank (decodeHarness (th_Metadata thread)))
        (ErrInvalid "profileName is required for persona threads");
  let title := if bool_decide (th_Title thread = "") then DefaultThreadTitle else th_Title thread in
  _ ← refuseIf (maxTitleRunes <? Z.of_nat (length (runes (bytes title))))
        (ErrInvalid ("title must be at most " +:+ fmtZ maxTitleRunes +:+ " characters"));
  metadata ← normalizeMetadata (th_Metadata thread);
  id ← assignID (e_uuid env 0) (th_ID thread) "thread";
  let created := if IsZero (th_CreatedAt thread) then nowOr env now else th_CreatedAt thread in
  let updated := if IsZero (th_UpdatedAt thread) then created else th_UpdatedAt thread in
  inr (thread <| th_Title := title |> <| th_Metadata := metadata |> <| th_ID := id |>
              <| th_CreatedAt := created |> <| th_UpdatedAt := updated |>).

Definition knownRole (role : string) : bool :=
  bool_decide (role = RoleSystem) || bool_decide (role = RoleUser)
  || bool_decide (role = RoleAssistant) || bool_decide (role = RoleTool).

Definition NormalizeMessage (env : Env) (uuid : string) (message : Message) (now : Time) : Res Message :=
  let id := TrimSpace (msg_ID message) in
  let thread := TrimSpace (msg_ThreadID message) in
  let role := TrimSpace (msg_Role message) in
  _ ← refuseIf (negb (knownRole role)) (ErrInvalid "role must be system, user, assistant, or tool");
  _ ← refuseIf (blank (msg_Content message)) (ErrInvalid "content is required");
  _ ← refuseIf (maxMessageBytes <? len (msg_Content message))
        (ErrInvalid ("content exceeds " +:+ fmtZ maxMessageBytes +:+ " bytes"));
  _ ← refuseIf (bool_decide (thread = "")) (ErrInvalid "threadId is required");
  _ ← refuseIf (negb (isUUID thread)) (ErrInvalid "thread id must be a UUID");
  _ ← refuseIf (msg_Sequence message <? 1) (ErrInvalid "sequence must be positive");
  metadata ← normalizeMetadata (msg_Metadata message);
  id ← assignID uuid id "message";
  let created := if IsZero (msg_CreatedAt message) then nowOr env now else msg_CreatedAt message in
  inr (mkMessage id thread role (msg_Content message) created (msg_Sequence message) metadata).

Definition normalizeThreadFilter (filter : ThreadFilter) : Res ThreadFilter :=
  let ns := TrimSpace (tf_Namespace filter) in
  let mode := TrimSpace (tf_Mode filter) in
  _ ← refuseIf (bool_decide (ns = "")) (ErrInvalid "namespace is required");
  _ ← refuseIf (bool_decide (mode ≠ "") && bool_decide (mode ≠ ModePersona) && bool_decide (mode ≠ ModeFleet))
        (ErrInvalid "mode must be persona or fleet");
  let limit := if tf_Limit filter <=? 0 then defaultListLimit else tf_Limit filter in
  _ ← refuseIf (maxListLimit <? limit)
        (ErrInvalid ("limit must be between 1 and " +:+ fmtZ maxListLimit));
  inr (mkThreadFilter ns (TrimSpace (tf_ProfileName filter)) mode limit).

Definition normalizeThreadLookup (namespace id : string) : Res (string * string) :=
  let namespace := TrimSpace namespace in
  _ ← refuseIf (bool_decide (namespace = "")) (ErrInvalid "namespace is required");
  match uuidParse (TrimSpace id) with
  | None => inl (ErrInvalid "thread id must be a UUID")
  | Some parsed => inr (namespace, parsed)
  end.

Definition titleFromContent (content : string) : string :=
  let collapsed := Join (Fields (TrimSpace content)) " " in
  if bool_decide (collapsed = "") then DefaultThreadTitle else
  let rs := runes (bytes collapsed) in
  if (80 <? length rs)%nat then unbytes (concat (take 80 rs)) else collapsed.

(** ** Turns *)

Definition Active (t : Turn) : bool :=
  bool_decide (tn_Status t = "waiting") || bool_decide (tn_Status t = "queued")
  || bool_decide (tn_Status t = "running").

Definition prepareTurn (env : Env) (t : Turn) (m : Message) : Res (Turn * Message) :=
  _ ← refuseIf (negb (isUUID (tn_RequestID t))) (ErrInvalid "requestId must be a UUID");
  _ ← normalizeThreadLookup (tn_Namespace t) (tn_ThreadID t);
  let t := t <| tn_ID := if bool_decide (tn_ID t = "") then e_uuid env 0 else tn_ID t |>
             <| tn_LockKeys := merge_sort String.le (tn_LockKeys t) |>
             <| tn_Status := if tn_Deferred t then "waiting" else "queued" |>
             <| tn_CreatedAt := e_now env |> in
  let m := m <| msg_ThreadID := tn_ThreadID t |> <| msg_Sequence := 1 |> <| msg_Role := RoleUser |> in
  m ← NormalizeMessage env (e_uuid env 1) m (tn_CreatedAt t);
  inr (t <| tn_UserMessageID := msg_ID m |>, m).

Definition sharedTurnResource (a b : Turn) : bool :=
  bool_decide (tn_ProfileName a = tn_ProfileName b)
  || existsb (λ ak, existsb (λ bk, bool_decide (ak = bk)) (tn_LockKeys b)) (tn_LockKeys a).

Definition sameTurnAttempt (a b : Turn) : bool :=
  bool_decide (tn_ID a = tn_ID b) && bool_decide (tn_Namespace a = tn_Namespace b)
  && bool_decide (tn_ThreadID a = tn_ThreadID b) && bool_decide (tn_RunName a = tn_RunName b)
  && (tn_RetryCount a =? tn_RetryCount b)
  && (bool_decide (tn_RunUID b = "") || bool_decide (tn_RunUID a = tn_RunUID b)).

Definition prepareTurnRetry (env : Env) (old expected : Turn) (retry : TurnRetry) : Res Turn :=
  _ ← refuseIf (negb (Active old) || negb (sameTurnAttempt old expected)) ErrRequestConflict;
  _ ← refuseIf ((MaxTurnRetries <=? tn_RetryCount old) || bool_decide (tr_RunName retry = "")
                || bool_decide (tr_RunName retry = tn_RunName old)
                || bool_decide (tr_RunJSON retry = "") || bool_decide (tr_Reason retry = "")
                || IsZero (tr_At retry)) (ErrInvalid "");
  inr (old <| tn_Attempts := tn_Attempts old ++
                [mkTurnAttempt (tn_RunName old) (tn_RunUID old) (tr_Reason retry) (e_now env)] |>
           <| tn_RetryCount := tn_RetryCount old + 1 |>
           <| tn_RetryAt := Some (tr_At retry) |>
           <| tn_RecoveryReason := tr_Reason retry |>
           <| tn_RunName := tr_RunName retry |>
           <| tn_RunUID := "" |>
           <| tn_RunJSON := tr_RunJSON retry |>
           <| tn_Status := "queued" |>
           <| tn_Error := "" |>).

(** ** Standing conversations and repaired replies *)

Definition standingFields : list string :=
  ["harnessProfileName"; "sourceThreadId"; "sourceTurnId"; "sourceProfileName"].

Definition standingEligible (thread : Thread) : bool :=
  if bool_decide (th_ProfileName thread = "") then false else
  match decodeObject (th_Metadata thread) with
  | None => false
  | Some metadata =>
      forallb (λ field, bool_decide (metadata !! field = None)) standingFields
  end.

(** Go: [metadata[k]] of a [map[string]any], nil when absent or null. *)
Definition field (metadata : gmap string (option JValue)) (k : string) : option JValue :=
  mjoin (metadata !! k).

Definition openClawPayloads : string := "openclaw.payloads/v1".

Definition repairedAssistant (original : Message) (content format : string) : Res Message :=
  if bool_decide (msg_Role original ≠ RoleAssistant) || bool_decide (msg_ID original = "")
     || bool_decide (msg_ThreadID original = "") || blank content || (64 * 1024 <? len content)
     || bool_decide (format ≠ openClawPayloads) then inl (ErrInvalid "") else
  match decodeObject (msg_Metadata original) with
  | None => inl (ErrInvalid "")
  | Some metadata =>
      _ ← refuseIf (bool_decide (field metadata "backend" ≠ Some (jsonString "openClaw"))
                    || bool_decide (field metadata "replyFormat" ≠ None)) (ErrInvalid "");
      _ ← refuseIf (bool_decide (field metadata "turnId" = None)
                    || bool_decide (field metadata "runName" = None)) (ErrInvalid "");
      inr (original <| msg_Content := content |>
             <| msg_Metadata := encodeObject (<["replyFormat" := Some (jsonString format)]> metadata) |>)
  end.
End validation.
