(* ===== verification/ChatMemory.v ===== *)
(** * The conversation store

    [MemoryStore] of [src/internal/chat] ([memory.go], [turns.go], [retry.go],
    [standing.go], [reply_repair.go]): the in-process implementation of the
    [Store] interface.  Every operation holds the store's mutex for its whole
    effect, so an operation is one transition of the state.  The values handed
    out are clones, and messages are replaced, never mutated in place by a
    holder of a clone, so copying is the identity here. *)

From stdpp Require Import base list gmap strings sorting.
From Stdlib Require Import ZArith Lia Ascii.
From S2P Require Import Prelude GoStrings GoTime ChatModel.

Open Scope Z_scope.

Record MemoryStore := mkMemoryStore {
  threads : gmap string Thread;
  messages : gmap string (list Message);
  turns : gmap string Turn;
  standing : gmap string string }.
#[export] Instance eta_MemoryStore : Eta MemoryStore := λ r, mkMemoryStore
  (threads r) (messages r) (turns r) (standing r).

Definition NewMemoryStore : MemoryStore := mkMemoryStore ∅ ∅ ∅ ∅.

Definition threadKey (namespace id : string) : string := namespace +:+ "/" +:+ id.

(** Go: [s.messages[key]], nil when absent. *)
Definition transcript (s : MemoryStore) (key : string) : list Message :=
  default [] (messages s !! key).

Definition StoreM (A : Type) : Type := M MemoryStore ChatErr A.
Definition lift {A} (r : Res A) : StoreM A := λ s, (s, r).
Definition modify (f : MemoryStore → MemoryStore) : StoreM unit := λ s, (f s, inr tt).
Definition gets {A} (f : MemoryStore → A) : StoreM A := λ s, (s, inr (f s)).
(** The value of a key, or the error. *)
Definition require {A} (o : option A) (e : ChatErr) : StoreM A :=
  lift (match o with Some a => inr a | None => inl e end).

Section operations.
Context `{Codec}.
Variable env : Env.

Open Scope go_scope.

Definition notFoundThread (namespace id : string) : ChatErr :=
  ErrNotFound ("thread " +:+ namespace +:+ "/" +:+ id).

(** ** Threads and messages *)

Definition CreateThread (thread : Thread) : StoreM Thread :=
  let* normalized := lift (NormalizeThread env thread (e_now env)) in
  let key := threadKey (th_Namespace normalized) (th_ID normalized) in
  let* existing := gets (λ s, threads s !! key) in
  lift (refuseIf (bool_decide (is_Some existing))
          (ErrInvalid ("thread " +:+ th_ID normalized +:+ " already exists"))) ;;
  modify (λ s, s <| threads := <[key := normalized]> (threads s) |>
                 <| messages := <[key := []]> (messages s) |>) ;;
  mret normalized.

Definition selectedThread (filter : ThreadFilter) (thread : Thread) : bool :=
  bool_decide (th_Namespace thread = tf_Namespace filter)
  && (bool_decide (tf_ProfileName filter = "") || bool_decide (th_ProfileName thread = tf_ProfileName filter))
  && (bool_decide (tf_Mode filter = "") || bool_decide (th_Mode thread = tf_Mode filter)).

Definition updatedLater (a b : Thread) : Prop := th_UpdatedAt b ≤ th_UpdatedAt a.
#[global] Instance updatedLater_dec : RelDecision updatedLater.
Proof. unfold updatedLater. intros a b. apply _. Defined.

Definition ListThreads (filter : ThreadFilter) : StoreM (list Thread) :=
  let* filter := lift (normalizeThreadFilter filter) in
  let* all := gets (λ s, ranged env 0 (threads s)) in
  mret (take (Z.to_nat (tf_Limit filter))
             (merge_sort updatedLater (base.filter (λ t, selectedThread filter t = true) all))).

Definition GetThread (namespace id : string) : StoreM Thread :=
  let* k := lift (normalizeThreadLookup namespace id) in
  let* o := gets (λ s, threads s !! threadKey k.1 k.2) in
  require o (notFoundThread k.1 k.2).

Definition ListMessages (namespace threadID : string) : StoreM (list Message) :=
  let* k := lift (normalizeThreadLookup namespace threadID) in
  let* o := gets (λ s, threads s !! threadKey k.1 k.2) in
  require o (notFoundThread k.1 k.2) ;;
  gets (λ s, transcript s (threadKey k.1 k.2)).

(** The loop of [AppendMessages]: sequence numbers after [next], the title from
    the first user message, the [i]th generated UUID for the [i]th message. *)
Fixpoint appendLoop (threadID : string) (i : nat) (next : Z) (title : string) (incoming : list Message)
    : Res (list Message * string) :=
  match incoming with
  | [] => inr ([], title)
  | m :: rest =>
      let m := m <| msg_ThreadID := threadID |> <| msg_Sequence := next + 1 |> in
      normalized ← NormalizeMessage env (e_uuid env i) m (e_now env);
      let title :=
        if (bool_decide (title = "") || bool_decide (title = DefaultThreadTitle))
           && bool_decide (msg_Role normalized = RoleUser)
        then titleFromContent (msg_Content normalized) else title in
      '(stored, title) ← appendLoop threadID (S i) (next + 1) title rest;
      inr (normalized :: stored, title)
  end%stdpp.

Definition AppendMessages (namespace threadID : string) (incoming : list Message)
    : StoreM (list Message * Thread) :=
  let* k := lift (normalizeThreadLookup namespace threadID) in
  lift (refuseIf (bool_decide (length incoming = 0%nat)) (ErrInvalid "at least one message is required")) ;;
  lift (refuseIf (maxAppendBatch <? Z.of_nat (length incoming))
          (ErrInvalid ("at most " +:+ fmtZ maxAppendBatch +:+ " messages may be appended at once"))) ;;
  let key := threadKey k.1 k.2 in
  let* o := gets (λ s, threads s !! key) in
  let* thread := require o (notFoundThread k.1 k.2) in
  let* existing := gets (λ s, transcript s key) in
  let* r := lift (appendLoop k.2 0 (Z.of_nat (length existing)) (th_Title thread) incoming) in
  let thread := thread <| th_Title := r.2 |> <| th_UpdatedAt := e_now env |> in
  modify (λ s, s <| threads := <[key := thread]> (threads s) |>
                 <| messages := <[key := existing ++ r.1]> (messages s) |>) ;;
  mret (r.1, thread).

(** ** Turns *)

(** The first turn that already answers this request, with its user message. *)
Definition sameRequest (t : Turn) (msgs : list Message) (old : Turn) : option (Turn * Message) :=
  if bool_decide (tn_ThreadID old = tn_ThreadID t) && bool_decide (tn_RequestID old = tn_RequestID t)
  then (λ r, (old, r.2)) <$> list_find (λ u, msg_ID u = tn_UserMessageID old) msgs
  else None.

Definition busyFor (t old : Turn) : bool :=
  bool_decide (tn_Namespace old = tn_Namespace t)
  && ((bool_decide (tn_ThreadID old = tn_ThreadID t) && Active old)
      || (negb (tn_Deferred t) && sharedTurnResource old t && Active old
          && bool_decide (tn_Status old ≠ "waiting"))).

Definition QueueTurn (t : Turn) (m : Message) : StoreM (Turn * Message * Thread) :=
  let* p := lift (prepareTurn env t m) in
  let '(t, m) := p in
  let key := threadKey (tn_Namespace t) (tn_ThreadID t) in
  let* o := gets (λ s, threads s !! key) in
  let* thread := require o (ErrNotFound "") in
  let* msgs := gets (λ s, transcript s key) in
  let* olds := gets (λ s, ranged env 0 (turns s)) in
  match head (omap (sameRequest t msgs) olds) with
  | Some (old, user) =>
      if bool_decide (msg_Content user ≠ msg_Content m) then mfail ErrRequestConflict
      else mret (old, user, thread)
  | None =>
      let* olds := gets (λ s, ranged env 1 (turns s)) in
      lift (refuseIf (existsb (busyFor t) olds) ErrTurnActive) ;;
      lift (refuseIf (match tn_ExpectedSequence t with
                      | Some n => negb (Z.of_nat (length msgs) =? n)
                      | None => false
                      end) ErrConversationChanged) ;;
      let m := m <| msg_Sequence := Z.of_nat (length msgs) + 1 |> in
      let thread := thread <| th_UpdatedAt := tn_CreatedAt t |>
        <| th_Title := if bool_decide (th_Title thread = DefaultThreadTitle)
                       then titleFromContent (msg_Content m) else th_Title thread |> in
      modify (λ s, s <| messages := <[key := msgs ++ [m]]> (messages s) |>
                     <| turns := <[tn_ID t := t]> (turns s) |>
                     <| threads := <[key := thread]> (threads s) |>) ;;
      mret (t, m, thread)
  end.

Definition createdFirst (a b : Turn) : Prop := tn_CreatedAt a ≤ tn_CreatedAt b.
#[global] Instance createdFirst_dec : RelDecision createdFirst.
Proof. unfold createdFirst. intros a b. apply _. Defined.

Definition ListTurns (namespace id : string) : StoreM (list Turn) :=
  let* o := gets (λ s, threads s !! threadKey namespace id) in
  require o (ErrNotFound "") ;;
  let* all := gets (λ s, ranged env 0 (turns s)) in
  mret (merge_sort createdFirst
          (base.filter (λ t, tn_Namespace t = namespace ∧ tn_ThreadID t = id) all)).

Definition PendingTurns (limit : Z) : StoreM (list Turn) :=
  let* all := gets (λ s, ranged env 0 (turns s)) in
  let out := merge_sort createdFirst (base.filter (λ t, Active t = true) all) in
  mret (if limit <? Z.of_nat (length out) then take (Z.to_nat limit) out else out).

Definition CompleteTurn (t : Turn) (m : Message) : StoreM unit :=
  let* o := gets (λ s, turns s !! tn_ID t) in
  let* old := require o (ErrNotFound "") in
  if negb (Active old) then mret tt else
  lift (refuseIf (negb (sameTurnAttempt old t)) ErrRequestConflict) ;;
  lift (refuseIf (Active t) (ErrInvalid "")) ;;
  let key := threadKey (tn_Namespace t) (tn_ThreadID t) in
  let* msgs := gets (λ s, transcript s key) in
  let m := m <| msg_ThreadID := tn_ThreadID t |>
             <| msg_Sequence := Z.of_nat (length msgs) + 1 |> in
  let* m := lift (NormalizeMessage env (e_uuid env 0) m (e_now env)) in
  let old := old <| tn_Status := tn_Status t |> <| tn_Error := tn_Error t |>
                 <| tn_Delegates := tn_Delegates t |> in
  modify (λ s, s <| messages := <[key := msgs ++ [m]]> (messages s) |>
                 <| turns := <[tn_ID t := old]> (turns s) |>).

Definition RecordRun (t : Turn) (uid : string) : StoreM unit :=
  let* o := gets (λ s, turns s !! tn_ID t) in
  let* old := require o (ErrNotFound "") in
  lift (refuseIf (negb (Active old) || negb (sameTurnAttempt old t)) ErrRequestConflict) ;;
  lift (refuseIf (bool_decide (tn_RunUID old ≠ "") && bool_decide (tn_RunUID old ≠ uid)) (ErrInvalid "")) ;;
  modify (λ s, s <| turns := <[tn_ID t := old <| tn_RunUID := uid |>]> (turns s) |>).

Definition RetryTurn (expected : Turn) (retry : TurnRetry) : StoreM Turn :=
  let* o := gets (λ s, turns s !! tn_ID expected) in
  let* old := require o (ErrNotFound "") in
  let* next := lift (prepareTurnRetry env old expected retry) in
  modify (λ s, s <| turns := <[tn_ID next := next]> (turns s) |>) ;;
  mret next.

(** A turn that holds the resources of [old]. *)
Definition holds (old other : Turn) : bool :=
  bool_decide (tn_Namespace other = tn_Namespace old) && sharedTurnResource other old
  && Active other && bool_decide (tn_Status other ≠ "waiting").

Definition ActivateTurn (t : Turn) : StoreM bool :=
  let* o := gets (λ s, turns s !! tn_ID t) in
  let* old := require o (ErrNotFound "") in
  if bool_decide (tn_Status old ≠ "waiting") then mret (Active old) else
  let* others := gets (λ s, ranged env 0 (turns s)) in
  if existsb (holds old) others then mret false else
  modify (λ s, s <| turns := <[tn_ID t := old <| tn_Status := "queued" |>]> (turns s) |>) ;;
  mret true.

(** ** Standing conversations *)

(** One round of the loop that adopts an existing thread: the most recently
    updated, the least identifier on a tie; [None] before the first. *)
Definition chooseStanding (seed : Thread) (chosen : option Thread) (candidate : Thread) : option Thread :=
  if bool_decide (th_Namespace candidate ≠ th_Namespace seed)
     || bool_decide (th_ProfileName candidate ≠ th_ProfileName seed)
     || negb (standingEligible candidate) then chosen else
  match chosen with
  | None => Some candidate
  | Some c =>
      if bool_decide (th_ID c = "") || After (th_UpdatedAt candidate) (th_UpdatedAt c)
         || ((th_UpdatedAt candidate =? th_UpdatedAt c) && strLt (th_ID candidate) (th_ID c))
      then Some candidate else chosen
  end.

Definition adopted (chosen : option Thread) : option Thread :=
  match chosen with
  | Some c => if bool_decide (th_ID c = "") then None else Some c
  | None => None
  end.

Definition EnsureStandingThread (seed : Thread) : StoreM (Thread * bool) :=
  let* seed := lift (NormalizeThread env seed (e_now env)) in
  lift (refuseIf (negb (standingEligible seed))
          (ErrInvalid "standing conversations require a direct agent profile")) ;;
  let key := threadKey (th_Namespace seed) (th_ProfileName seed) in
  let* o := gets (λ s, standing s !! key) in
  let id := default "" o in
  if bool_decide (id ≠ "") then
    let* t := gets (λ s, threads s !! threadKey (th_Namespace seed) id) in
    mret (default (mkThread "" "" "" "" "" zeroTime zeroTime "" "") t, false)
  else
  let* candidates := gets (λ s, ranged env 0 (threads s)) in
  match adopted (foldl (chooseStanding seed) None candidates) with
  | Some chosen =>
      modify (λ s, s <| standing := <[key := th_ID chosen]> (standing s) |>) ;;
      mret (chosen, false)
  | None =>
      let tkey := threadKey (th_Namespace seed) (th_ID seed) in
      let* existing := gets (λ s, threads s !! tkey) in
      lift (refuseIf (bool_decide (is_Some existing)) (ErrInvalid "thread already exists")) ;;
      modify (λ s, s <| threads := <[tkey := seed]> (threads s) |>
                     <| messages := <[tkey := []]> (messages s) |>
                     <| standing := <[key := th_ID seed]> (standing s) |>) ;;
      mret (seed, true)
  end.

(** ** Repaired replies *)

(** A stored message always carries metadata that decodes, so the undecodable
    case does not arise. *)
Definition sameReply (original current : Message) : bool :=
  bool_decide (msg_Role current = RoleAssistant)
  && bool_decide (msg_Content current = msg_Content original)
  && match decodeObject (msg_Metadata current), decodeObject (msg_Metadata original) with
     | Some a, Some b => bool_decide (a = b)
     | _, _ => false
     end.

Definition RepairAssistantReply (namespace : string) (original : Message) (content format : string)
    : StoreM Message :=
  let* repaired := lift (repairedAssistant original content format) in
  let key := threadKey namespace (msg_ThreadID original) in
  let* msgs := gets (λ s, transcript s key) in
  match list_find (λ c, msg_ID c = msg_ID original) msgs with
  | None => mfail ErrRequestConflict
  | Some (i, current) =>
      lift (refuseIf (negb (sameReply original current)) ErrRequestConflict) ;;
      let current := current <| msg_Content := msg_Content repaired |>
                             <| msg_Metadata := msg_Metadata repaired |> in
      modify (λ s, s <| messages := <[key := <[i := current]> msgs]> (messages s) |>) ;;
      mret current
  end.
End operations.
