(* ===== verification/ChatSafety.v ===== *)
(** * Invariants of the conversation store

    What each operation of [MemoryStore] does to the stored turns, transcripts,
    threads and standing pointers ([*_effect], [perform_*]), and the invariant
    [wf] that every sequence of lawful calls keeps: turns exclude each other in
    their thread and on their resources, every turn answers a message of its
    thread, one turn exists per request, transcripts are numbered without gaps
    and retries are counted and bounded.

    A call is one value of [Call], performed in an environment; [reachable D]
    are the stores that calls admitted by the discipline [D] lead to, in any
    order.  [lawful] is the discipline the callers in [src/internal/runapi]
    keep; the exclusion of turns needs only its part [retryHeld]. *)

From stdpp Require Import base list gmap strings sorting.
From Stdlib Require Import ZArith Lia Ascii.
From S2P Require Import Prelude GoStrings GoTime ChatModel ChatMemory.
Open Scope Z_scope.

(** Run an operation symbolically, leaving one goal per path; the paths that
    leave the store as it was are closed by [left]. *)
Tactic Notation "open_op" reference(f) :=
  unfold f, require, mbnd, lift, gets, modify, mret, mfail, refuseIf;
  repeat (case_match; simplify_eq); try (by left).

Section effects.
Context `{Codec}.
Implicit Types (s : MemoryStore) (env : Env).

(** The two elementary changes: a turn is stored under its identifier, a message
    is added at the end of a transcript. *)
Definition put (t : Turn) (s : MemoryStore) : MemoryStore :=
  s <| turns := <[tn_ID t := t]> (turns s) |>.
Definition say (k : string) (ms : list Message) (s : MemoryStore) : MemoryStore :=
  s <| messages := <[k := transcript s k ++ ms]> (messages s) |>.
Definition setThread (k : string) (th : Thread) (s : MemoryStore) : MemoryStore :=
  s <| threads := <[k := th]> (threads s) |>.
Definition turnKey (t : Turn) : string := threadKey (tn_Namespace t) (tn_ThreadID t).
Definition finished (old t : Turn) : Turn :=
  old <| tn_Status := tn_Status t |> <| tn_Error := tn_Error t |> <| tn_Delegates := tn_Delegates t |>.

Lemma sameTurnAttempt_id a b : sameTurnAttempt a b = true →
  tn_ID a = tn_ID b ∧ tn_Namespace a = tn_Namespace b ∧ tn_ThreadID a = tn_ThreadID b
  ∧ tn_RunName a = tn_RunName b ∧ tn_RetryCount a = tn_RetryCount b.
Proof. unfold sameTurnAttempt. intros. bool_props. done. Qed.

Lemma same_id a b : sameTurnAttempt a b = true → tn_ID a = tn_ID b.
Proof. by intros [? _]%sameTurnAttempt_id. Qed.

Ltac same_ids :=
  match goal with Hs : sameTurnAttempt _ _ = true |- _ => rewrite (same_id _ _ Hs) in * end.

Lemma sameTurnAttempt_key a b : sameTurnAttempt a b = true → turnKey a = turnKey b.
Proof. intros (_ & Hn & Ht & _)%sameTurnAttempt_id. unfold turnKey. by rewrite Hn, Ht. Qed.

Lemma CompleteTurn_effect env t m s :
  (CompleteTurn env t m s).1 = s
  ∨ ∃ old m', turns s !! tn_ID t = Some old ∧ Active old = true ∧ sameTurnAttempt old t = true
      ∧ Active t = false
      ∧ NormalizeMessage env (e_uuid env 0)
          (m <| msg_ThreadID := tn_ThreadID t |>
             <| msg_Sequence := Z.of_nat (length (transcript s (turnKey t))) + 1 |>) (e_now env) = inr m'
      ∧ CompleteTurn env t m s = (put (finished old t) (say (turnKey t) [m'] s), inr tt).
Proof.
  open_op CompleteTurn. right. bool_props. eexists _, _. split_and!; [done..|].
  unfold put, finished. cbn. same_ids. done.
Qed.

Lemma RecordRun_effect t uid s :
  (RecordRun t uid s).1 = s
  ∨ ∃ old, turns s !! tn_ID t = Some old ∧ Active old = true ∧ sameTurnAttempt old t = true
      ∧ (tn_RunUID old = "" ∨ tn_RunUID old = uid)
      ∧ RecordRun t uid s = (put (old <| tn_RunUID := uid |>) s, inr tt).
Proof.
  open_op RecordRun. right. bool_props. eexists. split_and!; [done..| |].
  - match goal with H : _ && _ = false |- _ => apply andb_false_iff in H as [?|?] end;
      bool_props; [left|right]; by apply dec_stable.
  - unfold put. cbn. same_ids. done.
Qed.

Lemma RetryTurn_effect env e r s :
  (∃ x, RetryTurn env e r s = (s, inl x))
  ∨ ∃ old next, turns s !! tn_ID e = Some old ∧ prepareTurnRetry env old e r = inr next
      ∧ RetryTurn env e r s = (put next s, inr next).
Proof. open_op RetryTurn; eauto 10. Qed.

Lemma ActivateTurn_effect env t s :
  (ActivateTurn env t s).1 = s
  ∨ ∃ old, turns s !! tn_ID t = Some old ∧ tn_Status old = "waiting"
      ∧ existsb (holds old) (ranged env 0 (turns s)) = false
      ∧ ActivateTurn env t s
        = (s <| turns := <[tn_ID t := old <| tn_Status := "queued" |>]> (turns s) |>, inr true).
Proof.
  open_op ActivateTurn. right. bool_props. eexists. split_and!; [done| |done..].
  by apply dec_stable.
Qed.

(** A thread whose title and time of update changed at most. *)
Definition sameThread (th th' : Thread) : Prop :=
  th_ID th' = th_ID th ∧ th_Namespace th' = th_Namespace th
  ∧ th_ProfileName th' = th_ProfileName th ∧ th_Metadata th' = th_Metadata th.

Lemma QueueTurn_effect env t0 m0 s :
  (QueueTurn env t0 m0 s).1 = s
  ∨ ∃ t m th th', prepareTurn env t0 m0 = inr (t, m) ∧ threads s !! turnKey t = Some th
      ∧ head (omap (sameRequest t (transcript s (turnKey t))) (ranged env 0 (turns s))) = None
      ∧ existsb (busyFor t) (ranged env 1 (turns s)) = false
      ∧ (let m' := m <| msg_Sequence := Z.of_nat (length (transcript s (turnKey t))) + 1 |> in
         QueueTurn env t0 m0 s
         = (setThread (turnKey t) th' (put t (say (turnKey t) [m'] s)), inr (t, m', th')))
      ∧ sameThread th th'.
Proof.
  open_op QueueTurn; right; (eexists _, _, _, _; split_and!; [done|done|done|done|..]; done).
Qed.

Lemma AppendMessages_effect env ns id ms s :
  (AppendMessages env ns id ms s).1 = s
  ∨ ∃ k th th' stored title, normalizeThreadLookup ns id = inr k
      ∧ threads s !! threadKey k.1 k.2 = Some th
      ∧ appendLoop env k.2 0 (Z.of_nat (length (transcript s (threadKey k.1 k.2)))) (th_Title th) ms
        = inr (stored, title)
      ∧ AppendMessages env ns id ms s
        = (setThread (threadKey k.1 k.2) th' (say (threadKey k.1 k.2) stored s), inr (stored, th'))
      ∧ sameThread th th'.
Proof.
  open_op AppendMessages. right. destruct p0. eexists _, _, _, _, _. split_and!; [done|done|done|..]; done.
Qed.

Lemma CreateThread_effect env th s :
  (CreateThread env th s).1 = s
  ∨ ∃ th', NormalizeThread env th (e_now env) = inr th'
      ∧ let k := threadKey (th_Namespace th') (th_ID th') in
        threads s !! k = None
        ∧ CreateThread env th s
          = (s <| threads := <[k := th']> (threads s) |> <| messages := <[k := []]> (messages s) |>,
             inr th').
Proof.
  open_op CreateThread. right. eexists. split; [done|]. simpl. split; [|done].
  bool_props. by apply eq_None_not_Some.
Qed.

Lemma EnsureStandingThread_effect env seed0 s :
  (EnsureStandingThread env seed0 s).1 = s
  ∨ ∃ seed, NormalizeThread env seed0 (e_now env) = inr seed ∧ standingEligible seed = true
      ∧ let k := threadKey (th_Namespace seed) (th_ProfileName seed) in
        let tk := threadKey (th_Namespace seed) (th_ID seed) in
        default "" (standing s !! k) = ""
        ∧ ((∃ chosen, adopted (foldl (chooseStanding seed) None (ranged env 0 (threads s))) = Some chosen
             ∧ EnsureStandingThread env seed0 s
               = (s <| standing := <[k := th_ID chosen]> (standing s) |>, inr (chosen, false)))
           ∨ adopted (foldl (chooseStanding seed) None (ranged env 0 (threads s))) = None
             ∧ threads s !! tk = None
             ∧ EnsureStandingThread env seed0 s
               = (s <| threads := <[tk := seed]> (threads s) |> <| messages := <[tk := []]> (messages s) |>
                    <| standing := <[k := th_ID seed]> (standing s) |>, inr (seed, true))).
Proof.
  open_op EnsureStandingThread; right; bool_props;
    (eexists; split_and!; [done|done|by apply dec_stable|]); [left; eauto|right].
  split_and!; [done| |done]. by apply eq_None_not_Some.
Qed.

Lemma RepairAssistantReply_effect ns original content format s :
  let k := threadKey ns (msg_ThreadID original) in
  (RepairAssistantReply ns original content format s).1 = s
  ∨ ∃ i current repaired, list_find (λ c, msg_ID c = msg_ID original) (transcript s k) = Some (i, current)
      ∧ repairedAssistant original content format = inr repaired
      ∧ sameReply original current = true
      ∧ let current' := current <| msg_Content := msg_Content repaired |>
                                <| msg_Metadata := msg_Metadata repaired |> in
        RepairAssistantReply ns original content format s
        = (s <| messages := <[k := <[i := current']> (transcript s k)]> (messages s) |>, inr current').
Proof.
  open_op RepairAssistantReply. right. bool_props. eexists _, _, _. by split_and!.
Qed.

(** ** Calls *)

(** The operations that change the store; the others only read it. *)
Inductive Call :=
  | CCreateThread (th : Thread)
  | CAppendMessages (ns id : string) (ms : list Message)
  | CQueueTurn (t : Turn) (m : Message)
  | CCompleteTurn (t : Turn) (m : Message)
  | CRecordRun (t : Turn) (uid : string)
  | CRetryTurn (t : Turn) (r : TurnRetry)
  | CActivateTurn (t : Turn)
  | CEnsureStandingThread (th : Thread)
  | CRepairAssistantReply (ns : string) (original : Message) (content format : string).

Definition perform (env : Env) (c : Call) (s : MemoryStore) : MemoryStore :=
  match c with
  | CCreateThread th => (CreateThread env th s).1
  | CAppendMessages ns id ms => (AppendMessages env ns id ms s).1
  | CQueueTurn t m => (QueueTurn env t m s).1
  | CCompleteTurn t m => (CompleteTurn env t m s).1
  | CRecordRun t uid => (RecordRun t uid s).1
  | CRetryTurn t r => (RetryTurn env t r s).1
  | CActivateTurn t => (ActivateTurn env t s).1
  | CEnsureStandingThread th => (EnsureStandingThread env th s).1
  | CRepairAssistantReply ns o c f => (RepairAssistantReply ns o c f s).1
  end.

(** The stores that calls admitted by a discipline reach, in any environment. *)
Definition step (admits : Env → Call → MemoryStore → Prop) (s s' : MemoryStore) : Prop :=
  ∃ env c, admits env c s ∧ s' = perform env c s.
Definition reachable (admits : Env → Call → MemoryStore → Prop) : MemoryStore → Prop :=
  rtc (step admits) NewMemoryStore.

(** ** How a stored turn changes *)

Inductive evolves (env : Env) (c : Call) (s : MemoryStore) (old : Turn) : Turn → Prop :=
  | ev_finish t m : c = CCompleteTurn t m → Active old = true → sameTurnAttempt old t = true →
      Active t = false → evolves env c s old (finished old t)
  | ev_record t uid : c = CRecordRun t uid → Active old = true → sameTurnAttempt old t = true →
      tn_RunUID old = "" ∨ tn_RunUID old = uid → evolves env c s old (old <| tn_RunUID := uid |>)
  | ev_retry e r next : c = CRetryTurn e r → tn_ID e = tn_ID old →
      prepareTurnRetry env old e r = inr next → evolves env c s old next
  | ev_activate t : c = CActivateTurn t → tn_Status old = "waiting" →
      existsb (holds old) (ranged env 0 (turns s)) = false →
      evolves env c s old (old <| tn_Status := "queued" |>).

(** A turn that a call stores for the first time. *)
Definition enters (env : Env) (c : Call) (s : MemoryStore) (t : Turn) : Prop :=
  ∃ t0 m0 m, c = CQueueTurn t0 m0 ∧ prepareTurn env t0 m0 = inr (t, m)
    ∧ is_Some (threads s !! turnKey t)
    ∧ head (omap (sameRequest t (transcript s (turnKey t))) (ranged env 0 (turns s))) = None
    ∧ existsb (busyFor t) (ranged env 1 (turns s)) = false.

Lemma prepareTurnRetry_inv env old e r next :
  prepareTurnRetry env old e r = inr next →
  Active old = true ∧ sameTurnAttempt old e = true ∧ tn_RetryCount old < MaxTurnRetries
  ∧ tr_RunName r ≠ tn_RunName old
  ∧ next = old <| tn_Attempts := tn_Attempts old ++
                [mkTurnAttempt (tn_RunName old) (tn_RunUID old) (tr_Reason r) (e_now env)] |>
           <| tn_RetryCount := tn_RetryCount old + 1 |> <| tn_RetryAt := Some (tr_At r) |>
           <| tn_RecoveryReason := tr_Reason r |> <| tn_RunName := tr_RunName r |>
           <| tn_RunUID := "" |> <| tn_RunJSON := tr_RunJSON r |>
           <| tn_Status := "queued" |> <| tn_Error := "" |>.
Proof.
  unfold prepareTurnRetry, refuseIf, mbind, Res_bind. repeat case_match; intros; simplify_eq.
  bool_props. done.
Qed.

Definition keyedTurns (s : MemoryStore) : Prop := ∀ k t, turns s !! k = Some t → tn_ID t = k.

Lemma perform_turns env c s :
  keyedTurns s →
  turns (perform env c s) = turns s
  ∨ (∃ t, enters env c s t ∧ turns (perform env c s) = <[tn_ID t := t]> (turns s))
  ∨ ∃ old t, turns s !! tn_ID old = Some old ∧ evolves env c s old t ∧ tn_ID t = tn_ID old
      ∧ turns (perform env c s) = <[tn_ID t := t]> (turns s).
Proof.
  intros Hk. destruct c; simpl.
  - destruct (CreateThread_effect env th s) as [->|(? & _ & _ & ->)]; by left.
  - destruct (AppendMessages_effect env ns id ms s) as [->|(? & ? & ? & ? & ? & _ & _ & _ & -> & _)]; by left.
  - destruct (QueueTurn_effect env t m s) as [->|(t' & m' & ? & ? & Hp & Hth & Hh & Hb & Eq & _)]; [by left|].
    right; left. exists t'. rewrite Eq. split; [|done]. eexists _, _, _. eauto 10.
  - destruct (CompleteTurn_effect env t m s) as [->|(old & ? & Hl & Ha & Hs & Ht & _ & ->)]; [by left|].
    right; right. pose proof (Hk _ _ Hl) as Hid.
    exists old, (finished old t). rewrite Hid. split_and!; [done| by econstructor|done|done].
  - destruct (RecordRun_effect t uid s) as [->|(old & Hl & Ha & Hs & Hu & ->)]; [by left|].
    right; right. pose proof (Hk _ _ Hl) as Hid.
    exists old, (old <| tn_RunUID := uid |>). rewrite Hid. split_and!; [done|by econstructor|done|done].
  - destruct (RetryTurn_effect env t r s) as [[? ->]|(old & next & Hl & Hp & ->)]; [by left|].
    right; right. pose proof (Hk _ _ Hl) as Hid. exists old, next.
    pose proof (prepareTurnRetry_inv _ _ _ _ _ Hp) as (_ & _ & _ & _ & ->).
    rewrite Hid. split_and!; [done|by eapply ev_retry|done|done].
  - destruct (ActivateTurn_effect env t s) as [->|(old & Hl & Hw & Hh & ->)]; [by left|].
    right; right. pose proof (Hk _ _ Hl) as Hid. exists old, (old <| tn_Status := "queued" |>).
    rewrite Hid. split_and!; [done|by econstructor|done|]. simpl. by rewrite Hid.
  - destruct (EnsureStandingThread_effect env th s)
      as [->|(? & _ & _ & _ & [(? & _ & ->)|(_ & _ & ->)])]; by left.
  - destruct (RepairAssistantReply_effect ns original content format s)
      as [->|(? & ? & ? & _ & _ & _ & ->)]; by left.
Qed.

Lemma perform_keyed env c s : keyedTurns s → keyedTurns (perform env c s).
Proof.
  intros Hk. destruct (perform_turns env c s Hk)
    as [E|[(t & _ & E)|(old & t & _ & _ & _ & E)]]; intros k t'; rewrite E; [apply Hk|..];
    rewrite lookup_insert_Some; intros [[<- <-]|[_ ?]]; auto.
Qed.

Lemma reachable_ind admits (P : MemoryStore → Prop) :
  P NewMemoryStore → (∀ env c s, P s → admits env c s → P (perform env c s)) →
  ∀ s, reachable admits s → P s.
Proof.
  intros H0 Hs s Hr. unfold reachable in Hr. revert H0.
  induction Hr as [|s1 s2 s3 (env & c & Ha & ->) _ IH]; auto.
Qed.

(** ** Exclusion *)

(** A turn that has been given its resources. *)
Definition holding (t : Turn) : bool := Active t && bool_decide (tn_Status t ≠ "waiting").

(** Two turns that must not be stored together. *)
Definition conflicting (a b : Turn) : Prop :=
  tn_Namespace a = tn_Namespace b
  ∧ ((tn_ThreadID a = tn_ThreadID b ∧ Active a = true ∧ Active b = true)
     ∨ (sharedTurnResource a b = true ∧ holding a = true ∧ holding b = true)).

Definition exclusive (s : MemoryStore) : Prop :=
  ∀ k k' a b, turns s !! k = Some a → turns s !! k' = Some b → k ≠ k' → ¬ conflicting a b.

(** The discipline of the callers: a turn is retried after it was activated. *)
Definition retryHeld (env : Env) (c : Call) (s : MemoryStore) : Prop :=
  ∀ e r old, c = CRetryTurn e r → turns s !! tn_ID e = Some old → tn_Status old ≠ "waiting".

Lemma sharedTurnResource_spec a b :
  sharedTurnResource a b = true ↔
  tn_ProfileName a = tn_ProfileName b ∨ ∃ k, k ∈ tn_LockKeys a ∧ k ∈ tn_LockKeys b.
Proof.
  unfold sharedTurnResource. rewrite orb_true_iff, bool_decide_eq_true, existsb_exists.
  setoid_rewrite existsb_exists. setoid_rewrite <-list_elem_of_In.
  setoid_rewrite bool_decide_eq_true. firstorder congruence.
Qed.

Lemma conflicting_sym a b : conflicting a b → conflicting b a.
Proof.
  unfold conflicting. rewrite !sharedTurnResource_spec. firstorder congruence.
Qed.

Lemma conflicting_active a b : conflicting a b → Active a = true.
Proof. intros (_ & [(_ & ? & _)|(_ & [? _]%andb_true_iff & _)]); done. Qed.

Lemma conflicting_mono a a' b :
  tn_Namespace a' = tn_Namespace a → tn_ThreadID a' = tn_ThreadID a →
  tn_ProfileName a' = tn_ProfileName a → tn_LockKeys a' = tn_LockKeys a →
  (Active a' = true → Active a = true) → (holding a' = true → holding a = true) →
  conflicting a' b → conflicting a b.
Proof.
  unfold conflicting. rewrite !sharedTurnResource_spec. intros -> -> -> ->. intuition.
Qed.

Lemma existsb_ranged (f : Turn → bool) env n s k b :
  existsb f (ranged env n (turns s)) = false → turns s !! k = Some b → f b = false.
Proof.
  intros He Hk. apply not_true_is_false. intros Hf. apply not_true_iff_false in He. apply He.
  apply existsb_exists. exists b. split; [|done]. apply list_elem_of_In, elem_of_ranged. eauto.
Qed.

Lemma prepareTurn_inv env t0 m0 t m :
  prepareTurn env t0 m0 = inr (t, m) →
  tn_Status t = (if tn_Deferred t then "waiting" else "queued")
  ∧ tn_Namespace t = tn_Namespace t0 ∧ tn_ThreadID t = tn_ThreadID t0
  ∧ tn_RequestID t = tn_RequestID t0 ∧ tn_RetryCount t = tn_RetryCount t0
  ∧ tn_Attempts t = tn_Attempts t0
  ∧ tn_ID t = (if bool_decide (tn_ID t0 = "") then e_uuid env 0 else tn_ID t0)
  ∧ tn_UserMessageID t = msg_ID m
  ∧ NormalizeMessage env (e_uuid env 1)
      (m0 <| msg_ThreadID := tn_ThreadID t0 |> <| msg_Sequence := 1 |> <| msg_Role := RoleUser |>)
      (e_now env) = inr m.
Proof.
  unfold prepareTurn, refuseIf, mbind, Res_bind.
  destruct (negb _); [done|]. destruct (normalizeThreadLookup _ _); [done|]. cbv zeta.
  destruct (NormalizeMessage _ _ _ _) eqn:E; [done|]. intros [= <- <-]. by split_and!.
Qed.

Lemma enters_clear env c s t k b :
  enters env c s t → turns s !! k = Some b → ¬ conflicting t b.
Proof.
  intros (t0 & m0 & m & _ & Hp & _ & _ & Hb) Hk (Hn & Hc).
  pose proof (existsb_ranged _ _ _ _ _ _ Hb Hk) as Hf.
  apply prepareTurn_inv in Hp as (Hst & _). unfold busyFor in Hf.
  rewrite bool_decide_eq_true_2 in Hf by done. simpl in Hf.
  apply orb_false_iff in Hf as [Hf1 Hf2].
  destruct Hc as [(Ht & _ & Ha)|(Hs & Hh & Hh')].
  - rewrite bool_decide_eq_true_2, Ha in Hf1 by done. done.
  - assert (sharedTurnResource b t = true) as Hs'.
    { revert Hs. rewrite !sharedTurnResource_spec. firstorder congruence. }
    apply andb_true_iff in Hh as [_ Hw], Hh' as [Ha' Hw'].
    rewrite Hs', Ha', Hw' in Hf2. destruct (tn_Deferred t); [|done].
    apply bool_decide_eq_true in Hw. done.
Qed.

Lemma evolves_clear env c s old t k b :
  retryHeld env c s → turns s !! tn_ID old = Some old → turns s !! k = Some b → tn_ID old ≠ k →
  evolves env c s old t → exclusive s → ¬ conflicting t b.
Proof.
  intros Hr Ho Hk Hne He Hx Hc. apply (Hx _ _ _ _ Ho Hk Hne).
  destruct He as [t m -> Ha Hs Ht|t uid -> Ha Hs _|e r next -> Hid Hp|t -> Hw Hh].
  - exfalso. change (Active (finished old t) = false) in Ht. apply conflicting_active in Hc. congruence.
  - by eapply conflicting_mono, Hc.
  - apply prepareTurnRetry_inv in Hp as (Ha & _ & _ & _ & ->).
    eapply conflicting_mono, Hc; try done. intros _. unfold holding. rewrite Ha. simpl.
    apply bool_decide_eq_true_2. eapply Hr; [done|by rewrite Hid].
  - destruct Hc as (Hn & [(Ht & _ & Hb)|(Hs & _ & Hb)]).
    + split; [done|left]. split_and!; try done. unfold Active. by rewrite Hw.
    + exfalso. pose proof (existsb_ranged _ _ _ _ _ _ Hh Hk) as Hf. unfold holds in Hf.
      change (tn_Namespace old = tn_Namespace b) in Hn. change (sharedTurnResource old b = true) in Hs.
      assert (sharedTurnResource b old = true) as Hs'.
      { revert Hs. rewrite !sharedTurnResource_spec. firstorder congruence. }
      rewrite Hn, bool_decide_eq_true_2, Hs' in Hf by done. unfold holding in Hb. simpl in Hf. congruence.
Qed.

Lemma perform_exclusive env c s :
  keyedTurns s → exclusive s → retryHeld env c s → exclusive (perform env c s).
Proof.
  intros Hk Hx Hr. destruct (perform_turns env c s Hk)
    as [E|[(t & Hen & E)|(old & t & Ho & Hev & Hid & E)]]; intros k k' a b; rewrite E; [apply Hx|..];
    rewrite !lookup_insert_Some; intros [[<- <-]|[Hna Ha]] [[<- <-]|[Hnb Hb]] Hne Hc;
    try congruence; try exact (Hx _ _ _ _ Ha Hb Hne Hc).
  - exact (enters_clear _ _ _ _ _ _ Hen Hb Hc).
  - exact (enters_clear _ _ _ _ _ _ Hen Ha (conflicting_sym _ _ Hc)).
  - rewrite Hid in Hnb. exact (evolves_clear _ _ _ _ _ _ _ Hr Ho Hb Hnb Hev Hx Hc).
  - rewrite Hid in Hna. exact (evolves_clear _ _ _ _ _ _ _ Hr Ho Ha Hna Hev Hx (conflicting_sym _ _ Hc)).
Qed.

(** ** Transcripts *)

(** The identity of a message: all but its body. *)
Definition sameIdentity (m m' : Message) : Prop :=
  msg_ID m' = msg_ID m ∧ msg_ThreadID m' = msg_ThreadID m ∧ msg_Role m' = msg_Role m
  ∧ msg_CreatedAt m' = msg_CreatedAt m ∧ msg_Sequence m' = msg_Sequence m.

(** Messages numbered from [n + 1], with generated identifiers. *)
Definition numberedFrom (n : nat) (ms : list Message) : Prop :=
  ∀ i m, ms !! i = Some m → msg_Sequence m = Z.of_nat (n + i) + 1.
Definition generated (env : Env) (ms : list Message) : Prop :=
  ∀ i m, ms !! i = Some m → msg_ID m = e_uuid env i ∨ ms = [m] ∧ ∃ j, msg_ID m = e_uuid env j.

(** The callers leave message identifiers to the store. *)
Definition unnamed (m : Message) : Prop := TrimSpace (msg_ID m) = "".
Definition unnamedCall (c : Call) : Prop :=
  match c with
  | CAppendMessages _ _ ms => Forall unnamed ms
  | CQueueTurn _ m | CCompleteTurn _ m => unnamed m
  | _ => True
  end.

Inductive transcriptChange (env : Env) (c : Call) (s : MemoryStore) (k : string) : list Message → Prop :=
  | tc_same : transcriptChange env c s k (transcript s k)
  | tc_add ms : is_Some (threads s !! k) → numberedFrom (length (transcript s k)) ms →
      (unnamedCall c → generated env ms) → transcriptChange env c s k (transcript s k ++ ms)
  | tc_fix i m m' : transcript s k !! i = Some m → msg_Role m = RoleAssistant → sameIdentity m m' →
      transcriptChange env c s k (<[i := m']> (transcript s k)).

Lemma NormalizeMessage_inv env uuid m now m' :
  NormalizeMessage env uuid m now = inr m' →
  msg_Sequence m' = msg_Sequence m ∧ msg_Content m' = msg_Content m
  ∧ msg_Role m' = TrimSpace (msg_Role m) ∧ (unnamed m → msg_ID m' = uuid).
Proof.
  unfold NormalizeMessage, assignID, refuseIf, mbind, Res_bind, unnamed.
  intros E. repeat (case_match; simplify_eq); split_and!; try done.
  all: intros Hu; bool_props; congruence.
Qed.

Lemma appendLoop_inv env id i n title ms stored title' :
  appendLoop env id i n title ms = inr (stored, title') →
  ∀ j m, stored !! j = Some m →
    msg_Sequence m = n + Z.of_nat j + 1 ∧ (Forall unnamed ms → msg_ID m = e_uuid env (i + j)).
Proof.
  revert i n title stored title'. induction ms as [|m0 ms IH]; simpl; intros i n title stored title'.
  { intros [= <- <-] j m Hj. by rewrite lookup_nil in Hj. }
  unfold mbind, Res_bind. destruct (NormalizeMessage _ _ _ _) as [?|m1] eqn:E; [done|].
  destruct (appendLoop _ _ _ _ _ _) as [?|[st ti]] eqn:El; [done|]. intros [= <- <-] [|j] m; simpl.
  - intros [= <-]. apply NormalizeMessage_inv in E as (Hs & _ & _ & Hu). split; [rewrite Hs; simpl; lia|].
    intros [Hm _]%Forall_cons. rewrite Nat.add_0_r. by apply Hu.
  - intros Hj. destruct (IH _ _ _ _ _ El _ _ Hj) as [Hs Hu]. split; [rewrite Hs; lia|].
    intros [_ Hms]%Forall_cons. rewrite (Hu Hms). f_equal. lia.
Qed.

(** Every stored turn belongs to a stored thread, and only stored threads have
    a transcript. *)
Definition homed (s : MemoryStore) : Prop :=
  (∀ k t, turns s !! k = Some t → is_Some (threads s !! turnKey t))
  ∧ ∀ k, threads s !! k = None → transcript s k = [].

(** A call changes one transcript at most. *)
Definition changesOne (env : Env) (c : Call) (s s' : MemoryStore) : Prop :=
  ∃ k, transcriptChange env c s k (transcript s' k) ∧ ∀ k', k' ≠ k → transcript s' k' = transcript s k'.

Lemma same_change env c s s' : (∀ k, transcript s' k = transcript s k) → changesOne env c s s'.
Proof. intros Hs. exists "". rewrite Hs. split; [constructor|auto]. Qed.

Lemma set_change env c s s' k l :
  messages s' = <[k := l]> (messages s) → transcriptChange env c s k l → changesOne env c s s'.
Proof.
  intros Hm Hl. exists k. unfold transcript at 1 2. rewrite Hm, lookup_insert_eq.
  split; [done|]. intros k' Hk. by rewrite lookup_insert_ne.
Qed.

Lemma clear_change env c s s' k :
  homed s → threads s !! k = None → messages s' = <[k := []]> (messages s) → changesOne env c s s'.
Proof.
  intros [_ Hh] Hk Hm. eapply set_change; [done|]. rewrite <-(Hh k Hk). constructor.
Qed.

Lemma single_numbered env s k m :
  msg_Sequence m = Z.of_nat (length (transcript s k)) + 1 →
  numberedFrom (length (transcript s k)) [m].
Proof.
  intros Hm [|i] m'; simpl; [|done]. intros [= <-]. rewrite Hm, Nat.add_0_r. done.
Qed.

Lemma single_generated env j m : msg_ID m = e_uuid env j → generated env [m].
Proof. intros Hm [|i] m'; simpl; [|done]. intros [= <-]. right. eauto. Qed.

Lemma perform_transcript env c s : homed s → changesOne env c s (perform env c s).
Proof.
  intros Hh. destruct c; simpl.
  - destruct (CreateThread_effect env th s) as [->|(? & _ & Hn & ->)]; [by apply same_change|].
    by eapply clear_change.
  - destruct (AppendMessages_effect env ns id ms s) as [->|(k' & th & ? & ? & ? & _ & Ht & Hl & -> & _)];
      [by apply same_change|].
    eapply set_change; [done|]. apply tc_add; [eauto|..].
    + intros i m Hi. destruct (appendLoop_inv _ _ _ _ _ _ _ _ Hl _ _ Hi) as [-> _]. lia.
    + intros Hu i m Hi. left. by apply (appendLoop_inv _ _ _ _ _ _ _ _ Hl _ _ Hi).
  - destruct (QueueTurn_effect env t m s) as [->|(t' & m' & th & ? & Hp & Ht & _ & _ & -> & _)];
      [by apply same_change|].
    apply prepareTurn_inv in Hp as (_ & _ & _ & _ & _ & _ & _ & _ & Hn).
    apply NormalizeMessage_inv in Hn as (_ & _ & _ & Hu).
    eapply set_change; [done|]. apply tc_add; [eauto|by apply (single_numbered env)|].
    intros Hm. apply (single_generated env 1). exact (Hu Hm).
  - destruct (CompleteTurn_effect env t m s) as [->|(old & m' & Hl & _ & Hs & _ & Hn & ->)];
      [by apply same_change|].
    apply NormalizeMessage_inv in Hn as (Hq & _ & _ & Hu).
    eapply set_change; [done|]. apply tc_add.
    + rewrite <-(sameTurnAttempt_key _ _ Hs). by apply Hh in Hl.
    + apply (single_numbered env). by rewrite Hq.
    + intros Hm. apply (single_generated env 0). exact (Hu Hm).
  - destruct (RecordRun_effect t uid s) as [->|(? & _ & _ & _ & _ & ->)]; by apply same_change.
  - destruct (RetryTurn_effect env t r s) as [[? ->]|(? & ? & _ & _ & ->)]; by apply same_change.
  - destruct (ActivateTurn_effect env t s) as [->|(? & _ & _ & _ & ->)]; by apply same_change.
  - destruct (EnsureStandingThread_effect env th s)
      as [->|(? & _ & _ & _ & [(? & _ & ->)|(_ & Hn & ->)])]; [by apply same_change..|].
    by eapply clear_change.
  - destruct (RepairAssistantReply_effect ns original content format s)
      as [->|(i & cur & rep & Hf & Hr & Hs & ->)]; [by apply same_change|].
    apply list_find_Some in Hf as (Hi & _ & _). eapply set_change; [done|].
    eapply tc_fix; [done| |done]. unfold sameReply in Hs. by bool_props.
Qed.

(** Threads stay, up to their title and time of update. *)
Lemma perform_threads env c s k th :
  threads s !! k = Some th →
  ∃ th', threads (perform env c s) !! k = Some th' ∧ sameThread th th'.
Proof.
  intros Hk. assert (sameThread th th) as Hrefl by done. destruct c; simpl.
  - destruct (CreateThread_effect env th0 s) as [->|(? & _ & Hn & ->)]; [eauto|].
    eexists. split; [|done]. simpl. rewrite lookup_insert_ne; congruence.
  - destruct (AppendMessages_effect env ns id ms s)
      as [->|(k' & th' & th2 & ? & ? & _ & Ht & _ & -> & Hs)]; [eauto|]. simpl.
    destruct (decide (threadKey k'.1 k'.2 = k)) as [<-|];
      [rewrite lookup_insert_eq; simplify_eq; eauto|rewrite lookup_insert_ne by done; eauto].
  - destruct (QueueTurn_effect env t m s) as [->|(t' & ? & th' & th2 & _ & Ht & _ & _ & -> & Hs)];
      [eauto|]. simpl.
    destruct (decide (turnKey t' = k)) as [<-|];
      [rewrite lookup_insert_eq; simplify_eq; eauto|rewrite lookup_insert_ne by done; eauto].
  - destruct (CompleteTurn_effect env t m s) as [->|(? & ? & _ & _ & _ & _ & _ & ->)]; eauto.
  - destruct (RecordRun_effect t uid s) as [->|(? & _ & _ & _ & _ & ->)]; eauto.
  - destruct (RetryTurn_effect env t r s) as [[? ->]|(? & ? & _ & _ & ->)]; eauto.
  - destruct (ActivateTurn_effect env t s) as [->|(? & _ & _ & _ & ->)]; eauto.
  - destruct (EnsureStandingThread_effect env th0 s)
      as [->|(? & _ & _ & _ & [(? & _ & ->)|(_ & Hn & ->)])]; [eauto..|].
    eexists. split; [|done]. simpl. rewrite lookup_insert_ne; congruence.
  - destruct (RepairAssistantReply_effect ns original content format s)
      as [->|(? & ? & ? & _ & _ & _ & ->)]; eauto.
Qed.

(** ** The well-formed store *)

Record wf (s : MemoryStore) : Prop := {
  wf_keyed : keyedTurns s;
  wf_homed : homed s;
  (** the numbers of a transcript are 1, 2, 3, ... *)
  wf_numbered : ∀ k, numberedFrom 0 (transcript s k);
  (** no two messages share an identifier *)
  wf_ids : ∀ k k' i j m m', transcript s k !! i = Some m → transcript s k' !! j = Some m' →
    msg_ID m = msg_ID m' → k = k' ∧ i = j;
  (** the message a turn answers is in its thread *)
  wf_user : ∀ k t, turns s !! k = Some t → ∃ i m, transcript s (turnKey t) !! i = Some m
    ∧ msg_ID m = tn_UserMessageID t ∧ msg_Role m = RoleUser;
  (** one turn per request *)
  wf_request : ∀ k k' t t', turns s !! k = Some t → turns s !! k' = Some t' →
    tn_Namespace t = tn_Namespace t' → tn_ThreadID t = tn_ThreadID t' →
    tn_RequestID t = tn_RequestID t' → k = k';
  (** every retry is recorded and there are at most two *)
  wf_retries : ∀ k t, turns s !! k = Some t →
    tn_RetryCount t = Z.of_nat (length (tn_Attempts t)) ∧ tn_RetryCount t ≤ MaxTurnRetries;
  wf_exclusive : exclusive s }.

Definition assignedID (env : Env) (t : Turn) : string :=
  if bool_decide (tn_ID t = "") then e_uuid env 0 else tn_ID t.

(** The discipline of the callers: generated identifiers are new, message
    identifiers are generated, a queued turn is a new one, and a turn is retried
    after its activation. *)
Record lawful (env : Env) (c : Call) (s : MemoryStore) : Prop := {
  lf_uuid_set : ∀ i, e_uuid env i ≠ "";
  lf_uuid_inj : ∀ i j, e_uuid env i = e_uuid env j → i = j;
  lf_uuid_new : ∀ j k i m, transcript s k !! i = Some m → msg_ID m ≠ e_uuid env j;
  lf_unnamed : unnamedCall c;
  lf_turn : ∀ t m, c = CQueueTurn t m →
    turns s !! assignedID env t = None ∧ tn_RetryCount t = 0 ∧ tn_Attempts t = [];
  lf_retry : retryHeld env c s }.

(** A message stays where it is; only an assistant's body can be replaced. *)
Lemma perform_keeps_message env c s k i m :
  homed s → transcript s k !! i = Some m →
  ∃ m', transcript (perform env c s) k !! i = Some m' ∧ sameIdentity m m'
    ∧ (m' = m ∨ msg_Role m = RoleAssistant).
Proof.
  intros Hh Hi. destruct (perform_transcript env c s Hh) as (k0 & Hc & Ho).
  assert (sameIdentity m m) as Hrefl by done.
  destruct (decide (k = k0)) as [->|]; [|rewrite Ho by done; eauto 10].
  destruct Hc as [|ms _ _ _|i' m1 m2 Hi' Hr Hs]; [eauto 10| |].
  - exists m. split; [by apply lookup_app_l_Some|eauto].
  - destruct (decide (i' = i)) as [->|].
    + simplify_eq. exists m2. split; [|eauto]. apply list_lookup_insert_eq. by eapply lookup_lt_Some.
    + exists m. rewrite list_lookup_insert_ne by done. eauto.
Qed.

(** Every message of the new store was there, or was added now. *)
Lemma perform_message_origin env c s k i m' :
  homed s → transcript (perform env c s) k !! i = Some m' →
  (∃ m, transcript s k !! i = Some m ∧ sameIdentity m m')
  ∨ ∃ ms, transcript (perform env c s) k = transcript s k ++ ms
      ∧ (∀ k', k' ≠ k → transcript (perform env c s) k' = transcript s k')
      ∧ is_Some (threads s !! k)
      ∧ numberedFrom (length (transcript s k)) ms ∧ (unnamedCall c → generated env ms)
      ∧ (length (transcript s k) ≤ i)%nat ∧ ms !! (i - length (transcript s k))%nat = Some m'.
Proof.
  intros Hh Hi. destruct (perform_transcript env c s Hh) as (k0 & Hc & Ho).
  assert (sameIdentity m' m') as Hrefl by done.
  destruct (decide (k = k0)) as [->|]; [|rewrite Ho in Hi by done; eauto].
  remember (transcript (perform env c s) k0) as l eqn:El.
  destruct Hc as [|ms Ht Hn Hg|i' m1 m2 Hi' Hr Hs]; [eauto| |].
  - apply lookup_app_Some in Hi as [Hi|[Hlt Hi]]; [eauto|]. right. exists ms. by split_and!.
  - left. destruct (decide (i' = i)) as [->|].
    + rewrite list_lookup_insert_eq in Hi by (by eapply lookup_lt_Some). simplify_eq. eauto.
    + rewrite list_lookup_insert_ne in Hi by done. eauto.
Qed.

Lemma perform_numbered env c s k :
  homed s → numberedFrom 0 (transcript s k) → numberedFrom 0 (transcript (perform env c s) k).
Proof.
  intros Hh Hn i m' Hi.
  destruct (perform_message_origin env c s k i m' Hh Hi)
    as [(m & Hm & _ & _ & _ & _ & ->)|(ms & _ & _ & _ & Hms & _ & Hle & Hi')]; [by apply Hn|].
  rewrite (Hms _ _ Hi'). lia.
Qed.

Lemma perform_ids env c s :
  wf s → lawful env c s → ∀ k k' i j m m',
  transcript (perform env c s) k !! i = Some m → transcript (perform env c s) k' !! j = Some m' →
  msg_ID m = msg_ID m' → k = k' ∧ i = j.
Proof.
  intros Hw Hl k k' i j m m' Hi Hj E. pose proof (wf_homed s Hw) as Hh.
  assert (Hgen : ∀ ms n x, unnamedCall c → (unnamedCall c → generated env ms) → ms !! n = Some x →
    ∃ y, msg_ID x = e_uuid env y).
  { intros ms n x Hu Hg Hx. destruct (Hg Hu n x Hx) as [->|(_ & y & ->)]; eauto. }
  destruct (perform_message_origin env c s k i m Hh Hi)
    as [(m1 & H1 & E1 & _)|(ms & El & Hk & _ & _ & Hg & Hle & Hi')];
  destruct (perform_message_origin env c s k' j m' Hh Hj)
    as [(m2 & H2 & E2 & _)|(ms' & El' & Hk' & _ & _ & Hg' & Hle' & Hj')].
  - eapply (wf_ids s Hw); eauto. congruence.
  - destruct (Hgen _ _ _ (lf_unnamed _ _ _ Hl) Hg' Hj') as [y Hy].
    exfalso. apply (lf_uuid_new _ _ _ Hl y _ _ _ H1). congruence.
  - destruct (Hgen _ _ _ (lf_unnamed _ _ _ Hl) Hg Hi') as [y Hy].
    exfalso. apply (lf_uuid_new _ _ _ Hl y _ _ _ H2). congruence.
  - destruct (decide (k = k')) as [->|Hne].
    + split; [done|]. rewrite El in El'. apply app_inv_head in El'. subst ms'.
      destruct (Hg (lf_unnamed _ _ _ Hl) _ _ Hi') as [F1|[F1 _]];
        destruct (Hg (lf_unnamed _ _ _ Hl) _ _ Hj') as [F2|[F2 _]];
        try (rewrite F1 in Hi', Hj'); try (rewrite F2 in Hi', Hj');
        try (apply lookup_lt_Some in Hi', Hj'; simpl in *; lia).
      rewrite F1, F2 in E. apply (lf_uuid_inj _ _ _ Hl) in E. lia.
    + exfalso. rewrite (Hk k' ltac:(done)) in Hj.
      destruct (Hgen _ _ _ (lf_unnamed _ _ _ Hl) Hg Hi') as [y Hy].
      apply (lf_uuid_new _ _ _ Hl y _ _ _ Hj). congruence.
Qed.

(** What a change of a turn leaves alone. *)
Lemma evolves_same env c s old t :
  evolves env c s old t →
  tn_Namespace t = tn_Namespace old ∧ tn_ThreadID t = tn_ThreadID old
  ∧ tn_RequestID t = tn_RequestID old ∧ tn_UserMessageID t = tn_UserMessageID old.
Proof.
  destruct 1 as [| |e r next _ _ Hp|]; [done..| |done].
  by apply prepareTurnRetry_inv in Hp as (_ & _ & _ & _ & ->).
Qed.

Lemma evolves_key env c s old t : evolves env c s old t → turnKey t = turnKey old.
Proof. intros (En & Et & _)%evolves_same. unfold turnKey. by rewrite En, Et. Qed.

(** The turns of the new store: new, changed or the same. *)
Lemma perform_turn_origin env c s k t :
  keyedTurns s → turns (perform env c s) !! k = Some t →
  turns s !! k = Some t
  ∨ (enters env c s t ∧ tn_ID t = k)
  ∨ ∃ old, turns s !! k = Some old ∧ evolves env c s old t.
Proof.
  intros Hk Ht. destruct (perform_turns env c s Hk)
    as [E|[(t' & He & E)|(old & t' & Ho & He & Hid & E)]]; rewrite E in Ht; [by left|..];
    apply lookup_insert_Some in Ht as [[<- <-]|[_ ?]]; eauto.
  rewrite Hid. eauto.
Qed.

Lemma perform_retries env c s k t :
  keyedTurns s → lawful env c s →
  (∀ k t, turns s !! k = Some t →
    tn_RetryCount t = Z.of_nat (length (tn_Attempts t)) ∧ tn_RetryCount t ≤ MaxTurnRetries) →
  turns (perform env c s) !! k = Some t →
  tn_RetryCount t = Z.of_nat (length (tn_Attempts t)) ∧ tn_RetryCount t ≤ MaxTurnRetries.
Proof.
  intros Hk Hl Hr Ht. destruct (perform_turn_origin env c s k t Hk Ht)
    as [?|[[(t0 & m0 & m & Hc & Hp & _) _]|(old & Ho & He)]]; [eauto|..].
  - apply prepareTurn_inv in Hp as (_ & _ & _ & _ & -> & -> & _).
    destruct (lf_turn _ _ _ Hl _ _ Hc) as (_ & -> & ->). done.
  - destruct (Hr _ _ Ho) as [Hn Hm]. destruct He as [| |e r next _ _ Hp|]; [done..| |done].
    apply prepareTurnRetry_inv in Hp as (_ & _ & Hlt & _ & ->). simpl.
    rewrite length_app. simpl. lia.
Qed.

Lemma perform_homed env c s : wf s → homed (perform env c s).
Proof.
  intros Hw. pose proof (wf_homed s Hw) as Hh. split.
  - intros k t Ht. destruct (perform_turn_origin env c s k t (wf_keyed s Hw) Ht)
      as [Ho|[[(t0 & m0 & m & _ & _ & [th Hth] & _) _]|(old & Ho & He)]].
    + destruct (proj1 Hh _ _ Ho) as [th Hth]. destruct (perform_threads env c s _ _ Hth) as (? & -> & _). eauto.
    + destruct (perform_threads env c s _ _ Hth) as (? & -> & _). eauto.
    + rewrite (evolves_key _ _ _ _ _ He).
      destruct (proj1 Hh _ _ Ho) as [th Hth]. destruct (perform_threads env c s _ _ Hth) as (? & -> & _). eauto.
  - intros k Hn. destruct (transcript (perform env c s) k) as [|m' l] eqn:El; [done|]. exfalso.
    assert (is_Some (threads s !! k)) as [th Hth].
    { destruct (perform_message_origin env c s k 0 m' Hh) as [(m & Hm & _)|(ms & _ & _ & ? & _)];
        [by rewrite El| |done].
      destruct (threads s !! k) eqn:E; [eauto|]. apply Hh in E. by rewrite E in Hm. }
    destruct (perform_threads env c s _ _ Hth) as (? & ? & _). congruence.
Qed.

Lemma transcript_queued k' th t k ms s :
  transcript (setThread k' th (put t (say k ms s))) k = transcript s k ++ ms.
Proof. unfold transcript at 1. simpl. by rewrite lookup_insert_eq. Qed.

Lemma perform_user env c s k t :
  wf s → turns (perform env c s) !! k = Some t →
  ∃ i m, transcript (perform env c s) (turnKey t) !! i = Some m
    ∧ msg_ID m = tn_UserMessageID t ∧ msg_Role m = RoleUser.
Proof.
  intros Hw Ht.
  assert (Hold : ∀ old, turns s !! k = Some old → ∃ i m,
    transcript (perform env c s) (turnKey old) !! i = Some m
    ∧ msg_ID m = tn_UserMessageID old ∧ msg_Role m = RoleUser).
  { intros old Ho. destruct (wf_user s Hw _ _ Ho) as (i & m & Hi & Hid & Hr).
    destruct (perform_keeps_message env c s _ _ _ (wf_homed s Hw) Hi) as (m' & Hi' & (Eid & _ & Er & _) & _).
    exists i, m'. rewrite Eid, Er. done. }
  destruct (perform_turn_origin env c s k t (wf_keyed s Hw) Ht)
    as [Ho|[[(t0 & m0 & m & -> & Hp & Hth & Hh & Hb) Hid]|(old & Ho & He)]]; [by apply Hold| |].
  - destruct (QueueTurn_effect env t0 m0 s) as [E|(t' & m' & th & th' & Hp' & _ & _ & _ & Eq & _)].
    + simpl in Ht. rewrite E in Ht. simpl. rewrite E. by apply (wf_user s Hw k).
    + rewrite Hp in Hp'. simplify_eq. simpl. rewrite Eq.
      apply prepareTurn_inv in Hp as (_ & _ & _ & _ & _ & _ & _ & Hu & Hn).
      apply NormalizeMessage_inv in Hn as (_ & _ & Hr & _).
      exists (length (transcript s (turnKey t'))),
        (m' <| msg_Sequence := Z.of_nat (length (transcript s (turnKey t'))) + 1 |>).
      split_and!; [|by rewrite Hu|exact Hr].
      cbn [fst]. by rewrite transcript_queued, lookup_app_r, Nat.sub_diag.
  - destruct (evolves_same _ _ _ _ _ He) as (_ & _ & _ & ->). rewrite (evolves_key _ _ _ _ _ He). by apply Hold.
Qed.

(** A request that is stored is found again. *)
Lemma sameRequest_found s k t t' :
  wf s → turns s !! k = Some t →
  tn_Namespace t' = tn_Namespace t → tn_ThreadID t' = tn_ThreadID t → tn_RequestID t' = tn_RequestID t →
  ∃ i m, transcript s (turnKey t) !! i = Some m ∧ msg_ID m = tn_UserMessageID t
    ∧ msg_Role m = RoleUser
    ∧ sameRequest t' (transcript s (turnKey t')) t = Some (t, m).
Proof.
  intros Hw Ht En Et Er. destruct (wf_user s Hw _ _ Ht) as (i & m & Hi & Hid & Hr).
  exists i, m. split_and!; [done..|].
  assert (turnKey t' = turnKey t) as -> by (unfold turnKey; by rewrite En, Et).
  unfold sameRequest. rewrite !bool_decide_eq_true_2 by done. simpl.
  assert (list_find (λ u, msg_ID u = tn_UserMessageID t) (transcript s (turnKey t)) = Some (i, m)) as ->;
    [|done].
  apply list_find_Some. split_and!; [done..|]. intros j y Hj Hlt E.
  destruct (wf_ids s Hw _ _ _ _ _ _ Hi Hj) as [_ ?]; [congruence|lia].
Qed.

Lemma enters_new_request env c s t k b :
  wf s → enters env c s t → turns s !! k = Some b →
  tn_Namespace t = tn_Namespace b → tn_ThreadID t = tn_ThreadID b → tn_RequestID t ≠ tn_RequestID b.
Proof.
  intros Hw (t0 & m0 & m & _ & _ & _ & Hh & _) Hb En Et Er.
  destruct (sameRequest_found s k b t Hw Hb En Et Er) as (_ & m' & _ & _ & _ & Hs).
  assert ((b, m') ∈ omap (sameRequest t (transcript s (turnKey t))) (ranged env 0 (turns s))) as Hin.
  { apply list_elem_of_omap. exists b. split; [|done]. apply elem_of_ranged. eauto. }
  apply head_None in Hh. rewrite Hh in Hin. by apply not_elem_of_nil in Hin.
Qed.

Lemma perform_request env c s k k' t t' :
  wf s → turns (perform env c s) !! k = Some t → turns (perform env c s) !! k' = Some t' →
  tn_Namespace t = tn_Namespace t' → tn_ThreadID t = tn_ThreadID t' →
  tn_RequestID t = tn_RequestID t' → k = k'.
Proof.
  intros Hw. destruct (perform_turns env c s (wf_keyed s Hw))
    as [E|[(t1 & He & E)|(old & t1 & Ho & He & Hid & E)]]; rewrite E; [apply (wf_request s Hw)|..];
    rewrite !lookup_insert_Some; intros [[<- <-]|[Hna Ha]] [[<- <-]|[Hnb Hb]] E1 E2 E3;
    try done; try (by eapply (wf_request s Hw)).
  - exfalso. by eapply enters_new_request.
  - exfalso. by eapply (enters_new_request _ _ _ _ _ _ Hw He Ha).
  - destruct (evolves_same _ _ _ _ _ He) as (F1 & F2 & F3 & _). rewrite Hid.
    eapply (wf_request s Hw); [done..|congruence|congruence|congruence].
  - destruct (evolves_same _ _ _ _ _ He) as (F1 & F2 & F3 & _). rewrite Hid.
    eapply (wf_request s Hw); [done..|congruence|congruence|congruence].
Qed.

Lemma wf_new : wf NewMemoryStore.
Proof.
  assert (∀ k, transcript NewMemoryStore k = []) as Hn by done.
  split; try (intros k *; rewrite ?Hn, ?lookup_nil; simpl; done).
  by split.
Qed.

Lemma perform_wf env c s : wf s → lawful env c s → wf (perform env c s).
Proof.
  intros Hw Hl. split.
  - by apply perform_keyed, wf_keyed.
  - by apply perform_homed.
  - intros k. by apply perform_numbered; [apply wf_homed|apply wf_numbered].
  - by apply perform_ids.
  - intros k t. by apply perform_user.
  - intros k k' t t'. by apply perform_request.
  - intros k t. apply perform_retries; [by apply wf_keyed|done|by apply wf_retries].
  - apply perform_exclusive; [by apply wf_keyed|by apply wf_exclusive|by apply lf_retry].
Qed.

Lemma reachable_wf s : reachable lawful s → wf s.
Proof. apply reachable_ind; [apply wf_new|]. intros env c s' Hw Hl. by apply perform_wf. Qed.

(** ** Later stores *)

Lemma later_ind admits (P : MemoryStore → Prop) s s' :
  P s → rtc (step admits) s s' → (∀ env c s, P s → admits env c s → P (perform env c s)) → P s'.
Proof. intros Hs Hr Hp. induction Hr as [|s1 s2 s3 (env & c & Ha & ->) _ IH]; auto. Qed.

Lemma lawful_fresh env c s t : lawful env c s → enters env c s t → turns s !! tn_ID t = None.
Proof.
  intros Hl (t0 & m0 & m & Hc & Hp & _). apply prepareTurn_inv in Hp as (_ & _ & _ & _ & _ & _ & -> & _).
  by apply (lf_turn _ _ _ Hl t0 m0 Hc).
Qed.

(** A stored turn stays stored; its attempts only grow, and a finished turn does
    not change. *)
Lemma perform_keeps_turn env c s k t :
  keyedTurns s → lawful env c s → turns s !! k = Some t →
  ∃ t', turns (perform env c s) !! k = Some t' ∧ tn_RetryCount t ≤ tn_RetryCount t'
    ∧ (Active t = false → t' = t).
Proof.
  intros Hk Hl Ht. pose proof (Hk _ _ Ht) as Hid.
  destruct (perform_turns env c s Hk) as [E|[(t1 & He & E)|(old & t1 & Ho & He & Hid1 & E)]]; rewrite E.
  - eauto with lia.
  - exists t. rewrite lookup_insert_ne; [eauto with lia|].
    intros E1. pose proof (lawful_fresh _ _ _ _ Hl He). congruence.
  - destruct (decide (tn_ID t1 = k)) as [E1|]; [|exists t; rewrite lookup_insert_ne; eauto with lia].
    assert (Some old = Some t) as [= ->] by (rewrite <-Ho, <-Ht; congruence).
    exists t1. rewrite E1, lookup_insert_eq. split; [done|].
    destruct He as [| |e r next _ _ Hp|t2 _ Hw _]; simpl; [split; [lia|congruence]..| |].
    + apply prepareTurnRetry_inv in Hp as (? & _ & _ & _ & ->). simpl. split; [lia|congruence].
    + split; [lia|]. unfold Active. by rewrite Hw.
Qed.

Definition fenced (s : MemoryStore) (e : Turn) : Prop :=
  (∃ t, turns s !! tn_ID e = Some t ∧ tn_RetryCount e < tn_RetryCount t).

Lemma sameTurnAttempt_count a b : tn_RetryCount a ≠ tn_RetryCount b → sameTurnAttempt a b = false.
Proof.
  intros Hn. apply not_true_is_false. by intros (_ & _ & _ & _ & ?)%sameTurnAttempt_id.
Qed.

Lemma fenced_ops env s e m uid r :
  fenced s e →
  (CompleteTurn env e m s = (s, inl ErrRequestConflict) ∨ CompleteTurn env e m s = (s, inr tt))
  ∧ RecordRun e uid s = (s, inl ErrRequestConflict)
  ∧ RetryTurn env e r s = (s, inl ErrRequestConflict).
Proof.
  intros (t & Ht & Hlt). assert (sameTurnAttempt t e = false) as Hs by (apply sameTurnAttempt_count; lia).
  unfold CompleteTurn, RecordRun, RetryTurn, prepareTurnRetry, require, mbnd, lift, gets, refuseIf, mret,
    mbind, Res_bind.
  rewrite Ht, Hs. rewrite orb_true_r. split_and!; [|done..]. destruct (Active t); simpl; eauto.
Qed.
End effects.
