(* ===== verification/ChatProperties.v ===== *)
(** * Properties of the conversation store

    The theorems about [MemoryStore] over every sequence of calls. *)

From stdpp Require Import base list gmap strings sorting pretty.
From Stdlib Require Import ZArith Lia Ascii.
From S2P Require Import Prelude GoStrings GoTime ChatModel ChatMemory ChatSafety.
Open Scope Z_scope.

Section standing.
Context `{Codec}.
Implicit Types (s : MemoryStore) (env : Env).

(** ** Standing conversations *)

Definition keyedThreads (s : MemoryStore) : Prop :=
  ∀ k th, threads s !! k = Some th → k = threadKey (th_Namespace th) (th_ID th).

(** A thread of the store after a call: it was there, or it is a new thread the
    call normalised. *)
Lemma perform_thread_origin env c s k th :
  threads (perform env c s) !! k = Some th →
  (∃ old, threads s !! k = Some old ∧ sameThread old th)
  ∨ ∃ th0, NormalizeThread env th0 (e_now env) = inr th ∧ k = threadKey (th_Namespace th) (th_ID th).
Proof.
  assert (sameThread th th) as Hrefl by done.
  destruct c; simpl.
  - destruct (CreateThread_effect env th0 s) as [->|(th1 & Hn & _ & ->)]; [eauto|]. simpl.
    rewrite lookup_insert_Some. intros [[<- <-]|[_ ?]]; eauto.
  - destruct (AppendMessages_effect env ns id ms s)
      as [->|(k' & th1 & th2 & ? & ? & _ & Ht & _ & -> & Hs)]; [eauto|]. simpl.
    rewrite lookup_insert_Some. intros [[<- <-]|[_ ?]]; eauto.
  - destruct (QueueTurn_effect env t m s) as [->|(t' & ? & th1 & th2 & _ & Ht & _ & _ & -> & Hs)]; [eauto|].
    simpl. rewrite lookup_insert_Some. intros [[<- <-]|[_ ?]]; eauto.
  - destruct (CompleteTurn_effect env t m s) as [->|(? & ? & _ & _ & _ & _ & _ & ->)]; eauto.
  - destruct (RecordRun_effect t uid s) as [->|(? & _ & _ & _ & _ & ->)]; eauto.
  - destruct (RetryTurn_effect env t r s) as [[? ->]|(? & ? & _ & _ & ->)]; eauto.
  - destruct (ActivateTurn_effect env t s) as [->|(? & _ & _ & _ & ->)]; eauto.
  - destruct (EnsureStandingThread_effect env th0 s)
      as [->|(seed & Hn & _ & _ & [(? & _ & ->)|(_ & _ & ->)])]; [eauto..|]. simpl.
    rewrite lookup_insert_Some. intros [[<- <-]|[_ ?]]; eauto.
  - destruct (RepairAssistantReply_effect ns original content format s)
      as [->|(? & ? & ? & _ & _ & _ & ->)]; eauto.
Qed.

Lemma perform_keyedThreads env c s : keyedThreads s → keyedThreads (perform env c s).
Proof.
  intros Hk k th Hth. destruct (perform_thread_origin env c s k th Hth)
    as [(old & Ho & -> & -> & _)|(? & _ & ->)]; auto.
Qed.

Lemma reachable_keyedThreads admits s : reachable admits s → keyedThreads s.
Proof. apply reachable_ind; [done|]. intros env c s' Hk _. by apply perform_keyedThreads. Qed.

Lemma NormalizeThread_id env th now th' :
  NormalizeThread env th now = inr th' → e_uuid env 0 ≠ "" → th_ID th' ≠ "".
Proof.
  unfold NormalizeThread, assignID, refuseIf, mbind, Res_bind. intros E Hu.
  repeat (case_hyp E; simplify_eq); try done; simpl; by bool_props.
Qed.

(** A pointer, once set, stays. *)
Lemma perform_standing env c s k id :
  id ≠ "" → standing s !! k = Some id → standing (perform env c s) !! k = Some id.
Proof.
  intros Hid Hk. destruct c; simpl.
  - destruct (CreateThread_effect env th s) as [->|(? & _ & _ & ->)]; done.
  - destruct (AppendMessages_effect env ns id0 ms s) as [->|(? & ? & ? & ? & ? & _ & _ & _ & -> & _)]; done.
  - destruct (QueueTurn_effect env t m s) as [->|(? & ? & ? & ? & _ & _ & _ & _ & -> & _)]; done.
  - destruct (CompleteTurn_effect env t m s) as [->|(? & ? & _ & _ & _ & _ & _ & ->)]; done.
  - destruct (RecordRun_effect t uid s) as [->|(? & _ & _ & _ & _ & ->)]; done.
  - destruct (RetryTurn_effect env t r s) as [[? ->]|(? & ? & _ & _ & ->)]; done.
  - destruct (ActivateTurn_effect env t s) as [->|(? & _ & _ & _ & ->)]; done.
  - destruct (EnsureStandingThread_effect env th s)
      as [->|(seed & _ & _ & Hn & [(? & _ & ->)|(_ & _ & ->)])]; [done|..];
      simpl; rewrite lookup_insert_ne; try done;
      intros E; rewrite E, Hk in Hn; simpl in Hn; done.
  - destruct (RepairAssistantReply_effect ns original content format s)
      as [->|(? & ? & ? & _ & _ & _ & ->)]; done.
Qed.

(** The pointer of a profile leads to a thread, up to title and time. *)
Definition pointsTo (s : MemoryStore) (ns profile : string) (th0 : Thread) : Prop :=
  ∃ id th, id ≠ "" ∧ standing s !! threadKey ns profile = Some id
    ∧ threads s !! threadKey ns id = Some th ∧ sameThread th0 th.

Lemma perform_pointsTo env c s ns p th : pointsTo s ns p th → pointsTo (perform env c s) ns p th.
Proof.
  intros (id & th1 & Hid & Hs & Ht & E). destruct (perform_threads env c s _ _ Ht) as (th' & Ht' & E').
  exists id, th'. split_and!; [done|by apply perform_standing|done|].
  unfold sameThread in *. intuition congruence.
Qed.

Definition candidateFor (seed t : Thread) : bool :=
  bool_decide (th_Namespace t = th_Namespace seed)
  && bool_decide (th_ProfileName t = th_ProfileName seed) && standingEligible t.

(** More recently updated, or as recently and with an identifier not greater. *)
Definition standingBefore (a b : Thread) : Prop :=
  th_UpdatedAt b < th_UpdatedAt a ∨ th_UpdatedAt a = th_UpdatedAt b ∧ strLt (th_ID b) (th_ID a) = false.

Lemma standingBefore_trans a b c : standingBefore a b → standingBefore b c → standingBefore a c.
Proof.
  unfold standingBefore. intros [?|[? Hab]] [?|[? Hbc]]; [left; lia..|].
  right. split; [lia|]. apply strLt_false. apply strLt_false in Hab, Hbc. by etrans.
Qed.

Lemma chooseStanding_none seed o t : candidateFor seed t = false → chooseStanding seed o t = o.
Proof.
  unfold candidateFor, chooseStanding. intros Hc.
  destruct (bool_decide (th_Namespace t ≠ th_Namespace seed)) eqn:E1; [done|].
  destruct (bool_decide (th_ProfileName t ≠ th_ProfileName seed)) eqn:E2; [done|].
  destruct (standingEligible t) eqn:E3; [|done]. exfalso. bool_props.
  apply dec_stable in E1, E2. rewrite !bool_decide_eq_true_2 in Hc by done. done.
Qed.

Lemma chooseStanding_some seed o t :
  candidateFor seed t = true →
  chooseStanding seed o t
  = match o with
    | None => Some t
    | Some c => if bool_decide (th_ID c = "") || After (th_UpdatedAt t) (th_UpdatedAt c)
                   || ((th_UpdatedAt t =? th_UpdatedAt c) && strLt (th_ID t) (th_ID c))
                then Some t else o
    end.
Proof.
  unfold candidateFor, chooseStanding. intros Hc. bool_props.
  rewrite !bool_decide_eq_false_2 by (intros ?; congruence).
  match goal with Hs : standingEligible t = true |- _ => rewrite Hs end. done.
Qed.

Lemma foldl_chooseStanding_in seed l c :
  foldl (chooseStanding seed) None l = Some c → c ∈ l ∧ candidateFor seed c = true.
Proof.
  induction l as [|t l IH] using rev_ind; [done|]. rewrite foldl_snoc.
  destruct (candidateFor seed t) eqn:Ec.
  - rewrite chooseStanding_some by done. destruct (foldl _ _ _) as [c'|].
    + case_match; intros [= ->]; [set_solver|]. destruct (IH eq_refl). set_solver.
    + intros [= ->]. set_solver.
  - rewrite chooseStanding_none by done. intros E. destruct (IH E). set_solver.
Qed.

Lemma foldl_chooseStanding seed l :
  Forall (λ t, th_ID t ≠ "") l →
  match foldl (chooseStanding seed) None l with
  | None => Forall (λ t, candidateFor seed t = false) l
  | Some c => c ∈ l ∧ candidateFor seed c = true
      ∧ ∀ t, t ∈ l → candidateFor seed t = true → standingBefore c t
  end.
Proof.
  induction l as [|t l IH] using rev_ind; [by constructor|]. intros [Hl Ht]%Forall_app.
  apply Forall_singleton in Ht. specialize (IH Hl). rewrite foldl_snoc.
  destruct (candidateFor seed t) eqn:Ec.
  - rewrite chooseStanding_some by done. destruct (foldl _ _ _) as [c|].
    + destruct IH as (Hin & Hc & Hb). rewrite bool_decide_eq_false_2 by (by eapply Forall_forall in Hl).
      simpl. unfold After.
      destruct (_ || _) eqn:E.
      * split_and!; [set_solver|done|]. intros u [Hu|Hu%list_elem_of_singleton]%elem_of_app Hcu.
        -- eapply standingBefore_trans, Hb; [|done..]. apply orb_true_iff in E as [E|E]; bool_props.
           ++ left. lia.
           ++ right. split; [done|]. by apply strLt_asym.
        -- subst u. right. split; [done|]. apply strLt_irrefl.
      * bool_props. split_and!; [set_solver|done|].
        intros u [Hu|Hu%list_elem_of_singleton]%elem_of_app Hcu; [by apply Hb|]. subst u.
        match goal with H : _ && _ = false |- _ => apply andb_false_iff in H as [?|?] end; bool_props.
        -- left. lia.
        -- destruct (decide (th_UpdatedAt c = th_UpdatedAt t)); [by right|left; lia].
    + split_and!; [set_solver|done|].
      intros u [Hu|Hu%list_elem_of_singleton]%elem_of_app Hcu.
      * exfalso. eapply Forall_forall in IH; [|done]. congruence.
      * subst u. right. split; [done|]. apply strLt_irrefl.
  - rewrite chooseStanding_none by done. destruct (foldl _ _ _) as [c|].
    + destruct IH as (Hin & Hc & Hb). split_and!; [set_solver|done|].
      intros u [Hu|Hu%list_elem_of_singleton]%elem_of_app Hcu; [by apply Hb|congruence].
    + apply Forall_app. split; [done|]. by apply Forall_singleton.
Qed.
End standing.

Section properties.
Context `{Codec}.
Implicit Types (s : MemoryStore) (env : Env).

Lemma reachable_exclusive s : reachable retryHeld s → keyedTurns s ∧ exclusive s.
Proof.
  apply (reachable_ind retryHeld (λ s, keyedTurns s ∧ exclusive s)); [by split|]. intros env c s' [Hk Hx] Hr.
  split; [by apply perform_keyed|by apply perform_exclusive].
Qed.

(** C3: over every sequence of store operations in which a turn is retried only
    after its activation, two turns of a namespace are never both unfinished in
    one thread, and never both past the waiting state while they share a profile
    or a lock key (a harness profile, a writable volume or its claim). *)
Theorem chat_turns_exclusive s k k' a b :
  reachable retryHeld s → turns s !! k = Some a → turns s !! k' = Some b → k ≠ k' →
  tn_Namespace a = tn_Namespace b →
  ¬ (tn_ThreadID a = tn_ThreadID b ∧ Active a = true ∧ Active b = true)
  ∧ ¬ (sharedTurnResource a b = true ∧ holding a = true ∧ holding b = true).
Proof.
  intros [_ Hx]%reachable_exclusive Ha Hb Hne Hns.
  pose proof (Hx _ _ _ _ Ha Hb Hne) as Hc. unfold conflicting in Hc. tauto.
Qed.

(** ** Requests *)

Lemma append_cancel (a b c : string) : a +:+ c = b +:+ c → a = b.
Proof.
  intros E. apply (f_equal bytes) in E. unfold bytes in E.
  rewrite <-(unbytes_bytes a), <-(unbytes_bytes b). f_equal.
  assert (Happ : ∀ x y, String.list_ascii_of_string (x +:+ y)
    = String.list_ascii_of_string x ++ String.list_ascii_of_string y).
  { induction x; intros; simpl; [done|]. by f_equal. }
  rewrite !Happ in E. by apply app_inv_tail in E.
Qed.

Lemma head_all_eq {A} (l : list A) a : a ∈ l → (∀ b, b ∈ l → b = a) → head l = Some a.
Proof. destruct l as [|b l]; [by intros ?%not_elem_of_nil|]. intros _ Hb. simpl. f_equal. apply Hb. set_solver. Qed.

Lemma stored_request_found env s k t t' :
  wf s → turns s !! k = Some t →
  tn_Namespace t' = tn_Namespace t → tn_ThreadID t' = tn_ThreadID t → tn_RequestID t' = tn_RequestID t →
  ∃ i m, transcript s (turnKey t) !! i = Some m ∧ msg_ID m = tn_UserMessageID t ∧ msg_Role m = RoleUser
    ∧ head (omap (sameRequest t' (transcript s (turnKey t'))) (ranged env 0 (turns s))) = Some (t, m).
Proof.
  intros Hw Ht En Et Er.
  destruct (sameRequest_found s k t t' Hw Ht En Et Er) as (i & m & Hi & Hid & Hr & Hs).
  exists i, m. split_and!; [done..|]. apply head_all_eq.
  { apply list_elem_of_omap. exists t. split; [|done]. apply elem_of_ranged. eauto. }
  intros [t2 m2] (t3 & [k3 H3]%elem_of_ranged & Hs3)%list_elem_of_omap.
  unfold sameRequest in Hs3. destruct (_ && _) eqn:Eb; [|done]. bool_props.
  destruct (list_find _ _) as [[i2 m4]|] eqn:Ef; simplify_eq. simpl in Hs3. simplify_eq.
  apply list_find_Some in Ef as (Hi2 & Hid2 & _).
  destruct (wf_user s Hw _ _ H3) as (i4 & m4 & Hi4 & Hid4 & _).
  destruct (wf_ids s Hw _ _ _ _ _ _ Hi4 Hi2) as [Ek _]; [congruence|].
  assert (tn_Namespace t2 = tn_Namespace t) as En2.
  { unfold turnKey, threadKey in Ek. rewrite En, Et in Ek. apply (append_cancel _ _ ("/" +:+ tn_ThreadID t)).
    rewrite <-Ek. do 2 f_equal. congruence. }
  assert (k3 = k) as -> by (eapply (wf_request s Hw); eauto; congruence).
  simplify_eq. f_equal.
  destruct (wf_ids s Hw _ _ _ _ _ _ Hi Hi2) as [_ ->]; [congruence|].
  assert (turnKey t' = turnKey t) as Ekk by (unfold turnKey; by rewrite En, Et).
  rewrite Ekk in Hi2. congruence.
Qed.

(** C21: the outbox is idempotent.  When the turn of a request is stored, queueing
    the same request again, whatever has happened in the store since, changes
    nothing and returns the stored turn with its message; with other content it is
    refused as a conflict. *)
Theorem queue_idempotent s k t env t0 m0 t' m' :
  reachable lawful s → turns s !! k = Some t → prepareTurn env t0 m0 = inr (t', m') →
  tn_Namespace t0 = tn_Namespace t → tn_ThreadID t0 = tn_ThreadID t → tn_RequestID t0 = tn_RequestID t →
  ∃ th i user, threads s !! turnKey t = Some th ∧ transcript s (turnKey t) !! i = Some user
    ∧ msg_ID user = tn_UserMessageID t ∧ msg_Role user = RoleUser
    ∧ QueueTurn env t0 m0 s
      = (s, if bool_decide (msg_Content m' = msg_Content user) then inr (t, user, th)
            else inl ErrRequestConflict).
Proof.
  intros Hw%reachable_wf Ht Hp En Et Er.
  destruct (proj1 (wf_homed s Hw) _ _ Ht) as [th Hth].
  pose proof (prepareTurn_inv _ _ _ _ _ Hp) as (_ & En' & Et' & Er' & _).
  destruct (stored_request_found env s k t t' Hw Ht) as (i & m & Hi & Hid & Hr & Hh); [congruence..|].
  exists th, i, m. split_and!; [done..|].
  unfold QueueTurn, require, mbnd, lift, gets, mret, mfail. rewrite Hp.
  fold (turnKey t'). assert (turnKey t' = turnKey t) as Ek by (unfold turnKey; congruence).
  rewrite <-Ek in Hth. rewrite Hth, Hh.
  destruct (decide (msg_Content m' = msg_Content m)) as [Ec|Ec].
  - rewrite bool_decide_eq_false_2, bool_decide_eq_true_2; done || (by intros []).
  - rewrite bool_decide_eq_true_2, bool_decide_eq_false_2; done || congruence.
Qed.

(** ** Completion and retries *)

(** A finished turn is final: no later operation changes it, and completing it
    again, with any outcome, changes nothing, so a turn adds one answer to its
    transcript at most. *)
Theorem turn_final s s' k t :
  reachable lawful s → rtc (step lawful) s s' → turns s !! k = Some t → Active t = false →
  turns s' !! k = Some t
  ∧ ∀ env t2 m, tn_ID t2 = k → CompleteTurn env t2 m s' = (s', inr tt).
Proof.
  intros Hw%reachable_wf Hs Ht Ha.
  assert (wf s' ∧ turns s' !! k = Some t) as [_ Ht'].
  { apply (later_ind lawful (λ s, wf s ∧ turns s !! k = Some t) s s'); [done..|].
    intros env c s1 [Hw1 Ht1] Hl. split; [by apply perform_wf|].
    destruct (perform_keeps_turn env c s1 k t (wf_keyed _ Hw1) Hl Ht1) as (t1 & -> & _ & ->); done. }
  split; [done|]. intros env t2 m <-.
  unfold CompleteTurn, require, mbnd, lift, gets, mret. by rewrite Ht', Ha.
Qed.

(** C30: a retry supersedes the attempt it names.  It keeps the message, the request
    and the resources of the turn, records the replaced attempt and counts it, two
    at most; afterwards nothing a holder of the old attempt does has any effect. *)
Theorem retry_supersedes s env e r s1 next s2 :
  reachable lawful s → lawful env (CRetryTurn e r) s → RetryTurn env e r s = (s1, inr next) →
  rtc (step lawful) s1 s2 →
  (∃ old, turns s !! tn_ID e = Some old ∧ tn_UserMessageID next = tn_UserMessageID old
     ∧ tn_RequestID next = tn_RequestID old ∧ tn_LockKeys next = tn_LockKeys old
     ∧ tn_ProfileName next = tn_ProfileName old
     ∧ tn_Attempts next = tn_Attempts old ++ [mkTurnAttempt (tn_RunName old) (tn_RunUID old) (tr_Reason r) (e_now env)]
     ∧ tn_RetryCount next = Z.of_nat (length (tn_Attempts next)) ∧ tn_RetryCount next ≤ MaxTurnRetries)
  ∧ ∀ env' m uid r', (CompleteTurn env' e m s2 = (s2, inl ErrRequestConflict)
                      ∨ CompleteTurn env' e m s2 = (s2, inr tt))
      ∧ RecordRun e uid s2 = (s2, inl ErrRequestConflict)
      ∧ RetryTurn env' e r' s2 = (s2, inl ErrRequestConflict).
Proof.
  intros Hw%reachable_wf Hl Hr Hs.
  destruct (RetryTurn_effect env e r s) as [[x E]|(old & next' & Ho & Hp & E)]; [congruence|].
  rewrite E in Hr. simplify_eq.
  assert (wf (put next s)) as Hw1.
  { replace (put next s) with (perform env (CRetryTurn e r) s) by (simpl; by rewrite E). by apply perform_wf. }
  pose proof (prepareTurnRetry_inv _ _ _ _ _ Hp) as (_ & Hsame & _ & _ & En).
  pose proof (sameTurnAttempt_id _ _ Hsame) as (Hid & _ & _ & _ & Hc).
  assert (turns (put next s) !! tn_ID next = Some next) as Hn by (unfold put; simpl; apply lookup_insert_eq).
  assert (tn_ID next = tn_ID e) as Hide by (by rewrite En).
  split.
  - exists old. destruct (wf_retries _ Hw1 _ _ Hn). rewrite En at 1 2 3 4 5. split_and!; done.
  - intros env' m uid r'. apply fenced_ops.
    assert (wf s2 ∧ fenced s2 e) as [_ ?]; [|done].
    apply (later_ind lawful (λ s, wf s ∧ fenced s e) (put next s) s2); [|done|].
    + split; [done|]. exists next. rewrite <-Hide. split; [done|]. rewrite En. simpl. lia.
    + intros env1 c s3 [Hw3 (t & Ht & Hlt)] Hl3. split; [by apply perform_wf|].
      destruct (perform_keeps_turn env1 c s3 _ _ (wf_keyed _ Hw3) Hl3 Ht) as (t' & Ht' & Hle & _).
      exists t'. split; [done|lia].
Qed.

(** ** Transcripts *)

(** A transcript only grows.  Whatever happens later, a message keeps its
    position, its identifier, its role and its number, which is its position
    counted from one; only the body of an assistant's message can be replaced. *)
Theorem transcript_append_only s s' k i m :
  reachable lawful s → rtc (step lawful) s s' → transcript s k !! i = Some m →
  msg_Sequence m = Z.of_nat i + 1
  ∧ ∃ m', transcript s' k !! i = Some m' ∧ sameIdentity m m' ∧ (m' = m ∨ msg_Role m = RoleAssistant).
Proof.
  intros Hw%reachable_wf Hs Hi. split; [by apply (wf_numbered s Hw k)|].
  assert (wf s' ∧ ∃ m', transcript s' k !! i = Some m' ∧ sameIdentity m m'
    ∧ (m' = m ∨ msg_Role m = RoleAssistant)) as [_ ?]; [|done].
  apply (later_ind lawful (λ s, wf s ∧ ∃ m', transcript s k !! i = Some m' ∧ sameIdentity m m'
    ∧ (m' = m ∨ msg_Role m = RoleAssistant)) s s'); [|done|].
  - split; [done|]. exists m. unfold sameIdentity. eauto 10.
  - intros env c s1 [Hw1 (m1 & Hi1 & Hid & Hm)] Hl. split; [by apply perform_wf|].
    destruct (perform_keeps_message env c s1 k i m1 (wf_homed _ Hw1) Hi1) as (m2 & Hi2 & Hid2 & Hm2).
    exists m2. unfold sameIdentity in *. split_and!; [done|..]; [intuition congruence..|].
    destruct Hm2 as [->|Hr]; [done|]. right. intuition congruence.
Qed.
Lemma transcript_insert s k l : messages s !! k = Some l → transcript s k = l.
Proof. unfold transcript. by intros ->. Qed.

Lemma appendLoop_contents env id i n title ms stored title' :
  appendLoop env id i n title ms = inr (stored, title') → map msg_Content stored = map msg_Content ms.
Proof.
  revert i n title stored title'. induction ms as [|m0 ms IH]; simpl; intros i n title stored title'.
  { by intros [= <- <-]. }
  unfold mbind, Res_bind. destruct (NormalizeMessage _ _ _ _) as [?|m1] eqn:E; [done|].
  destruct (appendLoop _ _ _ _ _ _) as [?|[st ti]] eqn:El; [done|]. intros [= <- <-]. simpl.
  apply NormalizeMessage_inv in E as (_ & -> & _). by rewrite (IH _ _ _ _ _ El).
Qed.

(** What is appended is read back: after [AppendMessages], [ListMessages]
    returns the earlier transcript followed by the stored messages, which are the
    given ones with their contents, numbered on from its end, and [GetThread]
    returns the updated thread. *)
Theorem append_read_back env ns id ms s s' stored th :
  AppendMessages env ns id ms s = (s', inr (stored, th)) →
  ∃ before, ListMessages ns id s = (s, inr before)
    ∧ ListMessages ns id s' = (s', inr (before ++ stored)) ∧ GetThread ns id s' = (s', inr th)
    ∧ map msg_Content stored = map msg_Content ms ∧ numberedFrom (length before) stored.
Proof.
  intros E. unfold AppendMessages, require, mbnd, lift, gets, modify, mret, refuseIf in E.
  destruct (normalizeThreadLookup ns id) as [|[ns' id']] eqn:Ek; [done|].
  destruct (bool_decide _); [done|]. destruct (_ <? _); [done|].
  destruct (threads s !! _) as [th0|] eqn:Et; [|done].
  destruct (appendLoop _ _ _ _ _ _) as [|[st ti]] eqn:El; [done|]. simplify_eq. cbn [fst snd] in *.
  exists (transcript s (threadKey ns' id')).
  unfold ListMessages, GetThread, require, mbnd, lift, gets. rewrite Ek. cbn [fst snd]. rewrite Et. simpl.
  rewrite lookup_insert_eq. split_and!; [done| |done|by eapply appendLoop_contents|].
  { do 2 f_equal. apply transcript_insert. simpl. apply lookup_insert_eq. }
  intros i m Hi. destruct (appendLoop_inv _ _ _ _ _ _ _ _ El _ _ Hi) as [-> _]. lia.
Qed.
(** ** The standing conversation of a profile *)

(** What [EnsureStandingThread] returns, by case: the thread of the pointer, an
    adopted thread, or the new one. *)
Lemma EnsureStandingThread_ok env seed n s s1 th b :
  NormalizeThread env seed (e_now env) = inr n → EnsureStandingThread env seed s = (s1, inr (th, b)) →
  let k := threadKey (th_Namespace n) (th_ProfileName n) in
  let found := adopted (foldl (chooseStanding n) None (ranged env 0 (threads s))) in
  (∃ id, id ≠ "" ∧ standing s !! k = Some id ∧ b = false ∧ s1 = s
     ∧ (threads s !! threadKey (th_Namespace n) id = Some th ∨ th_ID th = ""))
  ∨ default "" (standing s !! k) = ""
    ∧ (b = false ∧ found = Some th ∧ s1 = s <| standing := <[k := th_ID th]> (standing s) |>
       ∨ b = true ∧ found = None ∧ th = n
         ∧ let tk := threadKey (th_Namespace n) (th_ID n) in
           s1 = s <| threads := <[tk := n]> (threads s) |> <| messages := <[tk := []]> (messages s) |>
                  <| standing := <[k := th_ID n]> (standing s) |>).
Proof.
  intros Hn. unfold EnsureStandingThread, require, mbnd, lift, gets, modify, mret, mfail, refuseIf.
  rewrite Hn. destruct (negb _); [done|]. cbv zeta.
  set (k := threadKey (th_Namespace n) (th_ProfileName n)).
  intros E. destruct (decide (default "" (standing s !! k) = "")) as [Hd|Hd].
  - rewrite bool_decide_eq_false_2 in E by (intros ?; done). right. split; [done|].
    destruct (adopted _); [left; by simplify_eq|]. right.
    destruct (bool_decide _); [done|]. by simplify_eq.
  - rewrite bool_decide_eq_true_2 in E by done. left.
    destruct (standing s !! k) as [id|]; [|done]. exists id. simpl in *. simplify_eq.
    split_and!; try done. destruct (threads _ !! _); [by left|by right].
Qed.

Lemma adopted_some o c : adopted o = Some c → o = Some c ∧ th_ID c ≠ "".
Proof. destruct o; simpl; [|done]. case_bool_decide; [done|]. by intros [= ->]. Qed.

Lemma ensured_pointsTo env seed n s s1 th b :
  keyedThreads s → NormalizeThread env seed (e_now env) = inr n →
  EnsureStandingThread env seed s = (s1, inr (th, b)) → th_ID th ≠ "" →
  pointsTo s1 (th_Namespace n) (th_ProfileName n) th.
Proof.
  intros Hk Hn E Hid. assert (sameThread th th) as Hrefl by done.
  destruct (EnsureStandingThread_ok _ _ _ _ _ _ _ Hn E)
    as [(id & ? & Hp & _ & -> & [Ht|?])|(_ & [(_ & Hf & ->)|(_ & _ & -> & ->)])]; [|done|..].
  - exists id, th. done.
  - apply adopted_some in Hf as [Hf _]. apply foldl_chooseStanding_in in Hf as [[k Hin]%elem_of_ranged Hc].
    unfold candidateFor in Hc. bool_props. exists (th_ID th), th. simpl. rewrite lookup_insert_eq.
    split_and!; try done. rewrite (Hk _ _ Hin) in Hin. congruence.
  - exists (th_ID n), n. simpl. rewrite !lookup_insert_eq. done.
Qed.

(** A profile has one standing conversation.  Once it was returned for a
    namespace and profile, every later request for them returns that thread and
    changes nothing, whatever has happened in between. *)
Theorem standing_stable D s env seed n s1 th b s2 env' seed' n' :
  reachable D s → NormalizeThread env seed (e_now env) = inr n →
  EnsureStandingThread env seed s = (s1, inr (th, b)) → th_ID th ≠ "" →
  rtc (step D) s1 s2 →
  NormalizeThread env' seed' (e_now env') = inr n' → standingEligible n' = true →
  th_Namespace n' = th_Namespace n → th_ProfileName n' = th_ProfileName n →
  ∃ th', sameThread th th' ∧ EnsureStandingThread env' seed' s2 = (s2, inr (th', false)).
Proof.
  intros Hk%reachable_keyedThreads Hn E Hid Hs Hn' Hel Hns Hpr.
  pose proof (ensured_pointsTo _ _ _ _ _ _ _ Hk Hn E Hid) as Hp.
  apply (later_ind D (λ s, pointsTo s _ _ _) s1 s2) in Hp; [|done|intros; by apply perform_pointsTo].
  destruct Hp as (id & th' & Hid' & Hp & Ht & Hsame). exists th'. split; [done|].
  unfold EnsureStandingThread, require, mbnd, lift, gets, mret, refuseIf.
  rewrite Hn', Hel. simpl. rewrite Hns, Hpr, Hp. simpl. rewrite bool_decide_eq_true_2 by done.
  by rewrite Ht.
Qed.

Lemma reachable_named s : reachable lawful s → ∀ k th, threads s !! k = Some th → th_ID th ≠ "".
Proof.
  apply (reachable_ind lawful (λ s, ∀ k th, threads s !! k = Some th → th_ID th ≠ "")); [done|].
  intros env c s' Hn Hl k th Hth. destruct (perform_thread_origin env c s' k th Hth)
    as [(old & Ho & -> & _)|(? & He & _)]; [eauto|].
  eapply NormalizeThread_id; [done|]. by apply (lf_uuid_set _ _ _ Hl).
Qed.

(** The first request for a standing conversation adopts the most recently
    updated eligible thread of the namespace and profile, with the least
    identifier on a tie, in whatever order the threads are visited; a new thread
    is created exactly when there is none. *)
Theorem standing_choice s env seed n s1 th b :
  reachable lawful s → NormalizeThread env seed (e_now env) = inr n →
  standing s !! threadKey (th_Namespace n) (th_ProfileName n) = None →
  EnsureStandingThread env seed s = (s1, inr (th, b)) →
  if b then th = n ∧ ∀ k t, threads s !! k = Some t → candidateFor n t = false
  else (∃ k, threads s !! k = Some th) ∧ candidateFor n th = true
       ∧ ∀ k t, threads s !! k = Some t → candidateFor n t = true →
           th_UpdatedAt t < th_UpdatedAt th
           ∨ th_UpdatedAt th = th_UpdatedAt t ∧ strLt (th_ID t) (th_ID th) = false.
Proof.
  intros Hr Hn Hp E. pose proof (reachable_named s Hr) as Hid.
  assert (Forall (λ t, th_ID t ≠ "") (ranged env 0 (threads s))) as Hall.
  { apply Forall_forall. intros t [k Hk]%elem_of_ranged. eauto. }
  pose proof (foldl_chooseStanding n _ Hall) as Hf.
  destruct (EnsureStandingThread_ok _ _ _ _ _ _ _ Hn E)
    as [(id & ? & Hp' & _)|(_ & [(-> & Ha & _)|(-> & Ha & -> & _)])]; [congruence|..].
  - apply adopted_some in Ha as [Ha _]. rewrite Ha in Hf. destruct Hf as (Hin%elem_of_ranged & Hc & Hb).
    split_and!; [done..|]. intros k t Hk Hct. apply Hb; [|done]. apply elem_of_ranged. eauto.
  - split; [done|]. intros k t Hk. destruct (foldl _ _ _) as [c|].
    + destruct Hf as ([k' Hk']%elem_of_ranged & _). simpl in Ha. case_bool_decide; [|done].
      by apply Hid in Hk'.
    + eapply (Forall_forall _ _) in Hf; [done|]. apply elem_of_ranged. eauto.
Qed.

(** ** Spellings of an identifier *)

(** A thread that is read under another spelling of its identifier cannot be
    written under it: [GetThread] looks up the canonical form of the UUID, while
    [QueueTurn] and [ListTurns] look up the text they are given and report that
    the thread does not exist. *)
Theorem queue_ignores_canonical_id s env ns id th t m t' m' :
  GetThread ns id s = (s, inr th) → threads s !! threadKey ns id = None →
  tn_Namespace t = ns → tn_ThreadID t = id → prepareTurn env t m = inr (t', m') →
  QueueTurn env t m s = (s, inl (ErrNotFound "")) ∧ ListTurns env ns id s = (s, inl (ErrNotFound "")).
Proof.
  intros _ Hn En Et Hp. pose proof (prepareTurn_inv _ _ _ _ _ Hp) as (_ & En' & Et' & _).
  unfold QueueTurn, ListTurns, require, mbnd, lift, gets. rewrite Hp, Hn, En', Et', En, Et, Hn. done.
Qed.
End properties.

(** ** Concrete executions

    A codec, an environment and a sequence of calls on which the theorems are
    applied. *)

Definition demoCodec : Codec := {|
  uuidParse := λ s, if bool_decide (s = "") then None else Some (ToLower s);
  JValue := string;
  jsonString := id;
  decodeObject := λ s, if HasPrefix s "{" then Some ∅ else None;
  encodeObject := λ _, "{}";
  decodeHarness := λ _, "" |}.
#[local] Existing Instance demoCodec.

(** Identifiers are numbered behind a base of their own for each call. *)
Definition demoEnv (base : string) (now : Time) : Env := {|
  e_now := now;
  e_uuid := λ n, base +:+ "-" +:+ pretty n;
  e_order := λ _ A m, (map_to_list m).*2;
  e_order_perm := λ _ A m, Permutation_refl _ |}.

Lemma demo_uuid_inj base now i j :
  e_uuid (demoEnv base now) i = e_uuid (demoEnv base now) j → i = j.
Proof.
  simpl. intros E. apply (inj (String.append base)), (inj (String.append "-")) in E.
  by apply (inj pretty) in E.
Qed.

Definition fresh (base : string) (s : MemoryStore) : bool :=
  bool_decide (map_Forall (λ _ l, Forall (λ m, HasPrefix (msg_ID m) (base +:+ "-") = false) l) (messages s)).

Definition lawfulB (base : string) (c : Call) (s : MemoryStore) : bool :=
  bool_decide (base ≠ "") && fresh base s
  && match c with
     | CAppendMessages _ _ ms => forallb (λ m, blank (msg_ID m)) ms
     | CQueueTurn t m =>
         blank (msg_ID m) && (tn_RetryCount t =? 0) && bool_decide (length (tn_Attempts t) = 0%nat)
         && match turns s !! assignedID (demoEnv base 0) t with None => true | Some _ => false end
     | CCompleteTurn _ m => blank (msg_ID m)
     | CRetryTurn e _ =>
         match turns s !! tn_ID e with Some old => bool_decide (tn_Status old ≠ "waiting") | None => true end
     | _ => true
     end.

Lemma prefix_base base x : HasPrefix (base +:+ "-" +:+ x) (base +:+ "-") = true.
Proof.
  unfold HasPrefix. induction base as [|c base IH]; simpl; [by destruct x|]. by destruct (ascii_dec c c).
Qed.

Lemma lawfulB_ok base now c s : lawfulB base c s = true → lawful (demoEnv base now) c s.
Proof.
  unfold lawfulB. intros Hb. apply andb_true_iff in Hb as [[Hne Hf]%andb_true_iff Hc]. bool_props.
  split.
  - intros i E. simpl in E. destruct base; [done|]. done.
  - apply demo_uuid_inj.
  - intros j k i m Hi E. unfold fresh in Hf. bool_props. unfold transcript in Hi.
    destruct (messages s !! k) as [l|] eqn:Ek; simpl in Hi; [|by rewrite lookup_nil in Hi].
    apply Hf in Ek. eapply Forall_lookup in Ek; [|done]. simpl in Ek, E.
    rewrite E, prefix_base in Ek. done.
  - destruct c; simpl in *; try done; unfold unnamed; unfold blank in Hc; bool_props; try done.
    apply Forall_forall. intros m Hm. rewrite forallb_forall in Hc.
    specialize (Hc m ltac:(by apply list_elem_of_In)). by bool_props.
  - intros t m ->. bool_props. destruct (turns s !! _) eqn:E; [done|].
    split_and!; [done..|]. by apply length_zero_iff_nil.
  - intros e r old -> Ho. rewrite Ho in Hc. by bool_props.
Qed.

Fixpoint lawfulRun (l : list (string * Call)) (s : MemoryStore) : bool :=
  match l with
  | [] => true
  | (b, c) :: l => lawfulB b c s && lawfulRun l (perform (demoEnv b 0) c s)
  end.
Definition performAll (l : list (string * Call)) (s : MemoryStore) : MemoryStore :=
  foldl (λ s p, perform (demoEnv p.1 0) p.2 s) s l.

Lemma lawfulRun_steps l s : lawfulRun l s = true → rtc (step lawful) s (performAll l s).
Proof.
  revert s. induction l as [|[b c] l IH]; intros s; simpl; [constructor|].
  intros [Hc Hl]%andb_true_iff. econstructor; [|by apply IH].
  exists (demoEnv b 0), c. split; [|done]. by apply lawfulB_ok.
Qed.

Definition demoThread : Thread := mkThread "" "ns" "coder" "" "" zeroTime zeroTime "ann" "".
Definition demoMessage (content : string) : Message := mkMessage "" "" RoleAssistant content zeroTime 0 "".
Definition demoTurn (id thread request run : string) (deferred : bool) (locks : list string) : Turn :=
  mkTurn None locks deferred [] "coder" "" id thread "ns" request run "" "" "" zeroTime "{}" 0 None "" [].
Definition demoRetry : TurnRetry := mkTurnRetry "run-b" "{}" "never started" 1.

(** A thread, a turn in it. *)
Definition demoCalls : list (string * Call) :=
  [("a", CCreateThread demoThread);
   ("b", CQueueTurn (demoTurn "t1" "a-0" "r1" "run-a" false ["volume:w"]) (demoMessage "hello"))].
Definition demoStore : MemoryStore := performAll demoCalls NewMemoryStore.
Definition storedTurn (s : MemoryStore) (k : string) : Turn := default (demoTurn "" "" "" "" false []) (turns s !! k).

Lemma demo_reachable : reachable lawful demoStore.
Proof. apply lawfulRun_steps. vm_compute. reflexivity. Qed.

Lemma reachable_mono (D D' : Env → Call → MemoryStore → Prop) s :
  (∀ env c s, D env c s → D' env c s) → reachable D s → reachable D' s.
Proof.
  intros HD. unfold reachable. apply rtc_subrel. intros s1 s2 (env & c & Hc & ->). exists env, c. auto.
Qed.

(** A second thread with a waiting turn. *)
Definition demoStore2 : MemoryStore := performAll
  [("c", CCreateThread demoThread);
   ("d", CQueueTurn (demoTurn "t2" "c-0" "r2" "run-d" true []) (demoMessage "later"))] demoStore.
(** The first turn answered. *)
Definition demoDone : Turn := (storedTurn demoStore "t1") <| tn_Status := "succeeded" |>.
Definition demoStore3 : MemoryStore := performAll
  [("c", CCompleteTurn demoDone (demoMessage "hi"))] demoStore.

Lemma chat_turns_exclusive_witness :
  ¬ (sharedTurnResource (storedTurn demoStore2 "t1") (storedTurn demoStore2 "t2") = true
     ∧ holding (storedTurn demoStore2 "t1") = true ∧ holding (storedTurn demoStore2 "t2") = true).
Proof.
  apply (chat_turns_exclusive demoStore2 "t1" "t2").
  - apply (reachable_mono lawful); [by intros ??? []|]. unfold reachable. etransitivity; [apply demo_reachable|].
    apply lawfulRun_steps. vm_compute. reflexivity.
  - vm_compute. reflexivity.
  - vm_compute. reflexivity.
  - discriminate.
  - vm_compute. reflexivity.
Defined.

Lemma queue_idempotent_witness :
  let again := QueueTurn (demoEnv "z" 9) (demoTurn "t9" "a-0" "r1" "other" false []) (demoMessage "hello") in
  ∃ m th user, again demoStore
    = (demoStore, if bool_decide (msg_Content m = msg_Content user)
                  then inr (storedTurn demoStore "t1", user, th) else inl ErrRequestConflict).
Proof.
  intros again.
  destruct (prepareTurn (demoEnv "z" 9) (demoTurn "t9" "a-0" "r1" "other" false []) (demoMessage "hello"))
    as [e|[t' m']] eqn:Ep; [vm_compute in Ep; discriminate Ep|].
  destruct (queue_idempotent demoStore "t1" (storedTurn demoStore "t1") (demoEnv "z" 9)
    (demoTurn "t9" "a-0" "r1" "other" false []) (demoMessage "hello") t' m')
    as (th & i & user & _ & _ & _ & _ & Hq).
  - apply demo_reachable.
  - vm_compute. reflexivity.
  - exact Ep.
  - vm_compute. reflexivity.
  - vm_compute. reflexivity.
  - vm_compute. reflexivity.
  - exists m', th, user. exact Hq.
Defined.

Lemma turn_final_witness :
  turns demoStore3 !! "t1" = Some demoDone
  ∧ ∀ env t2 m, tn_ID t2 = "t1" → CompleteTurn env t2 m demoStore3 = (demoStore3, inr tt).
Proof.
  apply (turn_final demoStore3 demoStore3 "t1" demoDone).
  - unfold reachable. etransitivity; [apply demo_reachable|]. apply lawfulRun_steps. vm_compute. reflexivity.
  - constructor.
  - vm_compute. reflexivity.
  - vm_compute. reflexivity.
Defined.

Lemma retry_supersedes_witness :
  let e := storedTurn demoStore "t1" in
  let s1 := perform (demoEnv "c" 5) (CRetryTurn e demoRetry) demoStore in
  RecordRun e "uid" s1 = (s1, inl ErrRequestConflict).
Proof.
  intros e s1.
  apply (retry_supersedes demoStore (demoEnv "c" 5) e demoRetry s1 (storedTurn s1 "t1") s1).
  - apply demo_reachable.
  - apply lawfulB_ok. vm_compute. reflexivity.
  - vm_compute. reflexivity.
  - constructor.
  - exact (demoEnv "c" 5).
  - exact (demoMessage "").
  - exact demoRetry.
Defined.

Lemma transcript_append_only_witness :
  ∃ m m', transcript demoStore "ns/a-0" !! 0%nat = Some m ∧ msg_Sequence m = 1
    ∧ transcript demoStore3 "ns/a-0" !! 0%nat = Some m' ∧ sameIdentity m m'.
Proof.
  destruct (transcript demoStore "ns/a-0" !! 0%nat) as [m|] eqn:E; [|vm_compute in E; discriminate E].
  destruct (transcript_append_only demoStore demoStore3 "ns/a-0" 0 m) as (Hq & m' & Hm' & Hs & _).
  - apply demo_reachable.
  - apply lawfulRun_steps. vm_compute. reflexivity.
  - exact E.
  - exists m, m'. split_and!; assumption || reflexivity.
Defined.

Definition demoAdopted : MemoryStore := perform (demoEnv "x" 7) (CEnsureStandingThread demoThread) demoStore.
Definition demoNormal : Thread :=
  mkThread "x-0" "ns" "coder" "persona" "New chat" 7 7 "ann" "{}".

Lemma standing_stable_witness :
  ∃ th', th_ID th' = "a-0"
    ∧ EnsureStandingThread (demoEnv "y" 8) demoThread demoAdopted = (demoAdopted, inr (th', false)).
Proof.
  destruct (threads demoStore !! "ns/a-0") as [th|] eqn:Eth; [|vm_compute in Eth; discriminate Eth].
  destruct (standing_stable lawful demoStore (demoEnv "x" 7) demoThread demoNormal demoAdopted th false
    demoAdopted (demoEnv "y" 8) demoThread (demoNormal <| th_ID := "y-0" |> <| th_CreatedAt := 8 |> <| th_UpdatedAt := 8 |>))
    as (th' & (Hid & _) & Hq).
  - apply demo_reachable.
  - vm_compute. reflexivity.
  - revert th Eth. vm_compute. intros th [= <-]. reflexivity.
  - revert th Eth. vm_compute. intros th [= <-]. discriminate.
  - constructor.
  - vm_compute. reflexivity.
  - vm_compute. reflexivity.
  - reflexivity.
  - reflexivity.
  - exists th'. split; [|exact Hq]. rewrite Hid. revert th Eth Hid. vm_compute. intros th [= <-]. reflexivity.
Defined.

Lemma standing_choice_witness :
  ∃ th, (∃ k, threads demoStore !! k = Some th) ∧ candidateFor demoNormal th = true.
Proof.
  destruct (threads demoStore !! "ns/a-0") as [th|] eqn:Eth; [|vm_compute in Eth; discriminate Eth].
  exists th.
  destruct (standing_choice demoStore (demoEnv "x" 7) demoThread demoNormal demoAdopted th false) as (Hk & Hc & _).
  - apply demo_reachable.
  - vm_compute. reflexivity.
  - vm_compute. reflexivity.
  - revert th Eth. vm_compute. intros th [= <-]. reflexivity.
  - split; assumption.
Defined.

Lemma queue_ignores_canonical_id_witness :
  (∃ th, GetThread "ns" "A-0" demoStore = (demoStore, inr th))
  ∧ QueueTurn (demoEnv "z" 9) (demoTurn "t9" "A-0" "r9" "run-z" false []) (demoMessage "again") demoStore
    = (demoStore, inl (ErrNotFound "")).
Proof.
  split; [eexists; vm_compute; reflexivity|].
  eapply (queue_ignores_canonical_id demoStore (demoEnv "z" 9) "ns" "A-0").
  - vm_compute. reflexivity.
  - vm_compute. reflexivity.
  - reflexivity.
  - reflexivity.
  - vm_compute. reflexivity.
Defined.

(** Retrying a turn that still waits gives it its resources without looking
    whether another turn holds them: one call breaks the exclusion. *)
Theorem retry_of_waiting_turn_breaks_exclusion :
  let s := perform (demoEnv "e" 5) (CRetryTurn (storedTurn demoStore2 "t2") demoRetry) demoStore2 in
  reachable retryHeld demoStore2
  ∧ ∃ a b, turns s !! "t1" = Some a ∧ turns s !! "t2" = Some b
      ∧ tn_Namespace a = tn_Namespace b ∧ sharedTurnResource a b = true
      ∧ holding a = true ∧ holding b = true.
Proof.
  intros s. split.
  - apply (reachable_mono lawful); [by intros ??? []|]. unfold reachable. etransitivity; [apply demo_reachable|].
    apply lawfulRun_steps. vm_compute. reflexivity.
  - exists (storedTurn s "t1"), (storedTurn s "t2"). vm_compute. split_and!; reflexivity.
Qed.

Lemma append_read_back_witness :
  ∃ s' stored th before,
    AppendMessages (demoEnv "w" 9) "ns" "a-0" [demoMessage "more"] demoStore = (s', inr (stored, th))
    ∧ ListMessages "ns" "a-0" s' = (s', inr (before ++ stored)).
Proof.
  destruct (AppendMessages (demoEnv "w" 9) "ns" "a-0" [demoMessage "more"] demoStore) as [s' [e|[stored th]]] eqn:E;
    [vm_compute in E; discriminate E|].
  destruct (append_read_back _ _ _ _ _ _ _ _ E) as (before & _ & Hl & _).
  exists s', stored, th, before. split; [reflexivity|exact Hl].
Defined.
